(* ===== verification/_CoqProject ===== *)
-Q . S2P
Prelude.v
Config.v
CList.v
ListOps.v
Bitmap.v
Asid.v
Page.v
PageTable.v
PageTableSpec.v
KvSpace.v
Slab.v
SlabSpec.v
Kmem.v
Heap.v
Spinlock.v
Uaccess.v
Kernel.v
Kobject.v
Handle.v
Proc.v
Sched.v
Objects.v
Syscall.v
Vector.v
Ramdisk.v
Strtol.v
Halloc.v
Print.v
Log.v
Readline.v
Tracebuf.v
Exec.v
ExecSpec.v
Roots.v
Machine.v
Gic.v
Irq.v
Timer.v
Uart.v
Flash.v
Pmu.v
Breakpoint.v
Monitor.v
Dbginfo.v
Functrace.v
Backtrace.v
KernelIrq.v
Boot.v
BootSpec.v
BootDev.v
BootBoard.v
BootMain.v
