(* ===== verification/Prelude.v ===== *)
(** * Verification of spring-os

    spring-os is a micro-kernel for AArch64 (ukern/), a user-space root
    service (service/roots/), the tool that packs the ram disk
    (tools/mkrmd/) and a C library.  This development models the kernel's own
    logic and the parts of the service and the tool it depends on, as
    executable definitions translated from the C sources, and proves the
    properties each part is relied on for.

    ** Parts and files

    The boot code hands the RAM behind the kernel image to the page allocator
    (src/page.c), which keeps a bit map (inc/bitmap.h) per section.  On top of
    it are the slab allocator (src/slab.c), [kalloc] and [kfree]
    (src/kmem.c), and the page tables (src/pagetable.c), which the kernel
    address space (src/kvspace.c) and every process use.  Kernel objects
    (src/uspace/kobject.c) are named by handles (src/uspace/handle.c) of a
    process (src/proc.c); the scheduler (src/sched2.c) keeps processes on
    intrusive lists (inc/list.h).  System calls (src/syscall.c) reach the
    objects and move data with src/uspace/uaccess.c.  A ram disk image built
    by mkrmd is copied from flash (src/cfi.c) and read by the kernel and by
    the root service.  The kernel's [exec] (src/exec.c) loads the root service
    from it; the service takes its heap (service/roots/halloc.c) and the ram
    disk from the stack [exec] built, and creates the shell's process and
    address space (service/roots/vmm.c) with system calls.  Exceptions
    enter through src/vector3.c; interrupts are read from the controller
    (src/gic_v3.c) and dispatched to registered handlers (src/irq.c), among
    them the timers.  The kernel monitor (src/kmon) reads commands with a line
    editor, sets breakpoints, steps, shows and changes memory, and keeps a
    trace of function calls; it prints with src/print.c over the serial line
    (src/uart_pl011.c), parses numbers with src/strtol.c and names addresses
    with the debug information of the image (src/kmon/dbginfo.c).

    - Prelude: outcomes, machine integers, the state monad, array access, and
      lemmas and tactics shared by all files.
    - Config: constants and address arithmetic (config.h, kernel.h, utils.h,
      page.h, errno.h).
    - CList, ListOps: inc/list.h on a heap of list nodes, refined to lists.
    - Bitmap: inc/bitmap.h, the word-wise searches and the first-fit search.
    - Asid: src/asid.c, on a bit map.
    - Page: src/page.c; the class [PageAlloc] is what its clients rely on.
    - PageTable, PageTableSpec: src/pagetable.c and its descriptors; the tree
      invariant and the correctness of mapping and walking, against
      [PageAlloc] only.
    - KvSpace: src/kvspace.c.
    - Slab, SlabSpec: src/slab.c; the invariant of pools, slabs and caches,
      again against [PageAlloc].
    - Kmem, Heap: src/kmem.c, and the class [KHeap] of what code that
      allocates small objects relies on, which [kalloc] and [kfree] are proved
      to provide.
    - Spinlock: inc/atomic.h and src/spinlock.c, sequentially and as a step
      relation over all CPUs.
    - Uaccess: src/uspace/uaccess.c.
    - Kernel: the structures and the global state of the kernel, with the
      interrupt mask of inc/cpu.h that locks and [cur_proc] change.
    - Kobject, Handle, Proc, Sched, Objects, Syscall: src/uspace/kobject.c,
      src/uspace/handle.c, src/proc.c and src/cpu.c, src/sched2.c, the object
      types of src/uspace and src/console.c, and src/syscall.c.  The class
      [KobjOps] stands for the operations an object type registers.
    - Vector: src/vector3.c, from the trap of a system call to its return.
    - Ramdisk: tools/mkrmd/mkrmd.c, src/cfi.c, src/ramdisk.c and
      service/roots/ramdisk.c.
    - Strtol, Print, Log: src/strtol.c, src/print.c and src/log.c.
    - Halloc: service/roots/halloc.c.
    - Readline, Tracebuf: src/kmon/readline.c, buffer.c and tracebuf.c.
    - Exec, ExecSpec: src/exec.c, inc/elf.h, inc/rootserv.h and
      [load_root_service] of src/init.c, over the kernel state; the proof
      composes the ram disk, the page allocator, the page tables, user memory
      and the scheduler.
    - Roots: service/roots/vmm.c, proc.c, exec.c and roots.c, with the system
      calls as a parameter.
    - Machine: device and system registers as a state machine, the class
      [Machine]; every driver is parametric in it and states what it relies
      on as a class of its own: [GicDevice] and [CpuInterface],
      [VirtualTimer], [UartDevice], [FlashDevice], [DebugRegs], [PmuRegs].
      Each class has a concrete device as an instance in the witnesses.
    - Gic, Irq: src/gic_v3.c with inc/cpumask.h and src/smp.c; src/irq.c, over
      a type of handlers.
    - Timer: src/math.c, inc/time.h, src/arch_timer.c, src/sched_timer.c and
      src/kmon/ftrace_timer.c.
    - Uart: src/uart_pl011.c and src/console.c, shown to provide the view of
      the console (bytes sent, bytes to come) the other files use.
    - Flash: src/cfi.c with its commands to the chip; Ramdisk uses the reads
      only.
    - Pmu: src/kmon/pmuv3.c and pmu_event.c.
    - Breakpoint: src/kmon/breakpoint.c, watchpoint.c and singlestep.c.
    - Monitor: src/kmon/kmon.c and cmd.c, over Readline, Print and Breakpoint.
    - Dbginfo: src/kmon/dbginfo.c over the class [Dwarf] of what libdwarf
      answers.
    - Functrace: src/kmon/functrace.c, over the heap, the clock, the debug
      information, the frames in memory, Print and Tracebuf.
    - Backtrace: src/kmon/backtrace.c and [dbginfo_get_caller], over the rows
      of the call frame information libdwarf finds.
    - KernelIrq: the interrupt of kernel mode in src/vector3.c, over Irq.
    - Boot: src/init.c, src/mm.c and [init_ramdisk] of src/ramdisk.c; the
      state of the start-up holds the states of all the components it sets up.
      BootSpec covers the set-up of memory and kernel objects, BootDev that of
      the devices (the class [Board] says which registers the devices of a
      machine share), BootBoard is a machine that has all of them, and
      BootMain composes the stages.

    ** How the code is modelled

    C integers are [Z]; every operation that can leave its width is wrapped
    with [u8] to [u64] or [s16] to [s64] as the C conversion does.  A pointer
    is the address; a structure is a record kept in a map from addresses, an
    array a list.  A function is a Rocq function of the outcome monad
    [outcome] or of the state monad [M] over it: [Ret] is a return, [Halt] a
    failed assertion or panic, [Fault] an access outside an object (or a jump
    through a NULL pointer), [Diverge] the end of the fuel.  Memory that the code reads before it is written
    (what [kalloc] returns, locals that a callee leaves unassigned) is an
    argument or a field of [KernEnv].

    Loops whose recursion is not structural carry fuel.  The fuel is the
    bound the data gives: the bits of a word or a bit map, the entries of a
    table, the pages of a copy, the bytes of a string or a ring.  The
    theorems show a [Ret] result on every input they cover, so the fuel is
    enough there; where the C loop really does not end (a handle page whose
    count of free slots is wrong, waiting for input), the model's [Diverge]
    is that behaviour.  Loops that poll a device take [patience], and the
    dispatch loop of the interrupts [rounds]: the classes bound how often a
    device answers "not yet", and the theorems ask for more than that bound,
    or for more rounds than interrupts are pending.  The walks over debug
    information take a fuel that exceeds the entries of the image.

    ** What the theorems show

    - Memory: bit maps implement sets of indices, and the searches find the
      first fit and end; allocated blocks are disjoint, inside RAM and fresh; slab objects are disjoint and
      aligned, a freed object is reused, and an allocation fails exactly when
      neither an object nor a page is left; mapping makes every byte of a range
      translate and keeps other translations; user copies read back what they
      wrote; the service's heap hands out disjoint blocks.
    - Kernel objects and processes: handles are allocated, looked up and freed
      consistently; reference counts are the number of holders; a created
      process is ready with its initial context; ready queues refine abstract
      queues and are served round robin; system calls check their number,
      the caller and the rights.
    - Programs: [exec] puts the segments of an ELF file, its arguments and the
      auxiliary vector where the new process finds them, maps its heap and the
      ram disk and makes it ready, but for one byte written behind the stack
      (the theorems say which, and when it does no harm); the root service reads that vector, asks
      the kernel for the shell's process and memory, and serves mappings from
      lists of areas.
    - Start-up: [kernel_init] composes all of these.  On a machine whose
      devices keep their promises and whose flash holds a ram disk with a root
      service, it reaches its final loop with the service loaded and ready, the
      hooked interrupts enabled and the first alarm set
      ([kernel_init_boots]); without a usable disk it stops
      ([kernel_init_no_disk]).
    - Concurrency: at most one CPU is in a critical section of a spin lock,
      in every interleaving of single accesses.
    - Data: what mkrmd packs is what the readers open and read; numbers that
      are printed parse back; formatted text is the text of its directives
      cut at the buffer; the line editor implements an abstract editor with
      history; the trace buffer keeps the most recent items.
    - Devices: after its set-up the interrupt controller passes on the lines
      that are enabled; the dispatch loop serves the pending interrupts, those
      that come up meanwhile too, with their handlers and ends each; an alarm
      fires at the tick asked for, of which the 32-bit register keeps the low
      half; the serial line sends what the
      console is given; what is written to erased flash is read back; address
      space identifiers in use are distinct.
    - Monitor: a line is split into its words in place and the command found
      by its name; breakpoints refine a table of two that the debug registers
      follow; reading the debug information gives a table that names every
      address and finds every name; a traced call is recorded with its name
      and arguments, and with its duration where it ends; unwinding visits
      the callers in order, and does not end at a frame that is its own
      caller.  Code that needs the heap stops the machine only when the heap
      cannot serve a stated number of requests ([short] in Heap).
    - Where the code does not do what it means to, the theorem states what it
      does (for instance [page_free_leaks_tail], [close_keeps_reference],
      [handle_beyond_table_faults], [linebuf_insert_overruns],
      [request_vma_areas]).

    ** Not modelled

    Assembly (the vectors, the context switch, the early page tables) and the
    system registers it sets.  Debug dumps and listings (but that of the ram disk), log messages except
    where they read memory, and unit tests: they change no state that other
    code reads.  [init_kmon], which nothing calls, as a whole (the set-ups it
    calls are modelled); [atomic_cmpsub], which is inline assembly that nothing
    calls; the command line and the directory mode of mkrmd.  The demos of
    libdwarf, and the vendored code: musl, qsort, strstr, Unity and the headers
    of libdwarf.  libdwarf and the devices are classes: their code and circuits
    are not part of the repository.  No interrupt is taken inside a modelled
    function.  The interrupt mask is part of the kernel state, and the theorems
    say where it ends up: [acquire] masks interrupts, but [release] and
    [cur_proc] unmask them unconditionally, so the system-call path runs
    unmasked from its first [cur_proc] on and could be interrupted there;
    KernelIrq covers an interrupt between two modelled functions.

    Memory is typed: kernel memory has bytes where the code treats it as bytes
    (user pages, the ram disk, page tables), so what the stray byte of [exec]
    would do to an object that is kept as a record is not represented.  The
    device classes hold what the drivers rely on: the serial line keeps one
    byte and may lose another that is written while it is busy, and has a
    speed that changes only with the line control register; the interrupt
    controller presents a list of pending interrupts, to which handlers may add
    and of which they may remove; a breakpoint stops the CPU only while the
    debug registers are in the mode the monitor sets. *)
From stdpp Require Export base gmap list list_numbers strings.
From Stdlib Require Export ZArith Lia.
#[global] Open Scope Z_scope.

(** ** Outcomes of kernel code *)

(** What running a piece of kernel C can end in.  [Ret] is a normal return;
    [Halt] is [panic()]/[assert]/[TODO()]/[exit()], all of which stop the
    machine through [qemu_exit]; [Fault] is an access outside the object the
    pointer designates (or a NULL dereference); [Diverge] is a loop that ran
    out of its fuel. *)
Inductive outcome (A : Type) : Type :=
| Ret (a : A)
| Halt
| Fault
| Diverge.
Arguments Ret {A} a.
Arguments Halt {A}.
Arguments Fault {A}.
Arguments Diverge {A}.

#[global] Instance outcome_ret : MRet outcome := fun A a => Ret a.
#[global] Instance outcome_bind : MBind outcome := fun A B f m =>
  match m with
  | Ret a => f a
  | Halt => Halt
  | Fault => Fault
  | Diverge => Diverge
  end.

(** [assert(c)]. *)
Definition assert_ (c : bool) : outcome () := if c then Ret tt else Halt.

(** State-passing code: the state is the component's globals. *)
Definition M (S A : Type) : Type := S -> outcome (A * S).

#[global] Instance M_ret {S} : MRet (M S) := fun A a s => Ret (a, s).
#[global] Instance M_bind {S} : MBind (M S) := fun A B f m s =>
  match m s with
  | Ret (a, s') => f a s'
  | Halt => Halt
  | Fault => Fault
  | Diverge => Diverge
  end.

Definition get {S} : M S S := fun s => Ret (s, s).
Definition put {S} (s : S) : M S () := fun _ => Ret (tt, s).
Definition modify {S} (f : S -> S) : M S () := fun s => Ret (tt, f s).
Definition lift {S A} (o : outcome A) : M S A := fun s =>
  match o with
  | Ret a => Ret (a, s)
  | Halt => Halt
  | Fault => Fault
  | Diverge => Diverge
  end.
Definition halt {S A} : M S A := fun _ => Halt.
Definition fault {S A} : M S A := fun _ => Fault.
Definition assertM {S} (c : bool) : M S () := lift (assert_ c).

(** Running a component on a part of a larger state. *)
Definition zoom {S T A} (g : S -> T) (p : T -> S -> S) (m : M T A) : M S A :=
  fun s => match m (g s) with
           | Ret (a, t) => Ret (a, p t s)
           | Halt => Halt
           | Fault => Fault
           | Diverge => Diverge
           end.

(** ** Arrays indexed by C integers *)

(** [a[i]]: outside the array the access is a [Fault]. *)
Definition rd {A} (l : list A) (i : Z) : outcome A :=
  if (0 <=? i)%Z then
    match l !! Z.to_nat i with Some x => Ret x | None => Fault end
  else Fault.

(** [a[i] = x]. *)
Definition wr {A} (l : list A) (i : Z) (x : A) : outcome (list A) :=
  if (0 <=? i)%Z && (i <? Z.of_nat (length l))%Z
  then Ret (<[Z.to_nat i := x]> l) else Fault.

(** A C loop whose counter takes the values [l] in turn. *)
Fixpoint foreach {S A} (l : list A) (body : A -> S -> outcome S) (s : S) : outcome S :=
  match l with
  | [] => Ret s
  | x :: l' => match body x s with Ret s' => foreach l' body s' | Halt => Halt | Fault => Fault | Diverge => Diverge end
  end.

(** ** Machine integers (AArch64: int 32 bits, long and pointers 64) *)
Definition wrapu (w z : Z) : Z := z mod 2 ^ w.
Definition wraps (w z : Z) : Z := (z + 2 ^ (w - 1)) mod 2 ^ w - 2 ^ (w - 1).
Abbreviation u8 := (wrapu 8).
Abbreviation u16 := (wrapu 16).
Abbreviation u32 := (wrapu 32).
Abbreviation u64 := (wrapu 64).
Abbreviation s8 := (wraps 8).
Abbreviation s16 := (wraps 16).
Abbreviation s32 := (wraps 32).
Abbreviation s64 := (wraps 64).
Arguments wrapu : simpl never.
Arguments wraps : simpl never.

(** ** Shared lemmas and automation *)

Create HintDb spring.

Lemma wrapu_small w z : 0 <= z < 2 ^ w -> wrapu w z = z.
Proof. intros; by apply Z.mod_small. Qed.

Lemma wrapu_range w z : 0 <= w -> 0 <= wrapu w z < 2 ^ w.
Proof. intros; apply Z.mod_pos_bound; lia. Qed.

Lemma wrapu_idemp w z : 0 <= w -> wrapu w (wrapu w z) = wrapu w z.
Proof. intros; apply wrapu_small, wrapu_range; done. Qed.

Lemma wraps_small w z : 0 < w -> - 2 ^ (w - 1) <= z < 2 ^ (w - 1) -> wraps w z = z.
Proof.
  intros Hw Hz. unfold wraps.
  assert (2 ^ w = 2 * 2 ^ (w - 1)) as Hp.
  { replace w with (Z.succ (w - 1)) at 1 by lia. rewrite Z.pow_succ_r; lia. }
  rewrite Z.mod_small; lia.
Qed.

Lemma wraps_range w z : 0 < w -> - 2 ^ (w - 1) <= wraps w z < 2 ^ (w - 1).
Proof.
  intros Hw. unfold wraps.
  assert (2 ^ w = 2 * 2 ^ (w - 1)) as Hp.
  { replace w with (Z.succ (w - 1)) at 1 by lia. rewrite Z.pow_succ_r; lia. }
  assert (0 < 2 ^ (w - 1)) by (apply Z.pow_pos_nonneg; lia).
  pose proof (Z.mod_pos_bound (z + 2 ^ (w - 1)) (2 ^ w)). lia.
Qed.

(** The conversions an in-range value goes through leave it unchanged. *)
Lemma u64_small z : 0 <= z < 18446744073709551616 -> u64 z = z.
Proof. intros; by apply wrapu_small. Qed.
Lemma u32_small z : 0 <= z < 4294967296 -> u32 z = z.
Proof. intros; by apply wrapu_small. Qed.
Lemma s32_small z : -2147483648 <= z < 2147483648 -> s32 z = z.
Proof. intros; by apply wraps_small. Qed.
Lemma s64_small z : -9223372036854775808 <= z < 9223372036854775808 -> s64 z = z.
Proof. intros; by apply wraps_small. Qed.
Lemma s16_small z : -32768 <= z < 32768 -> s16 z = z.
Proof. intros; by apply wraps_small. Qed.

(** [wrap_simpl] removes every conversion whose argument [lia] bounds. *)
Ltac wrap_simpl :=
  repeat first
    [ rewrite u64_small by lia | rewrite u32_small by lia
    | rewrite s32_small by lia | rewrite s64_small by lia
    | rewrite s16_small by lia ].

Lemma rd_Ret {A} (l : list A) i x :
  rd l i = Ret x <-> 0 <= i /\ l !! Z.to_nat i = Some x.
Proof.
  unfold rd. destruct (Z.leb_spec 0 i); [|split; [done|lia]].
  destruct (l !! Z.to_nat i); naive_solver.
Qed.

Lemma rd_in {A} (l : list A) i :
  0 <= i < Z.of_nat (length l) -> exists x, rd l i = Ret x.
Proof.
  intros Hi. destruct (lookup_lt_is_Some_2 l (Z.to_nat i)) as [x Hx]; [lia|].
  exists x. apply rd_Ret. lia || (split; [lia|done]).
Qed.

Lemma rd_lookup {A} (l : list A) i x :
  0 <= i -> l !! Z.to_nat i = Some x -> rd l i = Ret x.
Proof. intros; by apply rd_Ret. Qed.

Lemma wr_in {A} (l : list A) i x :
  0 <= i < Z.of_nat (length l) -> wr l i x = Ret (<[Z.to_nat i := x]> l).
Proof.
  intros. unfold wr. destruct (Z.leb_spec 0 i), (Z.ltb_spec i (Z.of_nat (length l))); simpl; lia || done.
Qed.

Lemma wr_Ret {A} (l l' : list A) i x :
  wr l i x = Ret l' -> 0 <= i < Z.of_nat (length l) /\ l' = <[Z.to_nat i := x]> l.
Proof.
  unfold wr. destruct (Z.leb_spec 0 i), (Z.ltb_spec i (Z.of_nat (length l))); simpl; naive_solver lia.
Qed.

Lemma outcome_bind_Ret {A B} (m : outcome A) (f : A -> outcome B) b :
  m ≫= f = Ret b <-> exists a, m = Ret a /\ f a = Ret b.
Proof. destruct m; naive_solver. Qed.

Lemma M_bind_Ret {S A B} (m : M S A) (f : A -> M S B) s b :
  (m ≫= f) s = Ret b <-> exists a s', m s = Ret (a, s') /\ f a s' = Ret b.
Proof. unfold mbind, M_bind. destruct (m s) as [[]| | |]; naive_solver. Qed.

Lemma M_bind_run {S A B} (m : M S A) (f : A -> M S B) s a s' :
  m s = Ret (a, s') -> (m ≫= f) s = f a s'.
Proof. unfold mbind, M_bind. by intros ->. Qed.

(** [mrun H] runs the first step of the goal, whose outcome [H] gives. *)
Ltac mrun H := erewrite M_bind_run; [|exact H]; cbn beta.

(** [inv_ret H] splits [H : (x ← m; k) = Ret v] into its successful steps. *)
Ltac inv_ret H :=
  repeat (first [ apply outcome_bind_Ret in H as (? & ? & H)
                | apply M_bind_Ret in H as (? & ? & ? & H) ]).

(** [solve_forall] closes [Forall P [x; ...]] when each [P x] is arithmetic. *)
Ltac solve_forall :=
  repeat (apply Forall_cons_2; [lia|]); apply Forall_nil_2.

(** [solve_num] closes a closed arithmetic side condition. *)
Ltac solve_num := first [ lia | cbn [length Z.of_nat]; lia | vm_compute; intuition congruence ].

(** [mstep] evaluates the monadic plumbing of a goal and nothing else. *)
Ltac mstep :=
  unfold assertM, assert_ in *; unfold get, put, modify, lift, halt, fault, zoom in *;
  unfold mbind, mret in *; unfold M_bind, M_ret, outcome_bind, outcome_ret in *;
  cbn beta iota in *.

(** ** Loops in the state monad *)
Definition diverge {S A} : M S A := fun _ => Diverge.
Fixpoint forM {S A} (l : list A) (body : A -> M S ()) : M S () :=
  match l with [] => mret tt | x :: l' => body x;; forM l' body end.
(** [for (i = a; i < b; i += step)]. *)
Definition upto (a b step : Z) : list Z := (fun k => a + step * k) <$> seqZ 0 ((b - a + (step - 1)) / step).

(** ** Frames of stateful code *)

(** Whenever [m] returns, the states before and after it are related. *)
Definition stays {S A} (R : S -> S -> Prop) (m : M S A) : Prop := forall s a s', m s = Ret (a, s') -> R s s'.

Section Stays.
Context {S : Type} (R : S -> S -> Prop) `{!PreOrder R}.
Lemma stays_bind {A B} (m : M S A) (k : A -> M S B) : stays R m -> (forall a, stays R (k a)) -> stays R (m ≫= k).
Proof.
  intros Hm Hk s b s' H. apply M_bind_Ret in H as (a & s1 & H1 & H2). transitivity s1; [by eapply Hm|by eapply Hk].
Qed.
Lemma stays_mret {A} (a : A) : stays R (mret a).
Proof. intros s b s' [= _ <-]. reflexivity. Qed.
Lemma stays_lift {A} (o : outcome A) : stays R (lift o).
Proof. intros s b s'. unfold lift. destruct o; try done. intros [= _ <-]. reflexivity. Qed.
Lemma stays_halt {A} : stays R (halt (A := A)).
Proof. by intros s b s'. Qed.
Lemma stays_get : stays R get.
Proof. intros s b s' [= _ <-]. reflexivity. Qed.
Lemma stays_diverge {A} : stays R ((fun _ => Diverge) : M S A).
Proof. by intros s b s'. Qed.
Lemma stays_if {A} (c : bool) (m1 m2 : M S A) : stays R m1 -> stays R m2 -> stays R (if c then m1 else m2).
Proof. by destruct c. Qed.
Lemma stays_forM {A} (l : list A) (body : A -> M S ()) : (forall x, stays R (body x)) -> stays R (forM l body).
Proof. intros H. induction l as [|x l IH]; [apply stays_mret|]. apply stays_bind; [apply H|done]. Qed.
End Stays.

Lemma zoom_Ret {S T A} (g : S -> T) (p : T -> S -> S) (m : M T A) s a s' :
  zoom g p m s = Ret (a, s') -> exists t, m (g s) = Ret (a, t) /\ s' = p t s.
Proof. unfold zoom. destruct (m (g s)) as [[b t]| | |]; try done. intros [= <- <-]. by exists t. Qed.
Lemma zoom_run {S T A} (g : S -> T) (p : T -> S -> S) (m : M T A) s a t : m (g s) = Ret (a, t) -> zoom g p m s = Ret (a, p t s).
Proof. unfold zoom. by intros ->. Qed.

Lemma stays_zoom {S T A} (R : S -> S -> Prop) (Q : T -> T -> Prop) (g : S -> T) (p : T -> S -> S) (m : M T A) :
  stays Q m -> (forall s t, Q (g s) t -> R s (p t s)) -> stays R (zoom g p m).
Proof.
  intros Hm Hz s a s'. unfold zoom. destruct (m (g s)) as [[b t]| | |] eqn:E; try done. intros [= <- <-]. by apply Hz, (Hm _ _ _ E).
Qed.

Create HintDb stay.
#[export] Hint Resolve stays_bind stays_mret stays_lift stays_halt stays_get stays_diverge stays_if stays_forM : stay.
