(* ===== verification/Config.v ===== *)
(** * Constants and address arithmetic
    (ukern/config/config.h, inc/kernel.h, inc/utils.h, inc/page.h, inc/errno.h) *)
From S2P Require Import Prelude.

(** ** errno.h *)
Definition EPERM : Z := 1.
Definition ENOENT : Z := 2.
Definition EBADF : Z := 9.
Definition ENOMEM : Z := 12.
Definition EACCES : Z := 13.
Definition EFAULT : Z := 14.
Definition EINVAL : Z := 22.
Definition EOPNOTSUPP : Z := 95.

(** ** config.h *)
Definition CONFIG_KERNEL_ADDR_MASK : Z := 0xffff000000000000.
Definition CONFIG_RAM_SIZE : Z := 0x4000000.
Definition NCPU : Z := 8.
Definition PROC_PRIO_MAX : Z := 8.
Definition MAXARG : Z := 32.
Definition CONFIG_NR_CPUS : Z := 4.
Definition CONFIG_NR_CPUS_CLUSTER0 : Z := 4.
Definition CONFIG_GICD_BASE : Z := 0x08000000.
Definition CONFIG_GICD_IO_SIZE : Z := 0xa0000.
Definition CONFIG_GICR_BASE : Z := CONFIG_GICD_BASE + CONFIG_GICD_IO_SIZE.
Definition CONFIG_GICR_RD_SIZE : Z := 0x10000.
Definition CONFIG_GICR_SGI_SIZE : Z := 0x10000.
Definition CONFIG_GICR_IO_SIZE_PERCPU : Z := CONFIG_GICR_RD_SIZE + CONFIG_GICR_SGI_SIZE.
Definition CONFIG_GICR_IO_SIZE : Z := CONFIG_GICR_IO_SIZE_PERCPU * CONFIG_NR_CPUS.
Definition CONFIG_UART_BASE : Z := 0x9000000.
Definition CONFIG_UART_IO_SIZE : Z := 0x1000.
Definition CONFIG_RAMDISK_BASE : Z := 0x44000000.
Definition CONFIG_RAMDISK_SIZE : Z := 0x02000000.
Definition CONFIG_PFLASH_BASE : Z := 0x04000000.
Definition CONFIG_PFLASH_SIZE : Z := 0x4000000.
Definition CONFIG_VIRTIO_BASE : Z := 0x0a000000.
Definition CONFIG_VIRTIO_SIZE : Z := 0x4000.

(** ** kernel.h *)
Definition ptov (addr : Z) : Z := u64 (addr + CONFIG_KERNEL_ADDR_MASK).
Definition vtop (addr : Z) : Z := u64 (addr - CONFIG_KERNEL_ADDR_MASK).

(** ** utils.h, on 64-bit values *)
Definition align_up (addr x : Z) : Z := Z.land (u64 (addr + (x - 1))) (u64 (Z.lnot (x - 1))).
Definition align_down (addr x : Z) : Z := Z.land addr (u64 (Z.lnot (x - 1))).
Definition isaligned (addr x : Z) : bool := Z.land (u64 addr) (x - 1) =? 0.

(** ** page.h *)
Definition PAGE_SHIFT : Z := 12.
Definition PAGE_SIZE : Z := 4096.
Definition page_aligned (x : Z) : bool := Z.land (u64 x) (PAGE_SIZE - 1) =? 0.
Definition align_page_up (x : Z) : Z := align_up x PAGE_SIZE.
Definition align_page_down (x : Z) : Z := align_down x PAGE_SIZE.

(** ** Lemmas *)

Lemma land_lnot_ones a n : 0 <= n -> Z.land a (Z.lnot (Z.ones n)) = a - a mod 2 ^ n.
Proof.
  intros Hn. rewrite <- Z.ldiff_land, Z.ldiff_ones_r by done.
  rewrite Z.shiftl_mul_pow2, Z.shiftr_div_pow2 by done.
  pose proof (Z.div_mod a (2 ^ n)). lia.
Qed.

(** Clearing the low bits of a 64-bit value through a 64-bit mask. *)
Lemma land_mask64 a n :
  0 <= n <= 64 -> 0 <= a < 2 ^ 64 -> Z.land a (u64 (Z.lnot (2 ^ n - 1))) = a - a mod 2 ^ n.
Proof.
  intros Hn Ha. rewrite <- (land_lnot_ones a n) by lia.
  assert (2 ^ n - 1 = Z.ones n) as -> by (rewrite Z.ones_equiv; lia).
  apply Z.bits_inj'. intros i Hi. rewrite !Z.land_spec. unfold wrapu.
  destruct (decide (i < 64)).
  - by rewrite Z.mod_pow2_bits_low by lia.
  - replace (Z.testbit a i) with false; [done|]. symmetry.
    destruct (decide (a = 0)) as [->|]; [apply Z.bits_0|].
    apply Z.bits_above_log2; [lia|]. assert (Z.log2 a < 64) by (apply Z.log2_lt_pow2; lia). lia.
Qed.

Lemma align_down_spec addr n :
  0 <= n <= 64 -> 0 <= addr < 2 ^ 64 -> align_down addr (2 ^ n) = addr - addr mod 2 ^ n.
Proof. intros. unfold align_down. by rewrite land_mask64. Qed.

Lemma align_up_spec addr n :
  0 <= n <= 64 -> 0 <= addr -> addr + (2 ^ n - 1) < 2 ^ 64 ->
  align_up addr (2 ^ n) = (addr + (2 ^ n - 1)) - (addr + (2 ^ n - 1)) mod 2 ^ n.
Proof.
  intros Hn Ha Hb. unfold align_up. assert (0 < 2 ^ n) by lia.
  rewrite wrapu_small by lia. rewrite land_mask64 by lia. done.
Qed.

(** [align_up] is the least multiple of [2^n] that is not below its argument. *)
Lemma align_up_bounds addr n :
  0 <= n <= 64 -> 0 <= addr -> addr + (2 ^ n - 1) < 2 ^ 64 ->
  align_up addr (2 ^ n) mod 2 ^ n = 0 /\ addr <= align_up addr (2 ^ n) < addr + 2 ^ n.
Proof.
  intros Hn Ha Hb. rewrite align_up_spec by done. assert (0 < 2 ^ n) by lia.
  pose proof (Z.mod_pos_bound (addr + (2 ^ n - 1)) (2 ^ n)).
  split; [|lia]. rewrite Zminus_mod_idemp_r, Z.sub_diag. apply Z.mod_0_l. lia.
Qed.

Lemma page_aligned_spec x : 0 <= x < 2 ^ 64 -> page_aligned x = (x mod 4096 =? 0).
Proof.
  intros Hx. unfold page_aligned, PAGE_SIZE. rewrite u64_small by lia.
  change (4096 - 1) with (Z.ones 12). by rewrite Z.land_ones by lia.
Qed.

Lemma ptov_small a : 0 <= a < 2 ^ 48 -> ptov a = a + 0xffff000000000000.
Proof. intros. unfold ptov, CONFIG_KERNEL_ADDR_MASK. apply u64_small. lia. Qed.

Lemma vtop_ptov a : 0 <= a < 2 ^ 48 -> vtop (ptov a) = a.
Proof.
  intros. rewrite ptov_small by done. unfold vtop, CONFIG_KERNEL_ADDR_MASK.
  rewrite u64_small; lia.
Qed.

#[export] Hint Rewrite ptov_small vtop_ptov using lia : spring.
