(* ===== verification/CList.v ===== *)
(** * Intrusive doubly linked lists (ukern/inc/list.h)

    The heap maps the address of a [struct list_head] to its two pointers.
    The operations write the pointers in the order of the C code; the lemmas
    show that on a well-formed ring they are the list operations that the
    other components use, and what they leave alone.  ListOps.v has the
    operations on whole segments and the refinement theorem. *)
From S2P Require Import Prelude.

Record list_head := mkHead { l_next : Z; l_prev : Z }.
Abbreviation lheap := (gmap Z list_head).

Definition LIST_POISON1 : Z := 0x00100100.
Definition LIST_POISON2 : Z := 0x00200200.

Definition next_of (h : lheap) (a : Z) : outcome Z :=
  match h !! a with Some n => Ret (l_next n) | None => Fault end.
Definition prev_of (h : lheap) (a : Z) : outcome Z :=
  match h !! a with Some n => Ret (l_prev n) | None => Fault end.
Definition set_next (h : lheap) (a v : Z) : outcome lheap :=
  match h !! a with Some n => Ret (<[a := mkHead v (l_prev n)]> h) | None => Fault end.
Definition set_prev (h : lheap) (a v : Z) : outcome lheap :=
  match h !! a with Some n => Ret (<[a := mkHead (l_next n) v]> h) | None => Fault end.

Definition INIT_LIST_HEAD (h : lheap) (list : Z) : outcome lheap :=
  h ← set_next h list list; set_prev h list list.

Definition __list_add (h : lheap) (new prev next : Z) : outcome lheap :=
  h ← set_prev h next new;
  h ← set_next h new next;
  h ← set_prev h new prev;
  set_next h prev new.

Definition list_add (h : lheap) (new head : Z) : outcome lheap :=
  next ← next_of h head; __list_add h new head next.
Definition list_add_tail (h : lheap) (new head : Z) : outcome lheap :=
  prev ← prev_of h head; __list_add h new prev head.

Definition __list_del (h : lheap) (prev next : Z) : outcome lheap :=
  h ← set_prev h next prev; set_next h prev next.
Definition __list_del_entry (h : lheap) (entry : Z) : outcome lheap :=
  p ← prev_of h entry; n ← next_of h entry; __list_del h p n.
Definition list_del (h : lheap) (entry : Z) : outcome lheap :=
  h ← __list_del_entry h entry;
  h ← set_next h entry LIST_POISON1; set_prev h entry LIST_POISON2.
Definition list_del_init (h : lheap) (entry : Z) : outcome lheap :=
  h ← __list_del_entry h entry; INIT_LIST_HEAD h entry.
Definition list_move (h : lheap) (list head : Z) : outcome lheap :=
  h ← __list_del_entry h list; list_add h list head.
Definition list_move_tail (h : lheap) (list head : Z) : outcome lheap :=
  h ← __list_del_entry h list; list_add_tail h list head.
Definition list_is_last (h : lheap) (list head : Z) : outcome bool :=
  n ← next_of h list; Ret (n =? head).
Definition list_empty (h : lheap) (head : Z) : outcome bool :=
  n ← next_of h head; Ret (n =? head).
Definition list_empty_careful (h : lheap) (head : Z) : outcome bool :=
  n ← next_of h head; p ← prev_of h head; Ret ((n =? head) && (n =? p)).
Definition list_rotate_left (h : lheap) (head : Z) : outcome lheap :=
  e ← list_empty h head;
  if (e : bool) then Ret h else first ← next_of h head; list_move_tail h first head.
Definition list_is_singular (h : lheap) (head : Z) : outcome bool :=
  e ← list_empty h head; n ← next_of h head; p ← prev_of h head; Ret (negb e && (n =? p)).
(** [list_first_entry], up to [container_of]. *)
Definition list_first_entry (h : lheap) (head : Z) : outcome Z := next_of h head.

(** ** Rings *)

(** From [a] through [l] to [b], in both directions. *)
Fixpoint links (h : lheap) (a : Z) (l : list Z) (b : Z) : Prop :=
  match l with
  | [] => next_of h a = Ret b /\ prev_of h b = Ret a
  | x :: l' => next_of h a = Ret x /\ prev_of h x = Ret a /\ links h x l' b
  end.

(** [head] is the head of the ring of the entries [l]. *)
Definition dll (h : lheap) (head : Z) (l : list Z) : Prop := NoDup (head :: l) /\ links h head l head.

Lemma links_app h a l1 x l2 b : links h a (l1 ++ x :: l2) b <-> links h a l1 x /\ links h x l2 b.
Proof. revert a. induction l1 as [|y l1 IH]; intros a; simpl; [tauto|]. rewrite IH. tauto. Qed.

Lemma set_next_spec h a v :
  is_Some (h !! a) -> exists h', set_next h a v = Ret h' /\ next_of h' a = Ret v /\
    (forall b, b <> a -> next_of h' b = next_of h b) /\ (forall b, prev_of h' b = prev_of h b) /\
    (forall b, is_Some (h' !! b) <-> is_Some (h !! b)).
Proof.
  intros [n Hn]. unfold set_next. rewrite Hn. eexists. split; [done|]. unfold next_of, prev_of.
  rewrite lookup_insert_eq. split_and!; [done| | |].
  - intros b Hb. by rewrite lookup_insert_ne.
  - intros b. destruct (decide (b = a)) as [->|]; [by rewrite lookup_insert_eq, Hn|by rewrite lookup_insert_ne].
  - intros b. destruct (decide (b = a)) as [->|]; [rewrite lookup_insert_eq, Hn; split; by eexists|by rewrite lookup_insert_ne].
Qed.

Lemma set_prev_spec h a v :
  is_Some (h !! a) -> exists h', set_prev h a v = Ret h' /\ prev_of h' a = Ret v /\
    (forall b, b <> a -> prev_of h' b = prev_of h b) /\ (forall b, next_of h' b = next_of h b) /\
    (forall b, is_Some (h' !! b) <-> is_Some (h !! b)).
Proof.
  intros [n Hn]. unfold set_prev. rewrite Hn. eexists. split; [done|]. unfold next_of, prev_of.
  rewrite lookup_insert_eq. split_and!; [done| | |].
  - intros b Hb. by rewrite lookup_insert_ne.
  - intros b. destruct (decide (b = a)) as [->|]; [by rewrite lookup_insert_eq, Hn|by rewrite lookup_insert_ne].
  - intros b. destruct (decide (b = a)) as [->|]; [rewrite lookup_insert_eq, Hn; split; by eexists|by rewrite lookup_insert_ne].
Qed.

Lemma next_is_Some h a v : next_of h a = Ret v -> is_Some (h !! a).
Proof. unfold next_of. destruct (h !! a); [by eexists|done]. Qed.
Lemma prev_is_Some h a v : prev_of h a = Ret v -> is_Some (h !! a).
Proof. unfold prev_of. destruct (h !! a); [by eexists|done]. Qed.

(** The last node before [b], and the first one after [a]. *)
Definition lastn (a : Z) (l : list Z) : Z := default a (last l).

Lemma lastn_snoc a l x : lastn a (l ++ [x]) = x.
Proof. unfold lastn. by rewrite last_snoc. Qed.
Lemma lastn_in a l : lastn a l ∈ a :: l.
Proof.
  destruct l as [|y l _] using rev_ind; [left|]. rewrite lastn_snoc. apply elem_of_cons. right. apply elem_of_app. right. left.
Qed.

Lemma links_prev h a l b : links h a l b -> prev_of h b = Ret (lastn a l) /\ next_of h (lastn a l) = Ret b.
Proof.
  destruct l as [|x l _] using rev_ind; [unfold lastn; simpl; tauto|].
  rewrite links_app, lastn_snoc. intros (_ & ? & ?). done.
Qed.

Lemma links_head h a l b : links h a l b -> next_of h a = Ret (hd b l).
Proof. destruct l; simpl; tauto. Qed.

(** [links] only looks at the next pointers of [a :: l] and the previous
    pointers of [l] and [b]. *)
Lemma links_frame h h' a l b :
  (forall x, x ∈ a :: l -> next_of h' x = next_of h x) ->
  (forall x, x ∈ l -> prev_of h' x = prev_of h x) -> prev_of h' b = prev_of h b ->
  links h a l b -> links h' a l b.
Proof.
  revert a. induction l as [|y l IH]; intros a Hn Hp Hb; simpl.
  - rewrite (Hn a), Hb by (left). done.
  - intros (? & ? & ?). rewrite (Hn a), (Hp y) by left. split_and!; [done..|]. apply IH; [|set_solver|done|done].
    intros x Hx. apply Hn. by right.
Qed.

(** Redirecting the last edge of a segment to [c]. *)
Lemma links_redirect h h' a l b c :
  NoDup (a :: l) -> c ∉ l -> links h a l b ->
  next_of h' (lastn a l) = Ret c -> prev_of h' c = Ret (lastn a l) ->
  (forall x, x ∈ a :: l -> x <> lastn a l -> next_of h' x = next_of h x) ->
  (forall x, x ∈ l -> prev_of h' x = prev_of h x) -> links h' a l c.
Proof.
  intros Hnd Hc Hl Hn Hp Hnx Hpv. destruct l as [|x l _] using rev_ind; [done|].
  rewrite lastn_snoc in *. apply links_app in Hl as [Hl _]. apply links_app. split; [|done].
  assert (x ∉ a :: l) as Hx.
  { intros Hin. apply NoDup_cons in Hnd as [Ha Hnd]. apply NoDup_app in Hnd as (_ & Hd & _).
    apply elem_of_cons in Hin as [->|Hin]; [apply Ha|apply (Hd x Hin)]; set_solver. }
  apply (links_frame h); [|set_solver|apply Hpv; set_solver|done].
  intros y Hy. apply Hnx; [set_solver|]. by intros ->.
Qed.

(** *** Insertion between two neighbours *)
Lemma list_add_between h head l1 l2 new :
  dll h head (l1 ++ l2) -> new ∉ head :: l1 ++ l2 -> is_Some (h !! new) ->
  exists h', __list_add h new (lastn head l1) (hd head l2) = Ret h' /\ dll h' head (l1 ++ new :: l2) /\
    (forall b, is_Some (h' !! b) <-> is_Some (h !! b)).
Proof.
  intros [Hnd Hl] Hnew Hs.
  set (p := lastn head l1). set (n := hd head l2).
  assert (links h head l1 n /\ (l2 = [] /\ n = head \/ exists l3, l2 = n :: l3 /\ links h n l3 head)) as [Hl1 Hl2].
  { destruct l2 as [|y l2]; [rewrite app_nil_r in Hl; split; [done|by left]|].
    apply links_app in Hl as [? ?]. split; [done|right]. by exists l2. }
  destruct (links_prev _ _ _ _ Hl1) as [Hpn Hnp]. fold p in Hpn, Hnp.
  assert (p ∈ head :: l1) as Hpin by apply lastn_in.
  assert (n ∈ head :: l2) as Hnin by (unfold n; destruct l2; left || (right; left)).
  clearbody n. assert (lastn head l1 = p) as Hlp by done. clearbody p.
  unfold __list_add.
  destruct (set_prev_spec h n new) as (h1 & -> & E1 & P1 & N1 & S1); [by eapply prev_is_Some|]. cbn [mbind outcome_bind].
  destruct (set_next_spec h1 new n) as (h2 & -> & E2 & N2 & P2 & S2); [by apply S1|]. cbn [mbind outcome_bind].
  destruct (set_prev_spec h2 new p) as (h3 & -> & E3 & P3 & N3 & S3); [by apply S2, S1|]. cbn [mbind outcome_bind].
  destruct (set_next_spec h3 p new) as (h4 & -> & E4 & N4 & P4 & S4); [apply S3, S2, S1; by eapply next_is_Some|].
  assert (new <> p) by (intros ->; apply Hnew; set_solver). assert (new <> n) by (intros ->; apply Hnew; set_solver).
  exists h4. split; [done|]. split; [|intros b; by rewrite S4, S3, S2, S1].
  split.
  { apply NoDup_cons. apply NoDup_cons in Hnd as [Hh Hnd]. split; [set_solver|].
    apply NoDup_app in Hnd as (? & Hd & ?). apply NoDup_app. split_and!; [done|set_solver|].
    apply NoDup_cons. split; [set_solver|done]. }
  apply NoDup_cons in Hnd as [Hh Hnd]. apply NoDup_app in Hnd as (Hnd1 & Hd & Hnd2).
  apply links_app. split.
  - apply (links_redirect h h4 head l1 n new).
    + apply NoDup_cons. split; [set_solver|done].
    + set_solver.
    + done.
    + by rewrite Hlp.
    + by rewrite P4, Hlp.
    + rewrite Hlp. intros x Hx Hne. rewrite N4, N3, N2, N1 by (done || (intros ->; apply Hnew; set_solver)). done.
    + intros x Hx. rewrite P4, P3 by (intros ->; apply Hnew; set_solver). rewrite P2, P1; [done|].
      intros ->. apply elem_of_cons in Hnin as [->|Hnin]; [set_solver|by apply (Hd n)].
  - assert (next_of h4 new = Ret n) by (rewrite N4, N3 by done; done).
    assert (prev_of h4 n = Ret new) by (rewrite P4, P3, P2 by done; done).
    destruct Hl2 as [[-> ->]|(l3 & -> & Hl3)]; [done|]. simpl. split_and!; [done..|].
    apply NoDup_cons in Hnd2 as [Hn3 Hnd3].
    assert (p ∉ n :: l3) as Hp2.
    { intros Hx. apply elem_of_cons in Hpin as [->|Hp1]; [apply Hh, elem_of_app; by right|by apply (Hd p)]. }
    assert (new ∉ n :: l3) as Hw.
    { intros Hx. apply Hnew. right. apply elem_of_app. by right. }
    apply (links_frame h); [| | |done].
    + intros x Hx. rewrite N4, N3, N2, N1 by (intros ->; done). done.
    + intros x Hx. rewrite P4, P3, P2, P1; [done|by intros ->|intros ->; apply Hw; by right].
    + rewrite P4, P3, P2, P1; [done| |].
      * intros ->. apply Hh, elem_of_app. right. left.
      * intros ->. apply Hnew. left.
Qed.

Lemma list_add_spec h head l new :
  dll h head l -> new ∉ head :: l -> is_Some (h !! new) ->
  exists h', list_add h new head = Ret h' /\ dll h' head (new :: l) /\ (forall b, is_Some (h' !! b) <-> is_Some (h !! b)).
Proof.
  intros Hd Hn Hs. unfold list_add. rewrite (links_head _ _ _ _ (proj2 Hd)). cbn [mbind outcome_bind].
  exact (list_add_between h head [] l new Hd Hn Hs).
Qed.

Lemma list_add_tail_spec h head l new :
  dll h head l -> new ∉ head :: l -> is_Some (h !! new) ->
  exists h', list_add_tail h new head = Ret h' /\ dll h' head (l ++ [new]) /\ (forall b, is_Some (h' !! b) <-> is_Some (h !! b)).
Proof.
  intros Hd Hn Hs. unfold list_add_tail. destruct (links_prev _ _ _ _ (proj2 Hd)) as [-> _]. cbn [mbind outcome_bind].
  apply (list_add_between h head l [] new); by rewrite ?app_nil_r.
Qed.

(** *** Removal *)
Lemma list_unlink h head l1 x l2 :
  dll h head (l1 ++ x :: l2) ->
  exists h', __list_del_entry h x = Ret h' /\ dll h' head (l1 ++ l2) /\
    (forall b, is_Some (h' !! b) <-> is_Some (h !! b)).
Proof.
  intros [Hnd Hl]. apply links_app in Hl as [Hl1 Hl2].
  set (p := lastn head l1). set (n := hd head l2).
  destruct (links_prev _ _ _ _ Hl1) as [Hpx Hpn]. pose proof (links_head _ _ _ _ Hl2) as Hxn.
  apply NoDup_cons in Hnd as [Hh Hnd]. apply NoDup_app in Hnd as (Hnd1 & Hd & Hnd2).
  apply NoDup_cons in Hnd2 as [Hx2 Hnd2].
  assert (head ∉ l1 /\ head ∉ l2 /\ head <> x) as (Hh1 & Hh2 & Hhx).
  { rewrite elem_of_app, elem_of_cons in Hh. tauto. }
  assert (forall y, y ∈ l1 -> y ∉ l2) as Hd2 by (intros y Hy Hy2; apply (Hd y Hy); by right).
  assert (NoDup (head :: l1 ++ l2)) as Hnd'.
  { apply NoDup_cons. split; [rewrite elem_of_app; tauto|]. by apply NoDup_app. }
  assert (p ∈ head :: l1) as Hpin by apply lastn_in.
  assert (l2 = [] /\ n = head \/ exists l3, l2 = n :: l3 /\ links h n l3 head) as Hcase.
  { destruct l2 as [|y l3]; [by left|right]. exists l3. split; [done|]. apply Hl2. }
  assert (is_Some (h !! n)) as Hns.
  { destruct l2 as [|y l3]; [eapply next_is_Some, links_head, Hl1|]. destruct Hl2 as (_ & Hy & _). by eapply prev_is_Some. }
  unfold __list_del_entry, __list_del. rewrite Hpx, Hxn. cbn [mbind outcome_bind]. fold p n.
  clear Hxn. clearbody n.
  destruct (set_prev_spec h n p) as (h1 & -> & E1 & P1 & N1 & S1); [done|]. cbn [mbind outcome_bind].
  destruct (set_next_spec h1 p n) as (h2 & -> & E2 & N2 & P2 & S2); [apply S1; by eapply next_is_Some|].
  exists h2. split; [done|]. split; [|intros b; by rewrite S2, S1]. split; [done|].
  assert (n ∉ l1 -> links h2 head l1 n) as Hfirst.
  { intros Hn1. apply (links_redirect h h2 head l1 x n).
    - apply NoDup_cons. done.
    - done.
    - done.
    - exact E2.
    - by rewrite P2.
    - intros y Hy Hne. rewrite N2, N1 by done. done.
    - intros y Hy. rewrite P2, P1; [done|]. by intros ->. }
  destruct Hcase as [[-> ->]|(l3 & -> & Hl3)].
  - rewrite app_nil_r. by apply Hfirst.
  - apply links_app. split; [apply Hfirst; intros Hn1; apply (Hd2 n Hn1); left|].
    apply NoDup_cons in Hnd2 as [Hn3 _].
    assert (p ∉ n :: l3) as Hp2.
    { intros Hin. apply elem_of_cons in Hpin as [Hp|Hp1]; [by rewrite Hp in Hin|by apply (Hd2 p)]. }
    apply (links_frame h); [| | |done].
    + intros y Hy. rewrite N2, N1; [done|by intros ->].
    + intros y Hy. rewrite P2, P1; [done|by intros ->].
    + rewrite P2, P1; [done|]. intros ->. apply Hh2. left.
Qed.

Lemma list_del_spec h head l1 x l2 :
  dll h head (l1 ++ x :: l2) ->
  exists h', list_del h x = Ret h' /\ dll h' head (l1 ++ l2) /\
    h' !! x = Some (mkHead LIST_POISON1 LIST_POISON2) /\ (forall b, is_Some (h' !! b) <-> is_Some (h !! b)).
Proof.
  intros Hdl. pose proof Hdl as [Hnd Hl]. apply links_app in Hl as [Hl1 _].
  destruct (links_prev _ _ _ _ Hl1) as [Hpx _]. apply prev_is_Some in Hpx.
  destruct (list_unlink h head l1 x l2 Hdl) as (h1 & Hr & [Hnd1 Hl'] & S1).
  unfold list_del. rewrite Hr. cbn [mbind outcome_bind]. unfold set_next, set_prev.
  destruct (proj2 (S1 x) Hpx) as [nd Hx]. rewrite Hx. cbn [mbind outcome_bind]. rewrite lookup_insert_eq.
  eexists. split; [done|]. rewrite insert_insert_eq, lookup_insert_eq. split; [|split; [done|]].
  - split; [done|]. assert (x ∉ head :: l1 ++ l2) as Hnx.
    { apply NoDup_cons in Hnd as [Hh Hnd]. apply NoDup_app in Hnd as (_ & Hd & Hnd2). apply NoDup_cons in Hnd2 as [Hx2 _].
      rewrite elem_of_cons, elem_of_app. intros [->|[Hi|Hi]]; [apply Hh, elem_of_app; right; left| |done].
      apply (Hd x Hi). left. }
    apply (links_frame h1); [| | |done].
    + intros y Hy. unfold next_of. by rewrite lookup_insert_ne by (intros ->; done).
    + intros y Hy. unfold prev_of. rewrite lookup_insert_ne; [done|]. intros ->. apply Hnx. by right.
    + unfold prev_of. rewrite lookup_insert_ne; [done|]. intros ->. apply Hnx. left.
  - intros b. rewrite <- S1. destruct (decide (b = x)) as [->|]; [rewrite lookup_insert_eq, Hx; split; by eexists|].
    by rewrite lookup_insert_ne.
Qed.

Lemma list_move_tail_spec h head l1 x l2 :
  dll h head (l1 ++ x :: l2) ->
  exists h', list_move_tail h x head = Ret h' /\ dll h' head (l1 ++ l2 ++ [x]).
Proof.
  intros Hdl. pose proof Hdl as [Hnd Hl]. apply links_app in Hl as [Hl1 _].
  destruct (links_prev _ _ _ _ Hl1) as [Hpx _]. apply prev_is_Some in Hpx.
  destruct (list_unlink h head l1 x l2 Hdl) as (h1 & Hr & Hd1 & S1).
  unfold list_move_tail. rewrite Hr. cbn [mbind outcome_bind].
  destruct (list_add_tail_spec h1 head (l1 ++ l2) x Hd1) as (h2 & -> & Hd2 & _).
  - apply NoDup_cons in Hnd as [Hh Hnd]. apply NoDup_app in Hnd as (_ & Hd & Hnd2). apply NoDup_cons in Hnd2 as [Hx2 _].
    rewrite elem_of_cons, elem_of_app. intros [->|[Hi|Hi]]; [apply Hh, elem_of_app; right; left| |done].
    apply (Hd x Hi). left.
  - by apply S1.
  - exists h2. split; [done|]. by rewrite app_assoc.
Qed.

Lemma list_empty_spec h head l : dll h head l -> list_empty h head = Ret (bool_decide (l = [])).
Proof.
  intros [Hnd Hl]. unfold list_empty. rewrite (links_head _ _ _ _ Hl). cbn [mbind outcome_bind]. f_equal.
  destruct l as [|y l]; simpl; [by rewrite Z.eqb_refl|].
  apply NoDup_cons in Hnd as [Hh _]. destruct (Z.eqb_spec y head) as [->|]; [destruct Hh; left|done].
Qed.

(** ** What the operations leave alone *)

Lemma set_next_frame h a v h' b : set_next h a v = Ret h' -> b <> a -> h' !! b = h !! b.
Proof. unfold set_next. destruct (h !! a); [|done]. intros [= <-] Hb. by rewrite lookup_insert_ne. Qed.
Lemma set_prev_frame h a v h' b : set_prev h a v = Ret h' -> b <> a -> h' !! b = h !! b.
Proof. unfold set_prev. destruct (h !! a); [|done]. intros [= <-] Hb. by rewrite lookup_insert_ne. Qed.

Lemma __list_add_frame h new prev next h' b :
  __list_add h new prev next = Ret h' -> b <> new -> b <> prev -> b <> next -> h' !! b = h !! b.
Proof.
  unfold __list_add. intros H ? ? ?. inv_ret H.
  erewrite set_next_frame, set_prev_frame, set_next_frame, set_prev_frame by done. done.
Qed.
Lemma __list_del_frame h prev next h' b :
  __list_del h prev next = Ret h' -> b <> prev -> b <> next -> h' !! b = h !! b.
Proof. unfold __list_del. intros H ? ?. inv_ret H. erewrite set_next_frame, set_prev_frame by done. done. Qed.

Lemma list_add_tail_frame h new head l h' b :
  dll h head l -> list_add_tail h new head = Ret h' -> b ∉ head :: l -> b <> new -> h' !! b = h !! b.
Proof.
  intros [_ Hl] H Hb Hn. unfold list_add_tail in H. apply outcome_bind_Ret in H as (q & Hq & H).
  destruct (links_prev _ _ _ _ Hl) as [Hp _]. pose proof (lastn_in head l). assert (q = lastn head l) as -> by congruence.
  eapply __list_add_frame; [done|done| |]; intros ->; set_solver.
Qed.

Lemma list_add_frame h new head l h' b :
  dll h head l -> list_add h new head = Ret h' -> b ∉ head :: l -> b <> new -> h' !! b = h !! b.
Proof.
  intros [_ Hl] H Hb Hn. unfold list_add in H. rewrite (links_head _ _ _ _ Hl) in H. cbn [mbind outcome_bind] in H.
  eapply __list_add_frame; [done|done| |]; [intros ->; set_solver|]. destruct l; cbn [hd]; intros ->; set_solver.
Qed.

Lemma list_del_frame h head l1 x l2 h' b :
  dll h head (l1 ++ x :: l2) -> list_del h x = Ret h' -> b ∉ head :: l1 ++ x :: l2 -> h' !! b = h !! b.
Proof.
  intros [_ [Hl1 Hl2]%links_app] H Hb. unfold list_del, __list_del_entry in H. apply outcome_bind_Ret in H as (h1 & Hd & H).
  apply outcome_bind_Ret in Hd as (q & Hq & Hd). apply outcome_bind_Ret in Hd as (n & Hn' & Hd).
  apply outcome_bind_Ret in H as (h2 & H2 & H).
  destruct (links_prev _ _ _ _ Hl1) as [Hp _]. pose proof (links_head _ _ _ _ Hl2) as Hn.
  pose proof (lastn_in head l1). assert (hd head l2 ∈ head :: l2) by (destruct l2; set_solver).
  assert (q = lastn head l1) as -> by congruence. assert (n = hd head l2) as -> by congruence.
  assert (b <> x) by set_solver.
  rewrite (set_prev_frame _ _ _ _ b H), (set_next_frame _ _ _ _ b H2) by done.
  eapply __list_del_frame; [done| |]; intros ->; set_solver.
Qed.

Lemma dll_frame h h' head l : dll h head l -> (forall b, b ∈ head :: l -> h' !! b = h !! b) -> dll h' head l.
Proof.
  intros [Hnd Hl] Hf. split; [done|]. apply (links_frame h); [| | |done];
    intros; unfold next_of, prev_of; rewrite Hf; set_solver.
Qed.
