(* ===== verification/ListOps.v ===== *)
(** * Splicing, cutting and walking lists; hash lists (ukern/inc/list.h)

    The operations of list.h on whole segments of a ring, the loops of the
    iteration macros, and the lists with a one-pointer head.  The theorems
    relate each of them to the operation on the lists of entries. *)
From S2P Require Import Prelude CList.

(** ** Rings *)

Definition list_replace (h : lheap) (old new : Z) : outcome lheap :=
  n ← next_of h old;
  h ← set_next h new n;
  n ← next_of h new;
  h ← set_prev h n new;
  p ← prev_of h old;
  h ← set_prev h new p;
  p ← prev_of h new;
  set_next h p new.
Definition list_replace_init (h : lheap) (old new : Z) : outcome lheap :=
  h ← list_replace h old new; INIT_LIST_HEAD h old.

Definition __list_cut_position (h : lheap) (list head entry : Z) : outcome lheap :=
  new_first ← next_of h entry;
  f ← next_of h head;
  h ← set_next h list f;
  f ← next_of h list;
  h ← set_prev h f list;
  h ← set_prev h list entry;
  h ← set_next h entry list;
  h ← set_next h head new_first;
  set_prev h new_first head.
Definition list_cut_position (h : lheap) (list head entry : Z) : outcome lheap :=
  e ← list_empty h head;
  if (e : bool) then Ret h else
  s ← list_is_singular h head;
  n ← next_of h head;
  if s && (negb (n =? entry) && negb (head =? entry)) then Ret h else
  if entry =? head then INIT_LIST_HEAD h list else __list_cut_position h list head entry.

Definition __list_splice (h : lheap) (list prev next : Z) : outcome lheap :=
  first ← next_of h list;
  last ← prev_of h list;
  h ← set_prev h first prev;
  h ← set_next h prev first;
  h ← set_next h last next;
  set_prev h next last.
Definition list_splice (h : lheap) (list head : Z) : outcome lheap :=
  e ← list_empty h list;
  if (e : bool) then Ret h else n ← next_of h head; __list_splice h list head n.
Definition list_splice_tail (h : lheap) (list head : Z) : outcome lheap :=
  e ← list_empty h list;
  if (e : bool) then Ret h else p ← prev_of h head; __list_splice h list p head.
Definition list_splice_init (h : lheap) (list head : Z) : outcome lheap :=
  e ← list_empty h list;
  if (e : bool) then Ret h else
  n ← next_of h head; h ← __list_splice h list head n; INIT_LIST_HEAD h list.
Definition list_splice_tail_init (h : lheap) (list head : Z) : outcome lheap :=
  e ← list_empty h list;
  if (e : bool) then Ret h else
  p ← prev_of h head; h ← __list_splice h list p head; INIT_LIST_HEAD h list.

(** The entry macros, up to [container_of]. *)
Definition list_last_entry (h : lheap) (ptr : Z) : outcome Z := prev_of h ptr.
Definition list_first_entry_or_null (h : lheap) (ptr : Z) : outcome Z :=
  e ← list_empty h ptr; if negb e then list_first_entry h ptr else Ret 0.
Definition list_next_entry (h : lheap) (pos : Z) : outcome Z := next_of h pos.
Definition list_prev_entry (h : lheap) (pos : Z) : outcome Z := prev_of h pos.

(** The iteration macros: a body that works on the heap and on a value of
    its own. *)
Section Loops.
Context {A : Type} (body : A -> Z -> lheap -> outcome (A * lheap)).

Fixpoint list_for_each_from (fuel : nat) (a : A) (h : lheap) (pos head : Z) : outcome (A * lheap) :=
  match fuel with
  | O => Diverge
  | S f =>
      if pos =? head then Ret (a, h) else
      r ← body a pos h; n ← next_of r.2 pos; list_for_each_from f r.1 r.2 n head
  end.
Definition list_for_each (fuel : nat) (a : A) (h : lheap) (head : Z) : outcome (A * lheap) :=
  pos ← next_of h head; list_for_each_from fuel a h pos head.

Fixpoint list_for_each_prev_from (fuel : nat) (a : A) (h : lheap) (pos head : Z) : outcome (A * lheap) :=
  match fuel with
  | O => Diverge
  | S f =>
      if pos =? head then Ret (a, h) else
      r ← body a pos h; p ← prev_of r.2 pos; list_for_each_prev_from f r.1 r.2 p head
  end.
Definition list_for_each_prev (fuel : nat) (a : A) (h : lheap) (head : Z) : outcome (A * lheap) :=
  pos ← prev_of h head; list_for_each_prev_from fuel a h pos head.

Fixpoint list_for_each_safe_from (fuel : nat) (a : A) (h : lheap) (pos n head : Z) : outcome (A * lheap) :=
  match fuel with
  | O => Diverge
  | S f =>
      if pos =? head then Ret (a, h) else
      r ← body a pos h; n' ← next_of r.2 n; list_for_each_safe_from f r.1 r.2 n n' head
  end.
Definition list_for_each_safe (fuel : nat) (a : A) (h : lheap) (head : Z) : outcome (A * lheap) :=
  pos ← next_of h head; n ← next_of h pos; list_for_each_safe_from fuel a h pos n head.
End Loops.

(** *** The pointers after a write *)

Lemma set_next_obs h a v :
  is_Some (h !! a) -> exists h', set_next h a v = Ret h' /\
    (forall b, next_of h' b = if decide (b = a) then Ret v else next_of h b) /\
    (forall b, prev_of h' b = prev_of h b) /\ (forall b, is_Some (h' !! b) <-> is_Some (h !! b)).
Proof.
  intros Hs. destruct (set_next_spec h a v Hs) as (h' & ? & E & N & P & S). exists h'. split_and!; [done| |done..].
  intros b. case_decide as Hb; [by rewrite Hb|by apply N].
Qed.
Lemma set_prev_obs h a v :
  is_Some (h !! a) -> exists h', set_prev h a v = Ret h' /\
    (forall b, prev_of h' b = if decide (b = a) then Ret v else prev_of h b) /\
    (forall b, next_of h' b = next_of h b) /\ (forall b, is_Some (h' !! b) <-> is_Some (h !! b)).
Proof.
  intros Hs. destruct (set_prev_spec h a v Hs) as (h' & ? & E & N & P & S). exists h'. split_and!; [done| |done..].
  intros b. case_decide as Hb; [by rewrite Hb|by apply N].
Qed.

(** One write of an operation, the node being there. *)
Ltac write_next h' N P S :=
  match goal with |- context [set_next ?h ?a ?v] =>
    destruct (set_next_obs h a v) as (h' & -> & N & P & S); [|cbn [mbind outcome_bind]] end.
Ltac write_prev h' N P S :=
  match goal with |- context [set_prev ?h ?a ?v] =>
    destruct (set_prev_obs h a v) as (h' & -> & N & P & S); [|cbn [mbind outcome_bind]] end.
(** Two nodes differ by a hypothesis on their segments. *)
Ltac ne_solve := solve [done | eauto | apply not_eq_sym; eauto | multimatch goal with H : _ |- _ => apply H; done end
  | apply not_eq_sym; multimatch goal with H : _ |- _ => apply H; done end].
Ltac read_ptr E := rewrite E; cbn [mbind outcome_bind].

(** The pointers after [INIT_LIST_HEAD]. *)
Lemma INIT_LIST_HEAD_spec h a :
  is_Some (h !! a) -> exists h', INIT_LIST_HEAD h a = Ret h' /\ dll h' a [] /\
    (forall b, b <> a -> h' !! b = h !! b).
Proof.
  intros Hs. unfold INIT_LIST_HEAD. destruct Hs as [n Hn]. unfold set_next. rewrite Hn. cbn [mbind outcome_bind].
  unfold set_prev. rewrite lookup_insert_eq. eexists. split; [done|]. split.
  - split; [apply NoDup_singleton|]. unfold links, next_of, prev_of. rewrite !lookup_insert_eq. done.
  - intros b Hb. by rewrite !lookup_insert_ne.
Qed.

Lemma dll_nodes h head l x : dll h head l -> x ∈ head :: l -> is_Some (h !! x).
Proof.
  intros [_ Hl] [-> | Hx]%elem_of_cons; [by eapply next_is_Some, links_head|].
  apply list_elem_of_split in Hx as (l1 & l2 & ->). apply links_app in Hl as [Hl _].
  destruct (links_prev _ _ _ _ Hl) as [Hp _]. by eapply prev_is_Some.
Qed.

Lemma dll_next h head l : dll h head l -> next_of h head = Ret (hd head l).
Proof. intros [_ Hl]. by apply links_head. Qed.
Lemma dll_prev h head l : dll h head l -> prev_of h head = Ret (lastn head l).
Proof. intros [_ Hl]. by apply links_prev. Qed.

Lemma hd_in (a : Z) l : hd a l ∈ a :: l.
Proof. destruct l; simpl; set_solver. Qed.

(** A ring seen from another of its nodes. *)
Lemma dll_rotate h head l1 x l2 : dll h head (l1 ++ x :: l2) -> dll h x (l2 ++ head :: l1).
Proof.
  intros [Hnd Hl]. split.
  - eapply NoDup_Permutation_proper; [|exact Hnd]. rewrite !app_comm_cons, (Permutation_app_comm (x :: l2)). done.
  - apply links_app in Hl as [H1 H2]. by apply links_app.
Qed.

(** A segment out of a ring: redirecting its last edge to a new end. *)
Lemma links_tail h head x l : links h head (x :: l) head -> links h x l head.
Proof. intros (_ & _ & H). exact H. Qed.

(** *** Splicing *)

(** Behind the node [p], to which the ring is turned. *)
Lemma splice_behind h list l p r :
  dll h list l -> l <> [] -> dll h p r -> (forall x, x ∈ list :: l -> x ∉ p :: r) ->
  exists h', __list_splice h list p (hd p r) = Ret h' /\ dll h' p (l ++ r) /\
    (forall b, is_Some (h' !! b) <-> is_Some (h !! b)).
Proof.
  intros Hl Hne Hd Hdis. destruct l as [|f l]; [done|]. clear Hne.
  pose proof Hl as [[Hlist Hfl]%NoDup_cons (_ & _ & Hseg)]. pose proof Hd as [Hnd Hring].
  set (n := hd p r). set (z := lastn f l).
  assert (n ∈ p :: r) as Hn by apply hd_in. assert (z ∈ f :: l) as Hz by apply lastn_in.
  assert (f ∈ f :: l) as Hf by left. assert (p ∈ p :: r) as Hp by left.
  assert (forall x y, x ∈ f :: l -> y ∈ p :: r -> x <> y) as Hxy
    by (intros x y Hx Hy ->; by apply (Hdis y); [right|]).
  unfold __list_splice. read_ptr (dll_next _ _ _ Hl). read_ptr (proj1 (links_prev _ _ _ _ Hseg)). cbn [hd]. fold z.
  write_prev h1 P1 N1 S1; [eapply dll_nodes; [exact Hl|by right]|].
  write_next h2 N2 P2 S2; [apply S1; by eapply dll_nodes|].
  write_next h3 N3 P3 S3; [apply S2, S1; eapply dll_nodes; [exact Hl|by right]|].
  write_prev h4 P4 N4 S4; [apply S3, S2, S1; by eapply dll_nodes|].
  exists h4. split; [done|]. split; [|intros b; by rewrite S4, S3, S2, S1].
  assert (forall b, next_of h4 b = if decide (b = z) then Ret n else if decide (b = p) then Ret f else next_of h b) as HN
    by (intros b; by rewrite N4, N3, N2, N1).
  assert (forall b, prev_of h4 b = if decide (b = n) then Ret z else if decide (b = f) then Ret p else prev_of h b) as HP
    by (intros b; by rewrite P4, P3, P2, P1).
  clear N1 N2 N3 N4 P1 P2 P3 P4 S1 S2 S3 S4. split.
  { apply (NoDup_Permutation_proper ((f :: l) ++ p :: r)); [symmetry; apply Permutation_middle|].
    apply NoDup_app. split_and!; [done| |done]. intros x Hx Hx2. by apply (Hxy x x). }
  assert (links h4 f l n) as Hmid.
  { apply (links_redirect h h4 f l list n); [done| |done| | | |].
    - intros Hx. apply (Hxy n n); [by right|done..].
    - fold z. by rewrite HN, decide_True.
    - fold z. by rewrite HP, decide_True.
    - fold z. intros x Hx Hxz. by rewrite HN, !decide_False by ne_solve.
    - intros x Hx. apply NoDup_cons in Hfl as [Hf' _]. rewrite HP, !decide_False; [done|by intros ->|].
      apply Hxy; [by right|done]. }
  cbn [app links]. split_and!.
  - by rewrite HN, decide_False, decide_True by ne_solve.
  - by rewrite HP, decide_False, decide_True by ne_solve.
  - destruct r as [|y r]; [by rewrite app_nil_r|]. apply links_app. split; [exact Hmid|].
    apply links_tail in Hring. apply NoDup_cons in Hnd as [Hp' [Hy _]%NoDup_cons]. cbn [hd] in n. subst n.
    apply (links_frame h); [| | |done].
    + intros x Hx. rewrite HN, !decide_False; [done|by intros ->|]. apply not_eq_sym, Hxy; [done|by right].
    + intros x Hx. rewrite HP, !decide_False; [done| |by intros ->]. apply not_eq_sym, Hxy; [done|by right; right].
    + rewrite HP, !decide_False; [done| |]; [by apply not_eq_sym, Hxy|]. intros ->. apply Hp'. left.
Qed.

Lemma __list_splice_spec h list l head l1 l2 :
  dll h list l -> l <> [] -> dll h head (l1 ++ l2) -> (forall x, x ∈ list :: l -> x ∉ head :: l1 ++ l2) ->
  exists h', __list_splice h list (lastn head l1) (hd head l2) = Ret h' /\ dll h' head (l1 ++ l ++ l2) /\
    (forall b, is_Some (h' !! b) <-> is_Some (h !! b)).
Proof.
  intros Hl Hne Hd Hdis. destruct l1 as [|p l1 _] using rev_ind; [exact (splice_behind h list l head l2 Hl Hne Hd Hdis)|].
  rewrite lastn_snoc, <- !app_assoc in *. cbn [app] in *. pose proof (dll_rotate _ _ _ _ _ Hd) as Hr.
  destruct (splice_behind h list l p (l2 ++ head :: l1) Hl Hne Hr) as (h' & He & Hd' & Hs).
  { intros x Hx Hin. apply (Hdis x Hx). rewrite !elem_of_cons, !elem_of_app, !elem_of_cons in *. tauto. }
  exists h'. split_and!; [by destruct l2| |done].
  rewrite app_assoc in Hd'. by apply dll_rotate in Hd'.
Qed.

(** The four operations that join two rings. *)
Lemma list_splice_spec h list l head r :
  dll h list l -> dll h head r -> (forall x, x ∈ list :: l -> x ∉ head :: r) ->
  exists h', list_splice h list head = Ret h' /\ dll h' head (l ++ r) /\ (forall b, is_Some (h' !! b) <-> is_Some (h !! b)).
Proof.
  intros Hl Hd Hdis. unfold list_splice. read_ptr (list_empty_spec _ _ _ Hl). case_bool_decide as He.
  - subst l. by exists h.
  - read_ptr (dll_next _ _ _ Hd). by apply (__list_splice_spec h list l head [] r).
Qed.
Lemma list_splice_tail_spec h list l head r :
  dll h list l -> dll h head r -> (forall x, x ∈ list :: l -> x ∉ head :: r) ->
  exists h', list_splice_tail h list head = Ret h' /\ dll h' head (r ++ l) /\ (forall b, is_Some (h' !! b) <-> is_Some (h !! b)).
Proof.
  intros Hl Hd Hdis. unfold list_splice_tail. read_ptr (list_empty_spec _ _ _ Hl). case_bool_decide as He.
  - subst l. rewrite app_nil_r. by exists h.
  - read_ptr (dll_prev _ _ _ Hd). assert (exists h', __list_splice h list (lastn head r) (hd head []) = Ret h' /\ dll h' head (r ++ l ++ []) /\
      (forall b, is_Some (h' !! b) <-> is_Some (h !! b))) as Hx by (apply __list_splice_spec; by rewrite ?app_nil_r).
    by rewrite app_nil_r in Hx.
Qed.

(** The emptied head of an [_init] operation. *)
Lemma reinit_emptied h list head l :
  dll h head l -> list ∉ head :: l -> is_Some (h !! list) ->
  exists h', INIT_LIST_HEAD h list = Ret h' /\ dll h' head l /\ dll h' list [].
Proof.
  intros Hd Hn Hs. destruct (INIT_LIST_HEAD_spec h list Hs) as (h' & ? & ? & Hf). exists h'. split_and!; [done| |done].
  eapply dll_frame; [exact Hd|]. intros b Hb. apply Hf. by intros ->.
Qed.

Lemma list_splice_init_spec h list l head r :
  dll h list l -> dll h head r -> (forall x, x ∈ list :: l -> x ∉ head :: r) ->
  (exists h', list_splice_init h list head = Ret h' /\ dll h' head (l ++ r) /\ dll h' list []) /\
  (exists h', list_splice_tail_init h list head = Ret h' /\ dll h' head (r ++ l) /\ dll h' list []).
Proof.
  intros Hl Hd Hdis. assert (list ∉ head :: l ++ r /\ list ∉ head :: r ++ l) as [Ho1 Ho2].
  { pose proof (proj1 Hl) as [Hn _]%NoDup_cons. pose proof (Hdis list ltac:(left)) as Hx.
    rewrite !elem_of_cons, !elem_of_app in *. tauto. }
  assert (is_Some (h !! list)) as Hs by (eapply dll_nodes; [exact Hl|left]).
  destruct (list_splice_spec h list l head r Hl Hd Hdis) as (h1 & E1 & D1 & S1).
  destruct (list_splice_tail_spec h list l head r Hl Hd Hdis) as (h2 & E2 & D2 & S2).
  unfold list_splice, list_splice_tail in E1, E2. unfold list_splice_init, list_splice_tail_init.
  rewrite (list_empty_spec _ _ _ Hl) in *. cbn [mbind outcome_bind] in *. case_bool_decide as He.
  - subst l. rewrite app_nil_r. split; by exists h.
  - rewrite (dll_next _ _ _ Hd), (dll_prev _ _ _ Hd) in *. cbn [mbind outcome_bind] in *. rewrite E1, E2. cbn [mbind outcome_bind].
    split; apply reinit_emptied; [done|done|by apply S1|done|done|by apply S2].
Qed.

(** *** Cutting *)

(** The pointers after the cut, on either side of it. *)
Lemma cut_pointers h list head f e nf :
  next_of h e = Ret nf -> next_of h head = Ret f ->
  is_Some (h !! list) -> is_Some (h !! f) -> is_Some (h !! nf) ->
  exists h', __list_cut_position h list head e = Ret h' /\
    (forall b, next_of h' b = if decide (b = head) then Ret nf else if decide (b = e) then Ret list
      else if decide (b = list) then Ret f else next_of h b) /\
    (forall b, prev_of h' b = if decide (b = nf) then Ret head else if decide (b = list) then Ret e
      else if decide (b = f) then Ret list else prev_of h b).
Proof.
  intros He Hh Hl Hf Hn. unfold __list_cut_position. read_ptr He. read_ptr Hh.
  write_next h1 N1 P1 S1; [done|]. rewrite (N1 list), decide_True by done. cbn [mbind outcome_bind].
  write_prev h2 P2 N2 S2; [by apply S1|].
  write_prev h3 P3 N3 S3; [by apply S2, S1|].
  write_next h4 N4 P4 S4; [apply S3, S2, S1; by eapply next_is_Some|].
  write_next h5 N5 P5 S5; [apply S4, S3, S2, S1; by eapply next_is_Some|].
  write_prev h6 P6 N6 S6; [by apply S5, S4, S3, S2, S1|].
  exists h6. split_and!; [done|intros b; by rewrite N6, N5, N4, N3, N2, N1|intros b; by rewrite P6, P5, P4, P3, P2, P1].
Qed.

(** The ring [f :: rest ++ l2] cut behind the last entry of [f :: rest]. *)
Lemma cut_behind h list head f rest l2 :
  dll h head ((f :: rest) ++ l2) -> list ∉ head :: (f :: rest) ++ l2 -> is_Some (h !! list) ->
  exists h', __list_cut_position h list head (lastn f rest) = Ret h' /\ dll h' list (f :: rest) /\ dll h' head l2.
Proof.
  intros Hd Hlist Hs. set (nf := hd head l2). set (e := lastn f rest).
  assert (links h f rest nf) as Hseg.
  { assert (links h f (rest ++ l2) head) as Hr by exact (links_tail _ _ _ _ (proj2 Hd)). unfold nf.
    destruct l2; [by rewrite app_nil_r in Hr|by apply links_app in Hr as [? _]]. }
  pose proof (proj1 Hd) as [Hh (Hnd1 & Hd12 & Hnd2)%NoDup_app]%NoDup_cons.
  rewrite elem_of_cons, elem_of_app in Hlist. rewrite elem_of_app in Hh.
  assert (e ∈ f :: rest) as He by apply lastn_in. assert (nf ∈ head :: l2) as Hnf by apply hd_in.
  assert (f ∈ f :: rest) as Hf by left. assert (head ∈ head :: l2) as Hhd by left.
  assert (forall x y, x ∈ f :: rest -> y ∈ head :: l2 -> x <> y) as Hxy.
  { intros x y Hx [-> | Hy]%elem_of_cons ->; [tauto|by apply (Hd12 y)]. }
  assert (forall x, x ∈ f :: rest -> x <> list) as Hl1 by (intros x Hx ->; tauto).
  assert (forall x, x ∈ head :: l2 -> x <> list) as Hl2 by (intros x [-> | Hx]%elem_of_cons ->; tauto).
  destruct (cut_pointers h list head f e nf) as (h' & Hr & HN & HP);
    [by apply links_prev|exact (dll_next _ _ _ Hd)|done|..].
  { eapply dll_nodes; [exact Hd|]. by right; left. }
  { eapply dll_nodes; [exact Hd|]. rewrite elem_of_cons, elem_of_app in *. tauto. }
  exists h'. split; [exact Hr|]. clear Hr. split; split.
  - apply NoDup_cons. tauto.
  - cbn [links]. split_and!.
    + by rewrite HN, !decide_False, decide_True by ne_solve.
    + by rewrite HP, !decide_False, decide_True by ne_solve.
    + apply (links_redirect h h' f rest nf list); [done| |exact Hseg| | | |].
      * intros Hx. by apply (Hl1 list); [right|].
      * fold e. by rewrite HN, decide_False, decide_True by ne_solve.
      * fold e. by rewrite HP, decide_False, decide_True by ne_solve.
      * fold e. intros x Hx Hxe. by rewrite HN, !decide_False by ne_solve.
      * intros x Hx. apply NoDup_cons in Hnd1 as [Hf1 _]. rewrite HP, !decide_False; [done|by intros ->| |];
          [apply Hl1|apply Hxy]; by auto || by right.
  - apply NoDup_cons. tauto.
  - destruct l2 as [|y l2]; cbn [links hd] in *; unfold nf in *.
    + by rewrite HN, HP, !decide_True.
    + rewrite HN, HP, !decide_True by done. split_and!; [done..|].
      pose proof (proj2 Hd) as [_ Hl]%links_app. apply NoDup_cons in Hnd2 as [Hy _].
      apply (links_frame h); [| | |exact Hl].
      * intros x Hx. rewrite HN, !decide_False; [done| | |]; [apply Hl2; by right|apply not_eq_sym, Hxy; [done|by right]|].
        intros ->. tauto.
      * intros x Hx. rewrite HP, !decide_False; [done| | |by intros ->];
          [apply not_eq_sym, Hxy; [done|by right; right]|apply Hl2; by right; right].
      * rewrite HP, !decide_False; [done|by apply not_eq_sym, Hxy|by apply Hl2|]. intros ->. apply Hh. right. left.
Qed.

Lemma lastn_last a b l : lastn a (b :: l) ∈ b :: l.
Proof. destruct l as [|c l _] using rev_ind; [left|]. rewrite app_comm_cons, lastn_snoc. set_solver. Qed.

Lemma list_is_singular_spec h head l : dll h head l -> list_is_singular h head = Ret (bool_decide (length l = 1%nat)).
Proof.
  intros Hd. unfold list_is_singular. read_ptr (list_empty_spec _ _ _ Hd). read_ptr (dll_next _ _ _ Hd).
  read_ptr (dll_prev _ _ _ Hd). f_equal. destruct l as [|x [|y l]]; [done|cbn; by rewrite Z.eqb_refl|].
  destruct Hd as [[_ [Hx _]%NoDup_cons]%NoDup_cons _]. rewrite !bool_decide_eq_false_2 by (cbn; lia || done).
  cbn [hd negb andb]. apply Z.eqb_neq. intros Hxe. apply Hx. rewrite Hxe. unfold lastn. rewrite last_cons_cons. exact (lastn_last head y l).
Qed.

(** [list_cut_position] moves the entries up to [e] to [list]. *)
Lemma list_cut_spec h list head l1 e l2 :
  dll h head (l1 ++ e :: l2) -> list ∉ head :: l1 ++ e :: l2 -> is_Some (h !! list) ->
  exists h', list_cut_position h list head e = Ret h' /\ dll h' list (l1 ++ [e]) /\ dll h' head l2.
Proof.
  intros Hd Hl Hs. unfold list_cut_position. read_ptr (list_empty_spec _ _ _ Hd).
  rewrite bool_decide_eq_false_2 by (by destruct l1). read_ptr (list_is_singular_spec _ _ _ Hd). read_ptr (dll_next _ _ _ Hd).
  assert (bool_decide (length (l1 ++ e :: l2) = 1%nat) && (negb (hd head (l1 ++ e :: l2) =? e) && negb (head =? e)) = false) as ->.
  { case_bool_decide as Hone; [|done]. destruct l1 as [|? [|]]; [|done..]. cbn. by rewrite Z.eqb_refl. }
  assert (e <> head) as Hne. { destruct Hd as [[Hh _]%NoDup_cons _]. intros ->. apply Hh, elem_of_app. right. left. }
  apply Z.eqb_neq in Hne as ->.
  assert (exists f rest, l1 ++ [e] = f :: rest) as (f & rest & Hfr) by (destruct l1; by do 2 eexists).
  assert (lastn f rest = e) as Hle.
  { assert (last (f :: rest) = Some e) as Hx by (rewrite <- Hfr; apply last_snoc).
    unfold lastn. destruct rest as [|y rest]; [by injection Hx|]. rewrite last_cons_cons in Hx. by rewrite Hx. }
  rewrite <- Hle in *. clear Hle. assert (l1 ++ lastn f rest :: l2 = (f :: rest) ++ l2) as Hall by (by rewrite <- Hfr, <- app_assoc).
  rewrite Hall in *. rewrite Hfr. by apply cut_behind.
Qed.

(** *** Replacing a node *)
Lemma replace_head h old l new :
  dll h old l -> new ∉ old :: l -> is_Some (h !! new) ->
  exists h', list_replace h old new = Ret h' /\ dll h' new l /\ (forall b, is_Some (h' !! b) <-> is_Some (h !! b)).
Proof.
  intros Hd Hnew Hs. pose proof Hd as [[Hold Hnd]%NoDup_cons Hring]. apply not_elem_of_cons in Hnew as [Hno Hnl].
  unfold list_replace. read_ptr (dll_next _ _ _ Hd). set (f := hd old l). set (z := lastn old l).
  assert (f ∈ old :: l) as Hf by apply hd_in. assert (z ∈ old :: l) as Hz by apply lastn_in.
  write_next h1 N1 P1 S1; [done|]. rewrite (N1 new), decide_True by done. cbn [mbind outcome_bind].
  write_prev h2 P2 N2 S2; [apply S1; by eapply dll_nodes|].
  assert (prev_of h2 old = Ret (if decide (l = []) then new else z)) as Hpo.
  { rewrite P2, P1, (dll_prev _ _ _ Hd). fold z. unfold f. destruct l as [|y l]; [by rewrite !decide_True|].
    rewrite !decide_False; [done|done|]. cbn [hd]. intros Heq. apply Hold. rewrite Heq. left. }
  read_ptr Hpo. set (q := if decide (l = []) then new else z).
  assert (is_Some (h !! q)) as Hq by (unfold q; case_decide; [done|by eapply dll_nodes]).
  write_prev h3 P3 N3 S3; [by apply S2, S1|]. rewrite (P3 new), decide_True by done. cbn [mbind outcome_bind].
  write_next h4 N4 P4 S4; [by apply S3, S2, S1|].
  exists h4. split; [done|]. split; [|intros b; by rewrite S4, S3, S2, S1]. split; [by apply NoDup_cons|].
  assert (forall b, next_of h4 b = if decide (b = q) then Ret new else if decide (b = new) then Ret f else next_of h b) as HN
    by (intros b; by rewrite N4, N3, N2, N1).
  assert (forall b, prev_of h4 b = if decide (b = new) then Ret q else if decide (b = f) then Ret new else prev_of h b) as HP
    by (intros b; by rewrite P4, P3, P2, P1).
  clear N1 N2 N3 N4 P1 P2 P3 P4 S1 S2 S3 S4 Hpo. destruct l as [|y l].
  - unfold q in *. rewrite decide_True in * by done. cbn [links]. by rewrite HN, HP, !decide_True.
  - unfold q in *. rewrite decide_False in * by done. cbn [hd] in f. subst f.
    assert (lastn y l = z) as Hlz by (unfold z, lastn; destruct l; [done|]; rewrite !last_cons_cons; destruct (last _) eqn:E; [done|by apply last_None in E]).
    assert (forall x, x ∈ y :: l -> x <> new) as Hxn by (intros x Hx ->; done).
    assert (z ∈ y :: l) as Hz' by (rewrite <- Hlz; apply lastn_in). cbn [links]. split_and!.
    + by rewrite HN, decide_False, decide_True by (done || by apply not_eq_sym, Hxn).
    + by rewrite HP, decide_False, decide_True by (done || apply Hxn; left).
    + apply (links_redirect h h4 y l old new); [done| |by apply links_tail| | | |].
      * intros Hx. by apply Hnl; right.
      * by rewrite Hlz, HN, decide_True.
      * by rewrite Hlz, HP, decide_True.
      * rewrite Hlz. intros x Hx Hxz. by rewrite HN, !decide_False by ne_solve.
      * intros x Hx. apply NoDup_cons in Hnd as [Hy _]. rewrite HP, !decide_False; [done|by intros ->|]. apply Hxn. by right.
Qed.

Lemma replace_entry h head l1 old l2 new :
  dll h head (l1 ++ old :: l2) -> new ∉ head :: l1 ++ old :: l2 -> is_Some (h !! new) ->
  exists h', list_replace h old new = Ret h' /\ dll h' head (l1 ++ new :: l2) /\ (forall b, is_Some (h' !! b) <-> is_Some (h !! b)).
Proof.
  intros Hd Hn Hs. destruct (replace_head h old (l2 ++ head :: l1) new) as (h' & ? & Hd' & ?); [by apply dll_rotate| |done|].
  - rewrite !elem_of_cons, !elem_of_app, !elem_of_cons in *. tauto.
  - exists h'. split_and!; [done| |done]. by apply dll_rotate.
Qed.

(** *** Walking *)
Section LoopsSpec.
Context {A : Type} (body : A -> Z -> lheap -> outcome (A * lheap)) (f : A -> Z -> A) (head : Z).

(** A body that leaves the ring as it is. *)
Definition keeps_ring (l : list Z) : Prop :=
  forall a x h, dll h head l -> x ∈ l -> exists h', body a x h = Ret (f a x, h') /\ dll h' head l.

(** A body that keeps the entries of [keep] and unlinks the others. *)
Definition unlinks (keep : Z -> bool) : Prop :=
  forall a x l1 l2 h, dll h head (l1 ++ x :: l2) ->
    exists h', body a x h = Ret (f a x, h') /\ dll h' head (l1 ++ (if keep x then [x] else []) ++ l2).

Lemma dll_entry_next h l1 x l2 : dll h head (l1 ++ x :: l2) -> next_of h x = Ret (hd head l2).
Proof. intros [_ [_ H]%links_app]. by apply links_head. Qed.
Lemma dll_entry_prev h l1 x l2 : dll h head (l1 ++ x :: l2) -> prev_of h x = Ret (lastn head l1).
Proof. intros [_ [H _]%links_app]. by apply links_prev. Qed.
Lemma dll_entry_ne h l1 x l2 : dll h head (l1 ++ x :: l2) -> (x =? head) = false.
Proof. intros [[Hh _]%NoDup_cons _]. apply Z.eqb_neq. intros ->. apply Hh, elem_of_app. right. left. Qed.

Lemma for_each_from l l1 l2 a h fuel :
  keeps_ring l -> l = l1 ++ l2 -> dll h head l -> (length l2 < fuel)%nat ->
  exists h', list_for_each_from body fuel a h (hd head l2) head = Ret (foldl f a l2, h') /\ dll h' head l.
Proof.
  intros Hk Hl. revert l1 Hl a h fuel. induction l2 as [|x l2 IH]; intros l1 Hl a h [|fuel] Hd Hf; [cbn in Hf; lia| |cbn in Hf; lia|].
  - cbn. rewrite Z.eqb_refl. by exists h.
  - cbn [list_for_each_from hd foldl]. rewrite Hl in Hd. rewrite (dll_entry_ne _ _ _ _ Hd). rewrite <- Hl in Hd.
    destruct (Hk a x h Hd) as (h1 & -> & Hd1); [rewrite Hl; set_solver|]. cbn [mbind outcome_bind fst snd].
    rewrite Hl in Hd1. read_ptr (dll_entry_next _ _ _ _ Hd1). rewrite <- Hl in Hd1.
    apply (IH (l1 ++ [x])); [by rewrite <- app_assoc|done|cbn in Hf; lia].
Qed.

Lemma for_each_prev_from l l1 l2 a h fuel :
  keeps_ring l -> l = l1 ++ l2 -> dll h head l -> (length l1 < fuel)%nat ->
  exists h', list_for_each_prev_from body fuel a h (lastn head l1) head = Ret (foldl f a (reverse l1), h') /\ dll h' head l.
Proof.
  intros Hk. revert l2 a h fuel. induction l1 as [|x l1 IH] using rev_ind; intros l2 a h [|fuel] Hl Hd Hf;
    [lia| |lia|].
  - cbn. rewrite Z.eqb_refl. by exists h.
  - rewrite length_app in Hf. cbn in Hf. rewrite <- app_assoc in Hl. cbn [app] in Hl.
    rewrite lastn_snoc, reverse_snoc. cbn [list_for_each_prev_from foldl].
    rewrite Hl in Hd. rewrite (dll_entry_ne _ _ _ _ Hd). rewrite <- Hl in Hd.
    destruct (Hk a x h Hd) as (h1 & -> & Hd1); [rewrite Hl; set_solver|]. cbn [mbind outcome_bind fst snd].
    rewrite Hl in Hd1. read_ptr (dll_entry_prev _ _ _ _ Hd1). rewrite <- Hl in Hd1.
    by apply (IH (x :: l2)); [| |lia].
Qed.

Lemma for_each_safe_from keep l1 l2 a h fuel n :
  unlinks keep -> dll h head (l1 ++ l2) -> (length l2 < fuel)%nat -> next_of h (hd head l2) = Ret n ->
  exists h', list_for_each_safe_from body fuel a h (hd head l2) n head = Ret (foldl f a l2, h') /\
    dll h' head (l1 ++ List.filter keep l2).
Proof.
  intros Hu. revert l1 a h fuel n. induction l2 as [|x l2 IH]; intros l1 a h [|fuel] n Hd Hf Hn; [cbn in Hf; lia| |cbn in Hf; lia|].
  - cbn. rewrite Z.eqb_refl. by exists h.
  - cbn [list_for_each_safe_from hd foldl] in *. rewrite (dll_entry_ne _ _ _ _ Hd).
    rewrite (dll_entry_next _ _ _ _ Hd) in Hn. injection Hn as <-.
    destruct (Hu a x l1 l2 h Hd) as (h1 & -> & Hd1). cbn [mbind outcome_bind fst snd].
    set (k := if keep x then [x] else []) in *. rewrite app_assoc in Hd1.
    assert (exists n', next_of h1 (hd head l2) = Ret n') as [n' Hn'].
    { destruct l2 as [|y l2]; cbn [hd].
      - rewrite app_nil_r in Hd1. eexists. by apply dll_next in Hd1.
      - eexists. by apply dll_entry_next in Hd1. }
    read_ptr Hn'. destruct (IH (l1 ++ k) (f a x) h1 fuel n' Hd1 ltac:(cbn in Hf; lia) Hn') as (h' & -> & Hd').
    exists h'. split; [done|]. rewrite <- app_assoc in Hd'. cbn [List.filter]. unfold k in Hd'. by destruct (keep x).
Qed.
End LoopsSpec.

(** *** Properties *)

Lemma rotate_spec h head l :
  dll h head l -> exists h', list_rotate_left h head = Ret h' /\ dll h' head (tail l ++ option_list (hd_error l)).
Proof.
  intros Hd. unfold list_rotate_left. read_ptr (list_empty_spec h head l Hd). destruct l as [|y l]; [by exists h|].
  rewrite bool_decide_eq_false_2 by done. read_ptr (dll_next _ _ _ Hd). exact (list_move_tail_spec h head [] y l Hd).
Qed.

(** C24: on well-formed rings the pointer operations of list.h are operations
    on the lists of entries: [list_add] pushes at the front, [list_add_tail]
    at the back, [list_del] removes its entry and leaves it poisoned,
    [list_replace] substitutes one, [list_empty] tests for the empty list and
    [list_rotate_left] moves the first entry to the back; [list_splice] and
    [list_splice_tail] put the entries of another ring before or behind those
    of this one, and the [_init] forms leave that ring empty;
    [list_cut_position] splits a ring behind an entry.  None of them faults.
    [list_for_each] applies its body to the entries in order,
    [list_for_each_prev] in reverse order, and [list_for_each_safe] also when
    the body unlinks entries: exactly those it keeps remain. *)
Theorem list_ops_refine (h : lheap) (l l1 l2 r : list Z) (head x y list : Z) (Hd : dll h head l) :
  (x ∉ head :: l -> is_Some (h !! x) ->
     (exists h', list_add h x head = Ret h' /\ dll h' head (x :: l)) /\
     (exists h', list_add_tail h x head = Ret h' /\ dll h' head (l ++ [x])) /\
     (l = l1 ++ y :: l2 -> exists h', list_replace h y x = Ret h' /\ dll h' head (l1 ++ x :: l2))) /\
  (l = l1 ++ x :: l2 ->
     exists h', list_del h x = Ret h' /\ dll h' head (l1 ++ l2) /\ h' !! x = Some (mkHead LIST_POISON1 LIST_POISON2)) /\
  list_empty h head = Ret (bool_decide (l = [])) /\
  (exists h', list_rotate_left h head = Ret h' /\ dll h' head (tail l ++ option_list (hd_error l))) /\
  (dll h list r -> (forall z, z ∈ list :: r -> z ∉ head :: l) ->
     (exists h', list_splice h list head = Ret h' /\ dll h' head (r ++ l)) /\
     (exists h', list_splice_tail h list head = Ret h' /\ dll h' head (l ++ r)) /\
     (exists h', list_splice_init h list head = Ret h' /\ dll h' head (r ++ l) /\ dll h' list []) /\
     (exists h', list_splice_tail_init h list head = Ret h' /\ dll h' head (l ++ r) /\ dll h' list [])) /\
  (l = l1 ++ x :: l2 -> list ∉ head :: l -> is_Some (h !! list) ->
     exists h', list_cut_position h list head x = Ret h' /\ dll h' list (l1 ++ [x]) /\ dll h' head l2) /\
  (forall A (body : A -> Z -> lheap -> outcome (A * lheap)) f a fuel, (length l < fuel)%nat ->
     (keeps_ring body f head l ->
        (exists h', list_for_each body fuel a h head = Ret (foldl f a l, h') /\ dll h' head l) /\
        (exists h', list_for_each_prev body fuel a h head = Ret (foldl f a (reverse l), h') /\ dll h' head l)) /\
     (forall keep, unlinks body f head keep ->
        exists h', list_for_each_safe body fuel a h head = Ret (foldl f a l, h') /\ dll h' head (List.filter keep l))).
Proof.
  split_and!.
  - intros Hx Hs. destruct (list_add_spec h head l x Hd Hx Hs) as (h1 & ? & ? & _).
    destruct (list_add_tail_spec h head l x Hd Hx Hs) as (h2 & ? & ? & _). split_and!; [by exists h1|by exists h2|].
    intros ->. destruct (replace_entry h head l1 y l2 x Hd Hx Hs) as (h3 & ? & ? & _). by exists h3.
  - intros ->. destruct (list_del_spec h head l1 x l2 Hd) as (h' & ? & ? & ? & _). by exists h'.
  - by apply list_empty_spec.
  - by apply rotate_spec.
  - intros Hr Hdis. destruct (list_splice_spec h list r head l Hr Hd Hdis) as (h1 & ? & ? & _).
    destruct (list_splice_tail_spec h list r head l Hr Hd Hdis) as (h2 & ? & ? & _).
    split_and!; [by exists h1|by exists h2|by apply (list_splice_init_spec h list r head l)..].
  - intros -> Hl Hs. by apply list_cut_spec.
  - intros A body f a fuel Hf. split; [intros Hk; split|intros keep Hu].
    + unfold list_for_each. read_ptr (dll_next _ _ _ Hd). by apply (for_each_from body f head l [] l).
    + unfold list_for_each_prev. read_ptr (dll_prev _ _ _ Hd). apply (for_each_prev_from body f head l l []); by rewrite ?app_nil_r.
    + unfold list_for_each_safe. read_ptr (dll_next _ _ _ Hd).
      assert (is_Some (h !! hd head l)) as [nd Hnd] by (eapply dll_nodes; [exact Hd|apply hd_in]).
      assert (next_of h (hd head l) = Ret (l_next nd)) as Hn by (unfold next_of; by rewrite Hnd).
      read_ptr Hn. by apply (for_each_safe_from body f head keep [] l).
Qed.

Definition demo_ring : lheap :=
  {[ 1 := mkHead 2 3; 2 := mkHead 3 1; 3 := mkHead 1 2; 4 := mkHead 0 0; 5 := mkHead 6 6; 6 := mkHead 5 5 ]}.
(** Emptying a list while walking it, as the kernel does with the entries it frees. *)
Definition demo_drain (a : list Z) (x : Z) (h : lheap) : outcome (list Z * lheap) := h ← list_del h x; Ret (a ++ [x], h).

Lemma list_ops_refine_witness :
  dll demo_ring 1 [2; 3] /\ (exists h', list_del demo_ring 2 = Ret h' /\ dll h' 1 [3]) /\
  (exists h', list_splice_tail_init demo_ring 5 1 = Ret h' /\ dll h' 1 [2; 3; 6] /\ dll h' 5 []) /\
  (exists h', list_cut_position demo_ring 4 1 2 = Ret h' /\ dll h' 4 [2] /\ dll h' 1 [3]) /\
  (exists h', list_for_each_safe demo_drain 3 [] demo_ring 1 = Ret ([2; 3], h') /\ dll h' 1 []).
Proof.
  assert (dll demo_ring 1 [2; 3] /\ dll demo_ring 5 [6]) as [Hd Hr].
  { split; (split; [repeat (apply NoDup_cons; split; [set_solver|]); apply NoDup_nil_2|repeat split; reflexivity]). }
  split; [exact Hd|].
  destruct (list_ops_refine demo_ring [2; 3] [] [3] [6] 1 2 2 5 Hd) as (_ & Hdel & _ & _ & Hspl & _ & Hloop).
  destruct (list_ops_refine demo_ring [2; 3] [] [3] [6] 1 2 2 4 Hd) as (_ & _ & _ & _ & _ & Hcut & _).
  split; [destruct (Hdel eq_refl) as (h' & ? & ? & _); exists h'; split; assumption|].
  split; [apply (Hspl Hr); set_solver|]. split; [apply Hcut; [reflexivity|set_solver|eexists; reflexivity]|].
  apply (Hloop _ demo_drain (fun a x => a ++ [x]) [] 3%nat (le_n _)) with (keep := fun _ => false).
  intros a x l1 l2 h Hx. destruct (list_del_spec h 1 l1 x l2 Hx) as (h' & He & Hd' & _).
  exists h'. unfold demo_drain. rewrite He. split; [reflexivity|exact Hd'].
Defined.

(** ** Hash lists *)

(** The pointers to nodes, by the address they lie at ([first] of a head,
    [next] of a node, the first member of either), and the [pprev] of the
    nodes.  The pointer NULL is 0. *)
Record hheap := mkHheap { h_ptr : gmap Z Z; h_pprev : gmap Z Z }.

Definition ptr_of (h : hheap) (a : Z) : outcome Z := match h_ptr h !! a with Some v => Ret v | None => Fault end.
Definition pprev_of (h : hheap) (a : Z) : outcome Z := match h_pprev h !! a with Some v => Ret v | None => Fault end.
Definition set_ptr (h : hheap) (a v : Z) : outcome hheap :=
  match h_ptr h !! a with Some _ => Ret (mkHheap (<[a := v]> (h_ptr h)) (h_pprev h)) | None => Fault end.
Definition set_pprev (h : hheap) (a v : Z) : outcome hheap :=
  match h_pprev h !! a with Some _ => Ret (mkHheap (h_ptr h) (<[a := v]> (h_pprev h))) | None => Fault end.

Definition INIT_HLIST_HEAD (h : hheap) (ptr : Z) : outcome hheap := set_ptr h ptr 0.
Definition INIT_HLIST_NODE (h : hheap) (n : Z) : outcome hheap :=
  h ← set_ptr h n 0; set_pprev h n 0.
Definition hlist_unhashed (h : hheap) (n : Z) : outcome bool := p ← pprev_of h n; Ret (p =? 0).
Definition hlist_empty (h : hheap) (head : Z) : outcome bool := f ← ptr_of h head; Ret (f =? 0).
Definition __hlist_del (h : hheap) (n : Z) : outcome hheap :=
  next ← ptr_of h n;
  pprev ← pprev_of h n;
  h ← set_ptr h pprev next;
  if negb (next =? 0) then set_pprev h next pprev else Ret h.
Definition hlist_del (h : hheap) (n : Z) : outcome hheap :=
  h ← __hlist_del h n; h ← set_ptr h n LIST_POISON1; set_pprev h n LIST_POISON2.
Definition hlist_del_init (h : hheap) (n : Z) : outcome hheap :=
  u ← hlist_unhashed h n;
  if negb u then h ← __hlist_del h n; INIT_HLIST_NODE h n else Ret h.
Definition hlist_add_head (h : hheap) (n head : Z) : outcome hheap :=
  first ← ptr_of h head;
  h ← set_ptr h n first;
  h ← (if negb (first =? 0) then set_pprev h first n else Ret h);
  h ← set_ptr h head n;
  set_pprev h n head.
Definition hlist_add_before (h : hheap) (n next : Z) : outcome hheap :=
  p ← pprev_of h next;
  h ← set_pprev h n p;
  h ← set_ptr h n next;
  h ← set_pprev h next n;
  p ← pprev_of h n;
  set_ptr h p n.
Definition hlist_add_behind (h : hheap) (n prev : Z) : outcome hheap :=
  x ← ptr_of h prev;
  h ← set_ptr h n x;
  h ← set_ptr h prev n;
  h ← set_pprev h n prev;
  x ← ptr_of h n;
  if negb (x =? 0) then set_pprev h x n else Ret h.
Definition hlist_add_fake (h : hheap) (n : Z) : outcome hheap := set_pprev h n n.
Definition hlist_move_list (h : hheap) (old new : Z) : outcome hheap :=
  f ← ptr_of h old;
  h ← set_ptr h new f;
  f ← ptr_of h new;
  h ← (if negb (f =? 0) then set_pprev h f new else Ret h);
  set_ptr h old 0.

(** From the pointer at [c] through the nodes [l] to NULL. *)
Fixpoint hchain (h : hheap) (c : Z) (l : list Z) : Prop :=
  match l with
  | [] => ptr_of h c = Ret 0
  | x :: l' => ptr_of h c = Ret x /\ x <> 0 /\ pprev_of h x = Ret c /\ hchain h x l'
  end.
Definition hlist (h : hheap) (head : Z) (l : list Z) : Prop := NoDup (head :: l) /\ hchain h head l.
(** Storage for a node. *)
Definition hnode (h : hheap) (n : Z) : Prop := is_Some (h_ptr h !! n) /\ is_Some (h_pprev h !! n).

Lemma set_ptr_obs h a v :
  is_Some (h_ptr h !! a) -> exists h', set_ptr h a v = Ret h' /\
    (forall b, ptr_of h' b = if decide (b = a) then Ret v else ptr_of h b) /\
    (forall b, pprev_of h' b = pprev_of h b) /\ (forall b, is_Some (h_ptr h' !! b) <-> is_Some (h_ptr h !! b)) /\
    h_pprev h' = h_pprev h.
Proof.
  intros [w Hw]. unfold set_ptr. rewrite Hw. eexists. split; [done|]. unfold ptr_of, pprev_of. cbn. split_and!; [|done| |done].
  - intros b. case_decide as Hb; [by rewrite Hb, lookup_insert_eq|by rewrite lookup_insert_ne].
  - intros b. destruct (decide (b = a)) as [-> |]; [rewrite lookup_insert_eq, Hw; split; by eexists|by rewrite lookup_insert_ne].
Qed.
Lemma set_pprev_obs h a v :
  is_Some (h_pprev h !! a) -> exists h', set_pprev h a v = Ret h' /\
    (forall b, pprev_of h' b = if decide (b = a) then Ret v else pprev_of h b) /\
    (forall b, ptr_of h' b = ptr_of h b) /\ (forall b, is_Some (h_pprev h' !! b) <-> is_Some (h_pprev h !! b)) /\
    h_ptr h' = h_ptr h.
Proof.
  intros [w Hw]. unfold set_pprev. rewrite Hw. eexists. split; [done|]. unfold ptr_of, pprev_of. cbn. split_and!; [|done| |done].
  - intros b. case_decide as Hb; [by rewrite Hb, lookup_insert_eq|by rewrite lookup_insert_ne].
  - intros b. destruct (decide (b = a)) as [-> |]; [rewrite lookup_insert_eq, Hw; split; by eexists|by rewrite lookup_insert_ne].
Qed.

Lemma ptr_is_Some h a v : ptr_of h a = Ret v -> is_Some (h_ptr h !! a).
Proof. unfold ptr_of. destruct (h_ptr h !! a); [by eexists|done]. Qed.
Lemma pprev_is_Some h a v : pprev_of h a = Ret v -> is_Some (h_pprev h !! a).
Proof. unfold pprev_of. destruct (h_pprev h !! a); [by eexists|done]. Qed.

(** The links of [l] behind the pointer at [c], without the last pointer. *)
Fixpoint hseg (h : hheap) (c : Z) (l : list Z) : Prop :=
  match l with
  | [] => True
  | x :: l' => ptr_of h c = Ret x /\ x <> 0 /\ pprev_of h x = Ret c /\ hseg h x l'
  end.

Lemma lastn_cons c x l : lastn c (x :: l) = lastn x l.
Proof.
  unfold lastn. destruct l as [|y l]; [done|]. rewrite last_cons_cons. destruct (last _) eqn:E; [done|by apply last_None in E].
Qed.

Lemma hchain_app h c l1 l2 : hchain h c (l1 ++ l2) <-> hseg h c l1 /\ hchain h (lastn c l1) l2.
Proof. revert c. induction l1 as [|x l1 IH]; intros c; [cbn; tauto|]. rewrite lastn_cons. cbn [app hchain hseg]. rewrite IH. tauto. Qed.

Lemma hchain_frame h h' c l :
  (forall x, x ∈ c :: l -> ptr_of h' x = ptr_of h x) -> (forall x, x ∈ l -> pprev_of h' x = pprev_of h x) ->
  hchain h c l -> hchain h' c l.
Proof.
  revert c. induction l as [|y l IH]; intros c Hn Hp; cbn [hchain]; [by rewrite (Hn c) by left|].
  intros (? & ? & ? & ?). rewrite (Hn c), (Hp y) by left. split_and!; [done..|].
  apply IH; [intros x Hx; apply Hn; by right|intros x Hx; apply Hp; by right|done].
Qed.

Lemma hseg_frame h h' c l :
  NoDup (c :: l) ->
  (forall x, x ∈ c :: l -> x <> lastn c l -> ptr_of h' x = ptr_of h x) -> (forall x, x ∈ l -> pprev_of h' x = pprev_of h x) ->
  hseg h c l -> hseg h' c l.
Proof.
  revert c. induction l as [|y l IH]; intros c Hnd Hn Hp; cbn [hseg]; [done|]. rewrite lastn_cons in Hn.
  apply NoDup_cons in Hnd as [Hc Hnd]. intros (? & ? & ? & ?).
  rewrite (Hn c), (Hp y); [|left|left|intros ->; by apply Hc, lastn_in]. split_and!; [done..|].
  apply IH; [done|intros x Hx; apply Hn; by right|intros x Hx; apply Hp; by right|done].
Qed.

Lemma hseg_nonzero h c l : hseg h c l -> 0 ∉ l.
Proof.
  revert c. induction l as [|x l IH]; intros c H; [apply not_elem_of_nil|]. destruct H as (_ & ? & _ & H).
  apply not_elem_of_cons. split; [done|by eapply IH].
Qed.

Lemma hchain_ptr h c l : hchain h c l -> ptr_of h c = Ret (hd 0 l).
Proof. destruct l; cbn; tauto. Qed.
Lemma hchain_nonzero h c l : hchain h c l -> (hd 0 l =? 0) = bool_decide (l = []).
Proof. destruct l as [|x l]; [done|]. intros (_ & Hx & _). by apply Z.eqb_neq. Qed.

Ltac write_ptr h' N P S :=
  let E := fresh "Same" in
  match goal with |- context [set_ptr ?h ?a ?v] =>
    destruct (set_ptr_obs h a v) as (h' & -> & N & P & S & E); [|cbn [mbind outcome_bind]] end.
Ltac write_pprev h' N P S :=
  let E := fresh "Same" in
  match goal with |- context [set_pprev ?h ?a ?v] =>
    destruct (set_pprev_obs h a v) as (h' & -> & N & P & S & E); [|cbn [mbind outcome_bind]] end.

(** Making the pointer at [p] lead to the chain [l] of another pointer: the
    two writes that [__hlist_del], [hlist_move_list] and the insertions share. *)
Definition hook (h : hheap) (p next : Z) : outcome hheap :=
  h ← set_ptr h p next; if negb (next =? 0) then set_pprev h next p else Ret h.

Lemma hook_spec h p q l :
  is_Some (h_ptr h !! p) -> p ∉ l -> NoDup l -> hchain h q l ->
  exists h', hook h p (hd 0 l) = Ret h' /\ hchain h' p l /\
    (forall b, b <> p -> ptr_of h' b = ptr_of h b) /\ (forall b, b <> hd 0 l -> pprev_of h' b = pprev_of h b) /\
    (forall b, hnode h b -> hnode h' b).
Proof.
  intros Hs Hp Hnd Hc. unfold hook. rewrite (hchain_nonzero _ _ _ Hc).
  write_ptr h1 N1 P1 S1; [done|]. destruct l as [|x l].
  - rewrite bool_decide_eq_true_2 by done. cbn [negb hd]. exists h1. split; [done|]. cbn [hchain]. rewrite N1, decide_True by done.
    split_and!; [done| |auto|].
    + intros b Hb. by rewrite N1, decide_False.
    + intros b [? ?]. split; [by apply S1|congruence].
  - rewrite bool_decide_eq_false_2 by done. cbn [negb hd]. cbn [hchain] in Hc. destruct Hc as (Hq & Hx & Hpx & Hc).
    apply NoDup_cons in Hnd as [Hxl Hnd].
    write_pprev h2 P2 N2 S2; [rewrite Same; by eapply pprev_is_Some|]. exists h2. split; [done|]. split; [|split_and!].
    + cbn [hchain]. rewrite N2, N1, decide_True, P2, decide_True by done. split_and!; [done..|].
      apply (hchain_frame h); [| |done].
      * intros y Hy. rewrite N2, N1, decide_False; [done|]. by intros ->.
      * intros y Hy. rewrite P2, decide_False; [done|]. by intros ->.
    + intros b Hb. by rewrite N2, N1, decide_False.
    + intros b Hb. by rewrite P2, decide_False, P1.
    + intros b [? ?]. split; [rewrite Same0; by apply S1|apply S2; congruence].
Qed.

Lemma outcome_bind_assoc {A B C} (m : outcome A) (k : A -> outcome B) (k' : B -> outcome C) :
  (x ← m; y ← k x; k' y) = (y ← (x ← m; k x); k' y).
Proof. by destruct m. Qed.

(** A node put between [l1] and [l2]. *)
Lemma hlist_insert h h' head l1 l2 n :
  hlist h head (l1 ++ l2) -> n ∉ head :: l1 ++ l2 -> n <> 0 ->
  ptr_of h' (lastn head l1) = Ret n -> ptr_of h' n = Ret (hd 0 l2) -> pprev_of h' n = Ret (lastn head l1) ->
  (l2 <> [] -> pprev_of h' (hd 0 l2) = Ret n) ->
  (forall b, b <> lastn head l1 -> b <> n -> ptr_of h' b = ptr_of h b) ->
  (forall b, b <> hd 0 l2 -> b <> n -> pprev_of h' b = pprev_of h b) ->
  hlist h' head (l1 ++ n :: l2).
Proof.
  intros [Hnd [H1 H2]%hchain_app] Hn H0 Hp Hpn Hnp Hx HN HP. split.
  { apply (NoDup_Permutation_proper (n :: head :: l1 ++ l2)); [by rewrite app_comm_cons, Permutation_middle|by apply NoDup_cons]. }
  rewrite elem_of_cons, elem_of_app in Hn. apply NoDup_cons in Hnd as [Hh (Hnd1 & Hd & Hnd2)%NoDup_app]. rewrite elem_of_app in Hh.
  pose proof (lastn_in head l1) as Hpin. apply hchain_app. split.
  - apply (hseg_frame h); [apply NoDup_cons; tauto| | |done].
    + intros x Hx1 Hxp. apply HN; [done|]. intros ->. apply elem_of_cons in Hx1. tauto.
    + intros x Hx1. apply HP; [|intros ->; tauto]. intros ->. destruct l2 as [|y l2]; cbn [hd hchain] in *.
      * by apply (hseg_nonzero h head l1).
      * apply (Hd y Hx1). left.
  - cbn [hchain]. split_and!; [done..|]. destruct l2 as [|y l2]; [done|]. cbn [hchain hd] in *. destruct H2 as (? & ? & ? & H2).
    split_and!; [done|done|by apply Hx|]. apply NoDup_cons in Hnd2 as [Hy _].
    apply (hchain_frame h); [| |done].
    + intros x Hx2. apply HN; [|intros ->; tauto]. intros ->. apply elem_of_cons in Hpin as [E|Hpin]; [rewrite E in Hx2; tauto|by apply (Hd _ Hpin)].
    + intros x Hx2. apply HP; [by intros ->|]. intros ->. apply Hn. right. right. by right.
Qed.

Lemma hlist_nodes h head l1 n l2 : hlist h head (l1 ++ n :: l2) -> hnode h n /\ n <> 0 /\ is_Some (h_ptr h !! (lastn head l1)).
Proof.
  intros [_ [_ (H1 & ? & H2 & H3)]%hchain_app]. apply hchain_ptr in H3. split_and!; [split|done|by eapply ptr_is_Some].
  - by eapply ptr_is_Some.
  - by eapply pprev_is_Some.
Qed.

Lemma __hlist_del_spec h head l1 n l2 :
  hlist h head (l1 ++ n :: l2) ->
  exists h', __hlist_del h n = Ret h' /\ hlist h' head (l1 ++ l2) /\ (forall b, hnode h b -> hnode h' b).
Proof.
  intros Hh. destruct (hlist_nodes _ _ _ _ _ Hh) as (_ & _ & Hs). destruct Hh as [Hnd [H1 (Hp & Hn0 & Hnp & H2)]%hchain_app].
  apply NoDup_cons in Hnd as [Hh (Hnd1 & Hd & [Hn2 Hnd2]%NoDup_cons)%NoDup_app]. rewrite elem_of_app, elem_of_cons in Hh.
  assert (lastn head l1 ∉ l2) as Hp2.
  { intros Hx. pose proof (lastn_in head l1) as [E|Hin]%elem_of_cons; [rewrite E in Hx; tauto|]. apply (Hd _ Hin). by right. }
  destruct (hook_spec h (lastn head l1) n l2 Hs Hp2 Hnd2 H2) as (h' & He & Hc & HN & HP & Hk).
  exists h'. split; [unfold __hlist_del; read_ptr (hchain_ptr _ _ _ H2); read_ptr Hnp; exact He|]. split; [|done]. split.
  - apply NoDup_cons. split; [rewrite elem_of_app; tauto|]. apply NoDup_app. split_and!; [done| |done].
    intros x Hx Hx2. apply (Hd x Hx). by right.
  - apply hchain_app. split; [|done]. apply (hseg_frame h); [apply NoDup_cons; tauto|intros x _ Hx; by apply HN| |done].
    intros x Hx. apply HP. intros ->. destruct l2 as [|y l2]; cbn [hd hchain] in *.
    + by apply (hseg_nonzero h head l1).
    + apply (Hd y Hx). right. left.
Qed.

Lemma hlist_del_spec h head l1 n l2 :
  hlist h head (l1 ++ n :: l2) ->
  exists h', hlist_del h n = Ret h' /\ hlist h' head (l1 ++ l2) /\ ptr_of h' n = Ret LIST_POISON1 /\ pprev_of h' n = Ret LIST_POISON2.
Proof.
  intros Hh. destruct (hlist_nodes _ _ _ _ _ Hh) as (Hn & _). destruct (__hlist_del_spec _ _ _ _ _ Hh) as (h1 & He & [Hnd Hc] & Hk).
  unfold hlist_del. read_ptr He. destruct (Hk n Hn) as [Hs1 Hs2].
  write_ptr h2 N2 P2 S2; [done|]. write_pprev h3 P3 N3 S3; [congruence|]. exists h3. split; [done|].
  rewrite N3, N2, P3, !decide_True by done. split_and!; [|done..]. split; [done|].
  assert (n ∉ head :: l1 ++ l2) as Hno.
  { destruct Hh as [Hx _]. apply (NoDup_Permutation_proper (n :: head :: l1 ++ l2)) in Hx; [by apply NoDup_cons in Hx as [? _]|].
    by rewrite app_comm_cons, Permutation_middle. }
  apply (hchain_frame h1); [| |done].
  - intros x Hx. rewrite N3, N2, decide_False; [done|]. by intros ->.
  - intros x Hx. rewrite P3, decide_False, P2; [done|]. intros ->. apply Hno. by right.
Qed.

(** The insertions. *)
Lemma hlist_add_head_spec h head l n :
  hlist h head l -> n ∉ head :: l -> n <> 0 -> hnode h n ->
  exists h', hlist_add_head h n head = Ret h' /\ hlist h' head (n :: l).
Proof.
  intros Hh Hn H0 [Hs1 Hs2]. pose proof (proj2 Hh) as Hc. assert (n <> head) by (intros ->; apply Hn; left).
  unfold hlist_add_head. read_ptr (hchain_ptr _ _ _ Hc). rewrite outcome_bind_assoc. fold (hook h n (hd 0 l)).
  destruct (hook_spec h n head l) as (h1 & -> & Hc1 & HN & HP & Hk); [done|intros ?; apply Hn; by right|exact (proj2 (proj1 (NoDup_cons _ _) (proj1 Hh)))|done|].
  cbn [mbind outcome_bind]. destruct (Hk n (conj Hs1 Hs2)) as [? ?].
  write_ptr h2 N2 P2 S2.
  { unfold ptr_of in HN. specialize (HN head ltac:(done)). apply hchain_ptr in Hc. unfold ptr_of in Hc.
    destruct (h_ptr h1 !! head); [by eexists|]. by destruct (h_ptr h !! head). }
  write_pprev h3 P3 N3 S3; [congruence|]. exists h3. split; [done|].
  apply (hlist_insert h h3 head [] l n); [done|done|done|..].
  - by rewrite N3, N2, decide_True.
  - rewrite N3, N2, decide_False by done. by apply hchain_ptr.
  - by rewrite P3, decide_True.
  - intros Hl. destruct l as [|x l]; [done|]. cbn [hd]. destruct Hc1 as (_ & _ & Hx & _).
    rewrite P3, decide_False, P2; [done|]. intros ->. apply Hn. right. left.
  - intros b Hb Hbn. cbn in Hb. rewrite N3, N2, decide_False by done. by apply HN.
  - intros b Hb Hbn. rewrite P3, decide_False, P2 by done. by apply HP.
Qed.

Lemma hlist_add_before_spec h head l1 x l2 n :
  hlist h head (l1 ++ x :: l2) -> n ∉ head :: l1 ++ x :: l2 -> n <> 0 -> hnode h n ->
  exists h', hlist_add_before h n x = Ret h' /\ hlist h' head (l1 ++ n :: x :: l2).
Proof.
  intros Hh Hn H0 [Hs1 Hs2]. destruct (hlist_nodes _ _ _ _ _ Hh) as ([? ?] & Hx0 & Hp).
  pose proof (proj2 Hh) as [_ (Hpx & _ & Hxp & _)]%hchain_app.
  pose proof (lastn_in head l1) as Hpin. set (p := lastn head l1) in *.
  assert (n <> p) by (intros ->; apply Hn; rewrite elem_of_cons, elem_of_app in *; tauto).
  assert (n <> x) by (intros ->; apply Hn; rewrite elem_of_cons, elem_of_app, elem_of_cons; tauto).
  unfold hlist_add_before. read_ptr Hxp.
  write_pprev h1 P1 N1 S1; [done|]. write_ptr h2 N2 P2 S2; [congruence|]. write_pprev h3 P3 N3 S3; [rewrite Same0; by apply S1|].
  rewrite (P3 n), decide_False, P2, P1, decide_True by done. cbn [mbind outcome_bind].
  write_ptr h4 N4 P4 S4; [rewrite Same1; apply S2; congruence|]. exists h4. split; [done|].
  apply (hlist_insert h h4 head l1 (x :: l2) n); [done|done|done|..]; fold p; cbn [hd].
  - by rewrite N4, decide_True.
  - by rewrite N4, decide_False, N3, N2, decide_True.
  - by rewrite P4, P3, decide_False, P2, P1, decide_True.
  - intros _. by rewrite P4, P3, decide_True.
  - intros b Hb Hbn. by rewrite N4, decide_False, N3, N2, decide_False, N1.
  - intros b Hb Hbn. by rewrite P4, P3, decide_False, P2, P1, decide_False.
Qed.

Lemma hlist_add_behind_spec h head l1 x l2 n :
  hlist h head (l1 ++ x :: l2) -> n ∉ head :: l1 ++ x :: l2 -> n <> 0 -> hnode h n ->
  exists h', hlist_add_behind h n x = Ret h' /\ hlist h' head (l1 ++ x :: n :: l2).
Proof.
  intros Hh Hn H0 [Hs1 Hs2]. destruct (hlist_nodes _ _ _ _ _ Hh) as ([? ?] & Hx0 & Hp).
  pose proof (proj2 Hh) as [_ (_ & _ & _ & Hc)]%hchain_app.
  assert (n <> x) by (intros ->; apply Hn; rewrite elem_of_cons, elem_of_app, elem_of_cons; tauto).
  assert (lastn head (l1 ++ [x]) = x) as Hlx by apply lastn_snoc.
  change (x :: n :: l2) with ([x] ++ n :: l2). rewrite app_assoc.
  change (x :: l2) with ([x] ++ l2) in Hh, Hn. rewrite app_assoc in Hh, Hn.
  unfold hlist_add_behind. read_ptr (hchain_ptr _ _ _ Hc).
  write_ptr h1 N1 P1 S1; [done|]. write_ptr h2 N2 P2 S2; [by apply S1|]. write_pprev h3 P3 N3 S3; [congruence|].
  rewrite (N3 n), N2, decide_False, N1, decide_True by done. cbn [mbind outcome_bind]. rewrite (hchain_nonzero _ _ _ Hc).
  assert (forall h4, (forall b, ptr_of h4 b = ptr_of h3 b) ->
    (forall b, pprev_of h4 b = if decide (b = hd 0 l2 /\ l2 <> []) then Ret n else pprev_of h3 b) ->
    hlist h4 head ((l1 ++ [x]) ++ n :: l2)) as Hins.
  { intros h4 N4 P4. apply (hlist_insert h h4 head (l1 ++ [x]) l2 n); [done|done|done|..]; rewrite ?Hlx.
    - by rewrite N4, N3, N2, decide_True.
    - by rewrite N4, N3, N2, decide_False, N1, decide_True.
    - rewrite P4, decide_False, P3, decide_True; [done|done|]. intros [E Hl]. destruct l2 as [|y l2]; [done|]. cbn in E. subst y.
      apply Hn. right. apply elem_of_app. right. left.
    - intros Hl. by rewrite P4, decide_True.
    - intros b Hb Hbn. by rewrite N4, N3, N2, decide_False, N1, decide_False.
    - intros b Hb Hbn. rewrite P4, decide_False, P3, decide_False, P2, P1; [done|done|by intros [? _]]. }
  destruct l2 as [|y l2].
  - exists h3. split; [done|]. apply Hins; [done|]. intros b. rewrite decide_False; [done|]. by intros [_ ?].
  - rewrite bool_decide_eq_false_2 by done. cbn [negb hd].
    destruct Hc as (_ & _ & Hy & _). apply pprev_is_Some in Hy.
    write_pprev h4 P4 N4 S4; [apply S3; congruence|]. exists h4. split; [done|]. apply Hins; [done|]. intros b. rewrite P4. cbn [hd].
    destruct (decide (b = y)); [rewrite decide_True; done|rewrite decide_False; tauto].
Qed.

Lemma hlist_move_list_spec h old l new :
  hlist h old l -> new ∉ old :: l -> is_Some (h_ptr h !! new) ->
  exists h', hlist_move_list h old new = Ret h' /\ hlist h' new l /\ hlist h' old [].
Proof.
  intros [[Ho Hnd]%NoDup_cons Hc] Hn Hs. apply not_elem_of_cons in Hn as [Hno Hnl].
  assert (is_Some (h_ptr h !! old)) as Hso by (eapply ptr_is_Some, hchain_ptr, Hc).
  destruct (hook_spec h new old l Hs Hnl Hnd Hc) as (h1 & He & Hc1 & HN & HP & Hk).
  unfold hlist_move_list. read_ptr (hchain_ptr _ _ _ Hc). unfold hook in He.
  destruct (set_ptr_obs h new (hd 0 l) Hs) as (h0 & E0 & N0 & P0 & S0 & ?). rewrite E0 in *. cbn [mbind outcome_bind] in *.
  rewrite (N0 new), decide_True by done. cbn [mbind outcome_bind]. rewrite He. cbn [mbind outcome_bind].
  write_ptr h2 N2 P2 S2.
  { specialize (HN old ltac:(done)). unfold ptr_of in HN. destruct Hso as [w Hw]. rewrite Hw in HN. destruct (h_ptr h1 !! old); [by eexists|done]. }
  exists h2. split; [done|]. split; split; [by apply NoDup_cons| |apply NoDup_singleton|cbn; by rewrite N2, decide_True].
  apply (hchain_frame h1); [| |done].
  - intros x [-> | Hx]%elem_of_cons; rewrite N2, decide_False; try done. by intros ->.
  - intros x Hx. apply P2.
Qed.

(** On well-formed hash lists the operations are those on the lists of
    nodes, whatever pointer leads to the node: no case for the head. *)
Theorem hlist_ops_refine (h : hheap) (head n x : Z) (l l1 l2 : list Z) (Hh : hlist h head l) :
  (l = l1 ++ x :: l2 ->
     exists h', hlist_del h x = Ret h' /\ hlist h' head (l1 ++ l2) /\ ptr_of h' x = Ret LIST_POISON1 /\ pprev_of h' x = Ret LIST_POISON2) /\
  (n ∉ head :: l -> n <> 0 -> hnode h n ->
     (exists h', hlist_add_head h n head = Ret h' /\ hlist h' head (n :: l)) /\
     (l = l1 ++ x :: l2 ->
        (exists h', hlist_add_before h n x = Ret h' /\ hlist h' head (l1 ++ n :: x :: l2)) /\
        (exists h', hlist_add_behind h n x = Ret h' /\ hlist h' head (l1 ++ x :: n :: l2)))) /\
  (n ∉ head :: l -> is_Some (h_ptr h !! n) ->
     exists h', hlist_move_list h head n = Ret h' /\ hlist h' n l /\ hlist h' head []) /\
  hlist_empty h head = Ret (bool_decide (l = [])).
Proof.
  split_and!.
  - intros ->. by apply hlist_del_spec.
  - intros Hn H0 Hs. split; [by apply hlist_add_head_spec|]. intros ->.
    split; [by apply hlist_add_before_spec|by apply hlist_add_behind_spec].
  - intros Hn Hs. by apply hlist_move_list_spec.
  - unfold hlist_empty. read_ptr (hchain_ptr _ _ _ (proj2 Hh)). by rewrite (hchain_nonzero _ _ _ (proj2 Hh)).
Qed.

(** A node taken out with [hlist_del_init] is unhashed, and taking it out
    again does nothing. *)
Theorem hlist_del_init_twice (h : hheap) (head x : Z) (l1 l2 : list Z) (Hh : hlist h head (l1 ++ x :: l2)) (H0 : 0 ∉ head :: l1) :
  exists h', hlist_del_init h x = Ret h' /\ hlist_unhashed h' x = Ret true /\ hlist_del_init h' x = Ret h'.
Proof.
  destruct (hlist_nodes _ _ _ _ _ Hh) as (Hn & _). pose proof (proj2 Hh) as [_ (_ & _ & Hp & _)]%hchain_app.
  destruct (__hlist_del_spec _ _ _ _ _ Hh) as (h1 & He & _ & Hk). destruct (Hk x Hn) as [Hs1 Hs2].
  assert (lastn head l1 <> 0) as Hz by (intros E; apply H0; rewrite <- E; apply lastn_in).
  unfold hlist_del_init, hlist_unhashed. read_ptr Hp. apply Z.eqb_neq in Hz. rewrite Hz. cbn [negb mbind outcome_bind].
  read_ptr He. unfold INIT_HLIST_NODE. write_ptr h2 N2 P2 S2; [done|]. write_pprev h3 P3 N3 S3; [congruence|].
  exists h3. rewrite P3, decide_True by done. done.
Qed.
