(* ===== verification/Bitmap.v ===== *)
(** * Bitmaps (ukern/inc/bitmap.h, ukern/inc/utils_arm64.h)

    A bitmap is an array of 64-bit words; a size is given in bytes, as in the
    C.  Every access goes through [rd]/[wr], so that a run past the end of the
    array is a [Fault] of the model.  The loops over words are structural in
    the number of words left; the two [while] loops over the bits of one word
    carry a fuel of 64, and the [goto again] loop of
    [bitmap_find_next_0_area] one of the number of bits: the specifications
    below show that neither is ever exhausted. *)
From S2P Require Import Prelude.

(** ** Bit instructions (utils_arm64.h) *)

(** [rbit]: reverse the 64 bits of a register. *)
Definition rbit (val : Z) : Z :=
  foldr (fun i acc => if Z.testbit val i then Z.lor (Z.shiftl 1 (63 - i)) acc else acc)
        0 (seqZ 0 64).

(** [clz]: leading zeros of a 64-bit register. *)
Definition clz (val : Z) : Z := if val =? 0 then 64 else 63 - Z.log2 val.

(** [ctz]: trailing zeros, [clz(rbit(val))]. *)
Definition ctz (val : Z) : Z := clz (rbit val).

(** ** The bitmap operations *)
Definition WORD_BITS : Z := 64.
Definition BITMAP_FULL : Z := 2 ^ 64 - 1.
Definition BITMAP_EMPTY : Z := 0.
Definition BIT (x : Z) : Z := u64 (Z.shiftl 1 x).

(** [div_round_up(count, WORD_BITS) * sizeof(long)]. *)
Definition BITMAP_SIZE (count : Z) : Z := u64 (Z.quot (count + WORD_BITS - 1) WORD_BITS * 8).

Definition bitmap_set_bit (bitmap : list Z) (index : Z) : outcome (list Z) :=
  let wi := u32 (index / WORD_BITS) in
  let bi := u32 (index mod WORD_BITS) in
  w ← rd bitmap wi; wr bitmap wi (Z.lor w (BIT bi)).

Definition bitmap_clear_bit (bitmap : list Z) (index : Z) : outcome (list Z) :=
  let wi := u32 (index / WORD_BITS) in
  let bi := u32 (index mod WORD_BITS) in
  w ← rd bitmap wi; wr bitmap wi (Z.land w (u64 (Z.lnot (BIT bi)))).

(** [for (i = 0; i < len; i++) f(bitmap, index + i)], with [n] rounds left. *)
Fixpoint bits_loop (f : list Z -> Z -> outcome (list Z)) (n : nat) (bitmap : list Z) (index i : Z)
    : outcome (list Z) :=
  match n with
  | O => Ret bitmap
  | S n' => b ← f bitmap (u64 (index + i)); bits_loop f n' b index (i + 1)
  end.

Definition bitmap_set_bits (bitmap : list Z) (index len : Z) : outcome (list Z) :=
  bits_loop bitmap_set_bit (Z.to_nat len) bitmap index 0.

Definition bitmap_clear_bits (bitmap : list Z) (index len : Z) : outcome (list Z) :=
  bits_loop bitmap_clear_bit (Z.to_nat len) bitmap index 0.

(** [while (word & 1) { word >>= 1; pos++; }]. *)
Fixpoint skip_ones (fuel : nat) (word pos : Z) : outcome Z :=
  if Z.land word 1 =? 0 then Ret pos
  else match fuel with
       | O => Diverge
       | S fuel' => skip_ones fuel' (Z.shiftr word 1) (s32 (pos + 1))
       end.

Fixpoint find_first_0_loop (n : nat) (bitmap : list Z) (i pos : Z) : outcome Z :=
  match n with
  | O => Ret (-1)
  | S n' =>
      word ← rd bitmap i;
      if word =? BITMAP_FULL then find_first_0_loop n' bitmap (i + 1) (s32 (pos + WORD_BITS))
      else skip_ones 64 word pos
  end.

Definition bitmap_find_first_0 (bitmap : list Z) (size : Z) : outcome Z :=
  find_first_0_loop (Z.to_nat (size / 8)) bitmap 0 0.

(** The loop [for (i = wi, pos = start; i < wsize; i++)], [n] words left. *)
Fixpoint find_next_0_loop (n : nat) (bitmap : list Z) (wi bi i pos : Z) : outcome Z :=
  match n with
  | O => Ret (-1)
  | S n' =>
      word ← rd bitmap i;
      if word =? BITMAP_FULL then
        find_next_0_loop n' bitmap wi bi (i + 1) (s32 ((i + 1) * WORD_BITS))
      else if (i =? wi) && (Z.lnot (s64 (Z.shiftr word bi)) =? 0) then
        find_next_0_loop n' bitmap wi bi (i + 1) (s32 ((i + 1) * WORD_BITS))
      else skip_ones 64 (if i =? wi then Z.shiftr word bi else word) pos
  end.

Definition bitmap_find_next_0 (bitmap : list Z) (size start : Z) : outcome Z :=
  let wsize := size / 8 in
  let wi := start / WORD_BITS in
  let bi := start mod WORD_BITS in
  find_next_0_loop (Z.to_nat (wsize - wi)) bitmap wi bi wi (s32 start).

Fixpoint find_first_1_loop (n : nat) (bitmap : list Z) (i pos : Z) : outcome Z :=
  match n with
  | O => Ret (-1)
  | S n' =>
      word ← rd bitmap i;
      if word =? BITMAP_EMPTY then find_first_1_loop n' bitmap (i + 1) (s32 (pos + WORD_BITS))
      else Ret (s32 (pos + ctz word))
  end.

Definition bitmap_find_first_1 (bitmap : list Z) (size : Z) : outcome Z :=
  find_first_1_loop (Z.to_nat (size / 8)) bitmap 0 0.

Fixpoint find_next_1_loop (n : nat) (bitmap : list Z) (wi bi i pos : Z) : outcome Z :=
  match n with
  | O => Ret (-1)
  | S n' =>
      word ← rd bitmap i;
      if word =? BITMAP_EMPTY then
        find_next_1_loop n' bitmap wi bi (i + 1) (s32 ((i + 1) * WORD_BITS))
      else
        let word' := if i =? wi then Z.shiftr word bi else word in
        if (i =? wi) && (word' =? 0) then
          find_next_1_loop n' bitmap wi bi (i + 1) (s32 ((i + 1) * WORD_BITS))
        else Ret (s32 (pos + ctz word'))
  end.

Definition bitmap_find_next_1 (bitmap : list Z) (size start : Z) : outcome Z :=
  let wsize := size / 8 in
  let wi := start / WORD_BITS in
  let bi := start mod WORD_BITS in
  find_next_1_loop (Z.to_nat (wsize - wi)) bitmap wi bi wi (s32 start).

(** The [goto again] loop of [bitmap_find_next_0_area]. *)
Fixpoint find_area_loop (fuel : nat) (bitmap : list Z) (size start count : Z) : outcome Z :=
  match fuel with
  | O => Diverge
  | S fuel' =>
      pos ← bitmap_find_next_0 bitmap size start;
      if pos =? -1 then Ret (-1)
      else
        let end_ := u64 (s32 (pos + count)) in
        if u64 (size / 8 * WORD_BITS) <=? end_ then Ret (-1)
        else
          i ← bitmap_find_next_1 bitmap size start;
          if u64 i <? end_ then find_area_loop fuel' bitmap size (u64 (u64 i + 1)) count
          else Ret pos
  end.

Definition bitmap_find_next_0_area (bitmap : list Z) (size start count : Z) : outcome Z :=
  find_area_loop (S (Z.to_nat (size / 8 * WORD_BITS - start))) bitmap size start count.

Fixpoint is_empty_loop (n : nat) (bitmap : list Z) (i : Z) : outcome Z :=
  match n with
  | O => Ret 1
  | S n' =>
      word ← rd bitmap i;
      if word =? BITMAP_EMPTY then is_empty_loop n' bitmap (i + 1) else Ret 0
  end.

Definition bitmap_is_empty (bitmap : list Z) (size : Z) : outcome Z :=
  is_empty_loop (Z.to_nat (size / 8)) bitmap 0.

Fixpoint bitmap_init_loop (n : nat) (bitmap : list Z) (i value : Z) : outcome (list Z) :=
  match n with
  | O => Ret bitmap
  | S n' => b ← wr bitmap i value; bitmap_init_loop n' b (i + 1) value
  end.

Definition bitmap_init (bitmap : list Z) (size value : Z) : outcome (list Z) :=
  bitmap_init_loop (Z.to_nat (size / 8)) bitmap 0 value.

(** ** Meaning of a bitmap and lemmas about words *)

(** Bit [k] of the array. *)
Definition bm_bit (bitmap : list Z) (k : Z) : bool :=
  Z.testbit (default 0 (bitmap !! Z.to_nat (k / WORD_BITS))) (k mod WORD_BITS).

(** Every word fits a [u64]. *)
Definition bm_wf (bitmap : list Z) : Prop := Forall (fun w => 0 <= w < 2 ^ 64) bitmap.

(** The bits [p .. p+n-1] are clear. *)
Definition free_run (bitmap : list Z) (p n : Z) : Prop :=
  forall k, p <= k < p + n -> bm_bit bitmap k = false.

Lemma bm_bit_word (bitmap : list Z) i w k :
  0 <= i -> bitmap !! Z.to_nat i = Some w -> i * 64 <= k < (i + 1) * 64 ->
  bm_bit bitmap k = Z.testbit w (k - i * 64).
Proof.
  intros Hi Hw Hk. unfold bm_bit, WORD_BITS.
  assert (k / 64 = i) as -> by (symmetry; apply (Z.div_unique k 64 i (k - i * 64)); lia).
  assert (k mod 64 = k - i * 64) as -> by (symmetry; apply (Z.mod_unique k 64 i); lia).
  by rewrite Hw.
Qed.

Lemma bm_wf_lookup (bitmap : list Z) i w :
  bm_wf bitmap -> bitmap !! i = Some w -> 0 <= w < 2 ^ 64.
Proof. intros H Hw. by eapply Forall_lookup_1 in H. Qed.

Lemma bm_lookup (bitmap : list Z) i :
  0 <= i < Z.of_nat (length bitmap) -> exists w, bitmap !! Z.to_nat i = Some w.
Proof. intros H. apply lookup_lt_is_Some_2. lia. Qed.

Lemma testbit_full j : 0 <= j < 64 -> Z.testbit BITMAP_FULL j = true.
Proof. intros. unfold BITMAP_FULL. change (2^64-1) with (Z.ones 64). apply Z.ones_spec_low; lia. Qed.

Lemma testbit_above w j : 0 <= w < 2 ^ 64 -> 64 <= j -> Z.testbit w j = false.
Proof.
  intros Hw Hj. destruct (decide (w = 0)) as [->|]; [apply Z.bits_0|].
  apply Z.bits_above_log2; [lia|].
  assert (Z.log2 w < 64) by (apply Z.log2_lt_pow2; lia). lia.
Qed.

Lemma land_1_testbit w : (Z.land w 1 =? 0) = negb (Z.testbit w 0).
Proof.
  change 1 with (Z.ones 1). rewrite Z.land_ones by lia. change (2^1) with 2.
  rewrite Z.bit0_odd, Zmod_odd. by destruct (Z.odd w).
Qed.

(** The bit scan stops at the first clear bit, within its fuel. *)
Lemma skip_ones_spec fuel word pos :
  0 <= word < 2 ^ Z.of_nat fuel -> 0 <= pos -> pos + Z.of_nat fuel < 2147483648 ->
  exists j, skip_ones fuel word pos = Ret (pos + j) /\ 0 <= j <= Z.of_nat fuel /\
    (forall i, 0 <= i < j -> Z.testbit word i = true) /\ Z.testbit word j = false.
Proof.
  revert word pos. induction fuel as [|fuel IH]; intros word pos Hw Hp Hb; cbn [skip_ones].
  - assert (word = 0) as -> by (simpl in Hw; lia). exists 0. simpl.
    split_and!; [f_equal; lia|lia|lia|lia|done].
  - rewrite land_1_testbit. destruct (Z.testbit word 0) eqn:E0; simpl.
    + rewrite s32_small by lia.
      destruct (IH (Z.shiftr word 1) (pos + 1)) as (j & Hr & Hj & Hset & Hclr).
      { rewrite Z.shiftr_div_pow2 by lia. change (2 ^ 1) with 2.
        rewrite Nat2Z.inj_succ, Z.pow_succ_r in Hw by lia.
        split; [apply Z.div_pos; lia|apply Z.div_lt_upper_bound; lia]. }
      { lia. } { lia. }
      exists (j + 1). rewrite Hr. split_and!; [f_equal; lia|lia|lia| |].
      * intros i Hi. destruct (decide (i = 0)) as [->|]; [done|].
        specialize (Hset (i - 1)). rewrite Z.shiftr_spec in Hset by lia.
        replace (i - 1 + 1) with i in Hset by lia. apply Hset; lia.
      * rewrite Z.shiftr_spec in Hclr by lia. done.
    + exists 0. split_and!; [f_equal; lia|lia|lia|lia|done].
Qed.

Lemma testbit_rbit_aux val l j :
  0 <= j -> (forall i, i ∈ l -> i <= 63) ->
  Z.testbit (foldr (fun i acc => if Z.testbit val i then Z.lor (Z.shiftl 1 (63 - i)) acc else acc) 0 l) j
  = existsb (fun i => Z.testbit val i && (j =? 63 - i)) l.
Proof.
  intros Hj. induction l as [|i l IH]; intros Hl; simpl; [apply Z.bits_0|].
  assert (i <= 63) by (apply Hl; set_solver).
  specialize (IH ltac:(intros; apply Hl; set_solver)).
  destruct (Z.testbit val i); simpl; [|done].
  rewrite Z.lor_spec, IH, Z.shiftl_1_l, Z.pow2_bits_eqb by lia.
  by rewrite (Z.eqb_sym (63 - i)).
Qed.

Lemma testbit_rbit val j : 0 <= j < 64 -> Z.testbit (rbit val) j = Z.testbit val (63 - j).
Proof.
  intros Hj. unfold rbit. rewrite testbit_rbit_aux; [|lia|intros i Hi; apply elem_of_seqZ in Hi; lia].
  destruct (Z.testbit val (63 - j)) eqn:E.
  - apply existsb_exists. exists (63 - j). split; [apply list_elem_of_In, elem_of_seqZ; lia|].
    rewrite E. simpl. apply Z.eqb_eq. lia.
  - apply not_true_iff_false. intros (i & _ & Hi)%existsb_exists.
    apply andb_true_iff in Hi as [Hi Hj']. apply Z.eqb_eq in Hj'.
    replace (63 - j) with i in E by lia. congruence.
Qed.

Lemma testbit_rbit_high val j : 64 <= j -> Z.testbit (rbit val) j = false.
Proof.
  intros Hj. unfold rbit. rewrite testbit_rbit_aux; [|lia|intros i Hi; apply elem_of_seqZ in Hi; lia].
  apply not_true_iff_false. intros (i & Hin & Hi)%existsb_exists.
  apply list_elem_of_In, elem_of_seqZ in Hin.
  apply andb_true_iff in Hi as [_ Hj']. apply Z.eqb_eq in Hj'. lia.
Qed.

(** [ctz] finds the lowest set bit of a non-zero word. *)
Lemma ctz_spec w :
  0 < w < 2 ^ 64 ->
  0 <= ctz w < 64 /\ Z.testbit w (ctz w) = true /\ forall i, 0 <= i < ctz w -> Z.testbit w i = false.
Proof.
  intros Hw.
  assert (0 <= rbit w) as Hnn.
  { unfold rbit. induction (seqZ 0 64) as [|i l IH]; simpl; [lia|].
    case_match; [|done]. apply Z.lor_nonneg. split; [|done]. apply Z.shiftl_nonneg. lia. }
  assert (rbit w <> 0) as Hnz.
  { intros H0. assert (Z.testbit (rbit w) (63 - Z.log2 w) = true) as Hb.
    { assert (Z.log2 w < 64) by (apply Z.log2_lt_pow2; lia). pose proof (Z.log2_nonneg w).
      rewrite testbit_rbit by lia. replace (63 - (63 - Z.log2 w)) with (Z.log2 w) by lia.
      apply Z.bit_log2. lia. }
    rewrite H0, Z.bits_0 in Hb. done. }
  unfold ctz, clz. destruct (Z.eqb_spec (rbit w) 0); [done|].
  pose proof (Z.bit_log2 (rbit w) ltac:(lia)) as Htop. pose proof (Z.log2_nonneg (rbit w)).
  assert (Z.log2 (rbit w) < 64).
  { destruct (decide (64 <= Z.log2 (rbit w))); [|lia]. rewrite testbit_rbit_high in Htop by lia. done. }
  split; [lia|]. split; [by rewrite testbit_rbit in Htop by lia|].
  intros i Hi. replace i with (63 - (63 - i)) by lia.
  rewrite <- testbit_rbit by lia. apply Z.bits_above_log2; lia.
Qed.

(** ** Scanning *)

(** Where a scan that starts at bit [wi*64+bi] begins in word [i]. *)
Definition scan_pos (wi bi i : Z) : Z := if i =? wi then wi * 64 + bi else i * 64.

Lemma scan_pos_next wi bi i : wi <= i -> scan_pos wi bi (i + 1) = (i + 1) * 64.
Proof. intros. unfold scan_pos. destruct (Z.eqb_spec (i + 1) wi); lia. Qed.

Lemma scan_pos_bounds wi bi i :
  wi <= i -> 0 <= bi < 64 -> i * 64 <= scan_pos wi bi i < (i + 1) * 64.
Proof. intros. unfold scan_pos. destruct (Z.eqb_spec i wi); lia. Qed.

(** The word as the scan sees it: shifted in the first word only. *)
Lemma scan_word_testbit (bitmap : list Z) wi bi i w j :
  0 <= i -> wi <= i -> 0 <= bi < 64 -> bm_wf bitmap -> bitmap !! Z.to_nat i = Some w ->
  0 <= j -> scan_pos wi bi i + j < (i + 1) * 64 ->
  Z.testbit (if i =? wi then Z.shiftr w bi else w) j = bm_bit bitmap (scan_pos wi bi i + j).
Proof.
  intros Hi Hwi Hbi Hwf Hw Hj Hlt. pose proof (scan_pos_bounds wi bi i Hwi Hbi).
  rewrite (bm_bit_word _ i w) by (done || lia). unfold scan_pos in *.
  destruct (Z.eqb_spec i wi) as [->|].
  - rewrite Z.shiftr_spec by lia. f_equal. lia.
  - f_equal. lia.
Qed.

Lemma shiftr_range w bi : 0 <= w < 2 ^ 64 -> 0 <= bi -> 0 <= Z.shiftr w bi <= w.
Proof.
  intros Hw Hbi. rewrite Z.shiftr_div_pow2 by lia. assert (0 < 2 ^ bi) by lia.
  split; [apply Z.div_pos; lia|apply Z.div_le_upper_bound; nia].
Qed.

(** The test [(~(s64)(word >> bi)) == 0] never holds for a word that is not
    [BITMAP_FULL]. *)
Lemma not_full_test w bi :
  0 <= w < 2 ^ 64 -> w <> BITMAP_FULL -> 0 <= bi ->
  (Z.lnot (s64 (Z.shiftr w bi)) =? 0) = false.
Proof.
  intros Hw Hnf Hbi. pose proof (shiftr_range w bi Hw Hbi) as Hsh.
  apply Z.eqb_neq. unfold Z.lnot. intros Hm1. unfold BITMAP_FULL, wraps in *.
  change (2 ^ (64 - 1)) with 9223372036854775808 in Hm1.
  change (2 ^ 64) with 18446744073709551616 in *.
  set (x := Z.shiftr w bi) in *. clearbody x.
  pose proof (Z.div_mod (x + 9223372036854775808) 18446744073709551616).
  pose proof (Z.mod_pos_bound (x + 9223372036854775808) 18446744073709551616). lia.
Qed.

(** What [bitmap_find_next_0] answers for a scan of the bits [lo .. hi-1] that
    starts in word [wi]: every bit before the answer is set, and the answer is
    clear, or it is the first bit of the word after the first one scanned (the
    code does not look at that bit in this case). *)
Definition scan0_post (bitmap : list Z) (wi lo hi r : Z) : Prop :=
  (r = -1 /\ forall k, lo <= k < hi -> bm_bit bitmap k = true) \/
  (lo <= r <= hi /\ (forall k, lo <= k < r -> bm_bit bitmap k = true) /\
   (r < hi /\ bm_bit bitmap r = false \/ lo / 64 = wi /\ r = (wi + 1) * 64)).

(** What [bitmap_find_next_1] answers: the first set bit of [lo .. hi-1]. *)
Definition scan1_post (bitmap : list Z) (lo hi r : Z) : Prop :=
  (r = -1 /\ forall k, lo <= k < hi -> bm_bit bitmap k = false) \/
  (lo <= r < hi /\ bm_bit bitmap r = true /\ forall k, lo <= k < r -> bm_bit bitmap k = false).

Lemma scan0_post_full bitmap wi lo mid hi r :
  (forall k, lo <= k < mid -> bm_bit bitmap k = true) -> lo <= mid <= hi -> wi * 64 < mid ->
  mid mod 64 = 0 -> scan0_post bitmap wi mid hi r -> scan0_post bitmap wi lo hi r.
Proof.
  intros Hset Hlo Hwi Hmid [[-> Hall]|(Hb & Hall & Hor)]; [left|right].
  - split; [done|]. intros k Hk. destruct (decide (k < mid)); [apply Hset|apply Hall]; lia.
  - split; [lia|]. split.
    + intros k Hk. destruct (decide (k < mid)); [apply Hset|apply Hall]; lia.
    + destruct Hor as [?|[Hd ->]]; [by left|exfalso].
      pose proof (Z.div_mod mid 64). lia.
Qed.

Lemma scan1_post_empty bitmap lo mid hi r :
  (forall k, lo <= k < mid -> bm_bit bitmap k = false) -> lo <= mid <= hi ->
  scan1_post bitmap mid hi r -> scan1_post bitmap lo hi r.
Proof.
  intros Hclr Hlo [[-> Hall]|(Hb & Hr & Hall)]; [left|right].
  - split; [done|]. intros k Hk. destruct (decide (k < mid)); [apply Hclr|apply Hall]; lia.
  - split; [lia|]. split; [done|]. intros k Hk. destruct (decide (k < mid)); [apply Hclr|apply Hall]; lia.
Qed.

Lemma scan_pos_div wi bi i : wi <= i -> 0 <= bi < 64 -> scan_pos wi bi i / 64 = i.
Proof.
  intros. pose proof (scan_pos_bounds wi bi i).
  symmetry; apply (Z.div_unique _ 64 i (scan_pos wi bi i - i * 64)); lia.
Qed.

(** The bit loop on a word that is not full. *)
Lemma skip_ones_word (bitmap : list Z) wi bi i w hi :
  bm_wf bitmap -> 0 <= wi <= i -> 0 <= bi < 64 -> bitmap !! Z.to_nat i = Some w ->
  w <> BITMAP_FULL -> (i + 1) * 64 <= hi < 2147483584 ->
  exists r, skip_ones 64 (if i =? wi then Z.shiftr w bi else w) (scan_pos wi bi i) = Ret r /\
    scan0_post bitmap wi (scan_pos wi bi i) hi r.
Proof.
  intros Hwf Hi Hbi Hw Hnf Hmax.
  pose proof (bm_wf_lookup _ _ _ Hwf Hw) as Hwr.
  pose proof (scan_pos_bounds wi bi i ltac:(lia) Hbi) as Hsp.
  destruct (skip_ones_spec 64 (if i =? wi then Z.shiftr w bi else w) (scan_pos wi bi i))
    as (j & Hr & Hj & Hset & Hclr); [|lia|lia|].
  { change (Z.of_nat 64) with 64. pose proof (shiftr_range w bi). case_match; lia. }
  assert (scan_pos wi bi i + j <= (i + 1) * 64) as Hjle.
  { destruct (decide (scan_pos wi bi i + j <= (i + 1) * 64)) as [|Hgt]; [done|exfalso].
    specialize (Hset ((i + 1) * 64 - scan_pos wi bi i)). revert Hset.
    unfold scan_pos in *. destruct (Z.eqb_spec i wi) as [->|].
    - rewrite Z.shiftr_spec by lia. rewrite testbit_above by lia. intros Hset. discriminate Hset; lia.
    - rewrite testbit_above by lia. intros Hset. discriminate Hset; lia. }
  exists (scan_pos wi bi i + j). split; [done|right]. split; [lia|]. split.
  { intros k Hk. replace k with (scan_pos wi bi i + (k - scan_pos wi bi i)) by lia.
    rewrite <- (scan_word_testbit _ _ _ _ w) by (done || lia). apply Hset. lia. }
  destruct (decide (scan_pos wi bi i + j = (i + 1) * 64)) as [He|Hne].
  - right. rewrite scan_pos_div by lia. destruct (decide (i = wi)) as [->|Hiw]; [done|exfalso].
    apply Hnf, Z.bits_inj'. intros b Hb. destruct (decide (b < 64)) as [Hb64|].
    + rewrite testbit_full by lia. specialize (Hset b).
      unfold scan_pos in *. destruct (Z.eqb_spec i wi); [done|]. apply Hset; lia.
    + rewrite !testbit_above; [done|unfold BITMAP_FULL; lia|lia|done|lia].
  - left. split; [lia|]. rewrite <- (scan_word_testbit _ _ _ _ w) by (done || lia). done.
Qed.

Lemma find_next_0_loop_spec n (bitmap : list Z) wi bi i :
  bm_wf bitmap -> 0 <= wi <= i -> 0 <= bi < 64 ->
  i + Z.of_nat n <= Z.of_nat (length bitmap) -> (i + Z.of_nat n) * 64 < 2147483584 ->
  exists r, find_next_0_loop n bitmap wi bi i (scan_pos wi bi i) = Ret r /\
    scan0_post bitmap wi (scan_pos wi bi i) ((i + Z.of_nat n) * 64) r.
Proof.
  revert i. induction n as [|n IH]; intros i Hwf Hi Hbi Hlen Hmax.
  { exists (-1). split; [done|left]. split; [done|]. intros k Hk.
    pose proof (scan_pos_bounds wi bi i). lia. }
  destruct (bm_lookup bitmap i) as [w Hw]; [lia|].
  pose proof (bm_wf_lookup _ _ _ Hwf Hw) as Hwr.
  pose proof (scan_pos_bounds wi bi i ltac:(lia) Hbi) as Hsp.
  cbn [find_next_0_loop]. rewrite (rd_lookup bitmap i w) by (done || lia). cbn [mbind outcome_bind].
  unfold WORD_BITS. rewrite s32_small by lia.
  destruct (Z.eqb_spec w BITMAP_FULL) as [->|Hnf].
  - destruct (IH (i + 1)) as (r & Hr & Hspec); [done|lia|done|lia|lia|].
    rewrite scan_pos_next in Hr, Hspec by lia. exists r. split; [done|].
    apply (scan0_post_full _ _ _ ((i + 1) * 64)); [|lia|lia|apply Z.mod_mul; lia|].
    + intros k Hk. rewrite (bm_bit_word _ i _ k ltac:(lia) Hw ltac:(lia)). apply testbit_full. lia.
    + by replace (i + Z.of_nat (S n)) with (i + 1 + Z.of_nat n) by lia.
  - rewrite not_full_test, andb_false_r by (done || lia).
    apply skip_ones_word; done || lia.
Qed.

(** [bitmap_find_next_0] terminates inside the array and scans only set bits. *)
Lemma bitmap_find_next_0_spec (bitmap : list Z) size start :
  bm_wf bitmap -> 0 <= start -> size / 8 <= Z.of_nat (length bitmap) -> size / 8 * 64 < 2147483584 ->
  start < 2147483584 ->
  exists r, bitmap_find_next_0 bitmap size start = Ret r /\
    scan0_post bitmap (start / 64) start (size / 8 * 64) r.
Proof.
  intros Hwf Hs Hlen Hmax Hs'. unfold bitmap_find_next_0, WORD_BITS. rewrite s32_small by lia.
  pose proof (Z.div_mod start 64). pose proof (Z.mod_pos_bound start 64).
  assert (start = scan_pos (start / 64) (start mod 64) (start / 64)) as Hsp
    by (unfold scan_pos; rewrite Z.eqb_refl; lia).
  destruct (decide (start / 64 < size / 8)) as [Hlt|Hge].
  - destruct (find_next_0_loop_spec (Z.to_nat (size / 8 - start / 64)) bitmap (start / 64) (start mod 64) (start / 64))
      as (r & Hr & Hpost); [done|lia|lia|lia|lia|].
    rewrite <- Hsp in Hr, Hpost. exists r. split; [done|].
    by replace (start / 64 + Z.of_nat (Z.to_nat (size / 8 - start / 64))) with (size / 8) in Hpost by lia.
  - replace (Z.to_nat _) with O by lia. exists (-1). split; [done|left]. split; [done|]. lia.
Qed.

Lemma find_next_1_loop_spec n (bitmap : list Z) wi bi i :
  bm_wf bitmap -> 0 <= wi <= i -> 0 <= bi < 64 ->
  i + Z.of_nat n <= Z.of_nat (length bitmap) -> (i + Z.of_nat n) * 64 < 2147483584 ->
  exists r, find_next_1_loop n bitmap wi bi i (scan_pos wi bi i) = Ret r /\
    scan1_post bitmap (scan_pos wi bi i) ((i + Z.of_nat n) * 64) r.
Proof.
  revert i. induction n as [|n IH]; intros i Hwf Hi Hbi Hlen Hmax.
  { exists (-1). split; [done|left]. split; [done|]. intros k Hk.
    pose proof (scan_pos_bounds wi bi i). lia. }
  destruct (bm_lookup bitmap i) as [w Hw]; [lia|].
  pose proof (bm_wf_lookup _ _ _ Hwf Hw) as Hwr.
  pose proof (scan_pos_bounds wi bi i ltac:(lia) Hbi) as Hsp.
  cbn [find_next_1_loop]. rewrite (rd_lookup bitmap i w) by (done || lia). cbn [mbind outcome_bind].
  unfold WORD_BITS. rewrite (s32_small ((i + 1) * 64)) by lia.
  set (w' := if i =? wi then Z.shiftr w bi else w) in *.
  assert (forall j, 0 <= j -> scan_pos wi bi i + j < (i + 1) * 64 ->
            Z.testbit w' j = bm_bit bitmap (scan_pos wi bi i + j)) as Hbits
    by (intros; by apply scan_word_testbit; try lia).
  assert (w' = 0 -> exists r, find_next_1_loop n bitmap wi bi (i + 1) ((i + 1) * 64) = Ret r /\
    scan1_post bitmap (scan_pos wi bi i) ((i + Z.of_nat (S n)) * 64) r) as Hskip.
  { intros H0. destruct (IH (i + 1)) as (r & Hr & Hspec); [done|lia|done|lia|lia|].
    rewrite scan_pos_next in Hr, Hspec by lia. exists r. split; [done|].
    apply (scan1_post_empty _ _ ((i + 1) * 64)); [|lia|].
    - intros k Hk. replace k with (scan_pos wi bi i + (k - scan_pos wi bi i)) by lia.
      rewrite <- Hbits, H0 by lia. apply Z.bits_0.
    - by replace (i + Z.of_nat (S n)) with (i + 1 + Z.of_nat n) by lia. }
  destruct (Z.eqb_spec w BITMAP_EMPTY) as [->|Hne].
  { apply Hskip. unfold w'. case_match; [apply Z.shiftr_0_l|done]. }
  assert (0 <= w' < 2 ^ 64) as Hw'r by (unfold w'; pose proof (shiftr_range w bi); case_match; lia).
  destruct (decide (w' = 0)) as [H0|Hn0].
  { assert (i = wi) as -> by (unfold w' in H0; destruct (Z.eqb_spec i wi); done).
    rewrite Z.eqb_refl, H0. simpl. by apply Hskip. }
  replace ((i =? wi) && (w' =? 0)) with false
    by (destruct (Z.eqb_spec w' 0); [done|by rewrite andb_false_r]).
  destruct (ctz_spec w') as (Hc & Hset & Hclr); [lia|].
  assert (scan_pos wi bi i + ctz w' < (i + 1) * 64) as Hin.
  { destruct (decide (scan_pos wi bi i + ctz w' < (i + 1) * 64)) as [|Hge]; [done|exfalso].
    revert Hset. unfold w', scan_pos in *. destruct (Z.eqb_spec i wi) as [->|].
    - rewrite Z.shiftr_spec by lia. rewrite testbit_above by lia. done.
    - lia. }
  exists (scan_pos wi bi i + ctz w'). rewrite s32_small by lia. split; [done|right].
  split; [lia|]. split; [by rewrite <- Hbits by lia|].
  intros k Hk. replace k with (scan_pos wi bi i + (k - scan_pos wi bi i)) by lia.
  rewrite <- Hbits by lia. apply Hclr. lia.
Qed.

(** [bitmap_find_next_1] returns the first set bit from [start] on, or -1. *)
Lemma bitmap_find_next_1_spec (bitmap : list Z) size start :
  bm_wf bitmap -> 0 <= start < 2147483584 -> size / 8 <= Z.of_nat (length bitmap) ->
  size / 8 * 64 < 2147483584 ->
  exists r, bitmap_find_next_1 bitmap size start = Ret r /\
    scan1_post bitmap start (size / 8 * 64) r.
Proof.
  intros Hwf Hs Hlen Hmax. unfold bitmap_find_next_1, WORD_BITS. rewrite s32_small by lia.
  pose proof (Z.div_mod start 64). pose proof (Z.mod_pos_bound start 64).
  assert (start = scan_pos (start / 64) (start mod 64) (start / 64)) as Hsp
    by (unfold scan_pos; rewrite Z.eqb_refl; lia).
  destruct (decide (start / 64 < size / 8)) as [Hlt|Hge].
  - destruct (find_next_1_loop_spec (Z.to_nat (size / 8 - start / 64)) bitmap (start / 64) (start mod 64) (start / 64))
      as (r & Hr & Hpost); [done|lia|lia|lia|lia|].
    rewrite <- Hsp in Hr, Hpost. exists r. split; [done|].
    by replace (start / 64 + Z.of_nat (Z.to_nat (size / 8 - start / 64))) with (size / 8) in Hpost by lia.
  - replace (Z.to_nat _) with O by lia. exists (-1). split; [done|left]. split; [done|]. lia.
Qed.

(** ** Searching a run of clear bits *)

(** A run of [count] clear bits at [p], from [start] on, that ends strictly
    before the last bit of the bitmap (the code asks for [end < wsize*64]). *)
Definition area_fits (bitmap : list Z) (total start count p : Z) : Prop :=
  start <= p /\ p + count < total /\ free_run bitmap p count.

Lemma find_area_loop_spec fuel (bitmap : list Z) size start count :
  bm_wf bitmap -> 0 <= start < 2147483584 -> 0 < count ->
  size / 8 <= Z.of_nat (length bitmap) -> 0 <= size ->
  size / 8 * 64 < 2147483584 -> size / 8 * 64 + count < 2147483648 ->
  (Z.to_nat (size / 8 * 64 - start) < fuel)%nat ->
  exists r, find_area_loop fuel bitmap size start count = Ret r /\
    ((r = -1 /\ forall p, ~ area_fits bitmap (size / 8 * 64) start count p) \/
     (area_fits bitmap (size / 8 * 64) start count r /\
      forall p, area_fits bitmap (size / 8 * 64) start count p -> r <= p)).
Proof.
  revert start. induction fuel as [|fuel IH]; intros start Hwf Hst Hc Hlen Hsz Hmax Hmax2 Hf; [lia|].
  cbn [find_area_loop].
  assert (0 <= size / 8) by (apply Z.div_pos; lia).
  set (total := size / 8 * 64) in *. unfold area_fits.
  destruct (bitmap_find_next_0_spec bitmap size start) as (pos & Hpos & Hpost); [done|lia..|].
  destruct (bitmap_find_next_1_spec bitmap size start) as (i & Hi & Hone); [done|lia..|].
  fold total in Hpost, Hone. rewrite Hpos. cbn [mbind outcome_bind].
  destruct Hpost as [[-> Hall]|(Hb & Hset & _)].
  { exists (-1). split; [done|left]. split; [done|]. intros p (Hp1 & Hp2 & Hrun).
    specialize (Hall p ltac:(lia)). rewrite (Hrun p) in Hall by lia. done. }
  destruct (Z.eqb_spec pos (-1)); [lia|].
  assert (u64 (s32 (pos + count)) = pos + count) as -> by (wrap_simpl; lia).
  unfold WORD_BITS. fold total. rewrite (u64_small total) by lia.
  assert (forall p, start <= p -> free_run bitmap p count -> pos <= p) as Hge.
  { intros p Hp Hrun. destruct (decide (pos <= p)); [done|].
    specialize (Hset p ltac:(lia)). rewrite (Hrun p) in Hset by lia. done. }
  destruct (Z.leb_spec total (pos + count)).
  { exists (-1). split; [done|left]. split; [done|]. intros p (Hp1 & Hp2 & Hrun).
    specialize (Hge p Hp1 Hrun). lia. }
  rewrite Hi. cbn [mbind outcome_bind].
  destruct Hone as [[-> Hall]|(Hib & Hib1 & Hall)].
  - replace (u64 (-1) <? pos + count) with false by (symmetry; apply Z.ltb_ge; change (u64 (-1)) with 18446744073709551615; lia).
    exists pos. split; [done|right]. split; [|naive_solver].
    split_and!; [lia|lia|]. intros k Hk. apply Hall. lia.
  - rewrite (u64_small i) by lia. destruct (Z.ltb_spec i (pos + count)).
    + rewrite (u64_small (i + 1)) by lia.
      assert (forall p, start <= p -> free_run bitmap p count -> i + 1 <= p) as Hge'.
      { intros p Hp Hrun. destruct (decide (i + 1 <= p)); [done|exfalso].
        specialize (Hge p Hp Hrun). rewrite (Hrun i) in Hib1 by lia. done. }
      destruct (IH (i + 1)) as (r & Hr & Hpost); [done|lia..|].
      fold total in Hpost. exists r. split; [done|]. unfold area_fits in Hpost.
      destruct Hpost as [[-> Hno]|[Hfit Hmin]]; [left|right].
      * split; [done|]. intros p (Hp1 & Hp2 & Hrun). apply (Hno p). split_and!; [by apply Hge'|lia|done].
      * split; [destruct Hfit as (?&?&?); split_and!; lia || done|].
        intros p (Hp1 & Hp2 & Hrun). apply Hmin. split_and!; [by apply Hge'|lia|done].
    + exists pos. split; [done|right]. split; [|naive_solver].
      split_and!; [lia|lia|]. intros k Hk. apply Hall. lia.
Qed.

(** ** Writing bits *)

Lemma BIT_small bi : 0 <= bi < 64 -> BIT bi = 2 ^ bi.
Proof.
  intros. unfold BIT. rewrite Z.shiftl_1_l. apply wrapu_small.
  split; [lia|]. apply Z.pow_lt_mono_r; lia.
Qed.

Lemma index_word (bitmap : list Z) k :
  0 <= k < Z.of_nat (length bitmap) * 64 ->
  u32 (k / WORD_BITS) = k / 64 \/ 2 ^ 32 <= k / 64.
Proof.
  intros. unfold WORD_BITS. assert (0 <= k / 64) by (apply Z.div_pos; lia).
  destruct (decide (k / 64 < 2 ^ 32)); [left; apply u32_small; lia|right; lia].
Qed.

Lemma bm_bit_insert (bitmap : list Z) i w k :
  0 <= i < Z.of_nat (length bitmap) -> 0 <= k ->
  bm_bit (<[Z.to_nat i := w]> bitmap) k =
  if k / 64 =? i then Z.testbit w (k mod 64) else bm_bit bitmap k.
Proof.
  intros Hi Hk. unfold bm_bit, WORD_BITS. assert (0 <= k / 64) by (apply Z.div_pos; lia).
  destruct (Z.eqb_spec (k / 64) i) as [->|].
  - by rewrite list_lookup_insert_eq by lia.
  - by rewrite list_lookup_insert_ne by lia.
Qed.

Lemma lor_range a b : 0 <= a < 2 ^ 64 -> 0 <= b < 2 ^ 64 -> 0 <= Z.lor a b < 2 ^ 64.
Proof.
  intros Ha Hb. split; [apply Z.lor_nonneg; lia|].
  destruct (decide (Z.lor a b = 0)) as [->|]; [lia|].
  assert (0 <= Z.lor a b) by (apply Z.lor_nonneg; lia).
  apply Z.log2_lt_pow2; [lia|]. rewrite Z.log2_lor by lia.
  destruct (decide (a = 0)) as [->|]; destruct (decide (b = 0)) as [->|]; simpl;
    repeat match goal with |- context [Z.log2 ?x] =>
      assert (Z.log2 x < 64) by (apply Z.log2_lt_pow2; lia); generalize dependent (Z.log2 x); intros end; lia.
Qed.

Lemma land_range a b : 0 <= a < 2 ^ 64 -> 0 <= Z.land a b < 2 ^ 64.
Proof.
  intros Ha. split; [apply Z.land_nonneg; lia|].
  destruct (decide (a = 0)) as [->|]; [rewrite Z.land_0_l; lia|].
  assert (Z.land a b <= a); [|lia]. clear -Ha.
  assert (a = Z.lor (Z.land a b) (Z.land a (Z.lnot b))) as He.
  { apply Z.bits_inj'. intros n Hn. rewrite Z.lor_spec, !Z.land_spec, Z.lnot_spec by lia.
    by destruct (Z.testbit a n), (Z.testbit b n). }
  assert (Z.land (Z.land a b) (Z.land a (Z.lnot b)) = 0) as H0.
  { apply Z.bits_inj'. intros n Hn. rewrite Z.bits_0, !Z.land_spec, Z.lnot_spec by lia.
    by destruct (Z.testbit a n), (Z.testbit b n). }
  apply Z.add_nocarry_lxor in H0 as H1. rewrite <- Z.lxor_lor in He by done.
  rewrite <- H1 in He. assert (0 <= Z.land a (Z.lnot b)) by (apply Z.land_nonneg; lia). lia.
Qed.

(** Setting a bit of the array sets that bit and no other. *)
Lemma bitmap_set_bit_spec (bitmap : list Z) k :
  bm_wf bitmap -> 0 <= k < Z.of_nat (length bitmap) * 64 -> k < 2 ^ 38 ->
  exists b', bitmap_set_bit bitmap k = Ret b' /\ bm_wf b' /\ length b' = length bitmap /\
    forall j, 0 <= j -> bm_bit b' j = (j =? k) || bm_bit bitmap j.
Proof.
  intros Hwf Hk Hk'. unfold bitmap_set_bit.
  assert (0 <= k / 64 < Z.of_nat (length bitmap)) as Hw
    by (split; [apply Z.div_pos; lia|apply Z.div_lt_upper_bound; lia]).
  assert (k / 64 < 2 ^ 32) by (apply Z.div_lt_upper_bound; lia).
  pose proof (Z.mod_pos_bound k 64 ltac:(lia)) as Hm.
  unfold WORD_BITS. rewrite (u32_small (k / 64)), (u32_small (k mod 64)), BIT_small by lia.
  destruct (bm_lookup bitmap (k / 64) Hw) as [w Hlk].
  rewrite (rd_lookup bitmap (k / 64) w) by (done || lia). cbn [mbind outcome_bind].
  rewrite wr_in by lia. eexists. split; [done|].
  pose proof (bm_wf_lookup _ _ _ Hwf Hlk). assert (2 ^ (k mod 64) < 2 ^ 64) by (apply Z.pow_lt_mono_r; lia).
  split; [apply Forall_insert; [done|apply lor_range; lia]|]. split; [apply length_insert|].
  intros j Hj. rewrite bm_bit_insert by lia. destruct (Z.eqb_spec (j / 64) (k / 64)) as [He|He].
  - rewrite Z.lor_spec, Z.pow2_bits_eqb by lia. unfold bm_bit, WORD_BITS. rewrite He, Hlk. simpl.
    rewrite orb_comm. f_equal. pose proof (Z.div_mod j 64). pose proof (Z.div_mod k 64).
    destruct (Z.eqb_spec (k mod 64) (j mod 64)), (Z.eqb_spec j k); lia || done.
  - destruct (Z.eqb_spec j k) as [->|]; done.
Qed.

(** Clearing a bit clears that bit and no other. *)
Lemma bitmap_clear_bit_spec (bitmap : list Z) k :
  bm_wf bitmap -> 0 <= k < Z.of_nat (length bitmap) * 64 -> k < 2 ^ 38 ->
  exists b', bitmap_clear_bit bitmap k = Ret b' /\ bm_wf b' /\ length b' = length bitmap /\
    forall j, 0 <= j -> bm_bit b' j = negb (j =? k) && bm_bit bitmap j.
Proof.
  intros Hwf Hk Hk'. unfold bitmap_clear_bit.
  assert (0 <= k / 64 < Z.of_nat (length bitmap)) as Hw
    by (split; [apply Z.div_pos; lia|apply Z.div_lt_upper_bound; lia]).
  assert (k / 64 < 2 ^ 32) by (apply Z.div_lt_upper_bound; lia).
  pose proof (Z.mod_pos_bound k 64 ltac:(lia)) as Hm.
  unfold WORD_BITS. rewrite (u32_small (k / 64)), (u32_small (k mod 64)), BIT_small by lia.
  destruct (bm_lookup bitmap (k / 64) Hw) as [w Hlk].
  rewrite (rd_lookup bitmap (k / 64) w) by (done || lia). cbn [mbind outcome_bind].
  rewrite wr_in by lia. eexists. split; [done|].
  pose proof (bm_wf_lookup _ _ _ Hwf Hlk). assert (2 ^ (k mod 64) < 2 ^ 64) by (apply Z.pow_lt_mono_r; lia).
  split; [apply Forall_insert; [done|apply land_range; lia]|]. split; [apply length_insert|].
  intros j Hj. rewrite bm_bit_insert by lia. destruct (Z.eqb_spec (j / 64) (k / 64)) as [He|He].
  - pose proof (Z.mod_pos_bound j 64 ltac:(lia)).
    unfold wrapu. rewrite Z.land_spec, Z.mod_pow2_bits_low, Z.lnot_spec, Z.pow2_bits_eqb by lia.
    unfold bm_bit, WORD_BITS. rewrite He, Hlk. simpl.
    rewrite andb_comm. f_equal. pose proof (Z.div_mod j 64). pose proof (Z.div_mod k 64).
    destruct (Z.eqb_spec (k mod 64) (j mod 64)), (Z.eqb_spec j k); lia || done.
  - destruct (Z.eqb_spec j k) as [->|]; done.
Qed.

(** One of the two single-bit writers, run over a range. *)
Lemma bits_loop_spec (f : list Z -> Z -> outcome (list Z)) (v : bool) :
  (forall bitmap k, bm_wf bitmap -> 0 <= k < Z.of_nat (length bitmap) * 64 -> k < 2 ^ 38 ->
     exists b', f bitmap k = Ret b' /\ bm_wf b' /\ length b' = length bitmap /\
       forall j, 0 <= j -> bm_bit b' j = if j =? k then v else bm_bit bitmap j) ->
  forall n bitmap index i,
  bm_wf bitmap -> 0 <= index -> 0 <= i -> index + i + Z.of_nat n <= Z.of_nat (length bitmap) * 64 ->
  index + i + Z.of_nat n <= 2 ^ 38 ->
  exists b', bits_loop f n bitmap index i = Ret b' /\ bm_wf b' /\ length b' = length bitmap /\
    forall j, 0 <= j -> bm_bit b' j =
      if (index + i <=? j) && (j <? index + i + Z.of_nat n) then v else bm_bit bitmap j.
Proof.
  intros Hf n. induction n as [|n IH]; intros bitmap index i Hwf Hidx Hi Hlen Hmax; cbn [bits_loop].
  { exists bitmap. split_and!; [done..|]. intros j Hj.
    destruct (Z.leb_spec (index + i) j), (Z.ltb_spec j (index + i + Z.of_nat 0)); simpl; lia || done. }
  rewrite u64_small by lia.
  destruct (Hf bitmap (index + i)) as (b1 & -> & Hwf1 & Hlen1 & Hb1); [done|lia|lia|].
  cbn [mbind outcome_bind].
  destruct (IH b1 index (i + 1)) as (b2 & -> & Hwf2 & Hlen2 & Hb2); [done|lia..|].
  exists b2. split_and!; [done|done|congruence|]. intros j Hj. rewrite Hb2, Hb1 by lia.
  destruct (Z.leb_spec (index + (i + 1)) j), (Z.ltb_spec j (index + (i + 1) + Z.of_nat n)),
    (Z.leb_spec (index + i) j), (Z.ltb_spec j (index + i + Z.of_nat (S n))), (Z.eqb_spec j (index + i));
    simpl; lia || done.
Qed.

Lemma bitmap_set_bits_spec (bitmap : list Z) index len :
  bm_wf bitmap -> 0 <= index -> 0 <= len -> index + len <= Z.of_nat (length bitmap) * 64 ->
  index + len <= 2 ^ 38 ->
  exists b', bitmap_set_bits bitmap index len = Ret b' /\ bm_wf b' /\ length b' = length bitmap /\
    forall j, 0 <= j -> bm_bit b' j = (index <=? j) && (j <? index + len) || bm_bit bitmap j.
Proof.
  intros. destruct (bits_loop_spec bitmap_set_bit true) with (n := Z.to_nat len) (bitmap := bitmap)
    (index := index) (i := 0) as (b & Hb & ? & ? & Hj); [|done|lia..|].
  - intros b k ? ? ?. destruct (bitmap_set_bit_spec b k) as (b' & ? & ? & ? & Hj); [done..|].
    exists b'. split_and!; [done..|]. intros j ?. rewrite Hj by done. by destruct (j =? k).
  - exists b. split_and!; [done..|]. intros j ?. rewrite Hj by done.
    rewrite Z.add_0_r, Z2Nat.id by lia. by destruct ((index <=? j) && (j <? index + len)).
Qed.

Lemma bitmap_clear_bits_spec (bitmap : list Z) index len :
  bm_wf bitmap -> 0 <= index -> 0 <= len -> index + len <= Z.of_nat (length bitmap) * 64 ->
  index + len <= 2 ^ 38 ->
  exists b', bitmap_clear_bits bitmap index len = Ret b' /\ bm_wf b' /\ length b' = length bitmap /\
    forall j, 0 <= j -> bm_bit b' j = negb ((index <=? j) && (j <? index + len)) && bm_bit bitmap j.
Proof.
  intros. destruct (bits_loop_spec bitmap_clear_bit false) with (n := Z.to_nat len) (bitmap := bitmap)
    (index := index) (i := 0) as (b & Hb & ? & ? & Hj); [|done|lia..|].
  - intros b k ? ? ?. destruct (bitmap_clear_bit_spec b k) as (b' & ? & ? & ? & Hj); [done..|].
    exists b'. split_and!; [done..|]. intros j ?. rewrite Hj by done. by destruct (j =? k).
  - exists b. split_and!; [done..|]. intros j ?. rewrite Hj by done.
    rewrite Z.add_0_r, Z2Nat.id by lia. by destruct ((index <=? j) && (j <? index + len)).
Qed.

Lemma bitmap_init_loop_spec n (bitmap : list Z) i value :
  0 <= i -> i + Z.of_nat n <= Z.of_nat (length bitmap) ->
  bitmap_init_loop n bitmap i value =
  Ret (take (Z.to_nat i) bitmap ++ replicate n value ++ drop (Z.to_nat i + n) bitmap).
Proof.
  revert bitmap i. induction n as [|n IH]; intros bitmap i Hi Hlen; cbn [bitmap_init_loop].
  - f_equal. simpl. by rewrite Nat.add_0_r, take_drop.
  - rewrite wr_in by lia. cbn [mbind outcome_bind]. rewrite IH by (rewrite ?length_insert; lia). f_equal.
    replace (Z.to_nat (i + 1)) with (S (Z.to_nat i)) by lia.
    rewrite (take_S_r _ (Z.to_nat i) value) by (apply list_lookup_insert_eq; lia).
    rewrite take_insert_ge, drop_insert_lt by lia.
    rewrite <- app_assoc. simpl. do 3 f_equal. f_equal. lia.
Qed.

(** [bitmap_init] overwrites the [size/8] words of the bitmap. *)
Lemma bitmap_init_spec (bitmap : list Z) size value :
  0 <= size -> Z.of_nat (length bitmap) = size / 8 ->
  bitmap_init bitmap size value = Ret (replicate (length bitmap) value).
Proof.
  intros Hs Hlen. unfold bitmap_init.
  rewrite bitmap_init_loop_spec; simpl; [|lia|lia].
  rewrite drop_ge, app_nil_r by lia. do 2 f_equal. lia.
Qed.

Lemma bm_wf_replicate n v : 0 <= v < 2 ^ 64 -> bm_wf (replicate n v).
Proof. intros. by apply Forall_replicate. Qed.

Lemma bm_bit_replicate_0 n k : bm_bit (replicate n 0) k = false.
Proof.
  unfold bm_bit. destruct (replicate n 0 !! _) eqn:E; simpl; [|apply Z.bits_0].
  apply lookup_replicate in E as [-> _]. apply Z.bits_0.
Qed.

(** ** The two scans from the start of the bitmap *)

Lemma find_first_1_loop_next n (bitmap : list Z) i :
  0 <= i -> (i + Z.of_nat n) * 64 < 2147483584 ->
  find_first_1_loop n bitmap i (i * 64) = find_next_1_loop n bitmap 0 0 i (i * 64).
Proof.
  revert i. induction n as [|n IH]; intros i Hi Hm; cbn [find_first_1_loop find_next_1_loop]; [done|].
  destruct (rd bitmap i) as [w| | |]; cbn [mbind outcome_bind]; try done.
  unfold WORD_BITS. rewrite (s32_small (i * 64 + 64)), (s32_small ((i + 1) * 64)) by lia.
  replace (i * 64 + 64) with ((i + 1) * 64) by lia. rewrite IH by lia.
  destruct (Z.eqb_spec w BITMAP_EMPTY) as [|Hne]; [done|]. unfold BITMAP_EMPTY in Hne.
  destruct (Z.eqb_spec i 0) as [->|]; simpl; [|done]. rewrite Z.shiftr_0_r.
  destruct (Z.eqb_spec w 0); done.
Qed.

Lemma find_first_0_loop_next n (bitmap : list Z) i :
  bm_wf bitmap -> 0 <= i -> (i + Z.of_nat n) * 64 < 2147483584 ->
  find_first_0_loop n bitmap i (i * 64) = find_next_0_loop n bitmap 0 0 i (i * 64).
Proof.
  intros Hwf. revert i. induction n as [|n IH]; intros i Hi Hm; cbn [find_first_0_loop find_next_0_loop]; [done|].
  destruct (rd bitmap i) as [w| | |] eqn:Er; cbn [mbind outcome_bind]; try done.
  apply rd_Ret in Er as [_ Er]. pose proof (bm_wf_lookup _ _ _ Hwf Er).
  unfold WORD_BITS. rewrite (s32_small (i * 64 + 64)), (s32_small ((i + 1) * 64)) by lia.
  replace (i * 64 + 64) with ((i + 1) * 64) by lia. rewrite IH by lia.
  destruct (Z.eqb_spec w BITMAP_FULL) as [|Hne]; [done|].
  rewrite not_full_test, andb_false_r by (done || lia).
  destruct (Z.eqb_spec i 0) as [->|]; [by rewrite Z.shiftr_0_r|done].
Qed.

(** ** The allocator's search and what it promises *)

Lemma bitmap_find_next_0_area_spec (bitmap : list Z) size start count :
  bm_wf bitmap -> 0 <= start < 2147483584 -> 0 < count ->
  size / 8 <= Z.of_nat (length bitmap) -> 0 <= size ->
  size / 8 * 64 < 2147483584 -> size / 8 * 64 + count < 2147483648 ->
  exists r, bitmap_find_next_0_area bitmap size start count = Ret r /\
    ((r = -1 /\ forall p, ~ area_fits bitmap (size / 8 * 64) start count p) \/
     (area_fits bitmap (size / 8 * 64) start count r /\
      forall p, area_fits bitmap (size / 8 * 64) start count p -> r <= p)).
Proof.
  intros. unfold bitmap_find_next_0_area. apply find_area_loop_spec; try done.
  unfold WORD_BITS. lia.
Qed.

(** C18: the search of the page allocator is exactly first fit.  On a bitmap of
    64-bit words, [bitmap_find_next_0_area] always terminates and never leaves
    the array; it returns the smallest [p >= start] such that the [count] bits
    from [p] are clear and [p + count] is below the last bit, and -1 when there
    is none. *)
Theorem bitmap_area_first_fit (bitmap : list Z) (size start count : Z)
  (Hwf : bm_wf bitmap) (Hstart : 0 <= start < 2147483584) (Hcount : 0 < count)
  (Hlen : size / 8 <= Z.of_nat (length bitmap)) (Hsize : 0 <= size)
  (Hmax : size / 8 * 64 < 2147483584) (Hmax2 : size / 8 * 64 + count < 2147483648) :
  exists r, bitmap_find_next_0_area bitmap size start count = Ret r /\
    ((r = -1 /\ forall p, ~ area_fits bitmap (size / 8 * 64) start count p) \/
     (area_fits bitmap (size / 8 * 64) start count r /\
      forall p, area_fits bitmap (size / 8 * 64) start count p -> r <= p)).
Proof. by apply bitmap_find_next_0_area_spec. Qed.

Lemma bitmap_area_first_fit_witness :
  bitmap_find_next_0_area [5; 0] 16 0 3 = Ret 3 /\
  exists r, bitmap_find_next_0_area [5; 0] 16 0 3 = Ret r /\
    ((r = -1 /\ forall p, ~ area_fits [5; 0] (16 / 8 * 64) 0 3 p) \/
     (area_fits [5; 0] (16 / 8 * 64) 0 3 r /\
      forall p, area_fits [5; 0] (16 / 8 * 64) 0 3 p -> r <= p)).
Proof.
  split; [vm_compute; reflexivity|].
  apply (bitmap_area_first_fit [5; 0] 16 0 3); [solve_forall|solve_num..].
Defined.

(** C40: [bitmap_find_first_1] is [bitmap_find_next_1] from bit 0, and
    [bitmap_find_next_1] is a correct scan: it returns the first set bit at or
    after [start], or -1 when every bit from [start] on is clear. *)
Theorem bitmap_find_1_correct (bitmap : list Z) (size start : Z)
  (Hwf : bm_wf bitmap) (Hstart : 0 <= start < 2147483584)
  (Hlen : size / 8 <= Z.of_nat (length bitmap)) (Hsize : 0 <= size)
  (Hmax : size / 8 * 64 < 2147483584) :
  bitmap_find_first_1 bitmap size = bitmap_find_next_1 bitmap size 0 /\
  exists r, bitmap_find_next_1 bitmap size start = Ret r /\
    scan1_post bitmap start (size / 8 * 64) r.
Proof.
  assert (0 <= size / 8) by (apply Z.div_pos; lia).
  split; [|by apply bitmap_find_next_1_spec].
  unfold bitmap_find_first_1, bitmap_find_next_1. simpl. rewrite Z.sub_0_r.
  apply (find_first_1_loop_next _ _ 0); lia.
Qed.

Lemma bitmap_find_1_correct_witness :
  bitmap_find_next_1 [5; 0] 16 1 = Ret 2 /\
  bitmap_find_first_1 [5; 0] 16 = bitmap_find_next_1 [5; 0] 16 0 /\
  exists r, bitmap_find_next_1 [5; 0] 16 1 = Ret r /\ scan1_post [5; 0] 1 (16 / 8 * 64) r.
Proof.
  split; [vm_compute; reflexivity|].
  apply (bitmap_find_1_correct [5; 0] 16 1); [solve_forall|solve_num..].
Defined.

(** [bitmap_find_next_0] can return a bit that is set.  When every bit from
    [start] to the end of its word is set but the word is not full, the code
    returns the first bit of the next word without looking at it. *)
Theorem bitmap_find_next_0_returns_set_bit :
  bitmap_find_next_0 [2 ^ 63; 1] 16 63 = Ret 64 /\
  bm_bit [2 ^ 63; 1] 64 = true /\ bm_bit [2 ^ 63; 1] 65 = false.
Proof. vm_compute. done. Qed.

(** ** A bitmap as a set of indices

    The operations that write a bitmap, and what each does to the bits. *)
Inductive bm_op : Type :=
  | BSet (index : Z)
  | BClear (index : Z)
  | BSets (index len : Z)
  | BClears (index len : Z)
  | BInit (size value : Z).

Definition bm_step (bitmap : list Z) (op : bm_op) : outcome (list Z) :=
  match op with
  | BSet index => bitmap_set_bit bitmap index
  | BClear index => bitmap_clear_bit bitmap index
  | BSets index len => bitmap_set_bits bitmap index len
  | BClears index len => bitmap_clear_bits bitmap index len
  | BInit size value => bitmap_init bitmap size (u64 value)
  end.

Fixpoint bm_run (bitmap : list Z) (ops : list bm_op) : outcome (list Z) :=
  match ops with
  | [] => Ret bitmap
  | op :: rest => b ← bm_step bitmap op; bm_run b rest
  end.

Definition in_run (index len j : Z) : bool := (index <=? j) && (j <? index + len).
Definition bits_step (f : Z -> bool) (op : bm_op) (j : Z) : bool :=
  match op with
  | BSet index => (j =? index) || f j
  | BClear index => negb (j =? index) && f j
  | BSets index len => in_run index len j || f j
  | BClears index len => negb (in_run index len j) && f j
  | BInit size value => if j <? size / 8 * 64 then Z.testbit (u64 value) (j mod 64) else f j
  end.

(** The bits of the operation are bits of [n] words. *)
Definition op_fits (n : nat) (op : bm_op) : Prop :=
  let bits := Z.of_nat n * 64 in
  match op with
  | BSet index | BClear index => 0 <= index < bits
  | BSets index len | BClears index len => 0 <= index /\ 0 <= len /\ index + len <= bits
  | BInit size value => 0 <= size /\ size / 8 <= Z.of_nat n
  end.

Lemma bm_bit_init (bitmap : list Z) n v j : (n <= length bitmap)%nat -> 0 <= j ->
  bm_bit (replicate n v ++ drop n bitmap) j = if j <? Z.of_nat n * 64 then Z.testbit v (j mod 64) else bm_bit bitmap j.
Proof.
  intros Hn Hj. unfold bm_bit, WORD_BITS. pose proof (Z.div_pos j 64 Hj ltac:(lia)). pose proof (Z.div_mod j 64). pose proof (Z.mod_pos_bound j 64).
  destruct (Z.ltb_spec j (Z.of_nat n * 64)).
  - rewrite lookup_app_l by (rewrite length_replicate; lia). by rewrite lookup_replicate_2 by lia.
  - rewrite lookup_app_r by (rewrite length_replicate; lia). rewrite length_replicate, lookup_drop. do 3 f_equal. lia.
Qed.
Lemma bm_step_bits (b : list Z) op : bm_wf b -> op_fits (length b) op -> Z.of_nat (length b) * 64 <= 2 ^ 38 ->
  exists b', bm_step b op = Ret b' /\ (bm_wf b' /\ length b' = length b) /\ forall j, 0 <= j -> bm_bit b' j = bits_step (bm_bit b) op j.
Proof.
  intros Hwf Hf H38. destruct op as [k|k|i n|i n|size v]; cbn [op_fits] in Hf; cbn [bm_step bits_step].
  - destruct (bitmap_set_bit_spec b k) as (b' & ? & ? & ? & ?); [done|lia|lia|]. by exists b'.
  - destruct (bitmap_clear_bit_spec b k) as (b' & ? & ? & ? & ?); [done|lia|lia|]. by exists b'.
  - destruct (bitmap_set_bits_spec b i n) as (b' & ? & ? & ? & ?); [done|lia..|]. by exists b'.
  - destruct (bitmap_clear_bits_spec b i n) as (b' & ? & ? & ? & ?); [done|lia..|]. by exists b'.
  - pose proof (Z.div_pos size 8). unfold bitmap_init. rewrite bitmap_init_loop_spec by lia.
    exists (replicate (Z.to_nat (size / 8)) (u64 v) ++ drop (Z.to_nat (size / 8)) b). split; [done|]. split.
    + split; [|rewrite length_app, length_replicate, length_drop; lia]. apply Forall_app. split; [apply bm_wf_replicate, wrapu_range; lia|by apply Forall_drop].
    + intros j Hj. rewrite bm_bit_init by lia. by rewrite Z2Nat.id by lia.
Qed.

Lemma bits_steps_ext ops f g : (forall j, 0 <= j -> f j = g j) -> forall j, 0 <= j -> foldl bits_step f ops j = foldl bits_step g ops j.
Proof.
  revert f g. induction ops as [|op ops IH]; intros f g Hfg; cbn; [done|]. apply IH. intros k Hk. destruct op; cbn [bits_step]; by rewrite (Hfg k Hk).
Qed.

(** C23: a bitmap is a set of indices.  Whatever sequence of the writing
    operations is run on an array of 64-bit words (at most 2^38 bits), with
    bits and ranges inside the array, it returns and leaves an array of as many
    64-bit words; a bit of it is set if and only if it is in the set that the
    same sequence of additions, removals and initialisations makes of the set
    the array stood for.  So each operation changes its own bits, across word
    boundaries, and no other. *)
Theorem bitmap_writes_refine (bitmap : list Z) (ops : list bm_op) (Hwf : bm_wf bitmap) (Hsize : Z.of_nat (length bitmap) * 64 <= 2 ^ 38)
  (Hops : Forall (op_fits (length bitmap)) ops) :
  exists b', bm_run bitmap ops = Ret b' /\ bm_wf b' /\ length b' = length bitmap /\
    forall j, 0 <= j -> bm_bit b' j = foldl bits_step (bm_bit bitmap) ops j.
Proof.
  revert bitmap Hwf Hsize Hops. induction ops as [|op ops IH]; intros b Hwf Hsize Hops; [by exists b|].
  apply Forall_cons in Hops as [Hop Hops]. destruct (bm_step_bits b op Hwf Hop Hsize) as (b1 & E1 & [Hwf1 Hl1] & Hb1).
  destruct (IH b1 Hwf1 ltac:(by rewrite Hl1) ltac:(by rewrite Hl1)) as (b2 & E2 & Hwf2 & Hl2 & Hb2).
  exists b2. cbn [bm_run]. rewrite E1. split; [done|]. split; [done|]. split; [congruence|]. intros j Hj. rewrite Hb2 by done. cbn [foldl]. by apply bits_steps_ext.
Qed.

Lemma bitmap_writes_refine_witness :
  let ops := [BInit 16 (-1); BClear 63; BClears 60 10; BSets 62 3; BSet 127] in
  exists b', bm_run [5; 0] ops = Ret b' /\ length b' = 2%nat /\ bm_bit b' 61 = false /\ bm_bit b' 64 = true.
Proof.
  destruct (bitmap_writes_refine [5; 0] [BInit 16 (-1); BClear 63; BClears 60 10; BSets 62 3; BSet 127]) as (b' & E & _ & Hl & Hb).
  - solve_forall.
  - cbn. lia.
  - repeat (apply Forall_cons_2; [vm_compute; intuition congruence|]). apply Forall_nil_2.
  - exists b'. split; [exact E|]. split; [exact Hl|]. split; [rewrite (Hb 61 ltac:(lia)); vm_compute; reflexivity|rewrite (Hb 64 ltac:(lia)); vm_compute; reflexivity].
Defined.
