(* ===== verification/Asid.v ===== *)
(** * Address space identifiers (ukern/src/asid.c, inc/arm64_asid.h)

    The identifiers are bits of a bitmap of [ASID_MAX] words.  The search is
    given [asid_max] as its size in bytes, so it looks at 32768 bits, of which
    the first 4096 are identifiers; those behind are marked used by
    [asid_init]. *)
From S2P Require Import Prelude Config Bitmap.

Definition ASID_MAX : Z := 4096.
Definition ASID_FIXED_SHARED : Z := 0.
Definition ASID_FIXED_KERNEL : Z := 1.
Definition ASID_USER_BASE : Z := 2.
Definition arch_asid_max : Z := 256.

Record asids := mkAsids { asid_bitmap : list Z; asid_max : Z }.
Definition asid_alloc : M asids Z :=
  s ← get;
  if asid_max s <=? ASID_USER_BASE then mret 0 else
  asid ← lift (bitmap_find_next_0 (asid_bitmap s) (asid_max s) ASID_USER_BASE);
  if asid_max s <=? asid then mret 0 else
  b ← lift (bitmap_set_bit (asid_bitmap s) (u64 asid)); put (mkAsids b (asid_max s));; mret asid.
Definition asid_free (asid : Z) : M asids () :=
  s ← get;
  assertM ((asid <? asid_max s) && (ASID_USER_BASE <=? asid));;
  b ← lift (bitmap_clear_bit (asid_bitmap s) (u64 asid)); put (mkAsids b (asid_max s)).
Definition asid_init : M asids () :=
  modify (fun s => mkAsids (asid_bitmap s) arch_asid_max);;
  modify (fun s => mkAsids (asid_bitmap s) (if ASID_MAX <? asid_max s then asid_max s else ASID_MAX));;
  s ← get;
  assertM (ASID_USER_BASE <? asid_max s);;
  b ← lift (bitmap_set_bits (asid_bitmap s) (u64 (asid_max s)) ASID_MAX);
  b ← lift (bitmap_set_bit b ASID_FIXED_SHARED);
  b ← lift (bitmap_set_bit b ASID_FIXED_KERNEL);
  put (mkAsids b (asid_max s)).
(** The zeroed static table. *)
Definition asids_boot : asids := mkAsids (replicate (Z.to_nat ASID_MAX) 0) 0.

(** ** What the table stands for *)

(** [used] are the identifiers handed out. *)
Record asids_are (s : asids) (used : gset Z) : Prop := {
  aa_max : asid_max s = ASID_MAX;
  aa_wf : bm_wf (asid_bitmap s);
  aa_len : Z.of_nat (length (asid_bitmap s)) = ASID_MAX;
  aa_used : forall a, a ∈ used -> ASID_USER_BASE <= a < ASID_MAX;
  aa_bits : forall a, 0 <= a < ASID_MAX -> bm_bit (asid_bitmap s) a = bool_decide (a < ASID_USER_BASE \/ a ∈ used);
  aa_tail : forall a, ASID_MAX <= a < 2 * ASID_MAX -> bm_bit (asid_bitmap s) a = true;
  aa_rest : forall a, 2 * ASID_MAX <= a -> bm_bit (asid_bitmap s) a = false }.

(** A full first word is skipped, and the scan of the rest is exact. *)
Lemma find_next_0_full_word (bitmap : list Z) size start :
  bm_wf bitmap -> 0 <= start < 2147483584 -> size / 8 <= Z.of_nat (length bitmap) -> size / 8 * 64 < 2147483584 -> start / 64 < size / 8 ->
  bitmap !! Z.to_nat (start / 64) = Some BITMAP_FULL ->
  exists r, bitmap_find_next_0 bitmap size start = Ret r /\
    (r = -1 /\ (forall k, (start / 64 + 1) * 64 <= k < size / 8 * 64 -> bm_bit bitmap k = true) \/
     (start / 64 + 1) * 64 <= r < size / 8 * 64 /\ bm_bit bitmap r = false /\ forall k, (start / 64 + 1) * 64 <= k < r -> bm_bit bitmap k = true).
Proof.
  intros Hwf Hs Hlen Hmax Hlt Hfull. set (wi := start / 64) in *. assert (0 <= wi) by (apply Z.div_pos; lia).
  pose proof (Z.mod_pos_bound start 64 ltac:(lia)).
  destruct (find_next_0_loop_spec (Z.to_nat (size / 8 - wi) - 1) bitmap wi (start mod 64) (wi + 1)) as (r & Hr & Hpost); [done|lia|lia|lia|lia|].
  exists r. split.
  - unfold bitmap_find_next_0, WORD_BITS. fold wi. replace (Z.to_nat (size / 8 - wi)) with (S (Z.to_nat (size / 8 - wi) - 1)) by lia.
    cbn [find_next_0_loop]. rewrite (rd_lookup bitmap wi BITMAP_FULL) by (done || lia). cbn [mbind outcome_bind]. rewrite Z.eqb_refl.
    unfold WORD_BITS. rewrite s32_small by lia. rewrite scan_pos_next in Hr by lia. exact Hr.
  - rewrite scan_pos_next in Hpost by lia. replace ((wi + 1 + Z.of_nat (Z.to_nat (size / 8 - wi) - 1)) * 64) with (size / 8 * 64) in Hpost by lia.
    destruct Hpost as [[-> H1]|(H1 & H2 & [[H3 H4]|[H3 _]])]; [by left|right; split; [lia|done]|]. rewrite Z.div_mul in H3; lia.
Qed.

(** The search answers the lowest clear bit from [ASID_USER_BASE] on: the two
    fixed identifiers keep the first word from being taken for free. *)
Lemma asid_search s used : asids_are s used ->
  exists r, bitmap_find_next_0 (asid_bitmap s) (asid_max s) ASID_USER_BASE = Ret r /\ ASID_USER_BASE <= r <= 2 * ASID_MAX /\
    bm_bit (asid_bitmap s) r = false /\ forall k, ASID_USER_BASE <= k < r -> bm_bit (asid_bitmap s) k = true.
Proof.
  intros [Hmax Hwf Hlen _ Hbits Htail Hrest]. rewrite Hmax. unfold ASID_MAX, ASID_USER_BASE in *. set (b := asid_bitmap s) in *.
  destruct (bm_lookup b 0) as [w Hw]; [lia|]. pose proof (bm_wf_lookup _ _ _ Hwf Hw) as Hwr.
  assert (forall j, 0 <= j < 64 -> bm_bit b j = Z.testbit w j) as Hword by (intros j Hj; rewrite (bm_bit_word b 0 w j) by (done || lia); f_equal; lia).
  pose proof (Hrest 8192 ltac:(lia)) as Hr8. destruct (decide (w = BITMAP_FULL)) as [->|Hnf].
  - destruct (find_next_0_full_word b 4096 2) as (r & E & [[-> H]|(H1 & H2 & H3)]); [done|lia|change (4096 / 8) with 512; lia|done|done|done| |]; change (4096 / 8) with 512 in *; change (2 / 64) with 0 in *.
    + rewrite (H 8192) in Hr8 by lia. done.
    + exists r. split; [done|]. split; [split; [lia|]|split; [done|]].
      * destruct (Z.le_gt_cases r 8192); [done|]. rewrite H3 in Hr8 by lia. done.
      * intros k Hk. destruct (Z.lt_ge_cases k 64); [rewrite Hword by lia; apply testbit_full; lia|apply H3; lia].
  - destruct (bitmap_find_next_0_spec b 4096 2) as (r & E & Hpost); [done|lia|change (4096 / 8) with 512; lia|done|lia|]. exists r. split; [done|].
    assert (exists j, 2 <= j < 64 /\ bm_bit b j = false) as (j & Hj & Hbj).
    { destruct (decide (Forall (fun j => Z.testbit w j = true) (seqZ 0 64))) as [Hall|Hex].
      - exfalso. apply Hnf, Z.bits_inj'. intros n Hn. destruct (Z.lt_ge_cases n 64).
        + rewrite testbit_full by lia. rewrite Forall_forall in Hall. apply Hall, elem_of_seqZ. lia.
        + rewrite (testbit_above w n), (testbit_above BITMAP_FULL n); [done|unfold BITMAP_FULL; lia|done|done|done].
      - apply not_Forall_Exists in Hex; [|intros j; apply _]. apply Exists_exists in Hex as (j & Hj & Hn). apply elem_of_seqZ in Hj.
        exists j. destruct (Z.lt_ge_cases j 2) as [Hlt|]; [|split; [lia|]; rewrite Hword by lia; destruct (Z.testbit w j) eqn:Et; [by destruct (Hn Et)|done]].
        exfalso. apply Hn. rewrite <- Hword, Hbits by lia. apply bool_decide_eq_true. by left. }
    change (4096 / 8) with 512 in Hpost. change (2 / 64) with 0 in Hpost. destruct Hpost as [[-> H]|(H1 & H2 & H3)]; [rewrite (H j) in Hbj by lia; done|].
    assert (r <= j) by (destruct (Z.le_gt_cases r j); [done|]; rewrite H2 in Hbj by lia; done).
    destruct H3 as [[_ H3]|[_ ->]]; [|lia]. split; [lia|]. by split.
Qed.

Lemma asid_set s used a b' : asids_are s used -> ASID_USER_BASE <= a < ASID_MAX ->
  (forall j, 0 <= j -> bm_bit b' j = (j =? a) || bm_bit (asid_bitmap s) j) -> bm_wf b' -> length b' = length (asid_bitmap s) ->
  asids_are (mkAsids b' (asid_max s)) ({[a]} ∪ used).
Proof.
  intros [Hmax Hwf Hlen Hu Hbits Htail Hrest] Ha Hb Hwf' Hlen'. unfold ASID_MAX, ASID_USER_BASE in *.
  split; cbn [asid_bitmap asid_max]; unfold ASID_MAX, ASID_USER_BASE; try done.
  - by rewrite Hlen'.
  - intros x Hx. apply elem_of_union in Hx as [->%elem_of_singleton|Hx]; [done|by apply Hu].
  - intros x Hx. rewrite Hb, Hbits by lia. destruct (Z.eqb_spec x a) as [->|Hne]; cbn [orb]; [symmetry; apply bool_decide_eq_true; set_solver|].
    apply bool_decide_ext. set_solver.
  - intros x Hx. rewrite Hb, Htail by lia. apply orb_true_r.
  - intros x Hx. rewrite Hb, Hrest by lia. destruct (Z.eqb_spec x a); [lia|done].
Qed.
Lemma asid_clear s used a b' : asids_are s used -> ASID_USER_BASE <= a < ASID_MAX ->
  (forall j, 0 <= j -> bm_bit b' j = negb (j =? a) && bm_bit (asid_bitmap s) j) -> bm_wf b' -> length b' = length (asid_bitmap s) ->
  asids_are (mkAsids b' (asid_max s)) (used ∖ {[a]}).
Proof.
  intros [Hmax Hwf Hlen Hu Hbits Htail Hrest] Ha Hb Hwf' Hlen'. unfold ASID_MAX, ASID_USER_BASE in *.
  split; cbn [asid_bitmap asid_max]; unfold ASID_MAX, ASID_USER_BASE; try done.
  - by rewrite Hlen'.
  - intros x Hx. apply Hu. set_solver.
  - intros x Hx. rewrite Hb, Hbits by lia. destruct (Z.eqb_spec x a) as [->|Hne]; cbn [negb andb].
    + symmetry. apply bool_decide_eq_false. intros [|Hin]; [lia|]. set_solver.
    + apply bool_decide_ext. set_solver.
  - intros x Hx. rewrite Hb, Htail by lia. destruct (Z.eqb_spec x a); [lia|done].
  - intros x Hx. rewrite Hb, Hrest by lia. apply andb_false_r.
Qed.

Lemma asid_alloc_run s used : asids_are s used ->
  exists a s', asid_alloc s = Ret (a, s') /\
    ((ASID_USER_BASE <= a < ASID_MAX /\ a ∉ used /\ (forall b, ASID_USER_BASE <= b < a -> b ∈ used) /\ asids_are s' ({[a]} ∪ used)) \/
     (a = 0 /\ s' = s /\ forall b, ASID_USER_BASE <= b < ASID_MAX -> b ∈ used)).
Proof.
  intros Hs. destruct (asid_search s used Hs) as (r & E & Hr & Hbit & Hlow). pose proof Hs as [Hmax Hwf Hlen Hu Hbits _ _].
  assert (forall b, ASID_USER_BASE <= b < ASID_MAX -> b < r -> b ∈ used) as Hin.
  { intros b Hb Hbr. pose proof (Hlow b ltac:(lia)) as Hb'. rewrite Hbits in Hb' by (unfold ASID_USER_BASE in *; lia). apply bool_decide_eq_true in Hb' as [|]; [lia|done]. }
  unfold asid_alloc. mrun (eq_refl (Ret (s, s))). rewrite Hmax in *. change (ASID_MAX <=? ASID_USER_BASE) with false. cbv iota.
  unfold lift. rewrite E. mrun (eq_refl (Ret (r, s))). destruct (Z.leb_spec ASID_MAX r) as [Hge|Hlt].
  - exists 0, s. split; [done|]. right. split; [done|]. split; [done|]. intros b Hb. apply Hin; lia.
  - unfold ASID_MAX, ASID_USER_BASE in *. rewrite u64_small by lia.
    destruct (bitmap_set_bit_spec (asid_bitmap s) r) as (b' & Es & Hwf' & Hlen' & Hb'); [done|lia|lia|].
    rewrite Es. mrun (eq_refl (Ret (b', s))). eexists _, _. split; [reflexivity|]. left. split; [lia|]. split; [|split].
    + intros Hin'. rewrite Hbits in Hbit by lia. apply bool_decide_eq_false in Hbit. auto.
    + intros b Hb. apply Hin; lia.
    + pose proof (asid_set s used r b' Hs ltac:(unfold ASID_MAX, ASID_USER_BASE; lia) Hb' Hwf' Hlen') as H. by rewrite Hmax in H.
Qed.
Lemma asid_free_run s used a : asids_are s used ->
  if (ASID_USER_BASE <=? a) && (a <? ASID_MAX) then exists s', asid_free a s = Ret (tt, s') /\ asids_are s' (used ∖ {[a]})
  else asid_free a s = Halt.
Proof.
  intros Hs. pose proof Hs as [Hmax Hwf Hlen _ _ _ _]. unfold asid_free. rewrite andb_comm.
  mrun (eq_refl (Ret (s, s))). rewrite Hmax. destruct ((a <? ASID_MAX) && (ASID_USER_BASE <=? a)) eqn:Eg; [|done].
  apply andb_true_iff in Eg as [Hlt%Z.ltb_lt Hge%Z.leb_le]. unfold ASID_MAX, ASID_USER_BASE in *. mrun (eq_refl (Ret (tt, s))). rewrite u64_small by lia.
  destruct (bitmap_clear_bit_spec (asid_bitmap s) a) as (b' & Es & Hwf' & Hlen' & Hb'); [done|lia|lia|].
  unfold lift. rewrite Es. mrun (eq_refl (Ret (b', s))). eexists. split; [reflexivity|]. pose proof (asid_clear s used a b' Hs ltac:(unfold ASID_MAX, ASID_USER_BASE; lia) Hb' Hwf' Hlen') as H. by rewrite Hmax in H.
Qed.
Lemma asid_init_run : exists s, asid_init asids_boot = Ret (tt, s) /\ asids_are s ∅.
Proof.
  set (b0 := replicate (Z.to_nat ASID_MAX) 0). assert (Z.of_nat (length b0) = 4096) as Hl by (unfold b0; by rewrite length_replicate, Z2Nat.id).
  assert (bm_wf b0) as Hwf by by apply bm_wf_replicate.
  destruct (bitmap_set_bits_spec b0 4096 4096) as (b1 & E1 & W1 & L1 & H1); [done|lia|lia|lia|lia|].
  destruct (bitmap_set_bit_spec b1 0) as (b2 & E2 & W2 & L2 & H2); [done|lia|lia|].
  destruct (bitmap_set_bit_spec b2 1) as (b3 & E3 & W3 & L3 & H3); [done|lia|lia|].
  exists (mkAsids b3 4096). split.
  - unfold asid_init. do 2 (erewrite M_bind_run by reflexivity). mrun (eq_refl : get _ = Ret (mkAsids b0 4096, mkAsids b0 4096)).
    mrun (eq_refl (Ret (tt, mkAsids b0 4096))). unfold lift. cbn [asid_bitmap asid_max]. change (u64 4096) with 4096. change ASID_MAX with 4096.
    rewrite E1. mrun (eq_refl (Ret (b1, mkAsids b0 4096))).
    change ASID_FIXED_SHARED with 0. change ASID_FIXED_KERNEL with 1. rewrite E2. mrun (eq_refl (Ret (b2, mkAsids b0 4096))). rewrite E3. done.
  - assert (forall j, 0 <= j -> bm_bit b3 j = (j =? 1) || (j =? 0) || (4096 <=? j) && (j <? 8192)) as Hb.
    { intros j Hj. rewrite H3, H2, H1 by done. unfold b0. rewrite bm_bit_replicate_0, orb_false_r, orb_assoc. done. }
    clear H1 H2 H3 E1 E2 E3. clearbody b0. split; cbn [asid_bitmap asid_max]; unfold ASID_MAX, ASID_USER_BASE.
    + reflexivity.
    + exact W3.
    + lia.
    + intros a Ha. by apply elem_of_empty in Ha.
    + intros a Ha. rewrite Hb by lia. destruct (decide (a < 2)) as [H|H].
      * rewrite (bool_decide_eq_true_2 (a < 2 \/ _)) by (by left). assert (a = 0 \/ a = 1) as [-> | ->] by lia; done.
      * rewrite (bool_decide_eq_false_2 (a < 2 \/ _)) by set_solver. destruct (Z.eqb_spec a 1), (Z.eqb_spec a 0), (Z.leb_spec 4096 a); cbn; lia || done.
    + intros a Ha. rewrite Hb by lia. destruct (Z.leb_spec 4096 a), (Z.ltb_spec a 8192); lia || apply orb_true_r.
    + intros a Ha. rewrite Hb by lia. destruct (Z.eqb_spec a 1), (Z.eqb_spec a 0), (Z.ltb_spec a 8192); try lia; cbn; try apply andb_false_r.
Qed.

(** C20: identifiers are handed out like the elements of a set.  [asid_init] on
    the zeroed table leaves 2 to 4095 free.  [asid_alloc] then returns the
    smallest identifier that is not in use and takes it, or 0 with nothing
    changed when all 4094 are in use; so no identifier is ever given to two
    owners, although the search it calls can answer a set bit in general.
    [asid_free] gives exactly its argument back, and stops at its assertion for
    one of the fixed identifiers or a number outside the table. *)
Theorem asids_refine :
  (exists s, asid_init asids_boot = Ret (tt, s) /\ asids_are s ∅) /\
  (forall s used, asids_are s used ->
    exists a s', asid_alloc s = Ret (a, s') /\
      ((ASID_USER_BASE <= a < ASID_MAX /\ a ∉ used /\ (forall b, ASID_USER_BASE <= b < a -> b ∈ used) /\ asids_are s' ({[a]} ∪ used)) \/
       (a = 0 /\ s' = s /\ forall b, ASID_USER_BASE <= b < ASID_MAX -> b ∈ used))) /\
  (forall s used a, asids_are s used ->
    if (ASID_USER_BASE <=? a) && (a <? ASID_MAX) then exists s', asid_free a s = Ret (tt, s') /\ asids_are s' (used ∖ {[a]})
    else asid_free a s = Halt).
Proof. split; [apply asid_init_run|]. split; [apply asid_alloc_run|apply asid_free_run]. Qed.

(** The architecture reports 256 identifiers, the table hands out 4094: with
    the first 254 taken the next one does not fit an 8-bit identifier. *)
Theorem asid_exceeds_arch s used : asids_are s used -> (forall b, ASID_USER_BASE <= b < arch_asid_max -> b ∈ used) -> (exists b, ASID_USER_BASE <= b < ASID_MAX /\ b ∉ used) ->
  exists a s', asid_alloc s = Ret (a, s') /\ arch_asid_max <= a.
Proof.
  intros Hs Hall (b & Hb & Hnb). destruct (asid_alloc_run s used Hs) as (a & s' & E & [(Ha & Hn & _)|(_ & _ & Hfull)]).
  - exists a, s'. split; [done|]. destruct (Z.lt_ge_cases a arch_asid_max); [|lia]. destruct Hn. apply Hall. lia.
  - destruct Hnb. by apply Hfull.
Qed.
