(* ===== verification/Page.v ===== *)
(** * The page allocator (ukern/src/page.c, inc/page.h)

    [page_sections] is the list of the six static sections; a section owns its
    bitmap and its array of page descriptors.  [page_section_init] places both
    in RAM it has not written before, so their initial contents are arguments. *)
From S2P Require Import Prelude Config Bitmap.

(** [struct page]. *)
Record page := mkPage { pg_pa : Z; pg_count : Z }.

Definition sizeof_page : Z := 16.

(** [struct page_section]. *)
Record page_section := mkSection {
  pa_base : Z;
  va_base : Z;
  nr_pages : Z;
  ps_free : Z;
  ps_bitmap : list Z;
  ps_pages : list page;
}.

(** [static struct page_section page_sections[6]], all zero before [page_init]. *)
Definition NR_SECTIONS : nat := 6.
Definition section0 : page_section := mkSection 0 0 0 0 [] [].
Abbreviation page_state := (list page_section).
Definition page_sections0 : page_state := replicate NR_SECTIONS section0.

Definition page_section_init (ram_bitmap : list Z) (ram_pages : list page) (base pages : Z)
    : outcome page_section :=
  assert_ (page_aligned base);;
  assert_ (0 <? pages);;
  let origin := base in
  bm ← bitmap_init ram_bitmap (BITMAP_SIZE pages) BITMAP_EMPTY;
  let base := u64 (base + BITMAP_SIZE pages) in
  let base := u64 (base + u64 (pages * sizeof_page)) in
  let base := align_page_up base in
  let nr := s32 (u64 (pages - Z.shiftr (u64 (base - origin)) PAGE_SHIFT)) in
  Ret (mkSection base (ptov base) nr nr bm ram_pages).

Definition page_init (ram_bitmap : list Z) (ram_pages : list page) (base pages : Z) : M page_state () :=
  fun s => ps ← page_section_init ram_bitmap ram_pages base pages;
           s' ← wr s 0 ps; Ret (tt, s').

(** Returns the index of the first descriptor of the block. *)
Definition __page_allocn_sect (ps : page_section) (count : Z) : outcome (option Z * page_section) :=
  pos ← bitmap_find_next_0_area (ps_bitmap ps) (BITMAP_SIZE (nr_pages ps)) 0 count;
  if pos =? -1 then Ret (None, ps)
  else
    bm ← bitmap_set_bits (ps_bitmap ps) pos count;
    pgs ← wr (ps_pages ps) pos (mkPage (u64 (pa_base ps + s32 (pos * PAGE_SIZE))) count);
    Ret (Some pos, mkSection (pa_base ps) (va_base ps) (nr_pages ps) (s32 (ps_free ps - count)) bm pgs).

(** The loop over the sections, from section [i], [n] of them left.  The
    result designates a descriptor by its section and its index. *)
Fixpoint page_allocn_loop (n : nat) (i : Z) (s : page_state) (count : Z)
    : outcome (option (Z * Z) * page_state) :=
  match n with
  | O => Ret (None, s)
  | S n' =>
      ps ← rd s i;
      r ← __page_allocn_sect ps count;
      match r with
      | (Some pos, ps') => s' ← wr s i ps'; Ret (Some (i, pos), s')
      | (None, _) => page_allocn_loop n' (i + 1) s count
      end
  end.

Definition __page_allocn (pages : Z) : M page_state (option (Z * Z)) :=
  fun s => page_allocn_loop NR_SECTIONS 0 s pages.

Definition page_allocn (count : Z) : M page_state Z :=
  if 512 <? count then halt
  else
    r ← __page_allocn count;
    match r with
    | Some (i, pos) =>
        s ← get;
        p ← lift (ps ← rd s i; rd (ps_pages ps) pos);
        mret (ptov (pg_pa p))
    | None => mret 0
    end.

Definition page_alloc : M page_state Z := page_allocn 1.

(** The zeroing variants also write the memory of the machine, which the
    allocator does not look at: [memset] is the routine of memset.S on it. *)
Section Zeroing.
Context {Mem : Type} (memset : Z -> Z -> Z -> Mem -> Mem).

Definition page_allocnz (count : Z) : M (page_state * Mem) Z :=
  fun '(s, m) =>
    '(p, s') ← page_allocn count s;
    if p =? 0 then Ret (p, (s', m))
    else Ret (p, (s', memset p 0 (s32 (PAGE_SIZE * count)) m)).

Definition page_allocz : M (page_state * Mem) Z := page_allocnz 1.
End Zeroing.

(** The [while] loop of [page_free] over the set bits of a section:
    [Some ps'] when the block was found and released. *)
Fixpoint page_free_loop (fuel : nat) (ps : page_section) (ptr pos : Z) : outcome (option page_section) :=
  match fuel with
  | O => Diverge
  | S fuel' =>
      pos ← bitmap_find_next_1 (ps_bitmap ps) (BITMAP_SIZE (nr_pages ps)) pos;
      if pos =? -1 then Ret None
      else
        p ← rd (ps_pages ps) pos;
        if pg_pa p =? 0 then page_free_loop fuel' ps ptr (pos + 1)
        else if (ptov (pg_pa p) <=? ptr) &&
                (ptr <? u64 (ptov (pg_pa p) + s32 (pg_count p * PAGE_SIZE))) then
          bm ← bitmap_clear_bit (ps_bitmap ps) pos;
          pgs ← wr (ps_pages ps) pos (mkPage 0 0);
          Ret (Some (mkSection (pa_base ps) (va_base ps) (nr_pages ps)
                       (s32 (ps_free ps + pg_count p)) bm pgs))
        else page_free_loop fuel' ps ptr (pos + 1)
  end.

(** Bits the loop can visit. *)
Definition section_bits (ps : page_section) : Z := BITMAP_SIZE (nr_pages ps) / 8 * 64.

(** [for (i = 0; i < 1; i++)]: only section 0 is searched. *)
Definition page_free (ptr : Z) : M page_state () :=
  assertM (page_aligned ptr);;
  s ← get;
  ps ← lift (rd s 0);
  r ← lift (page_free_loop (S (Z.to_nat (section_bits ps))) ps ptr 0);
  match r with
  | Some ps' => s' ← lift (wr s 0 ps'); put s'
  | None => mret tt
  end.

(** ** Invariant *)

(** Descriptor [p] at index [pos] heads an allocated block. *)
Definition block_at (ps : page_section) (pos : Z) (p : page) : Prop :=
  0 <= pos /\ ps_pages ps !! Z.to_nat pos = Some p /\ pg_pa p <> 0.

(** Pages accounted to live blocks. *)
Definition live_pages (pgs : list page) : Z :=
  foldr (fun p acc => (if pg_pa p =? 0 then 0 else pg_count p) + acc) 0 pgs.

Record ps_inv (ps : page_section) : Prop := {
  inv_wf : bm_wf (ps_bitmap ps);
  inv_nr : 0 <= nr_pages ps < 2 ^ 31 - 64;
  inv_bits : section_bits ps <= 64 * Z.of_nat (length (ps_bitmap ps));
  inv_pages : section_bits ps <= Z.of_nat (length (ps_pages ps));
  inv_base : pa_base ps mod 4096 = 0 /\ 0 <= pa_base ps /\ (0 < section_bits ps -> 0 < pa_base ps);
  inv_range : section_bits ps < 2 ^ 19 /\ pa_base ps + section_bits ps * 4096 < 2 ^ 47;
  inv_head : forall pos p, block_at ps pos p ->
    pg_pa p = pa_base ps + pos * 4096 /\ 0 < pg_count p /\ pos + pg_count p < section_bits ps /\
    forall k, pos <= k < pos + pg_count p -> bm_bit (ps_bitmap ps) k = true;
  inv_disj : forall pos1 p1 pos2 p2, block_at ps pos1 p1 -> block_at ps pos2 p2 ->
    pos1 < pos2 -> pos1 + pg_count p1 <= pos2;
  inv_free : ps_free ps = s32 (nr_pages ps - live_pages (ps_pages ps));
}.

Lemma BITMAP_SIZE_spec n : 0 <= n < 2 ^ 31 -> BITMAP_SIZE n / 8 = (n + 63) / 64.
Proof.
  intros Hn. unfold BITMAP_SIZE, WORD_BITS. rewrite Z.quot_div_nonneg by lia.
  replace (n + 64 - 1) with (n + 63) by lia.
  assert (0 <= (n + 63) / 64 < 2 ^ 31) by (split; [apply Z.div_pos|apply Z.div_lt_upper_bound]; lia).
  rewrite u64_small by lia. apply Z.div_mul. lia.
Qed.

Lemma BITMAP_SIZE_nonneg n : 0 <= BITMAP_SIZE n.
Proof. apply wrapu_range. lia. Qed.

Lemma section_bits_spec ps :
  0 <= nr_pages ps < 2 ^ 31 - 64 ->
  section_bits ps = (nr_pages ps + 63) / 64 * 64 /\ nr_pages ps <= section_bits ps < nr_pages ps + 64.
Proof.
  intros Hn. unfold section_bits. rewrite BITMAP_SIZE_spec by lia.
  pose proof (Z.div_mod (nr_pages ps + 63) 64). pose proof (Z.mod_pos_bound (nr_pages ps + 63) 64). lia.
Qed.

Lemma wraps_add_idemp w a b : 0 < w -> wraps w (wraps w a + b) = wraps w (a + b).
Proof.
  intros Hw. unfold wraps.
  replace ((a + 2 ^ (w - 1)) mod 2 ^ w - 2 ^ (w - 1) + b + 2 ^ (w - 1))
    with ((a + 2 ^ (w - 1)) mod 2 ^ w + b) by lia.
  rewrite Zplus_mod_idemp_l. do 2 f_equal. lia.
Qed.

Lemma live_pages_insert pgs i p q :
  pgs !! i = Some p ->
  live_pages (<[i := q]> pgs) = live_pages pgs
    - (if pg_pa p =? 0 then 0 else pg_count p) + (if pg_pa q =? 0 then 0 else pg_count q).
Proof.
  revert i. induction pgs as [|x pgs IH]; intros [|i] H; simpl in *; [done|done| |].
  - injection H as ->. lia.
  - rewrite (IH i H). lia.
Qed.

(** The state after a block was handed out. *)
Definition alloc_post (ps ps' : page_section) (pos count : Z) : Prop :=
  pa_base ps' = pa_base ps /\ va_base ps' = va_base ps /\ nr_pages ps' = nr_pages ps /\
  ps_pages ps' = <[Z.to_nat pos := mkPage (pa_base ps + pos * 4096) count]> (ps_pages ps) /\
  (forall j, 0 <= j -> bm_bit (ps_bitmap ps') j =
     (pos <=? j) && (j <? pos + count) || bm_bit (ps_bitmap ps) j) /\
  ps_free ps' = s32 (ps_free ps - count).

Lemma block_at_insert ps ps' pos q pos' p :
  0 <= pos < Z.of_nat (length (ps_pages ps)) ->
  ps_pages ps' = <[Z.to_nat pos := q]> (ps_pages ps) ->
  block_at ps' pos' p <-> (pos' = pos /\ p = q /\ pg_pa q <> 0) \/ (pos' <> pos /\ block_at ps pos' p).
Proof.
  intros Hpos Hp. unfold block_at. rewrite Hp.
  destruct (decide (pos' = pos)) as [->|Hne].
  - rewrite list_lookup_insert_eq by lia. split.
    + intros (? & [= ->] & ?). by left.
    + intros [(_ & -> & ?)|[? _]]; [|done]. split_and!; [lia|done|done].
  - destruct (decide (0 <= pos')); [|naive_solver].
    rewrite list_lookup_insert_ne by lia. naive_solver.
Qed.

(** A clear run meets no live block. *)
Lemma run_misses_blocks ps pos count pos' p :
  ps_inv ps -> 0 < count -> 0 <= pos -> free_run (ps_bitmap ps) pos count -> block_at ps pos' p ->
  pos' + pg_count p <= pos \/ pos + count <= pos'.
Proof.
  intros Hinv Hc Hp Hrun Hb. destruct (inv_head ps Hinv _ _ Hb) as (_ & Hc' & _ & Hset).
  destruct (decide (pos' + pg_count p <= pos)); [by left|right].
  destruct (decide (pos + count <= pos')); [done|exfalso].
  specialize (Hset (Z.max pos pos') ltac:(lia)). rewrite (Hrun (Z.max pos pos')) in Hset by lia. done.
Qed.

Lemma alloc_post_inv ps ps' pos count :
  ps_inv ps -> 0 < count -> area_fits (ps_bitmap ps) (section_bits ps) 0 count pos ->
  bm_wf (ps_bitmap ps') -> length (ps_bitmap ps') = length (ps_bitmap ps) ->
  alloc_post ps ps' pos count -> (forall p, ~ block_at ps pos p) -> ps_inv ps'.
Proof.
  intros Hinv Hc (Hp0 & Hfit & Hrun) Hwf Hlen (Hpa & Hva & Hnr & Hpg & Hbits & Hfree) Hnew.
  assert (section_bits ps' = section_bits ps) as Hsb by (unfold section_bits; by rewrite Hnr).
  pose proof (inv_pages ps Hinv) as Hplen. destruct (inv_base ps Hinv) as (Hb1 & Hb2 & Hb3).
  destruct (inv_range ps Hinv) as [Hr1 Hr2].
  assert (forall pos' p, block_at ps' pos' p <->
    (pos' = pos /\ p = mkPage (pa_base ps + pos * 4096) count) \/ (pos' <> pos /\ block_at ps pos' p)) as Hblk.
  { intros pos' p. rewrite (block_at_insert ps ps' pos) by (done || lia). simpl.
    split; [naive_solver|]. intros [[-> ->]|?]; [|by right]. left. split_and!; [done|done|lia]. }
  split; rewrite ?Hsb, ?Hpa, ?Hnr; try done.
  - apply inv_nr, Hinv.
  - rewrite Hlen. apply inv_bits, Hinv.
  - rewrite Hpg, length_insert. done.
  - intros pos' p [[-> ->]|[Hne Hb]]%Hblk; simpl.
    + split_and!; [done|done|lia|]. intros k Hk. rewrite Hbits by lia.
      destruct (Z.leb_spec pos k), (Z.ltb_spec k (pos + count)); simpl; lia || done.
    + destruct (inv_head ps Hinv _ _ Hb) as (? & ? & ? & Hset). split_and!; [done..|].
      intros k Hk. destruct Hb as [? _]. rewrite Hbits, Hset, orb_true_r by lia. done.
  - intros pos1 p1 pos2 p2 [[-> ->]|[Hn1 Hb1']]%Hblk [[-> ->]|[Hn2 Hb2']]%Hblk Hlt; simpl; [lia| | |].
    + destruct (run_misses_blocks ps pos count pos2 p2); [done..| |done]. 
      destruct (inv_head ps Hinv _ _ Hb2'). lia.
    + destruct (run_misses_blocks ps pos count pos1 p1); [done..| lia].
    + by eapply (inv_disj ps Hinv).
  - rewrite Hfree, (inv_free ps Hinv), Hpg.
    destruct (lookup_lt_is_Some_2 (ps_pages ps) (Z.to_nat pos)) as [q Hq]; [lia|].
    rewrite (live_pages_insert _ _ q) by done. simpl.
    assert (pg_pa q = 0) as ->.
    { destruct (decide (pg_pa q = 0)); [done|]. exfalso. apply (Hnew q). done. }
    destruct (Z.eqb_spec (pa_base ps + pos * 4096) 0); [lia|]. simpl.
    rewrite <- Z.add_opp_r, wraps_add_idemp by lia. f_equal. lia.
Qed.

(** A clear bit heads no live block. *)
Lemma free_no_head ps pos p : ps_inv ps -> bm_bit (ps_bitmap ps) pos = false -> ~ block_at ps pos p.
Proof.
  intros Hinv Hf Hb. destruct (inv_head ps Hinv _ _ Hb) as (_ & ? & _ & Hset).
  rewrite Hset in Hf by lia. done.
Qed.

Lemma page_allocn_sect_spec ps count :
  ps_inv ps -> 0 < count <= 512 ->
  (__page_allocn_sect ps count = Ret (None, ps) /\
     forall pos, ~ area_fits (ps_bitmap ps) (section_bits ps) 0 count pos) \/
  (exists pos ps', __page_allocn_sect ps count = Ret (Some pos, ps') /\
     area_fits (ps_bitmap ps) (section_bits ps) 0 count pos /\
     (forall q, area_fits (ps_bitmap ps) (section_bits ps) 0 count q -> pos <= q) /\
     alloc_post ps ps' pos count /\ ps_inv ps').
Proof.
  intros Hinv Hc. destruct (inv_range ps Hinv) as [Hr1 Hr2]. pose proof (inv_bits ps Hinv) as Hb.
  pose proof (inv_pages ps Hinv) as Hp. destruct (inv_base ps Hinv) as (Hb1 & Hb2 & Hb3).
  unfold section_bits in *. set (bits := BITMAP_SIZE (nr_pages ps) / 8 * 64) in *.
  destruct (bitmap_find_next_0_area_spec (ps_bitmap ps) (BITMAP_SIZE (nr_pages ps)) 0 count)
    as (r & Hr & Hspec); [apply Hinv|lia|lia|lia|apply BITMAP_SIZE_nonneg|lia|lia|].
  fold bits in Hspec. unfold __page_allocn_sect. rewrite Hr. cbn [mbind outcome_bind].
  destruct Hspec as [[-> Hno]|[Hfit Hmin]]; [by left|right].
  pose proof Hfit as (Hp0 & Hfit' & Hrun).
  destruct (Z.eqb_spec r (-1)); [lia|].
  destruct (bitmap_set_bits_spec (ps_bitmap ps) r count) as (bm & -> & Hwf & Hlen & Hbm);
    [apply Hinv|lia..|].
  cbn [mbind outcome_bind]. rewrite wr_in by lia. cbn [mbind outcome_bind].
  eexists _, _. split; [reflexivity|]. split; [done|]. split; [done|].
  unfold PAGE_SIZE. rewrite (s32_small (r * 4096)), u64_small by lia.
  assert (alloc_post ps (mkSection (pa_base ps) (va_base ps) (nr_pages ps) (s32 (ps_free ps - count)) bm
    (<[Z.to_nat r := mkPage (pa_base ps + r * 4096) count]> (ps_pages ps))) r count) as Hpost by done.
  split; [done|]. eapply (alloc_post_inv ps); try done; [lia|].
  intros p. apply free_no_head; [done|]. apply Hrun. lia.
Qed.

(** ** The allocator as the rest of the kernel sees it *)

(** Section 0 is the RAM given to [page_init]; the others are still zero. *)
Definition page_inv (s : page_state) : Prop :=
  exists ps, s = ps :: replicate 5 section0 /\ ps_inv ps.

(** [n] pages starting at kernel address [va] are handed out. *)
Definition page_live (s : page_state) (va n : Z) : Prop :=
  exists ps pos p, s !! 0%nat = Some ps /\ block_at ps pos p /\ va = ptov (pg_pa p) /\ n = pg_count p.

(** Addresses of the pages of section 0. *)
Definition page_arena (s : page_state) (x : Z) : Prop :=
  exists ps, s !! 0%nat = Some ps /\
    ptov (pa_base ps) <= x < ptov (pa_base ps) + section_bits ps * 4096.

Lemma empty_section_none count : __page_allocn_sect section0 count = Ret (None, section0).
Proof. reflexivity. Qed.

Lemma page_allocn_spec s count :
  page_inv s -> 0 < count <= 512 ->
  exists va s', page_allocn count s = Ret (va, s') /\ page_inv s' /\
    ((va = 0 /\ s' = s /\ exists ps, s !! 0%nat = Some ps /\
        forall pos, ~ area_fits (ps_bitmap ps) (section_bits ps) 0 count pos) \/
     (exists ps ps' pos, s = ps :: replicate 5 section0 /\ s' = ps' :: replicate 5 section0 /\
        area_fits (ps_bitmap ps) (section_bits ps) 0 count pos /\
        (forall q, area_fits (ps_bitmap ps) (section_bits ps) 0 count q -> pos <= q) /\
        alloc_post ps ps' pos count /\ va = ptov (pa_base ps + pos * 4096))).
Proof.
  intros (ps & -> & Hinv) Hc. unfold page_allocn, __page_allocn.
  destruct (Z.ltb_spec 512 count); [lia|].
  unfold mbind at 1, M_bind. unfold NR_SECTIONS. cbn [page_allocn_loop].
  rewrite (rd_lookup (ps :: replicate 5 section0) 0 ps) by done. cbn [mbind outcome_bind].
  destruct (page_allocn_sect_spec ps count Hinv Hc) as [[He Hno]|(pos & ps' & He & Hfit & Hmin & Hpost & Hinv')].
  - rewrite He. cbn.
    exists 0, (ps :: replicate 5 section0). split; [done|]. split; [by exists ps|left].
    split_and!; [done..|by exists ps].
  - rewrite He. cbn.
    pose proof Hpost as (_ & _ & _ & Hpg & _). pose proof Hfit as (? & ? & _).
    rewrite (wr_in _ 0 ps') by (simpl; lia). mstep. rewrite (rd_lookup _ 0 ps') by done.
    rewrite (rd_lookup (ps_pages ps') pos (mkPage (pa_base ps + pos * 4096) count)); [|lia|].
    2:{ rewrite Hpg. apply list_lookup_insert_eq. pose proof (inv_pages ps Hinv). lia. }
    cbn. eexists _, _. split; [reflexivity|]. split; [by exists ps'|]. right. by exists ps, ps', pos.
Qed.

(** A run of [n] free pages is left below the address [lim]. *)
Definition page_room (s : page_state) (n lim : Z) : Prop :=
  exists ps pos, s !! 0%nat = Some ps /\ area_fits (ps_bitmap ps) (section_bits ps) 0 n pos /\ ptov (pa_base ps) + (pos + n) * 4096 <= lim.

(** What [page_allocn] promises to its callers. *)
Class PageAlloc (PS : Type) := {
  pa_allocn : Z -> M PS Z;
  pa_inv : PS -> Prop;
  pa_live : PS -> Z -> Z -> Prop;
  pa_arena : PS -> Z -> Prop; (* the addresses the allocator deals in *)
  pa_room : PS -> Z -> Z -> Prop; (* so many pages can still be handed out, below that address *)
  pa_live_arena : forall s va n x, pa_inv s -> pa_live s va n -> va <= x < va + n * 4096 -> pa_arena s x;
  pa_live_range : forall s va n, pa_inv s -> pa_live s va n ->
    va mod 4096 = 0 /\ ptov 0 < va /\ 0 < n /\ va + n * 4096 < 2 ^ 64 - 2 ^ 46;
  pa_live_disjoint : forall s va1 n1 va2 n2, pa_inv s -> pa_live s va1 n1 -> pa_live s va2 n2 ->
    va1 < va2 -> va1 + n1 * 4096 <= va2;
  pa_allocn_spec : forall s count, pa_inv s -> 0 < count <= 512 ->
    exists va s', pa_allocn count s = Ret (va, s') /\ pa_inv s' /\
      (forall x, pa_arena s' x <-> pa_arena s x) /\
      ((va = 0 /\ s' = s) \/
       (va <> 0 /\ (forall va' n, pa_live s' va' n <-> (va' = va /\ n = count) \/ pa_live s va' n) /\
        forall va' n, pa_live s va' n -> va' + n * 4096 <= va \/ va + count * 4096 <= va'));
  pa_room_le : forall s n m lim, pa_room s n lim -> 0 <= m <= n -> pa_room s m lim;
  pa_allocn_room : forall s count n lim va s', pa_inv s -> 0 < count <= 512 -> count <= n -> pa_room s n lim ->
    pa_allocn count s = Ret (va, s') -> va <> 0 /\ va + count * 4096 <= lim /\ pa_room s' (n - count) lim;
}.

Lemma block_range ps pos p :
  ps_inv ps -> block_at ps pos p ->
  ptov (pg_pa p) = 0xffff000000000000 + pa_base ps + pos * 4096 /\ 0 < pa_base ps /\
  0 <= pos /\ 0 < pg_count p /\ pa_base ps + (pos + pg_count p) * 4096 < 2 ^ 47 /\
  pa_base ps mod 4096 = 0.
Proof.
  intros Hinv Hb. destruct (inv_head ps Hinv _ _ Hb) as (Hpa & Hcnt & Hlt & _).
  destruct (inv_base ps Hinv) as (Hb1 & Hb2 & Hb3). destruct (inv_range ps Hinv) as [_ Hr].
  destruct Hb as (Hp0 & _). assert (0 < pa_base ps) by (apply Hb3; lia).
  split_and!; try lia. rewrite Hpa, ptov_small by lia. lia.
Qed.

Lemma page_live_cons ps l va n :
  page_live (ps :: l) va n <-> exists pos p, block_at ps pos p /\ va = ptov (pg_pa p) /\ n = pg_count p.
Proof. unfold page_live. simpl. naive_solver. Qed.

#[global] Program Instance page_alloc_impl : PageAlloc page_state := {|
  pa_allocn := page_allocn;
  pa_inv := page_inv;
  pa_live := page_live;
  pa_arena := page_arena;
  pa_room := page_room;
|}.
Next Obligation.
  intros s va n x (ps & -> & Hinv) (pos & p & Hb & -> & ->)%page_live_cons Hx.
  destruct (block_range ps pos p Hinv Hb) as (Heq & ? & ? & ? & ? & ?). rewrite Heq in Hx.
  destruct (inv_head ps Hinv pos p Hb) as (_ & _ & Hlt & _).
  exists ps. rewrite ptov_small by lia. split; [done|lia].
Qed.
Next Obligation.
  intros s va n (ps & -> & Hinv) (pos & p & Hb & -> & ->)%page_live_cons.
  destruct (block_range ps pos p Hinv Hb) as (-> & ? & ? & ? & ? & ?).
  split_and!; [|vm_compute (ptov 0); lia|lia|lia].
  replace (0xffff000000000000 + pa_base ps + pos * 4096)
    with (pa_base ps + (0xffff000000000 + pos) * 4096) by lia.
  by rewrite Z_mod_plus_full.
Qed.
Next Obligation.
  intros s va1 n1 va2 n2 (ps & -> & Hinv) (pos1 & p1 & Hb1 & -> & ->)%page_live_cons
    (pos2 & p2 & Hb2 & -> & ->)%page_live_cons.
  destruct (block_range ps pos1 p1 Hinv Hb1) as (-> & _).
  destruct (block_range ps pos2 p2 Hinv Hb2) as (-> & _). intros Hlt.
  pose proof (inv_disj ps Hinv _ _ _ _ Hb1 Hb2 ltac:(lia)). lia.
Qed.
Next Obligation.
  intros s count Hinv Hc. destruct (page_allocn_spec s count Hinv Hc) as (va & s' & He & Hinv' & Hor).
  exists va, s'. split; [done|]. split; [done|]. split.
  { destruct Hor as [(_ & -> & _)|(ps & ps' & pos & -> & -> & _ & _ & (Hb & _ & Hn & _) & _)]; [done|].
    intros x. unfold page_arena, section_bits. simpl. setoid_rewrite (inj_iff Some).
    split; intros (? & <- & Hx); eexists; (split; [done|]); by rewrite Hb, Hn in *. }
  destruct Hor as [(? & ? & _)|(ps & ps' & pos & -> & -> & Hfit & _ & Hpost & ->)]; [by left|right].
  destruct Hinv as (? & [= <-] & Hinv). destruct Hinv' as (? & [= <-] & Hinv').
  pose proof Hfit as (Hp0 & Hlt & Hrun). destruct (inv_base ps Hinv) as (Hb1 & Hb2 & Hb3).
  destruct (inv_range ps Hinv) as [_ Hr].
  rewrite ptov_small by lia. split_and!; [lia| |].
  - intros va' n. rewrite !page_live_cons. destruct Hpost as (_ & _ & _ & Hpg & _).
    pose proof (inv_pages ps Hinv).
    setoid_rewrite (fun a b => block_at_insert ps ps' pos _ a b ltac:(lia) Hpg). simpl.
    split.
    + intros (pos' & p & [(-> & -> & _)|[_ Hb]] & -> & ->); [left|right; naive_solver].
      by rewrite ptov_small by (simpl; lia).
    + intros [[-> ->]|(pos' & p & Hb & -> & ->)].
      * exists pos, (mkPage (pa_base ps + pos * 4096) count). simpl.
        rewrite ptov_small by lia. split; [left; split_and!; [done|done|lia]|done].
      * exists pos', p. split; [right|done]. split; [|done]. intros ->.
        eapply (free_no_head ps pos); [done| |done]. apply Hrun. lia.
  - intros va' n (pos' & p & Hb & -> & ->)%page_live_cons.
    destruct (block_range ps pos' p Hinv Hb) as (-> & ? & ? & ? & ? & ?).
    destruct (run_misses_blocks ps pos count pos' p); [done|lia|lia|done|done|..]; lia.
Qed.
Next Obligation.
  intros s n m lim (ps & pos & Hs & (Hp & Hlt & Hrun) & Hlim) Hm. exists ps, pos. split; [done|]. split; [|lia]. split; [done|]. split; [lia|].
  intros k Hk. apply Hrun. lia.
Qed.
Next Obligation.
  intros s count n lim va s' Hinv Hc Hle (ps0 & q & Hs & (Hq & Hlt & Hrun) & Hlim) Ha.
  destruct (page_allocn_spec s count Hinv Hc) as (va' & s'' & He & _ & Hor). rewrite Ha in He. injection He as <- <-.
  assert (area_fits (ps_bitmap ps0) (section_bits ps0) 0 count q) as Hfq.
  { split; [done|]. split; [lia|]. intros k Hk. apply Hrun. lia. }
  destruct Hor as [(_ & _ & ps & Hps & Hno)|(ps & ps' & pos & -> & -> & Hfit & Hmin & Hpost & ->)].
  { simplify_eq. by destruct (Hno q). }
  simpl in Hs. injection Hs as <-. specialize (Hmin q Hfq). destruct Hfit as (Hp0 & Hpl & _).
  destruct Hinv as (? & [= <-] & Hinv). destruct (inv_base ps Hinv) as (Hb1 & Hb2 & Hb3), (inv_range ps Hinv) as [_ Hr].
  destruct Hpost as (Hpa & _ & Hnr & _ & Hbits & _). rewrite ptov_small in Hlim |- * by lia. split; [lia|]. split; [lia|].
  exists ps', (Z.max q (pos + count)). split; [done|]. unfold section_bits in *. rewrite Hnr, Hpa, ptov_small by lia. split; [|lia]. split; [lia|]. split; [lia|].
  intros k Hk. rewrite Hbits by lia. rewrite (Hrun k) by lia.
  destruct (Z.ltb_spec k (pos + count)); [lia|]. by rewrite andb_false_r.
Qed.

(** ** Release *)

(** [ptr] lies in the block [p] describes. *)
Definition in_block (ptr : Z) (p : page) : Prop :=
  ptov (pg_pa p) <= ptr < ptov (pg_pa p) + pg_count p * 4096.

(** What [page_free] does to the section: one bit cleared, the descriptor
    zeroed and all the pages of the block credited. *)
Definition free_post (ps ps' : page_section) (pos : Z) (p : page) : Prop :=
  pa_base ps' = pa_base ps /\ va_base ps' = va_base ps /\ nr_pages ps' = nr_pages ps /\
  ps_pages ps' = <[Z.to_nat pos := mkPage 0 0]> (ps_pages ps) /\
  (forall j, 0 <= j -> bm_bit (ps_bitmap ps') j = negb (j =? pos) && bm_bit (ps_bitmap ps) j) /\
  bm_wf (ps_bitmap ps') /\ length (ps_bitmap ps') = length (ps_bitmap ps) /\
  ps_free ps' = s32 (ps_free ps + pg_count p).

Lemma page_free_loop_spec fuel ps ptr pos :
  ps_inv ps -> 0 <= pos < 2 ^ 20 -> section_bits ps - pos < Z.of_nat fuel -> (0 < fuel)%nat ->
  (exists pos' p ps', pos <= pos' /\ block_at ps pos' p /\ in_block ptr p /\
     page_free_loop fuel ps ptr pos = Ret (Some ps') /\ free_post ps ps' pos' p) \/
  (page_free_loop fuel ps ptr pos = Ret None /\
     forall pos' p, pos <= pos' -> block_at ps pos' p -> ~ in_block ptr p).
Proof.
  intros Hinv. revert pos. induction fuel as [|fuel IH]; intros pos Hpos Hfuel Hpf; [lia|].
  cbn [page_free_loop]. destruct (inv_range ps Hinv) as [Hr1 Hr2].
  pose proof (inv_bits ps Hinv) as Hbits. pose proof (inv_pages ps Hinv) as Hpages.
  unfold section_bits in *. set (bits := BITMAP_SIZE (nr_pages ps) / 8 * 64) in *.
  destruct (bitmap_find_next_1_spec (ps_bitmap ps) (BITMAP_SIZE (nr_pages ps)) pos)
    as (r & Hr & Hspec); [apply Hinv|lia|lia|lia|].
  rewrite Hr. cbn [mbind outcome_bind]. fold bits in Hspec.
  assert (forall pos' p, pos <= pos' -> block_at ps pos' p -> bm_bit (ps_bitmap ps) pos' = true /\ pos' < bits) as Hhead.
  { intros pos' p _ Hb. destruct (inv_head ps Hinv _ _ Hb) as (_ & ? & Hlt & Hs).
    unfold section_bits in Hlt. fold bits in Hlt. split; [apply Hs|]; lia. }
  destruct Hspec as [[-> Hclr]|(Hrr & Hset & Hclr)].
  { right. split; [done|]. intros pos' p Hge Hb. destruct (Hhead _ _ Hge Hb) as [Hs ?].
    rewrite Hclr in Hs by lia. done. }
  destruct (Z.eqb_spec r (-1)); [lia|].
  destruct (rd_in (ps_pages ps) r) as [p Hrd]; [lia|]. rewrite Hrd. cbn [mbind outcome_bind].
  apply rd_Ret in Hrd as [_ Hpr].
  assert ((block_at ps r p -> ~ in_block ptr p) ->
    (exists pos' p' ps', pos <= pos' /\ block_at ps pos' p' /\ in_block ptr p' /\
     page_free_loop fuel ps ptr (r + 1) = Ret (Some ps') /\ free_post ps ps' pos' p') \/
    (page_free_loop fuel ps ptr (r + 1) = Ret None /\
     forall pos' p', pos <= pos' -> block_at ps pos' p' -> ~ in_block ptr p')) as Hnext.
  { intros Hout. destruct (IH (r + 1)) as [(pos' & p' & ps' & ? & ?)|[He Hall]]; [lia..| |].
    - left. exists pos', p', ps'. split; [lia|done].
    - right. split; [done|]. intros pos' p' Hge Hb.
      destruct (decide (pos' = r)) as [->|Hne].
      { assert (p' = p) as -> by (destruct Hb as (_ & Hl & _); congruence). by apply Hout. }
      destruct (decide (pos' < r)); [|apply (Hall pos'); [lia|done]].
      destruct (Hhead _ _ Hge Hb) as [Hs _]. rewrite Hclr in Hs by lia. done. }
  destruct (Z.eqb_spec (pg_pa p) 0) as [H0|Hn0].
  { apply Hnext. intros (_ & _ & ?). done. }
  assert (block_at ps r p) as Hb by (split_and!; [lia|done|done]).
  destruct (block_range ps r p Hinv Hb) as (Hpt & ? & _ & ? & ? & _).
  destruct (inv_head ps Hinv _ _ Hb) as (_ & _ & Hlt & _). unfold section_bits in Hlt. fold bits in Hlt.
  unfold PAGE_SIZE. rewrite (s32_small (pg_count p * 4096)), u64_small by lia.
  destruct (Z.leb_spec (ptov (pg_pa p)) ptr), (Z.ltb_spec ptr (ptov (pg_pa p) + pg_count p * 4096));
    cbn [andb]; try (apply Hnext; intros _ [??]; lia).
  left. exists r, p.
  destruct (bitmap_clear_bit_spec (ps_bitmap ps) r) as (bm & -> & Hwf & Hlen & Hbm); [apply Hinv|lia..|].
  cbn [mbind outcome_bind]. rewrite wr_in by lia. eexists. split; [lia|]. split; [done|]. split; [done|].
  split; [reflexivity|]. split_and!; try done.
Qed.

Lemma free_post_inv ps ps' pos p :
  ps_inv ps -> block_at ps pos p -> free_post ps ps' pos p -> ps_inv ps'.
Proof.
  intros Hinv Hb (Hpa & Hva & Hnr & Hpg & Hbits & Hwf & Hlen & Hfree).
  assert (section_bits ps' = section_bits ps) as Hsb by (unfold section_bits; by rewrite Hnr).
  destruct Hb as (Hp0 & Hlk & Hne). pose proof (lookup_lt_Some _ _ _ Hlk).
  assert (forall pos' p', block_at ps' pos' p' -> pos' <> pos /\ block_at ps pos' p') as Hblk.
  { intros pos' p' Hb'. apply (block_at_insert ps ps' pos) with (q := mkPage 0 0) in Hb'; [|lia|done].
    simpl in Hb'. naive_solver. }
  split; rewrite ?Hsb, ?Hpa, ?Hnr; try done.
  - apply inv_nr, Hinv.
  - rewrite Hlen. apply inv_bits, Hinv.
  - rewrite Hpg, length_insert. apply inv_pages, Hinv.
  - apply inv_base, Hinv.
  - apply inv_range, Hinv.
  - intros pos' p' [Hn Hb']%Hblk. destruct (inv_head ps Hinv _ _ Hb') as (? & ? & ? & Hset).
    split_and!; [done..|]. intros k Hk. pose proof Hb' as (? & _). rewrite Hbits, Hset by lia.
    destruct (Z.eqb_spec k pos) as [->|]; [|done]. exfalso.
    assert (block_at ps pos p) as Hb by done.
    pose proof (inv_disj ps Hinv _ _ _ _ Hb' Hb ltac:(lia)). lia.
  - intros pos1 p1 pos2 p2 [_ H1]%Hblk [_ H2]%Hblk. by eapply (inv_disj ps Hinv).
  - rewrite Hfree, (inv_free ps Hinv), Hpg, (live_pages_insert _ _ p) by done. simpl.
    destruct (Z.eqb_spec (pg_pa p) 0); [done|]. rewrite wraps_add_idemp by lia. f_equal. lia.
Qed.

Lemma page_free_spec s ptr :
  page_inv s -> 0 <= ptr < 2 ^ 64 -> ptr mod 4096 = 0 ->
  (exists ps ps' pos p, s = ps :: replicate 5 section0 /\ block_at ps pos p /\ in_block ptr p /\
     page_free ptr s = Ret (tt, ps' :: replicate 5 section0) /\ free_post ps ps' pos p /\ ps_inv ps') \/
  (page_free ptr s = Ret (tt, s) /\
     forall va n, page_live s va n -> ~ (va <= ptr < va + n * 4096)).
Proof.
  intros (ps & -> & Hinv) Hp Ha. unfold page_free. rewrite page_aligned_spec by done. rewrite Ha.
  cbn [Z.eqb]. mstep. rewrite (rd_lookup _ 0 ps) by done.
  destruct (inv_range ps Hinv) as [Hr _].
  assert (0 <= section_bits ps) by (destruct (section_bits_spec ps (inv_nr ps Hinv)) as [_ ?];
    pose proof (inv_nr ps Hinv); lia).
  destruct (page_free_loop_spec (S (Z.to_nat (section_bits ps))) ps ptr 0)
    as [(pos & p & ps' & _ & Hb & Hin & -> & Hpost)|[-> Hall]]; [done|lia..| |].
  - left. exists ps, ps', pos, p. rewrite wr_in by (simpl; lia).
    split_and!; [done..|]. by eapply free_post_inv.
  - right. split; [done|]. intros va n (pos & p & Hb & -> & ->)%page_live_cons.
    eapply (Hall pos); [|done]. apply Hb.
Qed.

(** ** Runs of the allocator *)

(** One call by the kernel: an allocation of at most 512 pages, or a release
    of any page-aligned address. *)
Inductive page_step : page_state -> page_state -> Prop :=
| step_alloc s count va s' :
    0 < count <= 512 -> page_allocn count s = Ret (va, s') -> page_step s s'
| step_free s ptr s' :
    0 <= ptr < 2 ^ 64 -> ptr mod 4096 = 0 -> page_free ptr s = Ret (tt, s') -> page_step s s'.

(** The section keeps its place and its size. *)
Definition same_section (s s' : page_state) : Prop :=
  exists ps ps', s !! 0%nat = Some ps /\ s' !! 0%nat = Some ps' /\
    pa_base ps' = pa_base ps /\ nr_pages ps' = nr_pages ps.

Lemma page_step_inv s s' : page_step s s' -> page_inv s -> page_inv s' /\ same_section s s'.
Proof.
  intros [s1 count va s2 Hc He|s1 ptr s2 Hp Ha He] Hinv.
  - destruct (page_allocn_spec s1 count Hinv Hc) as (va' & s3 & He' & Hinv' & Hor).
    rewrite He in He'. injection He' as <- <-. split; [done|].
    destruct Hor as [(_ & -> & _)|(ps & ps' & pos & -> & -> & _ & _ & (? & _ & ? & _) & _)].
    + destruct Hinv as (ps & -> & _). by exists ps, ps.
    + by exists ps, ps'.
  - destruct (page_free_spec s1 ptr Hinv Hp Ha) as [(ps & ps' & pos & p & -> & _ & _ & He' & Hpost & Hi)|[He' _]];
      rewrite He in He'; injection He' as ->.
    + split; [by exists ps'|]. destruct Hpost as (? & _ & ? & _). by exists ps, ps'.
    + split; [done|]. destruct Hinv as (ps & -> & _). by exists ps, ps.
Qed.

Lemma page_steps_inv s s' : rtc page_step s s' -> page_inv s -> page_inv s' /\ same_section s s'.
Proof.
  induction 1 as [s|s1 s2 s3 Hstep _ IH]; intros Hinv.
  - split; [done|]. destruct Hinv as (ps & -> & _). by exists ps, ps.
  - destruct (page_step_inv _ _ Hstep Hinv) as [Hinv2 (a & b & Ha & Hb & ? & ?)].
    destruct (IH Hinv2) as [Hinv3 (b' & c & Hb' & Hc & ? & ?)]. split; [done|].
    simplify_eq. exists a, c. split_and!; congruence.
Qed.

Lemma live_pages_zero pgs : Forall (fun p => pg_pa p = 0) pgs -> live_pages pgs = 0.
Proof. induction 1 as [|p pgs Hp _ IH]; simpl; [done|]. rewrite Hp. simpl. lia. Qed.

(** The section [init_mm] creates: 64 MB of RAM, 65 pages of which hold the
    bitmap and the descriptors. *)
Lemma page_init_boot ram_bitmap ram_pages base :
  base mod 4096 = 0 -> 0 < base < 2 ^ 46 -> length ram_bitmap = 256%nat ->
  Z.of_nat (length ram_pages) = 16384 -> Forall (fun p => pg_pa p = 0) ram_pages ->
  let ps := mkSection (base + 65 * 4096) (ptov (base + 65 * 4096)) 16319 16319
              (replicate 256 0) ram_pages in
  page_init ram_bitmap ram_pages base (Z.shiftr CONFIG_RAM_SIZE PAGE_SHIFT) page_sections0
    = Ret (tt, ps :: replicate 5 section0) /\ ps_inv ps.
Proof.
  intros Hal Hb Hlen Hpl Hz ps. change (Z.shiftr CONFIG_RAM_SIZE PAGE_SHIFT) with 16384.
  split.
  - unfold page_init, page_section_init. rewrite page_aligned_spec, Hal by lia. cbn [Z.eqb].
    rewrite bitmap_init_spec by (rewrite ?Hlen; vm_compute; congruence || done).
    change (BITMAP_SIZE 16384) with 2048. change (16384 * sizeof_page) with 262144.
    rewrite (u64_small (base + 2048)), (u64_small 262144), (u64_small (base + 2048 + 262144)) by lia.
    replace (align_page_up (base + 2048 + 262144)) with (base + 65 * 4096).
    2:{ unfold align_page_up, PAGE_SIZE. change 4096 with (2 ^ 12) at 2. rewrite align_up_spec by lia.
        replace (base + 2048 + 262144 + (2 ^ 12 - 1)) with (base + 65 * 4096 + 2047) by lia.
        change (2 ^ 12) with 4096. replace ((base + 65 * 4096 + 2047) mod 4096) with 2047; [lia|].
        replace (base + 65 * 4096 + 2047) with (base + 2047 + 65 * 4096) by lia.
        rewrite Z_mod_plus_full, <- Zplus_mod_idemp_l, Hal. done. }
    replace (base + 65 * 4096 - base) with 266240 by lia. rewrite (u64_small 266240) by lia.
    change (s32 (u64 (16384 - Z.shiftr 266240 PAGE_SHIFT))) with 16319.
    rewrite Hlen. reflexivity.
  - assert (section_bits ps = 16320) as Hsb by reflexivity.
    assert (forall pos p, ~ block_at ps pos p) as Hno.
    { intros pos p (_ & Hl & Hne). apply (Forall_lookup_1 _ _ _ _ Hz) in Hl. done. }
    split; rewrite ?Hsb; unfold ps in *; cbn [ps_bitmap ps_pages pa_base va_base nr_pages ps_free] in *.
    + by apply bm_wf_replicate.
    + lia.
    + rewrite length_replicate. lia.
    + lia.
    + split_and!; [rewrite Z_mod_plus_full; done|lia|lia].
    + lia.
    + intros pos p Hbl. by destruct (Hno pos p).
    + intros ? ? ? ? Hbl. by destruct (Hno _ _ Hbl).
    + by rewrite live_pages_zero.
Qed.

(** ** Properties *)

(** C7: on a well-formed allocator state and for a positive count,
    [page_allocn] stops the machine when more than 512 pages are asked for, as
    it means to, and otherwise always returns (no fault, no divergence), keeps
    the state well formed, and either answers NULL, changes nothing and no run
    of [count] free pages below the last page of the bitmap exists, or hands
    out one new block of [count] contiguous page-aligned pages that overlaps no
    block already handed out. *)
Theorem page_allocn_fresh (s : page_state) (count : Z) (Hinv : page_inv s) (Hpos : 0 < count) :
  (512 < count -> page_allocn count s = Halt) /\
  (count <= 512 -> exists va s', page_allocn count s = Ret (va, s') /\ page_inv s' /\
    ((va = 0 /\ s' = s /\ exists ps, s !! 0%nat = Some ps /\
        forall pos, ~ area_fits (ps_bitmap ps) (section_bits ps) 0 count pos) \/
     (va mod 4096 = 0 /\ va <> 0 /\
      (forall va' n, page_live s' va' n <-> (va' = va /\ n = count) \/ page_live s va' n) /\
      forall va' n, page_live s va' n -> va' + n * 4096 <= va \/ va + count * 4096 <= va'))).
Proof.
  split; [intros H; unfold page_allocn; by rewrite (proj2 (Z.ltb_lt 512 count))|]. intros Hle. assert (0 < count <= 512) as Hc by lia.
  destruct (page_allocn_spec s count Hinv Hc) as (va & s' & He & Hi & Hor).
  destruct (@pa_allocn_spec page_state page_alloc_impl s count Hinv Hc) as (va2 & s2 & He2 & Hi2 & _ & Hor2).
  change (page_allocn count s = Ret (va2, s2)) in He2. rewrite He in He2. injection He2 as <- <-.
  exists va, s'. split; [done|]. split; [done|].
  destruct Hor2 as [[-> ->]|(Hne & Hl & Hd)]; destruct Hor as [Hn|Hs].
  - left. done.
  - left. split; [done|]. split; [done|]. destruct Hs as (ps & ps' & pos & -> & Hps & Hfit & _ & _ & H0).
    destruct Hinv as (? & [= <-] & Hv). destruct (inv_range ps Hv), (inv_base ps Hv), Hfit as (?&?&_).
    rewrite ptov_small in H0 by lia. lia.
  - by destruct Hn.
  - right. split; [|done]. apply (@pa_live_range page_state page_alloc_impl s' va count Hi2). apply Hl. by left.
Qed.

(** A section of [w] bit-map words with no page in use. *)
Definition fresh_section (base : Z) (w : nat) : page_section :=
  mkSection base (ptov base) (64 * Z.of_nat w) (64 * Z.of_nat w) (replicate w 0) (replicate (64 * w) (mkPage 0 0)).

Lemma fresh_section_bits base w : Z.of_nat w < 2 ^ 13 -> section_bits (fresh_section base w) = 64 * Z.of_nat w.
Proof.
  intros Hw. destruct (section_bits_spec (fresh_section base w)) as [-> _]; cbn [fresh_section nr_pages]; [lia|].
  replace (64 * Z.of_nat w + 63) with (63 + Z.of_nat w * 64) by lia. rewrite Z.div_add by lia. change (63 / 64) with 0. lia.
Qed.
Lemma fresh_section_inv base w : base mod 4096 = 0 -> 0 < base < 2 ^ 46 -> Z.of_nat w < 2 ^ 13 -> ps_inv (fresh_section base w).
Proof.
  intros Hb0 Hb Hw. pose proof (fresh_section_bits base w Hw) as Hsb.
  assert (forall pos p, ~ block_at (fresh_section base w) pos p) as Hno.
  { intros pos p (_ & Hl & Hne). cbn [fresh_section ps_pages] in Hl. apply lookup_replicate in Hl as [-> _]. done. }
  split; rewrite ?Hsb; cbn [fresh_section ps_bitmap ps_pages pa_base nr_pages ps_free]; rewrite ?length_replicate.
  - apply Forall_replicate. lia.
  - lia.
  - lia.
  - lia.
  - split_and!; [done|lia|lia].
  - lia.
  - intros pos p Hp. by destruct (Hno pos p).
  - intros ? ? ? ? Hp. by destruct (Hno _ _ Hp).
  - rewrite live_pages_zero by (by apply Forall_replicate). rewrite Z.sub_0_r, s32_small; lia.
Qed.
Lemma fresh_section_room base w n :
  Z.of_nat w < 2 ^ 13 -> 0 <= n < 64 * Z.of_nat w -> page_room (fresh_section base w :: replicate 5 section0) n (ptov base + n * 4096).
Proof.
  intros Hw Hn. exists (fresh_section base w), 0. split; [done|]. rewrite fresh_section_bits by done. split; [|cbn [fresh_section pa_base]; lia]. split; [lia|]. split; [lia|].
  intros k Hk. cbn [fresh_section ps_bitmap]. unfold bm_bit.
  destruct (replicate w 0 !! _) as [z|] eqn:E; [apply lookup_replicate in E as [-> _]|]; apply Z.testbit_0_l.
Qed.

(** A small section for the witnesses: 64 pages at 0x40000000. *)
Definition demo_section : page_section := fresh_section 0x40000000 1.
Definition demo_pages : page_state := demo_section :: replicate 5 section0.

Lemma demo_section_inv : ps_inv demo_section.
Proof. apply fresh_section_inv; [reflexivity|lia|lia]. Qed.

Lemma page_allocn_fresh_witness :
  page_inv demo_pages /\ exists va s', page_allocn 3 demo_pages = Ret (va, s') /\ page_inv s'.
Proof.
  assert (page_inv demo_pages) as Hi by (exists demo_section; split; [done|apply demo_section_inv]).
  split; [done|]. destruct (proj2 (page_allocn_fresh demo_pages 3 Hi ltac:(lia)) ltac:(lia)) as (va & s' & ? & ? & _).
  by exists va, s'.
Defined.

(** [page_free] of a page-aligned address always returns; an address in
    a live block removes exactly that block, and an address in no live block
    changes nothing.  The state stays well formed. *)
Theorem page_free_releases (s : page_state) (ptr : Z) (Hinv : page_inv s)
  (Hp : 0 <= ptr < 2 ^ 64) (Ha : ptr mod 4096 = 0) :
  exists s', page_free ptr s = Ret (tt, s') /\ page_inv s' /\
    forall va n, page_live s' va n <-> page_live s va n /\ ~ (va <= ptr < va + n * 4096).
Proof.
  destruct (page_free_spec s ptr Hinv Hp Ha) as [(ps & ps' & pos & p & -> & Hb & Hin & -> & Hpost & Hi)|[-> Hall]].
  - eexists. split; [done|]. split; [by exists ps'|]. intros va n. rewrite !page_live_cons.
    destruct Hinv as (? & [= <-] & Hv). destruct Hpost as (_ & _ & _ & Hpg & _).
    pose proof Hb as (Hp0 & Hlk & _). pose proof (lookup_lt_Some _ _ _ Hlk).
    setoid_rewrite (fun a b => block_at_insert ps ps' pos _ a b ltac:(lia) Hpg). simpl. split.
    + intros (pos' & p' & [(_ & _ & ?)|[Hne Hb']] & -> & ->); [done|]. split; [by exists pos', p'|].
      destruct (block_range ps pos p Hv Hb) as (Hr1 & _ & _ & _ & _ & _).
      destruct (block_range ps pos' p' Hv Hb') as (Hr2 & _ & _ & _ & _ & _).
      unfold in_block in Hin. intros Hin'. destruct (Z.lt_total pos pos') as [Hlt|[?|Hlt]]; [|done|].
      * pose proof (inv_disj ps Hv pos p pos' p' Hb Hb' Hlt). lia.
      * pose proof (inv_disj ps Hv pos' p' pos p Hb' Hb Hlt). lia.
    + intros [(pos' & p' & Hb' & -> & ->) Hout]. exists pos', p'. split; [|done]. right. split; [|done].
      intros ->. destruct Hb' as (_ & Hlk' & _). simplify_eq. done.
  - exists s. split; [done|]. split; [done|]. intros va n. split; [|by intros [? _]].
    intros Hl. split; [done|]. by apply Hall.
Qed.

Lemma page_free_releases_witness :
  exists s, page_inv s /\ page_live s (ptov 0x40000000) 1 /\
    exists s', page_free (ptov 0x40000000) s = Ret (tt, s') /\ ~ page_live s' (ptov 0x40000000) 1.
Proof.
  assert (page_inv demo_pages) as Hi by (exists demo_section; split; [done|apply demo_section_inv]).
  destruct (@pa_allocn_spec page_state page_alloc_impl demo_pages 1 Hi ltac:(lia)) as (va & s & He & Hs & _ & Hor).
  assert (va = ptov 0x40000000) as -> by (vm_compute in He; injection He as <- _; reflexivity).
  destruct Hor as [[[=] _]|(_ & Hl & _)].
  assert (page_live s (ptov 0x40000000) 1) as Hlive by (apply Hl; by left).
  exists s. split; [done|]. split; [done|].
  destruct (page_free_releases s (ptov 0x40000000) Hs ltac:(vm_compute; intuition congruence) eq_refl)
    as (s' & Hf & _ & Hl').
  exists s'. split; [done|]. rewrite Hl'. intros [_ Hn]. apply Hn. vm_compute. intuition congruence.
Defined.

(** C25: from the 64 MB section that [init_mm] sets up on zeroed RAM, after
    any sequence of allocations (1 to 512 pages) and releases the allocator
    state is well formed and every block handed out lies inside the RAM given
    to [page_init], past the bitmap and the descriptors. *)
Theorem page_boot_blocks_in_ram (ram_bitmap : list Z) (ram_pages : list page) (base : Z)
  (Hal : base mod 4096 = 0) (Hb : 0 < base < 2 ^ 46) (Hlen : length ram_bitmap = 256%nat)
  (Hpl : Z.of_nat (length ram_pages) = 16384) (Hz : Forall (fun p => pg_pa p = 0) ram_pages) :
  exists s0, page_init ram_bitmap ram_pages base (Z.shiftr CONFIG_RAM_SIZE PAGE_SHIFT) page_sections0
               = Ret (tt, s0) /\
    forall s, rtc page_step s0 s -> page_inv s /\
      forall va n, page_live s va n ->
        ptov base + 2048 + 16 * 16384 < va /\ va + n * 4096 <= ptov base + CONFIG_RAM_SIZE.
Proof.
  destruct (page_init_boot ram_bitmap ram_pages base Hal Hb Hlen Hpl Hz) as [He Hinv].
  eexists. split; [exact He|]. intros s Hs.
  destruct (page_steps_inv _ _ Hs) as [Hi Hsame]; [eexists; split; [reflexivity|exact Hinv]|].
  split; [done|]. destruct Hsame as (? & ps' & [= <-] & Hps' & Hpa & Hnr).
  cbn [pa_base nr_pages] in Hpa, Hnr. destruct Hi as (ps & -> & Hi). injection Hps' as ->.
  intros va n (pos & p & Hbl & -> & ->)%page_live_cons.
  destruct (block_range ps' pos p Hi Hbl) as (-> & _ & ? & ? & _ & _).
  destruct (inv_head ps' Hi pos p Hbl) as (_ & _ & Hlt & _).
  replace (section_bits ps') with 16320 in Hlt by (unfold section_bits; rewrite Hnr; reflexivity).
  rewrite ptov_small by lia. unfold CONFIG_RAM_SIZE. lia.
Qed.

Lemma page_boot_blocks_in_ram_witness :
  exists s0, page_init (replicate 256 0) (replicate (Z.to_nat 16384) (mkPage 0 0)) 0x40100000
               (Z.shiftr CONFIG_RAM_SIZE PAGE_SHIFT) page_sections0 = Ret (tt, s0) /\ page_inv s0.
Proof.
  destruct (page_boot_blocks_in_ram (replicate 256 0) (replicate (Z.to_nat 16384) (mkPage 0 0)) 0x40100000)
    as (s0 & He & Hs); [reflexivity|lia|by rewrite length_replicate|rewrite length_replicate; lia| |].
  - apply Forall_replicate. reflexivity.
  - exists s0. split; [done|]. apply Hs, rtc_refl.
Defined.

(** Releasing a block of more than one page gives its pages back to the
    counter [free] but clears only the first page's bit: the other pages stay
    marked used although no live block covers them. *)
Theorem page_free_leaks_tail (s : page_state) (va n : Z) (Hinv : page_inv s)
  (Hlive : page_live s va n) (Hn : 1 < n) :
  exists ps ps' pos, s !! 0%nat = Some ps /\
    page_free va s = Ret (tt, ps' :: replicate 5 section0) /\
    ps_free ps' = s32 (ps_free ps + n) /\
    forall k, pos < k < pos + n -> bm_bit (ps_bitmap ps') k = true /\
      forall va' n', page_live (ps' :: replicate 5 section0) va' n' ->
        ~ (va' <= ptov (pa_base ps + k * 4096) < va' + n' * 4096).
Proof.
  destruct (@pa_live_range page_state page_alloc_impl s va n Hinv Hlive) as (Ha & Hlo & _ & Hhi).
  assert (ptov 0 = 0xffff000000000000) as Hp0 by reflexivity.
  destruct (page_free_spec s va Hinv ltac:(lia) Ha)
    as [(ps & ps' & pos & p & -> & Hb & Hin & He & Hpost & Hi')|[_ Hno]].
  2:{ destruct (Hno va n Hlive). lia. }
  destruct Hinv as (? & [= <-] & Hi). apply page_live_cons in Hlive as (pos2 & p2 & Hb2 & -> & ->).
  destruct (block_range ps pos p Hi Hb) as (Hr & ? & ? & ? & ? & ?).
  destruct (block_range ps pos2 p2 Hi Hb2) as (Hr2 & _).
  assert (pos2 = pos) as ->.
  { unfold in_block in Hin. destruct (Z.lt_total pos pos2) as [Hlt|[?|Hlt]]; [|done|].
    - pose proof (inv_disj ps Hi pos p pos2 p2 Hb Hb2 Hlt). lia.
    - lia. }
  assert (p2 = p) as -> by (destruct Hb as (_ & ? & _), Hb2 as (_ & ? & _); congruence).
  pose proof Hpost as (Hpa & _ & _ & Hpg & Hbits & _ & _ & Hfree).
  exists ps, ps', pos. split; [done|]. split; [done|]. split; [done|]. intros k Hk.
  destruct (inv_head ps Hi pos p Hb) as (_ & _ & Hlt & Hset). split.
  { rewrite Hbits, Hset by lia. destruct (Z.eqb_spec k pos); [lia|done]. }
  intros va' n' (pos' & p' & Hb' & -> & ->)%page_live_cons.
  destruct (block_range ps' pos' p' Hi' Hb') as (Hr' & _). rewrite Hr', ptov_small, Hpa by lia. intros Hin'.
  apply (block_at_insert ps ps' pos (mkPage 0 0)) in Hb';
    [|destruct Hb as (_ & Hl & _); apply lookup_lt_Some in Hl; lia|done].
  simpl in Hb'. destruct Hb' as [(_ & _ & ?)|[Hne Hb']]; [done|].
  destruct (Z.lt_total pos pos') as [Hlt'|[?|Hlt']]; [|done|].
  - pose proof (inv_disj ps Hi pos p pos' p' Hb Hb' Hlt'). lia.
  - pose proof (inv_disj ps Hi pos' p' pos p Hb' Hb Hlt'). lia.
Qed.

Lemma page_free_leaks_tail_witness :
  exists s, page_inv s /\ page_live s (ptov 0x40000000) 3 /\
    exists ps' pos, page_free (ptov 0x40000000) s = Ret (tt, ps' :: replicate 5 section0) /\
      bm_bit (ps_bitmap ps') (pos + 1) = true.
Proof.
  assert (page_inv demo_pages) as Hi by (exists demo_section; split; [done|apply demo_section_inv]).
  destruct (@pa_allocn_spec page_state page_alloc_impl demo_pages 3 Hi ltac:(lia)) as (va & s & He & Hs & _ & Hor).
  assert (va = ptov 0x40000000) as -> by (vm_compute in He; injection He as <- _; reflexivity).
  destruct Hor as [[[=] _]|(_ & Hl & _)].
  assert (page_live s (ptov 0x40000000) 3) as Hlive by (apply Hl; by left).
  exists s. split; [done|]. split; [done|].
  destruct (page_free_leaks_tail s (ptov 0x40000000) 3 Hs Hlive ltac:(lia)) as (ps & ps' & pos & _ & Hf & _ & Hk).
  exists ps', pos. split; [done|]. destruct (Hk (pos + 1)); [lia|done].
Defined.
