(* ===== verification/PageTable.v ===== *)
(** * Stage-1 page tables (ukern/src/pagetable.c, inc/pagetable.h, memattr.h, stage1.h)

    The tables live in memory obtained from the page allocator: the state is
    the allocator's state together with a map from the kernel address of a
    table to its 512 descriptors.  Descriptors are 64-bit words whose fields
    are the bit-fields of [pte_t].  A table pointer that designates no table,
    or an entry pointer stepped past entry 511, is a [Fault].

    The code is proved against the interface [PageAlloc]; nothing here looks
    at how pages are found. *)
From S2P Require Import Prelude Config Bitmap Page.

(** ** memattr.h *)
Definition __VM_IO : Z := 0x1.
Definition __VM_NORMAL : Z := 0x2.
Definition __VM_NORMAL_NC : Z := 0x4.
Definition __VM_WT : Z := 0x8.
Definition __VM_PFNMAP : Z := 0x100.
Definition __VM_HUGE_2M : Z := 0x200.
Definition __VM_HUGE_1G : Z := 0x400.
Definition __VM_DEVMAP : Z := 0x800.
Definition __VM_SHARED : Z := 0x1000.
Definition __VM_KERN : Z := 0x2000.
Definition __VM_USER : Z := 0x4000.
Definition __VM_SHMEM : Z := 0x8000.
Definition __VM_PMA : Z := 0x10000.
Definition __VM_READ : Z := 0x100000.
Definition __VM_WRITE : Z := 0x200000.
Definition __VM_EXEC : Z := 0x400000.
Definition __VM_RO : Z := __VM_READ.
Definition VM_TYPE_MASK : Z := Z.lor (Z.lor __VM_IO __VM_NORMAL) (Z.lor __VM_NORMAL_NC __VM_WT).
Definition VM_RW_MASK : Z := Z.lor __VM_READ __VM_WRITE.
Definition VM_RW : Z := Z.lor __VM_READ __VM_WRITE.
Definition VM_RWX : Z := Z.lor VM_RW __VM_EXEC.
Definition VM_IO : Z := Z.lor __VM_IO (Z.lor __VM_DEVMAP __VM_PFNMAP).
Definition VM_HUGE : Z := __VM_HUGE_2M.

(** ** stage1.h *)
Definition S1_DES_BLOCK : Z := 1.
Definition S1_DES_TABLE : Z := 3.
Definition S1_DES_PAGE : Z := 3.
Definition S1_TABLE_UAP : Z := Z.shiftl 1 61.
Definition S1_TABLE_UXN : Z := Z.shiftl 1 60.
Definition S1_PXN : Z := Z.shiftl 1 53.
Definition S1_XN : Z := Z.shiftl 1 54.
Definition S1_PFNMAP : Z := Z.shiftl 1 55.
Definition S1_DEVMAP : Z := Z.shiftl 1 56.
Definition S1_SHARED : Z := Z.shiftl 1 57.
Definition S1_NS : Z := Z.shiftl 1 5.
Definition S1_AP_RW : Z := 0.
Definition S1_AP_RW_URW : Z := Z.shiftl 1 6.
Definition S1_AP_RO : Z := Z.shiftl 2 6.
Definition S1_AP_RO_URO : Z := Z.shiftl 3 6.
Definition S1_SH_INNER : Z := Z.shiftl 3 8.
Definition S1_AF : Z := Z.shiftl 1 10.
Definition S1_nG : Z := Z.shiftl 1 11.
Definition S1_ATTR_IDX (n : Z) : Z := Z.shiftl (Z.land n 0xf) 2.
Definition MT_DEVICE_nGnRnE : Z := 0.
Definition MT_NORMAL_NC : Z := 3.
Definition MT_NORMAL : Z := 4.
Definition MT_NORMAL_WT : Z := 5.

(** [S1_PAGE_*] and [S1_BLOCK_*]: descriptor kind and memory type. *)
Definition S1_LEAF (des mt : Z) : Z :=
  Z.lor des (Z.lor S1_AF (Z.lor S1_NS (Z.lor S1_SH_INNER (S1_ATTR_IDX mt)))).

(** ** pagetable.h *)
Definition PGD_SHIFT : Z := 39.
Definition PUD_SHIFT : Z := 30.
Definition PMD_SHIFT : Z := 21.
Definition PGD_SIZE : Z := 2 ^ 39.
Definition PUD_SIZE : Z := 2 ^ 30.
Definition PMD_SIZE : Z := 2 ^ 21.
Definition PTP_ENTRIES : Z := 512.
Definition IS_1G_BLOCK_ALIGN (x : Z) : bool := Z.land x (PUD_SIZE - 1) =? 0.
Definition IS_2M_BLOCK_ALIGN (x : Z) : bool := Z.land x (PMD_SIZE - 1) =? 0.
Definition pgd_index (va : Z) : Z := Z.land (Z.shiftr va PGD_SHIFT) (PTP_ENTRIES - 1).
Definition pud_index (va : Z) : Z := Z.land (Z.shiftr va PUD_SHIFT) (PTP_ENTRIES - 1).
Definition pmd_index (va : Z) : Z := Z.land (Z.shiftr va PMD_SHIFT) (PTP_ENTRIES - 1).
Definition pt_index (va : Z) : Z := Z.land (Z.shiftr va PAGE_SHIFT) (PTP_ENTRIES - 1).

(** A bit-field of [n] bits starting at bit [lo] of a descriptor. *)
Definition field (e lo n : Z) : Z := Z.land (Z.shiftr e lo) (Z.ones n).
Definition pte_is_vaild (e : Z) : bool := field e 0 1 =? 1.
Definition pte_is_null (e : Z) : bool := e =? 0.
Definition pte_is_table (e : Z) : bool := field e 1 1 =? 1.
(** The cast to [paddr_t] comes before the shift. *)
Definition pte_table_addr (e : Z) : Z := u64 (Z.shiftl (field e 12 36) PAGE_SHIFT).
(** [pfn << SHIFT] without a cast: the 18- and 27-bit fields are promoted to
    [int]; the 36-bit field keeps its own width, as GCC does for bit-fields
    wider than [int]. *)
Definition pud_block_addr (e : Z) : Z := u64 (s32 (Z.shiftl (field e 30 18) PUD_SHIFT)).
Definition pmd_block_addr (e : Z) : Z := u64 (s32 (Z.shiftl (field e 21 27) PMD_SHIFT)).
Definition pt_page_addr (e : Z) : Z := wrapu 36 (Z.shiftl (field e 12 36) PAGE_SHIFT).

(** ** Descriptors written by pagetable_change_* *)
Definition table_attr (flags : Z) : Z :=
  if Z.land flags __VM_KERN =? 0 then S1_DES_TABLE
  else Z.lor S1_DES_TABLE (Z.lor S1_TABLE_UAP S1_TABLE_UXN).

Definition type_attr (des flags : Z) : Z :=
  let t := Z.land flags VM_TYPE_MASK in
  if t =? __VM_NORMAL_NC then S1_LEAF des MT_NORMAL_NC
  else if t =? __VM_IO then S1_LEAF des MT_DEVICE_nGnRnE
  else if t =? __VM_WT then S1_LEAF des MT_NORMAL_WT
  else S1_LEAF des MT_NORMAL.

Definition access_attr (flags : Z) : Z :=
  let ro := Z.land flags VM_RW_MASK =? __VM_RO in
  if Z.land flags __VM_KERN =? 0
  then Z.lor S1_nG (if ro then S1_AP_RO_URO else S1_AP_RW_URW)
  else if ro then S1_AP_RO else S1_AP_RW.

(** The attributes of a block or page descriptor, common to the three
    [pagetable_change_*] functions. *)
Definition leaf_attr (des flags : Z) : Z :=
  let attr := Z.lor (type_attr des flags) (access_attr flags) in
  let attr := if Z.land flags __VM_EXEC =? 0 then Z.lor attr (Z.lor S1_XN S1_PXN) else attr in
  let attr := if Z.land flags __VM_PFNMAP =? 0 then attr else Z.lor attr S1_PFNMAP in
  let attr := if Z.land flags __VM_DEVMAP =? 0 then attr else Z.lor attr S1_DEVMAP in
  if Z.land flags (Z.lor __VM_SHARED __VM_PMA) =? 0 then attr else Z.lor attr S1_SHARED.

Definition pgde_of (addr flags : Z) : Z := Z.lor (vtop addr) (table_attr flags).
Definition pude_of (addr : Z) (is_block : bool) (flags : Z) : Z :=
  Z.lor (vtop addr) (if is_block then leaf_attr S1_DES_BLOCK flags else table_attr flags).
Definition pmde_of (addr : Z) (is_block : bool) (flags : Z) : Z :=
  Z.lor (vtop addr) (if is_block then leaf_attr S1_DES_BLOCK flags else table_attr flags).
Definition pte_of (addr flags : Z) : Z := Z.lor (vtop addr) (leaf_attr S1_DES_PAGE flags).

Definition can_map_pud_huge (pude va pa size flags : Z) : bool :=
  if (Z.land flags __VM_HUGE_1G =? 0) || negb (pte_is_null pude) then false
  else if negb (IS_1G_BLOCK_ALIGN va) || negb (IS_1G_BLOCK_ALIGN pa) || negb (IS_1G_BLOCK_ALIGN size)
  then false else true.

Definition can_map_pmd_huge (pmde va pa size flags : Z) : bool :=
  if (Z.land flags __VM_HUGE_2M =? 0) || negb (pte_is_null pmde) then false
  else if negb (IS_2M_BLOCK_ALIGN va) || negb (IS_2M_BLOCK_ALIGN pa) || negb (IS_2M_BLOCK_ALIGN size)
  then false else true.

(** ** The tables in memory *)
Abbreviation tables := (gmap Z (list Z)).

Definition entry_rd (h : tables) (tbl i : Z) : outcome Z :=
  match h !! tbl with Some es => rd es i | None => Fault end.
Definition entry_wr (h : tables) (tbl i e : Z) : outcome tables :=
  match h !! tbl with Some es => es' ← wr es i e; Ret (<[tbl := es']> h) | None => Fault end.

(** [memset(pt, 0, PAGE_SIZE)] of a fresh page. *)
Definition table_clear (h : tables) (tbl : Z) : tables := <[tbl := replicate 512 0]> h.

(** ** Walking *)
Definition pgtbl_walk (h : tables) (pagetable va : Z) : outcome Z :=
  let page_offset := Z.land va (PAGE_SIZE - 1) in
  pgde ← entry_rd h pagetable (pgd_index va);
  assert_ (pte_is_vaild pgde);;
  assert_ (pte_is_table pgde);;
  pude ← entry_rd h (ptov (pte_table_addr pgde)) (pud_index va);
  assert_ (pte_is_vaild pude);;
  if negb (pte_is_table pude) then Ret (pud_block_addr pude)
  else
    pmde ← entry_rd h (ptov (pte_table_addr pude)) (pmd_index va);
    assert_ (pte_is_vaild pmde);;
    if negb (pte_is_table pmde) then Ret (pmd_block_addr pmde)
    else
      pte ← entry_rd h (ptov (pte_table_addr pmde)) (pt_index va);
      assert_ (pte_is_vaild pte);;
      Ret (Z.lor (pt_page_addr pte) page_offset).

(** ** Mapping *)

(** The [do ... while] loop of [map_pt_range]; entry pointers only go up, and
    entry 512 is outside the table, so a fuel of 513 is never used up. *)
Fixpoint map_pt_loop (fuel : nat) (h : tables) (pt i base end_ phy flags : Z) : outcome (Z * tables) :=
  match fuel with
  | O => Diverge
  | S fuel' =>
      e ← entry_rd h pt i;
      assert_ (pte_is_null e);;
      h ← entry_wr h pt i (pte_of phy flags);
      let base := u64 (base + PAGE_SIZE) in
      let phy := u64 (phy + PAGE_SIZE) in
      if negb (base =? end_) then map_pt_loop fuel' h pt (i + 1) base end_ phy flags
      else Ret (0, h)
  end.

Definition map_pt_range (h : tables) (pt base end_ phy flags : Z) : outcome (Z * tables) :=
  assert_ (pmd_index (u64 (end_ - 1)) =? pmd_index base);;
  map_pt_loop 513 h pt (pt_index base) base end_ phy flags.

Section Map.
Context {PS : Type} `{PA : PageAlloc PS}.

Definition page_alloc1 : M (PS * tables) Z :=
  fun '(s, h) => '(va, s') ← pa_allocn 1 s; Ret (va, (s', h)).

Definition on_tables {A} (f : tables -> outcome (A * tables)) : M (PS * tables) A :=
  fun '(s, h) => '(a, h') ← f h; Ret (a, (s, h')).

Definition entry_get (tbl i : Z) : M (PS * tables) Z := fun '(s, h) => e ← entry_rd h tbl i; Ret (e, (s, h)).
Definition entry_set (tbl i e : Z) : M (PS * tables) () :=
  on_tables (fun h => h' ← entry_wr h tbl i e; Ret (tt, h')).

(** A new zeroed table, or 0 when there is no page. *)
Definition table_alloc : M (PS * tables) Z :=
  pt ← page_alloc1;
  if pt =? 0 then mret 0
  else on_tables (fun h => Ret (tt, table_clear h pt));; mret pt.

(** The table behind entry [i] of [tbl], whose value is [e]: when the entry
    is null, a new table whose descriptor [mk] makes; 0 when there is no
    page.  The three [map_*_range] functions have this sequence inline. *)
Definition next_table (mk : Z -> Z) (tbl i e : Z) : M (PS * tables) Z :=
  if pte_is_null e then
    pt ← table_alloc;
    if pt =? 0 then mret 0 else entry_set tbl i (mk pt);; mret pt
  else mret (ptov (pte_table_addr e)).

(** The [do ... while] loop of [map_pmd_range]. *)
Fixpoint map_pmd_loop (fuel : nat) (pmd i base pa size map_size flags : Z) : M (PS * tables) Z :=
  match fuel with
  | O => fun _ => Diverge
  | S fuel' =>
      e ← entry_get pmd i;
      ret ← (if can_map_pmd_huge e base pa size flags
             then entry_set pmd i (pmde_of pa true flags);; mret 0
             else
               pt ← next_table (fun pt => pmde_of pt false flags) pmd i e;
               if pt =? 0 then mret (- ENOMEM)
               else on_tables (fun h => map_pt_range h pt base (u64 (base + map_size)) pa flags));
      if negb (ret =? 0) then mret ret
      else
        let base := u64 (base + map_size) in
        let pa := u64 (pa + map_size) in
        let size := u64 (size - map_size) in
        let map_size := if PMD_SIZE <? size then PMD_SIZE else size in
        if 0 <? size then map_pmd_loop fuel' pmd (i + 1) base pa size map_size flags else mret 0
  end.

Definition map_pmd_range (pmd base pa size flags : Z) : M (PS * tables) Z :=
  let aligned_base := align_up base PMD_SIZE in
  let map_size :=
    if (base <? aligned_base) && (u64 (aligned_base - base) <? size)
    then u64 (aligned_base - base)
    else if PMD_SIZE <? size then PMD_SIZE else size in
  map_pmd_loop 513 pmd (pmd_index base) base pa size map_size flags.

Fixpoint map_pud_loop (fuel : nat) (pud i va pa size flags : Z) : M (PS * tables) Z :=
  match fuel with
  | O => fun _ => Diverge
  | S fuel' =>
      e ← entry_get pud i;
      if can_map_pud_huge e va pa size flags then halt (* assert(0) *)
      else
        let map_size := if PUD_SIZE <=? size then PUD_SIZE else size in
        pmd ← next_table (fun pmd => pude_of pmd false flags) pud i e;
        if pmd =? 0 then mret (- ENOMEM)
        else
          ret ← map_pmd_range pmd va pa map_size flags;
          if negb (ret =? 0) then mret ret
          else
            let va := u64 (va + map_size) in
            let pa := u64 (pa + map_size) in
            let size := u64 (size - map_size) in
            if 0 <? size then map_pud_loop fuel' pud (i + 1) va pa size flags else mret ret
  end.

Definition map_pud_range (pud va pa size flags : Z) : M (PS * tables) Z :=
  map_pud_loop 513 pud (pud_index va) va pa size flags.

Fixpoint map_pgd_loop (fuel : nat) (pagetable i va pa size flags : Z) : M (PS * tables) Z :=
  match fuel with
  | O => fun _ => Diverge
  | S fuel' =>
      e ← entry_get pagetable i;
      pud ← next_table (fun pud => pgde_of pud flags) pagetable i e;
      if pud =? 0 then mret (-1)
      else
        let map_size := if PGD_SIZE <? size then PGD_SIZE else size in
        ret ← map_pud_range pud va pa map_size flags;
        if negb (ret =? 0) then mret ret
        else
          let va := u64 (va + map_size) in
          let pa := u64 (pa + map_size) in
          let size := u64 (size - map_size) in
          if 0 <? size then map_pgd_loop fuel' pagetable (i + 1) va pa size flags else mret 0
  end.

Definition map_pgd_range (pagetable va pa size flags : Z) : M (PS * tables) Z :=
  map_pgd_loop 513 pagetable (pgd_index va) va pa size flags.

Definition VA_MAX : Z := 2 ^ 64 - 1.
Definition PA_MAX : Z := 2 ^ 48.
Definition SPR_ERR : Z := 1.

Definition pagetable_map (pagetable va pa size flag : Z) : M (PS * tables) Z :=
  assertM (0 <? size);;
  assertM ((va <? VA_MAX) && (u64 (va + size) <? VA_MAX));;
  assertM (pa <? PA_MAX);;
  assertM (page_aligned va && page_aligned size && page_aligned pa);;
  ret ← map_pgd_range pagetable va pa size flag;
  if negb (ret =? 0) then mret (- SPR_ERR) else mret 0.
End Map.

(** [pagetable_unmap], [pagetable_free] and [pagetable_clone] are not written
    yet: each stops the machine. *)
Definition pagetable_unmap {S} (pagetable start end_ flags : Z) : M S Z := halt.
Definition pagetable_free {S} (pagetable : Z) : M S () := halt.
Definition pagetable_clone {S} (new_pgtbl old_pgtbl : Z) : M S Z := halt.
