(* ===== verification/PageTableSpec.v ===== *)
(** * Page tables: what [pagetable_map] establishes

    Descriptor arithmetic, the tree invariant of the tables, and the proof
    that a successful [pagetable_map] makes [pgtbl_walk] translate the whole
    range and keeps every earlier translation. *)
From S2P Require Import Prelude Config Bitmap Page PageTable.

(** ** Descriptors *)

(** Attribute words leave the address field alone. *)
Definition attr_ok (a : Z) : Prop := Z.land a (Z.shiftl (Z.ones 36) 12) = 0.

Lemma attr_ok_lor a b : attr_ok a -> attr_ok b -> attr_ok (Z.lor a b).
Proof. unfold attr_ok. intros Ha Hb. by rewrite Z.land_lor_distr_l, Ha, Hb. Qed.

Lemma table_attr_ok flags :
  attr_ok (table_attr flags) /\ Z.testbit (table_attr flags) 0 = true /\ Z.testbit (table_attr flags) 1 = true.
Proof. unfold table_attr. case_match; by vm_compute. Qed.

Lemma type_attr_ok des flags :
  des = S1_DES_BLOCK \/ des = S1_DES_PAGE ->
  attr_ok (type_attr des flags) /\ Z.testbit (type_attr des flags) 0 = true /\
  Z.testbit (type_attr des flags) 1 = Z.testbit des 1.
Proof. unfold type_attr. intros [-> | ->]; repeat case_match; by vm_compute. Qed.

Lemma access_attr_ok flags : attr_ok (access_attr flags) /\ Z.testbit (access_attr flags) 1 = false.
Proof. unfold access_attr. repeat case_match; by vm_compute. Qed.

Lemma leaf_attr_ok des flags :
  des = S1_DES_BLOCK \/ des = S1_DES_PAGE ->
  attr_ok (leaf_attr des flags) /\ Z.testbit (leaf_attr des flags) 0 = true /\
  Z.testbit (leaf_attr des flags) 1 = Z.testbit des 1.
Proof.
  intros Hd. unfold leaf_attr.
  destruct (type_attr_ok des flags Hd) as (Ht & Ht0 & Ht1), (access_attr_ok flags) as [Ha Ha1].
  repeat case_match; rewrite ?Z.lor_spec, ?Ht0, ?Ht1, ?Ha1; cbn [orb]; rewrite ?orb_false_r;
    (split; [repeat apply attr_ok_lor; done|split; done]).
Qed.

Lemma field_spec e lo n : 0 <= lo -> 0 <= n -> field e lo n = (e / 2 ^ lo) mod 2 ^ n.
Proof. intros. unfold field. by rewrite Z.land_ones, Z.shiftr_div_pow2. Qed.

Lemma field_lor_attr p a : attr_ok a -> field (Z.lor p a) 12 36 = field p 12 36.
Proof.
  intros Ha. unfold field. rewrite Z.shiftr_lor, Z.land_lor_distr_l.
  replace (Z.land (Z.shiftr a 12) (Z.ones 36)) with 0; [by rewrite Z.lor_0_r|].
  change (Z.ones 36) with (Z.shiftr (Z.shiftl (Z.ones 36) 12) 12).
  rewrite <- Z.shiftr_land. unfold attr_ok in Ha. by rewrite Ha.
Qed.

Lemma testbit_page p n : p mod 4096 = 0 -> 0 <= n < 12 -> Z.testbit p n = false.
Proof.
  intros Hp Hn. apply Z.mod_divide in Hp as [q ->]; [|done].
  change 4096 with (2 ^ 12). by rewrite Z.mul_pow2_bits_low by lia.
Qed.

Lemma field_bit e n : 0 <= n -> (field e n 1 =? 1) = Z.testbit e n.
Proof.
  intros Hn. rewrite field_spec by lia. change (2 ^ 1) with 2. rewrite <- (Z.testbit_spec' e n) by lia.
  by destruct (Z.testbit e n).
Qed.

(** The descriptor of a table at kernel address [c]. *)
Definition table_desc (c flags : Z) : Z := Z.lor (vtop c) (table_attr flags).

(** The table a descriptor points to. *)
Definition child (e : Z) : Z := ptov (pte_table_addr e).

(** A kernel page: what the page allocator hands out. *)
Definition kpage (c : Z) : Prop := c mod 4096 = 0 /\ 0xffff000000000000 <= c < 2 ^ 64.

Lemma vtop_kpage c : kpage c -> vtop c = c - 0xffff000000000000 /\ 0 <= vtop c < 2 ^ 48 /\ vtop c mod 4096 = 0.
Proof.
  intros [Ha Hc]. assert (vtop c = c - 0xffff000000000000) as -> by
    (unfold vtop, CONFIG_KERNEL_ADDR_MASK; apply u64_small; lia).
  split_and!; [done|lia|lia|]. rewrite Zminus_mod, Ha. done.
Qed.

Lemma table_desc_spec c flags :
  kpage c -> pte_is_vaild (table_desc c flags) = true /\ pte_is_table (table_desc c flags) = true /\
  child (table_desc c flags) = c /\ table_desc c flags <> 0.
Proof.
  intros Hc. destruct (vtop_kpage c Hc) as (Hv & Hr & Hm), (table_attr_ok flags) as (Ha & H0 & H1).
  unfold pte_is_vaild, pte_is_table, child, pte_table_addr, table_desc.
  rewrite !field_bit, !Z.lor_spec, H0, H1, !orb_true_r by lia.
  rewrite field_lor_attr, field_spec by (done || lia).
  assert (vtop c / 2 ^ 12 * 4096 = vtop c) as Hd.
  { change (2 ^ 12) with 4096. pose proof (Z.div_mod (vtop c) 4096). lia. }
  rewrite (Z.mod_small (vtop c / 2 ^ 12)) by (split; [apply Z.div_pos|apply Z.div_lt_upper_bound]; lia).
  unfold PAGE_SHIFT. rewrite Z.shiftl_mul_pow2 by lia. change (2 ^ 12) with 4096 at 2. rewrite Hd, u64_small by lia.
  split_and!; [done|done| |].
  - rewrite ptov_small by lia. lia.
  - intros E%(f_equal (fun x => Z.testbit x 0)). by rewrite Z.lor_spec, H0, orb_true_r, Z.bits_0 in E.
Qed.

(** The descriptor of the page at [pa]: valid, and [pt_page_addr] gives the
    address back up to the 36 bits the field arithmetic keeps. *)
Lemma pte_of_spec pa flags :
  pa mod 4096 = 0 -> 0 <= pa < 2 ^ 36 ->
  pte_is_vaild (pte_of pa flags) = true /\ pt_page_addr (pte_of pa flags) = pa /\ pte_of pa flags <> 0.
Proof.
  intros Hm Hr. destruct (leaf_attr_ok S1_DES_PAGE flags) as (Ha & H0 & _); [by right|].
  unfold pte_is_vaild, pt_page_addr, pte_of.
  rewrite field_bit, Z.lor_spec, H0, orb_true_r by lia.
  rewrite field_lor_attr, field_spec by (done || lia).
  assert (vtop pa = pa + 2 ^ 48) as ->.
  { unfold vtop, CONFIG_KERNEL_ADDR_MASK, wrapu.
    replace (pa - 0xffff000000000000) with (pa + 2 ^ 48 + (-1) * 2 ^ 64) by lia.
    rewrite Z_mod_plus_full. apply Z.mod_small. lia. }
  replace (2 ^ 48) with (2 ^ 36 * 2 ^ 12) by lia. rewrite Z.div_add by lia.
  replace (2 ^ 36) with (1 * 2 ^ 36) at 1 by lia. rewrite Z_mod_plus_full.
  assert (pa / 2 ^ 12 * 4096 = pa) as Hd.
  { change (2 ^ 12) with 4096. pose proof (Z.div_mod pa 4096). lia. }
  rewrite (Z.mod_small (pa / 2 ^ 12)) by (split; [apply Z.div_pos|apply Z.div_lt_upper_bound]; lia).
  unfold PAGE_SHIFT. rewrite Z.shiftl_mul_pow2 by lia. change (2 ^ 12) with 4096 at 2.
  rewrite Hd. split_and!; [done|by apply wrapu_small|].
  intros E%(f_equal (fun x => Z.testbit x 0)). by rewrite Z.lor_spec, H0, orb_true_r, Z.bits_0 in E.
Qed.

(** ** Indices *)

(** The index of [va] in a table of level [l]: 3 is the PGD, 0 the PT. *)
Definition idx (l : nat) (va : Z) : Z := (va / 2 ^ (12 + 9 * Z.of_nat l)) mod 512.

Lemma index_idx va :
  pgd_index va = idx 3 va /\ pud_index va = idx 2 va /\ pmd_index va = idx 1 va /\ pt_index va = idx 0 va.
Proof.
  unfold pgd_index, pud_index, pmd_index, pt_index, idx, PTP_ENTRIES.
  change (512 - 1) with (Z.ones 9). rewrite !Z.land_ones, !Z.shiftr_div_pow2 by (vm_compute; congruence). done.
Qed.

Lemma idx_range l va : 0 <= idx l va < 512.
Proof. apply Z.mod_pos_bound. lia. Qed.

(** ** The tree of tables *)

(** Entry [i] of table [a] is [e]. *)
Definition ent (h : tables) (a i e : Z) : Prop := 0 <= i < 512 /\ entry_rd h a i = Ret e.

Lemma ent_lookup h a i e :
  ent h a i e <-> 0 <= i < 512 /\ exists es, h !! a = Some es /\ es !! Z.to_nat i = Some e.
Proof.
  unfold ent, entry_rd. destruct (h !! a) as [es|]; [|naive_solver]. rewrite rd_Ret. naive_solver lia.
Qed.

Lemma ent_fun h a i e e' : ent h a i e -> ent h a i e' -> e = e'.
Proof. intros [_ H] [_ H']. congruence. Qed.

(** [lv] gives the level of every table of the tree. *)
Record pt_wf (root : Z) (h : tables) (lv : gmap Z nat) : Prop := {
  wf_root : lv !! root = Some 3%nat;
  wf_table : forall a l, lv !! a = Some l -> exists es, h !! a = Some es /\ length es = 512%nat;
  wf_entry : forall a l i e, lv !! a = Some (S l) -> ent h a i e -> e <> 0 ->
    pte_is_vaild e = true /\
    (pte_is_table e = true /\ lv !! child e = Some l \/ pte_is_table e = false /\ (l < 2)%nat);
  wf_inj : forall a b l i j e e', lv !! a = Some (S l) -> lv !! b = Some (S l) ->
    ent h a i e -> ent h b j e' -> e <> 0 -> e' <> 0 ->
    pte_is_table e = true -> pte_is_table e' = true -> child e = child e' -> a = b /\ i = j;
}.

Lemma wf_ent root h lv a l i : pt_wf root h lv -> lv !! a = Some l -> 0 <= i < 512 -> exists e, ent h a i e.
Proof.
  intros Hw Ha Hi. destruct (wf_table _ _ _ Hw a l Ha) as (es & He & Hl).
  destruct (lookup_lt_is_Some_2 es (Z.to_nat i)) as [e ?]; [lia|].
  exists e. apply ent_lookup. split; [done|]. by exists es.
Qed.

(** The path of [va] from the level-[l] table [a] leads to no mapping. *)
Fixpoint free_at (l : nat) (h : tables) (a va : Z) : Prop :=
  exists e, ent h a (idx l va) e /\
    match l with
    | O => e = 0
    | S l' => e = 0 \/ e <> 0 /\ pte_is_table e = true /\ free_at l' h (child e) va
    end.

(** The path of [va] from [a] ends in the page descriptor [d]. *)
Fixpoint mapped_at (l : nat) (h : tables) (a va d : Z) : Prop :=
  exists e, ent h a (idx l va) e /\
    match l with
    | O => e = d
    | S l' => e <> 0 /\ pte_is_vaild e = true /\ pte_is_table e = true /\ mapped_at l' h (child e) va d
    end.

(** [h'] keeps every non-null entry of [h]. *)
Definition ext (h h' : tables) : Prop := forall a i e, ent h a i e -> e <> 0 -> ent h' a i e.

#[global] Instance ext_preorder : PreOrder ext.
Proof. split; [intros h a i e; done|intros h1 h2 h3 H12 H23 a i e He Hn; auto]. Qed.

Lemma mapped_at_ext l h h' a va d : ext h h' -> d <> 0 -> mapped_at l h a va d -> mapped_at l h' a va d.
Proof.
  intros Hext Hd. revert a. induction l as [|l IH]; intros a (e & He & Hrest); exists e.
  - subst e. split; [by apply Hext|done].
  - destruct Hrest as (Hn & ? & ? & Hm). split; [by apply Hext|]. split_and!; [done..|by apply IH].
Qed.

Lemma vaild_nonnull e : pte_is_vaild e = true -> e <> 0.
Proof. by intros H ->. Qed.

(** Translations only read non-null descriptors. *)
Lemma walk_ext h h' root va x : ext h h' -> pgtbl_walk h root va = Ret x -> pgtbl_walk h' root va = Ret x.
Proof.
  intros Hext. destruct (index_idx va) as (H3 & H2 & H1 & H0).
  assert (forall a l e, entry_rd h a (idx l va) = Ret e -> pte_is_vaild e = true ->
            entry_rd h' a (idx l va) = Ret e) as Hk.
  { intros a l e He Hv. apply (Hext a (idx l va) e); [|by apply vaild_nonnull]. split; [apply idx_range|done]. }
  unfold pgtbl_walk. rewrite H3, H2, H1, H0. mstep.
  destruct (entry_rd h root _) as [pgde| | |] eqn:E3; try done.
  destruct (pte_is_vaild pgde) eqn:V3; [|done]. rewrite (Hk _ _ _ E3 V3), V3.
  destruct (pte_is_table pgde); [|done].
  destruct (entry_rd h _ (idx 2 va)) as [pude| | |] eqn:E2; try done.
  destruct (pte_is_vaild pude) eqn:V2; [|done]. rewrite (Hk _ _ _ E2 V2), V2.
  destruct (pte_is_table pude); [cbn [negb]|done].
  destruct (entry_rd h _ (idx 1 va)) as [pmde| | |] eqn:E1; try done.
  destruct (pte_is_vaild pmde) eqn:V1; [|done]. rewrite (Hk _ _ _ E1 V1), V1.
  destruct (pte_is_table pmde); [cbn [negb]|done].
  destruct (entry_rd h _ (idx 0 va)) as [pte| | |] eqn:E0; try done.
  destruct (pte_is_vaild pte) eqn:V0; [|done]. by rewrite (Hk _ _ _ E0 V0), V0.
Qed.

Lemma mapped_walk h root va pa flags :
  pa mod 4096 = 0 -> 0 <= pa < 2 ^ 36 -> 0 <= va ->
  mapped_at 3 h root va (pte_of pa flags) -> pgtbl_walk h root va = Ret (pa + va mod 4096).
Proof.
  intros Hm Hr Hva (e3 & [_ E3] & _ & V3 & T3 & e2 & [_ E2] & _ & V2 & T2 & e1 & [_ E1] & _ & V1 & T1 & e0 & [_ E0] & ->).
  destruct (index_idx va) as (H3 & H2 & H1 & H0), (pte_of_spec pa flags Hm Hr) as (V0 & Hp & _).
  unfold pgtbl_walk. rewrite H3, H2, H1, H0. mstep. unfold child in *.
  rewrite E3, V3, T3, E2, V2, T2. cbn [negb]. rewrite E1, V1, T1. cbn [negb]. rewrite E0, V0, Hp. f_equal.
  unfold PAGE_SIZE. change (4096 - 1) with (Z.ones 12). rewrite Z.land_ones by lia. change (2 ^ 12) with 4096.
  apply Z.mod_divide in Hm as [q ->]; [|done].
  pose proof (Z.mod_pos_bound va 4096). change 4096 with (2 ^ 12) in *.
  assert (Z.land (q * 2 ^ 12) (va mod 2 ^ 12) = 0) as Hl; [|by rewrite Z.add_nocarry_lxor, Z.lxor_lor].
  apply Z.bits_inj'. intros n Hn. rewrite Z.land_spec, Z.bits_0.
  destruct (decide (n < 12)).
  - by rewrite Z.mul_pow2_bits_low by lia.
  - rewrite (Z.mod_pow2_bits_high va) by lia. apply andb_false_r.
Qed.

(** ** Building tables *)
Section MapSpec.
Context {PS : Type} `{PA : PageAlloc PS} (root : Z).

(** Every table is a live page of the allocator, or lies outside its arena
    (the boot tables). *)
Definition owned (s : PS) (h : tables) : Prop :=
  forall a es, h !! a = Some es -> kpage a /\ (pa_live s a 1 \/ ~ pa_arena s a).

Record pt_state (s : PS) (h : tables) (lv : gmap Z nat) : Prop := {
  st_pages : pa_inv s;
  st_wf : pt_wf root h lv;
  st_owned : owned s h;
}.

(** Blocks stay handed out, the arena stays the same, and new tables lie
    outside the blocks that were handed out before. *)
Record grows (s : PS) (h : tables) (s' : PS) (h' : tables) : Prop := {
  gr_live : forall va n, pa_live s va n -> pa_live s' va n;
  gr_arena : forall x, pa_arena s' x <-> pa_arena s x;
  gr_new : forall a, is_Some (h' !! a) -> is_Some (h !! a) \/ forall va n, pa_live s va n -> va + n * 4096 <= a \/ a + 4096 <= va }.
Lemma grows_same s h h' : (forall a, is_Some (h' !! a) -> is_Some (h !! a)) -> grows s h s h'.
Proof. split; [done|done|]. intros a Ha. left. auto. Qed.
Lemma grows_trans s1 h1 s2 h2 s3 h3 : grows s1 h1 s2 h2 -> grows s2 h2 s3 h3 -> grows s1 h1 s3 h3.
Proof.
  intros [H1 A1 N1] [H2 A2 N2]. split; [auto|intros x; by rewrite A2|].
  intros a [Ha|Ha]%N2; [by apply N1|]. right. intros va n Hv. by apply Ha, H1.
Qed.

(** With [n] pages left it succeeds and takes at most these. *)
Definition enough (n : Z) (ok : Prop) (s s' : PS) : Prop :=
  forall m lim, n <= m -> pa_room s m lim -> ok /\ pa_room s' (m - n) lim.
Lemma enough_trans n1 n2 (ok1 ok2 ok : Prop) s1 s2 s3 :
  0 <= n1 -> 0 <= n2 -> enough n1 ok1 s1 s2 -> (ok1 -> enough n2 ok2 s2 s3) -> (ok1 -> ok2 -> ok) -> enough (n1 + n2) ok s1 s3.
Proof.
  intros Hn1 Hn2 H1 H2 Hok m lim Hm Hr. destruct (H1 m lim ltac:(lia) Hr) as [Ho1 Hr1].
  destruct (H2 Ho1 (m - n1) lim ltac:(lia) Hr1) as [Ho2 Hr2]. split; [auto|]. by replace (m - (n1 + n2)) with (m - n1 - n2) by lia.
Qed.
Lemma enough_le n n' (ok : Prop) s s' : 0 <= n <= n' -> enough n ok s s' -> enough n' ok s s'.
Proof.
  intros Hn H m lim Hm Hr. destruct (H m lim ltac:(lia) Hr) as [Ho Hr']. split; [done|]. apply (pa_room_le _ _ _ _ Hr'). lia.
Qed.

(** The path of [va] from the level-[l] table [a] passes [t] at level [m]. *)
Fixpoint goes (l : nat) (h : tables) (a va : Z) (m : nat) (t : Z) : Prop :=
  l = m /\ a = t \/
  match l with
  | O => False
  | S l' => exists e, ent h a (idx l va) e /\ e <> 0 /\ pte_is_table e = true /\ goes l' h (child e) va m t
  end.

Lemma goes_le l h a va m t : goes l h a va m t -> (m <= l)%nat.
Proof.
  revert a. induction l as [|l IH]; intros a [[? _]|Hr]; [lia|done|lia|].
  destruct Hr as (e & _ & _ & _ & Hg). apply IH in Hg. lia.
Qed.
Lemma goes_ext l h h' a va m t : ext h h' -> goes l h a va m t -> goes l h' a va m t.
Proof.
  intros He. revert a. induction l as [|l IH]; intros a [?|Hr]; [by left|done|by left|right].
  destruct Hr as (e & Hent & Hn & Ht & Hg). exists e. split; [by apply He|]. auto.
Qed.
Lemma goes_lv l h lv a va m t : pt_wf root h lv -> lv !! a = Some l -> goes l h a va m t -> lv !! t = Some m.
Proof.
  intros Hw. revert a. induction l as [|l IH]; intros a Ha [[<- <-]|Hr]; [done|done|done|].
  destruct Hr as (e & He & Hn & Ht & Hg). destruct (wf_entry _ _ _ Hw a l _ e Ha He Hn) as [_ [[_ Hl]|[? _]]]; [|congruence].
  by apply (IH (child e)).
Qed.
(** The last step of a path. *)
Lemma goes_last l h a va m t :
  goes l h a va m t -> (m < l)%nat ->
  exists p e, goes l h a va (S m) p /\ ent h p (idx (S m) va) e /\ e <> 0 /\ pte_is_table e = true /\ child e = t.
Proof.
  revert a. induction l as [|l IH]; intros a Hg Hlt; [lia|]. destruct Hg as [[? _]|(e & He & Hn & Ht & Hg)]; [lia|].
  destruct (decide (m = l)) as [->|Hne].
  - exists a, e. split; [by left|]. split_and!; [done..|]. destruct l; destruct Hg as [[_ ?]|Hg]; [done|done|done|].
    destruct Hg as (x & _ & _ & _ & Hx%goes_le). lia.
  - destruct (IH _ Hg) as (p & x & Hp & Hx); [lia|]. exists p, x. split; [|done]. right. by exists e.
Qed.

(** Mapping the [n] pages from [base] below table [tbl] of level [m] leaves
    every other free address free. *)
Definition framed (m : nat) (tbl base n : Z) (h h' : tables) : Prop :=
  forall va, free_at 3 h root va ->
    (forall k, 0 <= k < n -> goes 3 h' root va m tbl -> exists j, (j <= m)%nat /\ idx j va <> idx j (base + k * 4096)) ->
    free_at 3 h' root va.

Lemma framed_app m tbl base n1 n2 h h1 h2 :
  0 <= n1 -> 0 <= n2 -> ext h1 h2 -> framed m tbl base n1 h h1 -> framed m tbl (base + n1 * 4096) n2 h1 h2 -> framed m tbl base (n1 + n2) h h2.
Proof.
  intros Hn1 Hn2 He H1 H2 va Hf Ho. apply H2; [apply H1; [done|]|]; intros k Hk Hg.
  - apply Ho; [lia|by eapply goes_ext].
  - destruct (Ho (n1 + k)) as (j & Hj & Hne); [lia|done|]. exists j. split; [done|].
    by replace (base + n1 * 4096 + k * 4096) with (base + (n1 + k) * 4096) by lia.
Qed.
Lemma framed_after m tbl base n h h1 h2 :
  (forall va, free_at 3 h root va -> free_at 3 h1 root va) -> framed m tbl base n h1 h2 -> framed m tbl base n h h2.
Proof. intros H1 H2 va Hf. apply H2. auto. Qed.

(** One level up: only one entry leads to a table. *)
Lemma framed_up m tbl base n h h' lv i d :
  pt_wf root h' lv -> (m < 3)%nat -> lv !! tbl = Some (S m) -> ent h' tbl i d -> d <> 0 -> pte_is_table d = true ->
  (forall k, 0 <= k < n -> idx (S m) (base + k * 4096) = i) ->
  framed m (child d) base n h h' -> framed (S m) tbl base n h h'.
Proof.
  intros Hw Hm Hlv Hd Hd0 Hdt Hi Hf va Hfree Ho. apply Hf; [done|]. intros k Hk Hg.
  destruct (goes_last _ _ _ _ _ _ Hg Hm) as (p & e & Hp & He & He0 & Het & Hec).
  pose proof (goes_lv 3 h' lv root va (S m) p Hw (wf_root _ _ _ Hw) Hp) as Hpl.
  destruct (wf_inj _ _ _ Hw p tbl m _ _ e d Hpl Hlv He Hd He0 Hd0 Het Hdt Hec) as [-> Hidx].
  destruct (Ho k Hk Hp) as (j & Hj & Hne). exists j. split; [|done].
  destruct (decide (j = S m)) as [->|]; [|lia]. by rewrite Hidx, Hi in Hne.
Qed.

(** A table of zeroes maps nothing. *)
Lemma free_at_zero l h c va : (forall j, 0 <= j < 512 -> ent h c j 0) -> free_at l h c va.
Proof. intros Hz. destruct l; exists 0; (split; [apply Hz, idx_range|]); [done|by left]. Qed.

(** Filling entries [J] of the leaf table [pt]. *)
Lemma free_leaf h h' lv pt (J : Z -> Prop) l a va :
  pt_wf root h lv -> lv !! pt = Some O -> (forall b j x, ent h b j x -> ~ (b = pt /\ J j) -> ent h' b j x) ->
  lv !! a = Some l -> free_at l h a va -> (goes l h' a va O pt -> ~ J (idx 0 va)) -> free_at l h' a va.
Proof.
  intros Hw Hpt Hk. revert a. induction l as [|l IH]; intros a Ha (e & He & Hor) Hg; exists e.
  - split; [|done]. apply Hk; [done|]. intros [-> HJ]. apply Hg; [by left|done].
  - assert (ent h' a (idx (S l) va) e) as He'.
    { apply Hk; [done|]. intros [-> _]. congruence. }
    split; [done|]. destruct Hor as [?|(Hn & Ht & Hf)]; [by left|right]. split_and!; [done..|].
    destruct (wf_entry _ _ _ Hw a l _ e Ha He Hn) as [_ [[_ Hl]|[? _]]]; [|congruence].
    apply IH; [done..|]. intros Hg'. apply Hg. right. by exists e.
Qed.

Lemma alloc_owned s h :
  pa_inv s -> owned s h ->
  exists c s', pa_allocn 1 s = Ret (c, s') /\ grows s h s' h /\ enough 1 (c <> 0) s s' /\
    (c = 0 /\ s' = s \/
     c <> 0 /\ kpage c /\ h !! c = None /\ pa_inv s' /\ owned s' (table_clear h c) /\
       forall va n, pa_live s va n -> va + n * 4096 <= c \/ c + 4096 <= va).
Proof.
  intros Hp Ho. destruct (pa_allocn_spec s 1 Hp ltac:(lia)) as (c & s' & He & Hp' & Har & Hor).
  exists c, s'. split; [done|]. split.
  { split; [|done|by left]. destruct Hor as [[_ ->]|(_ & Hl & _)]; [done|]. intros va n Hv. apply Hl. by right. }
  split; [intros m lim Hm Hr; destruct (pa_allocn_room s 1 m lim c s') as (? & _ & ?); done|].
  destruct Hor as [[-> ->]|(Hn & Hl & Hd)]; [by left|right].
  assert (pa_live s' c 1) as Hc by (apply Hl; by left).
  destruct (pa_live_range s' c 1 Hp' Hc) as (Hm & Hlo & _ & Hhi). change (ptov 0) with 0xffff000000000000 in Hlo.
  assert (h !! c = None) as Hf.
  { destruct (h !! c) as [es|] eqn:E; [|done]. exfalso.
    destruct (Ho c es E) as [_ [Hlive|Hna]]; [specialize (Hd c 1 Hlive); lia|].
    apply Hna, Har. apply (pa_live_arena s' c 1); [done..|lia]. }
  split_and!; [done| |done|done| |intros va n Hv; specialize (Hd va n Hv); lia].
  { split; [done|lia]. }
  intros a es Ha. unfold table_clear in Ha. destruct (decide (a = c)) as [->|Hne].
  - split; [split; [done|lia]|by left].
  - rewrite lookup_insert_ne in Ha by done. destruct (Ho a es Ha) as [Hk [?|Hna]]; split; try done.
    + left. apply Hl. by right.
    + right. by rewrite Har.
Qed.

Lemma alloc_fresh s h lv :
  pt_state s h lv ->
  exists c s', pa_allocn 1 s = Ret (c, s') /\ grows s h s' h /\ enough 1 (c <> 0) s s' /\
    (c = 0 /\ s' = s \/
     c <> 0 /\ kpage c /\ h !! c = None /\ pa_inv s' /\ owned s' (table_clear h c) /\
       forall va n, pa_live s va n -> va + n * 4096 <= c \/ c + 4096 <= va).
Proof. intros [Hp _ Ho]. by apply alloc_owned. Qed.

Lemma owned_update s h a es es' : owned s h -> h !! a = Some es -> owned s (<[a := es']> h).
Proof.
  intros Ho Ha b x Hb. destruct (decide (b = a)) as [->|]; [by apply (Ho a es)|].
  rewrite lookup_insert_ne in Hb by done. by apply (Ho b x).
Qed.

(** Writing entry [i] of [a]. *)
Lemma ent_update h a es i v b j e :
  h !! a = Some es -> length es = 512%nat -> 0 <= i < 512 ->
  ent (<[a := <[Z.to_nat i := v]> es]> h) b j e <->
    (b = a /\ j = i /\ e = v) \/ (~ (b = a /\ j = i) /\ ent h b j e).
Proof.
  intros Ha Hl Hi. rewrite !ent_lookup. destruct (decide (b = a)) as [->|Hb].
  - rewrite lookup_insert_eq, Ha. setoid_rewrite (inj_iff Some). split.
    + intros (Hj & ? & <- & He). destruct (decide (j = i)) as [->|Hne].
      * rewrite list_lookup_insert_eq in He by lia. naive_solver.
      * rewrite list_lookup_insert_ne in He by lia. naive_solver.
    + intros [(_ & -> & ->)|(Hne & Hj & ? & <- & He)]; (split; [lia|]); eexists; (split; [done|]).
      * apply list_lookup_insert_eq. lia.
      * rewrite list_lookup_insert_ne by (intros E; apply Hne; split; [done|lia]). done.
  - rewrite lookup_insert_ne by done. naive_solver.
Qed.

Lemma entry_wr_Ret h a es i v :
  h !! a = Some es -> length es = 512%nat -> 0 <= i < 512 ->
  entry_wr h a i v = Ret (<[a := <[Z.to_nat i := v]> es]> h).
Proof. intros Ha Hl Hi. unfold entry_wr. rewrite Ha, wr_in by lia. done. Qed.

(** A new zeroed table [c] reads as zero, and nothing else changes. *)
Lemma ent_clear h c b j e :
  ent (table_clear h c) b j e <-> (b = c /\ 0 <= j < 512 /\ e = 0) \/ (b <> c /\ ent h b j e).
Proof.
  rewrite !ent_lookup. unfold table_clear. destruct (decide (b = c)) as [->|Hb].
  - rewrite lookup_insert_eq. setoid_rewrite (inj_iff Some). split.
    + intros (Hj & ? & <- & He). apply lookup_replicate in He as [-> _]. by left.
    + intros [(_ & Hj & ->)|[? _]]; [|done]. split; [done|]. eexists. split; [done|].
      apply lookup_replicate. split; [done|lia].
  - rewrite lookup_insert_ne by done. naive_solver.
Qed.

(** The heap after a new table [c] was hung below entry [i] of [tbl]. *)
Lemma ent_hang h c tbl es i d b j x :
  h !! c = None -> h !! tbl = Some es -> length es = 512%nat -> 0 <= i < 512 ->
  ent (<[tbl := <[Z.to_nat i := d]> es]> (table_clear h c)) b j x <->
    (b = tbl /\ j = i /\ x = d) \/ (b = c /\ 0 <= j < 512 /\ x = 0) \/
    (~ (b = tbl /\ j = i) /\ ent h b j x).
Proof.
  intros Hc Ht Hl Hi. assert (c <> tbl) by congruence.
  rewrite ent_update by (done || (unfold table_clear; by rewrite lookup_insert_ne)).
  rewrite ent_clear. assert (ent h b j x -> b <> c) by (intros (_ & ? & ? & _)%ent_lookup; congruence).
  naive_solver.
Qed.

Lemma lv_in_h h lv a l : pt_wf root h lv -> lv !! a = Some l -> is_Some (h !! a).
Proof. intros Hw Ha. destruct (wf_table _ _ _ Hw a l Ha) as (es & -> & _). by exists es. Qed.

Lemma wf_hang h lv c tbl es i d l :
  pt_wf root h lv -> h !! c = None -> lv !! tbl = Some (S l) -> h !! tbl = Some es ->
  ent h tbl i 0 -> pte_is_vaild d = true -> pte_is_table d = true -> child d = c ->
  pt_wf root (<[tbl := <[Z.to_nat i := d]> es]> (table_clear h c)) (<[c := l]> lv).
Proof.
  intros Hw Hc Hlt Ht Hi Hv Htb Hch.
  assert (forall a k, lv !! a = Some k -> a <> c) as Hnc.
  { intros a k Ha ->. destruct (lv_in_h h lv c k Hw Ha). congruence. }
  destruct (wf_table _ _ _ Hw tbl _ Hlt) as (es' & Hes' & Hlen). simplify_eq.
  pose proof Hi as [Hib _].
  assert (forall b j x, ent (<[tbl := <[Z.to_nat i := d]> es]> (table_clear h (child d))) b j x -> x <> 0 ->
    (b = tbl /\ j = i /\ x = d) \/ ent h b j x) as Hent.
  { intros b j x Hx Hx0. rewrite ent_hang in Hx by done. naive_solver. }
  assert (forall a k, <[child d := l]> lv !! a = Some (S k) -> a <> child d -> lv !! a = Some (S k)) as Hlv.
  { intros a k Ha Hne. by rewrite lookup_insert_ne in Ha. }
  assert (forall b j x, ent h b j x -> b <> child d) as Hold.
  { intros b j x (_ & y & Hy & _)%ent_lookup ->. congruence. }
  split.
  - rewrite lookup_insert_ne; [apply Hw|]. symmetry. eapply Hnc. apply Hw.
  - intros a k Ha. destruct (decide (a = child d)) as [->|Hne].
    + exists (replicate 512 0). unfold table_clear.
      rewrite lookup_insert_ne, lookup_insert_eq by (intros ->; congruence). split; [done|]. by rewrite length_replicate.
    + rewrite lookup_insert_ne in Ha by done. destruct (decide (a = tbl)) as [->|Hnt].
      * rewrite lookup_insert_eq. eexists. split; [done|]. by rewrite length_insert.
      * unfold table_clear. rewrite !lookup_insert_ne by done. by eapply (wf_table _ _ _ Hw).
  - intros a k j x Ha Hx Hx0. destruct (Hent _ _ _ Hx Hx0) as [(-> & -> & ->)|Hx'].
    + apply Hlv in Ha; [|by eapply Hnc]. simplify_eq. split; [done|left]. by rewrite lookup_insert_eq.
    + apply Hlv in Ha; [|by eapply Hold]. destruct (wf_entry _ _ _ Hw a k j x Ha Hx' Hx0) as [? [[? Hlc]|?]].
      * split; [done|left]. split; [done|]. rewrite lookup_insert_ne; [done|]. symmetry. by eapply Hnc.
      * split; [done|by right].
  - intros a b k j1 j2 x y Ha Hb Hx Hy Hx0 Hy0 Tx Ty Hxy.
    assert (forall a j x, lv !! a = Some (S k) -> ent h a j x -> x <> 0 -> pte_is_table x = true -> child x <> child d) as Hchild.
    { intros a' j x' Ha' Hx' Hn Ht'. destruct (wf_entry _ _ _ Hw a' k j x' Ha' Hx' Hn) as [_ [[_ ?]|[? _]]]; [by eapply Hnc|congruence]. }
    destruct (Hent _ _ _ Hx Hx0) as [(-> & -> & ->)|Hx'], (Hent _ _ _ Hy Hy0) as [(-> & -> & ->)|Hy'].
    + done.
    + apply Hlv in Hb; [|by eapply Hold]. by destruct (Hchild _ _ _ Hb Hy' Hy0 Ty).
    + apply Hlv in Ha; [|by eapply Hold]. by destruct (Hchild _ _ _ Ha Hx' Hx0 Tx).
    + apply Hlv in Ha; [|by eapply Hold]. apply Hlv in Hb; [|by eapply Hold]. by eapply (wf_inj _ _ _ Hw).
Qed.

(** A new empty table below a null entry maps nothing. *)
Lemma free_hang h lv c tbl es i d k l a va :
  pt_wf root h lv -> lv !! tbl = Some (S k) -> lv !! a = Some l -> h !! c = None -> h !! tbl = Some es -> length es = 512%nat -> ent h tbl i 0 -> d <> 0 -> pte_is_table d = true -> child d = c ->
  free_at l h a va -> free_at l (<[tbl := <[Z.to_nat i := d]> es]> (table_clear h c)) a va.
Proof.
  intros Hw Hlt Ha Hc Ht Hl Hi Hd0 Hdt Hdc. pose proof Hi as [Hib _]. revert a Ha.
  assert (forall b j x, ent (<[tbl := <[Z.to_nat i := d]> es]> (table_clear h c)) b j x <->
    (b = tbl /\ j = i /\ x = d) \/ (b = c /\ 0 <= j < 512 /\ x = 0) \/ (~ (b = tbl /\ j = i) /\ ent h b j x)) as Hent by (intros; by apply ent_hang).
  assert (forall k, free_at k (<[tbl := <[Z.to_nat i := d]> es]> (table_clear h c)) (child d) va) as Hz.
  { intros n. apply free_at_zero. intros j Hj. apply Hent. right; left. by rewrite Hdc. }
  induction l as [|l IH]; intros a Ha (e & He & Hor).
  - exists e. split; [|done]. apply Hent. right; right. split; [|done]. intros [-> _]. congruence.
  - destruct (decide (a = tbl /\ idx (S l) va = i)) as [[-> Hidx]|Hne].
    + exists d. split; [apply Hent; left; by rewrite Hidx|]. right. split_and!; [done..|apply Hz].
    + exists e. split; [apply Hent; auto|]. destruct Hor as [?|(Hn & Het & Hf)]; [by left|right]. split_and!; [done..|].
      destruct (wf_entry _ _ _ Hw a l _ e Ha He Hn) as [_ [[_ Hlc]|[? _]]]; [by apply IH|congruence].
Qed.

Lemma next_table_spec s h lv tbl l i e flags mk :
  pt_state s h lv -> lv !! tbl = Some (S l) -> ent h tbl i e -> (e = 0 \/ pte_is_table e = true) ->
  (forall c, mk c = table_desc c flags) ->
  exists c s' h' lv', next_table mk tbl i e (s, h) = Ret (c, (s', h')) /\
    pt_state s' h' lv' /\ ext h h' /\ lv ⊆ lv' /\
    (grows s h s' h' /\ enough 1 (c <> 0) s s' /\ forall va, free_at 3 h root va -> free_at 3 h' root va) /\
    (c = 0 \/
     (c <> 0 /\ lv' !! c = Some l /\
      (exists d, ent h' tbl i d /\ d <> 0 /\ pte_is_vaild d = true /\ pte_is_table d = true /\ child d = c) /\
      (forall va, idx (S l) va = i -> free_at (S l) h tbl va -> free_at l h' c va) /\
      (forall b j x, ent h b j x -> ~ (b = tbl /\ j = i) -> ent h' b j x))).
Proof.
  intros Hst Hlt Hi He Hmk. unfold next_table, pte_is_null. destruct (Z.eqb_spec e 0) as [->|Hne].
  - destruct (alloc_fresh s h lv Hst) as (c & s' & Ha & Hgr & Hen & Hor). unfold table_alloc, page_alloc1. mstep.
    rewrite Ha. destruct Hor as [[-> ->]|(Hc0 & Hk & Hc & Hp & Ho & Hdis)].
    { exists 0, s, h, lv. split_and!; [done|done|reflexivity|done|by apply grows_same|done|done|by left]. }
    destruct (Z.eqb_spec c 0); [done|]. unfold on_tables. mstep.
    destruct (Z.eqb_spec c 0); [done|]. unfold entry_set, on_tables. mstep.
    destruct (wf_table _ _ _ (st_wf _ _ _ Hst) tbl _ Hlt) as (es & Hes & Hlen).
    pose proof Hi as [Hib _]. assert (c <> tbl) by congruence.
    rewrite (entry_wr_Ret _ tbl es) by (done || (unfold table_clear; by rewrite lookup_insert_ne)).
    rewrite Hmk. destruct (table_desc_spec c flags Hk) as (Hv & Ht & Hch & Hd0).
    eexists c, s', _, (<[c := l]> lv). split; [reflexivity|]. split_and!.
    + split; [done| |].
      * apply wf_hang; try done. apply Hst.
      * eapply owned_update; [done|]. unfold table_clear. rewrite lookup_insert_ne by done. exact Hes.
    + intros b j x Hx Hx0. rewrite ent_hang by done. right; right. split; [|done].
      intros [-> ->]. pose proof (ent_fun _ _ _ _ _ Hx Hi). done.
    + apply insert_subseteq. destruct (lv !! c) eqn:E; [|done].
      destruct (lv_in_h h lv c _ (st_wf _ _ _ Hst) E). congruence.
    + split; [apply Hgr|apply Hgr|]. intros a Hsa. destruct (decide (a = c)) as [->|Hne]; [by right|left].
      destruct (decide (a = tbl)) as [->|]; [by rewrite Hes|]. unfold table_clear in Hsa. by rewrite !lookup_insert_ne in Hsa.
    + done.
    + intros va. apply (free_hang h lv c tbl es i _ l); try done; [apply Hst|apply wf_root with h, Hst].
    + right. split; [done|]. split; [by rewrite lookup_insert_eq|]. split_and!.
      * exists (table_desc c flags). split_and!; [|done..]. rewrite ent_hang by done. by left.
      * intros va _ _. apply free_at_zero. intros j Hj. rewrite ent_hang by done. right; left. done.
      * intros b j x Hx Hne. rewrite ent_hang by done. right; right. done.
  - destruct He as [?|Ht]; [done|].
    destruct (wf_entry _ _ _ (st_wf _ _ _ Hst) tbl l i e Hlt Hi Hne) as [Hv [[_ Hlc]|[? _]]]; [|congruence].
    destruct (lv_in_h h lv _ _ (st_wf _ _ _ Hst) Hlc) as [es Hes].
    destruct (st_owned _ _ _ Hst _ _ Hes) as [[_ ?] _].
    exists (child e), s, h, lv. split_and!; [done|done|reflexivity|done|by apply grows_same| |done|right].
    { intros m lim Hm Hr. split; [lia|]. apply (pa_room_le _ _ _ _ Hr). lia. }
    split_and!; [lia|done|by exists e| |done].
    intros va <- (e' & He' & Hor). rewrite <- (ent_fun _ _ _ _ _ Hi He') in Hor.
    destruct Hor as [?|(_ & _ & Hf)]; done.
Qed.

(** [map_pt_range] fills [n] null entries with consecutive pages. *)
Lemma map_pt_loop_spec n fuel h pt es i base phy flags :
  h !! pt = Some es -> length es = 512%nat -> 0 <= i -> i + Z.of_nat n < 512 -> (n < fuel)%nat ->
  (forall j, i <= j <= i + Z.of_nat n -> ent h pt j 0) ->
  0 <= base -> base + (Z.of_nat n + 1) * 4096 < 2 ^ 64 -> 0 <= phy -> phy + (Z.of_nat n + 1) * 4096 < 2 ^ 64 ->
  exists es', map_pt_loop fuel h pt i base (base + (Z.of_nat n + 1) * 4096) phy flags
                = Ret (0, <[pt := es']> h) /\ length es' = 512%nat /\
    forall b j x, ent (<[pt := es']> h) b j x <->
      (b = pt /\ i <= j <= i + Z.of_nat n /\ x = pte_of (phy + (j - i) * 4096) flags) \/
      (~ (b = pt /\ i <= j <= i + Z.of_nat n) /\ ent h b j x).
Proof.
  revert fuel h es i base phy. induction n as [|n IH];
    intros [|fuel] h es i base phy Hes Hl Hi Hin Hf Hz Hb Hbe Hp Hpe; try lia;
    cbn [map_pt_loop]; destruct (Hz i) as [_ Hrd]; try lia;
    rewrite Hrd; mstep; cbn [pte_is_null Z.eqb]; rewrite (entry_wr_Ret h pt es) by (done || lia);
    unfold PAGE_SIZE; rewrite (u64_small (base + 4096)), (u64_small (phy + 4096)) by lia.
  - replace (base + 4096 =? base + (Z.of_nat 0 + 1) * 4096) with true by (symmetry; apply Z.eqb_eq; lia).
    cbn [negb]. eexists. split; [reflexivity|]. split; [by rewrite length_insert|].
    intros b j x. rewrite (ent_update h pt es i) by (done || lia).
    assert (i <= j <= i + Z.of_nat 0 <-> j = i) as -> by lia. 
    split; (intros [(-> & -> & ->)|?]; [left|by right]); (split_and!; [done|done|f_equal; lia]).
  - replace (base + 4096 =? base + (Z.of_nat (S n) + 1) * 4096) with false by (symmetry; apply Z.eqb_neq; lia).
    cbn [negb]. replace (base + (Z.of_nat (S n) + 1) * 4096) with (base + 4096 + (Z.of_nat n + 1) * 4096) by lia.
    destruct (IH fuel (<[pt := <[Z.to_nat i := pte_of phy flags]> es]> h) (<[Z.to_nat i := pte_of phy flags]> es)
      (i + 1) (base + 4096) (phy + 4096)) as (es' & He & Hl' & Hent); try lia.
    + apply lookup_insert_eq.
    + by rewrite length_insert.
    + intros j Hj. rewrite (ent_update h pt es i) by (done || lia). right. split; [lia|]. apply Hz. lia.
    + rewrite He. exists es'. rewrite insert_insert_eq. split; [done|]. split; [done|].
      intros b j x. rewrite insert_insert_eq in Hent. rewrite Hent, (ent_update h pt es i) by (done || lia). split.
      * intros [(-> & Hj & ->)|(Hn & [(-> & -> & ->)|[Hn' ?]])].
        -- left. split_and!; [done|lia|lia|f_equal; lia].
        -- left. split_and!; [done|lia|lia|f_equal; lia].
        -- right. split; [|done]. intros [-> Hj]. destruct (decide (j = i)); [by apply Hn'|apply Hn; split; [done|lia]].
      * intros [(-> & Hj & ->)|(Hn & ?)].
        -- destruct (decide (j = i)) as [->|]; [right; split; [lia|left]|left].
           ++ split_and!; [done|done|f_equal; lia].
           ++ split_and!; [done|lia|lia|f_equal; lia].
        -- right. split; [naive_solver lia|]. right. split; [|done]. intros [-> ->]. apply Hn. lia.
Qed.

(** Filling null entries of a leaf table keeps the tree. *)
Lemma wf_leaf h lv pt es es' :
  pt_wf root h lv -> lv !! pt = Some O -> h !! pt = Some es -> length es' = 512%nat ->
  pt_wf root (<[pt := es']> h) lv.
Proof.
  intros Hw Hl Hes Hlen.
  assert (forall a k j x, lv !! a = Some (S k) -> ent (<[pt := es']> h) a j x -> ent h a j x) as Hold.
  { intros a k j x Ha. rewrite !ent_lookup, lookup_insert_ne by congruence. done. }
  split.
  - apply Hw.
  - intros a k Ha. destruct (decide (a = pt)) as [->|]; [rewrite lookup_insert_eq; by exists es'|].
    rewrite lookup_insert_ne by done. by eapply (wf_table _ _ _ Hw).
  - intros a k j x Ha Hx. eapply (wf_entry _ _ _ Hw); [done|by eapply Hold].
  - intros a b k j1 j2 x y Ha Hb Hx Hy. eapply (wf_inj _ _ _ Hw a b k j1 j2); eauto.
Qed.

(** *** One 2 MB slot *)

(** [sz] bytes from [base] that stay in one PMD entry. *)
Definition chunk (base sz : Z) : Prop :=
  0 <= base /\ base mod 4096 = 0 /\ 0 < sz /\ sz mod 4096 = 0 /\ base mod 2 ^ 21 + sz <= 2 ^ 21.

Lemma chunk_idx base sz k :
  chunk base sz -> 0 <= k < sz / 4096 ->
  idx 0 (base + k * 4096) = idx 0 base + k /\ idx 1 (base + k * 4096) = idx 1 base /\
  idx 0 base + k < 512.
Proof.
  intros (Hb & Hb12 & Hs & Hs12 & Hfit) Hk. unfold idx. change (2 ^ (12 + 9 * Z.of_nat 0)) with 4096.
  change (2 ^ (12 + 9 * Z.of_nat 1)) with (2 ^ 21).
  pose proof (Z.div_mod base 4096). pose proof (Z.div_mod sz 4096). pose proof (Z.div_mod base (2 ^ 21)).
  pose proof (Z.mod_pos_bound base (2 ^ 21)).
  rewrite Z.div_add by lia.
  assert (base / 4096 = base / 2 ^ 21 * 512 + base mod 2 ^ 21 / 4096) as ->.
  { rewrite (Z.div_mod base (2 ^ 21)) at 1 by lia.
    replace (2 ^ 21 * (base / 2 ^ 21) + base mod 2 ^ 21) with (base mod 2 ^ 21 + base / 2 ^ 21 * 512 * 4096) by lia.
    rewrite Z.div_add by lia. lia. }
  assert (0 <= base mod 2 ^ 21 / 4096) by (apply Z.div_pos; lia).
  assert (base mod 2 ^ 21 / 4096 + k < 512).
  { assert (base mod 2 ^ 21 / 4096 * 4096 <= base mod 2 ^ 21) by (pose proof (Z.mul_div_le (base mod 2 ^ 21) 4096); lia). lia. }
  rewrite <- Z.add_assoc, (Z.add_comm (base / 2 ^ 21 * 512)), (Z.add_comm (base / 2 ^ 21 * 512)), !Z_mod_plus_full.
  rewrite (Z.mod_small (base mod 2 ^ 21 / 4096 + k)), (Z.mod_small (base mod 2 ^ 21 / 4096)) by lia. split_and!; [done| |lia].
  f_equal. symmetry. apply (Z.div_unique _ _ _ (base mod 2 ^ 21 + k * 4096)); [|lia].
  left. split; [lia|]. assert (k * 4096 < sz) by lia. lia.
Qed.

Lemma map_pt_range_spec h lv pt base sz phy flags :
  pt_wf root h lv -> lv !! pt = Some O -> chunk base sz -> base + sz < 2 ^ 64 ->
  0 <= phy -> phy + sz <= 2 ^ 36 -> phy mod 4096 = 0 ->
  (forall k, 0 <= k < sz / 4096 -> free_at 0 h pt (base + k * 4096)) ->
  exists es', map_pt_range h pt base (u64 (base + sz)) phy flags = Ret (0, <[pt := es']> h) /\
    length es' = 512%nat /\ ext h (<[pt := es']> h) /\
    (forall b j x, ent h b j x -> b <> pt -> ent (<[pt := es']> h) b j x) /\
    framed 0 pt base (sz / 4096) h (<[pt := es']> h) /\
    (forall k, 0 <= k < sz / 4096 ->
       mapped_at 0 (<[pt := es']> h) pt (base + k * 4096) (pte_of (phy + k * 4096) flags)).
Proof.
  intros Hw Hpt Hch Hbe Hp Hpe Hpm Hfree. destruct (wf_table _ _ _ Hw pt _ Hpt) as (es & Hes & Hl).
  pose proof Hch as (Hb & Hb12 & Hs & Hs12 & Hfit). pose proof (Z.div_mod sz 4096). pose proof (idx_range 0 base).
  destruct (chunk_idx base sz (sz / 4096 - 1) Hch ltac:(lia)) as (_ & _ & Hlast).
  unfold map_pt_range. rewrite (u64_small (base + sz)), (u64_small (base + sz - 1)) by lia.
  destruct (index_idx (base + sz - 1)) as (_ & _ & -> & _), (index_idx base) as (_ & _ & -> & ->).
  assert (idx 1 (base + sz - 1) = idx 1 base) as ->.
  { unfold idx. change (2 ^ (12 + 9 * Z.of_nat 1)) with (2 ^ 21). f_equal.
    pose proof (Z.div_mod base (2 ^ 21)). pose proof (Z.mod_pos_bound base (2 ^ 21)).
    symmetry. apply (Z.div_unique _ _ _ (base mod 2 ^ 21 + sz - 1)); lia. }
  rewrite Z.eqb_refl. mstep.
  assert (forall j, idx 0 base <= j < idx 0 base + sz / 4096 -> ent h pt j 0) as Hz.
  { intros j Hj. destruct (Hfree (j - idx 0 base) ltac:(lia)) as (e & He & ->).
    destruct (chunk_idx base sz (j - idx 0 base) Hch ltac:(lia)) as (Hidx & _).
    rewrite Hidx in He. by replace (idx 0 base + (j - idx 0 base)) with j in He by lia. }
  destruct (map_pt_loop_spec (Z.to_nat (sz / 4096 - 1)) 513 h pt es (idx 0 base) base phy flags)
    as (es' & He & Hl' & Hent); try (done || lia).
  { intros j Hj. apply Hz. lia. }
  replace (base + (Z.of_nat (Z.to_nat (sz / 4096 - 1)) + 1) * 4096) with (base + sz) in He by lia.
  rewrite He. exists es'. split_and!; [done|done| | | |].
  - intros b j x Hx Hx0. rewrite Hent. right. split; [|done]. intros [-> Hj].
    assert (ent h pt j 0) as Hj0 by (apply Hz; lia). by pose proof (ent_fun _ _ _ _ _ Hx Hj0).
  - intros b j x Hx Hb'. rewrite Hent. right. split; [by intros [? _]|done].
  - intros va Hf Ho. apply (free_leaf h _ lv pt (fun j => idx 0 base <= j < idx 0 base + sz / 4096)); [done|done| |apply Hw|done|].
    + intros b j x Hx Hn. rewrite Hent. right. split; [|done]. intros [-> Hj]. apply Hn. split; [done|lia].
    + intros Hg Hj. destruct (Ho (idx 0 va - idx 0 base)) as (j & Hj0 & Hne); [lia|done|].
      destruct (chunk_idx base sz (idx 0 va - idx 0 base) Hch ltac:(lia)) as (Hidx & _).
      destruct j; [|lia]. lia.
  - intros k Hk. eexists. split; [|reflexivity].
    destruct (chunk_idx base sz k Hch Hk) as (-> & _ & ?). rewrite Hent. left.
    split_and!; [done|lia|lia|f_equal; lia].
Qed.

Definition pmd_slot (pmd i e base sz pa flags : Z) : M (PS * tables) Z :=
  pt ← next_table (fun pt => pmde_of pt false flags) pmd i e;
  if pt =? 0 then mret (- ENOMEM)
  else on_tables (fun h => map_pt_range h pt base (u64 (base + sz)) pa flags).

(** Filling other entries of the PMD leaves the slot of [va] free. *)
Lemma free_at_frame h h' lv' pmd i d va :
  pt_wf root h' lv' -> lv' !! pmd = Some 1%nat -> ent h' pmd i d -> d <> 0 -> pte_is_table d = true ->
  (forall b j x, ent h b j x -> b <> child d -> ~ (b = pmd /\ j = i) -> ent h' b j x) ->
  lv' !! child d = Some O ->
  idx 1 va <> i -> free_at 1 h pmd va -> free_at 1 h' pmd va.
Proof.
  intros Hw Hpmd Hd Hd0 Hdt Hfr Hlc Hne (x & Hx & Hor).
  assert (ent h' pmd (idx 1 va) x) as Hx'.
  { apply Hfr; [done| |]; [congruence|]. by intros [_ ?]. }
  exists x. split; [done|]. destruct Hor as [?|(Hx0 & Hxt & y & Hy & ->)]; [by left|right].
  split_and!; [done..|]. exists 0. split; [|done].
  destruct (wf_entry _ _ _ Hw pmd 0%nat _ x Hpmd Hx' Hx0) as [_ [[_ Hlx]|[? _]]]; [|congruence].
  apply Hfr; [done| |].
  - intros E. destruct (wf_inj _ _ _ Hw pmd pmd 0%nat (idx 1 va) i x d) as [_ ?]; done.
  - intros [E _]. rewrite E in Hlx. congruence.
Qed.

Lemma pmd_slot_spec s h lv pmd e base sz pa flags :
  pt_state s h lv -> lv !! pmd = Some 1%nat -> ent h pmd (idx 1 base) e -> chunk base sz ->
  base + sz < 2 ^ 64 -> 0 <= pa -> pa + sz <= 2 ^ 36 -> pa mod 4096 = 0 ->
  (forall k, 0 <= k < sz / 4096 -> free_at 1 h pmd (base + k * 4096)) ->
  exists r s' h' lv', pmd_slot pmd (idx 1 base) e base sz pa flags (s, h) = Ret (r, (s', h')) /\
    pt_state s' h' lv' /\ ext h h' /\ lv ⊆ lv' /\
    (grows s h s' h' /\ enough 1 (r = 0) s s' /\ framed 1 pmd base (sz / 4096) h h') /\
    (r = - ENOMEM \/
     r = 0 /\
     (forall k, 0 <= k < sz / 4096 ->
        mapped_at 1 h' pmd (base + k * 4096) (pte_of (pa + k * 4096) flags)) /\
     (forall va, idx 1 va <> idx 1 base -> free_at 1 h pmd va -> free_at 1 h' pmd va)).
Proof.
  intros Hst Hpmd He Hch Hbe Hp Hpe Hpm Hfree. pose proof Hch as (_ & _ & Hs & Hs12 & _).
  pose proof (Z.div_mod sz 4096).
  assert (e = 0 \/ pte_is_table e = true) as Hor.
  { destruct (Hfree 0 ltac:(lia)) as (x & Hx & Hor). rewrite Z.add_0_r in Hx.
    rewrite (ent_fun _ _ _ _ _ He Hx). naive_solver. }
  destruct (next_table_spec s h lv pmd 0 (idx 1 base) e flags (fun pt => pmde_of pt false flags))
    as (c & s1 & h1 & lv1 & Hn & Hst1 & Hext1 & Hlv1 & (Hgr & Hen & Hfree1) & Hc); try done.
  unfold pmd_slot. unfold mbind at 1, M_bind. rewrite Hn. destruct Hc as [->|(Hc0 & Hlc & (d & Hd & Hd0 & Hdv & Hdt & Hdc) & Hfr & Hframe)].
  { exists (- ENOMEM), s1, h1, lv1. split_and!; [done..| | |by left].
    - intros m lim Hm Hr. by destruct (Hen m lim Hm Hr).
    - intros va Hf _. by apply Hfree1. }
  destruct (Z.eqb_spec c 0); [done|]. unfold on_tables. mstep.
  destruct (map_pt_range_spec h1 lv1 c base sz pa flags) as (es' & Hm & Hl & Hext2 & Hkeep & Hfrm & Hmap); try done.
  { apply Hst1. }
  { intros k Hk. destruct (chunk_idx base sz k Hch Hk) as (_ & Hi1 & _). apply Hfr; [done|]. by apply Hfree. }
  rewrite Hm. destruct (wf_table _ _ _ (st_wf _ _ _ Hst1) c _ Hlc) as (es & Hes & _).
  pose proof (lookup_weaken _ _ _ _ Hpmd Hlv1) as Hpmd1. assert (pmd <> c) by congruence.
  assert (pt_wf root (<[c := es']> h1) lv1) as Hw2 by (eapply wf_leaf; [apply Hst1|done..]).
  assert (ent (<[c := es']> h1) pmd (idx 1 base) d) as Hd2 by (apply Hkeep; [done|congruence]).
  eexists 0, s1, _, lv1. split; [reflexivity|]. split_and!; [|by transitivity h1|done| | | |right].
  { split; [apply Hst1|done|]. eapply owned_update; [apply Hst1|done]. }
  { eapply grows_trans; [exact Hgr|]. apply grows_same. intros a Ha. destruct (decide (a = c)) as [->|]; [by rewrite Hes|].
    by rewrite lookup_insert_ne in Ha. }
  { intros m lim Hm' Hr. by destruct (Hen m lim Hm' Hr). }
  { eapply framed_after; [exact Hfree1|]. apply (framed_up 0 pmd base _ _ _ lv1 (idx 1 base) d); try (done || lia); [|by rewrite Hdc].
    intros k Hk. by destruct (chunk_idx base sz k Hch Hk) as (_ & ? & _). }
  split_and!; [done| |].
  - intros k Hk. destruct (chunk_idx base sz k Hch Hk) as (_ & Hi1 & _).
    exists d. rewrite Hi1. split; [by apply Hkeep|]. split_and!; [done..|]. rewrite Hdc. by apply Hmap.
  - intros va Hne. apply (free_at_frame h (<[c := es']> h1) lv1 pmd (idx 1 base) d); try done.
    + rewrite Hdc. intros b j x Hx Hb Hbj. apply Hkeep; [|done]. by apply Hframe.
    + by rewrite Hdc.
Qed.

Lemma entry_get_run (s : PS) h a i e : ent h a i e -> entry_get a i (s, h) = Ret (e, (s, h)).
Proof. intros [_ He]. unfold entry_get. by rewrite He. Qed.

(** *** The PMD loop *)
Lemma idx1_eq va : idx 1 va = va / 2 ^ 21 - 512 * (va / 2 ^ 30).
Proof.
  unfold idx. change (2 ^ (12 + 9 * Z.of_nat 1)) with (2 ^ 21). rewrite Z.mod_eq by lia.
  rewrite Z.div_div by lia. done.
Qed.

(** The range stays in one 1 GB region. *)
Definition in_1g (base size : Z) : Prop := base / 2 ^ 30 = (base + size - 1) / 2 ^ 30.

Lemma in_1g_between base size va : in_1g base size -> base <= va < base + size -> va / 2 ^ 30 = base / 2 ^ 30.
Proof.
  unfold in_1g. intros Heq Hva.
  pose proof (Z.div_le_mono base va (2 ^ 30)). pose proof (Z.div_le_mono va (base + size - 1) (2 ^ 30)). lia.
Qed.

Lemma chunk_next base sz size :
  chunk base sz -> sz < size -> (base + sz) mod 2 ^ 21 = 0 -> in_1g base size ->
  idx 1 (base + sz) = idx 1 base + 1 /\ in_1g (base + sz) (size - sz) /\
  forall va, base + sz <= va < base + size -> idx 1 va <> idx 1 base.
Proof.
  intros (Hb & _ & Hs & _ & Hfit) Hlt Hal Hg.
  pose proof (in_1g_between base size (base + sz) Hg ltac:(lia)) as Hg1.
  assert (forall va, base + sz <= va -> base / 2 ^ 21 + 1 <= va / 2 ^ 21) as Hup.
  { intros va Hva. apply Z.div_le_lower_bound; [lia|].
    pose proof (Z.div_mod base (2 ^ 21)). pose proof (Z.div_mod (base + sz) (2 ^ 21)).
    pose proof (Z.mod_pos_bound base (2 ^ 21)). nia. }
  split_and!.
  - rewrite !idx1_eq, Hg1. assert ((base + sz) / 2 ^ 21 = base / 2 ^ 21 + 1); [|lia].
    symmetry. apply (Z.div_unique _ _ _ 0); [lia|].
    pose proof (Z.div_mod base (2 ^ 21)). pose proof (Z.div_mod (base + sz) (2 ^ 21)).
    specialize (Hup (base + sz) ltac:(lia)). nia.
  - unfold in_1g. rewrite Hg1. replace (base + sz + (size - sz)) with (base + size) by lia. done.
  - intros va Hva. rewrite !idx1_eq, (in_1g_between base size va Hg) by lia. specialize (Hup va ltac:(lia)). lia.
Qed.

Definition pmd_post (n : Z) (s : PS) (h : tables) (lv : gmap Z nat) (pmd base size pa flags : Z) (o : outcome (Z * (PS * tables))) : Prop :=
  exists r s' h' lv', o = Ret (r, (s', h')) /\ pt_state s' h' lv' /\ ext h h' /\ lv ⊆ lv' /\
    (grows s h s' h' /\ enough n (r = 0) s s' /\ framed 1 pmd base (size / 4096) h h') /\
    (r = - ENOMEM \/
     r = 0 /\ forall k, 0 <= k < size / 4096 ->
        mapped_at 1 h' pmd (base + k * 4096) (pte_of (pa + k * 4096) flags)).

(** Tables the loop may need when its first round covers [sz] bytes. *)
Definition pmd_need (size sz : Z) : Z := 1 + (size - sz + (2 ^ 21 - 1)) / 2 ^ 21.
Lemma pmd_need_pos size sz : sz <= size -> 1 <= pmd_need size sz.
Proof. intros H. unfold pmd_need. pose proof (Z.div_pos (size - sz + (2 ^ 21 - 1)) (2 ^ 21)). lia. Qed.
Lemma pmd_need_next size sz :
  sz < size -> pmd_need size sz = 1 + pmd_need (size - sz) (if PMD_SIZE <? size - sz then PMD_SIZE else size - sz).
Proof.
  intros H. unfold pmd_need, PMD_SIZE. destruct (Z.ltb_spec (2 ^ 21) (size - sz)).
  - replace (size - sz + (2 ^ 21 - 1)) with (size - sz - 2 ^ 21 + (2 ^ 21 - 1) + 1 * 2 ^ 21) by lia. rewrite Z.div_add by lia. lia.
  - rewrite Z.sub_diag, Z.add_0_l, (Z.div_small (2 ^ 21 - 1)) by lia.
    replace ((size - sz + (2 ^ 21 - 1)) / 2 ^ 21) with 1; [done|]. apply (Z.div_unique _ _ _ (size - sz - 1)); lia.
Qed.

Lemma map_pmd_loop_spec fuel s h lv pmd base pa size sz flags :
  pt_state s h lv -> lv !! pmd = Some 1%nat -> Z.land flags __VM_HUGE_2M = 0 ->
  512 - idx 1 base <= Z.of_nat fuel -> in_1g base size -> size mod 4096 = 0 ->
  chunk base sz -> (sz = size \/ sz < size /\ (base + sz) mod 2 ^ 21 = 0) -> base + size < 2 ^ 64 ->
  0 <= pa -> pa + size <= 2 ^ 36 -> pa mod 4096 = 0 ->
  (forall k, 0 <= k < size / 4096 -> free_at 1 h pmd (base + k * 4096)) ->
  pmd_post (pmd_need size sz) s h lv pmd base size pa flags (map_pmd_loop fuel pmd (idx 1 base) base pa size sz flags (s, h)).
Proof.
  revert s h lv base pa size sz. induction fuel as [|fuel IH];
    intros s h lv base pa size sz Hst Hpmd Hfl Hfuel Hg Hsm Hch Hsz Hbe Hp Hpe Hpm Hfree.
  { pose proof (idx_range 1 base). lia. }
  pose proof Hch as (Hb & Hb12 & Hs & Hs12 & Hfit).
  assert (sz / 4096 <= size / 4096) by (apply Z.div_le_mono; lia).
  destruct (wf_ent root h lv pmd 1%nat (idx 1 base)) as [e He]; [apply Hst|done|apply idx_range|].
  destruct (pmd_slot_spec s h lv pmd e base sz pa flags) as (r & s1 & h1 & lv1 & Hrun & Hst1 & Hext1 & Hlv1 & (Hgr1 & Hen1 & Hf1) & Hr);
    try (done || lia).
  { intros k Hk. apply Hfree. lia. }
  cbn [map_pmd_loop]. mrun (entry_get_run s h pmd (idx 1 base) e He).
  unfold can_map_pmd_huge. rewrite Hfl. cbn [Z.eqb orb]. mrun Hrun.
  assert (1 <= pmd_need size sz) as Hneed by (apply pmd_need_pos; lia).
  destruct Hr as [->|(-> & Hmap & Hkeep)].
  { exists (- ENOMEM), s1, h1, lv1. split_and!; [done..| | |by left].
    - intros m lim Hm Hrm. by destruct (Hen1 m lim ltac:(lia) Hrm).
    - intros va Hf Ho. apply Hf1; [done|]. intros k Hk. apply Ho. lia. }
  cbn [negb Z.eqb]. rewrite (u64_small (size - sz)), (u64_small (base + sz)), (u64_small (pa + sz)) by lia.
  destruct Hsz as [->|[Hlt Hal]].
  { rewrite Z.sub_diag. cbn. exists 0, s1, h1, lv1. split_and!; [done..| |done|by right]. by apply (enough_le 1); [lia|]. }
  destruct (Z.ltb_spec 0 (size - sz)); [|lia].
  destruct (chunk_next base sz size Hch Hlt Hal Hg) as (Hi & Hg' & Hne). rewrite <- Hi.
  assert (size / 4096 = sz / 4096 + (size - sz) / 4096) as Hdiv.
  { replace size with (size - sz + sz) at 1 by lia. rewrite (Z.div_mod sz 4096) at 2 by lia.
    rewrite Hs12, Z.add_0_r, Z.mul_comm, Z.div_add by lia. lia. }
  assert (sz = 4096 * (sz / 4096)) as Hszd by (pose proof (Z.div_mod sz 4096); lia).
  assert (pmd_post (pmd_need size sz - 1) s1 h1 lv1 pmd (base + sz) (size - sz) (pa + sz) flags
    (map_pmd_loop fuel pmd (idx 1 (base + sz)) (base + sz) (pa + sz) (size - sz)
       (if PMD_SIZE <? size - sz then PMD_SIZE else size - sz) flags (s1, h1)))
    as (r & s2 & h2 & lv2 & Hrun2 & Hst2 & Hext2 & Hlv2 & (Hgr2 & Hen2 & Hf2) & Hr).
  { rewrite pmd_need_next by done. rewrite Z.add_simpl_l. assert ((size - sz) mod 4096 = 0) by (rewrite Zminus_mod, Hsm, Hs12; done).
    assert ((base + sz) mod 4096 = 0) by (rewrite Zplus_mod, Hb12, Hs12; done).
    apply IH; try (done || lia).
    - by eapply lookup_weaken.
    - unfold PMD_SIZE. destruct (Z.ltb_spec (2 ^ 21) (size - sz)); split_and!; lia || done.
    - unfold PMD_SIZE. destruct (Z.ltb_spec (2 ^ 21) (size - sz)); [right|by left].
      split; [done|]. by rewrite Zplus_mod, Hal, Z_mod_same_full.
    - rewrite Zplus_mod, Hpm, Hs12. done.
    - intros k Hk. pose proof (Z.div_mod (size - sz) 4096). apply Hkeep; [apply Hne; lia|].
      replace (base + sz + k * 4096) with (base + (sz / 4096 + k) * 4096) by lia. apply Hfree. lia. }
  rewrite Hrun2. exists r, s2, h2, lv2. split_and!; [done|done|by transitivity h1|by transitivity lv1|by eapply grows_trans| | |].
  { replace (pmd_need size sz) with (1 + (pmd_need size sz - 1)) by lia. by eapply enough_trans; [lia|lia|exact Hen1|done|]. }
  { rewrite Hdiv. apply (framed_app _ _ _ _ _ _ h1); [apply Z.div_pos; lia|apply Z.div_pos; lia|done|done|].
    by replace (base + sz / 4096 * 4096) with (base + sz) by lia. }
  destruct Hr as [->|[-> Hmap2]]; [by left|right]. split; [done|]. intros k Hk.
  destruct (decide (k < sz / 4096)).
  - eapply mapped_at_ext; [done| |apply Hmap; lia]. apply pte_of_spec; [|lia].
    rewrite Z_mod_plus_full. done.
  - specialize (Hmap2 (k - sz / 4096) ltac:(lia)).
    replace (base + sz + (k - sz / 4096) * 4096) with (base + k * 4096) in Hmap2 by lia.
    by replace (pa + sz + (k - sz / 4096) * 4096) with (pa + k * 4096) in Hmap2 by lia.
Qed.

(** *** The upper levels *)
Lemma map_pmd_range_spec s h lv pmd base pa size flags :
  pt_state s h lv -> lv !! pmd = Some 1%nat -> Z.land flags __VM_HUGE_2M = 0 ->
  in_1g base size -> 0 <= base -> base mod 4096 = 0 -> 0 < size -> size mod 4096 = 0 ->
  base + size <= 2 ^ 64 - 2 ^ 21 -> 0 <= pa -> pa + size <= 2 ^ 36 -> pa mod 4096 = 0 ->
  (forall k, 0 <= k < size / 4096 -> free_at 1 h pmd (base + k * 4096)) ->
  pmd_post (size / 2 ^ 21 + 2) s h lv pmd base size pa flags (map_pmd_range pmd base pa size flags (s, h)).
Proof.
  intros Hst Hpmd Hfl Hg Hb Hb12 Hs Hs12 Hbe Hp Hpe Hpm Hfree. unfold map_pmd_range, PMD_SIZE.
  destruct (index_idx base) as (_ & _ & -> & _).
  destruct (align_up_bounds base 21) as (Ham & Hal); [lia..|]. set (ab := align_up base (2 ^ 21)) in *.
  rewrite u64_small by lia. pose proof (Z.mod_pos_bound base (2 ^ 21)). pose proof (idx_range 1 base).
  assert (base mod 2 ^ 21 = 0 /\ ab = base \/ base mod 2 ^ 21 + (ab - base) = 2 ^ 21) as Hcase.
  { pose proof (Z.div_mod base (2 ^ 21)). pose proof (Z.div_mod ab (2 ^ 21)). nia. }
  assert ((ab - base) mod 4096 = 0) as Hab12.
  { rewrite Zminus_mod, Hb12. change (2 ^ 21) with (4096 * 512) in Ham.
    apply Z.mod_divide in Ham as [q ->]; [|lia]. rewrite Z.mul_assoc, (Z.mul_comm _ 512), Z.mul_assoc.
    by rewrite Z_mod_mult. }
  match goal with |- pmd_post _ _ _ _ _ _ _ _ _ (map_pmd_loop _ _ _ _ _ _ ?x _ _) => set (sz := x) end.
  assert (0 <= sz <= size) as Hszr by (unfold sz; destruct (Z.ltb_spec base ab), (Z.ltb_spec (ab - base) size), (Z.ltb_spec (2 ^ 21) size); cbn [andb]; lia).
  assert (pmd_need size sz <= size / 2 ^ 21 + 2) as Hneed.
  { unfold pmd_need. assert ((size - sz + (2 ^ 21 - 1)) / 2 ^ 21 <= (size + 1 * 2 ^ 21) / 2 ^ 21) as Hle by (apply Z.div_le_mono; lia).
    rewrite Z.div_add in Hle by lia. lia. }
  enough (pmd_post (pmd_need size sz) s h lv pmd base size pa flags (map_pmd_loop 513 pmd (idx 1 base) base pa size sz flags (s, h))) as Hpost.
  { destruct Hpost as (r & s' & h' & lv' & H1 & H2 & H3 & H4 & (H5 & H6 & H7) & H8). exists r, s', h', lv'. split_and!; [exact H1|exact H2|exact H3|exact H4|exact H5| |exact H7|exact H8].
    eapply enough_le; [|exact H6]. pose proof (pmd_need_pos size sz). lia. }
  subst sz. apply map_pmd_loop_spec; try (done || lia).
  - destruct (Z.ltb_spec base ab), (Z.ltb_spec (ab - base) size), (Z.ltb_spec (2 ^ 21) size); cbn [andb];
      split_and!; lia || done.
  - destruct (Z.ltb_spec base ab), (Z.ltb_spec (ab - base) size), (Z.ltb_spec (2 ^ 21) size); cbn [andb];
      try (by left); right; (split; [lia|]); try (by replace (base + (ab - base)) with ab by lia);
      destruct Hcase as [[Hz _]|?]; try lia; by rewrite Zplus_mod, Hz, Z_mod_same_full.
Qed.

(** A table below entry [i]: free slots and mappings of the two levels. *)
Lemma mapped_at_up l h h' tbl i d va x :
  ent h tbl i d -> ext h h' -> d <> 0 -> pte_is_vaild d = true -> pte_is_table d = true ->
  idx (S l) va = i -> mapped_at l h' (child d) va x -> mapped_at (S l) h' tbl va x.
Proof. intros Hd Hext H0 Hv Ht <- Hm. exists d. split; [by apply Hext|done]. Qed.

Lemma idx_in_1g base size va :
  in_1g base size -> base <= va < base + size -> idx 2 va = idx 2 base /\ idx 3 va = idx 3 base.
Proof.
  intros Hg Hva. pose proof (in_1g_between base size va Hg Hva) as Hq. unfold idx.
  change (2 ^ (12 + 9 * Z.of_nat 2)) with (2 ^ 30). change (2 ^ (12 + 9 * Z.of_nat 3)) with (2 ^ 30 * 512).
  rewrite <- !Z.div_div, Hq by lia. done.
Qed.

Lemma in_1g_size base size : 0 < size -> in_1g base size -> size <= 2 ^ 30.
Proof.
  unfold in_1g. intros Hs Hg. pose proof (Z.div_mod base (2 ^ 30)). pose proof (Z.div_mod (base + size - 1) (2 ^ 30)).
  pose proof (Z.mod_pos_bound base (2 ^ 30)). pose proof (Z.mod_pos_bound (base + size - 1) (2 ^ 30)). lia.
Qed.

(** What mapping a range below a table of level [l] leaves behind. *)
Definition map_post (l : nat) (n : Z) (s : PS) (h : tables) (tbl base size pa flags : Z) (o : outcome (Z * (PS * tables))) : Prop :=
  exists r s' h' lv', o = Ret (r, (s', h')) /\ pt_state s' h' lv' /\ ext h h' /\ lv' !! tbl = Some l /\
    (grows s h s' h' /\ enough n (r = 0) s s' /\ framed l tbl base (size / 4096) h h') /\
    (r < 0 \/
     r = 0 /\ forall k, 0 <= k < size / 4096 ->
        mapped_at l h' tbl (base + k * 4096) (pte_of (pa + k * 4096) flags)).

Context (base size pa flags : Z).
Context (Hg : in_1g base size) (Hb : 0 <= base) (Hb12 : base mod 4096 = 0) (Hs : 0 < size)
  (Hs12 : size mod 4096 = 0) (Hbe : base + size <= 2 ^ 64 - 2 ^ 21) (Hp : 0 <= pa)
  (Hpe : pa + size <= 2 ^ 36) (Hpm : pa mod 4096 = 0)
  (H2M : Z.land flags __VM_HUGE_2M = 0) (H1G : Z.land flags __VM_HUGE_1G = 0).

Lemma page_in_range k : 0 <= k < size / 4096 -> base <= base + k * 4096 < base + size.
Proof using Hs Hs12. intros Hk. pose proof (Z.div_mod size 4096). lia. Qed.

Lemma map_pud_range_spec s h lv pud :
  pt_state s h lv -> lv !! pud = Some 2%nat ->
  (forall k, 0 <= k < size / 4096 -> free_at 2 h pud (base + k * 4096)) ->
  map_post 2 (size / 2 ^ 21 + 3) s h pud base size pa flags (map_pud_range pud base pa size flags (s, h)).
Proof using All.
  intros Hst Hpud Hfree. unfold map_pud_range. destruct (index_idx base) as (_ & -> & _).
  pose proof (in_1g_size base size Hs Hg). pose proof (Z.div_mod size 4096).
  destruct (wf_ent root h lv pud 2%nat (idx 2 base)) as [e He]; [apply Hst|done|apply idx_range|].
  assert (e = 0 \/ pte_is_table e = true) as Hor.
  { destruct (Hfree 0 ltac:(lia)) as (x & Hx & Hor). rewrite Z.add_0_r in Hx.
    rewrite (ent_fun _ _ _ _ _ He Hx). naive_solver. }
  destruct (next_table_spec s h lv pud 1 (idx 2 base) e flags (fun pmd => pude_of pmd false flags))
    as (c & s1 & h1 & lv1 & Hn & Hst1 & Hext1 & Hlv1 & (Hgr1 & Hen1 & Hfree1) & Hc); try done.
  pose proof (lookup_weaken _ _ _ _ Hpud Hlv1) as Hpud1. assert (0 <= size / 2 ^ 21) by (apply Z.div_pos; lia).
  generalize 512%nat; intros fuel. cbn [map_pud_loop]. mrun (entry_get_run s h pud (idx 2 base) e He).
  unfold can_map_pud_huge. rewrite H1G. cbn [Z.eqb orb]. mrun Hn.
  destruct Hc as [->|(Hc0 & Hlc & (d & Hd & Hd0 & Hdv & Hdt & Hdc) & Hfr & _)].
  { exists (- ENOMEM), s1, h1, lv1. split_and!; [done..| | |left; unfold ENOMEM; lia].
    - intros m lim Hm Hr. by destruct (Hen1 m lim ltac:(lia) Hr).
    - intros va Hf _. by apply Hfree1. }
  destruct (Z.eqb_spec c 0); [done|].
  replace (if PUD_SIZE <=? size then PUD_SIZE else size) with size
    by (unfold PUD_SIZE; destruct (Z.leb_spec (2 ^ 30) size); lia).
  destruct (map_pmd_range_spec s1 h1 lv1 c base pa size flags) as (r & s2 & h2 & lv2 & Hr & Hst2 & Hext2 & Hlv2 & (Hgr2 & Hen2 & Hfrm2) & Hres);
    try done.
  { intros k Hk. apply Hfr; [by eapply idx_in_1g, page_in_range|]. by apply Hfree. }
  mrun Hr. pose proof (lookup_weaken _ _ _ _ Hpud1 Hlv2) as Hpud2.
  assert (enough (size / 2 ^ 21 + 3) (r = 0) s s2) as Hen.
  { replace (size / 2 ^ 21 + 3) with (1 + (size / 2 ^ 21 + 2)) by lia. by eapply enough_trans; [lia|lia|exact Hen1|done|]. }
  assert (framed 2 pud base (size / 4096) h h2) as Hfrm.
  { eapply framed_after; [exact Hfree1|]. apply (framed_up 1 pud base _ _ _ lv2 (idx 2 base) d); try (done || lia); [apply Hst2|by apply Hext2| |by rewrite Hdc].
    intros k Hk. by eapply idx_in_1g, page_in_range. }
  destruct Hres as [->|[-> Hmap]].
  { exists (- ENOMEM), s2, h2, lv2. split_and!; [done|done|by transitivity h1|done|by eapply grows_trans|done|done|left]. unfold ENOMEM. lia. }
  cbn [negb Z.eqb]. rewrite Z.sub_diag. cbn. exists 0, s2, h2, lv2. split_and!; [done|done|by transitivity h1|done|by eapply grows_trans|done|done|right].
  split; [done|]. intros k Hk. eapply (mapped_at_up 1 h1 h2); try done; [by eapply idx_in_1g, page_in_range|].
  rewrite Hdc. by apply Hmap.
Qed.

Lemma map_pgd_range_spec s h lv :
  pt_state s h lv -> (forall k, 0 <= k < size / 4096 -> free_at 3 h root (base + k * 4096)) ->
  map_post 3 (size / 2 ^ 21 + 4) s h root base size pa flags (map_pgd_range root base pa size flags (s, h)).
Proof using All.
  intros Hst Hfree. unfold map_pgd_range. destruct (index_idx base) as (-> & _).
  pose proof (in_1g_size base size Hs Hg). pose proof (Z.div_mod size 4096).
  pose proof (wf_root _ _ _ (st_wf _ _ _ Hst)) as Hroot.
  destruct (wf_ent root h lv root 3%nat (idx 3 base)) as [e He]; [apply Hst|done|apply idx_range|].
  assert (e = 0 \/ pte_is_table e = true) as Hor.
  { destruct (Hfree 0 ltac:(lia)) as (x & Hx & Hor). rewrite Z.add_0_r in Hx.
    rewrite (ent_fun _ _ _ _ _ He Hx). naive_solver. }
  destruct (next_table_spec s h lv root 2 (idx 3 base) e flags (fun pud => pgde_of pud flags))
    as (c & s1 & h1 & lv1 & Hn & Hst1 & Hext1 & Hlv1 & (Hgr1 & Hen1 & Hfree1) & Hc); try done.
  assert (0 <= size / 2 ^ 21) by (apply Z.div_pos; lia).
  generalize 512%nat; intros fuel. cbn [map_pgd_loop]. mrun (entry_get_run s h root (idx 3 base) e He). mrun Hn.
  destruct Hc as [->|(Hc0 & Hlc & (d & Hd & Hd0 & Hdv & Hdt & Hdc) & Hfr & _)].
  { exists (- 1), s1, h1, lv1. split_and!; [done..|apply Hst1|done| | |left; lia].
    - intros m lim Hm Hr. by destruct (Hen1 m lim ltac:(lia) Hr).
    - intros va Hf _. by apply Hfree1. }
  destruct (Z.eqb_spec c 0); [done|].
  replace (if PGD_SIZE <? size then PGD_SIZE else size) with size
    by (unfold PGD_SIZE; destruct (Z.ltb_spec (2 ^ 39) size); lia).
  destruct (map_pud_range_spec s1 h1 lv1 c) as (r & s2 & h2 & lv2 & Hr & Hst2 & Hext2 & Hlc2 & (Hgr2 & Hen2 & Hfrm2) & Hres); try done.
  { intros k Hk. apply Hfr; [by eapply idx_in_1g, page_in_range|]. by apply Hfree. }
  mrun Hr. pose proof (wf_root _ _ _ (st_wf _ _ _ Hst2)) as Hroot2.
  assert (enough (size / 2 ^ 21 + 4) (r = 0) s s2) as Hen.
  { replace (size / 2 ^ 21 + 4) with (1 + (size / 2 ^ 21 + 3)) by lia. by eapply enough_trans; [lia|lia|exact Hen1|done|]. }
  assert (framed 3 root base (size / 4096) h h2) as Hfrm.
  { eapply framed_after; [exact Hfree1|]. apply (framed_up 2 root base _ _ _ lv2 (idx 3 base) d); try (done || lia); [apply Hst2|by apply Hext2| |by rewrite Hdc].
    intros k Hk. by eapply idx_in_1g, page_in_range. }
  destruct Hres as [Hneg|[-> Hmap]].
  { destruct (Z.eqb_spec r 0); [lia|]. exists r, s2, h2, lv2. split_and!; [done|done|by transitivity h1|done|by eapply grows_trans|done|done|by left]. }
  cbn [negb Z.eqb]. rewrite Z.sub_diag. cbn. exists 0, s2, h2, lv2. split_and!; [done|done|by transitivity h1|done|by eapply grows_trans|done|done|right].
  split; [done|]. intros k Hk. eapply (mapped_at_up 2 h1 h2); try done; [by eapply idx_in_1g, page_in_range|].
  rewrite Hdc. by apply Hmap.
Qed.
End MapSpec.

Lemma idx_page l x o : x mod 4096 = 0 -> 0 <= o < 4096 -> idx l (x + o) = idx l x.
Proof.
  intros Hx Ho. unfold idx. rewrite Z.pow_add_r by lia. change (2 ^ 12) with 4096.
  assert (0 < 2 ^ (9 * Z.of_nat l)) by (apply Z.pow_pos_nonneg; lia).
  rewrite <- !Z.div_div by lia. do 2 f_equal.
  symmetry. apply (Z.div_unique _ _ _ o); [lia|]. pose proof (Z.div_mod x 4096). lia.
Qed.

Lemma mapped_at_page l h a x o d :
  x mod 4096 = 0 -> 0 <= o < 4096 -> mapped_at l h a x d -> mapped_at l h a (x + o) d.
Proof.
  intros Hx Ho. revert a. induction l as [|l IH]; intros a (e & He & Hr); exists e; rewrite idx_page by done.
  - done.
  - split; [done|]. destruct Hr as (? & ? & ? & ?). split_and!; [done..|by apply IH].
Qed.

(** The four indices determine the page of a 48-bit address. *)
Lemma idx_differ48 x y :
  0 <= x < 2 ^ 48 -> 0 <= y < 2 ^ 48 -> x / 4096 <> y / 4096 -> exists j, (j <= 3)%nat /\ idx j x <> idx j y.
Proof.
  intros Hx Hy Hne.
  assert (forall z, 0 <= z < 2 ^ 48 -> z / 4096 = idx 0 z + 512 * (idx 1 z + 512 * (idx 2 z + 512 * idx 3 z))) as Hq.
  { intros z Hz. unfold idx. change (2 ^ (12 + 9 * Z.of_nat 0)) with 4096. change (2 ^ (12 + 9 * Z.of_nat 1)) with (4096 * 512).
    change (2 ^ (12 + 9 * Z.of_nat 2)) with (4096 * 512 * 512). change (2 ^ (12 + 9 * Z.of_nat 3)) with (4096 * 512 * 512 * 512).
    rewrite <- !Z.div_div by lia. set (q := z / 4096). assert (0 <= q < 2 ^ 36) by (unfold q; split; [apply Z.div_pos|apply Z.div_lt_upper_bound]; lia).
    rewrite (Z.mod_small (q / 512 / 512 / 512)) by (rewrite !Z.div_div by lia; split; [apply Z.div_pos|apply Z.div_lt_upper_bound]; lia).
    pose proof (Z.div_mod q 512). pose proof (Z.div_mod (q / 512) 512). pose proof (Z.div_mod (q / 512 / 512) 512). lia. }
  rewrite (Hq x Hx), (Hq y Hy) in Hne.
  destruct (decide (idx 0 x = idx 0 y)), (decide (idx 1 x = idx 1 y)), (decide (idx 2 x = idx 2 y)), (decide (idx 3 x = idx 3 y));
    first [exists 0%nat; split; [lia|done]|exists 1%nat; split; [lia|done]|exists 2%nat; split; [lia|done]|exists 3%nat; split; [lia|done]|lia].
Qed.

(** The indices are bits 12 to 47. *)
Lemma idx_mod48 j z : (j <= 3)%nat -> idx j (z mod 2 ^ 48) = idx j z.
Proof.
  intros Hj. unfold idx. rewrite (Z.div_mod z (2 ^ 48)) at 2 by lia. set (q := z / 2 ^ 48). set (r := z mod 2 ^ 48).
  set (a := 12 + 9 * Z.of_nat j). assert (0 <= a <= 39) by lia.
  replace (2 ^ 48 * q + r) with (r + q * 2 ^ (39 - a) * 512 * 2 ^ a).
  - rewrite Z.div_add by (apply Z.pow_nonzero; lia). by rewrite Z_mod_plus_full.
  - assert (2 ^ 48 = 2 ^ (39 - a) * 512 * 2 ^ a) as ->; [|lia].
    change 512 with (2 ^ 9). rewrite <- !Z.pow_add_r by lia. f_equal. lia.
Qed.
Lemma idx_differ x y : x mod 2 ^ 48 / 4096 <> y mod 2 ^ 48 / 4096 -> exists j, (j <= 3)%nat /\ idx j x <> idx j y.
Proof.
  intros Hne. destruct (idx_differ48 (x mod 2 ^ 48) (y mod 2 ^ 48)) as (j & Hj & Hd); [apply Z.mod_pos_bound; lia..|done|].
  exists j. split; [done|]. by rewrite !idx_mod48 in Hd by done.
Qed.

(** The walk of [x] meets no page of the range: the lower 48 bits differ. *)
Definition outside (va size x : Z) : Prop := forall k, 0 <= k < size -> x mod 2 ^ 48 <> (va + k) mod 2 ^ 48.

Lemma outside_page va size x k : va mod 4096 = 0 -> size mod 4096 = 0 -> outside va size x -> 0 <= k < size / 4096 ->
  x mod 2 ^ 48 / 4096 <> (va + k * 4096) mod 2 ^ 48 / 4096.
Proof.
  intros Hva Hs Ho Hk E. pose proof (Z.div_mod size 4096). pose proof (Z.mod_pos_bound x 4096).
  apply (Ho (k * 4096 + x mod 4096)); [lia|]. set (y := va + k * 4096) in *.
  assert (y mod 4096 = 0) as Hy by (unfold y; by rewrite Z_mod_plus_full).
  assert (forall z, z mod 2 ^ 48 mod 4096 = z mod 4096) as Hm.
  { intros z. change (2 ^ 48) with (4096 * 2 ^ 36). rewrite Z.rem_mul_r by lia. rewrite Z.add_mod, (Z.mul_comm 4096), Z_mod_mult by lia. by rewrite Z.add_0_r, !Zmod_mod. }
  pose proof (Hm x). pose proof (Hm y). pose proof (Z.div_mod (x mod 2 ^ 48) 4096). pose proof (Z.div_mod (y mod 2 ^ 48) 4096).
  pose proof (Z.mod_pos_bound x (2 ^ 48)).
  replace (va + (k * 4096 + x mod 4096)) with (y + x mod 4096) by (unfold y; lia).
  rewrite <- Zplus_mod_idemp_l. rewrite (Z.mod_small (y mod 2 ^ 48 + x mod 4096)) by lia. lia.
Qed.
Lemma outside_low va size x : 0 <= va -> va + size <= 2 ^ 48 -> 0 <= x < va \/ va + size <= x < 2 ^ 48 -> outside va size x.
Proof. intros ? ? ? k Hk. rewrite !Z.mod_small by lia. lia. Qed.

Lemma pagetable_map_spec `{PA : PageAlloc PS} (root : Z) (s : PS) (h : tables) (lv : gmap Z nat)
    (va pa size flags : Z) :
  pt_state root s h lv -> in_1g va size -> 0 <= va -> va mod 4096 = 0 -> 0 < size -> size mod 4096 = 0 ->
  va + size <= 2 ^ 64 - 2 ^ 21 -> 0 <= pa -> pa + size <= 2 ^ 36 -> pa mod 4096 = 0 ->
  Z.land flags __VM_HUGE_2M = 0 -> Z.land flags __VM_HUGE_1G = 0 ->
  (forall k, 0 <= k < size / 4096 -> free_at 3 h root (va + k * 4096)) ->
  exists r s' h' lv', pagetable_map root va pa size flags (s, h) = Ret (r, (s', h')) /\
    pt_state root s' h' lv' /\ ext h h' /\
    (grows s h s' h' /\ enough (size / 2 ^ 21 + 4) (r = 0) s s' /\
     forall va', outside va size va' -> free_at 3 h root va' -> free_at 3 h' root va') /\
    (r = - SPR_ERR \/
     r = 0 /\ forall k, 0 <= k < size -> pgtbl_walk h' root (va + k) = Ret (pa + k)).
Proof.
  intros Hst Hg Hb Hb12 Hs Hs12 Hbe Hp Hpe Hpm H2 H1 Hfree.
  destruct (map_pgd_range_spec root va size pa flags Hg Hb Hb12 Hs Hs12 Hbe Hp Hpe Hpm H2 H1 s h lv Hst Hfree)
    as (r & s' & h' & lv' & Hr & Hst' & Hext & _ & (Hgr & Hen & Hfrm) & Hres).
  assert (forall va', outside va size va' -> free_at 3 h root va' -> free_at 3 h' root va') as Hout.
  { intros va' Ho Hf. apply Hfrm; [done|]. intros k Hk _. by apply idx_differ, (outside_page va size). }
  unfold pagetable_map, VA_MAX, PA_MAX. rewrite !page_aligned_spec by lia. rewrite Hb12, Hs12, Hpm.
  rewrite u64_small by lia.
  destruct (Z.ltb_spec 0 size), (Z.ltb_spec va (2 ^ 64 - 1)), (Z.ltb_spec (va + size) (2 ^ 64 - 1)),
    (Z.ltb_spec pa (2 ^ 48)); try lia. cbn [andb Z.eqb].
  do 4 mrun (eq_refl (Ret (tt, (s, h)))). mrun Hr.
  destruct Hres as [Hneg|[-> Hmap]].
  { destruct (Z.eqb_spec r 0); [lia|]. exists (- SPR_ERR), s', h', lv'. split_and!; [done..| |done|by left].
    intros m lim Hm Hrm. by destruct (Hen m lim Hm Hrm) as [-> _]. }
  exists 0, s', h', lv'. split_and!; [done..|right]. split; [done|]. intros k Hk.
  pose proof (Z.div_mod k 4096). pose proof (Z.mod_pos_bound k 4096).
  assert (0 <= k / 4096 < size / 4096) as Hq.
  { split; [apply Z.div_pos; lia|]. pose proof (Z.div_mod size 4096). apply Z.div_lt_upper_bound; lia. }
  replace (va + k) with (va + k / 4096 * 4096 + k mod 4096) by lia.
  assert ((va + k / 4096 * 4096) mod 4096 = 0) by (rewrite Z_mod_plus_full; done).
  rewrite (mapped_walk h' root _ (pa + k / 4096 * 4096) flags); [|by rewrite Z_mod_plus_full|lia|lia|].
  - f_equal. rewrite <- Zplus_mod_idemp_l. replace ((va + k / 4096 * 4096) mod 4096) with 0 by done.
    rewrite Z.add_0_l, Zmod_mod. lia.
  - apply mapped_at_page; [done|lia|]. apply Hmap. lia.
Qed.

(** ** Properties *)

(** C1: [pagetable_map] of a free, page-aligned, non-empty range inside one
    1 GB region that ends at or below 2^64 - 2^21 (4 KB pages, physical
    addresses below 2^36) always returns; it keeps the tables a well-formed
    tree, every translation that existed, and unmapped every unmapped address
    whose lower 48 bits are not those of an address of the range (the walk
    does not look at the upper bits, so kernel and user addresses that agree
    in the lower ones are mapped together); it either reports an error or makes
    [pgtbl_walk] translate every byte of the range to the byte at the same
    offset of the physical range, and it reports none when the allocator has
    one page for each 2 MB and four more.  Only the contract [PageAlloc] of the
    page allocator is used. *)
Theorem pagetable_map_translates {PS : Type} {PA : PageAlloc PS} (root : Z) (s : PS) (h : tables)
  (lv : gmap Z nat) (va pa size flags : Z)
  (Hst : pt_state root s h lv) (Hg : in_1g va size)
  (Hva : 0 <= va /\ va mod 4096 = 0 /\ va + size <= 2 ^ 64 - 2 ^ 21)
  (Hsize : 0 < size /\ size mod 4096 = 0)
  (Hpa : 0 <= pa /\ pa + size <= 2 ^ 36 /\ pa mod 4096 = 0)
  (Hflags : Z.land flags (Z.lor __VM_HUGE_2M __VM_HUGE_1G) = 0)
  (Hfree : forall k, 0 <= k < size / 4096 -> free_at 3 h root (va + k * 4096)) :
  exists r s' h' lv', pagetable_map root va pa size flags (s, h) = Ret (r, (s', h')) /\
    pt_state root s' h' lv' /\
    (forall va' x, pgtbl_walk h root va' = Ret x -> pgtbl_walk h' root va' = Ret x) /\
    (forall va', outside va size va' -> free_at 3 h root va' -> free_at 3 h' root va') /\
    (forall lim, pa_room s (size / 2 ^ 21 + 4) lim -> r = 0) /\
    (r = - SPR_ERR \/
     r = 0 /\ forall k, 0 <= k < size -> pgtbl_walk h' root (va + k) = Ret (pa + k)).
Proof.
  rewrite Z.land_lor_distr_r, Z.lor_eq_0_iff in Hflags.
  destruct (pagetable_map_spec root s h lv va pa size flags) as (r & s' & h' & lv' & ? & ? & Hext & (_ & Hen & Hout) & ?);
    [done|done|lia..|naive_solver lia|naive_solver|done|].
  exists r, s', h', lv'. split_and!; [done|done| |done| |done]; [intros va' x; by apply walk_ext|]. intros lim Hroom. by apply (Hen _ lim (Z.le_refl _) Hroom).
Qed.

(** A root table outside the allocator's pages, and a small allocator. *)
Definition demo_root : Z := ptov 0x30000000.
Definition demo_tables : tables := {[ demo_root := replicate 512 0 ]}.

Lemma demo_ent a i e : ent demo_tables a i e <-> a = demo_root /\ 0 <= i < 512 /\ e = 0.
Proof.
  change demo_tables with (table_clear ∅ demo_root). rewrite ent_clear.
  assert (~ ent ∅ a i e) by (intros (_ & es & Hes & _)%ent_lookup; by rewrite lookup_empty in Hes).
  naive_solver.
Qed.

Lemma demo_state_of pg :
  page_inv pg -> ~ page_arena pg demo_root -> pt_state demo_root pg demo_tables {[ demo_root := 3%nat ]}.
Proof.
  intros Hinv Har. split.
  - exact Hinv.
  - split.
    + apply lookup_singleton_eq.
    + intros a l [<- <-]%lookup_singleton_Some. exists (replicate 512 0).
      split; [apply lookup_singleton_eq|by rewrite length_replicate].
    + intros a l i e _ (_ & _ & ->)%demo_ent. done.
    + intros a b l i j e e' _ _ (_ & _ & ->)%demo_ent. done.
  - intros a es Ha. unfold demo_tables in Ha. apply lookup_singleton_Some in Ha as [<- <-]. split; [vm_compute; intuition congruence|by right].
Qed.
Lemma demo_state : pt_state demo_root demo_pages demo_tables {[ demo_root := 3%nat ]}.
Proof.
  apply demo_state_of; [exists demo_section; split; [done|apply demo_section_inv]|].
  intros (ps & [= <-] & Hr). vm_compute in Hr. by destruct Hr as [[] _].
Qed.

Lemma pagetable_map_translates_witness :
  exists r s' h' lv', pagetable_map demo_root (ptov 0x9000000) 0x9000000 0x3000 VM_RW (demo_pages, demo_tables)
      = Ret (r, (s', h')) /\ pt_state demo_root s' h' lv' /\ r = 0 /\
      pgtbl_walk h' demo_root (ptov 0x9001234) = Ret 0x9001234.
Proof.
  destruct (pagetable_map_translates demo_root demo_pages demo_tables {[ demo_root := 3%nat ]}
    (ptov 0x9000000) 0x9000000 0x3000 VM_RW demo_state) as (r & s' & h' & lv' & He & Hst & _ & _ & _ & Hor).
  - reflexivity.
  - vm_compute. intuition congruence.
  - by vm_compute.
  - by vm_compute.
  - reflexivity.
  - intros k Hk. apply free_at_zero. intros j Hj. by apply demo_ent.
  - exists r, s', h', lv'. split; [done|]. split; [done|].
    assert (r = 0) as -> by (vm_compute in He; by injection He as <- _).
    split; [done|]. destruct Hor as [[=]|[_ Hw]]. apply (Hw 0x1234). lia.
Defined.
