(* ===== verification/KvSpace.v ===== *)
(** * The kernel address space (ukern/src/kvspace.c, inc/vspace.h)

    [kvspace] holds the kernel root table; [kvspace_init] takes it from the
    boot image and maps the device and RAM-disk regions of [kern_const_map]. *)
From S2P Require Import Prelude Config Bitmap Page PageTable PageTableSpec.


(** [struct map_region]. *)
Record map_region := mkRegion { vbase : Z; pbase : Z; rsize : Z; rflag : Z }.

Definition const_region (base size flag : Z) : map_region := mkRegion (ptov base) base size flag.

(** [kern_const_map], in the order of [enum _kern_const_map_index]. *)
Definition kern_const_map : list map_region := [
  const_region CONFIG_GICD_BASE CONFIG_GICD_IO_SIZE (Z.lor (Z.lor VM_IO VM_RW) VM_HUGE);
  const_region CONFIG_GICR_BASE CONFIG_GICR_IO_SIZE (Z.lor (Z.lor VM_IO VM_RW) VM_HUGE);
  const_region CONFIG_UART_BASE CONFIG_UART_IO_SIZE (Z.lor VM_IO VM_RW);
  const_region CONFIG_RAMDISK_BASE CONFIG_RAMDISK_SIZE (Z.lor VM_RW VM_HUGE);
  const_region CONFIG_PFLASH_BASE CONFIG_PFLASH_SIZE (Z.lor (Z.lor VM_IO VM_RW) VM_HUGE);
  const_region CONFIG_VIRTIO_BASE CONFIG_VIRTIO_SIZE (Z.lor VM_IO VM_RW)
].

(** The fields of [struct vspace] that kvspace.c uses. *)
Record vspace := mkVspace { pgdp : Z; refcount : Z }.

Section KvSpace.
Context {PS : Type} `{PA : PageAlloc PS}.

Definition kern_map (kvspace : vspace) (va pa size flags : Z) : M (PS * tables) Z :=
  if negb (page_aligned va) || negb (page_aligned pa) || negb (page_aligned size)
  then mret (- EINVAL)
  else pagetable_map (pgdp kvspace) va pa size flags.

Definition kern_unmap (va size : Z) : M (PS * tables) Z := halt.
Definition kern_remap (old new size : Z) : M (PS * tables) Z := halt.

(** A region that cannot be mapped is logged and skipped. *)
Fixpoint map_regions (kvspace : vspace) (rs : list map_region) : M (PS * tables) () :=
  match rs with
  | [] => mret tt
  | r :: rs' =>
      _ ← kern_map kvspace (vbase r) (pbase r) (rsize r) (rflag r);
      map_regions kvspace rs'
  end.

Definition kern_map_const_regions (kvspace : vspace) : M (PS * tables) () :=
  map_regions kvspace kern_const_map.

(** [kernel_page_table] is the address of the boot table, and the two
    others bound the unit-test call section: symbols of the link script. *)
Definition kvspace_init (kernel_page_table ut_call_start ut_call_end : Z) : M (PS * tables) vspace :=
  let kvspace := mkVspace (ptov kernel_page_table) 1 in
  kern_map_const_regions kvspace;;
  _ ← kern_map kvspace ut_call_start (vtop ut_call_start) (u64 (ut_call_end - ut_call_start)) VM_RWX;
  mret kvspace.
End KvSpace.

(** ** Evaluating a boot *)

(** [check o t]: the run [o] ended normally, in tables that pass [t]. *)
Definition check {S A} (o : outcome (A * (S * tables))) (t : tables -> bool) : bool :=
  match o with Ret (_, (_, h)) => t h | _ => false end.

Lemma check_ok {S} (o : outcome (() * (S * tables))) t :
  check o t = true -> exists s h, o = Ret (tt, (s, h)) /\ t h = true.
Proof. destruct o as [[[] [s h]]| | |]; try done. intros Ht. by exists s, h. Qed.

Definition walks_to (h : tables) (root va x : Z) : bool :=
  match pgtbl_walk h root va with Ret y => y =? x | _ => false end.

Lemma walks_to_ok h root va x : walks_to h root va x = true -> pgtbl_walk h root va = Ret x.
Proof. unfold walks_to. destruct (pgtbl_walk h root va); try done. by intros ->%Z.eqb_eq. Qed.

Lemma walks_to_all h root (f g : Z -> Z) l :
  forallb (fun i => walks_to h root (f i) (g i)) l = true ->
  Forall (fun i => pgtbl_walk h root (f i) = Ret (g i)) l.
Proof.
  rewrite forallb_forall. intros H. apply Forall_forall. intros i Hi. apply walks_to_ok, H.
  by apply list_elem_of_In.
Qed.

Abbreviation boot_run := (kern_map_const_regions (mkVspace demo_root 1) (demo_pages, demo_tables)).

(** ** Properties *)

(** On an empty kernel root table, [kern_map_const_regions] maps all six
    constant regions: the first and the last page of every region mapped with
    4 KB pages translate to their physical addresses, and every 2 MB block of
    the RAM disk and of the flash to the base of its block. *)
Theorem const_regions_mapped :
  exists s' h', kern_map_const_regions (mkVspace demo_root 1) (demo_pages, demo_tables) = Ret (tt, (s', h')) /\
    Forall (fun pa => pgtbl_walk h' demo_root (ptov pa) = Ret pa)
      [CONFIG_GICD_BASE; CONFIG_GICD_BASE + 0x9f123; CONFIG_GICR_BASE; CONFIG_GICR_BASE + 0x7f456;
       CONFIG_UART_BASE + 0x18; CONFIG_VIRTIO_BASE; CONFIG_VIRTIO_BASE + 0x3fff] /\
    Forall (fun i => pgtbl_walk h' demo_root (ptov (CONFIG_RAMDISK_BASE + i * PMD_SIZE))
                     = Ret (CONFIG_RAMDISK_BASE + i * PMD_SIZE)) (seqZ 0 16) /\
    Forall (fun i => pgtbl_walk h' demo_root (ptov (CONFIG_PFLASH_BASE + i * PMD_SIZE))
                     = Ret (CONFIG_PFLASH_BASE + i * PMD_SIZE)) (seqZ 0 32).
Proof.
  destruct (check_ok boot_run (fun h =>
    forallb (fun pa => walks_to h demo_root (ptov pa) pa)
      [CONFIG_GICD_BASE; CONFIG_GICD_BASE + 0x9f123; CONFIG_GICR_BASE; CONFIG_GICR_BASE + 0x7f456;
       CONFIG_UART_BASE + 0x18; CONFIG_VIRTIO_BASE; CONFIG_VIRTIO_BASE + 0x3fff] &&
    forallb (fun i => walks_to h demo_root (ptov (CONFIG_RAMDISK_BASE + i * PMD_SIZE))
      (CONFIG_RAMDISK_BASE + i * PMD_SIZE)) (seqZ 0 16) &&
    forallb (fun i => walks_to h demo_root (ptov (CONFIG_PFLASH_BASE + i * PMD_SIZE))
      (CONFIG_PFLASH_BASE + i * PMD_SIZE)) (seqZ 0 32))) as (s' & h' & He & Ht).
  { by vm_compute. }
  apply andb_true_iff in Ht as [[H1 H2]%andb_true_iff H3].
  exists s', h'. split; [exact He|]. split_and!.
  - by apply (walks_to_all h' demo_root ptov (fun pa => pa)).
  - by apply (walks_to_all h' demo_root (fun i => ptov (CONFIG_RAMDISK_BASE + i * PMD_SIZE))).
  - by apply (walks_to_all h' demo_root (fun i => ptov (CONFIG_PFLASH_BASE + i * PMD_SIZE))).
Qed.

(** [pgtbl_walk] returns the base of the 2 MB block for every address in
    it: in the RAM disk, mapped with [VM_HUGE], an address inside a block
    translates to the base of the block, unlike one mapped with 4 KB pages. *)
Theorem walk_block_drops_offset :
  exists s' h', kern_map_const_regions (mkVspace demo_root 1) (demo_pages, demo_tables) = Ret (tt, (s', h')) /\
    pgtbl_walk h' demo_root (ptov (CONFIG_RAMDISK_BASE + 0x1234)) = Ret CONFIG_RAMDISK_BASE /\
    pgtbl_walk h' demo_root (ptov (CONFIG_UART_BASE + 0x234)) = Ret (CONFIG_UART_BASE + 0x234).
Proof.
  destruct (check_ok boot_run (fun h =>
    walks_to h demo_root (ptov (CONFIG_RAMDISK_BASE + 0x1234)) CONFIG_RAMDISK_BASE &&
    walks_to h demo_root (ptov (CONFIG_UART_BASE + 0x234)) (CONFIG_UART_BASE + 0x234)))
    as (s' & h' & He & Ht).
  { by vm_compute. }
  apply andb_true_iff in Ht as [H1 H2].
  exists s', h'. split; [exact He|]. split; by apply walks_to_ok.
Qed.
