(* ===== verification/Slab.v ===== *)
(** * The slab allocator and kalloc/kfree (ukern/src/slab.c, kmem.c, inc/slab.h)

    A slab is one page: its descriptor, the free list of 16-bit indices and
    the objects.  The state keeps, next to the page allocator, the descriptors
    by address: slabs, pools and cache nodes (the last two are themselves
    objects of the root pool and of the cache pool).  The intrusive lists
    [partial] and [full] are the lists of the slabs they link, head first.
    The addresses of the two static pools are parameters of the section. *)
From S2P Require Import Prelude Config Bitmap Page.

Definition MAX_MEM_POOLS : Z := 32.
Definition SLAB_MAGIC : Z := 0xdeadbeef.
Definition sizeof_slab : Z := 64.
Definition sizeof_slab_pool : Z := 64.
Definition sizeof_slab_cache : Z := 16.

Record slab_cache := mkCache { c_obj : Z; c_next : Z }.

Record slab_pool := mkPool {
  sp_name : string;
  sp_size : Z;
  sp_obj_size : Z;
  sp_gfporder : Z;
  sp_partial : list Z;
  sp_full : list Z;
  sp_cache : Z;
}.

(** [freelist] is the array of shorts behind the descriptor. *)
Record slab := mkSlab {
  obj_start : Z;
  sl_pool : Z;
  freelist : list Z;
  magic : Z;
  active : Z;
  nr_free : Z;
  nr_obj : Z;
}.

(** [general_pools]. *)
Definition general_pools : list (string * Z) :=
  [("slabpool-8", 8); ("slabpool-16", 16); ("slabpool-32", 32); ("slabpool-64", 64);
   ("slabpool-128", 128); ("slabpool-256", 256); ("slabpool-512", 512)].

Definition normal_pool_start : Z := 2.

Record slab_state (PS : Type) := mkSlabs {
  ss_pages : PS;
  ss_slabs : gmap Z slab;
  ss_pools : gmap Z slab_pool;
  ss_caches : gmap Z slab_cache;
  pool_ptrs : list Z;
  nr_pools : Z;
}.
Arguments mkSlabs {PS}.
Arguments ss_pages {PS}.
Arguments ss_slabs {PS}.
Arguments ss_pools {PS}.
Arguments ss_caches {PS}.
Arguments pool_ptrs {PS}.
Arguments nr_pools {PS}.

(** [slab->freelist + n]: the address of the n-th short. *)
Definition freelist_at (slab n : Z) : Z := u64 (slab + sizeof_slab + 2 * n).

(** The [while] loop of [caculate_nr_object]. *)
Fixpoint nr_object_loop (fuel : nat) (slab page_end obj_size nr : Z) : outcome Z :=
  if page_end <? u64 (align_up (freelist_at slab nr) obj_size + u64 (s32 (nr * obj_size))) then
    match fuel with
    | O => Diverge
    | S fuel' => nr_object_loop fuel' slab page_end obj_size (nr - 1)
    end
  else Ret nr.

Definition caculate_nr_object (slab order obj_size : Z) : outcome Z :=
  let page_end := u64 (slab + PAGE_SIZE * Z.shiftl 1 order) in
  let nr := s32 (u64 (page_end - freelist_at slab 0) / obj_size) in
  nr ← nr_object_loop (S (Z.to_nat nr)) slab page_end obj_size nr;
  assert_ (0 <? nr);;
  Ret nr.

(** The eight bytes of a pointer in memory order, and back. *)
Definition ptr_bytes (p : Z) : list Z := (fun i => Z.land (Z.shiftr p (8 * i)) 0xff) <$> seqZ 0 8.
Definition bytes_ptr (bs : list Z) : Z := foldr (fun b acc => b + 256 * acc) 0 bs.
Fixpoint bytes_ptrs (n : nat) (bs : list Z) : list Z :=
  match n with O => [] | S n' => bytes_ptr (take 8 bs) :: bytes_ptrs n' (drop 8 bs) end.

(** [memmove(ptrs + dst, ptrs + src, n)]: [n] counts bytes. *)
Definition memmove_ptrs (ptrs : list Z) (dst src n : Z) : list Z :=
  let bs := mjoin (ptr_bytes <$> ptrs) in
  let chunk := take (Z.to_nat n) (drop (Z.to_nat (8 * src)) bs) in
  bytes_ptrs (length ptrs)
    (take (Z.to_nat (8 * dst)) bs ++ chunk ++ drop (Z.to_nat (8 * dst + n)) bs).

Section Slab.
Context {PS : Type} `{PA : PageAlloc PS} (root_pool cache_pool : Z).
Abbreviation St := (slab_state PS).

Definition get_slab (a : Z) : M St slab :=
  s ← get; match ss_slabs s !! a with Some x => mret x | None => fault end.
Definition set_slab (a : Z) (x : slab) : M St () :=
  modify (fun s => mkSlabs (ss_pages s) (<[a := x]> (ss_slabs s)) (ss_pools s) (ss_caches s) (pool_ptrs s) (nr_pools s)).
Definition get_pool (a : Z) : M St slab_pool :=
  s ← get; match ss_pools s !! a with Some x => mret x | None => fault end.
Definition set_pool (a : Z) (x : slab_pool) : M St () :=
  modify (fun s => mkSlabs (ss_pages s) (ss_slabs s) (<[a := x]> (ss_pools s)) (ss_caches s) (pool_ptrs s) (nr_pools s)).
Definition get_cache (a : Z) : M St slab_cache :=
  s ← get; match ss_caches s !! a with Some x => mret x | None => fault end.
Definition set_cache (a : Z) (x : slab_cache) : M St () :=
  modify (fun s => mkSlabs (ss_pages s) (ss_slabs s) (ss_pools s) (<[a := x]> (ss_caches s)) (pool_ptrs s) (nr_pools s)).
Definition set_ptrs (ptrs : list Z) (nr : Z) : M St () :=
  modify (fun s => mkSlabs (ss_pages s) (ss_slabs s) (ss_pools s) (ss_caches s) ptrs nr).
Definition slab_pages {A} (m : M PS A) : M St A :=
  zoom ss_pages (fun p s => mkSlabs p (ss_slabs s) (ss_pools s) (ss_caches s) (pool_ptrs s) (nr_pools s)) m.

Definition slab_refill (pool : Z) : M St Z :=
  slab ← slab_pages (pa_allocn 1);
  if slab =? 0 then mret (-1)
  else
    p ← get_pool pool;
    nr ← lift (caculate_nr_object slab (sp_gfporder p) (sp_size p));
    set_slab slab (mkSlab (align_up (freelist_at slab nr) (sp_size p)) pool
                     (s16 <$> seqZ 0 nr) SLAB_MAGIC 0 nr nr);;
    set_pool pool (mkPool (sp_name p) (sp_size p) (sp_obj_size p) (sp_gfporder p)
                     (slab :: sp_partial p) (sp_full p) (sp_cache p));;
    mret 0.

(** [list_for_each_entry(slab, &pool->partial, lru) if (slab->nr_free > 0) break]:
    running off the list is the [assert(0)] behind the loop. *)
Fixpoint first_free (l : list Z) : M St Z :=
  match l with
  | [] => halt
  | a :: l' => s ← get_slab a; if 0 <? nr_free s then mret a else first_free l'
  end.

(** The [realloc:] label; one refill fills [partial], so two rounds do. *)
Fixpoint realloc (fuel : nat) (pool : Z) : M St Z :=
  match fuel with
  | O => fun _ => Diverge
  | S fuel' =>
      p ← get_pool pool;
      match sp_partial p with
      | [] =>
          r ← slab_refill pool;
          if r <? 0 then halt else realloc fuel' pool
      | l => first_free l
      end
  end.

Definition slab_alloc_pool (pool : Z) : M St Z :=
  assertM (negb (pool =? 0));;
  p ← get_pool pool;
  if negb (sp_cache p =? 0) then
    c ← get_cache (sp_cache p);
    set_pool pool (mkPool (sp_name p) (sp_size p) (sp_obj_size p) (sp_gfporder p)
                     (sp_partial p) (sp_full p) (c_next c));;
    mret (c_obj c)
  else
    a ← realloc 2 pool;
    p ← get_pool pool;
    s ← get_slab a;
    obj_index ← lift (rd (freelist s) (active s));
    let obj := u64 (obj_start s + s32 (sp_size p * obj_index)) in
    set_slab a (mkSlab (obj_start s) (sl_pool s) (freelist s) (magic s)
                  (active s + 1) (nr_free s - 1) (nr_obj s));;
    (if nr_free s - 1 =? 0 then
       set_pool pool (mkPool (sp_name p) (sp_size p) (sp_obj_size p) (sp_gfporder p)
                        (filter (fun b => b <> a) (sp_partial p)) (a :: sp_full p) (sp_cache p))
     else mret tt);;
    mret obj.

(** The loop stops at [normal_pool_start + nelem(general_pools)] included. *)
Fixpoint slab_alloc_loop (n : nat) (i bytes : Z) : M St Z :=
  match n with
  | O => mret 0
  | S n' =>
      s ← get;
      a ← lift (rd (pool_ptrs s) i);
      p ← get_pool a;
      if bytes <=? sp_obj_size p then slab_alloc_pool a else slab_alloc_loop n' (i + 1) bytes
  end.

Definition slab_alloc (bytes : Z) : M St Z :=
  assertM (bytes <? PAGE_SIZE);;
  s ← get;
  a ← lift (rd (pool_ptrs s) 0);
  (if a =? 0 then halt else p ← get_pool a; assertM (negb (sp_obj_size p =? 0)));;
  slab_alloc_loop (S (length general_pools)) normal_pool_start bytes.

(** The statements behind the [return] are not reached. *)
Definition slab_free (ptr : Z) : M St () :=
  let a := align_page_down ptr in
  s ← get_slab a;
  assertM (magic s =? SLAB_MAGIC);;
  assertM (obj_start s <=? ptr);;
  assertM (nr_free s <? nr_obj s);;
  p ← get_pool (sl_pool s);
  assertM (isaligned ptr (sp_obj_size p));;
  cache ← slab_alloc_pool cache_pool;
  s ← get_slab a;
  p ← get_pool (sl_pool s);
  set_cache cache (mkCache ptr (sp_cache p));;
  set_pool (sl_pool s) (mkPool (sp_name p) (sp_size p) (sp_obj_size p) (sp_gfporder p)
                          (sp_partial p) (sp_full p) cache).

Fixpoint owned_by (l : list Z) (obj_size ptr : Z) : M St bool :=
  match l with
  | [] => mret false
  | a :: l' =>
      s ← get_slab a;
      if (obj_start s <=? ptr) && (ptr <? u64 (obj_start s + s32 (obj_size * nr_obj s)))
      then mret true else owned_by l' obj_size ptr
  end.

Fixpoint own_loop (n : nat) (i ptr : Z) : M St Z :=
  match n with
  | O => mret 0
  | S n' =>
      s ← get;
      a ← lift (rd (pool_ptrs s) i);
      p ← get_pool a;
      b ← owned_by (sp_partial p ++ sp_full p) (sp_obj_size p) ptr;
      if (b : bool) then mret 1 else own_loop n' (i + 1) ptr
  end.

(** [for (i = 1; i < nr_pools; i++)]. *)
Definition slab_own_addr (ptr : Z) : M St Z :=
  s ← get; own_loop (Z.to_nat (nr_pools s - 1)) 1 ptr.

Definition slab_pool_init (pool : Z) (name : string) (objsize : Z) : M St Z :=
  s ← get;
  if MAX_MEM_POOLS <=? nr_pools s then mret (-1)
  else
    set_pool pool (mkPool name objsize objsize 0 [] [] 0);;
    ptrs ← lift (wr (pool_ptrs s) (nr_pools s) pool);
    set_ptrs ptrs (nr_pools s + 1);;
    mret 0.

Definition slab_pool_create (name : string) (objsize : Z) : M St Z :=
  pool ← slab_alloc_pool root_pool;
  if pool =? 0 then mret 0
  else
    r ← slab_pool_init pool name objsize;
    mret (if r <? 0 then 0 else pool).

Fixpoint find_pool (ptrs : list Z) (n : nat) (pool i : Z) : Z :=
  match n, ptrs with
  | S n', a :: ptrs' => if a =? pool then i else find_pool ptrs' n' pool (i + 1)
  | _, _ => -1
  end.

(** [&pool->full] is never NULL, so only [partial] is tested. *)
Definition slab_pool_free (pool : Z) : M St () :=
  assertM (negb (pool =? 0));;
  p ← get_pool pool;
  assertM (negb (sp_cache p =? 0) || bool_decide (sp_partial p = []));;
  if negb (sp_cache p =? 0) then mret tt
  else
    s ← get;
    let pool_index := find_pool (pool_ptrs s) (Z.to_nat (nr_pools s)) pool 0 in
    assertM (0 <? pool_index);;
    set_ptrs (memmove_ptrs (pool_ptrs s) pool_index (pool_index + 1) (nr_pools s - pool_index - 1))
      (nr_pools s - 1);;
    slab_free pool.

Fixpoint create_pools (l : list (string * Z)) : M St Z :=
  match l with
  | [] => mret 0
  | (name, size) :: l' =>
      p ← slab_pool_create name size;
      if p =? 0 then mret (-1) else create_pools l'
  end.

Definition static_pool (name : string) (size : Z) : slab_pool := mkPool name size size 0 [] [] 0.

Definition add_static_pool (a : Z) (p : slab_pool) : M St () :=
  s ← get;
  ptrs ← lift (wr (pool_ptrs s) (nr_pools s) a);
  set_ptrs ptrs (nr_pools s + 1);;
  set_pool a p.

Definition init_slab : M St Z :=
  add_static_pool root_pool (static_pool "[root-pool]" sizeof_slab_pool);;
  add_static_pool cache_pool (static_pool "[cache-pool]" sizeof_slab_cache);;
  create_pools general_pools.

(** Before [init_slab]: no pool, [pool_ptrs] all NULL. *)
Definition slab_state0 (p : PS) : St := mkSlabs p ∅ ∅ ∅ (replicate 32 0) 0.
End Slab.
