(* ===== verification/SlabSpec.v ===== *)
(** * The slab allocator: invariant and correctness

    Objects handed out are disjoint, aligned and inside live pages; a freed
    object is the next one its pool hands out; the pool table built by
    [init_slab] serves each request from the smallest pool that fits. *)
From S2P Require Import Prelude Config Bitmap Page Slab.

(** ** Layout of a slab page *)

(** The object sizes the pools use. *)
Definition obj_size_ok (sz : Z) : Prop := exists k, 3 <= k <= 9 /\ sz = 2 ^ k.

Lemma obj_size_bounds sz : obj_size_ok sz -> 8 <= sz <= 512.
Proof.
  intros (k & Hk & ->). change 8 with (2 ^ 3). change 512 with (2 ^ 9).
  split; apply Z.pow_le_mono_r; lia.
Qed.

Definition slab_addr (a : Z) : Prop := a mod 4096 = 0 /\ 0xffff000000000000 <= a /\ a + 4096 < 2 ^ 64 - 2 ^ 46.

(** [n] objects of [sz] bytes from [start] fit the slab page [a]. *)
Definition layout_ok (a sz n start : Z) : Prop :=
  0 < n <= 504 /\ start mod sz = 0 /\ a + sizeof_slab + 2 * n <= start /\ start + n * sz <= a + 4096.

Lemma first_object a sz n :
  slab_addr a -> obj_size_ok sz -> 0 <= n <= 504 ->
  let start := align_up (freelist_at a n) sz in
  start mod sz = 0 /\ a + 64 + 2 * n <= start < a + 64 + 2 * n + sz /\
  freelist_at a n = a + 64 + 2 * n.
Proof.
  intros (_ & Ha & Ha2) Hsz Hn. pose proof (obj_size_bounds sz Hsz). destruct Hsz as (k & Hk & ->).
  unfold freelist_at, sizeof_slab. rewrite u64_small by lia.
  destruct (align_up_bounds (a + 64 + 2 * n) k); [lia..|]. split_and!; (done || lia).
Qed.

Lemma nr_object_loop_spec fuel a sz n :
  slab_addr a -> obj_size_ok sz -> 0 < n <= 504 -> (Z.to_nat n <= fuel)%nat ->
  exists r, nr_object_loop fuel a (a + 4096) sz n = Ret r /\
    layout_ok a sz r (align_up (freelist_at a r) sz).
Proof.
  intros Ha Hsz. revert n. induction fuel as [|fuel IH]; intros n Hn Hf; [lia|].
  pose proof (obj_size_bounds sz Hsz) as Hb. pose proof Ha as (_ & Ha1 & Ha2).
  destruct (first_object a sz n Ha Hsz ltac:(lia)) as (Hm & Hr & _).
  assert (n * sz <= 504 * 512) by (apply Z.mul_le_mono_nonneg; lia).
  cbn [nr_object_loop]. rewrite (s32_small (n * sz)), (u64_small (n * sz)) by lia.
  rewrite u64_small by lia.
  destruct (Z.ltb_spec (a + 4096) (align_up (freelist_at a n) sz + n * sz)).
  - destruct (decide (n = 1)) as [->|]; [lia|]. apply IH; lia.
  - exists n. split; [done|]. unfold layout_ok, sizeof_slab. split_and!; done || lia.
Qed.

Lemma nr_object_spec a sz :
  slab_addr a -> obj_size_ok sz ->
  exists r, caculate_nr_object a 0 sz = Ret r /\ layout_ok a sz r (align_up (freelist_at a r) sz).
Proof.
  intros Ha Hsz. pose proof (obj_size_bounds sz Hsz) as Hb. pose proof Ha as (_ & Ha1 & Ha2).
  destruct (first_object a sz 0 Ha Hsz ltac:(lia)) as (_ & _ & Hf0).
  unfold caculate_nr_object, PAGE_SIZE. change (4096 * Z.shiftl 1 0) with 4096. rewrite Hf0.
  rewrite (u64_small (a + 4096)), (u64_small (a + 4096 - (a + 64 + 2 * 0))) by lia.
  replace (a + 4096 - (a + 64 + 2 * 0)) with 4032 by lia.
  assert (0 < 4032 / sz <= 504).
  { split; [apply Z.div_str_pos; lia|]. change 504 with (4032 / 8). apply Z.div_le_compat_l; lia. }
  rewrite s32_small by lia.
  destruct (nr_object_loop_spec (S (Z.to_nat (4032 / sz))) a sz (4032 / sz)) as (r & -> & Hr); [done|done|lia|lia|].
  exists r. cbn. destruct (Z.ltb_spec 0 r); [done|]. destruct Hr. lia.
Qed.

(** ** State predicates *)

(** The nodes from [ptr] list the objects [l]. *)
Fixpoint chain (m : gmap Z slab_cache) (ptr : Z) (l : list Z) : Prop :=
  match l with
  | [] => ptr = 0
  | o :: l' => ptr <> 0 /\ exists c, m !! ptr = Some c /\ c_obj c = o /\ chain m (c_next c) l'
  end.

Lemma chain_fun m ptr l l' : chain m ptr l -> chain m ptr l' -> l = l'.
Proof.
  revert ptr l'. induction l as [|o l IH]; intros ptr [|o' l'] H H'; simpl in *; naive_solver.
Qed.

Lemma chain_insert m k c ptr l : m !! k = None -> chain m ptr l -> chain (<[k := c]> m) ptr l.
Proof.
  intros Hk. revert ptr. induction l as [|o l IH]; intros ptr H; simpl in *; [done|].
  destruct H as (? & d & Hd & ? & H). split; [done|]. exists d.
  rewrite lookup_insert_ne by congruence. split_and!; [done..|by apply IH].
Qed.

(** Object [o] of pool [a] has been taken from its slab. *)
Definition handed (slabs : gmap Z slab) (pools : gmap Z slab_pool) (a o : Z) : Prop :=
  exists x s p i, slabs !! x = Some s /\ sl_pool s = a /\ pools !! a = Some p /\
    0 <= i < active s /\ o = obj_start s + sp_size p * i.

(** Object [o] waits in the cache list of pool [a]. *)
Definition cached (caches : gmap Z slab_cache) (pools : gmap Z slab_pool) (a o : Z) : Prop :=
  exists p l, pools !! a = Some p /\ chain caches (sp_cache p) l /\ o ∈ l.

(** A slab and its descriptor are consistent. *)
Record slab_ok (pools : gmap Z slab_pool) (x : Z) (s : slab) : Prop := {
  so_pool : exists p, pools !! sl_pool s = Some p /\ layout_ok x (sp_size p) (nr_obj s) (obj_start s);
  so_list : freelist s = s16 <$> seqZ 0 (nr_obj s);
  so_magic : magic s = SLAB_MAGIC;
  so_count : 0 <= active s /\ 0 <= nr_free s /\ active s + nr_free s = nr_obj s;
}.

(** A pool, its slabs and its cache list. *)
Record pool_ok (slabs : gmap Z slab) (pools : gmap Z slab_pool) (caches : gmap Z slab_cache)
    (a : Z) (p : slab_pool) : Prop := {
  po_size : obj_size_ok (sp_size p) /\ sp_obj_size p = sp_size p /\ sp_gfporder p = 0 /\ a <> 0;
  po_partial : forall x, x ∈ sp_partial p <-> exists s, slabs !! x = Some s /\ sl_pool s = a /\ 0 < nr_free s;
  po_full : forall x, x ∈ sp_full p <-> exists s, slabs !! x = Some s /\ sl_pool s = a /\ nr_free s = 0;
  po_cache : exists l, chain caches (sp_cache p) l /\ NoDup l /\ forall o, o ∈ l -> handed slabs pools a o;
}.

(** A pool with its lists replaced. *)
Definition pool_with (p : slab_pool) (partial full : list Z) (cache : Z) : slab_pool :=
  mkPool (sp_name p) (sp_size p) (sp_obj_size p) (sp_gfporder p) partial full cache.

Lemma handed_pool slabs pools a p p' b o :
  pools !! a = Some p -> sp_size p' = sp_size p ->
  handed slabs (<[a := p']> pools) b o <-> handed slabs pools b o.
Proof.
  intros Ha Hsz. unfold handed. split; intros (x & s & q & i & Hx & Hb & Hq & Hi & ->).
  - destruct (decide (b = a)) as [->|Hne].
    + rewrite lookup_insert_eq in Hq. simplify_eq. exists x, s, p, i. by rewrite Hsz.
    + rewrite lookup_insert_ne in Hq by done. by exists x, s, q, i.
  - destruct (decide (b = a)) as [->|Hne].
    + simplify_eq. exists x, s, p', i. rewrite lookup_insert_eq, Hsz. done.
    + exists x, s, q, i. by rewrite lookup_insert_ne.
Qed.

Lemma handed_new slabs pools x s b o :
  slabs !! x = None -> active s = 0 -> handed (<[x := s]> slabs) pools b o <-> handed slabs pools b o.
Proof.
  intros Hx Ha. unfold handed. split; intros (y & t & q & i & Hy & Hb & Hq & Hi & ->).
  - destruct (decide (y = x)) as [->|]; [rewrite lookup_insert_eq in Hy; simplify_eq; lia|].
    rewrite lookup_insert_ne in Hy by done. by exists y, t, q, i.
  - exists y, t, q, i. by rewrite lookup_insert_ne by congruence.
Qed.

Lemma handed_take slabs pools x s s' p b o :
  slabs !! x = Some s -> sl_pool s' = sl_pool s -> obj_start s' = obj_start s -> 0 <= active s ->
  active s' = active s + 1 -> pools !! sl_pool s = Some p ->
  handed (<[x := s']> slabs) pools b o <->
    handed slabs pools b o \/ (b = sl_pool s /\ o = obj_start s + sp_size p * active s).
Proof.
  intros Hx Hsp Hos H0 Hact Hp. unfold handed. split.
  - intros (y & t & q & i & Hy & Hb & Hq & Hi & ->). destruct (decide (y = x)) as [->|].
    + rewrite lookup_insert_eq in Hy. injection Hy as <-. rewrite Hsp in Hb. subst b. simplify_eq.
      rewrite Hos. destruct (decide (i = active s)) as [->|]; [by right|left].
      exists x, s, p, i. split_and!; (done || lia).
    + rewrite lookup_insert_ne in Hy by done. left. by exists y, t, q, i.
  - intros [(y & t & q & i & Hy & Hb & Hq & Hi & ->)|[-> ->]].
    + destruct (decide (y = x)) as [->|].
      * simplify_eq. exists x, s', p, i. rewrite lookup_insert_eq, Hsp, Hos. split_and!; (done || lia).
      * exists y, t, q, i. by rewrite lookup_insert_ne.
    + exists x, s', p, (active s). rewrite lookup_insert_eq, Hsp, Hos. split_and!; (done || lia).
Qed.

Lemma cached_pool caches pools a p p' b o :
  pools !! a = Some p -> sp_cache p' = sp_cache p ->
  cached caches (<[a := p']> pools) b o <-> cached caches pools b o.
Proof.
  intros Ha Hc. unfold cached. destruct (decide (b = a)) as [->|Hne].
  - rewrite lookup_insert_eq, Ha. setoid_rewrite (inj_iff Some).
    split; intros (? & l & <- & Hl & ?); eexists _, l; (split; [done|]); by rewrite Hc in *.
  - by rewrite lookup_insert_ne by done.
Qed.

Lemma slab_ok_pool pools a p p' x s :
  pools !! a = Some p -> sp_size p' = sp_size p -> slab_ok pools x s -> slab_ok (<[a := p']> pools) x s.
Proof.
  intros Ha Hsz [(q & Hq & Hlay) ? ? ?]. split; try done. destruct (decide (sl_pool s = a)) as [E|].
  - rewrite E in *. simplify_eq. exists p'. by rewrite lookup_insert_eq, Hsz.
  - exists q. by rewrite lookup_insert_ne.
Qed.

(** Slab [x] is where it was for every pool it does not belong to. *)
Lemma pool_slabs_frame (slabs : gmap Z slab) x s a (P : slab -> Prop) y :
  (forall t, slabs !! x = Some t -> sl_pool t <> a) -> sl_pool s <> a ->
  (exists t, <[x := s]> slabs !! y = Some t /\ sl_pool t = a /\ P t) <->
  (exists t, slabs !! y = Some t /\ sl_pool t = a /\ P t).
Proof.
  intros Hold Hnew. destruct (decide (y = x)) as [->|]; [|by rewrite lookup_insert_ne].
  rewrite lookup_insert_eq. naive_solver.
Qed.

Section SlabSpec.
Context {PS : Type} `{PA : PageAlloc PS} (root_pool cache_pool : Z).
Abbreviation St := (slab_state PS).

Definition handed_in (st : St) : Z -> Z -> Prop := handed (ss_slabs st) (ss_pools st).

(** [o] is an object of pool [a] in use. *)
Definition live (st : St) (a o : Z) : Prop :=
  handed_in st a o /\ ~ cached (ss_caches st) (ss_pools st) a o.

Record slab_inv (st : St) : Prop := {
  si_pages : pa_inv (ss_pages st);
  si_slab : forall x s, ss_slabs st !! x = Some s -> pa_live (ss_pages st) x 1 /\ slab_ok (ss_pools st) x s;
  si_pool : forall a p, ss_pools st !! a = Some p -> pool_ok (ss_slabs st) (ss_pools st) (ss_caches st) a p;
  si_nodes : forall c n, ss_caches st !! c = Some n -> handed_in st cache_pool c;
  si_cpool : exists p, ss_pools st !! cache_pool = Some p /\ sp_cache p = 0;
  si_keys : forall a p, ss_pools st !! a = Some p -> a = root_pool \/ a = cache_pool \/ live st root_pool a;
  si_static : ~ pa_arena (ss_pages st) root_pool /\ ~ pa_arena (ss_pages st) cache_pool /\
    root_pool <> 0 /\ cache_pool <> 0 /\ root_pool <> cache_pool;
}.

Lemma slab_page_addr pg x : pa_inv pg -> pa_live pg x 1 -> slab_addr x.
Proof.
  intros Hi Hl. destruct (pa_live_range pg x 1 Hi Hl) as (? & Hlo & _ & ?).
  change (ptov 0) with 0xffff000000000000 in Hlo. split_and!; [done|lia|lia].
Qed.

(** Where a handed-out object lies. *)
Lemma handed_place st a o :
  slab_inv st -> handed_in st a o ->
  exists x s p, ss_slabs st !! x = Some s /\ sl_pool s = a /\ ss_pools st !! a = Some p /\
    obj_size_ok (sp_size p) /\ obj_start s <= o /\ x + 64 < o /\ o + sp_size p <= x + 4096 /\
    o mod sp_size p = 0 /\ slab_addr x.
Proof.
  intros Hi (x & s & p & i & Hx & <- & Hp & Hact & ->). exists x, s, p.
  destruct (si_slab st Hi x s Hx) as [Hl Hok]. destruct (so_pool _ _ _ Hok) as (p' & Hp' & Hlay).
  simplify_eq. destruct Hlay as (Hn & Hm & Hlo & Hhi). unfold sizeof_slab in Hlo.
  destruct (so_count _ _ _ Hok) as (? & ? & ?). destruct (po_size _ _ _ _ _ (si_pool st Hi _ _ Hp)) as [Hsz _].
  pose proof (obj_size_bounds _ Hsz).
  assert (sp_size p * i <= sp_size p * (nr_obj s - 1)) by (apply Z.mul_le_mono_nonneg_l; lia).
  assert (0 <= sp_size p * i) by (apply Z.mul_nonneg_nonneg; lia).
  split_and!; try (done || lia).
  - rewrite <- Zplus_mod_idemp_l, Hm, Z.mul_comm. apply Z_mod_mult.
  - by eapply slab_page_addr, Hl; apply Hi.
Qed.

Lemma slab_pages_disjoint st x1 s1 x2 s2 :
  slab_inv st -> ss_slabs st !! x1 = Some s1 -> ss_slabs st !! x2 = Some s2 -> x1 < x2 -> x1 + 4096 <= x2.
Proof.
  intros Hi H1 H2 Hlt. destruct (si_slab st Hi _ _ H1) as [L1 _], (si_slab st Hi _ _ H2) as [L2 _].
  pose proof (pa_live_disjoint _ _ _ _ _ (si_pages st Hi) L1 L2 Hlt). lia.
Qed.

(** Two handed-out objects are the same object of the same pool or do not overlap. *)
Lemma handed_disjoint st a1 o1 p1 a2 o2 p2 :
  slab_inv st -> handed_in st a1 o1 -> handed_in st a2 o2 ->
  ss_pools st !! a1 = Some p1 -> ss_pools st !! a2 = Some p2 ->
  (a1 = a2 /\ o1 = o2) \/ o1 + sp_size p1 <= o2 \/ o2 + sp_size p2 <= o1.
Proof.
  intros Hi H1 H2 Hp1 Hp2.
  pose proof H1 as (x1 & s1 & q1 & i1 & Hx1 & <- & Hq1 & Hi1 & Ho1).
  pose proof H2 as (x2 & s2 & q2 & i2 & Hx2 & <- & Hq2 & Hi2 & Ho2). simplify_eq.
  destruct (Z.lt_total x1 x2) as [Hlt|[->|Hlt]].
  - pose proof (slab_pages_disjoint st _ _ _ _ Hi Hx1 Hx2 Hlt).
    destruct (si_slab st Hi _ _ Hx1) as [_ [(p & Hp & (? & ? & ? & Hhi1)) _ _ (? & ? & ?)]].
    destruct (si_slab st Hi _ _ Hx2) as [_ [(p' & Hp' & (? & ? & Hlo2 & ?)) _ _ (? & ? & ?)]]. simplify_eq.
    right; left. unfold sizeof_slab in *.
    pose proof (obj_size_bounds _ (proj1 (po_size _ _ _ _ _ (si_pool st Hi _ _ Hp1)))).
    pose proof (obj_size_bounds _ (proj1 (po_size _ _ _ _ _ (si_pool st Hi _ _ Hp2)))). nia.
  - simplify_eq. pose proof (obj_size_bounds _ (proj1 (po_size _ _ _ _ _ (si_pool st Hi _ _ Hp1)))).
    destruct (Z.lt_total i1 i2) as [?|[->|?]]; [right; left|left|right; right]; [nia|done|nia].
  - pose proof (slab_pages_disjoint st _ _ _ _ Hi Hx2 Hx1 Hlt).
    destruct (si_slab st Hi _ _ Hx1) as [_ [(p & Hp & (? & ? & Hlo1 & ?)) _ _ (? & ? & ?)]].
    destruct (si_slab st Hi _ _ Hx2) as [_ [(p' & Hp' & (? & ? & ? & Hhi2)) _ _ (? & ? & ?)]]. simplify_eq.
    right; right. unfold sizeof_slab in *.
    pose proof (obj_size_bounds _ (proj1 (po_size _ _ _ _ _ (si_pool st Hi _ _ Hp1)))).
    pose proof (obj_size_bounds _ (proj1 (po_size _ _ _ _ _ (si_pool st Hi _ _ Hp2)))). nia.
Qed.

Lemma live_same st st' :
  (forall b o, handed_in st' b o <-> handed_in st b o) ->
  (forall b o, cached (ss_caches st') (ss_pools st') b o <-> cached (ss_caches st) (ss_pools st) b o) ->
  forall b o, live st' b o <-> live st b o.
Proof. intros Hh Hc b o. unfold live. by rewrite Hh, Hc. Qed.

(** The keys of the pool map after an update of an existing pool. *)
Lemma pools_update (pools : gmap Z slab_pool) a p p' b q :
  pools !! a = Some p -> <[a := p']> pools !! b = Some q ->
  exists q0, pools !! b = Some q0 /\ (b = a /\ q = p' /\ q0 = p \/ b <> a /\ q = q0).
Proof.
  intros Ha Hb. destruct (decide (b = a)) as [->|].
  - rewrite lookup_insert_eq in Hb. simplify_eq. exists p. split; [done|by left].
  - rewrite lookup_insert_ne in Hb by done. exists q. split; [done|by right].
Qed.

(** *** Refilling a pool with a fresh page *)
Lemma inv_refill st a p x s pg :
  slab_inv st -> ss_pools st !! a = Some p -> ss_slabs st !! x = None -> pa_inv pg ->
  (forall y n, pa_live (ss_pages st) y n -> pa_live pg y n) -> pa_live pg x 1 ->
  (forall y, pa_arena pg y <-> pa_arena (ss_pages st) y) ->
  slab_ok (ss_pools st) x s -> sl_pool s = a -> active s = 0 -> 0 < nr_free s ->
  let st' := mkSlabs pg (<[x := s]> (ss_slabs st))
               (<[a := pool_with p (x :: sp_partial p) (sp_full p) (sp_cache p)]> (ss_pools st))
               (ss_caches st) (pool_ptrs st) (nr_pools st) in
  slab_inv st' /\ (forall b o, handed_in st' b o <-> handed_in st b o) /\
  (forall b o, live st' b o <-> live st b o).
Proof.
  intros Hi Hp Hx Hpg Hlv Hlx Har Hok Hsp Hact Hfr st'.
  assert (forall b o, handed_in st' b o <-> handed_in st b o) as Hh.
  { intros b o. unfold handed_in, st'. simpl. rewrite (handed_pool _ _ a p) by done. by apply handed_new. }
  assert (forall b o, live st' b o <-> live st b o) as Hl.
  { apply live_same; [done|]. intros b o. by apply (cached_pool _ _ a p). }
  split; [|done]. split; cbn [st' ss_pages ss_slabs ss_pools ss_caches] in *.
  - done.
  - intros y t Hy. destruct (decide (y = x)) as [->|Hne].
    + rewrite lookup_insert_eq in Hy. injection Hy as <-. split; [done|]. by eapply slab_ok_pool.
    + rewrite lookup_insert_ne in Hy by done. destruct (si_slab st Hi y t Hy).
      split; [by apply Hlv|by eapply slab_ok_pool].
  - intros b q Hb. destruct (pools_update _ _ _ _ _ _ Hp Hb) as (q0 & Hq0 & [(-> & -> & ->)|[Hne ->]]).
    + destruct (si_pool st Hi a p Hp) as [Hsz Hpa Hfu (l & Hch & Hnd & Hcl)]. split; simpl.
      * done.
      * intros y. rewrite elem_of_cons, Hpa. destruct (decide (y = x)) as [->|].
        -- rewrite lookup_insert_eq. naive_solver.
        -- rewrite lookup_insert_ne by done. naive_solver.
      * intros y. rewrite Hfu. destruct (decide (y = x)) as [->|].
        -- rewrite lookup_insert_eq, Hx. naive_solver lia.
        -- by rewrite lookup_insert_ne.
      * exists l. split_and!; [done..|]. intros o Ho. apply Hh. by apply Hcl.
    + destruct (si_pool st Hi b q0 Hq0) as [Hsz Hpa Hfu (l & Hch & Hnd & Hcl)]. split.
      * done.
      * intros y. rewrite Hpa. rewrite pool_slabs_frame; [done| |congruence]. congruence.
      * intros y. rewrite Hfu. rewrite pool_slabs_frame; [done| |congruence]. congruence.
      * exists l. split_and!; [done..|]. intros o Ho. apply Hh. by apply Hcl.
  - intros c n Hc. apply Hh. by apply (si_nodes st Hi c n).
  - destruct (si_cpool st Hi) as (q & Hq & Hq0). destruct (decide (cache_pool = a)) as [E|].
    + rewrite <- E in *. simplify_eq. eexists. split; [apply lookup_insert_eq|done].
    + exists q. by rewrite lookup_insert_ne.
  - intros b q Hb. rewrite Hl. destruct (pools_update _ _ _ _ _ _ Hp Hb) as (q0 & Hq0 & _).
    by apply (si_keys st Hi b q0).
  - rewrite !Har. apply Hi.
Qed.

(** *** Taking the next object of a slab *)
Definition taken (s : slab) : slab :=
  mkSlab (obj_start s) (sl_pool s) (freelist s) (magic s) (active s + 1) (nr_free s - 1) (nr_obj s).

Definition pool_after_take (p : slab_pool) (x : Z) (s : slab) : slab_pool :=
  if nr_free s - 1 =? 0
  then pool_with p (filter (fun b => b <> x) (sp_partial p)) (x :: sp_full p) (sp_cache p) else p.

Lemma pool_after_take_same p x s :
  sp_size (pool_after_take p x s) = sp_size p /\ sp_cache (pool_after_take p x s) = sp_cache p /\
  sp_obj_size (pool_after_take p x s) = sp_obj_size p /\ sp_gfporder (pool_after_take p x s) = sp_gfporder p.
Proof. unfold pool_after_take. by case_match. Qed.

Lemma cached_handed st a o : slab_inv st -> cached (ss_caches st) (ss_pools st) a o -> handed_in st a o.
Proof.
  intros Hi (p & l & Hp & Hch & Ho). destruct (po_cache _ _ _ _ _ (si_pool st Hi a p Hp)) as (l' & Hch' & _ & Hin).
  apply Hin. by rewrite <- (chain_fun _ _ _ _ Hch Hch').
Qed.

(** The object behind the active ones was not handed out. *)
Lemma take_fresh st a p x s b :
  slab_inv st -> ss_pools st !! a = Some p -> ss_slabs st !! x = Some s -> sl_pool s = a -> 0 < nr_free s ->
  ~ handed_in st b (obj_start s + sp_size p * active s).
Proof.
  intros Hi Hp Hx <- Hfr (y & t & q & i & Hy & <- & Hq & Hact & E).
  destruct (si_slab st Hi _ _ Hx) as [_ [(p' & Hp' & (? & ? & Hlo1 & Hhi1)) _ _ (? & ? & ?)]].
  destruct (si_slab st Hi _ _ Hy) as [_ [(q' & Hq' & (? & ? & Hlo2 & Hhi2)) _ _ (? & ? & ?)]].
  simplify_eq. unfold sizeof_slab in *.
  pose proof (obj_size_bounds _ (proj1 (po_size _ _ _ _ _ (si_pool st Hi _ _ Hp)))).
  pose proof (obj_size_bounds _ (proj1 (po_size _ _ _ _ _ (si_pool st Hi _ _ Hq)))).
  assert (0 <= sp_size p * active s) by (apply Z.mul_nonneg_nonneg; lia).
  assert (0 <= sp_size q * i) by (apply Z.mul_nonneg_nonneg; lia).
  assert (sp_size p * active s + sp_size p <= nr_obj s * sp_size p) by nia.
  assert (sp_size q * i + sp_size q <= nr_obj t * sp_size q) by nia.
  destruct (Z.lt_total x y) as [Hlt|[->|Hlt]].
  - pose proof (slab_pages_disjoint st _ _ _ _ Hi Hx Hy Hlt). lia.
  - simplify_eq. nia.
  - pose proof (slab_pages_disjoint st _ _ _ _ Hi Hy Hx Hlt). lia.
Qed.

Lemma inv_take st a p x s :
  slab_inv st -> ss_pools st !! a = Some p -> ss_slabs st !! x = Some s -> sl_pool s = a -> 0 < nr_free s ->
  let st' := mkSlabs (ss_pages st) (<[x := taken s]> (ss_slabs st))
               (<[a := pool_after_take p x s]> (ss_pools st)) (ss_caches st) (pool_ptrs st) (nr_pools st) in
  let o := obj_start s + sp_size p * active s in
  slab_inv st' /\ (forall b o', handed_in st' b o' <-> handed_in st b o' \/ (b = a /\ o' = o)) /\
  (forall b o', live st' b o' <-> live st b o' \/ (b = a /\ o' = o)).
Proof.
  intros Hi Hp Hx Hsp Hfr st' o. destruct (pool_after_take_same p x s) as (Hs1 & Hs2 & Hs3 & Hs4).
  pose proof (si_slab st Hi x s Hx) as [Hlx Hok]. destruct (so_count _ _ _ Hok) as (Hc1 & Hc2 & Hc3).
  assert (forall b o', handed_in st' b o' <-> handed_in st b o' \/ (b = a /\ o' = o)) as Hh.
  { intros b o'. unfold handed_in, st'. simpl. rewrite (handed_pool _ _ a p) by done.
    rewrite (handed_take _ _ x s (taken s) p); [|done..|congruence]. by rewrite Hsp. }
  assert (forall b o', cached (ss_caches st') (ss_pools st') b o' <-> cached (ss_caches st) (ss_pools st) b o') as Hc.
  { intros b o'. by apply (cached_pool _ _ a p). }
  assert (forall b o', live st' b o' <-> live st b o' \/ (b = a /\ o' = o)) as Hl.
  { intros b o'. unfold live. rewrite Hh, Hc. split; [naive_solver|]. intros [[? ?]|[-> ->]]; [naive_solver|].
    split; [by right|]. intros Hca%cached_handed; [|done]. by apply (take_fresh st a p x s a). }
  split; [|done]. split; cbn [st' ss_pages ss_slabs ss_pools ss_caches] in *.
  - apply Hi.
  - intros y t Hy. destruct (decide (y = x)) as [->|Hne].
    + rewrite lookup_insert_eq in Hy. injection Hy as <-. split; [done|]. eapply slab_ok_pool; [done..|].
      destruct Hok as [? ? ? ?]. split; try done. simpl. lia.
    + rewrite lookup_insert_ne in Hy by done. destruct (si_slab st Hi y t Hy).
      split; [done|by eapply slab_ok_pool].
  - intros b q Hb. destruct (pools_update _ _ _ _ _ _ Hp Hb) as (q0 & Hq0 & [(-> & -> & ->)|[Hne ->]]).
    + destruct (si_pool st Hi a p Hp) as [Hsz Hpa Hfu (l & Hch & Hnd & Hcl)]. split.
      * by rewrite Hs1, Hs3, Hs4.
      * intros y. unfold pool_after_take. destruct (Z.eqb_spec (nr_free s - 1) 0); simpl; rewrite ?list_elem_of_filter, Hpa;
          (destruct (decide (y = x)) as [->|]; [rewrite lookup_insert_eq, Hx|rewrite lookup_insert_ne by done]);
          simpl; naive_solver lia.
      * intros y. unfold pool_after_take. destruct (Z.eqb_spec (nr_free s - 1) 0); simpl; rewrite ?elem_of_cons, Hfu;
          (destruct (decide (y = x)) as [->|]; [rewrite lookup_insert_eq, Hx|rewrite lookup_insert_ne by done]);
          simpl; naive_solver lia.
      * exists l. rewrite Hs2. split_and!; [done..|]. intros o' Ho. apply Hh. left. by apply Hcl.
    + destruct (si_pool st Hi b q0 Hq0) as [Hsz Hpa Hfu (l & Hch & Hnd & Hcl)]. split.
      * done.
      * intros y. rewrite Hpa. rewrite pool_slabs_frame; [done| |simpl; congruence]. congruence.
      * intros y. rewrite Hfu. rewrite pool_slabs_frame; [done| |simpl; congruence]. congruence.
      * exists l. split_and!; [done..|]. intros o' Ho. apply Hh. left. by apply Hcl.
  - intros c n Hcn. apply Hh. left. by apply (si_nodes st Hi c n).
  - destruct (si_cpool st Hi) as (q & Hq & Hq0). destruct (decide (cache_pool = a)) as [E|].
    + rewrite <- E in *. simplify_eq. eexists. split; [apply lookup_insert_eq|congruence].
    + exists q. by rewrite lookup_insert_ne.
  - intros b q Hb. rewrite Hl. destruct (pools_update _ _ _ _ _ _ Hp Hb) as (q0 & Hq0 & _).
    destruct (si_keys st Hi b q0 Hq0) as [?|[?|?]]; auto.
  - apply Hi.
Qed.

(** *** The cache list of a pool *)

(** Replacing the cache list of pool [a]. *)
Lemma inv_recache st a p k caches l :
  slab_inv st -> ss_pools st !! a = Some p -> a <> cache_pool ->
  (forall ptr l, chain (ss_caches st) ptr l -> chain caches ptr l) ->
  chain caches k l -> NoDup l -> (forall o, o ∈ l -> handed_in st a o) ->
  (forall c n, caches !! c = Some n -> handed_in st cache_pool c) ->
  let st' := mkSlabs (ss_pages st) (ss_slabs st)
               (<[a := pool_with p (sp_partial p) (sp_full p) k]> (ss_pools st)) caches (pool_ptrs st) (nr_pools st) in
  (forall x, x <> root_pool -> x <> cache_pool -> is_Some (ss_pools st !! x) -> live st root_pool x -> live st' root_pool x) ->
  slab_inv st' /\ (forall b o, handed_in st' b o <-> handed_in st b o) /\
  (forall b o, live st' b o <-> handed_in st b o /\ (if decide (b = a) then o ∉ l else ~ cached (ss_caches st) (ss_pools st) b o)).
Proof.
  intros Hi Hp Hac Hsub Hch Hnd Hin Hnodes st' Hkeys.
  assert (forall b o, handed_in st' b o <-> handed_in st b o) as Hh.
  { intros b o. by apply (handed_pool _ _ a p). }
  split; [|split; [done|]].
  2:{ intros b o. unfold live. rewrite Hh. apply and_iff_compat_l. unfold cached, st'. simpl.
      destruct (decide (b = a)) as [->|Hne].
      - rewrite lookup_insert_eq. split.
        + intros Hn Ho. apply Hn. by eexists _, l.
        + intros Ho (q & l' & [= <-] & Hl' & Ho'). by rewrite (chain_fun _ _ _ _ Hl' Hch) in Ho'.
      - rewrite lookup_insert_ne by done. split; intros Hn (q & l' & Hq & Hl' & Ho'); apply Hn.
        + exists q, l'. split_and!; [done|by apply Hsub|done].
        + destruct (po_cache _ _ _ _ _ (si_pool st Hi b q Hq)) as (l2 & Hl2 & _ & _).
          exists q, l2. split_and!; [done..|]. by rewrite (chain_fun _ _ _ _ (Hsub _ _ Hl2) Hl'). }
  split; cbn [st' ss_pages ss_slabs ss_pools ss_caches] in *.
  - apply Hi.
  - intros y t Hy. destruct (si_slab st Hi y t Hy). split; [done|by eapply slab_ok_pool].
  - intros b q Hb. destruct (pools_update _ _ _ _ _ _ Hp Hb) as (q0 & Hq0 & [(-> & -> & ->)|[Hne ->]]).
    + destruct (si_pool st Hi a p Hp) as [Hsz Hpa Hfu _]. split; try done.
      exists l. split_and!; [done..|]. intros o Ho. by apply Hh, Hin.
    + destruct (si_pool st Hi b q0 Hq0) as [Hsz Hpa Hfu (l' & Hch' & Hnd' & Hcl)]. split; try done.
      exists l'. split_and!; [by apply Hsub|done|]. intros o Ho. apply Hh. by apply Hcl.
  - intros c n Hc. apply Hh. by apply (Hnodes c n).
  - destruct (si_cpool st Hi) as (q & Hq & Hq0). exists q. by rewrite lookup_insert_ne.
  - intros b q Hb. destruct (pools_update _ _ _ _ _ _ Hp Hb) as (q0 & Hq0 & _).
    destruct (decide (b = root_pool)); [by left|]. destruct (decide (b = cache_pool)); [by right; left|].
    destruct (si_keys st Hi b q0 Hq0) as [?|[?|?]]; [done|done|]. right; right. by apply Hkeys.
  - apply Hi.
Qed.

Lemma inv_pop st a p c :
  slab_inv st -> ss_pools st !! a = Some p -> sp_cache p <> 0 -> ss_caches st !! sp_cache p = Some c ->
  let st' := mkSlabs (ss_pages st) (ss_slabs st)
               (<[a := pool_with p (sp_partial p) (sp_full p) (c_next c)]> (ss_pools st))
               (ss_caches st) (pool_ptrs st) (nr_pools st) in
  slab_inv st' /\ handed_in st a (c_obj c) /\
  (forall b o, live st' b o <-> live st b o \/ (b = a /\ o = c_obj c)) /\ ~ live st a (c_obj c).
Proof.
  intros Hi Hp Hn0 Hc st'. pose proof (si_pool st Hi a p Hp) as [_ _ _ (l & Hch & Hnd & Hcl)].
  destruct l as [|o l]; [done|]. destruct Hch as (_ & c' & Hc' & Ho & Hch). simplify_eq.
  apply NoDup_cons in Hnd as [Hno Hnd].
  assert (a <> cache_pool) as Hac.
  { intros ->. destruct (si_cpool st Hi) as (q & Hq & ?). congruence. }
  assert (forall o, cached (ss_caches st) (ss_pools st) a o <-> o ∈ c_obj c :: l) as Hca.
  { intros o. split.
    - intros (q & l' & Hq & Hl' & Ho). simplify_eq.
      assert (chain (ss_caches st) (sp_cache p) (c_obj c :: l)) as Hl2 by (split; [done|by exists c]).
      by rewrite (chain_fun _ _ _ _ Hl2 Hl').
    - intros Ho. exists p, (c_obj c :: l). split_and!; [done| |done]. split; [done|by exists c]. }
  assert (forall b o, handed_in st b o /\
    (if decide (b = a) then o ∉ l else ~ cached (ss_caches st) (ss_pools st) b o) <->
    live st b o \/ (b = a /\ o = c_obj c)) as Hlive.
  { intros b o. unfold live. destruct (decide (b = a)) as [->|]; [|naive_solver].
    rewrite Hca, not_elem_of_cons. split; [|intros [?|[_ ->]]; [naive_solver|]].
    - intros [Hh Ho]. destruct (decide (o = c_obj c)); naive_solver.
    - split; [apply Hcl; left|done]. }
  destruct (inv_recache st a p (c_next c) (ss_caches st) l) as (Hi' & _ & Hl); try done.
  { intros o Ho. apply Hcl. by right. }
  { intros d n Hd. by apply (si_nodes st Hi d n). }
  { intros x _ _ _ [Hh Hnc]. split; [by apply (handed_pool _ _ a p)|].
    intros (q & l' & Hq & Hl' & Hx). apply Hnc. cbn [ss_pools ss_caches] in *.
    destruct (pools_update _ _ _ _ _ _ Hp Hq) as (q0 & Hq0 & [(-> & -> & ->)|[_ ->]]); [|by exists q0, l'].
    apply Hca. right. by rewrite (chain_fun _ _ _ _ Hch Hl'). }
  split_and!; [done|apply Hcl; left| |].
  - intros b o. etransitivity; [apply Hl|apply Hlive].
  - intros [_ Hnc]. apply Hnc, Hca. left.
Qed.

Lemma inv_push st a p k ptr :
  slab_inv st -> ss_pools st !! a = Some p -> a <> cache_pool -> a <> root_pool -> live st a ptr ->
  ss_caches st !! k = None -> handed_in st cache_pool k -> k <> 0 ->
  let st' := mkSlabs (ss_pages st) (ss_slabs st)
               (<[a := pool_with p (sp_partial p) (sp_full p) k]> (ss_pools st))
               (<[k := mkCache ptr (sp_cache p)]> (ss_caches st)) (pool_ptrs st) (nr_pools st) in
  slab_inv st' /\ forall b o, live st' b o <-> live st b o /\ ~ (b = a /\ o = ptr).
Proof.
  intros Hi Hp Hac Har [Hlh Hlc] Hk Hkh Hk0 st'. pose proof (si_pool st Hi a p Hp) as [_ _ _ (l & Hch & Hnd & Hcl)].
  assert (forall o, cached (ss_caches st) (ss_pools st) a o <-> o ∈ l) as Hca.
  { intros o. split; [|intros Ho; by exists p, l].
    intros (q & l' & Hq & Hl' & Ho). simplify_eq. by rewrite (chain_fun _ _ _ _ Hch Hl'). }
  destruct (inv_recache st a p k (<[k := mkCache ptr (sp_cache p)]> (ss_caches st)) (ptr :: l)) as (Hi' & _ & Hl);
    try done.
  - intros q l'. by apply chain_insert.
  - split; [done|]. eexists. rewrite lookup_insert_eq. split; [done|]. split; [done|]. simpl. by apply chain_insert.
  - apply NoDup_cons. split; [|done]. by rewrite <- Hca.
  - intros o [->|?]%elem_of_cons; [done|by apply Hcl].
  - intros c n Hc. destruct (decide (c = k)) as [->|]; [done|]. rewrite lookup_insert_ne in Hc by done.
    by apply (si_nodes st Hi c n).
  - intros x _ _ _ [Hh Hnc]. split; [by apply (handed_pool _ _ a p)|].
    intros (q & l' & Hq & Hl' & Hx). apply Hnc. cbn [ss_pools ss_caches] in *.
    rewrite lookup_insert_ne in Hq by done.
    destruct (po_cache _ _ _ _ _ (si_pool st Hi root_pool q Hq)) as (l2 & Hl2 & _ & _).
    exists q, l2. split_and!; [done..|]. eapply chain_insert in Hl2; [|exact Hk].
    by rewrite (chain_fun _ _ _ _ Hl2 Hl').
  - split; [done|]. intros b o. etransitivity; [apply Hl|]. unfold live. destruct (decide (b = a)) as [->|]; [|naive_solver].
    rewrite Hca, not_elem_of_cons. naive_solver.
Qed.

(** *** Running the allocator *)

(** What stays of a pool across an allocation. *)
Definition pools_kept (st st' : St) : Prop :=
  pool_ptrs st' = pool_ptrs st /\ nr_pools st' = nr_pools st /\
  (forall b, ss_pools st !! b = None -> ss_pools st' !! b = None) /\
  forall b q, ss_pools st !! b = Some q ->
    exists q', ss_pools st' !! b = Some q' /\ sp_size q' = sp_size q /\ sp_obj_size q' = sp_obj_size q.

Lemma pools_kept_trans st1 st2 st3 : pools_kept st1 st2 -> pools_kept st2 st3 -> pools_kept st1 st3.
Proof.
  intros (? & ? & ? & H12) (? & ? & ? & H23). split_and!; [congruence|congruence|naive_solver|]. intros b q Hq.
  destruct (H12 b q Hq) as (q2 & Hq2 & ? & ?). destruct (H23 b q2 Hq2) as (q3 & ? & ? & ?).
  exists q3. split_and!; congruence.
Qed.

Lemma pools_kept_update st a p p' pg sl ca :
  ss_pools st !! a = Some p -> sp_size p' = sp_size p -> sp_obj_size p' = sp_obj_size p ->
  pools_kept st (mkSlabs pg sl (<[a := p']> (ss_pools st)) ca (pool_ptrs st) (nr_pools st)).
Proof.
  intros Ha H1 H2. split_and!; [done..| |].
  { intros b Hb. simpl. rewrite lookup_insert_ne; [done|congruence]. }
  intros b q Hq. simpl. destruct (decide (b = a)) as [->|].
  - simplify_eq. exists p'. rewrite lookup_insert_eq. done.
  - exists q. by rewrite lookup_insert_ne.
Qed.

Lemma get_pool_run (st : St) a p : ss_pools st !! a = Some p -> get_pool a st = Ret (p, st).
Proof. intros Ha. unfold get_pool. mstep. by rewrite Ha. Qed.
Lemma get_slab_run (st : St) x s : ss_slabs st !! x = Some s -> get_slab x st = Ret (s, st).
Proof. intros Ha. unfold get_slab. mstep. by rewrite Ha. Qed.

Definition no_page (st : St) : Prop := pa_allocn 1 (ss_pages st) = Ret (0, ss_pages st).
Definition page_taken (st st' : St) : Prop := exists va, va <> 0 /\ pa_allocn 1 (ss_pages st) = Ret (va, ss_pages st').
(** Pool [a] has no object left to hand out, on its cache or in a slab. *)
Definition used_up (st : St) (a : Z) (p : slab_pool) : Prop :=
  sp_cache p = 0 /\ forall x s, ss_slabs st !! x = Some s -> sl_pool s = a -> nr_free s = 0.

Lemma used_up_partial st a p : slab_inv st -> ss_pools st !! a = Some p -> used_up st a p <-> sp_cache p = 0 /\ sp_partial p = [].
Proof.
  intros Hi Hp. pose proof (po_partial _ _ _ _ _ (si_pool st Hi a p Hp)) as Hpa. unfold used_up. split; intros [Hc H]; (split; [done|]).
  - destruct (sp_partial p) as [|x l]; [done|]. destruct (proj1 (Hpa x) ltac:(left)) as (s & Hx & Hs & Hf). pose proof (H x s Hx Hs). lia.
  - intros x s Hx Hs. destruct (si_slab st Hi x s Hx) as [_ [_ _ _ (_ & Hn & _)]]. destruct (decide (nr_free s = 0)); [done|].
    assert (x ∈ sp_partial p) as Hin by (apply Hpa; exists s; split_and!; (done || lia)). rewrite H in Hin. by apply elem_of_nil in Hin.
Qed.

Lemma slab_refill_spec st a p :
  slab_inv st -> ss_pools st !! a = Some p ->
  (slab_refill a st = Ret (-1, st) /\ no_page st) \/
  (exists x s st', slab_refill a st = Ret (0, st') /\ slab_inv st' /\
     ss_slabs st' !! x = Some s /\ sl_pool s = a /\ 0 < nr_free s /\
     ss_pools st' !! a = Some (pool_with p (x :: sp_partial p) (sp_full p) (sp_cache p)) /\
     (forall b o, handed_in st' b o <-> handed_in st b o) /\ (forall b o, live st' b o <-> live st b o) /\
     ss_caches st' = ss_caches st /\ pools_kept st st' /\ page_taken st st').
Proof.
  intros Hi Hp. unfold slab_refill.
  destruct (pa_allocn_spec (ss_pages st) 1 (si_pages st Hi) ltac:(lia)) as (x & pg & He & Hpg & Har & Hor).
  set (st1 := mkSlabs pg (ss_slabs st) (ss_pools st) (ss_caches st) (pool_ptrs st) (nr_pools st)).
  assert (slab_pages (pa_allocn 1) st = Ret (x, st1)) as Hrun by (unfold slab_pages, zoom; by rewrite He).
  mrun Hrun. destruct Hor as [[-> ->]|(Hx0 & Hl & Hd)].
  { left. split; [|done]. unfold st1. by destruct st. }
  right. destruct (Z.eqb_spec x 0); [done|].
  assert (get_pool a st1 = Ret (p, st1)) as Hg by (by apply get_pool_run). mrun Hg.
  assert (pa_live pg x 1) as Hlx by (apply Hl; by left).
  pose proof (slab_page_addr pg x Hpg Hlx) as Hax.
  destruct (po_size _ _ _ _ _ (si_pool st Hi a p Hp)) as (Hsz & Hosz & Hg0 & Ha0).
  destruct (nr_object_spec x (sp_size p) Hax Hsz) as (nr & Hn & Hlay). rewrite <- Hg0 in Hn. rewrite Hn. mstep.
  unfold set_slab, set_pool, st1. mstep. cbn [ss_pages ss_slabs ss_pools ss_caches pool_ptrs nr_pools].
  set (s := mkSlab _ _ _ _ _ _ _).
  assert (ss_slabs st !! x = None) as Hxn.
  { destruct (ss_slabs st !! x) as [t|] eqn:E; [|done]. exfalso.
    destruct (si_slab st Hi x t E) as [Hlt _]. specialize (Hd x 1 Hlt). lia. }
  destruct Hlay as (? & ? & ? & ?).
  assert (slab_ok (ss_pools st) x s) as Hok.
  { split; simpl; try done; [|lia]. exists p. split; [done|]. split_and!; (done || lia). }
  destruct (inv_refill st a p x s pg) as (Hi' & Hh & Hlive); try done; [|simpl; lia|].
  { intros y m Hy. apply Hl. by right. }
  eexists x, s, _. split; [reflexivity|]. split; [exact Hi'|]. cbn [ss_slabs ss_pools ss_caches].
  rewrite !lookup_insert_eq. split_and!; try done; [simpl; lia| |by exists x]. by eapply pools_kept_update.
Qed.

Lemma first_free_spec st a p x l :
  slab_inv st -> ss_pools st !! a = Some p -> sp_partial p = x :: l ->
  exists s, first_free (x :: l) st = Ret (x, st) /\ ss_slabs st !! x = Some s /\ sl_pool s = a /\ 0 < nr_free s.
Proof.
  intros Hi Hp Hpa. pose proof (po_partial _ _ _ _ _ (si_pool st Hi a p Hp) x) as Hx.
  rewrite Hpa in Hx. destruct (proj1 Hx ltac:(left)) as (s & Hs & Hsp & Hfr).
  exists s. split; [|done]. cbn [first_free]. mrun (get_slab_run st x s Hs).
  destruct (Z.ltb_spec 0 (nr_free s)); [done|lia].
Qed.

(** After [realloc] a slab of the pool with a free object is at hand. *)
Lemma realloc_spec st a p :
  slab_inv st -> ss_pools st !! a = Some p ->
  (realloc 2 a st = Halt /\ no_page st /\ sp_partial p = []) \/
  (exists x s p' st', realloc 2 a st = Ret (x, st') /\ slab_inv st' /\
     ss_slabs st' !! x = Some s /\ sl_pool s = a /\ 0 < nr_free s /\ ss_pools st' !! a = Some p' /\
     sp_size p' = sp_size p /\ sp_obj_size p' = sp_obj_size p /\
     (forall b o, handed_in st' b o <-> handed_in st b o) /\ (forall b o, live st' b o <-> live st b o) /\
     ss_caches st' = ss_caches st /\ pools_kept st st' /\
     (ss_pages st' = ss_pages st \/ sp_partial p = [] /\ page_taken st st')).
Proof.
  intros Hi Hp. cbn [realloc]. mrun (get_pool_run st a p Hp).
  destruct (sp_partial p) as [|x l] eqn:Epa.
  - destruct (slab_refill_spec st a p Hi Hp) as [[Hr Hno]|(x & s & st1 & Hr & Hi1 & Hx & Hsp & Hfr & Hp1 & Hh & Hl & Hc & Hk & Htk)].
    { left. mrun Hr. done. }
    right. mrun Hr. cbn [Z.ltb Z.compare]. mrun (get_pool_run st1 a _ Hp1). cbn [pool_with sp_partial].
    destruct (first_free_spec st1 a _ x (sp_partial p) Hi1 Hp1 eq_refl) as (s' & Hf & Hs' & Hsp' & Hfr').
    rewrite Hf. eexists x, s', _, st1. split_and!; try done. by right.
  - right. destruct (first_free_spec st a p x l Hi Hp Epa) as (s & Hf & Hs & Hsp & Hfr). rewrite Hf.
    exists x, s, p, st. split_and!; try done; [|by left]. split_and!; [done..|]. intros b q Hq. by exists q.
Qed.

Lemma slab_alloc_pool_spec st a p :
  slab_inv st -> ss_pools st !! a = Some p ->
  (slab_alloc_pool a st = Halt /\ no_page st /\ used_up st a p) \/
  (exists o st', slab_alloc_pool a st = Ret (o, st') /\ slab_inv st' /\ handed_in st' a o /\ ~ live st a o /\
     (forall b o', live st' b o' <-> live st b o' \/ (b = a /\ o' = o)) /\
     (sp_cache p = 0 -> ss_caches st' = ss_caches st /\ forall b, ~ handed_in st b o) /\ pools_kept st st' /\
     (ss_pages st' = ss_pages st \/ used_up st a p /\ page_taken st st')).
Proof.
  intros Hi Hp. pose proof (si_pool st Hi a p Hp) as [(Hsz & Hosz & Hg0 & Ha0) _ _ (l & Hch & _ & _)].
  unfold slab_alloc_pool, assertM, assert_. destruct (Z.eqb_spec a 0); [done|]. cbn [negb].
  mrun (eq_refl (Ret (tt, st))). mrun (get_pool_run st a p Hp).
  destruct (Z.eqb_spec (sp_cache p) 0) as [Hc0|Hc0]; cbn [negb].
  - destruct (realloc_spec st a p Hi Hp) as [(Hr & Hno & Hpe)|(x & s & p1 & st1 & Hr & Hi1 & Hx & Hsp & Hfr & Hp1 & Hs1 & Hs2 & Hh & Hl & Hc & Hk & Htk)].
    { left. split; [|split; [done|by apply used_up_partial]]. unfold mbind, M_bind. by rewrite Hr. }
    right. mrun Hr. mrun (get_pool_run st1 a p1 Hp1). mrun (get_slab_run st1 x s Hx).
    pose proof (si_slab st1 Hi1 x s Hx) as [Hlx [(q & Hq & Hlay) Hfl Hmag (Hc1 & Hc2 & Hc3)]].
    rewrite Hsp in Hq. simplify_eq. destruct Hlay as (Hn & Hm & Hlo & Hhi).
    pose proof (used_up_partial st (sl_pool s) p Hi ltac:(done)) as Hup. pose proof (slab_page_addr _ _ (si_pages st1 Hi1) Hlx) as (_ & ? & ?).
    assert (rd (freelist s) (active s) = Ret (active s)) as Hrd.
    { apply rd_lookup; [lia|]. rewrite Hfl, list_lookup_fmap, lookup_seqZ_lt by lia. simpl. f_equal.
      rewrite s16_small by lia. lia. }
    rewrite Hrd. mrun (eq_refl (Ret (active s, st1))).
    pose proof (obj_size_bounds _ Hsz). rewrite <- Hs1 in *.
    assert (0 <= sp_size p1 * active s) by (apply Z.mul_nonneg_nonneg; lia).
    assert (sp_size p1 * active s + sp_size p1 <= nr_obj s * sp_size p1) by nia. unfold sizeof_slab in *.
    rewrite (s32_small (sp_size p1 * active s)), u64_small by lia.
    destruct (inv_take st1 (sl_pool s) p1 x s Hi1 Hp1 Hx eq_refl Hfr) as (Hi' & Hh' & Hl').
    assert (forall b, ~ handed_in st b (obj_start s + sp_size p1 * active s)) as Hfresh.
    { intros b. rewrite <- Hh. by eapply take_fresh. }
    exists (obj_start s + sp_size p1 * active s),
      (mkSlabs (ss_pages st1) (<[x := taken s]> (ss_slabs st1))
         (<[sl_pool s := pool_after_take p1 x s]> (ss_pools st1)) (ss_caches st1) (pool_ptrs st1) (nr_pools st1)).
    split.
    { clear -Hp1. unfold set_slab, set_pool, pool_after_take. mstep.
      destruct (nr_free s - 1 =? 0); [reflexivity|]. cbn. by rewrite (insert_id _ _ _ Hp1). }
    split; [exact Hi'|]. split_and!.
    + apply Hh'. by right.
    + intros [Hin _]. by apply (Hfresh (sl_pool s)).
    + intros b o'. rewrite Hl'. by rewrite Hl.
    + intros _. split; done.
    + eapply pools_kept_trans; [exact Hk|]. destruct (pool_after_take_same p1 x s) as (? & ? & ? & ?).
      by apply pools_kept_update with p1.
    + destruct Htk as [?|[? ?]]; [by left|right]. split; [by apply Hup|done].
  - right. destruct l as [|o l]; [done|]. destruct Hch as (_ & c & Hc & <- & Hch).
    assert (get_cache (sp_cache p) st = Ret (c, st)) as Hg by (unfold get_cache; mstep; by rewrite Hc).
    mrun Hg. destruct (inv_pop st a p c Hi Hp Hc0 Hc) as (Hi' & Hhd & Hl & Hnl).
    eexists (c_obj c), _. split; [reflexivity|]. split; [exact Hi'|]. split_and!; try done.
    + by apply (handed_pool _ _ a p).
    + by eapply pools_kept_update.
    + by left.
Qed.

Lemma slab_alloc_pool_starved st a p :
  slab_inv st -> ss_pools st !! a = Some p -> used_up st a p -> no_page st -> slab_alloc_pool a st = Halt.
Proof.
  intros Hi Hp Hup Hno. pose proof (po_size _ _ _ _ _ (si_pool st Hi a p Hp)) as (_ & _ & _ & Ha0).
  apply (used_up_partial st a p Hi Hp) in Hup as [Hc Hpa]. unfold slab_alloc_pool, assertM, assert_.
  destruct (Z.eqb_spec a 0); [done|]. cbn [negb]. mrun (eq_refl (Ret (tt, st))). mrun (get_pool_run st a p Hp). rewrite Hc. cbn [negb Z.eqb].
  assert (realloc 2 a st = Halt) as Hr; [|unfold mbind, M_bind; by rewrite Hr].
  cbn [realloc]. mrun (get_pool_run st a p Hp). rewrite Hpa.
  destruct (slab_refill_spec st a p Hi Hp) as [[Hr _]|(x & s & st1 & _ & _ & _ & _ & _ & _ & _ & _ & _ & _ & va & Hva & He)]; [by mrun Hr|].
  unfold no_page in Hno. congruence.
Qed.

Lemma isaligned_pow2 x k : 0 <= k -> 0 <= x < 2 ^ 64 -> x mod 2 ^ k = 0 -> isaligned x (2 ^ k) = true.
Proof.
  intros Hk Hx Hm. unfold isaligned. rewrite u64_small by lia.
  replace (2 ^ k - 1) with (Z.ones k) by (rewrite Z.ones_equiv; lia).
  rewrite Z.land_ones, Hm by done. done.
Qed.

Lemma slab_of_object x o : slab_addr x -> x <= o < x + 4096 -> align_page_down o = x.
Proof.
  intros (Hm & ? & ?) Ho. unfold align_page_down, PAGE_SIZE. change 4096 with (2 ^ 12).
  rewrite align_down_spec by lia. change (2 ^ 12) with 4096.
  replace o with (o - x + x) at 2 by lia. rewrite <- Zplus_mod_idemp_r, Hm, Z.add_0_r, Z.mod_small by lia. lia.
Qed.

Lemma slab_free_spec st a p ptr :
  slab_inv st -> ss_pools st !! a = Some p -> a <> cache_pool -> a <> root_pool -> live st a ptr ->
  (slab_free cache_pool ptr st = Halt /\ no_page st) \/
  (exists k st' p', slab_free cache_pool ptr st = Ret (tt, st') /\ slab_inv st' /\
     (forall b o, live st' b o <-> live st b o /\ ~ (b = a /\ o = ptr) \/ (b = cache_pool /\ o = k)) /\
     ~ live st cache_pool k /\
     ss_pools st' !! a = Some p' /\ sp_cache p' = k /\ k <> 0 /\ (exists c, ss_caches st' !! k = Some c /\ c_obj c = ptr) /\
     pools_kept st st' /\ (ss_pages st' = ss_pages st \/ page_taken st st')).
Proof.
  intros Hi Hp Hac Har Hlive. pose proof Hlive as [Hhd _].
  destruct (handed_place st a ptr Hi Hhd) as (x & s & q & Hx & Hsp & Hq & Hsz & Hlo & Hxo & Hhi & Hm & Hax).
  assert (align_page_down ptr = x) as Hal.
  { apply slab_of_object; [done|]. pose proof (obj_size_bounds _ Hsz). lia. }
  subst a. assert (q = p) as -> by congruence. unfold slab_free. rewrite Hal. mrun (get_slab_run st x s Hx).
  destruct (si_slab st Hi x s Hx) as [_ [(q & Hq' & Hlay) _ Hmag (Hc1 & Hc2 & Hc3)]].
  destruct (po_size _ _ _ _ _ (si_pool st Hi _ _ Hp)) as (_ & Hosz & _ & _).
  assert (nr_free s < nr_obj s) as Hfree.
  { destruct Hhd as (y & t & r & i & Hy & Hty & Hr & Hact & E).
    destruct (decide (y = x)) as [->|Hne]; [assert (t = s) as -> by congruence; lia|].
    destruct (si_slab st Hi y t Hy) as [Hly [(r' & Hr' & (? & ? & Hlo' & Hhi')) _ _ (? & ? & ?)]].
    rewrite Hty in Hr'. assert (r = p /\ r' = p) as [-> ->] by (split; congruence).
    pose proof (obj_size_bounds _ Hsz). unfold sizeof_slab in *.
    assert (0 <= sp_size p * i) by (apply Z.mul_nonneg_nonneg; lia).
    assert (sp_size p * i + sp_size p <= nr_obj t * sp_size p) by nia.
    destruct (Z.lt_total x y) as [Hlt|[?|Hlt]]; [|done|].
    - pose proof (slab_pages_disjoint st _ _ _ _ Hi Hx Hy Hlt). lia.
    - pose proof (slab_pages_disjoint st _ _ _ _ Hi Hy Hx Hlt). lia. }
  pose proof Hax as (_ & ? & ?).
  unfold assertM, assert_. rewrite Hmag, Z.eqb_refl. mrun (eq_refl (Ret (tt, st))).
  destruct (Z.leb_spec (obj_start s) ptr); [|lia]. mrun (eq_refl (Ret (tt, st))).
  destruct (Z.ltb_spec (nr_free s) (nr_obj s)); [|lia]. mrun (eq_refl (Ret (tt, st))).
  mrun (get_pool_run st _ p Hp). rewrite Hosz. pose proof Hsz as (k & Hk & E). rewrite E in *.
  rewrite isaligned_pow2 by (done || lia). mrun (eq_refl (Ret (tt, st))).
  destruct (si_cpool st Hi) as (cp & Hcp & Hcp0).
  destruct (slab_alloc_pool_spec st cache_pool cp Hi Hcp)
    as [(Hr & Hno & _)|(c & st1 & Hr & Hi1 & Hh1 & Hnl1 & Hl1 & Hfresh & Hk1 & Htk)].
  { left. split; [|done]. unfold mbind, M_bind. by rewrite Hr. }
  right. mrun Hr. destruct (Hfresh Hcp0) as [Hca Hnh].
  assert (live st1 (sl_pool s) ptr) as Hlive1 by (apply Hl1; by left).
  destruct Hk1 as (Hk1a & Hk1b & Hk1d & Hk1c). destruct (Hk1c _ _ Hp) as (p1 & Hp1 & Hs1 & Hs2).
  destruct (handed_place st1 _ ptr Hi1 (proj1 Hlive1)) as (x1 & s1 & q1 & Hx1 & Hsp1 & Hq1 & Hsz1 & _ & Hxo1 & Hhi1 & _ & Hax1).
  assert (x1 = x) as ->.
  { rewrite <- Hal. symmetry. apply slab_of_object; [done|]. pose proof (obj_size_bounds _ Hsz1). lia. }
  mrun (get_slab_run st1 x s1 Hx1). rewrite Hsp1. mrun (get_pool_run st1 _ p1 Hp1).
  assert (ss_caches st1 !! c = None) as Hcn.
  { rewrite Hca. destruct (ss_caches st !! c) as [n|] eqn:En; [|done].
    by destruct (Hnh cache_pool (si_nodes st Hi c n En)). }
  assert (c <> 0) as Hc0.
  { destruct (handed_place st1 cache_pool c Hi1 Hh1) as (x2 & _ & _ & _ & _ & _ & _ & _ & ? & _ & _ & _ & ? & _). lia. }
  destruct (inv_push st1 (sl_pool s) p1 c ptr Hi1 Hp1 Hac Har Hlive1 Hcn Hh1 Hc0) as (Hi2 & Hl2).
  eexists c, _, (pool_with p1 (sp_partial p1) (sp_full p1) c).
  split; [reflexivity|]. split; [exact Hi2|]. cbn [ss_pools ss_caches]. rewrite !lookup_insert_eq.
  split_and!; try done.
  - intros b o. rewrite Hl2, Hl1. naive_solver.
  - by eexists.
  - apply (pools_kept_trans st st1); [by split_and!|].
    exact (pools_kept_update st1 (sl_pool s) p1 (pool_with p1 (sp_partial p1) (sp_full p1) c) _ _ _ Hp1 eq_refl eq_refl).
  - destruct Htk as [?|[_ ?]]; [by left|by right].
Qed.

(** *** A new pool *)
Lemma inv_new_pool st o name sz ptrs nr :
  slab_inv st -> live st root_pool o -> ss_pools st !! o = None -> o <> 0 -> obj_size_ok sz ->
  let st' := mkSlabs (ss_pages st) (ss_slabs st) (<[o := mkPool name sz sz 0 [] [] 0]> (ss_pools st))
               (ss_caches st) ptrs nr in
  slab_inv st' /\ (forall b x, live st' b x <-> live st b x).
Proof.
  intros Hi Hlo Hn Ho0 Hsz st'.
  assert (forall x s, ss_slabs st !! x = Some s -> sl_pool s <> o) as Hns.
  { intros x s Hx E. destruct (si_slab st Hi x s Hx) as [_ [(q & Hq & _) _ _ _]]. congruence. }
  assert (forall b x, handed_in st' b x <-> handed_in st b x) as Hh.
  { intros b x. unfold handed_in, handed, st'. simpl.
    split; intros (y & s & q & i & Hy & <- & Hq & Hr); exists y, s, q, i; (split; [done|]); (split; [done|]);
      pose proof (Hns y s Hy); rewrite lookup_insert_ne in * by done; done. }
  assert (forall b x, live st' b x <-> live st b x) as Hl.
  { apply live_same; [done|]. intros b x. unfold cached, st'. simpl. destruct (decide (b = o)) as [->|].
    - rewrite lookup_insert_eq, Hn. split; [|naive_solver]. intros (q & l & [= <-] & Hl & Hx).
      simpl in Hl. destruct l as [|? l]; [by apply elem_of_nil in Hx|]. by destruct Hl.
    - by rewrite lookup_insert_ne. }
  split; [|done]. split; cbn [st' ss_pages ss_slabs ss_pools ss_caches] in *.
  - apply Hi.
  - intros x s Hx. destruct (si_slab st Hi x s Hx) as [? [(q & Hq & ?) ? ? ?]]. split; [done|]. split; try done.
    exists q. pose proof (Hns x s Hx). by rewrite lookup_insert_ne.
  - intros b q Hb. destruct (decide (b = o)) as [->|Hne].
    + rewrite lookup_insert_eq in Hb. injection Hb as <-. split; simpl; [done| | |].
      * intros x. split; [by intros ?%elem_of_nil|]. intros (s & Hs & E & _). by destruct (Hns x s Hs).
      * intros x. split; [by intros ?%elem_of_nil|]. intros (s & Hs & E & _). by destruct (Hns x s Hs).
      * exists []. split_and!; [done|constructor|]. by intros x ?%elem_of_nil.
    + rewrite lookup_insert_ne in Hb by done. destruct (si_pool st Hi b q Hb) as [? ? ? (l & ? & ? & Hin)].
      split; try done. exists l. split_and!; [done..|]. intros x Hx. apply Hh. by apply Hin.
  - intros c n Hc. apply Hh. by apply (si_nodes st Hi c n).
  - destruct (si_cpool st Hi) as (q & Hq & ?). exists q. rewrite lookup_insert_ne by congruence. done.
  - intros b q Hb. rewrite Hl. destruct (decide (b = o)) as [->|]; [by right; right|].
    rewrite lookup_insert_ne in Hb by done. by apply (si_keys st Hi b q).
  - apply Hi.
Qed.

(** The static pools are not objects. *)
Lemma static_not_handed st a o : slab_inv st -> handed_in st a o -> o <> root_pool /\ o <> cache_pool.
Proof.
  intros Hi Hh. destruct (handed_place st a o Hi Hh) as (x & s & p & Hx & _ & _ & Hsz & _ & Hlo & Hhi & _).
  destruct (si_slab st Hi x s Hx) as [Hl _]. pose proof (obj_size_bounds _ Hsz).
  assert (pa_arena (ss_pages st) o) by (eapply pa_live_arena; [apply Hi|done|lia]).
  destruct (si_static st Hi) as (? & ? & _). split; by intros ->.
Qed.

Lemma slab_pool_create_spec st p name sz :
  slab_inv st -> ss_pools st !! root_pool = Some p -> obj_size_ok sz ->
  length (pool_ptrs st) = 32%nat -> 0 <= nr_pools st < 32 ->
  (slab_pool_create root_pool name sz st = Halt /\ no_page st) \/
  (exists a st', slab_pool_create root_pool name sz st = Ret (a, st') /\ slab_inv st' /\ a <> 0 /\
     a <> root_pool /\ a <> cache_pool /\ ss_pools st' !! a = Some (mkPool name sz sz 0 [] [] 0) /\
     (forall b o, live st' b o <-> live st b o \/ (b = root_pool /\ o = a)) /\
     pool_ptrs st' = <[Z.to_nat (nr_pools st) := a]> (pool_ptrs st) /\ nr_pools st' = nr_pools st + 1 /\
     (forall b q, ss_pools st !! b = Some q -> exists q', ss_pools st' !! b = Some q' /\ sp_obj_size q' = sp_obj_size q)).
Proof.
  intros Hi Hp Hsz Hlen Hnr. unfold slab_pool_create.
  destruct (slab_alloc_pool_spec st root_pool p Hi Hp)
    as [(Hr & Hno & _)|(a & st1 & Hr & Hi1 & Hh1 & Hnl1 & Hl1 & _ & (Hk1 & Hk2 & Hk3 & Hk4) & _)].
  { left. split; [|done]. unfold mbind, M_bind. by rewrite Hr. }
  right. mrun Hr. destruct (static_not_handed st1 root_pool a Hi1 Hh1) as [Har Hac].
  assert (a <> 0) as Ha0.
  { destruct (handed_place st1 _ a Hi1 Hh1) as (x2 & _ & _ & _ & _ & _ & _ & _ & ? & _ & _ & _ & ? & _). lia. }
  destruct (Z.eqb_spec a 0); [done|].
  assert (ss_pools st1 !! a = None) as Hn.
  { apply Hk3. destruct (ss_pools st !! a) as [q|] eqn:E; [|done]. exfalso.
    destruct (si_keys st Hi a q E) as [?|[?|?]]; done. }
  assert (live st1 root_pool a) as Hla by (apply Hl1; by right).
  destruct (inv_new_pool st1 a name sz (<[Z.to_nat (nr_pools st) := a]> (pool_ptrs st)) (nr_pools st + 1) Hi1 Hla Hn Ha0 Hsz)
    as [Hi2 Hl2].
  eexists a, _. split.
  { unfold slab_pool_init. mstep. unfold set_pool, set_ptrs. mstep. rewrite Hk1, Hk2. unfold MAX_MEM_POOLS.
    destruct (Z.leb_spec 32 (nr_pools st)); [lia|]. rewrite wr_in by lia. reflexivity. }
  split; [exact Hi2|]. cbn [ss_pools pool_ptrs nr_pools]. rewrite lookup_insert_eq. split_and!; try done.
  - intros b o. rewrite Hl2. apply Hl1.
  - intros b q Hq. destruct (Hk4 b q Hq) as (q' & Hq' & _ & ?). exists q'. rewrite lookup_insert_ne by congruence. done.
Qed.

(** *** The pool table *)

(** The slots from [k] hold pools of the sizes [l]. *)
Definition table_has (st : St) (k : Z) (l : list Z) : Prop :=
  forall j sz, l !! j = Some sz -> exists a q,
    pool_ptrs st !! (Z.to_nat k + j)%nat = Some a /\ ss_pools st !! a = Some q /\ sp_obj_size q = sz.

Lemma create_pools_spec l st p :
  slab_inv st -> ss_pools st !! root_pool = Some p -> Forall (fun x => obj_size_ok x.2) l ->
  length (pool_ptrs st) = 32%nat -> 0 <= nr_pools st -> nr_pools st + Z.of_nat (length l) <= 32 ->
  create_pools root_pool l st = Halt \/
  (exists st', create_pools root_pool l st = Ret (0, st') /\ slab_inv st' /\
     length (pool_ptrs st') = 32%nat /\ nr_pools st' = nr_pools st + Z.of_nat (length l) /\
     table_has st' (nr_pools st) l.*2 /\
     (forall j, (j < Z.to_nat (nr_pools st) \/ Z.to_nat (nr_pools st) + length l <= j)%nat ->
        pool_ptrs st' !! j = pool_ptrs st !! j) /\
     (forall b q, ss_pools st !! b = Some q -> exists q', ss_pools st' !! b = Some q' /\ sp_obj_size q' = sp_obj_size q) /\
     (forall j a, (Z.to_nat (nr_pools st) <= j < Z.to_nat (nr_pools st) + length l)%nat -> pool_ptrs st' !! j = Some a ->
        a <> root_pool /\ a <> cache_pool)).
Proof.
  revert st p. induction l as [|[name sz] l IH]; intros st p Hi Hp Hall Hlen Hnr Hle; cbn [create_pools].
  { right. exists st. split_and!; try done; [simpl; lia| |cbn; lia]. intros b q Hq. by exists q. }
  apply Forall_cons in Hall as [Hsz Hall]. cbn [length] in Hle.
  destruct (slab_pool_create_spec st p name sz Hi Hp Hsz Hlen ltac:(lia))
    as [[Hr _]|(a & st1 & Hr & Hi1 & Ha0 & Har & Hac & Hpa & _ & Hpt & Hn1 & Hk1)].
  { left. unfold mbind, M_bind. by rewrite Hr. }
  mrun Hr. destruct (Z.eqb_spec a 0); [done|]. destruct (Hk1 _ _ Hp) as (p1 & Hp1 & _).
  destruct (IH st1 p1 Hi1 Hp1 Hall) as [?|(st2 & Hr2 & Hi2 & Hlen2 & Hn2 & Ht2 & Hold2 & Hk2 & Hne2)];
    [by rewrite Hpt, length_insert|lia|lia|by left|]. rewrite Hn1 in *.
  right. exists st2. split_and!; try done.
  - cbn [length]. lia.
  - intros [|j] sz' Hj; cbn in Hj.
    + injection Hj as <-. destruct (Hk2 _ _ Hpa) as (q' & Hq' & ?). exists a, q'. split_and!; [|done..].
      rewrite Hold2 by lia. rewrite Hpt. replace (Z.to_nat (nr_pools st) + 0)%nat with (Z.to_nat (nr_pools st)) by lia.
      apply list_lookup_insert_eq. lia.
    + destruct (Ht2 j sz' Hj) as (b & q & Hb & Hq & ?). exists b, q. split_and!; [|done..].
      rewrite <- Hb. f_equal. lia.
  - intros j Hj. cbn [length] in Hj. rewrite Hold2 by lia. rewrite Hpt. apply list_lookup_insert_ne. lia.
  - intros b q Hq. destruct (Hk1 b q Hq) as (q1 & Hq1 & E1). destruct (Hk2 b q1 Hq1) as (q2 & Hq2 & E2).
    exists q2. split; [done|congruence].
  - cbn [length]. intros j b Hj Hb. destruct (decide (j = Z.to_nat (nr_pools st))) as [->|Hne]; [|apply (Hne2 j b); [lia|done]].
    rewrite Hold2, Hpt, list_lookup_insert_eq in Hb by lia. by injection Hb as <-.
Qed.

(** The state with the two static pools. *)
Definition static_state (pg : PS) : St :=
  mkSlabs pg ∅ (<[cache_pool := static_pool "[cache-pool]" 16]> {[root_pool := static_pool "[root-pool]" 64]}) ∅
    (<[1%nat := cache_pool]> (<[0%nat := root_pool]> (replicate 32 0))) 2.

Lemma static_state_inv pg :
  pa_inv pg -> ~ pa_arena pg root_pool -> ~ pa_arena pg cache_pool -> root_pool <> 0 -> cache_pool <> 0 ->
  root_pool <> cache_pool -> slab_inv (static_state pg).
Proof.
  intros Hpg Hr Hc Hr0 Hc0 Hrc.
  assert (forall a p, ss_pools (static_state pg) !! a = Some p ->
    (a = root_pool /\ p = static_pool "[root-pool]" 64 \/ a = cache_pool /\ p = static_pool "[cache-pool]" 16)) as Hk.
  { intros a p. simpl. destruct (decide (a = cache_pool)) as [->|]; [rewrite lookup_insert_eq; naive_solver|].
    rewrite lookup_insert_ne by done. intros [<- <-]%lookup_singleton_Some. by left. }
  split; try done.
  - intros a p Hp. assert (obj_size_ok 64 /\ obj_size_ok 16) as [? ?].
    { split; [exists 6|exists 4]; (split; [lia|done]). }
    assert (a <> 0) by (destruct (Hk a p Hp) as [[-> _]|[-> _]]; done).
    assert (sp_partial p = [] /\ sp_full p = [] /\ sp_cache p = 0 /\ obj_size_ok (sp_size p) /\
      sp_obj_size p = sp_size p /\ sp_gfporder p = 0) as (E1 & E2 & E3 & E4 & E5 & E6)
      by (destruct (Hk a p Hp) as [[_ ->]|[_ ->]]; done).
    split.
    + done.
    + intros x. rewrite E1. split; [by intros ?%elem_of_nil|]. intros (s & Hs & _). by destruct (lookup_empty_Some (M := gmap Z) x s).
    + intros x. rewrite E2. split; [by intros ?%elem_of_nil|]. intros (s & Hs & _). by destruct (lookup_empty_Some (M := gmap Z) x s).
    + exists []. rewrite E3. split_and!; [done|constructor|]. by intros o ?%elem_of_nil.
  - eexists. simpl. rewrite lookup_insert_eq. done.
  - intros a p Hp. destruct (Hk a p Hp) as [[-> _]|[-> _]]; auto.
Qed.

Lemma init_slab_static pg :
  init_slab root_pool cache_pool (slab_state0 pg) = create_pools root_pool general_pools (static_state pg).
Proof. reflexivity. Qed.

Definition size_table : list Z := [8; 16; 32; 64; 128; 256; 512].

(** The table [init_slab] builds. *)
Definition pool_table (st : St) : Prop :=
  pool_ptrs st !! 0%nat = Some root_pool /\
  (exists q, ss_pools st !! root_pool = Some q /\ sp_obj_size q = sizeof_slab_pool) /\
  table_has st 2 size_table /\ pool_ptrs st !! 9%nat = Some 0.

Lemma init_slab_spec pg :
  pa_inv pg -> ~ pa_arena pg root_pool -> ~ pa_arena pg cache_pool -> root_pool <> 0 -> cache_pool <> 0 ->
  root_pool <> cache_pool ->
  init_slab root_pool cache_pool (slab_state0 pg) = Halt \/
  exists st, init_slab root_pool cache_pool (slab_state0 pg) = Ret (0, st) /\ slab_inv st /\ pool_table st /\ nr_pools st = 9 /\
    pool_ptrs st !! 1%nat = Some cache_pool /\ (forall i a, (i < 7)%nat -> pool_ptrs st !! (2 + i)%nat = Some a -> a <> root_pool /\ a <> cache_pool).
Proof.
  intros. rewrite init_slab_static.
  assert (ss_pools (static_state pg) !! root_pool = Some (static_pool "[root-pool]" 64)) as Hroot.
  { simpl. rewrite lookup_insert_ne by done. apply lookup_singleton_eq. }
  destruct (create_pools_spec general_pools (static_state pg) _ (static_state_inv pg ltac:(done) ltac:(done) ltac:(done) ltac:(done) ltac:(done) ltac:(done)) Hroot)
    as [?|(st & Hr & Hi & Hlen & Hn & Ht & Hold & Hk & Hne)]; [|done|done|done|by left|].
  { repeat (apply Forall_cons_2; [|]); try (apply Forall_nil_2); cbn [snd];
      [exists 3|exists 4|exists 5|exists 6|exists 7|exists 8|exists 9]; (split; [lia|done]). }
  right. exists st. split; [done|]. split; [done|]. split; [|split; [done|split; [rewrite Hold; [done|left; simpl; lia]|
    intros i a Hi7 Ha; apply (Hne (2 + i)%nat a); [simpl; lia|done]]]]. unfold pool_table. split_and!; try done.
  - rewrite Hold; [done|]. left. simpl. lia.
  - destruct (Hk _ _ Hroot) as (q & ? & ?). by exists q.
  - rewrite Hold; [done|]. right. simpl. lia.
Qed.

(** The loop of [slab_alloc] from slot [2 + j]. *)
Lemma slab_alloc_loop_spec st bytes n j :
  pool_table st -> (j + n = 8)%nat ->
  (forall i sz, (i < j)%nat -> size_table !! i = Some sz -> sz < bytes) ->
  (exists i a sz q, (j <= i)%nat /\ size_table !! i = Some sz /\ bytes <= sz /\
     (forall i' sz', (i' < i)%nat -> size_table !! i' = Some sz' -> sz' < bytes) /\
     pool_ptrs st !! (2 + i)%nat = Some a /\ ss_pools st !! a = Some q /\ sp_obj_size q = sz /\
     slab_alloc_loop n (2 + Z.of_nat j) bytes st = slab_alloc_pool a st) \/
  (forall i sz, size_table !! i = Some sz -> sz < bytes).
Proof.
  intros Ht. revert j. induction n as [|n IH]; intros j Hjn Hlt.
  { right. intros i sz Hi. apply (Hlt i sz); [|done]. apply lookup_lt_Some in Hi. simpl in Hi. lia. }
  destruct (size_table !! j) as [sz|] eqn:Ej.
  - pose proof Ht as (_ & _ & Htab & _). destruct (Htab j sz Ej) as (a & q & Ha & Hq & Esz).
    destruct (Z.leb_spec bytes sz) as [Hle|Hgt].
    + left. exists j, a, sz, q. split_and!; try done. cbn [slab_alloc_loop]. mrun (eq_refl (Ret (st, st))).
      rewrite (rd_lookup _ _ a); [|lia|rewrite <- Ha; f_equal; lia]. mrun (eq_refl (Ret (a, st))).
      mrun (get_pool_run st a q Hq). rewrite Esz. destruct (Z.leb_spec bytes sz); [done|lia].
    + destruct (IH (S j)) as [(i & b & sz' & q' & ? & ? & ? & ? & ? & ? & ? & He)|?]; [lia| | |by right].
      { intros i sz' Hi Hs. destruct (decide (i = j)) as [->|]; [congruence|]. apply (Hlt i); [lia|done]. }
      left. exists i, b, sz', q'. split_and!; try done; [lia|].
      cbn [slab_alloc_loop]. mrun (eq_refl (Ret (st, st))).
      rewrite (rd_lookup _ _ a); [|lia|rewrite <- Ha; f_equal; lia]. mrun (eq_refl (Ret (a, st))).
      mrun (get_pool_run st a q Hq). rewrite Esz. destruct (Z.leb_spec bytes sz); [lia|].
      rewrite <- He. f_equal. lia.
  - right. intros i sz Hi. apply (Hlt i sz); [|done]. apply lookup_lt_Some in Hi.
    apply lookup_ge_None in Ej. lia.
Qed.

Lemma slab_alloc_is_loop st bytes :
  slab_inv st -> pool_table st -> bytes < 4096 -> slab_alloc bytes st = slab_alloc_loop 8 2 bytes st.
Proof.
  intros Hi (H0 & (rq & Hrq & Hrsz) & _) Hb. unfold slab_alloc, assertM, assert_, PAGE_SIZE. destruct (Z.ltb_spec bytes 4096); [|lia].
  mrun (eq_refl (Ret (tt, st))). mrun (eq_refl (Ret (st, st))). rewrite (rd_lookup _ 0 root_pool) by done.
  mrun (eq_refl (Ret (root_pool, st))). destruct (si_static st Hi) as (_ & _ & Hr0 & _).
  destruct (Z.eqb_spec root_pool 0); [done|].
  erewrite M_bind_run; [reflexivity|]. mrun (get_pool_run st _ rq Hrq). rewrite Hrsz. reflexivity.
Qed.

(** A small request goes to one of the general pools. *)
Lemma slab_alloc_small st bytes :
  slab_inv st -> pool_table st -> bytes <= 512 ->
  exists i a q, size_table !! i = Some (sp_obj_size q) /\ bytes <= sp_obj_size q /\
    (forall i' sz', (i' < i)%nat -> size_table !! i' = Some sz' -> sz' < bytes) /\
    pool_ptrs st !! (2 + i)%nat = Some a /\ ss_pools st !! a = Some q /\ slab_alloc bytes st = slab_alloc_pool a st.
Proof.
  intros Hi Ht Hb. rewrite slab_alloc_is_loop by (done || lia).
  destruct (slab_alloc_loop_spec st bytes 8 0 Ht eq_refl) as [(i & a & sz & q & _ & Hsz & Hle & Hmin & Ha & Hq & E & He)|Hall].
  - intros i sz Hlt. lia.
  - subst sz. exists i, a, q. by split_and!.
  - specialize (Hall 6%nat 512 eq_refl). lia.
Qed.
End SlabSpec.

(** ** Properties *)

(** C5: [slab_alloc_pool] on a well-formed allocator stops the machine exactly
    when the pool has no free object, neither on its cache nor in a slab, and
    the page allocator has no page; otherwise it returns an object aligned to
    the pool's object size that was not in use and overlaps no object in use,
    of this or of any other pool, the state stays well formed, and a page is
    taken only when the pool had no free object. *)
Theorem slab_alloc_pool_fresh {PS : Type} {PA : PageAlloc PS} (root_pool cache_pool : Z) (st : slab_state PS)
  (a : Z) (p : slab_pool) (Hi : slab_inv root_pool cache_pool st) (Hp : ss_pools st !! a = Some p) :
  (slab_alloc_pool a st = Halt <-> used_up st a p /\ no_page st) /\
  (slab_alloc_pool a st = Halt \/
   exists o st', slab_alloc_pool a st = Ret (o, st') /\ slab_inv root_pool cache_pool st' /\
     o mod sp_size p = 0 /\ ~ live st a o /\
     (forall b o', live st' b o' <-> live st b o' \/ (b = a /\ o' = o)) /\
     (forall b q o', ss_pools st !! b = Some q -> live st b o' ->
        o + sp_size p <= o' \/ o' + sp_size q <= o) /\
     (ss_pages st' = ss_pages st \/ used_up st a p /\ page_taken st st')).
Proof.
  destruct (slab_alloc_pool_spec root_pool cache_pool st a p Hi Hp)
    as [(Hr & Hno & Hup)|(o & st' & Hr & Hi' & Hh & Hnl & Hl & _ & (_ & _ & _ & Hk) & Htk)]; [by split; [|left]|].
  split.
  { split; [congruence|]. intros [Hup Hno]. by rewrite (slab_alloc_pool_starved root_pool cache_pool st a p Hi Hp Hup Hno). }
  right. exists o, st'. destruct (Hk a p Hp) as (p' & Hp' & Hsz & _).
  destruct (handed_place _ _ st' a o Hi' Hh) as (_ & _ & q & _ & _ & Hq & _ & _ & _ & _ & Hm & _).
  split_and!; try done; [congruence|].
  intros b q' o' Hq' Hlo. destruct (Hk b q' Hq') as (q2 & Hq2 & Hsz2 & _).
  destruct (handed_disjoint _ _ st' a o p' b o' q2 Hi' Hh) as [[-> ->]|Hd]; [apply Hl; by left|done|done|done|].
  rewrite Hsz, Hsz2 in Hd. lia.
Qed.

(** A machine with the two static pools in the boot image. *)
Definition demo_root_pool : Z := ptov 0x30001000.
Definition demo_cache_pool : Z := ptov 0x30001040.
Definition demo_slabs : slab_state page_state :=
  match init_slab demo_root_pool demo_cache_pool (slab_state0 demo_pages) with
  | Ret (_, st) => st
  | _ => slab_state0 demo_pages
  end.
Definition demo_pool8 : Z := default 0 (pool_ptrs demo_slabs !! 2%nat).

Lemma demo_not_arena : ~ page_arena demo_pages demo_root_pool /\ ~ page_arena demo_pages demo_cache_pool.
Proof. split; intros (ps & [= <-] & Hr); vm_compute in Hr; by destruct Hr as [[] _]. Qed.

Lemma demo_pages_inv : page_inv demo_pages.
Proof. exists demo_section. split; [reflexivity|apply demo_section_inv]. Qed.

Lemma demo_slabs_ok :
  slab_inv demo_root_pool demo_cache_pool demo_slabs /\ pool_table demo_root_pool demo_slabs.
Proof.
  destruct demo_not_arena as [H1 H2].
  destruct (init_slab_spec (PA := page_alloc_impl) demo_root_pool demo_cache_pool demo_pages demo_pages_inv H1 H2)
    as [E|(st & E & Hi & Ht & _)]; [vm_compute; discriminate..| |].
  - exfalso. vm_compute in E. discriminate.
  - unfold demo_slabs. rewrite E. split; assumption.
Qed.

Lemma slab_alloc_pool_fresh_witness :
  exists o st', slab_alloc_pool demo_root_pool demo_slabs = Ret (o, st') /\
    slab_inv demo_root_pool demo_cache_pool st'.
Proof.
  destruct demo_slabs_ok as [Hi (_ & (q & Hq & _) & _)].
  destruct (slab_alloc_pool_fresh demo_root_pool demo_cache_pool demo_slabs demo_root_pool q Hi Hq)
    as [Hh [E|(o & st' & ? & ? & _)]].
  - exfalso. apply Hh in E as [_ Hn]. vm_compute in Hn. discriminate.
  - exists o, st'. split; assumption.
Defined.

(** Freeing an object in use (of a pool other than the two static ones)
    and allocating from the same pool gives that object back: the freed
    object is the next one handed out, everything else in use stays in use.
    The node that recorded it, taken from the cache pool, stays in use
    forever: no code path gives it back. *)
Theorem slab_free_alloc_roundtrip {PS : Type} {PA : PageAlloc PS} (root_pool cache_pool : Z) (st : slab_state PS)
  (a : Z) (p : slab_pool) (ptr : Z) (Hi : slab_inv root_pool cache_pool st) (Hp : ss_pools st !! a = Some p)
  (Ha : a <> cache_pool /\ a <> root_pool) (Hl : live st a ptr) :
  (slab_free cache_pool ptr st = Halt /\ no_page st) \/
  (exists k st1 st2, slab_free cache_pool ptr st = Ret (tt, st1) /\ slab_inv root_pool cache_pool st1 /\
     ~ live st1 a ptr /\ ~ live st cache_pool k /\
     slab_alloc_pool a st1 = Ret (ptr, st2) /\ slab_inv root_pool cache_pool st2 /\
     forall b o, live st2 b o <-> live st b o \/ (b = cache_pool /\ o = k)).
Proof.
  destruct Ha as [Hac Har].
  destruct (slab_free_spec root_pool cache_pool st a p ptr Hi Hp Hac Har Hl)
    as [?|(k & st1 & p1 & Hf & Hi1 & Hl1 & Hk & Hp1 & Hc1 & Hk0 & (c & Hc & Ho) & _)]; [by left|right].
  subst k. destruct (inv_pop root_pool cache_pool st1 a p1 c Hi1 Hp1 Hk0 Hc) as (Hi2 & _ & Hl2 & _).
  eexists (sp_cache p1), st1, _. split; [done|]. split; [done|]. split.
  { rewrite Hl1. naive_solver. }
  split; [done|]. split; [|split; [exact Hi2|]].
  - unfold slab_alloc_pool, assertM, assert_.
    destruct (po_size _ _ _ _ _ (si_pool _ _ st1 Hi1 a p1 Hp1)) as (_ & _ & _ & Ha0).
    destruct (Z.eqb_spec a 0); [done|]. cbn [negb]. mrun (eq_refl (Ret (tt, st1))). mrun (get_pool_run st1 a p1 Hp1).
    destruct (Z.eqb_spec (sp_cache p1) 0); [done|]. cbn [negb].
    assert (get_cache (sp_cache p1) st1 = Ret (c, st1)) as Hg by (unfold get_cache; mstep; by rewrite Hc).
    mrun Hg. rewrite <- Ho. reflexivity.
  - intros b o. rewrite Hl2, Hl1, Ho. destruct (decide (b = a /\ o = ptr)); naive_solver.
Qed.

Lemma slab_free_alloc_roundtrip_witness :
  exists o st, slab_alloc_pool demo_pool8 demo_slabs = Ret (o, st) /\ live st demo_pool8 o /\
    ((slab_free demo_cache_pool o st = Halt /\ no_page st) \/
     exists st1 st2, slab_free demo_cache_pool o st = Ret (tt, st1) /\ slab_alloc_pool demo_pool8 st1 = Ret (o, st2)).
Proof.
  destruct demo_slabs_ok as [Hi (_ & _ & Ht & _)].
  destruct (Ht 0%nat 8 eq_refl) as (a & q & Ha & Hq & _).
  change (Z.to_nat 2 + 0)%nat with 2%nat in Ha.
  assert (a = demo_pool8) as -> by (unfold demo_pool8; rewrite Ha; reflexivity).
  destruct (slab_alloc_pool_spec demo_root_pool demo_cache_pool demo_slabs demo_pool8 q Hi Hq)
    as [(_ & Hn & _)|(o & st & Hr & Hi' & Hh & _ & Hl & _ & (_ & _ & _ & Hk) & _)].
  { exfalso. vm_compute in Hn. discriminate. }
  destruct (Hk _ _ Hq) as (q' & Hq' & _). assert (live st demo_pool8 o) as Hlo by (apply Hl; right; split; reflexivity).
  exists o, st. split; [assumption|]. split; [assumption|].
  destruct (slab_free_alloc_roundtrip demo_root_pool demo_cache_pool st demo_pool8 q' o Hi' Hq')
    as [?|(k & st1 & st2 & ? & _ & _ & _ & ? & _)]; [split; vm_compute; discriminate|assumption|left; assumption|right].
  exists st1, st2. split; assumption.
Defined.

(** [init_slab] on a working page allocator either stops for lack of
    pages or returns 0 with a well-formed state and the table of general
    pools of 8 to 512 bytes in increasing order. *)
Theorem init_slab_builds_table {PS : Type} {PA : PageAlloc PS} (root_pool cache_pool : Z) (pg : PS)
  (Hpg : pa_inv pg) (Hr : ~ pa_arena pg root_pool) (Hc : ~ pa_arena pg cache_pool)
  (Hne : root_pool <> 0 /\ cache_pool <> 0 /\ root_pool <> cache_pool) :
  init_slab root_pool cache_pool (slab_state0 pg) = Halt \/
  exists st, init_slab root_pool cache_pool (slab_state0 pg) = Ret (0, st) /\
    slab_inv root_pool cache_pool st /\ pool_table root_pool st /\ nr_pools st = 9.
Proof.
  destruct Hne as (? & ? & ?). destruct (init_slab_spec root_pool cache_pool pg) as [?|(st & ? & ? & ? & ? & _)]; [done..|by left|].
  right. by exists st.
Qed.

Lemma init_slab_builds_table_witness :
  exists st, init_slab demo_root_pool demo_cache_pool (slab_state0 demo_pages) = Ret (0, st) /\ nr_pools st = 9.
Proof.
  destruct demo_not_arena as [H1 H2].
  destruct (init_slab_builds_table (PA := page_alloc_impl) demo_root_pool demo_cache_pool demo_pages demo_pages_inv H1 H2)
    as [E|(st & E & _ & _ & Hn)]; [split_and!; vm_compute; discriminate| |].
  - exfalso. vm_compute in E. discriminate.
  - exists st. split; assumption.
Defined.

(** With the table of [init_slab], a request of at most 512 bytes is
    served by the smallest general pool whose objects are large enough; one
    of 513 to 4095 bytes runs past the last pool and dereferences the NULL
    entry behind it. *)
Theorem slab_alloc_best_fit {PS : Type} {PA : PageAlloc PS} (root_pool cache_pool : Z) (st : slab_state PS) (bytes : Z)
  (Hi : slab_inv root_pool cache_pool st) (Ht : pool_table root_pool st) (Hb : bytes < 4096) :
  if bytes <=? 512 then
    exists a q, ss_pools st !! a = Some q /\ sp_obj_size q ∈ size_table /\ bytes <= sp_obj_size q /\
      (forall sz, sz ∈ size_table -> bytes <= sz -> sp_obj_size q <= sz) /\
      slab_alloc bytes st = slab_alloc_pool a st
  else slab_alloc bytes st = Fault.
Proof.
  destruct (Z.leb_spec bytes 512).
  - destruct (slab_alloc_small root_pool cache_pool st bytes Hi Ht ltac:(done)) as (i & a & q & Hsz & Hle & Hmin & _ & Hq & He).
    exists a, q. split_and!; [done|by eapply list_elem_of_lookup_2|done| |done].
    intros sz' [j Hj]%list_elem_of_lookup_1 Hle'.
    destruct (decide (j < i)%nat) as [Hlt|Hge]; [specialize (Hmin j sz' Hlt Hj); lia|].
    destruct i as [|[|[|[|[|[|[|i]]]]]]], j as [|[|[|[|[|[|[|j]]]]]]]; simpl in Hsz, Hj; simplify_eq; lia.
  - rewrite (slab_alloc_is_loop root_pool cache_pool st bytes Hi Ht) by done. pose proof Ht as (_ & _ & Htab & H9).
    assert (forall n j, (j + n = 8)%nat -> slab_alloc_loop n (2 + Z.of_nat j) bytes st =
      if decide (n = 0%nat) then Ret (0, st) else Fault) as Hloop.
    { induction n as [|n IH]; intros j Hj; [done|]. cbn [slab_alloc_loop].
      mrun (eq_refl (Ret (st, st))). destruct (size_table !! j) as [sz|] eqn:Ej.
      - destruct (Htab j sz Ej) as (a & q & Ha & Hq & E). 
        rewrite (rd_lookup _ _ a); [|lia|rewrite <- Ha; f_equal; lia]. mrun (eq_refl (Ret (a, st))).
        mrun (get_pool_run st a q Hq). rewrite E.
        assert (sz <= 512 /\ (j < 7)%nat) as [? ?].
        { split; [|by apply lookup_lt_Some in Ej].
          do 7 (destruct j as [|j]; [simpl in Ej; injection Ej as <-; lia|]). done. }
        destruct (Z.leb_spec bytes sz); [lia|]. replace (2 + Z.of_nat j + 1) with (2 + Z.of_nat (S j)) by lia.
        rewrite IH by lia. destruct (decide (n = 0%nat)); [lia|done].
      - apply lookup_ge_None in Ej. simpl in Ej. assert (j = 7%nat) as -> by lia.
        rewrite (rd_lookup _ _ 0); [|lia|exact H9]. mrun (eq_refl (Ret (0, st))).
        unfold get_pool at 1. mstep. destruct (ss_pools st !! 0) as [q|] eqn:E; [|done].
        destruct (po_size _ _ _ _ _ (si_pool _ _ st Hi 0 q E)) as (_ & _ & _ & ?). done. }
    exact (Hloop 8%nat 0%nat eq_refl).
Qed.

Lemma slab_alloc_best_fit_witness :
  slab_alloc 600 demo_slabs = Fault /\
  exists a q, ss_pools demo_slabs !! a = Some q /\ sp_obj_size q = 32 /\ slab_alloc 24 demo_slabs = slab_alloc_pool a demo_slabs.
Proof.
  destruct demo_slabs_ok as [Hi Ht]. split.
  - apply (slab_alloc_best_fit demo_root_pool demo_cache_pool demo_slabs 600 Hi Ht). lia.
  - destruct (slab_alloc_best_fit demo_root_pool demo_cache_pool demo_slabs 24 Hi Ht ltac:(lia))
      as (a & q & Hq & Hin & Hle & Hmin & He).
    exists a, q. split; [assumption|]. split; [|assumption].
    specialize (Hmin 32 ltac:(do 2 right; left) ltac:(lia)).
    unfold size_table in Hin. rewrite !elem_of_cons, elem_of_nil in Hin. lia.
Defined.
