(* ===== verification/Kmem.v ===== *)
(** * kalloc and kfree (ukern/src/kmem.c)

    Requests of at most an eighth of a page go to the slab allocator, larger
    ones to the page allocator; [kfree] asks the slab allocator whether the
    address is one of its objects. *)
From S2P Require Import Prelude Config Bitmap Page Slab SlabSpec.

Section Kmem.
Context (root_pool cache_pool : Z).
Abbreviation St := (slab_state page_state).

Definition kalloc (size : Z) : M St Z :=
  if size <=? PAGE_SIZE / 8 then slab_alloc (s32 size)
  else
    let pages := s32 (Z.shiftr (align_page_up size) PAGE_SHIFT) in
    slab_pages (page_allocn pages).

Definition kfree (addr : Z) : M St () :=
  own ← slab_own_addr addr;
  if negb (own =? 0) then slab_free cache_pool addr else slab_pages (page_free addr).

(** [kallocz] also clears the memory: [memset] is the routine of memset.S. *)
Definition kallocz {Mem} (memset : Z -> Z -> Z -> Mem -> Mem) (size : Z) : M (St * Mem) Z :=
  fun '(s, m) =>
    '(va, s') ← kalloc size s;
    if va =? 0 then Ret (0, (s', m)) else Ret (va, (s', memset va 0 size m)).

(** ** Routing *)

(** Every slot the loop of [slab_own_addr] reads holds a pool. *)
Definition slots_ok (st : St) : Prop :=
  forall i, 1 <= i < nr_pools st ->
    exists a q, pool_ptrs st !! Z.to_nat i = Some a /\ ss_pools st !! a = Some q.

(** [ptr] lies among the objects of slab [x] of the pool in slot [i]. *)
Definition owns (st : St) (i ptr : Z) : Prop :=
  exists a q x s, pool_ptrs st !! Z.to_nat i = Some a /\ ss_pools st !! a = Some q /\
    ss_slabs st !! x = Some s /\ sl_pool s = a /\
    obj_start s <= ptr < obj_start s + sp_size q * nr_obj s.

Lemma owned_by_spec st a q l ptr :
  slab_inv root_pool cache_pool st -> ss_pools st !! a = Some q ->
  (forall x, x ∈ l -> exists s, ss_slabs st !! x = Some s /\ sl_pool s = a) ->
  exists b : bool, owned_by l (sp_obj_size q) ptr st = Ret (b, st) /\
    (b = true <-> exists x s, x ∈ l /\ ss_slabs st !! x = Some s /\
       obj_start s <= ptr < obj_start s + sp_size q * nr_obj s).
Proof.
  intros Hi Hq. induction l as [|x l IH]; intros Hl.
  - exists false. split; [done|]. split; [done|]. intros (? & ? & Hx & _). by apply elem_of_nil in Hx.
  - destruct IH as (b & Hr & Hb); [intros y Hy; apply Hl; by right|].
    destruct (Hl x ltac:(left)) as (s & Hs & Hsp). cbn [owned_by]. mrun (get_slab_run st x s Hs).
    destruct (si_slab _ _ st Hi x s Hs) as [Hlx [(q' & Hq' & (? & ? & ? & ?)) _ _ _]].
    assert (q' = q) as -> by congruence.
    destruct (po_size _ _ _ _ _ (si_pool _ _ st Hi a q Hq)) as (Hsz & Hosz & _). rewrite Hosz in *.
    pose proof (slab_page_addr _ _ (si_pages _ _ st Hi) Hlx) as (_ & ? & ?).
    pose proof (obj_size_bounds _ Hsz). unfold sizeof_slab in *.
    assert (0 <= sp_size q * nr_obj s <= 512 * 504) by (split; [apply Z.mul_nonneg_nonneg|apply Z.mul_le_mono_nonneg]; lia).
    rewrite s32_small, u64_small by lia.
    destruct (Z.leb_spec (obj_start s) ptr), (Z.ltb_spec ptr (obj_start s + sp_size q * nr_obj s)); cbn [andb];
      try (exists b; split; [done|]; rewrite Hb; split;
           [intros (y & t & ? & ?); exists y, t; split; [by right|done]
           |intros (y & t & [->|?]%elem_of_cons & Ht & ?); [simplify_eq; lia|by exists y, t]]).
    exists true. split; [done|]. split; [|done]. intros _. exists x, s. split_and!; [left|done|lia|lia].
Qed.

Lemma own_loop_spec st ptr n i :
  slab_inv root_pool cache_pool st -> slots_ok st -> 1 <= i -> i + Z.of_nat n = nr_pools st ->
  (own_loop n i ptr st = Ret (1, st) /\ exists j, i <= j < nr_pools st /\ owns st j ptr) \/
  (own_loop n i ptr st = Ret (0, st) /\ forall j, i <= j < nr_pools st -> ~ owns st j ptr).
Proof.
  intros Hi Hs. revert i. induction n as [|n IH]; intros i H1 Hin.
  { right. split; [done|]. lia. }
  destruct (Hs i ltac:(lia)) as (a & q & Ha & Hq). cbn [own_loop]. mrun (eq_refl (Ret (st, st))).
  rewrite (rd_lookup _ i a) by (done || lia). mrun (eq_refl (Ret (a, st))). mrun (get_pool_run st a q Hq).
  pose proof (si_pool _ _ st Hi a q Hq) as [_ Hpa Hfu _].
  destruct (owned_by_spec st a q (sp_partial q ++ sp_full q) ptr Hi Hq) as (b & Hr & Hb).
  { intros x [(s & ? & ? & _)%Hpa|(s & ? & ? & _)%Hfu]%elem_of_app; by exists s. }
  mrun Hr. destruct b.
  - left. split; [done|]. destruct (proj1 Hb eq_refl) as (x & s & Hx & Hsx & ?).
    exists i. split; [lia|]. exists a, q, x, s. split_and!; try (done || lia).
    apply elem_of_app in Hx as [(s' & ? & ? & _)%Hpa|(s' & ? & ? & _)%Hfu]; congruence.
  - destruct (IH (i + 1)) as [[He (j & Hj & Ho)]|[He Hno]]; [lia|lia| |].
    + left. split; [done|]. exists j. split; [lia|done].
    + right. split; [done|]. intros j Hj. destruct (decide (j = i)) as [->|]; [|apply Hno; lia].
      intros (a' & q' & x & s & Ha' & Hq' & Hx & Hsp & Hrng). simplify_eq.
      assert (false = true); [|done]. apply Hb. exists x, s. split; [|split; [done|lia]].
      destruct (si_slab _ _ st Hi x s Hx) as [_ [_ _ _ (? & ? & ?)]].
      apply elem_of_app. destruct (decide (nr_free s = 0)); [right; apply Hfu|left; apply Hpa]; exists s; split_and!; done || lia.
Qed.

(** An object in use belongs to its pool, and [kfree] finds it there. *)
Lemma live_owns st i a ptr :
  slab_inv root_pool cache_pool st -> pool_ptrs st !! Z.to_nat i = Some a -> live st a ptr -> owns st i ptr.
Proof.
  intros Hi Ha [(x & s & q & k & Hx & Hsp & Hq & Hk & ->) _]. exists a, q, x, s.
  destruct (si_slab _ _ st Hi x s Hx) as [_ [_ _ _ (? & ? & ?)]].
  pose proof (obj_size_bounds _ (proj1 (po_size _ _ _ _ _ (si_pool _ _ st Hi a q Hq)))).
  split_and!; try done; nia.
Qed.
Lemma kfree_object st i a ptr :
  slab_inv root_pool cache_pool st -> slots_ok st -> 1 <= i < nr_pools st -> pool_ptrs st !! Z.to_nat i = Some a -> live st a ptr ->
  kfree ptr st = slab_free cache_pool ptr st.
Proof.
  intros Hi Hs Hij Ha Hl. unfold kfree, slab_own_addr.
  destruct (own_loop_spec st ptr (Z.to_nat (nr_pools st - 1)) 1 Hi Hs) as [[He _]|[He Hno]]; [lia|lia|by mrun He|].
  exfalso. by apply (Hno i Hij), (live_owns st i a).
Qed.
End Kmem.

(** ** Properties *)

(** C38: [kfree] hands an object in use of any pool but the root pool to
    [slab_free], and the first address of a block of pages that holds no slab
    to [page_free]: the two allocators never free each other's memory. *)
Theorem kfree_dispatch (root_pool cache_pool : Z) (st : slab_state page_state) (ptr : Z)
  (Hi : slab_inv root_pool cache_pool st) (Hs : slots_ok st) (Hn : 1 <= nr_pools st) :
  (forall i a, 1 <= i < nr_pools st -> pool_ptrs st !! Z.to_nat i = Some a -> live st a ptr ->
     kfree cache_pool ptr st = slab_free cache_pool ptr st) /\
  (forall n, page_live (ss_pages st) ptr n -> ss_slabs st !! ptr = None ->
     kfree cache_pool ptr st = slab_pages (page_free ptr) st).
Proof.
  split; [intros i a Hij Ha Hl; by eapply kfree_object|intros n Hl Hx].
  destruct (own_loop_spec root_pool cache_pool st ptr (Z.to_nat (nr_pools st - 1)) 1 Hi Hs) as [[He (j & Hj & Ho)]|[He Hno]];
    [lia|lia| |]; unfold kfree, slab_own_addr; [|by mrun He].
  exfalso. destruct Ho as (a & q & x & s & _ & Hq & Hsx & <- & Hrng).
  destruct (si_slab _ _ st Hi x s Hsx) as [Hlx [(q' & Hq' & (? & ? & ? & ?)) _ _ _]].
  assert (q' = q) as -> by congruence. unfold sizeof_slab in *.
  destruct (Z.lt_total x ptr) as [Hlt|[->|Hlt]]; [|congruence|].
  - pose proof (pa_live_disjoint _ _ _ _ _ (si_pages _ _ st Hi) Hlx Hl Hlt). lia.
  - pose proof (pa_live_disjoint _ _ _ _ _ (si_pages _ _ st Hi) Hl Hlx Hlt).
    destruct (pa_live_range _ _ _ (si_pages _ _ st Hi) Hl) as (_ & _ & ? & _). lia.
Qed.

Lemma kfree_dispatch_witness :
  exists o st, slab_alloc_pool demo_pool8 demo_slabs = Ret (o, st) /\
    kfree demo_cache_pool o st = slab_free demo_cache_pool o st.
Proof.
  destruct demo_slabs_ok as [Hi (_ & _ & Ht & _)].
  destruct (Ht 0%nat 8 eq_refl) as (a & q & Ha & Hq & _). change (Z.to_nat 2 + 0)%nat with 2%nat in Ha.
  assert (a = demo_pool8) as -> by (unfold demo_pool8; rewrite Ha; reflexivity).
  destruct (slab_alloc_pool_spec demo_root_pool demo_cache_pool demo_slabs demo_pool8 q Hi Hq)
    as [(_ & Hn & _)|(o & st & Hr & Hi' & Hh & _ & Hl & _ & (Hk1 & Hk2 & _ & Hk) & _)].
  { exfalso. vm_compute in Hn. discriminate. }
  exists o, st. split; [assumption|].
  assert (nr_pools st = 9) as Hn9 by (rewrite Hk2; vm_compute; reflexivity).
  apply (kfree_dispatch demo_root_pool demo_cache_pool st o Hi') with (i := 2) (a := demo_pool8).
  - intros i Hij. rewrite Hn9 in Hij. rewrite Hk1. destruct (decide (i = 1)) as [->|].
    + destruct (si_cpool _ _ demo_slabs Hi) as (cq & Hcq & _). destruct (Hk _ _ Hcq) as (cq' & Hcq' & _).
      exists demo_cache_pool, cq'. split; [vm_compute; reflexivity|assumption].
    + destruct (lookup_lt_is_Some_2 size_table (Z.to_nat (i - 2))) as [sz Hsz]; [simpl; lia|].
      destruct (Ht _ _ Hsz) as (b & r & Hb & Hr' & _). destruct (Hk _ _ Hr') as (r' & Hr2 & _).
      exists b, r'. split; [|assumption]. rewrite <- Hb. f_equal. lia.
  - lia.
  - lia.
  - rewrite Hk1. exact Ha.
  - apply Hl. right. split; reflexivity.
Defined.
