(* ===== verification/Heap.v ===== *)
(** * The kernel heap as its clients see it (ukern/src/kmem.c)

    An interface for code that only allocates and frees small objects, and the
    proof that kalloc and kfree implement it on the slab allocator. *)
From S2P Require Import Prelude Config Bitmap Page Slab SlabSpec Kmem.

(** [used] are the addresses handed out; with [h_room h n] the next [n]
    requests are served.  A request that cannot be served stops the machine. *)
Class KHeap := {
  heap : Type;
  heap_ok : heap -> Prop;
  used : heap -> Z -> Prop;
  h_room : heap -> nat -> bool;
  h_kalloc : Z -> M heap Z;
  h_kfree : Z -> M heap ();
  h_room_le : forall h n m, (m <= n)%nat -> h_room h n = true -> h_room h m = true;
  h_kalloc_spec : forall h n, heap_ok h -> 0 < n <= 512 ->
    (h_kalloc n h = Halt /\ h_room h 1 = false) \/
    exists p h', h_kalloc n h = Ret (p, h') /\ (heap_ok h' /\ forall m, h_room h (1 + m) = true -> h_room h' m = true) /\
      p <> 0 /\ ~ used h p /\ forall q, used h' q <-> used h q \/ q = p;
  h_kfree_spec : forall h p, heap_ok h -> used h p ->
    (h_kfree p h = Halt /\ h_room h 1 = false) \/
    exists h', h_kfree p h = Ret (tt, h') /\ (heap_ok h' /\ forall m, h_room h (1 + m) = true -> h_room h' m = true) /\
      forall q, used h' q <-> used h q /\ q <> p }.

Section Requests.
Context `{KH : KHeap}.

(** From [h] to [h'] at most [n] requests were served. *)
Definition spends (n : nat) (h h' : heap) : Prop := forall m, h_room h (n + m) = true -> h_room h' m = true.
(** [h] cannot serve [n] requests. *)
Definition short (n : nat) (h : heap) : Prop := h_room h n = false.

Lemma spends_refl n h : spends n h h.
Proof. intros m. apply h_room_le. lia. Qed.
Lemma spends_trans n1 n2 h1 h2 h3 : spends n1 h1 h2 -> spends n2 h2 h3 -> spends (n1 + n2) h1 h3.
Proof. intros H1 H2 m Hm. apply H2, H1. by rewrite Nat.add_assoc. Qed.
Lemma spends_le n n' h h' : (n <= n')%nat -> spends n h h' -> spends n' h h'.
Proof. intros Hle H m Hm. apply H. apply (h_room_le _ (n' + m)); [lia|done]. Qed.
Lemma short_le n n' h : (n <= n')%nat -> short n h -> short n' h.
Proof. unfold short. intros Hle Hn. apply not_true_iff_false. intros E. apply (h_room_le _ _ n) in E; [congruence|done]. Qed.
Lemma short_after n1 n2 h1 h2 : spends n1 h1 h2 -> short n2 h2 -> short (n1 + n2) h1.
Proof. unfold short. intros H1 H2. apply not_true_iff_false. intros E. apply H1 in E. congruence. Qed.
End Requests.

Section Impl.
Context (root_pool cache_pool : Z).
Abbreviation St := (slab_state page_state).

(** [a] is one of the general pools. *)
Definition general (st : St) (a : Z) : Prop := exists i, (i < 7)%nat /\ pool_ptrs st !! (2 + i)%nat = Some a.
Record kmem_ok (st : St) : Prop := {
  ko_inv : slab_inv root_pool cache_pool st;
  ko_table : pool_table root_pool st;
  ko_nr : nr_pools st = 9;
  ko_cache : pool_ptrs st !! 1%nat = Some cache_pool;
  ko_general : forall a, general st a -> a <> root_pool /\ a <> cache_pool }.
Definition kmem_used (st : St) (o : Z) : Prop := exists a, general st a /\ live st a o.

Lemma general_pool st a : pool_table root_pool st -> general st a -> exists q, ss_pools st !! a = Some q.
Proof.
  intros (_ & _ & Ht & _) (i & Hi & Ha). destruct (lookup_lt_is_Some_2 size_table i) as [sz Hsz]; [done|].
  destruct (Ht i sz Hsz) as (b & q & Hb & Hq & _). change (Z.to_nat 2 + i)%nat with (2 + i)%nat in Hb. exists q. congruence.
Qed.

Lemma kmem_ok_kept st st' : kmem_ok st -> slab_inv root_pool cache_pool st' -> pools_kept st st' -> kmem_ok st'.
Proof.
  intros [Hi (H0 & (rq & Hrq & Hrs) & Ht & H9) Hn Hc Hg] Hi' (Kp & Kn & _ & K). split.
  - done.
  - split_and!; rewrite ?Kp; try done.
    + destruct (K _ _ Hrq) as (q' & ? & _ & ?). exists q'. split; congruence.
    + intros j sz Hj. destruct (Ht j sz Hj) as (a & q & Ha & Hq & Hs). destruct (K _ _ Hq) as (q' & ? & _ & ?). exists a, q'. rewrite Kp. split_and!; congruence.
  - congruence.
  - by rewrite Kp.
  - intros a (j & Hj & Ha). rewrite Kp in Ha. apply Hg. by exists j.
Qed.
Lemma general_kept st st' a : pools_kept st st' -> general st' a <-> general st a.
Proof. intros (Kp & _). unfold general. by rewrite Kp. Qed.

Lemma kmem_slots st : kmem_ok st -> slots_ok st.
Proof.
  intros [Hi (H0 & _ & Ht & _) Hn Hc _] i Hij. rewrite Hn in Hij. destruct (decide (i = 1)) as [->|].
  - destruct (si_cpool _ _ st Hi) as (q & Hq & _). by exists cache_pool, q.
  - destruct (lookup_lt_is_Some_2 size_table (Z.to_nat (i - 2))) as [sz Hsz]; [cbn; lia|].
    destruct (Ht _ _ Hsz) as (a & q & Ha & Hq & _). exists a, q. split; [|done]. rewrite <- Ha. f_equal. lia.
Qed.

(** So many pages can be allocated one after the other. *)
Fixpoint pages_left (n : nat) (pg : page_state) : bool :=
  match n with
  | O => true
  | S n' => match page_allocn 1 pg with Ret (va, pg') => negb (va =? 0) && pages_left n' pg' | _ => false end
  end.
Definition kmem_room (st : St) (n : nat) : bool := pages_left n (ss_pages st).

Lemma pages_left_le n m pg : (m <= n)%nat -> pages_left n pg = true -> pages_left m pg = true.
Proof.
  revert n pg. induction m as [|m IH]; intros [|n] pg Hle H; [done..|lia|]. cbn [pages_left] in *. destruct (page_allocn 1 pg) as [[va pg']| | |]; try done.
  apply andb_true_iff in H as [-> H]. apply (IH n); [lia|done].
Qed.
Lemma kmem_room_taken st st' : ss_pages st' = ss_pages st \/ page_taken st st' ->
  forall n, kmem_room st (1 + n) = true -> kmem_room st' n = true.
Proof.
  unfold kmem_room. intros [->|(va & Hva & He)] n H; [apply (pages_left_le (1 + n)); [lia|done]|].
  cbn [Nat.add pages_left] in H. change (page_allocn 1 (ss_pages st) = Ret (va, ss_pages st')) in He. rewrite He in H. by apply andb_true_iff in H as [_ H].
Qed.
Lemma no_page_room st : no_page st -> kmem_room st 1 = false.
Proof.
  unfold no_page, kmem_room. intros He. change (page_allocn 1 (ss_pages st) = Ret (0, ss_pages st)) in He. cbn [pages_left]. by rewrite He.
Qed.

Lemma kalloc_small_spec st n : kmem_ok st -> 0 < n <= 512 ->
  (kalloc n st = Halt /\ kmem_room st 1 = false) \/
  exists p st', kalloc n st = Ret (p, st') /\ (kmem_ok st' /\ forall m, kmem_room st (1 + m) = true -> kmem_room st' m = true) /\ p <> 0 /\ ~ kmem_used st p /\ forall q, kmem_used st' q <-> kmem_used st q \/ q = p.
Proof.
  intros Hok Hn. pose proof Hok as [Hi Ht _ _ Hg].
  destruct (slab_alloc_small root_pool cache_pool st n Hi Ht ltac:(lia)) as (i & a & q & Hsz & Hle & _ & Ha & Hq & E).
  assert (general st a) as Hga by (exists i; split; [by apply lookup_lt_Some in Hsz|done]).
  assert (kalloc n st = slab_alloc_pool a st) as ->.
  { unfold kalloc. change (PAGE_SIZE / 8) with 512. rewrite (proj2 (Z.leb_le n 512)) by lia. by rewrite s32_small by lia. }
  destruct (slab_alloc_pool_spec root_pool cache_pool st a q Hi Hq) as [(Hh & Hno & _)|(o & st' & Hr & Hi' & Hho & Hnl & Hl & _ & Hk & Htk)];
    [left; split; [done|by apply no_page_room]|right].
  exists o, st'. split; [done|]. split; [split; [by eapply kmem_ok_kept|apply kmem_room_taken; naive_solver]|].
  destruct (handed_place _ _ st' a o Hi' Hho) as (x & s & p' & _ & _ & Hp' & Hsz' & _ & Hxo & _ & _ & Hx).
  split; [unfold slab_addr in Hx; lia|]. split.
  - intros (b & Hgb & Hlb). destruct (general_pool st b Ht Hgb) as (qb & Hqb). destruct Hk as (_ & _ & _ & K). destruct (K _ _ Hqb) as (qb' & Hqb' & _).
    assert (live st' b o) as Hlb' by (apply Hl; by left). pose proof (obj_size_bounds _ Hsz').
    destruct (handed_disjoint _ _ st' a o p' b o qb' Hi' Hho (proj1 Hlb') Hp' Hqb') as [[-> _]|Hd]; [done|].
    destruct (handed_place _ _ st' b o Hi' (proj1 Hlb')) as (_ & _ & q2 & _ & _ & Hq2 & Hs2 & _). pose proof (obj_size_bounds _ Hs2). assert (q2 = qb') as -> by congruence. lia.
  - intros y. unfold kmem_used. setoid_rewrite (general_kept st st' _ Hk). setoid_rewrite Hl. split.
    + intros (b & Hgb & [Hlb|[-> ->]]); [left; by exists b|by right].
    + intros [(b & Hgb & Hlb)| ->]; [exists b; split; [done|by left]|exists a; split; [done|by right]].
Qed.

Lemma kfree_small_spec st p : kmem_ok st -> kmem_used st p ->
  (kfree cache_pool p st = Halt /\ kmem_room st 1 = false) \/
  exists st', kfree cache_pool p st = Ret (tt, st') /\ (kmem_ok st' /\ forall m, kmem_room st (1 + m) = true -> kmem_room st' m = true) /\ forall q, kmem_used st' q <-> kmem_used st q /\ q <> p.
Proof.
  intros Hok (a & Hga & Hla). pose proof Hok as [Hi Ht Hn _ Hg]. destruct (Hg a Hga) as (Har & Hac). destruct (general_pool st a Ht Hga) as (qa & Hqa).
  assert (kfree cache_pool p st = slab_free cache_pool p st) as ->.
  { destruct Hga as (i & Hi7 & Ha). apply (kfree_object root_pool cache_pool st (2 + Z.of_nat i) a); try done; [by apply kmem_slots|lia|].
    rewrite <- Ha. f_equal. lia. }
  destruct (slab_free_spec root_pool cache_pool st a qa p Hi Hqa Hac Har Hla) as [(Hh & Hno)|(k & st' & p' & Hf & Hi' & Hl & _ & _ & _ & _ & _ & Hk & Htk)];
    [left; split; [done|by apply no_page_room]|right].
  exists st'. split; [done|]. split; [split; [by eapply kmem_ok_kept|by apply kmem_room_taken]|]. intros y. unfold kmem_used. setoid_rewrite (general_kept st st' _ Hk). setoid_rewrite Hl. split.
  - intros (b & Hgb & [[Hlb Hne]|[-> ->]]); [|by destruct (Hg _ Hgb)]. split; [by exists b|]. intros ->.
    destruct (general_pool st b Ht Hgb) as (qb & Hqb). apply Hne. split; [|done].
    destruct (handed_disjoint _ _ st a p qa b p qb Hi (proj1 Hla) (proj1 Hlb) Hqa Hqb) as [[-> _]|Hd]; [done|].
    pose proof (obj_size_bounds _ (proj1 (po_size _ _ _ _ _ (si_pool _ _ st Hi a qa Hqa)))). pose proof (obj_size_bounds _ (proj1 (po_size _ _ _ _ _ (si_pool _ _ st Hi b qb Hqb)))). lia.
  - intros ((b & Hgb & Hlb) & Hne). exists b. split; [done|]. left. split; [done|]. by intros [_ ->].
Qed.

#[export] Instance kmem_heap : KHeap := {|
  heap := St; heap_ok := kmem_ok; used := kmem_used; h_room := kmem_room; h_room_le := fun st n m Hle => pages_left_le n m (ss_pages st) Hle; h_kalloc := kalloc; h_kfree := kfree cache_pool;
  h_kalloc_spec := kalloc_small_spec; h_kfree_spec := kfree_small_spec |}.
End Impl.

(** The heap of the machine of SlabSpec.v after start-up. *)
Lemma kmem_demo_ok : kmem_ok demo_root_pool demo_cache_pool demo_slabs.
Proof.
  destruct demo_slabs_ok as [Hi Ht]. split; [done|done|vm_compute; reflexivity|vm_compute; reflexivity|].
  intros a (i & Hi7 & Ha). do 7 (destruct i as [|i]; [vm_compute in Ha; injection Ha as <-; split; vm_compute; discriminate|]). lia.
Qed.
