(* ===== verification/Spinlock.v ===== *)
(** * Atomics and spin locks (ukern/inc/atomic.h, src/spinlock.c)

    An exclusive load/store pair that is retried until the store succeeds
    takes effect in one step, so each atomic operation is a function from the
    old value to its result and the new value.  The lock is then modelled
    twice: as the sequential code other components call on one CPU, and as a
    step relation of any number of CPUs whose every access to the lock is a
    step of its own.  The interrupt mask, which [acquire] sets first and
    [release] clears last, belongs to the CPU and not to the lock: the callers'
    models change it ([lock_proc] and [unlock_proc] of Kernel.v). *)
From S2P Require Import Prelude.

(** ** atomic.h (without LSE), on [int] *)
Definition atomic_read (t : Z) : Z := t.
Definition atomic_set (t i : Z) : Z := i.
Definition atomic_add (t i : Z) : Z := s32 (t + i).
Definition atomic_add_return (t i : Z) : Z * Z := (s32 (t + i), s32 (t + i)).
Definition atomic_add_return_old (t i : Z) : Z * Z := (s32 (s32 (t + i) - i), s32 (t + i)).
Definition atomic_sub (t i : Z) : Z := s32 (t - i).
Definition atomic_sub_return (t i : Z) : Z * Z := (s32 (t - i), s32 (t - i)).
Definition atomic_sub_return_old (t i : Z) : Z * Z := (s32 (s32 (t - i) + i), s32 (t - i)).
Definition atomic_inc (t : Z) : Z := atomic_add t 1.
Definition atomic_dec (t : Z) : Z := atomic_sub t 1.
Definition atomic_cmpxchg (t old new : Z) : Z * Z := (t, if t =? old then new else t).
(** Not stored when the value is negative. *)
Definition atomic_inc_if_postive (t : Z) : Z * Z := (t, if t <? 0 then t else s32 (t + 1)).
(** Not stored when the value is not positive; 1 becomes -1. *)
Definition atomic_dec_set_negtive_if_zero (t : Z) : Z * Z :=
  (t, if t <=? 0 then t else if t - 1 =? 0 then t - 1 - 1 else t - 1).

(** ** The lock *)

(** [struct spinlock]; [lk_cpu] is [None] for the NULL pointer. *)
Record spinlock := mkLock { locked : Z; lk_cpu : option nat }.

Definition initlock : spinlock := mkLock 0 None.

Definition holding (me : nat) (lock : spinlock) : bool :=
  negb (locked lock =? 0) && bool_decide (lk_cpu lock = Some me).

(** [acquire] run alone on one CPU: spinning on a lock another CPU holds does
    not end. *)
Definition acquire (me : nat) (lock : spinlock) : outcome spinlock :=
  if holding me lock then Halt
  else
    let (old, new) := atomic_cmpxchg (locked lock) 0 1 in
    if negb (old =? 0) then Diverge else Ret (mkLock new (Some me)).

Definition release (me : nat) (lock : spinlock) : outcome spinlock :=
  if negb (holding me lock) then Halt
  else Ret (mkLock (atomic_set (locked lock) 0) None).

Lemma acquire_release me lock lock' :
  acquire me lock = Ret lock' -> release me lock' = Ret initlock.
Proof.
  unfold acquire, release, holding, atomic_cmpxchg. destruct (_ && _); [done|].
  destruct (Z.eqb_spec (locked lock) 0); [|done]. intros [= <-]. simpl. by rewrite bool_decide_eq_true_2.
Qed.

Lemma acquire_free me : acquire me initlock = Ret (mkLock 1 (Some me)).
Proof. reflexivity. Qed.

(** ** Interleaved CPUs *)

(** Where a CPU is in [acquire], its critical section and [release]. *)
Inductive pc :=
| Idle        (* outside *)
| AcqLocked   (* holding() reads [locked] *)
| AcqCpu      (* holding() reads [cpu] *)
| Spin        (* the cmpxchg loop *)
| SetCpu      (* lock->cpu = cur_cpu() *)
| Crit        (* the critical section *)
| RelLocked   (* holding() reads [locked] *)
| RelCpu      (* holding() reads [cpu] *)
| ClrCpu      (* lock->cpu = 0 *)
| ClrLocked   (* atomic_set(&lock->locked, 0) *)
| Panic.

#[global] Instance pc_eq_dec : EqDecision pc.
Proof. solve_decision. Defined.

Definition smp := (spinlock * (nat -> pc))%type.

Definition upd (f : nat -> pc) (i : nat) (p : pc) : nat -> pc := fun j => if decide (j = i) then p else f j.

(** One access of CPU [i]. *)
Inductive lock_step (i : nat) : smp -> smp -> Prop :=
| st_call l f : f i = Idle -> lock_step i (l, f) (l, upd f i AcqLocked)
| st_acq_locked l f :
    f i = AcqLocked -> lock_step i (l, f) (l, upd f i (if locked l =? 0 then Spin else AcqCpu))
| st_acq_cpu l f :
    f i = AcqCpu -> lock_step i (l, f) (l, upd f i (if bool_decide (lk_cpu l = Some i) then Panic else Spin))
| st_cmpxchg l f :
    f i = Spin ->
    lock_step i (l, f) (mkLock (atomic_cmpxchg (locked l) 0 1).2 (lk_cpu l),
                        upd f i (if (atomic_cmpxchg (locked l) 0 1).1 =? 0 then SetCpu else Spin))
| st_set_cpu l f : f i = SetCpu -> lock_step i (l, f) (mkLock (locked l) (Some i), upd f i Crit)
| st_leave l f : f i = Crit -> lock_step i (l, f) (l, upd f i RelLocked)
| st_rel_locked l f :
    f i = RelLocked -> lock_step i (l, f) (l, upd f i (if locked l =? 0 then Panic else RelCpu))
| st_rel_cpu l f :
    f i = RelCpu -> lock_step i (l, f) (l, upd f i (if bool_decide (lk_cpu l = Some i) then ClrCpu else Panic))
| st_clr_cpu l f : f i = ClrCpu -> lock_step i (l, f) (mkLock (locked l) None, upd f i ClrLocked)
| st_clr_locked l f :
    f i = ClrLocked -> lock_step i (l, f) (mkLock (atomic_set (locked l) 0) (lk_cpu l), upd f i Idle).

Definition any_step (s s' : smp) : Prop := exists i, lock_step i s s'.
Definition smp0 : smp := (initlock, fun _ => Idle).

(** CPUs between a successful cmpxchg and the store that frees the lock. *)
Definition owner_pc (p : pc) : bool :=
  match p with SetCpu | Crit | RelLocked | RelCpu | ClrCpu | ClrLocked => true | _ => false end.
(** Those of them that have their name in the lock. *)
Definition named_pc (p : pc) : bool :=
  match p with Crit | RelLocked | RelCpu | ClrCpu => true | _ => false end.

Definition lock_inv (s : smp) : Prop :=
  let '(l, f) := s in
  (forall i, f i <> Panic) /\
  ((locked l = 0 /\ lk_cpu l = None /\ forall i, owner_pc (f i) = false) \/
   (exists o, locked l = 1 /\ owner_pc (f o) = true /\ (forall i, owner_pc (f i) = true -> i = o) /\
      lk_cpu l = if named_pc (f o) then Some o else None)).

Lemma upd_eq f i p : upd f i p i = p.
Proof. unfold upd. by rewrite decide_True. Qed.
Lemma upd_ne f i j p : j <> i -> upd f i p j = f j.
Proof. intros. unfold upd. by rewrite decide_False. Qed.

(** A step of a CPU that neither becomes nor stops being the owner. *)
Lemma lock_inv_move l f i p :
  lock_inv (l, f) -> p <> Panic -> owner_pc p = owner_pc (f i) -> named_pc p = named_pc (f i) ->
  lock_inv (l, upd f i p).
Proof.
  intros [Hp Hor] Hnp Ho Hn. split.
  { intros j. destruct (decide (j = i)) as [->|]; [by rewrite upd_eq|rewrite upd_ne by done; apply Hp]. }
  assert (forall j, owner_pc (upd f i p j) = owner_pc (f j)) as Hown.
  { intros j. destruct (decide (j = i)) as [->|]; [by rewrite upd_eq|by rewrite upd_ne]. }
  assert (forall j, named_pc (upd f i p j) = named_pc (f j)) as Hnam.
  { intros j. destruct (decide (j = i)) as [->|]; [by rewrite upd_eq|by rewrite upd_ne]. }
  destruct Hor as [(? & ? & Hno)|(o & ? & ? & Huniq & ?)]; [left|right].
  - split_and!; [done..|]. intros j. by rewrite Hown.
  - exists o. rewrite Hown, Hnam. split_and!; try done. intros j. rewrite Hown. apply Huniq.
Qed.

(** The owner's own view of the lock. *)
Lemma owner_view l f i :
  lock_inv (l, f) -> owner_pc (f i) = true ->
  locked l = 1 /\ (forall j, owner_pc (f j) = true -> j = i) /\ lk_cpu l = if named_pc (f i) then Some i else None.
Proof.
  intros [_ [(_ & _ & Hno)|(o & ? & ? & Huniq & Hcpu)]] Hi; [by rewrite Hno in Hi|].
  rewrite (Huniq i Hi). done.
Qed.

Lemma lock_inv_step i s s' : lock_step i s s' -> lock_inv s -> lock_inv s'.
Proof.
  intros Hs Hinv. destruct Hs as [l f Hi|l f Hi|l f Hi|l f Hi|l f Hi|l f Hi|l f Hi|l f Hi|l f Hi|l f Hi].
  - apply lock_inv_move; rewrite ?Hi; done.
  - apply lock_inv_move; rewrite ?Hi; by destruct (locked l =? 0).
  - rewrite bool_decide_eq_false_2; [apply lock_inv_move; rewrite ?Hi; done|].
    destruct Hinv as [_ [(_ & -> & _)|(o & _ & Ho & _ & ->)]]; [done|].
    destruct (named_pc (f o)); [|done]. intros [= ->]. by rewrite Hi in Ho.
  - unfold atomic_cmpxchg. simpl. destruct (Z.eqb_spec (locked l) 0) as [H0|Hn0].
    + destruct Hinv as [Hp [(_ & Hc & Hno)|(o & Hl & _)]]; [|congruence]. split.
      { intros j. destruct (decide (j = i)) as [->|]; [by rewrite upd_eq|rewrite upd_ne by done; apply Hp]. }
      right. exists i. rewrite upd_eq. simpl. split_and!; try done.
      intros j. destruct (decide (j = i)); [done|]. rewrite upd_ne by done. by rewrite Hno.
    + destruct l as [lk c]. apply lock_inv_move; rewrite ?Hi; done.
  - destruct (owner_view l f i Hinv) as (Hl & Huniq & _); [by rewrite Hi|]. destruct Hinv as [Hp _]. split.
    { intros j. destruct (decide (j = i)) as [->|]; [by rewrite upd_eq|rewrite upd_ne by done; apply Hp]. }
    right. exists i. rewrite upd_eq. simpl. split_and!; try done.
    intros j. destruct (decide (j = i)); [done|]. rewrite upd_ne by done. apply Huniq.
  - apply lock_inv_move; rewrite ?Hi; done.
  - destruct (owner_view l f i Hinv) as (-> & _ & _); [by rewrite Hi|]. apply lock_inv_move; rewrite ?Hi; done.
  - destruct (owner_view l f i Hinv) as (_ & _ & Hc); [by rewrite Hi|]. rewrite Hi in Hc. simpl in Hc.
    rewrite bool_decide_eq_true_2 by done. apply lock_inv_move; rewrite ?Hi; done.
  - destruct (owner_view l f i Hinv) as (Hl & Huniq & _); [by rewrite Hi|]. destruct Hinv as [Hp _]. split.
    { intros j. destruct (decide (j = i)) as [->|]; [by rewrite upd_eq|rewrite upd_ne by done; apply Hp]. }
    right. exists i. rewrite upd_eq. simpl. split_and!; try done.
    intros j. destruct (decide (j = i)); [done|]. rewrite upd_ne by done. apply Huniq.
  - destruct (owner_view l f i Hinv) as (Hl & Huniq & Hc); [by rewrite Hi|]. destruct Hinv as [Hp _]. split.
    { intros j. destruct (decide (j = i)) as [->|]; [by rewrite upd_eq|rewrite upd_ne by done; apply Hp]. }
    left. simpl. rewrite Hi in Hc. split_and!; try done. intros j. destruct (decide (j = i)) as [->|Hne]; [by rewrite upd_eq|].
    rewrite upd_ne by done. destruct (owner_pc (f j)) eqn:E; [|done]. by destruct Hne; apply Huniq.
Qed.

Lemma lock_inv_reach s : rtc any_step smp0 s -> lock_inv s.
Proof.
  apply (rtc_ind_r lock_inv smp0).
  - split; [done|]. left. done.
  - intros s1 s2 _ [i Hs] Hinv. by eapply lock_inv_step.
Qed.

(** ** Properties *)

(** C6: in every interleaving of any number of CPUs using the lock, at most
    one CPU is in its critical section at a time, and no CPU ever runs into
    the panic of [acquire] or of [release], although [holding] reads the two
    fields of the lock one after the other without the lock. *)
Theorem spinlock_mutual_exclusion (l : spinlock) (f : nat -> pc) (i j : nat)
  (Hreach : rtc any_step smp0 (l, f)) :
  (f i = Crit -> f j = Crit -> i = j) /\ f i <> Panic.
Proof.
  pose proof (lock_inv_reach _ Hreach) as Hinv. split; [|apply Hinv].
  intros Hi Hj. destruct (owner_view l f i Hinv) as (_ & Huniq & _); [by rewrite Hi|].
  symmetry. apply Huniq. by rewrite Hj.
Qed.

Lemma spinlock_mutual_exclusion_witness :
  exists l f, rtc any_step smp0 (l, f) /\ f 0%nat = Crit /\ f 1%nat = Spin /\ f 1%nat <> Panic.
Proof.
  eexists _, _. assert (rtc any_step smp0 (mkLock 1 (Some 0%nat),
    upd (upd (upd (upd (upd (upd (fun _ => Idle) 0 AcqLocked) 0 Spin) 0 SetCpu) 0 Crit) 1 AcqLocked) 1
      (if 1 =? 0 then Spin else AcqCpu))) as Hr.
  { do 3 (eapply rtc_l; [exists 0%nat; constructor; reflexivity|]).
    eapply rtc_l; [exists 0%nat; eapply st_set_cpu; reflexivity|].
    eapply rtc_l; [exists 1%nat; constructor; reflexivity|].
    eapply rtc_l; [exists 1%nat; eapply st_acq_locked; reflexivity|]. apply rtc_refl. }
  assert (rtc any_step smp0 (mkLock 1 (Some 0%nat),
    upd (upd (upd (upd (upd (upd (upd (fun _ => Idle) 0 AcqLocked) 0 Spin) 0 SetCpu) 0 Crit) 1 AcqLocked) 1
      (if 1 =? 0 then Spin else AcqCpu)) 1 Spin)) as Hr2.
  { eapply rtc_r; [exact Hr|]. exists 1%nat. exact (st_acq_cpu 1 (mkLock 1 (Some 0%nat)) _ eq_refl). }
  split; [exact Hr2|]. split; [reflexivity|]. split; [reflexivity|].
  exact (proj2 (spinlock_mutual_exclusion _ _ 1%nat 0%nat Hr2)).
Defined.
