(* ===== verification/Uaccess.v ===== *)
(** * User memory access (ukern/src/uspace/uaccess.c)

    User addresses are translated page by page with [pgtbl_walk] and the
    bytes are copied through the kernel's linear mapping.  The kernel memory
    is a map from addresses to bytes; the walk of the current process's
    tables is an argument of the loops, [pgtbl_walk h pgd] in the callers. *)
From S2P Require Import Prelude Config Bitmap Page PageTable PageTableSpec.

Abbreviation mem := (gmap Z Z).

(** [memcpy] out of and into kernel memory. *)
Definition mem_read (m : mem) (a n : Z) : list Z := (fun i => default 0 (m !! u64 (a + i))) <$> seqZ 0 n.
Fixpoint mem_write (m : mem) (a : Z) (bs : list Z) : mem :=
  match bs with [] => m | b :: bs' => mem_write (<[u64 a := b]> m) (a + 1) bs' end.

(** The part of the copy that stays in one page. *)
Definition copy_size (offset size : Z) : Z :=
  let c := s32 (PAGE_SIZE - offset) in if size <? u64 c then s32 size else c.

Fixpoint copy_from_loop (fuel : nat) (walk : Z -> outcome Z) (m : mem) (src size offset : Z) : outcome (list Z) :=
  if 0 <? size then
    match fuel with
    | O => Diverge
    | S fuel' =>
        let n := copy_size offset size in
        pa ← walk src;
        rest ← copy_from_loop fuel' walk m (u64 (src + n)) (u64 (size - n)) 0;
        Ret (mem_read m (ptov pa) n ++ rest)
    end
  else Ret [].

(** Each round but the first copies a whole page or all that is left. *)
Definition copy_fuel (size : Z) : nat := Z.to_nat (size / PAGE_SIZE + 2).

(** The bytes that land in [dst], and the result. *)
Definition __copy_from_user (walk : Z -> outcome Z) (m : mem) (src size : Z) : outcome (list Z * Z) :=
  let offset := s32 (u64 (src - align_page_down src)) in
  bs ← copy_from_loop (copy_fuel size) walk m src size offset;
  Ret (bs, s32 size).

Fixpoint copy_to_loop (fuel : nat) (walk : Z -> outcome Z) (m : mem) (dst : Z) (data : list Z) (size offset : Z) : outcome mem :=
  if 0 <? size then
    match fuel with
    | O => Diverge
    | S fuel' =>
        let n := copy_size offset size in
        pa ← walk dst;
        copy_to_loop fuel' walk (mem_write m (ptov pa) (take (Z.to_nat n) data))
          (u64 (dst + n)) (drop (Z.to_nat n) data) (u64 (size - n)) 0
    end
  else Ret m.

(** [data] are the bytes at [src]. *)
Definition __copy_to_user (walk : Z -> outcome Z) (m : mem) (dst : Z) (data : list Z) (size : Z) : outcome (mem * Z) :=
  let offset := s32 (u64 (dst - align_page_down dst)) in
  m' ← copy_to_loop (copy_fuel size) walk m dst data size offset;
  Ret (m', s32 size).

(** The current process's tables are at [pagetable]. *)
Definition copy_from_user (h : tables) (pagetable : Z) (m : mem) (src size : Z) : outcome (list Z * Z) :=
  __copy_from_user (pgtbl_walk h pagetable) m src size.
Definition copy_to_user (h : tables) (pagetable : Z) (m : mem) (dst : Z) (data : list Z) (size : Z) : outcome (mem * Z) :=
  __copy_to_user (pgtbl_walk h pagetable) m dst data size.

(** ** Specification *)

(** Byte [k] of the user range is at physical address [f k], and addresses
    run on inside a page. *)
Definition translates (walk : Z -> outcome Z) (va size : Z) (f : Z -> Z) : Prop :=
  (forall k, 0 <= k < size -> walk (va + k) = Ret (f k) /\ 0 <= f k < 2 ^ 47) /\
  (forall k, 0 <= k -> k + 1 < size -> (va + k + 1) mod 4096 <> 0 -> f (k + 1) = f k + 1).

Lemma translates_run walk va size f n j :
  translates walk va size f -> 0 <= j < n -> n <= size -> va mod 4096 + n <= 4096 -> f j = f 0 + j.
Proof.
  intros [_ Hrun] Hj Hn Hp. destruct Hj as [H0 Hlt]. revert H0 Hlt.
  apply (natlike_ind (fun j => j < n -> f j = f 0 + j)); [intros; lia|].
  intros k Hk IH Hlt. unfold Z.succ in *. rewrite Hrun; [rewrite IH by lia; lia|lia|lia|].
  rewrite <- Z.add_assoc, <- Zplus_mod_idemp_l. pose proof (Z.mod_pos_bound va 4096).
  rewrite Z.mod_small by lia. lia.
Qed.

Lemma translates_tail walk va size f n :
  translates walk va size f -> 0 <= n -> translates walk (va + n) (size - n) (fun k => f (n + k)).
Proof.
  intros [Hw Hr] Hn. split.
  - intros k Hk. replace (va + n + k) with (va + (n + k)) by lia. apply Hw. lia.
  - intros k Hk Hlt Hm. rewrite <- Hr; [f_equal; lia|lia|lia|]. by replace (va + (n + k) + 1) with (va + n + k + 1) by lia.
Qed.

Lemma copy_size_spec offset size :
  0 <= offset < 4096 -> 0 < size < 2 ^ 31 ->
  copy_size offset size = Z.min (4096 - offset) size.
Proof.
  intros Ho Hs. unfold copy_size, PAGE_SIZE. rewrite (s32_small (4096 - offset)), u64_small, (s32_small size) by lia.
  destruct (Z.ltb_spec size (4096 - offset)); lia.
Qed.

(** After a first part the rest starts at a page. *)
Lemma copy_next va n size :
  n = Z.min (4096 - va mod 4096) size -> 0 < size -> n < size -> (va + n) mod 4096 = 0.
Proof.
  intros -> Hs Hlt. pose proof (Z.mod_pos_bound va 4096).
  rewrite Z.min_l by lia. rewrite Zplus_mod, Z.add_comm. 
  rewrite <- Zplus_mod. replace (4096 - va mod 4096 + va) with (va - va mod 4096 + 1 * 4096) by lia.
  rewrite Z_mod_plus_full, Zminus_mod_idemp_r, Z.sub_diag. done.
Qed.

Lemma copy_from_loop_spec fuel walk m va size f :
  translates walk va size f -> 0 <= va -> va + size < 2 ^ 64 -> 0 <= size < 2 ^ 31 ->
  size + va mod 4096 < Z.of_nat fuel * 4096 ->
  copy_from_loop fuel walk m va size (va mod 4096) = Ret ((fun k => default 0 (m !! ptov (f k))) <$> seqZ 0 size).
Proof.
  revert va size f. induction fuel as [|fuel IH]; intros va size f Ht Hva Hmax Hs Hf.
  { pose proof (Z.mod_pos_bound va 4096). lia. }
  cbn [copy_from_loop]. destruct (Z.ltb_spec 0 size) as [Hpos|]; [|replace size with 0 by lia; done].
  pose proof (Z.mod_pos_bound va 4096).
  rewrite copy_size_spec by lia. set (n := Z.min (4096 - va mod 4096) size) in *.
  assert (walk va = Ret (f 0)) as -> by (rewrite <- (Z.add_0_r va); apply Ht; lia).
  cbn [mbind outcome_bind]. rewrite (u64_small (va + n)), (u64_small (size - n)) by lia.
  assert (mem_read m (ptov (f 0)) n = (fun k => default 0 (m !! ptov (f k))) <$> seqZ 0 n) as ->.
  { apply list_fmap_ext. intros i j Hij. apply lookup_seqZ in Hij as [-> Hi]. simpl. do 2 f_equal.
    rewrite Z.add_0_l, (translates_run walk va size f n (Z.of_nat i) Ht) by lia.
    destruct Ht as [Hw _]. destruct (Hw 0 ltac:(lia)) as [_ ?].
    rewrite !ptov_small by lia. rewrite u64_small by lia. lia. }
  destruct (decide (n = size)) as [->|Hne].
  - rewrite Z.sub_diag. destruct fuel; cbn; by rewrite app_nil_r.
  - assert ((va + n) mod 4096 = 0) as Hmod by (apply (copy_next va n size); lia).
    pose proof (IH (va + n) (size - n) (fun k => f (n + k))) as Hrec. rewrite Hmod in Hrec.
    rewrite Hrec by (done || lia || (apply translates_tail; [done|lia])).
    cbn [mbind outcome_bind]. f_equal.
    assert (seqZ 0 (n + (size - n)) = seqZ 0 n ++ seqZ (0 + n) (size - n)) as Hseq by (apply seqZ_app; lia).
    replace (n + (size - n)) with size in Hseq by lia. rewrite Hseq, fmap_app. f_equal.
    replace (0 + n) with (n + 0) by lia.
    rewrite <- (fmap_add_seqZ n 0 (size - n)). rewrite <- list_fmap_compose. reflexivity.
Qed.

Lemma copy_fuel_enough va size : 0 <= size -> size + va mod 4096 < Z.of_nat (copy_fuel size) * 4096.
Proof.
  intros Hs. unfold copy_fuel, PAGE_SIZE. pose proof (Z.div_mod size 4096). pose proof (Z.mod_pos_bound size 4096).
  pose proof (Z.mod_pos_bound va 4096). pose proof (Z.div_pos size 4096). lia.
Qed.

Lemma user_offset va : 0 <= va < 2 ^ 64 -> s32 (u64 (va - align_page_down va)) = va mod 4096.
Proof.
  intros Hva. unfold align_page_down, PAGE_SIZE. change 4096 with (2 ^ 12). rewrite align_down_spec by lia.
  change (2 ^ 12) with 4096. replace (va - (va - va mod 4096)) with (va mod 4096) by lia.
  pose proof (Z.mod_pos_bound va 4096). rewrite u64_small, s32_small by lia. done.
Qed.

Lemma copy_from_user_spec walk m va size f :
  translates walk va size f -> 0 <= va -> va + size < 2 ^ 64 -> 0 <= size < 2 ^ 31 ->
  __copy_from_user walk m va size = Ret ((fun k => default 0 (m !! ptov (f k))) <$> seqZ 0 size, size).
Proof.
  intros Ht Hva Hmax Hs. unfold __copy_from_user. rewrite user_offset by lia.
  rewrite (copy_from_loop_spec _ walk m va size f) by (done || lia || (apply copy_fuel_enough; lia)).
  cbn [mbind outcome_bind]. by rewrite s32_small by lia.
Qed.

Lemma mem_write_spec m a bs :
  0 <= a -> a + Z.of_nat (length bs) <= 2 ^ 64 ->
  (forall i b, bs !! i = Some b -> mem_write m a bs !! (a + Z.of_nat i) = Some b) /\
  (forall x, (x < a \/ a + Z.of_nat (length bs) <= x) -> mem_write m a bs !! x = m !! x).
Proof.
  revert m a. induction bs as [|b bs IH]; intros m a Ha Hmax; [done|]. cbn [mem_write length] in *.
  destruct (IH (<[u64 a := b]> m) (a + 1)) as [Hin Hout]; [lia|lia|]. rewrite u64_small in * by lia. split.
  - intros [|i] c Hc.
    + injection Hc as <-. rewrite Hout by lia. rewrite Z.add_0_r. apply lookup_insert_eq.
    + rewrite <- (Hin i c Hc). f_equal. lia.
  - intros x Hx. rewrite Hout by lia. apply lookup_insert_ne. lia.
Qed.

(** No two bytes of the user range share a physical byte. *)
Definition injective_on (f : Z -> Z) (size : Z) : Prop :=
  forall j k, 0 <= j < size -> 0 <= k < size -> f j = f k -> j = k.

Lemma copy_to_loop_spec fuel walk m va data size f :
  translates walk va size f -> injective_on f size -> Z.of_nat (length data) = size ->
  0 <= va -> va + size < 2 ^ 64 -> 0 <= size < 2 ^ 31 -> size + va mod 4096 < Z.of_nat fuel * 4096 ->
  exists m', copy_to_loop fuel walk m va data size (va mod 4096) = Ret m' /\
    (forall k, 0 <= k < size -> m' !! ptov (f k) = data !! Z.to_nat k) /\
    (forall a, (forall k, 0 <= k < size -> a <> ptov (f k)) -> m' !! a = m !! a).
Proof.
  revert m va data size f. induction fuel as [|fuel IH]; intros m va data size f Ht Hinj Hlen Hva Hmax Hs Hf.
  { pose proof (Z.mod_pos_bound va 4096). lia. }
  cbn [copy_to_loop]. destruct (Z.ltb_spec 0 size) as [Hpos|].
  2:{ exists m. split; [done|]. split; [lia|done]. }
  pose proof (Z.mod_pos_bound va 4096).
  rewrite copy_size_spec by lia. set (n := Z.min (4096 - va mod 4096) size) in *.
  assert (walk va = Ret (f 0)) as -> by (rewrite <- (Z.add_0_r va); apply Ht; lia).
  cbn [mbind outcome_bind]. rewrite (u64_small (va + n)), (u64_small (size - n)) by lia.
  destruct (proj1 Ht 0 ltac:(lia)) as [_ Hf0].
  destruct (mem_write_spec m (ptov (f 0)) (take (Z.to_nat n) data)) as [Hin Hout];
    [rewrite ptov_small by lia; lia|rewrite ptov_small, length_take by lia; lia|].
  rewrite length_take, Nat.min_l, Z2Nat.id in Hout by lia.
  set (m1 := mem_write _ _ _) in *.
  assert (forall k, 0 <= k < n -> ptov (f k) = ptov (f 0) + k /\ m1 !! ptov (f k) = data !! Z.to_nat k) as Hhead.
  { intros k Hk. rewrite (translates_run walk va size f n k Ht) by lia.
    assert (ptov (f 0 + k) = ptov (f 0) + k) as -> by (rewrite !ptov_small by lia; lia). split; [done|].
    destruct (lookup_lt_is_Some_2 data (Z.to_nat k)) as [b Hb]; [lia|]. rewrite Hb.
    rewrite <- (Hin (Z.to_nat k) b); [f_equal; lia|]. by rewrite lookup_take_lt by lia. }
  assert (forall a, (forall k, 0 <= k < n -> a <> ptov (f k)) -> m1 !! a = m !! a) as Hout1.
  { intros a Ha. apply Hout. destruct (decide (ptov (f 0) <= a < ptov (f 0) + n)); [|lia].
    exfalso. apply (Ha (a - ptov (f 0)) ltac:(lia)). rewrite (proj1 (Hhead (a - ptov (f 0)) ltac:(lia))). lia. }
  destruct (decide (n = size)) as [Heq|Hne].
  { rewrite Heq, Z.sub_diag. exists m1. split; [by destruct fuel|]. rewrite Heq in *. split; [|done]. intros k Hk. apply (proj2 (Hhead k Hk)). }
  assert ((va + n) mod 4096 = 0) as Hmod by (apply (copy_next va n size); lia).
  destruct (IH m1 (va + n) (drop (Z.to_nat n) data) (size - n) (fun k => f (n + k))) as (m2 & Hr & Hin2 & Hout2).
  { apply translates_tail; [done|lia]. }
  { intros j k Hj Hk E. apply Hinj in E; lia. }
  { rewrite length_drop. lia. }
  { lia. } { lia. } { lia. } { rewrite Hmod. lia. }
  rewrite Hmod in Hr. rewrite Hr. exists m2. split; [done|]. split.
  - intros k Hk. destruct (decide (k < n)) as [Hlt|Hge].
    + rewrite Hout2; [apply (proj2 (Hhead k ltac:(lia)))|]. intros k' Hk' E.
      destruct (proj1 Ht k ltac:(lia)) as [_ ?], (proj1 Ht (n + k') ltac:(lia)) as [_ ?].
      rewrite !ptov_small in E by lia. assert (k = n + k') by (apply Hinj; lia). lia.
    + specialize (Hin2 (k - n) ltac:(lia)). replace (n + (k - n)) with k in Hin2 by lia. rewrite Hin2.
      rewrite lookup_drop. f_equal. lia.
  - intros a Ha. rewrite Hout2; [apply Hout1|].
    + intros k Hk. apply Ha. lia.
    + intros k Hk. apply Ha. lia.
Qed.

Lemma copy_to_user_spec walk m va data size f :
  translates walk va size f -> injective_on f size -> Z.of_nat (length data) = size ->
  0 <= va -> va + size < 2 ^ 64 -> 0 <= size < 2 ^ 31 ->
  exists m', __copy_to_user walk m va data size = Ret (m', size) /\
    (forall k, 0 <= k < size -> m' !! ptov (f k) = data !! Z.to_nat k) /\
    (forall a, (forall k, 0 <= k < size -> a <> ptov (f k)) -> m' !! a = m !! a).
Proof.
  intros Ht Hinj Hlen Hva Hmax Hs.
  destruct (copy_to_loop_spec (copy_fuel size) walk m va data size f) as (m' & Hr & Hin & Hout);
    [done|done|done|lia|lia|lia|apply copy_fuel_enough; lia|].
  unfold __copy_to_user. rewrite user_offset by lia. rewrite Hr. cbn [mbind outcome_bind].
  exists m'. by rewrite s32_small by lia.
Qed.

(** ** Properties *)

(** C19: for a user range that translates page by page to distinct physical
    bytes, [copy_to_user] followed by [copy_from_user] of the same range
    returns the data written, whatever page boundaries the range crosses, and
    [copy_to_user] changes no other byte of memory. *)
Theorem user_copy_roundtrip (h : tables) (pagetable : Z) (m : mem) (va : Z) (data : list Z) (f : Z -> Z)
  (Ht : translates (pgtbl_walk h pagetable) va (Z.of_nat (length data)) f)
  (Hinj : injective_on f (Z.of_nat (length data)))
  (Hva : 0 <= va /\ va + Z.of_nat (length data) < 2 ^ 64) (Hlen : Z.of_nat (length data) < 2 ^ 31) :
  exists m', copy_to_user h pagetable m va data (Z.of_nat (length data)) = Ret (m', Z.of_nat (length data)) /\
    copy_from_user h pagetable m' va (Z.of_nat (length data)) = Ret (data, Z.of_nat (length data)) /\
    (forall a, (forall k, 0 <= k < Z.of_nat (length data) -> a <> ptov (f k)) -> m' !! a = m !! a).
Proof.
  destruct (copy_to_user_spec (pgtbl_walk h pagetable) m va data (Z.of_nat (length data)) f)
    as (m' & Hw & Hin & Hout); [done|done|done|lia|lia|lia|].
  exists m'. split; [done|]. split; [|done]. unfold copy_from_user.
  rewrite (copy_from_user_spec _ m' va _ f) by (done || lia). do 2 f_equal.
  apply list_eq. intros i. rewrite list_lookup_fmap. destruct (decide (i < length data)%nat) as [Hi|Hi].
  - rewrite lookup_seqZ_lt by lia. cbn [fmap option_fmap option_map]. rewrite Hin by lia.
    destruct (lookup_lt_is_Some_2 data i Hi) as [b Hb].
    replace (Z.to_nat (0 + Z.of_nat i)) with i by lia. by rewrite Hb.
  - rewrite lookup_seqZ_ge, lookup_ge_None_2 by lia. done.
Qed.

(** A process with two user pages at 0x10000000 mapped to non-adjacent
    physical pages. *)
Definition demo_user : outcome (Z * (page_state * tables)) :=
  (pagetable_map demo_root 0x10000000 0x50000000 0x1000 VM_RW;;
   pagetable_map demo_root 0x10001000 0x48000000 0x1000 VM_RW) (demo_pages, demo_tables).
Definition demo_user_tables : tables := match demo_user with Ret (_, (_, h)) => h | _ => ∅ end.
Definition demo_map (k : Z) : Z := if k <? 2 then 0x50000ffe + k else 0x48000000 + (k - 2).

Lemma demo_translates : translates (pgtbl_walk demo_user_tables demo_root) 0x10000ffe 5 demo_map.
Proof.
  assert (forall k, 0 <= k < 5 -> k = 0 \/ k = 1 \/ k = 2 \/ k = 3 \/ k = 4) as Hk by lia. split.
  - intros k H5. destruct (Hk k H5) as [->|[->|[->|[->| ->]]]]; (split; [vm_compute; reflexivity|vm_compute; split; congruence]).
  - intros k H0 H5 Hm. unfold demo_map. destruct (Z.ltb_spec k 2), (Z.ltb_spec (k + 1) 2); try lia.
    assert (k = 1) as -> by lia. by destruct Hm.
Qed.

Lemma user_copy_roundtrip_witness :
  exists m', copy_to_user demo_user_tables demo_root ∅ 0x10000ffe [1; 2; 3; 4; 5] 5 = Ret (m', 5) /\
    copy_from_user demo_user_tables demo_root m' 0x10000ffe 5 = Ret ([1; 2; 3; 4; 5], 5).
Proof.
  destruct (user_copy_roundtrip demo_user_tables demo_root ∅ 0x10000ffe [1; 2; 3; 4; 5] demo_map demo_translates)
    as (m' & Hw & Hr & _).
  - intros j k Hj' Hk'. change (Z.of_nat (length [1; 2; 3; 4; 5])) with 5 in *. unfold demo_map. destruct (Z.ltb_spec j 2), (Z.ltb_spec k 2); lia.
  - simpl. lia.
  - simpl. lia.
  - exists m'. split; assumption.
Defined.
