(* ===== verification/Kernel.v ===== *)
(** * The state of the kernel (inc/proc.h, inc/cpu.h, inc/ctx_arm64.h,
    inc/exception.h, inc/uspace/kobject.h, inc/uspace/handle.h)

    The kernel's memory is kept as one typed heap per structure, indexed by
    the address of the structure, next to the allocators' state, the page
    tables, the list pointers and the bytes of user pages.  An access to an
    address that holds no structure of the type is a [Fault]; in particular a
    NULL pointer never designates one. *)
From S2P Require Import Prelude Config CList Bitmap Page PageTable Slab SlabSpec Kmem Spinlock Uaccess.

(** ** Structures *)

(** The three [struct kobject_ops] of the kernel. *)
Inductive kobject_ops := proc_kobj_ops | pma_kobj_ops | stdio_ops.
#[global] Instance kobject_ops_eq_dec : EqDecision kobject_ops.
Proof. solve_decision. Defined.

(** [struct kobject] up to its list links; [ko_ops] is [None] for NULL. *)
Record kobject := mkKobj {
  ko_type : Z;
  ko_right_mask : Z;
  ko_ref : Z;
  ko_lock : spinlock;
  ko_ops : option kobject_ops;
  ko_data : Z;
}.
Definition sizeof_kobject : Z := 72.
Definition kobject_list (kobj : Z) : Z := kobj + 56.

(** [struct handle_desc], and a page of them with the [handle_table_desc] in
    its last slot. *)
Record handle_desc := mkHd { hd_kobj : Z; hd_right : Z }.
Record handle_table := mkHt { ht_desc : list handle_desc; ht_index : Z; ht_free : Z; ht_next : Z }.

Inductive procstate := UNUSED | SLEEPING | RUNNABLE | RUNNING | ZOMBIE.
#[global] Instance procstate_eq_dec : EqDecision procstate.
Proof. solve_decision. Defined.

(** [struct proc]; [p_name] holds the [PROC_NAME_MAX] bytes. *)
Record proc := mkProc {
  p_lock : spinlock;
  handle_desc_table : Z;
  p_state : procstate;
  p_parent : Z;
  p_pid : Z;
  p_prio : Z;
  p_pagetable : Z;
  p_stack_base : Z;
  p_stack_size : Z;
  p_name : list Z;
}.
Definition PROC_NAME_MAX : Z := 16.
Definition sizeof_proc : Z := 184.
Definition proc_sched_list (p : Z) : Z := p + 56.
Definition proc_of_sched_list (l : Z) : Z := l - 56.
Definition proc_kobj (p : Z) : Z := p + 96.

Record pma := mkPma { pstart : Z; pend : Z; psize : Z }.
Definition sizeof_pma : Z := 96.
Definition pma_kobj (p : Z) : Z := p + 24.

(** [struct gp_regs]: x0 to x29 and lr. *)
Abbreviation gp_regs := (list Z).
Definition gp_regs0 : gp_regs := replicate 31 0.
Definition xreg (r : gp_regs) (n : nat) : Z := nth n r 0.
Definition set_xreg (r : gp_regs) (n : nat) (v : Z) : gp_regs := <[n := u64 v]> r.

(** [struct econtext] *)
Record econtext := mkEctx { e_esr : Z; e_far : Z; e_sp : Z; e_sp0 : Z; e_elr : Z; e_spsr : Z; e_gp_regs : gp_regs }.
Definition sizeof_econtext : Z := 296.
Definition econtext0 : econtext := mkEctx 0 0 0 0 0 0 gp_regs0.

Record cpu := mkCpu { c_id : Z; c_proc : Z; local_rdy_grp : Z; intr_stack : Z; c_lock : spinlock }.
Definition sizeof_cpu : Z := 192.

(** The creation callbacks the [.__kobj_type_desc] section registers. *)
Inductive kobject_create_cb := create_pma_cb | kobject_create_proc_cb.
#[global] Instance kobject_create_cb_eq_dec : EqDecision kobject_create_cb.
Proof. solve_decision. Defined.

Record kstate := mkKs {
  ks_slab : slab_state page_state;
  ks_tables : tables;
  ks_mem : mem;
  ks_lists : lheap;
  ks_kobjs : gmap Z kobject;
  ks_procs : gmap Z proc;
  ks_htabs : gmap Z handle_table;
  ks_pmas : gmap Z pma;
  ks_ectx : gmap Z econtext;
  ks_cpus : list cpu;
  ks_pid : Z;                                  (* static in pid_alloc *)
  ks_x18 : Z;                                  (* the current-process register *)
  ks_cbs : list (option kobject_create_cb);    (* kobj_create_cbs *)
  ks_out : list Z;                             (* bytes sent to the console *)
  ks_daif : Z;                                 (* the mask bits: 1 FIQ, 2 IRQ, 4 SError, 8 debug *)
}.
Abbreviation K := (M kstate).

(** What the linker and the earlier contents of memory fix: the addresses of
    [cpus], [stdio_kobj] and the pool of slab caches, what a structure contains when [kalloc] has just
    returned its memory, and what the local variables [kobj] and [right] of a
    system call hold before they are assigned. *)
Class KernEnv := {
  cpus : Z;
  stdio_kobj : Z;
  raw_proc : Z -> proc;
  raw_kobj : Z -> kobject;
  raw_list : Z -> list_head;
  cache_pool_addr : Z;
  stack_kobj : Z;
  stack_right : Z;
}.

(** [&cpus[i].ready_list[j]] *)
Definition cpu_ready_list `{KernEnv} (i j : Z) : Z := cpus + sizeof_cpu * i + 24 + 16 * j.

(** ** Accessors *)
Definition set_slab_ (x : slab_state page_state) (k : kstate) : kstate :=
  mkKs x (ks_tables k) (ks_mem k) (ks_lists k) (ks_kobjs k) (ks_procs k) (ks_htabs k) (ks_pmas k) (ks_ectx k) (ks_cpus k) (ks_pid k) (ks_x18 k) (ks_cbs k) (ks_out k) (ks_daif k).
Definition set_tables (x : tables) (k : kstate) : kstate :=
  mkKs (ks_slab k) x (ks_mem k) (ks_lists k) (ks_kobjs k) (ks_procs k) (ks_htabs k) (ks_pmas k) (ks_ectx k) (ks_cpus k) (ks_pid k) (ks_x18 k) (ks_cbs k) (ks_out k) (ks_daif k).
Definition set_mem (x : mem) (k : kstate) : kstate :=
  mkKs (ks_slab k) (ks_tables k) x (ks_lists k) (ks_kobjs k) (ks_procs k) (ks_htabs k) (ks_pmas k) (ks_ectx k) (ks_cpus k) (ks_pid k) (ks_x18 k) (ks_cbs k) (ks_out k) (ks_daif k).
Definition set_lists (x : lheap) (k : kstate) : kstate :=
  mkKs (ks_slab k) (ks_tables k) (ks_mem k) x (ks_kobjs k) (ks_procs k) (ks_htabs k) (ks_pmas k) (ks_ectx k) (ks_cpus k) (ks_pid k) (ks_x18 k) (ks_cbs k) (ks_out k) (ks_daif k).
Definition set_kobjs (x : gmap Z kobject) (k : kstate) : kstate :=
  mkKs (ks_slab k) (ks_tables k) (ks_mem k) (ks_lists k) x (ks_procs k) (ks_htabs k) (ks_pmas k) (ks_ectx k) (ks_cpus k) (ks_pid k) (ks_x18 k) (ks_cbs k) (ks_out k) (ks_daif k).
Definition set_procs (x : gmap Z proc) (k : kstate) : kstate :=
  mkKs (ks_slab k) (ks_tables k) (ks_mem k) (ks_lists k) (ks_kobjs k) x (ks_htabs k) (ks_pmas k) (ks_ectx k) (ks_cpus k) (ks_pid k) (ks_x18 k) (ks_cbs k) (ks_out k) (ks_daif k).
Definition set_htabs (x : gmap Z handle_table) (k : kstate) : kstate :=
  mkKs (ks_slab k) (ks_tables k) (ks_mem k) (ks_lists k) (ks_kobjs k) (ks_procs k) x (ks_pmas k) (ks_ectx k) (ks_cpus k) (ks_pid k) (ks_x18 k) (ks_cbs k) (ks_out k) (ks_daif k).
Definition set_pmas (x : gmap Z pma) (k : kstate) : kstate :=
  mkKs (ks_slab k) (ks_tables k) (ks_mem k) (ks_lists k) (ks_kobjs k) (ks_procs k) (ks_htabs k) x (ks_ectx k) (ks_cpus k) (ks_pid k) (ks_x18 k) (ks_cbs k) (ks_out k) (ks_daif k).
Definition set_ectxs (x : gmap Z econtext) (k : kstate) : kstate :=
  mkKs (ks_slab k) (ks_tables k) (ks_mem k) (ks_lists k) (ks_kobjs k) (ks_procs k) (ks_htabs k) (ks_pmas k) x (ks_cpus k) (ks_pid k) (ks_x18 k) (ks_cbs k) (ks_out k) (ks_daif k).
Definition set_cpus (x : list cpu) (k : kstate) : kstate :=
  mkKs (ks_slab k) (ks_tables k) (ks_mem k) (ks_lists k) (ks_kobjs k) (ks_procs k) (ks_htabs k) (ks_pmas k) (ks_ectx k) x (ks_pid k) (ks_x18 k) (ks_cbs k) (ks_out k) (ks_daif k).
Definition set_pid (x : Z) (k : kstate) : kstate :=
  mkKs (ks_slab k) (ks_tables k) (ks_mem k) (ks_lists k) (ks_kobjs k) (ks_procs k) (ks_htabs k) (ks_pmas k) (ks_ectx k) (ks_cpus k) x (ks_x18 k) (ks_cbs k) (ks_out k) (ks_daif k).
Definition set_x18 (x : Z) (k : kstate) : kstate :=
  mkKs (ks_slab k) (ks_tables k) (ks_mem k) (ks_lists k) (ks_kobjs k) (ks_procs k) (ks_htabs k) (ks_pmas k) (ks_ectx k) (ks_cpus k) (ks_pid k) x (ks_cbs k) (ks_out k) (ks_daif k).
Definition set_cbs (x : list (option kobject_create_cb)) (k : kstate) : kstate :=
  mkKs (ks_slab k) (ks_tables k) (ks_mem k) (ks_lists k) (ks_kobjs k) (ks_procs k) (ks_htabs k) (ks_pmas k) (ks_ectx k) (ks_cpus k) (ks_pid k) (ks_x18 k) x (ks_out k) (ks_daif k).
Definition set_out (x : list Z) (k : kstate) : kstate :=
  mkKs (ks_slab k) (ks_tables k) (ks_mem k) (ks_lists k) (ks_kobjs k) (ks_procs k) (ks_htabs k) (ks_pmas k) (ks_ectx k) (ks_cpus k) (ks_pid k) (ks_x18 k) (ks_cbs k) x (ks_daif k).
Definition set_daif (x : Z) (k : kstate) : kstate :=
  mkKs (ks_slab k) (ks_tables k) (ks_mem k) (ks_lists k) (ks_kobjs k) (ks_procs k) (ks_htabs k) (ks_pmas k) (ks_ectx k) (ks_cpus k) (ks_pid k) (ks_x18 k) (ks_cbs k) (ks_out k) x.

(** Reading a structure, and writing one that is there. *)
Definition deref {A} (f : kstate -> gmap Z A) (a : Z) : K A :=
  fun k => match f k !! a with Some x => Ret (x, k) | None => Fault end.
Definition update {A} (f : kstate -> gmap Z A) (set : gmap Z A -> kstate -> kstate) (a : Z) (g : A -> A) : K () :=
  fun k => match f k !! a with Some x => Ret (tt, set (<[a := g x]> (f k)) k) | None => Fault end.

Definition get_kobj : Z -> K kobject := deref ks_kobjs.
Definition upd_kobj : Z -> (kobject -> kobject) -> K () := update ks_kobjs set_kobjs.
Definition get_proc : Z -> K proc := deref ks_procs.
Definition upd_proc : Z -> (proc -> proc) -> K () := update ks_procs set_procs.
Definition get_htab : Z -> K handle_table := deref ks_htabs.
Definition upd_htab : Z -> (handle_table -> handle_table) -> K () := update ks_htabs set_htabs.
Definition get_ectx : Z -> K econtext := deref ks_ectx.
Definition upd_ectx : Z -> (econtext -> econtext) -> K () := update ks_ectx set_ectxs.

(** Running the allocators and the list operations on their part of the state. *)
Definition on_slab {A} (m : M (slab_state page_state) A) : K A := zoom ks_slab set_slab_ m.
Definition on_pages {A} (m : M page_state A) : K A := on_slab (slab_pages m).
Definition on_map {A} (m : M (page_state * tables) A) : K A :=
  zoom (fun k => (ss_pages (ks_slab k), ks_tables k))
    (fun '(p, t) k =>
       let s := ks_slab k in
       set_tables t (set_slab_ (mkSlabs p (ss_slabs s) (ss_pools s) (ss_caches s) (pool_ptrs s) (nr_pools s)) k)) m.
Definition on_lists (f : lheap -> outcome lheap) : K () :=
  fun k => match f (ks_lists k) with Ret h => Ret (tt, set_lists h k) | Halt => Halt | Fault => Fault | Diverge => Diverge end.
Definition ask_lists {A} (f : lheap -> outcome A) : K A := fun k => lift (f (ks_lists k)) k.

(** Field updates. *)
Definition ko_with_ref (r : Z) (o : kobject) : kobject := mkKobj (ko_type o) (ko_right_mask o) r (ko_lock o) (ko_ops o) (ko_data o).
Definition p_with_lock (l : spinlock) (p : proc) : proc :=
  mkProc l (handle_desc_table p) (p_state p) (p_parent p) (p_pid p) (p_prio p) (p_pagetable p) (p_stack_base p) (p_stack_size p) (p_name p).
Definition p_with_htab (t : Z) (p : proc) : proc :=
  mkProc (p_lock p) t (p_state p) (p_parent p) (p_pid p) (p_prio p) (p_pagetable p) (p_stack_base p) (p_stack_size p) (p_name p).
Definition p_with_state (s : procstate) (p : proc) : proc :=
  mkProc (p_lock p) (handle_desc_table p) s (p_parent p) (p_pid p) (p_prio p) (p_pagetable p) (p_stack_base p) (p_stack_size p) (p_name p).
Definition p_with_parent (a : Z) (p : proc) : proc :=
  mkProc (p_lock p) (handle_desc_table p) (p_state p) a (p_pid p) (p_prio p) (p_pagetable p) (p_stack_base p) (p_stack_size p) (p_name p).
Definition p_with_pid (a : Z) (p : proc) : proc :=
  mkProc (p_lock p) (handle_desc_table p) (p_state p) (p_parent p) a (p_prio p) (p_pagetable p) (p_stack_base p) (p_stack_size p) (p_name p).
Definition p_with_prio (a : Z) (p : proc) : proc :=
  mkProc (p_lock p) (handle_desc_table p) (p_state p) (p_parent p) (p_pid p) a (p_pagetable p) (p_stack_base p) (p_stack_size p) (p_name p).
Definition p_with_pagetable (a : Z) (p : proc) : proc :=
  mkProc (p_lock p) (handle_desc_table p) (p_state p) (p_parent p) (p_pid p) (p_prio p) a (p_stack_base p) (p_stack_size p) (p_name p).
Definition p_with_stack (b s : Z) (p : proc) : proc :=
  mkProc (p_lock p) (handle_desc_table p) (p_state p) (p_parent p) (p_pid p) (p_prio p) (p_pagetable p) b s (p_name p).
Definition p_with_name (n : list Z) (p : proc) : proc :=
  mkProc (p_lock p) (handle_desc_table p) (p_state p) (p_parent p) (p_pid p) (p_prio p) (p_pagetable p) (p_stack_base p) (p_stack_size p) n.
Definition e_with_sp0_elr (sp elr : Z) (e : econtext) : econtext := mkEctx (e_esr e) (e_far e) (e_sp e) sp elr (e_spsr e) (e_gp_regs e).
Definition e_with_regs (r : gp_regs) (e : econtext) : econtext := mkEctx (e_esr e) (e_far e) (e_sp e) (e_sp0 e) (e_elr e) (e_spsr e) r.
Definition c_with_proc (p : Z) (c : cpu) : cpu := mkCpu (c_id c) p (local_rdy_grp c) (intr_stack c) (c_lock c).
Definition c_with_grp (g : Z) (c : cpu) : cpu := mkCpu (c_id c) (c_proc c) g (intr_stack c) (c_lock c).

(** ** cpu.c: without [CONFIG_SMP_OK] the code runs on CPU 0 *)
Definition cur_cpuid : Z := 0.
Definition cur_cpu : K cpu := fun k => lift (rd (ks_cpus k) cur_cpuid) k.
Definition upd_cpu (i : Z) (g : cpu -> cpu) : K () :=
  fun k => match (c ← rd (ks_cpus k) i; wr (ks_cpus k) i (g c)) with
           | Ret l => Ret (tt, set_cpus l k) | Halt => Halt | Fault => Fault | Diverge => Diverge end.

(** ** cpu.h: the interrupt mask *)
Definition cpu_irq_on : K () := modify (fun k => set_daif (Z.land (ks_daif k) (Z.lnot 2)) k).
Definition cpu_irq_off : K () := modify (fun k => set_daif (Z.lor (ks_daif k) 2) k).
Definition cpu_fiq_on : K () := modify (fun k => set_daif (Z.land (ks_daif k) (Z.lnot 1)) k).
Definition cpu_fiq_off : K () := modify (fun k => set_daif (Z.lor (ks_daif k) 1) k).
Definition cpu_async_on : K () := modify (fun k => set_daif (Z.land (ks_daif k) (Z.lnot 4)) k).
Definition cpu_async_off : K () := modify (fun k => set_daif (Z.lor (ks_daif k) 4) k).
Definition cpu_debug_on : K () := modify (fun k => set_daif (Z.land (ks_daif k) (Z.lnot 8)) k).
Definition cpu_debug_off : K () := modify (fun k => set_daif (Z.lor (ks_daif k) 8) k).
Definition cpu_intr_off : K () := cpu_irq_off;; cpu_fiq_off.
Definition cpu_intr_on : K () := cpu_irq_on;; cpu_fiq_on.

(** Locking the PCB at [p]: [acquire] masks interrupts first, and [release]
    unmasks them last, whatever they were before. *)
Definition lock_proc (p : Z) : K () :=
  cpu_intr_off;;
  x ← get_proc p; l ← lift (acquire (Z.to_nat cur_cpuid) (p_lock x)); upd_proc p (p_with_lock l).
Definition unlock_proc (p : Z) : K () :=
  x ← get_proc p; l ← lift (release (Z.to_nat cur_cpuid) (p_lock x)); upd_proc p (p_with_lock l);;
  cpu_intr_on.

(** proc.c: the process of this CPU, 0 if none; interrupts are on behind it. *)
Definition cur_proc : K Z := cpu_intr_off;; c ← cur_cpu; cpu_intr_on;; mret (c_proc c).

(** ** Lemmas *)

Lemma deref_run {A} (f : kstate -> gmap Z A) a x k : f k !! a = Some x -> deref f a k = Ret (x, k).
Proof. unfold deref. by intros ->. Qed.
Lemma update_run {A} (f : kstate -> gmap Z A) set a g x k :
  f k !! a = Some x -> update f set a g k = Ret (tt, set (<[a := g x]> (f k)) k).
Proof. unfold update. by intros ->. Qed.

Lemma ask_lists_run {A} (f : lheap -> outcome A) a k : f (ks_lists k) = Ret a -> ask_lists f k = Ret (a, k).
Proof. unfold ask_lists. by intros ->. Qed.
Lemma on_lists_run f h k : f (ks_lists k) = Ret h -> on_lists f k = Ret (tt, set_lists h k).
Proof. unfold on_lists. by intros ->. Qed.

Lemma cur_cpu_run k c : ks_cpus k !! 0%nat = Some c -> cur_cpu k = Ret (c, k).
Proof. intros Hc. unfold cur_cpu, cur_cpuid. by rewrite (rd_lookup _ 0 c). Qed.

(** The mask with interrupts off and on. *)
Definition daif_off (d : Z) : Z := Z.lor (Z.lor d 2) 1.
Definition daif_on (d : Z) : Z := Z.land (Z.land d (Z.lnot 2)) (Z.lnot 1).
Definition intr_off (k : kstate) : kstate := set_daif (daif_off (ks_daif k)) k.
Definition intr_on (k : kstate) : kstate := set_daif (daif_on (ks_daif k)) k.
Lemma daif_on_bits d i : 0 <= i -> Z.testbit (daif_on d) i = Z.testbit d i && negb (i =? 1) && negb (i =? 0).
Proof.
  intros Hi. unfold daif_on. rewrite !Z.land_spec, !Z.lnot_spec by done. change 2 with (2 ^ 1). rewrite Z.pow2_bits_eqb by lia.
  change (Z.testbit 1 i) with (Z.testbit (2 ^ 0) i). rewrite Z.pow2_bits_eqb by lia. by rewrite (Z.eqb_sym 1 i), (Z.eqb_sym 0 i).
Qed.
Lemma daif_on_on d : daif_on (daif_on d) = daif_on d.
Proof. apply Z.bits_inj'. intros i Hi. rewrite !daif_on_bits by done. by destruct (Z.testbit d i), (i =? 1), (i =? 0). Qed.
Lemma daif_on_off d : daif_on (daif_off d) = daif_on d.
Proof.
  apply Z.bits_inj'. intros i Hi. rewrite !daif_on_bits by done. unfold daif_off. rewrite !Z.lor_spec. change 2 with (2 ^ 1). rewrite Z.pow2_bits_eqb by lia.
  change (Z.testbit 1 i) with (Z.testbit (2 ^ 0) i). rewrite Z.pow2_bits_eqb by lia. rewrite (Z.eqb_sym 1 i), (Z.eqb_sym 0 i).
  by destruct (Z.testbit d i), (i =? 1), (i =? 0).
Qed.
Lemma daif_on_unmasked d : Z.land (daif_on d) 3 = 0.
Proof.
  apply Z.bits_inj'. intros i Hi. rewrite Z.land_spec, daif_on_bits, Z.bits_0 by done. change 3 with (Z.ones 2).
  destruct (Z.lt_ge_cases i 2); [|rewrite Z.ones_spec_high by lia; apply andb_false_r]. assert (i = 0 \/ i = 1) as [-> | ->] by lia; cbn; by rewrite ?andb_false_r.
Qed.
Lemma intr_on_on k : intr_on (intr_on k) = intr_on k.
Proof. unfold intr_on. cbn. by rewrite daif_on_on. Qed.

Lemma cur_proc_run k c : ks_cpus k !! 0%nat = Some c -> cur_proc k = Ret (c_proc c, intr_on k).
Proof.
  intros Hc. unfold cur_proc. mrun (eq_refl (Ret (tt, intr_off k))). mrun (cur_cpu_run (intr_off k) c Hc).
  mrun (eq_refl (Ret (tt, intr_on (intr_off k)))). unfold mret, M_ret, intr_on, intr_off. cbn. by rewrite daif_on_off.
Qed.

Lemma lock_proc_run k p x :
  ks_procs k !! p = Some x -> p_lock x = initlock ->
  lock_proc p k = Ret (tt, set_procs (<[p := p_with_lock (mkLock 1 (Some 0%nat)) x]> (ks_procs k)) (intr_off k)).
Proof.
  intros Hp Hl. unfold lock_proc. mrun (eq_refl (Ret (tt, intr_off k))). mrun (deref_run ks_procs p x (intr_off k) Hp). rewrite Hl.
  mrun (eq_refl (Ret (mkLock 1 (Some 0%nat), intr_off k))). unfold upd_proc. by rewrite (update_run ks_procs set_procs p _ x).
Qed.
Lemma unlock_proc_run k p x :
  ks_procs k !! p = Some x -> p_lock x = mkLock 1 (Some 0%nat) ->
  unlock_proc p k = Ret (tt, intr_on (set_procs (<[p := p_with_lock initlock x]> (ks_procs k)) k)).
Proof.
  intros Hp Hl. unfold unlock_proc. mrun (deref_run ks_procs p x k Hp). rewrite Hl.
  mrun (eq_refl (Ret (initlock, k))). mrun (update_run ks_procs set_procs p (p_with_lock initlock) x k Hp). done.
Qed.

(** A state without any object, from which examples are built. *)
Definition kstate0 : kstate :=
  mkKs (mkSlabs [] ∅ ∅ ∅ [] 0) ∅ ∅ ∅ ∅ ∅ ∅ ∅ ∅ [] 0 0 [] [] 15.
