(* ===== verification/Kobject.v ===== *)
(** * Kernel objects (ukern/src/uspace/kobject.c)

    Reference counting and the dispatch through [struct kobject_ops] and the
    table of creation callbacks.  What a function pointer runs is given by
    the class [KobjOps], so the theorems here hold for every set of object
    types; Syscall.v gives the kernel's own. *)
From S2P Require Import Prelude Config CList Spinlock Kernel.

Definition KOBJ_RIGHT_NONE : Z := 0x0000.
Definition KOBJ_RIGHT_READ : Z := 0x0001.
Definition KOBJ_RIGHT_WRITE : Z := 0x0002.
Definition KOBJ_RIGHT_EXEC : Z := 0x0004.
Definition KOBJ_RIGHT_MMAP : Z := 0x0008.
Definition KOBJ_RIGHT_CTL : Z := 0x0010.
Definition KOBJ_RIGHT_RW : Z := Z.lor KOBJ_RIGHT_READ KOBJ_RIGHT_WRITE.
Definition KOBJ_RIGHT_RWX : Z := Z.lor KOBJ_RIGHT_RW KOBJ_RIGHT_EXEC.
Definition KOBJ_TYPE_PROCESS : Z := 1.
Definition KOBJ_TYPE_PMA : Z := 3.
Definition KOBJ_TYPE_STDIO : Z := 10.
Definition KOBJ_TYPE_MAX : Z := 13.

(** [struct kobject_ops]: [None] is a NULL member.  [op_send] takes the
    object, the data and its size, the extra data and its size, a timeout. *)
Record ops_impl := mkOps {
  op_send : option (Z -> Z -> Z -> Z -> Z -> Z -> K Z);
  op_recv : option (Z -> Z -> Z -> Z -> Z -> Z -> K Z);
  op_release : option (Z -> K ());
  op_close : option (Z -> Z -> Z -> K Z);
  op_reply : option (Z -> Z -> Z -> Z -> Z -> Z -> K Z);
  op_mmap : option (Z -> Z -> K Z);
  op_munmap : option (Z -> Z -> K Z);
  op_ctl : option (Z -> Z -> Z -> K Z);
}.

(** What the function pointers designate.  A creation callback returns its
    result and what it wrote through its two pointers, if it did. *)
Class KobjOps := {
  ops_of : kobject_ops -> ops_impl;
  run_create : kobject_create_cb -> Z -> K (Z * option (Z * Z));
}.

Section Kobject.
Context `{OP : KobjOps}.

(** [kobj->ops->f], [None] when one of the pointers is NULL. *)
Definition kobj_op {A} (f : ops_impl -> option A) (o : kobject) : option A := ko_ops o ≫= (fun t => f (ops_of t)).

Definition register_kobject_type (cb : option kobject_create_cb) (type : Z) : K () :=
  assertM (bool_decide (is_Some cb) && (type <? KOBJ_TYPE_MAX));;
  k ← get; l ← lift (wr (ks_cbs k) type cb); modify (set_cbs l).

Definition kobject_release (kobj : Z) : K () :=
  o ← get_kobj kobj;
  match kobj_op op_release o with Some f => f kobj | None => mret tt end.

Definition kobject_get (kobj : Z) : K Z :=
  if kobj =? 0 then mret 0
  else
    o ← get_kobj kobj;
    let (old, new) := atomic_inc_if_postive (ko_ref o) in
    upd_kobj kobj (ko_with_ref new);;
    assertM (0 <=? old);;
    mret 1.

Definition kobject_put (kobj : Z) : K Z :=
  if kobj =? 0 then mret 0
  else
    o ← get_kobj kobj;
    let (old, new) := atomic_dec_set_negtive_if_zero (ko_ref o) in
    upd_kobj kobj (ko_with_ref new);;
    assertM (0 <? old);;
    (if old =? 1 then kobject_release kobj else mret tt);;
    mret 1.

Definition kobject_init (kobj type right_mask : Z) (ops : option kobject_ops) (data : Z) : K () :=
  assertM (negb (kobj =? 0));;
  upd_kobj kobj (fun o => mkKobj (u8 type) right_mask (ko_ref o) (ko_lock o) ops data);;
  on_lists (fun h => INIT_LIST_HEAD h (kobject_list kobj));;
  upd_kobj kobj (fun o => mkKobj (ko_type o) (ko_right_mask o) (ko_ref o) initlock (ko_ops o) (ko_data o)).

Definition kobject_create (type data : Z) : K (Z * option (Z * Z)) :=
  if (type <=? 0) || (KOBJ_TYPE_MAX <=? type) then mret (- ENOENT, None)
  else
    k ← get; ops ← lift (rd (ks_cbs k) type);
    match ops with
    | None => mret (- EOPNOTSUPP, None)
    | Some cb => run_create cb data
    end.

(** Their bodies are commented out. *)
Definition kobject_open (kobj handle right : Z) : K Z := mret 0.
Definition kobject_close (kobj right proc : Z) : K Z := mret 0.
Definition kobject_recv (kobj data data_size extra extra_size timeout : Z) : K Z := mret 0.

Definition kobject_send (kobj data data_size extra extra_size timeout : Z) : K Z :=
  o ← get_kobj kobj;
  match kobj_op op_send o with
  | None => mret (- EACCES)
  | Some f => f kobj data data_size extra extra_size timeout
  end.

Definition kobject_reply (kobj right token err_code fd fd_right : Z) : K Z :=
  o ← get_kobj kobj;
  match kobj_op op_reply o with
  | None => mret (- EPERM)
  | Some f => f kobj right token err_code fd fd_right
  end.

Definition kobject_munmap (kobj right : Z) : K Z :=
  o ← get_kobj kobj;
  match kobj_op op_munmap o with None => mret (- EPERM) | Some f => f kobj right end.

Definition kobject_mmap (kobj right : Z) : K Z :=
  o ← get_kobj kobj;
  match kobj_op op_mmap o with None => mret (- EPERM) | Some f => f kobj right end.

Definition kobject_ctl (kobj right req data : Z) : K Z :=
  o ← get_kobj kobj;
  match kobj_op op_ctl o with None => mret (- EPERM) | Some f => f kobj req data end.

(** [struct kobject_type_desc]: type and callback; the section's entries. *)
Fixpoint init_kobject_type (descs : list (Z * option kobject_create_cb)) : K Z :=
  match descs with
  | [] => mret 0
  | (type, ops) :: descs' =>
      (if KOBJ_TYPE_MAX <=? type then mret tt else register_kobject_type ops type);;
      init_kobject_type descs'
  end.

(** ** Reference counting *)

Definition set_ref (kobj n : Z) (o : kobject) (k : kstate) : kstate := set_kobjs (<[kobj := ko_with_ref n o]> (ks_kobjs k)) k.

Lemma kobject_get_run kobj o k :
  kobj <> 0 -> ks_kobjs k !! kobj = Some o ->
  kobject_get kobj k = if ko_ref o <? 0 then Halt else Ret (1, set_ref kobj (s32 (ko_ref o + 1)) o k).
Proof.
  intros Hz Hk. unfold kobject_get. rewrite (proj2 (Z.eqb_neq kobj 0) Hz).
  mrun (deref_run ks_kobjs kobj o k Hk). unfold atomic_inc_if_postive. cbn beta iota.
  mrun (update_run ks_kobjs set_kobjs kobj (ko_with_ref (if ko_ref o <? 0 then ko_ref o else s32 (ko_ref o + 1))) o k Hk).
  destruct (Z.ltb_spec (ko_ref o) 0), (Z.leb_spec 0 (ko_ref o)); lia || done.
Qed.

Lemma kobject_put_run kobj o k :
  kobj <> 0 -> ks_kobjs k !! kobj = Some o ->
  kobject_put kobj k =
    if ko_ref o <=? 0 then Halt
    else if ko_ref o =? 1 then (kobject_release kobj;; mret 1) (set_ref kobj (-1) o k)
    else Ret (1, set_ref kobj (ko_ref o - 1) o k).
Proof.
  intros Hz Hk. unfold kobject_put. rewrite (proj2 (Z.eqb_neq kobj 0) Hz).
  mrun (deref_run ks_kobjs kobj o k Hk). unfold atomic_dec_set_negtive_if_zero. cbn beta iota.
  mrun (update_run ks_kobjs set_kobjs kobj
    (ko_with_ref (if ko_ref o <=? 0 then ko_ref o else if ko_ref o - 1 =? 0 then ko_ref o - 1 - 1 else ko_ref o - 1)) o k Hk).
  destruct (Z.leb_spec (ko_ref o) 0), (Z.ltb_spec 0 (ko_ref o)); try lia; [done|].
  destruct (Z.eqb_spec (ko_ref o) 1), (Z.eqb_spec (ko_ref o - 1) 0); try lia; [|done].
  by rewrite e.
Qed.

Inductive refop := Get | Put.
Definition refop_delta (r : refop) : Z := match r with Get => 1 | Put => -1 end.
Definition run_refop (r : refop) (kobj : Z) : K Z := match r with Get => kobject_get kobj | Put => kobject_put kobj end.
Fixpoint run_refs (l : list refop) (kobj : Z) : K () :=
  match l with [] => mret tt | r :: l' => run_refop r kobj;; run_refs l' kobj end.

(** The count a history leaves, when it stays positive and in [int]. *)
Fixpoint count_refs (l : list refop) (n : Z) : option Z :=
  if (1 <=? n) && (n <? 2 ^ 31) then
    match l with [] => Some n | r :: l' => count_refs l' (n + refop_delta r) end
  else None.

Lemma count_refs_range l n m : count_refs l n = Some m -> 1 <= m < 2 ^ 31.
Proof.
  revert n. induction l as [|r l IH]; intros n; cbn [count_refs];
    destruct (Z.leb_spec 1 n), (Z.ltb_spec n (2 ^ 31)); cbn [andb]; try done; [intros [= ->]; lia|apply IH].
Qed.
Lemma count_refs_pos l n m : count_refs l n = Some m -> 1 <= n < 2 ^ 31.
Proof. destruct l; cbn [count_refs]; destruct (Z.leb_spec 1 n), (Z.ltb_spec n (2 ^ 31)); cbn [andb]; try done; lia. Qed.

Lemma run_refs_spec l kobj o k n :
  kobj <> 0 -> ks_kobjs k !! kobj = Some o -> count_refs l (ko_ref o) = Some n ->
  run_refs l kobj k = Ret (tt, set_ref kobj n o k).
Proof.
  intros Hz. revert o k. induction l as [|r l IH]; intros o k Hk Hc; pose proof (count_refs_pos _ _ _ Hc) as Hpos;
    cbn [count_refs run_refs] in *; rewrite (proj2 (Z.leb_le 1 (ko_ref o)) ltac:(lia)), (proj2 (Z.ltb_lt (ko_ref o) (2 ^ 31)) ltac:(lia)) in Hc;
    cbn [andb] in Hc.
  - injection Hc as <-. unfold set_ref. destruct o. cbn. rewrite (insert_id _ _ _ Hk). by destruct k.
  - pose proof (count_refs_pos _ _ _ Hc) as Hpos'.
    assert (run_refop r kobj k = Ret (1, set_ref kobj (ko_ref o + refop_delta r) o k)) as Hr.
    { destruct r; cbn [run_refop refop_delta] in *.
      - rewrite (kobject_get_run kobj o k Hz Hk), (proj2 (Z.ltb_ge _ _)), s32_small by lia. done.
      - rewrite (kobject_put_run kobj o k Hz Hk), (proj2 (Z.leb_gt _ _)), (proj2 (Z.eqb_neq _ _)) by lia. done. }
    mrun Hr. rewrite (IH (ko_with_ref (ko_ref o + refop_delta r) o)); [|by apply lookup_insert_eq|done].
    unfold set_ref. cbn. by rewrite insert_insert_eq.
Qed.
End Kobject.

(** ** Properties *)

(** C29: a history of [kobject_get] and [kobject_put] whose count stays
    positive changes nothing but the reference count, which ends as the
    initial one plus gets minus puts; the put that drops the last reference
    marks the object dead and runs its [release] operation, and from then on
    every get or put stops the kernel. *)
Theorem kobject_refcount `{OP : KobjOps} (l : list refop) (kobj n : Z) (o : kobject) (k : kstate)
  (Hz : kobj <> 0) (Hk : ks_kobjs k !! kobj = Some o) (Hc : count_refs l (ko_ref o) = Some n) :
  run_refs l kobj k = Ret (tt, set_ref kobj n o k) /\
  (n = 1 -> kobject_put kobj (set_ref kobj n o k) = (kobject_release kobj;; mret 1) (set_ref kobj (-1) o k)) /\
  (forall r k', ks_kobjs k' !! kobj = Some (ko_with_ref (-1) o) -> run_refop r kobj k' = Halt).
Proof.
  split; [by apply run_refs_spec|]. split.
  - intros ->. rewrite (kobject_put_run kobj (ko_with_ref 1 o)); [|done|by apply lookup_insert_eq].
    cbn [ko_ref ko_with_ref Z.leb Z.eqb Z.compare Pos.eqb Pos.compare Pos.compare_cont]. unfold set_ref. cbn.
    by rewrite insert_insert_eq.
  - intros r k' Hk'. destruct r; cbn [run_refop];
      [rewrite (kobject_get_run _ _ _ Hz Hk')|rewrite (kobject_put_run _ _ _ Hz Hk')]; done.
Qed.

Definition no_ops : KobjOps :=
  {| ops_of _ := mkOps None None None None None None None None; run_create _ _ := mret (0, None) |}.

Lemma kobject_refcount_witness :
  run_refs (OP := no_ops) [Get; Get; Put; Put] 64 (set_kobjs {[ 64 := mkKobj 10 3 1 initlock None 0 ]} kstate0)
  = Ret (tt, set_kobjs {[ 64 := mkKobj 10 3 1 initlock None 0 ]} kstate0).
Proof.
  destruct (kobject_refcount (OP := no_ops) [Get; Get; Put; Put] 64 1 (mkKobj 10 3 1 initlock None 0)
    (set_kobjs {[ 64 := mkKobj 10 3 1 initlock None 0 ]} kstate0)) as [H _].
  - lia.
  - reflexivity.
  - reflexivity.
  - rewrite H. reflexivity.
Defined.
