(* ===== verification/Handle.v ===== *)
(** * Handle tables (ukern/src/uspace/handle.c)

    A handle is the index of a slot in the process's chain of handle pages.
    The loops that follow the chain are given [MAX_TABLES] rounds, which every
    valid handle fits in. *)
From S2P Require Import Prelude Config CList Bitmap Page PageTable Slab SlabSpec Kmem Spinlock Kernel Kobject.

Definition HANDLE_NULL : Z := -1.
Definition NR_DESC_PER_PAGE : Z := 255.
Definition PROC_MAX_HANDLE : Z := NR_DESC_PER_PAGE * 128.
(** [handle] is an [int16_t] and [PROC_MAX_HANDLE] an [unsigned long]. *)
Definition invalid_handle (handle : Z) : bool := (handle =? HANDLE_NULL) || (PROC_MAX_HANDLE <=? u64 handle).
Definition MAX_TABLES : nat := 129.

Section Handle.
Context `{OP : KobjOps} `{KE : KernEnv}.

(** A NULL page from [page_allocz] is written to all the same. *)
Definition new_handle_table (index : Z) : K Z :=
  if PROC_MAX_HANDLE <=? u64 index then mret 0
  else
    hd ← on_pages page_alloc;
    if hd =? 0 then fault
    else
      modify (fun k => set_htabs (<[hd := mkHt (replicate 255 (mkHd 0 0)) index NR_DESC_PER_PAGE 0]> (ks_htabs k)) k);;
      mret hd.

(** The slot's table and its index there. *)
Fixpoint lookup_loop (fuel : nat) (table handle : Z) : K (Z * Z) :=
  if NR_DESC_PER_PAGE <=? u64 handle then
    match fuel with
    | O => fun _ => Diverge
    | S fuel' => t ← get_htab table; lookup_loop fuel' (ht_next t) (s16 (handle - NR_DESC_PER_PAGE))
    end
  else mret (table, handle).

Definition lookup_handle_desc (proc handle : Z) : K (Z * Z) :=
  p ← get_proc proc; lookup_loop MAX_TABLES (handle_desc_table p) handle.

(** Second component: what is written through [kobj] and [right]. *)
Definition get_kobject_from_proc (proc handle : Z) : K (Z * option (Z * Z)) :=
  if invalid_handle handle || (proc =? 0) then mret (- ENOENT, None)
  else
    lock_proc proc;;
    '(table, i) ← lookup_handle_desc proc handle;
    t ← get_htab table;
    hd ← lift (rd (ht_desc t) i);
    out ← (if negb (hd_kobj hd =? 0) then
             r ← kobject_get (hd_kobj hd);
             mret (if negb (r =? 0) then Some (hd_kobj hd, u32 (hd_right hd)) else None)
           else mret None);
    unlock_proc proc;;
    mret (0, out).

Definition get_kobject (handle : Z) : K (Z * option (Z * Z)) := p ← cur_proc; get_kobject_from_proc p handle.
Definition put_kobject (kobj : Z) : K Z := kobject_put kobj.

(** The [for] loop over the slots of one page. *)
Fixpoint find_slot (l : list handle_desc) (i : Z) : option Z :=
  match l with
  | [] => None
  | d :: l' => if hd_kobj d =? 0 then Some i else find_slot l' (i + 1)
  end.

(** The [while] loop: the table and the index in it.  A page that counts a
    free slot and has none is scanned for ever. *)
Fixpoint handle_loop (fuel : nat) (hd : Z) : K (option (Z * Z)) :=
  if hd =? 0 then mret None
  else
    match fuel with
    | O => fun _ => Diverge
    | S fuel' =>
        t ← get_htab hd;
        if ht_free t =? 0 then handle_loop fuel' (ht_next t)
        else match find_slot (ht_desc t) 0 with
             | Some i => mret (Some (hd, i))
             | None => fun _ => Diverge
             end
    end.

Definition __handle_alloc (proc kobj right : Z) : K Z :=
  p ← get_proc proc;
  assertM (negb (kobj =? 0));;
  assertM (negb (proc =? 0));;
  lock_proc proc;;
  r ← handle_loop MAX_TABLES (handle_desc_table p);
  match r with
  | None => halt
  | Some (hd, i) =>
      t ← get_htab hd;
      ds ← lift (wr (ht_desc t) i (mkHd kobj (s32 right)));
      upd_htab hd (fun t => mkHt ds (ht_index t) (s32 (ht_free t - 1)) (ht_next t));;
      kobject_get kobj;;
      unlock_proc proc;;
      mret (s16 (i + ht_index t))
  end.

Definition handle_alloc (kobj right : Z) : K Z := p ← cur_proc; __handle_alloc p kobj right.

Definition __handle_free (proc handle : Z) : K (Z * option (Z * Z)) :=
  if invalid_handle handle || (proc =? 0) then mret (- ENOENT, None)
  else
    lock_proc proc;;
    '(table, i) ← lookup_handle_desc proc handle;
    t ← get_htab table;
    hd ← lift (rd (ht_desc t) i);
    if hd_kobj hd =? 0 then unlock_proc proc;; mret (- EPERM, None)
    else
      ds ← lift (wr (ht_desc t) i (mkHd 0 KOBJ_RIGHT_NONE));
      upd_htab table (fun t => mkHt ds (ht_index t) (s32 (ht_free t + 1)) (ht_next t));;
      unlock_proc proc;;
      mret (0, Some (hd_kobj hd, u32 (hd_right hd))).

Definition handle_free (handle : Z) : K (Z * option (Z * Z)) := p ← cur_proc; __handle_free p handle.

Definition init_proc_handles (proc : Z) : K () :=
  t ← new_handle_table 0;
  upd_proc proc (p_with_htab t);;
  h ← __handle_alloc proc (proc_kobj proc) (Z.lor KOBJ_RIGHT_WRITE KOBJ_RIGHT_CTL);
  assertM (h =? 0);;
  h ← __handle_alloc proc stdio_kobj KOBJ_RIGHT_READ;
  assertM (h =? 1);;
  h ← __handle_alloc proc stdio_kobj KOBJ_RIGHT_WRITE;
  assertM (h =? 2);;
  h ← __handle_alloc proc stdio_kobj KOBJ_RIGHT_WRITE;
  assertM (h =? 3).
End Handle.

(** ** Well-formed tables *)

Definition slot_free (d : handle_desc) : Prop := hd_kobj d = 0.
#[global] Instance slot_free_dec d : Decision (slot_free d).
Proof. unfold slot_free. apply _. Defined.
Definition nr_free_slots (l : list handle_desc) : Z := Z.of_nat (length (filter slot_free l)).

(** The page holds its 255 slots, starts at handle 0, counts its free slots,
    and is the last of its chain. *)
Record ht_wf (t : handle_table) : Prop := {
  hw_len : length (ht_desc t) = 255%nat;
  hw_index : ht_index t = 0;
  hw_free : ht_free t = nr_free_slots (ht_desc t);
  hw_next : ht_next t = 0;
}.

Lemma find_slot_Some l b i :
  find_slot l b = Some i <->
  exists n d, i = b + Z.of_nat n /\ l !! n = Some d /\ hd_kobj d = 0 /\
    forall m e, (m < n)%nat -> l !! m = Some e -> hd_kobj e <> 0.
Proof.
  revert b. induction l as [|d l IH]; intros b; cbn [find_slot].
  { split; [done|]. intros (n & d & _ & Hd & _). done. }
  destruct (Z.eqb_spec (hd_kobj d) 0) as [Hd|Hd].
  - split.
    + intros [= <-]. exists 0%nat, d. split_and!; [lia|done|done|]. intros m e Hm. lia.
    + intros (n & e & -> & Hn & He & Hmin). destruct n as [|n]; [f_equal; lia|].
      destruct (Hmin 0%nat d); [lia|done|done].
  - rewrite IH. split.
    + intros (n & e & -> & Hn & He & Hmin). exists (S n), e. split_and!; [lia|done|done|].
      intros [|m] x Hm Hx; [by injection Hx as ->|]. apply (Hmin m); [lia|done].
    + intros ([|n] & e & -> & Hn & He & Hmin); [by injection Hn as ->|]. exists n, e. split_and!; [lia|done|done|].
      intros m x Hm Hx. by apply (Hmin (S m) x); [lia|].
Qed.

Lemma find_slot_None l b : find_slot l b = None <-> nr_free_slots l = 0.
Proof.
  revert b. unfold nr_free_slots. induction l as [|d l IH]; intros b; cbn [find_slot]; [done|].
  destruct (Z.eqb_spec (hd_kobj d) 0) as [Hd|Hd].
  - rewrite filter_cons_True by done. simpl. split; [done|lia].
  - rewrite filter_cons_False by done. apply IH.
Qed.

Lemma nr_free_bounds l : 0 <= nr_free_slots l <= Z.of_nat (length l).
Proof. unfold nr_free_slots. pose proof (length_filter slot_free l). lia. Qed.

Lemma nr_free_insert l n d d' :
  l !! n = Some d ->
  nr_free_slots (<[n := d']> l) =
    nr_free_slots l - (if decide (slot_free d) then 1 else 0) + (if decide (slot_free d') then 1 else 0).
Proof.
  intros Hn. pose proof (lookup_lt_Some _ _ _ Hn) as Hlt.
  rewrite <- (take_drop_middle l n d Hn) at 2. rewrite insert_take_drop by done. unfold nr_free_slots.
  rewrite !filter_app, !filter_cons. repeat destruct (decide _); rewrite !length_app; simpl; lia.
Qed.

(** The table after slot [n] got [d], the number of free slots changing by [f]. *)
Definition ht_put (t : handle_table) (n : nat) (d : handle_desc) (f : Z) : handle_table :=
  mkHt (<[n := d]> (ht_desc t)) (ht_index t) (ht_free t + f) (ht_next t).

Lemma ht_put_wf t n d d' f :
  ht_wf t -> ht_desc t !! n = Some d ->
  f = (if decide (slot_free d') then 1 else 0) - (if decide (slot_free d) then 1 else 0) -> ht_wf (ht_put t n d' f).
Proof.
  intros [Hl Hi Hf Hn] Hd ->. constructor; cbn [ht_put ht_desc ht_index ht_free ht_next]; [by rewrite length_insert|done| |done].
  rewrite (nr_free_insert _ _ d d' Hd), Hf. lia.
Qed.

(** ** What the operations do on a process with one well-formed table *)
Section HandleSpec.
Context `{OP : KobjOps} `{KE : KernEnv}.

(** The unlocked process [p] has the table [ht] at address [t]. *)
Record has_table (k : kstate) (p t : Z) (ht : handle_table) : Prop := {
  ht_proc : exists x, ks_procs k !! p = Some x /\ p_lock x = initlock /\ handle_desc_table x = t;
  ht_ptrs : p <> 0 /\ t <> 0;
  ht_at : ks_htabs k !! t = Some ht;
  ht_ok : ht_wf ht;
}.

Definition with_table (t : Z) (ht : handle_table) (k : kstate) : kstate := set_htabs (<[t := ht]> (ks_htabs k)) k.
Definition with_lock (p : Z) (x : proc) (k : kstate) : kstate :=
  set_procs (<[p := p_with_lock (mkLock 1 (Some 0%nat)) x]> (ks_procs k)) (intr_off k).

(** Releasing the lock undoes what taking it did to the process, and leaves
    interrupts unmasked. *)
Lemma unlock_with_lock k p x :
  ks_procs k !! p = Some x -> p_lock x = initlock -> unlock_proc p (with_lock p x k) = Ret (tt, intr_on k).
Proof.
  intros Hp Hl. rewrite (unlock_proc_run _ p (p_with_lock (mkLock 1 (Some 0%nat)) x)); [|by apply lookup_insert_eq|done].
  unfold with_lock. cbn [ks_procs set_procs]. rewrite insert_insert_eq.
  replace (p_with_lock initlock _) with x by (destruct x; cbn in *; by subst). rewrite (insert_id _ _ _ Hp).
  unfold intr_on, intr_off. cbn. rewrite daif_on_off. by destruct k.
Qed.

Lemma slot_bounds ht i : ht_wf ht -> find_slot (ht_desc ht) 0 = Some i -> 0 <= i < 255.
Proof.
  intros Hw (n & d & -> & Hn & _)%find_slot_Some. pose proof (lookup_lt_Some _ _ _ Hn). rewrite (hw_len _ Hw) in *. lia.
Qed.

Lemma handle_loop_full k t ht :
  t <> 0 -> ks_htabs k !! t = Some ht -> ht_wf ht -> find_slot (ht_desc ht) 0 = None ->
  handle_loop MAX_TABLES t k = Ret (None, k).
Proof.
  intros Ht Hat Hw Hf. unfold MAX_TABLES. generalize 127%nat as n. intros n.
  cbn [handle_loop]. rewrite (proj2 (Z.eqb_neq t 0) Ht). mrun (deref_run ks_htabs t ht k Hat).
  rewrite (hw_free _ Hw), (proj1 (find_slot_None _ _) Hf), (hw_next _ Hw). done.
Qed.

Lemma handle_loop_found k t ht i :
  t <> 0 -> ks_htabs k !! t = Some ht -> ht_wf ht -> find_slot (ht_desc ht) 0 = Some i ->
  handle_loop MAX_TABLES t k = Ret (Some (t, i), k).
Proof.
  intros Ht Hat Hw Hf. unfold MAX_TABLES. generalize 128%nat as n. intros n.
  cbn [handle_loop]. rewrite (proj2 (Z.eqb_neq t 0) Ht). mrun (deref_run ks_htabs t ht k Hat).
  destruct (Z.eqb_spec (ht_free ht) 0) as [Hz|_]; [|by rewrite Hf].
  rewrite (hw_free _ Hw) in Hz. apply (find_slot_None _ 0) in Hz. congruence.
Qed.

(** The prologue the two allocation lemmas share. *)
Lemma handle_alloc_start k p t ht kobj right x :
  has_table k p t ht -> ks_procs k !! p = Some x -> kobj <> 0 ->
  __handle_alloc p kobj right k =
  (r ← handle_loop MAX_TABLES t;
   match r with
   | None => halt
   | Some (hd, i) =>
       t ← get_htab hd;
       ds ← lift (wr (ht_desc t) i (mkHd kobj (s32 right)));
       upd_htab hd (fun t => mkHt ds (ht_index t) (s32 (ht_free t - 1)) (ht_next t));;
       kobject_get kobj;;
       unlock_proc p;;
       mret (s16 (i + ht_index t))
   end) (with_lock p x k).
Proof.
  intros [(x' & Hp & Hl & Hx) [Hpz Htz] Hat Hw] Hp' Hz. assert (x' = x) as -> by congruence. unfold __handle_alloc.
  mrun (deref_run ks_procs p x k Hp). rewrite (proj2 (Z.eqb_neq kobj 0) Hz). mrun (eq_refl (Ret (tt, k))).
  rewrite (proj2 (Z.eqb_neq p 0) Hpz). mrun (eq_refl (Ret (tt, k))). mrun (lock_proc_run k p x Hp Hl). rewrite Hx. reflexivity.
Qed.

Lemma handle_alloc_full k p t ht kobj right :
  has_table k p t ht -> kobj <> 0 -> find_slot (ht_desc ht) 0 = None -> __handle_alloc p kobj right k = Halt.
Proof.
  intros H Hz Hf. pose proof H as [(x & Hp & Hl & Hx) [Hpz Htz] Hat Hw]. rewrite (handle_alloc_start k p t ht kobj right x H Hp Hz).
  mrun (handle_loop_full (with_lock p x k) t ht Htz Hat Hw Hf). done.
Qed.

Lemma handle_alloc_run k p t ht kobj right o i :
  has_table k p t ht -> kobj <> 0 -> ks_kobjs k !! kobj = Some o -> 0 <= ko_ref o -> find_slot (ht_desc ht) 0 = Some i ->
  __handle_alloc p kobj right k =
    Ret (i, intr_on (set_ref kobj (s32 (ko_ref o + 1)) o (with_table t (ht_put ht (Z.to_nat i) (mkHd kobj (s32 right)) (-1)) k))).
Proof.
  intros H Hz Hk Href Hf. pose proof H as [(x & Hp & Hl & Hx) [Hpz Htz] Hat Hw].
  pose proof (slot_bounds _ _ Hw Hf). pose proof (nr_free_bounds (ht_desc ht)). pose proof (hw_free _ Hw). pose proof (hw_len _ Hw).
  rewrite (handle_alloc_start k p t ht kobj right x H Hp Hz).
  mrun (handle_loop_found (with_lock p x k) t ht i Htz Hat Hw Hf). cbn iota. mrun (deref_run ks_htabs t ht (with_lock p x k) Hat).
  rewrite wr_in by lia. mrun (eq_refl (Ret (<[Z.to_nat i := mkHd kobj (s32 right)]> (ht_desc ht), with_lock p x k))).
  unfold upd_htab. erewrite M_bind_run; [|apply (update_run ks_htabs set_htabs t _ ht), Hat]. cbn beta.
  rewrite (s32_small (ht_free ht - 1)), (hw_index _ Hw), Z.add_0_r, (s16_small i) by lia.
  erewrite M_bind_run; [|rewrite (kobject_get_run kobj o); [|done|exact Hk]; rewrite (proj2 (Z.ltb_ge _ _) Href); reflexivity].
  erewrite M_bind_run; [|exact (unlock_with_lock (set_ref kobj (s32 (ko_ref o + 1)) o
     (with_table t (mkHt (<[Z.to_nat i := mkHd kobj (s32 right)]> (ht_desc ht)) 0 (ht_free ht - 1) (ht_next ht)) k)) p x Hp Hl)].
  unfold ht_put. rewrite (hw_index _ Hw). done.
Qed.

(** A handle for an object whose count is negative stops the kernel. *)
Lemma handle_alloc_dead k p t ht kobj right o i :
  has_table k p t ht -> kobj <> 0 -> ks_kobjs k !! kobj = Some o -> ko_ref o < 0 -> find_slot (ht_desc ht) 0 = Some i ->
  __handle_alloc p kobj right k = Halt.
Proof.
  intros H Hz Hk Href Hf. pose proof H as [(x & Hp & Hl & Hx) [Hpz Htz] Hat Hw].
  pose proof (slot_bounds _ _ Hw Hf). pose proof (hw_len _ Hw). rewrite (handle_alloc_start k p t ht kobj right x H Hp Hz).
  mrun (handle_loop_found (with_lock p x k) t ht i Htz Hat Hw Hf). cbn iota. mrun (deref_run ks_htabs t ht (with_lock p x k) Hat).
  rewrite wr_in by lia. erewrite M_bind_run; [|reflexivity]. cbn beta.
  unfold upd_htab. erewrite M_bind_run; [|apply (update_run ks_htabs set_htabs t _ ht), Hat]. cbn beta.
  unfold mbind at 1, M_bind at 1. rewrite (kobject_get_run kobj o); [|done|exact Hk]. by rewrite (proj2 (Z.ltb_lt _ _) Href).
Qed.

Lemma lookup_loop_first k t h : 0 <= h < 255 -> lookup_loop MAX_TABLES t h k = Ret ((t, h), k).
Proof.
  intros Hh. unfold MAX_TABLES. generalize 128%nat as n. intros n. cbn [lookup_loop]. unfold NR_DESC_PER_PAGE.
  rewrite u64_small, (proj2 (Z.leb_gt _ _)) by lia. done.
Qed.

Lemma valid_handle h : 0 <= h < PROC_MAX_HANDLE -> invalid_handle h = false.
Proof.
  unfold invalid_handle, PROC_MAX_HANDLE, NR_DESC_PER_PAGE, HANDLE_NULL. intros Hh. rewrite u64_small by lia.
  rewrite (proj2 (Z.eqb_neq _ _)), (proj2 (Z.leb_gt _ _)) by lia. done.
Qed.

(** Looking up a handle of the first table. *)
Lemma get_kobject_run k p t ht h d o :
  has_table k p t ht -> 0 <= h -> ht_desc ht !! Z.to_nat h = Some d -> hd_kobj d <> 0 ->
  ks_kobjs k !! hd_kobj d = Some o -> 0 <= ko_ref o ->
  get_kobject_from_proc p h k = Ret ((0, Some (hd_kobj d, u32 (hd_right d))), intr_on (set_ref (hd_kobj d) (s32 (ko_ref o + 1)) o k)).
Proof.
  intros [(x & Hp & Hl & Hx) [Hpz Htz] Hat Hw] Hh Hd Hz Hk Href.
  pose proof (lookup_lt_Some _ _ _ Hd) as Hlt. rewrite (hw_len _ Hw) in Hlt. unfold get_kobject_from_proc.
  rewrite valid_handle, (proj2 (Z.eqb_neq p 0) Hpz) by (unfold PROC_MAX_HANDLE, NR_DESC_PER_PAGE; lia). cbn [orb].
  mrun (lock_proc_run k p x Hp Hl). fold (with_lock p x k).
  erewrite M_bind_run; [|unfold lookup_handle_desc; erewrite M_bind_run;
    [|apply (deref_run ks_procs p (p_with_lock (mkLock 1 (Some 0%nat)) x)); by apply lookup_insert_eq];
    cbn beta; apply lookup_loop_first; lia].
  cbn beta iota. cbn [handle_desc_table p_with_lock]. rewrite Hx. mrun (deref_run ks_htabs t ht (with_lock p x k) Hat).
  rewrite (rd_lookup _ h d Hh Hd). mrun (eq_refl (Ret (d, with_lock p x k))).
  rewrite (proj2 (Z.eqb_neq _ 0) Hz). cbn [negb].
  erewrite M_bind_run; [|erewrite M_bind_run; [|rewrite (kobject_get_run (hd_kobj d) o);
    [rewrite (proj2 (Z.ltb_ge _ _) Href); reflexivity|done|exact Hk]]; reflexivity].
  erewrite M_bind_run; [|exact (unlock_with_lock (set_ref (hd_kobj d) (s32 (ko_ref o + 1)) o k) p x Hp Hl)]. done.
Qed.

(** A free slot: success is reported and nothing is assigned. *)
Lemma get_kobject_free_run k p t ht h d :
  has_table k p t ht -> 0 <= h -> ht_desc ht !! Z.to_nat h = Some d -> hd_kobj d = 0 ->
  get_kobject_from_proc p h k = Ret ((0, None), intr_on k).
Proof.
  intros [(x & Hp & Hl & Hx) [Hpz Htz] Hat Hw] Hh Hd Hz.
  pose proof (lookup_lt_Some _ _ _ Hd) as Hlt. rewrite (hw_len _ Hw) in Hlt. unfold get_kobject_from_proc.
  rewrite valid_handle, (proj2 (Z.eqb_neq p 0) Hpz) by (unfold PROC_MAX_HANDLE, NR_DESC_PER_PAGE; lia). cbn [orb].
  mrun (lock_proc_run k p x Hp Hl). fold (with_lock p x k).
  erewrite M_bind_run; [|unfold lookup_handle_desc; erewrite M_bind_run;
    [|apply (deref_run ks_procs p (p_with_lock (mkLock 1 (Some 0%nat)) x)); by apply lookup_insert_eq];
    cbn beta; apply lookup_loop_first; lia].
  cbn beta iota. cbn [handle_desc_table p_with_lock]. rewrite Hx. mrun (deref_run ks_htabs t ht (with_lock p x k) Hat).
  rewrite (rd_lookup _ h d Hh Hd). mrun (eq_refl (Ret (d, with_lock p x k))). rewrite Hz.
  mrun (eq_refl (Ret (@None (Z * Z), with_lock p x k))). mrun (unlock_with_lock k p x Hp Hl). done.
Qed.

Lemma handle_free_run k p t ht h d :
  has_table k p t ht -> 0 <= h -> ht_desc ht !! Z.to_nat h = Some d ->
  __handle_free p h k =
    if hd_kobj d =? 0 then Ret ((- EPERM, None), intr_on k)
    else Ret ((0, Some (hd_kobj d, u32 (hd_right d))), intr_on (with_table t (ht_put ht (Z.to_nat h) (mkHd 0 0) 1) k)).
Proof.
  intros [(x & Hp & Hl & Hx) [Hpz Htz] Hat Hw] Hh Hd.
  pose proof (lookup_lt_Some _ _ _ Hd) as Hlt. pose proof (nr_free_bounds (ht_desc ht)). pose proof (hw_free _ Hw).
  pose proof (hw_len _ Hw) as Hlen. rewrite Hlen in *. unfold __handle_free.
  rewrite valid_handle, (proj2 (Z.eqb_neq p 0) Hpz) by (unfold PROC_MAX_HANDLE, NR_DESC_PER_PAGE; lia). cbn [orb].
  mrun (lock_proc_run k p x Hp Hl). fold (with_lock p x k).
  erewrite M_bind_run; [|unfold lookup_handle_desc; erewrite M_bind_run;
    [|apply (deref_run ks_procs p (p_with_lock (mkLock 1 (Some 0%nat)) x)); by apply lookup_insert_eq];
    cbn beta; apply lookup_loop_first; lia].
  cbn beta iota. cbn [handle_desc_table p_with_lock]. rewrite Hx. mrun (deref_run ks_htabs t ht (with_lock p x k) Hat).
  rewrite (rd_lookup _ h d Hh Hd). mrun (eq_refl (Ret (d, with_lock p x k))).
  destruct (Z.eqb_spec (hd_kobj d) 0) as [Hz|Hz].
  { mrun (unlock_with_lock k p x Hp Hl). done. }
  rewrite wr_in by lia. mrun (eq_refl (Ret (<[Z.to_nat h := mkHd 0 0]> (ht_desc ht), with_lock p x k))).
  unfold upd_htab. erewrite M_bind_run; [|apply (update_run ks_htabs set_htabs t _ ht), Hat]. cbn beta.
  rewrite (s32_small (ht_free ht + 1)) by lia.
  erewrite M_bind_run; [|exact (unlock_with_lock
     (with_table t (mkHt (<[Z.to_nat h := mkHd 0 0]> (ht_desc ht)) (ht_index ht) (ht_free ht + 1) (ht_next ht)) k) p x Hp Hl)].
  done.
Qed.

(** A handle beyond the first table is looked for through its NULL [next]. *)
Lemma lookup_beyond_faults k p t ht h :
  has_table k p t ht -> ks_htabs k !! 0 = None -> 255 <= h < PROC_MAX_HANDLE -> get_kobject_from_proc p h k = Fault.
Proof.
  unfold PROC_MAX_HANDLE, NR_DESC_PER_PAGE. intros [(x & Hp & Hl & Hx) [Hpz Htz] Hat Hw] H0 Hh. unfold get_kobject_from_proc.
  rewrite valid_handle, (proj2 (Z.eqb_neq p 0) Hpz) by (unfold PROC_MAX_HANDLE, NR_DESC_PER_PAGE; lia). cbn [orb].
  mrun (lock_proc_run k p x Hp Hl). fold (with_lock p x k).
  assert (forall n h, 0 <= h < 32768 -> (lookup_loop (S n) 0 h (with_lock p x k) = Fault) \/ lookup_loop (S n) 0 h (with_lock p x k) = Ret ((0, h), with_lock p x k)) as Hnull.
  { intros n h' Hh'. cbn [lookup_loop]. destruct (_ <=? _); [left|by right].
    unfold mbind at 1, M_bind at 1, get_htab, deref. cbn [ks_htabs with_lock set_procs intr_off set_daif]. by rewrite H0. }
  assert (forall n, lookup_loop (S (S n)) t h (with_lock p x k) = lookup_loop (S n) 0 (h - 255) (with_lock p x k)) as Hstep.
  { intros n. cbn [lookup_loop]. unfold NR_DESC_PER_PAGE at 1. rewrite (u64_small h), (proj2 (Z.leb_le _ _)) by lia.
    mrun (deref_run ks_htabs t ht (with_lock p x k) Hat). rewrite (hw_next _ Hw). unfold NR_DESC_PER_PAGE. by rewrite s16_small by lia. }
  unfold lookup_handle_desc, mbind at 1, M_bind at 1.
  erewrite M_bind_run; [|apply (deref_run ks_procs p (p_with_lock (mkLock 1 (Some 0%nat)) x)); by apply lookup_insert_eq].
  cbn beta. cbn [handle_desc_table p_with_lock]. rewrite Hx. unfold MAX_TABLES. rewrite (Hstep 127%nat).
  destruct (Hnull 127%nat (h - 255)) as [-> | ->]; [lia|done|].
  unfold mbind at 1, M_bind at 1, get_htab, deref. cbn [ks_htabs with_lock set_procs intr_off set_daif]. by rewrite H0.
Qed.
End HandleSpec.

(** ** Properties *)

(** C26: allocating a handle in a well-formed table gives the smallest free
    handle, takes one reference, keeps the table well formed and every other
    slot as it was; looking the handle up returns the same object and rights
    and takes one more reference, and freeing it returns them again and makes
    the slot free.  In a full table the allocation stops the kernel. *)
Theorem handle_alloc_lookup_free (k : kstate) (p t kobj right : Z) (ht : handle_table) (o : kobject)
  (Ht : has_table k p t ht) (Hz : kobj <> 0) (Hk : ks_kobjs k !! kobj = Some o)
  (Href : 0 <= ko_ref o < 2 ^ 31 - 2) (Hr : 0 <= right < 2 ^ 31) :
  (nr_free_slots (ht_desc ht) = 0 /\ __handle_alloc p kobj right k = Halt) \/
  exists i k' ht', __handle_alloc p kobj right k = Ret (i, k') /\ 0 <= i < 255 /\
    (forall j d, 0 <= j < i -> ht_desc ht !! Z.to_nat j = Some d -> hd_kobj d <> 0) /\
    has_table k' p t ht' /\ ht_free ht' = ht_free ht - 1 /\ ks_kobjs k' !! kobj = Some (ko_with_ref (ko_ref o + 1) o) /\
    (forall j, j <> Z.to_nat i -> ht_desc ht' !! j = ht_desc ht !! j) /\
    (exists k2, get_kobject_from_proc p i k' = Ret ((0, Some (kobj, right)), k2) /\
       ks_kobjs k2 !! kobj = Some (ko_with_ref (ko_ref o + 2) o)) /\
    (exists k3 ht3, __handle_free p i k' = Ret ((0, Some (kobj, right)), k3) /\ has_table k3 p t ht3 /\
       ht_free ht3 = ht_free ht /\ ht_desc ht3 = <[Z.to_nat i := mkHd 0 0]> (ht_desc ht)).
Proof.
  destruct (find_slot (ht_desc ht) 0) as [i|] eqn:Hf; [right|left; split; [by apply find_slot_None in Hf|by apply (handle_alloc_full k p t ht)]].
  pose proof Ht as [Hp Hpt Hat Hw]. pose proof (slot_bounds _ _ Hw Hf) as Hi.
  pose proof Hf as (n & d & -> & Hn & Hd & Hmin)%find_slot_Some. rewrite Z.add_0_l in *. pose proof (hw_len _ Hw) as Hlen.
  set (ht' := ht_put ht (Z.to_nat (Z.of_nat n)) (mkHd kobj (s32 right)) (-1)).
  set (k' := intr_on (set_ref kobj (s32 (ko_ref o + 1)) o (with_table t ht' k))).
  assert (has_table k' p t ht') as Ht'.
  { constructor; [exact Hp|done|by apply lookup_insert_eq|]. apply (ht_put_wf ht _ d); [done|by rewrite Nat2Z.id|].
    rewrite (decide_True (P := slot_free d)), decide_False by done. done. }
  assert (ht_desc ht' !! n = Some (mkHd kobj right)) as Hn'.
  { unfold ht', ht_put. cbn [ht_desc]. rewrite Nat2Z.id, s32_small by lia. apply list_lookup_insert_eq. lia. }
  assert (ks_kobjs k' !! kobj = Some (ko_with_ref (ko_ref o + 1) o)) as Hk'.
  { unfold k', set_ref. cbn. rewrite s32_small by lia. apply lookup_insert_eq. }
  exists (Z.of_nat n), k', ht'. split_and!; [apply handle_alloc_run; (done || lia)|lia|lia| |done|cbn; lia|done| | |].
  - intros j e Hj He. by apply (Hmin (Z.to_nat j)); [lia|].
  - intros j Hj. unfold ht', ht_put. cbn [ht_desc]. by apply list_lookup_insert_ne.
  - eexists. split.
    + rewrite (get_kobject_run k' p t ht' (Z.of_nat n) (mkHd kobj right) (ko_with_ref (ko_ref o + 1) o)); [cbn|done|lia|by rewrite Nat2Z.id|done|done|cbn; lia].
      by rewrite u32_small by lia.
    + unfold set_ref. cbn [ks_kobjs set_kobjs intr_on set_daif]. rewrite lookup_insert_eq. cbn. rewrite s32_small by lia. unfold ko_with_ref. cbn. do 2 f_equal. lia.
  - eexists _, _. split; [|split; [|split]].
    + rewrite (handle_free_run k' p t ht' (Z.of_nat n) (mkHd kobj right)); [|done|lia|by rewrite Nat2Z.id].
      cbn [hd_kobj hd_right]. rewrite (proj2 (Z.eqb_neq kobj 0) Hz), u32_small by lia. reflexivity.
    + constructor; [exact Hp|done|by apply lookup_insert_eq|]. apply (ht_put_wf ht' _ (mkHd kobj right)); [apply Ht'|by rewrite Nat2Z.id|].
      rewrite decide_True, decide_False by done. done.
    + cbn. lia.
    + unfold ht', ht_put. cbn [ht_desc]. by rewrite Nat2Z.id, list_insert_insert_eq.
Qed.

(** A process at 4096 whose table, at 8192, has all its slots free. *)
Definition demo_env : KernEnv := {|
  cpus := 0x1000000; stdio_kobj := 0x2000000;
  raw_proc _ := mkProc initlock 0 UNUSED 0 0 0 0 0 0 (replicate 16 0);
  raw_kobj _ := mkKobj 0 0 0 initlock None 0; raw_list _ := mkHead 0 0; cache_pool_addr := demo_cache_pool;
  stack_kobj := 0; stack_right := 0 |}.
Definition demo_table : handle_table := mkHt (replicate 255 (mkHd 0 0)) 0 255 0.
Definition demo_kstate : kstate :=
  set_kobjs {[ 64 := mkKobj 10 3 1 initlock None 0 ]}
    (set_htabs {[ 8192 := demo_table ]}
       (set_procs {[ 4096 := mkProc initlock 8192 RUNNABLE 0 1 0 0 0 0 (replicate 16 0) ]} kstate0)).

Lemma demo_has_table : has_table demo_kstate 4096 8192 demo_table.
Proof.
  constructor; [by eexists|lia|reflexivity|]. constructor; reflexivity.
Qed.

Lemma handle_alloc_lookup_free_witness :
  exists i k', __handle_alloc 4096 64 3 demo_kstate = Ret (i, k') /\
    exists k2, get_kobject_from_proc 4096 i k' = Ret ((0, Some (64, 3)), k2).
Proof.
  destruct (handle_alloc_lookup_free demo_kstate 4096 8192 64 3 demo_table (mkKobj 10 3 1 initlock None 0) demo_has_table)
    as [[H _]|(i & k' & ht' & Ha & _ & _ & _ & _ & _ & _ & (k2 & Hg & _) & _)].
  - lia.
  - reflexivity.
  - cbn. lia.
  - lia.
  - discriminate.
  - exists i, k'. split; [exact Ha|]. exists k2. exact Hg.
Defined.

(** A handle that passes the range check but lies beyond the only table,
    255 to 32639, is looked for through the NULL pointer to the next table:
    the lookup faults instead of reporting [-ENOENT]. *)
Theorem handle_beyond_table_faults (k : kstate) (p t h : Z) (ht : handle_table)
  (Ht : has_table k p t ht) (H0 : ks_htabs k !! 0 = None) (Hh : 255 <= h < PROC_MAX_HANDLE) :
  get_kobject_from_proc p h k = Fault.
Proof. by apply (lookup_beyond_faults k p t ht). Qed.

Lemma handle_beyond_table_faults_witness : get_kobject_from_proc 4096 255 demo_kstate = Fault.
Proof.
  apply (handle_beyond_table_faults demo_kstate 4096 8192 255 demo_table demo_has_table).
  - reflexivity.
  - unfold PROC_MAX_HANDLE, NR_DESC_PER_PAGE. lia.
Defined.
