(* ===== verification/Proc.v ===== *)
(** * Processes and CPUs (ukern/src/proc.c, src/cpu.c)

    [proc_alloc] works on memory [kalloc] has not cleared: [raw_proc] and
    [raw_kobj] of the environment say what it held. *)
From S2P Require Import Prelude Config CList Bitmap Page PageTable Slab SlabSpec Kmem Spinlock Uaccess Kernel Kobject Handle.

(** ** C strings as lists of bytes *)

(** [strcmp(s, t) == 0] for a buffer and a string without its terminator;
    reading past the buffer is a fault. *)
Fixpoint str_equal (buf s : list Z) : outcome bool :=
  match buf, s with
  | [], _ => Fault
  | b :: _, [] => Ret (b =? 0)
  | b :: buf', c :: s' => if b =? c then str_equal buf' s' else Ret false
  end.
(** The string in a buffer, up to its terminator. *)
Fixpoint c_str (buf : list Z) : outcome (list Z) :=
  match buf with
  | [] => Fault
  | b :: buf' => if b =? 0 then Ret [] else s ← c_str buf'; Ret (b :: s)
  end.
(** [strcpy] into a buffer. *)
Definition str_copy (buf s : list Z) : outcome (list Z) :=
  if (length s <? length buf)%nat then Ret (s ++ 0 :: drop (S (length s)) buf) else Fault.

Definition roots_name : list Z := [114; 111; 111; 116; 115].   (* "roots" *)
Definition SPSR_EL0t : Z := 0.
Definition SPSR_F : Z := Z.shiftl 1 6.
Definition SPSR_I : Z := Z.shiftl 1 7.
Definition SPSR_A : Z := Z.shiftl 1 8.

(** [bit(x)]: the shift instruction uses the low six bits of the count. *)
Definition bit (x : Z) : Z := u64 (Z.shiftl 1 (x mod 64)).

Definition proc_ectx (x : proc) : Z := u64 (p_stack_base x + p_stack_size x - sizeof_econtext).

Section Proc.
Context `{KE : KernEnv}.

Definition pid_alloc : K Z := k ← get; modify (set_pid (s32 (ks_pid k + 1)));; mret (ks_pid k).

Definition proc_set_context (p entry sp : Z) : K () :=
  x ← get_proc p; upd_ectx (proc_ectx x) (e_with_sp0_elr sp entry).

Definition proc_is_roots (p : Z) : K bool := x ← get_proc p; lift (str_equal (p_name x) roots_name).

(** The structures that come to life at [p] when [kalloc] returns it. *)
Definition new_proc (p : Z) : K () :=
  modify (fun k => set_procs (<[p := raw_proc p]> (ks_procs k)) k);;
  modify (fun k => set_kobjs (<[proc_kobj p := raw_kobj (proc_kobj p)]> (ks_kobjs k)) k);;
  modify (fun k => set_lists (<[proc_sched_list p := raw_list (proc_sched_list p)]>
    (<[kobject_list (proc_kobj p) := raw_list (kobject_list (proc_kobj p))]> (ks_lists k))) k).

(** A zeroed page for [p->pagetable]. *)
Definition pagetable_page : K Z :=
  t ← on_pages page_alloc;
  (if t =? 0 then mret tt else modify (fun k => set_tables (table_clear (ks_tables k) t) k));;
  mret t.

Definition proc_alloc : K Z :=
  p ← on_slab (kalloc sizeof_proc);
  if p =? 0 then mret 0
  else
    new_proc p;;
    upd_proc p (p_with_lock initlock);;
    upd_proc p (p_with_prio (-1));;
    on_lists (fun h => INIT_LIST_HEAD h (proc_sched_list p));;
    pid ← pid_alloc;
    upd_proc p (p_with_pid pid);;
    upd_proc p (p_with_state UNUSED);;
    init_proc_handles p;;
    stack ← on_pages (page_allocn 2);
    upd_proc p (p_with_stack stack (2 * PAGE_SIZE));;
    pgd ← pagetable_page;
    upd_proc p (p_with_pagetable pgd);;
    x ← get_proc p;
    (if stack =? 0 then fault else modify (fun k => set_ectxs (<[proc_ectx x := econtext0]> (ks_ectx k)) k));;
    sp0 ← on_pages page_alloc;
    upd_ectx (proc_ectx x) (e_with_sp0_elr sp0 0);;
    upd_ectx (proc_ectx x) (fun e => mkEctx (e_esr e) (e_far e) (e_sp e) (e_sp0 e) (e_elr e)
      (Z.lor (Z.lor SPSR_EL0t SPSR_F) (Z.lor SPSR_I SPSR_A)) (e_gp_regs e));;
    mret p.

Definition proc_free (p : Z) : K () :=
  x ← get_proc p;
  e ← get_ectx (proc_ectx x);
  on_pages (page_free (e_sp0 e));;
  on_pages (page_free (p_stack_base x));;
  pagetable_free (p_pagetable x);;
  upd_proc p (p_with_pagetable 0);;
  upd_proc p (fun x => p_with_name (<[0%nat := 0]> (p_name x)) x);;
  upd_proc p (p_with_parent 0);;
  upd_proc p (p_with_pid 0);;
  upd_proc p (p_with_state UNUSED);;
  upd_proc p (p_with_prio (-1));;
  on_lists (fun h => INIT_LIST_HEAD h (proc_sched_list p));;
  on_slab (kfree cache_pool_addr p).

Definition fork : K Z :=
  p ← cur_proc;
  np ← proc_alloc;
  if np =? 0 then mret (-1)
  else
    nx ← get_proc np;
    x ← get_proc p;
    r ← pagetable_clone (p_pagetable nx) (p_pagetable x);
    if r <? 0 then proc_free np;; unlock_proc np;; mret (-1)
    else
      e ← get_ectx (proc_ectx x);
      upd_ectx (proc_ectx nx) (fun _ => e);;
      upd_proc np (p_with_prio (p_prio x));;
      on_lists (fun h => list_add_tail h (proc_sched_list np) (proc_sched_list p));;
      upd_proc np (p_with_parent p);;
      upd_proc np (p_with_state RUNNABLE);;
      name ← lift (s ← c_str (p_name x); str_copy (p_name nx) s);
      upd_proc np (p_with_name name);;
      unlock_proc np;;
      mret (p_pid nx).

(** [name] is [None] for NULL, and without its terminator. *)
Definition create_proc (name : option (list Z)) (pid prio : Z) : K Z :=
  if (match name with Some n => PROC_NAME_MAX <=? Z.of_nat (length n) | None => false end) then mret 0
  else
    p ← proc_alloc;
    upd_proc p (p_with_prio prio);;
    upd_proc p (p_with_pid pid);;
    upd_proc p (p_with_state RUNNABLE);;
    (match name with
     | Some n => x ← get_proc p; b ← lift (str_copy (p_name x) n); upd_proc p (p_with_name b)
     | None => mret tt
     end);;
    mret p.

Definition create_root_proc : K Z :=
  p ← create_proc (Some roots_name) 0 0;
  if p =? 0 then mret 0 else upd_cpu cur_cpuid (c_with_proc p);; mret p.

Definition proc_ready (p : Z) : K () :=
  x ← get_proc p;
  on_lists (fun h => list_add_tail h (proc_sched_list p) (cpu_ready_list cur_cpuid (p_prio x)));;
  upd_cpu cur_cpuid (fun c => c_with_grp (u8 (Z.lor (local_rdy_grp c) (bit (p_prio x)))) c).

(** cpu.c: the two loops of [init_cpus]. *)
Fixpoint init_ready_lists (n : nat) (i j : Z) : K () :=
  match n with
  | O => mret tt
  | S n' => on_lists (fun h => INIT_LIST_HEAD h (cpu_ready_list i j));; init_ready_lists n' i (j + 1)
  end.
Fixpoint init_cpus_loop (n : nat) (i : Z) : K () :=
  match n with
  | O => mret tt
  | S n' =>
      stack ← on_pages (page_allocn 2);
      upd_cpu i (fun _ => mkCpu i 0 0 stack initlock);;
      init_ready_lists (Z.to_nat PROC_PRIO_MAX) i 0;;
      init_cpus_loop n' (i + 1)
  end.
Definition init_cpus : K () := init_cpus_loop (Z.to_nat NCPU) 0.
End Proc.

(** ** The handle table of a new process *)

(** A table whose first slots hold [ds] and whose others are free. *)
Definition table_of (ds : list handle_desc) : handle_table :=
  mkHt (ds ++ replicate (255 - length ds) (mkHd 0 0)) 0 (255 - Z.of_nat (length ds)) 0.
Definition used_slots (ds : list handle_desc) : Prop := Forall (fun d => hd_kobj d <> 0) ds /\ (length ds <= 255)%nat.

Lemma used_filter ds : Forall (fun d => hd_kobj d <> 0) ds -> filter slot_free ds = [].
Proof. induction 1; [done|]. by rewrite filter_cons_False. Qed.
Lemma free_filter n : length (filter slot_free (replicate n (mkHd 0 0))) = n.
Proof. induction n as [|n IH]; [done|]. cbn [replicate]. rewrite filter_cons_True by done. simpl. by rewrite IH. Qed.

Lemma table_of_wf ds : used_slots ds -> ht_wf (table_of ds).
Proof.
  intros [Hu Hl]. constructor; cbn; [rewrite length_app, length_replicate; lia|done| |done].
  unfold nr_free_slots. rewrite filter_app, (used_filter _ Hu), app_nil_l, free_filter. lia.
Qed.

Lemma table_of_find ds b :
  Forall (fun d => hd_kobj d <> 0) ds -> (length ds < 255)%nat ->
  find_slot (ds ++ replicate (255 - length ds) (mkHd 0 0)) b = Some (b + Z.of_nat (length ds)).
Proof.
  intros Hu Hl. assert (255 - length ds = S (254 - length ds))%nat as -> by lia. revert b.
  generalize (254 - length ds)%nat as m. intros m. clear Hl.
  induction Hu as [|d ds Hd Hu IH]; intros b; cbn [app find_slot replicate length]; [cbn; f_equal; lia|].
  rewrite (proj2 (Z.eqb_neq _ 0) Hd), IH. f_equal. lia.
Qed.

Lemma table_of_put ds d :
  (length ds < 255)%nat -> ht_put (table_of ds) (length ds) d (-1) = table_of (ds ++ [d]).
Proof.
  intros Hl. unfold ht_put, table_of. cbn [ht_desc ht_index ht_free ht_next]. rewrite length_app. cbn [length]. f_equal; [|lia].
  assert (255 - length ds = S (255 - (length ds + 1)))%nat as -> by lia. cbn [replicate].
  replace (length ds) with (length ds + 0)%nat at 1 by lia. rewrite insert_app_r. by rewrite <- app_assoc.
Qed.

(** Puts the state a step ended in back into constructor form. *)
Ltac knorm :=
  cbv beta iota delta [ks_slab ks_tables ks_mem ks_lists ks_kobjs ks_procs ks_htabs ks_pmas ks_ectx ks_cpus ks_pid ks_x18 ks_cbs ks_out ks_daif
       set_slab_ set_tables set_mem set_lists set_kobjs set_procs set_htabs set_pmas set_ectxs set_cpus set_pid set_x18 set_cbs set_out
       set_daif intr_on set_ref with_table].

Section NewProc.
Context `{KE : KernEnv}.

Lemma handle_alloc_next k p t ds kobj right o :
  has_table k p t (table_of ds) -> used_slots ds -> (length ds < 255)%nat -> kobj <> 0 ->
  ks_kobjs k !! kobj = Some o -> 0 <= ko_ref o -> 0 <= right < 2 ^ 31 ->
  exists k', __handle_alloc p kobj right k = Ret (Z.of_nat (length ds), k') /\
    k' = intr_on (set_ref kobj (s32 (ko_ref o + 1)) o (with_table t (table_of (ds ++ [mkHd kobj right])) k)) /\
    has_table k' p t (table_of (ds ++ [mkHd kobj right])) /\ used_slots (ds ++ [mkHd kobj right]).
Proof.
  intros Ht [Hu _] Hl Hz Hk Href Hr. eexists. split; [|split; [reflexivity|]].
  - rewrite (handle_alloc_run k p t (table_of ds) kobj right o (Z.of_nat (length ds)));
      [|done..|by rewrite <- (Z.add_0_l (Z.of_nat _)), <- table_of_find].
    by rewrite Nat2Z.id, (s32_small right), table_of_put by lia.
  - assert (used_slots (ds ++ [mkHd kobj right])) as Hu'.
    { split; [apply Forall_app; split; [done|by repeat constructor]|]. rewrite length_app. simpl. lia. }
    split; [|done]. destruct Ht as [Hp Hpt _ _]. constructor; [exact Hp|done|by apply lookup_insert_eq|by apply table_of_wf].
Qed.

(** Handle 0 is the process itself; 1 can be read, 2 and 3 written. *)
Definition boot_handles (p : Z) : list handle_desc :=
  [mkHd (proc_kobj p) 0x12; mkHd stdio_kobj 1; mkHd stdio_kobj 2; mkHd stdio_kobj 2].

Lemma init_proc_handles_run k p x t s' o so :
  ks_procs k !! p = Some x -> p_lock x = initlock -> p <> 0 ->
  slab_pages page_alloc (ks_slab k) = Ret (t, s') -> t <> 0 ->
  ks_kobjs k !! proc_kobj p = Some o -> ks_kobjs k !! stdio_kobj = Some so -> proc_kobj p <> stdio_kobj ->
  proc_kobj p <> 0 -> stdio_kobj <> 0 -> 0 <= ko_ref o < 2 ^ 31 - 1 -> 0 <= ko_ref so < 2 ^ 31 - 3 ->
  init_proc_handles p k =
    Ret (tt, intr_on (set_ref stdio_kobj (ko_ref so + 3) so (set_ref (proc_kobj p) (ko_ref o + 1) o
      (with_table t (table_of (boot_handles p)) (set_procs (<[p := p_with_htab t x]> (ks_procs k)) (set_slab_ s' k)))))).
Proof.
  intros Hp Hl Hpz Hpage Htz Ho Hso Hne Hoz Hsoz Hro Hrs. unfold init_proc_handles.
  set (k1 := with_table t (table_of []) (set_slab_ s' k)).
  assert (new_handle_table 0 k = Ret (t, k1)) as Hnew.
  { unfold new_handle_table. rewrite u64_small by lia. change (PROC_MAX_HANDLE <=? 0) with false. cbn iota.
    unfold on_pages, on_slab. erewrite M_bind_run; [|unfold zoom; rewrite Hpage; reflexivity]. cbn beta.
    by rewrite (proj2 (Z.eqb_neq t 0) Htz). }
  mrun Hnew. set (k2 := set_procs (<[p := p_with_htab t x]> (ks_procs k)) k1).
  assert (upd_proc p (p_with_htab t) k1 = Ret (tt, k2)) as Hupd by exact (update_run ks_procs set_procs p (p_with_htab t) x k1 Hp).
  mrun Hupd.
  assert (used_slots []) as U2 by (split; [by constructor|simpl; lia]).
  assert (has_table k2 p t (table_of [])) as T2.
  { constructor; [|done|by apply lookup_insert_eq|by apply table_of_wf].
    exists (p_with_htab t x). split; [by apply lookup_insert_eq|done]. }
  destruct (handle_alloc_next k2 p t [] (proc_kobj p) 0x12 o T2 U2) as (k3 & H3 & E3 & T3 & U3); try (done || lia). { simpl; lia. }
  mrun H3. mrun (eq_refl (Ret (tt, k3))).
  assert (ks_kobjs k3 !! stdio_kobj = Some so) as S3 by (subst k3; cbn; by rewrite lookup_insert_ne).
  destruct (handle_alloc_next k3 p t _ stdio_kobj 1 so T3 U3) as (k4 & H4 & E4 & T4 & U4); try (done || lia). { simpl; lia. }
  mrun H4. mrun (eq_refl (Ret (tt, k4))).
  assert (ks_kobjs k4 !! stdio_kobj = Some (ko_with_ref (ko_ref so + 1) so)) as S4.
  { subst k4. cbn. by rewrite lookup_insert_eq, s32_small by lia. }
  destruct (handle_alloc_next k4 p t _ stdio_kobj 2 (ko_with_ref (ko_ref so + 1) so) T4 U4) as (k5 & H5 & E5 & T5 & U5); try (done || (cbn; lia)).
  mrun H5. mrun (eq_refl (Ret (tt, k5))).
  assert (ks_kobjs k5 !! stdio_kobj = Some (ko_with_ref (ko_ref so + 1 + 1) so)) as S5.
  { subst k5. cbn. by rewrite lookup_insert_eq, s32_small by lia. }
  destruct (handle_alloc_next k5 p t _ stdio_kobj 2 (ko_with_ref (ko_ref so + 1 + 1) so) T5 U5) as (k6 & H6 & E6 & T6 & U6); try (done || (cbn; lia)).
  mrun H6. change (assertM (Z.of_nat 3 =? 3) k6) with (@Ret (() * kstate) (tt, k6)). f_equal. f_equal.
  subst k6 k5 k4 k3 k2 k1. unfold set_ref, with_table, intr_on. cbn. rewrite !insert_insert_eq, !s32_small, !daif_on_on by lia.
  unfold boot_handles, ko_with_ref. cbn.
  replace (ko_ref so + 1 + 1 + 1) with (ko_ref so + 3) by lia. reflexivity.
Qed.

(** Stepping through updates of one structure. *)
Lemma upd_proc_run p f x k : ks_procs k !! p = Some x -> upd_proc p f k = Ret (tt, set_procs (<[p := f x]> (ks_procs k)) k).
Proof. apply update_run. Qed.
Lemma upd_ectx_run a f e k : ks_ectx k !! a = Some e -> upd_ectx a f k = Ret (tt, set_ectxs (<[a := f e]> (ks_ectx k)) k).
Proof. apply update_run. Qed.
Lemma on_pages_run {A} (m : M page_state A) a s k : slab_pages m (ks_slab k) = Ret (a, s) -> on_pages m k = Ret (a, set_slab_ s k).
Proof. intros H. unfold on_pages, on_slab, zoom. by rewrite H. Qed.
Lemma init_list_run a k n :
  ks_lists k !! a = Some n -> on_lists (fun h => INIT_LIST_HEAD h a) k = Ret (tt, set_lists (<[a := mkHead a a]> (ks_lists k)) k).
Proof.
  intros Hn. unfold on_lists, INIT_LIST_HEAD, set_next, set_prev. rewrite Hn. cbn [mbind outcome_bind].
  rewrite lookup_insert_eq. by rewrite insert_insert_eq.
Qed.

(** What the allocators return during [proc_alloc]. *)
Record proc_pages (k : kstate) (p t st pgd sp : Z) (s' : slab_state page_state) : Prop := {
  pp_steps : exists s1 s2 s3 s4, kalloc sizeof_proc (ks_slab k) = Ret (p, s1) /\
    slab_pages page_alloc s1 = Ret (t, s2) /\ slab_pages (page_allocn 2) s2 = Ret (st, s3) /\
    slab_pages page_alloc s3 = Ret (pgd, s4) /\ slab_pages page_alloc s4 = Ret (sp, s');
  pp_ptrs : p <> 0 /\ t <> 0 /\ st <> 0 /\ pgd <> 0;
}.

(** The new object and the standard stream can be referenced. *)
Record kobjs_ok (k : kstate) (p : Z) (so : kobject) : Prop := {
  kk_stdio : ks_kobjs k !! stdio_kobj = Some so /\ 0 <= ko_ref so < 2 ^ 31 - 3;
  kk_ptrs : proc_kobj p <> stdio_kobj /\ proc_kobj p <> 0 /\ stdio_kobj <> 0;
  kk_ref : 0 <= ko_ref (raw_kobj (proc_kobj p)) < 2 ^ 31 - 1;
}.

(** The same without a condition on the count the new object's memory held. *)
Record kobjs_there (k : kstate) (p : Z) (so : kobject) : Prop := {
  kt_stdio : ks_kobjs k !! stdio_kobj = Some so /\ 0 <= ko_ref so < 2 ^ 31 - 3;
  kt_ptrs : proc_kobj p <> stdio_kobj /\ proc_kobj p <> 0 /\ stdio_kobj <> 0;
  kt_ref : ko_ref (raw_kobj (proc_kobj p)) < 2 ^ 31 - 1;
}.

Definition new_ectx (sp : Z) : econtext := mkEctx 0 0 0 sp 0 0x1c0 gp_regs0.
(** The state [proc_alloc] ends in. *)
Definition proc_alloc_post (k : kstate) (p t st pgd sp : Z) (s' : slab_state page_state) (so : kobject) : kstate :=
  let x := raw_proc p in
  let o := raw_kobj (proc_kobj p) in
  mkKs s' (table_clear (ks_tables k) pgd) (ks_mem k)
    (<[proc_sched_list p := mkHead (proc_sched_list p) (proc_sched_list p)]>
      (<[kobject_list (proc_kobj p) := raw_list (kobject_list (proc_kobj p))]> (ks_lists k)))
    (<[stdio_kobj := ko_with_ref (ko_ref so + 3) so]> (<[proc_kobj p := ko_with_ref (ko_ref o + 1) o]> (ks_kobjs k)))
    (<[p := mkProc initlock t UNUSED (p_parent x) (ks_pid k) (-1) pgd st (2 * PAGE_SIZE) (p_name x)]> (ks_procs k))
    (<[t := table_of (boot_handles p)]> (ks_htabs k)) (ks_pmas k)
    (<[u64 (st + 2 * PAGE_SIZE - sizeof_econtext) := new_ectx sp]> (ks_ectx k))
    (ks_cpus k) (s32 (ks_pid k + 1)) (ks_x18 k) (ks_cbs k) (ks_out k) (daif_on (ks_daif k)).

Lemma proc_alloc_run k p t st pgd sp s' so :
  proc_pages k p t st pgd sp s' -> kobjs_ok k p so ->
  proc_alloc k = Ret (p, proc_alloc_post k p t st pgd sp s' so).
Proof.
  destruct k. intros [(s1 & s2 & s3 & s4 & A1 & A2 & A3 & A4 & A5) (Hp & Ht & Hst & Hpgd)] [[Hso Hrs] (Hne & Hoz & Hsoz) Hro].
  unfold proc_alloc. erewrite M_bind_run; [|unfold on_slab, zoom; rewrite A1; reflexivity]. knorm.
  rewrite (proj2 (Z.eqb_neq p 0) Hp). erewrite M_bind_run; [|reflexivity]. knorm.
  erewrite M_bind_run; [|apply upd_proc_run, lookup_insert_eq]. knorm.
  erewrite M_bind_run; [|apply upd_proc_run, lookup_insert_eq]. knorm.
  erewrite M_bind_run; [|eapply init_list_run, lookup_insert_eq]. knorm.
  erewrite M_bind_run; [|reflexivity]. knorm.
  erewrite M_bind_run; [|apply upd_proc_run, lookup_insert_eq]. knorm.
  erewrite M_bind_run; [|apply upd_proc_run, lookup_insert_eq]. knorm.
  erewrite M_bind_run; [|eapply (init_proc_handles_run _ p _ t s2 (raw_kobj (proc_kobj p)) so);
    [apply lookup_insert_eq|reflexivity|done|exact A2|done|apply lookup_insert_eq|cbn; by rewrite lookup_insert_ne|done..]]. knorm.
  erewrite M_bind_run; [|apply on_pages_run; exact A3]. knorm.
  erewrite M_bind_run; [|apply upd_proc_run, lookup_insert_eq]. knorm.
  erewrite M_bind_run; [|unfold pagetable_page; erewrite M_bind_run; [|apply on_pages_run; exact A4];
    rewrite (proj2 (Z.eqb_neq pgd 0) Hpgd); reflexivity]. knorm.
  erewrite M_bind_run; [|apply upd_proc_run, lookup_insert_eq]. knorm.
  erewrite M_bind_run; [|apply deref_run, lookup_insert_eq]. knorm.
  rewrite (proj2 (Z.eqb_neq st 0) Hst). erewrite M_bind_run; [|reflexivity]. knorm.
  erewrite M_bind_run; [|apply on_pages_run; exact A5]. knorm.
  erewrite M_bind_run; [|apply upd_ectx_run, lookup_insert_eq]. knorm.
  erewrite M_bind_run; [|apply upd_ectx_run, lookup_insert_eq]. knorm.
  unfold mret, M_ret, proc_alloc_post. knorm. rewrite !insert_insert_eq. reflexivity.
Qed.
End NewProc.

Lemma c_str_copy s rest : Forall (fun b => b <> 0) s -> c_str (s ++ 0 :: rest) = Ret s.
Proof.
  induction 1 as [|b s Hb Hs IH]; [done|]. cbn [c_str app]. rewrite (proj2 (Z.eqb_neq b 0) Hb), IH. done.
Qed.
Lemma str_equal_refl s rest : Forall (fun b => b <> 0) s -> str_equal (s ++ 0 :: rest) s = Ret true.
Proof. induction 1 as [|b s Hb Hs IH]; [done|]. cbn [str_equal app]. by rewrite Z.eqb_refl. Qed.

(** A name [create_proc] accepts. *)
Definition name_ok (name : option (list Z)) : Prop :=
  match name with Some n => (length n < 16)%nat /\ Forall (fun b => b <> 0) n | None => True end.

(** The descriptor [create_proc] fills, and the state it ends in. *)
Definition name_buf `{KE : KernEnv} (name : option (list Z)) (p : Z) : list Z :=
  match name with Some n => n ++ 0 :: drop (S (length n)) (p_name (raw_proc p)) | None => p_name (raw_proc p) end.
Definition proc_created `{KE : KernEnv} (name : option (list Z)) (pid prio p t st pgd : Z) : proc :=
  mkProc initlock t RUNNABLE (p_parent (raw_proc p)) pid prio pgd st (2 * PAGE_SIZE) (name_buf name p).
Lemma create_proc_run `{KE : KernEnv} (k : kstate) (name : option (list Z)) (pid prio p t st pgd sp : Z)
  (s' : slab_state page_state) (so : kobject) :
  proc_pages k p t st pgd sp s' -> kobjs_ok k p so -> name_ok name -> length (p_name (raw_proc p)) = 16%nat ->
  create_proc name pid prio k =
    Ret (p, set_procs (<[p := proc_created name pid prio p t st pgd]> (ks_procs k)) (proc_alloc_post k p t st pgd sp s' so)).
Proof.
  intros Hpp Hko Hn Hl. unfold create_proc.
  replace (match name with Some n => _ | None => false end) with false.
  2: { destruct name as [n|]; [|done]. destruct Hn as [Hlen _]. symmetry. apply Z.leb_gt. unfold PROC_NAME_MAX. lia. }
  mrun (proc_alloc_run k p t st pgd sp s' so Hpp Hko).
  erewrite M_bind_run; [|apply upd_proc_run, lookup_insert_eq]. cbn beta.
  erewrite M_bind_run; [|apply upd_proc_run, lookup_insert_eq]. cbn beta.
  erewrite M_bind_run; [|apply upd_proc_run, lookup_insert_eq]. cbn beta.
  destruct name as [n|].
  - erewrite M_bind_run; [|erewrite M_bind_run; [|apply deref_run, lookup_insert_eq]; cbn beta;
      erewrite M_bind_run; [|cbn [p_name p_with_state p_with_pid p_with_prio]; unfold str_copy;
        rewrite Hl, (proj2 (Nat.ltb_lt _ _) (proj1 Hn)); reflexivity]; apply upd_proc_run, lookup_insert_eq].
    unfold mret, M_ret. do 2 f_equal. unfold set_procs. cbn. by rewrite !insert_insert_eq.
  - erewrite M_bind_run; [|reflexivity]. unfold mret, M_ret. do 2 f_equal. unfold set_procs. cbn. by rewrite !insert_insert_eq.
Qed.

(** A negative count in the memory of the new object. *)
Lemma create_proc_stale `{KE : KernEnv} (k : kstate) (name : option (list Z)) (pid prio p t : Z) (s1 s2 : slab_state page_state) :
  name_ok name -> kalloc sizeof_proc (ks_slab k) = Ret (p, s1) -> slab_pages page_alloc s1 = Ret (t, s2) -> t <> 0 -> proc_kobj p <> 0 ->
  p <> 0 -> ko_ref (raw_kobj (proc_kobj p)) < 0 -> create_proc name pid prio k = Halt.
Proof.
  intros Hn Ha Ht Htz Hoz Hp Hneg. unfold create_proc.
  replace (match name with Some n => _ | None => false end) with false.
  2: { destruct name as [n|]; [|done]. destruct Hn as [Hlen _]. symmetry. apply Z.leb_gt. unfold PROC_NAME_MAX. lia. }
  unfold mbind at 1, M_bind at 1.
  cut (proc_alloc k = Halt); [by intros ->|]. unfold proc_alloc.
  erewrite M_bind_run; [|unfold on_slab, zoom; rewrite Ha; reflexivity]. cbn beta.
  rewrite (proj2 (Z.eqb_neq p 0) Hp). erewrite M_bind_run; [|reflexivity]. cbn beta.
  erewrite M_bind_run; [|apply upd_proc_run, lookup_insert_eq]. cbn beta.
  erewrite M_bind_run; [|apply upd_proc_run, lookup_insert_eq]. cbn beta.
  erewrite M_bind_run; [|eapply init_list_run, lookup_insert_eq]. cbn beta.
  erewrite M_bind_run; [|reflexivity]. cbn beta.
  erewrite M_bind_run; [|apply upd_proc_run, lookup_insert_eq]. cbn beta.
  erewrite M_bind_run; [|apply upd_proc_run, lookup_insert_eq]. cbn beta.
  set (k1 := set_procs _ _). unfold mbind at 1, M_bind at 1.
  cut (init_proc_handles p k1 = Halt); [by intros ->|]. unfold init_proc_handles.
  erewrite M_bind_run; [|unfold new_handle_table; rewrite u64_small by lia; change (PROC_MAX_HANDLE <=? 0) with false; cbn iota;
    erewrite M_bind_run; [|apply on_pages_run; exact Ht]; cbn beta; rewrite (proj2 (Z.eqb_neq t 0) Htz); reflexivity].
  erewrite M_bind_run; [|apply upd_proc_run, lookup_insert_eq]. cbn beta.
  set (k2 := set_procs _ _). unfold mbind at 1, M_bind at 1.
  assert (has_table k2 p t (table_of [])) as T2.
  { constructor; [eexists; split; [apply lookup_insert_eq|done]|done|apply lookup_insert_eq|].
    apply table_of_wf. split; [by constructor|simpl; lia]. }
  rewrite (handle_alloc_dead k2 p t (table_of []) (proc_kobj p) _ (raw_kobj (proc_kobj p)) 0 T2 Hoz);
    [done|cbn; apply lookup_insert_eq|done|exact (table_of_find [] 0 ltac:(by constructor) ltac:(simpl; lia))].
Qed.

(** ** Properties *)

(** C28: when the five allocations succeed and the name, if there is one, is
    shorter than 16 characters, and neither count is about to overflow, what
    [create_proc] does depends on the count that the memory of the new
    descriptor happened to hold for the embedded object, which nothing
    initialises. If it is negative, taking the first reference stops the
    kernel. Otherwise [create_proc] returns a runnable process with the given
    pid and priority, a terminated copy of the name, an empty page table, a
    saved user context with interrupts masked, and exactly the four initial
    handles: 0 for the process (write and control), 1 for the standard stream
    with read rights, 2 and 3 with write rights. The stream gains three
    references, the process's object one on top of what was there, no other
    process changes, and interrupts are left unmasked. *)
Theorem create_proc_ready `{KE : KernEnv} (k : kstate) (name : option (list Z)) (pid prio p t st pgd sp : Z)
  (s' : slab_state page_state) (so : kobject)
  (Hpp : proc_pages k p t st pgd sp s') (Hko : kobjs_there k p so) (Hn : name_ok name) (Hl : length (p_name (raw_proc p)) = 16%nat) :
  (ko_ref (raw_kobj (proc_kobj p)) < 0 -> create_proc name pid prio k = Halt) /\
  (0 <= ko_ref (raw_kobj (proc_kobj p)) ->
   exists k' x, create_proc name pid prio k = Ret (p, k') /\ ks_procs k' !! p = Some x /\
    p_state x = RUNNABLE /\ p_pid x = pid /\ p_prio x = prio /\ p_pagetable x = pgd /\
    (forall n, name = Some n -> c_str (p_name x) = Ret n) /\
    ks_tables k' !! pgd = Some (replicate 512 0) /\ ks_ectx k' !! proc_ectx x = Some (new_ectx sp) /\
    has_table k' p t (table_of (boot_handles p)) /\
    ks_kobjs k' !! stdio_kobj = Some (ko_with_ref (ko_ref so + 3) so) /\
    ks_kobjs k' !! proc_kobj p = Some (ko_with_ref (ko_ref (raw_kobj (proc_kobj p)) + 1) (raw_kobj (proc_kobj p))) /\
    (forall q, q <> p -> ks_procs k' !! q = ks_procs k !! q) /\ ks_daif k' = daif_on (ks_daif k)).
Proof.
  pose proof Hko as [Hso (Hne & Hoz & Hsoz) Hlt]. pose proof Hpp as [(s1 & s2 & _ & _ & E1 & E2 & _) (Hp & Ht & Hst & Hpgd)].
  split; [by apply (create_proc_stale k name pid prio p t s1 s2)|]. intros Hpos.
  assert (kobjs_ok k p so) as Hok by (by constructor).
  set (x := proc_created name pid prio p t st pgd).
  exists (set_procs (<[p := x]> (ks_procs k)) (proc_alloc_post k p t st pgd sp s' so)), x.
  split; [by apply create_proc_run|split_and!; try done].
  - cbn. apply lookup_insert_eq.
  - intros n ->. cbn. apply c_str_copy, Hn.
  - cbn. apply lookup_insert_eq.
  - cbn. apply lookup_insert_eq.
  - constructor; [exists x; split; [cbn; apply lookup_insert_eq|done]|done|cbn; apply lookup_insert_eq|].
    apply table_of_wf. split; [|simpl; lia]. by repeat constructor.
  - cbn. apply lookup_insert_eq.
  - cbn. rewrite lookup_insert_ne by done. apply lookup_insert_eq.
  - intros q Hq. cbn. by rewrite lookup_insert_ne.
Qed.

(** The initialised allocators and the standard stream's object. *)
Definition demo_stdio : kobject := mkKobj 10 3 1 initlock (Some stdio_ops) 0.
Definition demo_boot : kstate := set_kobjs {[ 0x2000000 := demo_stdio ]} (set_slab_ demo_slabs kstate0).
Definition demo_pages_ok : bool :=
  match kalloc sizeof_proc demo_slabs with
  | Ret (p, s1) =>
      match slab_pages page_alloc s1 with
      | Ret (t, s2) =>
          match slab_pages (page_allocn 2) s2 with
          | Ret (st, s3) =>
              match slab_pages page_alloc s3 with
              | Ret (pgd, s4) =>
                  match slab_pages page_alloc s4 with
                  | Ret _ => (0 <? p) && (0 <? t) && (0 <? st) && (0 <? pgd) && (0x3000000 <? p)
                  | _ => false
                  end
              | _ => false
              end
          | _ => false
          end
      | _ => false
      end
  | _ => false
  end.
Lemma demo_pages_ok_true : demo_pages_ok = true.
Proof. vm_compute. reflexivity. Qed.

Lemma demo_boot_pages :
  exists p t st pgd sp s1 s2 s', proc_pages demo_boot p t st pgd sp s' /\ 0x3000000 < p /\
    kalloc sizeof_proc demo_slabs = Ret (p, s1) /\ slab_pages page_alloc s1 = Ret (t, s2) /\ t <> 0.
Proof.
  pose proof demo_pages_ok_true as H. unfold demo_pages_ok in H.
  destruct (kalloc sizeof_proc demo_slabs) as [[p s1]| | |] eqn:E1; try discriminate H.
  destruct (slab_pages page_alloc s1) as [[t s2]| | |] eqn:E2; try discriminate H.
  destruct (slab_pages (page_allocn 2) s2) as [[st s3]| | |] eqn:E3; try discriminate H.
  destruct (slab_pages page_alloc s3) as [[pgd s4]| | |] eqn:E4; try discriminate H.
  destruct (slab_pages page_alloc s4) as [[sp s5]| | |] eqn:E5; try discriminate H.
  exists p, t, st, pgd, sp, s1, s2, s5. split; [constructor; [exists s1, s2, s3, s4; split_and!; assumption|lia]|].
  split; [lia|]. split; [reflexivity|]. split; [assumption|lia].
Qed.
Lemma demo_boot_kobjs p : 0x3000000 < p -> @kobjs_ok demo_env demo_boot p demo_stdio.
Proof.
  intros Hp. constructor; [split; [reflexivity|cbn; lia]|unfold proc_kobj; cbn; lia|cbn; lia].
Qed.

Lemma create_proc_ready_witness :
  exists p k' x, create_proc (KE := demo_env) (Some roots_name) 0 0 demo_boot = Ret (p, k') /\
    ks_procs k' !! p = Some x /\ p_state x = RUNNABLE /\ c_str (p_name x) = Ret roots_name.
Proof.
  destruct demo_boot_pages as (p & t & st & pgd & sp & s1 & s2 & s' & Hpp & Hp & _).
  destruct (create_proc_ready (KE := demo_env) demo_boot (Some roots_name) 0 0 p t st pgd sp s' demo_stdio Hpp) as [_ H].
  - constructor; [split; [reflexivity|cbn; lia]|unfold proc_kobj; cbn; lia|cbn; lia].
  - split; [simpl; lia|]. repeat constructor; lia.
  - reflexivity.
  - destruct H as (k' & x & Hr & Hx & Hs & _ & _ & _ & Hn & _); [cbn; lia|]. exists p, k', x. split; [exact Hr|]. split; [exact Hx|]. split; [exact Hs|]. apply Hn. reflexivity.
Defined.

(** [create_proc] does not check what [proc_alloc] returns and takes the
    first reference of the embedded object before anything has set its
    count: without memory for the descriptor it dereferences NULL, and when
    the memory [kalloc] returns held a negative count there it stops the
    kernel. *)
Theorem create_proc_unchecked `{KE : KernEnv} (k : kstate) (name : option (list Z)) (pid prio p t : Z) (s1 s2 : slab_state page_state)
  (Hn : name_ok name) (H0 : ks_procs k !! 0 = None) (Ha : kalloc sizeof_proc (ks_slab k) = Ret (p, s1))
  (Ht : slab_pages page_alloc s1 = Ret (t, s2)) (Htz : t <> 0) (Hoz : proc_kobj p <> 0) :
  (p = 0 -> create_proc name pid prio k = Fault) /\
  (p <> 0 -> ko_ref (raw_kobj (proc_kobj p)) < 0 -> create_proc name pid prio k = Halt).
Proof.
  split.
  - intros ->. unfold create_proc.
    replace (match name with Some n => _ | None => false end) with false.
    2: { destruct name as [n|]; [|done]. destruct Hn as [Hlen _]. symmetry. apply Z.leb_gt. unfold PROC_NAME_MAX. lia. }
    unfold proc_alloc. erewrite M_bind_run; [|erewrite M_bind_run; [|unfold on_slab, zoom; rewrite Ha; reflexivity]; reflexivity].
    unfold mbind, M_bind, upd_proc, update. cbn. by rewrite H0.
  - intros Hp Hneg. by apply (create_proc_stale k name pid prio p t s1 s2).
Qed.

(** The same environment with a stale count in the descriptor's memory. *)
Definition stale_env : KernEnv := {|
  cpus := 0x1000000; stdio_kobj := 0x2000000; raw_proc := @raw_proc demo_env;
  raw_kobj _ := mkKobj 0 0 (-1) initlock None 0; raw_list _ := mkHead 0 0; cache_pool_addr := demo_cache_pool;
  stack_kobj := 0; stack_right := 0 |}.

Lemma create_proc_unchecked_witness : create_proc (KE := stale_env) None 7 0 demo_boot = Halt.
Proof.
  destruct demo_boot_pages as (p & t & _ & _ & _ & s1 & s2 & _ & _ & Hp & E1 & E2 & Ht).
  destruct (create_proc_unchecked (KE := stale_env) demo_boot None 7 0 p t s1 s2) as [_ H].
  - exact I.
  - reflexivity.
  - exact E1.
  - exact E2.
  - exact Ht.
  - unfold proc_kobj. lia.
  - apply H; [lia|cbn; lia].
Defined.
