(* ===== verification/Sched.v ===== *)
(** * The scheduler (ukern/src/sched2.c)

    Eight ready queues per CPU, one per priority, and a bit map of the
    non-empty ones; [pick_next] looks the lowest set bit up in a table and
    rotates that queue. *)
From S2P Require Import Prelude Config CList Bitmap Page PageTable Slab SlabSpec Kmem Spinlock Uaccess Kernel Kobject Handle Proc.

Definition ffs_one_table : list Z := [
  -1; 0; 1; 0; 2; 0; 1; 0; 3; 0; 1; 0; 2; 0; 1; 0;
  4; 0; 1; 0; 2; 0; 1; 0; 3; 0; 1; 0; 2; 0; 1; 0;
  5; 0; 1; 0; 2; 0; 1; 0; 3; 0; 1; 0; 2; 0; 1; 0;
  4; 0; 1; 0; 2; 0; 1; 0; 3; 0; 1; 0; 2; 0; 1; 0;
  6; 0; 1; 0; 2; 0; 1; 0; 3; 0; 1; 0; 2; 0; 1; 0;
  4; 0; 1; 0; 2; 0; 1; 0; 3; 0; 1; 0; 2; 0; 1; 0;
  5; 0; 1; 0; 2; 0; 1; 0; 3; 0; 1; 0; 2; 0; 1; 0;
  4; 0; 1; 0; 2; 0; 1; 0; 3; 0; 1; 0; 2; 0; 1; 0;
  7; 0; 1; 0; 2; 0; 1; 0; 3; 0; 1; 0; 2; 0; 1; 0;
  4; 0; 1; 0; 2; 0; 1; 0; 3; 0; 1; 0; 2; 0; 1; 0;
  5; 0; 1; 0; 2; 0; 1; 0; 3; 0; 1; 0; 2; 0; 1; 0;
  4; 0; 1; 0; 2; 0; 1; 0; 3; 0; 1; 0; 2; 0; 1; 0;
  6; 0; 1; 0; 2; 0; 1; 0; 3; 0; 1; 0; 2; 0; 1; 0;
  4; 0; 1; 0; 2; 0; 1; 0; 3; 0; 1; 0; 2; 0; 1; 0;
  5; 0; 1; 0; 2; 0; 1; 0; 3; 0; 1; 0; 2; 0; 1; 0;
  4; 0; 1; 0; 2; 0; 1; 0; 3; 0; 1; 0; 2; 0; 1; 0 ].

Section Sched.
Context `{KE : KernEnv}.

Definition asm_get_current_proc : K Z := k ← get; mret (ks_x18 k).
Definition asm_set_current_proc (p : Z) : K () := modify (set_x18 p).

Definition switch_to (cur next : Z) : K () :=
  asm_set_current_proc next;;
  x ← get_proc next;
  upd_ectx (proc_ectx x) (fun e => e_with_regs (set_xreg (e_gp_regs e) 18 next) e).

(** [cpu] is the index in [cpus]. *)
Definition add_proc_to_ready_list (cpu proc : Z) : K () :=
  n ← ask_lists (fun h => next_of h (proc_sched_list proc));
  assertM (n =? 0);;
  x ← get_proc proc;
  on_lists (fun h => list_add_tail h (proc_sched_list proc) (cpu_ready_list cpu (p_prio x)));;
  upd_cpu cpu (fun c => c_with_grp (u8 (Z.lor (local_rdy_grp c) (bit (p_prio x)))) c).

Definition rm_proc_from_ready_list (cpu proc : Z) : K () :=
  n ← ask_lists (fun h => next_of h (proc_sched_list proc));
  assertM (negb (n =? 0));;
  on_lists (fun h => list_del h (proc_sched_list proc));;
  x ← get_proc proc;
  e ← ask_lists (fun h => list_empty h (cpu_ready_list cpu (p_prio x)));
  if (e : bool)
  then upd_cpu cpu (fun c => c_with_grp (u8 (Z.land (local_rdy_grp c) (u64 (Z.lnot (bit (p_prio x)))))) c)
  else mret tt.

(** The debug message reads the names of both processes. *)
Definition pick_next : K Z :=
  cpu ← cur_cpu;
  prio ← lift (rd ffs_one_table (local_rdy_grp cpu));
  assertM (negb (prio =? -1));;
  e ← ask_lists (fun h => list_empty h (cpu_ready_list cur_cpuid prio));
  assertM (negb e);;
  l ← ask_lists (fun h => list_first_entry h (cpu_ready_list cur_cpuid prio));
  cp ← cur_proc; get_proc cp;; get_proc (proc_of_sched_list l);;
  on_lists (fun h => list_del h l);;
  on_lists (fun h => list_add_tail h l (cpu_ready_list cur_cpuid prio));;
  mret (proc_of_sched_list l).

Definition sched : K () :=
  next ← pick_next;
  x ← get_proc next;
  assertM (bool_decide (p_state x = RUNNABLE));;
  upd_proc next (p_with_state RUNNING);;
  cp ← cur_proc;
  switch_to cp next.

Definition yield : K () :=
  p ← cur_proc;
  lock_proc p;;
  upd_proc p (p_with_state RUNNABLE);;
  sched;;
  unlock_proc p.

Definition scheduler_run : K () := mret tt.

(** ** The table *)
Definition ffs_ok (g : Z) : bool :=
  match rd ffs_one_table g with
  | Ret r => if g =? 0 then r =? -1 else (0 <=? r) && (r <? 8) && Z.testbit g r && (Z.land g (2 ^ r - 1) =? 0)
  | _ => false
  end.

Lemma ffs_spec g : 0 <= g < 256 ->
  exists r, rd ffs_one_table g = Ret r /\
    (g = 0 /\ r = -1 \/ 0 <= r < 8 /\ Z.testbit g r = true /\ forall j, 0 <= j < r -> Z.testbit g j = false).
Proof.
  intros Hg. assert (forallb ffs_ok (seqZ 0 256) = true) as Hall by (vm_compute; reflexivity).
  rewrite forallb_forall in Hall. specialize (Hall g). unfold ffs_ok in Hall.
  destruct (rd ffs_one_table g) as [r| | |] eqn:Hr; (lapply Hall; [clear Hall; intros Hall|apply list_elem_of_In, elem_of_seqZ; lia]); try done.
  exists r. split; [done|]. destruct (Z.eqb_spec g 0) as [->|Hz]; [left; lia|right].
  apply andb_prop in Hall as [Hall Hl]. apply andb_prop in Hall as [Hall Ht]. split; [lia|]. split; [done|].
  intros j Hj. apply Z.eqb_eq in Hl. apply (f_equal (fun z => Z.testbit z j)) in Hl.
  replace (2 ^ r - 1) with (Z.ones r) in Hl by (rewrite Z.ones_equiv; lia).
  rewrite Z.land_spec, Z.ones_spec_low, Z.bits_0, andb_true_r in Hl by lia. done.
Qed.

(** ** Ready queues *)

(** [rq j] are the processes of priority [j] that are ready, in order. *)
Record ready_inv (k : kstate) (rq : Z -> list Z) : Prop := {
  ri_cpu : exists c, ks_cpus k !! 0%nat = Some c /\ 0 <= local_rdy_grp c < 256 /\
    forall j, 0 <= j < 8 -> Z.testbit (local_rdy_grp c) j = negb (bool_decide (rq j = []));
  ri_ring : forall j, 0 <= j < 8 -> dll (ks_lists k) (cpu_ready_list 0 j) (proc_sched_list <$> rq j);
  ri_disj : forall i j p, 0 <= i < 8 -> 0 <= j < 8 -> p ∈ rq i -> p ∈ rq j -> i = j;
  ri_heads : forall i j p, 0 <= i < 8 -> 0 <= j < 8 -> p ∈ rq j -> proc_sched_list p <> cpu_ready_list 0 i;
  ri_prio : forall j p, 0 <= j < 8 -> p ∈ rq j -> exists x, ks_procs k !! p = Some x /\ p_prio x = j;
}.

Definition rq_set (rq : Z -> list Z) (j : Z) (q : list Z) : Z -> list Z := fun i => if decide (i = j) then q else rq i.
Lemma rq_set_eq rq j q : rq_set rq j q j = q.
Proof. unfold rq_set. by rewrite decide_True. Qed.
Lemma rq_set_ne rq i j q : i <> j -> rq_set rq j q i = rq i.
Proof. intros. unfold rq_set. by rewrite decide_False. Qed.

Lemma proc_of_to l : proc_of_sched_list (proc_sched_list l) = l.
Proof. unfold proc_of_sched_list, proc_sched_list. lia. Qed.
Lemma sched_list_inj p q : proc_sched_list p = proc_sched_list q -> p = q.
Proof. unfold proc_sched_list. lia. Qed.
Lemma sched_list_in p (q : list Z) : proc_sched_list p ∈ proc_sched_list <$> q <-> p ∈ q.
Proof.
  rewrite list_elem_of_fmap. split; [intros (x & Hx%sched_list_inj & Hin); by subst|by exists p].
Qed.
Lemma heads_ne i j : i <> j -> cpu_ready_list 0 i <> cpu_ready_list 0 j.
Proof. unfold cpu_ready_list. lia. Qed.

(** The ring of another priority keeps out of the way. *)
Lemma rings_apart k rq i j b :
  ready_inv k rq -> 0 <= i < 8 -> 0 <= j < 8 -> i <> j ->
  b ∈ cpu_ready_list 0 i :: (proc_sched_list <$> rq i) -> b ∉ cpu_ready_list 0 j :: (proc_sched_list <$> rq j).
Proof.
  intros Hi Hi8 Hj8 Hne [->|(p & -> & Hp)%list_elem_of_fmap]%elem_of_cons; rewrite not_elem_of_cons; split.
  - by apply heads_ne.
  - intros (p & He & Hp)%list_elem_of_fmap. by apply (ri_heads _ _ Hi i j p).
  - by apply (ri_heads _ _ Hi j i p).
  - intros Hin. apply (proj1 (sched_list_in _ _)) in Hin. apply Hne, (ri_disj _ _ Hi i j p); assumption.
Qed.

(** Replacing queue [j] by [q], on lists [h] that only changed around it. *)
Lemma ready_inv_update k rq j q h g c :
  ready_inv k rq -> 0 <= j < 8 -> ks_cpus k !! 0%nat = Some c ->
  dll h (cpu_ready_list 0 j) (proc_sched_list <$> q) ->
  (forall i b, 0 <= i < 8 -> i <> j -> b ∈ cpu_ready_list 0 i :: (proc_sched_list <$> rq i) -> h !! b = ks_lists k !! b) ->
  (forall p, p ∈ q -> (exists x, ks_procs k !! p = Some x /\ p_prio x = j) /\
     (forall i, 0 <= i < 8 -> proc_sched_list p <> cpu_ready_list 0 i) /\ (forall i, 0 <= i < 8 -> p ∈ rq i -> i = j)) ->
  0 <= g < 256 -> (forall i, 0 <= i < 8 -> Z.testbit g i = if decide (i = j) then negb (bool_decide (q = [])) else Z.testbit (local_rdy_grp c) i) ->
  ready_inv (set_cpus (<[0%nat := c_with_grp g c]> (ks_cpus k)) (set_lists h k)) (rq_set rq j q).
Proof.
  intros Hi Hj Hc Hd Hf Hq Hg Hb. destruct (ri_cpu _ _ Hi) as (c' & Hc' & Hg' & Hbits). assert (c' = c) as -> by congruence.
  constructor.
  - exists (c_with_grp g c). cbn. split; [apply list_lookup_insert_eq; by eapply lookup_lt_Some|]. split; [done|].
    intros i Hi8. rewrite Hb by done. unfold rq_set. destruct (decide (i = j)); [done|by apply Hbits].
  - intros i Hi8. cbn. destruct (decide (i = j)) as [->|Hne]; [by rewrite rq_set_eq|].
    rewrite rq_set_ne by done. apply (dll_frame (ks_lists k)); [by apply (ri_ring _ _ Hi)|]. intros b Hb'. by apply (Hf i b).
  - intros i i' p Hi8 Hi8'. unfold rq_set. destruct (decide (i = j)) as [->|], (decide (i' = j)) as [->|]; try done.
    + intros Hp Hp'. symmetry. by apply (Hq p Hp).
    + intros Hp Hp'. by apply (Hq p Hp').
    + by apply (ri_disj _ _ Hi).
  - intros i i' p Hi8 Hi8'. unfold rq_set. destruct (decide (i' = j)) as [->|]; [|by apply (ri_heads _ _ Hi)].
    intros Hp. by apply (Hq p Hp).
  - intros i p Hi8. unfold rq_set. destruct (decide (i = j)) as [->|]; [|by apply (ri_prio _ _ Hi)].
    intros Hp. by apply (Hq p Hp).
Qed.

Lemma ready_inv_ext k rq rq' : (forall i, 0 <= i < 8 -> rq' i = rq i) -> ready_inv k rq -> ready_inv k rq'.
Proof.
  intros He [(c & Hc & Hg & Hb) I2 I3 I4 I5]. constructor.
  - exists c. split_and!; try (done || lia). intros i Hi. rewrite He by done. by apply Hb.
  - intros i Hi. rewrite He by done. by apply I2.
  - intros i j p Hi Hj. rewrite !He by done. by apply I3.
  - intros i j p Hi Hj. rewrite He by done. by apply I4.
  - intros j p Hj. rewrite He by done. by apply I5.
Qed.

Lemma set_cpus_same k c h : ks_cpus k !! 0%nat = Some c ->
  set_cpus (<[0%nat := c_with_grp (local_rdy_grp c) c]> (ks_cpus k)) (set_lists h k) = set_lists h k.
Proof. intros Hc. destruct c, k. cbn in *. by rewrite list_insert_id. Qed.

(** Moving the first entry of a ring to the back, as [pick_next] does. *)
Lemma rotate_ring h head x l :
  dll h head (x :: l) ->
  exists h1 h2, list_del h x = Ret h1 /\ list_add_tail h1 x head = Ret h2 /\ dll h2 head (l ++ [x]) /\
    (forall b, b ∉ head :: x :: l -> h2 !! b = h !! b).
Proof.
  intros Hd. pose proof Hd as [[Hh [Hx Hnd]%NoDup_cons]%NoDup_cons _].
  destruct (list_del_spec h head [] x l Hd) as (h1 & H1 & D1 & E1 & S1).
  destruct (list_add_tail_spec h1 head l x D1) as (h2 & H2 & D2 & S2); [set_solver|by rewrite E1|].
  exists h1, h2. split_and!; [done..|]. intros b Hb.
  rewrite (list_add_tail_frame h1 x head l h2 b D1 H2) by set_solver.
  by apply (list_del_frame h head [] x l h1 b Hd).
Qed.

Lemma pick_next_halts k rq c :
  ready_inv k rq -> ks_cpus k !! 0%nat = Some c -> (forall j, 0 <= j < 8 -> rq j = []) -> pick_next k = Halt.
Proof.
  intros Hi Hc He. destruct (ri_cpu _ _ Hi) as (c' & Hc' & Hg & Hb). assert (c' = c) as -> by congruence.
  unfold pick_next. mrun (cur_cpu_run k c Hc). destruct (ffs_spec _ Hg) as (r & Hr & [[_ ->]|(Hr8 & Ht & _)]).
  - rewrite Hr. mrun (eq_refl (Ret (-1, k))). done.
  - rewrite Hb, He in Ht by done. done.
Qed.

Lemma ready_inv_intr k rq : ready_inv k rq -> ready_inv (intr_on k) rq.
Proof. intros []. by constructor. Qed.

Lemma pick_next_run k rq c j p ps :
  ready_inv k rq -> ks_cpus k !! 0%nat = Some c -> is_Some (ks_procs k !! c_proc c) ->
  0 <= j < 8 -> rq j = p :: ps -> (forall i, 0 <= i < j -> rq i = []) ->
  exists h, pick_next k = Ret (p, set_lists h (intr_on k)) /\ ready_inv (set_lists h (intr_on k)) (rq_set rq j (ps ++ [p])).
Proof.
  intros Hi Hc [cx Hcx] Hj Hq Hlow. destruct (ri_cpu _ _ Hi) as (c' & Hc' & Hg & Hb). assert (c' = c) as -> by congruence.
  pose proof (ri_ring _ _ Hi j Hj) as Hd. rewrite Hq in Hd. cbn [fmap list_fmap] in Hd.
  destruct (rotate_ring _ _ _ _ Hd) as (h1 & h2 & H1 & H2 & D2 & F2).
  destruct (ri_prio _ _ Hi j p Hj) as (px & Hpx & _); [rewrite Hq; left|].
  exists h2. split.
  - unfold pick_next. mrun (cur_cpu_run k c Hc). destruct (ffs_spec _ Hg) as (r & Hr & [[Hz _]|(Hr8 & Ht & Hl)]).
    { specialize (Hb j Hj). rewrite Hz, Z.bits_0, Hq in Hb. done. }
    assert (r = j) as ->.
    { destruct (Z.lt_total r j) as [Hlt|[->|Hgt]]; [|done|].
      - rewrite (Hb r Hr8), Hlow in Ht by lia. done.
      - specialize (Hl j ltac:(lia)). rewrite (Hb j Hj), Hq in Hl. done. }
    rewrite Hr. mrun (eq_refl (Ret (j, k))). rewrite (proj2 (Z.eqb_neq j (-1))) by lia. mrun (eq_refl (Ret (tt, k))).
    erewrite M_bind_run; [|exact (ask_lists_run (fun h => list_empty h (cpu_ready_list 0 j)) false k (list_empty_spec _ _ _ Hd))].
    mrun (eq_refl (Ret (tt, k))).
    erewrite M_bind_run; [|exact (ask_lists_run (fun h => list_first_entry h (cpu_ready_list 0 j)) (proc_sched_list p) k
      (links_head _ _ _ _ (proj2 Hd)))].
    mrun (cur_proc_run k c Hc). mrun (deref_run ks_procs (c_proc c) cx (intr_on k) Hcx). rewrite proc_of_to. mrun (deref_run ks_procs p px (intr_on k) Hpx).
    erewrite M_bind_run; [|apply on_lists_run, H1]. erewrite M_bind_run; [|apply on_lists_run, H2]. done.
  - change (set_lists h2 (intr_on k)) with (intr_on (set_lists h2 k)). apply ready_inv_intr.
    rewrite <- (set_cpus_same k c h2 Hc). eapply ready_inv_update; [done|done|done| | | |done|].
    + rewrite fmap_app. exact D2.
    + intros i b Hi8 Hne Hin. apply F2. pose proof (rings_apart k rq i j b Hi Hi8 Hj Hne Hin) as Hnot. by rewrite Hq in Hnot.
    + intros p' Hp'. assert (p' ∈ rq j) as Hin by (rewrite Hq; set_solver).
      split; [by apply (ri_prio _ _ Hi)|]. split; [intros i Hi8; by apply (ri_heads _ _ Hi i j)|].
      intros i Hi8 Hpi. by apply (ri_disj _ _ Hi i j p').
    + intros i Hi8. destruct (decide (i = j)) as [->|]; [|done]. rewrite Hb, Hq by done. symmetry.
      rewrite !bool_decide_eq_false_2; [done|done|by destruct ps].
Qed.

(** [n] picks in a row. *)
Fixpoint picks (n : nat) : K (list Z) :=
  match n with O => mret [] | S n' => p ← pick_next; l ← picks n'; mret (p :: l) end.

(** The state after [n] picks: new links, and interrupts unmasked by the first. *)
Definition picked (n : nat) (h : lheap) (k : kstate) : kstate := set_lists h (match n with O => k | S _ => intr_on k end).
Lemma picked_picked n h h' k : picked n h' (picked 1 h k) = picked (S n) h' k.
Proof. destruct n; [done|]. unfold picked, intr_on. cbn. by rewrite daif_on_on. Qed.

Lemma picks_run k rq c j a b :
  ready_inv k rq -> ks_cpus k !! 0%nat = Some c -> is_Some (ks_procs k !! c_proc c) ->
  0 <= j < 8 -> rq j = a ++ b -> (forall i, 0 <= i < j -> rq i = []) ->
  exists h, picks (length a) k = Ret (a, picked (length a) h k) /\ ready_inv (picked (length a) h k) (rq_set rq j (b ++ a)).
Proof.
  revert k rq b. induction a as [|p a IH]; intros k rq b Hi Hc Hx Hj Hq Hlow.
  - exists (ks_lists k). cbn [length picks]. split; [by destruct k|]. rewrite app_nil_r. cbn in Hq.
    assert (picked 0 (ks_lists k) k = k) as -> by (by destruct k). apply (ready_inv_ext k rq); [|done].
    intros i _. unfold rq_set. destruct (decide (i = j)) as [->|]; done.
  - destruct (pick_next_run k rq c j p (a ++ b) Hi Hc Hx Hj Hq Hlow) as (h & Hr & Hi').
    destruct (IH (picked 1 h k) (rq_set rq j ((a ++ b) ++ [p])) (b ++ [p])) as (h' & Hr' & Hi''); [done|done|done|done| | |].
    { rewrite rq_set_eq. by rewrite app_assoc. }
    { intros i Hil. rewrite rq_set_ne by lia. by apply Hlow. }
    rewrite picked_picked in Hr', Hi''. exists h'. cbn [length picks]. split; [mrun Hr; mrun Hr'; done|].
    refine (ready_inv_ext _ _ _ _ Hi'').
    intros i _. unfold rq_set. destruct (decide (i = j)); [|done]. by rewrite <- app_assoc.
Qed.

(** ** Entering and leaving a queue *)
Lemma upd_cpu_run f c k : ks_cpus k !! 0%nat = Some c -> upd_cpu 0 f k = Ret (tt, set_cpus (<[0%nat := f c]> (ks_cpus k)) k).
Proof.
  intros Hc. pose proof (lookup_lt_Some _ _ _ Hc). unfold upd_cpu. rewrite (rd_lookup _ 0 c) by done. cbn [mbind outcome_bind].
  by rewrite wr_in by lia.
Qed.

Lemma bit_small j : 0 <= j < 8 -> bit j = 2 ^ j.
Proof.
  intros Hj. unfold bit. rewrite Z.mod_small, Z.shiftl_1_l by lia. apply u64_small.
  split; [lia|]. apply Z.le_lt_trans with (2 ^ 7); [apply Z.pow_le_mono_r; lia|lia].
Qed.

Lemma u8_testbit g i : 0 <= i < 8 -> Z.testbit (u8 g) i = Z.testbit g i.
Proof. intros. unfold wrapu. apply Z.mod_pow2_bits_low. lia. Qed.

Lemma set_bit_testbit g i j : 0 <= i < 8 -> 0 <= j < 8 -> Z.testbit (u8 (Z.lor g (bit j))) i = if decide (i = j) then true else Z.testbit g i.
Proof.
  intros Hi Hj. rewrite u8_testbit, Z.lor_spec, bit_small, Z.pow2_bits_eqb by lia.
  destruct (decide (i = j)) as [->|]; [by rewrite Z.eqb_refl, orb_true_r|]. by rewrite (proj2 (Z.eqb_neq j i)), orb_false_r by lia.
Qed.
Lemma clear_bit_testbit g i j :
  0 <= i < 8 -> 0 <= j < 8 -> Z.testbit (u8 (Z.land g (u64 (Z.lnot (bit j))))) i = if decide (i = j) then false else Z.testbit g i.
Proof.
  intros Hi Hj. rewrite u8_testbit, Z.land_spec by lia. unfold wrapu at 1. rewrite Z.mod_pow2_bits_low, Z.lnot_spec, bit_small, Z.pow2_bits_eqb by lia.
  destruct (decide (i = j)) as [->|]; [by rewrite Z.eqb_refl, andb_false_r|]. by rewrite (proj2 (Z.eqb_neq j i)), andb_true_r by lia.
Qed.

(** [p] can be made ready with priority [j]. *)
Record can_enter (k : kstate) (rq : Z -> list Z) (p j : Z) : Prop := {
  ce_proc : exists x, ks_procs k !! p = Some x /\ p_prio x = j;
  ce_prio : 0 <= j < 8;
  ce_node : is_Some (ks_lists k !! proc_sched_list p);
  ce_new : forall i, 0 <= i < 8 -> p ∉ rq i /\ proc_sched_list p <> cpu_ready_list 0 i;
}.

(** Appending to queue [j], as [proc_ready] and [add_proc_to_ready_list] do. *)
Lemma enter_run k rq p j c :
  ready_inv k rq -> can_enter k rq p j -> ks_cpus k !! 0%nat = Some c ->
  exists k', (on_lists (fun h => list_add_tail h (proc_sched_list p) (cpu_ready_list 0 j));;
    upd_cpu 0 (fun c => c_with_grp (u8 (Z.lor (local_rdy_grp c) (bit j))) c)) k = Ret (tt, k') /\
    ready_inv k' (rq_set rq j (rq j ++ [p])) /\ exists cs h, k' = set_cpus cs (set_lists h k).
Proof.
  intros Hi [Hx Hj Hnode Hnew] Hc. pose proof (ri_ring _ _ Hi j Hj) as Hd.
  assert (proc_sched_list p ∉ cpu_ready_list 0 j :: (proc_sched_list <$> rq j)) as Hnot.
  { apply not_elem_of_cons. split; [by apply (Hnew j)|]. intros Hin. apply (proj1 (sched_list_in _ _)) in Hin. exact (proj1 (Hnew j Hj) Hin). }
  destruct (list_add_tail_spec _ _ _ _ Hd Hnot Hnode) as (h & Hr & Hd' & _).
  eexists. split.
  { erewrite M_bind_run; [|apply on_lists_run, Hr]. cbn beta. apply upd_cpu_run. exact Hc. }
  destruct (ri_cpu _ _ Hi) as (c' & Hc' & Hg & Hb). assert (c' = c) as -> by congruence.
  change (ks_cpus (set_lists h k)) with (ks_cpus k). split; [|by eexists _, _].
  apply ready_inv_update; [done|done|done|by rewrite fmap_app| | | |].
  - intros i b Hi8 Hne Hin. apply (list_add_tail_frame _ _ _ _ _ _ Hd Hr); [by apply (rings_apart k rq i j)|].
    intros ->. apply elem_of_cons in Hin as [Hin|Hin]; [exact (proj2 (Hnew i Hi8) Hin)|]. apply (proj1 (sched_list_in _ _)) in Hin. exact (proj1 (Hnew i Hi8) Hin).
  - intros q [Hq|Hq]%elem_of_app; [|apply list_elem_of_singleton in Hq as ->].
    + split; [by apply (ri_prio _ _ Hi)|]. split; [intros i Hi8; by apply (ri_heads _ _ Hi i j)|].
      intros i Hi8 Hqi. by apply (ri_disj _ _ Hi i j q).
    + split; [done|]. split; [intros i Hi8; exact (proj2 (Hnew i Hi8))|]. intros i Hi8 Hin. by destruct (proj1 (Hnew i Hi8)).
  - apply wrapu_range. lia.
  - intros i Hi8. rewrite set_bit_testbit by done. destruct (decide (i = j)); [|done].
    rewrite bool_decide_eq_false_2; [done|]. by destruct (rq j).
Qed.

Lemma proc_ready_run k rq p j c :
  ready_inv k rq -> can_enter k rq p j -> ks_cpus k !! 0%nat = Some c ->
  exists k', proc_ready p k = Ret (tt, k') /\ ready_inv k' (rq_set rq j (rq j ++ [p])) /\ exists cs h, k' = set_cpus cs (set_lists h k).
Proof.
  intros Hi Hce Hc. pose proof Hce as [(x & Hx & Hpx) _ _ _]. unfold proc_ready. mrun (deref_run ks_procs p x k Hx).
  rewrite Hpx. by apply (enter_run k rq p j c).
Qed.

Lemma rm_proc_run k rq p j a b c :
  ready_inv k rq -> 0 <= j < 8 -> rq j = a ++ p :: b -> ks_cpus k !! 0%nat = Some c ->
  (forall x, x ∈ cpu_ready_list 0 j :: (proc_sched_list <$> rq j) -> x <> 0) ->
  exists k', rm_proc_from_ready_list 0 p k = Ret (tt, k') /\ ready_inv k' (rq_set rq j (a ++ b)).
Proof.
  intros Hi Hj Hq Hc Hnz. pose proof (ri_ring _ _ Hi j Hj) as Hd. rewrite Hq, fmap_app, fmap_cons in Hd.
  destruct (ri_prio _ _ Hi j p Hj) as (x & Hx & Hpx); [rewrite Hq; apply elem_of_app; right; left|].
  destruct (list_del_spec _ _ _ _ _ Hd) as (h & Hr & Hd' & _ & _). rewrite <- fmap_app in Hd'.
  pose proof (proj2 Hd) as [_ Hl2]%links_app. pose proof (links_head _ _ _ _ Hl2) as Hnext.
  assert (hd (cpu_ready_list 0 j) (proc_sched_list <$> b) <> 0) as Hnz'.
  { apply Hnz. rewrite Hq, fmap_app, fmap_cons. destruct b; cbn; [left|right]. apply elem_of_app. right. right. left. }
  destruct (ri_cpu _ _ Hi) as (c' & Hc' & Hg & Hb). assert (c' = c) as -> by congruence.
  assert (forall g, 0 <= g < 256 ->
    (forall i, 0 <= i < 8 -> Z.testbit g i = if decide (i = j) then negb (bool_decide (a ++ b = [])) else Z.testbit (local_rdy_grp c) i) ->
    ready_inv (set_cpus (<[0%nat := c_with_grp g c]> (ks_cpus k)) (set_lists h k)) (rq_set rq j (a ++ b))) as Hinv.
  { intros g Hg' Hbits. apply ready_inv_update; [done|done|done|done| | |done|done].
    - intros i y Hi8 Hne Hin. apply (list_del_frame _ _ _ _ _ _ _ Hd Hr).
      pose proof (rings_apart k rq i j y Hi Hi8 Hj Hne Hin) as Hn. by rewrite Hq, fmap_app, fmap_cons in Hn.
    - intros q Hin. assert (q ∈ rq j) as Hq' by (rewrite Hq; set_solver).
      split; [by apply (ri_prio _ _ Hi)|]. split; [intros i Hi8; by apply (ri_heads _ _ Hi i j)|].
      intros i Hi8 Hqi. by apply (ri_disj _ _ Hi i j q). }
  unfold rm_proc_from_ready_list. erewrite M_bind_run; [|apply ask_lists_run, Hnext]. cbn beta.
  rewrite (proj2 (Z.eqb_neq _ 0) Hnz'). mrun (eq_refl (Ret (tt, k))). erewrite M_bind_run; [|apply on_lists_run, Hr]. cbn beta.
  erewrite M_bind_run; [|apply deref_run; exact Hx]. cbn beta. rewrite Hpx.
  erewrite M_bind_run; [|apply ask_lists_run; exact (list_empty_spec _ _ _ Hd')]. cbn beta.
  destruct (bool_decide_reflect (proc_sched_list <$> a ++ b = [])) as [He|He].
  - apply fmap_nil_inv in He. eexists. split; [apply upd_cpu_run; exact Hc|]. change (ks_cpus (set_lists h k)) with (ks_cpus k). apply Hinv; [apply wrapu_range; lia|].
    intros i Hi8. rewrite clear_bit_testbit by done. rewrite He. by destruct (decide (i = j)).
  - eexists. split; [reflexivity|]. rewrite <- (set_cpus_same k c h Hc). apply Hinv; [done|].
    intros i Hi8. destruct (decide (i = j)) as [->|]; [|done]. rewrite Hb, Hq by done.
    rewrite !bool_decide_eq_false_2; [done| |by destruct a]. intros He'. apply He. by rewrite He'.
Qed.
End Sched.

Section SchedSpec.
Context `{KE : KernEnv}.

(** Only the lists, the CPU and the priorities matter to the queues. *)
Lemma ready_inv_procs k k' rq :
  ready_inv k rq -> ks_cpus k' = ks_cpus k -> ks_lists k' = ks_lists k ->
  (forall p x, ks_procs k !! p = Some x -> exists x', ks_procs k' !! p = Some x' /\ p_prio x' = p_prio x) -> ready_inv k' rq.
Proof.
  intros [I1 I2 I3 I4 I5] Hc Hl Hp. constructor; [by rewrite Hc|by rewrite Hl|done|done|].
  intros j p Hj Hin. destruct (I5 j p Hj Hin) as (x & Hx & <-). destruct (Hp p x Hx) as (x' & Hx' & He). by exists x'.
Qed.

(** The state [sched] leaves when it switches to [p]. *)
Definition switched (k : kstate) (h : lheap) (p : Z) (x : proc) (e : econtext) : kstate :=
  set_ectxs (<[proc_ectx x := e_with_regs (set_xreg (e_gp_regs e) 18 p) e]> (ks_ectx k))
    (set_x18 p (set_procs (<[p := p_with_state RUNNING x]> (ks_procs k)) (set_lists h (intr_on k)))).

Lemma switched_intr k h p x e : intr_on (switched k h p x e) = switched k h p x e.
Proof. unfold switched, intr_on. cbn. by rewrite daif_on_on. Qed.
Lemma sched_run k h c p x e :
  pick_next k = Ret (p, set_lists h (intr_on k)) -> ks_cpus k !! 0%nat = Some c ->
  ks_procs k !! p = Some x -> p_state x = RUNNABLE -> ks_ectx k !! proc_ectx x = Some e ->
  sched k = Ret (tt, switched k h p x e).
Proof.
  intros Hpick Hc Hx Hs He. unfold sched. mrun Hpick. mrun (deref_run ks_procs p x (set_lists h (intr_on k)) Hx).
  rewrite Hs. mrun (eq_refl (Ret (tt, set_lists h (intr_on k)))). erewrite M_bind_run; [|apply upd_proc_run; exact Hx]. cbn beta.
  erewrite M_bind_run; [|apply cur_proc_run; exact Hc]. cbn beta. unfold switch_to.
  erewrite M_bind_run; [|reflexivity]. cbn beta. erewrite M_bind_run; [|apply deref_run, lookup_insert_eq]. cbn beta.
  rewrite (upd_ectx_run _ _ e); [|exact He]. unfold switched, intr_on. cbn. by rewrite daif_on_on.
Qed.

Lemma sched_halts k h p x :
  pick_next k = Ret (p, set_lists h (intr_on k)) -> ks_procs k !! p = Some x -> p_state x <> RUNNABLE -> sched k = Halt.
Proof.
  intros Hpick Hx Hs. unfold sched. mrun Hpick. mrun (deref_run ks_procs p x (set_lists h (intr_on k)) Hx).
  rewrite bool_decide_eq_false_2 by done. done.
Qed.
End SchedSpec.

(** Two processes of priority 2 are ready; the first is the current one. *)
Definition demo_pA : Z := 0x5000.
Definition demo_pB : Z := 0x6000.
Definition demo_proc (st : Z) : proc := mkProc initlock 0 RUNNABLE 0 1 2 0 st 8192 (replicate 16 0).
Definition demo_head (j : Z) : Z := @cpu_ready_list demo_env 0 j.
Definition demo_rings : lheap :=
  list_to_map ((fun j => (demo_head j, mkHead (demo_head j) (demo_head j))) <$> [0; 1; 3; 4; 5; 6; 7]) ∪
  {[ demo_head 2 := mkHead (proc_sched_list demo_pA) (proc_sched_list demo_pB);
     proc_sched_list demo_pA := mkHead (proc_sched_list demo_pB) (demo_head 2);
     proc_sched_list demo_pB := mkHead (demo_head 2) (proc_sched_list demo_pA) ]}.
Definition demo_cpu : cpu := mkCpu 0 demo_pA 4 0 initlock.
Definition demo_ready : kstate :=
  set_cpus [demo_cpu] (set_lists demo_rings
    (set_ectxs {[ proc_ectx (demo_proc 0x7000) := econtext0; proc_ectx (demo_proc 0xa000) := econtext0 ]}
      (set_procs {[ demo_pA := demo_proc 0x7000; demo_pB := demo_proc 0xa000 ]} kstate0))).
Definition demo_rq (j : Z) : list Z := if j =? 2 then [demo_pA; demo_pB] else [].

Lemma prio_cases j : 0 <= j < 8 -> j = 0 \/ j = 1 \/ j = 2 \/ j = 3 \/ j = 4 \/ j = 5 \/ j = 6 \/ j = 7.
Proof. lia. Qed.
Lemma demo_rq_in j p : p ∈ demo_rq j -> j = 2 /\ (p = demo_pA \/ p = demo_pB).
Proof.
  unfold demo_rq. destruct (Z.eqb_spec j 2); [|intros Hp; by apply elem_of_nil in Hp]. intros Hp. split; [done|]. set_solver.
Qed.

Lemma demo_ready_inv : @ready_inv demo_env demo_ready demo_rq.
Proof.
  constructor.
  - exists demo_cpu. split; [reflexivity|]. split; [cbn; lia|].
    intros j Hj. destruct (prio_cases j Hj) as [->|[->|[->|[->|[->|[->|[->| ->]]]]]]]; reflexivity.
  - intros j Hj. destruct (prio_cases j Hj) as [->|[->|[->|[->|[->|[->|[->| ->]]]]]]];
      (split; [|repeat split; vm_compute; reflexivity]); apply (bool_decide_unpack _); vm_compute; exact I.
  - intros i j p _ _ [-> _]%demo_rq_in [-> _]%demo_rq_in. reflexivity.
  - intros i j p Hi _ [_ Hp]%demo_rq_in. destruct Hp as [-> | ->]; unfold cpu_ready_list, proc_sched_list, demo_pA, demo_pB, sizeof_cpu; cbn; lia.
  - intros j p _ [-> Hp]%demo_rq_in. destruct Hp as [-> | ->]; eexists; (split; [vm_compute; reflexivity|reflexivity]).
Qed.

(** ** Properties *)

(** C17: the ready lists and the bit map of a CPU implement eight queues:
    [proc_ready] appends its process to the queue of its priority and
    [rm_proc_from_ready_list] takes its process out of it, whatever its
    position; the bit map keeps exactly the bits of the non-empty queues and
    the other queues do not change. *)
Theorem ready_queues_refine `{KE : KernEnv} (k : kstate) (rq : Z -> list Z) (j p : Z)
  (Hi : ready_inv k rq) (Hj : 0 <= j < 8)
  (Hnz : forall x, x ∈ cpu_ready_list 0 j :: (proc_sched_list <$> rq j) -> x <> 0) :
  (can_enter k rq p j -> exists k', proc_ready p k = Ret (tt, k') /\ ready_inv k' (rq_set rq j (rq j ++ [p]))) /\
  (forall a b, rq j = a ++ p :: b ->
     exists k', rm_proc_from_ready_list 0 p k = Ret (tt, k') /\ ready_inv k' (rq_set rq j (a ++ b))).
Proof.
  destruct (ri_cpu _ _ Hi) as (c & Hc & _). split.
  - intros Hce. destruct (proc_ready_run k rq p j c Hi Hce Hc) as (k' & ? & ? & _). by exists k'.
  - intros a b Hq. by apply (rm_proc_run k rq p j a b c).
Qed.

Lemma ready_queues_refine_witness :
  exists k', rm_proc_from_ready_list (KE := demo_env) 0 demo_pA demo_ready = Ret (tt, k') /\
    @ready_inv demo_env k' (rq_set demo_rq 2 [demo_pB]).
Proof.
  destruct (ready_queues_refine (KE := demo_env) demo_ready demo_rq 2 demo_pA demo_ready_inv) as [_ H].
  - lia.
  - intros x Hx. change (x ∈ [demo_head 2; proc_sched_list demo_pA; proc_sched_list demo_pB]) in Hx.
    repeat (apply elem_of_cons in Hx as [->|Hx]; [vm_compute; discriminate|]). apply elem_of_nil in Hx. destruct Hx.
  - apply (H [] [demo_pB]). reflexivity.
Defined.

(** C27: [pick_next] serves the non-empty queue of the smallest number, and
    serves it in turn: as many picks as the queue has processes return each
    of them once, in order, and leave the queues as they were and interrupts
    unmasked.  When no process is ready it stops the kernel. *)
Theorem pick_next_round_robin `{KE : KernEnv} (k : kstate) (rq : Z -> list Z) (c : cpu) (j : Z)
  (Hi : ready_inv k rq) (Hc : ks_cpus k !! 0%nat = Some c) (Hcur : is_Some (ks_procs k !! c_proc c))
  (Hj : 0 <= j <= 8) (Hlow : forall i, 0 <= i < j -> rq i = []) :
  (j < 8 -> exists h, picks (length (rq j)) k = Ret (rq j, picked (length (rq j)) h k) /\ ready_inv (picked (length (rq j)) h k) rq) /\
  (j = 8 -> pick_next k = Halt).
Proof.
  split.
  - intros Hj8. destruct (picks_run k rq c j (rq j) [] Hi Hc Hcur) as (h & Hr & Hi'); [lia|by rewrite app_nil_r|done|].
    exists h. split; [done|]. refine (ready_inv_ext _ _ _ _ Hi'). intros i _. unfold rq_set.
    destruct (decide (i = j)) as [->|]; done.
  - intros ->. apply (pick_next_halts k rq c); [done|done|]. intros i Hi8. apply Hlow. lia.
Qed.

Lemma pick_next_round_robin_witness :
  exists h, picks (KE := demo_env) 2 demo_ready = Ret ([demo_pA; demo_pB], set_lists h (intr_on demo_ready)).
Proof.
  destruct (pick_next_round_robin (KE := demo_env) demo_ready demo_rq demo_cpu 2 demo_ready_inv) as [H _].
  - reflexivity.
  - eexists. vm_compute. reflexivity.
  - lia.
  - intros i Hi. unfold demo_rq. destruct (Z.eqb_spec i 2); [lia|reflexivity].
  - destruct (H ltac:(lia)) as (h & Hp & _). exists h. exact Hp.
Defined.

(** [sched] makes the first process of the best queue RUNNING, puts it in
    the current-process register and in its own saved x18, and changes no
    other process, and interrupts are unmasked; but the process of the CPU, which [cur_proc] returns to
    every system call, stays the previous one.  Nothing makes the process
    RUNNABLE again, so when it is alone in its queue the next tick stops the
    kernel. *)
Theorem sched_switches `{KE : KernEnv} (k : kstate) (rq : Z -> list Z) (c : cpu) (j p : Z) (ps : list Z) (x : proc) (e : econtext)
  (Hi : ready_inv k rq) (Hc : ks_cpus k !! 0%nat = Some c) (Hcur : is_Some (ks_procs k !! c_proc c))
  (Hj : 0 <= j < 8) (Hq : rq j = p :: ps) (Hlow : forall i, 0 <= i < j -> rq i = [])
  (Hx : ks_procs k !! p = Some x) (Hs : p_state x = RUNNABLE) (He : ks_ectx k !! proc_ectx x = Some e)
  (Hr : length (e_gp_regs e) = 31%nat) :
  exists k' h, sched k = Ret (tt, k') /\ k' = switched k h p x e /\ ready_inv k' (rq_set rq j (ps ++ [p])) /\
    cur_proc k' = Ret (c_proc c, k') /\ (exists e', ks_ectx k' !! proc_ectx x = Some e' /\ xreg (e_gp_regs e') 18 = u64 p) /\
    (ps = [] -> sched k' = Halt).
Proof.
  destruct (pick_next_run k rq c j p ps Hi Hc Hcur Hj Hq Hlow) as (h & Hp & Hi').
  assert (ready_inv (switched k h p x e) (rq_set rq j (ps ++ [p]))) as Hi2.
  { apply (ready_inv_procs (set_lists h (intr_on k))); [done|done|done|]. intros q y Hy. cbn in *.
    destruct (decide (q = p)) as [->|]; [rewrite lookup_insert_eq; simplify_eq; by eexists|rewrite lookup_insert_ne by done; by exists y]. }
  exists (switched k h p x e), h. split; [by apply (sched_run k h c)|]. split; [done|]. split; [done|].
  split; [rewrite (cur_proc_run _ c) by done; by rewrite switched_intr|]. split.
  - eexists. split; [apply lookup_insert_eq|]. unfold xreg, set_xreg. cbn [e_gp_regs e_with_regs].
    rewrite nth_lookup, list_lookup_insert_eq by (rewrite Hr; lia). done.
  - intros ->.
    destruct (pick_next_run (switched k h p x e) (rq_set rq j [p]) c j p [] Hi2 Hc) as (h2 & Hp2 & _); [| |by apply rq_set_eq| |].
    + cbn. destruct (decide (c_proc c = p)) as [->|]; [rewrite lookup_insert_eq; by eexists|by rewrite lookup_insert_ne].
    + done.
    + intros i Hil. rewrite rq_set_ne by lia. by apply Hlow.
    + by apply (sched_halts _ h2 p (p_with_state RUNNING x) Hp2); [apply lookup_insert_eq|].
Qed.

Lemma sched_switches_witness :
  exists k', sched (KE := demo_env) demo_ready = Ret (tt, k') /\ cur_proc k' = Ret (demo_pA, k').
Proof.
  destruct (sched_switches (KE := demo_env) demo_ready demo_rq demo_cpu 2 demo_pA [demo_pB] (demo_proc 0x7000) econtext0 demo_ready_inv)
    as (k' & h & Hs & _ & _ & Hc & _).
  - reflexivity.
  - eexists. vm_compute. reflexivity.
  - lia.
  - reflexivity.
  - intros i Hi. unfold demo_rq. destruct (Z.eqb_spec i 2); [lia|reflexivity].
  - vm_compute. reflexivity.
  - reflexivity.
  - vm_compute. reflexivity.
  - reflexivity.
  - exists k'. split; [exact Hs|exact Hc].
Defined.

(** [add_proc_to_ready_list] expects a process whose list links are NULL,
    but [proc_alloc] links a new process to itself: adding a new process
    stops the kernel. *)
Theorem add_new_proc_halts `{KE : KernEnv} (k : kstate) (p t st pgd sp : Z) (s' : slab_state page_state) (so : kobject)
  (Hpp : proc_pages k p t st pgd sp s') (Hko : kobjs_ok k p so) (Hnz : proc_sched_list p <> 0) :
  exists k', proc_alloc k = Ret (p, k') /\ forall cpu, add_proc_to_ready_list cpu p k' = Halt.
Proof.
  eexists. split; [by apply (proc_alloc_run k p t st pgd sp s' so)|]. intros cpu. unfold add_proc_to_ready_list.
  erewrite M_bind_run; [|apply (ask_lists_run _ (proc_sched_list p)); unfold next_of; cbn; by rewrite lookup_insert_eq].
  cbn beta. rewrite (proj2 (Z.eqb_neq _ 0) Hnz). done.
Qed.

Lemma add_new_proc_halts_witness :
  exists p k', proc_alloc (KE := demo_env) demo_boot = Ret (p, k') /\ add_proc_to_ready_list (KE := demo_env) 0 p k' = Halt.
Proof.
  destruct demo_boot_pages as (p & t & st & pgd & sp & s1 & s2 & s' & Hpp & Hp & _).
  destruct (add_new_proc_halts (KE := demo_env) demo_boot p t st pgd sp s' demo_stdio Hpp (demo_boot_kobjs p Hp)) as (k' & Ha & Hh).
  - unfold proc_sched_list. lia.
  - exists p, k'. split; [exact Ha|apply Hh].
Defined.
