(* ===== verification/Objects.v ===== *)
(** * The kernel's object types (ukern/src/uspace/stdio.c, pma.c, proc.c,
    src/console.c)

    The standard stream, physical memory areas and processes as kernel
    objects, and the instance of [KobjOps] they make.  Most operations of the
    last two are [TODO()], which stops the machine. *)
From S2P Require Import Prelude Config CList Bitmap Page PageTable Slab SlabSpec Kmem Spinlock Uaccess Kernel Kobject Handle Proc.

(** ** console.c *)

(** The UART's [putc] sends one byte. *)
Definition console_putc (ch : Z) : K () := modify (fun k => set_out (ks_out k ++ [ch]) k).
Fixpoint console_puts_loop (buf : list Z) : K () :=
  match buf with [] => mret tt | c :: buf' => console_putc c;; console_puts_loop buf' end.
Definition console_puts (buf : list Z) (size : Z) : K Z :=
  console_puts_loop (take (Z.to_nat size) buf);; mret (s32 size).

(** [copy_from_user] of the current process: the bytes and the result. *)
Definition copy_in (src size : Z) : K (list Z * Z) :=
  p ← cur_proc; x ← get_proc p; k ← get;
  lift (copy_from_user (ks_tables k) (p_pagetable x) (ks_mem k) src size).

(** ** stdio.c *)
Definition STDIO_BUF_SIZE : Z := 2048.

Fixpoint stdio_send_loop (fuel : nat) (data left : Z) : K (option Z) :=
  if 0 <? left then
    match fuel with
    | O => fun _ => Diverge
    | S fuel' =>
        let copy := if STDIO_BUF_SIZE <? left then STDIO_BUF_SIZE else left in
        '(buf, ret) ← copy_in data copy;
        if ret <=? 0 then mret (Some ret)
        else console_puts buf copy;; stdio_send_loop fuel' (u64 (data + copy)) (left - copy)
    end
  else mret None.

(** Each round sends 2048 bytes or all that is left. *)
Definition stdio_send (kobj data data_size extra extra_size timeout : Z) : K Z :=
  if data_size =? 0 then mret 0
  else
    r ← stdio_send_loop (Z.to_nat (data_size / STDIO_BUF_SIZE + 1)) data data_size;
    mret (match r with Some ret => ret | None => s32 data_size end).

Definition stdio_recv (kobj data data_size extra extra_size timeout : Z) : K Z := halt.

Definition stdio_kobject_init `{KE : KernEnv} : K Z :=
  kobject_init stdio_kobj KOBJ_TYPE_STDIO KOBJ_RIGHT_RW (Some stdio_ops) 0;;
  kobject_get stdio_kobj;;
  mret 0.

(** ** Little-endian structures in user memory *)
Definition le (bs : list Z) (off n : nat) : Z := foldr (fun b acc => b + 256 * acc) 0 (take n (drop off bs)).

(** ** pma.c *)
Definition PMA_RIGHT : Z := Z.lor (Z.lor KOBJ_RIGHT_CTL KOBJ_RIGHT_MMAP) KOBJ_RIGHT_RWX.
Definition PMA_RIGHT_MASK : Z := PMA_RIGHT.
Definition PMA_TYPE_NORMAL : Z := 0.
Definition PMA_TYPE_MMIO : Z := 1.
Definition PMA_TYPE_DMA : Z := 2.
Definition PMA_TYPE_PMEM : Z := 3.
Definition PMA_TYPE_KCACHE : Z := 4.
Definition PMA_TYPE_MAX : Z := 5.

(** [struct pma_create_arg], 32 bytes with padding after [consequent]. *)
Record pma_create_arg := mkPmaArg { pa_type : Z; pa_right : Z; pa_consequent : Z; pa_start : Z; pa_size : Z }.
Definition pma_arg_of (bs : list Z) : pma_create_arg :=
  mkPmaArg (s32 (le bs 0 4)) (s32 (le bs 4 4)) (s32 (le bs 8 4)) (le bs 16 8) (le bs 24 8).
Definition sizeof_pma_create_arg : Z := 32.

Definition pma_send (kobj data data_size extra extra_size timeout : Z) : K Z := halt.
Definition pma_recv (kobj data data_size extra extra_size timeout : Z) : K Z := halt.
Definition pma_reply (kobj right token errno fd fd_right : Z) : K Z := halt.
Definition pma_release (kobj : Z) : K () := halt.
Definition pma_ctl (kobj req data : Z) : K Z := halt.
Definition pma_close (kobj right proc : Z) : K Z := halt.

Section Objects.
Context `{KE : KernEnv}.

(** The object comes to life zeroed, [kallocz] having cleared it. *)
Definition create_pma_normal (args : pma_create_arg) : K (Z * option (Z * Z)) :=
  let cnt := Z.shiftr (pa_size args) PAGE_SHIFT in
  if (pa_size args =? 0) || negb (page_aligned (pa_size args)) then mret (- EINVAL, None)
  else
    p ← on_slab (kalloc sizeof_pma);
    if p =? 0 then mret (- ENOMEM, None)
    else
      modify (fun k => set_pmas (<[p := mkPma 0 0 0]> (ks_pmas k)) k);;
      modify (fun k => set_kobjs (<[pma_kobj p := mkKobj 0 0 0 initlock None 0]> (ks_kobjs k)) k);;
      modify (fun k => set_lists (<[kobject_list (pma_kobj p) := mkHead 0 0]> (ks_lists k)) k);;
      start ← on_pages (page_allocn (s32 cnt));
      update ks_pmas set_pmas p (fun x => mkPma start (pend x) (psize x));;
      if start =? 0 then mret (- ENOMEM, None)
      else
        let sz := u64 (Z.shiftl cnt PAGE_SHIFT) in
        update ks_pmas set_pmas p (fun x => mkPma (pstart x) (pend x) sz);;
        update ks_pmas set_pmas p (fun x => mkPma (pstart x) (u64 (psize x + psize x)) (psize x));;
        kobject_init (pma_kobj p) KOBJ_TYPE_PMA PMA_RIGHT_MASK (Some pma_kobj_ops) p;;
        mret (0, Some (pma_kobj p, PMA_RIGHT)).

Definition create_pma (data : Z) : K (Z * option (Z * Z)) :=
  cp ← cur_proc;
  r ← proc_is_roots cp;
  if negb r then mret (- EPERM, None)
  else
    '(bs, ret) ← copy_in data sizeof_pma_create_arg;
    if ret <=? 0 then mret (- EFAULT, None)
    else
      let args := pma_arg_of bs in
      if PMA_TYPE_MAX <=? pa_type args then mret (- EINVAL, None)
      else if (pa_type args =? PMA_TYPE_DMA) || (pa_type args =? PMA_TYPE_MMIO) || (pa_type args =? PMA_TYPE_PMEM) then halt
      else if pa_type args =? PMA_TYPE_KCACHE then halt
      else if pa_type args =? PMA_TYPE_NORMAL then create_pma_normal args
      else mret (-1, None).

(** ** uspace/proc.c *)
Definition PROC_RIGHT : Z := Z.lor KOBJ_RIGHT_READ KOBJ_RIGHT_CTL.
Definition PROC_RIGHT_MASK : Z := KOBJ_RIGHT_CTL.

Record process_create_arg := mkProcArg { pc_entry : Z; pc_stack : Z; pc_aff : Z; pc_prio : Z; pc_pid : Z; pc_flags : Z }.
Definition process_arg_of (bs : list Z) : process_create_arg :=
  mkProcArg (le bs 0 8) (le bs 8 8) (s32 (le bs 16 4)) (s32 (le bs 20 4)) (s32 (le bs 24 4)) (s32 (le bs 28 4)).
Definition sizeof_process_create_arg : Z := 32.

Definition proc_send (kobj data data_size extra extra_size timeout : Z) : K Z := halt.
Definition proc_recv (kobj data data_size extra extra_size timeout : Z) : K Z := halt.
Definition proc_reply (kobj right token errno fd fd_right : Z) : K Z := halt.
Definition proc_release (kobj : Z) : K () := halt.
Definition proc_ctl (kobj req data : Z) : K Z := halt.
Definition proc_close (kobj right proc : Z) : K Z := halt.

Definition kobject_create_proc (data : Z) : K (Z * option (Z * Z)) :=
  cp ← cur_proc;
  r ← proc_is_roots cp;
  if negb r then mret (- EPERM, None)
  else
    '(bs, ret) ← copy_in data sizeof_process_create_arg;
    if ret <=? 0 then mret (- EFAULT, None)
    else
      let args := process_arg_of bs in
      p ← create_proc None (pc_pid args) (pc_prio args);
      if p =? 0 then mret (- EFAULT, None)
      else
        kobject_init (proc_kobj p) KOBJ_TYPE_PROCESS PROC_RIGHT_MASK (Some proc_kobj_ops) 0;;
        mret (0, Some (proc_kobj p, PROC_RIGHT)).

(** ** The operation tables *)
Definition ops_table (o : kobject_ops) : ops_impl :=
  match o with
  | proc_kobj_ops => mkOps (Some proc_send) (Some proc_recv) (Some proc_release) (Some proc_close) (Some proc_reply) None None (Some proc_ctl)
  | pma_kobj_ops => mkOps (Some pma_send) (Some pma_recv) (Some pma_release) (Some pma_close) (Some pma_reply) None None (Some pma_ctl)
  | stdio_ops => mkOps (Some stdio_send) (Some stdio_recv) None None None None None None
  end.
Definition create_table (cb : kobject_create_cb) : Z -> K (Z * option (Z * Z)) :=
  match cb with create_pma_cb => create_pma | kobject_create_proc_cb => kobject_create_proc end.

#[global] Instance spring_ops : KobjOps := {| ops_of := ops_table; run_create := create_table |}.

(** The [.__kobj_type_desc] section. *)
Definition kobj_type_descs : list (Z * option kobject_create_cb) :=
  [(KOBJ_TYPE_PMA, Some create_pma_cb); (KOBJ_TYPE_PROCESS, Some kobject_create_proc_cb)].
End Objects.

(** ** Sending to the console *)

(** The bytes user address range [0, n) of [f] holds. *)
Definition user_bytes (m : mem) (f : Z -> Z) (n : Z) : list Z := (fun i => default 0 (m !! ptov (f i))) <$> seqZ 0 n.

(** [va .. va + n) of the current process is mapped by [f]. *)
Record user_range (k : kstate) (va n : Z) (f : Z -> Z) : Prop := {
  ur_map : exists c x, ks_cpus k !! 0%nat = Some c /\ ks_procs k !! c_proc c = Some x /\
    translates (pgtbl_walk (ks_tables k) (p_pagetable x)) va n f;
  ur_range : 0 <= va /\ va + n < 2 ^ 64 /\ 0 <= n < 2 ^ 31;
}.

Lemma user_range_head k va n f m : user_range k va n f -> 0 <= m <= n -> user_range k va m f.
Proof.
  intros [(c & x & Hc & Hx & [Ht1 Ht2]) Hr] Hm. constructor; [|lia]. exists c, x. split_and!; [done..|].
  split; [intros i Hi; apply Ht1; lia|intros i Hi Hi'; apply Ht2; lia].
Qed.
Lemma user_range_tail k va n f m : user_range k va n f -> 0 <= m <= n -> user_range k (va + m) (n - m) (fun i => f (m + i)).
Proof.
  intros [(c & x & Hc & Hx & Ht) Hr] Hm. constructor; [|lia]. exists c, x. split_and!; [done..|]. apply translates_tail; [done|lia].
Qed.
Lemma user_range_state k k' va n f :
  ks_cpus k' = ks_cpus k -> ks_procs k' = ks_procs k -> ks_tables k' = ks_tables k -> user_range k va n f -> user_range k' va n f.
Proof.
  intros Hc Hp Ht [(c & x & ? & ? & ?) Hr]. constructor; [|done]. exists c, x. rewrite Hc, Hp, Ht. done.
Qed.

Lemma copy_in_run k va n f : user_range k va n f -> copy_in va n k = Ret ((user_bytes (ks_mem k) f n, n), intr_on k).
Proof.
  intros [(c & x & Hc & Hx & Ht) (? & ? & ?)]. unfold copy_in. mrun (cur_proc_run k c Hc). mrun (deref_run ks_procs _ x (intr_on k) Hx).
  mrun (eq_refl (Ret (intr_on k, intr_on k))). unfold copy_from_user. by rewrite (copy_from_user_spec _ _ va n f).
Qed.

Lemma user_bytes_length m f n : 0 <= n -> length (user_bytes m f n) = Z.to_nat n.
Proof. intros. unfold user_bytes. by rewrite length_fmap, length_seqZ. Qed.
Lemma user_bytes_split m f a n : 0 <= a <= n -> user_bytes m f n = user_bytes m f a ++ user_bytes m (fun i => f (a + i)) (n - a).
Proof.
  intros Ha. unfold user_bytes. replace n with (a + (n - a)) at 1 by lia. rewrite seqZ_app, fmap_app by lia. f_equal.
  rewrite Z.add_0_l. apply list_eq. intros i. rewrite !list_lookup_fmap. destruct (decide (Z.of_nat i < n - a)).
  - rewrite !lookup_seqZ_lt by lia. simpl. by rewrite Z.add_0_l.
  - by rewrite !lookup_seqZ_ge by lia.
Qed.

Lemma console_puts_loop_run bs k : console_puts_loop bs k = Ret (tt, set_out (ks_out k ++ bs) k).
Proof.
  revert k. induction bs as [|b bs IH]; intros k; cbn [console_puts_loop].
  - rewrite app_nil_r. by destruct k.
  - unfold console_putc. erewrite M_bind_run; [|reflexivity]. cbn beta. rewrite IH. cbn [ks_out set_out]. by rewrite <- app_assoc.
Qed.
Lemma console_puts_run bs n k : length bs = Z.to_nat n -> console_puts bs n k = Ret (s32 n, set_out (ks_out k ++ bs) k).
Proof.
  intros Hl. unfold console_puts. rewrite <- Hl, firstn_all. mrun (console_puts_loop_run bs k). done.
Qed.

(** The state after [n] bytes [bs] are sent: reading them from the process
    unmasks interrupts. *)
Definition sent (n : Z) (bs : list Z) (k : kstate) : kstate := set_out (ks_out k ++ bs) (if 0 <? n then intr_on k else k).
Lemma sent_sent m n a b k : 0 < m -> sent n b (sent m a k) = sent m (a ++ b) k.
Proof.
  intros Hm. unfold sent. rewrite (proj2 (Z.ltb_lt 0 m) Hm). cbn [ks_out set_out]. rewrite <- app_assoc.
  destruct (0 <? n); [|done]. unfold intr_on. cbn. by rewrite daif_on_on.
Qed.

Lemma stdio_send_loop_run fuel k va n f :
  user_range k va n f -> n <= Z.of_nat fuel * 2048 ->
  stdio_send_loop fuel va n k = Ret (None, sent n (user_bytes (ks_mem k) f n) k).
Proof.
  revert k va n f. induction fuel as [|fuel IH]; intros k va n f Hu Hf; pose proof (ur_range _ _ _ _ Hu) as (? & ? & ?);
    cbn [stdio_send_loop]; destruct (Z.ltb_spec 0 n) as [Hn|Hn]; try lia;
    try (replace n with 0 by lia; unfold sent; cbn; rewrite app_nil_r; by destruct k).
  unfold STDIO_BUF_SIZE. set (m := if 2048 <? n then 2048 else n).
  assert (0 < m <= n /\ n - m <= Z.of_nat fuel * 2048) as [Hm Hf'] by (unfold m; destruct (Z.ltb_spec 2048 n); lia).
  mrun (copy_in_run k va m f (user_range_head _ _ _ _ m Hu ltac:(lia))). cbn iota. rewrite (proj2 (Z.leb_gt m 0)) by lia.
  mrun (console_puts_run (user_bytes (ks_mem k) f m) m (intr_on k) (user_bytes_length (ks_mem k) f m ltac:(lia))).
  rewrite u64_small by lia. rewrite (IH _ (va + m) (n - m) (fun i => f (m + i))); [|apply (user_range_state k); [done..|apply user_range_tail; [done|lia]]|done].
  set (k1 := set_out _ (intr_on k)). assert (k1 = sent m (user_bytes (ks_mem k) f m) k) as -> by (unfold sent; by rewrite (proj2 (Z.ltb_lt 0 m)) by lia).
  rewrite sent_sent by lia. cbn [ks_mem sent set_out]. assert (forall bs, sent m bs k = sent n bs k) as -> by (intros bs; unfold sent; rewrite !(proj2 (Z.ltb_lt 0 _)) by lia; done).
  do 3 f_equal. rewrite (user_bytes_split (ks_mem k) f m n) by lia. f_equal. unfold sent. by destruct (0 <? m).
Qed.

Lemma stdio_send_run k kobj va n f extra extra_size timeout :
  user_range k va n f ->
  stdio_send kobj va n extra extra_size timeout k = Ret (n, sent n (user_bytes (ks_mem k) f n) k).
Proof.
  intros Hu. pose proof (ur_range _ _ _ _ Hu) as (? & ? & ?). unfold stdio_send. destruct (Z.eqb_spec n 0) as [->|Hn].
  - unfold sent. cbn. rewrite app_nil_r. by destruct k.
  - erewrite M_bind_run; [|apply (stdio_send_loop_run _ k va n f Hu)].
    + cbn beta. unfold mret, M_ret. by rewrite s32_small by lia.
    + unfold STDIO_BUF_SIZE. pose proof (Z.div_mod n 2048). pose proof (Z.mod_pos_bound n 2048).
      assert (0 <= n / 2048) by (apply Z.div_pos; lia). lia.
Qed.

Lemma proc_is_roots_run k p x b : ks_procs k !! p = Some x -> str_equal (p_name x) roots_name = Ret b -> proc_is_roots p k = Ret (b, k).
Proof. intros Hx Hb. unfold proc_is_roots. mrun (deref_run ks_procs p x k Hx). by rewrite Hb. Qed.

(** ** Creating a memory area *)
Section PmaSpec.
Context `{KE : KernEnv}.

Lemma kobject_init_run kobj type mask ops data o n k :
  kobj <> 0 -> ks_kobjs k !! kobj = Some o -> ks_lists k !! kobject_list kobj = Some n ->
  kobject_init kobj type mask ops data k =
    Ret (tt, set_kobjs (<[kobj := mkKobj (u8 type) mask (ko_ref o) initlock ops data]> (ks_kobjs k))
      (set_lists (<[kobject_list kobj := mkHead (kobject_list kobj) (kobject_list kobj)]> (ks_lists k)) k)).
Proof.
  intros Hz Hk Hn. unfold kobject_init. rewrite (proj2 (Z.eqb_neq kobj 0) Hz). mrun (eq_refl (Ret (tt, k))). unfold upd_kobj.
  erewrite M_bind_run; [|apply update_run; exact Hk]. cbn beta. erewrite M_bind_run; [|eapply init_list_run; exact Hn]. cbn beta.
  erewrite update_run; [|apply lookup_insert_eq]. destruct k. knorm. by rewrite insert_insert_eq.
Qed.

(** The state with the new area [p] of [size] bytes at [start]. *)
Definition with_pma (k : kstate) (p start size : Z) (s : slab_state page_state) : kstate :=
  set_pmas (<[p := mkPma start (size + size) size]> (ks_pmas k))
    (set_kobjs (<[pma_kobj p := mkKobj KOBJ_TYPE_PMA PMA_RIGHT 0 initlock (Some pma_kobj_ops) p]> (ks_kobjs k))
      (set_lists (<[kobject_list (pma_kobj p) := mkHead (kobject_list (pma_kobj p)) (kobject_list (pma_kobj p))]> (ks_lists k))
        (set_slab_ s k))).

Lemma create_pma_normal_run k args p start s1 s2 cnt :
  pa_size args = cnt * 4096 -> 1 <= cnt <= 512 ->
  kalloc sizeof_pma (ks_slab k) = Ret (p, s1) -> p <> 0 -> pma_kobj p <> 0 ->
  slab_pages (page_allocn cnt) s1 = Ret (start, s2) -> start <> 0 ->
  create_pma_normal args k = Ret ((0, Some (pma_kobj p, PMA_RIGHT)), with_pma k p start (pa_size args) s2).
Proof.
  intros Hsz Hc Ha Hp Hpk Hb Hs. unfold create_pma_normal. rewrite Hsz.
  assert (Z.shiftr (cnt * 4096) PAGE_SHIFT = cnt) as -> by (unfold PAGE_SHIFT; rewrite Z.shiftr_div_pow2 by lia; apply Z.div_mul; lia).
  rewrite page_aligned_spec, Z.mod_mul, (proj2 (Z.eqb_neq _ 0)) by lia. cbn [orb negb Z.eqb].
  assert (Z.shiftl cnt PAGE_SHIFT = cnt * 4096) as -> by (unfold PAGE_SHIFT; by rewrite Z.shiftl_mul_pow2 by lia).
  rewrite (u64_small (cnt * 4096)), (s32_small cnt) by lia. destruct k.
  erewrite M_bind_run; [|unfold on_slab, zoom; rewrite Ha; reflexivity]. knorm. rewrite (proj2 (Z.eqb_neq p 0) Hp).
  erewrite M_bind_run; [|reflexivity]. knorm. erewrite M_bind_run; [|reflexivity]. knorm. erewrite M_bind_run; [|reflexivity]. knorm.
  erewrite M_bind_run; [|apply on_pages_run; exact Hb]. knorm. erewrite M_bind_run; [|apply update_run, lookup_insert_eq]. knorm.
  rewrite (proj2 (Z.eqb_neq start 0) Hs). erewrite M_bind_run; [|apply update_run, lookup_insert_eq]. knorm.
  erewrite M_bind_run; [|apply update_run, lookup_insert_eq]. knorm.
  erewrite M_bind_run; [|eapply kobject_init_run; [done|apply lookup_insert_eq|apply lookup_insert_eq]]. knorm.
  unfold mret, M_ret, with_pma. knorm. rewrite !insert_insert_eq. cbn [pstart pend psize ko_ref]. rewrite (u64_small (cnt * 4096 + cnt * 4096)) by lia. reflexivity.
Qed.

Lemma create_pma_normal_invalid k args :
  0 <= pa_size args < 2 ^ 64 -> pa_size args = 0 \/ pa_size args mod 4096 <> 0 -> create_pma_normal args k = Ret ((- EINVAL, None), k).
Proof.
  intros Hr H. unfold create_pma_normal. rewrite page_aligned_spec by lia.
  destruct (Z.eqb_spec (pa_size args) 0), (Z.eqb_spec (pa_size args mod 4096) 0); cbn [orb negb]; try done. naive_solver.
Qed.

(** Running out of pages after the descriptor was allocated. *)
Lemma create_pma_normal_nomem k args p s1 s2 cnt :
  pa_size args = cnt * 4096 -> 1 <= cnt <= 512 ->
  kalloc sizeof_pma (ks_slab k) = Ret (p, s1) ->
  (p <> 0 -> slab_pages (page_allocn cnt) s1 = Ret (0, s2)) ->
  exists k', create_pma_normal args k = Ret ((- ENOMEM, None), k') /\ (p <> 0 -> ks_slab k' = s2).
Proof.
  intros Hsz Hc Ha Hb. unfold create_pma_normal. rewrite Hsz.
  assert (Z.shiftr (cnt * 4096) PAGE_SHIFT = cnt) as -> by (unfold PAGE_SHIFT; rewrite Z.shiftr_div_pow2 by lia; apply Z.div_mul; lia).
  rewrite page_aligned_spec, Z.mod_mul, (proj2 (Z.eqb_neq _ 0)) by lia. cbn [orb negb Z.eqb].
  rewrite (s32_small cnt) by lia. destruct k.
  erewrite M_bind_run; [|unfold on_slab, zoom; rewrite Ha; reflexivity]. knorm.
  destruct (Z.eqb_spec p 0) as [->|Hp]; [by eexists|]. specialize (Hb Hp).
  erewrite M_bind_run; [|reflexivity]. knorm. erewrite M_bind_run; [|reflexivity]. knorm. erewrite M_bind_run; [|reflexivity]. knorm.
  erewrite M_bind_run; [|apply on_pages_run; exact Hb]. knorm. erewrite M_bind_run; [|apply update_run, lookup_insert_eq]. knorm.
  eexists. split; [reflexivity|done].
Qed.

(** A request of more than 512 pages. *)
Lemma create_pma_normal_huge k args p s1 cnt :
  pa_size args = cnt * 4096 -> 512 < cnt < 2 ^ 31 -> kalloc sizeof_pma (ks_slab k) = Ret (p, s1) -> p <> 0 ->
  create_pma_normal args k = Halt.
Proof.
  intros Hsz Hc Ha Hp. unfold create_pma_normal. rewrite Hsz.
  assert (Z.shiftr (cnt * 4096) PAGE_SHIFT = cnt) as -> by (unfold PAGE_SHIFT; rewrite Z.shiftr_div_pow2 by lia; apply Z.div_mul; lia).
  rewrite page_aligned_spec, Z.mod_mul, (proj2 (Z.eqb_neq _ 0)) by lia. cbn [orb negb Z.eqb].
  rewrite (s32_small cnt) by lia. erewrite M_bind_run; [|unfold on_slab, zoom; rewrite Ha; reflexivity].
  cbn beta. rewrite (proj2 (Z.eqb_neq p 0) Hp).
  erewrite M_bind_run; [|reflexivity]. erewrite M_bind_run; [|reflexivity]. erewrite M_bind_run; [|reflexivity]. cbn beta.
  unfold mbind at 1, M_bind at 1, on_pages, on_slab, slab_pages, zoom, page_allocn. by rewrite (proj2 (Z.ltb_lt 512 cnt)) by lia.
Qed.
End PmaSpec.

(** ** Properties *)

(** Creating a normal memory area: a size that is 0 or not a multiple of
    the page size is refused with [-EINVAL] and nothing changes; up to 512
    pages the area gets that many pages and an object of type PMA with all
    rights and no reference yet, its recorded end being twice its size, not
    start plus size; without pages the result is [-ENOMEM] and the descriptor
    stays allocated; more than 512 pages stop the kernel. *)
Theorem create_pma_outcomes (k : kstate) (args : pma_create_arg) (p start cnt : Z) (s1 s2 : slab_state page_state)
  (Hr : 0 <= pa_size args < 2 ^ 43) (Ha : kalloc sizeof_pma (ks_slab k) = Ret (p, s1)) (Hp : p <> 0) (Hpk : pma_kobj p <> 0) :
  (pa_size args = 0 \/ pa_size args mod 4096 <> 0 -> create_pma_normal args k = Ret ((- EINVAL, None), k)) /\
  (pa_size args = cnt * 4096 -> 1 <= cnt <= 512 -> slab_pages (page_allocn cnt) s1 = Ret (start, s2) ->
     (start <> 0 -> create_pma_normal args k = Ret ((0, Some (pma_kobj p, 0x1f)), with_pma k p start (pa_size args) s2)) /\
     (start = 0 -> exists k', create_pma_normal args k = Ret ((- ENOMEM, None), k') /\ ks_slab k' = s2)) /\
  (pa_size args = cnt * 4096 -> 512 < cnt -> create_pma_normal args k = Halt).
Proof.
  split; [intros H; apply create_pma_normal_invalid; (done || lia)|]. split.
  - intros Hsz Hc Hb. split.
    + intros Hs. by apply (create_pma_normal_run k args p start s1 s2 cnt).
    + intros ->. destruct (create_pma_normal_nomem k args p s1 s2 cnt Hsz Hc Ha (fun _ => Hb)) as (k' & Hk & Hs). exists k'. auto.
  - intros Hsz Hc. apply (create_pma_normal_huge k args p s1 cnt); [done|lia|done|done].
Qed.

Definition demo_pma_ok : bool :=
  match kalloc sizeof_pma demo_slabs with
  | Ret (p, s1) => match slab_pages (page_allocn 3) s1 with Ret (st, _) => (0 <? p) && (0 <? st) | _ => false end
  | _ => false
  end.
Lemma create_pma_outcomes_witness :
  exists p start s2, create_pma_normal (mkPmaArg 0 0 0 0 0x3000) demo_boot
    = Ret ((0, Some (pma_kobj p, 0x1f)), with_pma demo_boot p start 0x3000 s2).
Proof.
  assert (demo_pma_ok = true) as H by (vm_compute; reflexivity). unfold demo_pma_ok in H.
  destruct (kalloc sizeof_pma demo_slabs) as [[p s1]| | |] eqn:E1; try discriminate H.
  destruct (slab_pages (page_allocn 3) s1) as [[st s2]| | |] eqn:E2; try discriminate H.
  destruct (create_pma_outcomes demo_boot (mkPmaArg 0 0 0 0 0x3000) p st 3 s1 s2) as (_ & Hc & _).
  - cbn. lia.
  - exact E1.
  - lia.
  - unfold pma_kobj. lia.
  - exists p, st, s2. apply Hc; [reflexivity|lia|exact E2|lia].
Defined.
