(* ===== verification/Syscall.v ===== *)
(** * System calls (ukern/src/uspace/kobject.c, src/syscall.c)

    The [sys_kobject_*] functions on the current process and the dispatch on
    the number in x8.  A local variable that a callee left unassigned has the
    value the environment's [stack_kobj] and [stack_right] give. *)
From S2P Require Import Prelude Config CList Bitmap Page PageTable PageTableSpec Slab SlabSpec Kmem Spinlock Uaccess Kernel Kobject Handle Proc Objects.

Definition __NR_kobject_create : Z := 0.
Definition __NR_kobject_open : Z := 1.
Definition __NR_kobject_close : Z := 2.
Definition __NR_kobject_recv : Z := 3.
Definition __NR_kobject_send : Z := 4.
Definition __NR_kobject_reply : Z := 5.
Definition __NR_kobject_ctl : Z := 7.
Definition __NR_kobject_mmap : Z := 8.
Definition __NR_kobject_munmap : Z := 9.
Definition __NR_syscalls : Z := 21.

Section Syscall.
Context `{KE : KernEnv}.

Definition sys_kobject_close (handle : Z) : K Z :=
  '(ret, out) ← handle_free handle;
  if negb (ret =? 0) then mret ret
  else
    let (kobj, right) := default (stack_kobj, stack_right) out in
    p ← cur_proc; kobject_close kobj right p.

Definition sys_kobject_send (handle data data_size extra extra_size timeout : Z) : K Z :=
  '(ret, out) ← get_kobject handle;
  if negb (ret =? 0) then mret ret
  else
    let (kobj, right) := default (stack_kobj, stack_right) out in
    ret ← (if Z.land right KOBJ_RIGHT_WRITE =? 0 then mret (- EPERM)
           else kobject_send kobj data data_size extra extra_size timeout);
    put_kobject kobj;;
    mret ret.

Definition sys_kobject_create (type data : Z) : K Z :=
  '(ret, out) ← kobject_create type data;
  if negb (ret =? 0) then mret (s16 ret)
  else let (kobj, right) := default (stack_kobj, stack_right) out in handle_alloc kobj right.

(** The bodies of the other calls are commented out. *)
Definition sys_kobject_recv (handle data data_size extra extra_size timeout : Z) : K Z := mret 0.
Definition sys_kobject_open (handle : Z) : K Z := mret 0.
Definition sys_kobject_reply (handle token err_code fd fd_right : Z) : K Z := mret 0.
Definition sys_kobject_ctl (handle req data : Z) : K Z := mret 0.
Definition sys_kobject_mmap (handle : Z) : K Z := mret 0.
Definition sys_kobject_munmap (handle : Z) : K Z := mret 0.

(** ** syscall.c: the handlers on the saved registers *)
Definition syscall_handler_t : Type := gp_regs -> K gp_regs.

Definition __sys_kobject_close : syscall_handler_t := fun r =>
  v ← sys_kobject_close (s16 (xreg r 0)); mret (set_xreg r 0 (s32 v)).
Definition __sys_kobject_create : syscall_handler_t := fun r =>
  v ← sys_kobject_create (s32 (xreg r 0)) (xreg r 1); mret (set_xreg r 0 v).
(** [data] and [extra] keep their initial 0. *)
Definition __sys_kobject_recv : syscall_handler_t := fun r =>
  v ← sys_kobject_recv (s16 (s32 (xreg r 0))) (xreg r 1) (xreg r 2) (xreg r 3) (xreg r 4) (u32 (xreg r 5));
  mret (set_xreg (set_xreg (set_xreg r 0 v) 1 0) 2 0).
Definition __sys_kobject_send : syscall_handler_t := fun r =>
  v ← sys_kobject_send (s16 (s32 (xreg r 0))) (xreg r 1) (xreg r 2) (xreg r 3) (xreg r 4) (u32 (xreg r 5));
  mret (set_xreg r 0 v).
Definition __sys_kobject_reply : syscall_handler_t := fun r =>
  v ← sys_kobject_reply (s16 (s32 (xreg r 0))) (xreg r 1) (s64 (xreg r 2)) (s16 (xreg r 3)) (u32 (xreg r 4)); mret (set_xreg r 0 v).
Definition __sys_kobject_ctl : syscall_handler_t := fun r =>
  v ← sys_kobject_ctl (s16 (xreg r 0)) (s32 (xreg r 1)) (xreg r 2); mret (set_xreg r 0 v).
Definition __sys_kobject_mmap : syscall_handler_t := fun r =>
  v ← sys_kobject_mmap (s16 (xreg r 0)); mret (set_xreg (set_xreg (set_xreg r 0 v) 1 0) 2 0).
Definition __sys_kobject_munmap : syscall_handler_t := fun r =>
  v ← sys_kobject_munmap (s16 (xreg r 0)); mret (set_xreg r 0 v).
Definition __sys_kobject_open : syscall_handler_t := fun r =>
  v ← sys_kobject_open (s16 (xreg r 0)); mret (set_xreg r 0 v).
(** [exit] stops the machine. *)
Definition __sys_unsupport : syscall_handler_t := fun r => halt.

(** Slots 0 to [__NR_syscalls] inclusive. *)
Definition __syscall_table : list syscall_handler_t := [
  __sys_kobject_create; __sys_kobject_open; __sys_kobject_close; __sys_kobject_recv; __sys_kobject_send; __sys_kobject_reply;
  __sys_unsupport; __sys_kobject_ctl; __sys_kobject_mmap; __sys_kobject_munmap;
  __sys_unsupport; __sys_unsupport; __sys_unsupport; __sys_unsupport; __sys_unsupport; __sys_unsupport;
  __sys_unsupport; __sys_unsupport; __sys_unsupport; __sys_unsupport; __sys_unsupport; __sys_unsupport ].

Definition syscall_handler : syscall_handler_t := fun r =>
  let nr := s32 (xreg r 8) in
  if __NR_syscalls <=? nr then mret (set_xreg r 0 (- EINVAL))
  else h ← lift (rd __syscall_table nr); h r.
End Syscall.

(** ** The current process and its handles *)
Section SyscallSpec.
Context `{KE : KernEnv}.

(** Process [p] is the current one and has the table [ht] at [t]. *)
Record current (k : kstate) (p t : Z) (ht : handle_table) : Prop := {
  cu_cpu : exists c, ks_cpus k !! 0%nat = Some c /\ c_proc c = p;
  cu_table : has_table k p t ht;
}.

Lemma current_proc k p t ht : current k p t ht -> cur_proc k = Ret (p, intr_on k).
Proof. intros [(c & Hc & <-) _]. by apply cur_proc_run. Qed.
Lemma has_table_intr k p t ht : has_table k p t ht -> has_table (intr_on k) p t ht.
Proof. intros []. by constructor. Qed.
Lemma current_intr k p t ht : current k p t ht -> current (intr_on k) p t ht.
Proof. intros []. constructor; [done|by apply has_table_intr]. Qed.

Lemma set_ref_same k kobj o n : ks_kobjs k !! kobj = Some o -> ko_ref o = n -> set_ref kobj n o k = k.
Proof. intros Hk <-. unfold set_ref. destruct o, k. cbn in *. by rewrite insert_id. Qed.
Lemma set_ref_twice k kobj o n m : set_ref kobj n (ko_with_ref m o) (set_ref kobj m o k) = set_ref kobj n o k.
Proof. unfold set_ref. destruct k. cbn. by rewrite insert_insert_eq. Qed.

(** A used slot [d] of the table whose object [o] is alive. *)
Record open_handle (k : kstate) (ht : handle_table) (h : Z) (d : handle_desc) (o : kobject) : Prop := {
  oh_slot : 0 <= h /\ ht_desc ht !! Z.to_nat h = Some d;
  oh_kobj : hd_kobj d <> 0 /\ ks_kobjs k !! hd_kobj d = Some o;
  oh_ref : 1 <= ko_ref o < 2 ^ 31 - 1;
  oh_right : 0 <= hd_right d < 2 ^ 31;
}.

(** [sys_kobject_send] on an open handle: the check of the right, and the
    operation between a reference taken and dropped. *)
Lemma sys_send_run k p t ht h d o data size extra esize tmo :
  current k p t ht -> open_handle k ht h d o ->
  sys_kobject_send h data size extra esize tmo k =
    (ret ← (if Z.land (hd_right d) KOBJ_RIGHT_WRITE =? 0 then mret (- EPERM)
            else kobject_send (hd_kobj d) data size extra esize tmo);
     put_kobject (hd_kobj d);; mret ret) (set_ref (hd_kobj d) (ko_ref o + 1) o (intr_on k)).
Proof.
  intros Hcu [[Hh Hd] [Hz Hk] Hr Hri]. unfold sys_kobject_send, get_kobject.
  erewrite M_bind_run; [|mrun (current_proc k p t ht Hcu); apply (get_kobject_run (intr_on k) p t ht h d o); try (done || lia); apply has_table_intr, Hcu].
  cbn beta iota. cbn [negb Z.eqb default]. rewrite u32_small, s32_small by lia.
  change (intr_on (set_ref ?a ?b ?c (intr_on k))) with (set_ref a b c (intr_on (intr_on k))). by rewrite intr_on_on.
Qed.

(** Dropping the reference again. *)
Lemma put_back k kobj o :
  kobj <> 0 -> 1 <= ko_ref o < 2 ^ 31 - 1 -> ks_kobjs k !! kobj = Some o ->
  put_kobject kobj (set_ref kobj (ko_ref o + 1) o k) = Ret (1, k).
Proof.
  intros Hz Hr Hk. unfold put_kobject. rewrite (kobject_put_run kobj (ko_with_ref (ko_ref o + 1) o)); [|done|apply lookup_insert_eq].
  cbn [ko_ref ko_with_ref]. rewrite (proj2 (Z.leb_gt _ _)), (proj2 (Z.eqb_neq _ _)) by lia.
  do 2 f_equal. change (mkKobj _ _ _ _ _ _) with (ko_with_ref (ko_ref o + 1) o). rewrite set_ref_twice. apply set_ref_same; [done|lia].
Qed.
End SyscallSpec.

(** The root service with its four handles and two mapped user pages. *)
Definition demo_rootp : Z := 0x5000.
Definition demo_utable : handle_table := table_of (@boot_handles demo_env demo_rootp).
Definition demo_uproc : proc := mkProc initlock 0x8000 RUNNABLE 0 0 0 demo_root 0 0 (roots_name ++ replicate 11 0).
Definition demo_user_state : kstate :=
  set_tables demo_user_tables (set_mem {[ ptov 0x50000fff := 72; ptov 0x48000000 := 105 ]}
    (set_cpus [mkCpu 0 demo_rootp 0 0 initlock] (set_kobjs {[ 0x2000000 := demo_stdio ]}
      (set_htabs {[ 0x8000 := demo_utable ]} (set_procs {[ demo_rootp := demo_uproc ]} kstate0))))).

Lemma demo_current : current demo_user_state demo_rootp 0x8000 demo_utable.
Proof.
  constructor; [by eexists|]. constructor; [by eexists|vm_compute; split; discriminate|reflexivity|].
  apply table_of_wf. split; [|simpl; lia]. repeat constructor; vm_compute; discriminate.
Qed.
Lemma demo_handle2 : open_handle demo_user_state demo_utable 2 (mkHd 0x2000000 2) demo_stdio.
Proof. constructor; [split; [lia|reflexivity]|split; [discriminate|reflexivity]|cbn; lia|cbn; lia]. Qed.
Lemma demo_urange : user_range demo_user_state 0x10000ffe 5 demo_map.
Proof.
  constructor; [|lia]. eexists _, _. split; [reflexivity|]. split; [reflexivity|]. exact demo_translates.
Qed.

(** ** Properties *)

(** A write system call on an open handle of the standard stream sends
    exactly the bytes of the user buffer to the console, whatever pages they
    are on, returns their number, and leaves the rest of the kernel as it
    was, the reference it took included, but for the interrupt mask: the trap
    masks interrupts and the call unmasks them.  Without the write right
    nothing is sent and the result is [-EPERM]. *)
Theorem sys_send_stdio `{KE : KernEnv} (k : kstate) (p t h va n extra esize tmo : Z) (ht : handle_table) (d : handle_desc)
  (o : kobject) (f : Z -> Z)
  (Hcu : current k p t ht) (Ho : open_handle k ht h d o) (Hops : ko_ops o = Some stdio_ops) (Hu : user_range k va n f) :
  sys_kobject_send h va n extra esize tmo k =
    if Z.land (hd_right d) KOBJ_RIGHT_WRITE =? 0 then Ret (- EPERM, intr_on k)
    else Ret (n, set_out (ks_out k ++ user_bytes (ks_mem k) f n) (intr_on k)).
Proof.
  rewrite (sys_send_run k p t ht h d o va n extra esize tmo Hcu Ho). destruct Ho as [_ [Hz Hk] Hr _].
  destruct (Z.land (hd_right d) KOBJ_RIGHT_WRITE =? 0).
  - erewrite M_bind_run; [|reflexivity]. cbn beta. mrun (put_back (intr_on k) (hd_kobj d) o Hz Hr Hk). done.
  - set (k1 := set_ref (hd_kobj d) (ko_ref o + 1) o (intr_on k)).
    erewrite M_bind_run; [|unfold kobject_send; erewrite M_bind_run; [|apply deref_run, lookup_insert_eq]; cbn beta;
      unfold kobj_op; cbn [ko_ops ko_with_ref]; rewrite Hops; cbn [mbind option_bind ops_of spring_ops ops_table op_send];
      apply (stdio_send_run k1 (hd_kobj d) va n f), (user_range_state k); done].
    cbn beta. assert (forall bs, sent n bs k1 = set_ref (hd_kobj d) (ko_ref o + 1) o (set_out (ks_out k ++ bs) (intr_on k))) as ->.
    { intros bs. unfold sent. destruct (0 <? n); [|done]. unfold intr_on. cbn. by rewrite daif_on_on. }
    erewrite M_bind_run; [|exact (put_back (set_out (ks_out k ++ user_bytes (ks_mem k) f n) (intr_on k)) (hd_kobj d) o Hz Hr Hk)]. done.
Qed.

(** Bytes 1 and 2 of the buffer are on different pages. *)
Lemma sys_send_stdio_witness :
  sys_kobject_send (KE := demo_env) 2 0x10000ffe 5 0 0 0 demo_user_state = Ret (5, set_out [0; 72; 105; 0; 0] (intr_on demo_user_state)).
Proof.
  rewrite (sys_send_stdio (KE := demo_env) demo_user_state demo_rootp 0x8000 2 0x10000ffe 5 0 0 0 demo_utable (mkHd 0x2000000 2) demo_stdio
    demo_map demo_current demo_handle2 eq_refl demo_urange).
  reflexivity.
Defined.

(** A send on a handle whose slot is free does not fail: the lookup
    reports success without assigning [kobj] and [right], and the call goes
    on with what its stack holds.  With a stale object pointer and no write
    right there, it drops a reference nobody took. *)
Theorem send_free_handle_drops_reference `{KE : KernEnv} (k : kstate) (p t h data n extra esize tmo : Z) (ht : handle_table)
  (d : handle_desc) (o : kobject)
  (Hcu : current k p t ht) (Hh : 0 <= h) (Hd : ht_desc ht !! Z.to_nat h = Some d) (Hfree : hd_kobj d = 0)
  (Hs : stack_kobj <> 0) (Hk : ks_kobjs k !! stack_kobj = Some o) (Hr : 2 <= ko_ref o) (Hw : Z.land stack_right KOBJ_RIGHT_WRITE = 0) :
  sys_kobject_send h data n extra esize tmo k = Ret (- EPERM, set_ref stack_kobj (ko_ref o - 1) o (intr_on k)).
Proof.
  unfold sys_kobject_send, get_kobject. pose proof (cu_table _ _ _ _ Hcu) as [(x & Hp & Hl & Hx) [Hpz Htz] Hat Hwf].
  pose proof (lookup_lt_Some _ _ _ Hd) as Hlt. rewrite (hw_len _ Hwf) in Hlt.
  erewrite M_bind_run; [|mrun (current_proc k p t ht Hcu); rewrite (get_kobject_free_run (intr_on k) p t ht h d); [by rewrite intr_on_on|apply has_table_intr, Hcu|done..]].
  cbn beta iota. cbn [negb Z.eqb default]. rewrite Hw. erewrite M_bind_run; [|reflexivity]. cbn beta.
  unfold put_kobject. unfold mbind, M_bind. rewrite (kobject_put_run stack_kobj o (intr_on k) Hs Hk).
  rewrite (proj2 (Z.leb_gt _ _)), (proj2 (Z.eqb_neq _ _)) by lia. done.
Qed.

(** The stack still holds a pointer to the standard stream's object. *)
Definition stale_stack_env : KernEnv := {|
  cpus := 0x1000000; stdio_kobj := 0x2000000; raw_proc := @raw_proc demo_env; raw_kobj := @raw_kobj demo_env;
  raw_list := @raw_list demo_env; cache_pool_addr := demo_cache_pool; stack_kobj := 0x2000000; stack_right := 0 |}.
Lemma send_free_handle_drops_reference_witness :
  sys_kobject_send (KE := stale_stack_env) 9 0 0 0 0 0 (set_kobjs {[ 0x2000000 := ko_with_ref 4 demo_stdio ]} demo_user_state)
  = Ret (- EPERM, set_kobjs {[ 0x2000000 := ko_with_ref 3 demo_stdio ]} (intr_on demo_user_state)).
Proof.
  rewrite (send_free_handle_drops_reference (KE := stale_stack_env) (set_kobjs {[ 0x2000000 := ko_with_ref 4 demo_stdio ]} demo_user_state)
    demo_rootp 0x8000 9 0 0 0 0 0 demo_utable (mkHd 0 0) (ko_with_ref 4 demo_stdio)).
  - unfold set_ref. cbn. rewrite insert_singleton_eq. reflexivity.
  - destruct demo_current as [Hc [Hp Hpt Hat Hw]]. constructor; [exact Hc|constructor; assumption].
  - lia.
  - reflexivity.
  - reflexivity.
  - discriminate.
  - reflexivity.
  - cbn. lia.
  - reflexivity.
Defined.

(** Closing a handle frees its slot and returns 0, but the reference the
    handle held is not dropped: the count of the object never goes back to
    what it was before the handle was made, so the object is never released. *)
Theorem close_keeps_reference `{KE : KernEnv} (k : kstate) (p t h : Z) (ht : handle_table) (d : handle_desc) (o : kobject)
  (Hcu : current k p t ht) (Ho : open_handle k ht h d o) :
  exists k', sys_kobject_close h k = Ret (0, k') /\ ks_kobjs k' = ks_kobjs k /\
    current k' p t (ht_put ht (Z.to_nat h) (mkHd 0 0) 1).
Proof.
  destruct Ho as [[Hh Hd] [Hz Hk] Hr Hri]. pose proof (cu_table _ _ _ _ Hcu) as Ht.
  set (ht' := ht_put ht (Z.to_nat h) (mkHd 0 0) 1). exists (with_table t ht' (intr_on k)).
  assert (current (with_table t ht' (intr_on k)) p t ht') as Hcu'.
  { destruct Hcu as [Hc _], Ht as [Hp Hpt Hat Hw]. constructor; [done|]. constructor; [done|done|apply lookup_insert_eq|].
    apply (ht_put_wf ht _ d); [done|done|]. rewrite decide_True, decide_False by done. done. }
  split; [|done]. unfold sys_kobject_close, handle_free.
  erewrite M_bind_run; [|mrun (current_proc k p t ht Hcu); rewrite (handle_free_run (intr_on k) p t ht h d (has_table_intr _ _ _ _ Ht) Hh Hd),
    (proj2 (Z.eqb_neq _ 0) Hz); reflexivity].
  cbn beta iota. cbn [negb Z.eqb default id]. cbn beta iota. fold ht'.
  change (intr_on (with_table t ht' (intr_on k))) with (with_table t ht' (intr_on (intr_on k))). rewrite intr_on_on.
  mrun (current_proc _ p t ht' Hcu').
  change (intr_on (with_table t ht' (intr_on k))) with (with_table t ht' (intr_on (intr_on k))). by rewrite intr_on_on.
Qed.

Lemma close_keeps_reference_witness :
  exists k', sys_kobject_close (KE := demo_env) 2 demo_user_state = Ret (0, k') /\ ks_kobjs k' = ks_kobjs demo_user_state.
Proof.
  destruct (close_keeps_reference (KE := demo_env) demo_user_state demo_rootp 0x8000 2 demo_utable (mkHd 0x2000000 2) demo_stdio
    demo_current demo_handle2) as (k' & Hr & Hk & _).
  exists k'. split; [exact Hr|exact Hk].
Defined.

(** Only the root service can create objects.  For any other process
    [sys_kobject_create] returns a negative error, [-ENOENT] for a type out of
    range, [-EOPNOTSUPP] for a type nobody registered and [-EPERM] otherwise,
    and changes nothing but, in the last case, the interrupt mask. *)
Theorem sys_create_needs_root `{KE : KernEnv} (k : kstate) (c : cpu) (x : proc) (type data : Z)
  (Hc : ks_cpus k !! 0%nat = Some c) (Hx : ks_procs k !! c_proc c = Some x)
  (Hroot : str_equal (p_name x) roots_name = Ret false) (Hcbs : length (ks_cbs k) = 13%nat) :
  sys_kobject_create type data k =
    if (type <=? 0) || (KOBJ_TYPE_MAX <=? type) then Ret (- ENOENT, k)
    else match ks_cbs k !! Z.to_nat type with Some (Some _) => Ret (- EPERM, intr_on k) | _ => Ret (- EOPNOTSUPP, k) end.
Proof.
  unfold sys_kobject_create, kobject_create. destruct ((type <=? 0) || (KOBJ_TYPE_MAX <=? type)) eqn:Hrng.
  { erewrite M_bind_run; [|reflexivity]. done. }
  apply orb_false_iff in Hrng as [H0 H1]. unfold KOBJ_TYPE_MAX in *.
  destruct (lookup_lt_is_Some_2 (ks_cbs k) (Z.to_nat type)) as [cb Hcb]; [lia|]. rewrite Hcb.
  assert (forall cb, run_create cb data k = Ret ((- EPERM, None), intr_on k)) as Hrun.
  { intros cb'. destruct cb'; cbn [run_create spring_ops create_table]; [unfold create_pma|unfold kobject_create_proc];
      mrun (cur_proc_run k c Hc); mrun (proc_is_roots_run (intr_on k) (c_proc c) x false Hx Hroot); done. }
  destruct cb as [cb|]; (erewrite M_bind_run; [|erewrite M_bind_run; [|reflexivity]; cbn beta; rewrite (rd_lookup _ type _) by (done || lia);
    erewrite M_bind_run; [|reflexivity]; cbn beta; first [apply Hrun|reflexivity]]); done.
Qed.

Definition demo_nonroot : kstate :=
  set_cbs (replicate 3 None ++ Some create_pma_cb :: replicate 9 None)
    (set_cpus [mkCpu 0 demo_rootp 0 0 initlock]
      (set_procs {[ demo_rootp := p_with_name (replicate 16 65) demo_uproc ]} kstate0)).
Lemma sys_create_needs_root_witness : sys_kobject_create (KE := demo_env) 3 0 demo_nonroot = Ret (- EPERM, intr_on demo_nonroot).
Proof.
  rewrite (sys_create_needs_root (KE := demo_env) demo_nonroot (mkCpu 0 demo_rootp 0 0 initlock) (p_with_name (replicate 16 65) demo_uproc) 3 0).
  - reflexivity.
  - reflexivity.
  - reflexivity.
  - reflexivity.
  - reflexivity.
Defined.

(** C39: the dispatch on x8: a number of 21 or more is answered with [-EINVAL]
    and the numbers of the calls that are still empty with zeros, without any
    effect; create, close and send run their calls; an unassigned number below
    21 stops the kernel, and a negative number reads outside the table. *)
Theorem syscall_dispatch `{KE : KernEnv} (r : gp_regs) (k : kstate) :
  let nr := s32 (xreg r 8) in
  (21 <= nr -> syscall_handler r k = Ret (set_xreg r 0 (- EINVAL), k)) /\
  (nr < 0 -> syscall_handler r k = Fault) /\
  (nr = 6 \/ 10 <= nr < 21 -> syscall_handler r k = Halt) /\
  (nr = 1 \/ nr = 5 \/ nr = 7 \/ nr = 9 -> syscall_handler r k = Ret (set_xreg r 0 0, k)) /\
  (nr = 3 \/ nr = 8 -> syscall_handler r k = Ret (set_xreg (set_xreg (set_xreg r 0 0) 1 0) 2 0, k)) /\
  (nr = 0 -> syscall_handler r k = __sys_kobject_create r k) /\
  (nr = 2 -> syscall_handler r k = __sys_kobject_close r k) /\
  (nr = 4 -> syscall_handler r k = __sys_kobject_send r k).
Proof.
  intros nr. unfold syscall_handler. fold nr. unfold __NR_syscalls. split_and!.
  - intros H. by rewrite (proj2 (Z.leb_le 21 nr)) by lia.
  - intros H. rewrite (proj2 (Z.leb_gt 21 nr)) by lia. unfold rd. rewrite (proj2 (Z.leb_gt 0 nr)) by lia. done.
  - intros H. assert (nr = 6 \/ nr = 10 \/ nr = 11 \/ nr = 12 \/ nr = 13 \/ nr = 14 \/ nr = 15 \/ nr = 16 \/ nr = 17 \/ nr = 18 \/ nr = 19 \/ nr = 20) as Hc by lia.
    repeat destruct Hc as [->|Hc]; try done. by rewrite Hc.
  - intros [->|[->|[->| ->]]]; done.
  - intros [->| ->]; done.
  - intros ->. done.
  - intros ->. done.
  - intros ->. done.
Qed.

Lemma syscall_dispatch_witness :
  syscall_handler (KE := demo_env) (<[8%nat := 1]> gp_regs0) demo_user_state = Ret (<[8%nat := 1]> gp_regs0, demo_user_state).
Proof.
  destruct (syscall_dispatch (KE := demo_env) (<[8%nat := 1]> gp_regs0) demo_user_state) as (_ & _ & _ & H & _).
  rewrite H; [reflexivity|left; reflexivity].
Defined.
