(* ===== verification/Vector.v ===== *)
(** * Exception entry (ukern/src/vector3.c, inc/esr.h, inc/exception.h)

    What the C code does when the assembly vectors call it: a synchronous
    exception of user mode is a system call or the end of the kernel, one of
    the kernel itself and an interrupt of user mode are always its end.  What
    is printed before a panic is left out.  [irq_from_current_el] runs the
    monitor's bookkeeping and the dispatch loop of [Irq]; it is not part of
    this file's state. *)
From S2P Require Import Prelude Config CList Bitmap Page PageTable PageTableSpec Slab SlabSpec Kmem Spinlock Uaccess Kernel Kobject Handle Proc Objects Syscall.

Definition ESR_ELx_EC_SVC64 : Z := 0x15.
(** The field [ec] of [union esr]. *)
Definition esr_ec (esr : Z) : Z := Z.land (Z.shiftr esr 26) 0x3f.

Section Vector.
Context `{KE : KernEnv}.

(** The handler changes the registers of the saved context in place. *)
Definition sync_from_lower_el : K () :=
  c ← cur_cpu; x ← get_proc (c_proc c);
  e ← get_ectx (proc_ectx x);
  if esr_ec (e_esr e) =? ESR_ELx_EC_SVC64 then
    r ← syscall_handler (e_gp_regs e); upd_ectx (proc_ectx x) (e_with_regs r)
  else halt.
Definition sync_from_current_el : K () := halt.
Definition irq_from_lower_el : K () := halt.
End Vector.

(** The current process [x] has trapped with the saved context [e]. *)
Record trapped `{KE : KernEnv} (k : kstate) (x : proc) (e : econtext) : Prop := {
  tr_cpu : exists c, ks_cpus k !! 0%nat = Some c /\ ks_procs k !! c_proc c = Some x;
  tr_ectx : ks_ectx k !! proc_ectx x = Some e }.

Lemma trap_run `{KE : KernEnv} k x e : trapped k x e ->
  sync_from_lower_el k =
    if esr_ec (e_esr e) =? ESR_ELx_EC_SVC64 then (r ← syscall_handler (e_gp_regs e); upd_ectx (proc_ectx x) (e_with_regs r)) k else Halt.
Proof.
  intros [(c & Hc & Hp) He]. unfold sync_from_lower_el.
  erewrite M_bind_run; [|unfold cur_cpu, lift, cur_cpuid; rewrite (rd_lookup _ 0 c) by (done || lia); reflexivity].
  mrun (deref_run ks_procs (c_proc c) x k Hp). mrun (deref_run ks_ectx (proc_ectx x) e k He).
  by destruct (esr_ec (e_esr e) =? ESR_ELx_EC_SVC64).
Qed.

(** C8: writing to the console, from the trap to the return.  When a user
    process traps with the SVC class and asks for a send (x8 = 4) on an open
    handle of the standard stream in x0, the bytes of its buffer (address in
    x1, length in x2, across whatever pages they lie on) are appended to the
    console, x0 of its saved context becomes their number, and nothing else of
    the context or of the kernel changes except the interrupt mask: the trap is
    taken with interrupts masked, but looking up the handle calls [cur_proc]
    and releases the lock of the process, each of which unmasks IRQ and FIQ,
    so they are unmasked when the handler returns (no interrupt being taken in
    between).  Without the write right nothing is sent and x0 becomes
    [-EPERM].  An exception of any other class stops the kernel. *)
Theorem svc_send_prints `{KE : KernEnv} (k : kstate) (x : proc) (e : econtext) (p t : Z) (ht : handle_table) (d : handle_desc) (o : kobject) (f : Z -> Z)
  (Htr : trapped k x e) (Hnr : s32 (xreg (e_gp_regs e) 8) = __NR_kobject_send) (Hcu : current k p t ht)
  (Ho : open_handle k ht (s16 (s32 (xreg (e_gp_regs e) 0))) d o) (Hops : ko_ops o = Some stdio_ops)
  (Hu : user_range k (xreg (e_gp_regs e) 1) (xreg (e_gp_regs e) 2) f) :
  let r := e_gp_regs e in
  let ok := negb (Z.land (hd_right d) KOBJ_RIGHT_WRITE =? 0) in
  let result := if ok then xreg r 2 else - EPERM in
  let sent := if ok then user_bytes (ks_mem k) f (xreg r 2) else [] in
  sync_from_lower_el k =
    if esr_ec (e_esr e) =? ESR_ELx_EC_SVC64 then
      Ret (tt, set_ectxs (<[proc_ectx x := e_with_regs (set_xreg r 0 result) e]> (ks_ectx k)) (set_out (ks_out k ++ sent) (intr_on k)))
    else Halt.
Proof.
  intros r ok result sent. rewrite (trap_run k x e Htr). destruct (esr_ec (e_esr e) =? ESR_ELx_EC_SVC64); [|done]. destruct Htr as [_ He].
  assert (syscall_handler r k = Ret (set_xreg r 0 result, set_out (ks_out k ++ sent) (intr_on k))) as E.
  { unfold syscall_handler. fold r in Hnr. rewrite Hnr.
    change (__sys_kobject_send r k = Ret (set_xreg r 0 result, set_out (ks_out k ++ sent) (intr_on k))). unfold __sys_kobject_send.
    erewrite M_bind_run; [reflexivity|]. rewrite (sys_send_stdio k p t _ _ _ _ _ _ ht d o f Hcu Ho Hops Hu). unfold result, sent, ok.
    destruct (Z.land (hd_right d) KOBJ_RIGHT_WRITE =? 0); cbn [negb]; [|done]. rewrite app_nil_r. by destruct k. }
  mrun E. by rewrite (upd_ectx_run _ _ e).
Qed.

(** The state of the examples of [Syscall], trapped by [svc] with the five
    bytes at 0x10000ffe to send. *)
Module TrapDemo.
Definition regs : gp_regs := <[8%nat := 4]> (<[2%nat := 5]> (<[1%nat := 0x10000ffe]> (<[0%nat := 2]> gp_regs0))).
Definition ctx : econtext := mkEctx (Z.shiftl 0x15 26) 0 0 0 0 0 regs.
Definition state : kstate := set_ectxs {[ proc_ectx demo_uproc := ctx ]} demo_user_state.
End TrapDemo.

Lemma svc_send_prints_witness :
  sync_from_lower_el (KE := demo_env) TrapDemo.state =
    Ret (tt, set_ectxs (<[proc_ectx demo_uproc := e_with_regs (<[0%nat := 5]> TrapDemo.regs) TrapDemo.ctx]> (ks_ectx TrapDemo.state))
               (set_out [0; 72; 105; 0; 0] (set_daif 12 TrapDemo.state))) /\
  ks_daif TrapDemo.state = 15.
Proof.
  split; [|reflexivity].
  rewrite (svc_send_prints (KE := demo_env) TrapDemo.state demo_uproc TrapDemo.ctx demo_rootp 0x8000 demo_utable (mkHd 0x2000000 2) demo_stdio demo_map).
  - reflexivity.
  - constructor; [by eexists|reflexivity].
  - reflexivity.
  - destruct demo_current as [H [H1 H2 H3 H4]]. constructor; [exact H|]. constructor; assumption.
  - destruct demo_handle2 as [H1 H2 H3 H4]. constructor; assumption.
  - reflexivity.
  - destruct demo_urange as [H1 H2]. constructor; assumption.
Defined.
