(* ===== verification/Ramdisk.v ===== *)
(** * The ram disk: its image tool and its readers
    (tools/mkrmd/mkrmd.c, ukern/src/ramdisk.c, service/roots/ramdisk.c,
    ukern/src/cfi.c)

    [mkrmd] writes an image file, the kernel copies it from flash to memory
    and opens and reads the files in it; the root service has the same reader
    on its own mapping.  Memory blocks are functions from offsets to bytes:
    what [malloc] returned is arbitrary.  Files and the image are lists of
    bytes; an access outside the image is a [Fault]. *)
From S2P Require Import Prelude Config Bitmap Page.

(** ** Bytes *)
Abbreviation bytes := (list Z).
Definition is_byte (b : Z) : Prop := 0 <= b < 256.

Fixpoint le_enc (n : nat) (v : Z) : bytes :=
  match n with O => [] | S n' => v mod 256 :: le_enc n' (v / 256) end.
Fixpoint le_dec (bs : bytes) : Z := match bs with [] => 0 | b :: bs' => b + 256 * le_dec bs' end.

Fixpoint rd_bytes (img : bytes) (off : Z) (n : nat) : outcome bytes :=
  match n with O => Ret [] | S n' => b ← rd img off; bs ← rd_bytes img (off + 1) n'; Ret (b :: bs) end.
Definition rd_le (img : bytes) (off : Z) (n : nat) : outcome Z := bs ← rd_bytes img off n; Ret (le_dec bs).

(** ** uapi/ramdisk.h *)
Definition RAMDISK_MAGIC : bytes := [77; 73; 78; 79; 83; 82; 65; 77; 68; 73; 83; 75; 46; 46; 46; 46].
Definition RAMDISK_MAGIC_SIZE : Z := 16.
Definition RAMDISK_FNAME_SIZE : Z := 32.
Definition sizeof_inode : Z := 48.
Definition sizeof_sb : Z := 32.
Record ramdisk_sb := mkSb { file_cnt : Z; block_size : Z; inode_offset : Z; data_offset : Z; ramdisk_size : Z }.
Definition sb_bytes (s : ramdisk_sb) : bytes :=
  le_enc 4 (file_cnt s) ++ le_enc 4 (block_size s) ++ le_enc 8 (inode_offset s) ++ le_enc 8 (data_offset s) ++ le_enc 8 (ramdisk_size s).

(** ** mkrmd.c *)
Definition IMEM_BLOCK_SIZE : Z := 32 * 1024 * 1024.
Definition FMEM_BLOCK_SIZE : Z := 64 * 1024 * 1024.

Record mem_block := mkBlock { mb_size : Z; mb_used : Z; mb_free : Z; mb_mem : Z -> Z }.
Record mkrmd_state := mkRmd { imem : mem_block; fmem : mem_block; superblk : ramdisk_sb }.

Definition poke (f : Z -> Z) (a : Z) (bs : bytes) : Z -> Z :=
  fun x => if (a <=? x) && (x <? a + Z.of_nat (length bs)) then nth (Z.to_nat (x - a)) bs 0 else f x.
Definition peek (f : Z -> Z) (n : Z) : bytes := f <$> seqZ 0 n.

(** [malloc] succeeds and returns the given contents. *)
Definition mem_block_init (im fm : Z -> Z) : mkrmd_state :=
  mkRmd (mkBlock IMEM_BLOCK_SIZE 0 IMEM_BLOCK_SIZE im) (mkBlock FMEM_BLOCK_SIZE 0 FMEM_BLOCK_SIZE fm) (mkSb 0 0 0 0 0).

Definition out_ramdisk : bytes := [111; 117; 116; 47; 114; 97; 109; 100; 105; 115; 107; 47].  (* out/ramdisk/ *)
Fixpoint strip_prefix (pre s : bytes) : option bytes :=
  match pre, s with
  | [], _ => Some s
  | c :: pre', d :: s' => if c =? d then strip_prefix pre' s' else None
  | _ :: _, [] => None
  end.
Definition clean_file_name (name : bytes) : outcome bytes :=
  match strip_prefix out_ramdisk name with Some s => Ret s | None => Halt end.

(** The [while (1)] loop: [data] is what the descriptor still has to give.
    Reading a regular file returns as much as was asked for until its end.
    The flag is false for the [-ENOMEM] return. *)
Fixpoint fill_loop (fuel : nat) (b : mem_block) (data : bytes) (filesize : Z) : outcome (bool * mem_block * Z) :=
  if mb_free b =? 0 then Ret (false, b, filesize)
  else
    let readsize := if 4096 <? mb_free b then 4096 else mb_free b in
    let got := take (Z.to_nat readsize) data in
    let cnt := Z.of_nat (length got) in
    if cnt =? 0 then Ret (true, b, filesize)
    else
      match fuel with
      | O => Diverge
      | S fuel' =>
          fill_loop fuel' (mkBlock (mb_size b) (mb_used b + cnt) (mb_free b - cnt) (poke (mb_mem b) (mb_used b) got))
            (drop (Z.to_nat readsize) data) (filesize + cnt)
      end.

(** [strcpy] may run past [f_name] into the fields behind it; the offset is
    stored before the name and the size after it. *)
Definition __add_file (st : mkrmd_state) (data filename : bytes) : outcome (Z * mkrmd_state) :=
  let i := imem st in
  if mb_free i <? sizeof_inode then Ret (-1, st)
  else
    let inode := mb_used i in
    let m := poke (mb_mem i) (inode + 32) (le_enc 8 (mb_used (fmem st))) in
    let m := poke m inode (filename ++ [0]) in
    let i := mkBlock (mb_size i) (mb_used i + sizeof_inode) (mb_free i - sizeof_inode) m in
    '(ok, f, filesize) ← fill_loop (length data) (fmem st) data 0;
    if negb ok then Ret (- ENOMEM, mkRmd i f (superblk st))
    else
      let padding := align_up filesize 4096 - filesize in
      let f := if 0 <? padding
               then mkBlock (mb_size f) (mb_used f + padding) (u64 (mb_free f - padding))
                      (poke (mb_mem f) (mb_used f) (replicate (Z.to_nat padding) 0))
               else f in
      let i := mkBlock (mb_size i) (mb_used i) (mb_free i) (poke (mb_mem i) (inode + 40) (le_enc 8 filesize)) in
      let s := superblk st in
      Ret (0, mkRmd i f (mkSb (u32 (file_cnt s + 1)) (block_size s) (inode_offset s) (data_offset s) (ramdisk_size s))).

(** [fs] gives the contents of the files that can be opened. *)
Definition add_file (fs : bytes -> option bytes) (st : mkrmd_state) (path : bytes) : outcome (Z * mkrmd_state) :=
  match fs path with
  | None => Ret (-1, st)
  | Some data => name ← clean_file_name path; __add_file st data name
  end.

Fixpoint make_ramdisk_files (fs : bytes -> option bytes) (st : mkrmd_state) (files : list bytes) : outcome (Z * mkrmd_state) :=
  match files with
  | [] => Ret (0, st)
  | path :: files' =>
      '(ret, st') ← add_file fs st path;
      if negb (ret =? 0) then Ret (- ENOENT, st') else make_ramdisk_files fs st' files'
  end.

(** [lseek] and [write]: a gap reads as zeros. *)
Definition file_write (f : bytes) (off : Z) (bs : bytes) : bytes :=
  take (Z.to_nat off) (f ++ replicate (Z.to_nat off - length f) 0) ++ bs ++ drop (Z.to_nat off + length bs) f.

(** [old] is what the output file held before. *)
Definition pack_ramdisk (st : mkrmd_state) (old : bytes) : Z * bytes :=
  let f := file_write old 0 RAMDISK_MAGIC in
  let inode_offset := Z.land (RAMDISK_MAGIC_SIZE + sizeof_sb + 15) (u64 (Z.lnot 15)) in
  let data_offset := Z.land (u64 (inode_offset + mb_used (imem st) + 4095)) (u64 (Z.lnot 4095)) in
  let sb := mkSb (file_cnt (superblk st)) 4096 inode_offset data_offset (data_offset + mb_used (fmem st)) in
  let f := file_write f 16 (sb_bytes sb) in
  let f := file_write f inode_offset (peek (mb_mem (imem st)) (mb_used (imem st))) in
  let f := file_write f data_offset (peek (mb_mem (fmem st)) (mb_used (fmem st))) in
  (0, f).

(** ** cfi.c: reading the flash by words *)
Definition CFI_GETB (flash : bytes) (offset : Z) : outcome Z := rd flash offset.
Definition CFI_GETW (flash : bytes) (woffset : Z) : outcome bytes := rd_bytes flash (4 * woffset) 4.

(** The three loops: what lands in [out], the offset and the size left. *)
Fixpoint cfi_head (flash : bytes) (fuel : nat) (offset walign size : Z) : outcome (bytes * Z * Z) :=
  if (0 <? size) && (offset <? walign) then
    match fuel with
    | O => Diverge
    | S fuel' => b ← CFI_GETB flash offset; '(r, o, s) ← cfi_head flash fuel' (offset + 1) walign (size - 1); Ret (b :: r, o, s)
    end
  else Ret ([], offset, size).
Fixpoint cfi_words (flash : bytes) (fuel : nat) (offset size : Z) : outcome (bytes * Z * Z) :=
  if 4 <=? size then
    match fuel with
    | O => Diverge
    | S fuel' => w ← CFI_GETW flash (offset / 4); '(r, o, s) ← cfi_words flash fuel' (offset + 4) (size - 4); Ret (w ++ r, o, s)
    end
  else Ret ([], offset, size).
Fixpoint cfi_tail (flash : bytes) (fuel : nat) (offset size : Z) : outcome (bytes * Z * Z) :=
  if 0 <? size then
    match fuel with
    | O => Diverge
    | S fuel' => b ← CFI_GETB flash offset; '(r, o, s) ← cfi_tail flash fuel' (offset + 1) (size - 1); Ret (b :: r, o, s)
    end
  else Ret ([], offset, size).
Definition cfi_read (flash : bytes) (offset size : Z) : outcome (bytes * Z) :=
  '(a, offset, size) ← cfi_head flash 4 offset (align_up offset 4) size;
  '(w, offset, size) ← cfi_words flash (Z.to_nat (size / 4)) offset size;
  '(t, _, size) ← cfi_tail flash 3 offset size;
  Ret (a ++ w ++ t, size).

(** ** ramdisk.c *)

(** [strncmp(inode->f_name, name, n) == 0]: the name in the image against a
    string without its terminator. *)
Fixpoint strncmp_eq (n : nat) (img : bytes) (off : Z) (s : bytes) : outcome bool :=
  match n with
  | O => Ret true
  | S n' =>
      c ← rd img off;
      match s with
      | [] => Ret (c =? 0)
      | d :: s' => if c =? d then strncmp_eq n' img (off + 1) s' else Ret false
      end
  end.

(** The globals [sb], [root] and [ramdisk_data], as offsets in the image;
    [None] before initialisation. *)
Record ramdisk := mkRd { rd_root : Z; rd_cnt : Z; rd_data : Z }.

Definition ramdisk_init (base : Z) (img : bytes) : outcome (Z * option ramdisk) :=
  if negb (page_aligned base) then Ret (- EINVAL, None)
  else
    magic ← strncmp_eq 16 img 0 RAMDISK_MAGIC;
    if negb magic then Ret (- EBADF, None)
    else
      cnt ← rd_le img 16 4;
      root ← rd_le img 24 8;
      data ← rd_le img 32 8;
      Ret (0, Some (mkRd root cnt data)).

(** Where the image lies; Boot.v has the kernel's own [init_ramdisk]. *)
Definition RAMDISK_BASE : Z := 0x44000000.
Definition RAMDISK_SIZE : Z := 0x2000000.

Fixpoint open_loop (n : nat) (img : bytes) (inode : Z) (name : bytes) : outcome (option Z) :=
  match n with
  | O => Ret None
  | S n' =>
      eq ← strncmp_eq (Z.to_nat (RAMDISK_FNAME_SIZE - 1)) img inode name;
      if (eq : bool) then Ret (Some inode) else open_loop n' img (inode + sizeof_inode) name
  end.
Definition __ramdisk_open (img : bytes) (r : ramdisk) (name : bytes) : outcome (option Z) :=
  open_loop (Z.to_nat (rd_cnt r)) img (rd_root r) name.

(** The file's inode. *)
Definition ramdisk_open (img : bytes) (sb : option ramdisk) (name : bytes) : outcome (Z + Z) :=
  match sb with
  | None => Ret (inl (- ENOENT))
  | Some r => o ← __ramdisk_open img r name; Ret (match o with Some i => inr i | None => inl (- ENOENT) end)
  end.

Definition ramdisk_file_size (img : bytes) (inode : Z) : outcome Z := rd_le img (inode + 40) 8.
Definition ramdisk_file_base (img : bytes) (r : ramdisk) (inode : Z) : outcome Z := o ← rd_le img (inode + 32) 8; Ret (rd_data r + o).

(** What lands in [buf], and the result. *)
Definition ramdisk_read (img : bytes) (r : ramdisk) (inode size offset : Z) : outcome (bytes * Z) :=
  f_size ← ramdisk_file_size img inode;
  if f_size <? offset then Ret ([], 0)
  else if f_size <? u64 (offset + size) then Ret ([], 0)
  else
    base ← ramdisk_file_base img r inode;
    bs ← rd_bytes img (base + offset) (Z.to_nat size);
    Ret (bs, s32 size).

(** ** Lemmas on bytes and images *)

Lemma le_enc_length n v : length (le_enc n v) = n.
Proof. revert v. induction n as [|n IH]; intros v; cbn; [done|by rewrite IH]. Qed.
Lemma le_dec_enc n v : 0 <= v < 256 ^ Z.of_nat n -> le_dec (le_enc n v) = v.
Proof.
  revert v. induction n as [|n IH]; intros v Hv; cbn [le_enc le_dec]; [cbn in Hv; lia|].
  rewrite Nat2Z.inj_succ, Z.pow_succ_r in Hv by lia.
  rewrite IH; [pose proof (Z.div_mod v 256); lia|]. split; [apply Z.div_pos; lia|apply Z.div_lt_upper_bound; lia].
Qed.

(** [img] holds [bs] at offset [off]. *)
Definition has (img : bytes) (off : Z) (bs : bytes) : Prop :=
  0 <= off /\ forall j b, bs !! j = Some b -> img !! (Z.to_nat off + j)%nat = Some b.

Lemma has_cons img off b bs : has img off (b :: bs) -> rd img off = Ret b /\ has img (off + 1) bs.
Proof.
  intros [Ho H]. split.
  - apply rd_lookup; [done|]. rewrite <- (Nat.add_0_r (Z.to_nat off)). by apply H.
  - split; [lia|]. intros j c Hj. replace (Z.to_nat (off + 1) + j)%nat with (Z.to_nat off + S j)%nat by lia. by apply H.
Qed.
Lemma has_app img off a b : has img off (a ++ b) -> has img off a /\ has img (off + Z.of_nat (length a)) b.
Proof.
  intros [Ho H]. split; (split; [lia|]); intros j c Hj.
  - apply H. by apply lookup_app_l_Some.
  - replace (Z.to_nat (off + Z.of_nat (length a)) + j)%nat with (Z.to_nat off + (length a + j))%nat by lia.
    apply H. rewrite lookup_app_r by lia. by replace (length a + j - length a)%nat with j by lia.
Qed.
Lemma rd_bytes_has img off bs : has img off bs -> rd_bytes img off (length bs) = Ret bs.
Proof.
  revert off. induction bs as [|b bs IH]; intros off H; [done|]. apply has_cons in H as [Hr H].
  cbn [length rd_bytes]. rewrite Hr. cbn [mbind outcome_bind]. by rewrite IH.
Qed.
Lemma rd_le_has img off n v : 0 <= v < 256 ^ Z.of_nat n -> has img off (le_enc n v) -> rd_le img off n = Ret v.
Proof.
  intros Hv H. unfold rd_le. apply rd_bytes_has in H. rewrite le_enc_length in H. rewrite H. cbn. by rewrite le_dec_enc.
Qed.

Lemma strncmp_spec n img off s s' :
  (length s <= n)%nat -> (length s' <= n)%nat -> Forall (fun b => b <> 0) s -> Forall (fun b => b <> 0) s' ->
  has img off (s ++ [0]) -> strncmp_eq n img off s' = Ret (bool_decide (s = s')).
Proof.
  revert off s s'. induction n as [|n IH]; intros off s s' Hs Hs' Hn Hn' H.
  { destruct s, s'; simpl in *; lia || reflexivity. }
  cbn [strncmp_eq]. destruct s as [|c s]; cbn [app] in H; apply has_cons in H as [-> H]; cbn [mbind outcome_bind].
  - destruct s' as [|d s']; [by rewrite bool_decide_eq_true_2|]. apply Forall_cons in Hn' as [Hd _].
    rewrite (proj2 (Z.eqb_neq 0 d)) by lia. by rewrite bool_decide_eq_false_2.
  - apply Forall_cons in Hn as [Hc Hn]. destruct s' as [|d s'].
    { rewrite (proj2 (Z.eqb_neq c 0)) by lia. by rewrite bool_decide_eq_false_2. }
    apply Forall_cons in Hn' as [Hd Hn']. simpl in Hs, Hs'. destruct (Z.eqb_spec c d) as [->|Hne].
    + rewrite (IH (off + 1) s s') by (done || lia). f_equal. apply bool_decide_ext. naive_solver.
    + rewrite bool_decide_eq_false_2; [done|]. naive_solver.
Qed.

Lemma file_write_has f off bs : 0 <= off -> has (file_write f off bs) off bs.
Proof.
  intros Ho. split; [done|]. intros j b Hj. unfold file_write.
  assert (length (take (Z.to_nat off) (f ++ replicate (Z.to_nat off - length f) 0)) = Z.to_nat off) as Hl.
  { rewrite length_take, length_app, length_replicate. lia. }
  rewrite lookup_app_r by lia. rewrite Hl, lookup_app_l; [by replace (Z.to_nat off + j - Z.to_nat off)%nat with j by lia|].
  apply lookup_lt_Some in Hj. lia.
Qed.
Lemma file_write_keeps f off bs a xs :
  has f a xs -> a + Z.of_nat (length xs) <= off -> has (file_write f off bs) a xs.
Proof.
  intros [Ha H] Hle. split; [done|]. intros j b Hj. unfold file_write. pose proof (lookup_lt_Some _ _ _ Hj) as Hlt.
  pose proof (H j b Hj) as Hf. pose proof (lookup_lt_Some _ _ _ Hf). rewrite lookup_app_l.
  - rewrite lookup_take_lt by lia. by apply lookup_app_l_Some.
  - rewrite length_take, length_app, length_replicate. lia.
Qed.

(** [bs] lies at offset [a] of a block. *)
Definition in_block (m : Z -> Z) (a : Z) (bs : bytes) : Prop := forall j b, bs !! j = Some b -> m (a + Z.of_nat j) = b.

Lemma has_peek img off m n a bs :
  has img off (peek m n) -> in_block m a bs -> 0 <= a -> a + Z.of_nat (length bs) <= n -> has img (off + a) bs.
Proof.
  intros [Ho H] Hb Ha Hn. split; [lia|]. intros j b Hj. pose proof (lookup_lt_Some _ _ _ Hj).
  replace (Z.to_nat (off + a) + j)%nat with (Z.to_nat off + (Z.to_nat a + j))%nat by lia. apply H.
  unfold peek. rewrite list_lookup_fmap, lookup_seqZ_lt by lia. cbn. f_equal. rewrite <- (Hb j b Hj). f_equal. lia.
Qed.

Lemma poke_in m a bs : in_block (poke m a bs) a bs.
Proof.
  intros j b Hj. pose proof (lookup_lt_Some _ _ _ Hj). unfold poke.
  rewrite (proj2 (Z.leb_le _ _)), (proj2 (Z.ltb_lt _ _)) by lia. cbn [andb].
  replace (Z.to_nat (a + Z.of_nat j - a)) with j by lia. by apply nth_lookup_Some.
Qed.
Lemma poke_out m a bs x : x < a \/ a + Z.of_nat (length bs) <= x -> poke m a bs x = m x.
Proof.
  intros Hx. unfold poke. destruct (Z.leb_spec a x), (Z.ltb_spec x (a + Z.of_nat (length bs))); cbn [andb]; lia || done.
Qed.
Lemma in_block_poke m a bs c xs :
  in_block m a bs -> a + Z.of_nat (length bs) <= c \/ c + Z.of_nat (length xs) <= a -> in_block (poke m c xs) a bs.
Proof. intros H Hd j b Hj. pose proof (lookup_lt_Some _ _ _ Hj). rewrite poke_out by lia. by apply H. Qed.
Lemma in_block_app m a xs ys : in_block m a xs -> in_block m (a + Z.of_nat (length xs)) ys -> in_block m a (xs ++ ys).
Proof.
  intros Hx Hy j b [Hj|[Hle Hj]]%lookup_app_Some; [by apply Hx|].
  rewrite <- (Hy _ _ Hj). f_equal. lia.
Qed.

(** ** The tool *)

Lemma fill_loop_spec fuel b data n0 :
  (length data <= fuel)%nat -> Z.of_nat (length data) < mb_free b ->
  exists b', fill_loop fuel b data n0 = Ret (true, b', n0 + Z.of_nat (length data)) /\
    mb_size b' = mb_size b /\ mb_used b' = mb_used b + Z.of_nat (length data) /\ mb_free b' = mb_free b - Z.of_nat (length data) /\
    in_block (mb_mem b') (mb_used b) data /\ (forall x, x < mb_used b -> mb_mem b' x = mb_mem b x).
Proof.
  revert b data n0. induction fuel as [|fuel IH]; intros b data n0 Hf Hfree; cbn [fill_loop];
    rewrite (proj2 (Z.eqb_neq (mb_free b) 0)) by lia.
  - destruct data; [|simpl in Hf; lia]. rewrite take_nil. exists b. cbn. rewrite !Z.add_0_r, Z.sub_0_r. split_and!; try done.
  - set (n := if 4096 <? mb_free b then 4096 else mb_free b).
    assert (1 <= n <= mb_free b) as Hn by (unfold n; destruct (Z.ltb_spec 4096 (mb_free b)); lia).
    destruct data as [|c data]; [rewrite take_nil; exists b; cbn; rewrite !Z.add_0_r, Z.sub_0_r; by split_and!|].
    set (d := c :: data) in *. set (got := take (Z.to_nat n) d).
    assert (1 <= Z.of_nat (length got) <= Z.of_nat (length d)) as Hg by (unfold got; rewrite length_take; unfold d; cbn [length]; lia).
    rewrite (proj2 (Z.eqb_neq (Z.of_nat (length got)) 0)) by lia.
    assert (length got + length (drop (Z.to_nat n) d) = length d)%nat as Hlen by (rewrite <- length_app; unfold got; by rewrite take_drop).
    destruct (IH (mkBlock (mb_size b) (mb_used b + Z.of_nat (length got)) (mb_free b - Z.of_nat (length got)) (poke (mb_mem b) (mb_used b) got))
      (drop (Z.to_nat n) d) (n0 + Z.of_nat (length got))) as (b' & -> & Hs & Hu & Hfr & Hin & Hout); [lia|cbn; lia|].
    cbn [mb_used mb_free mb_size mb_mem] in *. exists b'. split; [do 2 f_equal; lia|]. split; [done|]. split; [lia|]. split; [lia|]. split.
    + rewrite <- (take_drop (Z.to_nat n) d). apply in_block_app; [|done]. fold got.
      intros j y Hj. pose proof (lookup_lt_Some _ _ _ Hj). rewrite Hout by lia. by apply poke_in.
    + intros x Hx. rewrite Hout by lia. apply poke_out. lia.
Qed.

Definition padded (n : Z) : Z := align_up n 4096.
Lemma padded_bounds n : 0 <= n < 2 ^ 32 -> n <= padded n < n + 4096.
Proof. intros. unfold padded. change 4096 with (2 ^ 12). pose proof (align_up_bounds n 12). lia. Qed.

Abbreviation files := (list (bytes * bytes)).
Definition data_len (f : bytes * bytes) : Z := Z.of_nat (length (f.2)).
Fixpoint total (fs : files) : Z := match fs with [] => 0 | f :: fs' => padded (data_len f) + total fs' end.
Lemma total_app a b : total (a ++ b) = total a + total b.
Proof. induction a as [|f a IH]; cbn; [done|rewrite IH; lia]. Qed.

(** A file that can be packed. *)
Definition file_ok (f : bytes * bytes) : Prop := (length f.1 <= 31)%nat /\ Forall (fun b => b <> 0) f.1 /\ data_len f < 2 ^ 32.
Lemma total_nonneg fs : Forall file_ok fs -> 0 <= total fs.
Proof. induction 1 as [|f fs [_ [_ Hf]] _ IH]; cbn; [lia|]. pose proof (padded_bounds (data_len f)). unfold data_len in *. lia. Qed.

(** Inode [k] and its data. *)
Definition inode_at (m : Z -> Z) (k : Z) (f : bytes * bytes) (off : Z) : Prop :=
  in_block m (48 * k) (f.1 ++ [0]) /\ in_block m (48 * k + 32) (le_enc 8 off) /\ in_block m (48 * k + 40) (le_enc 8 (data_len f)).

(** The two blocks hold the files [fs]. *)
Record packed (st : mkrmd_state) (fs : files) : Prop := {
  pk_imem : mb_used (imem st) = 48 * Z.of_nat (length fs) /\ mb_free (imem st) = IMEM_BLOCK_SIZE - 48 * Z.of_nat (length fs);
  pk_fmem : mb_used (fmem st) = total fs /\ mb_free (fmem st) = FMEM_BLOCK_SIZE - total fs;
  pk_cnt : file_cnt (superblk st) = Z.of_nat (length fs);
  pk_files : forall k f, fs !! k = Some f ->
    inode_at (mb_mem (imem st)) (Z.of_nat k) f (total (take k fs)) /\ in_block (mb_mem (fmem st)) (total (take k fs)) f.2;
}.

Lemma inode_at_poke m k f off c xs :
  inode_at m k f off -> file_ok f -> 48 * (k + 1) <= c -> inode_at (poke m c xs) k f off.
Proof.
  intros (Hn & Ho & Hs) [Hl _] Hc. split_and!; apply in_block_poke; try done; left; rewrite ?le_enc_length, ?length_app; cbn; lia.
Qed.

(** A new inode: the offset, the name, and later the size. *)
Lemma inode_at_new m a f off :
  file_ok f -> inode_at (poke (poke (poke m (48 * a + 32) (le_enc 8 off)) (48 * a) (f.1 ++ [0])) (48 * a + 40) (le_enc 8 (data_len f))) a f off.
Proof.
  intros [Hl _]. split_and!.
  - apply in_block_poke; [apply poke_in|]. left. rewrite length_app. cbn. lia.
  - apply in_block_poke; [|left; rewrite le_enc_length; lia]. apply in_block_poke; [apply poke_in|]. right. rewrite length_app. cbn. lia.
  - apply poke_in.
Qed.

Lemma add_file_spec st fs name data :
  packed st fs -> Forall file_ok fs -> file_ok (name, data) -> 48 * (Z.of_nat (length fs) + 1) <= IMEM_BLOCK_SIZE ->
  total (fs ++ [(name, data)]) < FMEM_BLOCK_SIZE ->
  exists st', __add_file st data name = Ret (0, st') /\ packed st' (fs ++ [(name, data)]).
Proof.
  intros [[Hiu Hif] [Hfu Hff] Hcnt Hfiles] Hok Hnew Hroom Htot. rewrite total_app in Htot. cbn [total] in Htot.
  unfold IMEM_BLOCK_SIZE, FMEM_BLOCK_SIZE in *. set (f := (name, data)) in *. pose proof Hnew as (Hl & _ & Hd).
  pose proof (padded_bounds (data_len f)) as Hpad. pose proof (total_nonneg fs Hok).
  assert (data_len f = Z.of_nat (length data)) as Hdl by done. rewrite Hdl in Hpad, Hd, Htot. change (f.1) with name in *.
  unfold __add_file. rewrite (proj2 (Z.ltb_ge _ _)) by (unfold sizeof_inode; lia).
  destruct (fill_loop_spec (length data) (fmem st) data 0) as (b & -> & Hs & Hu & Hfr & Hin & Hout); [lia|lia|].
  cbn [mbind outcome_bind negb]. rewrite Z.add_0_l. fold (padded (Z.of_nat (length data))).
  set (pad := padded (Z.of_nat (length data)) - Z.of_nat (length data)).
  eexists. split; [reflexivity|].
  constructor; cbn [imem fmem superblk mb_used mb_free mb_mem file_cnt].
  - rewrite length_app. cbn [length]. unfold sizeof_inode, IMEM_BLOCK_SIZE. lia.
  - rewrite total_app. cbn [total]. rewrite Hdl. unfold FMEM_BLOCK_SIZE. destruct (Z.ltb_spec 0 pad); cbn [mb_used mb_free]; [rewrite u64_small|]; unfold pad in *; lia.
  - rewrite length_app. cbn [length]. rewrite Hcnt, u32_small; lia.
  - intros k g Hk. assert (forall m' : mem_block, (m' = b \/ exists xs, mb_mem m' = poke (mb_mem b) (mb_used b) xs) ->
      (forall a bs, in_block (mb_mem b) a bs -> a + Z.of_nat (length bs) <= mb_used b -> in_block (mb_mem m') a bs)) as Hpoke.
    { intros m' [->|[xs Hxs]] a bs Ha Hle; [done|]. rewrite Hxs. apply in_block_poke; [done|by left]. }
    apply lookup_app_Some in Hk as [Hk|[Hle Hk]].
    + pose proof (lookup_lt_Some _ _ _ Hk). rewrite take_app_le by lia. destruct (Hfiles k g Hk) as [Hino Hda].
      pose proof (proj1 (Forall_lookup _ _) Hok k g Hk) as Hg.
      assert (total (take k fs) + data_len g <= total fs) as Hsum.
      { rewrite <- (take_drop_middle fs k g Hk) at 2. rewrite total_app. cbn [total].
        pose proof (total_nonneg _ (Forall_drop _ (S k) _ Hok)). destruct Hg as (_ & _ & ?).
        assert (data_len g <= padded (data_len g)) by (apply padded_bounds; unfold data_len in *; lia). lia. }
      split.
      * rewrite Hiu. replace (48 * Z.of_nat (length fs) + 32) with (48 * Z.of_nat (length fs) + 32) by lia.
        repeat (apply inode_at_poke; [|done|lia]). done.
      * apply Hpoke; [destruct (0 <? pad); [right; by eexists|by left]| |unfold data_len in Hsum; lia].
        intros j y Hj. pose proof (lookup_lt_Some _ _ _ Hj). rewrite Hout by (unfold data_len in Hsum; lia). by apply Hda.
    + assert (k = length fs) as -> by (apply lookup_lt_Some in Hk; simpl in Hk; lia).
      rewrite Nat.sub_diag in Hk. injection Hk as <-. rewrite take_app_length, Hiu, <- Hfu. split.
      * by apply inode_at_new.
      * apply Hpoke; [destruct (0 <? pad); [right; by eexists|by left]|done|]. rewrite Hu. unfold f. cbn [snd]. lia.
Qed.

Lemma strip_prefix_app pre s : strip_prefix pre (pre ++ s) = Some s.
Proof. induction pre as [|c pre IH]; cbn; [done|by rewrite Z.eqb_refl]. Qed.

Lemma make_files_spec fs st pre want :
  (forall f, f ∈ want -> fs (out_ramdisk ++ f.1) = Some f.2) -> Forall file_ok (pre ++ want) -> packed st pre ->
  48 * Z.of_nat (length (pre ++ want)) <= IMEM_BLOCK_SIZE -> total (pre ++ want) < FMEM_BLOCK_SIZE ->
  exists st', make_ramdisk_files fs st ((fun f => out_ramdisk ++ f.1) <$> want) = Ret (0, st') /\ packed st' (pre ++ want).
Proof.
  revert st pre. induction want as [|[name data] want IH]; intros st pre Hfs Hok Hp Hi Ht.
  - exists st. rewrite app_nil_r. done.
  - cbn [fmap list_fmap make_ramdisk_files]. unfold add_file at 1.
    rewrite (Hfs (name, data)) by left. unfold clean_file_name. rewrite strip_prefix_app. cbn [mbind outcome_bind fst snd].
    replace (pre ++ (name, data) :: want) with ((pre ++ [(name, data)]) ++ want) in * by (by rewrite <- app_assoc).
    apply Forall_app in Hok as [Hok1 Hok2]. rewrite total_app in Ht. pose proof (total_nonneg _ Hok2). rewrite !length_app in Hi. cbn in Hi.
    pose proof Hok1 as [Hok0 Hok3]%Forall_app. apply (proj1 (Forall_singleton _ _)) in Hok3.
    destruct (add_file_spec st pre name data Hp Hok0 Hok3) as (st1 & -> & Hp1); [lia|lia|]. cbn [Z.eqb negb].
    apply IH; [intros f Hf; apply Hfs; by right|by apply Forall_app|done|rewrite !length_app; cbn; lia|by rewrite total_app].
Qed.

(** ** The readers on an image *)

(** The image describes the files [fs] through [r]. *)
Record disk (img : bytes) (r : ramdisk) (fs : files) : Prop := {
  dk_cnt : rd_cnt r = Z.of_nat (length fs);
  dk_ok : Forall file_ok fs;
  dk_file : forall k f, fs !! k = Some f ->
    let ino := rd_root r + 48 * Z.of_nat k in
    let off := total (take k fs) in
    has img ino (f.1 ++ [0]) /\ has img (ino + 32) (le_enc 8 off) /\ has img (ino + 40) (le_enc 8 (data_len f)) /\
    has img (rd_data r + off) f.2 /\ 0 <= off < 2 ^ 32;
}.

Lemma open_loop_spec img r fs name :
  disk img r fs -> (length name <= 31)%nat -> Forall (fun b => b <> 0) name ->
  forall n k, (k + n = length fs)%nat -> (forall j f, (j < k)%nat -> fs !! j = Some f -> f.1 <> name) ->
  exists o, open_loop n img (rd_root r + 48 * Z.of_nat k) name = Ret o /\
    match o with
    | Some i => exists j f, fs !! j = Some f /\ f.1 = name /\ i = rd_root r + 48 * Z.of_nat j
    | None => forall f, f ∈ fs -> f.1 <> name
    end.
Proof.
  intros Hd Hl Hnz n. induction n as [|n IH]; intros k Hk Hno.
  { exists None. split; [done|]. intros f [j Hj]%list_elem_of_lookup_1. apply (Hno j); [|done]. pose proof (lookup_lt_Some _ _ _ Hj). lia. }
  destruct (lookup_lt_is_Some_2 fs k) as [f Hf]; [lia|]. destruct (dk_file _ _ _ Hd k f Hf) as (Hname & _).
  pose proof (proj1 (Forall_lookup _ _) (dk_ok _ _ _ Hd) k f Hf) as (Hfl & Hfnz & _).
  cbn [open_loop]. change (Z.to_nat (RAMDISK_FNAME_SIZE - 1)) with 31%nat. rewrite (strncmp_spec 31 img _ f.1 name Hfl Hl Hfnz Hnz Hname).
  cbn [mbind outcome_bind]. case_bool_decide as He.
  - eexists. split; [done|]. by exists k, f.
  - unfold sizeof_inode. replace (rd_root r + 48 * Z.of_nat k + 48) with (rd_root r + 48 * Z.of_nat (S k)) by lia.
    apply IH; [lia|]. intros j g Hj Hg. destruct (decide (j = k)) as [->|]; [by simplify_eq|apply (Hno j g); [lia|done]].
Qed.

(** Only the first 31 characters of a name count. *)
Lemma strncmp_take n img off s : strncmp_eq n img off (take n s) = strncmp_eq n img off s.
Proof.
  revert off s. induction n as [|n IH]; intros off s; [done|]. cbn [strncmp_eq]. destruct s as [|d s]; [done|]. cbn [take].
  destruct (rd img off) as [c| | |]; try done. cbn [mbind outcome_bind]. by rewrite IH.
Qed.
Lemma ramdisk_open_take img sb name : ramdisk_open img sb (take 31 name) = ramdisk_open img sb name.
Proof.
  destruct sb as [r|]; [|done]. unfold ramdisk_open, __ramdisk_open. f_equal. generalize (rd_root r), (Z.to_nat (rd_cnt r)). intros i n. revert i.
  induction n as [|n IH]; intros i; [done|]. cbn [open_loop]. change (Z.to_nat (RAMDISK_FNAME_SIZE - 1)) with 31%nat. rewrite strncmp_take.
  destruct (strncmp_eq 31 img i name) as [b| | |]; try done. cbn [mbind outcome_bind]. by rewrite IH.
Qed.

Lemma ramdisk_read_spec img r fs k f size offset :
  disk img r fs -> fs !! k = Some f -> 0 <= offset -> 0 <= size -> offset + size < 2 ^ 64 -> data_len f < 2 ^ 31 ->
  ramdisk_read img r (rd_root r + 48 * Z.of_nat k) size offset =
    if data_len f <? offset + size then Ret ([], 0) else Ret (take (Z.to_nat size) (drop (Z.to_nat offset) f.2), size).
Proof.
  intros Hd Hf Ho Hs H64 H31. destruct (dk_file _ _ _ Hd k f Hf) as (_ & Hoff & Hsz & Hdata & Hr).
  assert (0 <= data_len f) by (unfold data_len; lia).
  unfold ramdisk_read, ramdisk_file_size. rewrite (rd_le_has _ _ 8 (data_len f)) by (done || lia). cbn [mbind outcome_bind].
  rewrite u64_small by lia. destruct (Z.ltb_spec (data_len f) offset); [by rewrite (proj2 (Z.ltb_lt _ _)) by lia|].
  destruct (Z.ltb_spec (data_len f) (offset + size)); [done|].
  unfold ramdisk_file_base. rewrite (rd_le_has _ _ 8 (total (take k fs))) by (done || lia). cbn [mbind outcome_bind].
  rewrite <- (take_drop (Z.to_nat offset) f.2) in Hdata. apply has_app in Hdata as [_ Hdata].
  rewrite <- (take_drop (Z.to_nat size) (drop (Z.to_nat offset) f.2)) in Hdata. apply has_app in Hdata as [Hdata _].
  assert (length (take (Z.to_nat offset) f.2) = Z.to_nat offset) as Hl1 by (rewrite length_take; unfold data_len in *; lia).
  assert (length (take (Z.to_nat size) (drop (Z.to_nat offset) f.2)) = Z.to_nat size) as Hl2.
  { rewrite length_take, length_drop. unfold data_len in *. lia. }
  rewrite Hl1, Z2Nat.id in Hdata by lia. apply rd_bytes_has in Hdata. rewrite Hl2 in Hdata. rewrite Hdata. cbn [mbind outcome_bind].
  by rewrite s32_small by lia.
Qed.

(** ** The image [pack_ramdisk] writes *)
Lemma pack_disk st fs old :
  packed st fs -> Forall file_ok fs -> 48 * Z.of_nat (length fs) <= IMEM_BLOCK_SIZE -> total fs < FMEM_BLOCK_SIZE ->
  exists img r, pack_ramdisk st old = (0, img) /\ disk img r fs /\ has img 0 RAMDISK_MAGIC /\
    has img 16 (le_enc 4 (rd_cnt r)) /\ has img 24 (le_enc 8 (rd_root r)) /\ has img 32 (le_enc 8 (rd_data r)) /\
    0 <= rd_root r < 2 ^ 32 /\ 0 <= rd_data r < 2 ^ 32.
Proof.
  intros [[Hiu Hif] [Hfu Hff] Hcnt Hfiles] Hok Hi Ht. unfold IMEM_BLOCK_SIZE, FMEM_BLOCK_SIZE in *. pose proof (total_nonneg _ Hok).
  unfold pack_ramdisk. change (Z.land (RAMDISK_MAGIC_SIZE + sizeof_sb + 15) (u64 (Z.lnot 15))) with 48. rewrite Hiu, Hfu, Hcnt.
  set (doff := Z.land _ _). assert (48 + 48 * Z.of_nat (length fs) <= doff < 48 + 48 * Z.of_nat (length fs) + 4096) as Hdoff.
  { change doff with (align_up (48 + 48 * Z.of_nat (length fs)) (2 ^ 12)). pose proof (align_up_bounds (48 + 48 * Z.of_nat (length fs)) 12). lia. }
  set (sb := mkSb _ _ _ _ _). set (f1 := file_write old 0 RAMDISK_MAGIC). set (f2 := file_write f1 16 (sb_bytes sb)).
  set (f3 := file_write f2 48 _). set (img := file_write f3 doff _).
  assert (forall n v, length (le_enc n v) = n) as Hle by apply le_enc_length.
  assert (length (sb_bytes sb) = 32%nat) as Hsbl by (unfold sb_bytes; rewrite !length_app, !Hle; lia).
  assert (has img 16 (sb_bytes sb)) as Hsb.
  { apply file_write_keeps; [|lia]. apply file_write_keeps; [|lia]. apply file_write_has. lia. }
  assert (has img 48 (peek (mb_mem (imem st)) (48 * Z.of_nat (length fs)))) as Hino.
  { apply file_write_keeps; [apply file_write_has; lia|]. unfold peek. rewrite length_fmap, length_seqZ. lia. }
  assert (has img doff (peek (mb_mem (fmem st)) (total fs))) as Hdat by (apply file_write_has; lia).
  unfold sb_bytes in Hsb. apply has_app in Hsb as [H4 Hsb]. rewrite Hle in Hsb. apply has_app in Hsb as [_ Hsb]. rewrite Hle in Hsb.
  apply has_app in Hsb as [H8 Hsb]. rewrite Hle in Hsb. apply has_app in Hsb as [H8' _].
  exists img, (mkRd 48 (Z.of_nat (length fs)) doff). split; [done|]. split_and!; try (cbn; done || lia).
  - constructor; [done|done|]. intros k f Hk. cbn [rd_root rd_data]. destruct (Hfiles k f Hk) as [(Hn & Ho & Hs) Hd].
    pose proof (lookup_lt_Some _ _ _ Hk). pose proof (proj1 (Forall_lookup _ _) Hok k f Hk) as (Hfl & _ & Hfd).
    assert (0 <= total (take k fs) /\ total (take k fs) + data_len f <= total fs) as Hsum.
    { split; [apply total_nonneg, Forall_take, Hok|]. rewrite <- (take_drop_middle fs k f Hk) at 2. rewrite total_app. cbn [total].
      pose proof (total_nonneg _ (Forall_drop _ (S k) _ Hok)).
      assert (data_len f <= padded (data_len f)) by (apply padded_bounds; unfold data_len in *; lia). lia. }
    split_and!; try lia.
    + apply (has_peek _ _ _ _ _ _ Hino); [done|lia|]. rewrite length_app. cbn. lia.
    + rewrite <- Z.add_assoc. apply (has_peek _ _ _ _ _ _ Hino); [done|lia|]. rewrite Hle. lia.
    + rewrite <- Z.add_assoc. apply (has_peek _ _ _ _ _ _ Hino); [done|lia|]. rewrite Hle. lia.
    + apply (has_peek _ _ _ _ _ _ Hdat); [done|lia|]. unfold data_len in *. lia.
    + unfold data_len in *. lia.
  - apply file_write_keeps; [|cbn; lia]. apply file_write_keeps; [|cbn; lia]. apply file_write_keeps; [|cbn; lia]. apply file_write_has. lia.
Qed.

(** The magic number has no terminator in its sixteen bytes. *)
Lemma strncmp_prefix n img off s : has img off s -> (n <= length s)%nat -> strncmp_eq n img off s = Ret true.
Proof.
  revert off s. induction n as [|n IH]; intros off s Hh Hn; [done|]. destruct s as [|c s]; [simpl in Hn; lia|].
  apply has_cons in Hh as [Hr Hh]. cbn [strncmp_eq]. rewrite Hr. cbn [mbind outcome_bind]. rewrite Z.eqb_refl. apply IH; [done|simpl in Hn; lia].
Qed.

Lemma ramdisk_init_disk base img cnt root data :
  page_aligned base = true -> has img 0 RAMDISK_MAGIC -> has img 16 (le_enc 4 cnt) -> has img 24 (le_enc 8 root) -> has img 32 (le_enc 8 data) ->
  0 <= cnt < 2 ^ 32 -> 0 <= root < 2 ^ 32 -> 0 <= data < 2 ^ 32 ->
  ramdisk_init base img = Ret (0, Some (mkRd root cnt data)).
Proof.
  intros Hb Hm H1 H2 H3 ? ? ?. unfold ramdisk_init. rewrite Hb. cbn [negb].
  rewrite (strncmp_prefix 16 img 0 _ Hm) by (simpl; lia). cbn [mbind outcome_bind negb].
  rewrite (rd_le_has img 16 4 cnt), (rd_le_has img 24 8 root), (rd_le_has img 32 8 data) by (done || lia). done.
Qed.

(** ** Reading the flash by words is reading it byte by byte *)
Lemma rd_bytes_app img off a b :
  rd_bytes img off (a + b) = (x ← rd_bytes img off a; y ← rd_bytes img (off + Z.of_nat a) b; Ret (x ++ y)).
Proof.
  revert off. induction a as [|a IH]; intros off; cbn [rd_bytes Nat.add].
  - rewrite Z.add_0_r. cbn [mbind outcome_bind]. by destruct (rd_bytes img off b).
  - destruct (rd img off) as [c| | |]; try done. cbn [mbind outcome_bind]. rewrite IH. replace (off + 1 + Z.of_nat a) with (off + Z.of_nat (S a)) by lia.
    destruct (rd_bytes img (off + 1) a); try done. cbn [mbind outcome_bind]. by destruct (rd_bytes img _ b).
Qed.

Lemma cfi_words_spec flash n offset size bs :
  offset mod 4 = 0 -> size / 4 = Z.of_nat n -> 0 <= size -> rd_bytes flash offset (4 * n) = Ret bs ->
  cfi_words flash n offset size = Ret (bs, offset + 4 * Z.of_nat n, size mod 4).
Proof.
  revert offset size bs. induction n as [|n IH]; intros offset size bs Ho Hn Hs Hr; cbn [cfi_words];
    pose proof (Z.div_mod size 4); pose proof (Z.mod_pos_bound size 4).
  - rewrite (proj2 (Z.leb_gt _ _)) by lia. cbn in Hr. injection Hr as <-. do 3 f_equal; lia.
  - rewrite (proj2 (Z.leb_le _ _)) by lia. replace (4 * S n)%nat with (4 + 4 * n)%nat in Hr by lia. rewrite rd_bytes_app in Hr.
    apply outcome_bind_Ret in Hr as (w & Hw & Hr). apply outcome_bind_Ret in Hr as (t & Ht & [= <-]).
    unfold CFI_GETW. replace (4 * (offset / 4)) with offset by (pose proof (Z.div_mod offset 4); lia). rewrite Hw. cbn [mbind outcome_bind].
    rewrite (IH (offset + 4) (size - 4) t); [cbn [mbind outcome_bind]|..].
    + do 2 f_equal; [f_equal; lia|]. rewrite <- (Z_mod_plus_full (size - 4) 1 4). f_equal. lia.
    + rewrite <- (Z_mod_plus_full (offset + 4) (-1) 4). replace (offset + 4 + -1 * 4) with offset by lia. done.
    + replace (size - 4) with (size + (-1) * 4) by lia. rewrite Z.div_add by lia. lia.
    + lia.
    + done.
Qed.

Lemma cfi_words_small flash n offset size : size < 4 -> cfi_words flash n offset size = Ret ([], offset, size).
Proof. intros H. destruct n; cbn [cfi_words]; by rewrite (proj2 (Z.leb_gt 4 size)) by lia. Qed.

Lemma cfi_tail_spec flash n offset size bs :
  rd_bytes flash offset (Z.to_nat size) = Ret bs -> 0 <= size <= Z.of_nat n -> cfi_tail flash n offset size = Ret (bs, offset + size, 0).
Proof.
  revert offset size bs. induction n as [|n IH]; intros offset size bs Hr Hs; cbn [cfi_tail].
  - assert (size = 0) as -> by lia. injection Hr as <-. by rewrite Z.add_0_r.
  - destruct (Z.ltb_spec 0 size) as [Hp|Hp].
    + replace (Z.to_nat size) with (S (Z.to_nat (size - 1))) in Hr by lia. cbn [rd_bytes] in Hr.
      apply outcome_bind_Ret in Hr as (b & Hb & Hr). apply outcome_bind_Ret in Hr as (r & Hr & [= <-]).
      unfold CFI_GETB. rewrite Hb. cbn [mbind outcome_bind]. rewrite (IH (offset + 1) (size - 1) r Hr) by lia. cbn [mbind outcome_bind].
      do 3 f_equal. lia.
    + assert (size = 0) as -> by lia. injection Hr as <-. by rewrite Z.add_0_r.
Qed.
Lemma cfi_head_spec flash n offset walign size bs h :
  h = Z.min size (walign - offset) -> 0 <= h -> walign - offset <= Z.of_nat n -> rd_bytes flash offset (Z.to_nat h) = Ret bs ->
  cfi_head flash n offset walign size = Ret (bs, offset + h, size - h).
Proof.
  revert offset size bs h. induction n as [|n IH]; intros offset size bs h Hh Hpos Hn Hr; cbn [cfi_head];
    destruct (Z.ltb_spec 0 size), (Z.ltb_spec offset walign); cbn [andb]; try lia;
    try (assert (h = 0) as -> by lia; cbn in Hr; injection Hr as <-; by rewrite Z.add_0_r, Z.sub_0_r).
  replace (Z.to_nat h) with (S (Z.to_nat (h - 1))) in Hr by lia. cbn [rd_bytes] in Hr.
  apply outcome_bind_Ret in Hr as (b & Hb & Hr). apply outcome_bind_Ret in Hr as (t & Ht & [= <-]).
  unfold CFI_GETB. rewrite Hb. cbn [mbind outcome_bind]. rewrite (IH (offset + 1) (size - 1) t (h - 1)) by (done || lia).
  cbn [mbind outcome_bind]. replace (offset + 1 + (h - 1)) with (offset + h) by lia. by replace (size - 1 - (h - 1)) with (size - h) by lia.
Qed.

Lemma align4 offset : 0 <= offset < 2 ^ 63 -> offset <= align_up offset 4 < offset + 4 /\ align_up offset 4 mod 4 = 0.
Proof. intros. change 4 with (2 ^ 2) at 1 3 5. pose proof (align_up_bounds offset 2) as H'. change (2 ^ 2) with 4 in *. lia. Qed.

(** ** Properties *)

(** C15: what [mkrmd] packs, the readers give back.  From files with distinct
    names of at most 31 characters that fit the tool's two blocks, whatever
    [malloc] returned and the output file held before, the tool writes an
    image that passes the format check.  A name is looked up by its first 31
    characters, so every file is found by its name, and one with a name of 31
    characters also by any longer name that starts with it; any range inside a
    found file reads as its contents and a range that ends behind it reads as
    nothing.  Every name whose first 31 characters are no file's name is
    answered with [-ENOENT]. *)
Theorem ramdisk_roundtrip (im fm : Z -> Z) (fs : bytes -> option bytes) (old : bytes) (want : files) (base : Z)
  (Hfs : forall f, f ∈ want -> fs (out_ramdisk ++ f.1) = Some f.2) (Hok : Forall file_ok want) (Hdup : NoDup want.*1)
  (Hi : 48 * Z.of_nat (length want) <= IMEM_BLOCK_SIZE) (Ht : total want < FMEM_BLOCK_SIZE) (Hb : page_aligned base = true) :
  exists st img r, make_ramdisk_files fs (mem_block_init im fm) ((fun f => out_ramdisk ++ f.1) <$> want) = Ret (0, st) /\
    pack_ramdisk st old = (0, img) /\ ramdisk_init base img = Ret (0, Some r) /\
    (forall name data, (take 31 name, data) ∈ want -> exists ino, ramdisk_open img (Some r) name = Ret (inr ino) /\
       forall offset size, 0 <= offset -> 0 <= size -> offset + size < 2 ^ 64 ->
         ramdisk_read img r ino size offset =
           if Z.of_nat (length data) <? offset + size then Ret ([], 0)
           else Ret (take (Z.to_nat size) (drop (Z.to_nat offset) data), size)) /\
    (forall name, Forall (fun b => b <> 0) name -> take 31 name ∉ want.*1 ->
       ramdisk_open img (Some r) name = Ret (inl (- ENOENT))).
Proof.
  assert (packed (mem_block_init im fm) []) as Hp0 by (constructor; [done|done|done|by intros]).
  destruct (make_files_spec fs _ [] want Hfs Hok Hp0 Hi Ht) as (st & Hmake & Hp). cbn [app] in *.
  destruct (pack_disk st want old Hp Hok Hi Ht) as (img & r & Hpack & Hd & Hm & H1 & H2 & H3 & ? & ?).
  unfold IMEM_BLOCK_SIZE, FMEM_BLOCK_SIZE in *. pose proof (dk_cnt _ _ _ Hd) as Hcnt.
  exists st, img, r. split; [done|]. split; [done|]. split.
  { rewrite (ramdisk_init_disk base img (rd_cnt r) (rd_root r) (rd_data r)) by (done || lia). by destruct r. }
  assert (forall name, (length name <= 31)%nat -> Forall (fun b => b <> 0) name -> exists o,
    ramdisk_open img (Some r) name = Ret (match o with Some i => inr i | None => inl (- ENOENT) end) /\
    match o with Some i => exists j f, want !! j = Some f /\ f.1 = name /\ i = rd_root r + 48 * Z.of_nat j
               | None => forall f, f ∈ want -> f.1 <> name end) as Hopen.
  { intros name Hl Hnz. destruct (open_loop_spec img r want name Hd Hl Hnz (length want) 0) as (o & Ho & Hpost); [lia|lia|].
    exists o. split; [|done]. unfold ramdisk_open, __ramdisk_open. rewrite Hcnt, Nat2Z.id.
    rewrite Z.mul_0_r, Z.add_0_r in Ho. rewrite Ho. done. }
  split.
  - intros name0 data. setoid_rewrite <- ramdisk_open_take. generalize (take 31 name0). clear name0. intros name Hin.
    pose proof (proj1 (Forall_forall _ _) Hok _ Hin) as (Hl & Hnz & Hlen).
    destruct (Hopen name Hl Hnz) as ([i|] & Ho & Hpost); [|by destruct (Hpost _ Hin)].
    destruct Hpost as (j & f & Hj & Hname & ->). assert (f = (name, data)) as ->.
    { apply list_elem_of_lookup_1 in Hin as [j' Hj']. 
      assert (j = j') as <-; [|congruence]. apply (NoDup_lookup (want.*1) j j' name Hdup); rewrite list_lookup_fmap; [rewrite Hj|rewrite Hj']; cbn; by f_equal. }
    exists (rd_root r + 48 * Z.of_nat j). split; [done|]. intros offset size ? ? ?.
    apply (ramdisk_read_spec img r want j (name, data)); [done|done|done|done|done|].
    pose proof (total_nonneg _ (Forall_take _ j _ Hok)). pose proof (total_nonneg _ (Forall_drop _ (S j) _ Hok)).
    rewrite <- (take_drop_middle want j _ Hj), total_app in Ht. cbn [total] in Ht.
    assert (data_len (name, data) <= padded (data_len (name, data))) by (apply padded_bounds; unfold data_len in *; lia). lia.
  - intros name Hnz Hnot. rewrite <- ramdisk_open_take. destruct (Hopen (take 31 name)) as ([i|] & Ho & Hpost); [rewrite length_take; lia|by apply Forall_take| |done].
    destruct Hpost as (j & f & Hj & Hfn & _). rewrite <- Hfn in Hnot. destruct Hnot. apply list_elem_of_fmap. exists f. split; [done|]. by eapply list_elem_of_lookup_2.
Qed.

Lemma ramdisk_roundtrip_witness :
  exists st img r, make_ramdisk_files (fun p => if bool_decide (p = out_ramdisk ++ [97]) then Some [1; 2; 3] else Some [])
      (mem_block_init (fun _ => 7) (fun _ => 9)) [out_ramdisk ++ [97]; out_ramdisk ++ [98]] = Ret (0, st) /\
    pack_ramdisk st [] = (0, img) /\ exists ino, ramdisk_open img (Some r) [97] = Ret (inr ino) /\
    ramdisk_read img r ino 2 1 = Ret ([2; 3], 2).
Proof.
  destruct (ramdisk_roundtrip (fun _ => 7) (fun _ => 9) (fun p => if bool_decide (p = out_ramdisk ++ [97]) then Some [1; 2; 3] else Some [])
    [] [([97], [1; 2; 3]); ([98], [])] 4096) as (st & img & r & Hm & Hp & _ & Hf & _).
  - intros f Hf. repeat (apply elem_of_cons in Hf as [->|Hf]; [reflexivity|]). apply elem_of_nil in Hf. destruct Hf.
  - repeat constructor; simpl; lia.
  - apply (bool_decide_unpack _). vm_compute. exact I.
  - vm_compute. discriminate.
  - vm_compute. reflexivity.
  - reflexivity.
  - exists st, img, r. split; [exact Hm|]. split; [exact Hp|].
    destruct (Hf [97] [1; 2; 3] ltac:(left)) as (ino & Ho & Hr). exists ino. split; [exact Ho|]. apply (Hr 1 2); lia.
Defined.

(** [cfi_read], which reads whole words where it can, copies the same
    bytes as reading the flash byte by byte, for every offset and size that
    stay inside the flash; what it returns is the count left, always 0. *)
Theorem cfi_read_exact (flash : bytes) (offset size : Z) (Ho : 0 <= offset < 2 ^ 63) (Hs : 0 <= size)
  (Hin : offset + size <= Z.of_nat (length flash)) :
  cfi_read flash offset size = Ret (take (Z.to_nat size) (drop (Z.to_nat offset) flash), 0).
Proof.
  set (want := take (Z.to_nat size) (drop (Z.to_nat offset) flash)).
  assert (length want = Z.to_nat size) as Hl by (unfold want; rewrite length_take, length_drop; lia).
  assert (rd_bytes flash offset (Z.to_nat size) = Ret want) as Hr.
  { rewrite <- Hl. apply rd_bytes_has. split; [lia|]. intros j b Hj. unfold want in Hj. apply lookup_take_Some in Hj as [Hj _].
    by rewrite lookup_drop in Hj. }
  clearbody want. clear Hl Hin. destruct (align4 offset Ho) as [Ha Hm]. unfold cfi_read. set (w := align_up offset 4) in *.
  set (h := Z.min size (w - offset)). assert (0 <= h) by lia. replace (Z.to_nat size) with (Z.to_nat h + Z.to_nat (size - h))%nat in Hr by lia.
  rewrite rd_bytes_app in Hr. apply outcome_bind_Ret in Hr as (a & Ha' & Hr). apply outcome_bind_Ret in Hr as (t & Ht & [= <-]).
  rewrite (cfi_head_spec flash 4 offset w size a h) by (done || lia). cbn [mbind outcome_bind]. rewrite Z2Nat.id in Ht by lia.
  destruct (Z.lt_ge_cases (size - h) 4) as [Hlt|Hge].
  - rewrite cfi_words_small by done. cbn [mbind outcome_bind]. rewrite (cfi_tail_spec flash 3 _ _ t Ht) by lia. done.
  - assert (offset + h = w) as Hw by lia. rewrite Hw in *. pose proof (Z.div_mod (size - h) 4). pose proof (Z.mod_pos_bound (size - h) 4).
    assert (0 <= (size - h) / 4) by (apply Z.div_pos; lia).
    replace (Z.to_nat (size - h)) with (4 * Z.to_nat ((size - h) / 4) + Z.to_nat ((size - h) mod 4))%nat in Ht by lia. rewrite rd_bytes_app in Ht.
    apply outcome_bind_Ret in Ht as (x & Hx & Ht). apply outcome_bind_Ret in Ht as (y & Hy & [= <-]).
    rewrite (cfi_words_spec flash (Z.to_nat ((size - h) / 4)) w (size - h) x) by (done || lia). cbn [mbind outcome_bind].
    replace (w + 4 * Z.of_nat (Z.to_nat ((size - h) / 4))) with (w + Z.of_nat (4 * Z.to_nat ((size - h) / 4))) by lia.
    replace (size - h - 4 * Z.of_nat (Z.to_nat ((size - h) / 4))) with ((size - h) mod 4) by lia. rewrite (cfi_tail_spec flash 3 _ _ y Hy) by lia. done.
Qed.

Lemma cfi_read_exact_witness : cfi_read (seqZ 10 20) 3 9 = Ret (seqZ 13 9, 0).
Proof.
  rewrite (cfi_read_exact (seqZ 10 20) 3 9).
  - reflexivity.
  - lia.
  - lia.
  - rewrite length_seqZ. lia.
Defined.
