(* ===== verification/Strtol.v ===== *)
(** * Number parsing (ukern/src/strtol.c, inc/ctype.h)

    A string is the list of its bytes with its terminating 0; the rest a
    function returns is what its [endptr] points to.  Plain [char] is unsigned
    on this target. *)
From S2P Require Import Prelude.

Definition is_space (c : Z) : bool := (c =? 32) || (u32 (c - 9) <? 5).

(** Digits and letters of either case. *)
Definition digit_of (c : Z) : option Z :=
  if (48 <=? c) && (c <=? 57) then Some (c - 48)
  else if (97 <=? c) && (c <=? 122) then Some (c - 97 + 10)
  else if (65 <=? c) && (c <=? 90) then Some (c - 65 + 10)
  else None.

Definition peek_at (s : list Z) (i : nat) : outcome Z := match s !! i with Some c => Ret c | None => Fault end.

(** ** strtol *)

(** Only blanks and tabs are skipped. *)
Fixpoint skip_blanks (s : list Z) : outcome (list Z) :=
  match s with
  | [] => Fault
  | c :: s' => if (c =? 32) || (c =? 9) then skip_blanks s' else Ret s
  end.

(** [long] arithmetic wraps. *)
Fixpoint strtol_digits (s : list Z) (val base : Z) : outcome (Z * list Z) :=
  match s with
  | [] => Fault
  | c :: s' =>
      match digit_of c with
      | Some dig => if base <=? dig then Ret (val, s) else strtol_digits s' (s64 (s64 (val * base) + dig)) base
      | None => Ret (val, s)
      end
  end.

(** The hex or octal prefix, which may also fix the base. *)
Definition strtol_prefix (s : list Z) (base : Z) : outcome (list Z * Z) :=
  c0 ← peek_at s 0;
  c1 ← (if ((base =? 0) || (base =? 16)) && (c0 =? 48) then peek_at s 1 else Ret 0);
  Ret (if ((base =? 0) || (base =? 16)) && ((c0 =? 48) && (c1 =? 120)) then (drop 2 s, 16)
       else if (base =? 0) && (c0 =? 48) then (drop 1 s, 8)
       else if base =? 0 then (s, 10)
       else (s, base)).

Definition strtol (s : list Z) (base : Z) : outcome (Z * list Z) :=
  s ← skip_blanks s;
  c ← peek_at s 0;
  let '(neg, s) := if c =? 43 then (false, drop 1 s) else if c =? 45 then (true, drop 1 s) else (false, s) in
  '(s, base) ← strtol_prefix s base;
  '(val, s) ← strtol_digits s 0 base;
  Ret (if (neg : bool) then s64 (- val) else val, s).

(** ** strtoul *)
Definition ULONG_MAX : Z := 2 ^ 64 - 1.

(** [do { c = *s++; } while (isspace(c))]: the character and what follows. *)
Fixpoint skip_spaces (s : list Z) : outcome (Z * list Z) :=
  match s with
  | [] => Fault
  | c :: s' => if is_space c then skip_spaces s' else Ret (c, s')
  end.
Definition next_char (s : list Z) : outcome (Z * list Z) := match s with [] => Fault | c :: s' => Ret (c, s') end.

Definition hex_digit (c : Z) : bool := (48 <=? c) && (c <=? 57) || (65 <=? c) && (c <=? 70) || (97 <=? c) && (c <=? 102).

(** The [for] loop: [c] is the current character and [s] what follows; the
    accumulator, [any], and the text from the character that stopped it. *)
Fixpoint strtoul_loop (s : list Z) (c acc any base : Z) : outcome (Z * Z * list Z) :=
  match digit_of c with
  | None => Ret (acc, any, c :: s)
  | Some d =>
      if base <=? d then Ret (acc, any, c :: s)
      else
        let cutoff := ULONG_MAX / base in
        let cutlim := ULONG_MAX mod base in
        let '(acc, any) :=
          if (any <? 0) || (cutoff <? acc) || (acc =? cutoff) && (cutlim <? d) then (acc, -1)
          else (u64 (u64 (acc * base) + d), 1) in
        match s with [] => Fault | c' :: s' => strtoul_loop s' c' acc any base end
  end.

(** The sign: whether it was a minus, and the next character. *)
Definition strtoul_sign (c : Z) (s : list Z) : outcome (bool * Z * list Z) :=
  if c =? 45 then '(c, s) ← next_char s; Ret (true, c, s)
  else if c =? 43 then '(c, s) ← next_char s; Ret (false, c, s)
  else Ret (false, c, s).

(** A 0x prefix counts only before a hex digit. *)
Definition strtoul_prefix (c : Z) (s : list Z) (base : Z) : outcome (Z * list Z * Z) :=
  x ← (if ((base =? 0) || (base =? 16)) && (c =? 48) then peek_at s 0 else Ret 0);
  h ← (if (x =? 120) || (x =? 88) then peek_at s 1 else Ret 0);
  let '(c, s, base) := if ((x =? 120) || (x =? 88)) && hex_digit h then (h, drop 2 s, 16) else (c, s, base) in
  Ret (c, s, if base =? 0 then (if c =? 48 then 8 else 10) else base).

Definition strtoul (nptr : list Z) (base : Z) : outcome (Z * list Z) :=
  '(c, s) ← skip_spaces nptr;
  '(neg, c, s) ← strtoul_sign c s;
  '(c, s, base) ← strtoul_prefix c s base;
  if (base <? 2) || (36 <? base) then Ret (0, nptr)
  else
    '(acc, any, rest) ← strtoul_loop s c 0 0 base;
    let acc := if any <? 0 then ULONG_MAX else if any =? 0 then acc else if (neg : bool) then u64 (- acc) else acc in
    Ret (acc, if any =? 0 then nptr else rest).

(** ** Numerals *)

(** The number the digits [ds] denote, continuing from [v]. *)
Definition value_from (base : Z) (v : Z) (ds : list Z) : Z := foldl (fun v d => v * base + d) v ds.
Definition value (base : Z) (ds : list Z) : Z := value_from base 0 ds.

(** [cs] spells [ds], digits of [base]; [t] cannot continue the numeral. *)
Definition spells (base : Z) (cs ds : list Z) : Prop := Forall2 (fun c d => digit_of c = Some d /\ d < base) cs ds.
Definition stops (base t : Z) : Prop := match digit_of t with Some d => base <= d | None => True end.

Lemma digit_range c d : digit_of c = Some d -> 0 <= d < 36 /\ 48 <= c <= 122.
Proof.
  unfold digit_of. destruct (Z.leb_spec 48 c), (Z.leb_spec c 57), (Z.leb_spec 97 c), (Z.leb_spec c 122), (Z.leb_spec 65 c), (Z.leb_spec c 90);
    cbn [andb]; intros [= <-]; lia.
Qed.

Lemma s64_step v base d : s64 (s64 (s64 v * base) + d) = s64 (v * base + d).
Proof.
  unfold wraps. set (m := 2 ^ 64). set (h := 2 ^ (64 - 1)). f_equal.
  assert (forall a b, (((a + h) mod m - h) * b + d + h) mod m = (a * b + d + h) mod m) as Hm.
  { intros a b. replace (((a + h) mod m - h) * b + d + h) with ((a + h) mod m * b + (d + h - h * b)) by lia.
    rewrite Zplus_mod, Zmult_mod_idemp_l, <- Zplus_mod. f_equal. lia. }
  pose proof (Hm (((v + h) mod m - h) * base) 1) as H1. rewrite !Z.mul_1_r in H1. rewrite H1. apply Hm.
Qed.

Lemma strtol_digits_spec base cs ds v t rest :
  spells base cs ds -> stops base t ->
  strtol_digits (cs ++ t :: rest) (s64 v) base = Ret (s64 (value_from base v ds), t :: rest).
Proof.
  intros Hs Ht. revert v. induction Hs as [|c d cs ds [Hc Hd] _ IH]; intros v; cbn [app strtol_digits].
  - unfold stops in Ht. destruct (digit_of t) as [d|]; [by rewrite (proj2 (Z.leb_le base d) Ht)|done].
  - rewrite Hc, (proj2 (Z.leb_gt base d) Hd), s64_step. apply IH.
Qed.

Lemma value_from_nonneg base v ds : 0 <= base -> 0 <= v -> Forall (fun d => 0 <= d) ds -> v <= value_from base v ds \/ base = 0.
Proof.
  intros Hb Hv Hd. destruct (decide (base = 0)) as [|Hne]; [by right|left]. revert v Hv. unfold value_from.
  induction Hd as [|d ds Hd _ IH]; intros v Hv; cbn; [lia|]. etransitivity; [|apply IH; nia]. nia.
Qed.

(** The overflow test of [strtoul] is exact, and it sticks. *)
Lemma strtoul_loop_spec base cs ds acc any t rest :
  2 <= base <= 36 -> spells base cs ds -> stops base t -> 0 <= acc <= ULONG_MAX -> any = 0 \/ any = 1 ->
  exists c s acc' any', cs ++ t :: rest = c :: s /\ strtoul_loop s c acc any base = Ret (acc', any', t :: rest) /\
    (cs = [] -> any' = any) /\
    (value_from base acc ds <= ULONG_MAX -> acc' = value_from base acc ds /\ (cs <> [] -> any' = 1)) /\
    (ULONG_MAX < value_from base acc ds -> any' = -1).
Proof.
  intros Hb Hs Ht. revert acc any.
  assert (forall cs ds acc, spells base cs ds -> forall c s, cs ++ t :: rest = c :: s ->
    exists acc', strtoul_loop s c acc (-1) base = Ret (acc', -1, t :: rest)) as Hstick.
  { intros cs' ds' acc Hs'. revert acc. induction Hs' as [|c d cs' ds' [Hc Hd] _ IH]; intros acc c0 s [= <- <-].
    - exists acc. unfold stops in Ht. destruct rest; cbn [strtoul_loop]; (destruct (digit_of t) as [d|]; [by rewrite (proj2 (Z.leb_le base d) Ht)|done]).
    - destruct (cs' ++ t :: rest) as [|c1 s1] eqn:He; [by destruct cs'|]. cbn [strtoul_loop]. rewrite Hc, (proj2 (Z.leb_gt base d) Hd).
      cbn [Z.ltb Z.compare orb]. by apply IH. }
  induction Hs as [|c d cs ds [Hc Hd] Hs IH]; intros acc any Hacc Hany.
  - exists t, rest, acc, any. split; [done|]. split_and!; [|done|done|cbn; lia].
    unfold stops in Ht. destruct rest; cbn [strtoul_loop]; (destruct (digit_of t) as [d|]; [by rewrite (proj2 (Z.leb_le base d) Ht)|done]).
  - pose proof (digit_range c d Hc) as [Hdr _]. cbn [value_from foldl]. fold (value_from base (acc * base + d) ds).
    assert (Forall (fun d => 0 <= d) ds) as Hds.
    { clear -Hs. induction Hs as [|? ? ? ? [Hc _] _ IH]; [by constructor|]. constructor; [apply digit_range in Hc; lia|done]. }
    destruct (cs ++ t :: rest) as [|c1 s1] eqn:He; [by destruct cs|].
    assert (0 < base) as Hb0 by lia. pose proof (Z.div_mod ULONG_MAX base). pose proof (Z.mod_pos_bound ULONG_MAX base Hb0).
    set (q := ULONG_MAX / base) in *. set (m := ULONG_MAX mod base) in *.
    assert ((any <? 0) || (q <? acc) || (acc =? q) && (m <? d) = (ULONG_MAX <? acc * base + d)) as Htest.
    { rewrite (proj2 (Z.ltb_ge any 0)) by lia. destruct (Z.ltb_spec q acc), (Z.eqb_spec acc q), (Z.ltb_spec m d), (Z.ltb_spec ULONG_MAX (acc * base + d));
        cbn; try reflexivity; exfalso; nia. }
    exists c, (c1 :: s1). cbn [strtoul_loop]. rewrite Hc, (proj2 (Z.leb_gt base d) Hd). fold q m. rewrite Htest.
    destruct (Z.ltb_spec ULONG_MAX (acc * base + d)) as [Hov|Hfit].
    + destruct (Hstick cs ds acc Hs c1 s1 He) as [acc' Hr]. exists acc', (-1). split; [by rewrite <- He|].
      pose proof (value_from_nonneg base (acc * base + d) ds ltac:(lia) ltac:(nia) Hds).
      split_and!; [done|done|lia|done].
    + unfold ULONG_MAX in Hfit, Hacc. rewrite (u64_small (acc * base)) by nia. rewrite u64_small by nia.
      destruct (IH (acc * base + d) 1) as (c2 & s2 & acc' & any' & He2 & Hr & HA & HB & HC); [unfold ULONG_MAX; nia|by right|].
      injection He2 as <- <-. exists acc', any'. split; [by rewrite <- He|]. split_and!; [done|done| |done].
      intros Hle. destruct (HB Hle) as [-> Ha]. split; [done|]. intros _. destruct cs; [by apply HA|by apply Ha].
Qed.

Definition sign_of (neg : option bool) : list Z := match neg with None => [] | Some false => [43] | Some true => [45] end.
Definition negated (neg : option bool) : bool := default false neg.

Lemma skip_blanks_spec bl c s : Forall (fun b => b = 32 \/ b = 9) bl -> c <> 32 -> c <> 9 -> skip_blanks (bl ++ c :: s) = Ret (c :: s).
Proof.
  intros Hbl H1 H2. induction Hbl as [|b bl Hb _ IH]; cbn [app skip_blanks].
  - by rewrite (proj2 (Z.eqb_neq _ _) H1), (proj2 (Z.eqb_neq _ _) H2).
  - destruct Hb as [->| ->]; done.
Qed.
Lemma skip_spaces_spec bl c s : Forall (fun b => b = 32 \/ b = 9) bl -> is_space c = false -> skip_spaces (bl ++ c :: s) = Ret (c, s).
Proof.
  intros Hbl Hc. induction Hbl as [|b bl Hb _ IH]; cbn [app skip_spaces]; [by rewrite Hc|]. destruct Hb as [->| ->]; done.
Qed.
Lemma not_space c : 40 <= c <= 122 -> is_space c = false.
Proof.
  intros Hc. unfold is_space. rewrite u32_small, (proj2 (Z.eqb_neq _ _)), (proj2 (Z.ltb_ge _ _)) by lia. done.
Qed.

Lemma peek_at_some s i c : s !! i = Some c -> peek_at s i = Ret c.
Proof. unfold peek_at. by intros ->. Qed.
Lemma peek_at_head c s : peek_at (c :: s) 0 = Ret c.
Proof. done. Qed.

(** How a numeral in base [b] is written for a call with [base]: the prefix
    [p], the characters [cs] of the digits, the character [t] after them.  A
    [base] of 0 reads the base off the prefix. *)
Inductive numeral (base : Z) : list Z -> Z -> list Z -> Z -> Prop :=
| num_plain cs t : 2 <= base <= 36 -> cs <> [] -> (base = 16 -> t <> 120 /\ t <> 88) -> numeral base [] base cs t
| num_hex cs t : base = 0 \/ base = 16 -> cs <> [] -> numeral base [48; 120] 16 cs t
| num_octal cs t : base = 0 -> t <> 120 /\ t <> 88 -> numeral base [48] 8 cs t
| num_decimal c cs t : base = 0 -> c <> 48 -> numeral base [] 10 (c :: cs) t.

Lemma numeral_base base p b cs t : numeral base p b cs t -> 2 <= b <= 36.
Proof. destruct 1; lia. Qed.

(** The character after the first one of a numeral is no [x]. *)
Lemma spells_second b cs ds t rest c :
  b <= 33 -> spells b cs ds -> t <> 120 /\ t <> 88 -> (cs ++ t :: rest) !! 0%nat = Some c -> c <> 120 /\ c <> 88.
Proof.
  intros Hb Hs Ht. destruct Hs as [|c' d cs ds [Hc Hd] _]; cbn; intros [= <-]; [done|].
  split; intros ->; vm_compute in Hc; injection Hc as <-; lia.
Qed.

Lemma spells_head b c cs ds : spells b (c :: cs) ds -> exists d, digit_of c = Some d /\ d < b /\ 48 <= c <= 122.
Proof. intros (d & ds' & [Hc Hd] & _ & ->)%Forall2_cons_inv_l. exists d. split_and!; [done|done|apply (digit_range c d Hc)..]. Qed.

Lemma hex_head c d : digit_of c = Some d -> d < 16 -> hex_digit c = true.
Proof.
  unfold digit_of, hex_digit.
  destruct (Z.leb_spec 48 c), (Z.leb_spec c 57), (Z.leb_spec 97 c), (Z.leb_spec c 122), (Z.leb_spec 65 c), (Z.leb_spec c 90), (Z.leb_spec c 70), (Z.leb_spec c 102);
    cbn [andb orb]; intros [= <-]; lia.
Qed.

Lemma strtol_prefix_spec base p b cs ds t rest :
  numeral base p b cs t -> spells b cs ds -> strtol_prefix (p ++ cs ++ t :: rest) base = Ret (cs ++ t :: rest, b).
Proof.
  intros Hn Hs. unfold strtol_prefix. destruct Hn as [[|c cs] t Hb Hne Hx|[|c cs] t [->| ->] Hne|cs t -> Hx|c cs t -> Hc]; try done.
  - cbn [app]. rewrite peek_at_head. cbn [mbind outcome_bind].
    rewrite (proj2 (Z.eqb_neq base 0)) by lia. destruct (Z.eqb_spec base 16) as [->|_]; cbn [orb andb mbind outcome_bind]; [|done].
    destruct (c =? 48); cbn [andb mbind outcome_bind]; [|done].
    apply Forall2_cons_inv_l in Hs as (d & ds' & _ & Hs & ->).
    unfold peek_at. destruct ((c :: cs ++ t :: rest) !! 1%nat) as [c1|] eqn:H1; [|by destruct cs].
    destruct (spells_second 16 cs ds' t rest c1) as [Hx1 _]; [lia|done|by apply Hx|done|].
    cbn [mbind outcome_bind]. by rewrite (proj2 (Z.eqb_neq c1 120)).
  - cbn [app]. rewrite peek_at_head. cbn [mbind outcome_bind Z.eqb orb andb Pos.eqb]. unfold peek_at.
    destruct ((48 :: cs ++ t :: rest) !! 1%nat) as [c1|] eqn:H1; [|by destruct cs].
    destruct (spells_second 8 cs ds t rest c1) as [Hx1 _]; [lia|done|done|done|].
    cbn [mbind outcome_bind]. by rewrite (proj2 (Z.eqb_neq c1 120)).
  - cbn [app]. rewrite peek_at_head. cbn [mbind outcome_bind Z.eqb orb andb]. by rewrite (proj2 (Z.eqb_neq c 48)).
Qed.

Lemma numeral_head base p b cs ds t rest :
  numeral base p b cs t -> spells b cs ds -> exists c s, p ++ cs ++ t :: rest = c :: s /\ 48 <= c <= 122.
Proof.
  intros Hn Hs. destruct Hn as [[|c cs] t Hb Hne Hx|cs t Hb Hne|cs t -> Hx|c cs t -> Hc]; try done; cbn [app]; do 2 eexists; (split; [done|]).
  1, 4: by apply spells_head in Hs as (_ & _ & _ & ?).
  all: lia.
Qed.

(** What [strtoul] has left after the prefix spells the same number: an octal
    numeral keeps its leading 0. *)
Lemma strtoul_prefix_spec base p b cs ds t rest c s :
  numeral base p b cs t -> spells b cs ds -> p ++ cs ++ t :: rest = c :: s ->
  exists c' s' cs' ds', strtoul_prefix c s base = Ret (c', s', b) /\ c' :: s' = cs' ++ t :: rest /\
    spells b cs' ds' /\ value b ds' = value b ds /\ cs' <> [].
Proof.
  intros Hn Hs. unfold strtoul_prefix. destruct Hn as [[|c0 cs] t Hb Hne Hx|[|c0 cs] t Hb Hne|cs t -> Hx|c0 cs t -> Hc]; try done; cbn [app]; intros [= <- <-].
  - exists c0, (cs ++ t :: rest), (c0 :: cs), ds. split; [|by split_and!].
    rewrite (proj2 (Z.eqb_neq base 0)) by lia. destruct (Z.eqb_spec base 16) as [->|_]; cbn [orb andb mbind outcome_bind Z.eqb]; [|by rewrite (proj2 (Z.eqb_neq base 0)) by lia].
    destruct (c0 =? 48); cbn [mbind outcome_bind Z.eqb]; [|done].
    apply Forall2_cons_inv_l in Hs as (d & ds' & _ & Hs & ->).
    destruct ((cs ++ t :: rest) !! 0%nat) as [c1|] eqn:H1; [|by destruct cs]. rewrite (peek_at_some _ _ _ H1).
    destruct (spells_second 16 cs ds' t rest c1) as [Hx1 Hx2]; [lia|done|by apply Hx|done|].
    cbn [mbind outcome_bind]. by rewrite (proj2 (Z.eqb_neq c1 120)), (proj2 (Z.eqb_neq c1 88)).
  - exists c0, (cs ++ t :: rest), (c0 :: cs), ds. split; [|by split_and!].
    apply spells_head in Hs as (d & Hd & Hlt & _). pose proof (hex_head c0 d Hd Hlt) as Hh.
    destruct Hb as [->| ->]; cbn; by rewrite Hh.
  - exists 48, (cs ++ t :: rest), (48 :: cs), (0 :: ds). split; [|by split_and!; [|constructor| |]].
    cbn [Z.eqb orb andb Pos.eqb]. destruct ((cs ++ t :: rest) !! 0%nat) as [c1|] eqn:H1; [|by destruct cs]. rewrite (peek_at_some _ _ _ H1).
    destruct (spells_second 8 cs ds t rest c1) as [Hx1 Hx2]; [lia|done|done|done|].
    cbn [mbind outcome_bind]. by rewrite (proj2 (Z.eqb_neq c1 120)), (proj2 (Z.eqb_neq c1 88)).
  - exists c0, (cs ++ t :: rest), (c0 :: cs), ds. split; [|by split_and!].
    cbn [Z.eqb orb andb]. rewrite (proj2 (Z.eqb_neq c0 48)) by done. cbn. by rewrite (proj2 (Z.eqb_neq c0 48)).
Qed.

Lemma strtol_spec base bl neg p b cs ds t rest :
  Forall (fun c => c = 32 \/ c = 9) bl -> numeral base p b cs t -> spells b cs ds -> stops b t ->
  strtol (bl ++ sign_of neg ++ p ++ cs ++ t :: rest) base =
    Ret (if negated neg then s64 (- s64 (value b ds)) else s64 (value b ds), t :: rest).
Proof.
  intros Hbl Hn Hs Ht. destruct (numeral_head base p b cs ds t rest Hn Hs) as (c & s & He & Hc).
  pose proof (strtol_prefix_spec base p b cs ds t rest Hn Hs) as Hp.
  pose proof (strtol_digits_spec b cs ds 0 t rest Hs Ht) as Hd. change (s64 0) with 0 in Hd. fold (value b ds) in Hd.
  rewrite He in *. unfold strtol. destruct neg as [[|]|]; cbn [sign_of app];
    rewrite skip_blanks_spec by (done || lia); cbn [mbind outcome_bind]; rewrite peek_at_head; cbn [mbind outcome_bind].
  1, 2: cbn [Z.eqb Pos.eqb drop]; rewrite Hp; cbn [mbind outcome_bind]; by rewrite Hd.
  rewrite (proj2 (Z.eqb_neq c 43)), (proj2 (Z.eqb_neq c 45)), Hp by lia. cbn [mbind outcome_bind]. by rewrite Hd.
Qed.

Lemma strtoul_spec base bl neg p b cs ds t rest :
  Forall (fun c => c = 32 \/ c = 9) bl -> numeral base p b cs t -> spells b cs ds -> stops b t ->
  strtoul (bl ++ sign_of neg ++ p ++ cs ++ t :: rest) base =
    Ret (if value b ds <=? ULONG_MAX then (if negated neg then u64 (- value b ds) else value b ds) else ULONG_MAX, t :: rest).
Proof.
  intros Hbl Hn Hs Ht. pose proof (numeral_base _ _ _ _ _ Hn) as Hb.
  destruct (numeral_head base p b cs ds t rest Hn Hs) as (c & s & He & Hc).
  destruct (strtoul_prefix_spec base p b cs ds t rest c s Hn Hs He) as (c' & s' & cs' & ds' & Hp & He' & Hs' & Hv & Hne).
  destruct (strtoul_loop_spec b cs' ds' 0 0 t rest Hb Hs' Ht) as (c2 & s2 & acc & any & He2 & Hr & _ & Hfit & Hov); [unfold ULONG_MAX; lia|by left|].
  fold (value b ds') in Hfit, Hov. rewrite Hv in *. rewrite <- He' in He2. injection He2 as -> ->.
  assert (strtoul_sign c s = Ret (false, c, s)) as Hsg by (unfold strtoul_sign; by rewrite (proj2 (Z.eqb_neq c 45)), (proj2 (Z.eqb_neq c 43)) by lia).
  unfold strtoul. destruct neg as [[|]|]; cbn [sign_of app]; rewrite He, skip_spaces_spec by (done || (apply not_space; lia)); cbn [mbind outcome_bind];
    [unfold strtoul_sign..|rewrite Hsg]; cbn [Z.eqb Pos.eqb next_char mbind outcome_bind]; rewrite Hp; cbn [mbind outcome_bind];
    rewrite (proj2 (Z.ltb_ge b 2)), (proj2 (Z.ltb_ge 36 b)) by lia; cbn [orb]; rewrite Hr; cbn [mbind outcome_bind];
    (destruct (Z.leb_spec (value b ds) ULONG_MAX) as [Hle|Hgt]; [destruct (Hfit Hle) as [-> Ha]; by rewrite Ha|by rewrite Hov]).
Qed.

(** ** Properties *)

(** C37: on blanks, an optional sign, a numeral in any of its forms (bare
    digits in the given base, 0x before hex digits, a leading 0 for octal and
    plain decimal when the base is 0) and any character that cannot continue
    it, both functions stop at that character; [strtol] returns the number
    modulo 2^64 as a [long], with no overflow check, and [strtoul] the number
    (its negation modulo 2^64 after a minus sign) when it fits in 64 bits and
    ULONG_MAX when it does not. *)
Theorem strto_parses (base : Z) (bl : list Z) (neg : option bool) (p : list Z) (b : Z) (cs ds : list Z) (t : Z) (rest : list Z)
  (Hbl : Forall (fun c => c = 32 \/ c = 9) bl) (Hn : numeral base p b cs t) (Hs : spells b cs ds) (Ht : stops b t) :
  strtol (bl ++ sign_of neg ++ p ++ cs ++ t :: rest) base =
    Ret (if negated neg then s64 (- s64 (value b ds)) else s64 (value b ds), t :: rest) /\
  strtoul (bl ++ sign_of neg ++ p ++ cs ++ t :: rest) base =
    Ret (if value b ds <=? ULONG_MAX then (if negated neg then u64 (- value b ds) else value b ds) else ULONG_MAX, t :: rest).
Proof. split; [by apply strtol_spec|by apply strtoul_spec]. Qed.

(** " -0x1f" and a terminator, with the base left to the prefix. *)
Lemma strto_parses_witness :
  strtol [32; 45; 48; 120; 49; 102; 0] 0 = Ret (-31, [0]) /\ strtoul [32; 45; 48; 120; 49; 102; 0] 0 = Ret (2 ^ 64 - 31, [0]).
Proof.
  apply (strto_parses 0 [32] (Some true) [48; 120] 16 [49; 102] [1; 15] 0 []).
  - constructor; [left; reflexivity|constructor].
  - apply num_hex; [left; reflexivity|discriminate].
  - repeat (constructor; [split; [reflexivity|lia]|]). constructor.
  - exact I.
Defined.
