(* ===== verification/Halloc.v ===== *)
(** * The root service's heap (service/roots/halloc.c, halloc.h)

    A bump allocator over the service's heap region with free lists by size.
    Every block starts with a 16-byte [slab_header] whose second word is the
    magic number while the block is in use and the next free header while it
    is free.  [hdrs] holds the headers by address and [mem] the other bytes; a
    bucket of the hash table is its list of [slab_cache]s, whose storage is a
    heap block too. *)
From S2P Require Import Prelude Config.

Definition SLAB_MIN_DATA_SIZE : Z := 16.
Definition SLAB_HEADER_SIZE : Z := 16.
Definition SLAB_MAGIC : Z := 0xdeadbeef.
Definition HASH_TABLE_SIZE : Z := 8.
Definition sizeof_slab_cache : Z := 32.

Record slab_cache := mkSc { sc_addr : Z; sc_size : Z; sc_head : Z }.

(** A header: its size, and the union of magic number and next header. *)
Record hstate := mkHeap {
  slab_base : Z; slab_end : Z; slab_size : Z;
  hdrs : gmap Z (Z * Z); mem : Z -> Z;
  slab_hash_table : list (list slab_cache) }.

Definition hash (size : Z) : Z := Z.shiftr size 4 mod HASH_TABLE_SIZE.

(** The search of a bucket, and the update of the head it found. *)
Fixpoint find_cache (size : Z) (l : list slab_cache) : option slab_cache :=
  match l with [] => None | sc :: l' => if sc_size sc =? size then Some sc else find_cache size l' end.
Fixpoint set_head (size head : Z) (l : list slab_cache) : list slab_cache :=
  match l with
  | [] => []
  | sc :: l' => if sc_size sc =? size then mkSc (sc_addr sc) (sc_size sc) head :: l' else sc :: set_head size head l'
  end.

Definition with_hdr (a : Z) (hd : Z * Z) (h : hstate) : hstate :=
  mkHeap (slab_base h) (slab_end h) (slab_size h) (<[a := hd]> (hdrs h)) (mem h) (slab_hash_table h).
Definition with_table (t : list (list slab_cache)) (h : hstate) : hstate :=
  mkHeap (slab_base h) (slab_end h) (slab_size h) (hdrs h) (mem h) t.

(** [*sh]: memory that holds no header is not read as one. *)
Definition get_hdr (a : Z) : M hstate (Z * Z) := fun h =>
  match hdrs h !! a with Some hd => Ret (hd, h) | None => Fault end.

Definition halloc_from_hash_table (size : Z) : M hstate Z :=
  let idx := hash size in
  h ← get;
  bucket ← lift (rd (slab_hash_table h) idx);
  match find_cache size bucket with
  | None => mret 0
  | Some sc =>
      if sc_head sc =? 0 then mret 0
      else
        let sh := sc_head sc in
        '(sz, next) ← get_hdr sh;
        t ← lift (wr (slab_hash_table h) idx (set_head size next bucket));
        modify (with_table t);; modify (with_hdr sh (sz, SLAB_MAGIC));;
        mret (u64 (sh + SLAB_HEADER_SIZE))
  end.

Definition halloc_from_slab_heap (size : Z) : M hstate Z :=
  let size := u64 (size + SLAB_HEADER_SIZE) in
  h ← get;
  if slab_size h <? size then mret 0
  else
    let sh := slab_base h in
    put (mkHeap (u64 (slab_base h + size)) (slab_end h) (u32 (slab_size h - size))
           (<[sh := (u64 (size - SLAB_HEADER_SIZE), SLAB_MAGIC)]> (hdrs h)) (mem h) (slab_hash_table h));;
    mret (u64 (sh + SLAB_HEADER_SIZE)).

Definition __halloc (size : Z) : M hstate Z :=
  mem ← halloc_from_hash_table size;
  if mem =? 0 then halloc_from_slab_heap size else mret mem.

Definition halloc (size : Z) : M hstate Z :=
  __halloc (if size =? 0 then SLAB_MIN_DATA_SIZE else align_up size SLAB_MIN_DATA_SIZE).

Definition free_slab (addr : Z) : M hstate () :=
  let sh := u64 (addr - SLAB_HEADER_SIZE) in
  '(size, magic) ← get_hdr sh;
  if negb (magic =? SLAB_MAGIC) || (size <? SLAB_MIN_DATA_SIZE) then halt
  else
    let idx := hash size in
    h ← get;
    bucket ← lift (rd (slab_hash_table h) idx);
    match find_cache size bucket with
    | Some sc =>
        modify (with_hdr sh (size, sc_head sc));;
        t ← lift (wr (slab_hash_table h) idx (set_head size sh bucket));
        modify (with_table t)
    | None =>
        sc ← halloc_from_slab_heap sizeof_slab_cache;
        if sc =? 0 then halt
        else
          modify (with_hdr sh (size, 0));;
          h ← get;
          t ← lift (wr (slab_hash_table h) idx (bucket ++ [mkSc sc size sh]));
          modify (with_table t)
    end.
Definition hfree (addr : Z) : M hstate () := free_slab addr.

(** [memset(addr, 0, size)]. *)
Definition memset0 (addr size : Z) (h : hstate) : hstate :=
  mkHeap (slab_base h) (slab_end h) (slab_size h) (hdrs h)
    (fun x => if (addr <=? x) && (x <? addr + size) then 0 else mem h x) (slab_hash_table h).
Definition halloc_zero (size : Z) : M hstate Z :=
  addr ← halloc size;
  if addr =? 0 then mret addr else modify (memset0 addr size);; mret addr.
Definition halloc_page : M hstate Z := halloc PAGE_SIZE.
Definition halloc_pagezero : M hstate Z := halloc_zero PAGE_SIZE.

Definition halloc_init (base end_ : Z) : M hstate Z :=
  if (end_ <? base) || negb (page_aligned base) || negb (page_aligned end_) then mret (- EINVAL)
  else
    modify (fun h => mkHeap base end_ (u32 (end_ - base)) (hdrs h) (mem h) (replicate 8 []));;
    mret 0.

(** ** The invariant *)

(** [bs] are the blocks (header address and data size) from [a] up to [b]. *)
Fixpoint tiled (a : Z) (bs : list (Z * Z)) (b : Z) : Prop :=
  match bs with
  | [] => a = b
  | (x, s) :: bs' => x = a /\ 16 <= s /\ s mod 16 = 0 /\ tiled (a + 16 + s) bs' b
  end.

(** The free list of a size, from [head]. *)
Fixpoint chain (hs : gmap Z (Z * Z)) (size head : Z) (l : list Z) : Prop :=
  match l with
  | [] => head = 0
  | a :: l' => head = a /\ exists next, hs !! a = Some (size, next) /\ chain hs size next l'
  end.

Definition cache_of (h : hstate) (size : Z) : option slab_cache :=
  match slab_hash_table h !! Z.to_nat (hash size) with Some bucket => find_cache size bucket | None => None end.

(** The heap from [b0] to [e]: its blocks, its free lists by size, and the
    headers of the blocks in use. *)
Record heap_inv (b0 e : Z) (h : hstate) (blocks : list (Z * Z)) (frees : Z -> list Z) (live : gset Z) : Prop := {
  hi_range : 0 < b0 /\ b0 mod 16 = 0 /\ 0 <= slab_size h < 2 ^ 32 /\ slab_base h + slab_size h <= e < 2 ^ 64;
  hi_tiled : tiled b0 blocks (slab_base h);
  hi_table : length (slab_hash_table h) = 8%nat;
  hi_live : forall a, a ∈ live -> exists s, hdrs h !! a = Some (s, SLAB_MAGIC) /\ (a, s) ∈ blocks;
  hi_frees : forall s, NoDup (frees s) /\ (forall a, a ∈ frees s -> (a, s) ∈ blocks /\ a ∉ live);
  hi_cache : forall s sc, cache_of h s = Some sc ->
    chain (hdrs h) s (sc_head sc) (frees s) /\
    (sc_addr sc - 16, sizeof_slab_cache) ∈ blocks /\ sc_addr sc - 16 ∉ live /\ (forall s', sc_addr sc - 16 ∉ frees s');
}.

(** ** Blocks *)

Lemma tiled_le a bs b : tiled a bs b -> a <= b.
Proof. revert a. induction bs as [|[x s] bs IH]; intros a; cbn; [lia|]. intros (-> & Hs & _ & H). apply IH in H. lia. Qed.

Lemma tiled_snoc a bs b s : tiled a bs b -> 16 <= s -> s mod 16 = 0 -> tiled a (bs ++ [(b, s)]) (b + 16 + s).
Proof. revert a. induction bs as [|[x t] bs IH]; intros a; cbn; [intros ->; done|]. intros (-> & Ht & Hm & H) Hs. auto. Qed.

Lemma tiled_block a bs b x s :
  tiled a bs b -> (x, s) ∈ bs -> a <= x /\ x + 16 + s <= b /\ 16 <= s /\ s mod 16 = 0 /\ (a mod 16 = 0 -> x mod 16 = 0).
Proof.
  revert a. induction bs as [|[y t] bs IH]; intros a; cbn; [by intros _ ?%elem_of_nil|].
  intros (-> & Ht & Hm & H) [[= -> ->]|Hin]%elem_of_cons.
  - apply tiled_le in H. done || (split_and!; done || lia).
  - destruct (IH _ H Hin) as (H1 & H2 & H3 & H4 & H5). split_and!; try done; try lia. intros Ha. apply H5.
    replace (a + 16 + t) with (a + t + 1 * 16) by lia. rewrite Z.mod_add, Z.add_mod, Ha, Hm by lia. done.
Qed.

(** Different blocks do not overlap, and a header address has one size. *)
Lemma tiled_disjoint a bs b x s y t :
  tiled a bs b -> (x, s) ∈ bs -> (y, t) ∈ bs -> (x = y /\ s = t) \/ x + 16 + s <= y \/ y + 16 + t <= x.
Proof.
  revert a. induction bs as [|[z u] bs IH]; intros a; cbn; [by intros _ ?%elem_of_nil|].
  intros (-> & Hu & _ & H) [[= -> ->]|Hx]%elem_of_cons [[= -> ->]|Hy]%elem_of_cons.
  - by left.
  - pose proof (tiled_block _ _ _ _ _ H Hy). lia.
  - pose proof (tiled_block _ _ _ _ _ H Hx). lia.
  - by apply (IH _ H).
Qed.
Lemma tiled_size a bs b x s t : tiled a bs b -> (x, s) ∈ bs -> (x, t) ∈ bs -> s = t.
Proof. intros H Hs Ht. pose proof (tiled_block _ _ _ _ _ H Hs). destruct (tiled_disjoint _ _ _ _ _ _ _ H Hs Ht) as [[_ ?]|?]; [done|].
  pose proof (tiled_block _ _ _ _ _ H Ht). lia. Qed.

(** ** Free lists and the hash table *)

Lemma chain_other hs s hd l a w : a ∉ l -> chain hs s hd l -> chain (<[a := w]> hs) s hd l.
Proof.
  revert hd. induction l as [|x l IH]; intros hd; cbn; [done|]. intros Ha (-> & nx & Hx & H).
  apply not_elem_of_cons in Ha as [Hne Ha]. split; [done|]. exists nx. rewrite lookup_insert_ne by done. auto.
Qed.

Lemma find_set_head s s' hd l :
  find_cache s' (set_head s hd l) =
    if s' =? s then (fun sc => mkSc (sc_addr sc) s hd) <$> find_cache s l else find_cache s' l.
Proof.
  induction l as [|sc l IH]; cbn; [by destruct (s' =? s)|].
  destruct (Z.eqb_spec (sc_size sc) s) as [<-|Hne]; cbn; [rewrite Z.eqb_sym; by destruct (Z.eqb_spec s' (sc_size sc))|].
  rewrite IH. destruct (Z.eqb_spec s' s) as [->|]; [by rewrite (proj2 (Z.eqb_neq _ _) Hne)|done].
Qed.
Lemma find_app s l l' : find_cache s (l ++ l') = match find_cache s l with Some sc => Some sc | None => find_cache s l' end.
Proof. induction l as [|sc l IH]; cbn; [done|]. by destruct (sc_size sc =? s). Qed.
Lemma find_size s l sc : find_cache s l = Some sc -> sc_size sc = s.
Proof. induction l as [|c l IH]; cbn; [done|]. destruct (Z.eqb_spec (sc_size c) s) as [<-|]; [by intros [= <-]|done]. Qed.

Lemma hash_range s : 0 <= hash s < 8.
Proof. apply Z.mod_pos_bound. done. Qed.
Lemma hash_inj s s' : Z.to_nat (hash s) = Z.to_nat (hash s') -> hash s = hash s'.
Proof. pose proof (hash_range s). pose proof (hash_range s'). lia. Qed.

(** The bucket a size hashes to. *)
Lemma bucket_rd h s :
  length (slab_hash_table h) = 8%nat ->
  exists bucket, slab_hash_table h !! Z.to_nat (hash s) = Some bucket /\ rd (slab_hash_table h) (hash s) = Ret bucket /\
    cache_of h s = find_cache s bucket /\ (forall b', wr (slab_hash_table h) (hash s) b' = Ret (<[Z.to_nat (hash s) := b']> (slab_hash_table h))).
Proof.
  intros Hl. pose proof (hash_range s). destruct (rd_in (slab_hash_table h) (hash s)) as [b Hb]; [lia|].
  apply rd_Ret in Hb as [Hp Hb]. exists b. split_and!; [done|by apply rd_Ret|by unfold cache_of; rewrite Hb|].
  intros b'. apply wr_in. lia.
Qed.

(** A bucket changed for one size changes the lookups of that size only. *)
Lemma cache_of_table h h' s bucket b' :
  slab_hash_table h !! Z.to_nat (hash s) = Some bucket ->
  slab_hash_table h' = <[Z.to_nat (hash s) := b']> (slab_hash_table h) ->
  (forall s', s' <> s -> find_cache s' b' = find_cache s' bucket) ->
  forall s', cache_of h' s' = if s' =? s then find_cache s b' else cache_of h s'.
Proof.
  intros Hb Ht Ho s'. unfold cache_of. rewrite Ht. destruct (Z.eqb_spec s' s) as [->|Hne].
  - by rewrite list_lookup_insert_eq by (by apply lookup_lt_Some in Hb).
  - destruct (decide (Z.to_nat (hash s) = Z.to_nat (hash s'))) as [He|He].
    + rewrite <- He. rewrite Hb, list_lookup_insert_eq by (by apply lookup_lt_Some in Hb). by apply Ho.
    + by rewrite list_lookup_insert_ne.
Qed.

(** ** Invariant steps *)

(** The free list of one size changes, with the header at [a]. *)
Lemma heap_inv_update b0 e h h' blocks frees live a w s fr ad hd :
  heap_inv b0 e h blocks frees live ->
  slab_base h' = slab_base h -> slab_size h' = slab_size h -> length (slab_hash_table h') = 8%nat ->
  hdrs h' = <[a := w]> (hdrs h) ->
  (forall s', cache_of h' s' = if s' =? s then Some (mkSc ad s hd) else cache_of h s') ->
  a ∉ live -> (forall s', s' <> s -> a ∉ frees s') ->
  NoDup fr -> (forall x, x ∈ fr -> (x, s) ∈ blocks /\ x ∉ live) -> chain (hdrs h') s hd fr ->
  (ad - 16, sizeof_slab_cache) ∈ blocks -> ad - 16 ∉ live -> ad - 16 ∉ fr -> (forall s', ad - 16 ∉ frees s') ->
  (forall s' sc, cache_of h s' = Some sc -> s' <> s -> sc_addr sc - 16 ∉ fr) ->
  heap_inv b0 e h' blocks (fun s' => if s' =? s then fr else frees s') live.
Proof.
  intros [Hr Ht Htab Hlive Hfr Hc] Hb Hz Htab' Hh Hco Ha Hao Hnd Hin Hch Hb1 Hb2 Hb3 Hb4 Ho. constructor.
  - by rewrite Hb, Hz.
  - by rewrite Hb.
  - done.
  - intros x Hx. destruct (Hlive x Hx) as (t & H1 & H2). exists t. rewrite Hh, lookup_insert_ne; [done|]. by intros ->.
  - intros s'. destruct (s' =? s) eqn:He; [|apply Hfr]. apply Z.eqb_eq in He as ->. done.
  - intros s' sc. rewrite Hco. destruct (Z.eqb_spec s' s) as [->|Hne].
    + intros [= <-]. cbn [sc_addr sc_head]. split_and!; try done. intros s'. by destruct (s' =? s).
    + intros Hs'. destruct (Hc s' sc Hs') as (H1 & H2 & H3 & H4). split_and!; try done.
      * rewrite Hh. apply chain_other; [by apply Hao|done].
      * intros t. destruct (t =? s) eqn:He; [by apply (Ho s')|apply H4].
Qed.

(** A block that is neither free nor a cache is handed out. *)
Lemma heap_inv_take b0 e h blocks frees live a s :
  heap_inv b0 e h blocks frees live -> hdrs h !! a = Some (s, SLAB_MAGIC) -> (a, s) ∈ blocks ->
  (forall s', a ∉ frees s') -> (forall s' sc, cache_of h s' = Some sc -> sc_addr sc - 16 <> a) ->
  heap_inv b0 e h blocks frees ({[a]} ∪ live).
Proof.
  intros [Hr Ht Htab Hlive Hfr Hc] Hh Hb Hf Hca. constructor; try done.
  - intros x [->%elem_of_singleton|Hx]%elem_of_union; [by exists s|by apply Hlive].
  - intros t. split; [apply Hfr|]. intros x Hx. destruct (proj2 (Hfr t) x Hx) as [? ?]. split; [done|].
    intros [->%elem_of_singleton|?]%elem_of_union; [by apply (Hf t)|done].
  - intros t sc Hsc. destruct (Hc t sc Hsc) as (H1 & H2 & H3 & H4). split_and!; try done.
    intros [?%elem_of_singleton|?]%elem_of_union; [by apply (Hca t sc)|done].
Qed.

Lemma heap_inv_drop b0 e h blocks frees live a :
  heap_inv b0 e h blocks frees live -> heap_inv b0 e h blocks frees (live ∖ {[a]}).
Proof.
  intros [Hr Ht Htab Hlive Hfr Hc]. constructor; try done.
  - intros x Hx. apply Hlive. set_solver.
  - intros s. destruct (Hfr s) as [? Hin]. split; [done|]. intros x Hx. destruct (Hin x Hx). set_solver.
  - intros s sc Hsc. destruct (Hc s sc Hsc) as (? & ? & ? & ?). split_and!; try done. set_solver.
Qed.

(** Every live, free or cache block lies below the bump pointer. *)
Lemma blocks_below b0 e h blocks frees live x s :
  heap_inv b0 e h blocks frees live -> (x, s) ∈ blocks -> x < slab_base h.
Proof. intros Hi Hx. pose proof (tiled_block _ _ _ _ _ (hi_tiled _ _ _ _ _ _ Hi) Hx). lia. Qed.

(** The bump allocation. *)
Lemma slab_heap_spec b0 e h blocks frees live s :
  heap_inv b0 e h blocks frees live -> 16 <= s < 2 ^ 64 - 16 -> s mod 16 = 0 ->
  (slab_size h < s + 16 /\ halloc_from_slab_heap s h = Ret (0, h)) \/
  (s + 16 <= slab_size h /\ exists h', halloc_from_slab_heap s h = Ret (slab_base h + 16, h') /\
    hdrs h' = <[slab_base h := (s, SLAB_MAGIC)]> (hdrs h) /\ slab_hash_table h' = slab_hash_table h /\
    slab_size h' = slab_size h - (s + 16) /\ mem h' = mem h /\
    heap_inv b0 e h' (blocks ++ [(slab_base h, s)]) frees live).
Proof.
  intros Hi Hs Hm. pose proof Hi as [Hr Ht Htab Hlive Hfr Hc]. pose proof (tiled_le _ _ _ Ht).
  unfold halloc_from_slab_heap, SLAB_HEADER_SIZE. rewrite (u64_small (s + 16)) by lia.
  mstep. destruct (Z.ltb_spec (slab_size h) (s + 16)) as [Hlt|Hge]; [by left|right]. split; [done|].
  rewrite (u64_small (slab_base h + 16)) by lia. eexists. split; [done|]. cbn.
  rewrite (u64_small (slab_base h + (s + 16))), (u64_small (s + 16 - 16)), u32_small by lia. replace (s + 16 - 16) with s by lia.
  split_and!; try done.
  assert (forall x t, (x, t) ∈ blocks -> x <> slab_base h) as Hne.
  { intros x t Hx. pose proof (blocks_below _ _ _ _ _ _ _ _ Hi Hx). lia. }
  constructor; cbn.
  - lia.
  - replace (slab_base h + (s + 16)) with (slab_base h + 16 + s) by lia. apply tiled_snoc; done || lia.
  - done.
  - intros a Ha. destruct (Hlive a Ha) as (t & H1 & H2). exists t. rewrite lookup_insert_ne by (intros <-; by eapply Hne).
    split; [done|]. apply elem_of_app. by left.
  - intros t. destruct (Hfr t) as [? Hin]. split; [done|]. intros x Hx. destruct (Hin x Hx). split; [apply elem_of_app; by left|done].
  - intros t sc Hsc. destruct (Hc t sc Hsc) as (H1 & H2 & H3 & H4). split_and!; try done; [|apply elem_of_app; by left].
    apply chain_other; [|done]. intros Hx. apply Hfr in Hx as [Hx _]. by eapply Hne.
Qed.

(** The block just carved out is in no list. *)
Lemma slab_heap_new b0 e h blocks frees live :
  heap_inv b0 e h blocks frees live ->
  slab_base h ∉ live /\ (forall s, slab_base h ∉ frees s) /\ (forall s sc, cache_of h s = Some sc -> sc_addr sc - 16 <> slab_base h).
Proof.
  intros Hi. pose proof (fun s => blocks_below b0 e h blocks frees live (slab_base h) s Hi) as Hb. split_and!.
  - intros Hx. apply (hi_live _ _ _ _ _ _ Hi) in Hx as (t & _ & Hx). pose proof (Hb t Hx). lia.
  - intros s Hx. apply (hi_frees _ _ _ _ _ _ Hi) in Hx as [Hx _]. pose proof (Hb s Hx). lia.
  - intros s sc Hsc He. apply (hi_cache _ _ _ _ _ _ Hi) in Hsc as (_ & Hx & _). rewrite He in Hx. pose proof (Hb _ Hx). lia.
Qed.

(** What the free list of a size offers: nothing before its cache exists. *)
Definition avail (h : hstate) (frees : Z -> list Z) (s : Z) : list Z :=
  match cache_of h s with Some _ => frees s | None => [] end.

Lemma hash_table_empty b0 e h blocks frees live s :
  heap_inv b0 e h blocks frees live -> avail h frees s = [] -> halloc_from_hash_table s h = Ret (0, h).
Proof.
  intros Hi. destruct (bucket_rd h s (hi_table _ _ _ _ _ _ Hi)) as (bucket & _ & Hrd & Hco & _). unfold avail.
  unfold halloc_from_hash_table. mstep. rewrite Hrd. mstep. rewrite <- Hco. destruct (cache_of h s) as [sc|] eqn:Hsc; [|done].
  intros Hf. apply (hi_cache _ _ _ _ _ _ Hi) in Hsc as (Hch & _). rewrite Hf in Hch. cbn in Hch. by rewrite Hch.
Qed.

Lemma hash_table_pop b0 e h blocks frees live s a rest :
  heap_inv b0 e h blocks frees live -> avail h frees s = a :: rest ->
  exists h', halloc_from_hash_table s h = Ret (a + 16, h') /\ hdrs h' !! a = Some (s, SLAB_MAGIC) /\ (mem h' = mem h /\ slab_size h' = slab_size h) /\
    (a, s) ∈ blocks /\ a ∉ live /\ heap_inv b0 e h' blocks (fun s' => if s' =? s then rest else frees s') ({[a]} ∪ live).
Proof.
  intros Hi. pose proof Hi as [Hr Ht Htab Hlive Hfr Hc]. destruct (bucket_rd h s Htab) as (bucket & Hbk & Hrd & Hco & Hwr). unfold avail.
  destruct (cache_of h s) as [sc|] eqn:Hsc; [|done]. intros Hf.
  destruct (Hc s sc Hsc) as (Hch & Hb1 & Hb2 & Hb3). destruct (Hfr s) as [Hnd Hin]. rewrite Hf in Hch, Hnd, Hin.
  destruct Hch as (Hhd & nx & Hnx & Hch). apply NoDup_cons in Hnd as [Hna Hnd]. destruct (Hin a ltac:(left)) as [Hab Hal].
  destruct (tiled_block _ _ _ _ _ Ht Hab) as (Hlo & Hhi & Hs0 & _).
  unfold halloc_from_hash_table, SLAB_HEADER_SIZE. mstep. rewrite Hrd. mstep. rewrite <- Hco. rewrite Hhd, (proj2 (Z.eqb_neq a 0)) by lia.
  unfold get_hdr. rewrite Hnx. mstep. rewrite Hwr. mstep. rewrite u64_small by lia. eexists. split; [done|]. cbn.
  split; [by rewrite lookup_insert_eq|]. split; [done|]. split; [done|]. split; [done|].
  assert (forall s', a ∉ (if s' =? s then rest else frees s')) as Hnf.
  { intros s'. destruct (Z.eqb_spec s' s) as [->|Hne]; [done|]. intros Hx. apply Hfr in Hx as [Hx _]. apply Hne. by eapply tiled_size. }
  set (h' := with_hdr a (s, SLAB_MAGIC) _).
  assert (forall s', cache_of h' s' = if s' =? s then Some (mkSc (sc_addr sc) s nx) else cache_of h s') as Hco'.
  { intros s'. rewrite (cache_of_table h h' s bucket (set_head s nx bucket) Hbk eq_refl).
    - by rewrite find_set_head, Z.eqb_refl, <- Hco.
    - intros t Hne. by rewrite find_set_head, (proj2 (Z.eqb_neq _ _) Hne). }
  assert (forall s' sc', cache_of h' s' = Some sc' -> sc_addr sc' - 16 <> a) as Hca.
  { intros s' sc'. rewrite Hco'. destruct (Z.eqb_spec s' s) as [->|_]; [intros [= <-]|intros H'; apply Hc in H' as (_ & _ & _ & H')]; cbn; intros He.
    - apply (Hb3 s). rewrite He, Hf. left.
    - apply (H' s). rewrite He, Hf. left. }
  eapply heap_inv_take; [|by apply lookup_insert_eq|done|done|done].
  apply (heap_inv_update b0 e h h' blocks frees live a (s, SLAB_MAGIC) s rest (sc_addr sc) nx); try done.
  - cbn. by rewrite length_insert.
  - intros s' Hne. specialize (Hnf s'). by rewrite (proj2 (Z.eqb_neq _ _) Hne) in Hnf.
  - intros x Hx. apply Hin. by right.
  - cbn. by apply chain_other.
  - intros Hx. apply (Hb3 s). rewrite Hf. by right.
  - intros s' sc' Hs' _ Hx. apply Hc in Hs' as (_ & _ & _ & Hn). apply (Hn s). rewrite Hf. by right.
Qed.

(** ** Allocation and release *)

Definition rounded (n : Z) : Z := if n =? 0 then 16 else align_up n 16.
Lemma rounded_spec n : 0 <= n <= 2 ^ 64 - 48 -> n <= rounded n /\ 16 <= rounded n < 2 ^ 64 - 16 /\ rounded n mod 16 = 0.
Proof.
  intros Hn. unfold rounded. destruct (Z.eqb_spec n 0) as [->|Hne]; [done|].
  change 16 with (2 ^ 4) in *. destruct (align_up_bounds n 4) as [Hm Hb]; [lia..|]. change (2 ^ 4) with 16 in *.
  pose proof (Z.div_mod (align_up n 16) 16). lia.
Qed.

Definition heap_ok (b0 e : Z) (h : hstate) (live : gset Z) : Prop := exists blocks frees, heap_inv b0 e h blocks frees live.

(** The block comes from the free list of its size when that has one. *)
Lemma halloc_spec b0 e h blocks frees live n :
  heap_inv b0 e h blocks frees live -> 0 <= n <= 2 ^ 64 - 48 ->
  (halloc n h = Ret (0, h) /\ slab_size h < rounded n + 16) \/
  exists a h' blocks' frees', halloc n h = Ret (a + 16, h') /\ heap_inv b0 e h' blocks' frees' ({[a]} ∪ live) /\
    a ∉ live /\ (a, rounded n) ∈ blocks' /\ (mem h' = mem h /\ slab_size h <= slab_size h' + (rounded n + 16)) /\ (forall x rest, avail h frees (rounded n) = x :: rest -> a = x).
Proof.
  intros Hi Hn. destruct (rounded_spec n Hn) as (Hle & Hr & Hm). unfold halloc, SLAB_MIN_DATA_SIZE. fold (rounded n). unfold __halloc. mstep.
  destruct (avail h frees (rounded n)) as [|a rest] eqn:Hav.
  - rewrite (hash_table_empty _ _ _ _ _ _ _ Hi Hav). cbn [Z.eqb].
    destruct (slab_heap_spec _ _ _ _ _ _ (rounded n) Hi Hr Hm) as [[? ?]|(Hge & h' & -> & Hh & Ht & Hss & Hmem & Hi')]; [by left|right].
    destruct (slab_heap_new _ _ _ _ _ _ Hi) as (H1 & H2 & H3). do 4 eexists. split; [done|]. split; [|split_and!; try done; [apply elem_of_app; right; left|lia]].
    eapply heap_inv_take; [done|by rewrite Hh, lookup_insert_eq|apply elem_of_app; right; left|done|].
    intros s' sc. unfold cache_of. rewrite Ht. apply H3.
  - right. destruct (hash_table_pop _ _ _ _ _ _ _ _ _ Hi Hav) as (h' & -> & Hh & [Hmem Hss] & Hb & Hl & Hi').
    pose proof (tiled_block _ _ _ _ _ (hi_tiled _ _ _ _ _ _ Hi) Hb). pose proof (hi_range _ _ _ _ _ _ Hi).
    rewrite (proj2 (Z.eqb_neq (a + 16) 0)) by lia. do 4 eexists. split; [done|]. split; [done|]. split_and!; try done; [lia|].
    by intros x r [= <- _].
Qed.

(** A live block goes to the head of the free list of its size. *)
Lemma hfree_spec b0 e h blocks frees live a s :
  heap_inv b0 e h blocks frees live -> a ∈ live -> hdrs h !! a = Some (s, SLAB_MAGIC) ->
  (hfree (a + 16) h = Halt /\ cache_of h s = None /\ slab_size h < 48) \/
  exists h' blocks' frees' rest, hfree (a + 16) h = Ret (tt, h') /\ heap_inv b0 e h' blocks' frees' (live ∖ {[a]}) /\ avail h' frees' s = a :: rest.
Proof.
  intros Hi Ha Hh. pose proof Hi as [Hr Ht Htab Hlive Hfr Hc]. destruct (Hlive a Ha) as (s' & Hs' & Hb). rewrite Hh in Hs'. injection Hs' as <-.
  destruct (tiled_block _ _ _ _ _ Ht Hb) as (Hlo & Hhi & Hs0 & Hsm & _).
  destruct (bucket_rd h s Htab) as (bucket & Hbk & Hrd & Hco & Hwr).
  assert (forall t, a ∉ frees t) as Hnf by (intros t Hx; by apply Hfr in Hx as [_ ?]).
  assert (forall t sc, cache_of h t = Some sc -> sc_addr sc - 16 <> a) as Hca.
  { intros t sc Hsc He. apply Hc in Hsc as (_ & _ & Hn & _). by rewrite He in Hn. }
  pose proof (heap_inv_drop _ _ _ _ _ _ a Hi) as Hid.
  unfold hfree, free_slab, SLAB_HEADER_SIZE, SLAB_MIN_DATA_SIZE. replace (a + 16 - 16) with a by lia. rewrite (u64_small a) by lia.
  unfold get_hdr. mstep. rewrite Hh, Z.eqb_refl, (proj2 (Z.ltb_ge s 16)) by lia. cbn [negb orb]. mstep. rewrite Hrd. mstep. rewrite <- Hco.
  destruct (cache_of h s) as [sc|] eqn:Hsc.
  - right. rewrite Hwr. destruct (Hc s sc Hsc) as (Hch & Hb1 & Hb2 & Hb3). set (h' := with_table _ _).
    assert (forall t, cache_of h' t = if t =? s then Some (mkSc (sc_addr sc) s a) else cache_of h t) as Hco'.
    { intros t. rewrite (cache_of_table h h' s bucket (set_head s a bucket) Hbk eq_refl).
      - by rewrite find_set_head, Z.eqb_refl, <- Hco.
      - intros t' Hne. by rewrite find_set_head, (proj2 (Z.eqb_neq _ _) Hne). }
    exists h', blocks, (fun t => if t =? s then a :: frees s else frees t), (frees s). split; [done|].
    split; [|unfold avail; by rewrite Hco', Z.eqb_refl].
    apply (heap_inv_update b0 e h h' blocks frees _ a (s, sc_head sc) s (a :: frees s) (sc_addr sc) a); try done.
    + cbn. by rewrite length_insert.
    + set_solver.
    + apply NoDup_cons. split; [done|apply Hfr].
    + intros x [->|Hx]%elem_of_cons; [split; [done|set_solver]|]. apply Hfr in Hx as [? ?]. split; [done|set_solver].
    + cbn. split; [done|]. exists (sc_head sc). rewrite lookup_insert_eq. split; [done|]. by apply chain_other.
    + set_solver.
    + apply not_elem_of_cons. split; [by apply (Hca s)|done].
    + intros t c Ht' _. apply not_elem_of_cons. split; [by apply (Hca t)|]. by apply Hc in Ht' as (_ & _ & _ & ?).
  - destruct (slab_heap_spec _ _ _ _ _ _ sizeof_slab_cache Hid) as [[Hlt Hno]|(Hge & h1 & -> & Hh1 & Ht1 & _ & _ & Hi1)]; [done|done| |].
    { left. rewrite Hno. split; [done|]. split; [done|exact Hlt]. }
    right. destruct (slab_heap_new _ _ _ _ _ _ Hid) as (Hn1 & Hn2 & _).
    rewrite (proj2 (Z.eqb_neq (slab_base h + 16) 0)) by (pose proof (tiled_le _ _ _ Ht); lia).
    cbn [with_hdr slab_hash_table]. rewrite Ht1, Hwr. set (h' := with_table _ _).
    assert (forall t, cache_of h' t = if t =? s then Some (mkSc (slab_base h + 16) s a) else cache_of h1 t) as Hco'.
    { intros t. rewrite (cache_of_table h1 h' s bucket (bucket ++ [mkSc (slab_base h + 16) s a])).
      - rewrite find_app, <- Hco. cbn. by rewrite Z.eqb_refl.
      - by rewrite Ht1.
      - cbn. by rewrite Ht1.
      - intros t' Hne. rewrite find_app. cbn. rewrite (proj2 (Z.eqb_neq s t')) by done. by destruct (find_cache t' bucket). }
    exists h', (blocks ++ [(slab_base h, sizeof_slab_cache)]), (fun t => if t =? s then [a] else frees t), []. split; [done|].
    split; [|unfold avail; by rewrite Hco', Z.eqb_refl].
    apply (heap_inv_update b0 e h1 h' _ frees _ a (s, 0) s [a] (slab_base h + 16) a); try done; cbn;
      try (replace (slab_base h + 16 - 16) with (slab_base h) by lia).
    + by rewrite length_insert.
    + set_solver.
    + apply NoDup_singleton.
    + intros x ->%list_elem_of_singleton. split; [apply elem_of_app; by left|set_solver].
    + split; [done|]. exists 0. by rewrite lookup_insert_eq.
    + apply elem_of_app. right. left.
    + done.
    + rewrite list_elem_of_singleton. lia.
    + done.
    + intros t c Hc1 _. rewrite list_elem_of_singleton. unfold cache_of in Hc1. rewrite Ht1 in Hc1. by apply (Hca t).
Qed.

Lemma halloc_init_ok base end_ h0 :
  0 < base <= end_ -> end_ < 2 ^ 64 -> page_aligned base = true -> page_aligned end_ = true ->
  exists h, halloc_init base end_ h0 = Ret (0, h) /\ heap_ok base end_ h ∅ /\ slab_size h = u32 (end_ - base).
Proof.
  intros Hb He Hp1 Hp2. unfold halloc_init. rewrite (proj2 (Z.ltb_ge _ _)), Hp1, Hp2 by lia. cbn [negb orb]. mstep.
  eexists. split; [done|]. split; [|done]. exists [], (fun _ => []). rewrite page_aligned_spec in Hp1 by lia. apply Z.eqb_eq in Hp1.
  pose proof (wrapu_range 32 (end_ - base)). assert (u32 (end_ - base) <= end_ - base) by (apply Z.mod_le; lia).
  constructor; cbn.
  - split_and!; try lia. rewrite (Z.div_mod base 4096), Hp1 by lia. replace (4096 * (base / 4096) + 0) with (base / 4096 * 256 * 16) by lia. apply Z.mod_mul. lia.
  - done.
  - done.
  - set_solver.
  - intros s. split; [constructor|set_solver].
  - intros s sc. unfold cache_of. cbn. pose proof (hash_range s).
    assert (exists k, Z.to_nat (hash s) = k /\ (k < 8)%nat) as (k & -> & Hk) by (eexists; split; [done|lia]).
    do 8 (destruct k as [|k]; [done|]). lia.
Qed.

(** A one-page heap, fresh and with one block in use. *)
Definition demo_heap : hstate := mkHeap 4096 8192 4096 ∅ (fun _ => 0) (replicate 8 []).
Definition demo_heap1 : hstate := mkHeap 4160 8192 4032 {[4096 := (48, SLAB_MAGIC)]} (fun _ => 0) (replicate 8 []).
Lemma demo_heap_ok : heap_ok 4096 8192 demo_heap ∅.
Proof. destruct (halloc_init_ok 4096 8192 demo_heap) as (h & Hr & Hok & _); [lia|lia|done|done|]. injection Hr as <-. exact Hok. Qed.
Lemma demo_heap1_ok : heap_ok 4096 8192 demo_heap1 {[4096]}.
Proof.
  destruct demo_heap_ok as (blocks & frees & Hi).
  destruct (halloc_spec _ _ _ _ _ _ 40 Hi) as [[Hz _]|(a & h' & bl & fr & Hr & Hi' & _)]; [lia|vm_compute in Hz; discriminate|].
  assert (halloc 40 demo_heap = Ret (4112, demo_heap1)) as Hd by done. rewrite Hd in Hr. injection Hr as He <-.
  assert (a = 4096) as -> by lia. exists bl, fr. by rewrite (union_empty_r_L {[4096]}) in Hi'.
Qed.

(** ** Properties *)

(** C16: [halloc] on a heap in order and for a size of at most 2^64 - 48
    returns NULL, leaving the heap as it is, only when no room is left for the
    rounded size; otherwise it returns a 16-byte aligned block inside the heap,
    at least as large as asked, that overlaps no live block, and the heap stays
    in order with the block live. *)
Theorem halloc_fresh (b0 e : Z) (h : hstate) (live : gset Z) (n : Z) (Hh : heap_ok b0 e h live) (Hn : 0 <= n <= 2 ^ 64 - 48) :
  (halloc n h = Ret (0, h) /\ slab_size h < rounded n + 16) \/
  exists a h', halloc n h = Ret (a + 16, h') /\ heap_ok b0 e h' ({[a]} ∪ live) /\ a ∉ live /\
    a mod 16 = 0 /\ n <= rounded n /\ b0 <= a /\ a + 16 + rounded n <= e /\
    (forall x, x ∈ live -> exists s, hdrs h' !! x = Some (s, SLAB_MAGIC) /\ (a + 16 + rounded n <= x \/ x + 16 + s <= a)).
Proof.
  destruct Hh as (blocks & frees & Hi). destruct (rounded_spec n Hn) as (Hle & _).
  destruct (halloc_spec _ _ _ _ _ _ n Hi Hn) as [?|(a & h' & blocks' & frees' & Hr & Hi' & Hl & Hb & _)]; [by left|right].
  pose proof (hi_tiled _ _ _ _ _ _ Hi') as Ht. pose proof (hi_range _ _ _ _ _ _ Hi') as (_ & Hb0 & Hsz & He).
  destruct (tiled_block _ _ _ _ _ Ht Hb) as (Hlo & Hhi & _ & _ & Hmod).
  exists a, h'. split_and!; try done; [by exists blocks', frees'|by apply Hmod|lia|].
  intros x Hx. destruct (hi_live _ _ _ _ _ _ Hi' x) as (s & Hs & Hxb); [set_solver|]. exists s. split; [done|].
  destruct (tiled_disjoint _ _ _ _ _ _ _ Ht Hb Hxb) as [[-> _]|?]; [done|done].
Qed.

Lemma halloc_fresh_witness : exists a h', halloc 40 demo_heap = Ret (a + 16, h') /\ 4096 <= a /\ a + 16 + 48 <= 8192.
Proof.
  destruct (halloc_fresh 4096 8192 demo_heap ∅ 40 demo_heap_ok) as [[Hz _]|(a & h' & Hr & _ & _ & _ & _ & Hlo & Hhi & _)].
  - lia.
  - vm_compute in Hz. discriminate.
  - exists a, h'. split; [exact Hr|]. split; [exact Hlo|exact Hhi].
Defined.

(** [hfree] of a live block leaves the heap in order with the block no
    longer live, and the next [halloc] of that size returns this very block;
    the first free of a size needs a heap block for its [slab_cache], and
    without room for one it asserts. *)
Theorem hfree_halloc_roundtrip (b0 e : Z) (h : hstate) (live : gset Z) (a s : Z)
  (Hh : heap_ok b0 e h live) (Ha : a ∈ live) (Hs : hdrs h !! a = Some (s, SLAB_MAGIC)) :
  (hfree (a + 16) h = Halt /\ cache_of h s = None /\ slab_size h < 48) \/
  exists h', hfree (a + 16) h = Ret (tt, h') /\ heap_ok b0 e h' (live ∖ {[a]}) /\
    (forall n, 0 <= n <= 2 ^ 64 - 48 -> rounded n = s ->
      exists h'', halloc n h' = Ret (a + 16, h'') /\ heap_ok b0 e h'' live).
Proof.
  destruct Hh as (blocks & frees & Hi).
  destruct (hfree_spec _ _ _ _ _ _ a s Hi Ha Hs) as [?|(h' & blocks' & frees' & rest & Hr & Hi' & Hav)]; [by left|right].
  exists h'. split; [done|]. split; [by exists blocks', frees'|]. intros n Hn <-.
  destruct (halloc_spec _ _ _ _ _ _ n Hi' Hn) as [[Hz _]|(a' & h'' & bl & fr & Hr' & Hi'' & _ & _ & _ & Hx)].
  - exfalso. destruct (hash_table_pop _ _ _ _ _ _ _ _ _ Hi' Hav) as (h1 & Hp & _ & _ & Hb & _ & _). unfold halloc, SLAB_MIN_DATA_SIZE in Hz. fold (rounded n) in Hz.
    pose proof (tiled_block _ _ _ _ _ (hi_tiled _ _ _ _ _ _ Hi') Hb). pose proof (hi_range _ _ _ _ _ _ Hi').
    revert Hz. unfold __halloc. mstep. rewrite Hp, (proj2 (Z.eqb_neq (a + 16) 0)) by lia. intros [= ? _]. lia.
  - rewrite (Hx a rest Hav) in Hr', Hi''. exists h''. split; [done|]. exists bl, fr.
    replace live with ({[a]} ∪ live ∖ {[a]}); [done|]. apply set_eq. intros x. destruct (decide (x = a)) as [->|]; set_solver.
Qed.

Lemma hfree_halloc_roundtrip_witness : exists h' h'', hfree 4112 demo_heap1 = Ret (tt, h') /\ halloc 33 h' = Ret (4112, h'').
Proof.
  destruct (hfree_halloc_roundtrip 4096 8192 demo_heap1 {[4096]} 4096 48 demo_heap1_ok) as [(Hz & _)|(h' & Hr & _ & Hn)].
  - apply elem_of_singleton. reflexivity.
  - reflexivity.
  - vm_compute in Hz. discriminate.
  - destruct (Hn 33 ltac:(lia) eq_refl) as (h'' & Hr' & _). exists h', h''. split; [exact Hr|exact Hr'].
Defined.
