(* ===== verification/Print.v ===== *)
(** * Formatted output (ukern/src/print.c)

    Strings are lists of bytes with their terminating 0.  The output buffer is
    the memory behind its pointer, and the position in it; every store is
    checked against that memory, so writing outside it is a [Fault].  The
    32-byte array the digits are collected in is modelled the same way.  A
    variable argument is what [va_arg] finds: a 64-bit slot or a string. *)
From S2P Require Import Prelude Config Strtol.

(** "0123456789abcdef" and "0123456789ABCDEF". *)
Definition xdigitmap : list Z := [48; 49; 50; 51; 52; 53; 54; 55; 56; 57; 97; 98; 99; 100; 101; 102].
Definition Xdigitmap : list Z := [48; 49; 50; 51; 52; 53; 54; 55; 56; 57; 65; 66; 67; 68; 69; 70].

Inductive va_slot := ASlot (z : Z) | AStr (s : list Z).

(** The buffer and the pointer into it. *)
Abbreviation wbuf := (list Z * Z)%type.
Definition putb (c : Z) (w : wbuf) : outcome wbuf := b ← wr (w.1) (w.2) c; Ret (b, w.2 + 1).

(** [memmove]/[memset] into the array: [bs] at [off]. *)
Definition store (l : list Z) (off : Z) (bs : list Z) : outcome (list Z) :=
  if (0 <=? off) && (off + Z.of_nat (length bs) <=? Z.of_nat (length l))
  then Ret (take (Z.to_nat off) l ++ bs ++ drop (Z.to_nat off + length bs) l) else Fault.

(** The [do] loops that collect the digits, the last one first. *)
Fixpoint dec_loop (fuel : nat) (revnum : list Z) (idx uval : Z) : outcome (list Z * Z) :=
  match fuel with
  | O => Diverge
  | S fuel' =>
      c ← rd xdigitmap (uval mod 10);
      revnum ← wr revnum idx c;
      let idx := idx + 1 in
      let uval := uval / 10 in
      if uval =? 0 then Ret (revnum, idx) else dec_loop fuel' revnum idx uval
  end.
Fixpoint hex_loop (fuel : nat) (map : list Z) (revhex : list Z) (idx val : Z) : outcome (list Z * Z) :=
  match fuel with
  | O => Diverge
  | S fuel' =>
      c ← rd map (Z.land val 0xf);
      revhex ← wr revhex idx c;
      let idx := idx + 1 in
      let val := Z.shiftr val 4 in
      if val =? 0 then Ret (revhex, idx) else hex_loop fuel' map revhex idx val
  end.

(** The padding, behind the digits or (with [minus]) in front of them. *)
Definition pad_rev (rev : list Z) (idx minw : Z) (minus zeropad : bool) : outcome (list Z * Z) :=
  let pad := if idx <? minw then minw - idx else 0 in
  let fill := replicate (Z.to_nat pad) (if zeropad then 48 else 32) in
  rev ← (if minus then rev ← store rev pad (take (Z.to_nat idx) rev); store rev 0 fill
         else store rev idx fill);
  Ret (rev, idx + pad).

(** [while (--idx >= 0 && buf < bufend) *buf++ = rev[idx];] *)
Fixpoint emit_rev (n : nat) (rev : list Z) (bufend : Z) (w : wbuf) : outcome wbuf :=
  match n with
  | O => Ret w
  | S n' =>
      if w.2 <? bufend then c ← rd rev (Z.of_nat n'); w ← putb c w; emit_rev n' rev bufend w
      else Ret w
  end.

Definition rev0 : list Z := replicate 32 0.

(** 20 digits hold any 64-bit number. *)
Definition fmt_d (bufend val minw : Z) (minus zeropad is_64 : bool) (w : wbuf) : outcome wbuf :=
  let '(is_neg, uval) :=
    if negb is_64 && (s32 val <? 0) then (true, u32 (- val))
    else if is_64 && (val <? 0) then (true, u64 (- val))
    else (false, u64 val) in
  '(rev, idx) ← dec_loop 20 rev0 0 uval;
  '(rev, idx) ← (if (is_neg : bool) then rev ← wr rev idx 45; Ret (rev, idx + 1) else Ret (rev, idx));
  '(rev, idx) ← pad_rev rev idx minw minus zeropad;
  emit_rev (Z.to_nat idx) rev bufend w.

Definition fmt_u (bufend val minw : Z) (minus zeropad : bool) (w : wbuf) : outcome wbuf :=
  '(rev, idx) ← dec_loop 20 rev0 0 val;
  '(rev, idx) ← pad_rev rev idx minw minus zeropad;
  emit_rev (Z.to_nat idx) rev bufend w.

(** 16 digits. *)
Definition fmt_lx (bufend val minw : Z) (minus zeropad is_upper : bool) (w : wbuf) : outcome wbuf :=
  '(rev, idx) ← hex_loop 16 (if is_upper then Xdigitmap else xdigitmap) rev0 0 val;
  '(rev, idx) ← pad_rev rev idx minw minus zeropad;
  emit_rev (Z.to_nat idx) rev bufend w.
Definition fmt_x (bufend val minw : Z) (minus zeropad is_upper : bool) (w : wbuf) : outcome wbuf :=
  fmt_lx bufend (u32 val) minw minus zeropad is_upper w.

(** The prefix is stored without looking at [bufend]. *)
Definition fmt_p (bufend val : Z) (w : wbuf) : outcome wbuf :=
  w ← putb 48 w;
  w ← putb 120 w;
  '(rev, idx) ← hex_loop 16 xdigitmap rev0 0 val;
  emit_rev (Z.to_nat idx) rev bufend w.

Fixpoint puts_upto (bufend : Z) (s : list Z) (w : wbuf) : outcome wbuf :=
  match s with
  | [] => Ret w
  | c :: s' => if w.2 <? bufend then w ← putb c w; puts_upto bufend s' w else Ret w
  end.
(** [s] without its terminator. *)
Definition fmt_s (bufend : Z) (s : list Z) (minw : Z) (minus : bool) (w : wbuf) : outcome wbuf :=
  let len := Z.of_nat (length s) in
  _ ← assert_ (0 <? len);
  let pad := if len <? minw then minw - len else 0 in
  let fill := replicate (Z.to_nat pad) 32 in
  if minus then w ← puts_upto bufend s w; puts_upto bufend fill w
  else w ← puts_upto bufend fill w; puts_upto bufend s w.

(** ** vsnprintf *)

Fixpoint scan_flags (fmt : list Z) (zeropad minus : bool) : outcome (list Z * bool * bool) :=
  match fmt with
  | [] => Fault
  | c :: fmt' =>
      if c =? 48 then scan_flags fmt' true minus
      else if c =? 45 then scan_flags fmt' zeropad true
      else Ret (fmt, zeropad, minus)
  end.
Fixpoint scan_width (fmt : list Z) (minw : Z) : outcome (list Z * Z) :=
  match fmt with
  | [] => Fault
  | c :: fmt' => if (48 <=? c) && (c <=? 57) then scan_width fmt' (s32 (minw * 10 + (c - 48))) else Ret (fmt, minw)
  end.

Definition va_int (ap : list va_slot) : outcome (Z * list va_slot) :=
  match ap with ASlot z :: ap' => Ret (z, ap') | _ => Fault end.
Definition va_str (ap : list va_slot) : outcome (list Z * list va_slot) :=
  match ap with AStr s :: ap' => Ret (s, ap') | _ => Fault end.

(** The [switch]: [fmt] starts at the conversion character.  The format from
    the character the conversion ends at, or [None] for [goto label_ret]. *)
Definition convert (bufend : Z) (fmt : list Z) (minw : Z) (minus zeropad : bool) (ap : list va_slot) (w : wbuf) :
    outcome (option (list Z * list va_slot * wbuf)) :=
  c ← peek_at fmt 0;
  if c =? 99 then '(z, ap) ← va_int ap; w ← putb (u8 z) w; Ret (Some (fmt, ap, w))                                       (* c *)
  else if c =? 108 then                                                                                                  (* l *)
    let fmt := drop 1 fmt in
    c ← peek_at fmt 0;
    if c =? 100 then '(z, ap) ← va_int ap; w ← fmt_d bufend (s64 z) minw minus zeropad true w; Ret (Some (fmt, ap, w))     (* d *)
    else if c =? 120 then '(z, ap) ← va_int ap; w ← fmt_lx bufend (u64 z) minw minus zeropad false w; Ret (Some (fmt, ap, w)) (* x *)
    else if c =? 88 then '(z, ap) ← va_int ap; w ← fmt_lx bufend (u64 z) minw minus zeropad true w; Ret (Some (fmt, ap, w)) (* X *)
    else if c =? 117 then '(z, ap) ← va_int ap; w ← fmt_u bufend (u64 z) minw minus zeropad w; Ret (Some (fmt, ap, w))     (* u *)
    else Ret (Some (fmt, ap, w))
  else if c =? 100 then '(z, ap) ← va_int ap; w ← fmt_d bufend (s64 z) minw minus zeropad false w; Ret (Some (fmt, ap, w)) (* d *)
  else if c =? 117 then '(z, ap) ← va_int ap; w ← fmt_u bufend (u64 z) minw minus zeropad w; Ret (Some (fmt, ap, w))       (* u *)
  else if c =? 120 then '(z, ap) ← va_int ap; w ← fmt_x bufend z minw minus zeropad false w; Ret (Some (fmt, ap, w))       (* x *)
  else if c =? 88 then '(z, ap) ← va_int ap; w ← fmt_x bufend z minw minus zeropad true w; Ret (Some (fmt, ap, w))         (* X *)
  else if c =? 112 then '(z, ap) ← va_int ap; w ← fmt_p bufend (u64 z) w; Ret (Some (fmt, ap, w))                          (* p *)
  else if c =? 115 then '(s, ap) ← va_str ap; w ← fmt_s bufend s minw minus w; Ret (Some (fmt, ap, w))                     (* s *)
  else if c =? 98 then Ret (Some (fmt, ap, w))                                                                           (* b *)
  else Ret None.

(** The loop; every round takes at least one character of the format. *)
Fixpoint vsn_loop (fuel : nat) (bufend : Z) (fmt : list Z) (ap : list va_slot) (w : wbuf) : outcome wbuf :=
  match fuel with
  | O => Diverge
  | S fuel' =>
      if w.2 <? bufend then
        c ← peek_at fmt 0;
        if c =? 0 then Ret w
        else if c =? 37 then
          '(fmt, zeropad, minus) ← scan_flags (drop 1 fmt) false false;
          '(fmt, minw) ← scan_width fmt 0;
          r ← convert bufend fmt minw minus zeropad ap w;
          match r with
          | Some (fmt, ap, w) => vsn_loop fuel' bufend (drop 1 fmt) ap w
          | None => Ret w
          end
        else w ← putb c w; vsn_loop fuel' bufend (drop 1 fmt) ap w
      else Ret w
  end.

(** [buf] is the memory from the buffer on. *)
Definition vsnprintf (buf : list Z) (size : Z) (fmt : list Z) (ap : list va_slot) : outcome (Z * list Z) :=
  w ← vsn_loop (S (length fmt)) (size - 1) fmt ap (buf, 0);
  b ← wr (w.1) (w.2) 0;
  Ret (w.2, b).
Definition snprintf := vsnprintf.
(** A fixed bound, whatever the buffer. *)
Definition sprintf (buf : list Z) (fmt : list Z) (ap : list va_slot) : outcome (Z * list Z) := vsnprintf buf 256 fmt ap.

(** The bytes [printf] sends to the console, and the static buffer after it. *)
Definition printf (pbuf : list Z) (fmt : list Z) (ap : list va_slot) : outcome (list Z * list Z) :=
  '(count, pbuf) ← vsnprintf pbuf 4096 fmt ap;
  Ret (take (Z.to_nat count) pbuf, pbuf).
Definition vprintf (pbuf : list Z) (fmt : list Z) (ap : list va_slot) : outcome (list Z * list Z) :=
  '(count, pbuf) ← vsnprintf pbuf 4096 fmt ap;
  Ret (take (Z.to_nat count) pbuf, pbuf).
(** The bytes [puts] sends and its result; [buf] must hold a terminator. *)
Fixpoint puts (buf : list Z) : outcome (list Z * Z) :=
  match buf with
  | [] => Fault
  | c :: buf' => if c =? 0 then Ret ([], 0) else '(out, n) ← puts buf'; Ret (c :: out, n + 1)
  end.
Definition print_space (cnt : Z) : list Z := replicate (Z.to_nat cnt) 32.

(** ** Writing into the buffer *)

(** [cs] stored from the pointer on. *)
Definition wput (w : wbuf) (cs : list Z) : wbuf :=
  (take (Z.to_nat (w.2)) (w.1) ++ cs ++ drop (Z.to_nat (w.2) + length cs) (w.1), w.2 + Z.of_nat (length cs)).
(** The pointer is inside the memory up to [bufend]. *)
Definition wok (bufend : Z) (w : wbuf) : Prop := 0 <= w.2 <= bufend /\ bufend < Z.of_nat (length (w.1)).

Lemma wput_nil w : wput w [] = w.
Proof. destruct w as [b p]. unfold wput. cbn. by rewrite Nat.add_0_r, take_drop, Z.add_0_r. Qed.
Lemma wput_length w cs : 0 <= w.2 -> w.2 + Z.of_nat (length cs) <= Z.of_nat (length (w.1)) -> length ((wput w cs).1) = length (w.1).
Proof. intros H1 H2. unfold wput. cbn. rewrite !length_app, length_take, length_drop. lia. Qed.
Lemma wput_app w a b :
  0 <= w.2 -> w.2 + Z.of_nat (length a + length b) <= Z.of_nat (length (w.1)) -> wput (wput w a) b = wput w (a ++ b).
Proof.
  destruct w as [l p]. unfold wput. cbn [fst snd]. intros H1 H2.
  rewrite Z2Nat.inj_add, Nat2Z.id by lia. set (n := Z.to_nat p).
  assert (length (take n l) = n) as Hn by (rewrite length_take; unfold n; lia).
  f_equal; [|rewrite length_app; lia].
  rewrite (app_assoc (take n l) a), take_app_length' by (rewrite length_app; lia).
  rewrite <- !app_assoc. do 3 f_equal. rewrite app_assoc, drop_app_ge by (rewrite length_app; lia).
  rewrite length_app, Hn, drop_drop, length_app. f_equal. lia.
Qed.
Lemma putb_spec c w : 0 <= w.2 < Z.of_nat (length (w.1)) -> putb c w = Ret (wput w [c]).
Proof.
  intros H. unfold putb. rewrite wr_in by done. cbn [mbind outcome_bind]. unfold wput. cbn [length]. do 2 f_equal.
  rewrite insert_take_drop by lia. do 3 f_equal. lia.
Qed.

(** The room left before [bufend]. *)
Abbreviation room e w := (Z.to_nat (e - (w : wbuf).2)).

Lemma wok_put e w cs : wok e w -> wok e (wput w (take (room e w) cs)).
Proof.
  intros [H1 H2]. pose proof (length_take cs (room e w)) as Hl. split.
  - cbn [wput snd]. lia.
  - rewrite wput_length by lia. done.
Qed.

Lemma puts_upto_spec e s w : wok e w -> puts_upto e s w = Ret (wput w (take (room e w) s)).
Proof.
  revert w. induction s as [|c s IH]; intros w Hw; cbn [puts_upto]; [by rewrite take_nil, wput_nil|].
  destruct Hw as [H1 H2]. destruct (Z.ltb_spec (w.2) e) as [Hlt|Hge].
  - rewrite putb_spec by lia. cbn [mbind outcome_bind].
    rewrite IH by (split; [cbn; lia|rewrite wput_length; cbn; lia]).
    replace (room e w) with (S (Z.to_nat (e - (w.2 + 1)))) by lia. cbn [take]. cbn [wput snd length].
    change (w.2 + Z.of_nat 1) with (w.2 + 1). f_equal. fold (wput w [c]).
    pose proof (length_take s (Z.to_nat (e - (w.2 + 1)))). rewrite wput_app by (cbn; lia). done.
  - replace (room e w) with O by lia. cbn [take]. by rewrite wput_nil.
Qed.

(** Writing one text after another. *)
Lemma wput_seq e w a b : wok e w ->
  wput (wput w (take (room e w) a)) (take (room e (wput w (take (room e w) a))) b) = wput w (take (room e w) (a ++ b)).
Proof.
  intros [H1 H2]. change ((wput w (take (room e w) a)).2) with (w.2 + Z.of_nat (length (take (room e w) a))). rewrite length_take.
  pose proof (length_take a (room e w)). pose proof (length_take b (Z.to_nat (e - (w.2 + Z.of_nat (room e w `min` length a))))).
  rewrite wput_app by lia. rewrite take_app. do 3 f_equal. lia.
Qed.

Lemma emit_rev_puts n rev e w : (n <= length rev)%nat -> emit_rev n rev e w = puts_upto e (reverse (take n rev)) w.
Proof.
  revert w. induction n as [|n IH]; intros w Hn; [done|].
  destruct (lookup_lt_is_Some_2 rev n Hn) as [c Hc]. cbn [emit_rev].
  rewrite (take_S_r _ _ _ Hc), reverse_app. cbn. rewrite (rd_lookup rev (Z.of_nat n) c) by (lia || by rewrite Nat2Z.id).
  cbn [mbind outcome_bind]. destruct (w.2 <? e); [|done]. destruct (putb c w); [|done..]. apply IH. lia.
Qed.

(** ** Digits *)

(** The digits of [n], last one first. *)
Fixpoint digs (fuel : nat) (b n : Z) : list Z :=
  match fuel with O => [] | S fuel' => n mod b :: (if n / b =? 0 then [] else digs fuel' b (n / b)) end.
Definition digit_char (map : list Z) (d : Z) : Z := nth (Z.to_nat d) map 0.
Definition num_text (map : list Z) (b n : Z) : list Z := reverse (digit_char map <$> digs (if b =? 16 then 16 else 20) b n).

(** Both digit loops are this one. *)
Fixpoint dig_loop (fuel : nat) (b : Z) (map : list Z) (rev : list Z) (idx n : Z) : outcome (list Z * Z) :=
  match fuel with
  | O => Diverge
  | S fuel' =>
      c ← rd map (n mod b);
      rev ← wr rev idx c;
      if n / b =? 0 then Ret (rev, idx + 1) else dig_loop fuel' b map rev (idx + 1) (n / b)
  end.
Lemma dec_loop_dig fuel rev idx n : dec_loop fuel rev idx n = dig_loop fuel 10 xdigitmap rev idx n.
Proof.
  revert rev idx n. induction fuel as [|fuel IH]; intros; [done|]. cbn [dec_loop dig_loop].
  destruct (rd xdigitmap (n mod 10)); [|done..]. cbn [mbind outcome_bind]. destruct (wr rev idx a); [|done..]. cbn [mbind outcome_bind].
  destruct (n / 10 =? 0); [done|apply IH].
Qed.
Lemma hex_loop_dig fuel map rev idx n : hex_loop fuel map rev idx n = dig_loop fuel 16 map rev idx n.
Proof.
  revert rev idx n. induction fuel as [|fuel IH]; intros; [done|]. cbn [hex_loop dig_loop].
  change 15 with (Z.ones 4). rewrite Z.land_ones, Z.shiftr_div_pow2 by lia. change (2 ^ 4) with 16.
  destruct (rd map (n mod 16)); [|done..]. cbn [mbind outcome_bind]. destruct (wr rev idx a); [|done..]. cbn [mbind outcome_bind].
  destruct (n / 16 =? 0); [done|apply IH].
Qed.

Lemma dig_loop_spec fuel b map pre post n :
  1 < b <= Z.of_nat (length map) -> 0 <= n < b ^ Z.of_nat fuel -> (0 < fuel)%nat -> (fuel <= length post)%nat ->
  dig_loop fuel b map (pre ++ post) (Z.of_nat (length pre)) n =
    Ret (pre ++ (digit_char map <$> digs fuel b n) ++ drop (length (digs fuel b n)) post, Z.of_nat (length pre + length (digs fuel b n))).
Proof.
  intros Hb. revert pre post n. induction fuel as [|fuel IH]; intros pre post n Hn Hf Hp; [lia|].
  destruct post as [|x post]; [simpl in Hp; lia|]. cbn [dig_loop digs].
  pose proof (Z.mod_pos_bound n b ltac:(lia)) as Hm. destruct (rd_in map (n mod b)) as [c Hc]; [lia|]. rewrite Hc. cbn [mbind outcome_bind].
  assert (digit_char map (n mod b) = c) as Hdc by (apply rd_Ret in Hc as [_ Hc]; unfold digit_char; by apply nth_lookup_Some).
  rewrite wr_in by (rewrite length_app; cbn; lia). cbn [mbind outcome_bind]. rewrite Nat2Z.id.
  rewrite insert_app_r_alt, Nat.sub_diag by lia. cbn [insert list_insert].
  destruct (Z.eqb_spec (n / b) 0) as [Hz|Hnz].
  - cbn. rewrite Hdc. do 2 f_equal. lia.
  - rewrite Nat2Z.inj_succ, Z.pow_succ_r in Hn by lia.
    assert (0 <= n / b < b ^ Z.of_nat fuel) as Hq by (split; [apply Z.div_pos; lia|apply Z.div_lt_upper_bound; lia]).
    assert (0 < fuel)%nat as Hf' by (destruct fuel; [cbn in Hq; lia|lia]).
    replace (pre ++ c :: post) with ((pre ++ [c]) ++ post) by (by rewrite <- app_assoc).
    replace (Z.of_nat (length pre) + 1) with (Z.of_nat (length (pre ++ [c]))) by (rewrite length_app; cbn; lia).
    rewrite IH by (done || (simpl in Hp; lia)). rewrite length_app. cbn. rewrite Hdc, <- app_assoc. do 2 f_equal. lia.
Qed.

Lemma digs_length fuel b n : (length (digs fuel b n) <= fuel)%nat /\ ((0 < fuel)%nat -> (0 < length (digs fuel b n))%nat).
Proof. revert n. induction fuel as [|fuel IH]; intros n; cbn; [lia|]. destruct (n / b =? 0); cbn; [lia|]. destruct (IH (n / b)). lia. Qed.

(** ** What each conversion prints *)

(** Fill up to the width. *)
Definition padded_text (minw : Z) (minus zeropad : bool) (s : list Z) : list Z :=
  let fill := replicate (Z.to_nat (minw - Z.of_nat (length s))) (if zeropad then 48 else 32) in
  if minus then s ++ fill else fill ++ s.

Lemma store_app (a b c bs : list Z) : length b = length bs -> store (a ++ b ++ c) (Z.of_nat (length a)) bs = Ret (a ++ bs ++ c).
Proof.
  intros Hl. unfold store. rewrite (proj2 (Z.leb_le 0 _)), (proj2 (Z.leb_le _ _)) by (rewrite ?length_app; lia). cbn [andb].
  rewrite Nat2Z.id, take_app_length. do 3 f_equal. rewrite app_assoc, drop_app_length'; [done|]. rewrite length_app. lia.
Qed.

(** The padded digits are in the array in reverse. *)
Lemma pad_rev_spec s post minw minus zeropad :
  Z.max (Z.of_nat (length s)) minw <= Z.of_nat (length s + length post) ->
  exists post', pad_rev (s ++ post) (Z.of_nat (length s)) minw minus zeropad =
    Ret (reverse (padded_text minw minus zeropad (reverse s)) ++ post', Z.of_nat (length (padded_text minw minus zeropad (reverse s)))).
Proof.
  intros Hb. unfold pad_rev, padded_text. rewrite length_reverse.
  set (pad := if Z.of_nat (length s) <? minw then minw - Z.of_nat (length s) else 0).
  assert (Z.to_nat (minw - Z.of_nat (length s)) = Z.to_nat pad /\ 0 <= pad /\ (Z.to_nat pad <= length post)%nat) as (-> & Hp & Hpl)
    by (unfold pad; destruct (Z.ltb_spec (Z.of_nat (length s)) minw); lia).
  set (ch := if zeropad then 48 else 32). set (n := Z.to_nat pad) in *.
  assert (length (replicate n ch) = n) as Hr by apply length_replicate. rewrite Nat2Z.id, take_app_length.
  destruct minus.
  - assert (length (take n (s ++ post)) = n) as Ht by (rewrite length_take, length_app; lia).
    assert (exists mid post', s ++ post = take n (s ++ post) ++ mid ++ post' /\ length mid = length s) as (mid & post' & He & Hm).
    { exists (take (length s) (drop n (s ++ post))), (drop (length s) (drop n (s ++ post))). rewrite !take_drop. split; [done|].
      rewrite length_take, length_drop, length_app. lia. }
    exists post'. rewrite He at 1. replace pad with (Z.of_nat (length (take n (s ++ post)))) by lia. rewrite store_app by done. cbn [mbind outcome_bind].
    pose proof (store_app [] (take n (s ++ post)) (s ++ post') (replicate n ch) ltac:(lia)) as Hst. cbn [app length] in Hst. change (Z.of_nat 0) with 0 in Hst. rewrite Hst.
    cbn [mbind outcome_bind]. rewrite reverse_app, reverse_involutive, reverse_replicate, length_app, length_reverse, Hr, <- app_assoc. do 2 f_equal. lia.
  - exists (drop n post). rewrite <- (take_drop n post) at 1. rewrite store_app by (rewrite length_take; lia). cbn [mbind outcome_bind].
    rewrite reverse_app, reverse_involutive, reverse_replicate, length_app, length_reverse, Hr, <- app_assoc. do 2 f_equal. lia.
Qed.

Lemma emit_text e w t post : wok e w -> emit_rev (length t) (reverse t ++ post) e w = Ret (wput w (take (room e w) t)).
Proof.
  intros Hw. rewrite emit_rev_puts by (rewrite length_app, length_reverse; lia).
  rewrite take_app_length' by (by rewrite length_reverse). rewrite reverse_involutive. by apply puts_upto_spec.
Qed.

(** Digits followed by their padding, as every numeric conversion prints them. *)
Lemma pad_emit e w s post minw minus zeropad :
  wok e w -> Z.max (Z.of_nat (length s)) minw <= Z.of_nat (length s + length post) ->
  ('(rev, idx) ← pad_rev (s ++ post) (Z.of_nat (length s)) minw minus zeropad; emit_rev (Z.to_nat idx) rev e w) =
    Ret (wput w (take (room e w) (padded_text minw minus zeropad (reverse s)))).
Proof.
  intros Hw Hb. destruct (pad_rev_spec s post minw minus zeropad Hb) as [post' ->]. cbn [mbind outcome_bind].
  rewrite Nat2Z.id. by apply emit_text.
Qed.

Definition dec_text (v : Z) : list Z := (if v <? 0 then [45] else []) ++ num_text xdigitmap 10 (Z.abs v).

Lemma dec_text_length v : dec_text v <> [] /\ (length (dec_text v) <= 21)%nat.
Proof.
  unfold dec_text, num_text. pose proof (digs_length 20 10 (Z.abs v)) as [Hl Hpos]. specialize (Hpos ltac:(lia)). cbn [Z.eqb].
  split; [intros He; apply (f_equal length) in He|]; rewrite length_app, length_reverse, length_fmap in *; destruct (v <? 0); cbn in *; lia.
Qed.
Lemma padded_text_0 s : padded_text 0 false false s = s.
Proof. unfold padded_text. by replace (Z.to_nat (0 - Z.of_nat (length s))) with O by lia. Qed.

Lemma dec_loop_text n : 0 <= n < 2 ^ 64 ->
  dec_loop 20 rev0 0 n = Ret (reverse (num_text xdigitmap 10 n) ++ replicate (32 - length (num_text xdigitmap 10 n)) 0, Z.of_nat (length (num_text xdigitmap 10 n))) /\
  (length (num_text xdigitmap 10 n) <= 20)%nat.
Proof.
  intros Hn. rewrite dec_loop_dig. pose proof (dig_loop_spec 20 10 xdigitmap [] rev0 n) as H. cbn [app length Nat.add] in H.
  change (Z.of_nat 0) with 0 in H. rewrite H by (cbn; lia). unfold num_text. rewrite length_reverse, reverse_involutive, length_fmap.
  split; [by unfold rev0; rewrite drop_replicate|apply digs_length].
Qed.
Lemma hex_loop_text map n : length map = 16%nat -> 0 <= n < 2 ^ 64 ->
  hex_loop 16 map rev0 0 n = Ret (reverse (num_text map 16 n) ++ replicate (32 - length (num_text map 16 n)) 0, Z.of_nat (length (num_text map 16 n))) /\
  (length (num_text map 16 n) <= 16)%nat.
Proof.
  intros Hm Hn. rewrite hex_loop_dig. pose proof (dig_loop_spec 16 16 map [] rev0 n) as H. cbn [app length Nat.add] in H.
  change (Z.of_nat 0) with 0 in H. rewrite H by (cbn; lia). unfold num_text. rewrite length_reverse, reverse_involutive, length_fmap.
  split; [by unfold rev0; rewrite drop_replicate|apply digs_length].
Qed.

Lemma fmt_u_spec e w n minw minus zeropad :
  wok e w -> 0 <= n < 2 ^ 64 -> minw <= 32 ->
  fmt_u e n minw minus zeropad w = Ret (wput w (take (room e w) (padded_text minw minus zeropad (dec_text n)))).
Proof.
  intros Hw Hn Hm. unfold fmt_u. destruct (dec_loop_text n Hn) as [-> Hl]. cbn [mbind outcome_bind].
  rewrite <- (length_reverse (num_text xdigitmap 10 n)) at 2. rewrite pad_emit by (done || (rewrite length_reverse, length_replicate; lia)).
  rewrite reverse_involutive. unfold dec_text. by rewrite (proj2 (Z.ltb_ge n 0)), Z.abs_eq by lia.
Qed.

Lemma fmt_lx_spec e w n minw minus zeropad up :
  wok e w -> 0 <= n < 2 ^ 64 -> minw <= 32 ->
  fmt_lx e n minw minus zeropad up w = Ret (wput w (take (room e w) (padded_text minw minus zeropad (num_text (if up then Xdigitmap else xdigitmap) 16 n)))).
Proof.
  intros Hw Hn Hm. unfold fmt_lx. destruct (hex_loop_text (if up then Xdigitmap else xdigitmap) n) as [-> Hl]; [by destruct up|done|]. cbn [mbind outcome_bind].
  rewrite <- (length_reverse (num_text _ 16 n)) at 2. rewrite pad_emit by (done || (rewrite length_reverse, length_replicate; lia)).
  by rewrite reverse_involutive.
Qed.

(** What [%d] and [%ld] take a slot for: [%d] looks at the low half only to
    find a negative number. *)
Definition signed_of (is_64 : bool) (z : Z) : Z :=
  if is_64 then s64 z else if s32 (s64 z) <? 0 then s32 (s64 z) else u64 z.

Lemma u32_neg_s32 v : s32 v < 0 -> u32 (- v) = - s32 v.
Proof.
  intros Hn. pose proof (wraps_range 32 v ltac:(lia)) as Hr. unfold wraps, wrapu in *.
  change (2 ^ (32 - 1)) with 2147483648 in *. change (2 ^ 32) with 4294967296 in *.
  pose proof (Z.div_mod (v + 2147483648) 4294967296 ltac:(lia)) as Hd.
  symmetry. apply (Z.mod_unique_pos _ _ (- ((v + 2147483648) / 4294967296))); lia.
Qed.
Lemma u64_s64 z : u64 (s64 z) = u64 z.
Proof.
  unfold wraps, wrapu. change (64 - 1) with 63. rewrite Zminus_mod_idemp_l. f_equal. lia.
Qed.

Lemma fmt_d_spec e w z minw minus zeropad is_64 :
  wok e w -> minw <= 32 ->
  fmt_d e (s64 z) minw minus zeropad is_64 w = Ret (wput w (take (room e w) (padded_text minw minus zeropad (dec_text (signed_of is_64 z))))).
Proof.
  intros Hw Hm. set (v := signed_of is_64 z).
  pose proof (wraps_range 64 z ltac:(lia)) as Hr. cbn in Hr. pose proof (wraps_range 32 (s64 z) ltac:(lia)) as Hr32. cbn in Hr32.
  pose proof (wrapu_range 64 z ltac:(lia)) as Hru. cbn in Hru.
  assert ((if negb is_64 && (s32 (s64 z) <? 0) then (true, u32 (- s64 z)) else if is_64 && (s64 z <? 0) then (true, u64 (- s64 z)) else (false, u64 (s64 z))) =
    (v <? 0, Z.abs v) /\ Z.abs v < 2 ^ 64) as [Huv Hlt].
  { unfold v, signed_of. destruct is_64; cbn [negb andb].
    - destruct (Z.ltb_spec (s64 z) 0) as [Hn|Hn]; rewrite u64_small by lia; (split; [f_equal; lia|lia]).
    - destruct (Z.ltb_spec (s32 (s64 z)) 0) as [Hn|Hn].
      + rewrite u32_neg_s32, (proj2 (Z.ltb_lt _ 0)) by lia. split; [f_equal; lia|lia].
      + rewrite u64_s64, (proj2 (Z.ltb_ge _ 0)) by lia. split; [f_equal; lia|lia]. }
  unfold fmt_d. rewrite Huv. clearbody v. destruct (dec_loop_text (Z.abs v)) as [-> Hl]; [lia|]. cbn [mbind outcome_bind].
  unfold dec_text. set (t := num_text xdigitmap 10 (Z.abs v)) in *.
  destruct (v <? 0); cbn [mbind outcome_bind app].
  - rewrite wr_in by (rewrite length_app, length_reverse, length_replicate; lia). cbn [mbind outcome_bind].
    rewrite Nat2Z.id, insert_app_r_alt by (rewrite length_reverse; lia). rewrite length_reverse, Nat.sub_diag.
    replace (32 - length t)%nat with (S (31 - length t)) by lia. cbn [replicate insert list_insert].
    replace (reverse t ++ 45 :: replicate (31 - length t) 0) with ((reverse t ++ [45]) ++ replicate (31 - length t) 0) by (by rewrite <- app_assoc).
    replace (Z.of_nat (length t) + 1) with (Z.of_nat (length (reverse t ++ [45]))) by (rewrite length_app, length_reverse; cbn; lia).
    rewrite pad_emit by (done || (rewrite length_app, length_reverse, length_replicate; cbn; lia)).
    by rewrite reverse_app, reverse_involutive.
  - rewrite <- (length_reverse t) at 2. rewrite pad_emit by (done || (rewrite length_reverse, length_replicate; lia)).
    by rewrite reverse_involutive.
Qed.

Lemma fmt_s_spec e w s minw minus :
  wok e w -> s <> [] -> fmt_s e s minw minus w = Ret (wput w (take (room e w) (padded_text minw minus false s))).
Proof.
  intros Hw Hs. unfold fmt_s, padded_text. destruct s as [|c s]; [done|]. set (t := c :: s).
  assert (0 < Z.of_nat (length t)) by (cbn; lia). unfold assert_. rewrite (proj2 (Z.ltb_lt 0 _)) by done. cbn [mbind outcome_bind].
  replace (if Z.of_nat (length t) <? minw then minw - Z.of_nat (length t) else 0) with (Z.max 0 (minw - Z.of_nat (length t)))
    by (destruct (Z.ltb_spec (Z.of_nat (length t)) minw); lia).
  replace (Z.to_nat (Z.max 0 (minw - Z.of_nat (length t)))) with (Z.to_nat (minw - Z.of_nat (length t))) by lia.
  destruct minus; rewrite puts_upto_spec by done; cbn [mbind outcome_bind]; rewrite puts_upto_spec by (by apply wok_put); by rewrite wput_seq.
Qed.

(** ** Formats as lists of directives *)

Inductive conv :=
| CChar (z : Z) | CDec (long : bool) (z : Z) | CUns (long : bool) (z : Z) | CHex (long up : bool) (z : Z) | CStr (s : list Z) | CBin.
(** Plain text, or a conversion with its flags (the characters 0 and -) and
    the digits of its width. *)
Inductive directive := Lit (c : Z) | Conv (flags width : list Z) (c : conv).

Definition conv_fmt (c : conv) : list Z :=
  match c with
  | CChar _ => [99]
  | CDec l _ => (if l then [108] else []) ++ [100]
  | CUns l _ => (if l then [108] else []) ++ [117]
  | CHex l up _ => (if l then [108] else []) ++ [if up then 88 else 120]
  | CStr _ => [115]
  | CBin => [98]
  end.
Definition conv_args (c : conv) : list va_slot :=
  match c with CChar z | CDec _ z | CUns _ z | CHex _ _ z => [ASlot z] | CStr s => [AStr s] | CBin => [] end.
Definition conv_text (minw : Z) (minus zeropad : bool) (c : conv) : list Z :=
  match c with
  | CChar z => [u8 z]
  | CDec l z => padded_text minw minus zeropad (dec_text (signed_of l z))
  | CUns _ z => padded_text minw minus zeropad (dec_text (u64 z))
  | CHex l up z => padded_text minw minus zeropad (num_text (if up then Xdigitmap else xdigitmap) 16 (if l then u64 z else u32 z))
  | CStr s => padded_text minw minus false s
  | CBin => []
  end.

Definition dir_fmt (d : directive) : list Z :=
  match d with Lit c => [c] | Conv fl wd c => 37 :: fl ++ ((fun x => x + 48) <$> wd) ++ conv_fmt c end.
Definition dir_args (d : directive) : list va_slot := match d with Lit _ => [] | Conv _ _ c => conv_args c end.
Definition dir_text (d : directive) : list Z :=
  match d with
  | Lit c => [c]
  | Conv fl wd c => conv_text (value 10 wd) (bool_decide (45 ∈ fl)) (bool_decide (48 ∈ fl)) c
  end.
(** A width of at most 32 that starts with no zero (which would be a flag). *)
Definition dir_wf (d : directive) : Prop :=
  match d with
  | Lit c => c <> 0 /\ c <> 37
  | Conv fl wd c => Forall (fun f => f = 48 \/ f = 45) fl /\ Forall (fun x => 0 <= x <= 9) wd /\ head wd <> Some 0 /\ value 10 wd <= 32
  end.
(** The empty string for [%s], on which [fmt_s] asserts. *)
Definition no_string (c : conv) : bool := match c with CStr [] => true | _ => false end.
Definition dir_empty (d : directive) : bool := match d with Lit _ => false | Conv _ _ c => no_string c end.
(** An empty string is reached before [room] characters are printed. *)
Fixpoint hits_empty (room : nat) (ds : list directive) : bool :=
  match room, ds with
  | O, _ | _, [] => false
  | _, d :: ds' => dir_empty d || hits_empty (room - length (dir_text d)) ds'
  end.
(** Directives that print. *)
Definition dir_ok (d : directive) : Prop := dir_wf d /\ dir_empty d = false.
Lemma conv_dir_ok c : match c with CStr s => s <> [] | _ => True end -> dir_ok (Conv [] [] c).
Proof. intros Hc. split; [by repeat split|]. by destruct c as [| | | |[|]|]. Qed.
Lemma lit_dir_ok c : c <> 0 /\ c <> 37 -> dir_ok (Lit c).
Proof. by split. Qed.
Lemma str_dir_ok fl wd s : dir_wf (Conv fl wd (CStr s)) -> s <> [] -> dir_ok (Conv fl wd (CStr s)).
Proof. intros H Hs. split; [done|]. by destruct s. Qed.
Lemma hits_empty_ok ds n : Forall dir_ok ds -> hits_empty n ds = false.
Proof. intros Hds. revert n. induction Hds as [|d ds [_ Hd] _ IH]; intros [|n]; cbn [hits_empty]; [done..|]. by rewrite Hd, IH. Qed.

Lemma scan_flags_spec fl c rest zp mi :
  Forall (fun f => f = 48 \/ f = 45) fl -> c <> 48 -> c <> 45 ->
  scan_flags (fl ++ c :: rest) zp mi = Ret (c :: rest, zp || bool_decide (48 ∈ fl), mi || bool_decide (45 ∈ fl)).
Proof.
  intros Hfl H1 H2. revert zp mi. induction Hfl as [|f fl Hf _ IH]; intros zp mi; cbn [app scan_flags].
  - rewrite (proj2 (Z.eqb_neq _ _) H1), (proj2 (Z.eqb_neq _ _) H2), !bool_decide_eq_false_2 by apply not_elem_of_nil. by rewrite !orb_false_r.
  - assert (forall x, bool_decide (x ∈ f :: fl) = bool_decide (x = f) || bool_decide (x ∈ fl)) as Hc.
    { intros x. destruct (decide (x = f)) as [->|Hne].
      - rewrite (bool_decide_eq_true_2 (f = f)), bool_decide_eq_true_2 by (done || left). done.
      - rewrite (bool_decide_eq_false_2 (x = f)) by done. apply bool_decide_ext. rewrite elem_of_cons. naive_solver. }
    rewrite !Hc. destruct Hf as [->| ->]; cbn [Z.eqb Pos.eqb]; rewrite IH; by destruct zp, mi.
Qed.

Lemma scan_width_spec wd m c rest :
  Forall (fun x => 0 <= x <= 9) wd -> 0 <= m -> value_from 10 m wd <= 32 -> c < 48 \/ 57 < c ->
  scan_width (((fun x => x + 48) <$> wd) ++ c :: rest) m = Ret (c :: rest, value_from 10 m wd).
Proof.
  intros Hwd. revert m. induction Hwd as [|x wd Hx Hwd IH]; intros m Hm Hle Hc; cbn [fmap list_fmap app scan_width].
  - destruct (Z.leb_spec 48 c), (Z.leb_spec c 57); cbn [andb]; done || lia.
  - rewrite (proj2 (Z.leb_le 48 _)), (proj2 (Z.leb_le _ 57)) by lia. cbn [andb]. replace (x + 48 - 48) with x by lia.
    unfold value_from in *. cbn [foldl] in *. fold (value_from 10 (m * 10 + x) wd) in *.
    pose proof (value_from_nonneg 10 (m * 10 + x) wd ltac:(lia) ltac:(lia) ltac:(eapply Forall_impl; [exact Hwd|cbn; lia])) as Hge.
    rewrite s32_small by lia. apply IH; done || lia.
Qed.

(** One conversion prints its text, as far as there is room. *)
Lemma convert_spec e c rest minw minus zp ap w :
  wok e w -> w.2 < e -> minw <= 32 -> no_string c = false ->
  exists f, convert e (conv_fmt c ++ rest) minw minus zp (conv_args c ++ ap) w =
    Ret (Some (f, ap, wput w (take (room e w) (conv_text minw minus zp c)))) /\ drop 1 f = rest.
Proof.
  intros Hw Hlt Hm Hs.
  assert (forall z, 0 <= u64 z < 2 ^ 64) as H64 by (intros; by apply wrapu_range).
  assert (forall z, 0 <= u32 z < 2 ^ 64) as H32 by (intros z; pose proof (wrapu_range 32 z); lia).
  destruct c as [z|[|] z|[|] z|[|] [|] z|s|]; cbn [conv_fmt conv_args app]; unfold convert; rewrite peek_at_head; cbn [mbind outcome_bind Z.eqb Pos.eqb drop va_int va_str];
    rewrite ?peek_at_head; cbn [mbind outcome_bind Z.eqb Pos.eqb drop va_int va_str conv_text]; unfold fmt_x.
  - destruct Hw as [Hp Hl]. rewrite putb_spec by lia. cbn [mbind outcome_bind]. exists (99 :: rest). split; [|done].
    by rewrite (firstn_all2 [u8 z]) by (cbn; lia).
  - rewrite fmt_d_spec by done. eexists. by split.
  - rewrite fmt_d_spec by done. eexists. by split.
  - rewrite fmt_u_spec by done. eexists. by split.
  - rewrite fmt_u_spec by done. eexists. by split.
  - rewrite fmt_lx_spec by done. eexists. by split.
  - rewrite fmt_lx_spec by done. eexists. by split.
  - rewrite fmt_lx_spec by done. eexists. by split.
  - rewrite fmt_lx_spec by done. eexists. by split.
  - rewrite fmt_s_spec; [eexists; by split|done|by destruct s].
  - rewrite take_nil, wput_nil. eexists. by split.
Qed.

Lemma convert_empty e c rest minw minus zp ap w : no_string c = true -> convert e (conv_fmt c ++ rest) minw minus zp (conv_args c ++ ap) w = Halt.
Proof. by destruct c as [| | | |[|]|]. Qed.
Lemma conv_fmt_head c : exists x t, conv_fmt c = x :: t /\ 57 < x.
Proof. destruct c as [z|[|] z|[|] z|[|] [|] z|s|]; cbn; do 2 eexists; (split; [done|lia]). Qed.

Lemma hits_empty_cons n d ds : (0 < n)%nat -> hits_empty n (d :: ds) = dir_empty d || hits_empty (n - length (dir_text d)) ds.
Proof. by destruct n; [lia|]. Qed.
Lemma hits_empty_put e w t ds : wok e w -> hits_empty (room e (wput w (take (room e w) t))) ds = hits_empty (room e w - length t) ds.
Proof. intros [H1 H2]. f_equal. cbn [wput snd]. rewrite length_take. lia. Qed.
Lemma vsn_loop_wf e ds fuel w :
  Forall dir_wf ds -> wok e w -> (length ds < fuel)%nat ->
  vsn_loop fuel e (concat (dir_fmt <$> ds) ++ [0]) (concat (dir_args <$> ds)) w =
    if hits_empty (room e w) ds then Halt else Ret (wput w (take (room e w) (concat (dir_text <$> ds)))).
Proof.
  intros Hds. revert fuel w. induction Hds as [|d ds Hd Hds IH]; intros fuel w Hw Hf; (destruct fuel as [|fuel]; [simpl in Hf; lia|]); cbn [vsn_loop fmap list_fmap concat].
  - rewrite take_nil, wput_nil. assert (hits_empty (room e w) [] = false) as -> by (by destruct (room e w)). cbn. by destruct (w.2 <? e).
  - destruct (Z.ltb_spec (w.2) e) as [Hlt|Hge]; [|replace (room e w) with O by lia; by rewrite wput_nil].
    rewrite hits_empty_cons by lia.
    simpl in Hf. destruct d as [c|fl wd c]; cbn [dir_fmt dir_args dir_text app].
    + destruct Hd as [H0 H37]. rewrite peek_at_head. cbn [mbind outcome_bind]. rewrite (proj2 (Z.eqb_neq _ _) H0), (proj2 (Z.eqb_neq _ _) H37).
      pose proof Hw as [Hp Hl]. rewrite putb_spec by lia. cbn [mbind outcome_bind drop].
      assert (take (room e w) [c] = [c]) as Ht by (apply firstn_all2; cbn; lia).
      rewrite <- Ht at 1. rewrite IH by (by apply wok_put || lia). rewrite wput_seq, hits_empty_put by done. done.
    + destruct Hd as (Hfl & Hwd & Hh & Hv). destruct (conv_fmt_head c) as (x & t & Hx & Hx57).
      rewrite peek_at_head. cbn [mbind outcome_bind Z.eqb Pos.eqb drop].
      set (rest := concat (dir_fmt <$> ds) ++ [0]) in *. rewrite <- !app_assoc, drop_0. fold rest.
      assert (scan_flags (fl ++ ((fun x => x + 48) <$> wd) ++ conv_fmt c ++ rest) false false =
        Ret (((fun x => x + 48) <$> wd) ++ conv_fmt c ++ rest, bool_decide (48 ∈ fl), bool_decide (45 ∈ fl))) as ->.
      { destruct wd as [|y wd]; [rewrite Hx; apply scan_flags_spec; done || lia|]. apply Forall_cons_1 in Hwd as [Hy _]. cbn in Hh.
        apply scan_flags_spec; [done| |lia]. intros He. apply Hh. f_equal. lia. }
      cbn [mbind outcome_bind]. rewrite Hx at 1. cbn [app]. rewrite scan_width_spec by (done || lia). fold (value 10 wd). cbn [mbind outcome_bind].
      change (x :: t ++ rest) with ((x :: t) ++ rest). rewrite <- Hx.
      cbn [dir_empty]. destruct (no_string c) eqn:Hs; [by rewrite convert_empty|]. cbn [orb].
      destruct (convert_spec e c rest (value 10 wd) (bool_decide (45 ∈ fl)) (bool_decide (48 ∈ fl)) (concat (dir_args <$> ds)) w Hw Hlt Hv Hs) as (f & -> & Hf').
      cbn [mbind outcome_bind]. rewrite Hf', IH by (by apply wok_put || lia). by rewrite wput_seq, hits_empty_put.
Qed.

Lemma dir_fmt_length ds : (length ds <= length (concat (dir_fmt <$> ds)))%nat.
Proof. induction ds as [|d ds IH]; cbn; [lia|]. rewrite length_app. destruct d; cbn; lia. Qed.

Lemma vsnprintf_wf buf size ds (t := take (Z.to_nat (size - 1)) (concat (dir_text <$> ds))) :
  Forall dir_wf ds -> 1 <= size <= Z.of_nat (length buf) ->
  vsnprintf buf size (concat (dir_fmt <$> ds) ++ [0]) (concat (dir_args <$> ds)) =
    if hits_empty (Z.to_nat (size - 1)) ds then Halt else Ret (Z.of_nat (length t), t ++ 0 :: drop (S (length t)) buf).
Proof.
  intros Hds Hs. unfold vsnprintf. pose proof (dir_fmt_length ds).
  rewrite vsn_loop_wf by (done || (split; cbn; lia) || (rewrite length_app; cbn; lia)).
  cbn [snd]. replace (size - 1 - 0) with (size - 1) by lia. destruct (hits_empty (Z.to_nat (size - 1)) ds); [done|].
  cbn [mbind outcome_bind fst snd]. fold t. unfold wput. cbn [fst snd Z.to_nat take app Nat.add].
  assert (Z.of_nat (length t) <= size - 1) as Ht by (unfold t; rewrite length_take; lia).
  change (Z.to_nat 0) with 0%nat. rewrite take_0. cbn [app Nat.add]. rewrite Z.add_0_l, wr_in by (cbn [fst]; rewrite length_app, length_drop; lia). cbn [mbind outcome_bind]. do 2 f_equal.
  rewrite Nat2Z.id, insert_app_r_alt, Nat.sub_diag by lia. f_equal.
  destruct (drop (length t) buf) as [|x l] eqn:Hd; [apply (f_equal length) in Hd; rewrite length_drop in Hd; cbn in Hd; lia|]. cbn.
  f_equal. replace (S (length t)) with (length t + 1)%nat by lia. by rewrite <- drop_drop, Hd.
Qed.

Lemma vsnprintf_spec buf size ds (t := take (Z.to_nat (size - 1)) (concat (dir_text <$> ds))) :
  Forall dir_ok ds -> 1 <= size <= Z.of_nat (length buf) ->
  vsnprintf buf size (concat (dir_fmt <$> ds) ++ [0]) (concat (dir_args <$> ds)) =
    Ret (Z.of_nat (length t), t ++ 0 :: drop (S (length t)) buf).
Proof.
  intros Hds Hs. rewrite vsnprintf_wf; [by rewrite hits_empty_ok| |done]. eapply Forall_impl; [exact Hds|]. by intros d [? _].
Qed.

(** ** Output that does not reach the limit does not depend on it *)
Definition widens (f : Z -> wbuf -> outcome wbuf) : Prop := forall e e' w w', e <= e' -> f e w = Ret w' -> w.2 <= w'.2 /\ (w'.2 < e -> f e' w = Ret w').

Lemma putb_adv c w w' : putb c w = Ret w' -> w'.2 = w.2 + 1.
Proof. unfold putb. intros (b & _ & H)%outcome_bind_Ret. by injection H as <-. Qed.
Lemma widens_const o : (forall w w', o w = Ret w' -> w.2 <= w'.2) -> widens (fun _ => o).
Proof. intros H e e' w w' _ E. split; [by apply H|done]. Qed.
Lemma widens_bind {A} (m : outcome A) (f : A -> Z -> wbuf -> outcome wbuf) : (forall a, widens (f a)) -> widens (fun e w => m ≫= fun a => f a e w).
Proof.
  intros Hf e e' w w' He (a & -> & H)%outcome_bind_Ret. exact (Hf a e e' w w' He H).
Qed.
Lemma widens_seq f g : widens f -> widens g -> widens (fun e w => f e w ≫= g e).
Proof.
  intros Hf Hg e e' w w' He (w1 & H1 & H2)%outcome_bind_Ret. destruct (Hf _ _ _ _ He H1) as [A1 E1], (Hg _ _ _ _ He H2) as [A2 E2].
  split; [lia|]. intros Hlt. rewrite E1 by lia. by apply E2.
Qed.
Lemma widens_puts s : widens (fun e => puts_upto e s).
Proof.
  induction s as [|c s IH]; intros e e' w w' He; cbn; [intros [= <-]; split; [lia|done]|].
  destruct (Z.ltb_spec w.2 e); [|intros [= <-]; split; lia].
  intros (w1 & H1 & H2)%outcome_bind_Ret. apply putb_adv in H1 as Ha. destruct (IH _ _ _ _ He H2) as [A2 E2]. split; [lia|]. intros Hlt.
  rewrite (proj2 (Z.ltb_lt _ _)) by lia. rewrite H1. cbn. by apply E2.
Qed.
Lemma widens_emit n rev : widens (emit_rev n rev).
Proof.
  induction n as [|n IH]; intros e e' w w' He; cbn; [intros [= <-]; split; [lia|done]|].
  destruct (Z.ltb_spec w.2 e); [|intros [= <-]; split; lia].
  intros (c & Hc & (w1 & H1 & H2)%outcome_bind_Ret)%outcome_bind_Ret. apply putb_adv in H1 as Ha. destruct (IH _ _ _ _ He H2) as [A2 E2]. split; [lia|]. intros Hlt.
  rewrite (proj2 (Z.ltb_lt _ _)) by lia. rewrite Hc. cbn. rewrite H1. cbn. by apply E2.
Qed.
Lemma widens_d val minw minus zp l : widens (fun e => fmt_d e val minw minus zp l).
Proof.
  unfold fmt_d. destruct (if negb l && _ then _ else _) as [neg uval]. apply (widens_bind (dec_loop 20 rev0 0 uval)). intros [rev idx].
  apply (widens_bind (if neg then rev ← wr rev idx 45; Ret (rev, idx + 1) else Ret (rev, idx))). intros [rev' idx'].
  apply (widens_bind (pad_rev rev' idx' minw minus zp)). intros [r i]. apply widens_emit.
Qed.
Lemma widens_u val minw minus zp : widens (fun e => fmt_u e val minw minus zp).
Proof. unfold fmt_u. apply (widens_bind (dec_loop 20 rev0 0 val)). intros [rev idx]. apply (widens_bind (pad_rev rev idx minw minus zp)). intros [r i]. apply widens_emit. Qed.
Lemma widens_lx val minw minus zp up : widens (fun e => fmt_lx e val minw minus zp up).
Proof. unfold fmt_lx. apply (widens_bind (hex_loop 16 _ rev0 0 val)). intros [rev idx]. apply (widens_bind (pad_rev rev idx minw minus zp)). intros [r i]. apply widens_emit. Qed.
Lemma widens_p val : widens (fun e => fmt_p e val).
Proof.
  assert (forall c, widens (fun _ => putb c)) as Hp by (intros c; apply widens_const; intros w w' H; apply putb_adv in H; lia).
  unfold fmt_p. apply (widens_seq (fun _ => putb 48) (fun e w => w ← putb 120 w; _)); [done|]. apply (widens_seq (fun _ => putb 120) (fun e w => '(rev, idx) ← hex_loop 16 xdigitmap rev0 0 val; emit_rev (Z.to_nat idx) rev e w)); [done|].
  apply (widens_bind (hex_loop 16 xdigitmap rev0 0 val)). intros [rev idx]. apply widens_emit.
Qed.
Lemma widens_s s minw minus : widens (fun e => fmt_s e s minw minus).
Proof.
  unfold fmt_s. apply (widens_bind (assert_ _)). intros []. set (fill := replicate _ 32). destruct minus.
  - apply (widens_seq (fun e => puts_upto e s) (fun e => puts_upto e fill)); apply widens_puts.
  - apply (widens_seq (fun e => puts_upto e fill) (fun e => puts_upto e s)); apply widens_puts.
Qed.

(** The same for a conversion, whose result also carries the rest. *)
Abbreviation conv_res := (option (list Z * list va_slot * wbuf)).
Definition res_pos (w : wbuf) (r : conv_res) : Z := match r with Some x => (x.2).2 | None => w.2 end.
Definition cwidens (w : wbuf) (g : Z -> outcome conv_res) : Prop := forall e e' r, e <= e' -> g e = Ret r -> w.2 <= res_pos w r /\ (res_pos w r < e -> g e' = Ret r).
Lemma cwidens_bind {A} w (m : outcome A) (g : A -> Z -> outcome conv_res) : (forall a, cwidens w (g a)) -> cwidens w (fun e => m ≫= fun a => g a e).
Proof. intros Hg e e' r He (a & -> & H)%outcome_bind_Ret. exact (Hg a e e' r He H). Qed.
Lemma cwidens_conv {A} w (m : outcome (A * list va_slot)) (f : A -> Z -> wbuf -> outcome wbuf) fmt : (forall a, widens (f a)) ->
  cwidens w (fun e => '(z, ap) ← m; w ← f z e w; Ret (Some (fmt, ap, w))).
Proof.
  intros Hf. apply (cwidens_bind w m (fun x e => let '(z, ap) := x in w ← f z e w; Ret (Some (fmt, ap, w)))). intros [z ap] e e' r He (w1 & H1 & H2)%outcome_bind_Ret.
  injection H2 as <-. destruct (Hf z _ _ _ _ He H1) as [A1 E1]. cbn. split; [done|]. intros Hlt. by rewrite E1.
Qed.
Lemma cwidens_ret w fmt ap : cwidens w (fun _ => Ret (Some (fmt, ap, w))).
Proof. intros e e' r He [= <-]. cbn. split; [lia|done]. Qed.

Lemma convert_widens fmt minw minus zp ap w : cwidens w (fun e => convert e fmt minw minus zp ap w).
Proof.
  unfold convert. apply cwidens_bind. intros c. destruct (c =? 99).
  { apply (cwidens_conv w (va_int ap) (fun z _ => putb (u8 z))). intros z. apply widens_const. intros ?? H. apply putb_adv in H. lia. }
  destruct (c =? 108).
  { apply cwidens_bind. intros c2. repeat match goal with |- context [if ?b then _ else _] => destruct b end; [| | | |apply cwidens_ret].
    - apply (cwidens_conv w (va_int ap) (fun z e => fmt_d e (s64 z) minw minus zp true)). intros; apply widens_d.
    - apply (cwidens_conv w (va_int ap) (fun z e => fmt_lx e (u64 z) minw minus zp false)). intros; apply widens_lx.
    - apply (cwidens_conv w (va_int ap) (fun z e => fmt_lx e (u64 z) minw minus zp true)). intros; apply widens_lx.
    - apply (cwidens_conv w (va_int ap) (fun z e => fmt_u e (u64 z) minw minus zp)). intros; apply widens_u. }
  repeat match goal with |- context [if ?b then _ else _] => destruct b end.
  - apply (cwidens_conv w (va_int ap) (fun z e => fmt_d e (s64 z) minw minus zp false)). intros; apply widens_d.
  - apply (cwidens_conv w (va_int ap) (fun z e => fmt_u e (u64 z) minw minus zp)). intros; apply widens_u.
  - apply (cwidens_conv w (va_int ap) (fun z e => fmt_x e z minw minus zp false)). intros; apply widens_lx.
  - apply (cwidens_conv w (va_int ap) (fun z e => fmt_x e z minw minus zp true)). intros; apply widens_lx.
  - apply (cwidens_conv w (va_int ap) (fun z e => fmt_p e (u64 z))). intros; apply widens_p.
  - apply (cwidens_conv w (va_str ap) (fun s e => fmt_s e s minw minus)). intros; apply widens_s.
  - apply cwidens_ret.
  - intros e e' r He [= <-]. cbn. split; [lia|done].
Qed.

Lemma vsn_loop_widens fuel fmt ap : widens (fun e => vsn_loop fuel e fmt ap).
Proof.
  revert fmt ap. induction fuel as [|n IH]; intros fmt ap e e' w w' He; cbn [vsn_loop]; [done|].
  destruct (Z.ltb_spec w.2 e); [|intros [= <-]; split; lia]. rewrite (proj2 (Z.ltb_lt w.2 e')) by lia.
  intros (c & Hc & H1)%outcome_bind_Ret. rewrite Hc. cbn [mbind outcome_bind]. destruct (c =? 0); [injection H1 as <-; split; [lia|done]|]. destruct (c =? 37).
  - apply outcome_bind_Ret in H1 as ([[f1 zp] mi] & Hf & H1). rewrite Hf. cbn [mbind outcome_bind]. apply outcome_bind_Ret in H1 as ([f2 minw] & Hw & H1). rewrite Hw. cbn [mbind outcome_bind].
    apply outcome_bind_Ret in H1 as (r & Hr & H1). destruct (convert_widens f2 minw mi zp ap w e e' r He Hr) as [A1 E1].
    destruct r as [[[f3 ap3] w3]|]; cbn [res_pos snd] in *.
    + destruct (IH _ _ _ _ _ _ He H1) as [A2 E2]. split; [lia|]. intros Hlt. rewrite E1 by lia. cbn. by apply E2.
    + injection H1 as <-. split; [lia|]. intros Hlt. by rewrite E1.
  - apply outcome_bind_Ret in H1 as (w1 & Hp & H1). apply putb_adv in Hp as Ha. rewrite Hp. cbn [mbind outcome_bind]. destruct (IH _ _ _ _ _ _ He H1) as [A2 E2]. split; [lia|done].
Qed.

(** [sprintf] into a buffer that holds the text. *)
Lemma sprintf_spec buf ds (t := concat (dir_text <$> ds)) : Forall dir_ok ds -> (length t + 1 < length buf)%nat -> (length t < 255)%nat ->
  sprintf buf (concat (dir_fmt <$> ds) ++ [0]) (concat (dir_args <$> ds)) = Ret (Z.of_nat (length t), t ++ 0 :: drop (S (length t)) buf).
Proof.
  intros Hds Hb H255. remember (Z.of_nat (length t + 2)) as size eqn:Es. unfold sprintf.
  assert (1 <= size <= Z.of_nat (length buf)) as Hsz by lia.
  pose proof (vsnprintf_spec buf size ds Hds Hsz) as Hs. cbv zeta in Hs. fold t in Hs. rewrite take_ge in Hs by lia.
  unfold vsnprintf in *. apply outcome_bind_Ret in Hs as (w & Hw & Hs). apply outcome_bind_Ret in Hs as (b & Hb' & Hs). injection Hs as Hp ->.
  assert (size - 1 <= 256 - 1) as Hle by lia. destruct (vsn_loop_widens _ _ _ _ (256 - 1) _ _ Hle Hw) as [_ E]. rewrite E by lia. cbn [mbind outcome_bind]. rewrite Hb'. cbn. by rewrite Hp.
Qed.

(** ** Printed numbers read back *)

Lemma digs_range fuel b n : 0 < b -> Forall (fun d => 0 <= d < b) (digs fuel b n).
Proof.
  intros Hb. revert n. induction fuel as [|fuel IH]; intros n; cbn; [done|]. constructor; [by apply Z.mod_pos_bound|]. by destruct (n / b =? 0).
Qed.
Lemma digs_value fuel b n : 1 < b -> 0 <= n < b ^ Z.of_nat fuel -> value b (reverse (digs fuel b n)) = n.
Proof.
  intros Hb. revert n. induction fuel as [|fuel IH]; intros n Hn; [cbn in *; lia|]. cbn [digs]. unfold value, value_from.
  rewrite reverse_cons, foldl_app. cbn [foldl]. fold (value_from b 0 (reverse (if n / b =? 0 then [] else digs fuel b (n / b)))). fold (value b (reverse (if n / b =? 0 then [] else digs fuel b (n / b)))).
  rewrite Nat2Z.inj_succ, Z.pow_succ_r in Hn by lia. pose proof (Z.div_mod n b ltac:(lia)).
  destruct (Z.eqb_spec (n / b) 0) as [Hz|Hnz]; [cbn; lia|].
  rewrite IH by (split; [apply Z.div_pos; lia|apply Z.div_lt_upper_bound; lia]). lia.
Qed.

Definition good_map (map : list Z) : Prop := map = xdigitmap \/ map = Xdigitmap.
Lemma digit_char_of map d : good_map map -> 0 <= d < 16 -> digit_of (digit_char map d) = Some d.
Proof.
  intros Hm Hd. assert (exists k, d = Z.of_nat k /\ (k < 16)%nat) as (k & -> & Hk) by (exists (Z.to_nat d); lia).
  unfold digit_char. rewrite Nat2Z.id. destruct Hm as [->| ->]; do 16 (destruct k as [|k]; [done|]); lia.
Qed.

Lemma num_text_spells map b n :
  good_map map -> b = 10 \/ b = 16 -> 0 <= n < 2 ^ 64 ->
  exists ds, spells b (num_text map b n) ds /\ value b ds = n /\ num_text map b n <> [].
Proof.
  intros Hm Hb Hn. set (f := if b =? 16 then 16%nat else 20%nat). exists (reverse (digs f b n)). unfold num_text. fold f.
  assert (0 < f)%nat by (unfold f; destruct (b =? 16); lia). split_and!.
  - apply Forall2_reverse. pose proof (digs_range f b n ltac:(lia)) as Hr. revert Hr. generalize (digs f b n). clear -Hm Hb.
    induction 1 as [|d l Hd _ IH]; constructor; [|done]. split; [apply digit_char_of; [done|lia]|lia].
  - apply digs_value; [lia|]. unfold f. destruct Hb as [->| ->]; cbn; lia.
  - intros He. apply (f_equal length) in He. rewrite length_reverse, length_fmap in He. pose proof (proj2 (digs_length f b n)). cbn in He. lia.
Qed.

Lemma parse_dec v : - 2 ^ 63 <= v < 2 ^ 63 -> strtol (dec_text v ++ [0]) 10 = Ret (v, [0]).
Proof.
  intros Hv. destruct (num_text_spells xdigitmap 10 (Z.abs v)) as (ds & Hs & Hval & Hne); [by left|by left|lia|].
  pose proof (strtol_spec 10 [] (if v <? 0 then Some true else None) [] 10 _ ds 0 [] (Forall_nil_2 _) (num_plain 10 _ 0 ltac:(lia) Hne ltac:(lia)) Hs I) as H.
  rewrite Hval in H. unfold dec_text. destruct (Z.ltb_spec v 0); cbn [app sign_of negated default] in *; rewrite H; do 2 f_equal.
  - destruct (decide (v = - 2 ^ 63)) as [->|]; [done|]. rewrite (s64_small (Z.abs v)), s64_small by lia. cbn. lia.
  - rewrite s64_small by lia. cbn. lia.
Qed.
Lemma parse_uns map b n : good_map map -> b = 10 \/ b = 16 -> 0 <= n < 2 ^ 64 -> strtoul (num_text map b n ++ [0]) b = Ret (n, [0]).
Proof.
  intros Hm Hb Hn. destruct (num_text_spells map b n Hm Hb Hn) as (ds & Hs & Hval & Hne).
  pose proof (strtoul_spec b [] None [] b _ ds 0 [] (Forall_nil_2 _) (num_plain b _ 0 ltac:(lia) Hne ltac:(lia)) Hs I) as H.
  rewrite Hval in H. cbn [app sign_of negated default] in H. rewrite H. unfold ULONG_MAX. by rewrite (proj2 (Z.leb_le _ _)) by lia.
Qed.

(** "%ld", "%lu" and "%lx"/"%lX" as formats. *)
Definition fmt_ld : list Z := [37; 108; 100; 0].
Definition fmt_lu : list Z := [37; 108; 117; 0].
Definition fmt_lx_ (up : bool) : list Z := [37; 108; if up then 88 else 120; 0].

Lemma print_one buf size c :
  conv_text 0 false false c <> [] -> Z.of_nat (length (conv_text 0 false false c)) < size <= Z.of_nat (length buf) ->
  match c with CStr s => s <> [] | _ => True end ->
  exists n b, vsnprintf buf size (37 :: conv_fmt c ++ [0]) (conv_args c) = Ret (n, b) /\
    take (S (Z.to_nat n)) b = conv_text 0 false false c ++ [0].
Proof.
  intros Hne Hsz Hc. pose proof (vsnprintf_spec buf size [Conv [] [] c]) as H. cbn [fmap list_fmap concat dir_fmt dir_args dir_text app] in H.
  rewrite !app_nil_r in H. change (value 10 []) with 0 in H. rewrite !bool_decide_eq_false_2 in H by apply not_elem_of_nil.
  rewrite firstn_all2 in H by lia. set (t := conv_text 0 false false c) in *.
  rewrite H; [|by apply Forall_singleton, conv_dir_ok|lia]. do 2 eexists. split; [done|].
  rewrite Nat2Z.id. replace (S (length t)) with (length t + 1)%nat by lia. rewrite take_app_add. done.
Qed.

(** ** Properties *)

(** C30: [vsnprintf] prints what its format says. For a format of plain
    characters and conversions c, d, u, x, X, s, b (with l for the numbers,
    flags and widths up to 32), matching arguments and a buffer of [size > 0]
    bytes: if an empty string is reached for an s before the buffer is full,
    the assertion of [fmt_s] fails; otherwise it returns, the buffer holds the
    formatted text cut to [size - 1] characters and a terminating 0, nothing
    behind it changes, and the result is the length of that text. *)
Theorem vsnprintf_formats (buf : list Z) (size : Z) (ds : list directive) (Hds : Forall dir_wf ds) (Hs : 1 <= size <= Z.of_nat (length buf)) :
  let t := take (Z.to_nat (size - 1)) (concat (dir_text <$> ds)) in
  vsnprintf buf size (concat (dir_fmt <$> ds) ++ [0]) (concat (dir_args <$> ds)) =
    if hits_empty (Z.to_nat (size - 1)) ds then Halt else Ret (Z.of_nat (length t), t ++ 0 :: drop (S (length t)) buf).
Proof. by apply vsnprintf_wf. Qed.

(** "a%05d!" of 42 into 7 bytes, and "a%s" of an empty string, which is
    reached in 7 bytes and not in 2. *)
Lemma vsnprintf_formats_witness :
  vsnprintf (replicate 8 7) 7 [97; 37; 48; 53; 100; 33; 0] [ASlot 42] = Ret (6, [97; 48; 48; 48; 52; 50; 0; 7]) /\
  vsnprintf (replicate 8 7) 7 [97; 37; 115; 0] [AStr []] = Halt /\
  vsnprintf (replicate 8 7) 2 [97; 37; 115; 0] [AStr []] = Ret (1, [97; 0; 7; 7; 7; 7; 7; 7]).
Proof.
  split; [|split].
  - apply (vsnprintf_formats (replicate 8 7) 7 [Lit 97; Conv [48] [5] (CDec false 42); Lit 33]); [repeat constructor; cbn; lia || discriminate|cbn; lia].
  - apply (vsnprintf_formats (replicate 8 7) 7 [Lit 97; Conv [] [] (CStr [])]); [repeat constructor; cbn; lia || discriminate|cbn; lia].
  - apply (vsnprintf_formats (replicate 8 7) 2 [Lit 97; Conv [] [] (CStr [])]); [repeat constructor; cbn; lia || discriminate|cbn; lia].
Defined.

(** C31: numbers read back as printed: [strtol] of the text of %ld gives the
    signed value, [strtoul] of the text of %lu and of %lx or %lX the unsigned
    one, for every 64-bit argument and any buffer of at least 22 bytes. *)
Theorem print_parse_roundtrip (buf : list Z) (size z : Z) (Hs : 22 <= size <= Z.of_nat (length buf)) :
  (exists n b, vsnprintf buf size fmt_ld [ASlot z] = Ret (n, b) /\ strtol (take (S (Z.to_nat n)) b) 10 = Ret (s64 z, [0])) /\
  (exists n b, vsnprintf buf size fmt_lu [ASlot z] = Ret (n, b) /\ strtoul (take (S (Z.to_nat n)) b) 10 = Ret (u64 z, [0])) /\
  (forall up, exists n b, vsnprintf buf size (fmt_lx_ up) [ASlot z] = Ret (n, b) /\ strtoul (take (S (Z.to_nat n)) b) 16 = Ret (u64 z, [0])).
Proof.
  pose proof (wraps_range 64 z ltac:(lia)) as Hr. change (2 ^ (64 - 1)) with (2 ^ 63) in Hr. pose proof (wrapu_range 64 z ltac:(lia)) as Hu.
  pose proof padded_text_0 as Hp.
  pose proof dec_text_length as Hd.
  split; [|split].
  - destruct (print_one buf size (CDec true z)) as (n & b & H1 & H2); cbn [conv_text signed_of]; rewrite ?Hp; [apply Hd|pose proof (proj2 (Hd (s64 z))); lia|done|].
    exists n, b. split; [done|]. rewrite H2. cbn [conv_text signed_of]. rewrite Hp. by apply parse_dec.
  - destruct (print_one buf size (CUns true z)) as (n & b & H1 & H2); cbn [conv_text]; rewrite ?Hp; [apply Hd|pose proof (proj2 (Hd (u64 z))); lia|done|].
    exists n, b. split; [done|]. rewrite H2. cbn [conv_text]. rewrite Hp. unfold dec_text. rewrite (proj2 (Z.ltb_ge _ 0)), Z.abs_eq by lia.
    apply parse_uns; [by left|by left|done].
  - intros up. assert (good_map (if up then Xdigitmap else xdigitmap)) as Hm by (destruct up; [by right|by left]).
    destruct (num_text_spells _ 16 (u64 z) Hm ltac:(by right) Hu) as (_ & _ & _ & Hne).
    assert (length (num_text (if up then Xdigitmap else xdigitmap) 16 (u64 z)) <= 16)%nat as Hl by (unfold num_text; rewrite length_reverse, length_fmap; apply digs_length).
    destruct (print_one buf size (CHex true up z)) as (n & b & H1 & H2); cbn [conv_text]; rewrite ?Hp; [done|lia|done|].
    exists n, b. split; [by destruct up|]. rewrite H2. cbn [conv_text]. rewrite Hp. apply parse_uns; [done|by right|done].
Qed.

Lemma print_parse_roundtrip_witness :
  exists n b, vsnprintf (replicate 24 7) 24 fmt_ld [ASlot (2 ^ 64 - 5)] = Ret (n, b) /\ strtol (take (S (Z.to_nat n)) b) 10 = Ret (-5, [0]).
Proof.
  destruct (print_parse_roundtrip (replicate 24 7) 24 (2 ^ 64 - 5)) as [H _].
  - rewrite length_replicate. lia.
  - change (s64 (2 ^ 64 - 5)) with (-5) in H. exact H.
Defined.

(** Where the buffers are not respected: [%p] stores its prefix without looking
    at the end, so with two bytes left the terminator lands behind the buffer,
    and a width above 32 overruns the array of digits. *)
Theorem vsnprintf_overruns :
  vsnprintf (replicate 4 7) 4 [97; 98; 37; 112; 0] [ASlot 255] = Fault /\
  vsnprintf (replicate 64 7) 64 [37; 51; 51; 120; 0] [ASlot 255] = Fault.
Proof. by split. Qed.

(** Printing an empty string stops the kernel. *)
Theorem print_empty_string_halts (buf : list Z) :
  vsnprintf buf 64 [37; 115; 0] [AStr []] = Halt.
Proof. done. Qed.
