(* ===== verification/Log.v ===== *)
(** * Log lines (ukern/src/log.c)

    [log] prints a coloured level, the place, and the message, with the two
    console functions of src/print.c; the macros LOG_INFO to LOG_DEBUG pass
    the level and the place. *)
From S2P Require Import Prelude Config Strtol Print.

Inductive log_level := __LOG_LEVEL_INFO | __LOG_LEVEL_WARN | __LOG_LEVEL_ERROR | __LOG_LEVEL_DEBUG.
Definition level_num (l : log_level) : Z := match l with __LOG_LEVEL_INFO => 0 | __LOG_LEVEL_WARN => 1 | __LOG_LEVEL_ERROR => 2 | __LOG_LEVEL_DEBUG => 3 end.
Definition level_str : list (list Z) := [[73; 78; 70; 79]; [87; 65; 82; 78]; [69; 82; 82; 79; 82]; [68; 69; 66; 85; 71]].
Definition level_color : list (list Z) := [[27; 91; 51; 50; 109]; [27; 91; 51; 51; 109]; [27; 91; 51; 49; 109]; [27; 91; 51; 54; 109]].
(** "%s%-5s\x1b[0m \x1b[90m%s:%d:\x1b[0m " *)
Definition log_fmt : list Z := [37; 115; 37; 45; 53; 115; 27; 91; 48; 109; 32; 27; 91; 57; 48; 109; 37; 115; 58; 37; 100; 58; 27; 91; 48; 109; 32; 0].

(** The bytes sent and the static buffer of src/print.c. *)
Definition log (pbuf : list Z) (level : Z) (file : list Z) (line : Z) (fmt : list Z) (ap : list va_slot) : outcome (list Z * list Z) :=
  color ← rd level_color level; str ← rd level_str level;
  '(o1, pbuf) ← printf pbuf log_fmt [AStr color; AStr str; AStr file; ASlot line];
  '(o2, pbuf) ← vprintf pbuf fmt ap;
  Ret (o1 ++ o2, pbuf).

Definition prefix_dirs (color str file : list Z) (line : Z) : list directive :=
  [Conv [] [] (CStr color); Conv [45] [5] (CStr str)] ++ (Lit <$> [27; 91; 48; 109; 32; 27; 91; 57; 48; 109]) ++
  [Conv [] [] (CStr file); Lit 58; Conv [] [] (CDec false line); Lit 58] ++ (Lit <$> [27; 91; 48; 109; 32]).
(** The level in five columns, the place, and the resets of the colour. *)
Definition prefix_text (color str file : list Z) (line : Z) : list Z :=
  color ++ (str ++ replicate (5 - length str) 32) ++ [27; 91; 48; 109; 32; 27; 91; 57; 48; 109] ++ file ++ [58] ++ dec_text (signed_of false line) ++ [58; 27; 91; 48; 109; 32].

Lemma printf_spec pbuf ds (t := concat (dir_text <$> ds)) : length pbuf = 4096%nat -> Forall dir_ok ds -> (length t < 4096)%nat ->
  exists pb', printf pbuf (concat (dir_fmt <$> ds) ++ [0]) (concat (dir_args <$> ds)) = Ret (t, pb') /\ length pb' = 4096%nat.
Proof.
  intros Hp Hd Ht. unfold printf. rewrite vsnprintf_spec by (done || lia). cbn [mbind outcome_bind]. fold t. rewrite (take_ge t) by (change (Z.to_nat (4096 - 1)) with 4095%nat; lia).
  rewrite Nat2Z.id, take_app_length. eexists. split; [done|]. rewrite length_app. cbn [length]. rewrite length_drop. lia.
Qed.
Lemma prefix_dirs_text color str file line : (length str <= 5)%nat -> concat (dir_text <$> prefix_dirs color str file line) = prefix_text color str file line.
Proof.
  intros Hs. assert (bool_decide (45 ∈ [45]) = true /\ bool_decide (48 ∈ [45]) = false) as [E1 E2] by (split; reflexivity).
  unfold prefix_dirs, prefix_text. cbn [fmap list_fmap app concat dir_text value]. rewrite !(bool_decide_eq_false_2 (_ ∈ [])) by apply not_elem_of_nil. rewrite E1, E2. cbn [conv_text]. rewrite !padded_text_0.
  f_equal. f_equal. unfold padded_text. cbn [fst snd].
  change (value 10 [5]) with 5. replace (Z.to_nat (5 - Z.of_nat (length str))) with (5 - length str)%nat by lia. done.
Qed.

(** A log line: the prefix of its level and place, then the message. *)
Theorem log_prints (pbuf : list Z) (l : log_level) (file : list Z) (line : Z) (ds : list directive) (color str : list Z)
    (Hp : length pbuf = 4096%nat) (Hfile : file <> [] /\ (length file < 4000)%nat) (Hds : Forall dir_ok ds) (Ht : (length (concat (dir_text <$> ds)) < 4096)%nat)
    (Hc : level_color !! Z.to_nat (level_num l) = Some color) (Hs : level_str !! Z.to_nat (level_num l) = Some str) :
  exists pb', log pbuf (level_num l) file line (concat (dir_fmt <$> ds) ++ [0]) (concat (dir_args <$> ds)) = Ret (prefix_text color str file line ++ concat (dir_text <$> ds), pb') /\ length pb' = 4096%nat.
Proof.
  assert (0 <= level_num l) as Hl by (destruct l; done). unfold log. rewrite (rd_lookup _ _ _ Hl Hc). cbn [mbind outcome_bind]. rewrite (rd_lookup _ _ _ Hl Hs). cbn [mbind outcome_bind].
  assert (color <> [] /\ (length color = 5)%nat /\ str <> [] /\ (length str <= 5)%nat) as (Hcn & Hcl & Hsn & Hsl) by (destruct l; injection Hc as <-; injection Hs as <-; cbn; split_and!; done || lia).
  assert (Forall dir_ok (prefix_dirs color str file line)) as Hd.
  { unfold prefix_dirs. destruct Hfile as [Hf _]. repeat (apply Forall_app; split); repeat (apply Forall_cons; split; [first [by apply lit_dir_ok|by apply conv_dir_ok|apply str_dir_ok; [|done];
      split_and!; [apply Forall_singleton; by right|apply Forall_singleton; lia|done|cbn; lia]]|]); by apply Forall_nil. }
  destruct (dec_text_length (signed_of false line)) as [_ Hdl].
  destruct (printf_spec pbuf (prefix_dirs color str file line) Hp Hd) as (pb1 & E1 & Hp1).
  { rewrite prefix_dirs_text by done. unfold prefix_text. rewrite !length_app, length_replicate. cbn [length]. lia. }
  rewrite prefix_dirs_text in E1 by done.
  change log_fmt with (concat (dir_fmt <$> prefix_dirs color str file line) ++ [0]). change [AStr color; AStr str; AStr file; ASlot line] with (concat (dir_args <$> prefix_dirs color str file line)).
  rewrite E1. cbn [mbind outcome_bind]. destruct (printf_spec pb1 ds Hp1 Hds Ht) as (pb2 & E2 & Hp2). change vprintf with printf. rewrite E2. cbn [mbind outcome_bind]. by exists pb2.
Qed.
