(* ===== verification/Readline.v ===== *)
(** * Line editing of the kernel monitor (ukern/src/kmon/readline.c, buffer.c)

    The line being edited is kept in two 128-byte buffers, the text left and
    right of the cursor.  Cursor movements only change [cursor_pos]; the next
    insertion or deletion moves text between the buffers.  [rl_in] is what is
    typed, a byte at a time ([uart_getc] waits for one), and [rl_out] what is
    sent to the console. *)
From S2P Require Import Prelude Config Bitmap Page Slab SlabSpec Kmem Strtol Print.

Definition BUFLEN : Z := 512.
Definition MAX_RECORD : Z := 4.

(** ** buffer.c *)
Record buffer := mkBuf { bf_addr : Z; bf_data : Z; bf_buf : list Z; bf_size : Z; cur_size : Z }.
Definition sizeof_buffer : Z := 24.


Definition buffer_clear (b : buffer) : buffer := mkBuf (bf_addr b) (bf_data b) (replicate (Z.to_nat (bf_size b)) 0) (bf_size b) 0.
Definition buffer_is_empty (b : buffer) : bool := cur_size b =? 0.
Definition buffer_is_full (b : buffer) : bool := cur_size b =? bf_size b.
Definition with_buf (l : list Z) (n : Z) (b : buffer) : buffer := mkBuf (bf_addr b) (bf_data b) l (bf_size b) n.

(** ** The line buffer *)
Record linebuf := mkLb { lb_addr : Z; lbuf : buffer; rbuf : buffer; cursor_pos : Z }.
Definition sizeof_linebuf : Z := 24.

(** The line, what has been sent to the console, and [printf]'s buffer. *)
Record ed := mkEd { ed_lb : linebuf; ed_out : list Z; ed_pbuf : list Z }.
Abbreviation E := (M ed).

Definition get_lb : E linebuf := fun s => Ret (ed_lb s, s).
Definition set_lb (b : linebuf) : E () := modify (fun s => mkEd b (ed_out s) (ed_pbuf s)).
Definition putc (c : Z) : E () := modify (fun s => mkEd (ed_lb s) (ed_out s ++ [c]) (ed_pbuf s)).
Definition puts_ (cs : list Z) : E () := modify (fun s => mkEd (ed_lb s) (ed_out s ++ cs) (ed_pbuf s)).
Definition printfE (fmt : list Z) (ap : list va_slot) : E () := fun s =>
  '(o, pb) ← printf (ed_pbuf s) fmt ap; Ret (tt, mkEd (ed_lb s) (ed_out s ++ o) pb).

(** The escape sequences ESC [ n C and ESC [ n D. *)
Definition cursorforwd (x : Z) : E () := printfE [27; 91; 37; 100; 67; 0] [ASlot x].
Definition cursorbackwd (x : Z) : E () := printfE [27; 91; 37; 100; 68; 0] [ASlot x].
(** [x] times backspace, space, backspace. *)
Definition backspace (x : Z) : E () := puts_ (concat (replicate (Z.to_nat x) [8; 32; 8])).

Definition lb_size (b : linebuf) : Z := cur_size (rbuf b) + cur_size (lbuf b).
Definition at_cursor (n : Z) (b : linebuf) : linebuf := mkLb (lb_addr b) (lbuf b) (rbuf b) n.

Definition linebuf_clear : E () :=
  b ← get_lb; set_lb (mkLb (lb_addr b) (buffer_clear (lbuf b)) (buffer_clear (rbuf b)) 0).

(** The line into the array [str]. *)
Definition linebuf_to_str (b : linebuf) (str : list Z) : outcome (list Z) :=
  let size := cur_size (lbuf b) + cur_size (rbuf b) in
  _ ← assert_ (size <? BUFLEN);
  str ← store str 0 (take (Z.to_nat (cur_size (lbuf b))) (bf_buf (lbuf b)));
  str ← store str (cur_size (lbuf b)) (take (Z.to_nat (cur_size (rbuf b))) (bf_buf (rbuf b)));
  wr str size 0.

Definition linebuf_cursor_inc : E () :=
  b ← get_lb;
  if cursor_pos b <? lb_size b then set_lb (at_cursor (cursor_pos b + 1) b);; cursorforwd 1 else mret tt.
Definition linebuf_cursor_dec : E () :=
  b ← get_lb;
  if 0 <? cursor_pos b then set_lb (at_cursor (cursor_pos b - 1) b);; cursorbackwd 1 else mret tt.

(** A step to the right for every character behind the cursor. *)
Fixpoint cursor_end_loop (fuel : nat) : E () :=
  mbind (M := M ed) (fun b =>
    if cursor_pos b <? lb_size b then
      match fuel with
      | O => fun _ => Diverge
      | S fuel' => set_lb (at_cursor (cursor_pos b + 1) b);; cursorforwd 1;; cursor_end_loop fuel'
      end
    else mret tt) get_lb.
Definition linebuf_cursor_end : E () := b ← get_lb; cursor_end_loop (Z.to_nat (lb_size b - cursor_pos b)).

(** [dst[d + i] = src[s + i]]. *)
Definition copy_byte (src : list Z) (d s : Z) (i : Z) (dst : list Z) : outcome (list Z) := c ← rd src (s + i); wr dst (d + i) c.
(** [buf[i + d] = buf[i + s]] in one array. *)
Definition move_byte (d s : Z) (i : Z) (buf : list Z) : outcome (list Z) := c ← rd buf (i + s); wr buf (i + d) c.

Definition linebuf_sync (b : linebuf) : outcome linebuf :=
  let l := lbuf b in
  let r := rbuf b in
  let off := cur_size l - cursor_pos b in
  if 0 <? off then
    rb ← foreach (reverse (seqZ 0 (cur_size r))) (move_byte off 0) (bf_buf r);
    rb ← foreach (seqZ 0 off) (copy_byte (bf_buf l) 0 (cursor_pos b)) rb;
    Ret (mkLb (lb_addr b) (with_buf (bf_buf l) (cur_size l - off) l) (with_buf rb (cur_size r + off) r) (cursor_pos b))
  else if off <? 0 then
    let off := - off in
    lb ← foreach (seqZ 0 off) (copy_byte (bf_buf r) (cur_size l) 0) (bf_buf l);
    rb ← foreach (seqZ 0 (cur_size r - off)) (move_byte 0 off) (bf_buf r);
    Ret (mkLb (lb_addr b) (with_buf lb (cur_size l + off) l) (with_buf rb (cur_size r - off) r) (cursor_pos b))
  else Ret b.

(** The text behind the cursor is printed again and the cursor moved back. *)
Definition show_rest : E () :=
  b ← get_lb;
  let n := cur_size (rbuf b) in
  puts_ (take (Z.to_nat n) (bf_buf (rbuf b)));;
  if 0 <? n then cursorbackwd n else mret tt.

Definition linebuf_insert (c : Z) : E () :=
  b ← get_lb;
  b ← lift (linebuf_sync b);
  assertM (cur_size (lbuf b) =? cursor_pos b);;
  l ← lift (wr (bf_buf (lbuf b)) (cur_size (lbuf b)) (u8 c));
  set_lb (mkLb (lb_addr b) (with_buf l (cur_size (lbuf b) + 1) (lbuf b)) (rbuf b) (cursor_pos b + 1));;
  putc (u8 c);;
  show_rest.

Definition linebuf_del : E () :=
  b ← get_lb;
  b ← lift (linebuf_sync b);
  set_lb b;;
  assertM (cur_size (lbuf b) =? cursor_pos b);;
  if 0 <? cursor_pos b then
    set_lb (mkLb (lb_addr b) (with_buf (bf_buf (lbuf b)) (cur_size (lbuf b) - 1) (lbuf b)) (rbuf b) (cursor_pos b - 1));;
    (if 0 <? cur_size (rbuf b) then cursorforwd (cur_size (rbuf b)) else mret tt);;
    backspace (cur_size (rbuf b) + 1);;
    show_rest
  else mret tt.

(** ** Allocation *)
Section Alloc.
Context (cache_pool : Z).
Abbreviation St := (slab_state page_state).

Definition alloc_buffer (size : Z) : M St (option buffer) :=
  b ← kalloc sizeof_buffer;
  if b =? 0 then mret None
  else
    d ← kalloc size;
    if d =? 0 then kfree cache_pool b;; mret None
    else mret (Some (mkBuf b d (replicate (Z.to_nat size) 0) size 0)).
Definition free_buffer (b : buffer) : M St () := kfree cache_pool (bf_data b);; kfree cache_pool (bf_addr b).

(** Both buffers are requested before either result is tested. *)
Definition alloc_linebuf : M St (option linebuf) :=
  lb ← kalloc sizeof_linebuf;
  if lb =? 0 then mret None
  else
    l ← alloc_buffer 128;
    r ← alloc_buffer 128;
    match l, r with
    | Some l, Some r => mret (Some (mkLb lb l r 0))
    | _, _ => kfree cache_pool lb;; mret None
    end.
(** The structure itself is not freed. *)
Definition free_linebuf (b : linebuf) : M St () := free_buffer (rbuf b);; free_buffer (lbuf b).
End Alloc.

(** ** Keys, history and the line itself *)
Definition KEY_ESCAPE : Z := 27.
Definition ARROW_LEFT : Z := 1000.
Definition ARROW_RIGHT : Z := 1001.
Definition ARROW_UP : Z := 1002.
Definition ARROW_DOWN : Z := 1003.
Definition DEL_KEY : Z := 1004.
Definition HOME_KEY : Z := 1005.
Definition END_KEY : Z := 1006.
Definition PAGE_UP : Z := 1007.
Definition PAGE_DOWN : Z := 1008.

Record rl := mkRl {
  rl_heap : slab_state page_state; init_ok : bool; readlbuf : option linebuf;
  linestr : list Z;                                                    (* BUFLEN bytes *)
  linerecord : list (list Z); record_windex : Z; record_rindex : Z;      (* MAX_RECORD rows *)
  rl_in : list Z; rl_out : list Z; rl_pbuf : list Z }.
Abbreviation R := (M rl).

Definition set_in (l : list Z) (s : rl) : rl :=
  mkRl (rl_heap s) (init_ok s) (readlbuf s) (linestr s) (linerecord s) (record_windex s) (record_rindex s) l (rl_out s) (rl_pbuf s).
Definition set_record (rec : list (list Z)) (w r : Z) (s : rl) : rl :=
  mkRl (rl_heap s) (init_ok s) (readlbuf s) (linestr s) rec w r (rl_in s) (rl_out s) (rl_pbuf s).
Definition set_linestr (l : list Z) (s : rl) : rl :=
  mkRl (rl_heap s) (init_ok s) (readlbuf s) l (linerecord s) (record_windex s) (record_rindex s) (rl_in s) (rl_out s) (rl_pbuf s).
Definition set_readlbuf (h : slab_state page_state) (ok : bool) (b : option linebuf) (s : rl) : rl :=
  mkRl h ok b (linestr s) (linerecord s) (record_windex s) (record_rindex s) (rl_in s) (rl_out s) (rl_pbuf s).

(** An editing operation on [readlbuf]; before it is allocated the pointer is NULL. *)
Definition on_ed {A} (m : E A) : R A := fun s =>
  match readlbuf s with
  | None => Fault
  | Some b =>
      '(a, e) ← m (mkEd b (rl_out s) (rl_pbuf s));
      Ret (a, mkRl (rl_heap s) (init_ok s) (Some (ed_lb e)) (linestr s) (linerecord s) (record_windex s) (record_rindex s) (rl_in s) (ed_out e) (ed_pbuf e))
  end.

(** The bytes of a string before its terminator. *)
Fixpoint c_bytes (l : list Z) : list Z := match l with [] => [] | c :: l' => if c =? 0 then [] else c :: c_bytes l' end.

Definition linerecord_prev : R (option (list Z)) :=
  s ← get;
  if record_rindex s =? 0 then row ← lift (rd (linerecord s) (record_rindex s)); mret (Some row)
  else if 0 <? record_rindex s then
    row ← lift (rd (linerecord s) (record_rindex s));
    modify (set_record (linerecord s) (record_windex s) (record_rindex s - 1));;
    mret (Some row)
  else mret None.

Definition linerecord_next : R (option (list Z)) :=
  s ← get;
  let r := record_rindex s in
  let r := if r =? record_windex s - 1 then r - 1 else r in
  '(row, r) ← (if 0 <=? r then row ← lift (rd (linerecord s) (r + 1)); mret (Some row, r + 1) else mret (None, r));
  let r := if r =? record_windex s - 1 then r - 1 else r in
  modify (set_record (linerecord s) (record_windex s) r);;
  mret row.

(** [strcpy] into a row keeps what is behind the terminator. *)
Definition linerecord_add (item : list Z) : R () :=
  s ← get;
  let '(rec, w) := if MAX_RECORD <=? record_windex s
                   then (drop 1 (linerecord s) ++ drop 3 (linerecord s), record_windex s - 1) else (linerecord s, record_windex s) in
  row ← lift (rd rec w);
  row ← lift (store row 0 (c_bytes item ++ [0]));
  rec ← lift (wr rec w row);
  modify (set_record rec (w + 1) w).

(** [console_getc] waits for a byte. *)
Definition console_getc : R Z := fun s =>
  match rl_in s with [] => Diverge | c :: l => Ret (c, set_in l s) end.
(** [None] is [EOF]: a 0 was read and the caller's variable is not assigned. *)
Definition getch : R (option Z) := c ← console_getc; mret (if c =? 0 then None else Some c).

Section Readline.
Context (cache_pool : Z) (stale_c : Z).

(** [c] holds [stale_c] when nothing was assigned to it. *)
Definition readkey : R Z :=
  c ← getch;
  let c := default stale_c c in
  if c =? KEY_ESCAPE then
    s0 ← getch;
    match s0 with
    | None => mret KEY_ESCAPE
    | Some s0 =>
        s1 ← getch;
        match s1 with
        | None => mret KEY_ESCAPE
        | Some s1 =>
            if s0 =? 91 then
              if (48 <=? s1) && (s1 <=? 57) then
                s2 ← getch;
                match s2 with
                | None => mret KEY_ESCAPE
                | Some s2 =>
                    mret (if s2 =? 126 then
                            (if s1 =? 49 then HOME_KEY else if s1 =? 51 then DEL_KEY else if s1 =? 52 then END_KEY
                             else if s1 =? 53 then PAGE_UP else if s1 =? 54 then PAGE_DOWN else if s1 =? 55 then HOME_KEY
                             else if s1 =? 56 then END_KEY else KEY_ESCAPE)
                          else KEY_ESCAPE)
                end
              else
                mret (if s1 =? 65 then ARROW_UP else if s1 =? 66 then ARROW_DOWN else if s1 =? 67 then ARROW_RIGHT
                      else if s1 =? 68 then ARROW_LEFT else if s1 =? 72 then HOME_KEY else if s1 =? 70 then END_KEY else KEY_ESCAPE)
            else if s0 =? 79 then mret (if s1 =? 72 then HOME_KEY else if s1 =? 70 then END_KEY else KEY_ESCAPE)
            else mret KEY_ESCAPE
        end
    end
  else mret c.

Fixpoint repeat_del (n : nat) : E () := match n with O => mret tt | S n' => linebuf_del;; repeat_del n' end.
Fixpoint insert_all (cs : list Z) : E () := match cs with [] => mret tt | c :: cs' => linebuf_insert c;; insert_all cs' end.

(** A line of the history replaces the text. *)
Definition show_record (row : list Z) : E () :=
  linebuf_cursor_end;;
  b ← get_lb;
  repeat_del (Z.to_nat (cursor_pos b));;
  insert_all (c_bytes row).

(** One round of the loop: whether it goes on. *)
Definition readline_step : R bool :=
  c ← readkey;
  if (c =? 8) || (c =? 127) then on_ed linebuf_del;; mret true
  else if (c =? 10) || (c =? 13) then
    on_ed (putc 10);;
    s ← get;
    b ← (match readlbuf s with Some b => mret b | None => fault end);
    str ← lift (linebuf_to_str b (linestr s));
    modify (set_linestr str);;
    linerecord_add str;;
    mret false
  else if c =? ARROW_LEFT then on_ed linebuf_cursor_dec;; mret true
  else if c =? ARROW_RIGHT then on_ed linebuf_cursor_inc;; mret true
  else if c =? ARROW_UP then
    r ← linerecord_prev;
    match r with Some row => on_ed (show_record row);; mret true | None => mret true end
  else if c =? ARROW_DOWN then
    r ← linerecord_next;
    match r with Some row => on_ed (show_record row);; mret true | None => mret true end
  else if c =? 3 then on_ed (puts_ [94; 67; 10]);; mret false
  else if c =? 5 then on_ed linebuf_cursor_end;; mret true
  else if 32 <=? c then on_ed (linebuf_insert c);; mret true
  else mret false.

Fixpoint readline_loop (fuel : nat) : R () :=
  mbind (M := M rl) (fun go : bool =>
    if go then match fuel with O => fun _ => Diverge | S fuel' => readline_loop fuel' end else mret tt) readline_step.

Definition init_readline : R () := fun s =>
  if init_ok s then Ret (tt, s)
  else
    '(b, h) ← alloc_linebuf cache_pool (rl_heap s);
    Ret (tt, set_readlbuf h (bool_decide (is_Some b)) b s).

(** [printf("%s", prompt)]. *)
Definition readline (prompt : list Z) : R (list Z) :=
  init_readline;;
  (fun s => '(o, pb) ← printf (rl_pbuf s) [37; 115; 0] [AStr prompt];
            Ret (tt, mkRl (rl_heap s) (init_ok s) (readlbuf s) (linestr s) (linerecord s) (record_windex s) (record_rindex s) (rl_in s) (rl_out s ++ o) pb));;
  s ← get;
  readline_loop (length (rl_in s));;
  on_ed linebuf_clear;;
  s ← get;
  mret (linestr s).
End Readline.

(** ** The copying loops *)

Lemma foreach_app {S A} (l l' : list A) (f : A -> S -> outcome S) s : foreach (l ++ l') f s = (s' ← foreach l f s; foreach l' f s').
Proof. revert s. induction l as [|x l IH]; intros s; cbn; [done|]. destruct (f x s); [apply IH|done..]. Qed.
Lemma seqZ_snoc n : seqZ 0 (Z.of_nat (S n)) = seqZ 0 (Z.of_nat n) ++ [Z.of_nat n].
Proof. rewrite Nat2Z.inj_succ, <- Z.add_1_r, seqZ_app by lia. by rewrite Z.add_0_l. Qed.

Lemma wr_app (a : list Z) x b i c : i = Z.of_nat (length a) -> wr (a ++ x :: b) i c = Ret (a ++ c :: b).
Proof. intros ->. rewrite wr_in by (rewrite length_app; cbn; lia). by rewrite Nat2Z.id, insert_app_r_alt, Nat.sub_diag by lia. Qed.
Lemma rd_app (a b : list Z) i : Z.of_nat (length a) <= i -> rd (a ++ b) i = rd b (i - Z.of_nat (length a)).
Proof.
  intros Hi. unfold rd. rewrite !(proj2 (Z.leb_le 0 _)) by lia. rewrite lookup_app_r by lia.
  by replace (Z.to_nat (i - Z.of_nat (length a))) with (Z.to_nat i - length a)%nat by lia.
Qed.
Lemma drop_cons (l : list Z) n : (n < length l)%nat -> exists x, drop n l = x :: drop (S n) l /\ l !! n = Some x.
Proof. intros Hn. destruct (lookup_lt_is_Some_2 l n Hn) as [x Hx]. exists x. split; [by apply drop_S|done]. Qed.

Lemma copy_loop src d s n dst :
  (s + n <= length src)%nat -> (d + n <= length dst)%nat ->
  foreach (seqZ 0 (Z.of_nat n)) (copy_byte src (Z.of_nat d) (Z.of_nat s)) dst = Ret (take d dst ++ take n (drop s src) ++ drop (d + n) dst).
Proof.
  induction n as [|n IH]; intros Hs Hd; [rewrite Nat.add_0_r, take_0; cbn [app]; by rewrite take_drop|].
  rewrite seqZ_snoc, foreach_app, IH by lia. cbn [mbind outcome_bind foreach]. unfold copy_byte.
  destruct (drop_cons src (s + n) ltac:(lia)) as (c & _ & Hc). rewrite (rd_lookup src _ c) by (lia || (rewrite <- Hc; f_equal; lia)). cbn [mbind outcome_bind].
  destruct (drop_cons dst (d + n) ltac:(lia)) as (x & -> & _). rewrite app_assoc, wr_app by (rewrite length_app, !length_take, length_drop; lia).
  rewrite <- app_assoc, (take_S_r (drop s src) n c) by (by rewrite lookup_drop). by rewrite <- app_assoc, Nat.add_succ_r.
Qed.

Lemma shift_right off n buf :
  (0 < off)%nat -> (n + off <= length buf)%nat ->
  foreach (reverse (seqZ 0 (Z.of_nat n))) (move_byte (Z.of_nat off) 0) buf = Ret (take off buf ++ take n buf ++ drop (n + off) buf).
Proof.
  intros Ho. revert buf. induction n as [|n IH]; intros buf Hn; [rewrite take_0; cbn [app Nat.add]; by rewrite take_drop|].
  rewrite seqZ_snoc, reverse_app. cbn [reverse rev_append app foreach]. unfold move_byte at 1.
  destruct (drop_cons buf n ltac:(lia)) as (c & _ & Hc). rewrite (rd_lookup buf _ c) by (lia || (rewrite <- Hc; f_equal; lia)). cbn [mbind outcome_bind].
  destruct (drop_cons buf (n + off) ltac:(lia)) as (x & Hx & _).
  rewrite <- (take_drop (n + off) buf) at 1. rewrite Hx, wr_app by (rewrite length_take; lia).
  set (st := take (n + off) buf ++ c :: drop (S (n + off)) buf).
  assert (length (take (n + off) buf) = (n + off)%nat) as Ht by (rewrite length_take; lia).
  rewrite IH by (unfold st; rewrite length_app; cbn; lia). unfold st.
  rewrite (take_app_le _ _ off), (take_app_le _ _ n), !take_take, drop_app_length', !Nat.min_l by lia.
  rewrite (take_S_r buf n c Hc), <- app_assoc. done.
Qed.

Lemma shift_left off n buf :
  (n + off <= length buf)%nat ->
  foreach (seqZ 0 (Z.of_nat n)) (move_byte 0 (Z.of_nat off)) buf = Ret (take n (drop off buf) ++ drop n buf).
Proof.
  induction n as [|n IH]; intros Hn; [by rewrite take_0|].
  rewrite seqZ_snoc, foreach_app, IH by lia. cbn [mbind outcome_bind foreach]. unfold move_byte.
  assert (length (take n (drop off buf)) = n) as Hl by (rewrite length_take, length_drop; lia).
  destruct (drop_cons buf (off + n) ltac:(lia)) as (c & _ & Hc).
  rewrite rd_app by lia. rewrite (rd_lookup (drop n buf) _ c) by (lia || (rewrite lookup_drop, <- Hc; f_equal; lia)). cbn [mbind outcome_bind].
  destruct (drop_cons buf n ltac:(lia)) as (x & -> & _). rewrite wr_app by lia.
  rewrite (take_S_r (drop off buf) n c) by (by rewrite lookup_drop). by rewrite <- app_assoc.
Qed.

(** The same with the integers of the code. *)
Lemma copy_loopZ src d s n dst :
  0 <= d -> 0 <= s -> 0 <= n -> s + n <= Z.of_nat (length src) -> d + n <= Z.of_nat (length dst) ->
  foreach (seqZ 0 n) (copy_byte src d s) dst = Ret (take (Z.to_nat d) dst ++ take (Z.to_nat n) (drop (Z.to_nat s) src) ++ drop (Z.to_nat d + Z.to_nat n) dst).
Proof. intros. pose proof (copy_loop src (Z.to_nat d) (Z.to_nat s) (Z.to_nat n) dst) as H'. rewrite !Z2Nat.id in H' by done. apply H'; lia. Qed.
Lemma shift_rightZ off n buf :
  0 < off -> 0 <= n -> n + off <= Z.of_nat (length buf) ->
  foreach (reverse (seqZ 0 n)) (move_byte off 0) buf = Ret (take (Z.to_nat off) buf ++ take (Z.to_nat n) buf ++ drop (Z.to_nat n + Z.to_nat off) buf).
Proof. intros. pose proof (shift_right (Z.to_nat off) (Z.to_nat n) buf) as H'. rewrite !Z2Nat.id in H' by lia. apply H'; lia. Qed.
Lemma shift_leftZ off n buf :
  0 <= off -> 0 <= n -> n + off <= Z.of_nat (length buf) ->
  foreach (seqZ 0 n) (move_byte 0 off) buf = Ret (take (Z.to_nat n) (drop (Z.to_nat off) buf) ++ drop (Z.to_nat n) buf).
Proof. intros. pose proof (shift_left (Z.to_nat off) (Z.to_nat n) buf) as H'. rewrite !Z2Nat.id in H' by lia. apply H'; lia. Qed.

(** ** The line buffer is a text with a cursor *)

Definition content (b : buffer) : list Z := take (Z.to_nat (cur_size b)) (bf_buf b).
Record buf_ok (b : buffer) : Prop := { bo_len : length (bf_buf b) = 128%nat; bo_size : bf_size b = 128; bo_cur : 0 <= cur_size b <= 128 }.

(** The text left and right of the cursor; the split of the two buffers may lag
    behind the cursor. *)
Record lb_rep (b : linebuf) (l r : list Z) : Prop := {
  lr_l : buf_ok (lbuf b); lr_r : buf_ok (rbuf b);
  lr_text : content (lbuf b) ++ content (rbuf b) = l ++ r;
  lr_cursor : cursor_pos b = Z.of_nat (length l) }.
Definition synced (b : linebuf) (l r : list Z) : Prop := lb_rep b l r /\ content (lbuf b) = l /\ content (rbuf b) = r.

Lemma content_length b : buf_ok b -> Z.of_nat (length (content b)) = cur_size b.
Proof. intros [H1 _ H2]. unfold content. rewrite length_take. lia. Qed.
Lemma lb_rep_size b l r : lb_rep b l r -> lb_size b = Z.of_nat (length (l ++ r)).
Proof.
  intros [Hl Hr Ht _]. rewrite <- Ht, length_app. pose proof (content_length _ Hl). pose proof (content_length _ Hr). unfold lb_size. lia.
Qed.

Lemma with_buf_ok b l n : buf_ok b -> length l = 128%nat -> 0 <= n <= 128 -> buf_ok (with_buf l n b).
Proof. intros [? ? ?] ? ?. by constructor. Qed.

Lemma content_with b l n : content (with_buf l n b) = take (Z.to_nat n) l.
Proof. done. Qed.

(** [linebuf_sync] brings the split of the buffers to the cursor. *)
Lemma linebuf_sync_spec b l r :
  lb_rep b l r -> (length (l ++ r) <= 128)%nat -> exists b', linebuf_sync b = Ret b' /\ synced b' l r.
Proof.
  intros [Hl Hr Ht Hc] Hn. pose proof (content_length _ Hl) as Hcl. pose proof (content_length _ Hr) as Hcr.
  pose proof Hl as [Hl1 Hl2 Hl3]. pose proof Hr as [Hr1 Hr2 Hr3].
  pose proof (f_equal length Ht) as Hlen. rewrite (length_app (content _)), (length_app l) in Hlen. rewrite length_app in Hn.
  unfold linebuf_sync. destruct (Z.ltb_spec 0 (cur_size (lbuf b) - cursor_pos b)) as [Hpos|Hnp].
  - (* the cursor went left: [x] moves to the right buffer *)
    set (off := cur_size (lbuf b) - cursor_pos b) in *. set (k := Z.to_nat off). assert (off = cur_size (lbuf b) - cursor_pos b) as Hoff by done.
    assert (off = Z.of_nat k) as Ho by lia.
    assert (exists x, content (lbuf b) = l ++ x /\ r = x ++ content (rbuf b) /\ length x = k) as (x & Hx & Hrx & Hk).
    { exists (drop (length l) (content (lbuf b))). pose proof (f_equal (take (length l)) Ht) as H1. pose proof (f_equal (drop (length l)) Ht) as H2.
      rewrite take_app_le, take_app_length in H1 by lia. rewrite drop_app_le, drop_app_length in H2 by lia.
      split_and!; [rewrite <- (take_drop (length l) (content (lbuf b))) at 1; by rewrite H1|by rewrite H2|rewrite length_drop; lia]. }
    rewrite shift_rightZ by lia. cbn [mbind outcome_bind].
    rewrite copy_loopZ by (rewrite ?length_app, ?length_take, ?length_drop; lia). cbn [mbind outcome_bind].
    eexists. split; [done|]. rewrite Hc, Nat2Z.id, Ho, Nat2Z.id. change (Z.to_nat 0) with 0%nat. rewrite take_0. cbn [app Nat.add]. set (rb := bf_buf (rbuf b)) in *. set (nr := Z.to_nat (cur_size (rbuf b))).
    assert (take k (drop (length l) (bf_buf (lbuf b))) = x) as Hxk.
    { rewrite take_drop_commute. replace (length l + k)%nat with (Z.to_nat (cur_size (lbuf b))) by lia. change (take (Z.to_nat (cur_size (lbuf b))) (bf_buf (lbuf b))) with (content (lbuf b)). rewrite Hx. apply drop_app_length. }
    rewrite Hxk, drop_app_length' by (rewrite length_take; lia).
    assert (take nr rb = content (rbuf b)) as Hcont by done. rewrite Hcont.
    assert (length (content (rbuf b)) = nr) as Hnr by lia.
    assert (content (with_buf (x ++ content (rbuf b) ++ drop (nr + k) rb) (cur_size (rbuf b) + Z.of_nat k) (rbuf b)) = r) as HR.
    { rewrite content_with, Hrx, app_assoc. apply take_app_length'. rewrite length_app. lia. }
    assert (content (with_buf (bf_buf (lbuf b)) (cur_size (lbuf b) - Z.of_nat k) (lbuf b)) = l) as HL.
    { rewrite content_with. replace (Z.to_nat (cur_size (lbuf b) - Z.of_nat k)) with (length l) by lia.
      pose proof (f_equal (take (length l)) Hx) as H1. rewrite take_app_length in H1. rewrite <- H1 at 2. unfold content. rewrite take_take. f_equal. lia. }
    split; [|by split]. constructor; cbn [lbuf rbuf cursor_pos].
    + apply with_buf_ok; [done|done|lia].
    + apply with_buf_ok; [done|rewrite !length_app, length_drop; lia|lia].
    + by rewrite HL, HR.
    + done.
  - destruct (Z.ltb_spec (cur_size (lbuf b) - cursor_pos b) 0) as [Hneg|Hz].
    + (* the cursor went right: [y] moves to the left buffer *)
      set (off := - (cur_size (lbuf b) - cursor_pos b)) in *. set (k := Z.to_nat off). assert (off = Z.of_nat k) as Ho by lia.
      assert (off = - (cur_size (lbuf b) - cursor_pos b)) as Hoff by done.
      assert (exists y, l = content (lbuf b) ++ y /\ content (rbuf b) = y ++ r /\ length y = k) as (y & Hy & Hry & Hk).
      { exists (drop (length (content (lbuf b))) l). pose proof (f_equal (take (length (content (lbuf b)))) Ht) as H1. pose proof (f_equal (drop (length (content (lbuf b)))) Ht) as H2.
        rewrite take_app_length, take_app_le in H1 by lia. rewrite drop_app_length, drop_app_le in H2 by lia.
        split_and!; [rewrite <- (take_drop (length (content (lbuf b))) l) at 1; by rewrite <- H1|done|rewrite length_drop; lia]. }
      rewrite copy_loopZ by lia. cbn [mbind outcome_bind]. rewrite shift_leftZ by lia. cbn [mbind outcome_bind].
      set (n := Z.to_nat (cur_size (rbuf b) - off)). eexists. split; [done|]. replace (cur_size (rbuf b) - off) with (Z.of_nat n) by lia.
      rewrite Ho, Nat2Z.id. change (Z.to_nat 0) with 0%nat. rewrite drop_0. set (nl := Z.to_nat (cur_size (lbuf b))).
      assert (take k (bf_buf (rbuf b)) = y) as Hyk.
      { pose proof (f_equal (take k) Hry) as H1. rewrite (take_app_length' y r k) in H1 by lia. rewrite <- H1. unfold content. rewrite take_take. f_equal. lia. }
      assert (take n (drop k (bf_buf (rbuf b))) = r) as Hrk.
      { rewrite take_drop_commute. replace (k + n)%nat with (Z.to_nat (cur_size (rbuf b))) by lia. change (take (Z.to_nat (cur_size (rbuf b))) (bf_buf (rbuf b))) with (content (rbuf b)). rewrite Hry. apply drop_app_length'. lia. }
      rewrite Hyk, Hrk. assert (take nl (bf_buf (lbuf b)) = content (lbuf b)) as Hcont by done. rewrite Hcont.
      assert (content (with_buf (content (lbuf b) ++ y ++ drop (nl + k) (bf_buf (lbuf b))) (cur_size (lbuf b) + Z.of_nat k) (lbuf b)) = l) as HL.
      { rewrite content_with, Hy at 1. rewrite app_assoc. apply take_app_length'. rewrite length_app. lia. }
      assert (content (with_buf (r ++ drop n (bf_buf (rbuf b))) (Z.of_nat n) (rbuf b)) = r) as HR.
      { rewrite content_with. apply take_app_length'. apply (f_equal length) in Hry. rewrite length_app in Hry. lia. }
      split; [|by split]. apply (f_equal length) in Hry. rewrite length_app in Hry. constructor; cbn [lbuf rbuf cursor_pos].
      * apply with_buf_ok; [done|rewrite !length_app, length_drop; lia|lia].
      * apply with_buf_ok; [done|rewrite !length_app, length_drop; lia|lia].
      * by rewrite HL, HR.
      * done.
    + exists b. split; [done|]. destruct (app_inj_1 (content (lbuf b)) l (content (rbuf b)) r) as [H1 H2]; [lia|done|]. split; [by constructor|done].
Qed.

(** ** What the editing operations do *)

(** Cursor movement and redrawing, as bytes. *)
Definition fwd (n : nat) : list Z := [27; 91] ++ dec_text (Z.of_nat n) ++ [67].
Definition back (n : nat) : list Z := [27; 91] ++ dec_text (Z.of_nat n) ++ [68].
Definition rest_out (r : list Z) : list Z := r ++ (if r is [] then [] else back (length r)).
Definition del_out (r : list Z) : list Z :=
  (if r is [] then [] else fwd (length r)) ++ concat (replicate (S (length r)) [8; 32; 8]) ++ rest_out r.

Record ed_ok (s : ed) (l r : list Z) : Prop := {
  eo_lb : lb_rep (ed_lb s) l r; eo_len : (length (l ++ r) <= 128)%nat; eo_pbuf : length (ed_pbuf s) = 4096%nat }.

(** [m] turns the text [l]|[r] into [l']|[r'] and prints [out]. *)
Definition edits (m : E ()) (s : ed) (out l' r' : list Z) : Prop :=
  exists s', m s = Ret (tt, s') /\ ed_ok s' l' r' /\ ed_out s' = ed_out s ++ out.

Lemma edits_bind m k s o l r o' l' r' :
  edits m s o l r -> (forall s', ed_ok s' l r -> ed_out s' = ed_out s ++ o -> edits k s' o' l' r') -> edits (m;; k) s (o ++ o') l' r'.
Proof.
  intros (s' & Hm & Hok & Ho) Hk. destruct (Hk s' Hok Ho) as (s'' & Hk' & Hok' & Ho'). exists s''. split_and!; [|done|by rewrite Ho', Ho, app_assoc].
  unfold mbind, M_bind. by rewrite Hm.
Qed.
Lemma edits_ret s l r : ed_ok s l r -> edits (mret tt) s [] l r.
Proof. intros Hok. exists s. split; [done|]. split; [done|by rewrite app_nil_r]. Qed.

Lemma printf_move pb n x : length pb = 4096%nat -> (n <= 128)%nat -> x <> 0 -> x <> 37 ->
  exists pb', printf pb [27; 91; 37; 100; x; 0] [ASlot (Z.of_nat n)] = Ret ([27; 91] ++ dec_text (Z.of_nat n) ++ [x], pb') /\ length pb' = 4096%nat.
Proof.
  intros Hp Hn H0 H37. pose proof (vsnprintf_spec pb 4096 [Lit 27; Lit 91; Conv [] [] (CDec false (Z.of_nat n)); Lit x]) as H.
  cbn [fmap list_fmap concat dir_fmt dir_args dir_text conv_fmt conv_args conv_text app] in H. change (value 10 []) with 0 in H.
  rewrite !bool_decide_eq_false_2 in H by apply not_elem_of_nil.
  assert (signed_of false (Z.of_nat n) = Z.of_nat n) as Hsg.
  { unfold signed_of. rewrite s64_small, s32_small, (proj2 (Z.ltb_ge _ 0)), u64_small by lia. done. }
  rewrite Hsg in H. set (d := dec_text (Z.of_nat n)) in *.
  pose proof (proj2 (dec_text_length (Z.of_nat n))) as Hd. fold d in Hd. rewrite padded_text_0 in H.
  change (27 :: 91 :: d ++ [x]) with ([27; 91] ++ d ++ [x]) in H. set (t := [27; 91] ++ d ++ [x]) in *.
  assert (length t <= 24)%nat as Hlt by (unfold t; rewrite !length_app; cbn; lia).
  rewrite firstn_all2 in H by lia. unfold printf. rewrite H; [|repeat constructor; cbn; done || lia|lia]. cbn [mbind outcome_bind].
  eexists. rewrite Nat2Z.id, take_app_length. split; [done|]. rewrite length_app. cbn [length]. rewrite length_drop. lia.
Qed.

(** [m] prints [o] and leaves the line alone. *)
Definition prints (m : E ()) (s : ed) (o : list Z) : Prop :=
  exists pb, m s = Ret (tt, mkEd (ed_lb s) (ed_out s ++ o) pb) /\ length pb = 4096%nat.
Lemma cursorforwd_prints s n : length (ed_pbuf s) = 4096%nat -> (n <= 128)%nat -> prints (cursorforwd (Z.of_nat n)) s (fwd n).
Proof.
  intros H3 Hn. destruct (printf_move (ed_pbuf s) n 67 H3 Hn ltac:(lia) ltac:(lia)) as (pb & Hp & Hl).
  exists pb. unfold cursorforwd, printfE. rewrite Hp. done.
Qed.
Lemma cursorbackwd_prints s n : length (ed_pbuf s) = 4096%nat -> (n <= 128)%nat -> prints (cursorbackwd (Z.of_nat n)) s (back n).
Proof.
  intros H3 Hn. destruct (printf_move (ed_pbuf s) n 68 H3 Hn ltac:(lia) ltac:(lia)) as (pb & Hp & Hl).
  exists pb. unfold cursorbackwd, printfE. rewrite Hp. done.
Qed.
Lemma puts_prints s o : length (ed_pbuf s) = 4096%nat -> prints (puts_ o) s o.
Proof. intros H. by exists (ed_pbuf s). Qed.
Lemma ret_prints s : length (ed_pbuf s) = 4096%nat -> prints (mret tt) s [].
Proof. intros H. exists (ed_pbuf s). rewrite app_nil_r. by destruct s. Qed.
Lemma prints_bind m k s o o' :
  prints m s o -> (forall pb, length pb = 4096%nat -> prints k (mkEd (ed_lb s) (ed_out s ++ o) pb) o') -> prints (m;; k) s (o ++ o').
Proof.
  intros (pb & Hm & Hl) Hk. destruct (Hk pb Hl) as (pb' & Hk' & Hl'). exists pb'. split; [|done]. unfold mbind, M_bind. rewrite Hm, Hk'. cbn. by rewrite app_assoc.
Qed.
Lemma prints_edits m s o l r : prints m s o -> ed_ok s l r -> edits m s o l r.
Proof. intros (pb & Hm & Hl) [H1 H2 H3]. eexists. split; [exact Hm|]. by split. Qed.
Lemma prints_then m k s o o' l r :
  prints m s o -> (forall pb, length pb = 4096%nat -> edits k (mkEd (ed_lb s) (ed_out s ++ o) pb) o' l r) -> edits (m;; k) s (o ++ o') l r.
Proof.
  intros (pb & Hm & Hl) Hk. destruct (Hk pb Hl) as (s' & Hk' & Hok & Ho). exists s'. split_and!; [|done|rewrite Ho; cbn; by rewrite app_assoc].
  unfold mbind, M_bind. by rewrite Hm.
Qed.

Lemma edits_set b k s o l r : edits k (mkEd b (ed_out s) (ed_pbuf s)) o l r -> edits (set_lb b;; k) s o l r.
Proof. done. Qed.
Lemma edits_get (k : linebuf -> E ()) s o l r : edits (k (ed_lb s)) s o l r -> edits (b ← get_lb; k b) s o l r.
Proof. done. Qed.
Lemma edits_lift {A} (m : outcome A) a (k : A -> E ()) s o l r : m = Ret a -> edits (k a) s o l r -> edits (x ← lift m; k x) s o l r.
Proof. by intros ->. Qed.
Lemma edits_assert c (k : E ()) s o l r : c = true -> edits k s o l r -> edits (assertM c;; k) s o l r.
Proof. by intros ->. Qed.
Lemma edits_eq m s o o' l r : edits m s o l r -> o = o' -> edits m s o' l r.
Proof. by intros ? ->. Qed.

Lemma show_rest_prints s l r :
  synced (ed_lb s) l r -> (length r <= 128)%nat -> length (ed_pbuf s) = 4096%nat -> prints show_rest s (rest_out r).
Proof.
  intros (Hr & Hl' & Hr') Hlen Hpb. pose proof (content_length _ (lr_r _ _ _ Hr)) as Hc. rewrite Hr' in Hc.
  change (prints (let n := cur_size (rbuf (ed_lb s)) in puts_ (content (rbuf (ed_lb s)));; if 0 <? n then cursorbackwd n else mret tt) s (rest_out r)).
  rewrite Hr', <- Hc. eapply prints_bind; [by apply puts_prints|]. intros pb Hl. destruct r as [|x r]; [by apply ret_prints|].
  rewrite (proj2 (Z.ltb_lt 0 _)) by (cbn; lia). by apply cursorbackwd_prints.
Qed.

Lemma synced_sizes b l r : synced b l r -> cur_size (lbuf b) = Z.of_nat (length l) /\ cur_size (rbuf b) = Z.of_nat (length r) /\ cursor_pos b = Z.of_nat (length l).
Proof.
  intros (Hr & Hl' & Hr'). pose proof (content_length _ (lr_l _ _ _ Hr)) as H1. pose proof (content_length _ (lr_r _ _ _ Hr)) as H2.
  rewrite Hl' in H1. rewrite Hr' in H2. pose proof (lr_cursor _ _ _ Hr). done.
Qed.

Lemma linebuf_insert_edits s l r c :
  ed_ok s l r -> (length (l ++ r) < 128)%nat -> edits (linebuf_insert c) s (u8 c :: rest_out r) (l ++ [u8 c]) r.
Proof.
  intros Hok Hlt. destruct (linebuf_sync_spec _ _ _ (eo_lb _ _ _ Hok) (eo_len _ _ _ Hok)) as (b & Hb & Hsy).
  destruct (synced_sizes _ _ _ Hsy) as (H1 & H2 & H3). pose proof Hsy as ([Hbl Hbr _ _] & Hl' & Hr'). rewrite length_app in Hlt.
  apply edits_get. eapply edits_lift; [exact Hb|]. apply edits_assert; [apply Z.eqb_eq; lia|].
  pose proof Hbl as [Hlen _ _]. eapply edits_lift; [rewrite H1; apply wr_in; lia|]. rewrite Nat2Z.id.
  set (l2 := <[length l := u8 c]> (bf_buf (lbuf b))).
  assert (content (with_buf l2 (cur_size (lbuf b) + 1) (lbuf b)) = l ++ [u8 c]) as Hcont.
  { rewrite content_with. replace (Z.to_nat (cur_size (lbuf b) + 1)) with (S (length l)) by lia. unfold l2.
    rewrite (take_S_r _ _ (u8 c)) by (rewrite list_lookup_insert_eq; [done|lia]). rewrite take_insert_ge by lia.
    rewrite <- Hl' at 2. unfold content. do 2 f_equal. lia. }
  set (b' := mkLb _ _ _ _).
  assert (synced b' (l ++ [u8 c]) r) as Hsy'.
  { split; [|by split]. constructor; cbn [b' lbuf rbuf cursor_pos].
    - apply with_buf_ok; [done|unfold l2; rewrite length_insert; done|lia].
    - done.
    - by rewrite Hcont, Hr'.
    - rewrite length_app. cbn. lia. }
  apply edits_set. eapply (prints_then _ _ _ [u8 c]); [by apply puts_prints, Hok|]. intros pb Hpb. cbn [ed_lb ed_out].
  apply prints_edits; [eapply show_rest_prints; [exact Hsy'|lia|done]|]. constructor; [apply Hsy'|rewrite !length_app; cbn; lia|done].
Qed.

Lemma linebuf_del_edits s l x r : ed_ok s (l ++ [x]) r -> edits linebuf_del s (del_out r) l r.
Proof.
  intros Hok. destruct (linebuf_sync_spec _ _ _ (eo_lb _ _ _ Hok) (eo_len _ _ _ Hok)) as (b & Hb & Hsy).
  destruct (synced_sizes _ _ _ Hsy) as (H1 & H2 & H3). pose proof Hsy as ([Hbl Hbr _ _] & Hl' & Hr').
  pose proof (eo_len _ _ _ Hok) as Hlt. rewrite !length_app in Hlt. rewrite length_app in H1, H3. cbn in H1, H3, Hlt.
  apply edits_get. eapply edits_lift; [exact Hb|]. apply edits_set, edits_assert; [apply Z.eqb_eq; lia|].
  rewrite (proj2 (Z.ltb_lt 0 (cursor_pos b))) by lia. pose proof Hbl as [Hlen _ Hcur]. set (b' := mkLb _ _ _ _).
  assert (content (with_buf (bf_buf (lbuf b)) (cur_size (lbuf b) - 1) (lbuf b)) = l) as Hcont.
  { rewrite content_with. replace (Z.to_nat (cur_size (lbuf b) - 1)) with (length l) by lia.
    pose proof (f_equal (take (length l)) Hl') as Ht. rewrite take_app_length in Ht. rewrite <- Ht at 2. unfold content. rewrite take_take. f_equal. lia. }
  assert (synced b' l r) as Hsy'.
  { split; [|by split]. constructor; cbn [b' lbuf rbuf cursor_pos].
    - apply with_buf_ok; [done|done|lia].
    - done.
    - by rewrite Hcont, Hr'.
    - lia. }
  apply edits_set. rewrite H2. unfold del_out. apply (prints_then _ _ _ (if r is [] then [] else fwd (length r))).
  { destruct r as [|y r]; [by apply ret_prints, Hok|].
    rewrite (proj2 (Z.ltb_lt 0 _)) by (cbn; lia). apply cursorforwd_prints; [apply Hok|lia]. }
  intros pb Hpb. unfold backspace. replace (Z.to_nat (Z.of_nat (length r) + 1)) with (S (length r)) by lia.
  eapply prints_then; [by apply puts_prints|]. intros pb' Hpb'. cbn [ed_lb ed_out].
  apply prints_edits; [eapply show_rest_prints; [exact Hsy'|lia|done]|]. constructor; [apply Hsy'|rewrite length_app; lia|done].
Qed.
(** At the left end nothing is deleted. *)
Lemma linebuf_del_start s r : ed_ok s [] r -> edits linebuf_del s [] [] r.
Proof.
  intros Hok. destruct (linebuf_sync_spec _ _ _ (eo_lb _ _ _ Hok) (eo_len _ _ _ Hok)) as (b & Hb & Hsy).
  destruct (synced_sizes _ _ _ Hsy) as (H1 & _ & H3). cbn in H1, H3.
  apply edits_get. eapply edits_lift; [exact Hb|]. apply edits_set, edits_assert; [apply Z.eqb_eq; lia|].
  rewrite (proj2 (Z.ltb_ge 0 (cursor_pos b))) by lia. apply edits_ret. constructor; [apply Hsy|apply Hok|apply Hok].
Qed.

Lemma cursor_inc_edits s l x r : ed_ok s l (x :: r) -> edits linebuf_cursor_inc s (fwd 1) (l ++ [x]) r.
Proof.
  intros [Hr Hlen Hpb]. apply edits_get. rewrite (lb_rep_size _ _ _ Hr). pose proof Hr as [H1 H2 H3 H4]. rewrite H4, length_app.
  rewrite (proj2 (Z.ltb_lt _ _)) by (cbn; lia). apply edits_set. apply prints_edits; [apply (cursorforwd_prints _ 1); [done|lia]|].
  constructor; cbn; [|by rewrite <- app_assoc|done]. constructor; cbn; [done|done|by rewrite <- app_assoc|rewrite length_app; cbn; lia].
Qed.
Lemma cursor_inc_end s l : ed_ok s l [] -> edits linebuf_cursor_inc s [] l [].
Proof.
  intros Hok. pose proof Hok as [Hr Hlen Hpb]. apply edits_get. rewrite (lb_rep_size _ _ _ Hr). rewrite (lr_cursor _ _ _ Hr), app_nil_r.
  rewrite (proj2 (Z.ltb_ge _ _)) by lia. by apply edits_ret.
Qed.
Lemma cursor_dec_edits s l x r : ed_ok s (l ++ [x]) r -> edits linebuf_cursor_dec s (back 1) l (x :: r).
Proof.
  intros [Hr Hlen Hpb]. apply edits_get. pose proof Hr as [H1 H2 H3 H4]. rewrite H4, length_app. cbn [length].
  rewrite (proj2 (Z.ltb_lt _ _)) by lia. apply edits_set. apply prints_edits; [apply (cursorbackwd_prints _ 1); [done|lia]|].
  rewrite <- app_assoc in H3, Hlen. constructor; cbn; [|done|done]. constructor; cbn; [done|done|done|lia].
Qed.
Lemma cursor_dec_start s r : ed_ok s [] r -> edits linebuf_cursor_dec s [] [] r.
Proof.
  intros Hok. pose proof Hok as [Hr Hlen Hpb]. apply edits_get. rewrite (lr_cursor _ _ _ Hr). by apply edits_ret.
Qed.

Lemma cursor_end_edits s l r : ed_ok s l r -> edits linebuf_cursor_end s (concat (replicate (length r) (fwd 1))) (l ++ r) [].
Proof.
  intros Hok. apply edits_get. rewrite (lb_rep_size _ _ _ (eo_lb _ _ _ Hok)), (lr_cursor _ _ _ (eo_lb _ _ _ Hok)), length_app.
  replace (Z.to_nat (Z.of_nat (length l + length r) - Z.of_nat (length l))) with (length r) by lia.
  revert s l Hok. induction r as [|x r IH]; intros s l Hok; pose proof Hok as [Hr Hlen Hpb]; cbn [length cursor_end_loop replicate concat]; apply edits_get;
    rewrite (lb_rep_size _ _ _ Hr), (lr_cursor _ _ _ Hr), length_app.
  - rewrite (proj2 (Z.ltb_ge _ _)) by (cbn; lia). rewrite app_nil_r. by apply edits_ret.
  - rewrite (proj2 (Z.ltb_lt _ _)) by (cbn; lia). apply edits_set. eapply prints_then; [apply (cursorforwd_prints _ 1); [done|lia]|].
    intros pb Hpb'. cbn [ed_lb ed_out]. replace (l ++ x :: r) with ((l ++ [x]) ++ r) in * by (by rewrite <- app_assoc).
    apply IH. pose proof Hr as [H1 H2 H3 H4]. constructor; cbn; [|done|done]. constructor; cbn; [done|done|by rewrite <- app_assoc|rewrite length_app; cbn; lia].
Qed.

Lemma repeat_del_edits s l : ed_ok s l [] -> edits (repeat_del (length l)) s (concat (replicate (length l) (del_out []))) [] [].
Proof.
  intros Hok. remember (length l) as n eqn:Hn. revert s l Hn Hok. induction n as [|n IH]; intros s l Hn Hok; cbn [repeat_del replicate concat].
  - destruct l; [by apply edits_ret|done].
  - destruct l as [|x l _] using rev_ind; [done|]. rewrite length_app in Hn. cbn in Hn.
    eapply edits_bind; [by eapply linebuf_del_edits|]. intros s' Hok' _. apply (IH _ l); [lia|done].
Qed.

Lemma insert_all_edits s l cs :
  ed_ok s l [] -> (length l + length cs <= 128)%nat -> Forall (fun c => 0 < c < 256) cs -> edits (insert_all cs) s cs (l ++ cs) [].
Proof.
  intros Hok Hlen Hcs. revert s l Hok Hlen. induction Hcs as [|c cs Hc _ IH]; intros s l Hok Hlen; cbn [insert_all].
  - rewrite app_nil_r. by apply edits_ret.
  - simpl in Hlen. assert (u8 c = c) as Hu by (apply wrapu_small; lia).
    replace (l ++ c :: cs) with ((l ++ [c]) ++ cs) by (by rewrite <- app_assoc).
    eapply (edits_bind _ _ _ [c] (l ++ [c]) []).
    + eapply edits_eq; [rewrite <- Hu at 2; apply linebuf_insert_edits; [done|rewrite app_nil_r; lia]|]. by rewrite Hu.
    + intros s' Hok' _. apply IH; [done|rewrite length_app; cbn; lia].
Qed.

(** A history line replaces whatever the text was. *)
Lemma show_record_edits s l r row :
  ed_ok s l r -> (length (c_bytes row) <= 128)%nat -> Forall (fun c => 0 < c < 256) (c_bytes row) ->
  exists o, edits (show_record row) s o (c_bytes row) [].
Proof.
  intros Hok Hlen Hb. eexists. unfold show_record. eapply edits_bind; [by apply cursor_end_edits|]. intros s1 Hok1 _.
  apply edits_get. rewrite (lr_cursor _ _ _ (eo_lb _ _ _ Hok1)), Nat2Z.id. eapply edits_bind; [by apply repeat_del_edits|]. intros s2 Hok2 _.
  by apply (insert_all_edits _ []).
Qed.

(** ** Keys and the whole line *)

Inductive key := KChar (c : Z) | KBack | KLeft | KRight | KUp | KDown | KEnd.
Definition key_bytes (k : key) : list Z :=
  match k with
  | KChar c => [c] | KBack => [127] | KEnd => [5]
  | KLeft => [27; 91; 68] | KRight => [27; 91; 67] | KUp => [27; 91; 65] | KDown => [27; 91; 66]
  end.
Definition key_ok (k : key) : Prop := match k with KChar c => 32 <= c < 256 /\ c <> 127 | _ => True end.

(** The abstract editor: the text around the cursor, and where the history is
    being read. *)
Record editor := mkEditor { ea_l : list Z; ea_r : list Z; ea_idx : Z }.

(** The line of the history to show, and the next place to read it. *)
Definition hist_prev (i : Z) : option Z * Z := if i =? 0 then (Some 0, 0) else if 0 <? i then (Some i, i - 1) else (None, i).
Definition hist_next (n i : Z) : option Z * Z :=
  let i := if i =? n - 1 then i - 1 else i in
  let '(o, i) := if 0 <=? i then (Some (i + 1), i + 1) else (None, i) in
  (o, if i =? n - 1 then i - 1 else i).
Definition recall (hist : list (list Z)) (p : option Z * Z) (a : editor) : editor :=
  match p with
  | (Some j, i) => mkEditor (default [] (hist !! Z.to_nat j)) [] i
  | (None, i) => mkEditor (ea_l a) (ea_r a) i
  end.

(** [None] when the text would not fit the 128 bytes. *)
Definition ea_step (hist : list (list Z)) (k : key) (a : editor) : option editor :=
  let '(mkEditor l r i) := a in
  match k with
  | KChar c => if decide (length (l ++ r) < 128)%nat then Some (mkEditor (l ++ [c]) r i) else None
  | KBack => Some (mkEditor (take (length l - 1) l) r i)
  | KLeft => Some (match last l with Some x => mkEditor (take (length l - 1) l) (x :: r) i | None => a end)
  | KRight => Some (match r with x :: r' => mkEditor (l ++ [x]) r' i | [] => a end)
  | KEnd => Some (mkEditor (l ++ r) [] i)
  | KUp => Some (recall hist (hist_prev i) a)
  | KDown => Some (recall hist (hist_next (Z.of_nat (length hist)) i) a)
  end.
Fixpoint ea_run (hist : list (list Z)) (ks : list key) (a : editor) : option editor :=
  match ks with [] => Some a | k :: ks' => a' ← ea_step hist k a; ea_run hist ks' a' end.

Definition line_ok (t : list Z) : Prop := (length t <= 128)%nat /\ Forall (fun c => 0 < c < 256) t.

Record rl_ok (s : rl) (hist : list (list Z)) (a : editor) : Prop := {
  ro_lb : exists b, readlbuf s = Some b /\ lb_rep b (ea_l a) (ea_r a);
  ro_text : line_ok (ea_l a ++ ea_r a);
  ro_pbuf : length (rl_pbuf s) = 4096%nat;
  ro_str : length (linestr s) = 512%nat;
  ro_rows : length (linerecord s) = 4%nat /\ Forall (fun row => length row = 512%nat) (linerecord s);
  ro_hist : (length hist <= 4)%nat /\ record_windex s = Z.of_nat (length hist) /\
    forall i t, hist !! i = Some t -> line_ok t /\ exists row, linerecord s !! i = Some row /\ c_bytes row = t;
  ro_idx : record_rindex s = ea_idx a /\ ea_idx a < Z.of_nat (length hist) }.

Lemma on_ed_ok s hist a (m : E ()) l' r' :
  rl_ok s hist a -> (forall e, ed_ok e (ea_l a) (ea_r a) -> exists o, edits m e o l' r') -> line_ok (l' ++ r') ->
  exists s', on_ed m s = Ret (tt, s') /\ rl_ok s' hist (mkEditor l' r' (ea_idx a)) /\ rl_in s' = rl_in s /\ linestr s' = linestr s.
Proof.
  intros [(b & Hb & Hrep) Ht Hpb Hstr Hrows Hh Hi] Hm Hl'. destruct (Hm (mkEd b (rl_out s) (rl_pbuf s))) as (o & e & He & [He1 He2 He3] & Ho); [constructor; [done|apply Ht|done]|].
  unfold on_ed. rewrite Hb, He. cbn [mbind outcome_bind]. eexists. split; [done|]. split; [|done]. constructor; cbn; try done. by exists (ed_lb e).
Qed.

Lemma set_in_ok s hist a l : rl_ok s hist a -> rl_ok (set_in l s) hist a.
Proof. intros [? ? ? ? ? ? ?]. by constructor. Qed.

(** What a key makes of its bytes. *)
Definition key_code (k : key) : Z :=
  match k with
  | KChar c => c | KBack => 127 | KEnd => 5
  | KLeft => ARROW_LEFT | KRight => ARROW_RIGHT | KUp => ARROW_UP | KDown => ARROW_DOWN
  end.
Lemma readkey_run stale s k rest : key_ok k -> rl_in s = key_bytes k ++ rest -> readkey stale s = Ret (key_code k, set_in rest s).
Proof.
  intros Hk Hin. unfold readkey, getch, console_getc. destruct k as [c| | | | | |]; cbn in Hin; mstep; rewrite Hin; cbn; try done.
  destruct Hk as [Hk _]. rewrite (proj2 (Z.eqb_neq c 0)) by lia. cbn. by rewrite (proj2 (Z.eqb_neq c KEY_ESCAPE)) by (unfold KEY_ESCAPE; lia).
Qed.

Lemma line_ok_take t n : line_ok t -> line_ok (take n t).
Proof. intros [H1 H2]. split; [rewrite length_take; lia|by apply Forall_take]. Qed.
Lemma line_ok_cut l r n : line_ok (l ++ r) -> line_ok (take n l ++ r).
Proof.
  intros [H1 [H2 H3]%Forall_app]. rewrite length_app in H1. split; [rewrite length_app, length_take; lia|]. apply Forall_app. split; [by apply Forall_take|done].
Qed.

(** The history rows are unchanged by reading them. *)
Lemma hist_row s hist a j t : rl_ok s hist a -> 0 <= j -> hist !! Z.to_nat j = Some t ->
  line_ok t /\ exists row, rd (linerecord s) j = Ret row /\ c_bytes row = t.
Proof.
  intros Hok Hj Ht. destruct (ro_hist _ _ _ Hok) as (_ & _ & Hh). destruct (Hh _ _ Ht) as (Hl & row & Hr & Hc). split; [done|]. exists row. split; [|done]. by apply rd_lookup.
Qed.
Lemma set_idx_ok s hist l r i j : rl_ok s hist (mkEditor l r i) -> j < Z.of_nat (length hist) ->
  rl_ok (set_record (linerecord s) (record_windex s) j s) hist (mkEditor l r j).
Proof. intros [? ? ? ? ? ? [? ?]] Hj. by constructor. Qed.

Lemma hist_lookup (hist : list (list Z)) j : 0 <= j < Z.of_nat (length hist) -> exists t, hist !! Z.to_nat j = Some t.
Proof. intros Hj. apply lookup_lt_is_Some_2. lia. Qed.

Lemma linerecord_prev_run s hist l r i : rl_ok s hist (mkEditor l r i) ->
  exists row, linerecord_prev s = Ret (row, set_record (linerecord s) (record_windex s) ((hist_prev i).2) s) /\
    rl_ok (set_record (linerecord s) (record_windex s) ((hist_prev i).2) s) hist (mkEditor l r ((hist_prev i).2)) /\
    match (hist_prev i).1, row with
    | Some j, Some w => line_ok (default [] (hist !! Z.to_nat j)) /\ c_bytes w = default [] (hist !! Z.to_nat j)
    | None, None => True
    | _, _ => False
    end.
Proof.
  intros Hok. destruct (ro_idx _ _ _ Hok) as [Hri Hi]. cbn in Hri, Hi. unfold linerecord_prev, hist_prev. mstep. rewrite Hri.
  assert (set_record (linerecord s) (record_windex s) i s = s) as Hs by (rewrite <- Hri; by destruct s).
  destruct (Z.eqb_spec i 0) as [->|Hne].
  - destruct (hist_lookup hist 0 ltac:(lia)) as [t Ht]. destruct (hist_row s hist _ 0 t Hok ltac:(lia) Ht) as (Hl & row & Hr & Hc). cbn [fst snd].
    rewrite Hr, Hs. exists (Some row). split; [done|]. split; [done|]. by rewrite Ht.
  - destruct (Z.ltb_spec 0 i); cbn [fst snd].
    + destruct (hist_lookup hist i ltac:(lia)) as [t Ht]. destruct (hist_row s hist _ i t Hok ltac:(lia) Ht) as (Hl & row & Hr & Hc).
      rewrite Hr. exists (Some row). split; [done|]. split; [apply (set_idx_ok _ _ _ _ i); [done|lia]|]. by rewrite Ht.
    + rewrite Hs. exists None. by split.
Qed.

Lemma linerecord_next_run s hist l r i (p := hist_next (Z.of_nat (length hist)) i) : rl_ok s hist (mkEditor l r i) ->
  exists row, linerecord_next s = Ret (row, set_record (linerecord s) (record_windex s) (p.2) s) /\
    rl_ok (set_record (linerecord s) (record_windex s) (p.2) s) hist (mkEditor l r (p.2)) /\
    match p.1, row with
    | Some j, Some w => line_ok (default [] (hist !! Z.to_nat j)) /\ c_bytes w = default [] (hist !! Z.to_nat j)
    | None, None => True
    | _, _ => False
    end.
Proof.
  intros Hok. destruct (ro_idx _ _ _ Hok) as [Hri Hi]. destruct (ro_hist _ _ _ Hok) as (_ & Hw & _). cbn in Hri, Hi.
  unfold linerecord_next, p, hist_next. mstep. rewrite Hri, Hw. set (n := Z.of_nat (length hist)) in *.
  assert (n = Z.of_nat (length hist)) as Hn by done. set (i1 := if i =? n - 1 then i - 1 else i). assert (i1 < n - 1 /\ i1 <= i) as [Hi1 _] by (unfold i1; destruct (Z.eqb_spec i (n - 1)); lia).
  rewrite <- Hw. destruct (Z.leb_spec 0 i1); cbn [fst snd].
  - destruct (hist_lookup hist (i1 + 1) ltac:(lia)) as [t Ht]. destruct (hist_row s hist _ (i1 + 1) t Hok ltac:(lia) Ht) as (Hl & row & Hr & Hc).
    rewrite Hr. exists (Some row). split; [done|]. split; [apply (set_idx_ok _ _ _ _ i); [done|destruct (i1 + 1 =? record_windex s - 1); lia]|]. by rewrite Ht.
  - exists None. split; [done|]. split; [apply (set_idx_ok _ _ _ _ i); [done|destruct (i1 =? record_windex s - 1); lia]|done].
Qed.

Lemma on_ed_then s hist a (m : E ()) l' r' (k : R bool) :
  rl_ok s hist a -> (forall e, ed_ok e (ea_l a) (ea_r a) -> exists o, edits m e o l' r') -> line_ok (l' ++ r') ->
  exists s', (on_ed m;; k) s = k s' /\ rl_ok s' hist (mkEditor l' r' (ea_idx a)) /\ rl_in s' = rl_in s /\ linestr s' = linestr s.
Proof.
  intros Hok Hm Hl. destruct (on_ed_ok _ _ _ _ _ _ Hok Hm Hl) as (s' & Hr & Hrest). exists s'. split; [|done]. unfold mbind, M_bind. by rewrite Hr.
Qed.

Lemma last_split (l : list Z) x : last l = Some x -> l = take (length l - 1) l ++ [x].
Proof.
  intros Hl. destruct l as [|y l _] using rev_ind; [done|]. rewrite last_snoc in Hl. injection Hl as ->. rewrite length_app. cbn.
  by replace (length l + 1 - 1)%nat with (length l) by lia; rewrite take_app_length.
Qed.

(** One key. *)
Lemma readline_step_key stale s hist a k a' rest :
  rl_ok s hist a -> key_ok k -> rl_in s = key_bytes k ++ rest -> ea_step hist k a = Some a' ->
  exists s', readline_step stale s = Ret (true, s') /\ rl_ok s' hist a' /\ rl_in s' = rest /\ linestr s' = linestr s.
Proof.
  intros Hok Hk Hin Hstep. pose proof (readkey_run stale s k rest Hk Hin) as Hkey. apply (set_in_ok _ _ _ rest) in Hok.
  assert (linestr (set_in rest s) = linestr s) as <- by done. assert (rl_in (set_in rest s) = rest) as Hrest by done.
  unfold readline_step. erewrite M_bind_run by exact Hkey. clear Hkey Hin. revert Hok Hrest. generalize (set_in rest s). intros s1 Hok Hrest.
  destruct a as [l r i]. pose proof (ro_text _ _ _ Hok) as Ht. cbn [ea_l ea_r] in Ht.
  assert (forall m l' r', (forall e, ed_ok e l r -> exists o, edits m e o l' r') -> line_ok (l' ++ r') ->
    exists s', (on_ed m;; mret true : R bool) s1 = Ret (true, s') /\ rl_ok s' hist (mkEditor l' r' i) /\ rl_in s' = rest /\ linestr s' = linestr s1) as Hedit.
  { intros m l' r' Hm Hl. destruct (on_ed_then s1 hist _ m l' r' (mret true) Hok Hm Hl) as (s' & Hr & Hok' & Hin' & Hls). exists s'. rewrite Hin'. by rewrite Hr. }
  destruct k as [c| | | | | |]; cbn [key_code ea_step] in *.
  - destruct (decide (length (l ++ r) < 128)%nat) as [Hlt|]; [|done]. injection Hstep as <-. destruct Hk as [Hk1 Hk2].
    unfold ARROW_LEFT, ARROW_RIGHT, ARROW_UP, ARROW_DOWN.
    rewrite !(proj2 (Z.eqb_neq c _)), (proj2 (Z.leb_le 32 c)) by lia. cbn [orb].
    assert (u8 c = c) as Hu by (apply wrapu_small; lia). apply (Hedit (linebuf_insert c) (l ++ [c]) r).
    + intros e He. eexists. rewrite <- Hu at 2. by apply linebuf_insert_edits.
    + destruct Ht as [H1 [H2 H3]%Forall_app]. split; [rewrite !length_app in *; cbn in *; lia|]. rewrite !Forall_app. split; [split; [done|repeat constructor; lia]|done].
  - injection Hstep as <-. cbn [Z.eqb orb Pos.eqb]. destruct l as [|x l _] using rev_ind.
    + apply (Hedit linebuf_del [] r); [|done]. intros e He. eexists. by apply linebuf_del_start.
    + rewrite length_app. cbn. replace (length l + 1 - 1)%nat with (length l) by lia. rewrite take_app_length.
      apply (Hedit linebuf_del l r); [intros e He; eexists; by eapply linebuf_del_edits|].
      pose proof (line_ok_cut _ _ (length l) Ht) as Ht'. by rewrite take_app_length in Ht'.
  - injection Hstep as <-. cbn. destruct (last l) as [x|] eqn:Hlast.
    + apply last_split in Hlast. set (l0 := take (length l - 1) l) in *. apply (Hedit linebuf_cursor_dec l0 (x :: r)).
      * rewrite Hlast. intros e He. eexists. by apply cursor_dec_edits.
      * rewrite Hlast, <- app_assoc in Ht. done.
    + apply last_None in Hlast as ->. apply (Hedit linebuf_cursor_dec [] r); [|done]. intros e He. eexists. by apply cursor_dec_start.
  - injection Hstep as <-. cbn. destruct r as [|x r].
    + apply (Hedit linebuf_cursor_inc l []); [|done]. intros e He. eexists. by apply cursor_inc_end.
    + apply (Hedit linebuf_cursor_inc (l ++ [x]) r); [intros e He; eexists; by apply cursor_inc_edits|by rewrite <- app_assoc].
  - injection Hstep as <-. cbn. destruct (linerecord_prev_run _ _ _ _ _ Hok) as (row & Hr & Hok' & Hm). erewrite M_bind_run by exact Hr.
    destruct (hist_prev i) as [[j|] i']; cbn [fst snd recall] in *; destruct row as [row|]; try done.
    + destruct Hm as [Hl Hc]. destruct (on_ed_then _ hist _ (show_record row) (c_bytes row) [] (mret true) Hok') as (s' & Hr' & Hok'' & Hin' & Hls).
      * intros e He. rewrite <- Hc in Hl. by eapply show_record_edits; [done|apply Hl..].
      * rewrite app_nil_r, Hc. done.
      * exists s'. rewrite Hr', <- Hc. split; [done|]. split; [done|]. by rewrite Hin'.
    + eexists. split; [done|]. by split.
  - injection Hstep as <-. cbn. destruct (linerecord_next_run _ _ _ _ _ Hok) as (row & Hr & Hok' & Hm). erewrite M_bind_run by exact Hr.
    destruct (hist_next (Z.of_nat (length hist)) i) as [[j|] i']; cbn [fst snd recall] in *; destruct row as [row|]; try done.
    + destruct Hm as [Hl Hc]. destruct (on_ed_then _ hist _ (show_record row) (c_bytes row) [] (mret true) Hok') as (s' & Hr' & Hok'' & Hin' & Hls).
      * intros e He. rewrite <- Hc in Hl. by eapply show_record_edits; [done|apply Hl..].
      * rewrite app_nil_r, Hc. done.
      * exists s'. rewrite Hr', <- Hc. split; [done|]. split; [done|]. by rewrite Hin'.
    + eexists. split; [done|]. by split.
  - injection Hstep as <-. cbn. apply (Hedit linebuf_cursor_end (l ++ r) []); [|by rewrite app_nil_r]. intros e He. eexists. by apply cursor_end_edits.
Qed.

(** ** The end of the line *)

Lemma c_bytes_app t l : Forall (fun c => 0 < c < 256) t -> c_bytes (t ++ 0 :: l) = t.
Proof. induction 1 as [|c t Hc _ IH]; cbn; [done|]. rewrite (proj2 (Z.eqb_neq c 0)) by lia. by rewrite IH. Qed.

(** The last four lines. *)
Definition hist_add (hist : list (list Z)) (t : list Z) : list (list Z) := drop (length hist - 3) hist ++ [t].

Lemma linebuf_to_str_spec b l r str :
  lb_rep b l r -> (length (l ++ r) <= 128)%nat -> length str = 512%nat ->
  linebuf_to_str b str = Ret ((l ++ r) ++ 0 :: drop (S (length (l ++ r))) str).
Proof.
  intros [Hl Hr Ht Hc] Hlen Hstr. unfold linebuf_to_str, BUFLEN. pose proof (content_length _ Hl) as H1. pose proof (content_length _ Hr) as H2.
  assert (length (l ++ r) = length (content (lbuf b)) + length (content (rbuf b)))%nat as Hs by (by rewrite <- Ht, length_app).
  unfold assert_. rewrite (proj2 (Z.ltb_lt _ _)) by lia. cbn [mbind outcome_bind].
  fold (content (lbuf b)). fold (content (rbuf b)). set (x := content (lbuf b)) in *. set (y := content (rbuf b)) in *.
  pose proof (store_app [] (take (length x) str) (drop (length x) str) x) as Hst. cbn [app] in Hst. rewrite take_drop in Hst.
  change (Z.of_nat (length [])) with 0 in Hst. rewrite Hst by (rewrite length_take; lia). cbn [mbind outcome_bind].
  rewrite <- H1. rewrite <- (take_drop (length y) (drop (length x) str)), store_app by (rewrite length_take, length_drop; lia). cbn [mbind outcome_bind].
  rewrite <- H2, drop_drop. destruct (lookup_lt_is_Some_2 str (length x + length y)) as [z Hz]; [lia|]. rewrite (drop_S _ _ _ Hz), app_assoc, wr_app by (rewrite length_app; lia).
  rewrite Ht, Hs. done.
Qed.

Lemma linerecord_add_run s hist l r i item t :
  rl_ok s hist (mkEditor l r i) -> line_ok t -> c_bytes item = t ->
  exists s', linerecord_add item s = Ret (tt, s') /\ rl_ok s' (hist_add hist t) (mkEditor l r (Z.of_nat (length (hist_add hist t)) - 1)) /\
    rl_in s' = rl_in s /\ linestr s' = linestr s /\ readlbuf s' = readlbuf s.
Proof.
  intros Hok [Ht1 Ht2] Hit. pose proof Hok as [Hlb Htext Hpb Hstr [Hrow Hrows] (Hh1 & Hw & Hh) [Hri Hi]].
  unfold linerecord_add, MAX_RECORD. mstep. rewrite Hw.
  set (p := if 4 <=? Z.of_nat (length hist) then (drop 1 (linerecord s) ++ drop 3 (linerecord s), Z.of_nat (length hist) - 1) else (linerecord s, Z.of_nat (length hist))).
  set (n := length (drop (length hist - 3) hist)). assert (n = length hist - (length hist - 3))%nat as Hn by (unfold n; by rewrite length_drop).
  assert (exists rec, p = (rec, Z.of_nat n) /\ length rec = 4%nat /\ Forall (fun row => length row = 512%nat) rec /\
    (forall k u, drop (length hist - 3) hist !! k = Some u -> exists row, rec !! k = Some row /\ c_bytes row = u)) as (rec & -> & Hrec & Hrecs & Hrd).
  { unfold p. destruct (Z.leb_spec 4 (Z.of_nat (length hist))) as [Hfull|Hnot].
    - assert (length hist = 4%nat) as H4 by lia. rewrite H4 in *. exists (drop 1 (linerecord s) ++ drop 3 (linerecord s)). split; [f_equal; lia|].
      split; [rewrite length_app, !length_drop; lia|]. split; [apply Forall_app; split; by apply Forall_drop|].
      intros k u Hk. change (4 - 3)%nat with 1%nat in Hk. rewrite lookup_drop in Hk. destruct (Hh _ _ Hk) as (_ & row & Hr & Hc). exists row. split; [|done].
      pose proof (lookup_lt_Some _ _ _ Hk). rewrite lookup_app_l by (rewrite length_drop; lia). by rewrite lookup_drop.
    - exists (linerecord s). replace (length hist - 3)%nat with 0%nat in * by lia. split; [f_equal; lia|]. split; [done|]. split; [done|].
      intros k u Hk. rewrite lookup_drop in Hk. destruct (Hh _ _ Hk) as (_ & row & Hr & Hc). by exists row. }
  destruct (rd_in rec (Z.of_nat n)) as [row Hrow']; [lia|]. rewrite Hrow'. apply rd_Ret in Hrow' as [_ Hrow']. rewrite Nat2Z.id in Hrow'.
  assert (length row = 512%nat) as Hr512 by (by eapply (proj1 (Forall_lookup _ _) Hrecs)).
  rewrite Hit. pose proof (store_app [] (take (length (t ++ [0])) row) (drop (length (t ++ [0])) row) (t ++ [0])) as Hst. cbn [app] in Hst. rewrite take_drop in Hst.
  change (Z.of_nat (length [])) with 0 in Hst. rewrite Hst by (rewrite length_take, length_app; cbn; lia). rewrite <- app_assoc. cbn [app].
  set (row' := t ++ 0 :: drop (length (t ++ [0])) row). assert (length row' = 512%nat) as Hrl by (unfold row'; rewrite length_app; cbn; rewrite length_drop, length_app; cbn; lia).
  rewrite wr_in by lia. rewrite Nat2Z.id. eexists. split; [done|]. split; [|done].
  assert (length (hist_add hist t) = S n) as Hhl by (unfold hist_add; rewrite length_app; cbn; unfold n; lia).
  constructor; cbn; try done.
  - split; [by rewrite length_insert|]. by apply Forall_insert.
  - split; [lia|]. split; [lia|]. unfold hist_add. intros k u [Hk|[Hk1 Hk2]]%lookup_app_Some.
    + pose proof (lookup_lt_Some _ _ _ Hk) as Hlt. fold n in Hlt. rewrite list_lookup_insert_ne by lia. split; [|by apply Hrd].
      rewrite lookup_drop in Hk. apply (Hh _ _ Hk).
    + fold n in Hk1, Hk2. assert (k = n) as -> by (apply lookup_lt_Some in Hk2; cbn in Hk2; lia). rewrite Nat.sub_diag in Hk2. injection Hk2 as <-.
      split; [done|]. exists row'. rewrite list_lookup_insert_eq by lia. split; [done|]. by apply c_bytes_app.
  - rewrite Hhl. lia.
Qed.

Definition enter_key (c : Z) : Prop := c = 10 \/ c = 13.

Lemma readline_step_enter stale s hist l r i c rest :
  rl_ok s hist (mkEditor l r i) -> enter_key c -> rl_in s = c :: rest ->
  exists s', readline_step stale s = Ret (false, s') /\ rl_ok s' (hist_add hist (l ++ r)) (mkEditor l r (Z.of_nat (length (hist_add hist (l ++ r))) - 1)) /\
    rl_in s' = rest /\ c_bytes (linestr s') = l ++ r.
Proof.
  intros Hok Hc Hin. assert (readkey stale s = Ret (c, set_in rest s)) as Hkey.
  { unfold readkey, getch, console_getc. mstep. rewrite Hin. by destruct Hc as [->| ->]. }
  apply (set_in_ok _ _ _ rest) in Hok. assert (rl_in (set_in rest s) = rest) as Hrest by done.
  unfold readline_step. erewrite M_bind_run by exact Hkey. revert Hok Hrest. generalize (set_in rest s). clear Hkey Hin. intros s1 Hok Hrest.
  assert ((c =? 8) || (c =? 127) = false /\ (c =? 10) || (c =? 13) = true) as [-> ->] by (by destruct Hc as [->| ->]).
  destruct (on_ed_ok s1 hist _ (putc 10) l r Hok) as (s2 & Hr2 & Hok2 & Hin2 & Hls2); [intros e He; exists [10]; apply prints_edits; [apply (puts_prints e [10]), He|done]|apply Hok|].
  erewrite M_bind_run by exact Hr2. erewrite M_bind_run by reflexivity. cbn [ea_idx] in Hok2.
  destruct (ro_lb _ _ _ Hok2) as (b & Hb & Hrep). rewrite Hb. cbn [ea_l ea_r] in Hrep. erewrite M_bind_run by reflexivity.
  pose proof (ro_text _ _ _ Hok2) as Ht. cbn [ea_l ea_r] in Ht.
  pose proof (linebuf_to_str_spec b l r (linestr s2) Hrep (proj1 Ht) (ro_str _ _ _ Hok2)) as Hstr. set (str := (l ++ r) ++ 0 :: _) in Hstr.
  erewrite M_bind_run; [|unfold lift; rewrite Hstr; reflexivity]. erewrite M_bind_run by reflexivity.
  assert (c_bytes str = l ++ r) as Hcb by (by apply c_bytes_app, Ht).
  assert (rl_ok (set_linestr str s2) hist (mkEditor l r i)) as Hok3.
  { destruct Hok2 as [? ? ? Hs ? ? ?]. constructor; cbn; try done. unfold str. rewrite length_app. cbn. rewrite length_drop, Hs. pose proof (proj1 Ht). lia. }
  destruct (linerecord_add_run _ _ _ _ _ str (l ++ r) Hok3 Ht Hcb) as (s4 & Hr4 & Hok4 & Hin4 & Hls4 & _).
  erewrite M_bind_run by exact Hr4. exists s4. split; [done|]. split; [done|]. split; [rewrite Hin4; cbn; by rewrite Hin2|by rewrite Hls4].
Qed.

Lemma readline_loop_run stale fuel s hist ks a a' c rest :
  rl_ok s hist a -> Forall key_ok ks -> ea_run hist ks a = Some a' -> enter_key c -> rl_in s = concat (key_bytes <$> ks) ++ c :: rest -> (length ks <= fuel)%nat ->
  exists s', readline_loop stale fuel s = Ret (tt, s') /\
    rl_ok s' (hist_add hist (ea_l a' ++ ea_r a')) (mkEditor (ea_l a') (ea_r a') (Z.of_nat (length (hist_add hist (ea_l a' ++ ea_r a'))) - 1)) /\
    rl_in s' = rest /\ c_bytes (linestr s') = ea_l a' ++ ea_r a'.
Proof.
  intros Hok Hks Hrun Hc. revert fuel s a Hok Hrun. induction Hks as [|k ks Hk _ IH]; intros fuel s a Hok Hrun Hin Hf.
  - injection Hrun as ->. destruct a' as [l r i]. cbn [ea_l ea_r]. destruct (readline_step_enter stale _ _ _ _ _ c rest Hok Hc Hin) as (s' & Hr & Hrest).
    exists s'. split; [|done]. destruct fuel; cbn [readline_loop]; unfold mbind, M_bind; by rewrite Hr.
  - cbn in Hrun. destruct (ea_step hist k a) as [a1|] eqn:Hs; [|done]. cbn in Hrun.
    destruct fuel as [|fuel]; [simpl in Hf; lia|]. cbn [fmap list_fmap concat] in Hin. rewrite <- app_assoc in Hin.
    destruct (readline_step_key stale _ _ _ _ _ _ Hok Hk Hin Hs) as (s1 & Hr & Hok1 & Hin1 & _).
    destruct (IH fuel s1 a1 Hok1 Hrun Hin1 ltac:(simpl in Hf; lia)) as (s' & Hr' & Hrest). exists s'. split; [|done].
    cbn [readline_loop]. unfold mbind, M_bind. by rewrite Hr.
Qed.

Lemma linebuf_clear_edits s l r : ed_ok s l r -> edits linebuf_clear s [] [] [].
Proof.
  intros [[[H1 H2 _] [H3 H4 _] _ _] _ Hpb]. eexists. split; [done|]. cbn. split; [|by rewrite app_nil_r]. constructor; [|cbn; lia|done].
  constructor; cbn; try done; constructor; cbn; try done; try lia; by rewrite length_replicate, ?H2, ?H4.
Qed.

Lemma printf_prompt pb prompt : length pb = 4096%nat -> prompt <> [] ->
  exists o pb', printf pb [37; 115; 0] [AStr prompt] = Ret (o, pb') /\ length pb' = 4096%nat.
Proof.
  intros Hp Hne. pose proof (vsnprintf_spec pb 4096 [Conv [] [] (CStr prompt)]) as H. cbn [fmap list_fmap concat dir_fmt dir_args dir_text conv_fmt conv_args app] in H.
  unfold printf. rewrite H; [|by apply Forall_singleton, conv_dir_ok|lia]. cbn [mbind outcome_bind]. do 2 eexists. split; [done|].
  rewrite length_app. cbn [length]. rewrite length_drop, length_take. lia.
Qed.

(** A monitor that has read nothing yet, with [l] typed. *)
Definition demo_buffer : buffer := mkBuf 0 0 (replicate 128 0) 128 0.
Definition demo_rl (l : list Z) : rl :=
  mkRl (slab_state0 page_sections0) true (Some (mkLb 0 demo_buffer demo_buffer 0)) (replicate 512 0)
    (replicate 4 (replicate 512 0)) 0 (-1) l [] (replicate 4096 0).
Lemma demo_rl_ok l : rl_ok (demo_rl l) [] (mkEditor [] [] (-1)).
Proof.
  constructor; cbn; try done.
  - eexists. split; [done|]. constructor; try done; constructor; cbn; lia.
  - split; [cbn; lia|constructor].
  - split; [done|]. repeat constructor.
  - split; [lia|]. split; [done|]. intros i t Hi. by rewrite lookup_nil in Hi.
Qed.

(** ** Properties *)

(** C32: [readline] is a line editor. After its initialisation and with a
    non-empty prompt, for keys (characters, backspace, arrows, end of line)
    that keep the text within the 128 bytes of the buffers, and then Enter, it
    returns the text those keys make of an empty line - moving the cursor,
    inserting and deleting at it, and recalling the last four lines - consumes
    exactly those bytes of the input, appends the line to the history and
    leaves an empty line for the next call. *)
Theorem readline_edits (cache_pool stale : Z) (prompt : list Z) (s : rl) (hist : list (list Z)) (i : Z) (ks : list key) (a : editor) (c : Z) (rest : list Z)
  (Hok : rl_ok s hist (mkEditor [] [] i)) (Hinit : init_ok s = true) (Hp : prompt <> [])
  (Hks : Forall key_ok ks) (Hrun : ea_run hist ks (mkEditor [] [] i) = Some a) (Hc : enter_key c)
  (Hin : rl_in s = concat (key_bytes <$> ks) ++ c :: rest) :
  exists str s', readline cache_pool stale prompt s = Ret (str, s') /\ c_bytes str = ea_l a ++ ea_r a /\ rl_in s' = rest /\
    let hist' := hist_add hist (ea_l a ++ ea_r a) in
    rl_ok s' hist' (mkEditor [] [] (Z.of_nat (length hist') - 1)).
Proof.
  destruct (printf_prompt (rl_pbuf s) prompt (ro_pbuf _ _ _ Hok) Hp) as (o & pb & Hpr & Hpb).
  unfold readline. erewrite M_bind_run; [|unfold init_readline; rewrite Hinit; reflexivity]. erewrite M_bind_run; [|rewrite Hpr; reflexivity].
  set (s1 := mkRl _ _ _ _ _ _ _ _ _ _). assert (rl_ok s1 hist (mkEditor [] [] i)) as Hok1 by (destruct Hok; by constructor).
  erewrite M_bind_run by reflexivity. assert (length ks <= length (rl_in s1))%nat as Hf.
  { cbn. rewrite Hin, length_app. assert (length ks <= length (concat (key_bytes <$> ks)))%nat; [|lia].
    clear. induction ks as [|k ks IH]; cbn; [lia|]. rewrite length_app. destruct k; cbn; lia. }
  destruct (readline_loop_run stale (length (rl_in s1)) s1 hist ks _ a c rest Hok1 Hks Hrun Hc Hin Hf) as (s2 & Hr & Hok2 & Hin2 & Hstr).
  erewrite M_bind_run by exact Hr.
  destruct (on_ed_ok s2 _ _ linebuf_clear [] [] Hok2) as (s3 & Hr3 & Hok3 & Hin3 & Hls3); [intros e He; eexists; by eapply linebuf_clear_edits|split; [cbn; lia|constructor]|].
  erewrite M_bind_run by exact Hr3. exists (linestr s3), s3. split; [done|]. rewrite Hls3, Hin3. by split.
Qed.

(** a, b, left, c and Enter. *)
Lemma readline_edits_witness :
  exists str s', readline 0 0 [62] (demo_rl [97; 98; 27; 91; 68; 99; 13]) = Ret (str, s') /\ c_bytes str = [97; 99; 98].
Proof.
  destruct (readline_edits 0 0 [62] (demo_rl [97; 98; 27; 91; 68; 99; 13]) [] (-1) [KChar 97; KChar 98; KLeft; KChar 99]
    (mkEditor [97; 99] [98] (-1)) 13 []) as (str & s' & Hr & Hc & _).
  - exact (demo_rl_ok _).
  - reflexivity.
  - discriminate.
  - repeat constructor; cbn; lia.
  - reflexivity.
  - right. reflexivity.
  - reflexivity.
  - exists str, s'. split; [exact Hr|exact Hc].
Defined.

(** Ctrl-C returns the line of the call before,
    which the monitor then runs again. *)
Theorem readline_ctrl_c_repeats (cache_pool stale : Z) (prompt : list Z) (s : rl) (hist : list (list Z)) (i : Z) (rest : list Z)
  (Hok : rl_ok s hist (mkEditor [] [] i)) (Hinit : init_ok s = true) (Hp : prompt <> []) (Hin : rl_in s = 3 :: rest) :
  exists s', readline cache_pool stale prompt s = Ret (linestr s, s') /\ rl_in s' = rest.
Proof.
  destruct (printf_prompt (rl_pbuf s) prompt (ro_pbuf _ _ _ Hok) Hp) as (o & pb & Hpr & Hpb).
  unfold readline. erewrite M_bind_run; [|unfold init_readline; rewrite Hinit; reflexivity]. erewrite M_bind_run; [|rewrite Hpr; reflexivity].
  set (s1 := mkRl _ _ _ _ _ _ _ _ _ _). assert (rl_ok s1 hist (mkEditor [] [] i)) as Hok1 by (destruct Hok; by constructor).
  erewrite M_bind_run by reflexivity. assert (readkey stale s1 = Ret (3, set_in rest s1)) as Hkey.
  { unfold readkey, getch, console_getc. mstep. cbn [s1 rl_in]. rewrite Hin. done. }
  destruct (on_ed_ok (set_in rest s1) hist _ (puts_ [94; 67; 10]) [] [] (set_in_ok _ _ _ rest Hok1)) as (s2 & Hr2 & Hok2 & Hin2 & Hls2).
  { intros e He. exists [94; 67; 10]. apply prints_edits; [apply puts_prints, He|done]. }
  { split; [cbn; lia|constructor]. }
  assert (readline_step stale s1 = Ret (false, s2)) as Hstep.
  { unfold readline_step. erewrite M_bind_run by exact Hkey. cbn [Z.eqb Pos.eqb orb]. unfold ARROW_LEFT, ARROW_RIGHT, ARROW_UP, ARROW_DOWN. cbn [Z.eqb Pos.eqb].
    by erewrite M_bind_run by exact Hr2. }
  assert (forall f, readline_loop stale f s1 = Ret (tt, s2)) as Hloop by (intros f; destruct f; cbn [readline_loop]; unfold mbind, M_bind; by rewrite Hstep).
  erewrite M_bind_run by apply Hloop.
  destruct (on_ed_ok s2 _ _ linebuf_clear [] [] Hok2) as (s3 & Hr3 & Hok3 & Hin3 & Hls3); [intros e He; eexists; by eapply linebuf_clear_edits|split; [cbn; lia|constructor]|].
  erewrite M_bind_run by exact Hr3. exists s3. split; [|by rewrite Hin3, Hin2]. unfold mbind, M_bind, get, mret, M_ret. by rewrite Hls3, Hls2.
Qed.

(** Nothing bounds the line: the 129th character of a line is stored behind the buffer. *)
Theorem linebuf_insert_overruns (s : ed) (l : list Z) (c : Z) (Hok : ed_ok s l []) (Hl : length l = 128%nat) : linebuf_insert c s = Fault.
Proof.
  destruct (linebuf_sync_spec _ _ _ (eo_lb _ _ _ Hok) (eo_len _ _ _ Hok)) as (b & Hb & Hsy).
  destruct (synced_sizes _ _ _ Hsy) as (H1 & _ & H3). pose proof (bo_len _ (lr_l _ _ _ (proj1 Hsy))) as Hlen.
  unfold linebuf_insert. mstep. unfold get_lb. rewrite Hb, H1, H3, Z.eqb_refl. unfold wr. by rewrite (proj2 (Z.ltb_ge _ _)), andb_false_r by lia.
Qed.
