(* ===== verification/Tracebuf.v ===== *)
(** * The trace buffer of the kernel monitor (ukern/src/kmon/tracebuf.c)

    A ring of bytes holding text items, each followed by the bytes 0 1 2 3;
    inserting an item releases the oldest ones until there is room. *)
From S2P Require Import Prelude Config Bitmap Page Slab SlabSpec Kmem Strtol Print Readline.

Record tracebuf := mkTb { tb_addr : Z; tb_data_addr : Z; tb_data : list Z; tb_read : Z; tb_write : Z; tb_items : Z; tb_cur_size : Z; tb_size : Z }.
Definition sizeof_tracebuf : Z := 32.

Definition roundi (i size : Z) : Z := i mod size.

(** The search for the end of the oldest item.  The loop reads the ring round
    and round; after one round it can only repeat itself. *)
Fixpoint release_loop (fuel : nat) (tb : tracebuf) (i res : Z) : outcome (Z * tracebuf) :=
  match fuel with
  | O => Diverge
  | S fuel' =>
      c ← rd (tb_data tb) i;
      let next := release_loop fuel' tb (roundi (i + 1) (tb_size tb)) (res + 1) in
      if c =? 0 then
        let j := roundi (i + 1) (tb_size tb) in
        let k := roundi (j + 1) (tb_size tb) in
        let l := roundi (k + 1) (tb_size tb) in
        cj ← rd (tb_data tb) j; ck ← rd (tb_data tb) k; cl ← rd (tb_data tb) l;
        if (cj =? 1) && (ck =? 2) && (cl =? 3) then
          let res := res + 4 in
          Ret (res, mkTb (tb_addr tb) (tb_data_addr tb) (tb_data tb) (roundi (l + 1) (tb_size tb)) (tb_write tb) (tb_items tb - 1) (tb_cur_size tb - res) (tb_size tb))
        else next
      else next
  end.
Definition tracebuf_release_item (tb : tracebuf) : outcome (Z * tracebuf) := release_loop (Z.to_nat (tb_size tb)) tb (tb_read tb) 0.

Fixpoint make_room (fuel : nat) (tb : tracebuf) (free len : Z) : outcome tracebuf :=
  if free <? len then
    match fuel with
    | O => Diverge
    | S fuel' => '(n, tb) ← tracebuf_release_item tb; make_room fuel' tb (free + n) len
    end
  else Ret tb.

(** The two [memcpy]s of an item. *)
Definition put_item (tb : tracebuf) (tmps : list Z) : outcome tracebuf :=
  let len := Z.of_nat (length tmps) in
  let w := tb_write tb in
  '(d, w) ← (if len <? tb_size tb - w then d ← store (tb_data tb) w tmps; Ret (d, w + len)
             else
               let tail := tb_size tb - w in
               d ← store (tb_data tb) w (take (Z.to_nat tail) tmps);
               d ← store d 0 (drop (Z.to_nat tail) tmps);
               Ret (d, len - tail));
  Ret (mkTb (tb_addr tb) (tb_data_addr tb) d (tb_read tb) w (tb_items tb + 1) (tb_cur_size tb + len) (tb_size tb)).

Section Tracebuf.
Context (cache_pool : Z).
Abbreviation St := (slab_state page_state).

(** [raw] is what the memory of the structure and of the data held: nothing
    sets [cur_size]. *)
Definition alloc_tracebuf (raw_cur : Z) (raw_data : list Z) (size : Z) : M St (option tracebuf) :=
  tb ← kalloc sizeof_tracebuf;
  if tb =? 0 then mret None
  else
    d ← kalloc size;
    if d =? 0 then kfree cache_pool tb;; mret None
    else mret (Some (mkTb tb d (take (Z.to_nat size) raw_data) 0 0 0 raw_cur (s32 size))).

(** [s] without its terminator; the result of the temporary allocation is not
    tested. *)
Definition tracebuf_insert (s : list Z) : M (St * tracebuf) Z := fun '(h, tb) =>
  let len := Z.of_nat (length s) in
  if (len =? 0) || (tb_size tb <? len + 4) then Ret (-1, (h, tb))
  else
    '(p, h) ← kalloc (len + 4) h;
    if p =? 0 then Fault
    else
      let tmps := s ++ [0; 1; 2; 3] in
      let len := len + 4 in
      let free := if (tb_read tb <? tb_write tb) || (tb_write tb =? tb_read tb) && (tb_cur_size tb =? 0)
                  then tb_size tb - tb_write tb + tb_read tb else tb_read tb - tb_write tb in
      tb ← make_room (Z.to_nat (tb_size tb)) tb free len;
      tb ← put_item tb tmps;
      '(_, h) ← kfree cache_pool p h;
      Ret (len, (h, tb)).
End Tracebuf.

(** The characters collected, and the place reading stops at. *)
Fixpoint str_loop (remain : nat) (tb : tracebuf) (read : Z) : outcome (list Z * Z) :=
  match remain with
  | O => Ret ([], read)
  | S remain' =>
      c ← rd (tb_data tb) read;
      '(cs, e) ← str_loop remain' tb (roundi (read + 1) (tb_size tb));
      Ret (if (c =? 0) || (c =? 1) || (c =? 2) || (c =? 3) then cs else c :: cs, e)
  end.
(** [None] when nothing is assigned to the caller's pointer; the string with
    its terminator must fit the [cur_size] bytes allocated for it. *)
Definition tracebuf_to_str (tb : tracebuf) : M (slab_state page_state) (Z * option (list Z)) :=
  if tb_cur_size tb =? 0 then mret (0, None)
  else
    p ← kalloc (tb_cur_size tb);
    if p =? 0 then mret (0, None)
    else
      '(cs, e) ← lift (str_loop (Z.to_nat (tb_cur_size tb)) tb (tb_read tb));
      assertM (e =? tb_write tb);;
      _ ← lift (store (replicate (Z.to_nat (tb_cur_size tb)) 0) 0 (cs ++ [0]));
      mret (Z.of_nat (length cs), Some cs).

(** [cur_size] is kept. *)
Definition tracebuf_clear (tb : tracebuf) : tracebuf :=
  mkTb (tb_addr tb) (tb_data_addr tb) (replicate (Z.to_nat (tb_size tb)) 0) 0 0 0 (tb_cur_size tb) (tb_size tb).

(** ** The ring *)

(** The byte at place [k], counted round the ring. *)
Definition cell (tb : tracebuf) (k : Z) : Z := nth (Z.to_nat (k mod tb_size tb)) (tb_data tb) 0.
Definition ring (tb : tracebuf) (p n : Z) : list Z := cell tb <$> seqZ p n.

Definition enc (s : list Z) : list Z := s ++ [0; 1; 2; 3].
Definition item_ok (s : list Z) : Prop := s <> [] /\ Forall (fun c => 0 < c < 256) s.

(** The buffer holds the items [its], oldest first. *)
Record tb_rep (tb : tracebuf) (its : list (list Z)) : Prop := {
  tr_size : 0 < tb_size tb /\ length (tb_data tb) = Z.to_nat (tb_size tb);
  tr_cur : 0 <= tb_cur_size tb <= tb_size tb;
  tr_read : 0 <= tb_read tb < tb_size tb;
  tr_write : tb_write tb = (tb_read tb + tb_cur_size tb) mod tb_size tb;
  tr_ring : ring tb (tb_read tb) (tb_cur_size tb) = concat (enc <$> its);
  tr_items : tb_items tb = Z.of_nat (length its) /\ Forall item_ok its }.

Lemma ring_app tb p n m : 0 <= n -> 0 <= m -> ring tb p (n + m) = ring tb p n ++ ring tb (p + n) m.
Proof. intros. unfold ring. by rewrite seqZ_app, fmap_app. Qed.
Lemma ring_length tb p n : length (ring tb p n) = Z.to_nat n.
Proof. unfold ring. by rewrite length_fmap, length_seqZ. Qed.
Lemma ring_cons tb p n : 0 < n -> ring tb p n = cell tb p :: ring tb (p + 1) (n - 1).
Proof. intros. unfold ring. rewrite seqZ_cons by lia. cbn. do 2 f_equal; lia. Qed.

Lemma cell_mod tb k x : cell tb (k mod tb_size tb + x) = cell tb (k + x).
Proof. unfold cell. by rewrite Zplus_mod_idemp_l. Qed.
Lemma ring_mod tb k n : ring tb (k mod tb_size tb) n = ring tb k n.
Proof.
  unfold ring. apply list_eq. intros i. rewrite !list_lookup_fmap. destruct (decide (Z.of_nat i < n)).
  - rewrite !lookup_seqZ_lt by lia. cbn. f_equal. apply cell_mod.
  - by rewrite !lookup_seqZ_ge by lia.
Qed.
Lemma roundi_mod tb k : roundi (k mod tb_size tb + 1) (tb_size tb) = (k + 1) mod tb_size tb.
Proof. unfold roundi. apply Zplus_mod_idemp_l. Qed.
Lemma cell_rd tb k : 0 < tb_size tb -> length (tb_data tb) = Z.to_nat (tb_size tb) -> rd (tb_data tb) (k mod tb_size tb) = Ret (cell tb k).
Proof.
  intros Hs Hl. pose proof (Z.mod_pos_bound k _ Hs). destruct (rd_in (tb_data tb) (k mod tb_size tb)) as [c Hc]; [lia|]. rewrite Hc.
  apply rd_Ret in Hc as [_ Hc]. unfold cell. by rewrite (nth_lookup_Some _ _ _ _ Hc).
Qed.
(** The same data seen through another record. *)
Lemma ring_data tb tb' p n : tb_size tb' = tb_size tb -> tb_data tb' = tb_data tb -> ring tb' p n = ring tb p n.
Proof. intros Hs Hd. unfold ring. apply list_fmap_ext. intros i x _. unfold cell. by rewrite Hs, Hd. Qed.

(** ** Releasing the oldest item *)

Lemma release_loop_run tb s fuel k res :
  0 < tb_size tb -> length (tb_data tb) = Z.to_nat (tb_size tb) -> Forall (fun c => 0 < c < 256) s -> (length s < fuel)%nat ->
  ring tb k (Z.of_nat (length s) + 4) = enc s ->
  release_loop fuel tb (k mod tb_size tb) res =
    Ret (res + Z.of_nat (length s) + 4,
         mkTb (tb_addr tb) (tb_data_addr tb) (tb_data tb) ((k + Z.of_nat (length s) + 4) mod tb_size tb) (tb_write tb) (tb_items tb - 1)
           (tb_cur_size tb - (res + Z.of_nat (length s) + 4)) (tb_size tb)).
Proof.
  intros Hsz Hlen Hs. revert fuel k res. induction Hs as [|c s Hc _ IH]; intros fuel k res Hf Hr; (destruct fuel as [|fuel]; [lia|]); cbn [release_loop].
  - cbn [length] in Hr. change (Z.of_nat 0 + 4) with 4 in Hr. rewrite !ring_cons in Hr by lia. injection Hr as H0 H1 H2 H3.
    rewrite (roundi_mod tb k), (roundi_mod tb (k + 1)), (roundi_mod tb (k + 1 + 1)), (roundi_mod tb (k + 1 + 1 + 1)), (cell_rd tb k) by done. cbn [mbind outcome_bind]. rewrite H0. cbn [Z.eqb].
    rewrite (cell_rd _ (k + 1)), H1 by done. cbn [mbind outcome_bind]. rewrite (cell_rd _ (k + 1 + 1)), H2 by done. cbn [mbind outcome_bind].
    rewrite (cell_rd _ (k + 1 + 1 + 1)), H3 by done. cbn [mbind outcome_bind Z.eqb Pos.eqb andb length].
    replace (k + 1 + 1 + 1 + 1) with (k + Z.of_nat 0 + 4) by lia. replace (res + Z.of_nat 0 + 4) with (res + 4) by lia. done.
  - simpl in Hf. cbn [length] in Hr |- *. rewrite ring_cons in Hr by lia. injection Hr as Hc' Hr.
    rewrite (cell_rd tb k) by done. cbn [mbind outcome_bind]. rewrite Hc', (proj2 (Z.eqb_neq c 0)), roundi_mod by lia.
    rewrite IH by (lia || (unfold enc; rewrite <- Hr; f_equal; lia)). do 3 f_equal; [lia|f_equal; lia|lia].
Qed.

Lemma concat_enc_cons s its : concat (enc <$> s :: its) = enc s ++ concat (enc <$> its).
Proof. done. Qed.
Lemma rep_cur tb its : tb_rep tb its -> tb_cur_size tb = Z.of_nat (length (concat (enc <$> its))).
Proof. intros [_ Hc _ _ Hr _]. apply (f_equal length) in Hr. rewrite ring_length in Hr. lia. Qed.

Lemma release_item_spec tb s its :
  tb_rep tb (s :: its) ->
  exists tb', tracebuf_release_item tb = Ret (Z.of_nat (length (enc s)), tb') /\ tb_rep tb' its /\ tb_write tb' = tb_write tb /\ tb_size tb' = tb_size tb /\
    tb_cur_size tb' = tb_cur_size tb - Z.of_nat (length (enc s)).
Proof.
  intros Hrep. pose proof (rep_cur _ _ Hrep) as Hcur. destruct Hrep as [[Hs Hl] Hc Hrd Hw Hr [Hi [[Hne Hs1] Hits]%Forall_cons]].
  rewrite concat_enc_cons in Hr, Hcur. rewrite length_app in Hcur. unfold enc at 1 in Hcur. rewrite length_app in Hcur. cbn in Hcur.
  set (n := Z.of_nat (length s) + 4) in *. assert (n = Z.of_nat (length s) + 4) as Hn by done.
  replace (tb_cur_size tb) with (n + (tb_cur_size tb - n)) in Hr by lia. rewrite ring_app in Hr by lia.
  apply app_inj_1 in Hr as [Hr1 Hr2]; [|rewrite ring_length; unfold enc; rewrite length_app; cbn; lia].
  unfold tracebuf_release_item. rewrite <- (Z.mod_small (tb_read tb) (tb_size tb)) by done.
  rewrite (release_loop_run tb s) by (done || lia). eexists. unfold enc. rewrite length_app. cbn [length]. split; [do 2 f_equal; lia|].
  split; [|split_and!; cbn; done || lia]. constructor; cbn [tb_size tb_data tb_cur_size tb_read tb_write tb_items].
  - done.
  - lia.
  - by apply Z.mod_pos_bound.
  - rewrite Zplus_mod_idemp_l, Hw. f_equal. lia.
  - rewrite (ring_data tb) by done. replace (0 + Z.of_nat (length s) + 4) with n by lia. rewrite ring_mod. rewrite <- Hr2. f_equal; lia.
  - split; [|done]. rewrite Hi. cbn. lia.
Qed.

(** The items that stay when [room] bytes must be left to them. *)
Fixpoint evict (room : Z) (its : list (list Z)) : list (list Z) :=
  if Z.of_nat (length (concat (enc <$> its))) <=? room then its else match its with [] => [] | _ :: its' => evict room its' end.

Lemma make_room_spec tb its fuel len :
  tb_rep tb its -> 0 <= len <= tb_size tb -> (length its <= fuel)%nat ->
  exists tb', make_room fuel tb (tb_size tb - tb_cur_size tb) len = Ret tb' /\ tb_rep tb' (evict (tb_size tb - len) its) /\
    tb_write tb' = tb_write tb /\ tb_size tb' = tb_size tb /\ tb_cur_size tb' <= tb_size tb - len.
Proof.
  revert tb fuel. induction its as [|s its IH]; intros tb fuel Hrep Hlen Hf; pose proof (rep_cur _ _ Hrep) as Hcur; cbn [evict].
  - cbn in Hcur. rewrite (proj2 (Z.leb_le _ _)) by (cbn; lia). exists tb. destruct fuel; cbn [make_room]; rewrite (proj2 (Z.ltb_ge _ _)) by lia; split_and!; done || lia.
  - rewrite <- Hcur. destruct (Z.leb_spec (tb_cur_size tb) (tb_size tb - len)) as [Hle|Hgt].
    + exists tb. destruct fuel; cbn [make_room]; rewrite (proj2 (Z.ltb_ge _ _)) by lia; split_and!; done || lia.
    + destruct fuel as [|fuel]; [simpl in Hf; lia|]. cbn [make_room]. rewrite (proj2 (Z.ltb_lt _ _)) by lia.
      destruct (release_item_spec _ _ _ Hrep) as (tb1 & -> & Hrep1 & Hw1 & Hs1 & Hc1). cbn [mbind outcome_bind].
      destruct (IH tb1 fuel Hrep1 ltac:(lia) ltac:(simpl in Hf; lia)) as (tb' & Hr & Hrep' & Hw & Hs & Hc).
      exists tb'. rewrite Hs1 in *. split_and!; [|done|congruence|done|done]. rewrite <- Hr. f_equal. lia.
Qed.

(** ** Storing an item *)

Lemma store_nth l off bs :
  0 <= off -> off + Z.of_nat (length bs) <= Z.of_nat (length l) ->
  exists l', store l off bs = Ret l' /\ length l' = length l /\
    forall j, 0 <= j -> nth (Z.to_nat j) l' 0 = if (off <=? j) && (j <? off + Z.of_nat (length bs)) then nth (Z.to_nat (j - off)) bs 0 else nth (Z.to_nat j) l 0.
Proof.
  intros Ho Hl. unfold store. rewrite (proj2 (Z.leb_le 0 off)), (proj2 (Z.leb_le _ (Z.of_nat (length l)))) by lia. cbn [andb]. eexists. split; [done|].
  split; [rewrite !length_app, length_take, length_drop; lia|]. intros j Hj.
  assert (length (take (Z.to_nat off) l) = Z.to_nat off) as Ht by (rewrite length_take; lia).
  destruct (Z.leb_spec off j), (Z.ltb_spec j (off + Z.of_nat (length bs))); cbn [andb]; try lia.
  - rewrite app_nth2, Ht, app_nth1 by lia. f_equal. lia.
  - rewrite app_nth2, Ht, app_nth2, nth_skipn by lia. f_equal. lia.
  - rewrite app_nth1 by lia. rewrite <- (take_drop (Z.to_nat off) l) at 2. by rewrite app_nth1 by lia.
Qed.

(** Counted from the write place, the first bytes are the item's and the others stay. *)
Lemma put_item_spec tb tmps :
  0 < tb_size tb -> length (tb_data tb) = Z.to_nat (tb_size tb) -> 0 <= tb_write tb < tb_size tb -> Z.of_nat (length tmps) <= tb_size tb ->
  exists d, put_item tb tmps = Ret (mkTb (tb_addr tb) (tb_data_addr tb) d (tb_read tb) ((tb_write tb + Z.of_nat (length tmps)) mod tb_size tb)
      (tb_items tb + 1) (tb_cur_size tb + Z.of_nat (length tmps)) (tb_size tb)) /\ length d = length (tb_data tb) /\
    forall i, 0 <= i < tb_size tb ->
      nth (Z.to_nat ((tb_write tb + i) mod tb_size tb)) d 0 = if i <? Z.of_nat (length tmps) then nth (Z.to_nat i) tmps 0 else cell tb (tb_write tb + i).
Proof.
  intros Hs Hl Hw Hlen. set (w := tb_write tb) in *. set (n := tb_size tb) in *. set (len := Z.of_nat (length tmps)) in *.
  assert (forall i, 0 <= i < n -> (w + i) mod n = if w + i <? n then w + i else w + i - n) as Hmod.
  { intros i Hi. destruct (Z.ltb_spec (w + i) n); [apply Z.mod_small; lia|]. symmetry. apply (Z.mod_unique_pos _ _ 1); lia. }
  unfold put_item. fold w n len. destruct (Z.ltb_spec len (n - w)) as [Hin|Hwrap].
  - destruct (store_nth (tb_data tb) w tmps) as (d & -> & Hd & Hnth); [lia|fold len; lia|]. cbn [mbind outcome_bind]. exists d.
    rewrite (Z.mod_small (w + len)) by lia. split; [done|]. split; [done|]. intros i Hi. rewrite Hnth by (apply Z.mod_pos_bound; done). unfold cell. fold n len.
    rewrite Hmod by done. destruct (Z.ltb_spec (w + i) n), (Z.ltb_spec i len); try lia.
    + rewrite (proj2 (Z.leb_le w _)), (proj2 (Z.ltb_lt _ _)) by lia. cbn [andb]. f_equal. lia.
    + rewrite (proj2 (Z.ltb_ge (w + i) _)) by lia. by rewrite andb_false_r.
    + rewrite (proj2 (Z.leb_gt w _)) by lia. done.
  - assert (length (take (Z.to_nat (n - w)) tmps) = Z.to_nat (n - w)) as Ht by (rewrite length_take; lia).
    assert (Z.of_nat (length (drop (Z.to_nat (n - w)) tmps)) = len - (n - w)) as Hdl by (rewrite length_drop; lia).
    destruct (store_nth (tb_data tb) w (take (Z.to_nat (n - w)) tmps)) as (d1 & -> & Hd1 & Hn1); [lia|lia|]. cbn [mbind outcome_bind].
    destruct (store_nth d1 0 (drop (Z.to_nat (n - w)) tmps)) as (d & -> & Hd & Hnth); [lia|lia|]. cbn [mbind outcome_bind]. exists d.
    assert ((w + len) mod n = len - (n - w)) as Hnew.
    { destruct (Z.eq_dec len n) as [He|He]; [rewrite He; replace (w + n) with (w + 1 * n) by lia; rewrite Z.mod_add, Z.mod_small; lia|]. rewrite Hmod by lia. rewrite (proj2 (Z.ltb_ge _ _)); lia. }
    rewrite Hnew. split; [done|]. split; [congruence|]. intros i Hi. rewrite Hnth by (apply Z.mod_pos_bound; done). rewrite Hdl, Z.add_0_l, Z.sub_0_r.
    unfold cell. fold n. rewrite Hmod by done. destruct (Z.ltb_spec (w + i) n) as [H1|H1].
    + rewrite (proj2 (Z.ltb_ge (w + i) _)), andb_false_r, Hn1 by lia. rewrite Ht, (proj2 (Z.leb_le w _)), !(proj2 (Z.ltb_lt _ _)) by lia. cbn [andb].
      rewrite <- (take_drop (Z.to_nat (n - w)) tmps) at 2. rewrite app_nth1 by lia. f_equal. lia.
    + rewrite (proj2 (Z.leb_le 0 _)) by lia. cbn [andb]. destruct (Z.ltb_spec i len) as [H2|H2].
      * rewrite (proj2 (Z.ltb_lt _ _)) by lia. rewrite nth_skipn. f_equal. lia.
      * rewrite (proj2 (Z.ltb_ge _ _)), Hn1 by lia. rewrite (proj2 (Z.leb_gt w _)) by lia. done.
Qed.

Lemma put_item_rep tb its s :
  tb_rep tb its -> item_ok s -> tb_cur_size tb + Z.of_nat (length (enc s)) <= tb_size tb ->
  exists tb', put_item tb (enc s) = Ret tb' /\ tb_rep tb' (its ++ [s]) /\ tb_size tb' = tb_size tb.
Proof.
  intros [[Hs Hl] Hc Hrd Hw Hr [Hi Hits]] Hok Hroom. set (len := Z.of_nat (length (enc s))) in *.
  assert (0 <= tb_write tb < tb_size tb) as Hwr by (rewrite Hw; by apply Z.mod_pos_bound).
  destruct (put_item_spec tb (enc s)) as (d & Hput & Hd & Hn); [done|done|done|fold len; lia|]. fold len in Hput, Hn.
  set (tb' := mkTb _ _ _ _ _ _ _ _) in Hput. exists tb'. split; [done|]. split; [|done].
  assert (forall i, 0 <= i < tb_size tb -> cell tb' (tb_read tb + tb_cur_size tb + i) = if i <? len then nth (Z.to_nat i) (enc s) 0 else cell tb (tb_read tb + tb_cur_size tb + i)) as Hcell.
  { intros i Hb. rewrite <- (cell_mod tb), <- Hw, <- (Hn i Hb). unfold cell. cbn [tb' tb_size tb_data]. do 2 f_equal. by rewrite Hw, Zplus_mod_idemp_l. }
  constructor; cbn [tb' tb_size tb_data tb_cur_size tb_read tb_write tb_items].
  - split; [done|congruence].
  - lia.
  - done.
  - rewrite Hw, Zplus_mod_idemp_l. f_equal. lia.
  - rewrite ring_app by lia. rewrite fmap_app, concat_app. cbn [fmap list_fmap concat]. rewrite app_nil_r. f_equal.
    + rewrite <- Hr. unfold ring. apply list_fmap_ext. intros i x Hx. apply lookup_seqZ in Hx as [-> Hx].
      pose proof (Hcell (tb_size tb - tb_cur_size tb + Z.of_nat i) ltac:(lia)) as H. rewrite (proj2 (Z.ltb_ge _ _)) in H by lia.
      unfold cell in *. cbn [tb' tb_size tb_data] in *.
      replace (tb_read tb + tb_cur_size tb + (tb_size tb - tb_cur_size tb + Z.of_nat i)) with (tb_read tb + Z.of_nat i + 1 * tb_size tb) in H by lia. by rewrite Z.mod_add in H by lia.
    + apply list_eq. intros i. unfold ring. rewrite list_lookup_fmap. destruct (decide (Z.of_nat i < len)) as [Hlt|Hge].
      * rewrite lookup_seqZ_lt by lia. cbn [fmap option_fmap option_map]. rewrite Hcell, (proj2 (Z.ltb_lt _ _)), Nat2Z.id by lia.
        destruct (lookup_lt_is_Some_2 (enc s) i) as [x Hx]; [lia|]. rewrite Hx. f_equal. by apply nth_lookup_Some.
      * rewrite lookup_seqZ_ge by lia. symmetry. apply lookup_ge_None. lia.
  - rewrite length_app. cbn. split; [lia|]. apply Forall_app. split; [done|by constructor].
Qed.

(** ** Reading it back *)

Definition shown (c : Z) : bool := negb ((c =? 0) || (c =? 1) || (c =? 2) || (c =? 3)).
Lemma str_loop_run tb n p :
  0 < tb_size tb -> length (tb_data tb) = Z.to_nat (tb_size tb) ->
  str_loop n tb (p mod tb_size tb) = Ret (filter shown (ring tb p (Z.of_nat n)), (p + Z.of_nat n) mod tb_size tb).
Proof.
  intros Hs Hl. revert p. induction n as [|n IH]; intros p; cbn [str_loop]; [by rewrite Z.add_0_r|].
  rewrite (cell_rd tb p) by done. cbn [mbind outcome_bind]. rewrite roundi_mod, IH. cbn [mbind outcome_bind].
  rewrite (ring_cons tb p) by lia. rewrite filter_cons.
  assert ((cell tb p =? 0) || (cell tb p =? 1) || (cell tb p =? 2) || (cell tb p =? 3) = negb (shown (cell tb p))) as -> by (unfold shown; by rewrite negb_involutive).
  replace (Z.of_nat (S n) - 1) with (Z.of_nat n) by lia. replace (p + 1 + Z.of_nat n) with (p + Z.of_nat (S n)) by lia.
  by destruct (shown (cell tb p)).
Qed.

Lemma filter_enc its : filter shown (concat (enc <$> its)) = concat (filter shown <$> its).
Proof.
  induction its as [|s its IH]; [done|]. cbn [fmap list_fmap concat]. unfold enc at 1. rewrite !filter_app, IH.
  change (filter shown [0; 1; 2; 3]) with (@nil Z). by rewrite app_nil_r.
Qed.

Lemma shown_length its : (length (concat (filter shown <$> its)) + 4 * length its <= length (concat (enc <$> its)))%nat.
Proof.
  induction its as [|s its IH]; [done|]. cbn [fmap list_fmap concat length]. unfold enc at 1. rewrite !length_app.
  pose proof (length_filter shown s). change (length [0; 1; 2; 3]) with 4%nat. lia.
Qed.

(** Inserting, up to the release of the temporary copy. *)
Lemma tracebuf_insert_rep (cache_pool : Z) (h h1 : slab_state page_state) (tb : tracebuf) (its : list (list Z)) (s : list Z) (p : Z) :
  tb_rep tb its -> item_ok s -> Z.of_nat (length s) + 4 <= tb_size tb ->
  kalloc (Z.of_nat (length s) + 4) h = Ret (p, h1) -> p <> 0 ->
  exists tb', tracebuf_insert cache_pool s (h, tb) = ('(_, h2) ← kfree cache_pool p h1; Ret (Z.of_nat (length s) + 4, (h2, tb'))) /\
    tb_rep tb' (evict (tb_size tb - (Z.of_nat (length s) + 4)) its ++ [s]) /\ tb_size tb' = tb_size tb.
Proof.
  intros Hrep Hs Hfit Hk Hp. pose proof Hrep as [[Hsz Hlen] Hc Hrd Hw Hr [Hi Hits]]. pose proof (rep_cur _ _ Hrep) as Hcur. destruct Hs as [Hne Hs].
  assert (0 < length s)%nat by (destruct s; [done|cbn; lia]).
  assert ((if (tb_read tb <? tb_write tb) || (tb_write tb =? tb_read tb) && (tb_cur_size tb =? 0)
           then tb_size tb - tb_write tb + tb_read tb else tb_read tb - tb_write tb) = tb_size tb - tb_cur_size tb) as Hfr.
  { assert (tb_write tb = if tb_read tb + tb_cur_size tb <? tb_size tb then tb_read tb + tb_cur_size tb else tb_read tb + tb_cur_size tb - tb_size tb) as Hw'.
    { rewrite Hw. destruct (Z.ltb_spec (tb_read tb + tb_cur_size tb) (tb_size tb)); [apply Z.mod_small; lia|]. symmetry. apply (Z.mod_unique_pos _ _ 1); lia. }
    destruct (Z.ltb_spec (tb_read tb + tb_cur_size tb) (tb_size tb)), (Z.ltb_spec (tb_read tb) (tb_write tb)), (Z.eqb_spec (tb_write tb) (tb_read tb)), (Z.eqb_spec (tb_cur_size tb) 0); cbn; lia. }
  unfold tracebuf_insert. rewrite (proj2 (Z.eqb_neq _ 0)), (proj2 (Z.ltb_ge _ _)) by lia. cbn [orb]. rewrite Hk. cbn [mbind outcome_bind].
  rewrite (proj2 (Z.eqb_neq _ _) Hp), Hfr. pose proof (shown_length its).
  destruct (make_room_spec tb its (Z.to_nat (tb_size tb)) (Z.of_nat (length s) + 4) Hrep) as (tb1 & -> & Hrep1 & Hw1 & Hs1 & Hc1); [lia|lia|]. cbn [mbind outcome_bind].
  assert (Z.of_nat (length (enc s)) = Z.of_nat (length s) + 4) as He by (unfold enc; rewrite length_app; cbn; lia).
  destruct (put_item_rep tb1 _ s Hrep1 (conj Hne Hs)) as (tb' & Hput & Hrep' & Hs'); [lia|]. fold (enc s). rewrite Hput. cbn [mbind outcome_bind].
  exists tb'. split; [done|]. split; [done|]. congruence.
Qed.

(** ** Properties *)

(** C35: the trace buffer keeps the most recent items. When the heap can serve
    its requests, inserting an item that fits drops the oldest items, as few as
    make room for it, and appends it, wherever in the ring its bytes land; the
    text read back is the texts of the items in order (without the bytes 1 to
    3), and reading always ends at the write position. *)
Theorem tracebuf_keeps_recent (cache_pool : Z) (h h1 h2 : slab_state page_state) (tb : tracebuf) (its : list (list Z)) (s : list Z) (p : Z)
  (Hrep : tb_rep tb its) (Hs : item_ok s) (Hfit : Z.of_nat (length s) + 4 <= tb_size tb)
  (Hk : kalloc (Z.of_nat (length s) + 4) h = Ret (p, h1)) (Hp : p <> 0) (Hfree : kfree cache_pool p h1 = Ret (tt, h2)) :
  exists tb', tracebuf_insert cache_pool s (h, tb) = Ret (Z.of_nat (length s) + 4, (h2, tb')) /\
    let its' := evict (tb_size tb - (Z.of_nat (length s) + 4)) its ++ [s] in
    tb_rep tb' its' /\
    (forall g g' q, kalloc (tb_cur_size tb') g = Ret (q, g') -> q <> 0 ->
      let text := concat (filter shown <$> its') in tracebuf_to_str tb' g = Ret ((Z.of_nat (length text), Some text), g')).
Proof.
  destruct (tracebuf_insert_rep cache_pool h h1 tb its s p Hrep Hs Hfit Hk Hp) as (tb' & Hi & Hrep' & _). rewrite Hfree in Hi.
  exists tb'. split; [done|]. split; [done|]. intros g g' q Hq Hq0.
  pose proof Hrep' as [[Hsz' Hlen'] Hc' Hrd' Hw'' Hr' _]. pose proof (rep_cur _ _ Hrep') as Hcur'.
  set (its' := evict _ its ++ [s]) in *. assert (0 < length its')%nat by (unfold its'; rewrite length_app; cbn; lia).
  pose proof (shown_length its') as Hsl. unfold tracebuf_to_str. rewrite (proj2 (Z.eqb_neq _ 0)) by lia.
  erewrite M_bind_run by exact Hq. rewrite (proj2 (Z.eqb_neq q 0)) by done.
  assert (str_loop (Z.to_nat (tb_cur_size tb')) tb' (tb_read tb') = Ret (concat (filter shown <$> its'), tb_write tb')) as Hstr.
  { rewrite <- (Z.mod_small (tb_read tb') (tb_size tb')) by done. rewrite str_loop_run, Z2Nat.id, Hr', filter_enc by (done || lia). by rewrite <- Hw''. }
  erewrite M_bind_run; [|unfold lift; rewrite Hstr; reflexivity]. cbn beta iota. erewrite M_bind_run; [|unfold assertM, assert_; rewrite Z.eqb_refl; reflexivity].
  destruct (store_nth (replicate (Z.to_nat (tb_cur_size tb')) 0) 0 (concat (filter shown <$> its') ++ [0])) as (l' & Hst & _); [lia|rewrite length_app, length_replicate; cbn; lia|].
  erewrite M_bind_run; [|unfold lift; rewrite Hst; reflexivity]. done.
Qed.

Definition demo_tb : tracebuf := mkTb 0x100 0x200 ([0; 1; 2; 3; 97; 98; 0; 1; 2; 3; 101; 102]) 4 4 2 12 12.
Lemma demo_tb_rep : tb_rep demo_tb [[97; 98]; [101; 102]].
Proof.
  constructor; [split; reflexivity|cbn; lia|cbn; lia|reflexivity|reflexivity|]. split; [reflexivity|].
  repeat constructor; discriminate || lia.
Qed.
Definition demo_tmps : Z * slab_state page_state :=
  match kalloc 7 demo_slabs with Ret r => r | _ => (0, demo_slabs) end.
Definition demo_after : slab_state page_state :=
  match kfree demo_cache_pool demo_tmps.1 demo_tmps.2 with Ret (_, h) => h | _ => demo_slabs end.
Definition is_ret {A} (o : outcome A) : bool := match o with Ret _ => true | _ => false end.

Lemma tracebuf_keeps_recent_witness :
  exists tb', tracebuf_insert demo_cache_pool [103; 104; 105] (demo_slabs, demo_tb) = Ret (7, (demo_after, tb')) /\
    tb_rep tb' [[103; 104; 105]].
Proof.
  assert (kalloc 7 demo_slabs = Ret (demo_tmps.1, demo_tmps.2)) as Hk.
  { assert (is_ret (kalloc 7 demo_slabs) = true) as H by (vm_compute; reflexivity). unfold demo_tmps.
    destruct (kalloc 7 demo_slabs) as [[p h]| | |]; [reflexivity|discriminate H..]. }
  assert (kfree demo_cache_pool demo_tmps.1 demo_tmps.2 = Ret (tt, demo_after)) as Hf.
  { assert (is_ret (kfree demo_cache_pool demo_tmps.1 demo_tmps.2) = true) as H by (vm_compute; reflexivity). unfold demo_after.
    destruct (kfree demo_cache_pool demo_tmps.1 demo_tmps.2) as [[[] h]| | |]; [reflexivity|discriminate H..]. }
  destruct (tracebuf_keeps_recent demo_cache_pool demo_slabs demo_tmps.2 demo_after demo_tb [[97; 98]; [101; 102]] [103; 104; 105] demo_tmps.1 demo_tb_rep)
    as (tb' & Hr & Hrep & _).
  - split; [discriminate|repeat constructor; lia].
  - cbn. lia.
  - exact Hk.
  - assert ((demo_tmps.1 =? 0) = false) as H by (vm_compute; reflexivity). exact (proj1 (Z.eqb_neq _ _) H).
  - exact Hf.
  - exists tb'. split; [exact Hr|exact Hrep].
Defined.

(** A new buffer holds no items when the memory it got
    had a zero where [cur_size] lies; nothing else sets that field. *)
Lemma alloc_tracebuf_rep (cache_pool : Z) (raw : list Z) (size : Z) (h h1 h2 : slab_state page_state) (p q : Z) :
  0 < size < 2 ^ 31 -> (Z.to_nat size <= length raw)%nat -> kalloc sizeof_tracebuf h = Ret (p, h1) -> p <> 0 -> kalloc size h1 = Ret (q, h2) -> q <> 0 ->
  exists tb, alloc_tracebuf cache_pool 0 raw size h = Ret (Some tb, h2) /\ tb_rep tb [] /\ tb_size tb = size.
Proof.
  intros Hs Hl Hp Hp0 Hq Hq0. unfold alloc_tracebuf. erewrite M_bind_run by exact Hp. rewrite (proj2 (Z.eqb_neq _ _) Hp0).
  erewrite M_bind_run by exact Hq. rewrite (proj2 (Z.eqb_neq _ _) Hq0). eexists. split; [done|].
  assert (s32 size = size) as -> by (apply s32_small; lia). split; [|done].
  constructor; cbn [tb_size tb_data tb_cur_size tb_read tb_write tb_items]; [rewrite length_take; lia|lia|lia|by rewrite Z.mod_0_l by lia|done|done].
Qed.

(** After [tracebuf_clear] the buffer still claims the bytes it had before,
    so reading it stops the kernel at the assertion that reading ends where
    writing did. *)
Theorem tracebuf_clear_then_read_halts (tb : tracebuf) (its : list (list Z)) (g g' : slab_state page_state) (q : Z)
  (Hrep : tb_rep tb its) (Hcur : 0 < tb_cur_size tb < tb_size tb) (Hk : kalloc (tb_cur_size tb) g = Ret (q, g')) (Hq : q <> 0) :
  tracebuf_to_str (tracebuf_clear tb) g = Halt.
Proof.
  destruct Hrep as [[Hs Hl] _ _ _ _ _]. unfold tracebuf_to_str. cbn [tracebuf_clear tb_cur_size tb_read tb_write].
  rewrite (proj2 (Z.eqb_neq _ 0)) by lia. erewrite M_bind_run by exact Hk. rewrite (proj2 (Z.eqb_neq _ _) Hq).
  pose proof (str_loop_run (tracebuf_clear tb) (Z.to_nat (tb_cur_size tb)) 0 Hs) as H. cbn [tracebuf_clear tb_data tb_size] in H.
  rewrite length_replicate, Z.mod_0_l, Z.add_0_l, Z2Nat.id, Z.mod_small in H by lia.
  erewrite M_bind_run; [|unfold lift; rewrite (H eq_refl); reflexivity]. cbn beta iota.
  unfold mbind, M_bind, assertM, assert_. by rewrite (proj2 (Z.eqb_neq _ 0)) by lia.
Qed.
