(* ===== verification/Exec.v ===== *)
(** * Loading a program (ukern/src/exec.c, inc/elf.h, inc/rootserv.h)

    [exec] reads an ELF file from the ram disk, allocates and maps its
    segments, copies their bytes, maps a stack, a heap and the ram disk, puts
    the arguments on the stack and makes the current process ready.

    The ram disk is the part of kernel memory behind [ptov RAMDISK_BASE];
    [rd_size] is how much of it holds the image, and [sb] are the globals of
    ramdisk.c.  A write goes to any kernel address and changes the plain byte
    there, or the descriptor when it falls into a page table.  Objects the
    kernel state keeps as typed values (process descriptors, slab objects,
    handle tables) have no bytes in this memory, so what a stray write does to
    them is not represented.  A string is the memory from its pointer on. *)
From S2P Require Import Prelude Config CList Bitmap Page PageTable PageTableSpec Slab SlabSpec Kmem Spinlock Uaccess Kernel Kobject Handle Proc Sched Ramdisk.

(** ** elf.h, rootserv.h *)
Definition ELF_MAGIC : Z := 0x464C457F.
Definition ELF_PROG_LOAD : Z := 1.
Definition sizeof_elfhdr : Z := 64.
Definition sizeof_proghdr : Z := 56.

(** The fields [exec] uses. *)
Record elfhdr := mkElf { elf_magic : Z; elf_entry : Z; elf_phoff : Z; elf_phnum : Z }.
Record proghdr := mkPh { ph_type : Z; ph_off : Z; ph_vaddr : Z; ph_filesz : Z; ph_memsz : Z }.
Definition field (bs : bytes) (off n : nat) : Z := le_dec (take n (drop off bs)).
Definition elfhdr_of (bs : bytes) : elfhdr := mkElf (field bs 0 4) (field bs 24 8) (field bs 32 8) (field bs 56 2).
Definition proghdr_of (bs : bytes) : proghdr := mkPh (field bs 0 4) (field bs 8 8) (field bs 16 8) (field bs 32 8) (field bs 40 8).

Definition SYS_PROC_HEAP_BASE : Z := 64 * 1024 * 1024 * 1024.
Definition SYS_PROC_HEAP_SIZE : Z := 1 * 1024 * 1024.
Definition SYS_PROC_HEAP_END : Z := SYS_PROC_HEAP_BASE + SYS_PROC_HEAP_SIZE.
Definition SYS_PROC_VMAP_BASE : Z := 65 * 1024 * 1024 * 1024.
Definition SYS_PROC_RAMDISK_BASE : Z := SYS_PROC_VMAP_BASE.
Definition SYS_PROC_RAMDISK_END : Z := SYS_PROC_RAMDISK_BASE + RAMDISK_SIZE.

Definition AT_NULL : Z := 0.
Definition AT_PAGESZ : Z := 6.
Definition AT_HWCAP : Z := 16.
Definition AT_HEAP_BASE : Z := 62.
Definition AT_HEAP_END : Z := 63.
Definition AT_RAMDISK_BASE : Z := 64.
Definition AT_RAMDISK_END : Z := 65.

(** ** Kernel memory *)

(** Byte [n] of a descriptor replaced. *)
Definition set_byte (e n b : Z) : Z := e - (e / 256 ^ n) mod 256 * 256 ^ n + b * 256 ^ n.
Definition put_byte (a b : Z) (k : kstate) : kstate :=
  let a := u64 a in
  let t := a - a mod PAGE_SIZE in
  match ks_tables k !! t with
  | Some es => set_tables (<[t := alter (fun e => set_byte e (a mod 8) b) (Z.to_nat (a mod PAGE_SIZE / 8)) es]> (ks_tables k)) k
  | None => set_mem (<[a := b]> (ks_mem k)) k
  end.
Fixpoint kwrite (a : Z) (bs : bytes) (k : kstate) : kstate :=
  match bs with [] => k | b :: bs' => kwrite (a + 1) bs' (put_byte a b k) end.
Definition memcpy_to (a : Z) (bs : bytes) : K () := modify (kwrite a bs).
Definition walk (pagetable va : Z) : K Z := fun k => lift (pgtbl_walk (ks_tables k) pagetable va) k.

Section Exec.
Context `{KE : KernEnv} (rd_size : Z) (sb : option ramdisk).

Definition image (k : kstate) : bytes := mem_read (ks_mem k) (ptov RAMDISK_BASE) rd_size.
Definition rd_open (path : bytes) : K (Z + Z) := fun k => lift (ramdisk_open (image k) sb path) k.
Definition rd_read (inode size offset : Z) : K (bytes * Z) := fun k =>
  match sb with Some r => lift (ramdisk_read (image k) r inode size offset) k | None => Fault end.

(** The loop over the program headers; [false] is [goto bad].  The result of
    [kalloc] is not tested, and a read past the end of the file reads nothing
    and is no error. *)
Fixpoint load_loop (n : nat) (p inode off : Z) : K bool :=
  match n with
  | O => mret true
  | S n' =>
      '(bs, r) ← rd_read inode sizeof_proghdr (u64 off);
      if negb (u64 r =? sizeof_proghdr) then mret false
      else
        let ph := proghdr_of bs in
        let next := load_loop n' p inode (s32 (off + sizeof_proghdr)) in
        if negb (ph_type ph =? ELF_PROG_LOAD) then next
        else if ph_memsz ph <? ph_filesz ph then mret false
        else if u64 (ph_vaddr ph + ph_memsz ph) <? ph_vaddr ph then mret false
        else
          let mapva := align_page_down (ph_vaddr ph) in
          let mapsz := align_page_up (u64 (ph_memsz ph + (ph_vaddr ph - mapva))) in
          va ← on_slab (kalloc mapsz);
          let pa := vtop va in
          x ← get_proc p;
          r ← on_map (pagetable_map (p_pagetable x) mapva pa mapsz VM_RWX);
          if r <? 0 then on_slab (kfree cache_pool_addr (ptov pa));; mret false
          else
            a ← walk (p_pagetable x) (ph_vaddr ph);
            '(data, r) ← rd_read inode (ph_filesz ph) (ph_off ph);
            memcpy_to (ptov a) data;;
            if r <? 0 then mret false else next
  end.

(** Mapping one of the three fixed regions: [false] is [goto bad]. *)
Definition map_or_free (p base pa size : Z) : K bool :=
  x ← get_proc p;
  r ← on_map (pagetable_map (p_pagetable x) base pa size VM_RW);
  if negb (r =? 0) then on_slab (kfree cache_pool_addr (ptov pa));; mret false else mret true.

(** The argument strings: each is copied with one byte more than its
    terminator.  [argvp] is the local array. *)
Fixpoint put_args (argv : list bytes) (argc : Z) (argvp : list Z) (sp origin va : Z) : K (Z * list Z * Z) :=
  match argv with
  | [] => argvp ← lift (wr argvp argc 0); mret (va, argvp, argc)
  | a :: argv' =>
      s ← lift (c_str a);
      let size := Z.of_nat (length s) + 1 in
      let va := u64 (va - size) in
      bs ← lift (rd_bytes a 0 (Z.to_nat (size + 1)));
      memcpy_to va bs;;
      argvp ← lift (wr argvp argc (u64 (sp - (origin - va))));
      put_args argv' (argc + 1) argvp sp origin va
  end.

Definition NEW_AUX_ENT (auxp type value : Z) : K Z :=
  let auxp := u64 (auxp - 16) in
  memcpy_to auxp (le_enc 8 type);; memcpy_to (u64 (auxp + 8)) (le_enc 8 value);; mret auxp.
Definition setup_auxv (va : Z) : K Z :=
  va ← NEW_AUX_ENT va AT_NULL 0;
  va ← NEW_AUX_ENT va AT_PAGESZ PAGE_SIZE;
  va ← NEW_AUX_ENT va AT_HWCAP 0;
  va ← NEW_AUX_ENT va AT_HEAP_BASE SYS_PROC_HEAP_BASE;
  va ← NEW_AUX_ENT va AT_HEAP_END SYS_PROC_HEAP_END;
  va ← NEW_AUX_ENT va AT_RAMDISK_BASE SYS_PROC_RAMDISK_BASE;
  NEW_AUX_ENT va AT_RAMDISK_END SYS_PROC_RAMDISK_END.
Definition setup_envp (va : Z) : K Z :=
  let va := u64 (va - 8) in memcpy_to va (le_enc 8 0);; mret va.
Definition setup_argv (va argc : Z) (argvp : list Z) : K Z :=
  let p := u64 (va - (argc + 1) * 8) in
  ps ← lift (if (argc + 1 <=? Z.of_nat (length argvp)) then Ret (take (Z.to_nat (argc + 1)) argvp) else Fault);
  memcpy_to p (concat (le_enc 8 <$> ps));;
  let p := u64 (p - 8) in
  memcpy_to p (le_enc 8 argc);; mret p.

Definition exec_stack_top : Z := 0xF0002000.

(** The part behind the mappings. *)
Definition start_proc (p entry : Z) (argv : list bytes) : K Z :=
  let sp := exec_stack_top in
  let stacksize := 2 * PAGE_SIZE in
  let stackbase := sp - stacksize in
  x ← get_proc p;
  w ← walk (p_pagetable x) stackbase;
  let va := ptov (u64 (w + stacksize)) in
  let origin := va in
  '(va, argvp, argc) ← put_args argv 0 (replicate (Z.to_nat (MAXARG + 1)) 0) sp origin va;
  let va := align_down va 8 in
  va ← setup_auxv va;
  va ← setup_envp va;
  va ← setup_argv va argc argvp;
  proc_set_context p entry (u64 (sp - (origin - va)));;
  proc_ready p;;
  mret 0.

(** [argv] is [None] for NULL, and the strings before the NULL entry. *)
Definition exec (path : bytes) (argv : option (list bytes)) : K Z :=
  p ← cur_proc;
  match argv with
  | None | Some [] => mret (-1)
  | Some argv =>
      o ← rd_open path;
      match o with
      | inl _ => mret (-1)
      | inr inode =>
          '(bs, r) ← rd_read inode sizeof_elfhdr 0;
          if negb (u64 r =? sizeof_elfhdr) then mret (-1)
          else
            let elf := elfhdr_of bs in
            if negb (elf_magic elf =? ELF_MAGIC) then mret (-1)
            else
              ok ← load_loop (Z.to_nat (elf_phnum elf)) p inode (s32 (elf_phoff elf));
              if negb ok then mret (-1)
              else
                va ← on_pages (page_allocn 2);
                ok ← map_or_free p (exec_stack_top - 2 * PAGE_SIZE) (vtop va) (2 * PAGE_SIZE);
                if negb ok then mret (-1)
                else
                  va ← on_slab (kalloc (align_page_up SYS_PROC_HEAP_SIZE));
                  ok ← map_or_free p SYS_PROC_HEAP_BASE (vtop va) SYS_PROC_HEAP_SIZE;
                  if negb ok then mret (-1)
                  else
                    ok ← map_or_free p SYS_PROC_RAMDISK_BASE RAMDISK_BASE RAMDISK_SIZE;
                    if negb ok then mret (-1) else start_proc p (elf_entry elf) argv
      end
  end.

(** init.c; [literal] is the memory of the string constant it passes. *)
Definition load_root_service (literal : bytes) : K Z :=
  p ← create_root_proc;
  if p =? 0 then mret (- EFAULT)
  else
    r ← exec [114; 111; 111; 116; 115; 46; 101; 108; 102] (Some [literal]);
    if r <? 0 then mret (- EFAULT) else mret 0.
End Exec.
