(* ===== verification/ExecSpec.v ===== *)
(** * Loading a program: what [exec] establishes

    The allocator, the page tables and the memory are followed through the
    calls of [exec]; everything else of the kernel state stays as it was until
    the process is made ready. *)
From S2P Require Import Prelude Config CList Bitmap Page PageTable PageTableSpec Slab SlabSpec Kmem Spinlock Uaccess Kernel Kobject Handle Proc Sched Ramdisk Exec.

(** ** Memory *)

(** [m] holds [bs] at address [a]. *)
Definition holds (m : mem) (a : Z) (bs : bytes) : Prop := forall i b, bs !! i = Some b -> m !! (a + Z.of_nat i) = Some b.

Lemma mem_write_other m a bs x :
  0 <= a -> a + Z.of_nat (length bs) <= 2 ^ 64 -> x < a \/ a + Z.of_nat (length bs) <= x -> mem_write m a bs !! x = m !! x.
Proof. intros Ha Hl. by apply mem_write_spec. Qed.
Lemma holds_app m a xs ys : holds m a xs -> holds m (a + Z.of_nat (length xs)) ys -> holds m a (xs ++ ys).
Proof.
  intros Hx Hy i b [Hi|[Hle Hi]]%lookup_app_Some; [by apply Hx|]. rewrite <- (Hy _ _ Hi). f_equal. lia.
Qed.
Lemma holds_written m a bs : 0 <= a -> a + Z.of_nat (length bs) <= 2 ^ 64 -> holds (mem_write m a bs) a bs.
Proof. intros H1 H2 i b Hi. by apply (mem_write_spec m a bs). Qed.
Lemma holds_write_other m a bs c xs :
  0 <= c -> c + Z.of_nat (length xs) <= 2 ^ 64 -> a + Z.of_nat (length bs) <= c \/ c + Z.of_nat (length xs) <= a ->
  holds m a bs -> holds (mem_write m c xs) a bs.
Proof.
  intros H1 H2 Hd H i b Hi. pose proof (lookup_lt_Some _ _ _ Hi). rewrite mem_write_other by lia. by apply H.
Qed.
(** Pushing [xs] below [bs]. *)
Lemma holds_push m a bs xs :
  Z.of_nat (length xs) <= a -> a <= 2 ^ 64 -> holds m a bs ->
  holds (mem_write m (a - Z.of_nat (length xs)) xs) (a - Z.of_nat (length xs)) (xs ++ bs).
Proof.
  intros H1 H2 H. apply holds_app; [apply holds_written; lia|].
  replace (a - Z.of_nat (length xs) + Z.of_nat (length xs)) with a by lia. apply holds_write_other; [lia|lia|by right; lia|done].
Qed.

(** No page table meets [n] bytes from [a]. *)
Definition no_table (t : tables) (a n : Z) : Prop := forall x, is_Some (t !! x) -> x + 4096 <= a \/ a + n <= x.

(** The state with other pages, tables and memory. *)
Definition with_mem (k : kstate) (pg : page_state) (t : tables) (m : mem) : kstate :=
  let s := ks_slab k in set_mem m (set_tables t (set_slab_ (mkSlabs pg (ss_slabs s) (ss_pools s) (ss_caches s) (pool_ptrs s) (nr_pools s)) k)).

Lemma with_mem_id k : with_mem k (ss_pages (ks_slab k)) (ks_tables k) (ks_mem k) = k.
Proof. destruct k as [[] ? ? ? ? ? ? ? ? ? ? ? ? ?]. done. Qed.

Lemma put_byte_mem k pg t m a b :
  0 <= a < 2 ^ 64 -> no_table t a 1 -> (forall x, is_Some (t !! x) -> x mod 4096 = 0) -> put_byte a b (with_mem k pg t m) = with_mem k pg t (<[a := b]> m).
Proof.
  intros Ha Hn Hal. unfold put_byte. rewrite u64_small by lia. cbn [with_mem set_mem set_tables set_slab_ ks_tables ks_mem]. unfold PAGE_SIZE.
  destruct (t !! (a - a mod 4096)) as [es|] eqn:E; [|done]. exfalso.
  pose proof (Z.mod_pos_bound a 4096). destruct (Hn (a - a mod 4096) ltac:(by exists es)); lia.
Qed.
Lemma kwrite_mem k pg t m a bs :
  0 <= a -> a + Z.of_nat (length bs) <= 2 ^ 64 -> no_table t a (Z.of_nat (length bs)) -> (forall x, is_Some (t !! x) -> x mod 4096 = 0) ->
  kwrite a bs (with_mem k pg t m) = with_mem k pg t (mem_write m a bs).
Proof.
  intros Ha Hl Hn Hal. revert m a Ha Hl Hn. induction bs as [|b bs IH]; intros m a Ha Hl Hn; [done|]. cbn [kwrite mem_write length] in *.
  rewrite put_byte_mem; [|lia| |done]; [|intros x Hx; destruct (Hn x Hx); lia]. rewrite u64_small by lia.
  apply IH; [lia|lia|]. intros x Hx. destruct (Hn x Hx); lia.
Qed.

(** ** Running on the changed state *)
Section Runs.
Context `{KE : KernEnv} (k : kstate).

Lemma kalloc_pages_run pg t m size va pg' :
  512 < size -> size mod 4096 = 0 -> size <= 2 ^ 31 -> page_allocn (size / 4096) pg = Ret (va, pg') ->
  on_slab (kalloc size) (with_mem k pg t m) = Ret (va, with_mem k pg' t m).
Proof.
  intros H1 H2 H3 Ha. unfold on_slab, kalloc, PAGE_SIZE. change (4096 / 8) with 512. rewrite (proj2 (Z.leb_gt _ _)) by lia.
  assert (s32 (Z.shiftr (align_page_up size) PAGE_SHIFT) = size / 4096) as ->.
  { unfold align_page_up, PAGE_SIZE, PAGE_SHIFT. change 4096 with (2 ^ 12) at 1. rewrite align_up_spec by lia. change (2 ^ 12) with 4096.
    rewrite Z.shiftr_div_pow2 by lia. change (2 ^ 12) with 4096. pose proof (Z.div_mod size 4096).
    replace ((size + (4096 - 1)) mod 4096) with 4095; [|apply (Z.mod_unique_pos _ _ (size / 4096)); lia].
    replace (size + (4096 - 1) - 4095) with size by lia. apply s32_small. lia. }
  unfold slab_pages, zoom. cbn [with_mem set_mem set_tables set_slab_ ks_slab ss_pages]. rewrite Ha. done.
Qed.
Lemma page_allocn_run pg t m n va pg' :
  page_allocn n pg = Ret (va, pg') -> on_pages (page_allocn n) (with_mem k pg t m) = Ret (va, with_mem k pg' t m).
Proof.
  intros Ha. unfold on_pages, on_slab, slab_pages, zoom. cbn [with_mem set_mem set_tables set_slab_ ks_slab ss_pages]. rewrite Ha. done.
Qed.
Lemma map_run pg t m root va pa size fl r pg' t' :
  pagetable_map root va pa size fl (pg, t) = Ret (r, (pg', t')) ->
  on_map (pagetable_map root va pa size fl) (with_mem k pg t m) = Ret (r, with_mem k pg' t' m).
Proof.
  intros Ha. unfold on_map, zoom. cbn [with_mem set_mem set_tables set_slab_ ks_slab ss_pages ks_tables]. rewrite Ha. done.
Qed.
Lemma walk_run pg t m root va x : pgtbl_walk t root va = Ret x -> walk root va (with_mem k pg t m) = Ret (x, with_mem k pg t m).
Proof. intros H. unfold walk, lift. cbn [with_mem set_mem set_tables ks_tables]. by rewrite H. Qed.
Lemma get_proc_run pg t m p x : ks_procs k !! p = Some x -> get_proc p (with_mem k pg t m) = Ret (x, with_mem k pg t m).
Proof. intros H. exact (deref_run ks_procs p x (with_mem k pg t m) H). Qed.
End Runs.

(** ** Allocating and mapping *)

(** [exec] is followed on pages below the ram disk. *)
Abbreviation lim := (ptov RAMDISK_BASE).
(** A block that is handed out, lies below the ram disk and holds no table. *)
Record blk_ok (pg : page_state) (t : tables) (b : Z * Z) : Prop := {
  bo_live : page_live pg (b.1) (b.2);
  bo_lim : b.1 + b.2 * 4096 <= lim;
  bo_tables : no_table t (b.1) (b.2 * 4096) }.
Definition apart (b c : Z * Z) : Prop := b.1 + b.2 * 4096 <= c.1 \/ c.1 + c.2 * 4096 <= b.1.

(** Blocks [bs] are in use, the addresses [fr] are unmapped and [n] pages are
    left below the ram disk. *)
Record ld (root : Z) (fr : Z -> Prop) (pg : page_state) (t : tables) (bs : list (Z * Z)) (n : Z) : Prop := {
  ld_pt : exists lv, pt_state root pg t lv;
  ld_room : page_room pg n lim;
  ld_blk : Forall (blk_ok pg t) bs;
  ld_free : forall va, 0 <= va < 2 ^ 48 -> fr va -> free_at 3 t root va }.

Lemma ld_aligned root fr pg t bs n x : ld root fr pg t bs n -> is_Some (t !! x) -> x mod 4096 = 0.
Proof. intros [[lv [_ _ Ho]] _ _ _] [es Hes]. by destruct (Ho x es Hes) as [[? _] _]. Qed.

Lemma ld_alloc root fr pg t bs n c :
  ld root fr pg t bs n -> 0 < c <= 512 -> c <= n ->
  exists va pg', page_allocn c pg = Ret (va, pg') /\ ld root fr pg' t ((va, c) :: bs) (n - c) /\
    va mod 4096 = 0 /\ ptov 0 < va /\ va + c * 4096 <= lim /\ Forall (apart (va, c)) bs.
Proof.
  intros [[lv [Hinv Hwf Hown]] Hroom Hblk Hfree] Hc Hcn.
  destruct (pa_allocn_spec (PageAlloc := page_alloc_impl) pg c Hinv Hc) as (va & pg' & Ha & Hinv' & Har' & Hor).
  destruct (pa_allocn_room (PageAlloc := page_alloc_impl) pg c n lim va pg' Hinv Hc Hcn Hroom Ha) as (Hva & Hlim & Hroom').
  destruct Hor as [[? _]|(_ & Hl & Hd)]; [done|]. cbn [pa_live pa_arena pa_inv page_alloc_impl] in *.
  assert (page_live pg' va c) as Hlive by (apply Hl; by left).
  destruct (pa_live_range (PageAlloc := page_alloc_impl) pg' va c Hinv' Hlive) as (Hm & Hlo & _ & _).
  assert (forall x, va <= x < va + c * 4096 -> page_arena pg x) as Hin.
  { intros x Hx. apply Har'. exact (pa_live_arena (PageAlloc := page_alloc_impl) pg' va c x Hinv' Hlive Hx). }
  exists va, pg'. split; [exact Ha|]. split; [|split_and!; [done..|]].
  - split; [exists lv; split; [done|done|]|done| |done].
    + intros a es Hes. destruct (Hown a es Hes) as [Hk [Hlv|Hna]]; (split; [done|]); [left; apply Hl; by right|right]. intros Hx. apply Hna. by apply Har'.
    + constructor.
      * split; [done|done|]. cbn [fst snd]. intros a [es Hes]. destruct (Hown a es Hes) as [[Hak _] [Hlv|Hna]].
        -- destruct (Hd a 1 Hlv); lia.
        -- destruct (decide (a + 4096 <= va)); [by left|right]. destruct (decide (va + c * 4096 <= a)); [done|exfalso].
           apply Hna, Hin. pose proof (Z.div_mod a 4096). pose proof (Z.div_mod va 4096). lia.
      * eapply Forall_impl; [exact Hblk|]. intros b [Hb Hbl Hn]. split; [apply Hl; by right|done|done].
  - rewrite Forall_forall in Hblk |- *. intros b Hb. destruct (Hblk b Hb) as [Hbl _ _]. destruct (Hd _ _ Hbl); [right|left]; done.
Qed.

Lemma ld_map root fr pg t bs n va pa size fl :
  ld root fr pg t bs n -> in_1g va size -> 0 <= va -> va + size <= 2 ^ 48 -> va mod 4096 = 0 -> 0 < size -> size mod 4096 = 0 ->
  0 <= pa -> pa + size <= 2 ^ 36 -> pa mod 4096 = 0 -> Z.land fl __VM_HUGE_2M = 0 -> Z.land fl __VM_HUGE_1G = 0 ->
  (forall x, va <= x < va + size -> fr x) -> size / 2 ^ 21 + 4 <= n ->
  exists pg' t', pagetable_map root va pa size fl (pg, t) = Ret (0, (pg', t')) /\
    ld root (fun x => fr x /\ (x < va \/ va + size <= x)) pg' t' bs (n - (size / 2 ^ 21 + 4)) /\
    (forall j, 0 <= j < size -> pgtbl_walk t' root (va + j) = Ret (pa + j)) /\
    (forall x y, pgtbl_walk t root x = Ret y -> pgtbl_walk t' root x = Ret y).
Proof.
  intros [[lv Hst] Hroom Hblk Hfree] Hg Hva0 Hva Hva12 Hs Hs12 Hp0 Hp Hp12 H2 H1 Hfr Hn.
  destruct (pagetable_map_spec root pg t lv va pa size fl) as (r & pg' & t' & lv' & Hr & Hst' & Hext & (Hgr & Hen & Hout) & Hres);
    [done|done|lia|done|lia|done|lia|lia|lia|done|done|done| |].
  { intros j Hj. pose proof (Z.div_mod size 4096). apply Hfree; [lia|]. apply Hfr. lia. }
  destruct (Hen n lim Hn Hroom) as [-> Hroom']. destruct Hres as [?|[_ Hw]]; [done|].
  exists pg', t'. split; [done|]. split; [|split; [done|]].
  - split; [by exists lv'|done| |].
    + eapply Forall_impl; [exact Hblk|]. intros b [Hb Hbl Hnt]. destruct Hgr as [Hgl _ Hgn]. split; [by apply Hgl|done|].
      intros x [Hx|Hx]%Hgn; [by apply Hnt|]. destruct (Hx _ _ Hb); [by right|by left].
    + intros x Hx [Hfx Hxo]. apply Hout; [apply outside_low; lia|]. by apply Hfree.
  - intros x y. by apply walk_ext.
Qed.

(** ** The file and its segments *)

Lemma mem_read_write m a bs c n :
  0 <= a -> a + Z.of_nat (length bs) <= 2 ^ 64 -> 0 <= c -> c + n <= 2 ^ 64 -> a + Z.of_nat (length bs) <= c \/ c + n <= a ->
  mem_read (mem_write m a bs) c n = mem_read m c n.
Proof.
  intros Ha1 Ha2 Hc1 Hc2 Hd. unfold mem_read. apply list_fmap_ext. intros i x Hx. apply lookup_seqZ in Hx as [-> Hx].
  rewrite u64_small by lia. by rewrite mem_write_other by lia.
Qed.

Lemma has_slice img off f i n : has img off f -> 0 <= i -> has img (off + i) (take n (drop (Z.to_nat i) f)).
Proof.
  intros [Ho H] Hi. split; [lia|]. intros j b Hj. apply lookup_take_Some in Hj as [Hj _]. rewrite lookup_drop in Hj.
  replace (Z.to_nat (off + i) + j)%nat with (Z.to_nat off + (Z.to_nat i + j))%nat by lia. by apply H.
Qed.

Lemma ramdisk_read_in img r inode file base size off :
  ramdisk_file_size img inode = Ret (Z.of_nat (length file)) -> ramdisk_file_base img r inode = Ret base -> has img base file -> Z.of_nat (length file) < 2 ^ 31 ->
  0 <= size -> 0 <= off -> off + size <= Z.of_nat (length file) -> ramdisk_read img r inode size off = Ret (take (Z.to_nat size) (drop (Z.to_nat off) file), size).
Proof.
  intros Hsize Hbase Hfile Hlen Hs Ho Hle. unfold ramdisk_read. rewrite Hsize. cbn [mbind outcome_bind].
  rewrite (proj2 (Z.ltb_ge _ _)), u64_small, (proj2 (Z.ltb_ge _ _)), Hbase by lia. cbn [mbind outcome_bind].
  pose proof (has_slice img base file off (Z.to_nat size) Hfile Ho) as Hs'. apply rd_bytes_has in Hs'.
  rewrite length_take, length_drop in Hs'. replace (Z.to_nat size `min` (length file - Z.to_nat off))%nat with (Z.to_nat size) in Hs' by lia.
  rewrite Hs'. cbn [mbind outcome_bind]. by rewrite s32_small by lia.
Qed.

Definition loadable (ph : proghdr) : Prop := ph_type ph = ELF_PROG_LOAD.
#[global] Instance loadable_dec ph : Decision (loadable ph) := decide (_ = _).
(** The pages of a segment. *)
Definition seg_va (ph : proghdr) : Z := ph_vaddr ph - ph_vaddr ph mod 4096.
Definition seg_sz (ph : proghdr) : Z := (ph_memsz ph + ph_vaddr ph mod 4096 + 4095) / 4096 * 4096.
Definition seg_data (file : bytes) (ph : proghdr) : bytes := take (Z.to_nat (ph_filesz ph)) (drop (Z.to_nat (ph_off ph)) file).
Definition seg_need (ph : proghdr) : Z := if decide (loadable ph) then seg_sz ph / 4096 + (seg_sz ph / 2 ^ 21 + 4) else 0.
Definition segs_need (phs : list proghdr) : Z := foldr (fun ph n => seg_need ph + n) 0 phs.
Definition seg_off (p q : proghdr) : Prop := loadable q -> seg_va p + seg_sz p <= seg_va q \/ seg_va q + seg_sz q <= seg_va p.
Fixpoint segs_apart (phs : list proghdr) : Prop :=
  match phs with [] => True | p :: phs' => (loadable p -> Forall (seg_off p) phs') /\ segs_apart phs' end.

(** A segment that fits below the stack, in one 1 GB region and in one block
    of the allocator. *)
Record seg_ok (file : bytes) (ph : proghdr) : Prop := {
  so_addr : 0 <= ph_vaddr ph /\ seg_va ph + seg_sz ph <= exec_stack_top - 8192;
  so_size : 0 <= ph_filesz ph <= ph_memsz ph /\ 0 < ph_memsz ph /\ seg_sz ph <= 2 ^ 21;
  so_file : 0 <= ph_off ph /\ ph_off ph + ph_filesz ph <= Z.of_nat (length file);
  so_1g : in_1g (seg_va ph) (seg_sz ph) }.

Lemma seg_bounds file ph :
  seg_ok file ph ->
  seg_va ph mod 4096 = 0 /\ seg_sz ph mod 4096 = 0 /\ 0 <= seg_va ph <= ph_vaddr ph /\ 0 < seg_sz ph /\
  ph_vaddr ph mod 4096 + ph_memsz ph <= seg_sz ph < ph_vaddr ph mod 4096 + ph_memsz ph + 4096 /\ ph_vaddr ph = seg_va ph + ph_vaddr ph mod 4096 /\
  0 <= ph_vaddr ph mod 4096 < 4096.
Proof.
  intros [[Hv _] [_ [Hm _]] _ _]. unfold seg_va, seg_sz. set (v := ph_vaddr ph) in *. pose proof (Z.mod_pos_bound v 4096). pose proof (Z.div_mod v 4096).
  set (w := ph_memsz ph + v mod 4096 + 4095). pose proof (Z.div_mod w 4096). pose proof (Z.mod_pos_bound w 4096).
  assert (w = ph_memsz ph + v mod 4096 + 4095) by done. rewrite Z.mod_mul by lia.
  replace (v - v mod 4096) with (v / 4096 * 4096) by lia. rewrite Z.mod_mul by lia. split_and!; lia.
Qed.
Lemma seg_align file ph :
  seg_ok file ph -> align_page_down (ph_vaddr ph) = seg_va ph /\ align_page_up (u64 (ph_memsz ph + (ph_vaddr ph - seg_va ph))) = seg_sz ph.
Proof.
  intros Hok. destruct (seg_bounds file ph Hok) as (_ & _ & ? & ? & ? & Hv & ?). destruct Hok as [[? ?] [? [? ?]] _ _].
  unfold exec_stack_top in *. unfold align_page_down, align_page_up, PAGE_SIZE. change 4096 with (2 ^ 12). rewrite align_down_spec by lia.
  split; [done|]. replace (ph_memsz ph + (ph_vaddr ph - seg_va ph)) with (ph_memsz ph + ph_vaddr ph mod 4096) by lia.
  rewrite u64_small, align_up_spec by lia. change (2 ^ 12) with 4096. unfold seg_sz.
  replace (ph_memsz ph + ph_vaddr ph mod 4096 + (4096 - 1)) with (ph_memsz ph + ph_vaddr ph mod 4096 + 4095) by lia.
  set (w := ph_memsz ph + _ + 4095). pose proof (Z.div_mod w 4096). lia.
Qed.

Lemma vtop_block va : ptov 0 < va < 2 ^ 64 -> vtop va = va - 0xffff000000000000 /\ 0 < vtop va.
Proof.
  change (ptov 0) with 0xffff000000000000. intros H. unfold vtop, CONFIG_KERNEL_ADDR_MASK. rewrite u64_small by lia. lia.
Qed.

Section Load.
Context `{KE : KernEnv} (k : kstate) (rd_size : Z) (r : ramdisk) (img : bytes) (inode : Z) (file : bytes).
Context (p root : Z) (x : proc).
Context (Hproc : ks_procs k !! p = Some x) (Hroot : p_pagetable x = root).
Context (Hrds : 0 < rd_size <= RAMDISK_SIZE).
Context (base : Z) (Hsize : ramdisk_file_size img inode = Ret (Z.of_nat (length file))) (Hbase : ramdisk_file_base img r inode = Ret base)
  (Hfile : has img base file) (Hlen : Z.of_nat (length file) < 2 ^ 31).

Lemma rd_read_run pg t m size off :
  mem_read m (ptov RAMDISK_BASE) rd_size = img -> 0 <= size -> 0 <= off -> off + size <= Z.of_nat (length file) ->
  rd_read rd_size (Some r) inode size off (with_mem k pg t m) = Ret ((take (Z.to_nat size) (drop (Z.to_nat off) file), size), with_mem k pg t m).
Proof using Hsize Hbase Hfile Hlen.
  clear - Hsize Hbase Hfile Hlen. intros Himg Hs Ho Hle. unfold rd_read, image, lift. cbn [with_mem set_mem ks_mem]. rewrite Himg.
  by rewrite (ramdisk_read_in img r inode file base).
Qed.

Definition loaded (t : tables) (m : mem) (bs : list (Z * Z)) (ph : proghdr) : Prop :=
  exists blk, (blk, seg_sz ph / 4096) ∈ bs /\ (forall j, 0 <= j < seg_sz ph -> pgtbl_walk t root (seg_va ph + j) = Ret (vtop blk + j)) /\
    holds m (blk + ph_vaddr ph mod 4096) (seg_data file ph).

(** Later steps keep the blocks, their bytes and the translations. *)
Definition later (t : tables) (m : mem) (bs : list (Z * Z)) (t' : tables) (m' : mem) (bs' : list (Z * Z)) : Prop :=
  (forall a y, pgtbl_walk t root a = Ret y -> pgtbl_walk t' root a = Ret y) /\ bs ⊆ bs' /\
  (forall b a, b ∈ bs -> b.1 <= a < b.1 + b.2 * 4096 -> m' !! a = m !! a).
Lemma later_refl t m bs : later t m bs t m bs.
Proof. done. Qed.
Lemma later_trans t1 m1 b1 t2 m2 b2 t3 m3 b3 : later t1 m1 b1 t2 m2 b2 -> later t2 m2 b2 t3 m3 b3 -> later t1 m1 b1 t3 m3 b3.
Proof.
  intros (W1 & B1 & M1) (W2 & B2 & M2). split; [auto|]. split; [by transitivity b2|]. intros b a Hb Ha.
  rewrite (M2 b a); [by apply (M1 b a)|by apply B1|done].
Qed.
Lemma loaded_later t m bs t' m' bs' ph : seg_ok file ph -> later t m bs t' m' bs' -> loaded t m bs ph -> loaded t' m' bs' ph.
Proof.
  intros Hok (W & B & M) (blk & Hb & Hw & Hh). destruct (seg_bounds file ph Hok) as (_ & Hs12 & _ & _ & ? & _ & ?). destruct Hok as [_ [? _] _ _].
  exists blk. split; [by apply B|]. split; [intros j Hj; by apply W, Hw|]. intros i b Hi. rewrite <- (Hh i b Hi).
  pose proof (lookup_lt_Some _ _ _ Hi) as Hl. unfold seg_data in Hl. rewrite length_take in Hl. pose proof (Z.div_mod (seg_sz ph) 4096).
  apply (M _ _ Hb). cbn [fst snd]. lia.
Qed.

(** One segment: a block, its mapping and its bytes. *)
Lemma seg_step fr pg t m bs n ph :
  ld root fr pg t bs n -> mem_read m (ptov RAMDISK_BASE) rd_size = img -> seg_ok file ph -> (forall a, seg_va ph <= a < seg_va ph + seg_sz ph -> fr a) ->
  seg_sz ph / 4096 + (seg_sz ph / 2 ^ 21 + 4) <= n ->
  exists va pg1 pg' t' a, page_allocn (seg_sz ph / 4096) pg = Ret (va, pg1) /\
    pagetable_map root (seg_va ph) (vtop va) (seg_sz ph) VM_RWX (pg1, t) = Ret (0, (pg', t')) /\
    pgtbl_walk t' root (ph_vaddr ph) = Ret a /\
    let m' := mem_write m (ptov a) (seg_data file ph) in let bs' := (va, seg_sz ph / 4096) :: bs in
    kwrite (ptov a) (seg_data file ph) (with_mem k pg' t' m) = with_mem k pg' t' m' /\
    ld root (fun a => fr a /\ (a < seg_va ph \/ seg_va ph + seg_sz ph <= a)) pg' t' bs' (n - (seg_sz ph / 4096 + (seg_sz ph / 2 ^ 21 + 4))) /\
    mem_read m' (ptov RAMDISK_BASE) rd_size = img /\ later t m bs t' m' bs' /\ loaded t' m' bs' ph.
Proof using All.
  intros Hld Himg Hok Hfr Hn. destruct (seg_bounds file ph Hok) as (Hv12 & Hs12 & Hva & Hs0 & Hfit & Hvd & Hoff). pose proof Hok as [[? ?] [? [? ?]] [? ?] Hg].
  unfold exec_stack_top in *. pose proof (Z.div_mod (seg_sz ph) 4096). assert (0 <= seg_sz ph / 2 ^ 21) by (apply Z.div_pos; lia).
  destruct (ld_alloc root fr pg t bs n (seg_sz ph / 4096) Hld) as (va & pg1 & Ha & Hld1 & Hm & Hlo & Hlim & Hap); [lia|lia|].
  change (ptov RAMDISK_BASE) with (RAMDISK_BASE + 0xffff000000000000) in *. unfold RAMDISK_BASE, RAMDISK_SIZE in *.
  destruct (vtop_block va ltac:(lia)) as [Hvt Hvt0]. change (ptov 0) with 0xffff000000000000 in Hlo.
  destruct (ld_map root fr pg1 t ((va, seg_sz ph / 4096) :: bs) (n - seg_sz ph / 4096) (seg_va ph) (vtop va) (seg_sz ph) VM_RWX Hld1 Hg)
    as (pg' & t' & Hmap & Hld' & Hw & Hwk); [lia|lia|done|lia|done|lia|lia| |done|done|done|lia|].
  { rewrite Hvt. replace (va - 0xffff000000000000) with (va + (- 0xffff000000000) * 4096) by lia. by rewrite Z_mod_plus_full. }
  exists va, pg1, pg', t', (vtop va + ph_vaddr ph mod 4096). split; [done|]. split; [done|].
  split; [rewrite Hvd at 1; apply Hw; lia|]. rewrite ptov_small by lia. replace (vtop va + ph_vaddr ph mod 4096 + 0xffff000000000000) with (va + ph_vaddr ph mod 4096) by lia.
  assert (Z.of_nat (length (seg_data file ph)) <= ph_filesz ph) as Hdl by (unfold seg_data; rewrite length_take; lia).
  pose proof (ld_blk _ _ _ _ _ _ Hld') as Hb. apply Forall_cons in Hb as [[Hbl _ Hnt] _]. cbn [fst snd] in *.
  split_and!.
  - apply kwrite_mem; [lia|lia| |intros y Hy; by apply (ld_aligned _ _ _ _ _ _ y Hld')]. intros y Hy. destruct (Hnt y Hy); lia.
  - by replace (n - (seg_sz ph / 4096 + (seg_sz ph / 2 ^ 21 + 4))) with (n - seg_sz ph / 4096 - (seg_sz ph / 2 ^ 21 + 4)) by lia.
  - rewrite mem_read_write; [done|lia|lia|lia|lia|left; lia].
  - split; [done|]. split; [set_solver|]. intros b a Hb Ha'. apply mem_write_other; [lia|lia|].
    rewrite Forall_forall in Hap. destruct (Hap b Hb) as [Hd|Hd]; cbn [fst snd] in Hd; lia.
  - exists va. split; [left|]. split; [done|]. apply holds_written; lia.
Qed.

(** The headers of the file from [off] on. *)
Definition headers (off : Z) (phs : list proghdr) : Prop :=
  0 <= off /\ off + 56 * Z.of_nat (length phs) <= Z.of_nat (length file) /\
  forall i ph, phs !! i = Some ph -> proghdr_of (take 56 (drop (Z.to_nat (off + 56 * Z.of_nat i)) file)) = ph.
Lemma headers_cons off ph phs : headers off (ph :: phs) -> proghdr_of (take 56 (drop (Z.to_nat off) file)) = ph /\ headers (off + 56) phs.
Proof.
  intros (Ho & Hl & Hh). cbn [length] in Hl. split; [rewrite <- (Hh 0%nat ph eq_refl); do 3 f_equal; lia|]. split; [lia|]. split; [lia|].
  intros i q Hi. rewrite <- (Hh (S i) q Hi). do 3 f_equal. lia.
Qed.

Lemma segs_need_cons ph phs : segs_need (ph :: phs) = seg_need ph + segs_need phs.
Proof. done. Qed.
Lemma segs_need_nonneg phs : Forall (fun ph => loadable ph -> seg_ok file ph) phs -> 0 <= segs_need phs.
Proof.
  induction 1 as [|ph phs Hok _ IH]; [done|]. rewrite segs_need_cons. unfold seg_need. destruct (decide _) as [Hl|]; [|lia].
  destruct (seg_bounds file ph (Hok Hl)) as (_ & _ & _ & ? & _).
  assert (0 <= seg_sz ph / 4096) by (apply Z.div_pos; lia). assert (0 <= seg_sz ph / 2 ^ 21) by (apply Z.div_pos; lia). lia.
Qed.

Lemma load_loop_spec phs off fr pg t m bs n :
  ld root fr pg t bs n -> mem_read m (ptov RAMDISK_BASE) rd_size = img -> headers off phs ->
  Forall (fun ph => loadable ph -> seg_ok file ph) phs -> segs_apart phs ->
  (forall ph a, ph ∈ phs -> loadable ph -> seg_va ph <= a < seg_va ph + seg_sz ph -> fr a) -> segs_need phs <= n ->
  exists fr' pg' t' m' bs', load_loop rd_size (Some r) (length phs) p inode off (with_mem k pg t m) = Ret (true, with_mem k pg' t' m') /\
    ld root fr' pg' t' bs' (n - segs_need phs) /\ mem_read m' (ptov RAMDISK_BASE) rd_size = img /\
    (forall a, exec_stack_top - 8192 <= a -> fr a -> fr' a) /\ later t m bs t' m' bs' /\
    Forall (fun ph => loadable ph -> loaded t' m' bs' ph) phs.
Proof using All.
  revert off fr pg t m bs n. induction phs as [|ph phs IH]; intros off fr pg t m bs n Hld Himg Hh Hok Hap Hfr Hn.
  { exists fr, pg, t, m, bs. split; [done|]. rewrite Z.sub_0_r. split_and!; [done..|apply later_refl|constructor]. }
  pose proof Hh as (Ho & Hl & _). cbn [length] in Hl. apply headers_cons in Hh as [Hph Hh]. apply Forall_cons in Hok as [Hok0 Hok].
  destruct Hap as [Hap0 Hap]. rewrite segs_need_cons in *. pose proof (segs_need_nonneg phs Hok) as Hnn.
  cbn [length load_loop]. unfold sizeof_proghdr. rewrite u64_small by lia.
  erewrite M_bind_run by (apply rd_read_run; [exact Himg|lia|lia|lia]). cbn beta iota.
  change (u64 56) with 56. rewrite Z.eqb_refl. cbn [negb]. change (Z.to_nat 56) with 56%nat. rewrite Hph.
  rewrite s32_small by lia. unfold seg_need in *. destruct (decide (loadable ph)) as [Hload|Hno].
  2:{ rewrite (proj2 (Z.eqb_neq _ _) Hno). cbn [negb]. destruct (IH (off + 56) fr pg t m bs n) as (fr' & pg' & t' & m' & bs' & Hr & Hld' & Him & Hf & Hla & Hlo); try done.
      { intros q a Hq. apply Hfr. by right. }
      exists fr', pg', t', m', bs'. rewrite Z.add_0_l. split_and!; [done..|]. constructor; [by intros|done]. }
  specialize (Hok0 Hload). specialize (Hap0 Hload). rewrite Hload. cbn [Z.eqb ELF_PROG_LOAD Pos.eqb negb].
  destruct (seg_bounds file ph Hok0) as (Hv12 & Hs12 & Hva & Hs0 & Hfit & Hvd & Hoff). destruct (seg_align file ph Hok0) as [Hdown Hup].
  pose proof Hok0 as [[? Htop] [? [? ?]] [? ?] Hg]. unfold exec_stack_top in *. pose proof (Z.div_mod (seg_sz ph) 4096).
  rewrite (proj2 (Z.ltb_ge (ph_memsz ph) _)), (u64_small (ph_vaddr ph + ph_memsz ph)), (proj2 (Z.ltb_ge (ph_vaddr ph + ph_memsz ph) _)), Hdown, Hup by lia.
  destruct (seg_step fr pg t m bs n ph Hld Himg Hok0) as (va & pg1 & pg2 & t2 & a & Ha & Hmap & Hw & Hkw & Hld2 & Him2 & Hla2 & Hlo2); [intros a; apply Hfr; [by left|done]|lia|].
  erewrite M_bind_run by (apply kalloc_pages_run; [lia|done|lia|exact Ha]).
  erewrite M_bind_run by (apply get_proc_run; exact Hproc). rewrite Hroot.
  erewrite M_bind_run by (apply map_run; exact Hmap). cbn [Z.ltb Z.compare].
  erewrite M_bind_run by (apply walk_run; exact Hw). erewrite M_bind_run by (apply rd_read_run; [exact Himg|lia|lia|lia]). cbn beta iota.
  fold (seg_data file ph). erewrite M_bind_run by (unfold memcpy_to, modify; rewrite Hkw; reflexivity). rewrite (proj2 (Z.ltb_ge _ 0)) by lia.
  destruct (IH (off + 56) _ pg2 t2 _ _ _ Hld2 Him2 Hh Hok Hap) as (fr' & pg' & t' & m' & bs' & Hr & Hld' & Him & Hf & Hla & Hlo); [|lia|].
  { intros q b Hq Hlq Hb. split; [by apply (Hfr q); [right|..]|]. rewrite Forall_forall in Hap0. destruct (Hap0 q Hq Hlq); lia. }
  exists fr', pg', t', m', bs'. split; [exact Hr|]. split; [|split; [done|split; [|split]]].
  - replace (n - _) with (n - (seg_sz ph / 4096 + (seg_sz ph / 2 ^ 21 + 4)) - segs_need phs) by lia. exact Hld'.
  - intros b Hb Hfb. apply Hf; [done|]. split; [done|right; lia].
  - by eapply later_trans.
  - constructor; [|done]. intros _. eapply loaded_later; [done|exact Hla|exact Hlo2].
Qed.
End Load.

(** ** The user's view *)

Lemma user_reads t root m va pa size off bs :
  (forall j, 0 <= j < size -> pgtbl_walk t root (va + j) = Ret (pa + j)) -> 0 <= va -> va + size < 2 ^ 47 -> 0 <= pa -> pa + size <= 2 ^ 36 ->
  0 <= off -> off + Z.of_nat (length bs) <= size -> size < 2 ^ 31 -> holds m (ptov pa + off) bs ->
  copy_from_user t root m (va + off) (Z.of_nat (length bs)) = Ret (bs, Z.of_nat (length bs)).
Proof.
  intros Hw Hva Hva' Hpa Hpa' Ho Hl Hs Hh. unfold copy_from_user.
  rewrite (copy_from_user_spec _ m (va + off) (Z.of_nat (length bs)) (fun j => pa + off + j)); [|split|lia|lia|lia].
  - do 2 f_equal. apply list_eq. intros i. rewrite list_lookup_fmap. destruct (decide (i < length bs)%nat) as [Hi|Hi].
    + rewrite lookup_seqZ_lt by lia. cbn [fmap option_fmap option_map]. destruct (lookup_lt_is_Some_2 bs i Hi) as [b Hb]. rewrite Hb.
      rewrite ptov_small in Hh |- * by lia. specialize (Hh i b Hb). replace (pa + off + (0 + Z.of_nat i) + 0xffff000000000000) with (pa + 0xffff000000000000 + off + Z.of_nat i) by lia. by rewrite Hh.
    + rewrite lookup_seqZ_ge by lia. symmetry. apply lookup_ge_None. lia.
  - intros j Hj. replace (va + off + j) with (va + (off + j)) by lia. rewrite Hw by lia. split; [f_equal; lia|lia].
  - intros j _ _ _. lia.
Qed.

(** ** The stack *)

Lemma mem_write_insert m a bs o y :
  0 <= a -> a + Z.of_nat (length bs) <= 2 ^ 64 -> o < a \/ a + Z.of_nat (length bs) <= o -> mem_write (<[o := y]> m) a bs = <[o := y]> (mem_write m a bs).
Proof.
  intros Ha Hl Ho. apply map_eq. intros z. destruct (decide (z = o)) as [->|Hne].
  - rewrite lookup_insert_eq. rewrite mem_write_other by done. apply lookup_insert_eq.
  - rewrite lookup_insert_ne by done. destruct (decide (z < a \/ a + Z.of_nat (length bs) <= z)) as [Hz|Hz].
    + rewrite !mem_write_other by done. by apply lookup_insert_ne.
    + destruct (lookup_lt_is_Some_2 bs (Z.to_nat (z - a))) as [b Hb]; [lia|]. replace z with (a + Z.of_nat (Z.to_nat (z - a))) by lia.
      by rewrite !(fun m => proj1 (mem_write_spec m a bs Ha Hl) _ b Hb).
Qed.

Lemma kwrite_app a xs ys k : kwrite a (xs ++ ys) k = kwrite (a + Z.of_nat (length xs)) ys (kwrite a xs k).
Proof.
  revert a k. induction xs as [|b xs IH]; intros a k; cbn [app kwrite length]; [by rewrite Z.add_0_r|]. rewrite IH. f_equal. lia.
Qed.

(** Writing elsewhere than the byte at [o]. *)
Lemma kwrite_stray k pg t m a bs o y :
  0 <= a -> a + Z.of_nat (length bs) <= 2 ^ 64 -> 0 <= o < 2 ^ 64 -> o < a \/ a + Z.of_nat (length bs) <= o ->
  no_table t a (Z.of_nat (length bs)) -> (forall x, is_Some (t !! x) -> x mod 4096 = 0) ->
  kwrite a bs (put_byte o y (with_mem k pg t m)) = put_byte o y (with_mem k pg t (mem_write m a bs)).
Proof.
  intros Ha Hl Ho Hd Hn Hal. unfold put_byte. rewrite u64_small by lia. cbn [with_mem set_mem set_tables set_slab_ ks_tables ks_mem].
  destruct (t !! (o - o mod PAGE_SIZE)) as [es|] eqn:E.
  - set (t' := <[_ := _]> t). assert (forall x, is_Some (t' !! x) -> is_Some (t !! x)) as Hk.
    { intros x Hx. destruct (decide (x = o - o mod PAGE_SIZE)) as [->|]; [by rewrite E|]. unfold t' in Hx. by rewrite lookup_insert_ne in Hx. }
    apply (kwrite_mem k pg t' m a bs Ha Hl); [intros x Hx; apply Hn; auto|auto].
  - etransitivity; [apply (kwrite_mem k pg t (<[o := y]> m) a bs Ha Hl Hn Hal)|]. by rewrite mem_write_insert.
Qed.

Definition aux (type value : Z) : bytes := le_enc 8 type ++ le_enc 8 value.
(** What the C runtime of the new process finds at its stack pointer. *)
Definition stack_image (argp : Z) : bytes :=
  le_enc 8 1 ++ (le_enc 8 argp ++ le_enc 8 0) ++ le_enc 8 0 ++
  aux AT_RAMDISK_END SYS_PROC_RAMDISK_END ++ aux AT_RAMDISK_BASE SYS_PROC_RAMDISK_BASE ++ aux AT_HEAP_END SYS_PROC_HEAP_END ++
  aux AT_HEAP_BASE SYS_PROC_HEAP_BASE ++ aux AT_HWCAP 0 ++ aux AT_PAGESZ PAGE_SIZE ++ aux AT_NULL 0.
Lemma stack_image_length argp : length (stack_image argp) = 144%nat.
Proof. reflexivity. Qed.

Section Stack.
Context `{KE : KernEnv} (k : kstate) (pg : page_state) (t : tables) (sva o y va1 : Z) (m0 : mem) (str : bytes).
Context (Hsva : 2 ^ 20 <= sva) (Hsva' : sva + 8192 < 2 ^ 64) (Hnt : no_table t sva 8192) (Hal : forall x, is_Some (t !! x) -> x mod 4096 = 0)
  (Ho : o = sva + 8192).
Abbreviation St m := (put_byte o y (with_mem k pg t m)).

(** [bs] is on the stack from [va] on, the string is at [va1], and the
    memory outside the stack is that of [m0]. *)
Record stk (m : mem) (va : Z) (bs : bytes) : Prop := {
  sk_holds : holds m va bs;
  sk_str : holds m va1 str;
  sk_va : sva <= va <= va1 /\ va1 + Z.of_nat (length str) <= o;
  sk_out : forall z, z < sva \/ sva + 8192 <= z -> m !! z = m0 !! z }.

Lemma push_run m va bs xs :
  stk m va bs -> sva + Z.of_nat (length xs) <= va ->
  exists m', memcpy_to (u64 (va - Z.of_nat (length xs))) xs (St m) = Ret (tt, St m') /\ stk m' (va - Z.of_nat (length xs)) (xs ++ bs).
Proof using All.
  intros [Hh Hs Hv Hout] Hroom. exists (mem_write m (va - Z.of_nat (length xs)) xs). rewrite u64_small by lia. split.
  - unfold memcpy_to, modify. rewrite kwrite_stray; [done|lia|lia|lia|lia| |done]. intros x Hx. destruct (Hnt x Hx); lia.
  - split; [apply holds_push; [lia|lia|done]|apply holds_write_other; [lia|lia|right; lia|done]|lia|].
    intros z Hz. rewrite mem_write_other by lia. by apply Hout.
Qed.

Lemma aux_run m va bs type value :
  stk m va bs -> sva + 16 <= va ->
  exists m', NEW_AUX_ENT va type value (St m) = Ret (va - 16, St m') /\ stk m' (va - 16) (aux type value ++ bs).
Proof using All.
  intros [Hh Hs Hv Hout] Hroom. unfold NEW_AUX_ENT. rewrite (u64_small (va - 16)), (u64_small (va - 16 + 8)) by lia.
  pose proof (le_enc_length 8 type) as L1. pose proof (le_enc_length 8 value) as L2.
  set (m1 := mem_write m (va - 16) (le_enc 8 type)). exists (mem_write m1 (va - 16 + 8) (le_enc 8 value)).
  assert (forall a n, sva <= a -> a + n <= sva + 8192 -> no_table t a n) as Hnt'.
  { intros a n H1 H2 x Hx. destruct (Hnt x Hx); lia. }
  split.
  - erewrite M_bind_run; [|unfold memcpy_to, modify; rewrite kwrite_stray; [reflexivity|lia..|apply Hnt'; lia|done]].
    erewrite M_bind_run; [|unfold memcpy_to, modify; rewrite kwrite_stray; [reflexivity|lia..|apply Hnt'; lia|done]]. done.
  - split.
    + unfold aux. rewrite <- app_assoc. apply holds_app; [apply holds_write_other; [lia|lia|left; lia|apply holds_written; lia]|]. rewrite L1.
      apply holds_app; [apply holds_written; lia|]. rewrite L2. replace (va - 16 + Z.of_nat 8 + Z.of_nat 8) with va by lia.
      apply holds_write_other; [lia|lia|right; lia|]. apply holds_write_other; [lia|lia|right; lia|done].
    + apply holds_write_other; [lia|lia|right; lia|]. apply holds_write_other; [lia|lia|right; lia|done].
    + lia.
    + intros z Hz. rewrite mem_write_other by lia. unfold m1.
      rewrite mem_write_other by lia. by apply Hout.
Qed.
End Stack.

Lemma c_str_run s l : Forall (fun b => b <> 0) s -> c_str (s ++ 0 :: l) = Ret s.
Proof.
  induction 1 as [|b s Hb _ IH]; [done|]. cbn [app c_str]. rewrite (proj2 (Z.eqb_neq _ _) Hb), IH. done.
Qed.
Lemma rd_bytes_prefix xs ys : rd_bytes (xs ++ ys) 0 (length xs) = Ret xs.
Proof. apply rd_bytes_has. split; [done|]. intros j b Hj. by apply lookup_app_l_Some. Qed.

Section Start.
Context `{KE : KernEnv} (k : kstate) (pg : page_state) (t : tables) (sva y p root entry : Z) (x : proc) (s rest : bytes).
Context (Hsva : 2 ^ 20 <= sva) (Hsva' : sva + 8192 < 2 ^ 64) (Hnt : no_table t sva 8192) (Hal : forall a, is_Some (t !! a) -> a mod 4096 = 0)
  (Hm12 : sva mod 4096 = 0) (Hkp : ptov 0 < sva)
  (Hproc : ks_procs k !! p = Some x) (Hroot : p_pagetable x = root) (Hw : pgtbl_walk t root (exec_stack_top - 8192) = Ret (vtop sva))
  (Hs : Forall (fun b => b <> 0) s) (Hlen : (length s <= 4000)%nat).

(** The address of the argument and the stack pointer. *)
Definition arg_ptr : Z := exec_stack_top - (Z.of_nat (length s) + 1).
Definition user_sp : Z := arg_ptr - arg_ptr mod 8 - 144.
Abbreviation o := (sva + 8192).
Abbreviation va1 := (sva + 8192 - (Z.of_nat (length s) + 1)).
Abbreviation va2 := (va1 - va1 mod 8).

Lemma va1_mod : va1 mod 8 = arg_ptr mod 8.
Proof using Hm12.
  clear - Hm12. unfold arg_ptr, exec_stack_top. replace va1 with (0xF0002000 - (Z.of_nat (length s) + 1) + (sva + 8192 - 0xF0002000)) by lia.
  apply Z.mod_divide in Hm12 as [q ->]; [|lia]. replace (q * 4096 + 8192 - 0xF0002000) with ((q * 512 + 1024 - 503317504) * 8) by lia. apply Z_mod_plus_full.
Qed.

Lemma start_run m :
  exists m', start_proc p entry [s ++ 0 :: y :: rest] (with_mem k pg t m) =
      (proc_set_context p entry user_sp;; proc_ready p;; mret 0) (put_byte o y (with_mem k pg t m')) /\
    stk sva o va1 m (s ++ [0]) m' (va2 - 144) (stack_image arg_ptr).
Proof using All.
  pose proof (vtop_block sva ltac:(lia)) as [Hvt Hvt0]. change (ptov 0) with 0xffff000000000000 in Hkp.
  pose proof (Z.mod_pos_bound va1 8) as Hm8. pose proof va1_mod as Hmod.
  unfold start_proc. erewrite M_bind_run by (apply get_proc_run; exact Hproc). rewrite Hroot.
  change (exec_stack_top - 2 * PAGE_SIZE) with (exec_stack_top - 8192). erewrite M_bind_run by (apply walk_run; exact Hw).
  assert (ptov (u64 (vtop sva + 2 * PAGE_SIZE)) = o) as ->.
  { unfold PAGE_SIZE. rewrite u64_small by lia. unfold ptov, CONFIG_KERNEL_ADDR_MASK. rewrite u64_small by lia. lia. }
  set (m1 := mem_write m va1 (s ++ [0])). assert (stk sva o va1 m (s ++ [0]) m1 va2 []) as Hstk.
  { split; [intros i b Hi; done|apply holds_written; rewrite ?length_app; cbn [length]; lia|rewrite length_app; cbn [length]; lia|].
    intros z Hz. apply mem_write_other; rewrite ?length_app; cbn [length]; lia. }
  set (argvp := <[1%nat := 0]> (<[0%nat := arg_ptr]> (replicate 33 0))).
  assert (put_args [s ++ 0 :: y :: rest] 0 (replicate (Z.to_nat (MAXARG + 1)) 0) exec_stack_top o o (with_mem k pg t m)
    = Ret ((va1, argvp, 1), put_byte o y (with_mem k pg t m1))) as Hput.
  { cbn [put_args]. erewrite M_bind_run by (unfold lift; rewrite c_str_run by done; reflexivity). rewrite (u64_small va1) by lia.
    replace (Z.to_nat (Z.of_nat (length s) + 1 + 1)) with (length (s ++ [0; y])) by (rewrite length_app; cbn [length]; lia).
    erewrite M_bind_run by (unfold lift; replace (s ++ 0 :: y :: rest) with ((s ++ [0; y]) ++ rest) by (by rewrite <- app_assoc); rewrite rd_bytes_prefix; reflexivity).
    erewrite M_bind_run; [|unfold memcpy_to, modify; replace (s ++ [0; y]) with ((s ++ [0]) ++ [y]) by (by rewrite <- app_assoc); rewrite kwrite_app, kwrite_mem; [reflexivity|lia| | |done]].
    2:{ rewrite length_app; cbn [length]; lia. }
    2:{ intros a Ha. rewrite length_app; cbn [length]. destruct (Hnt a Ha); lia. }
    cbn [kwrite]. rewrite length_app. cbn [length]. replace (va1 + Z.of_nat (length s + 1)) with o by lia.
    change (Z.to_nat (MAXARG + 1)) with 33%nat. replace (u64 (exec_stack_top - (o - va1))) with arg_ptr by (unfold arg_ptr, exec_stack_top; rewrite u64_small by lia; lia).
    erewrite M_bind_run by (unfold lift; rewrite wr_in by (cbn; lia); reflexivity). cbn [put_args]. change (0 + 1) with 1.
    erewrite M_bind_run by (unfold lift; rewrite wr_in by (rewrite length_insert, length_replicate; lia); reflexivity). done. }
  erewrite M_bind_run by exact Hput. cbn beta iota.
  assert (align_down va1 8 = va2) as -> by (change 8 with (2 ^ 3); rewrite align_down_spec by lia; reflexivity).
  pose proof (le_enc_length 8) as L.
  destruct (aux_run k pg t sva o y va1 m (s ++ [0]) Hsva Hsva' Hnt Hal eq_refl m1 va2 [] AT_NULL 0 Hstk) as (m2 & R2 & S2); [lia|].
  destruct (aux_run k pg t sva o y va1 m (s ++ [0]) Hsva Hsva' Hnt Hal eq_refl m2 _ _ AT_PAGESZ PAGE_SIZE S2) as (m3 & R3 & S3); [lia|].
  destruct (aux_run k pg t sva o y va1 m (s ++ [0]) Hsva Hsva' Hnt Hal eq_refl m3 _ _ AT_HWCAP 0 S3) as (m4 & R4 & S4); [lia|].
  destruct (aux_run k pg t sva o y va1 m (s ++ [0]) Hsva Hsva' Hnt Hal eq_refl m4 _ _ AT_HEAP_BASE SYS_PROC_HEAP_BASE S4) as (m5 & R5 & S5); [lia|].
  destruct (aux_run k pg t sva o y va1 m (s ++ [0]) Hsva Hsva' Hnt Hal eq_refl m5 _ _ AT_HEAP_END SYS_PROC_HEAP_END S5) as (m6 & R6 & S6); [lia|].
  destruct (aux_run k pg t sva o y va1 m (s ++ [0]) Hsva Hsva' Hnt Hal eq_refl m6 _ _ AT_RAMDISK_BASE SYS_PROC_RAMDISK_BASE S6) as (m7 & R7 & S7); [lia|].
  destruct (aux_run k pg t sva o y va1 m (s ++ [0]) Hsva Hsva' Hnt Hal eq_refl m7 _ _ AT_RAMDISK_END SYS_PROC_RAMDISK_END S7) as (m8 & R8 & S8); [lia|].
  destruct (push_run k pg t sva o y va1 m (s ++ [0]) Hsva Hsva' Hnt Hal eq_refl m8 _ _ (le_enc 8 0) S8) as (m9 & R9 & S9); [rewrite L; lia|].
  destruct (push_run k pg t sva o y va1 m (s ++ [0]) Hsva Hsva' Hnt Hal eq_refl m9 _ _ (le_enc 8 arg_ptr ++ le_enc 8 0) S9) as (m10 & R10 & S10); [rewrite length_app, !L; lia|].
  destruct (push_run k pg t sva o y va1 m (s ++ [0]) Hsva Hsva' Hnt Hal eq_refl m10 _ _ (le_enc 8 1) S10) as (m11 & R11 & S11); [rewrite length_app, !L; lia|].
  rewrite length_app, !L in *. exists m11. split.
  - assert (setup_auxv va2 (put_byte o y (with_mem k pg t m1)) = Ret (va2 - 16 - 16 - 16 - 16 - 16 - 16 - 16, put_byte o y (with_mem k pg t m8))) as Haux.
    { unfold setup_auxv. erewrite M_bind_run by exact R2. erewrite M_bind_run by exact R3. erewrite M_bind_run by exact R4.
      erewrite M_bind_run by exact R5. erewrite M_bind_run by exact R6. erewrite M_bind_run by exact R7. exact R8. }
    erewrite M_bind_run by exact Haux.
    erewrite M_bind_run; [|unfold setup_envp; erewrite M_bind_run by exact R9; reflexivity]. rewrite (u64_small (_ - 8)) by lia.
    erewrite M_bind_run.
    2:{ unfold setup_argv. erewrite M_bind_run by reflexivity.
        replace (concat (le_enc 8 <$> take (Z.to_nat (1 + 1)) argvp)) with (le_enc 8 arg_ptr ++ le_enc 8 0) by (unfold argvp; cbn [replicate Nat.add]; reflexivity).
        change ((1 + 1) * 8) with (Z.of_nat (8 + 8)). erewrite M_bind_run by exact R10. rewrite (u64_small (_ - Z.of_nat (8 + 8))) by lia.
        erewrite M_bind_run by exact R11. reflexivity. }
    match goal with |- context [u64 (exec_stack_top - ?z)] => replace (u64 (exec_stack_top - z)) with user_sp; [done|] end.
    rewrite (u64_small (_ - 8)) by lia. rewrite u64_small by (unfold exec_stack_top; lia). unfold user_sp. rewrite <- Hmod. unfold arg_ptr. lia.
  - unfold stack_image. rewrite !app_nil_r in S11.
    replace (va2 - 144) with (va2 - 16 - 16 - 16 - 16 - 16 - 16 - 16 - Z.of_nat 8 - Z.of_nat (8 + 8) - Z.of_nat 8) by lia. exact S11.
Qed.
End Start.

(** ** Properties *)

(** The file [path] of the ram disk. *)
Record on_ramdisk (img : bytes) (r : ramdisk) (path file : bytes) (inode : Z) : Prop := {
  or_open : ramdisk_open img (Some r) path = Ret (inr inode);
  or_size : ramdisk_file_size img inode = Ret (Z.of_nat (length file)) /\ Z.of_nat (length file) < 2 ^ 31;
  or_data : exists base, ramdisk_file_base img r inode = Ret base /\ has img base file }.

(** An ELF file with headers [phs] whose segments can be loaded. *)
Record elf_ok (file : bytes) (entry : Z) (phs : list proghdr) : Prop := {
  eo_hdr : exists phoff, elfhdr_of (take 64 file) = mkElf ELF_MAGIC entry phoff (Z.of_nat (length phs)) /\ phoff < 2 ^ 31 /\ headers file phoff phs;
  eo_len : 64 <= Z.of_nat (length file);
  eo_segs : Forall (fun ph => loadable ph -> seg_ok file ph) phs;
  eo_apart : segs_apart phs }.

(** The current process [p] has an empty address space and can be made ready;
    [n] pages in a row are free below the ram disk. *)
Record can_exec `{KE : KernEnv} (k : kstate) (p : Z) (x : proc) (e : econtext) (rq : Z -> list Z) (n : Z) : Prop := {
  cx_cpu : exists c, ks_cpus k !! 0%nat = Some c /\ c_proc c = p;
  cx_proc : ks_procs k !! p = Some x;
  cx_ectx : ks_ectx k !! proc_ectx x = Some e;
  cx_queue : ready_inv k rq;
  cx_enter : can_enter k rq p (p_prio x);
  cx_pt : exists lv, pt_state (p_pagetable x) (ss_pages (ks_slab k)) (ks_tables k) lv;
  cx_free : forall va, 0 <= va < 2 ^ 48 -> free_at 3 (ks_tables k) (p_pagetable x) va;
  cx_room : page_room (ss_pages (ks_slab k)) n lim }.

(** Pages [exec] takes besides the segments: the stack, the heap and the
    tables of the three regions. *)
Definition exec_pages : Z := 286.

Lemma map_or_free_run `{KE : KernEnv} k pg t m p x base pa size pg' t' :
  ks_procs k !! p = Some x -> pagetable_map (p_pagetable x) base pa size VM_RW (pg, t) = Ret (0, (pg', t')) ->
  map_or_free p base pa size (with_mem k pg t m) = Ret (true, with_mem k pg' t' m).
Proof.
  intros Hp Hm. unfold map_or_free. erewrite M_bind_run by (apply get_proc_run; exact Hp). erewrite M_bind_run by (apply map_run; exact Hm). done.
Qed.

(** A new block mapped at [base]. *)
Lemma region_step root fr pg t bs n base size :
  ld root fr pg t bs n -> in_1g base size -> 0 <= base -> base + size <= 2 ^ 48 -> base mod 4096 = 0 ->
  0 < size <= 2 ^ 21 -> size mod 4096 = 0 -> (forall a, base <= a < base + size -> fr a) -> size / 4096 + (size / 2 ^ 21 + 4) <= n ->
  exists va pg1 pg' t', page_allocn (size / 4096) pg = Ret (va, pg1) /\ pagetable_map root base (vtop va) size VM_RW (pg1, t) = Ret (0, (pg', t')) /\
    ld root (fun a => fr a /\ (a < base \/ base + size <= a)) pg' t' ((va, size / 4096) :: bs) (n - (size / 4096 + (size / 2 ^ 21 + 4))) /\
    (forall j, 0 <= j < size -> pgtbl_walk t' root (base + j) = Ret (vtop va + j)) /\
    (forall a y, pgtbl_walk t root a = Ret y -> pgtbl_walk t' root a = Ret y) /\
    va mod 4096 = 0 /\ ptov 0 < va /\ va + size < 2 ^ 64 /\ vtop va + size <= 2 ^ 36 /\ Forall (apart (va, size / 4096)) bs.
Proof.
  intros Hld Hg Hb0 Hb Hb12 Hs Hs12 Hfr Hn. pose proof (Z.div_mod size 4096). assert (0 <= size / 2 ^ 21) by (apply Z.div_pos; lia).
  destruct (ld_alloc root fr pg t bs n (size / 4096) Hld) as (va & pg1 & Ha & Hld1 & Hm & Hlo & Hlim & Hap); [lia|lia|].
  change lim with 0xffff000044000000 in Hlim. destruct (vtop_block va ltac:(lia)) as [Hvt Hvt0]. pose proof Hlo. change (ptov 0) with 0xffff000000000000 in Hlo.
  destruct (ld_map root fr pg1 t ((va, size / 4096) :: bs) (n - size / 4096) base (vtop va) size VM_RW Hld1 Hg)
    as (pg' & t' & Hmap & Hld' & Hw & Hwk); [lia|lia|done|lia|done|lia|lia| |done|done|done|lia|].
  { rewrite Hvt. replace (va - 0xffff000000000000) with (va + (- 0xffff000000000) * 4096) by lia. by rewrite Z_mod_plus_full. }
  exists va, pg1, pg', t'. split_and!; [done|done| |done|done|done|done|lia|lia|done].
  by replace (n - (size / 4096 + (size / 2 ^ 21 + 4))) with (n - size / 4096 - (size / 2 ^ 21 + 4)) by lia.
Qed.

Section Whole.
Context `{KE : KernEnv} (k : kstate) (rd_size : Z) (r : ramdisk) (path file : bytes) (inode p : Z) (x : proc) (e : econtext) (rq : Z -> list Z).
Context (entry : Z) (phs : list proghdr).
Context (Hrd : on_ramdisk (image rd_size k) r path file inode) (Hrds : 0 < rd_size <= RAMDISK_SIZE) (Helf : elf_ok file entry phs)
  (Hcx : can_exec k p x e rq (segs_need phs + exec_pages)).
Abbreviation root := (p_pagetable x).

(** Everything up to the stack: the segments and the three regions. *)
Lemma exec_maps a argv :
  exists pg t m bs sva hva, exec rd_size (Some r) path (Some (a :: argv)) k = start_proc p entry (a :: argv) (with_mem (intr_on k) pg t m) /\
    ld root (fun _ => False) pg t ((sva, 2) :: bs) 0 /\ Forall (apart (sva, 2)) bs /\ Forall (fun ph => loadable ph -> loaded file root t m bs ph) phs /\
    (forall j, 0 <= j < 8192 -> pgtbl_walk t root (exec_stack_top - 8192 + j) = Ret (vtop sva + j)) /\
    sva mod 4096 = 0 /\ ptov 0 < sva /\ sva + 8192 < 2 ^ 64 /\ vtop sva + 8192 <= 2 ^ 36 /\
    (forall j, 0 <= j < SYS_PROC_HEAP_SIZE -> pgtbl_walk t root (SYS_PROC_HEAP_BASE + j) = Ret (vtop hva + j)) /\
    (forall j, 0 <= j < RAMDISK_SIZE -> pgtbl_walk t root (SYS_PROC_RAMDISK_BASE + j) = Ret (RAMDISK_BASE + j)).
Proof using All.
  destruct Hrd as [Hopen [Hsize Hlen] (base & Hbase & Hhas)], Helf as [(phoff & Hhdr & Hphoff & Hheaders) Hl64 Hsegs Hapart].
  destruct Hcx as [(c & Hc & Hcp) Hproc Hectx _ _ [lv Hpt] Hfree Hroom].
  set (pg0 := ss_pages (ks_slab k)) in *. set (t0 := ks_tables k) in *. set (m0 := ks_mem k) in *.
  assert (with_mem (intr_on k) pg0 t0 m0 = intr_on k) as Hk by exact (with_mem_id (intr_on k)).
  assert (ld root (fun _ => True) pg0 t0 [] (segs_need phs + exec_pages)) as Hld0 by (split; [by exists lv|done|constructor|auto]).
  unfold exec. erewrite M_bind_run by exact (cur_proc_run k c Hc). rewrite Hcp.
  erewrite M_bind_run by (unfold rd_open, lift; change (image rd_size (intr_on k)) with (image rd_size k); rewrite Hopen; reflexivity). cbn beta iota.
  assert (rd_read rd_size (Some r) inode sizeof_elfhdr 0 (intr_on k) = Ret ((take 64 file, 64), intr_on k)) as Hrd0.
  { rewrite <- Hk. exact (rd_read_run (intr_on k) rd_size r (image rd_size k) inode file base Hsize Hbase Hhas Hlen pg0 t0 m0 64 0 eq_refl ltac:(lia) ltac:(lia) ltac:(lia)). }
  erewrite M_bind_run by exact Hrd0. cbn beta iota. change (u64 64 =? sizeof_elfhdr) with true. cbn [negb].
  rewrite Hhdr. cbn [elf_magic elf_phnum elf_phoff elf_entry]. rewrite Z.eqb_refl. cbn [negb]. rewrite Nat2Z.id.
  rewrite s32_small by (destruct Hheaders; lia).
  destruct (load_loop_spec (intr_on k) rd_size r (image rd_size k) inode file p root x Hproc eq_refl Hrds base Hsize Hbase Hhas Hlen phs phoff (fun _ => True) pg0 t0 m0 [] _ Hld0 eq_refl Hheaders Hsegs Hapart)
    as (fr1 & pg1 & t1 & m1 & bs1 & Hload & Hld1 & _ & Hfr1 & _ & Hlo1); [done|unfold exec_pages; lia|].
  rewrite Hk in Hload. erewrite M_bind_run by exact Hload. cbn [negb].
  replace (segs_need phs + exec_pages - segs_need phs) with 286 in Hld1 by (unfold exec_pages; lia).
  destruct (region_step root fr1 pg1 t1 bs1 286 (exec_stack_top - 8192) 8192 Hld1) as (sva & pg2 & pg3 & t3 & Ha2 & Hm3 & Hld3 & Hw3 & Hk3 & ? & ? & ? & ? & Hap3);
    [reflexivity|done|done|reflexivity|done|reflexivity|intros b Hb; apply Hfr1; [lia|done]|done|].
  change (8192 / 4096) with 2 in *. erewrite M_bind_run by (apply page_allocn_run; exact Ha2).
  change (exec_stack_top - 2 * PAGE_SIZE) with (exec_stack_top - 8192). change (2 * PAGE_SIZE) with 8192.
  erewrite M_bind_run by (apply (map_or_free_run (intr_on k) _ _ _ p x); [exact Hproc|exact Hm3]). cbn [negb].
  destruct (region_step root _ pg3 t3 ((sva, 2) :: bs1) _ SYS_PROC_HEAP_BASE SYS_PROC_HEAP_SIZE Hld3) as (hva & pg4 & pg5 & t5 & Ha4 & Hm5 & Hld5 & Hw5 & Hk5 & ? & ? & ? & ? & Hap5);
    [reflexivity|done|done|reflexivity|done|reflexivity|intros b Hb; split; [apply Hfr1; [unfold exec_stack_top, SYS_PROC_HEAP_BASE in *; lia|done]|right; unfold exec_stack_top, SYS_PROC_HEAP_BASE in *; lia]|done|].
  change (align_page_up SYS_PROC_HEAP_SIZE) with SYS_PROC_HEAP_SIZE.
  erewrite M_bind_run by (apply kalloc_pages_run; [done|reflexivity|done|exact Ha4]).
  erewrite M_bind_run by (apply (map_or_free_run (intr_on k) _ _ _ p x); [exact Hproc|exact Hm5]). cbn [negb].
  destruct (ld_map root _ pg5 t5 _ _ SYS_PROC_RAMDISK_BASE RAMDISK_BASE RAMDISK_SIZE VM_RW Hld5) as (pg & t & Hm & Hld & Hw & Hwk);
    [reflexivity|done|done|reflexivity|done|reflexivity|done|done|reflexivity|done|done| |done|].
  { unfold exec_stack_top, SYS_PROC_HEAP_BASE, SYS_PROC_HEAP_SIZE, SYS_PROC_RAMDISK_BASE, SYS_PROC_VMAP_BASE in *.
    intros b Hb. split; [split; [apply Hfr1; [lia|done]|right; lia]|right; lia]. }
  erewrite M_bind_run by (apply (map_or_free_run (intr_on k) _ _ _ p x); [exact Hproc|exact Hm]). cbn [negb].
  exists pg, t, m1, bs1, sva, hva. split; [reflexivity|]. split.
  { destruct Hld as [L1 L2 L3 _]. split; [exact L1|exact L2| |done]. by apply Forall_cons in L3 as [_ L3]. }
  split; [done|]. split.
  { eapply Forall_impl; [exact Hlo1|]. intros ph Hph Hl. destruct (Hph Hl) as (blk & Hb & Hwb & Hh). exists blk. split; [done|]. split; [|done].
    intros j Hj. by apply Hwk, Hk5, Hk3, Hwb. }
  split_and!; [intros j Hj; by apply Hwk, Hk5, Hw3|done|done|lia|lia|intros j Hj; by apply Hwk, Hw5|done].
Qed.
End Whole.

Lemma put_byte_rest a b k :
  let k' := put_byte a b k in
  ks_procs k' = ks_procs k /\ ks_ectx k' = ks_ectx k /\ ks_cpus k' = ks_cpus k /\ ks_lists k' = ks_lists k /\ ks_daif k' = ks_daif k.
Proof. unfold put_byte. cbn zeta. by destruct (ks_tables k !! _). Qed.

Lemma seg_data_length file ph : seg_ok file ph -> Z.of_nat (length (seg_data file ph)) = ph_filesz ph.
Proof. intros [_ [? _] [? ?] _]. unfold seg_data. rewrite length_take, length_drop. lia. Qed.

(** ** What the process finds in its memory *)

(** The addresses of the descriptors that a translation reads. *)
Fixpoint descriptors (t : tables) (tbl : Z) (ix : list Z) : list Z :=
  match ix with
  | [] => []
  | i :: ix' => (tbl + 8 * i) ::
      match entry_rd t tbl i with
      | Ret e => if pte_is_vaild e && pte_is_table e then descriptors t (ptov (pte_table_addr e)) ix' else []
      | _ => []
      end
  end.
Definition descriptors_of (t : tables) (root va : Z) : list Z :=
  descriptors t root [pgd_index va; pud_index va; pmd_index va; pt_index va].
(** A write to the kernel address [a] leaves what the process reads at [va]:
    the byte is not there, nor in a descriptor of its translation. *)
Definition spared (t : tables) (root a va : Z) : Prop :=
  a - a mod 8 ∉ descriptors_of t root va /\ pgtbl_walk t root va <> Ret (vtop a).

(** Two tables that agree on what a walk reads. *)
Lemma descriptors_walk t t' root va :
  (forall tbl i, (tbl + 8 * i) ∈ descriptors_of t root va -> 0 <= i < 512 -> entry_rd t' tbl i = entry_rd t tbl i) ->
  pgtbl_walk t' root va = pgtbl_walk t root va.
Proof.
  unfold descriptors_of. cbn [descriptors]. destruct (index_idx va) as (E3 & E2 & E1 & E0). rewrite E3, E2, E1, E0.
  pose proof (fun l => idx_range l va) as Hr. intros H. unfold pgtbl_walk. rewrite E3, E2, E1, E0. mstep.
  rewrite (H root _ (list_elem_of_here _ _) (Hr 3%nat)).
  destruct (entry_rd t root _) as [e| | |]; try done. destruct (pte_is_vaild e) eqn:V; [|done]. destruct (pte_is_table e) eqn:T; [|done]. cbn [andb] in H.
  rewrite (H (ptov (pte_table_addr e)) (idx 2 va)) by (try apply Hr; set_solver). clear V T.
  destruct (entry_rd t _ (idx 2 va)) as [e2| | |]; try done. destruct (pte_is_vaild e2) eqn:V; [|done]. destruct (pte_is_table e2) eqn:T; [cbn [negb andb] in *|done].
  rewrite (H (ptov (pte_table_addr e2)) (idx 1 va)) by (try apply Hr; set_solver). clear V T.
  destruct (entry_rd t _ (idx 1 va)) as [e1| | |]; try done. destruct (pte_is_vaild e1) eqn:V; [|done]. destruct (pte_is_table e1) eqn:T; [cbn [negb andb] in *|done].
  by rewrite (H (ptov (pte_table_addr e1)) (idx 0 va)) by (try apply Hr; set_solver).
Qed.

Lemma put_byte_walk a b k root va : 0 <= a < 2 ^ 64 -> spared (ks_tables k) root a va ->
  pgtbl_walk (ks_tables (put_byte a b k)) root va = pgtbl_walk (ks_tables k) root va.
Proof.
  intros Ha [Hd _]. apply descriptors_walk. intros tbl i Hin Hi. unfold put_byte. rewrite u64_small by lia. unfold PAGE_SIZE.
  destruct (ks_tables k !! _) as [es|] eqn:E; [cbn [set_tables ks_tables]|done]. unfold entry_rd.
  destruct (decide (tbl = a - a mod 4096)) as [->|Hne]; [|by rewrite lookup_insert_ne]. rewrite lookup_insert_eq, E. unfold rd.
  assert (i <> a mod 4096 / 8) as Hni.
  { intros ->. apply Hd. replace (a - a mod 8) with (a - a mod 4096 + 8 * (a mod 4096 / 8)); [done|].
    pose proof (Z.div_mod (a mod 4096) 8 ltac:(lia)) as Hq. assert ((a mod 4096) mod 8 = a mod 8) as Hm by (rewrite (Z.div_mod a 4096) at 2 by lia; replace (4096 * (a / 4096) + a mod 4096) with (a mod 4096 + 512 * (a / 4096) * 8) by lia; by rewrite Z_mod_plus_full). lia. }
  pose proof (Z.div_pos (a mod 4096) 8). pose proof (Z.mod_pos_bound a 4096).
  destruct (0 <=? i); [|done]. rewrite list_lookup_alter_ne by lia. done.
Qed.

(** The process reads [bs] at [va], from consecutive bytes of memory. *)
Definition placed (t : tables) (root : Z) (m : mem) (va : Z) (bs : bytes) : Prop :=
  let n := Z.of_nat (length bs) in
  exists pa, (forall j, 0 <= j < n -> pgtbl_walk t root (va + j) = Ret (pa + j)) /\ 0 <= va /\ va + n < 2 ^ 47 /\ 0 <= pa /\ pa + n <= 2 ^ 36 /\ n < 2 ^ 31 /\ holds m (ptov pa) bs.
Lemma placed_reads t root m va bs : placed t root m va bs -> copy_from_user t root m va (Z.of_nat (length bs)) = Ret (bs, Z.of_nat (length bs)).
Proof.
  intros (pa & Hw & ? & ? & ? & ? & ? & Hh). rewrite <- (Z.add_0_r va) at 1. eapply user_reads; [exact Hw|lia..|]. by rewrite Z.add_0_r.
Qed.
Lemma placed_part t root m va pa size off bs :
  (forall j, 0 <= j < size -> pgtbl_walk t root (va + j) = Ret (pa + j)) -> 0 <= va -> va + size < 2 ^ 47 -> 0 <= pa -> pa + size <= 2 ^ 36 ->
  0 <= off -> off + Z.of_nat (length bs) <= size -> size < 2 ^ 31 -> holds m (ptov pa + off) bs -> placed t root m (va + off) bs.
Proof.
  intros Hw ? ? ? ? ? ? ? Hh. exists (pa + off). split; [intros j Hj; rewrite <- !Z.add_assoc; apply Hw; lia|]. split_and!; [lia..|].
  rewrite ptov_small in Hh |- * by lia. by replace (pa + off + 0xffff000000000000) with (pa + 0xffff000000000000 + off) by lia.
Qed.
(** A byte written elsewhere. *)
Lemma placed_put_byte a b k root va bs : 0xffff000000000000 <= a < 2 ^ 64 -> placed (ks_tables k) root (ks_mem k) va bs ->
  (forall j, 0 <= j < Z.of_nat (length bs) -> spared (ks_tables k) root a (va + j)) ->
  let k1 := put_byte a b k in placed (ks_tables k1) root (ks_mem k1) va bs.
Proof.
  intros Ha (pa & Hw & ? & ? & ? & ? & ? & Hh) Hsp. exists pa. split; [intros j Hj; rewrite put_byte_walk by (lia || by apply Hsp); by apply Hw|]. split_and!; [lia..|].
  intros i c Hi. unfold put_byte. rewrite u64_small by lia. destruct (ks_tables k !! _); [by apply Hh|]. cbn [set_mem ks_mem].
  rewrite lookup_insert_ne; [by apply Hh|]. pose proof (lookup_lt_Some _ _ _ Hi). destruct (Hsp (Z.of_nat i) ltac:(lia)) as [_ Hne]. intros Heq. apply Hne.
  rewrite Hw by lia. rewrite ptov_small in Heq by lia. f_equal. unfold vtop, CONFIG_KERNEL_ADDR_MASK in *. rewrite u64_small; lia.
Qed.

(** A loaded segment. *)
Lemma loaded_placed root pg t m bs n file ph :
  ld root (fun _ => False) pg t bs n -> seg_ok file ph -> loaded file root t m bs ph -> placed t root m (ph_vaddr ph) (seg_data file ph).
Proof.
  intros [[lv [Hinv _ _]] _ Hblk _] Hok (blk & Hb & Hw & Hh). destruct (seg_bounds file ph Hok) as (_ & Hs12 & ? & ? & ? & Hvd & ?).
  pose proof Hok as [[? ?] [? [? ?]] _ _]. pose proof (seg_data_length file ph Hok) as Hl. unfold exec_stack_top in *. pose proof (Z.div_mod (seg_sz ph) 4096).
  rewrite Forall_forall in Hblk. destruct (Hblk _ Hb) as [Hlive Hlim _]. cbn [fst snd] in Hlive, Hlim. change lim with 0xffff000044000000 in Hlim.
  destruct (pa_live_range (PageAlloc := page_alloc_impl) pg _ _ Hinv Hlive) as (_ & Hlo & _ & _). destruct (vtop_block blk ltac:(lia)) as [Hvt Hvt0].
  change (ptov 0) with 0xffff000000000000 in Hlo.
  rewrite Hvd. apply (placed_part t root m (seg_va ph) (vtop blk) (seg_sz ph)); [done|lia..|].
  rewrite ptov_small by lia. by replace (vtop blk + 0xffff000000000000) with blk by lia.
Qed.

(** The program and its argument [s] as the process sees them. *)
Definition program_in (t : tables) (root : Z) (m : mem) (file : bytes) (phs : list proghdr) (s : bytes) : Prop :=
  let user := copy_from_user t root m in
  Forall (fun ph => loadable ph -> user (ph_vaddr ph) (ph_filesz ph) = Ret (seg_data file ph, ph_filesz ph)) phs /\
  user (user_sp s) 144 = Ret (stack_image (arg_ptr s), 144) /\
  user (arg_ptr s) (Z.of_nat (length s) + 1) = Ret (s ++ [0], Z.of_nat (length s) + 1).
(** None of it is touched by a write to [a]. *)
Definition program_spared (t : tables) (root a : Z) (phs : list proghdr) (s : bytes) : Prop :=
  (forall ph va, ph ∈ phs -> loadable ph -> ph_vaddr ph <= va < ph_vaddr ph + ph_filesz ph -> spared t root a va) /\
  (forall va, user_sp s <= va < exec_stack_top -> spared t root a va).
Record program_placed (t : tables) (root : Z) (m : mem) (file : bytes) (phs : list proghdr) (s : bytes) : Prop := {
  pp_segs : Forall (fun ph => loadable ph -> placed t root m (ph_vaddr ph) (seg_data file ph)) phs;
  pp_stack : placed t root m (user_sp s) (stack_image (arg_ptr s));
  pp_arg : placed t root m (arg_ptr s) (s ++ [0]) }.

Lemma program_reads t root m file phs s : Forall (fun ph => loadable ph -> seg_ok file ph) phs -> program_placed t root m file phs s -> program_in t root m file phs s.
Proof.
  intros Hok [Hs Hst Ha]. split_and!.
  - rewrite Forall_forall in Hs, Hok |- *. intros ph Hph Hl. rewrite <- (seg_data_length file ph) by auto. apply placed_reads. auto.
  - change 144 with (Z.of_nat (length (stack_image (arg_ptr s)))). by apply placed_reads.
  - assert (Z.of_nat (length s) + 1 = Z.of_nat (length (s ++ [0]))) as -> by (rewrite length_app; cbn [length]; lia). by apply placed_reads.
Qed.
Lemma program_put_byte a b k root file phs s : 0xffff000000000000 <= a < 2 ^ 64 -> Forall (fun ph => loadable ph -> seg_ok file ph) phs ->
  program_placed (ks_tables k) root (ks_mem k) file phs s -> program_spared (ks_tables k) root a phs s ->
  let k1 := put_byte a b k in program_placed (ks_tables k1) root (ks_mem k1) file phs s.
Proof.
  intros Ha Hok [Hs Hst Harg] [Sp1 Sp2]. pose proof (Z.mod_pos_bound (arg_ptr s) 8). split.
  - rewrite Forall_forall in Hs, Hok |- *. intros ph Hph Hl. apply placed_put_byte; [done|by apply Hs|].
    rewrite (seg_data_length file ph) by auto. intros j Hj. apply (Sp1 ph); [done|done|lia].
  - apply placed_put_byte; [done..|]. rewrite stack_image_length. intros j Hj. apply Sp2. unfold user_sp, arg_ptr in *. lia.
  - apply placed_put_byte; [done..|]. rewrite length_app. cbn [length]. intros j Hj. apply Sp2. unfold user_sp, arg_ptr in *. lia.
Qed.

(** The program that [exec] built, with the two pages of the stack at [sva]. *)
Lemma started_placed root pg t m m' bs sva file phs s y0 :
  ld root (fun _ => False) pg t ((sva, 2) :: bs) 0 -> Forall (apart (sva, 2)) bs -> Forall (fun ph => loadable ph -> seg_ok file ph) phs ->
  Forall (fun ph => loadable ph -> loaded file root t m bs ph) phs ->
  (forall j, 0 <= j < 8192 -> pgtbl_walk t root (exec_stack_top - 8192 + j) = Ret (vtop sva + j)) ->
  sva mod 4096 = 0 -> 0xffff000000000000 < sva -> sva + 8192 < 2 ^ 64 -> vtop sva + 8192 <= 2 ^ 36 -> (length s <= 4000)%nat ->
  let va1 := sva + 8192 - (Z.of_nat (length s) + 1) in
  stk sva y0 va1 m (s ++ [0]) m' (va1 - va1 mod 8 - 144) (stack_image (arg_ptr s)) -> y0 = sva + 8192 ->
  program_placed t root m' file phs s.
Proof.
  intros Hld Hap Hsegs Hlo Hws Hs12 Hs0 Hs64 Hs36 Hlen va1 [Hh Hstr Hva Hout] ->. assert (sva < 2 ^ 64) as Hs65 by lia. pose proof (vtop_block sva (conj Hs0 Hs65)) as [Hvt Hvt0].
  pose proof (Z.mod_pos_bound va1 8) as Hm8. pose proof (va1_mod sva s Hs12) as Hmod. fold va1 in Hmod. split.
  - rewrite Forall_forall in Hlo, Hsegs |- *. intros ph Hph Hl. eapply loaded_placed; [exact Hld|by apply Hsegs|].
    eapply (loaded_later file root t m bs); [by apply Hsegs| |by apply Hlo]. split; [done|]. split; [set_solver|].
    intros b a Hb Ha. apply Hout. rewrite Forall_forall in Hap. destruct (Hap b Hb) as [?|?]; cbn [fst snd] in *; lia.
  - assert (user_sp s = exec_stack_top - 8192 + (va1 - va1 mod 8 - 144 - sva)) as -> by (unfold user_sp; rewrite <- Hmod; unfold arg_ptr, va1; lia).
    apply (placed_part t root m' _ (vtop sva) 8192); [done|unfold exec_stack_top; lia..| |rewrite stack_image_length|lia|]; [unfold va1 in *; lia..|].
    rewrite ptov_small by lia. by replace (vtop sva + 0xffff000000000000 + (va1 - va1 mod 8 - 144 - sva)) with (va1 - va1 mod 8 - 144) by lia.
  - replace (arg_ptr s) with (exec_stack_top - 8192 + (8192 - (Z.of_nat (length s) + 1))) by (unfold arg_ptr; lia).
    apply (placed_part t root m' _ (vtop sva) 8192); [done|unfold exec_stack_top; lia..| |rewrite length_app; cbn [length]|lia|]; [lia..|].
    rewrite ptov_small by lia. by replace (vtop sva + 0xffff000000000000 + (8192 - (Z.of_nat (length s) + 1))) with va1 by (unfold va1; lia).
Qed.

(** What [exec] leaves: [t], [m] and [pg] but for the byte behind the stack,
    which lies in the two pages at [sva]. *)
Record exec_done `{KE : KernEnv} (k k' : kstate) (pg : page_state) (t : tables) (m : mem) (sva hva p : Z) (x : proc) (e : econtext)
  (rq : Z -> list Z) (file : bytes) (entry : Z) (phs : list proghdr) (s : bytes) (y : Z) : Prop := {
  ed_program : program_placed t (p_pagetable x) m file phs s;
  ed_stack : forall j, 0 <= j < 8192 -> pgtbl_walk t (p_pagetable x) (exec_stack_top - 8192 + j) = Ret (vtop sva + j);
  ed_sva : 0xffff000000000000 < sva /\ sva + 8192 < 2 ^ 64;
  ed_heap : forall j, 0 <= j < SYS_PROC_HEAP_SIZE -> pgtbl_walk t (p_pagetable x) (SYS_PROC_HEAP_BASE + j) = Ret (vtop hva + j);
  ed_disk : forall j, 0 <= j < RAMDISK_SIZE -> pgtbl_walk t (p_pagetable x) (SYS_PROC_RAMDISK_BASE + j) = Ret (RAMDISK_BASE + j);
  ed_context : ks_ectx k' !! proc_ectx x = Some (e_with_sp0_elr (user_sp s) entry e);
  ed_queue : ready_inv k' (rq_set rq (p_prio x) (rq (p_prio x) ++ [p]));
  ed_rest : let k1 := put_byte (sva + 8192) y (with_mem k pg t m) in
    ks_mem k' = ks_mem k1 /\ ks_tables k' = ks_tables k1 /\ ks_slab k' = ks_slab k1 /\ ks_procs k' = ks_procs k;
  ed_daif : ks_daif k' = daif_on (ks_daif k) }.

(** The whole of [exec]. *)
Lemma exec_run `{KE : KernEnv} (k : kstate) (rd_size : Z) (r : ramdisk) (path file : bytes) (inode p : Z) (x : proc) (e : econtext)
  (rq : Z -> list Z) (entry : Z) (phs : list proghdr) (s rest : bytes) (y : Z)
  (Hrd : on_ramdisk (image rd_size k) r path file inode) (Hrds : 0 < rd_size <= RAMDISK_SIZE) (Helf : elf_ok file entry phs)
  (Hcx : can_exec k p x e rq (segs_need phs + exec_pages)) (Hs : Forall (fun b => b <> 0) s) (Hlen : (length s <= 4000)%nat) :
  exists k' pg t m sva hva, exec rd_size (Some r) path (Some [s ++ 0 :: y :: rest]) k = Ret (0, k') /\
    exec_done k k' pg t m sva hva p x e rq file entry phs s y.
Proof.
  destruct (exec_maps k rd_size r path file inode p x e rq entry phs Hrd Hrds Helf Hcx (s ++ 0 :: y :: rest) [])
    as (pg & t & m & bs & sva & hva & Hex & Hld & Hap & Hlo & Hws & Hs12 & Hs0 & Hs64 & Hs36 & Hwh & Hwr).
  pose proof Hcx as [(c & Hc & Hcp) Hproc Hectx Hq Hen _ _ _]. pose proof (ld_blk _ _ _ _ _ _ Hld) as Hb. apply Forall_cons in Hb as [[_ _ Hnt] _]. cbn [fst snd] in Hnt.
  pose proof (vtop_block sva ltac:(lia)) as [Hvt Hvt0]. change (ptov 0) with 0xffff000000000000 in Hs0.
  destruct (start_run (intr_on k) pg t sva y p (p_pagetable x) entry x s rest ltac:(lia) Hs64 Hnt (fun a Ha => ld_aligned _ _ _ _ _ _ a Hld Ha) Hs12 Hs0 Hproc eq_refl
    ltac:(rewrite <- (Z.add_0_r (vtop sva)); rewrite <- (Hws 0) by lia; f_equal) Hs Hlen m) as (m' & Hst & Hstk).
  set (k1 := put_byte (sva + 8192) y (with_mem (intr_on k) pg t m')) in *.
  destruct (put_byte_rest (sva + 8192) y (with_mem (intr_on k) pg t m')) as (E1 & E2 & E3 & E4 & E5). fold k1 in E1, E2, E3, E4, E5.
  set (k2 := set_ectxs (<[proc_ectx x := e_with_sp0_elr (user_sp s) entry e]> (ks_ectx k1)) k1).
  assert (proc_set_context p entry (user_sp s) k1 = Ret (tt, k2)) as Hctx.
  { unfold proc_set_context. erewrite M_bind_run; [|apply (deref_run ks_procs p x k1); by rewrite E1]. apply (update_run ks_ectx set_ectxs); by rewrite E2. }
  assert (ready_inv k2 rq) as Hq2.
  { apply (ready_inv_procs k k2 rq Hq); [by cbn; rewrite E3|by cbn; rewrite E4|]. intros q z Hz. exists z. split; [cbn; by rewrite E1|done]. }
  assert (can_enter k2 rq p (p_prio x)) as Hen2.
  { destruct Hen as [(z & Hz & Hzp) H2 H3 H4]. split; [exists z; split; [cbn; by rewrite E1|done]|done|cbn; by rewrite E4|done]. }
  destruct (proc_ready_run k2 rq p (p_prio x) c Hq2 Hen2 ltac:(cbn; by rewrite E3)) as (k' & Hr & Hq' & cs & lh & ->).
  eexists _, pg, t, m', sva, hva. split; [rewrite Hex, Hst; fold k1; erewrite M_bind_run by exact Hctx; erewrite M_bind_run by exact Hr; reflexivity|].
  split; [|exact Hws|lia|exact Hwh|exact Hwr| |exact Hq'| |].
  - eapply started_placed; [exact Hld|exact Hap|exact (eo_segs _ _ _ Helf)|exact Hlo|exact Hws|exact Hs12|exact Hs0|exact Hs64|exact Hs36|exact Hlen|exact Hstk|reflexivity].
  - cbn. apply lookup_insert_eq.
  - cbn zeta. assert (k1 = intr_on (put_byte (sva + 8192) y (with_mem k pg t m'))) as Ek.
    { unfold k1, put_byte. cbn [intr_on with_mem set_mem set_tables set_slab_ set_daif ks_tables ks_mem]. by destruct (t !! _). }
    split_and!; [cbn; by rewrite Ek..|cbn; exact E1].
  - cbn. rewrite E5. reflexivity.
Qed.

(** The final state, when the stray byte spares the program. *)
Lemma exec_done_final `{KE : KernEnv} k k' pg t m sva hva p x e rq file entry phs s y :
  Forall (fun ph => loadable ph -> seg_ok file ph) phs -> exec_done k k' pg t m sva hva p x e rq file entry phs s y ->
  program_spared t (p_pagetable x) (sva + 8192) phs s -> program_in (ks_tables k') (p_pagetable x) (ks_mem k') file phs s.
Proof.
  intros Hok [Hp _ Hsva _ _ _ _ (Em & Et & _ & _) _] Hsp. rewrite Em, Et. apply program_reads; [done|].
  apply (program_put_byte (sva + 8192) y (with_mem k pg t m)); [lia|done|exact Hp|exact Hsp].
Qed.

(** C3: [exec] loads a program. For an ELF file of the ram disk whose segments
    are disjoint, lie below the stack, each in one 1 GB region and in one
    block of the allocator, with one argument of at most 4000 characters and
    enough pages free in a row below the ram disk, it
    returns 0; the bytes of every segment are then read at its address in the
    process, the stack pointer designates argc, the argument vector, the empty
    environment and the auxiliary vector, the argument is at the address the
    vector gives, stack, heap and ram disk are mapped, the context starts at
    the entry point and the process is the last of its ready queue.  No process
    descriptor changes, and interrupts are unmasked.  Kernel memory and
    page tables are as described but for one byte: the byte behind the
    argument's terminator is written behind the two pages of the stack.  When
    that byte is in no descriptor and no byte the program uses, the final
    state too holds the program as described. *)
Theorem exec_loads `{KE : KernEnv} (k : kstate) (rd_size : Z) (r : ramdisk) (path file : bytes) (inode p : Z) (x : proc) (e : econtext)
  (rq : Z -> list Z) (entry : Z) (phs : list proghdr) (s rest : bytes) (y : Z)
  (Hrd : on_ramdisk (image rd_size k) r path file inode) (Hrds : 0 < rd_size <= RAMDISK_SIZE) (Helf : elf_ok file entry phs)
  (Hcx : can_exec k p x e rq (segs_need phs + exec_pages)) (Hs : Forall (fun b => b <> 0) s) (Hlen : (length s <= 4000)%nat) :
  exists k' pg t m sva hva, exec rd_size (Some r) path (Some [s ++ 0 :: y :: rest]) k = Ret (0, k') /\
    (let user := copy_from_user t (p_pagetable x) m in
     Forall (fun ph => loadable ph -> user (ph_vaddr ph) (ph_filesz ph) = Ret (seg_data file ph, ph_filesz ph)) phs /\
     user (user_sp s) 144 = Ret (stack_image (arg_ptr s), 144) /\
     user (arg_ptr s) (Z.of_nat (length s) + 1) = Ret (s ++ [0], Z.of_nat (length s) + 1)) /\
    (forall j, 0 <= j < 8192 -> pgtbl_walk t (p_pagetable x) (exec_stack_top - 8192 + j) = Ret (vtop sva + j)) /\
    (forall j, 0 <= j < SYS_PROC_HEAP_SIZE -> pgtbl_walk t (p_pagetable x) (SYS_PROC_HEAP_BASE + j) = Ret (vtop hva + j)) /\
    (forall j, 0 <= j < RAMDISK_SIZE -> pgtbl_walk t (p_pagetable x) (SYS_PROC_RAMDISK_BASE + j) = Ret (RAMDISK_BASE + j)) /\
    ks_ectx k' !! proc_ectx x = Some (e_with_sp0_elr (user_sp s) entry e) /\
    ready_inv k' (rq_set rq (p_prio x) (rq (p_prio x) ++ [p])) /\
    (let k1 := put_byte (sva + 8192) y (with_mem k pg t m) in ks_mem k' = ks_mem k1 /\ ks_tables k' = ks_tables k1 /\ ks_slab k' = ks_slab k1 /\ ks_procs k' = ks_procs k) /\
    ks_daif k' = daif_on (ks_daif k) /\
    (program_spared t (p_pagetable x) (sva + 8192) phs s -> program_in (ks_tables k') (p_pagetable x) (ks_mem k') file phs s).
Proof.
  destruct (exec_run k rd_size r path file inode p x e rq entry phs s rest y Hrd Hrds Helf Hcx Hs Hlen) as (k' & pg & t & m & sva & hva & E & D).
  exists k', pg, t, m, sva, hva. split; [exact E|]. split; [exact (program_reads _ _ _ _ _ _ (eo_segs _ _ _ Helf) (ed_program _ _ _ _ _ _ _ _ _ _ _ _ _ _ _ _ D))|].
  pose proof (exec_done_final _ _ _ _ _ _ _ _ _ _ _ _ _ _ _ _ (eo_segs _ _ _ Helf) D). destruct D. by split_and!.
Qed.

(** A program of one segment that crosses a page, alone on a ram disk. *)
Definition demo_phs : list proghdr := [mkPh 1 120 0x400ffe 4 8].
Definition demo_elf : bytes :=
  [127; 69; 76; 70] ++ replicate 20 0 ++ le_enc 8 0x400ffe ++ le_enc 8 64 ++ replicate 16 0 ++ le_enc 2 1 ++ replicate 6 0 ++
  le_enc 4 1 ++ le_enc 4 0 ++ le_enc 8 120 ++ le_enc 8 0x400ffe ++ le_enc 8 0 ++ le_enc 8 4 ++ le_enc 8 8 ++ le_enc 8 0 ++ [1; 2; 3; 4].
Definition demo_path : bytes := [97].
Definition demo_inode : bytes := [97] ++ replicate 31 0 ++ le_enc 8 0 ++ le_enc 8 124.
Definition demo_img : bytes := demo_inode ++ demo_elf.
Definition demo_rd : ramdisk := mkRd 0 1 48.
Definition demo_pX : Z := 0x5000.
Definition demo_px : proc := mkProc initlock 0 RUNNABLE 0 1 2 demo_root 0x7000 8192 (replicate 16 0).
Definition demo_lists : lheap :=
  list_to_map ((fun j => (demo_head j, mkHead (demo_head j) (demo_head j))) <$> [0; 1; 2; 3; 4; 5; 6; 7]) ∪ {[ proc_sched_list demo_pX := mkHead 0 0 ]}.
Definition demo_exec_pages : page_state := fresh_section 0x40000000 8 :: replicate 5 section0.
Definition demo_exec : kstate :=
  set_cpus [mkCpu 0 demo_pX 0 0 initlock] (set_lists demo_lists (set_ectxs {[ proc_ectx demo_px := econtext0 ]} (set_procs {[ demo_pX := demo_px ]}
    (set_tables demo_tables (set_mem (mem_write ∅ (ptov RAMDISK_BASE) demo_img) (set_slab_ (slab_state0 demo_exec_pages) kstate0)))))).

Lemma demo_on_ramdisk : on_ramdisk (image 172 demo_exec) demo_rd demo_path demo_elf 0.
Proof.
  assert (image 172 demo_exec = demo_img) as -> by (vm_compute; reflexivity). split; [vm_compute; reflexivity|split; [vm_compute; reflexivity|vm_compute; reflexivity]|].
  exists 48. split; [vm_compute; reflexivity|]. split; [lia|]. intros j b Hj. unfold demo_img. rewrite lookup_app_r by (cbn; lia).
  rewrite <- Hj. f_equal. cbn [length demo_inode]. change (length demo_inode) with 48%nat. lia.
Qed.
Lemma demo_elf_ok : elf_ok demo_elf 0x400ffe demo_phs.
Proof.
  split.
  - exists 64. split; [vm_compute; reflexivity|]. split; [lia|]. split; [lia|]. split; [vm_compute; discriminate|].
    intros [|i] ph Hi; [|destruct i; discriminate Hi]. injection Hi as <-. vm_compute. reflexivity.
  - vm_compute. discriminate.
  - constructor; [|constructor]. intros _. split; [vm_compute; split; discriminate|vm_compute; repeat split; discriminate|vm_compute; split; discriminate|reflexivity].
  - split; [intros _; constructor|exact I].
Qed.
Lemma demo_can_exec : can_exec (KE := demo_env) demo_exec demo_pX demo_px econtext0 (fun _ => []) (segs_need demo_phs + exec_pages).
Proof.
  assert (page_inv demo_exec_pages) as Hinv by (exists (fresh_section 0x40000000 8); split; [reflexivity|apply fresh_section_inv; [reflexivity|lia|lia]]).
  assert (forall a, page_arena demo_exec_pages a -> ptov 0x40000000 <= a < ptov 0x40200000) as Har.
  { intros a (ps & [= <-] & Ha). rewrite fresh_section_bits in Ha by lia. exact Ha. }
  split.
  - exists (mkCpu 0 demo_pX 0 0 initlock). split; reflexivity.
  - reflexivity.
  - reflexivity.
  - constructor.
    + exists (mkCpu 0 demo_pX 0 0 initlock). split; [reflexivity|]. split; [cbn; lia|]. intros j Hj. apply Z.testbit_0_l.
    + intros j Hj. destruct (prio_cases j Hj) as [->|[->|[->|[->|[->|[->|[->| ->]]]]]]];
        (split; [|repeat split; vm_compute; reflexivity]); apply (bool_decide_unpack _); vm_compute; exact I.
    + intros i j q _ _ Hq. by apply elem_of_nil in Hq.
    + intros i j q _ _ Hq. by apply elem_of_nil in Hq.
    + intros j q _ Hq. by apply elem_of_nil in Hq.
  - split; [exists demo_px; split; reflexivity|cbn; lia|vm_compute; by eexists|]. intros i Hi. split; [apply not_elem_of_nil|].
    unfold cpu_ready_list, proc_sched_list, demo_pX, sizeof_cpu; cbn; lia.
  - exists {[ demo_root := 3%nat ]}. apply demo_state_of; [exact Hinv|]. intros [Ha _]%Har. vm_compute in Ha. by apply Ha.
  - intros va _. apply free_at_zero. intros j Hj. by apply demo_ent.
  - destruct (fresh_section_room 0x40000000 8 (segs_need demo_phs + exec_pages)) as (ps & pos & Hps & Hfit & Hend); [lia|vm_compute; split; [discriminate|reflexivity]|].
    exists ps, pos. split; [exact Hps|]. split; [exact Hfit|]. etransitivity; [exact Hend|]. vm_compute. discriminate.
Qed.

Lemma exec_loads_witness :
  exists k' t m, exec (KE := demo_env) 172 (Some demo_rd) demo_path (Some [[97; 0; 7]]) demo_exec = Ret (0, k') /\
    copy_from_user t demo_root m 0x400ffe 4 = Ret ([1; 2; 3; 4], 4) /\ copy_from_user t demo_root m 0xF0001ffe 2 = Ret ([97; 0], 2).
Proof.
  destruct (exec_loads (KE := demo_env) demo_exec 172 demo_rd demo_path demo_elf 0 demo_pX demo_px econtext0 (fun _ => []) 0x400ffe demo_phs [97] [] 7
    demo_on_ramdisk) as (k' & pg & t & m & sva & hva & Hx & (Hsegs & _ & Harg) & _).
  - split; [reflexivity|discriminate].
  - exact demo_elf_ok.
  - exact demo_can_exec.
  - constructor; [discriminate|constructor].
  - cbn. lia.
  - exists k', t, m. split; [exact Hx|]. split; [|exact Harg]. apply Forall_cons in Hsegs as [Hseg _]. exact (Hseg eq_refl).
Defined.
