(* ===== verification/Roots.v ===== *)
(** * The root service (service/roots/vmm.c, proc.c, exec.c, roots.c)

    The first user program: it takes its heap and the ram disk from the
    auxiliary vector, and creates the shell's process with its address space.
    Structures on its heap are records by address, with their list nodes in a
    heap of [list_head]s; [stale] is what a block holds that [halloc] returns
    without clearing it.  The kernel is a state [W] that [svc] steps: the
    system call with its arguments, and what comes back in x0. *)
From S2P Require Import Prelude Config CList Bitmap Page PageTable PageTableSpec Slab SlabSpec Kmem Spinlock Uaccess Kernel Kobject Handle Proc Sched Objects Ramdisk Exec ExecSpec Halloc.

(** ** memlayout.h, vmm.h, proc.h *)
Definition PROCESS_ADDR_TOP : Z := Z.shiftl 1 38.
Definition PROCESS_STACK_TOP : Z := PROCESS_ADDR_TOP - PAGE_SIZE.
Definition PROCESS_STACK_SIZE : Z := 1 * 1024 * 1024 * 1024 - PAGE_SIZE.
Definition PROCESS_STACK_BASE : Z := PROCESS_STACK_TOP - PROCESS_STACK_SIZE.
Definition PROCESS_MMAP_TOP : Z := PROCESS_STACK_BASE - PAGE_SIZE.
Definition PROCESS_MMAP_SIZE : Z := 4 * 1024 * 1024 * 1024 - PAGE_SIZE.
Definition PROCESS_MMAP_BOTTOM : Z := PROCESS_MMAP_TOP - PROCESS_MMAP_SIZE.
Definition PROCESS_BRK_TOP : Z := Z.shiftl 1 32.

Record vma := mkVma { vm_start : Z; vm_end : Z; vm_perm : Z; vm_anon : Z; vm_pma_handle : Z }.
Definition sizeof_vma : Z := 48.
Definition vma_list (v : Z) : Z := v + 32.
Definition vma0 : vma := mkVma 0 0 0 0 0.
Record rproc := mkRproc { rp_handle : Z; rp_brk_end : Z; rp_brk_start : Z; rp_brk_cur : Z }.
Definition sizeof_rproc : Z := 80.
Definition vma_free (p : Z) : Z := p + 8.
Definition vma_used (p : Z) : Z := p + 24.
Definition rproc_list (p : Z) : Z := p + 64.

(** The argument structures of [kobject_create], and the two system calls the
    service makes. *)
Inductive create_arg :=
| PmaArg (size type start right consequent : Z)
| ProcessArg (entry stack aff prio pid flags : Z).

Inductive sys_req :=
| SYS_kobject_create (type : Z) (data : create_arg)
| SYS_map (proc pma base size right : Z).

(** The parts of [struct proto] the handlers read. *)
Record proto_mmap := mkMmap { mm_addr : Z; mm_len : Z; mm_prot : Z; mm_fd : Z }.
Definition PROT_READ : Z := 1.
Definition PROT_WRITE : Z := 2.
Definition PROT_EXEC : Z := 4.

Record rstate (W : Type) := mkRs {
  rs_heap : hstate; rs_lists : lheap; rs_vmas : gmap Z vma; rs_procs : gmap Z rproc; rs_disk : option ramdisk; rs_world : W }.
Arguments mkRs {W}.
Arguments rs_heap {W}.
Arguments rs_lists {W}.
Arguments rs_vmas {W}.
Arguments rs_procs {W}.
Arguments rs_disk {W}.
Arguments rs_world {W}.

Section Roots.
Context {W : Type} (svc : sys_req -> W -> Z * W) (stale : Z -> vma * list_head).
Abbreviation R := (M (rstate W)).

Definition with_heap (h : hstate) (s : rstate W) : rstate W := mkRs h (rs_lists s) (rs_vmas s) (rs_procs s) (rs_disk s) (rs_world s).
Definition with_lists (l : lheap) (s : rstate W) : rstate W := mkRs (rs_heap s) l (rs_vmas s) (rs_procs s) (rs_disk s) (rs_world s).
Definition with_vmas (v : gmap Z vma) (s : rstate W) : rstate W := mkRs (rs_heap s) (rs_lists s) v (rs_procs s) (rs_disk s) (rs_world s).
Definition with_procs (p : gmap Z rproc) (s : rstate W) : rstate W := mkRs (rs_heap s) (rs_lists s) (rs_vmas s) p (rs_disk s) (rs_world s).
Definition with_disk (d : option ramdisk) (s : rstate W) : rstate W := mkRs (rs_heap s) (rs_lists s) (rs_vmas s) (rs_procs s) d (rs_world s).
Definition with_world (w : W) (s : rstate W) : rstate W := mkRs (rs_heap s) (rs_lists s) (rs_vmas s) (rs_procs s) (rs_disk s) w.

Definition on_heap {A} (m : M hstate A) : R A := zoom rs_heap with_heap m.
Definition list_op (f : lheap -> outcome lheap) : R () := fun s =>
  match f (rs_lists s) with Ret l => Ret (tt, with_lists l s) | Halt => Halt | Fault => Fault | Diverge => Diverge end.

(** The C library's wrappers: a result above -4096 becomes -1. *)
Definition __syscall_ret (r : Z) : Z := if u64 (-4096) <? u64 r then -1 else s64 r.
Definition syscall (q : sys_req) : R Z := fun s => let '(r, w) := svc q (rs_world s) in Ret (__syscall_ret r, with_world w s).
Definition kobject_create (type : Z) (data : create_arg) : R Z := r ← syscall (SYS_kobject_create type data); mret (s32 r).
Definition sys_map (proc pma base size right : Z) : R Z := r ← syscall (SYS_map proc pma base size right); mret (s32 r).

Definition get_vma (a : Z) : R vma := fun s => match rs_vmas s !! a with Some v => Ret (v, s) | None => Fault end.
Definition upd_vma (a : Z) (f : vma -> vma) : R () := fun s =>
  match rs_vmas s !! a with Some v => Ret (tt, with_vmas (<[a := f v]> (rs_vmas s)) s) | None => Fault end.
Definition get_rproc (a : Z) : R rproc := fun s => match rs_procs s !! a with Some v => Ret (v, s) | None => Fault end.
Definition upd_rproc (a : Z) (f : rproc -> rproc) : R () := fun s =>
  match rs_procs s !! a with Some v => Ret (tt, with_procs (<[a := f v]> (rs_procs s)) s) | None => Fault end.

(** A block used as a [struct vma]: as it is, and cleared. *)
Definition halloc_vma : R Z :=
  a ← on_heap (halloc sizeof_vma);
  if a =? 0 then mret 0
  else modify (fun s => with_vmas (<[a := (stale a).1]> (rs_vmas s)) (with_lists (<[vma_list a := (stale a).2]> (rs_lists s)) s));; mret a.
Definition halloc_zero_vma : R Z :=
  a ← on_heap (halloc_zero sizeof_vma);
  if a =? 0 then mret 0
  else modify (fun s => with_vmas (<[a := vma0]> (rs_vmas s)) (with_lists (<[vma_list a := mkHead 0 0]> (rs_lists s)) s));; mret a.

(** ** vmm.c *)

(** [list_for_each_entry(vma, head, list)] up to the first answer of [f]. *)
Fixpoint vma_loop {A} (fuel : nat) (s : rstate W) (head node : Z) (f : Z -> vma -> option A) : outcome (option A) :=
  match fuel with
  | O => Diverge
  | S fuel' =>
      if node =? head then Ret None
      else
        match rs_vmas s !! (node - 32) with
        | None => Fault
        | Some v =>
            match f (node - 32) v with
            | Some x => Ret (Some x)
            | None => n ← next_of (rs_lists s) node; vma_loop fuel' s head n f
            end
        end
  end.
Definition vma_first {A} (head : Z) (f : Z -> vma -> option A) : R (option A) := fun s =>
  lift (n ← next_of (rs_lists s) head; vma_loop (S (size (rs_lists s))) s head n f) s.

Definition find_vma (p addr : Z) : R Z :=
  o ← vma_first (vma_used p) (fun a v => if (vm_start v <=? addr) && (addr <? vm_end v) then Some a else None);
  mret (default 0 o).

Definition vm_range (start end_ : Z) (v : vma) : vma := mkVma start end_ (vm_perm v) (vm_anon v) (vm_pma_handle v).
Definition vm_grant (perm anon : Z) (v : vma) : vma := mkVma (vm_start v) (vm_end v) perm anon (vm_pma_handle v).

(** One new free area. *)
Definition free_area (proc start end_ : Z) : R () :=
  freevma ← halloc_vma;
  upd_vma freevma (vm_range start end_);;
  list_op (fun l => list_add l (vma_list freevma) (vma_free proc)).

Definition split_vma (proc v base end_ : Z) : R Z :=
  x ← get_vma v;
  assertM ((vm_start x <=? base) && (end_ <=? vm_end x));;
  (if vm_start x <? base then free_area proc (vm_start x) (vm_end x) else mret tt);;
  (if end_ <? vm_end x then free_area proc end_ (vm_end x) else mret tt);;
  upd_vma v (vm_range base end_);;
  mret v.

Definition request_vma (proc base size perm anon : Z) : R Z :=
  if negb (base =? 0) && negb (page_aligned base) then mret 0
  else
    o ← vma_first (vma_free proc) (fun a v =>
      let '(newbase, newend) := if base =? 0 then (vm_start v, vm_end v) else (base, u64 (base + size)) in
      if (vm_start v <=? newbase) && (newend <=? vm_end v) then Some (a, newbase, newend) else None);
    match o with
    | None => mret 0
    | Some (out, newbase, newend) =>
        list_op (fun l => list_del l (vma_list out));;
        out ← split_vma proc out newbase newend;
        upd_vma out (vm_grant perm anon);;
        list_op (fun l => list_add l (vma_list out) (vma_used proc));;
        mret out
    end.

Definition create_pma (type right base size : Z) : R Z := kobject_create KOBJ_TYPE_PMA (PmaArg size type base right 0).

Definition vspace_init (proc elf_start elf_size : Z) : R Z :=
  list_op (fun l => INIT_LIST_HEAD l (vma_free proc));;
  list_op (fun l => INIT_LIST_HEAD l (vma_used proc));;
  v ← halloc_zero_vma;
  if v =? 0 then mret (-1)
  else
    upd_vma v (vm_range PROCESS_MMAP_BOTTOM PROCESS_MMAP_TOP);;
    list_op (fun l => list_add l (vma_list v) (vma_free proc));;
    let brk_start := align_page_up (u64 (elf_start + elf_size)) in
    upd_rproc proc (fun p => mkRproc (rp_handle p) PROCESS_BRK_TOP brk_start brk_start);;
    if PROCESS_BRK_TOP <? brk_start then mret (-1)
    else
      v ← halloc_zero_vma;
      if v =? 0 then mret (-1)
      else
        upd_vma v (vm_range elf_start (u64 (elf_start + elf_size)));;
        upd_vma v (vm_grant KOBJ_RIGHT_RWX 0);;
        h ← create_pma PMA_TYPE_NORMAL KOBJ_RIGHT_RWX 0 elf_size;
        upd_vma v (fun x => mkVma (vm_start x) (vm_end x) (vm_perm x) (vm_anon x) h);;
        if h <=? 0 then mret (-1)
        else p ← get_rproc proc; sys_map (rp_handle p) h elf_start elf_size KOBJ_RIGHT_RWX.

(** The result, and the address that the reply would carry: the reply itself
    is commented out. *)
Definition roots_mmap (proc : Z) (m : proto_mmap) : R (Z * Z) :=
  if negb (mm_addr m =? 0) || negb (mm_fd m =? -1) then mret (0, u64 (-1))
  else
    let right bit r := if negb (Z.land (mm_prot m) bit =? 0) then r else 0 in
    let perm := Z.lor (Z.lor (right PROT_EXEC KOBJ_RIGHT_EXEC) (right PROT_WRITE KOBJ_RIGHT_WRITE)) (right PROT_READ KOBJ_RIGHT_READ) in
    v ← request_vma proc 0 (align_up (mm_len m) PAGE_SIZE) perm 1;
    if v =? 0 then mret (0, u64 (-1)) else x ← get_vma v; mret (0, vm_start x).

Definition roots_brk (proc addr : Z) : R (Z * Z) :=
  p ← get_rproc proc;
  if addr =? 0 then mret (0, rp_brk_cur p)
  else if (addr <? rp_brk_start p) || (rp_brk_end p <=? addr) then mret (0, u64 (-1))
  else upd_rproc proc (fun p => mkRproc (rp_handle p) (rp_brk_end p) (rp_brk_start p) addr);; mret (0, addr).

(** ** proc.c *)
Definition create_new_proc (entry : Z) : R Z :=
  p ← on_heap (halloc_zero sizeof_rproc);
  if p =? 0 then mret 0
  else
    modify (fun s => with_procs (<[p := mkRproc 0 0 0 0]> (rs_procs s))
      (with_lists (<[rproc_list p := mkHead 0 0]> (<[vma_used p := mkHead 0 0]> (<[vma_free p := mkHead 0 0]> (rs_lists s)))) s));;
    h ← kobject_create KOBJ_TYPE_PROCESS (ProcessArg entry PROCESS_STACK_BASE (-1) (-1) 2 0);
    upd_rproc p (fun x => mkRproc h (rp_brk_end x) (rp_brk_start x) (rp_brk_cur x));;
    mret p.

(** ** exec.c *)
Definition ELFMAG : bytes := [127; 69; 76; 70].

(** The extent of the loadable segments: base, end and alignment; [None] is
    [goto bad]. *)
Fixpoint scan_loop (img : bytes) (r : ramdisk) (n : nat) (inode off vbase vend align : Z) : outcome (option (Z * Z * Z)) :=
  match n with
  | O => Ret (Some (vbase, vend, align))
  | S n' =>
      '(bs, k) ← ramdisk_read img r inode sizeof_proghdr (u64 off);
      if negb (u64 k =? sizeof_proghdr) then Ret None
      else
        let ph := proghdr_of bs in
        let next := scan_loop img r n' inode (s32 (off + sizeof_proghdr)) in
        if negb (ph_type ph =? ELF_PROG_LOAD) then next vbase vend align
        else if ph_memsz ph <? ph_filesz ph then Ret None
        else if u64 (ph_vaddr ph + ph_memsz ph) <? ph_vaddr ph then Ret None
        else
          let vbase := if ph_vaddr ph <? vbase then ph_vaddr ph else vbase in
          let vend := if vend <? u64 (ph_vaddr ph + ph_memsz ph) then u64 (ph_vaddr ph + ph_memsz ph) else vend in
          let align := if align <? field bs 48 8 then field bs 48 8 else align in
          next vbase vend align
  end.

(** [argv] as in the kernel's [exec]; [img] is the mapped ram disk. *)
Definition exec (img path : bytes) (argv : option (list bytes)) : R Z :=
  match argv with
  | None | Some [] => mret (-1)
  | Some _ =>
      s ← get;
      o ← lift (ramdisk_open img (rs_disk s) path);
      match o, rs_disk s with
      | inr inode, Some r =>
          '(bs, k) ← lift (ramdisk_read img r inode sizeof_elfhdr 0);
          if negb (u64 k =? sizeof_elfhdr) then mret (-1)
          else if negb (bool_decide (take 4 bs = ELFMAG)) then mret (-1)
          else
            o ← lift (scan_loop img r (Z.to_nat (elf_phnum (elfhdr_of bs))) inode (s32 (elf_phoff (elfhdr_of bs))) (u64 (-1)) 0 0);
            match o with
            | None => mret (-1)
            | Some (vbase, vend, _) =>
                let elf_map_size := align_page_up (u64 (vend - vbase)) in
                p ← create_new_proc (elf_entry (elfhdr_of bs));
                if p =? 0 then mret (-1)
                else r ← vspace_init p vbase elf_map_size; mret (if r <? 0 then -1 else 0)
            end
      | _, _ => mret (-1)
      end
  end.

(** ** roots.c *)
Definition sh_elf : bytes := [115; 104; 46; 101; 108; 102].
Definition load_sh (img : bytes) : R Z := r ← exec img sh_elf (Some [sh_elf]); mret (if r <? 0 then -1 else 0).

(** [for (i = 0; envp[i]; i++)], and the walk over the auxiliary vector up to
    [AT_NULL]; [word] reads the initial stack. *)
Fixpoint env_end (word : Z -> outcome Z) (fuel : nat) (envp : Z) : outcome Z :=
  match fuel with
  | O => Diverge
  | S fuel' => w ← word envp; if w =? 0 then Ret envp else env_end word fuel' (envp + 8)
  end.
Record auxv := mkAux { heapbase : Z; heapend : Z; ramdisk_base : Z; ramdisk_end : Z }.
(** One entry. *)
Definition aux_set (x : auxv) (type val : Z) : auxv :=
  if type =? AT_PAGESZ then x
  else if type =? 62 then mkAux val (heapend x) (ramdisk_base x) (ramdisk_end x)
  else if type =? 63 then mkAux (heapbase x) val (ramdisk_base x) (ramdisk_end x)
  else if type =? 64 then mkAux (heapbase x) (heapend x) val (ramdisk_end x)
  else if type =? 65 then mkAux (heapbase x) (heapend x) (ramdisk_base x) val
  else x.
Fixpoint aux_loop (word : Z -> outcome Z) (fuel : nat) (auxp : Z) (x : auxv) : outcome auxv :=
  match fuel with
  | O => Diverge
  | S fuel' =>
      type ← word auxp;
      if type =? AT_NULL then Ret x
      else val ← word (auxp + 8); aux_loop word fuel' (auxp + 16) (aux_set x type val)
  end.

(** [disk a] is the memory from [a] on; [allzero] is the global the service
    checks first. *)
Definition main (allzero : bytes) (word : Z -> outcome Z) (disk : Z -> bytes) (fuel : nat) (envp : Z) : R Z :=
  assertM (forallb (Z.eqb 0) allzero);;
  e ← lift (env_end word fuel envp);
  x ← lift (aux_loop word fuel (e + 8) (mkAux 0 0 0 0));
  r ← on_heap (halloc_init (heapbase x) (heapend x));
  if r <? 0 then mret 0
  else
    '(r, d) ← lift (ramdisk_init (ramdisk_base x) (disk (ramdisk_base x)));
    (match d with Some _ => modify (with_disk d) | None => mret tt end);;
    if r <? 0 then mret 0
    else load_sh (disk (ramdisk_base x));; mret 0.
End Roots.

(** ** Address spaces *)

(** [p]'s free and used areas, in list order, and the areas taken out of both
    lists; all are live blocks of the heap. *)
Record aspace {W} (s : rstate W) (p : Z) (frees useds loose : list (Z * vma)) : Prop := {
  vs_free : dll (rs_lists s) (vma_free p) (vma_list <$> frees.*1);
  vs_used : dll (rs_lists s) (vma_used p) (vma_list <$> useds.*1);
  vs_vmas : forall a v, (a, v) ∈ frees ++ useds ++ loose -> rs_vmas s !! a = Some v /\ a mod 16 = 0 /\ 0 < a;
  vs_dup : NoDup (frees ++ useds ++ loose).*1;
  vs_proc : p mod 16 = 0;
  vs_null : rs_vmas s !! 0 = None;
  vs_loose : forall a v, (a, v) ∈ loose -> is_Some (rs_lists s !! vma_list a);
  vs_heap : exists b0 e live, heap_ok b0 e (rs_heap s) live /\ forall a v, (a, v) ∈ frees ++ useds ++ loose -> a - 16 ∈ live }.

(** How many of the ranges [l] hold the address [x]. *)
Definition in_range (x : Z) (r : Z * Z) : Prop := r.1 <= x < r.2.
#[global] Instance in_range_dec x r : Decision (in_range x r) := ltac:(unfold in_range; apply _).
Definition cover (x : Z) (l : list (Z * Z)) : nat := length (filter (in_range x) l).

Section Vspace.
Context {W : Type} (svc : sys_req -> W -> Z * W) (stale : Z -> vma * list_head).
Implicit Types s : rstate W.

(** Heads and nodes are at different offsets of 16-byte blocks. *)
Lemma node_free_ne a p : a mod 16 = 0 -> p mod 16 = 0 -> vma_list a <> vma_free p /\ vma_list a <> vma_used p /\ vma_free p <> vma_used p.
Proof.
  unfold vma_list, vma_free, vma_used. intros Ha Hp. pose proof (Z.div_mod a 16). pose proof (Z.div_mod p 16). lia.
Qed.
#[global] Instance vma_list_inj : Inj (=) (=) vma_list.
Proof. intros a b. unfold vma_list. lia. Qed.
Lemma nodes_in (l : list (Z * vma)) x : x ∈ vma_list <$> l.*1 <-> exists a v, x = vma_list a /\ (a, v) ∈ l.
Proof.
  rewrite list_elem_of_fmap. split.
  - intros (a & -> & Ha). apply list_elem_of_fmap in Ha as ([b v] & -> & Hb). by exists b, v.
  - intros (a & v & -> & Hav). exists a. split; [done|]. apply list_elem_of_fmap. by exists (a, v).
Qed.

(** The search. *)
Fixpoint first_some {A} (f : Z -> vma -> option A) (l : list (Z * vma)) : option A :=
  match l with [] => None | (a, v) :: l' => match f a v with Some x => Some x | None => first_some f l' end end.

Lemma vma_loop_spec {A} s head (f : Z -> vma -> option A) l a fuel :
  links (rs_lists s) a (vma_list <$> l.*1) head -> head ∉ vma_list <$> l.*1 -> (forall b v, (b, v) ∈ l -> rs_vmas s !! b = Some v) ->
  (length l < fuel)%nat -> (n ← next_of (rs_lists s) a; vma_loop fuel s head n f) = Ret (first_some f l).
Proof.
  revert a fuel. induction l as [|[b v] l IH]; intros a [|fuel] Hl Hh Hv Hf; cbn [length] in Hf; [lia| |lia|].
  - destruct Hl as [-> _]. cbn [mbind outcome_bind vma_loop]. by rewrite Z.eqb_refl.
  - cbn [fmap list_fmap links fst] in Hl, Hh. destruct Hl as (-> & _ & Hl). cbn [mbind outcome_bind vma_loop first_some].
    rewrite (proj2 (Z.eqb_neq _ _)) by (intros E; apply Hh; rewrite <- E; left). replace (vma_list b - 32) with b by (unfold vma_list; lia).
    rewrite (Hv b v) by left. destruct (f b v); [done|]. apply IH; [done| | |lia].
    + intros Hx. apply Hh. by right.
    + intros c w Hc. apply Hv. by right.
Qed.

(** A ring is no longer than the heap it lies in. *)
Lemma ring_size (h : lheap) head l : dll h head l -> (length l < size h)%nat.
Proof.
  intros [Hnd Hl]. assert (forall x, x ∈ head :: l -> x ∈ dom h) as Hin.
  { assert (forall a l, links h a l head -> forall x, x ∈ a :: l -> x ∈ dom h) as Hx; [|by apply Hx].
    clear. intros a l. revert a. induction l as [|y l IH]; intros a Hl x Hx; apply elem_of_dom.
    - apply list_elem_of_singleton in Hx as ->. destruct Hl as [Hl _]. by eapply next_is_Some.
    - destruct Hl as (Hn & _ & Hl). apply elem_of_cons in Hx as [->|Hx]; [by eapply next_is_Some|]. apply elem_of_dom. by apply (IH y). }
  rewrite <- size_dom. apply (Nat.lt_le_trans _ (length (head :: l))); [cbn; lia|].
  rewrite <- (size_list_to_set (C := gset Z)) by done. apply subseteq_size. intros x Hx. apply Hin. by apply elem_of_list_to_set in Hx.
Qed.

Lemma vma_first_spec {A} s head l (f : Z -> vma -> option A) :
  dll (rs_lists s) head (vma_list <$> l.*1) -> (forall b v, (b, v) ∈ l -> rs_vmas s !! b = Some v) ->
  vma_first head f s = Ret (first_some f l, s).
Proof.
  intros Hd Hv. unfold vma_first, lift. pose proof (ring_size _ _ _ Hd) as Hs. rewrite !length_fmap in Hs. destruct Hd as [Hnd Hl].
  rewrite (vma_loop_spec s head f l head); [done|done| |done|lia]. by apply NoDup_cons in Hnd as [? _].
Qed.

(** The parts of the state that the operations on areas leave alone. *)
Definition same_rest s s' : Prop := rs_procs s' = rs_procs s /\ rs_disk s' = rs_disk s /\ rs_world s' = rs_world s.
Lemma same_rest_refl s : same_rest s s.
Proof. done. Qed.
Lemma same_rest_trans s1 s2 s3 : same_rest s1 s2 -> same_rest s2 s3 -> same_rest s1 s3.
Proof. intros (A1 & A2 & A3) (B1 & B2 & B3). split_and!; congruence. Qed.

Lemma list_op_run (f : lheap -> outcome lheap) s l : f (rs_lists s) = Ret l -> list_op f s = Ret (tt, with_lists l s).
Proof. intros H. unfold list_op. by rewrite H. Qed.

Lemma free_used_off s p fs us ls a v :
  aspace s p fs us ls -> (a, v) ∈ ls -> vma_list a ∉ vma_free p :: (vma_list <$> fs.*1) /\ vma_list a ∉ vma_used p :: (vma_list <$> us.*1).
Proof.
  intros [_ _ Hv Hd Hp _ _ _] Ha. destruct (Hv a v) as (_ & Hm & _); [set_solver|]. destruct (node_free_ne a p Hm Hp) as (H1 & H2 & _).
  rewrite !fmap_app in Hd. apply NoDup_app in Hd as (_ & Hd1 & Hd). apply NoDup_app in Hd as (_ & Hd2 & _).
  assert (a ∈ ls.*1) as Hal by (apply list_elem_of_fmap; by exists (a, v)).
  split; intros [?|(b & w & E%(inj vma_list) & Hb)%nodes_in]%elem_of_cons; try done; subst b.
  - apply (Hd1 a); [apply list_elem_of_fmap; by exists (a, w)|set_solver].
  - apply (Hd2 a); [apply list_elem_of_fmap; by exists (a, w)|done].
Qed.

(** The two rings have no node in common. *)
Lemma lists_apart s p fs us ls b :
  aspace s p fs us ls -> b ∈ vma_free p :: (vma_list <$> fs.*1) -> b ∈ vma_used p :: (vma_list <$> us.*1) -> False.
Proof.
  intros [_ _ Hv Hd Hp _ _ _] Hf Hu.
  apply elem_of_cons in Hf as [->|(c & w & -> & Hc)%nodes_in], Hu as [E|(c' & w' & E & Hc')%nodes_in].
  - unfold vma_free, vma_used in E. lia.
  - destruct (Hv c' w') as (_ & Hm & _); [set_solver|]. by destruct (node_free_ne c' p Hm Hp) as (? & _ & _).
  - destruct (Hv c w) as (_ & Hm & _); [set_solver|]. by destruct (node_free_ne c p Hm Hp) as (_ & ? & _).
  - apply (inj vma_list) in E as <-. rewrite fmap_app in Hd. apply NoDup_app in Hd as (_ & Hd & _).
    apply (Hd c); [apply list_elem_of_fmap; by exists (c, w)|]. rewrite fmap_app. apply elem_of_app. left. apply list_elem_of_fmap. by exists (c, w').
Qed.

(** [list_del] of a free area. *)
Lemma take_free s p f1 a v f2 us :
  aspace s p (f1 ++ (a, v) :: f2) us [] ->
  exists s', list_op (fun l => list_del l (vma_list a)) s = Ret (tt, s') /\ aspace s' p (f1 ++ f2) us [(a, v)] /\ same_rest s s' /\ rs_heap s' = rs_heap s.
Proof.
  intros Hvs. pose proof Hvs as [Hf Hu Hv Hd Hp Hn _ (b0 & e & live & Hh & Hl)]. rewrite fmap_app, fmap_app in Hf. cbn [fmap list_fmap fst] in Hf.
  destruct (list_del_spec _ _ _ _ _ Hf) as (l' & Hdel & Hf' & Hx & Hs).
  exists (with_lists l' s). split; [by apply list_op_run|]. split; [|done].
  assert (Permutation (f1 ++ (a, v) :: f2 ++ us) (f1 ++ f2 ++ us ++ [(a, v)])) as Hperm 
    by (apply Permutation_app_head; rewrite app_assoc; apply Permutation_cons_append).
  rewrite <- app_assoc in Hv, Hd, Hl. cbn [app] in *. rewrite app_nil_r in *.
  split; cbn [with_lists rs_lists rs_vmas rs_heap].
  - by rewrite !fmap_app.
  - apply (dll_frame (rs_lists s)); [done|]. intros b Hb. eapply list_del_frame; [exact Hf|exact Hdel|]. intros Hb'. eapply (lists_apart s p); [exact Hvs| |exact Hb]. by rewrite !fmap_app.
  - intros b w Hb. apply Hv. rewrite <- app_assoc in Hb. by rewrite Hperm.
  - rewrite <- app_assoc. by rewrite <- Hperm.
  - done.
  - done.
  - intros b w [= -> ->]%list_elem_of_singleton. by rewrite Hx.
  - exists b0, e, live. split; [done|]. intros b w Hb. apply (Hl b w). rewrite <- app_assoc in Hb. by rewrite Hperm.
Qed.

(** A block of the size of an area. *)
Lemma halloc_block b0 e h live n :
  heap_ok b0 e h live -> 0 <= n <= 2 ^ 64 - 48 ->
  (halloc n h = Ret (0, h) /\ slab_size h < rounded n + 16) \/
  exists a h', halloc n h = Ret (a, h') /\ heap_ok b0 e h' ({[a - 16]} ∪ live) /\ a - 16 ∉ live /\ a mod 16 = 0 /\ 0 < a /\
    slab_size h <= slab_size h' + (rounded n + 16).
Proof.
  intros (blocks & frees & Hi) Hn. destruct (halloc_spec _ _ _ _ _ _ n Hi Hn) as [?|(a & h' & blocks' & frees' & Hr & Hi' & Hl & Hb & [_ Hss] & _)]; [by left|right].
  pose proof (hi_range _ _ _ _ _ _ Hi') as (H0 & Hb0 & _). destruct (tiled_block _ _ _ _ _ (hi_tiled _ _ _ _ _ _ Hi') Hb) as (Hlo & _ & _ & _ & Hmod).
  specialize (Hmod Hb0). exists (a + 16), h'. replace (a + 16 - 16) with a by lia. split_and!; [done|by exists blocks', frees'|done| |lia|done].
  pose proof (Z.div_mod a 16). symmetry. apply (Z.mod_unique_pos _ _ (a / 16 + 1)); lia.
Qed.

Lemma heap_ok_memset b0 e h live a n : heap_ok b0 e h live -> heap_ok b0 e (memset0 a n h) live.
Proof. intros (blocks & frees & [H1 H2 H3 H4 H5 H6]). by exists blocks, frees. Qed.

(** A new block used as an area: no list has it yet. *)
Lemma halloc_loose s p fs us ls (zero : bool) :
  let alloc := if zero then halloc_zero sizeof_vma else halloc sizeof_vma in
  aspace s p fs us ls ->
  (alloc (rs_heap s) = Ret (0, rs_heap s) /\ slab_size (rs_heap s) < 64) \/
  exists a h', alloc (rs_heap s) = Ret (a, h') /\ 0 < a /\ slab_size (rs_heap s) <= slab_size h' + 64 /\
    forall x nd, aspace (with_vmas (<[a := x]> (rs_vmas s)) (with_lists (<[vma_list a := nd]> (rs_lists s)) (with_heap h' s))) p fs us ((a, x) :: ls).
Proof.
  intros alloc Hvs. pose proof Hvs as [Hf Hu Hv Hd Hp Hn Hlo (b0 & e & live & Hh & Hl)].
  destruct (halloc_block b0 e _ live sizeof_vma Hh) as [[Hz Hsz]|(a & h0 & Hr & Hh0 & Hna & Hma & Ha0 & Hss)]; [unfold sizeof_vma; lia| |].
  { left. split; [|exact Hsz]. unfold alloc. destruct zero; [|done]. unfold halloc_zero. by erewrite M_bind_run by exact Hz. }
  assert (exists h', alloc (rs_heap s) = Ret (a, h') /\ heap_ok b0 e h' ({[a - 16]} ∪ live) /\ slab_size h' = slab_size h0) as (h' & Hr' & Hh' & Hs').
  { unfold alloc. destruct zero; [|by exists h0]. exists (memset0 a sizeof_vma h0). split; [|split; [by apply heap_ok_memset|done]].
    unfold halloc_zero. erewrite M_bind_run by exact Hr. by rewrite (proj2 (Z.eqb_neq a 0)) by lia. }
  right. exists a, h'. split_and!; [done|done|rewrite Hs'; exact Hss|]. intros x nd. set (l1 := <[vma_list a := nd]> (rs_lists s)).
  assert (forall b v, (b, v) ∈ fs ++ us ++ ls -> b <> a) as Hfresh by (intros b v Hb ->; by apply Hna, (Hl a v)).
  assert (forall b, b <> vma_list a -> l1 !! b = rs_lists s !! b) as Hl1 by (intros b Hb; by apply lookup_insert_ne).
  destruct (node_free_ne a p Hma Hp) as (N1 & N2 & N3).
  assert (forall l, (forall b v, (b, v) ∈ l -> (b, v) ∈ fs ++ us ++ ls) -> vma_list a ∉ vma_list <$> l.*1) as Hnot.
  { intros l Hsub (b & v & E%(inj vma_list) & Hb)%nodes_in. subst b. by apply (Hfresh a v (Hsub _ _ Hb)). }
  assert (vma_list a ∉ vma_free p :: (vma_list <$> fs.*1)) as Haf by (intros [?|Hx]%elem_of_cons; [done|by apply (Hnot fs); [set_solver|]]).
  assert (vma_list a ∉ vma_used p :: (vma_list <$> us.*1)) as Hau by (intros [?|Hx]%elem_of_cons; [done|by apply (Hnot us); [set_solver|]]).
  assert (Permutation (fs ++ us ++ (a, x) :: ls) ((a, x) :: fs ++ us ++ ls)) as Hperm by (rewrite !app_assoc; symmetry; apply Permutation_middle).
  split; cbn [with_vmas with_lists with_heap rs_vmas rs_lists rs_heap].
  - apply (dll_frame (rs_lists s)); [done|]. intros b Hb. apply Hl1. by intros ->.
  - apply (dll_frame (rs_lists s)); [done|]. intros b Hb. apply Hl1. by intros ->.
  - intros b w Hb. rewrite Hperm in Hb. apply elem_of_cons in Hb as [[= -> ->]|Hb]; [by rewrite lookup_insert_eq|].
    rewrite lookup_insert_ne; [by apply Hv|]. intros <-. by apply (Hfresh a w).
  - rewrite Hperm. cbn [fmap list_fmap fst]. apply NoDup_cons. split; [|done]. intros ([b w] & -> & Hb)%list_elem_of_fmap. by apply (Hfresh b w).
  - done.
  - rewrite lookup_insert_ne by lia. done.
  - intros b w [[= -> ->]|Hb]%elem_of_cons; unfold l1; [by rewrite lookup_insert_eq|].
    destruct (decide (vma_list b = vma_list a)) as [->|]; [by rewrite lookup_insert_eq|]. rewrite lookup_insert_ne by done. by apply (Hlo b w).
  - exists b0, e, ({[a - 16]} ∪ live). split; [done|]. intros b w Hb. rewrite Hperm in Hb. apply elem_of_cons in Hb as [[= -> ->]|Hb]; [set_solver|].
    apply elem_of_union. right. by apply (Hl b w).
Qed.

(** Writing an area that is in no list, and putting it into one. *)
Lemma upd_loose s p fs us a v ls f :
  aspace s p fs us ((a, v) :: ls) ->
  exists s', upd_vma a f s = Ret (tt, s') /\ aspace s' p fs us ((a, f v) :: ls) /\ same_rest s s' /\ rs_heap s' = rs_heap s.
Proof.
  intros [Hf Hu Hv Hd Hp Hn Hlo (b0 & e & live & Hh & Hl)]. destruct (Hv a v) as (Ha & Hm & H0); [set_solver|].
  unfold upd_vma. rewrite Ha. eexists. split; [reflexivity|]. split; [|done].
  assert (forall w, Permutation (fs ++ us ++ (a, w) :: ls) ((a, w) :: fs ++ us ++ ls)) as Hperm by (intros w; rewrite !app_assoc; symmetry; apply Permutation_middle).
  rewrite Hperm in Hd. cbn [fmap list_fmap fst] in Hd. pose proof Hd as [Hna _]%NoDup_cons.
  split; cbn [with_vmas rs_vmas rs_lists rs_heap]; [done|done| |by rewrite Hperm|done|rewrite lookup_insert_ne by lia; done| |].
  - intros b w Hb. rewrite Hperm in Hb. apply elem_of_cons in Hb as [[= -> ->]|Hb]; [by rewrite lookup_insert_eq|].
    rewrite lookup_insert_ne; [apply Hv; rewrite Hperm; by right|]. intros <-. apply Hna, list_elem_of_fmap. by exists (a, w).
  - intros b w [[= -> ->]|Hb]%elem_of_cons; [apply (Hlo a v); left|apply (Hlo b w); by right].
  - exists b0, e, live. split; [done|]. intros b w Hb. rewrite Hperm in Hb. apply elem_of_cons in Hb as [[= -> ->]|Hb]; [apply (Hl a v)|apply (Hl b w)]; rewrite Hperm; [left|by right].
Qed.
Lemma use_loose s p fs us a v ls :
  aspace s p fs us ((a, v) :: ls) ->
  exists s', list_op (fun l => list_add l (vma_list a) (vma_used p)) s = Ret (tt, s') /\ aspace s' p fs ((a, v) :: us) ls /\ same_rest s s' /\ rs_heap s' = rs_heap s.
Proof.
  intros Hvs. destruct (free_used_off _ _ _ _ _ a v Hvs) as [Hof Hou]; [left|]. pose proof Hvs as [Hf Hu Hv Hd Hp Hn Hlo (b0 & e & live & Hh & Hl)].
  destruct (list_add_spec _ _ _ _ Hu Hou (Hlo a v ltac:(left))) as (l' & Hadd & Hu' & Hs).
  exists (with_lists l' s). split; [by apply list_op_run|]. split; [|done].
  assert (Permutation (fs ++ us ++ (a, v) :: ls) (fs ++ ((a, v) :: us) ++ ls)) as Hperm by (apply Permutation_app_head; symmetry; apply Permutation_middle).
  split; cbn [with_lists rs_lists rs_vmas rs_heap]; [|done| |by rewrite <- Hperm|done|done| |].
  - apply (dll_frame (rs_lists s)); [done|]. intros b Hb. eapply list_add_frame; [exact Hu|exact Hadd| |by intros ->].
    intros Hb'. by eapply (lists_apart s p).
  - intros b w Hb. apply Hv. by rewrite Hperm.
  - intros b w Hb. apply Hs, (Hlo b w). by right.
  - exists b0, e, live. split; [done|]. intros b w Hb. apply (Hl b w). by rewrite Hperm.
Qed.
Lemma free_loose s p fs us a v ls :
  aspace s p fs us ((a, v) :: ls) ->
  exists s', list_op (fun l => list_add l (vma_list a) (vma_free p)) s = Ret (tt, s') /\ aspace s' p ((a, v) :: fs) us ls /\ same_rest s s' /\ rs_heap s' = rs_heap s.
Proof.
  intros Hvs. destruct (free_used_off _ _ _ _ _ a v Hvs) as [Hof Hou]; [left|]. pose proof Hvs as [Hf Hu Hv Hd Hp Hn Hlo (b0 & e & live & Hh & Hl)].
  destruct (list_add_spec _ _ _ _ Hf Hof (Hlo a v ltac:(left))) as (l' & Hadd & Hf' & Hs).
  exists (with_lists l' s). split; [by apply list_op_run|]. split; [|done].
  assert (Permutation (fs ++ us ++ (a, v) :: ls) ((a, v) :: fs ++ us ++ ls)) as Hperm by (rewrite !app_assoc; symmetry; apply Permutation_middle).
  split; cbn [with_lists rs_lists rs_vmas rs_heap]; [done| | |cbn [app]; by rewrite <- Hperm|done|done| |].
  - apply (dll_frame (rs_lists s)); [done|]. intros b Hb. eapply list_add_frame; [exact Hf|exact Hadd| |by intros ->].
    intros Hb'. by eapply (lists_apart s p).
  - intros b w Hb. apply Hv. by rewrite Hperm.
  - intros b w Hb. apply Hs, (Hlo b w). by right.
  - exists b0, e, live. split; [done|]. intros b w Hb. apply (Hl b w). by rewrite Hperm.
Qed.

(** A new free area, or a NULL dereference when the heap is used up. *)
Lemma free_area_spec s p fs us ls st en :
  aspace s p fs us ls ->
  (free_area stale p st en s = Fault /\ slab_size (rs_heap s) < 64) \/
  exists a s', free_area stale p st en s = Ret (tt, s') /\ aspace s' p ((a, vm_range st en (stale a).1) :: fs) us ls /\ same_rest s s' /\
    slab_size (rs_heap s) <= slab_size (rs_heap s') + 64.
Proof.
  intros Hvs. unfold free_area, halloc_vma, on_heap, zoom.
  destruct (halloc_loose s p fs us ls false Hvs) as [[Hz Hsz]|(a & h' & Hr & Ha0 & Hss & Hv1)].
  { left. split; [|exact Hsz]. mstep. rewrite Hz. cbn [Z.eqb]. unfold upd_vma. cbn [with_heap rs_vmas]. by rewrite (vs_null _ _ _ _ _ Hvs). }
  right. mstep. rewrite Hr, (proj2 (Z.eqb_neq a 0)) by lia. specialize (Hv1 (stale a).1 (stale a).2).
  destruct (upd_loose _ p fs us a _ ls (vm_range st en) Hv1) as (s2 & Hs2 & Hv2 & Hr2 & Hh2). cbn [with_heap rs_vmas rs_lists]. rewrite Hs2.
  destruct (free_loose s2 p fs us a _ ls Hv2) as (s3 & Hs3 & Hv3 & Hr3 & Hh3). exists a, s3. rewrite Hs3. split; [done|]. split; [done|].
  split; [by eapply same_rest_trans|]. rewrite Hh3, Hh2. exact Hss.
Qed.

Definition range_of (av : Z * vma) : Z * Z := (vm_start av.2, vm_end av.2).
(** What [split_vma] puts back: the part behind, and the whole area when
    there is a part in front. *)
Definition left_over (v : vma) (b e : Z) : list (Z * Z) :=
  (if e <? vm_end v then [(e, vm_end v)] else []) ++ (if vm_start v <? b then [(vm_start v, vm_end v)] else []).

Lemma split_vma_spec s p fs us a v b e :
  aspace s p fs us [(a, v)] -> vm_start v <= b -> e <= vm_end v ->
  (split_vma stale p a b e s = Fault /\ left_over v b e <> [] /\ slab_size (rs_heap s) < 128) \/
  exists s' extra, split_vma stale p a b e s = Ret (a, s') /\ aspace s' p (extra ++ fs) us [(a, vm_range b e v)] /\ range_of <$> extra = left_over v b e /\ same_rest s s'.
Proof.
  intros Hvs Hb He. assert (get_vma a s = Ret (v, s)) as Hg by (unfold get_vma; by rewrite (proj1 (vs_vmas _ _ _ _ _ Hvs a v ltac:(set_solver)))).
  unfold split_vma. erewrite M_bind_run by exact Hg. rewrite (proj2 (Z.leb_le _ _) Hb), (proj2 (Z.leb_le _ _) He). cbn [andb].
  erewrite M_bind_run by reflexivity. unfold left_over.
  assert (exists o, (if vm_start v <? b then free_area stale p (vm_start v) (vm_end v) else mret tt) s = o /\
    ((o = Fault /\ vm_start v < b /\ slab_size (rs_heap s) < 64) \/
     exists s1 x1, o = Ret (tt, s1) /\ aspace s1 p (x1 ++ fs) us [(a, v)] /\ same_rest s s1 /\ slab_size (rs_heap s) <= slab_size (rs_heap s1) + 64 /\
       range_of <$> x1 = if vm_start v <? b then [(vm_start v, vm_end v)] else [])) as (o1 & Ho1 & Hc1).
  { destruct (Z.ltb_spec (vm_start v) b) as [Hlt|Hge].
    - destruct (free_area_spec s p fs us _ (vm_start v) (vm_end v) Hvs) as [[-> ?]|(c & s1 & -> & Hv1 & Hr1 & Hz1)]; eexists; (split; [reflexivity|]); [by left|right].
      exists s1, [(c, vm_range (vm_start v) (vm_end v) (stale c).1)]. done.
    - eexists. split; [reflexivity|]. right. exists s, []. split_and!; done || lia. }
  destruct Hc1 as [(-> & Hlt & ?)|(s1 & x1 & -> & Hv1 & Hr1 & Hz1 & Hx1)].
  { left. unfold mbind, M_bind. rewrite Ho1, (proj2 (Z.ltb_lt _ _) Hlt). split; [done|]. split; [by destruct (e <? vm_end v)|lia]. }
  erewrite M_bind_run by exact Ho1.
  assert (exists o, (if e <? vm_end v then free_area stale p e (vm_end v) else mret tt) s1 = o /\
    ((o = Fault /\ e < vm_end v /\ slab_size (rs_heap s1) < 64) \/
     exists s2 x2, o = Ret (tt, s2) /\ aspace s2 p (x2 ++ x1 ++ fs) us [(a, v)] /\ same_rest s1 s2 /\
       range_of <$> x2 = if e <? vm_end v then [(e, vm_end v)] else [])) as (o2 & Ho2 & Hc2).
  { destruct (Z.ltb_spec e (vm_end v)) as [Hlt|Hge].
    - destruct (free_area_spec s1 p _ us _ e (vm_end v) Hv1) as [[-> ?]|(c & s2 & -> & Hv2 & Hr2 & _)]; eexists; (split; [reflexivity|]); [by left|right].
      exists s2, [(c, vm_range e (vm_end v) (stale c).1)]. done.
    - eexists. split; [reflexivity|]. right. by exists s1, []. }
  destruct Hc2 as [(-> & Hlt & ?)|(s2 & x2 & -> & Hv2 & Hr2 & Hx2)].
  { left. unfold mbind, M_bind. rewrite Ho2, (proj2 (Z.ltb_lt _ _) Hlt). split; [done|]. split; [done|lia]. }
  erewrite M_bind_run by exact Ho2. destruct (upd_loose s2 p _ us a v [] (vm_range b e) Hv2) as (s3 & Hs3 & Hv3 & Hr3 & _).
  right. exists s3, (x2 ++ x1). erewrite M_bind_run by exact Hs3. split; [done|]. rewrite <- app_assoc, fmap_app, Hx1, Hx2.
  split; [done|]. split; [done|]. by eapply same_rest_trans, same_rest_trans.
Qed.

(** The part of a free area that a request gets, if it fits. *)
Definition area_for (base size : Z) (v : vma) : Z * Z := if base =? 0 then (vm_start v, vm_end v) else (base, u64 (base + size)).
Definition fits (base size : Z) (v : vma) : bool := (vm_start v <=? (area_for base size v).1) && ((area_for base size v).2 <=? vm_end v).
Definition pick (base size : Z) (a : Z) (v : vma) : option (Z * Z * Z) :=
  if fits base size v then Some (a, (area_for base size v).1, (area_for base size v).2) else None.

Lemma pick_none base size fs : Forall (fun av => fits base size av.2 = false) fs -> first_some (pick base size) fs = None.
Proof. induction 1 as [|[a v] fs Hf _ IH]; [done|]. cbn [first_some]. unfold pick at 1. cbn [snd] in Hf. by rewrite Hf. Qed.
Lemma pick_first base size f1 a v f2 :
  Forall (fun av => fits base size av.2 = false) f1 -> fits base size v = true ->
  first_some (pick base size) (f1 ++ (a, v) :: f2) = Some (a, (area_for base size v).1, (area_for base size v).2).
Proof.
  intros H Hv. induction H as [|[c w] f1 Hf _ IH]; cbn [app first_some]; unfold pick at 1; [by rewrite Hv|]. cbn [snd] in Hf. by rewrite Hf.
Qed.

Lemma request_search s p fs us base size :
  aspace s p fs us [] ->
  vma_first (vma_free p) (fun a v =>
      let '(newbase, newend) := if base =? 0 then (vm_start v, vm_end v) else (base, u64 (base + size)) in
      if (vm_start v <=? newbase) && (newend <=? vm_end v) then Some (a, newbase, newend) else None) s
  = Ret (first_some (pick base size) fs, s).
Proof.
  intros Hvs. rewrite (vma_first_spec s (vma_free p) fs); [|by apply Hvs|intros b v Hb; apply (vs_vmas _ _ _ _ _ Hvs); set_solver].
  do 2 f_equal. clear. induction fs as [|[a v] fs IH]; cbn [first_some]; [done|]. unfold pick, fits, area_for in *. rewrite IH. by destruct (base =? 0).
Qed.

Lemma request_vma_spec s p f1 a v f2 us base size perm anon :
  aspace s p (f1 ++ (a, v) :: f2) us [] -> base = 0 \/ page_aligned base = true ->
  Forall (fun av => fits base size av.2 = false) f1 -> fits base size v = true ->
  let '(b, e) := area_for base size v in
  (request_vma stale p base size perm anon s = Fault /\ left_over v b e <> [] /\ slab_size (rs_heap s) < 128) \/
  exists s' extra, request_vma stale p base size perm anon s = Ret (a, s') /\ range_of <$> extra = left_over v b e /\
    aspace s' p (extra ++ f1 ++ f2) ((a, mkVma b e perm anon (vm_pma_handle v)) :: us) [] /\ same_rest s s'.
Proof.
  intros Hvs Hba Hf1 Hv. pose proof (request_search s p _ us base size Hvs) as Hs. rewrite (pick_first base size f1 a v f2 Hf1 Hv) in Hs.
  unfold request_vma. assert (negb (base =? 0) && negb (page_aligned base) = false) as -> by (destruct Hba as [->| ->]; [done|by rewrite andb_false_r]).
  erewrite M_bind_run by exact Hs. cbn beta iota. destruct (area_for base size v) as [b e] eqn:Ebe. cbn [fst snd].
  unfold fits in Hv. rewrite Ebe in Hv. cbn [fst snd] in Hv. apply andb_prop in Hv as [Hb%Z.leb_le He%Z.leb_le].
  destruct (take_free s p f1 a v f2 us Hvs) as (s1 & Hs1 & Hv1 & Hr1 & Hh1). erewrite M_bind_run by exact Hs1. rewrite <- Hh1.
  destruct (split_vma_spec s1 p _ us a v b e Hv1 Hb He) as [(Hz & ?)|(s2 & extra & Hs2 & Hv2 & Hx & Hr2)].
  { left. split; [|done]. unfold mbind, M_bind at 1. by rewrite Hz. }
  right. erewrite M_bind_run by exact Hs2. destruct (upd_loose s2 p _ us a _ [] (vm_grant perm anon) Hv2) as (s3 & Hs3 & Hv3 & Hr3 & _).
  erewrite M_bind_run by exact Hs3. destruct (use_loose s3 p _ us a _ [] Hv3) as (s4 & Hs4 & Hv4 & Hr4 & _). erewrite M_bind_run by exact Hs4.
  exists s4, extra. split_and!; [done|done|done|]. do 3 (eapply same_rest_trans; [eassumption|]). done.
Qed.

Lemma first_fit base size (fs : list (Z * vma)) :
  Forall (fun av => fits base size av.2 = false) fs \/
  exists f1 a v f2, fs = f1 ++ (a, v) :: f2 /\ Forall (fun av => fits base size av.2 = false) f1 /\ fits base size v = true.
Proof.
  induction fs as [|[a v] fs IH]; [by left|]. destruct (fits base size v) eqn:E; [right; by exists [], a, v, fs|].
  destruct IH as [IH|(f1 & b & w & f2 & -> & H1 & H2)]; [left; by constructor|right]. exists ((a, v) :: f1), b, w, f2. split_and!; [done|by constructor|done].
Qed.
Lemma area_bounds base size v :
  fits base size v = true -> 0 <= base /\ 0 <= size /\ base + size < 2 ^ 64 ->
  vm_start v <= (area_for base size v).1 /\ (area_for base size v).2 <= vm_end v /\
  ((area_for base size v).1 <= (area_for base size v).2 \/ area_for base size v = (vm_start v, vm_end v)).
Proof.
  unfold fits, area_for. intros [H1%Z.leb_le H2%Z.leb_le]%andb_prop Hs. split; [done|]. split; [done|].
  destruct (base =? 0); [by right|left]. cbn [fst snd]. rewrite u64_small by lia. lia.
Qed.

Lemma cover_app x l1 l2 : cover x (l1 ++ l2) = (cover x l1 + cover x l2)%nat.
Proof. unfold cover. by rewrite filter_app, length_app. Qed.
Lemma cover_cons x r l : cover x (r :: l) = ((if decide (in_range x r) then 1 else 0) + cover x l)%nat.
Proof. unfold cover. rewrite filter_cons. by destruct (decide _). Qed.
Lemma cover_split x v b e :
  vm_start v <= b /\ e <= vm_end v /\ (b <= e \/ (b, e) = (vm_start v, vm_end v)) ->
  (cover x (left_over v b e) + (if decide (in_range x (b, e)) then 1 else 0) =
   (if decide (in_range x (vm_start v, vm_end v)) then 1 else 0) + if decide (in_range x (b, vm_end v) /\ vm_start v <> b) then 1 else 0)%nat.
Proof.
  intros (Hb & He & Hbe). unfold left_over. rewrite cover_app. unfold range_of, in_range in *. cbn [fst snd vm_start vm_end].
  destruct (Z.ltb_spec e (vm_end v)), (Z.ltb_spec (vm_start v) b); rewrite ?cover_cons; unfold in_range; cbn [fst snd cover filter length];
    repeat destruct (decide _); destruct Hbe as [?|[= -> ->]]; try lia; cbn; lia.
Qed.

(** ** A new process *)

Lemma vspace_same s s' p fs us ls :
  rs_heap s' = rs_heap s -> rs_lists s' = rs_lists s -> rs_vmas s' = rs_vmas s -> aspace s p fs us ls -> aspace s' p fs us ls.
Proof. intros E1 E2 E3 [H1 H2 H3 H4 H5 H6 H7 H8]. split; rewrite ?E1, ?E2, ?E3; done. Qed.

Lemma halloc_zero_vma_spec s p fs us ls :
  aspace s p fs us ls -> 64 <= slab_size (rs_heap s) ->
  exists a s', halloc_zero_vma s = Ret (a, s') /\ 0 < a /\ aspace s' p fs us ((a, vma0) :: ls) /\ same_rest s s' /\ slab_size (rs_heap s) <= slab_size (rs_heap s') + 64.
Proof.
  intros Hvs Hsz. unfold halloc_zero_vma, on_heap, zoom.
  destruct (halloc_loose s p fs us ls true Hvs) as [[_ ?]|(a & h' & Hr & Ha0 & Hss & Hv1)]; [lia|].
  mstep. rewrite Hr, (proj2 (Z.eqb_neq a 0)) by lia. eexists a, _. split; [reflexivity|]. split; [done|]. split; [apply Hv1|]. done.
Qed.

Lemma init_head_run (h : lheap) a : is_Some (h !! a) -> exists h', INIT_LIST_HEAD h a = Ret h' /\ dll h' a [] /\ (forall b, b <> a -> h' !! b = h !! b) /\ (forall b, is_Some (h !! b) -> is_Some (h' !! b)).
Proof.
  intros [n Hn]. unfold INIT_LIST_HEAD, set_next, set_prev. rewrite Hn. cbn [mbind outcome_bind]. rewrite lookup_insert_eq. cbn [l_next].
  eexists. split; [reflexivity|]. rewrite insert_insert_eq. split; [|split].
  - split; [apply NoDup_singleton|]. cbn [links]. unfold next_of, prev_of. by rewrite lookup_insert_eq.
  - intros b Hb. by rewrite lookup_insert_ne.
  - intros b Hb. destruct (decide (b = a)) as [->|]; [by rewrite lookup_insert_eq|by rewrite lookup_insert_ne].
Qed.

Lemma vspace_start s p b0 e live :
  p mod 16 = 0 -> is_Some (rs_lists s !! vma_free p) -> is_Some (rs_lists s !! vma_used p) -> rs_vmas s !! 0 = None -> heap_ok b0 e (rs_heap s) live ->
  exists l1 s', INIT_LIST_HEAD (rs_lists s) (vma_free p) = Ret l1 /\ list_op (fun l => INIT_LIST_HEAD l (vma_used p)) (with_lists l1 s) = Ret (tt, s') /\
    aspace s' p [] [] [] /\ same_rest s s' /\ rs_heap s' = rs_heap s.
Proof.
  intros Hp Hf Hu Hn Hh. destruct (init_head_run _ _ Hf) as (l1 & H1 & D1 & F1 & S1). destruct (init_head_run l1 (vma_used p) (S1 _ Hu)) as (l2 & H2 & D2 & F2 & _).
  exists l1, (with_lists l2 (with_lists l1 s)). split; [done|]. split; [by apply list_op_run|]. split; [|done].
  split; cbn [with_lists rs_lists rs_vmas rs_heap app].
  - apply (dll_frame l1); [done|]. intros b ->%list_elem_of_singleton. apply F2. unfold vma_free, vma_used. lia.
  - done.
  - intros a v Hx. by apply elem_of_nil in Hx.
  - constructor.
  - done.
  - done.
  - intros a v Hx. by apply elem_of_nil in Hx.
  - exists b0, e, live. split; [done|]. intros a v Hx. by apply elem_of_nil in Hx.
Qed.

(** The area that [mmap] requests are served from, and the program's own. *)
Definition mmap_area : vma := mkVma PROCESS_MMAP_BOTTOM PROCESS_MMAP_TOP 0 0 0.
Definition elf_area (lo sz h : Z) : vma := mkVma lo (u64 (lo + sz)) KOBJ_RIGHT_RWX 0 h.
Definition brk_of (lo sz : Z) : Z := align_page_up (u64 (lo + sz)).

Lemma vspace_init_spec s p x lo sz b0 e live r2 w2 r3 w3 :
  p mod 16 = 0 -> is_Some (rs_lists s !! vma_free p) -> is_Some (rs_lists s !! vma_used p) -> rs_procs s !! p = Some x -> rs_vmas s !! 0 = None ->
  heap_ok b0 e (rs_heap s) live -> 128 <= slab_size (rs_heap s) -> brk_of lo sz <= PROCESS_BRK_TOP ->
  svc (SYS_kobject_create KOBJ_TYPE_PMA (PmaArg sz PMA_TYPE_NORMAL 0 KOBJ_RIGHT_RWX 0)) (rs_world s) = (r2, w2) -> 0 < s32 (__syscall_ret r2) ->
  svc (SYS_map (rp_handle x) (s32 (__syscall_ret r2)) lo sz KOBJ_RIGHT_RWX) w2 = (r3, w3) ->
  exists s' v a, vspace_init svc p lo sz s = Ret (s32 (__syscall_ret r3), s') /\
    aspace s' p [(v, mmap_area)] [] [(a, elf_area lo sz (s32 (__syscall_ret r2)))] /\
    rs_procs s' !! p = Some (mkRproc (rp_handle x) PROCESS_BRK_TOP (brk_of lo sz) (brk_of lo sz)) /\ rs_world s' = w3.
Proof.
  intros Hp Hf Hu Hx Hn Hh Hsz Hbrk H2 Hpos H3.
  destruct (vspace_start s p b0 e live Hp Hf Hu Hn Hh) as (l1 & s1 & Hl1 & Hs1 & Hv1 & (P1 & _ & W1) & E1).
  unfold vspace_init. erewrite M_bind_run by (apply list_op_run; exact Hl1). erewrite M_bind_run by exact Hs1.
  destruct (halloc_zero_vma_spec s1 p _ _ _ Hv1) as (v & s2 & Hs2 & Hv0 & Hv2 & (P2 & _ & W2) & Z2); [rewrite E1; lia|].
  erewrite M_bind_run by exact Hs2. rewrite (proj2 (Z.eqb_neq v 0)) by lia.
  destruct (upd_loose s2 p _ _ v _ _ (vm_range PROCESS_MMAP_BOTTOM PROCESS_MMAP_TOP) Hv2) as (s3 & Hs3 & Hv3 & (P3 & _ & W3) & E3). erewrite M_bind_run by exact Hs3.
  destruct (free_loose s3 p _ _ v _ _ Hv3) as (s4 & Hs4 & Hv4 & (P4 & _ & W4) & E4). erewrite M_bind_run by exact Hs4. cbv zeta.
  assert (rs_procs s4 !! p = Some x) as Hx4 by (by rewrite P4, P3, P2, P1). fold (brk_of lo sz).
  erewrite M_bind_run by (unfold upd_rproc; rewrite Hx4; reflexivity). rewrite (proj2 (Z.ltb_ge _ _) Hbrk).
  set (s5 := with_procs _ s4). assert (aspace s5 p [(v, mmap_area)] [] []) as Hv5 by (by apply (vspace_same s4)).
  destruct (halloc_zero_vma_spec s5 p _ _ _ Hv5) as (a & s6 & Hs6 & Ha0 & Hv6 & (P6 & _ & W6) & _); [cbn [s5 with_procs rs_heap]; rewrite E4, E3; rewrite E1 in Z2; lia|].
  erewrite M_bind_run by exact Hs6. rewrite (proj2 (Z.eqb_neq a 0)) by lia.
  destruct (upd_loose s6 p _ _ a _ _ (vm_range lo (u64 (lo + sz))) Hv6) as (s7 & Hs7 & Hv7 & (P7 & _ & W7) & _). erewrite M_bind_run by exact Hs7.
  destruct (upd_loose s7 p _ _ a _ _ (vm_grant KOBJ_RIGHT_RWX 0) Hv7) as (s8 & Hs8 & Hv8 & (P8 & _ & W8) & _). erewrite M_bind_run by exact Hs8.
  assert (rs_world s8 = rs_world s) as Hw8 by (rewrite W8, W7, W6; cbn [s5 with_procs rs_world]; by rewrite W4, W3, W2, W1).
  erewrite M_bind_run by (unfold create_pma, kobject_create, syscall; mstep; rewrite Hw8, H2; reflexivity).
  set (s9 := with_world w2 s8). assert (aspace s9 p [(v, mmap_area)] [] [(a, vm_grant KOBJ_RIGHT_RWX 0 (vm_range lo (u64 (lo + sz)) vma0))]) as Hv9 by (by apply (vspace_same s8)).
  destruct (upd_loose s9 p _ _ a _ _ (fun x => mkVma (vm_start x) (vm_end x) (vm_perm x) (vm_anon x) (s32 (__syscall_ret r2))) Hv9) as (s10 & Hs10 & Hv10 & (P10 & _ & W10) & _).
  erewrite M_bind_run by exact Hs10. rewrite (proj2 (Z.leb_gt _ _) Hpos).
  assert (rs_procs s10 !! p = Some (mkRproc (rp_handle x) PROCESS_BRK_TOP (brk_of lo sz) (brk_of lo sz))) as Hx10.
  { rewrite P10. cbn [s9 with_world rs_procs]. rewrite P8, P7, P6. cbn [s5 with_procs rs_procs]. apply lookup_insert_eq. }
  erewrite M_bind_run by (unfold get_rproc; rewrite Hx10; reflexivity). cbn [rp_handle].
  exists (with_world w3 s10), v, a. split.
  { unfold sys_map, syscall. mstep. rewrite W10. cbn [s9 with_world rs_world]. by rewrite H3. }
  split; [by apply (vspace_same s10)|]. done.
Qed.

Lemma create_new_proc_spec s b0 e live entry r1 w1 :
  heap_ok b0 e (rs_heap s) live -> 96 <= slab_size (rs_heap s) ->
  svc (SYS_kobject_create KOBJ_TYPE_PROCESS (ProcessArg entry PROCESS_STACK_BASE (-1) (-1) 2 0)) (rs_world s) = (r1, w1) ->
  exists p s', create_new_proc svc entry s = Ret (p, s') /\ p mod 16 = 0 /\ 0 < p /\ is_Some (rs_lists s' !! vma_free p) /\ is_Some (rs_lists s' !! vma_used p) /\
    rs_procs s' !! p = Some (mkRproc (s32 (__syscall_ret r1)) 0 0 0) /\ rs_vmas s' = rs_vmas s /\ rs_world s' = w1 /\
    heap_ok b0 e (rs_heap s') ({[p - 16]} ∪ live) /\ slab_size (rs_heap s) <= slab_size (rs_heap s') + 96.
Proof.
  intros Hh Hsz H1. destruct (halloc_block b0 e _ live sizeof_rproc Hh) as [[_ Hz]|(p & h0 & Hr & Hh0 & _ & Hm & H0 & Hss)]; [unfold sizeof_rproc; lia|change (rounded sizeof_rproc) with 80 in Hz; lia|].
  change (rounded sizeof_rproc) with 80 in Hss. unfold create_new_proc.
  erewrite M_bind_run; [|unfold on_heap, zoom, halloc_zero; mstep; rewrite Hr, (proj2 (Z.eqb_neq p 0)) by lia; reflexivity].
  rewrite (proj2 (Z.eqb_neq p 0)) by lia. erewrite M_bind_run by reflexivity.
  erewrite M_bind_run; [|unfold kobject_create, syscall; erewrite M_bind_run; [|cbn [with_procs with_lists with_heap rs_world]; rewrite H1; reflexivity]; reflexivity].
  erewrite M_bind_run; [|unfold upd_rproc; cbn [with_world with_procs rs_procs]; rewrite lookup_insert_eq; reflexivity].
  eexists p, _. split; [reflexivity|].
  cbn [with_world with_procs with_lists with_heap rs_lists rs_procs rs_vmas rs_world rs_heap rp_brk_end rp_brk_start rp_brk_cur].
  rewrite lookup_insert_eq. split_and!; [done|done| | |done|done|done|by apply heap_ok_memset|exact Hss].
  - apply lookup_insert_is_Some. right. split; [unfold rproc_list, vma_free; lia|]. apply lookup_insert_is_Some. right. split; [unfold vma_used, vma_free; lia|]. by rewrite lookup_insert_eq.
  - apply lookup_insert_is_Some. right. split; [unfold rproc_list, vma_used; lia|]. by rewrite lookup_insert_eq.
Qed.

(** The segments span exactly the addresses from [lo] to [hi]. *)
Definition is_hull (phs : list proghdr) (lo hi : Z) : Prop :=
  Forall (fun ph => loadable ph -> lo <= ph_vaddr ph /\ ph_vaddr ph + ph_memsz ph <= hi) phs /\
  (exists ph, ph ∈ phs /\ loadable ph /\ ph_vaddr ph = lo) /\ (exists ph, ph ∈ phs /\ loadable ph /\ ph_vaddr ph + ph_memsz ph = hi).
Definition seg_fits (ph : proghdr) : Prop := loadable ph -> 0 <= ph_filesz ph <= ph_memsz ph /\ 0 <= ph_vaddr ph /\ ph_vaddr ph + ph_memsz ph < 2 ^ 64.

Lemma scan_loop_spec img r inode file base phs off vb ve al :
  ramdisk_file_size img inode = Ret (Z.of_nat (length file)) -> ramdisk_file_base img r inode = Ret base -> has img base file -> Z.of_nat (length file) < 2 ^ 31 ->
  headers file off phs -> Forall seg_fits phs ->
  exists b e al', scan_loop img r (length phs) inode off vb ve al = Ret (Some (b, e, al')) /\ b <= vb /\ ve <= e /\
    Forall (fun ph => loadable ph -> b <= ph_vaddr ph /\ ph_vaddr ph + ph_memsz ph <= e) phs /\
    (b = vb \/ exists ph, ph ∈ phs /\ loadable ph /\ ph_vaddr ph = b) /\ (e = ve \/ exists ph, ph ∈ phs /\ loadable ph /\ ph_vaddr ph + ph_memsz ph = e).
Proof.
  intros Hs Hb Hf Hl. revert off vb ve al. induction phs as [|ph phs IH]; intros off vb ve al Hh Hok.
  { exists vb, ve, al. split; [done|]. split_and!; [done|done|constructor|by left|by left]. }
  pose proof Hh as (Ho & Hlen & _). cbn [length] in Hlen. apply headers_cons in Hh as [Hph Hh]. apply Forall_cons in Hok as [Hok0 Hok].
  cbn [length scan_loop]. unfold sizeof_proghdr. rewrite (u64_small off) by lia. rewrite (ramdisk_read_in img r inode file base 56 off) by (done || lia). cbn [mbind outcome_bind].
  change (u64 56 =? 56) with true. cbn [negb]. change (Z.to_nat 56) with 56%nat. rewrite Hph, s32_small by lia.
  destruct (Z.eqb_spec (ph_type ph) ELF_PROG_LOAD) as [Hload|Hno]; cbn [negb].
  - destruct (Hok0 Hload) as (? & ? & ?). rewrite (proj2 (Z.ltb_ge (ph_memsz ph) _)), (u64_small (_ + _)), (proj2 (Z.ltb_ge (_ + _) (ph_vaddr ph))) by lia.
    destruct (IH _ (if ph_vaddr ph <? vb then ph_vaddr ph else vb) (if ve <? ph_vaddr ph + ph_memsz ph then ph_vaddr ph + ph_memsz ph else ve)
      (if al <? field (take 56 (drop (Z.to_nat off) file)) 48 8 then field (take 56 (drop (Z.to_nat off) file)) 48 8 else al) Hh Hok)
      as (b & e & al' & Hr & Hle1 & Hle2 & Hall & Hbv & Hev).
    exists b, e, al'. split; [exact Hr|]. split; [destruct (Z.ltb_spec (ph_vaddr ph) vb); lia|]. split; [destruct (Z.ltb_spec ve (ph_vaddr ph + ph_memsz ph)); lia|].
    split; [constructor; [intros _; destruct (Z.ltb_spec (ph_vaddr ph) vb), (Z.ltb_spec ve (ph_vaddr ph + ph_memsz ph)); lia|done]|]. split.
    + destruct Hbv as [->|(q & Hq & ?)]; [|right; exists q; split; [by right|done]]. destruct (ph_vaddr ph <? vb); [right; exists ph; split; [left|done]|by left].
    + destruct Hev as [->|(q & Hq & ?)]; [|right; exists q; split; [by right|done]]. destruct (ve <? ph_vaddr ph + ph_memsz ph); [right; exists ph; split; [left|done]|by left].
  - destruct (IH _ vb ve al Hh Hok) as (b & e & al' & Hr & Hle1 & Hle2 & Hall & Hbv & Hev). exists b, e, al'. split_and!; [exact Hr|done|done|by constructor| |].
    + destruct Hbv as [->|(q & Hq & ?)]; [by left|right; exists q; split; [by right|done]].
    + destruct Hev as [->|(q & Hq & ?)]; [by left|right; exists q; split; [by right|done]].
Qed.
Lemma scan_hull img r inode file base phs off lo hi :
  ramdisk_file_size img inode = Ret (Z.of_nat (length file)) -> ramdisk_file_base img r inode = Ret base -> has img base file -> Z.of_nat (length file) < 2 ^ 31 ->
  headers file off phs -> Forall seg_fits phs -> is_hull phs lo hi ->
  exists al, scan_loop img r (length phs) inode off (u64 (-1)) 0 0 = Ret (Some (lo, hi, al)).
Proof.
  intros Hs Hb Hf Hl Hh Hok (Hall & (p & Hp & Hlp & Hlo) & (q & Hq & Hlq & Hhi)).
  destruct (scan_loop_spec img r inode file base phs off (u64 (-1)) 0 0 Hs Hb Hf Hl Hh Hok) as (b & e & al & Hr & _ & _ & Hbe & Hbv & Hev).
  exists al. rewrite Hr. rewrite Forall_forall in Hall, Hbe, Hok. destruct (Hbe p Hp Hlp), (Hbe q Hq Hlq), (Hok p Hp Hlp) as (? & ? & ?), (Hok q Hq Hlq) as (? & ? & ?).
  do 4 f_equal.
  - destruct Hbv as [->|(c & Hc & Hlc & <-)]; [change (u64 (-1)) with (2 ^ 64 - 1) in *; lia|destruct (Hall c Hc Hlc); lia].
  - destruct Hev as [->|(c & Hc & Hlc & <-)]; [lia|destruct (Hall c Hc Hlc); lia].
Qed.

(** The file holds an ELF program with headers [phs] that spans [lo] to [hi]. *)
Record sh_file (file : bytes) (entry : Z) (phs : list proghdr) (lo hi : Z) : Prop := {
  sf_magic : take 4 file = ELFMAG;
  sf_hdr : exists phoff, elfhdr_of (take 64 file) = mkElf ELF_MAGIC entry phoff (Z.of_nat (length phs)) /\ phoff < 2 ^ 31 /\ headers file phoff phs;
  sf_len : 64 <= Z.of_nat (length file);
  sf_segs : Forall seg_fits phs;
  sf_hull : is_hull phs lo hi }.
Definition map_size (lo hi : Z) : Z := align_page_up (u64 (hi - lo)).

(** The kernel's answers to the three calls: a process, an area, a mapping. *)
Record answers (w : W) (entry lo sz r1 r2 r3 : Z) (w3 : W) : Prop := {
  an_calls : exists w1 w2, svc (SYS_kobject_create KOBJ_TYPE_PROCESS (ProcessArg entry PROCESS_STACK_BASE (-1) (-1) 2 0)) w = (r1, w1) /\
    svc (SYS_kobject_create KOBJ_TYPE_PMA (PmaArg sz PMA_TYPE_NORMAL 0 KOBJ_RIGHT_RWX 0)) w1 = (r2, w2) /\
    svc (SYS_map (s32 (__syscall_ret r1)) (s32 (__syscall_ret r2)) lo sz KOBJ_RIGHT_RWX) w2 = (r3, w3);
  an_area : 0 < s32 (__syscall_ret r2) }.

Lemma exec_spec s img r path file inode entry phs lo hi arg args b0 e live r1 r2 r3 w3 :
  rs_disk s = Some r -> on_ramdisk img r path file inode -> sh_file file entry phs lo hi -> rs_vmas s !! 0 = None ->
  heap_ok b0 e (rs_heap s) live -> 224 <= slab_size (rs_heap s) -> brk_of lo (map_size lo hi) <= PROCESS_BRK_TOP ->
  answers (rs_world s) entry lo (map_size lo hi) r1 r2 r3 w3 ->
  exists s' p v a, exec svc img path (Some (arg :: args)) s = Ret (if s32 (__syscall_ret r3) <? 0 then -1 else 0, s') /\
    aspace s' p [(v, mmap_area)] [] [(a, elf_area lo (map_size lo hi) (s32 (__syscall_ret r2)))] /\
    rs_procs s' !! p = Some (mkRproc (s32 (__syscall_ret r1)) PROCESS_BRK_TOP (brk_of lo (map_size lo hi)) (brk_of lo (map_size lo hi))) /\ rs_world s' = w3.
Proof.
  intros Hd [Hopen [Hsize Hlen] (base & Hbase & Hhas)] [Hmag (phoff & Hhdr & Hpo & Hh) Hl64 Hsegs Hhull] Hn Hheap Hroom Hbrk [(w1 & w2 & C1 & C2 & C3) Hpos].
  unfold exec. erewrite M_bind_run by reflexivity. rewrite Hd. erewrite M_bind_run by (unfold lift; rewrite Hopen; reflexivity). cbn beta iota.
  erewrite M_bind_run; [|unfold lift, sizeof_elfhdr; rewrite (ramdisk_read_in img r inode file base 64 0) by (done || lia); reflexivity]. cbn beta iota.
  change (u64 64 =? sizeof_elfhdr) with true. cbn [negb]. change (drop (Z.to_nat 0) file) with file. change (Z.to_nat 64) with 64%nat.
  rewrite take_take. change (4 `min` 64)%nat with 4%nat. rewrite bool_decide_eq_true_2 by done. cbn [negb].
  rewrite Hhdr. cbn [elf_phnum elf_phoff elf_entry]. rewrite Nat2Z.id, s32_small by (destruct Hh; lia).
  destruct (scan_hull img r inode file base phs phoff lo hi Hsize Hbase Hhas Hlen Hh Hsegs Hhull) as (al & Hscan).
  erewrite M_bind_run by (unfold lift; rewrite Hscan; reflexivity). cbn beta iota zeta. fold (map_size lo hi).
  destruct (create_new_proc_spec s b0 e live entry r1 w1 Hheap ltac:(lia) C1) as (p & s1 & Hp & Hm & H0 & Hf & Hu & Hx & Hv1 & Hw1 & Hh1 & Hs1).
  erewrite M_bind_run by exact Hp. rewrite (proj2 (Z.eqb_neq p 0)) by lia.
  destruct (vspace_init_spec s1 p _ lo (map_size lo hi) b0 e ({[p - 16]} ∪ live) r2 w2 r3 w3 Hm Hf Hu Hx) as (s2 & v & a & Hs2 & Hvs & Hpr & Hw); [by rewrite Hv1|exact Hh1|lia|done|by rewrite Hw1|done|done|].
  exists s2, p, v, a. erewrite M_bind_run by exact Hs2. done.
Qed.

Lemma vspace_drop s p fs us x ls : aspace s p fs us (x :: ls) -> aspace s p fs us ls.
Proof.
  intros [H1 H2 Hv Hd Hp Hn Hlo (b0 & e & live & Hh & Hl)].
  assert (Permutation (fs ++ us ++ x :: ls) (x :: fs ++ us ++ ls)) as Hperm by (rewrite !app_assoc; symmetry; apply Permutation_middle).
  split; [done|done| | |done|done| |].
  - intros a v Ha. apply Hv. rewrite Hperm. by right.
  - rewrite Hperm in Hd. by apply NoDup_cons in Hd as [_ Hd].
  - intros a v Ha. apply (Hlo a v). by right.
  - exists b0, e, live. split; [done|]. intros a v Ha. apply (Hl a v). rewrite Hperm. by right.
Qed.

(** An anonymous mapping takes the first free area, whatever its length. *)
Definition anon_map (m : proto_mmap) : Prop := mm_addr m = 0 /\ mm_fd m = -1.
Lemma roots_mmap_spec s p fs us m :
  aspace s p fs us [] -> anon_map m ->
  match fs with
  | [] => roots_mmap stale p m s = Ret ((0, 2 ^ 64 - 1), s)
  | (a, v) :: fs' => exists s' perm, roots_mmap stale p m s = Ret ((0, vm_start v), s') /\
      aspace s' p fs' ((a, mkVma (vm_start v) (vm_end v) perm 1 (vm_pma_handle v)) :: us) []
  end.
Proof.
  intros Hvs [Ha Hf]. unfold roots_mmap. rewrite Ha, Hf. cbn [Z.eqb negb orb Pos.eqb]. cbv zeta. set (perm := Z.lor _ _). destruct fs as [|[a v] fs].
  - erewrite M_bind_run; [|unfold request_vma; cbn [Z.eqb negb andb]; erewrite M_bind_run by exact (request_search s p [] us 0 (align_up (mm_len m) PAGE_SIZE) Hvs); reflexivity]. done.
  - pose proof (request_vma_spec s p [] a v fs us 0 (align_up (mm_len m) PAGE_SIZE) perm 1 Hvs (or_introl eq_refl) (Forall_nil_2 _)) as Hr.
    unfold fits, area_for in Hr. cbn [Z.eqb fst snd] in Hr. rewrite !Z.leb_refl in Hr. specialize (Hr eq_refl). unfold left_over in Hr. rewrite !Z.ltb_irrefl in Hr.
    destruct Hr as [(_ & ? & _)|(s' & extra & Hr & Hx & Hvs' & _)]; [done|]. apply fmap_nil_inv in Hx as ->. cbn [app] in Hvs'.
    destruct (vs_vmas _ _ _ _ _ Hvs' a (mkVma (vm_start v) (vm_end v) perm 1 (vm_pma_handle v))) as (Hav & _ & Ha0); [set_solver|].
    exists s', perm. erewrite M_bind_run by exact Hr. rewrite (proj2 (Z.eqb_neq a 0)) by lia.
    split; [|done]. unfold get_vma. mstep. by rewrite Hav.
Qed.

Lemma roots_brk_spec s p x addr :
  rs_procs s !! p = Some x ->
  roots_brk p addr s =
    if addr =? 0 then Ret ((0, rp_brk_cur x), s)
    else if decide (in_range addr (rp_brk_start x, rp_brk_end x)) then Ret ((0, addr), with_procs (<[p := mkRproc (rp_handle x) (rp_brk_end x) (rp_brk_start x) addr]> (rs_procs s)) s)
    else Ret ((0, 2 ^ 64 - 1), s).
Proof.
  intros Hx. unfold roots_brk. erewrite M_bind_run by (unfold get_rproc; rewrite Hx; reflexivity). destruct (addr =? 0); [done|].
  unfold in_range. cbn [fst snd]. destruct (decide _) as [Hr|Hr].
  - rewrite (proj2 (Z.ltb_ge _ _)), (proj2 (Z.leb_gt _ _)) by lia. cbn [orb]. erewrite M_bind_run by (unfold upd_rproc; rewrite Hx; reflexivity). done.
  - destruct (Z.ltb_spec addr (rp_brk_start x)), (Z.leb_spec (rp_brk_end x) addr); cbn [orb]; done || lia.
Qed.
Lemma find_vma_spec s p fs us ls addr :
  aspace s p fs us ls -> find_vma p addr s = Ret (default 0 (first_some (fun a v => if (vm_start v <=? addr) && (addr <? vm_end v) then Some a else None) us), s).
Proof.
  intros Hvs. unfold find_vma. erewrite M_bind_run; [reflexivity|]. apply vma_first_spec; [by apply Hvs|].
  intros b v Hb. apply (vs_vmas _ _ _ _ _ Hvs). apply elem_of_app. right. apply elem_of_app. by left.
Qed.
End Vspace.

(** The initial stack, from its pointer on. *)
Definition stack_word (sp : Z) (bs : bytes) (a : Z) : outcome Z := rd_le bs (a - sp) 8.

Lemma stack_word_at sp bs off v : rd_le bs off 8 = Ret v -> stack_word sp bs (sp + off) = Ret v.
Proof. intros H. unfold stack_word. by replace (sp + off - sp) with off by lia. Qed.
Lemma aux_step sp bs fuel off x type val :
  rd_le bs off 8 = Ret type -> type <> 0 -> rd_le bs (off + 8) 8 = Ret val ->
  aux_loop (stack_word sp bs) (S fuel) (sp + off) x = aux_loop (stack_word sp bs) fuel (sp + (off + 16)) (aux_set x type val).
Proof.
  intros Ht Hn Hv. cbn [aux_loop]. rewrite (stack_word_at sp bs off type Ht). cbn [mbind outcome_bind].
  rewrite (proj2 (Z.eqb_neq type AT_NULL) Hn). replace (sp + off + 8) with (sp + (off + 8)) by lia.
  rewrite (stack_word_at sp bs (off + 8) val Hv). cbn [mbind outcome_bind]. f_equal. lia.
Qed.
(** What the service finds on the stack the kernel's [exec] built. *)
Lemma aux_of_exec sp argp fuel :
  (7 < fuel)%nat ->
  env_end (stack_word sp (stack_image argp)) fuel (sp + 24) = Ret (sp + 24) /\
  aux_loop (stack_word sp (stack_image argp)) fuel (sp + 24 + 8) (mkAux 0 0 0 0) =
    Ret (mkAux SYS_PROC_HEAP_BASE SYS_PROC_HEAP_END SYS_PROC_RAMDISK_BASE SYS_PROC_RAMDISK_END).
Proof.
  intros Hf. do 7 (destruct fuel as [|fuel]; [lia|]). split.
  - cbn [env_end]. by rewrite (stack_word_at sp _ 24 0).
  - replace (sp + 24 + 8) with (sp + 32) by lia. rewrite (aux_step _ _ _ 32 _ 65 SYS_PROC_RAMDISK_END) by done.
    rewrite (aux_step _ _ _ (32 + 16) _ 64 SYS_PROC_RAMDISK_BASE) by done. rewrite (aux_step _ _ _ (32 + 16 + 16) _ 63 SYS_PROC_HEAP_END) by done.
    rewrite (aux_step _ _ _ (32 + 16 + 16 + 16) _ 62 SYS_PROC_HEAP_BASE) by done. rewrite (aux_step _ _ _ (32 + 16 + 16 + 16 + 16) _ 16 0) by done.
    rewrite (aux_step _ _ _ (32 + 16 + 16 + 16 + 16 + 16) _ 6 4096) by done. cbn [aux_loop].
    by rewrite (stack_word_at sp _ (32 + 16 + 16 + 16 + 16 + 16 + 16) 0).
Qed.

(** ** Properties *)

(** C36: [request_vma] without an area that fits returns NULL and changes
    nothing. Otherwise, for an aligned address whose area does not wrap around,
    it takes the first free area that fits, all of it when no address is asked
    for, puts it first in the used list with the rights asked for, and puts
    back what is left; it dereferences NULL only if it has to split with less
    than 128 bytes of heap left. Every address then lies in as many areas as
    before, except when the address asked for is inside the area: everything
    from there to the end of the area is then free once more, because the part
    in front is put back with the end of the area instead of the address asked
    for. *)
Theorem request_vma_areas {W} (stale : Z -> vma * list_head) (s : rstate W) (p : Z) (fs us : list (Z * vma)) (base size perm anon : Z)
  (Hvs : aspace s p fs us []) (Hba : base = 0 \/ page_aligned base = true) (Hsz : 0 <= base /\ 0 <= size /\ base + size < 2 ^ 64) :
  (Forall (fun av => fits base size av.2 = false) fs /\ request_vma stale p base size perm anon s = Ret (0, s)) \/
  exists f1 a v f2, fs = f1 ++ (a, v) :: f2 /\ Forall (fun av => fits base size av.2 = false) f1 /\ fits base size v = true /\
    let '(b, e) := area_for base size v in
    (request_vma stale p base size perm anon s = Fault /\ left_over v b e <> [] /\ slab_size (rs_heap s) < 128) \/
    exists s' extra, request_vma stale p base size perm anon s = Ret (a, s') /\ range_of <$> extra = left_over v b e /\
      aspace s' p (extra ++ f1 ++ f2) ((a, mkVma b e perm anon (vm_pma_handle v)) :: us) [] /\
      forall x, cover x (range_of <$> (extra ++ f1 ++ f2) ++ (a, mkVma b e perm anon (vm_pma_handle v)) :: us) =
        (cover x (range_of <$> fs ++ us) + if decide (in_range x (b, vm_end v) /\ vm_start v <> b) then 1 else 0)%nat.
Proof.
  destruct (first_fit base size fs) as [Hno|(f1 & a & v & f2 & -> & Hf1 & Hv)]; [left|right].
  - split; [done|]. unfold request_vma.
    assert (negb (base =? 0) && negb (page_aligned base) = false) as -> by (destruct Hba as [->| ->]; [done|by rewrite andb_false_r]).
    erewrite M_bind_run by exact (request_search stale s p _ us base size Hvs). by rewrite pick_none.
  - exists f1, a, v, f2. split_and!; [done..|]. pose proof (request_vma_spec stale s p f1 a v f2 us base size perm anon Hvs Hba Hf1 Hv) as Hr.
    pose proof (area_bounds base size v Hv Hsz) as Hb. destruct (area_for base size v) as [b e]. cbn [fst snd] in Hb.
    destruct Hr as [?|(s' & extra & Hr & Hx & Hvs' & _)]; [by left|right]. exists s', extra. split_and!; [done..|]. intros x.
    rewrite !fmap_app, Hx. cbn [fmap list_fmap]. rewrite !cover_app, !cover_cons. pose proof (cover_split x v b e Hb) as Hc.
    change (range_of (a, mkVma _ _ _ _ _)) with (b, e). change (range_of (a, v)) with (vm_start v, vm_end v). lia.
Qed.

(** A free area at 0x10000 to 0x14000 of a process at 4112. *)
Definition demo_area : vma := mkVma 0x10000 0x14000 0 0 0.
Definition demo_rs : rstate () :=
  mkRs (mkHeap 4256 8192 3936 {[4096 := (80, SLAB_MAGIC); 4192 := (48, SLAB_MAGIC)]} (fun _ => 0) (replicate 8 []))
    {[4120 := mkHead 4240 4240; 4240 := mkHead 4120 4120; 4136 := mkHead 4136 4136]} {[4208 := demo_area]} {[4112 := mkRproc 1 0 0 0]} None tt.
Definition demo_stale (a : Z) : vma * list_head := (vma0, mkHead 0 0).
Lemma demo_vspace : aspace demo_rs 4112 [(4208, demo_area)] [] [].
Proof.
  destruct demo_heap_ok as (bl & fr & Hi0). pose proof (ex_intro _ bl (ex_intro _ fr Hi0) : heap_ok 4096 8192 demo_heap ∅) as Hk. clear Hi0 bl fr.
  destruct (halloc_block 4096 8192 demo_heap ∅ 80 Hk) as [[Hz _]|(a & h1 & Hr & Hk1 & _)]; [lia|vm_compute in Hz; discriminate|].
  assert (a = 4112) as -> by (apply (f_equal (fun o => match o with Ret (x, _) => x | _ => 0 end)) in Hr; vm_compute in Hr; by rewrite Hr).
  destruct (halloc_block 4096 8192 h1 _ 48 Hk1) as [[Hz _]|(b & h2 & Hr2 & Hk2 & _)]; [lia|injection Hr as <-; vm_compute in Hz; discriminate|].
  injection Hr as <-. assert (b = 4208) as -> by (apply (f_equal (fun o => match o with Ret (x, _) => x | _ => 0 end)) in Hr2; vm_compute in Hr2; by rewrite Hr2).
  split.
  - split; [|repeat split; reflexivity]. repeat (apply NoDup_cons; split; [set_solver|]). apply NoDup_nil_2.
  - split; [|repeat split; reflexivity]. apply NoDup_cons. split; [set_solver|apply NoDup_nil_2].
  - intros a v [= -> ->]%list_elem_of_singleton. split; [reflexivity|]. split; [reflexivity|lia].
  - apply NoDup_cons. split; [set_solver|apply NoDup_nil_2].
  - reflexivity.
  - reflexivity.
  - intros a v Hx. by apply elem_of_nil in Hx.
  - exists 4096, 8192, ({[4208 - 16]} ∪ ({[4112 - 16]} ∪ ∅)). split.
    + injection Hr2 as <-. exact Hk2.
    + intros a v [= -> ->]%list_elem_of_singleton. set_solver.
Qed.

Lemma request_vma_areas_witness :
  exists s' extra, request_vma demo_stale 4112 0x11000 0x1000 3 1 demo_rs = Ret (4208, s') /\
    range_of <$> extra = [(0x12000, 0x14000); (0x10000, 0x14000)] /\
    cover 0x13000 (range_of <$> extra ++ [(4208, mkVma 0x11000 0x12000 3 1 0)]) = 2%nat.
Proof.
  destruct (request_vma_areas demo_stale demo_rs 4112 [(4208, demo_area)] [] 0x11000 0x1000 3 1 demo_vspace) as [[Hno _]|(f1 & a & v & f2 & Hfs & _ & _ & Hr)].
  - right. reflexivity.
  - lia.
  - apply Forall_cons in Hno as [Hno _]. discriminate Hno.
  - destruct f1 as [|x f1]; [|destruct f1; discriminate Hfs]. injection Hfs as <- <- <-.
    destruct Hr as [(_ & _ & Hz)|(s' & extra & Hr & Hx & _ & Hc)]; [vm_compute in Hz; discriminate|].
    exists s', extra. split; [exact Hr|]. split; [exact Hx|]. rewrite app_nil_r in Hc. exact (Hc 0x13000).
Defined.

(** C4: the root service starts on the stack the kernel's [exec] built: it
    takes its heap and the ram disk from the auxiliary vector and, when the
    disk holds the shell as an ELF program whose segments span [lo] to [hi],
    the kernel hands out a memory area, and the break behind the program starts
    at or below 4 GB, makes exactly three calls (a process, an area for the
    span, a mapping of it) and returns 0, whatever the last one answers. The
    process then has a break that starts behind the program, moves anywhere up
    to 4 GB and nowhere else, and one free area; the program's own area is in
    neither list, so no address of it is found. The first anonymous mapping
    gets all of the free area whatever its length, and every later one fails.
    *)
Theorem roots_main_starts {W} (svc : sys_req -> W -> Z * W) (stale : Z -> vma * list_head) (h0 : hstate) (w w3 : W) (sp argp : Z) (disk : Z -> bytes)
  (r : ramdisk) (file allzero : bytes) (inode entry : Z) (phs : list proghdr) (lo hi r1 r2 r3 : Z) (fuel : nat)
  (Hz : Forall (eq 0) allzero) (Hfuel : (7 < fuel)%nat)
  (Hinit : ramdisk_init SYS_PROC_RAMDISK_BASE (disk SYS_PROC_RAMDISK_BASE) = Ret (0, Some r))
  (Hrd : on_ramdisk (disk SYS_PROC_RAMDISK_BASE) r sh_elf file inode) (Hsh : sh_file file entry phs lo hi)
  (Hbrk : brk_of lo (map_size lo hi) <= PROCESS_BRK_TOP) (Han : answers svc w entry lo (map_size lo hi) r1 r2 r3 w3) :
  exists s' p v a, main svc allzero (stack_word sp (stack_image argp)) disk fuel (sp + 24) (mkRs h0 ∅ ∅ ∅ None w) = Ret (0, s') /\
    aspace s' p [(v, mmap_area)] [] [(a, elf_area lo (map_size lo hi) (s32 (__syscall_ret r2)))] /\
    rs_procs s' !! p = Some (mkRproc (s32 (__syscall_ret r1)) PROCESS_BRK_TOP (brk_of lo (map_size lo hi)) (brk_of lo (map_size lo hi))) /\ rs_world s' = w3 /\
    (forall addr, addr = 0 \/ ~ in_range addr (brk_of lo (map_size lo hi), PROCESS_BRK_TOP) ->
      roots_brk p addr s' = Ret ((0, if addr =? 0 then brk_of lo (map_size lo hi) else 2 ^ 64 - 1), s')) /\
    (forall addr, addr <> 0 -> in_range addr (brk_of lo (map_size lo hi), PROCESS_BRK_TOP) ->
      exists s1, roots_brk p addr s' = Ret ((0, addr), s1) /\ roots_brk p 0 s1 = Ret ((0, addr), s1)) /\
    forall m, anon_map m -> exists s1, roots_mmap stale p m s' = Ret ((0, PROCESS_MMAP_BOTTOM), s1) /\
      (forall m', anon_map m' -> roots_mmap stale p m' s1 = Ret ((0, 2 ^ 64 - 1), s1)) /\
      forall addr, find_vma p addr s1 = Ret (if decide (in_range addr (PROCESS_MMAP_BOTTOM, PROCESS_MMAP_TOP)) then v else 0, s1).
Proof.
  destruct (aux_of_exec sp argp fuel Hfuel) as [He Hx]. unfold main.
  assert (forallb (Z.eqb 0) allzero = true) as Hzb by (apply forallb_forall; intros x Hin; rewrite Forall_forall in Hz; apply Z.eqb_eq, Hz; by apply list_elem_of_In).
  rewrite Hzb. erewrite M_bind_run by reflexivity. erewrite M_bind_run by (unfold lift; rewrite He; reflexivity). erewrite M_bind_run by (unfold lift; rewrite Hx; reflexivity).
  cbn [heapbase heapend ramdisk_base ramdisk_end].
  destruct (halloc_init_ok SYS_PROC_HEAP_BASE SYS_PROC_HEAP_END h0) as (h & Hh & Hok & Hsz); [done|done|done|done|].
  erewrite M_bind_run by (unfold on_heap, zoom; cbn [rs_heap]; rewrite Hh; reflexivity). cbn [Z.ltb Z.compare].
  erewrite M_bind_run by (unfold lift; rewrite Hinit; reflexivity). cbn beta iota. erewrite M_bind_run by reflexivity. cbn [Z.ltb Z.compare].
  set (s0 := with_disk _ _).
  destruct (exec_spec svc stale s0 (disk SYS_PROC_RAMDISK_BASE) r sh_elf file inode entry phs lo hi sh_elf [] SYS_PROC_HEAP_BASE SYS_PROC_HEAP_END ∅ r1 r2 r3 w3)
    as (s' & p & v & a & Hex & Hvs & Hpr & Hw); [reflexivity|done|done|reflexivity|exact Hok|cbn [s0 with_disk rs_heap with_heap]; by rewrite Hsz|done|exact Han|].
  exists s', p, v, a. split.
  { erewrite M_bind_run; [|unfold load_sh; erewrite M_bind_run by exact Hex; reflexivity]. done. }
  split; [done|]. split; [done|]. split; [done|].
  split; [intros addr Ha; rewrite (roots_brk_spec s' p _ addr Hpr); cbn [rp_brk_start rp_brk_end rp_brk_cur]; destruct (Z.eqb_spec addr 0); [done|rewrite decide_False by tauto; done]|].
  split; [intros addr Ha Hr; rewrite (roots_brk_spec s' p _ addr Hpr), (proj2 (Z.eqb_neq _ _) Ha); cbn [rp_brk_start rp_brk_end rp_brk_cur];
    rewrite decide_True by done; eexists; split; [reflexivity|]; by erewrite roots_brk_spec by (apply lookup_insert_eq)|].
  intros m Hm. apply vspace_drop in Hvs.
  destruct (roots_mmap_spec stale s' p _ _ m Hvs Hm) as (s1 & perm & H1 & Hv1). exists s1. split; [exact H1|].
  split; [intros m' Hm'; exact (roots_mmap_spec stale s1 p _ _ m' Hv1 Hm')|]. intros addr. rewrite (find_vma_spec s1 p _ _ _ addr Hv1). cbn [first_some mmap_area vm_start vm_end].
  unfold in_range; cbn [fst snd]. destruct (Z.leb_spec PROCESS_MMAP_BOTTOM addr), (Z.ltb_spec addr PROCESS_MMAP_TOP), (decide _); cbn [andb default]; done || lia.
Qed.

(** The program of [demo_elf] as the shell, on a disk of its own, and a
    kernel that answers every call. *)
Definition demo_sh_img : bytes :=
  RAMDISK_MAGIC ++ le_enc 4 1 ++ le_enc 4 0 ++ le_enc 8 48 ++ le_enc 8 96 ++ le_enc 8 220 ++
  sh_elf ++ replicate 26 0 ++ le_enc 8 0 ++ le_enc 8 124 ++ demo_elf.
Definition demo_svc (q : sys_req) (w : list sys_req) : Z * list sys_req :=
  (match q with SYS_kobject_create type _ => type + 1 | SYS_map _ _ _ _ _ => 0 end, w ++ [q]).

Lemma demo_sh_file : sh_file demo_elf 0x400ffe demo_phs 0x400ffe 0x401006.
Proof.
  split.
  - reflexivity.
  - exists 64. split; [vm_compute; reflexivity|]. split; [lia|]. split; [lia|]. split; [vm_compute; discriminate|].
    intros [|i] ph Hi; [|destruct i; discriminate Hi]. injection Hi as <-. vm_compute. reflexivity.
  - vm_compute. discriminate.
  - constructor; [|constructor]. intros _. cbn. lia.
  - split; [constructor; [intros _; cbn; lia|constructor]|]. split; (eexists; split; [left|split; reflexivity]).
Qed.
Lemma demo_sh_disk : on_ramdisk demo_sh_img (mkRd 48 1 96) sh_elf demo_elf 48.
Proof.
  split; [vm_compute; reflexivity|split; [vm_compute; reflexivity|vm_compute; reflexivity]|].
  exists 96. split; [vm_compute; reflexivity|]. split; [lia|]. intros j b Hj.
  change demo_sh_img with (take 96 demo_sh_img ++ demo_elf). rewrite lookup_app_r by (cbn; lia). rewrite <- Hj. f_equal. change (length (take 96 demo_sh_img)) with 96%nat. lia.
Qed.

Lemma roots_main_starts_witness :
  exists s' p v a, main demo_svc (replicate 512 0) (stack_word 0xF0001f00 (stack_image 0xF0001ff9)) (fun _ => demo_sh_img) 8 (0xF0001f00 + 24) (mkRs demo_heap ∅ ∅ ∅ None []) = Ret (0, s') /\
    aspace s' p [(v, mmap_area)] [] [(a, mkVma 0x400ffe 0x401ffe 7 0 4)] /\ rs_procs s' !! p = Some (mkRproc 2 (2 ^ 32) 0x402000 0x402000) /\ length (rs_world s') = 3%nat.
Proof.
  destruct (roots_main_starts demo_svc demo_stale demo_heap []
    [SYS_kobject_create 1 (ProcessArg 0x400ffe PROCESS_STACK_BASE (-1) (-1) 2 0); SYS_kobject_create 3 (PmaArg 4096 0 0 7 0); SYS_map 2 4 0x400ffe 4096 7]
    0xF0001f00 0xF0001ff9 (fun _ => demo_sh_img) (mkRd 48 1 96) demo_elf (replicate 512 0) 48 0x400ffe demo_phs 0x400ffe 0x401006 2 4 0 8) as (s' & p & v & a & Hm & Hv & Hp & Hw & _).
  - apply (bool_decide_unpack _). vm_compute. exact I.
  - lia.
  - vm_compute. reflexivity.
  - exact demo_sh_disk.
  - exact demo_sh_file.
  - vm_compute. discriminate.
  - split; [|reflexivity]. do 2 eexists. split; [reflexivity|]. split; [reflexivity|]. vm_compute. reflexivity.
  - exists s', p, v, a. split; [exact Hm|]. split; [exact Hv|]. split; [exact Hp|]. rewrite Hw. reflexivity.
Defined.
