(* ===== verification/Machine.v ===== *)
(** * The machine the kernel drives (inc/io.h, inc/gic_v3_reg.h, inc/sysreg.h)

    Memory-mapped device registers and the system registers of the CPU.  What
    an access does is hardware: a state machine [Machine] that the drivers are
    parametric in, with what they rely on as laws next to their theorems.
    Barriers order accesses and have no effect on a sequential state. *)
From S2P Require Import Prelude Config.

(** The system registers that the modelled code uses. *)
Inductive sysreg :=
| ICC_SRE_EL1 | ICC_BPR1_EL1 | ICC_PMR_EL1 | ICC_CTLR_EL1 | ICC_IGRPEN1_EL1 | ICC_SGI1R_EL1 | ICC_IAR1_EL1 | ICC_EOIR1_EL1
| cntv_ctl_el0 | cntv_cval_el0 | cntv_tval_el0 | cntp_ctl_el0 | cntp_cval_el0 | cntp_tval_el0 | cntvct_el0 | cntpct_el0 | cntfrq_el0
| dbgbcr0_el1 | dbgbcr1_el1 | dbgbvr0_el1 | dbgbvr1_el1 | mdscr_el1 | oslar_el1
| ID_AA64DFR0_EL1 | pmcr_el0 | pmccntr_el0 | pmccfiltr_el0 | pmcntenset_el0 | pmcntenclr_el0 | pmevcntr_el0 (n : Z) | pmevtyper_el0 (n : Z).
#[global] Instance sysreg_eq_dec : EqDecision sysreg.
Proof. solve_decision. Defined.

(** One access: its new state, and the value for a read.  [bytes] is the
    width of a memory access. *)
Class Machine := {
  mstate : Type;
  mmio_read : Z -> Z -> mstate -> Z * mstate; (* bytes, address *)
  mmio_write : Z -> Z -> Z -> mstate -> mstate; (* bytes, value, address *)
  sys_read : sysreg -> mstate -> Z * mstate;
  sys_write : sysreg -> Z -> mstate -> mstate }.

Section Access.
Context `{MA : Machine}.
Definition ioread32 (addr : Z) : M mstate Z := fun d => let '(v, d) := mmio_read 4 addr d in Ret (u32 v, d).
Definition iowrite32 (v addr : Z) : M mstate () := modify (mmio_write 4 (u32 v) addr).
Definition iowrite64 (v addr : Z) : M mstate () := modify (mmio_write 8 (u64 v) addr).
Definition read_sysreg (r : sysreg) : M mstate Z := fun d => let '(v, d) := sys_read r d in Ret (u64 v, d).
Definition write_sysreg (v : Z) (r : sysreg) : M mstate () := modify (sys_write r (u64 v)).
(** The 32-bit accessors move the low half. *)
Definition read_sysreg32 (r : sysreg) : M mstate Z := v ← read_sysreg r; mret (u32 v).
Definition write_sysreg32 (v : Z) (r : sysreg) : M mstate () := write_sysreg (u32 v) r.
End Access.

Lemma elem_of_upto a b step x : 0 < step -> x ∈ upto a b step <-> exists k, 0 <= k /\ x = a + step * k /\ x < b.
Proof.
  intros Hs. unfold upto. rewrite list_elem_of_fmap. setoid_rewrite elem_of_seqZ. split.
  - intros (k & -> & Hk). exists k. split; [lia|]. split; [done|].
    pose proof (Z.mul_div_le (b - a + (step - 1)) step Hs). assert (step * (k + 1) <= b - a + (step - 1)) by nia. lia.
  - intros (k & Hk & -> & Hb). exists k. split; [done|]. split; [lia|]. rewrite Z.add_0_l. cut (k + 1 <= (b - a + (step - 1)) / step); [lia|]. apply Z.div_le_lower_bound; nia.
Qed.

(** A property of the state that every step of a loop keeps. *)
Lemma forM_inv {S A} (P : S -> Prop) (l : list A) (body : A -> M S ()) s :
  P s -> (forall x s, x ∈ l -> P s -> exists s', body x s = Ret (tt, s') /\ P s') -> exists s', forM l body s = Ret (tt, s') /\ P s'.
Proof.
  revert s. induction l as [|x l IH]; intros s Hs Hb; [by exists s|]. cbn [forM].
  destruct (Hb x s ltac:(left) Hs) as (s1 & H1 & P1). erewrite M_bind_run by exact H1. apply IH; [done|]. intros y t Hy. apply Hb. by right.
Qed.
