(* ===== verification/Gic.v ===== *)
(** * The interrupt controller (ukern/src/gic_v3.c, inc/gic_v3.h, inc/cpumask.h, src/smp.c)

    The register maps are offsets from the pointers the driver keeps; the
    driver never reads a register back except to identify the device, to size
    it and to wait. *)
From S2P Require Import Prelude Config Bitmap Machine.

(** ** gic_v3.h, config.h *)
Definition SGI_MIN : Z := 0.
Definition SGI_MAX : Z := 15.
Definition PPI_MIN : Z := 16.
Definition SPI_MIN : Z := 32.
Definition IRQ_SPURIOUS : Z := 1023.

Inductive sgi_mode := SGI_TO_LIST | SGI_TO_OTHERS | SGI_TO_SELF.

(** [struct gic_dist_map]: the registers the driver touches. *)
Definition gicd_ctlr : Z := 0.
Definition gicd_typer : Z := 4.
Definition gicd_iidr : Z := 8.
Definition igrouprn (n : Z) : Z := 0x80 + 4 * n.
Definition isenablern (n : Z) : Z := 0x100 + 4 * n.
Definition icenablern (n : Z) : Z := 0x180 + 4 * n.
Definition icpendrn (n : Z) : Z := 0x280 + 4 * n.
Definition ipriorityrn (n : Z) : Z := 0x400 + 4 * n.
Definition icfgrn (n : Z) : Z := 0xC00 + 4 * n.
Definition iroutern (n : Z) : Z := 0x6100 + 8 * n.
(** [struct gic_rdist_map] and [struct gic_rdist_sgi_ppi_map]. *)
Definition gicr_ctlr : Z := 0.
Definition igroupr0 : Z := 0x80.
Definition isenabler0 : Z := 0x100.
Definition icenabler0 : Z := 0x180.
Definition icactiver0 : Z := 0x380.
Definition ipriorityrn_r (n : Z) : Z := 0x400 + 4 * n.
Definition icfgr0 : Z := 0xC00.
Definition icfgr1 : Z := 0xC04.

Definition GICD_RWP_BITMASK : Z := 2 ^ 31.
Definition GICR_RWP_BITMASK : Z := 2 ^ 3.
Definition GICD_CTLR_ARE_NS : Z := 2 ^ 4.
Definition GICD_CTLR_ENABLE_GRP1A : Z := 2 ^ 1.
Definition GICD_CTLR_ENABLE_GRP1 : Z := 2 ^ 0.
Definition PRIORITY_MASK : Z := 0xff.
Definition PRIORITY_IRQ_DEFAULT : Z := 0xa0.
Definition GIC_DEADLINE_MS : Z := 2.

(** ** cpumask.h *)
Definition cpumask : Type := list Z.
Definition cpumask_set_cpu (cpu : Z) (dstp : cpumask) : outcome cpumask := bitmap_set_bit dstp cpu.
Definition cpumask_clear_cpu (cpu : Z) (dstp : cpumask) : outcome cpumask := bitmap_clear_bit dstp cpu.
Definition cpumask_setall (dstp : cpumask) : outcome cpumask := bitmap_init dstp (BITMAP_SIZE CONFIG_NR_CPUS) BITMAP_FULL.
Definition cpumask_clearall (dstp : cpumask) : outcome cpumask := bitmap_init dstp (BITMAP_SIZE CONFIG_NR_CPUS) BITMAP_EMPTY.
Definition cpumask_first (srcp : cpumask) : outcome Z := bitmap_find_first_1 srcp (BITMAP_SIZE CONFIG_NR_CPUS).
Definition cpumask_next (n : Z) (srcp : cpumask) : outcome Z := bitmap_find_next_1 srcp (BITMAP_SIZE CONFIG_NR_CPUS) (n + 1).
(** [for_each_cpu]: the CPUs it visits; each lookup goes up, so there are at
    most [CONFIG_NR_CPUS]. *)
Fixpoint cpus_from (fuel : nat) (cpu : Z) (mask : cpumask) : outcome (list Z) :=
  if (0 <=? cpu) && (cpu <? CONFIG_NR_CPUS) then
    match fuel with
    | O => Diverge
    | S fuel' => n ← cpumask_next cpu mask; l ← cpus_from fuel' n mask; Ret (cpu :: l)
    end
  else Ret [].
Definition each_cpu (mask : cpumask) : outcome (list Z) := c ← cpumask_first mask; cpus_from 4 c mask.

(** ** smp.c: CPU numbers and affinities, without the MPIDR shift
    ([cpu_has_feature] answers 0) *)
Definition MPIDR_EL1_AFF0_SHIFT : Z := 0.
Definition MPIDR_EL1_AFF1_SHIFT : Z := 8.
Definition affinity_to_cpuid (affinity : Z) : Z :=
  let aff0 := Z.land (Z.shiftr affinity MPIDR_EL1_AFF0_SHIFT) 0xff in
  let aff1 := Z.land (Z.shiftr affinity MPIDR_EL1_AFF1_SHIFT) 0xff in
  s32 (aff1 * CONFIG_NR_CPUS_CLUSTER0 + aff0).
Definition cpuid_to_affinity (cpuid : Z) : Z :=
  if cpuid <? CONFIG_NR_CPUS_CLUSTER0 then u64 cpuid
  else u64 (Z.shiftl 1 MPIDR_EL1_AFF1_SHIFT + (cpuid - CONFIG_NR_CPUS_CLUSTER0)).

Section Gic.
Context `{MA : Machine} (patience : nat).

Record gic := mkGic { g_dev : mstate; gicd_map : Z; gicr_rd_map : list Z; gicr_sgi_map : list Z }.
Definition with_dev (d : mstate) (g : gic) : gic := mkGic d (gicd_map g) (gicr_rd_map g) (gicr_sgi_map g).
Abbreviation G := (M gic).
Definition on_dev {A} (m : M mstate A) : G A := zoom g_dev with_dev m.
Definition gicd (off : Z) : G Z := g ← get; mret (gicd_map g + off).
Definition gicr_rd (cpu off : Z) : G Z := g ← get; b ← lift (rd (gicr_rd_map g) cpu); mret (b + off).
Definition gicr_sgi (cpu off : Z) : G Z := g ← get; b ← lift (rd (gicr_sgi_map g) cpu); mret (b + off).

(** [cpu_id()] and [cur_cpuid()]: the first CPU. *)
Definition cpu_id : Z := 0.

Definition gicd_map_ok : G bool := a ← gicd gicd_iidr; v ← on_dev (ioread32 a); mret (Z.land v 0xff =? 0x3b).

(** Waiting for a register write to take effect, with a bound on the number of
    polls; [patience] is the fuel of the loop. *)
Fixpoint rwp_loop (fuel : nat) (ctlr mask ddl cnt : Z) : M mstate Z :=
  match fuel with
  | O => diverge
  | S fuel' =>
      if ddl <=? cnt then mret 1
      else v ← ioread32 ctlr; if Z.land v mask =? 0 then mret 0 else rwp_loop fuel' ctlr mask ddl (cnt + 1)
  end.
Definition gicv3_do_wait_for_rwp (ctlr mask : Z) : M mstate Z :=
  v ← ioread32 ctlr;
  if Z.land v mask =? 0 then mret 0 else rwp_loop patience ctlr mask (u32 (Z.shiftl GIC_DEADLINE_MS 30)) 0.
Definition gicv3_dist_wait_for_rwp : G () := a ← gicd gicd_ctlr; on_dev (gicv3_do_wait_for_rwp a GICD_RWP_BITMASK);; mret tt.
Definition gicv3_redist_wait_for_rwp (cpu : Z) : G () := a ← gicr_rd cpu gicr_ctlr; on_dev (gicv3_do_wait_for_rwp a GICR_RWP_BITMASK);; mret tt.

Definition put32 (v : Z) (reg : G Z) : G () := a ← reg; on_dev (iowrite32 v a).
Definition put64 (v : Z) (reg : G Z) : G () := a ← reg; on_dev (iowrite64 v a).

Definition gicv3_enable_sre : M mstate () := v ← read_sysreg32 ICC_SRE_EL1; write_sysreg32 (Z.lor v 1) ICC_SRE_EL1.

Definition gicd_gicr_map : G () :=
  modify (fun g => mkGic (g_dev g) (ptov CONFIG_GICD_BASE)
    ((fun i => u64 (ptov CONFIG_GICR_BASE + i * CONFIG_GICR_IO_SIZE_PERCPU)) <$> seqZ 0 CONFIG_NR_CPUS)
    ((fun i => u64 (ptov CONFIG_GICR_BASE + i * CONFIG_GICR_IO_SIZE_PERCPU + CONFIG_GICR_RD_SIZE)) <$> seqZ 0 CONFIG_NR_CPUS)).

Definition gicc_init : M mstate () :=
  gicv3_enable_sre;;
  write_sysreg32 0 ICC_BPR1_EL1;;
  write_sysreg32 PRIORITY_MASK ICC_PMR_EL1;;
  ctlr ← read_sysreg ICC_CTLR_EL1;
  write_sysreg (Z.land ctlr (u64 (Z.lnot (Z.shiftl 1 1)))) ICC_CTLR_EL1;;
  write_sysreg32 1 ICC_IGRPEN1_EL1.

Definition default_priority : Z := Z.lor (Z.lor (Z.lor (Z.shiftl PRIORITY_IRQ_DEFAULT 24) (Z.shiftl PRIORITY_IRQ_DEFAULT 16)) (Z.shiftl PRIORITY_IRQ_DEFAULT 8)) PRIORITY_IRQ_DEFAULT.

Definition gicd_init : G () :=
  assertM (cpu_id =? 0);;
  ok ← gicd_map_ok;
  assertM ok;;
  put32 0 (gicd gicd_ctlr);;
  gicv3_dist_wait_for_rwp;;
  a ← gicd gicd_typer;
  typer ← on_dev (ioread32 a);
  let nr_lines := 32 * (Z.land typer 0x1f + 1) in
  forM (upto SPI_MIN nr_lines 16) (fun i => put32 0 (gicd (icfgrn (i / 16))));;
  forM (upto SPI_MIN nr_lines 4) (fun i => put32 default_priority (gicd (ipriorityrn (i / 4))));;
  forM (upto SPI_MIN nr_lines 32) (fun i => put32 (-1) (gicd (icenablern (i / 32)));; put32 (-1) (gicd (icpendrn (i / 32))));;
  gicv3_dist_wait_for_rwp;;
  forM (upto 0 32 1) (fun i => put32 (-1) (gicd (igrouprn i)));;
  forM (upto SPI_MIN nr_lines 1) (fun i => put64 (cpuid_to_affinity 0) (gicd (iroutern i)));;
  gicv3_dist_wait_for_rwp;;
  put32 (Z.lor (Z.lor GICD_CTLR_ENABLE_GRP1 GICD_CTLR_ENABLE_GRP1A) GICD_CTLR_ARE_NS) (gicd gicd_ctlr).

Definition gicr_init (cpu : Z) : G () :=
  put32 (-1) (gicr_sgi cpu icactiver0);;
  forM (upto SGI_MIN PPI_MIN 4) (fun i => put32 default_priority (gicr_sgi cpu (ipriorityrn_r (i / 4))));;
  put32 0xffff0000 (gicr_sgi cpu icenabler0);;
  put32 0x0000ffff (gicr_sgi cpu isenabler0);;
  put32 0xffffffff (gicr_sgi cpu igroupr0);;
  put32 0 (gicr_sgi cpu icfgr1);;
  put32 0 (gicr_sgi cpu icfgr0);;
  gicv3_redist_wait_for_rwp cpu.

Definition gicv3_secondary_init : G () := gicr_init cpu_id;; on_dev gicc_init.
Definition init_gicv3 : G () := gicd_gicr_map;; gicd_init;; gicr_init cpu_id;; on_dev gicc_init.

Definition gicv3_irq_enable (intid : Z) : G () :=
  if intid <? SPI_MIN then put32 (BIT intid) (gicr_sgi cpu_id isenabler0);; gicv3_redist_wait_for_rwp cpu_id
  else put32 (BIT (intid mod 32)) (gicd (isenablern (intid / 32)));; gicv3_dist_wait_for_rwp.
Definition gicv3_irq_disable (intid : Z) : G () :=
  if intid <? SPI_MIN then put32 (BIT intid) (gicr_sgi cpu_id icenabler0);; gicv3_redist_wait_for_rwp cpu_id
  else put32 (BIT (intid mod 32)) (gicd (icenablern (intid / 32)));; gicv3_dist_wait_for_rwp.

(** The bits of the two clusters; a CPU behind the first cluster panics. *)
Fixpoint sgi_targets (cpus : list Z) (val0 : Z) : outcome Z :=
  match cpus with
  | [] => Ret val0
  | cpu :: cpus' => if CONFIG_NR_CPUS_CLUSTER0 <=? cpu then Halt else sgi_targets cpus' (Z.lor val0 (BIT cpu))
  end.
Definition __gicv3_send_sgi_list (intid : Z) (mask : cpumask) : M mstate () :=
  cpus ← lift (each_cpu mask);
  val_cluster0 ← lift (sgi_targets cpus 0);
  if negb (val_cluster0 =? 0) then write_sysreg (Z.lor val_cluster0 (u32 (Z.shiftl intid 24))) ICC_SGI1R_EL1 else mret tt.
Definition gicv3_send_sgi_list (intid : Z) (mask : cpumask) : M mstate () := __gicv3_send_sgi_list intid mask.
Definition gicv3_send_sgi (intid : Z) (mode : sgi_mode) (cpu cpu_self : cpumask) : M mstate () :=
  assertM (intid <? SGI_MAX);;
  match mode with
  | SGI_TO_LIST => gicv3_send_sgi_list intid cpu
  | SGI_TO_SELF => cpu_self ← lift (cpumask_clearall cpu_self); gicv3_send_sgi_list intid cpu_self
  | SGI_TO_OTHERS => halt
  end.

Definition gicv3_read_irq : M mstate Z := read_sysreg32 ICC_IAR1_EL1.
Definition gicv3_eoi_irq (intid : Z) : M mstate () := write_sysreg32 intid ICC_EOIR1_EL1.
End Gic.

(** ** What the controller promises

    The part of the GICv3 architecture the driver relies on: which lines the
    CPU can be interrupted by ([enabled]), how the set-enable and clear-enable
    registers change it, and that a register write is over after a bounded
    number of polls. *)
Definition GICD : Z := ptov CONFIG_GICD_BASE.
Definition GICR_RD : Z := u64 (ptov CONFIG_GICR_BASE + 0 * CONFIG_GICR_IO_SIZE_PERCPU).
Definition GICR_SGI : Z := u64 (ptov CONFIG_GICR_BASE + 0 * CONFIG_GICR_IO_SIZE_PERCPU + CONFIG_GICR_RD_SIZE).

(** The registers that hold line [i]. *)
Definition set_reg (i : Z) : Z := if i <? 32 then GICR_SGI + isenabler0 else GICD + isenablern (i / 32).
Definition clear_reg (i : Z) : Z := if i <? 32 then GICR_SGI + icenabler0 else GICD + icenablern (i / 32).
(** The effect of writing [v] at [a] on line [i]: the ones of a set-enable
    register set their lines, those of a clear-enable register clear them. *)
Definition enabled_after (a v i : Z) (b : bool) : bool :=
  if a =? set_reg i then b || Z.testbit v (i mod 32)
  else if a =? clear_reg i then b && negb (Z.testbit v (i mod 32)) else b.

Class GicDevice `{MA : Machine} := {
  enabled : mstate -> Z -> bool;
  busy : Z -> mstate -> nat; (* polls of a control register until RWP is clear *)
  settle : nat;
  gic_lines : Z;
  gic_write : forall n v a d i, 0 <= i < 1020 -> enabled (mmio_write n v a d) i = enabled_after a v i (enabled d i);
  gic_read : forall n a d i, 0 <= i < 1020 -> enabled ((mmio_read n a d).2) i = enabled d i;
  gic_sys_write : forall r v d i, 0 <= i < 1020 -> enabled (sys_write r v d) i = enabled d i;
  gic_sys_read : forall r d i, 0 <= i < 1020 -> enabled ((sys_read r d).2) i = enabled d i;
  gic_settles : forall a d, (busy a d <= settle)%nat;
  gic_settle_deadline : Z.of_nat settle < 2 ^ 31;
  gicd_rwp : forall d, let a := GICD + gicd_ctlr in let '(v, d') := mmio_read 4 a d in
    (Z.land (u32 v) GICD_RWP_BITMASK =? 0) = (busy a d =? 0)%nat /\ busy a d' = pred (busy a d);
  gicr_rwp : forall d, let a := GICR_RD + gicr_ctlr in let '(v, d') := mmio_read 4 a d in
    (Z.land (u32 v) GICR_RWP_BITMASK =? 0) = (busy a d =? 0)%nat /\ busy a d' = pred (busy a d);
  gicd_is_arm : forall d, Z.land (u32 ((mmio_read 4 (GICD + gicd_iidr) d).1)) 0xff = 0x3b;
  gicd_lines : forall d, 32 * (Z.land (u32 ((mmio_read 4 (GICD + gicd_typer) d).1)) 0x1f + 1) = gic_lines }.

Section Effect.
Context `{MA : Machine} {GD : GicDevice} (patience : nat) (Hpatience : (settle < patience)%nat).

(** The driver's pointers are those of [gicd_gicr_map]. *)
Definition mapped (g : gic) : Prop :=
  gicd_map g = GICD /\ gicr_rd_map g !! 0%nat = Some GICR_RD /\ gicr_sgi_map g !! 0%nat = Some GICR_SGI.

(** [m] returns, with a value in [Q], and changes the enabled lines by [f]. *)
Definition acts {A} (Q : A -> Prop) (f : Z -> bool -> bool) (m : M gic A) : Prop := forall g, mapped g ->
  exists a g', m g = Ret (a, g') /\ Q a /\ mapped g' /\ forall i, 0 <= i < 1020 -> enabled (g_dev g') i = f i (enabled (g_dev g) i).
(** [reg] is the address [a]. *)
Definition reg_at (reg : M gic Z) (a : Z) : Prop := forall g, mapped g -> reg g = Ret (a, g).
Definition anything {A} (a : A) : Prop := True.
Definition same (i : Z) (b : bool) : bool := b.

Lemma acts_bind {A B} Q f (m : M gic A) R h (k : A -> M gic B) :
  acts Q f m -> (forall a, Q a -> acts R h (k a)) -> acts R (fun i b => h i (f i b)) (m ≫= k).
Proof.
  intros Hm Hk g Hg. destruct (Hm g Hg) as (a & g1 & E1 & Qa & M1 & F1). destruct (Hk a Qa g1 M1) as (b & g2 & E2 & Rb & M2 & F2).
  exists b, g2. erewrite M_bind_run by exact E1. repeat split; try done; try apply M2. intros i Hi. by rewrite F2, F1.
Qed.
Lemma acts_ext {A} (Q Q' : A -> Prop) f f' m :
  acts Q f m -> (forall a, Q a -> Q' a) -> (forall i b, 0 <= i < 1020 -> f i b = f' i b) -> acts Q' f' m.
Proof.
  intros Hm HQ Hf g Hg. destruct (Hm g Hg) as (a & g1 & E1 & Qa & M1 & F1). exists a, g1. repeat split; try done; try apply M1; [by apply HQ|].
  intros i Hi. by rewrite F1, Hf.
Qed.
Lemma acts_ret {A} (a : A) : acts anything same (mret a).
Proof. intros g Hg. by exists a, g. Qed.
Lemma acts_assert c : c = true -> acts anything same (assertM c).
Proof. intros -> g Hg. by exists tt, g. Qed.

(** A step that leaves the lines alone, in front of the rest. *)
Lemma acts_skip {A B} Q (m : M gic A) R h (k : A -> M gic B) :
  acts Q same m -> (forall a, Q a -> acts R h (k a)) -> acts R h (m ≫= k).
Proof. intros Hm Hk. eapply acts_ext; [exact (acts_bind Q same m R h k Hm Hk)|done|done]. Qed.

Lemma acts_forM {A} (l : list A) (F : A -> Z -> bool -> bool) body :
  (forall x, x ∈ l -> acts anything (F x) (body x)) -> acts anything (fun i b => foldl (fun b x => F x i b) b l) (forM l body).
Proof.
  induction l as [|x l IH]; intros Hb; [apply (acts_ret tt)|]. cbn [forM].
  eapply acts_ext; [eapply (acts_bind anything (F x)); [apply Hb; left|]|done|].
  - intros a _. apply IH. intros y Hy. apply Hb. by right.
  - intros i b _. done.
Qed.
Lemma acts_forM_same {A} (l : list A) body : (forall x, x ∈ l -> acts anything same (body x)) -> acts anything same (forM l body).
Proof. intros Hb. eapply acts_ext; [exact (acts_forM l (fun _ => same) body Hb)|done|]. intros i b _. induction l; [done|]. apply IHl. intros x Hx. apply Hb. by right. Qed.

Lemma gicd_at off : reg_at (gicd off) (GICD + off).
Proof. intros g (H & _). unfold gicd, mbind, M_bind, get, mret, M_ret. by rewrite H. Qed.
Lemma gicr_rd_at off : reg_at (gicr_rd cpu_id off) (GICR_RD + off).
Proof. intros g (_ & H & _). unfold gicr_rd, mbind, M_bind, get, lift, rd, cpu_id. change (Z.to_nat 0) with 0%nat. by rewrite H. Qed.
Lemma gicr_sgi_at off : reg_at (gicr_sgi cpu_id off) (GICR_SGI + off).
Proof. intros g (_ & _ & H). unfold gicr_sgi, mbind, M_bind, get, lift, rd, cpu_id. change (Z.to_nat 0) with 0%nat. by rewrite H. Qed.

Lemma acts_put32 v reg a : reg_at reg a -> acts anything (enabled_after a (u32 v)) (put32 v reg).
Proof.
  intros Hr g Hg. exists tt, (with_dev (mmio_write 4 (u32 v) a (g_dev g)) g). unfold put32. erewrite M_bind_run by exact (Hr g Hg).
  split; [done|]. split; [done|]. split; [exact Hg|]. intros i Hi. by apply gic_write.
Qed.
Lemma acts_put64 v reg a : reg_at reg a -> acts anything (enabled_after a (u64 v)) (put64 v reg).
Proof.
  intros Hr g Hg. exists tt, (with_dev (mmio_write 8 (u64 v) a (g_dev g)) g). unfold put64. erewrite M_bind_run by exact (Hr g Hg).
  split; [done|]. split; [done|]. split; [exact Hg|]. intros i Hi. by apply gic_write.
Qed.
Lemma acts_reg reg a : reg_at reg a -> acts (eq a) same reg.
Proof. intros Hr g Hg. exists a, g. repeat split; try apply Hg; try done. by apply Hr. Qed.
Lemma acts_ioread32 a (Q : Z -> Prop) : (forall d, Q (u32 ((mmio_read 4 a d).1))) -> acts Q same (on_dev (ioread32 a)).
Proof.
  intros HQ g Hg. unfold on_dev, zoom, ioread32. specialize (HQ (g_dev g)). pose proof (gic_read 4 a (g_dev g)) as Hr.
  destruct (mmio_read 4 a (g_dev g)) as [v d]. exists (u32 v), (with_dev d g). repeat split; try done; apply Hg.
Qed.

(** Any sequence of system register accesses. *)
Definition keeps {A} (m : M mstate A) : Prop := forall d, exists a d', m d = Ret (a, d') /\ forall i, 0 <= i < 1020 -> enabled d' i = enabled d i.
Lemma acts_keeps {A} (m : M mstate A) : keeps m -> acts anything same (on_dev m).
Proof. intros Hm g Hg. destruct (Hm (g_dev g)) as (a & d & E & F). exists a, (with_dev d g). unfold on_dev, zoom. rewrite E. repeat split; try done; apply Hg. Qed.
Lemma keeps_bind {A B} (m : M mstate A) (k : A -> M mstate B) : keeps m -> (forall a, keeps (k a)) -> keeps (m ≫= k).
Proof.
  intros Hm Hk d. destruct (Hm d) as (a & d1 & E1 & F1). destruct (Hk a d1) as (b & d2 & E2 & F2). exists b, d2.
  erewrite M_bind_run by exact E1. split; [done|]. intros i Hi. by rewrite F2, F1.
Qed.
Lemma keeps_read r : keeps (read_sysreg r).
Proof. intros d. unfold read_sysreg. pose proof (gic_sys_read r d) as Hr. destruct (sys_read r d) as [v d']. by exists (u64 v), d'. Qed.
Lemma keeps_write v r : keeps (write_sysreg v r).
Proof. intros d. exists tt, (sys_write r (u64 v) d). split; [done|]. intros i Hi. by apply gic_sys_write. Qed.
Lemma keeps_read32 r : keeps (read_sysreg32 r).
Proof. apply keeps_bind; [apply keeps_read|]. intros a d. by exists (u32 a), d. Qed.
Lemma keeps_gicc_init : keeps gicc_init.
Proof.
  unfold gicc_init, gicv3_enable_sre, write_sysreg32.
  repeat first [apply keeps_write | apply keeps_read | apply keeps_read32 | apply keeps_bind; [|intros ?]].
Qed.

(** Waiting ends before the deadline, with the write finished. *)
Lemma rwp_loop_settles a mask (Ha : forall d, let '(v, d') := mmio_read 4 a d in (Z.land (u32 v) mask =? 0) = (busy a d =? 0)%nat /\ busy a d' = pred (busy a d)) :
  forall fuel d cnt, (busy a d < fuel)%nat -> cnt + Z.of_nat (busy a d) < 2 ^ 31 ->
  exists d', rwp_loop fuel a mask (2 ^ 31) cnt d = Ret (0, d') /\ busy a d' = 0%nat /\ forall i, 0 <= i < 1020 -> enabled d' i = enabled d i.
Proof.
  induction fuel as [|fuel IH]; intros d cnt Hf Hc; [lia|]. cbn [rwp_loop]. destruct (Z.leb_spec (2 ^ 31) cnt); [lia|].
  unfold mbind, M_bind, ioread32. specialize (Ha d) as Hd. pose proof (gic_read 4 a d) as Hr. destruct (mmio_read 4 a d) as [v d1]. destruct Hd as [-> Hp]. cbn [snd] in Hr.
  destruct (Nat.eqb_spec (busy a d) 0) as [H0|H0]; [exists d1; repeat split; [lia|done]|].
  destruct (IH d1 (cnt + 1)) as (d2 & E2 & B2 & F2); [lia|lia|]. exists d2. repeat split; try done. intros i Hi. by rewrite F2, Hr.
Qed.
Lemma wait_settles a mask (Ha : forall d, let '(v, d') := mmio_read 4 a d in (Z.land (u32 v) mask =? 0) = (busy a d =? 0)%nat /\ busy a d' = pred (busy a d)) d :
  exists d', gicv3_do_wait_for_rwp patience a mask d = Ret (0, d') /\ busy a d' = 0%nat /\ forall i, 0 <= i < 1020 -> enabled d' i = enabled d i.
Proof using Hpatience.
  unfold gicv3_do_wait_for_rwp, mbind, M_bind, ioread32. specialize (Ha d) as Hd. pose proof (gic_read 4 a d) as Hr. pose proof (gic_settles a d) as Hs. pose proof gic_settle_deadline as Hdl.
  destruct (mmio_read 4 a d) as [v d1]. destruct Hd as [-> Hp]. cbn [snd] in Hr.
  destruct (Nat.eqb_spec (busy a d) 0) as [H0|H0]; [exists d1; repeat split; [lia|done]|].
  change (u32 (Z.shiftl GIC_DEADLINE_MS 30)) with (2 ^ 31).
  destruct (rwp_loop_settles a mask Ha patience d1 0) as (d2 & E2 & B2 & F2); [lia|lia|]. exists d2. repeat split; try done. intros i Hi. by rewrite F2, Hr.
Qed.
Lemma acts_dist_wait : acts anything same (gicv3_dist_wait_for_rwp patience).
Proof using Hpatience.
  intros g Hg. unfold gicv3_dist_wait_for_rwp. erewrite M_bind_run by exact (gicd_at gicd_ctlr g Hg).
  destruct (wait_settles (GICD + gicd_ctlr) GICD_RWP_BITMASK gicd_rwp (g_dev g)) as (d' & E & _ & F).
  exists tt, (with_dev d' g). unfold on_dev, zoom, mbind, M_bind. rewrite E. repeat split; try done; apply Hg.
Qed.
Lemma acts_redist_wait : acts anything same (gicv3_redist_wait_for_rwp patience cpu_id).
Proof using Hpatience.
  intros g Hg. unfold gicv3_redist_wait_for_rwp. erewrite M_bind_run by exact (gicr_rd_at gicr_ctlr g Hg).
  destruct (wait_settles (GICR_RD + gicr_ctlr) GICR_RWP_BITMASK gicr_rwp (g_dev g)) as (d' & E & _ & F).
  exists tt, (with_dev d' g). unfold on_dev, zoom, mbind, M_bind. rewrite E. repeat split; try done; apply Hg.
Qed.

(** A write anywhere but to an enable register leaves every line as it is. *)
Lemma enabled_after_other a v i b :
  0 <= i < 1020 -> a <> GICR_SGI + isenabler0 -> a <> GICR_SGI + icenabler0 -> ~ (GICD + 0x100 <= a < GICD + 0x200) -> enabled_after a v i b = b.
Proof.
  intros Hi H1 H2 H3. unfold enabled_after, set_reg, clear_reg, isenablern, icenablern in *. assert (0 <= i / 32 < 32) by (split; [apply Z.div_pos; lia|apply Z.div_lt_upper_bound; lia]).
  repeat case_match; try done; lia.
Qed.
Lemma acts_put32_other v reg a :
  reg_at reg a -> a <> GICR_SGI + isenabler0 -> a <> GICR_SGI + icenabler0 -> ~ (GICD + 0x100 <= a < GICD + 0x200) -> acts anything same (put32 v reg).
Proof. intros Hr H1 H2 H3. eapply acts_ext; [exact (acts_put32 v reg a Hr)|done|]. intros i b Hi. by apply enabled_after_other. Qed.
Lemma acts_put64_other v reg a :
  reg_at reg a -> a <> GICR_SGI + isenabler0 -> a <> GICR_SGI + icenabler0 -> ~ (GICD + 0x100 <= a < GICD + 0x200) -> acts anything same (put64 v reg).
Proof. intros Hr H1 H2 H3. eapply acts_ext; [exact (acts_put64 v reg a Hr)|done|]. intros i b Hi. by apply enabled_after_other. Qed.
Lemma bases : GICD = 0xffff000008000000 /\ GICR_RD = 0xffff0000080a0000 /\ GICR_SGI = 0xffff0000080b0000.
Proof. split_and!; reflexivity. Qed.
(** Settles that an address is not that of an enable register. *)
Ltac away := destruct bases as (B1 & B2 & B3); rewrite ?B1, ?B2, ?B3; unfold isenabler0, icenabler0, gicd_ctlr, icfgrn, ipriorityrn, icpendrn, igrouprn, iroutern,
  icactiver0, ipriorityrn_r, igroupr0, icfgr0, icfgr1; lia.
Ltac other := first [eapply acts_put32_other; [first [apply gicd_at | apply gicr_sgi_at]|away..] | eapply acts_put64_other; [apply gicd_at|away..]].

(** Clearing a line in a fold over the registers is final, and happens when
    the register of the line is among them. *)
Lemma clear_all x i b : 32 <= i < 1020 -> 0 <= x / 32 -> enabled_after (GICD + icenablern (x / 32)) (u32 (-1)) i b = b && negb (bool_decide (i / 32 = x / 32)).
Proof.
  intros Hi Hx. assert (0 <= i / 32 < 32) by (split; [apply Z.div_pos; lia|apply Z.div_lt_upper_bound; lia]).
  unfold enabled_after, set_reg, clear_reg, isenablern, icenablern. destruct (Z.ltb_spec i 32); [lia|].
  destruct (Z.eqb_spec (GICD + (384 + 4 * (x / 32))) (GICD + (256 + 4 * (i / 32)))).
  - lia.
  - destruct (Z.eqb_spec (GICD + (384 + 4 * (x / 32))) (GICD + (384 + 4 * (i / 32)))).
    + rewrite bool_decide_eq_true_2 by lia. change (u32 (-1)) with (Z.ones 32). rewrite Z.ones_spec_low; [done|]. apply Z.mod_pos_bound. lia.
    + rewrite bool_decide_eq_false_2 by lia. by rewrite andb_true_r.
Qed.
Lemma clear_fold l i b : 32 <= i < 1020 -> (forall x, x ∈ l -> 0 <= x / 32) ->
  foldl (fun b x => enabled_after (GICD + icenablern (x / 32)) (u32 (-1)) i b) b l = b && negb (bool_decide (i / 32 ∈ (fun x => x / 32) <$> l)).
Proof.
  intros Hi. revert b. induction l as [|x l IH]; intros b Hl; cbn [foldl]; [by rewrite andb_true_r|].
  rewrite IH by (intros y Hy; apply Hl; by right). rewrite fmap_cons, clear_all by (first [done|apply Hl; left]).
  destruct b; [|done]. cbn [andb]. rewrite <- negb_orb. f_equal. rewrite <- bool_decide_or. apply bool_decide_ext. by rewrite elem_of_cons.
Qed.

Lemma clear_fold_private l i b : 0 <= i < 32 -> (forall x, x ∈ l -> 0 <= x / 32 < 1024) ->
  foldl (fun b x => enabled_after (GICD + icenablern (x / 32)) (u32 (-1)) i b) b l = b.
Proof.
  intros Hi. induction l as [|x l IH]; intros Hl; cbn [foldl]; [done|].
  cut (enabled_after (GICD + icenablern (x / 32)) (u32 (-1)) i b = b); [intros ->; apply IH; intros y Hy; apply Hl; by right|].
  specialize (Hl x ltac:(left)). unfold enabled_after, set_reg, clear_reg. destruct bases as (B1 & B2 & B3). rewrite B1, B3. unfold isenabler0, icenabler0, icenablern.
  repeat case_match; try done; lia.
Qed.

Lemma acts_gicd_init : acts anything (fun i b => b && negb (bool_decide (32 <= i < gic_lines))) (gicd_init patience).
Proof using Hpatience.
  unfold gicd_init, gicd_map_ok.
  eapply acts_skip; [by apply acts_assert|intros _ _].
  eapply (acts_skip (fun b : bool => b = true)).
  { eapply acts_skip; [apply acts_reg, gicd_at|]. intros ? <-. eapply acts_skip; [exact (acts_ioread32 _ (fun v => Z.land v 0xff = 0x3b) gicd_is_arm)|].
    intros v ->. intros g Hg. by exists true, g. }
  intros ok ->. eapply acts_skip; [by apply acts_assert|intros _ _].
  eapply acts_skip; [other|intros _ _]. eapply acts_skip; [apply acts_dist_wait|intros _ _].
  eapply acts_skip; [apply acts_reg, gicd_at|]. intros ? <-.
  eapply (acts_skip (fun v => 32 * (Z.land v 0x1f + 1) = gic_lines /\ 0 <= Z.land v 0x1f < 32)).
  { apply acts_ioread32. intros d. split; [apply gicd_lines|]. change 0x1f with (Z.ones 5). rewrite Z.land_ones by lia. apply Z.mod_pos_bound. lia. }
  intros typer (Hl & Hr). cbv zeta. rewrite Hl.
  assert (forall step x, 0 < step -> x ∈ upto SPI_MIN gic_lines step -> 32 <= x < 1024) as Hrange.
  { intros step x Hs (k & Hk & -> & Hb)%elem_of_upto; [|done]. unfold SPI_MIN in *. assert (0 <= step * k) by nia. lia. }
  assert (forall n x, 0 < n -> 32 <= x < 1024 -> 0 <= x / n < 1024) as Hdiv.
  { intros n x Hn Hx. split; [apply Z.div_pos; lia|]. apply Z.div_lt_upper_bound; nia. }
  eapply acts_skip; [apply acts_forM_same; intros x Hx|intros _ _].
  { apply Hrange, (Hdiv 16) in Hx; [|lia..]. other. }
  eapply acts_skip; [apply acts_forM_same; intros x Hx|intros _ _].
  { apply Hrange, (Hdiv 4) in Hx; [|lia..]. other. }
  eapply acts_ext; [eapply acts_bind; [apply (acts_forM _ (fun x => enabled_after (GICD + icenablern (x / 32)) (u32 (-1))))|intros _ _]|done|].
  - intros x Hx. apply Hrange, (Hdiv 32) in Hx; [|lia..]. eapply acts_ext; [eapply acts_bind; [apply acts_put32, gicd_at|intros _ _; other]|done|done].
  - eapply acts_skip; [apply acts_dist_wait|intros _ _].
    eapply acts_skip; [apply acts_forM_same; intros x (k & Hk & -> & Hx)%elem_of_upto; [other|lia]|intros _ _].
    eapply acts_skip; [apply acts_forM_same; intros x Hx; apply Hrange in Hx; [other|lia]|intros _ _].
    eapply acts_skip; [apply acts_dist_wait|intros _ _]. other.
  - intros i b Hi. unfold same. destruct (decide (i < 32)) as [Hlt|Hge].
    + rewrite bool_decide_eq_false_2, andb_true_r by lia. apply clear_fold_private; [lia|]. intros x Hx. apply Hrange, (Hdiv 32) in Hx; lia.
    + rewrite clear_fold by (first [lia | intros x Hx; apply Hrange, (Hdiv 32) in Hx; lia]). f_equal. f_equal. apply bool_decide_ext.
      rewrite list_elem_of_fmap. setoid_rewrite elem_of_upto; [|lia]. unfold SPI_MIN. split.
      * intros (x & Ei & k & Hk & -> & Hx). rewrite (Z.mul_comm 32 k), Z.div_add in Ei by lia. change (32 / 32) with 1 in Ei. pose proof (Z.div_mod i 32). pose proof (Z.mod_pos_bound i 32). lia.
      * intros Hi2. exists (32 * (i / 32)). pose proof (Z.div_mod i 32). pose proof (Z.mod_pos_bound i 32). split; [by rewrite Z.mul_comm, Z.div_mul|].
        exists (i / 32 - 1). lia.
Qed.

Lemma acts_gicr_init : acts anything (fun i b => if i <? 32 then i <? 16 else b) (gicr_init patience cpu_id).
Proof using Hpatience.
  unfold gicr_init.
  eapply acts_skip; [other|intros _ _].
  eapply acts_skip; [apply acts_forM_same; intros x (k & Hk & -> & Hx)%elem_of_upto; [|lia]|intros _ _].
  { unfold SGI_MIN, PPI_MIN in *. rewrite Z.add_0_l, (Z.mul_comm 4), Z.div_mul by lia. other. }
  eapply acts_ext; [eapply acts_bind; [apply acts_put32, gicr_sgi_at|intros _ _]|done|].
  { eapply acts_bind; [apply acts_put32, gicr_sgi_at|intros _ _].
    eapply acts_skip; [other|intros _ _]. eapply acts_skip; [other|intros _ _]. eapply acts_skip; [other|intros _ _]. apply acts_redist_wait. }
  intros i b Hi. unfold same. destruct (decide (i < 32)) as [Hlt|Hge].
  - unfold enabled_after, set_reg, clear_reg. destruct (Z.ltb_spec i 32); [|lia]. rewrite Z.mod_small by lia.
    replace (GICR_SGI + icenabler0 =? GICR_SGI + isenabler0) with false by reflexivity. rewrite !Z.eqb_refl.
    change (u32 4294901760) with (Z.shiftl (Z.ones 16) 16). change (u32 65535) with (Z.ones 16). rewrite Z.shiftl_spec by lia.
    destruct (Z.ltb_spec i 16).
    + rewrite (Z.ones_spec_low 16 i) by lia. by rewrite orb_true_r.
    + rewrite (Z.ones_spec_high 16 i), (Z.ones_spec_low 16 (i - 16)) by lia. by rewrite andb_false_r.
  - rewrite (proj2 (Z.ltb_ge i 32)) by lia. assert (0 <= i / 32 < 32) by (split; [apply Z.div_pos; lia|apply Z.div_lt_upper_bound; lia]).
    unfold enabled_after, set_reg, clear_reg. destruct bases as (B1 & B2 & B3). rewrite B1, B3. unfold isenabler0, icenabler0, isenablern, icenablern.
    repeat case_match; try done; lia.
Qed.

(** ** Enabling and disabling one line *)
Lemma line_word i : 0 <= i < 1020 -> 0 <= i / 32 < 32 /\ 0 <= i mod 32 < 32 /\ i = 32 * (i / 32) + i mod 32.
Proof. intros Hi. pose proof (Z.div_mod i 32). pose proof (Z.mod_pos_bound i 32). lia. Qed.
Lemma set_reg_inj i j : 0 <= i < 1020 -> 0 <= j < 1020 -> set_reg i = set_reg j -> i / 32 = j / 32.
Proof.
  intros Hi Hj. destruct (line_word i Hi) as (? & ? & ?), (line_word j Hj) as (? & ? & ?), bases as (B1 & B2 & B3).
  unfold set_reg. rewrite B1, B3. unfold isenabler0, isenablern. repeat case_match; lia.
Qed.
Lemma clear_reg_inj i j : 0 <= i < 1020 -> 0 <= j < 1020 -> clear_reg i = clear_reg j -> i / 32 = j / 32.
Proof.
  intros Hi Hj. destruct (line_word i Hi) as (? & ? & ?), (line_word j Hj) as (? & ? & ?), bases as (B1 & B2 & B3).
  unfold clear_reg. rewrite B1, B3. unfold icenabler0, icenablern. repeat case_match; lia.
Qed.
Lemma set_clear_reg i j : 0 <= i < 1020 -> 0 <= j < 1020 -> set_reg i <> clear_reg j.
Proof.
  intros Hi Hj. destruct (line_word i Hi) as (? & ? & ?), (line_word j Hj) as (? & ? & ?), bases as (B1 & B2 & B3).
  unfold set_reg, clear_reg. rewrite B1, B3. unfold icenabler0, icenablern, isenabler0, isenablern. repeat case_match; lia.
Qed.
Lemma reg_same_word i j : i / 32 = j / 32 -> set_reg i = set_reg j /\ clear_reg i = clear_reg j.
Proof.
  intros E. unfold set_reg, clear_reg. rewrite E. pose proof (Z.div_mod i 32). pose proof (Z.div_mod j 32). pose proof (Z.mod_pos_bound i 32). pose proof (Z.mod_pos_bound j 32).
  repeat case_match; first [done|lia].
Qed.
Lemma u32_BIT k : 0 <= k < 32 -> u32 (BIT k) = 2 ^ k.
Proof. intros Hk. rewrite BIT_small by lia. apply wrapu_small. split; [lia|]. apply Z.pow_lt_mono_r; lia. Qed.
Lemma bit_line i j : 0 <= i < 1020 -> 0 <= j < 1020 -> i / 32 = j / 32 -> Z.testbit (2 ^ (j mod 32)) (i mod 32) = bool_decide (i = j).
Proof.
  intros Hi Hj E. destruct (line_word i Hi) as (? & ? & ?), (line_word j Hj) as (? & ? & ?). rewrite Z.pow2_bits_eqb by lia.
  case_bool_decide; [subst; apply Z.eqb_refl|apply Z.eqb_neq; lia].
Qed.

Lemma enabled_set_one j i b : 0 <= i < 1020 -> 0 <= j < 1020 -> enabled_after (set_reg j) (u32 (BIT (j mod 32))) i b = b || bool_decide (i = j).
Proof.
  intros Hi Hj. unfold enabled_after. destruct (line_word j Hj) as (? & ? & ?). rewrite u32_BIT by done. destruct (decide (i / 32 = j / 32)) as [E|E].
  - destruct (reg_same_word i j E) as [-> _]. by rewrite Z.eqb_refl, bit_line.
  - rewrite (proj2 (Z.eqb_neq _ _)) by (intros R; apply E, set_reg_inj; done). rewrite (proj2 (Z.eqb_neq _ _)) by (by apply set_clear_reg).
    rewrite bool_decide_eq_false_2, orb_false_r; [done|]. by intros ->.
Qed.
Lemma enabled_clear_one j i b : 0 <= i < 1020 -> 0 <= j < 1020 -> enabled_after (clear_reg j) (u32 (BIT (j mod 32))) i b = b && negb (bool_decide (i = j)).
Proof.
  intros Hi Hj. unfold enabled_after. destruct (line_word j Hj) as (? & ? & ?). rewrite u32_BIT by done.
  rewrite (proj2 (Z.eqb_neq _ _)) by (intros R; by apply (set_clear_reg i j)). destruct (decide (i / 32 = j / 32)) as [E|E].
  - destruct (reg_same_word i j E) as [_ ->]. by rewrite Z.eqb_refl, bit_line.
  - rewrite (proj2 (Z.eqb_neq _ _)) by (intros R; apply E, clear_reg_inj; done).
    rewrite bool_decide_eq_false_2, andb_true_r; [done|]. by intros ->.
Qed.

Lemma acts_irq_enable intid : 0 <= intid < 1020 -> acts anything (fun i b => b || bool_decide (i = intid)) (gicv3_irq_enable patience intid).
Proof using Hpatience.
  intros Hj. unfold gicv3_irq_enable, SPI_MIN. eapply (acts_ext anything anything (fun i b => same i (enabled_after (set_reg intid) (u32 (BIT (intid mod 32))) i b))); [|done|intros i b Hi; by apply enabled_set_one].
  unfold set_reg. destruct (Z.ltb_spec intid 32).
  - rewrite (Z.mod_small intid) by lia. eapply acts_bind; [apply acts_put32, gicr_sgi_at|intros _ _; apply acts_redist_wait].
  - eapply acts_bind; [apply acts_put32, gicd_at|intros _ _; apply acts_dist_wait].
Qed.
Lemma acts_irq_disable intid : 0 <= intid < 1020 -> acts anything (fun i b => b && negb (bool_decide (i = intid))) (gicv3_irq_disable patience intid).
Proof using Hpatience.
  intros Hj. unfold gicv3_irq_disable, SPI_MIN. eapply (acts_ext anything anything (fun i b => same i (enabled_after (clear_reg intid) (u32 (BIT (intid mod 32))) i b))); [|done|intros i b Hi; by apply enabled_clear_one].
  unfold clear_reg. destruct (Z.ltb_spec intid 32).
  - rewrite (Z.mod_small intid) by lia. eapply acts_bind; [apply acts_put32, gicr_sgi_at|intros _ _; apply acts_redist_wait].
  - eapply acts_bind; [apply acts_put32, gicd_at|intros _ _; apply acts_dist_wait].
Qed.
End Effect.

(** ** A small controller: 288 lines, writes that need one poll *)
Module Demo.
Record dev := mkDev { d_en : Z -> bool; d_rwp : bool; d_rwpr : bool; d_pend : list Z; d_act : list Z; d_sgi : list Z }.
Definition read (n a : Z) (d : dev) : Z * dev :=
  if a =? GICD + gicd_ctlr then (if d_rwp d then 2 ^ 31 else 0, mkDev (d_en d) false (d_rwpr d) (d_pend d) (d_act d) (d_sgi d))
  else if a =? GICR_RD + gicr_ctlr then (if d_rwpr d then 8 else 0, mkDev (d_en d) (d_rwp d) false (d_pend d) (d_act d) (d_sgi d))
  else (if a =? GICD + gicd_iidr then 0x43b else if a =? GICD + gicd_typer then 8 else 0, d).
Definition write (n v a : Z) (d : dev) : dev :=
  mkDev (fun i => enabled_after a v i (d_en d i)) true true (d_pend d) (d_act d) (d_sgi d).
Definition sread (r : sysreg) (d : dev) : Z * dev :=
  match r with
  | ICC_IAR1_EL1 => match d_pend d with
                    | [] => (1023, d)
                    | i :: l => if (0 <=? i) && (i <? 1020) then (i, mkDev (d_en d) (d_rwp d) (d_rwpr d) l (i :: d_act d) (d_sgi d)) else (1023, d)
                    end
  | _ => (0, d)
  end.
Definition swrite (r : sysreg) (v : Z) (d : dev) : dev :=
  match r with
  | ICC_EOIR1_EL1 => match d_act d with
                     | i :: l => if i =? v then mkDev (d_en d) (d_rwp d) (d_rwpr d) (d_pend d) l (d_sgi d) else d
                     | [] => d
                     end
  | ICC_SGI1R_EL1 => mkDev (d_en d) (d_rwp d) (d_rwpr d) (d_pend d) (d_act d) (v :: d_sgi d)
  | _ => d
  end.
Definition machine : Machine := {| mstate := dev; mmio_read := read; mmio_write := write; sys_read := sread; sys_write := swrite |}.
#[global] Instance gic_device : @GicDevice machine.
Proof.
  refine (@Build_GicDevice machine d_en (fun a d => if a =? GICD + gicd_ctlr then Nat.b2n (d_rwp d) else Nat.b2n (d_rwpr d)) 1 288 _ _ _ _ _ _ _ _ _ _); cbn.
  - done.
  - intros n a d i _. unfold read. by repeat case_match.
  - intros r v d i _. destruct r; try done. cbn. destruct (d_act d); [done|]. by case_match.
  - intros r d i _. destruct r; try done. cbn. destruct (d_pend d); [done|]. by case_match.
  - intros a d. case_match; [destruct (d_rwp d)|destruct (d_rwpr d)]; cbn; lia.
  - done.
  - intros d. unfold read. rewrite Z.eqb_refl. by destruct (d_rwp d).
  - intros d. unfold read. change (GICR_RD + gicr_ctlr =? GICD + gicd_ctlr) with false. rewrite Z.eqb_refl. by destruct (d_rwpr d).
  - done.
  - done.
Defined.
(** Before initialisation: every line enabled, unknown pointers. *)
Definition dev0 : dev := mkDev (fun _ => true) false false [] [] [].
Definition gic0 : @gic machine := @mkGic machine dev0 0 [] [].
End Demo.

(** ** The theorem *)

(** Init_gicv3, whatever the controller was set to, returns with the
    pointers of the driver in place and with exactly the software generated
    interrupts 0 to 15 enabled: every private and shared line the controller
    has is off until a driver asks for it.  The waits for register writes end
    before their deadline. *)
Theorem init_gicv3_enables_sgis `{GD : GicDevice} (patience : nat) (Hp : (settle < patience)%nat) (g : gic) :
  exists g', init_gicv3 patience g = Ret (tt, g') /\ mapped g' /\
    forall i, 0 <= i < gic_lines -> i < 1020 -> enabled (g_dev g') i = (i <? 16).
Proof.
  set (g1 := mkGic (g_dev g) GICD ((fun i => u64 (ptov CONFIG_GICR_BASE + i * CONFIG_GICR_IO_SIZE_PERCPU)) <$> seqZ 0 CONFIG_NR_CPUS)
    ((fun i => u64 (ptov CONFIG_GICR_BASE + i * CONFIG_GICR_IO_SIZE_PERCPU + CONFIG_GICR_RD_SIZE)) <$> seqZ 0 CONFIG_NR_CPUS)).
  assert (mapped g1) as Hm by (by split_and!).
  assert (acts anything (fun i b => if i <? 32 then i <? 16 else b && negb (bool_decide (32 <= i < gic_lines)))
    (gicd_init patience;; gicr_init patience cpu_id;; on_dev gicc_init)) as Ha.
  { eapply acts_ext; [eapply acts_bind; [by apply acts_gicd_init|intros _ _]|done|].
    - eapply acts_bind; [by apply acts_gicr_init|intros _ _]. apply acts_keeps, keeps_gicc_init.
    - intros i b Hi. unfold same. by destruct (i <? 32). }
  destruct (Ha g1 Hm) as ([] & g' & E & _ & M' & F). exists g'. split; [exact E|]. split; [done|].
  intros i Hi Hi2. rewrite F by lia. destruct (Z.ltb_spec i 32); [done|]. rewrite bool_decide_eq_true_2, andb_false_r by lia. symmetry. apply Z.ltb_ge. lia.
Qed.

Lemma init_gicv3_enables_sgis_witness :
  exists g', @init_gicv3 Demo.machine 2 Demo.gic0 = Ret (tt, g') /\ enabled (g_dev g') 7 = true /\ enabled (g_dev g') 33 = false.
Proof.
  destruct (@init_gicv3_enables_sgis Demo.machine Demo.gic_device 2 (le_n 2) Demo.gic0) as (g' & E & _ & F).
  exists g'. split; [exact E|]. split; (rewrite F; [reflexivity|split; [discriminate|reflexivity]|reflexivity]).
Defined.

(** GICD_IROUTER of line n is at 0x6000 + 8 n, and the array of the driver
    starts at the register of line 32: [iroutern[i]] is the register of line
    i + 32.  Initialisation, which writes [iroutern[i]] for line i, leaves the
    routing of lines 32 to 63 alone. *)
Theorem init_routes_other_lines (i : Z) : iroutern i = 0x6000 + 8 * (i + 32).
Proof. unfold iroutern. lia. Qed.

(** [SGI_TO_SELF] empties the mask it sends to: nothing is sent. *)
Theorem sgi_to_self_sends_nothing `{MA : Machine} (intid : Z) (cpu cpu_self : cpumask) (d : mstate) :
  intid < 15 -> length cpu_self = 1%nat -> gicv3_send_sgi intid SGI_TO_SELF cpu cpu_self d = Ret (tt, d).
Proof.
  intros Hi Hl. destruct cpu_self as [|w [|]]; try done. unfold gicv3_send_sgi, assertM, assert_, SGI_MAX. rewrite (proj2 (Z.ltb_lt intid 15)) by done.
  reflexivity.
Qed.
