(* ===== verification/Irq.v ===== *)
(** * Interrupts (ukern/src/irq.c, inc/irq.h)

    The descriptor tables, registration and the dispatch loop.  Handlers are a
    type [H] with what calling one does ([call]) as parameters: the components
    that register handlers supply them. *)
From S2P Require Import Prelude Config Bitmap Machine Gic.

Definition NR_PPIS : Z := 16.
Definition NR_SGIS : Z := 16.
Definition NR_SPIS : Z := 256.
Definition NR_PCPU_IRQS : Z := NR_PPIS + NR_SGIS.
Definition NR_PCPU_IRQ_DESC : Z := NR_PCPU_IRQS * CONFIG_NR_CPUS.
Definition NR_SPI_IRQ_DESC : Z := NR_SPIS.

(** A [struct irq *]: an element of one of the two tables. *)
Inductive irq_ptr := PCPU_DESC (i : Z) | SPI_DESC (i : Z).
#[global] Instance irq_ptr_eq_dec : EqDecision irq_ptr.
Proof. solve_decision. Defined.
Definition irq_desc (cpuid intid : Z) : irq_ptr :=
  if intid <=? PPI_MIN then PCPU_DESC (cpuid * NR_PCPU_IRQS + intid) else SPI_DESC (intid - PPI_MIN).

Section Irq.
Context `{MA : Machine} (patience : nat) {W H : Type} (default_irq_handler : H).

Record irq := mkIrq { irq_intid : Z; irq_handler : H }.
Record irqs := mkIrqs { i_gic : gic; pcpu_irq_desc : list irq; spi_irq_desc : list irq; i_world : W }.
Definition with_gic (g : gic) (s : irqs) : irqs := mkIrqs g (pcpu_irq_desc s) (spi_irq_desc s) (i_world s).
Definition with_world (w : W) (s : irqs) : irqs := mkIrqs (i_gic s) (pcpu_irq_desc s) (spi_irq_desc s) w.
Definition on_gic {A} (m : M gic A) : M irqs A := zoom i_gic with_gic m.
Definition on_cpu {A} (m : M mstate A) : M irqs A := on_gic (on_dev m).

(** What calling a handler does. *)
Context (call : H -> Z -> M irqs ()).

(** The static initialisers. *)
Definition irq_tables_init (g : gic) (w : W) : irqs :=
  mkIrqs g (replicate (Z.to_nat NR_PCPU_IRQ_DESC) (mkIrq 0 default_irq_handler)) (replicate (Z.to_nat NR_SPI_IRQ_DESC) (mkIrq 0 default_irq_handler)) w.

Definition get_desc (p : irq_ptr) (s : irqs) : outcome irq :=
  match p with PCPU_DESC i => rd (pcpu_irq_desc s) i | SPI_DESC i => rd (spi_irq_desc s) i end.
Definition set_desc (p : irq_ptr) (d : irq) (s : irqs) : outcome irqs :=
  match p with
  | PCPU_DESC i => l ← wr (pcpu_irq_desc s) i d; Ret (mkIrqs (i_gic s) l (spi_irq_desc s) (i_world s))
  | SPI_DESC i => l ← wr (spi_irq_desc s) i d; Ret (mkIrqs (i_gic s) (pcpu_irq_desc s) l (i_world s))
  end.

Definition irq_enable (intid : Z) : M irqs () := on_gic (gicv3_irq_enable patience intid).
Definition irq_disable (intid : Z) : M irqs () := on_gic (gicv3_irq_disable patience intid).

(** [irq_desc] never answers NULL. *)
Definition irq_register (intid : Z) (handler : option H) : M irqs Z :=
  match handler with
  | None => mret (- EINVAL)
  | Some h =>
      s ← get;
      s ← lift (set_desc (irq_desc cpu_id intid) (mkIrq (u16 intid) h) s);
      put s;; irq_enable intid;; mret 0
  end.

(** The mask is a local; the assertion holds for every number. *)
Definition send_sgi (sgi cpuid : Z) (stack : cpumask) : M irqs () :=
  assertM ((0 <=? cpuid) || (cpuid <? CONFIG_NR_CPUS));;
  cpu ← lift (cpumask_clearall stack);
  cpu ← lift (cpumask_set_cpu cpuid cpu);
  on_cpu (gicv3_send_sgi sgi SGI_TO_LIST cpu stack).

Definition irq_read_pending : M irqs Z := on_cpu gicv3_read_irq.
Definition irq_end (intid : Z) : M irqs () := on_cpu (gicv3_eoi_irq intid).
Definition do_handle_host_irq (d : irq) : M irqs () := call (irq_handler d) (irq_intid d).

(** [while (1)]; one round per interrupt taken. *)
Fixpoint do_irq_handler (rounds : nat) : M irqs Z :=
  match rounds with
  | O => diverge
  | S rounds' =>
      v ← irq_read_pending;
      let intid := s32 v in
      if IRQ_SPURIOUS <=? intid then mret 0
      else
        s ← get;
        d ← lift (get_desc (irq_desc cpu_id (u32 intid)) s);
        do_handle_host_irq d;;
        irq_end (u32 intid);;
        do_irq_handler rounds'
  end.
End Irq.

(** ** What the CPU interface promises

    [pending] are the interrupts the next acknowledgements will answer, in the
    order in which the controller presents them as its lines stand, and
    [active] the stack of those being served.  Acknowledging takes the first
    and ending one takes nothing away; a line that goes on being asserted or
    comes up while a handler runs is a change that the handler's call makes to
    [pending], at any place of it. *)
Class CpuInterface `{MA : Machine} := {
  pending : mstate -> list Z;
  active : mstate -> list Z;
  pending_ids : forall d, Forall (fun i => 0 <= i < 1020) (pending d);
  iar_next : forall d i l, pending d = i :: l -> exists d', sys_read ICC_IAR1_EL1 d = (i, d') /\ pending d' = l /\ active d' = i :: active d;
  iar_spurious : forall d, pending d = [] -> exists d', sys_read ICC_IAR1_EL1 d = (IRQ_SPURIOUS, d') /\ pending d' = [] /\ active d' = active d;
  eoi_retires : forall d i l, active d = i :: l -> pending (sys_write ICC_EOIR1_EL1 i d) = pending d /\ active (sys_write ICC_EOIR1_EL1 i d) = l }.

Section Registry.
Context `{MA : Machine} {W H : Type} (dflt : H).
Abbreviation irqs := (@irqs MA W H).

(** The interrupts that have a descriptor of their own on the first CPU. *)
Definition has_desc (i : Z) : Prop := 0 <= i < 272.

(** The tables hold a finite map of handlers. *)
Definition registry (m : gmap Z H) (s : irqs) : Prop := forall i, has_desc i ->
  get_desc (irq_desc cpu_id i) s = Ret (match m !! i with Some h => mkIrq i h | None => mkIrq 0 dflt end).

Lemma irq_desc_inj i j : has_desc i -> has_desc j -> irq_desc cpu_id i = irq_desc cpu_id j -> i = j.
Proof. unfold has_desc, irq_desc, cpu_id, PPI_MIN. intros ??. repeat case_match; intros E; simplify_eq; lia. Qed.

Lemma rd_wr {A} (l l' : list A) i j x : wr l i x = Ret l' -> rd l' j = if j =? i then Ret x else rd l j.
Proof.
  intros (Hi & ->)%wr_Ret. unfold rd. destruct (Z.leb_spec 0 j), (Z.eqb_spec j i) as [->|]; try done; try lia.
  - by rewrite list_lookup_insert_eq by lia.
  - by rewrite list_lookup_insert_ne by lia.
Qed.
Lemma rd_wr_ok {A} (l : list A) i x y : rd l i = Ret x -> exists l', wr l i y = Ret l'.
Proof. intros (Hi & Hl)%rd_Ret. apply lookup_lt_Some in Hl. eexists. apply wr_in. lia. Qed.

Lemma set_desc_get p d d0 (s : irqs) : get_desc p s = Ret d0 ->
  exists s', set_desc p d s = Ret s' /\ i_gic s' = i_gic s /\ i_world s' = i_world s /\
    forall q, get_desc q s' = (if decide (q = p) then Ret d else get_desc q s).
Proof.
  destruct p as [i|i]; intros Hg; cbn in Hg; destruct (rd_wr_ok _ _ _ d Hg) as (l' & Hl); cbn; rewrite Hl; cbn; eexists; split; [done| |done|];
  (split; [done|]); (split; [done|]); intros [j|j]; cbn.
  all: try (rewrite (rd_wr _ _ _ _ _ Hl); destruct (Z.eqb_spec j i) as [->|]; [by rewrite decide_True|by rewrite decide_False by congruence]).
  all: by rewrite decide_False by done.
Qed.

Lemma registry_init (g : gic) (w : W) : registry ∅ (irq_tables_init dflt g w).
Proof.
  intros i Hi. rewrite lookup_empty. unfold has_desc, irq_desc, cpu_id, PPI_MIN in *. destruct (Z.leb_spec i 16); cbn.
  - apply rd_lookup; [unfold NR_PCPU_IRQS; lia|]. apply lookup_replicate_2. vm_compute (Z.to_nat NR_PCPU_IRQ_DESC). unfold NR_PCPU_IRQS. lia.
  - apply rd_lookup; [lia|]. apply lookup_replicate_2. vm_compute (Z.to_nat NR_SPI_IRQ_DESC). lia.
Qed.
End Registry.

(** ** Serving the queue *)
Section Dispatch.
Context `{CI : CpuInterface} {W H : Type} (dflt : H).
Abbreviation irqs := (@irqs MA W H).
Context (call : H -> Z -> M irqs ()) (eff : H -> Z -> W * list Z -> W * list Z).

Definition pend (s : irqs) : list Z := pending (g_dev (i_gic s)).
Definition act (s : irqs) : list Z := active (g_dev (i_gic s)).
Definition same_tables (s s' : irqs) : Prop := pcpu_irq_desc s' = pcpu_irq_desc s /\ spi_irq_desc s' = spi_irq_desc s.

(** A handler that returns, does [eff] to the world and to what is pending (it
    may quiet its line or not, and others may come up while it runs), and
    leaves the tables alone. *)
Definition calm (h : H) : Prop := forall i s, exists s',
  call h i s = Ret (tt, s') /\ (i_world s', pend s') = eff h i (i_world s, pend s) /\ act s' = act s /\ same_tables s s'.

Lemma registry_same (m : gmap Z H) s s' : same_tables s s' -> registry dflt m s -> registry dflt m s'.
Proof. intros (E1 & E2) Hr i Hi. rewrite <- (Hr i Hi). unfold get_desc. rewrite E1, E2. done. Qed.

(** The effect of one interrupt: its handler, or the default one, which is
    told 0 because an unused descriptor holds no number. *)
Definition serve (m : gmap Z H) (i : Z) : W * list Z -> W * list Z := match m !! i with Some h => eff h i | None => eff dflt 0 end.
(** What the entry is to do: serve the first until none is pending.  A number
    from 272 on is outside the tables; [rounds] of them do not end it if lines
    keep coming up. *)
Fixpoint serve_all (m : gmap Z H) (rounds : nat) (w : W) (l : list Z) : outcome W :=
  match rounds, l with
  | O, _ => Diverge
  | S _, [] => Ret w
  | S rounds', i :: l' => if i <? 272 then let '(w', l'') := serve m i (w, l') in serve_all m rounds' w' l'' else Fault
  end.

Lemma read_pending_next s i l : 0 <= i < 1024 -> pend s = i :: l ->
  exists s1, irq_read_pending s = Ret (i, s1) /\ pend s1 = l /\ act s1 = i :: act s /\ i_world s1 = i_world s /\ same_tables s s1.
Proof.
  intros Hi Hp. destruct (iar_next _ _ _ Hp) as (d' & E & P & A).
  exists (with_gic (with_dev d' (i_gic s)) s). unfold irq_read_pending, on_cpu, on_gic, on_dev, zoom, gicv3_read_irq, read_sysreg32, read_sysreg, mbind, M_bind, mret, M_ret.
  rewrite E. rewrite u64_small, u32_small by lia. by split_and!.
Qed.
Lemma read_pending_none s : pend s = [] ->
  exists s1, irq_read_pending s = Ret (IRQ_SPURIOUS, s1) /\ pend s1 = [] /\ act s1 = act s /\ i_world s1 = i_world s /\ same_tables s s1.
Proof.
  intros Hp. destruct (iar_spurious _ Hp) as (d' & E & P & A).
  exists (with_gic (with_dev d' (i_gic s)) s). unfold irq_read_pending, on_cpu, on_gic, on_dev, zoom, gicv3_read_irq, read_sysreg32, read_sysreg, mbind, M_bind, mret, M_ret.
  rewrite E. by split_and!.
Qed.
Lemma irq_end_retires s i l : 0 <= i < 1024 -> act s = i :: l ->
  exists s1, irq_end i s = Ret (tt, s1) /\ pend s1 = pend s /\ act s1 = l /\ i_world s1 = i_world s /\ same_tables s s1.
Proof.
  intros Hi Ha. destruct (eoi_retires _ _ _ Ha) as (P & A). exists (with_gic (with_dev (sys_write ICC_EOIR1_EL1 i (g_dev (i_gic s))) (i_gic s)) s).
  split; [|by split_and!]. unfold irq_end, on_cpu, on_gic, on_dev, zoom, gicv3_eoi_irq, write_sysreg32, write_sysreg, modify. by rewrite u32_small, u64_small by lia.
Qed.

Lemma dispatch_one (m : gmap Z H) s i l :
  registry dflt m s -> calm dflt -> map_Forall (fun _ => calm) m -> has_desc i -> pend s = i :: l ->
  exists s', (forall rounds, do_irq_handler call (S rounds) s = do_irq_handler call rounds s') /\
    act s' = act s /\ same_tables s s' /\ (i_world s', pend s') = serve m i (i_world s, l).
Proof.
  intros Hr Hd Hm Hi Hp. unfold has_desc in Hi. destruct (read_pending_next s i l ltac:(lia) Hp) as (s1 & E1 & P1 & A1 & W1 & T1).
  set (d := match m !! i with Some h => mkIrq i h | None => mkIrq 0 dflt end).
  assert (get_desc (irq_desc cpu_id i) s1 = Ret d) as Hget by (exact (registry_same m s s1 T1 Hr i Hi)).
  assert (calm (irq_handler d)) as Hc. { unfold d. destruct (m !! i) as [h|] eqn:Em; [exact (Hm i h Em)|done]. }
  destruct (Hc (irq_intid d) s1) as (s2 & E2 & W2 & A2 & T2).
  rewrite A1 in A2. destruct (irq_end_retires s2 i (act s) ltac:(lia) A2) as (s3 & E3 & P3 & A3 & W3 & T3).
  exists s3. split; [|split; [done|split]].
  - intros rounds. cbn [do_irq_handler]. mrun E1. rewrite s32_small by lia. unfold IRQ_SPURIOUS. rewrite (proj2 (Z.leb_gt 1023 i)) by lia.
    rewrite u32_small by lia. unfold get. unfold mbind at 1, M_bind at 1. unfold mbind at 1, M_bind at 1. unfold lift. rewrite Hget. mrun E2. mrun E3. done.
  - destruct T1, T2, T3. split; congruence.
  - rewrite W3, P3, W2, W1, P1. unfold serve, d. by destruct (m !! i).
Qed.
Lemma dispatch_off_table s i l rounds : length (spi_irq_desc s) = 256%nat -> 272 <= i < 1020 -> pend s = i :: l -> do_irq_handler call (S rounds) s = Fault.
Proof.
  intros Hs Hi Hp. destruct (read_pending_next s i l ltac:(lia) Hp) as (s1 & E1 & _ & _ & _ & _ & T1).
  cbn [do_irq_handler]. mrun E1. rewrite s32_small by lia. unfold IRQ_SPURIOUS. rewrite (proj2 (Z.leb_gt 1023 i)), u32_small by lia.
  unfold irq_desc, PPI_MIN. rewrite (proj2 (Z.leb_gt i 16)) by lia. unfold get, lift. unfold mbind at 1, M_bind at 1. unfold mbind at 1, M_bind at 1.
  unfold get_desc, rd. rewrite T1. rewrite lookup_ge_None_2 by lia. by destruct (0 <=? i - 16).
Qed.

(** The loop, by induction on its rounds. *)
Lemma do_irq_handler_run (m : gmap Z H) rounds : forall s,
  registry dflt m s -> length (spi_irq_desc s) = 256%nat -> calm dflt -> map_Forall (fun _ => calm) m ->
  match serve_all m rounds (i_world s) (pend s) with
  | Ret w' => exists s', do_irq_handler call rounds s = Ret (0, s') /\ pend s' = [] /\ act s' = act s /\ same_tables s s' /\ i_world s' = w'
  | Fault => do_irq_handler call rounds s = Fault
  | Diverge => do_irq_handler call rounds s = Diverge
  | Halt => False
  end.
Proof.
  induction rounds as [|rounds IH]; intros s Hr Hs Hd Hm; [done|]. cbn [serve_all].
  destruct (pend s) as [|i l] eqn:Ep.
  - destruct (read_pending_none s Ep) as (s1 & E1 & P1 & A1 & W1 & T1). exists s1. split; [cbn [do_irq_handler]; by mrun E1|done].
  - assert (0 <= i < 1020) as Hi by (pose proof (pending_ids (g_dev (i_gic s))) as HF; unfold pend in Ep; rewrite Ep in HF; by apply Forall_cons in HF as [? _]).
    destruct (Z.ltb_spec i 272) as [Hlt|Hge]; [|exact (dispatch_off_table s i l rounds Hs ltac:(lia) Ep)].
    destruct (dispatch_one m s i l Hr Hd Hm ltac:(unfold has_desc; lia) Ep) as (s1 & E1 & A1 & T1 & W1). rewrite <- W1, E1.
    specialize (IH s1 (registry_same m s s1 T1 Hr) ltac:(destruct T1 as [_ ->]; done) Hd Hm).
    destruct (serve_all m rounds (i_world s1) (pend s1)); [|done..]. destruct IH as (s2 & E2 & P2 & A2 & T2 & W2).
    exists s2. split_and!; [done|done|congruence| |done]. destruct T1, T2. split; congruence.
Qed.
Lemma serve_all_quiet (m : gmap Z H) (e : H -> Z -> W -> W) : (forall h i w l, eff h i (w, l) = (e h i w, l)) ->
  forall l rounds w, Forall has_desc l -> (length l < rounds)%nat ->
  serve_all m rounds w l = Ret (foldl (fun w i => match m !! i with Some h => e h i w | None => e dflt 0 w end) w l).
Proof.
  intros He l. induction l as [|i l IH]; intros rounds w Hl Hn; (destruct rounds as [|rounds]; [cbn in Hn; lia|]); [done|].
  apply Forall_cons in Hl as [Hi Hl]. cbn [serve_all foldl]. unfold has_desc in Hi. rewrite (proj2 (Z.ltb_lt i 272)) by lia.
  unfold serve. cbn in Hn. destruct (m !! i); rewrite He; apply IH; done || lia.
Qed.
End Dispatch.

(** ** The small controller of Gic.v, with handlers that log their calls *)
Module IrqDemo.
Definition valid (i : Z) : bool := (0 <=? i) && (i <? 1020).
(** The machine answers the pending numbers up to one that is not a line. *)
Fixpoint lines (l : list Z) : list Z := match l with i :: l' => if valid i then i :: lines l' else [] | [] => [] end.
#[global] Instance cpu_interface : @CpuInterface Demo.machine.
Proof.
  refine (@Build_CpuInterface Demo.machine (fun d => lines (Demo.d_pend d)) Demo.d_act _ _ _ _); cbn.
  - intros d. induction (Demo.d_pend d) as [|i l IH]; cbn; [by apply Forall_nil|]. destruct (valid i) eqn:Hv; [|by apply Forall_nil].
    apply Forall_cons. split; [|done]. unfold valid in Hv. apply andb_true_iff in Hv as [?%Z.leb_le ?%Z.ltb_lt]. lia.
  - intros d i l E. destruct (Demo.d_pend d) as [|j l'] eqn:Ed; cbn in E; [done|]. fold (valid j). destruct (valid j); [|done].
    injection E as <- <-. eexists. by split_and!.
  - intros d E. destruct (Demo.d_pend d) as [|j l'] eqn:Ed; cbn in E; [exists d; by rewrite Ed|]. fold (valid j).
    destruct (valid j) eqn:Hv; [done|]. exists d. rewrite Ed. cbn. by rewrite Hv.
  - intros d i l E. rewrite E, Z.eqb_refl. done.
Defined.
Definition log := list (Z * Z).
Definition st := @irqs Demo.machine log Z.
(** Handlers log their calls; the first time handler 5 is called, line 40
    comes up while it runs. *)
Definition raises (h : Z) (w : log) : list Z := if (h =? 5) && negb (existsb (fun c => c.1 =? 5) w) then [40] else [].
Definition eff (h i : Z) (s : log * list Z) : log * list Z := (s.1 ++ [(h, i)], raises h s.1 ++ s.2).
Definition raise (l : list Z) (s : st) : st :=
  let d := g_dev (i_gic s) in
  with_gic (with_dev (Demo.mkDev (Demo.d_en d) (Demo.d_rwp d) (Demo.d_rwpr d) (l ++ Demo.d_pend d) (Demo.d_act d) (Demo.d_sgi d) : @mstate Demo.machine) (i_gic s)) s.
Definition call (h i : Z) : M st () := modify (fun s => with_world (i_world s ++ [(h, i)]) (raise (raises h (i_world s)) s)).
Lemma calm_any h : calm call eff h.
Proof.
  intros i s. eexists. split; [reflexivity|]. split; [|by split_and!]. unfold eff. cbn [fst snd]. f_equal. unfold pend. cbn.
  unfold raises. by destruct (_ && _).
Qed.
(** Tables as at start-up, the driver's pointers set, interrupts 27, 33 and 27
    pending. *)
Definition gic1 : @gic Demo.machine :=
  @mkGic Demo.machine (Demo.mkDev (fun _ => false) false false [27; 33; 27] [] []) GICD [GICR_RD] [GICR_SGI].
Definition s0 : st := irq_tables_init 7 gic1 [].
(** Handler 5 is registered for line 33. *)
Definition s1 : st :=
  mkIrqs gic1 (pcpu_irq_desc s0) (<[17%nat := mkIrq 33 5]> (spi_irq_desc s0)) [].
Lemma registry_s1 : registry 7 {[33 := 5]} s1.
Proof.
  intros i Hi. destruct (decide (i = 33)) as [->|Hne]; [by rewrite lookup_singleton_eq|]. rewrite lookup_singleton_ne by done.
  pose proof (registry_init 7 gic1 ([] : log) i Hi) as H0. rewrite lookup_empty in H0. rewrite <- H0. unfold has_desc, irq_desc, cpu_id, PPI_MIN in *. destruct (Z.leb_spec i 16); [done|].
  cbn [get_desc s1 spi_irq_desc]. unfold rd. destruct (0 <=? i - 16); [|done]. by rewrite list_lookup_insert_ne by lia.
Qed.
End IrqDemo.

(** ** The theorems *)

(** [irq_register] is an update of a table of handlers: for an interrupt
    number with a descriptor of its own (0 to 271) it records exactly that
    number's handler, leaves every other one as it was, and enables exactly
    that line in the controller; without a handler it answers -EINVAL and
    changes nothing. *)
Theorem irq_register_refines `{GD : GicDevice} {W H : Type} (patience : nat) (Hp : (settle < patience)%nat)
    (dflt : H) (m : gmap Z H) (s : @irqs MA W H) (intid : Z) (handler : option H)
    (Hr : registry dflt m s) (Hm : mapped (i_gic s)) (Hi : has_desc intid) :
  match handler with
  | None => irq_register patience intid handler s = Ret (- EINVAL, s)
  | Some h => exists s', irq_register patience intid handler s = Ret (0, s') /\
      registry dflt (<[intid := h]> m) s' /\ mapped (i_gic s') /\ i_world s' = i_world s /\
      forall i, 0 <= i < 1020 -> enabled (g_dev (i_gic s')) i = enabled (g_dev (i_gic s)) i || bool_decide (i = intid)
  end.
Proof.
  destruct handler as [h|]; [|done]. unfold has_desc in Hi.
  destruct (set_desc_get _ (mkIrq (u16 intid) h) _ s (Hr intid Hi)) as (s1 & E1 & G1 & W1 & F1).
  destruct (acts_irq_enable patience Hp intid ltac:(lia) (i_gic s)) as ([] & g' & E2 & _ & M2 & F2); [done|].
  exists (with_gic g' s1). split_and!; [|intros i Hd|done|done|done].
  - cbn [irq_register]. unfold get. unfold mbind at 1, M_bind at 1. unfold mbind at 1, M_bind at 1. unfold lift. rewrite E1. unfold put. unfold mbind at 1, M_bind at 1.
    unfold irq_enable, on_gic, zoom, mbind, M_bind. by rewrite G1, E2.
  - transitivity (get_desc (irq_desc cpu_id i) s1); [done|]. rewrite F1. destruct (decide (i = intid)) as [->|Hne].
    + rewrite decide_True by done. rewrite lookup_insert_eq. unfold wrapu. by rewrite Z.mod_small by lia.
    + rewrite decide_False by (intros E; by apply irq_desc_inj in E). rewrite lookup_insert_ne by done. by apply Hr.
Qed.

Lemma irq_register_refines_witness :
  exists s', irq_register 2 33 (Some 5) IrqDemo.s0 = Ret (0, s') /\ registry 7 {[33 := 5]} s' /\
    enabled (g_dev (i_gic s')) 33 = true /\ enabled (g_dev (i_gic s')) 34 = false.
Proof.
  destruct (@irq_register_refines Demo.machine Demo.gic_device IrqDemo.log Z 2 (le_n 2) 7 ∅ IrqDemo.s0 33 (Some 5)) as (s' & E & R & _ & _ & F);
    [apply registry_init|by split_and!|by split|].
  exists s'. split; [exact E|]. split; [exact R|]. split; (rewrite F; [reflexivity|split; [discriminate|reflexivity]]).
Defined.

(** C10: The interrupt entry serves what is pending.  Let the tables hold a
    registry of handlers, each of which returns and leaves the tables and the
    active interrupts alone; a handler may change what is pending, so lines
    may stay asserted or come up while it runs.  Then the loop takes the
    interrupts in the order the controller presents them, calls for each the
    handler registered for its number, with that number (an unregistered one
    below 272 goes to the default handler with 0), signals the end of each and
    returns once nothing is pending, with no interrupt left active by it.  A
    number from 272 on reads a descriptor behind the tables, and if lines keep
    coming up the loop does not end.  When handlers raise nothing and all
    numbers are below 272, it ends after one round per pending interrupt. *)
Theorem do_irq_handler_serves `{CI : CpuInterface} {W H : Type} (dflt : H) (call : H -> Z -> M (@irqs MA W H) ())
    (eff : H -> Z -> W * list Z -> W * list Z) (m : gmap Z H) (s : @irqs MA W H)
    (Hr : registry dflt m s) (Hs : length (spi_irq_desc s) = 256%nat) (Hd : calm call eff dflt) (Hm : map_Forall (fun _ => calm call eff) m) :
  (forall rounds, match serve_all dflt eff m rounds (i_world s) (pend s) with
     | Ret w' => exists s', do_irq_handler call rounds s = Ret (0, s') /\ pend s' = [] /\ act s' = act s /\ registry dflt m s' /\ i_world s' = w'
     | Fault => do_irq_handler call rounds s = Fault
     | Diverge => do_irq_handler call rounds s = Diverge
     | Halt => False
     end) /\
  (forall e rounds, (forall h i w l, eff h i (w, l) = (e h i w, l)) -> Forall has_desc (pend s) -> (length (pend s) < rounds)%nat ->
     exists s', do_irq_handler call rounds s = Ret (0, s') /\ pend s' = [] /\ act s' = act s /\ registry dflt m s' /\
       i_world s' = foldl (fun w i => match m !! i with Some h => e h i w | None => e dflt 0 w end) (i_world s) (pend s)).
Proof.
  assert (forall rounds w', serve_all dflt eff m rounds (i_world s) (pend s) = Ret w' ->
    exists s', do_irq_handler call rounds s = Ret (0, s') /\ pend s' = [] /\ act s' = act s /\ registry dflt m s' /\ i_world s' = w') as Hret.
  { intros rounds w' E. pose proof (do_irq_handler_run dflt call eff m rounds s Hr Hs Hd Hm) as Hrun. rewrite E in Hrun.
    destruct Hrun as (s' & E' & P & A & T & Hw). exists s'. split_and!; [done..|by eapply registry_same|done]. }
  split.
  - intros rounds. pose proof (do_irq_handler_run dflt call eff m rounds s Hr Hs Hd Hm) as Hrun.
    destruct (serve_all dflt eff m rounds (i_world s) (pend s)) eqn:E; [by apply Hret|done..].
  - intros e rounds He Hp Hn. by apply (Hret rounds), serve_all_quiet.
Qed.

(** 27 goes to the default handler, 33 to handler 5, under which 40 comes up. *)
Lemma do_irq_handler_serves_witness :
  exists s', do_irq_handler IrqDemo.call 5 IrqDemo.s1 = Ret (0, s') /\ i_world s' = [(7, 0); (5, 33); (7, 0); (7, 0)].
Proof.
  destruct (proj1 (@do_irq_handler_serves Demo.machine IrqDemo.cpu_interface IrqDemo.log Z 7 IrqDemo.call IrqDemo.eff {[33 := 5]} IrqDemo.s1
    IrqDemo.registry_s1 eq_refl (IrqDemo.calm_any 7) (fun i h _ => IrqDemo.calm_any h)) 5%nat) as (s' & E & _ & _ & _ & F).
  exists s'. split; [exact E|exact F].
Defined.

(** Registration and dispatch together. *)
Example timer_and_uart_served :
  match (irq_register 2 27 (Some 1);; irq_register 2 33 (Some 2);; do_irq_handler IrqDemo.call 4) IrqDemo.s0 with
  | Ret (r, s') => r = 0 /\ i_world s' = [(1, 27); (2, 33); (1, 27)] /\ act s' = []
  | _ => False
  end.
Proof. by vm_compute. Qed.

(** A software interrupt to one CPU is one write of the generation register. *)
Theorem send_sgi_one `{MA : Machine} {W H : Type} (s : @irqs MA W H) (sgi cpuid w : Z) :
  0 <= sgi < 15 -> 0 <= cpuid < 4 ->
  send_sgi sgi cpuid [w] s =
  Ret (tt, with_gic (with_dev (sys_write ICC_SGI1R_EL1 (u64 (Z.lor (2 ^ cpuid) (u32 (Z.shiftl sgi 24)))) (g_dev (i_gic s))) (i_gic s)) s).
Proof.
  intros Hs Hc. unfold send_sgi, gicv3_send_sgi, SGI_MAX. rewrite (proj2 (Z.ltb_lt sgi 15)) by lia.
  assert (cpuid = 0 \/ cpuid = 1 \/ cpuid = 2 \/ cpuid = 3) as [-> | [-> | [-> | -> ] ] ] by lia; reflexivity.
Qed.

(** ** Limits of the tables *)

(** Private peripheral interrupts 17 to 31 share one descriptor between all
    CPUs. *)
Theorem ppi_descriptors_shared (i c1 c2 : Z) : 17 <= i <= 31 -> irq_desc c1 i = irq_desc c2 i.
Proof. intros Hi. unfold irq_desc, PPI_MIN. by rewrite (proj2 (Z.leb_gt i 16)) by lia. Qed.

(** A shared interrupt of 272 or more has no descriptor: registering it runs
    out of the table. *)
Theorem irq_register_beyond_table `{MA : Machine} {W H : Type} (patience : nat) (s : @irqs MA W H) (intid : Z) (h : H) :
  length (spi_irq_desc s) = 256%nat -> 272 <= intid < 1020 -> irq_register patience intid (Some h) s = Fault.
Proof.
  intros Hl Hi. cbn [irq_register]. unfold irq_desc, PPI_MIN. rewrite (proj2 (Z.leb_gt intid 16)) by lia. unfold get, lift, mbind, M_bind, set_desc, wr.
  rewrite Hl, (proj2 (Z.ltb_ge _ _)), andb_false_r by lia. done.
Qed.
