(* ===== verification/Timer.v ===== *)
(** * Time and timers (ukern/src/math.c, inc/math.h, inc/time.h, inc/arch_timer.h,
    src/arch_timer.c, src/sched_timer.c, src/kmon/ftrace_timer.c)

    Tick arithmetic on 64-bit words, the virtual timer behind the system
    registers, and the two alarms with their interrupt handlers. *)
From S2P Require Import Prelude Config Bitmap Print Machine Gic Irq.

(** ** math.h, math.c *)
(** Division by zero: the quotient is 0 and the remainder the dividend, as
    with the division instruction. *)
Definition div64_u64 (dividend divisor : Z) : Z := u64 (dividend / divisor).
Definition mod_64 (x y : Z) : Z := x mod y.
Definition muldiv64 (a b c : Z) : Z :=
  let u_low := u32 a in
  let u_high := u32 (Z.shiftr a 32) in
  let rl := u64 (u_low * b) in
  let rh := u64 (u_high * b) in
  let rh := u64 (rh + Z.shiftr rl 32) in
  let res_high := u32 (div64_u64 rh c) in
  let res_low := u32 (div64_u64 (u64 (u64 (Z.shiftl (mod_64 rh c) 32) + Z.land rl 0xffffffff)) c) in
  Z.lor (Z.shiftl res_high 32) res_low.

(** ** time.h *)
Definition SECONDS (s : Z) : Z := u64 (s * 1000000000).
Definition MILLISECS (ms : Z) : Z := u64 (ms * 1000000).
Definition MICROSECS (us : Z) : Z := u64 (us * 1000).
(** The arguments of muldiv64 are 32 bits wide. *)
Definition tick2ns (cpukhz ticks : Z) : Z := muldiv64 ticks (u32 (SECONDS 1)) (u32 (u64 (1000 * cpukhz))).
Definition ns2tick (cpukhz ns : Z) : Z := muldiv64 ns (u32 (u64 (1000 * cpukhz))) (u32 (SECONDS 1)).

(** ** arch_timer.h *)
Definition CNT_CTL_ISTATUS : Z := 4.
Definition CNT_CTL_IMASK : Z := 2.
Definition CNT_CTL_ENABLE : Z := 1.
Inductive arch_timer_reg := ARCH_TIMER_REG_P_CTRL | ARCH_TIMER_REG_P_CVAL | ARCH_TIMER_REG_P_TVAL
| ARCH_TIMER_REG_V_CTRL | ARCH_TIMER_REG_V_CVAL | ARCH_TIMER_REG_V_TVAL.
Definition timer_sysreg (reg : arch_timer_reg) : sysreg :=
  match reg with
  | ARCH_TIMER_REG_P_CTRL => cntp_ctl_el0 | ARCH_TIMER_REG_P_CVAL => cntp_cval_el0 | ARCH_TIMER_REG_P_TVAL => cntp_tval_el0
  | ARCH_TIMER_REG_V_CTRL => cntv_ctl_el0 | ARCH_TIMER_REG_V_CVAL => cntv_cval_el0 | ARCH_TIMER_REG_V_TVAL => cntv_tval_el0
  end.
Definition TIMER_PRECISION : Z := 1000000.
Definition INTID_UART_NS : Z := 32 + 0x1.
Definition INTID_PTIMER : Z := 16 + 0xe.
Definition INTID_VTIMER : Z := 16 + 0xb.

Section Timer.
Context `{MA : Machine} (patience : nat) {K : Type}.

(** [val] is a [u32], and so is what a read returns. *)
Definition arch_timer_reg_write (reg : arch_timer_reg) (val : Z) : M mstate () := write_sysreg (u32 val) (timer_sysreg reg).
Definition arch_timer_reg_read (reg : arch_timer_reg) : M mstate Z := v ← read_sysreg (timer_sysreg reg); mret (u32 v).
Definition arch_timer_get_cntfrq : M mstate Z := v ← read_sysreg cntfrq_el0; mret (u32 v).
Definition arch_counter_get_cntvct : M mstate Z := read_sysreg cntvct_el0.
Definition arch_counter_get_cntpct : M mstate Z := read_sysreg cntpct_el0.

(** The variables of the timers and the console. *)
Record clock := mkClock { cpukhz : Z; sched_alarm_tick : Z; ftrace_alarm_tick : Z; k_pbuf : list Z; k_out : list Z }.
(** The handlers of this file and of irq.c; [Other] are those of further drivers. *)
Inductive handler := default_irq_handler | sched_timer_handler | ftrace_timer_handler | Other (k : K).
Abbreviation sys := (@irqs MA clock handler).
Definition on_clock (f : clock -> clock) : M sys () := modify (fun s => with_world (f (i_world s)) s).
Definition clock_get : M sys clock := s ← get; mret (i_world s).

(** [printf] on the console. *)
Definition kprintf (fmt : list Z) (ap : list va_slot) : M sys () :=
  k ← clock_get;
  '(out, pbuf) ← lift (printf (k_pbuf k) fmt ap);
  on_clock (fun k => mkClock (cpukhz k) (sched_alarm_tick k) (ftrace_alarm_tick k) pbuf (k_out k ++ out)).

Definition init_arch_timer : M sys Z :=
  v ← on_cpu arch_timer_get_cntfrq;
  on_clock (fun k => mkClock (v / 1000) (sched_alarm_tick k) (ftrace_alarm_tick k) (k_pbuf k) (k_out k));;
  mret 0.

(** ** sched_timer.c *)
Definition sched_systick : M sys Z := on_cpu arch_counter_get_cntvct.
Definition timer_start (alarm_tick : Z) : M sys () :=
  assertM (negb (alarm_tick =? 0));;
  ctl ← on_cpu (arch_timer_reg_read ARCH_TIMER_REG_V_CTRL);
  let ctl := Z.lor ctl CNT_CTL_ENABLE in
  let ctl := Z.land ctl (u64 (Z.lnot CNT_CTL_IMASK)) in
  on_cpu (arch_timer_reg_write ARCH_TIMER_REG_V_CVAL alarm_tick);;
  on_cpu (arch_timer_reg_write ARCH_TIMER_REG_V_CTRL ctl).
Definition timer_stop : M sys () :=
  ctl ← on_cpu (arch_timer_reg_read ARCH_TIMER_REG_V_CTRL);
  on_cpu (arch_timer_reg_write ARCH_TIMER_REG_V_CTRL (Z.land ctl (u64 (Z.lnot CNT_CTL_ENABLE)))).
Definition sched_timer_start : M sys () := k ← clock_get; timer_start (sched_alarm_tick k).
Definition sched_timer_stop : M sys () := timer_stop.
Definition timer_msg : list Z := [116; 105; 109; 101; 114; 33; 33; 10; 0]. (* timer!! *)
Definition run_sched_timer_handler (intid : Z) : M sys () := kprintf timer_msg [];; sched_timer_stop.
Definition sched_timer_irq_init : M sys Z := irq_register patience INTID_VTIMER (Some sched_timer_handler).
Definition sched_timer_setup (ns : Z) : M sys () :=
  let ns := if ns <? TIMER_PRECISION then TIMER_PRECISION else ns in
  now ← sched_systick;
  k ← clock_get;
  on_clock (fun k' => mkClock (cpukhz k') (u64 (now + ns2tick (cpukhz k) ns)) (ftrace_alarm_tick k') (k_pbuf k') (k_out k')).
Definition init_sched_timer : M sys Z := r ← init_arch_timer; if r <? 0 then mret (-1) else mret 0.

(** ** kmon/ftrace_timer.c: the same virtual timer, with the physical count *)
Definition ftrace_systick : M sys Z := on_cpu arch_counter_get_cntpct.
Definition ftrace_timer_tick : M sys Z := ftrace_systick.
Definition ftrace_timer_start : M sys () := k ← clock_get; timer_start (ftrace_alarm_tick k).
Definition ftrace_timer_stop : M sys () := timer_stop.
Definition run_ftrace_timer_handler (intid : Z) : M sys () := kprintf timer_msg [];; ftrace_timer_stop.
Definition ftrace_timer_irq_init : M sys Z := irq_register patience INTID_PTIMER (Some ftrace_timer_handler).
Definition ftrace_timer_setup (ns : Z) : M sys () :=
  let ns := if ns <? TIMER_PRECISION then TIMER_PRECISION else ns in
  now ← ftrace_systick;
  k ← clock_get;
  on_clock (fun k' => mkClock (cpukhz k') (sched_alarm_tick k') (u64 (now + ns2tick (cpukhz k) ns)) (k_pbuf k') (k_out k')).
Definition init_ftrace_timer : M sys Z := r ← init_arch_timer; if r <? 0 then mret (-1) else mret 0.

(** ** The handlers, for the dispatch of irq.c *)
Context (call_other : K -> Z -> M sys ()).
Definition not_register_msg : list Z := (* irq %d is not register\n *)
  [105; 114; 113; 32; 37; 100; 32; 105; 115; 32; 110; 111; 116; 32; 114; 101; 103; 105; 115; 116; 101; 114; 10; 0].
Definition run_default_irq_handler (irq : Z) : M sys () := kprintf not_register_msg [ASlot (u64 irq)].
Definition call_handler (h : handler) (intid : Z) : M sys () :=
  match h with
  | default_irq_handler => run_default_irq_handler intid
  | sched_timer_handler => run_sched_timer_handler intid
  | ftrace_timer_handler => run_ftrace_timer_handler intid
  | Other k => call_other k intid
  end.
End Timer.

(** ** Tick arithmetic *)
Lemma shiftr32 a : Z.shiftr a 32 = a / 4294967296.
Proof. by rewrite Z.shiftr_div_pow2. Qed.
Lemma shiftl32 a : Z.shiftl a 32 = a * 4294967296.
Proof. by rewrite Z.shiftl_mul_pow2. Qed.
Lemma land_low32 a : Z.land a 0xffffffff = a mod 4294967296.
Proof. change 0xffffffff with (Z.ones 32). by rewrite Z.land_ones. Qed.
Lemma lor_halves h l : 0 <= l < 4294967296 -> Z.lor (h * 4294967296) l = h * 4294967296 + l.
Proof.
  intros Hl. assert (Z.land (h * 4294967296) l = 0) as E.
  { apply Z.bits_inj'. intros i Hi. rewrite Z.land_spec, Z.bits_0. change 4294967296 with (2 ^ 32) in *. destruct (decide (i < 32)).
    - by rewrite Z.mul_pow2_bits_low by lia.
    - rewrite <- (Z.mod_small l (2 ^ 32)) by done. rewrite Z.mod_pow2_bits_high by lia. apply andb_false_r. }
  pose proof (Z.add_lor_land (h * 4294967296) l). lia.
Qed.

(** Long division by [c] of a number of two 32-bit digits and a remainder. *)
Lemma div_digits r l c : 0 < c -> (r * 4294967296 + l) / c = (r / c) * 4294967296 + ((r mod c) * 4294967296 + l) / c.
Proof.
  intros Hc. rewrite <- (Z.div_add_l ((r / c) * 4294967296) c) by lia. f_equal. pose proof (Z.div_mod r c). nia.
Qed.

Lemma muldiv64_mod a b c : 0 <= a < 2 ^ 64 -> 0 <= b < 2 ^ 32 -> 0 < c < 2 ^ 32 -> muldiv64 a b c = (a * b / c) mod 2 ^ 64.
Proof.
  intros Ha Hb Hc. change (2 ^ 64) with 18446744073709551616 in *. change (2 ^ 32) with 4294967296 in *.
  unfold muldiv64, div64_u64, mod_64. rewrite !shiftr32, !shiftl32, land_low32. cbv zeta.
  set (lo := a mod 4294967296). set (hi := a / 4294967296).
  assert (a = hi * 4294967296 + lo /\ 0 <= lo < 4294967296 /\ 0 <= hi < 4294967296) as (Ea & Hlo & Hhi).
  { pose proof (Z.div_mod a 4294967296). pose proof (Z.mod_pos_bound a 4294967296). subst lo hi. lia. }
  change (u32 a) with lo. rewrite (u32_small hi) by lia. rewrite (u64_small (lo * b)), (u64_small (hi * b)) by nia.
  set (rl := lo * b). set (q := rl / 4294967296). set (l := rl mod 4294967296).
  assert (rl = q * 4294967296 + l /\ 0 <= l < 4294967296 /\ 0 <= q < 4294967296) as (Erl & Hl & Hq).
  { pose proof (Z.div_mod rl 4294967296). pose proof (Z.mod_pos_bound rl 4294967296). assert (0 <= rl < 4294967296 * 4294967296) by (subst rl; nia). subst l q. lia. }
  rewrite (u64_small (hi * b + q)) by nia. set (rh := hi * b + q).
  assert (0 <= rh < 18446744073709551616) by (subst rh; nia).
  assert (a * b = rh * 4294967296 + l) as -> by (subst rh rl; nia).
  pose proof (Z.mod_pos_bound rh c ltac:(lia)) as Hm.
  rewrite (u64_small (rh mod c * 4294967296)) by nia. rewrite (u64_small (rh mod c * 4294967296 + l)) by nia.
  assert (0 <= rh / c) by (apply Z.div_pos; lia). assert (rh / c <= rh) by (apply Z.div_le_upper_bound; nia).
  set (x := (rh mod c * 4294967296 + l) / c). assert (0 <= x < 4294967296) by (subst x; split; [apply Z.div_pos; nia|apply Z.div_lt_upper_bound; nia]).
  rewrite (u64_small (rh / c)), (u64_small x), (u32_small x) by lia. rewrite lor_halves by done. rewrite div_digits by lia. fold x.
  unfold wrapu. change (2 ^ 32) with 4294967296. set (y := rh / c).
  pose proof (Z.div_mod y 4294967296). pose proof (Z.mod_pos_bound y 4294967296).
  apply (Z.mod_unique_pos _ _ (y / 4294967296)); lia.
Qed.

(** The conversions, for a clock of [f = 1000 * khz] hertz. *)
Lemma tick2ns_exact khz t : 0 < 1000 * khz < 2 ^ 32 -> 0 <= t < 2 ^ 64 -> t * 1000000000 / (1000 * khz) < 2 ^ 64 ->
  tick2ns khz t = t * 1000000000 / (1000 * khz).
Proof.
  intros Hk Ht Hn. unfold tick2ns. change (u32 (SECONDS 1)) with 1000000000. rewrite u64_small, u32_small by lia.
  rewrite muldiv64_mod by lia. apply Z.mod_small. split; [apply Z.div_pos; lia|done].
Qed.
Lemma ns2tick_exact khz ns : 0 < 1000 * khz < 2 ^ 32 -> 0 <= ns < 2 ^ 64 -> ns * (1000 * khz) / 1000000000 < 2 ^ 64 ->
  ns2tick khz ns = ns * (1000 * khz) / 1000000000.
Proof.
  intros Hk Ht Hn. unfold ns2tick. change (u32 (SECONDS 1)) with 1000000000. rewrite u64_small, u32_small by lia.
  rewrite muldiv64_mod by lia. apply Z.mod_small. split; [apply Z.div_pos; lia|done].
Qed.

(** ** What the virtual timer promises *)
Class VirtualTimer `{MA : Machine} := {
  vt_count : mstate -> Z; vt_cval : mstate -> Z; vt_ctl : mstate -> Z; (* the two control bits *)
  vt_ctl_range : forall d, 0 <= vt_ctl d < 4;
  vt_count_range : forall d, 0 <= vt_count d < 2 ^ 64;
  vt_read_count : forall d, sys_read cntvct_el0 d = (vt_count d, d);
  vt_read_ctl : forall d, exists v, sys_read cntv_ctl_el0 d = (v, d) /\ 0 <= v < 8 /\ Z.land v 3 = vt_ctl d;
  vt_write_ctl : forall v d, let d' := sys_write cntv_ctl_el0 v d in
    vt_ctl d' = Z.land v 3 /\ vt_cval d' = vt_cval d /\ vt_count d' = vt_count d;
  vt_write_cval : forall v d, let d' := sys_write cntv_cval_el0 v d in
    vt_ctl d' = vt_ctl d /\ vt_cval d' = v /\ vt_count d' = vt_count d }.
(** The timer interrupts at counter value [t]. *)
Definition fires_at `{VT : VirtualTimer} (d : mstate) (t : Z) : Prop := vt_ctl d = 1 /\ vt_cval d <= t.

Section Alarm.
Context `{VT : VirtualTimer} {K : Type}.
Abbreviation sys := (@irqs MA clock (@handler K)).
Definition dev_of (s : sys) : mstate := g_dev (i_gic s).

Lemma on_cpu_run {A} (m : M mstate A) (s : sys) a d' : m (dev_of s) = Ret (a, d') -> on_cpu m s = Ret (a, with_gic (with_dev d' (i_gic s)) s).
Proof. intros E. unfold on_cpu, on_gic, on_dev, zoom. unfold dev_of in E. by rewrite E. Qed.

Lemma ctl_bits v : 0 <= v < 8 -> Z.land (u64 (u32 (Z.land (Z.lor (u32 (u64 v)) CNT_CTL_ENABLE) (u64 (Z.lnot CNT_CTL_IMASK))))) 3 = 1.
Proof. intros Hv. assert (v = 0 \/ v = 1 \/ v = 2 \/ v = 3 \/ v = 4 \/ v = 5 \/ v = 6 \/ v = 7) as H by lia. by repeat destruct H as [-> | H]; subst. Qed.

(** The tables and the pointers of the controller stay. *)
Definition only_dev (s s' : sys) : Prop := (exists d, i_gic s' = with_dev d (i_gic s)) /\ same_tables s s'.

(** Starting programs the low half of the alarm. *)
Lemma timer_start_programs (s : sys) alarm : 0 < alarm < 2 ^ 64 ->
  exists s', timer_start alarm s = Ret (tt, s') /\ vt_ctl (dev_of s') = 1 /\ vt_cval (dev_of s') = alarm mod 2 ^ 32 /\
    vt_count (dev_of s') = vt_count (dev_of s) /\ i_world s' = i_world s /\ only_dev s s'.
Proof.
  intros Ha. unfold timer_start. destruct (vt_read_ctl (dev_of s)) as (v & Ev & Hv & _).
  set (ctl := Z.land (Z.lor (u32 (u64 v)) CNT_CTL_ENABLE) (u64 (Z.lnot CNT_CTL_IMASK))).
  set (d1 := sys_write cntv_cval_el0 (u64 (u32 alarm)) (dev_of s)). set (d2 := sys_write cntv_ctl_el0 (u64 (u32 ctl)) d1).
  set (at_ := fun d => with_gic (with_dev d (i_gic s)) s). exists (at_ d2).
  destruct (vt_write_cval (u64 (u32 alarm)) (dev_of s)) as (C1 & C2 & C3). destruct (vt_write_ctl (u64 (u32 ctl)) d1) as (D1 & D2 & D3). fold d1 in C1, C2, C3. fold d2 in D1, D2, D3.
  split_and!; [|change (vt_ctl d2 = 1); rewrite D1; by apply ctl_bits| |change (vt_count d2 = vt_count (dev_of s)); congruence|done|split; [by exists d2|done]].
  - rewrite (proj2 (Z.eqb_neq alarm 0)) by lia. unfold assertM, assert_, negb, lift. unfold mbind at 1, M_bind at 1.
    assert (on_cpu (arch_timer_reg_read ARCH_TIMER_REG_V_CTRL) s = Ret (u32 (u64 v), at_ (dev_of s))) as E1.
    { apply on_cpu_run. unfold arch_timer_reg_read, read_sysreg, mbind, M_bind. cbn [timer_sysreg]. by rewrite Ev. }
    mrun E1. cbv zeta. fold ctl. mrun (on_cpu_run (arch_timer_reg_write ARCH_TIMER_REG_V_CVAL alarm) (at_ (dev_of s)) tt d1 eq_refl).
    reflexivity.
  - change (vt_cval d2 = alarm mod 2 ^ 32). rewrite D2, C2. unfold wrapu. rewrite Z.mod_small; [done|]. pose proof (Z.mod_pos_bound alarm (2 ^ 32)). lia.
Qed.

Lemma sched_timer_setup_run (s : sys) ns :
  exists s', sched_timer_setup ns s = Ret (tt, s') /\ dev_of s' = dev_of s /\
    sched_alarm_tick (i_world s') = u64 (vt_count (dev_of s) + ns2tick (cpukhz (i_world s)) (Z.max ns TIMER_PRECISION)) /\
    (cpukhz (i_world s') = cpukhz (i_world s) /\ k_out (i_world s') = k_out (i_world s)) /\ only_dev s s'.
Proof.
  unfold sched_timer_setup. assert ((if ns <? TIMER_PRECISION then TIMER_PRECISION else ns) = Z.max ns TIMER_PRECISION) as -> by (unfold TIMER_PRECISION; case_match; lia).
  set (n := Z.max ns TIMER_PRECISION).
  assert (sched_systick s = Ret (vt_count (dev_of s), with_gic (with_dev (dev_of s) (i_gic s)) s)) as E1.
  { apply on_cpu_run. unfold arch_counter_get_cntvct, read_sysreg. rewrite vt_read_count. pose proof (vt_count_range (dev_of s)). by rewrite u64_small by lia. }
  cbv zeta. mrun E1. eexists. split; [reflexivity|]. split; [reflexivity|]. split; [reflexivity|]. split; [by split|]. split; [by eexists|done].
Qed.
End Alarm.

(** ** A timer on its own *)
Module TimerDemo.
Record dev := mkDev { count : Z; cval : Z; ctl : Z }.
Definition machine : Machine := {|
  mstate := dev;
  mmio_read := fun _ _ d => (0, d);
  mmio_write := fun _ _ _ d => d;
  sys_read := fun r d => match r with
    | cntvct_el0 | cntpct_el0 => (count d mod 2 ^ 64, d)
    | cntv_ctl_el0 => (ctl d mod 4, d)
    | cntfrq_el0 => (62500000, d)
    | _ => (0, d)
    end;
  sys_write := fun r v d => match r with
    | cntv_ctl_el0 => mkDev (count d) (cval d) (Z.land v 3)
    | cntv_cval_el0 => mkDev (count d) v (ctl d)
    | _ => d
    end |}.
#[global] Instance vtimer : @VirtualTimer machine.
Proof.
  refine (@Build_VirtualTimer machine (fun d => count d mod 2 ^ 64) cval (fun d => ctl d mod 4) _ _ _ _ _ _); cbn.
  - intros d. apply Z.mod_pos_bound. lia.
  - intros d. apply Z.mod_pos_bound. lia.
  - done.
  - intros d. exists (ctl d mod 4). split; [done|]. pose proof (Z.mod_pos_bound (ctl d) 4). split; [lia|]. change 3 with (Z.ones 2). rewrite Z.land_ones by lia. change (2 ^ 2) with 4. apply Z.mod_small. lia.
  - intros v d. split; [|done]. change 3 with (Z.ones 2). rewrite Z.land_ones by lia. change (2 ^ 2) with 4. apply Z.mod_mod. lia.
  - done.
Defined.
(** A 62.5 MHz clock at count [n]. *)
Definition at_count (n : Z) : @irqs machine clock (@handler Empty_set) :=
  irq_tables_init default_irq_handler (@mkGic machine (mkDev n 0 0) 0 [] []) (mkClock 62500 0 0 (replicate (Z.to_nat 4096) 0) []).
End TimerDemo.

(** ** The theorems *)

(** [muldiv64] computes a*b/c with a 96-bit product: for every 64-bit a and
    32-bit b and c, c not 0, the result is the exact quotient, reduced to 64
    bits when it is larger. *)
Theorem muldiv64_exact (a b c : Z) (Ha : 0 <= a < 2 ^ 64) (Hb : 0 <= b < 2 ^ 32) (Hc : 0 < c < 2 ^ 32) :
  muldiv64 a b c = (a * b / c) mod 2 ^ 64.
Proof. by apply muldiv64_mod. Qed.
Lemma muldiv64_exact_witness : muldiv64 (2 ^ 63 + 12345) 62500000 1000000000 = ((2 ^ 63 + 12345) * 62500000 / 1000000000) mod 2 ^ 64.
Proof. apply (muldiv64_exact (2 ^ 63 + 12345) 62500000 1000000000); split; first [discriminate | reflexivity]. Defined.

(** Converting ticks to nanoseconds and back loses at most one tick, for a
    clock of at most 1 GHz and times below 2^64 ns; both conversions round
    down. *)
Theorem tick_ns_roundtrip (khz t : Z) (Hk : 0 < khz <= 1000000) (Ht : 0 <= t) (Hn : t * 1000000000 / (1000 * khz) < 2 ^ 64) :
  tick2ns khz t = t * 1000000000 / (1000 * khz) /\ t - 1 <= ns2tick khz (tick2ns khz t) <= t.
Proof.
  set (f := 1000 * khz) in *. assert (0 < f <= 1000000000) by lia.
  assert (t <= t * 1000000000 / f) by (apply Z.div_le_lower_bound; nia).
  assert (tick2ns khz t = t * 1000000000 / f) as -> by (apply tick2ns_exact; fold f; lia).
  split; [done|]. set (ns := t * 1000000000 / f) in *.
  assert (f * ns <= t * 1000000000 < f * (ns + 1)). { pose proof (Z.div_mod (t * 1000000000) f). pose proof (Z.mod_pos_bound (t * 1000000000) f). fold ns in H1. lia. }
  assert (ns * f / 1000000000 <= t) by (apply Z.div_le_upper_bound; lia).
  rewrite ns2tick_exact by (fold f; lia). fold f. split; [|done]. apply Z.div_le_lower_bound; lia.
Qed.
Lemma tick_ns_roundtrip_witness : tick2ns 62500 (10 ^ 12 + 7) = (10 ^ 12 + 7) * 1000000000 / (1000 * 62500) /\ 10 ^ 12 + 7 - 1 <= ns2tick 62500 (tick2ns 62500 (10 ^ 12 + 7)) <= 10 ^ 12 + 7.
Proof. apply (tick_ns_roundtrip 62500 (10 ^ 12 + 7)); [split; [reflexivity|discriminate]|discriminate|reflexivity]. Defined.

(** C33: Setting the scheduling alarm [ns] from now (one millisecond if less
    is asked) and starting the timer enables it unmasked, with the alarm at
    the present count plus the ticks of the time, as a 64-bit number; the
    assertion fails exactly if that number is 0.  The 32-bit register access
    keeps the low half of the alarm only, and the timer fires from the tick of
    that low half on.  So an alarm below 2^32 fires from the asked tick on and
    not before; a later one (68 seconds after start-up at 62.5 MHz) fires
    early, and at once if fewer than 2^32 ticks were asked. *)
Theorem sched_timer_alarm `{VT : VirtualTimer} {K : Type} (s : @irqs MA clock (@handler K)) (ns : Z) :
  let now := vt_count (dev_of s) in
  let alarm := u64 (now + ns2tick (cpukhz (i_world s)) (Z.max ns TIMER_PRECISION)) in
  (alarm = 0 -> (sched_timer_setup ns;; sched_timer_start) s = Halt) /\
  (alarm <> 0 -> exists s', (sched_timer_setup ns;; sched_timer_start) s = Ret (tt, s') /\ vt_count (dev_of s') = now /\
    (forall t, fires_at (dev_of s') t <-> alarm mod 2 ^ 32 <= t) /\
    (alarm < 2 ^ 32 -> forall t, fires_at (dev_of s') t <-> alarm <= t) /\
    (2 ^ 32 <= alarm -> (exists t, t < alarm /\ fires_at (dev_of s') t) /\ (alarm < now + 2 ^ 32 -> fires_at (dev_of s') now))).
Proof.
  intros now alarm. assert (0 <= alarm < 2 ^ 64) as Hr by (apply Z.mod_pos_bound; lia).
  destruct (sched_timer_setup_run s ns) as (s1 & E1 & D1 & A1 & _). fold now alarm in A1.
  assert ((sched_timer_setup ns;; sched_timer_start) s = timer_start alarm s1) as E.
  { mrun E1. unfold sched_timer_start, clock_get. unfold mbind, M_bind, get, mret, M_ret. by rewrite A1. }
  rewrite E. split; [by intros ->|]. intros Ha.
  destruct (timer_start_programs s1 alarm) as (s2 & E2 & C2 & V2 & N2 & _); [lia|].
  exists s2. rewrite D1 in N2. fold now in N2. pose proof (vt_count_range (dev_of s)) as Hn. fold now in Hn.
  pose proof (Z.mod_pos_bound alarm (2 ^ 32) ltac:(lia)) as Hm. unfold fires_at. rewrite C2, V2. split_and!; [done|done|tauto| |].
  - intros Hs t. rewrite Z.mod_small by lia. tauto.
  - intros Hl. split; [exists (alarm mod 2 ^ 32); split; [lia|done]|]. intros Hs. split; [done|].
    destruct (decide (now < 2 ^ 32)); [|lia]. rewrite <- (Z_mod_plus_full alarm (-1)), Z.mod_small by lia. lia.
Qed.
