(* ===== verification/Uart.v ===== *)
(** * The serial line (ukern/src/uart_pl011.c, inc/uart_pl011.h, console.c)

    The PL011 driver and the console on top of it.  The other components see
    the console as a list of bytes sent and a list of bytes to come; this file
    shows that the driver provides that view on every device with the
    registers of a PL011 ([UartDevice]).  [patience] bounds the two polling
    loops. *)
From S2P Require Import Prelude Config Bitmap Spinlock Machine Gic Irq Timer.

Definition UART_PL011_BASE : Z := 0x09000000.
Definition DEFAULT_CLOCK : Z := 24000000.
Definition BAUDRATE : Z := 115200.
Definition FR_BUSY : Z := 2 ^ 3.
Definition FR_RXFE : Z := 2 ^ 4.
Definition CR_RXEN : Z := 2 ^ 9.
Definition CR_TXEN : Z := 2 ^ 8.
Definition CR_UARTEN : Z := 2 ^ 0.
Definition IMSC_RTIM : Z := 2 ^ 6.
Definition IMSC_RXIM : Z := 2 ^ 4.
Definition LCR_STP2 : Z := 2 ^ 3.
Definition ICR_RTIC : Z := 2 ^ 6.
Definition ICR_TXIC : Z := 2 ^ 5.
Definition ICR_RXIC : Z := 2 ^ 4.

(** The registers the driver uses and their offsets. *)
Inductive uart_reg := DR | FR | IBRD | FBRD | LCR_H | CR | IMSC | ICR | DMACR.
Definition uart_off (r : uart_reg) : Z :=
  match r with DR => 0x000 | FR => 0x018 | IBRD => 0x024 | FBRD => 0x028 | LCR_H => 0x02c | CR => 0x030 | IMSC => 0x038 | ICR => 0x044 | DMACR => 0x048 end.

Record uart_pl011 := mkUart { base_clock : Z; baudrate : Z; data_bits : Z; stop_bits : Z; regs : Z }.
Definition uart0 : uart_pl011 := mkUart 0 0 0 0 0.

Section Driver.
Context `{MA : Machine} (patience : nat).

Record serial := mkSerial { s_dev : mstate; s_uart : uart_pl011 }.
Definition with_sdev (d : mstate) (s : serial) : serial := mkSerial d (s_uart s).
Definition on_line {A} (m : M mstate A) : M serial A := zoom s_dev with_sdev m.
Definition reg_get (r : uart_reg) : M serial Z := s ← get; on_line (ioread32 (regs (s_uart s) + uart_off r)).
Definition reg_set (r : uart_reg) (v : Z) : M serial () := s ← get; on_line (iowrite32 v (regs (s_uart s) + uart_off r)).
(** [regs->r &= ...] and [regs->r |= ...]. *)
Definition reg_upd (r : uart_reg) (f : Z -> Z) : M serial () := v ← reg_get r; reg_set r (f v).

Definition calculate_set_divisiors : M serial () :=
  s ← get; let u := s_uart s in
  let div := u32 (u64 (4 * base_clock u) / baudrate u) in
  let fractional := Z.land div 0x3f in
  let integer := Z.land (Z.shiftr div 6) 0xffff in
  reg_set FBRD fractional;; reg_set IBRD integer.

(** [while ((regs->FR & mask) != 0) {}]. *)
Fixpoint poll (fuel : nat) (mask : Z) : M serial () :=
  v ← reg_get FR;
  if Z.land v mask =? 0 then mret tt else match fuel with O => diverge | S fuel' => poll fuel' mask end.
Definition wait_tx_complete : M serial () := poll patience FR_BUSY.

Definition uart_getc : M serial Z := poll patience FR_RXFE;; v ← reg_get DR; mret (wrapu 8 v).
Definition uart_putc (c : Z) : M serial () := reg_set DR (wrapu 8 c);; wait_tx_complete.

Definition uart_irq_init : M serial () :=
  reg_upd CR (fun v => Z.land v (u32 (Z.lnot CR_UARTEN)));;
  reg_set ICR (Z.lor (Z.lor ICR_RTIC ICR_RXIC) ICR_TXIC);;
  reg_set IMSC (Z.lor IMSC_RTIM IMSC_RXIM);;
  reg_upd CR (fun v => Z.lor v CR_UARTEN).

(** The line control word is computed and not written. *)
Definition uart_init : M serial Z :=
  modify (fun s => mkSerial (s_dev s) (mkUart DEFAULT_CLOCK BAUDRATE 8 1 (ptov UART_PL011_BASE)));;
  calculate_set_divisiors;;
  reg_upd CR (fun v => Z.land v (u32 (Z.lnot CR_UARTEN)));;
  wait_tx_complete;;
  s ← get; let lcr := Z.shiftl (Z.land (data_bits (s_uart s) - 1) 0x3) 5 in
  let lcr := if stop_bits (s_uart s) =? 2 then Z.lor lcr LCR_STP2 else lcr in
  reg_set IMSC 0;; reg_set DMACR 0;;
  reg_upd CR (fun v => Z.lor v (Z.lor CR_TXEN CR_RXEN));;
  reg_upd CR (fun v => Z.lor v CR_UARTEN);; mret 0.

(** ** console.c: the device operations of [g_cons] are those above *)
Record dev_console := mkCons { c_serial : serial; c_lock : spinlock }.
Definition on_serial {A} (m : M serial A) : M dev_console A := zoom c_serial (fun s c => mkCons s (c_lock c)) m.
Definition init_console : M dev_console () := modify (fun c => mkCons (c_serial c) initlock);; on_serial uart_init;; mret tt.
Definition console_putc (ch : Z) : M dev_console () := on_serial (uart_putc ch).
Definition console_getc : M dev_console Z := on_serial uart_getc.
Fixpoint console_puts_loop (buf : list Z) : M dev_console () :=
  match buf with [] => mret tt | c :: buf' => console_putc c;; console_puts_loop buf' end.
Definition console_puts (buf : list Z) (size : Z) : M dev_console Z := console_puts_loop (take (Z.to_nat size) buf);; mret (s32 size).

(** The interrupt of the line; [h] is the handler of [console.c]. *)
Definition console_irq_init {H : Type} (h : H) : M (irqs (W := uart_pl011) (H := H)) Z :=
  zoom (fun s => mkSerial (g_dev (i_gic s)) (i_world s))
       (fun l s => with_gic (with_dev (s_dev l) (i_gic s)) (with_world (s_uart l) s)) uart_irq_init;;
  irq_register patience INTID_UART_NS (Some h).
End Driver.

(** ** What a PL011 promises

    Its visible state: control and mask registers, divisor registers, the
    divisors the line runs at, the bytes put on the line, the bytes to come,
    and how many looks at the flags it takes until the line is idle and until
    the next byte is there.  A byte written while the transmitter is busy may
    be lost, and the divisor registers take effect when the line control
    register is written. *)
Record pl011 := mkPl { v_cr : Z; v_imsc : Z; v_ibrd : Z; v_fbrd : Z; v_rate : Z * Z; v_tx : list Z; v_rx : list Z; v_busy : nat; v_wait : nat }.
Definition UART : Z := ptov UART_PL011_BASE.
Definition sending (v : pl011) : bool := Z.testbit (v_cr v) 0 && Z.testbit (v_cr v) 8.
Definition receiving (v : pl011) : bool := Z.testbit (v_cr v) 0 && Z.testbit (v_cr v) 9.

Class UartDevice `{MA : Machine} := {
  line : mstate -> pl011;
  line_settle : nat;
  line_busy : forall d, (v_busy (line d) <= line_settle)%nat;
  line_wait : forall d, (v_wait (line d) <= line_settle)%nat;
  line_cr : forall d, 0 <= v_cr (line d) < 2 ^ 32;
  line_bytes : forall d, Forall (fun c => 0 <= c < 256) (v_rx (line d));
  line_set r v d := mmio_write 4 v (UART + uart_off r) d;
  line_is d cr imsc ib fb rt tx := let l := line d in
    v_cr l = cr /\ v_imsc l = imsc /\ v_ibrd l = ib /\ v_fbrd l = fb /\ v_rate l = rt /\ v_tx l = tx;
  line_write : forall r v d, 0 <= v < 2 ^ 32 -> let l := line d in let l' := line (line_set r v d) in
    v_rx l' = v_rx l /\ (r <> DR -> v_busy l' = v_busy l) /\
    match r with
    | DR => exists lost : bool, (v_busy l = 0%nat -> lost = false) /\
        line_is (line_set r v d) (v_cr l) (v_imsc l) (v_ibrd l) (v_fbrd l) (v_rate l) (v_tx l ++ if sending l && negb lost then [v mod 256] else [])
    | LCR_H => line_is (line_set r v d) (v_cr l) (v_imsc l) (v_ibrd l) (v_fbrd l) (v_ibrd l, v_fbrd l) (v_tx l)
    | IBRD => line_is (line_set r v d) (v_cr l) (v_imsc l) v (v_fbrd l) (v_rate l) (v_tx l)
    | FBRD => line_is (line_set r v d) (v_cr l) (v_imsc l) (v_ibrd l) v (v_rate l) (v_tx l)
    | CR => line_is (line_set r v d) v (v_imsc l) (v_ibrd l) (v_fbrd l) (v_rate l) (v_tx l)
    | IMSC => line_is (line_set r v d) (v_cr l) v (v_ibrd l) (v_fbrd l) (v_rate l) (v_tx l)
    | FR | ICR | DMACR => line_is (line_set r v d) (v_cr l) (v_imsc l) (v_ibrd l) (v_fbrd l) (v_rate l) (v_tx l)
    end;
  line_same d d' := let l := line d in line_is d' (v_cr l) (v_imsc l) (v_ibrd l) (v_fbrd l) (v_rate l) (v_tx l);
  (* a look at the flags; the receive flag says whether a byte is there *)
  line_flags : forall d, let '(x, d') := mmio_read 4 (UART + uart_off FR) d in let l := line d in
    (Z.land (u32 x) FR_BUSY =? 0) = (v_busy l =? 0)%nat /\
    (Z.land (u32 x) FR_RXFE =? 0) = (v_wait l =? 0)%nat && negb (bool_decide (v_rx l = [])) /\
    line_same d d' /\ v_rx (line d') = v_rx l /\ v_busy (line d') = pred (v_busy l) /\ v_wait (line d') = pred (v_wait l);
  line_ctrl : forall d, let '(x, d') := mmio_read 4 (UART + uart_off CR) d in
    x = v_cr (line d) /\ line_same d d' /\ v_rx (line d') = v_rx (line d) /\ v_busy (line d') = v_busy (line d);
  (* taking a byte: the upper bits hold the error flags *)
  line_take : forall d c rest, v_rx (line d) = c :: rest -> v_wait (line d) = 0%nat -> receiving (line d) = true ->
    let '(x, d') := mmio_read 4 (UART + uart_off DR) d in x mod 256 = c /\ line_same d d' /\ v_rx (line d') = rest /\ v_busy (line d') = v_busy (line d) }.

(** ** The driver on such a line *)
Section Effect.
Context `{UD : UartDevice} (patience : nat) (Hp : (line_settle < patience)%nat).

(** The driver has its register block. *)
Definition ready (s : serial) : Prop := regs (s_uart s) = UART.
Definition l_of (s : serial) : pl011 := line (s_dev s).

Lemma set_run r v s : ready s -> 0 <= v < 2 ^ 32 -> reg_set r v s = Ret (tt, with_sdev (line_set r v (s_dev s)) s).
Proof. intros Hs Hv. unfold reg_set, mbind, M_bind, get, on_line, zoom, iowrite32, modify. rewrite Hs. by rewrite u32_small by lia. Qed.
Lemma get_run r s x d' : ready s -> mmio_read 4 (UART + uart_off r) (s_dev s) = (x, d') -> reg_get r s = Ret (u32 x, with_sdev d' s).
Proof. intros Hs E. unfold reg_get, mbind, M_bind, get, on_line, zoom, ioread32. by rewrite Hs, E. Qed.

(** Everything but the two counters, and an idle transmitter stays idle. *)
Record kept (l l' : pl011) : Prop := {
  kept_cr : v_cr l' = v_cr l; kept_imsc : v_imsc l' = v_imsc l; kept_ibrd : v_ibrd l' = v_ibrd l; kept_fbrd : v_fbrd l' = v_fbrd l;
  kept_rate : v_rate l' = v_rate l; kept_tx : v_tx l' = v_tx l; kept_rx : v_rx l' = v_rx l;
  kept_idle : v_busy l = 0%nat -> v_busy l' = 0%nat }.
#[local] Instance kept_preorder : PreOrder kept.
Proof. split; [by intros l; constructor|]. intros a b c [] []. constructor; first [congruence|tauto]. Qed.
Lemma kept_same d d' : line_same d d' -> v_rx (line d') = v_rx (line d) -> (v_busy (line d') <= v_busy (line d))%nat -> kept (line d) (line d').
Proof. intros (? & ? & ? & ? & ? & ?) ? ?. constructor; first [done|lia]. Qed.

(** Waiting for a flag that counts down with [k]. *)
Lemma poll_run mask (k : pl011 -> nat) (l0 : pl011) :
  (forall d, kept l0 (line d) -> let '(x, d') := mmio_read 4 (UART + uart_off FR) d in
     (Z.land (u32 x) mask =? 0) = (k (line d) =? 0)%nat /\ kept (line d) (line d') /\ k (line d') = pred (k (line d))) ->
  forall fuel s, ready s -> kept l0 (l_of s) -> (k (l_of s) <= fuel)%nat ->
  exists d', poll fuel mask s = Ret (tt, with_sdev d' s) /\ kept l0 (line d') /\ k (line d') = 0%nat.
Proof.
  intros Hk fuel. induction fuel as [|fuel IH]; intros s Hs Hl Hf; cbn [poll];
    specialize (Hk (s_dev s) Hl) as Hd; destruct (mmio_read 4 _ (s_dev s)) as [x d1] eqn:E; destruct Hd as (Hx & H1 & Hd);
    mrun (get_run FR s x d1 Hs E); rewrite Hx; unfold l_of in *.
  - replace (k (line (s_dev s))) with 0%nat in * by lia. exists d1. split; [done|]. split; [by etransitivity|done].
  - destruct (Nat.eqb_spec (k (line (s_dev s))) 0) as [H0|H0].
    + rewrite H0 in Hd. exists d1. split; [done|]. split; [by etransitivity|done].
    + destruct (IH (with_sdev d1 s)) as (d2 & E2 & H2); [done|unfold l_of; cbn; by etransitivity|unfold l_of; cbn; lia|].
      exists d2. by rewrite E2.
Qed.

Lemma wait_tx_run s : ready s ->
  exists d', wait_tx_complete patience s = Ret (tt, with_sdev d' s) /\ kept (l_of s) (line d') /\ v_busy (line d') = 0%nat.
Proof.
  intros Hs. apply (poll_run FR_BUSY v_busy (l_of s)); [|done|reflexivity|pose proof (line_busy (s_dev s)); unfold l_of; lia].
  intros d _. pose proof (line_flags d) as Hf. destruct (mmio_read 4 _ d) as [x d']. destruct Hf as (Hb & _ & Hd & Hr & Hp' & _).
  split; [done|]. split; [apply kept_same; [done..|lia]|done].
Qed.

(** One byte out over an idle transmitter, one byte in. *)
Lemma putc_run s c : ready s -> sending (l_of s) = true -> v_busy (l_of s) = 0%nat ->
  exists d', uart_putc patience c s = Ret (tt, with_sdev d' s) /\ v_tx (line d') = v_tx (l_of s) ++ [c mod 256] /\
    v_rx (line d') = v_rx (l_of s) /\ v_cr (line d') = v_cr (l_of s) /\ v_rate (line d') = v_rate (l_of s) /\ v_busy (line d') = 0%nat.
Proof.
  intros Hs Hsend Hidle. assert (0 <= wrapu 8 c < 2 ^ 32) as Hc by (unfold wrapu; change (2 ^ 8) with 256; pose proof (Z.mod_pos_bound c 256); lia).
  unfold uart_putc. mrun (set_run DR (wrapu 8 c) s Hs Hc).
  destruct (line_write DR (wrapu 8 c) (s_dev s) Hc) as (Hrx & _ & lost & Hl & (Hcr & _ & _ & _ & Hrt & Htx)). rewrite (Hl Hidle) in Htx.
  destruct (wait_tx_run (with_sdev (line_set DR (wrapu 8 c) (s_dev s)) s)) as (d' & E & [H1 _ _ _ H4 H2 H3 _] & H5); [done|].
  exists d'. rewrite E. split; [done|]. unfold l_of in *. cbn [s_dev with_sdev] in *. rewrite H1, H2, H3, H4, H5, Htx, Hsend, Hrx, Hcr, Hrt.
  unfold wrapu. change (2 ^ 8) with 256. cbn [andb negb]. by rewrite Z.mod_mod by lia.
Qed.
Lemma getc_run s c rest : ready s -> receiving (l_of s) = true -> v_rx (l_of s) = c :: rest ->
  exists d', uart_getc patience s = Ret (c, with_sdev d' s) /\ v_tx (line d') = v_tx (l_of s) /\ v_rx (line d') = rest /\ v_cr (line d') = v_cr (l_of s) /\
    v_rate (line d') = v_rate (l_of s) /\ (v_busy (l_of s) = 0%nat -> v_busy (line d') = 0%nat).
Proof.
  intros Hs Hrec Hrx. unfold uart_getc.
  destruct (poll_run FR_RXFE v_wait (l_of s)) with (fuel := patience) (s := s) as (d1 & E & [H1 _ _ _ H4 H2 H3 H5] & H0);
    [|done|reflexivity|pose proof (line_wait (s_dev s)); unfold l_of; lia|].
  { intros d Hk. pose proof (kept_rx _ _ Hk) as Hd. pose proof (line_flags d) as Hf. destruct (mmio_read 4 _ d) as [x d']. destruct Hf as (_ & Hb & Hsm & Hr & Hpb & ?).
    split; [|split; [apply kept_same; [done..|lia]|done]]. rewrite Hb, Hd, Hrx. cbn. apply andb_true_r. }
  mrun E. assert (receiving (line d1) = true) as Hr1 by (unfold receiving in *; by rewrite H1). rewrite Hrx in H3.
  pose proof (line_take d1 c rest H3 H0 Hr1) as Ht. destruct (mmio_read 4 (UART + uart_off DR) d1) as [x d2] eqn:Er.
  destruct Ht as (Hx & (Hc & _ & _ & _ & Hrt & Htx) & Hrest & Hbs). mrun (get_run DR (with_sdev d1 s) x d2 Hs Er).
  exists d2. unfold mret, M_ret. rewrite Htx, Hrest, Hc, Hrt, Hbs, H1, H2, H4. split; [|by split_and!]. do 2 f_equal.
  unfold wrapu. rewrite <- Hx. change (2 ^ 8) with 256. symmetry. apply Znumtheory.Zmod_div_mod; [lia|lia|by exists (2 ^ 24)].
Qed.

(** A register write of the set-up, seen from the line. *)
Definition moved (s : serial) (f : pl011 -> pl011) (m : M serial ()) : Prop :=
  exists d', m s = Ret (tt, with_sdev d' s) /\ kept (f (l_of s)) (line d').
Definition after (r : uart_reg) (v : Z) (l : pl011) : pl011 :=
  match r with
  | IBRD => mkPl (v_cr l) (v_imsc l) v (v_fbrd l) (v_rate l) (v_tx l) (v_rx l) (v_busy l) 0
  | FBRD => mkPl (v_cr l) (v_imsc l) (v_ibrd l) v (v_rate l) (v_tx l) (v_rx l) (v_busy l) 0
  | LCR_H => mkPl (v_cr l) (v_imsc l) (v_ibrd l) (v_fbrd l) (v_ibrd l, v_fbrd l) (v_tx l) (v_rx l) (v_busy l) 0
  | CR => mkPl v (v_imsc l) (v_ibrd l) (v_fbrd l) (v_rate l) (v_tx l) (v_rx l) (v_busy l) 0
  | IMSC => mkPl (v_cr l) v (v_ibrd l) (v_fbrd l) (v_rate l) (v_tx l) (v_rx l) (v_busy l) 0
  | _ => l
  end.
(** The line when the transmitter has become idle. *)
Definition idle (l : pl011) : pl011 := mkPl (v_cr l) (v_imsc l) (v_ibrd l) (v_fbrd l) (v_rate l) (v_tx l) (v_rx l) 0 0.
Lemma set_moves r v s : ready s -> r <> DR -> 0 <= v < 2 ^ 32 -> moved s (after r v) (reg_set r v).
Proof.
  intros Hs Hr Hv. eexists. split; [by apply set_run|]. destruct (line_write r v (s_dev s) Hv) as (Hrx & Hb & H). specialize (Hb Hr).
  destruct r; [done|..]; destruct H as (? & ? & ? & ? & ? & ?); constructor; first [done|unfold l_of; cbn; congruence].
Qed.
Lemma upd_moves f s : ready s -> (forall v, 0 <= v < 2 ^ 32 -> 0 <= f v < 2 ^ 32) ->
  moved s (fun l => after CR (f (v_cr l)) l) (reg_upd CR f).
Proof.
  intros Hs Hf. pose proof (line_ctrl (s_dev s)) as Hc. destruct (mmio_read 4 (UART + uart_off CR) (s_dev s)) as [x d1] eqn:E.
  destruct Hc as (-> & (H1 & H2 & H3 & H4 & H5 & H6) & H7 & H8). pose proof (line_cr (s_dev s)) as Hcr.
  destruct (set_moves CR (f (v_cr (line (s_dev s)))) (with_sdev d1 s) Hs ltac:(done) (Hf _ Hcr)) as (d2 & E2 & K).
  exists d2. unfold reg_upd. mrun (get_run CR s _ d1 Hs E). rewrite u32_small by done. split; [exact E2|].
  unfold l_of in *. destruct K. cbn in *. constructor; cbn; first [congruence|rewrite H8 in *; done].
Qed.
Lemma moved_bind {A} s f m (k : () -> M serial A) (P : A -> serial -> Prop) : moved s f m ->
  (forall s', s_uart s' = s_uart s -> kept (f (l_of s)) (l_of s') -> exists a s'', k tt s' = Ret (a, s'') /\ P a s'') ->
  exists a s'', (m ≫= k) s = Ret (a, s'') /\ P a s''.
Proof. intros (d' & E & K) Hk. rewrite (M_bind_run _ _ _ _ _ E). by apply Hk. Qed.

Lemma clear_en_range v : 0 <= v < 2 ^ 32 -> 0 <= Z.land v (u32 (Z.lnot CR_UARTEN)) < 2 ^ 32.
Proof.
  intros Hv. set (m := u32 (Z.lnot CR_UARTEN)). assert (0 <= m) by (vm_compute; discriminate).
  assert (0 <= Z.land v m) by (apply Z.land_nonneg; lia). split; [done|]. destruct (decide (Z.land v m = 0)) as [->|]; [lia|].
  apply Z.log2_lt_pow2; [lia|]. pose proof (Z.log2_land v m ltac:(lia) ltac:(lia)).
  destruct (decide (v = 0)) as [->|]; [by rewrite Z.land_0_l in *|]. assert (Z.log2 v < 32) by (apply Z.log2_lt_pow2; lia). lia.
Qed.
Lemma set_bits_range b v : 0 <= b < 2 ^ 32 -> 0 <= v < 2 ^ 32 -> 0 <= Z.lor v b < 2 ^ 32.
Proof.
  intros Hb Hv. split; [apply Z.lor_nonneg; lia|]. destruct (decide (Z.lor v b = 0)) as [->|]; [lia|].
  assert (0 <= Z.lor v b) by (apply Z.lor_nonneg; lia). apply Z.log2_lt_pow2; [lia|]. rewrite Z.log2_lor by lia.
  apply Z.max_lub_lt; (destruct (decide (v = 0)) as [->|], (decide (b = 0)) as [->|]; try (cbn; lia); apply Z.log2_lt_pow2; lia).
Qed.

(** After the set-up the line sends and receives, idle and with its interrupts
    masked, the divisor registers hold the configured speed, and nothing is
    lost. *)
Definition set_up (l : pl011) (s : serial) : Prop :=
  ready s /\ v_ibrd (l_of s) = 13 /\ v_fbrd (l_of s) = 1 /\ v_imsc (l_of s) = 0 /\ sending (l_of s) = true /\ receiving (l_of s) = true /\
  v_tx (l_of s) = v_tx l /\ v_rx (l_of s) = v_rx l /\ v_rate (l_of s) = v_rate l /\ v_busy (l_of s) = 0%nat.

Lemma divisors_move s : ready s -> s_uart s = mkUart DEFAULT_CLOCK BAUDRATE 8 1 UART ->
  moved s (fun l => after IBRD 13 (after FBRD 1 l)) calculate_set_divisiors.
Proof.
  intros Hs Hu. destruct (set_moves FBRD 1 s Hs ltac:(done) ltac:(lia)) as (d1 & E1 & K1).
  destruct (set_moves IBRD 13 (with_sdev d1 s) Hs ltac:(done) ltac:(lia)) as (d2 & E2 & K2).
  exists d2. split.
  - unfold calculate_set_divisiors. mrun (eq_refl (Ret (s, s))). rewrite Hu. cbn -[reg_set]. change (u32 _) with 833. change (Z.land 833 63) with 1. change (Z.land (Z.shiftr 833 6) 65535) with 13.
    rewrite (M_bind_run _ _ _ _ _ E1). exact E2.
  - destruct K1, K2. unfold l_of in *. cbn in *. constructor; cbn; first [congruence|tauto].
Qed.

Lemma wait_moves s : ready s -> moved s idle (wait_tx_complete patience).
Proof. intros Hs. destruct (wait_tx_run s Hs) as (d' & E & [] & Hb). exists d'. split; [done|]. by constructor. Qed.

(** The steps of the set-up from the disabled line on. *)
Lemma uart_init_run s : exists s', uart_init patience s = Ret (0, s') /\ set_up (l_of s) s'.
Proof.
  unfold uart_init. rewrite (M_bind_run _ _ _ _ _ (eq_refl : modify _ s = Ret (tt, _))). set (s0 := mkSerial _ _).
  assert (ready s0) as R0 by done. change (l_of s) with (l_of s0).
  cut (exists a s', (calculate_set_divisiors;; reg_upd CR (fun v => Z.land v (u32 (Z.lnot CR_UARTEN)));; wait_tx_complete patience;;
     x ← get; reg_set IMSC 0;; reg_set DMACR 0;; reg_upd CR (fun v => Z.lor v (Z.lor CR_TXEN CR_RXEN));; reg_upd CR (fun v => Z.lor v CR_UARTEN);; mret 0) s0
     = Ret (a, s') /\ (a = 0 /\ set_up (l_of s0) s')).
  { intros (a & s' & E & -> & H). exists s'. by split. }
  eapply moved_bind; [by apply divisors_move|]. intros s1 U1 K1. assert (ready s1) by (unfold ready; by rewrite U1).
  eapply moved_bind; [apply upd_moves; [done|apply clear_en_range]|]. intros s2 U2 K2. assert (ready s2) by (unfold ready; by rewrite U2).
  eapply moved_bind; [by apply wait_moves|]. intros s3 U3 K3. assert (ready s3) by (unfold ready; by rewrite U3).
  rewrite (M_bind_run _ _ _ _ _ (eq_refl : get s3 = Ret (s3, s3))).
  eapply moved_bind; [by apply set_moves|]. intros s4 U4 K4. assert (ready s4) by (unfold ready; by rewrite U4).
  eapply moved_bind; [by apply set_moves|]. intros s5 U5 K5. assert (ready s5) by (unfold ready; by rewrite U5).
  eapply moved_bind; [apply upd_moves; [done|]; intros v; apply (set_bits_range (Z.lor CR_TXEN CR_RXEN)); vm_compute; split; [discriminate|reflexivity]|].
  intros s6 U6 K6. assert (ready s6) by (unfold ready; by rewrite U6).
  eapply moved_bind; [apply upd_moves; [done|]; intros v; apply (set_bits_range CR_UARTEN); vm_compute; split; [discriminate|reflexivity]|].
  intros s7 U7 K7. exists 0, s7. split; [done|]. split; [done|].
  assert (v_busy (l_of s7) = 0%nat) by (apply (kept_idle _ _ K7), (kept_idle _ _ K6), (kept_idle _ _ K5), (kept_idle _ _ K4), (kept_idle _ _ K3); done).
  repeat match goal with K : kept _ _ |- _ => destruct K end. cbn in *.
  unfold set_up, sending, receiving. split; [unfold ready; by rewrite U7|].
  assert (v_cr (l_of s7) = Z.lor (Z.lor (v_cr (l_of s5)) (Z.lor CR_TXEN CR_RXEN)) CR_UARTEN) as -> by congruence.
  rewrite !Z.lor_spec. change (Z.testbit (Z.lor CR_TXEN CR_RXEN) 8) with true. change (Z.testbit (Z.lor CR_TXEN CR_RXEN) 9) with true.
  change (Z.testbit CR_UARTEN 0) with true. rewrite !orb_true_r. split_and!; congruence || done.
Qed.
End Effect.

(** ** The console the rest of the kernel sees *)

(** The bytes sent so far and the bytes to come. *)
Record stream := mkStream { out : list Z; inp : list Z }.
Inductive cons_op := CPutc (c : Z) | CPuts (buf : list Z) (size : Z) | CGetc.
Definition spec_op (op : cons_op) (c : stream) : option (Z * stream) :=
  match op with
  | CPutc b => Some (0, mkStream (out c ++ [b mod 256]) (inp c))
  | CPuts buf size => Some (s32 size, mkStream (out c ++ ((fun b => b mod 256) <$> take (Z.to_nat size) buf)) (inp c))
  | CGetc => match inp c with [] => None | b :: rest => Some (b, mkStream (out c) rest) end
  end.
Fixpoint spec_run (ops : list cons_op) (c : stream) : option (list Z * stream) :=
  match ops with
  | [] => Some ([], c)
  | op :: rest => '(r, c) ← spec_op op c; '(rs, c) ← spec_run rest c; Some (r :: rs, c)
  end.

Section Refine.
Context `{UD : UartDevice} (patience : nat).
Definition run_op (op : cons_op) : M dev_console Z :=
  match op with
  | CPutc c => console_putc patience c;; mret 0
  | CPuts buf size => console_puts patience buf size
  | CGetc => console_getc patience
  end.
Fixpoint run_ops (ops : list cons_op) : M dev_console (list Z) :=
  match ops with [] => mret [] | op :: rest => r ← run_op op; rs ← run_ops rest; mret (r :: rs) end.

(** The line is up, idle and stands at [c]. *)
Definition stands_at (k : dev_console) (c : stream) : Prop :=
  let s := c_serial k in ready s /\ sending (l_of s) = true /\ receiving (l_of s) = true /\ v_tx (l_of s) = out c /\ v_rx (l_of s) = inp c /\ v_busy (l_of s) = 0%nat.

Context (Hp : (line_settle < patience)%nat).
Lemma console_putc_run k c b : stands_at k c ->
  exists k', console_putc patience b k = Ret (tt, k') /\ stands_at k' (mkStream (out c ++ [b mod 256]) (inp c)).
Proof.
  intros (Hs & Hsend & Hrec & Ht & Hr & Hi). destruct (putc_run patience Hp (c_serial k) b Hs Hsend Hi) as (d' & E & Htx & Hrx & Hcr & _ & Hb).
  eexists. split; [unfold console_putc, on_serial, zoom; by rewrite E|]. unfold stands_at, sending, receiving, l_of in *. cbn. rewrite Hcr, Htx, Hrx, Ht, Hr. by split_and!.
Qed.
Lemma serial_puts_run bs : forall k c, stands_at k c ->
  exists k', console_puts_loop patience bs k = Ret (tt, k') /\ stands_at k' (mkStream (out c ++ ((fun b => b mod 256) <$> bs)) (inp c)).
Proof.
  induction bs as [|b bs IH]; intros k c Hc; cbn [console_puts_loop].
  - exists k. split; [done|]. cbn. rewrite app_nil_r. by destruct c.
  - destruct (console_putc_run k c b Hc) as (k1 & E1 & H1). mrun E1. destruct (IH k1 _ H1) as (k2 & E2 & H2). exists k2. split; [done|].
    cbn in H2 |- *. by rewrite <- app_assoc in H2.
Qed.
Lemma run_op_refines k c op r c' : stands_at k c -> spec_op op c = Some (r, c') -> exists k', run_op op k = Ret (r, k') /\ stands_at k' c'.
Proof.
  intros Hc. destruct op as [b|buf size|]; cbn [spec_op run_op].
  - intros [= <- <-]. destruct (console_putc_run k c b Hc) as (k' & E & H). mrun E. by exists k'.
  - intros [= <- <-]. unfold console_puts. destruct (serial_puts_run (take (Z.to_nat size) buf) k c Hc) as (k' & E & H). mrun E. by exists k'.
  - destruct Hc as (Hs & Hsend & Hrec & Ht & Hr & Hi). destruct (inp c) as [|b rest] eqn:Ei; [done|]. intros [= <- <-].
    destruct (getc_run patience Hp (c_serial k) b rest Hs Hrec Hr) as (d' & E & Htx & Hrx & Hcr & _ & Hb).
    eexists. split; [unfold console_getc, on_serial, zoom; by rewrite E|]. unfold stands_at, sending, receiving, l_of in *. cbn. rewrite Hcr, Htx, Hrx, Ht. split_and!; done || by apply Hb.
Qed.
Lemma run_ops_refine ops : forall k c rs c', stands_at k c -> spec_run ops c = Some (rs, c') -> exists k', run_ops ops k = Ret (rs, k') /\ stands_at k' c'.
Proof.
  induction ops as [|op ops IH]; intros k c rs c' Hc; cbn [spec_run run_ops]; [intros [= <- <-]; by exists k|].
  intros ([r c1] & H1 & H2)%bind_Some. apply bind_Some in H2 as ([rs' c2] & H2 & [= <- <-]).
  destruct (run_op_refines k c op r c1 Hc H1) as (k1 & E1 & S1). destruct (IH k1 c1 rs' c2 S1 H2) as (k2 & E2 & S2).
  mrun E1. mrun E2. by exists k2.
Qed.
End Refine.

(** C14: the serial driver implements the console.  From any state of a PL011,
    [init_console] terminates, waits until the transmitter is idle, leaves the
    divisors of 115200 baud at 24 MHz (13 and 1) in their registers, masks the
    interrupts and switches the line on without losing a byte; the line keeps
    the speed it had, because the write of the line control register, with
    which the divisors take effect, is commented out.  From then on every sequence of character output, string output and
    character input behaves like the console the rest of the kernel is written
    against: the bytes appear on the line in order, each call returns what the
    specification returns, and input is delivered in order, as long as every
    read has a byte to come. *)
Theorem console_refines `{UD : UartDevice} (patience : nat) (k : dev_console) (ops : list cons_op) (rs : list Z) (c : stream)
  (Hp : (line_settle < patience)%nat)
  (Hspec : spec_run ops (mkStream (v_tx (l_of (c_serial k))) (v_rx (l_of (c_serial k)))) = Some (rs, c)) :
  exists k0 k', init_console patience k = Ret (tt, k0) /\ c_lock k0 = initlock /\
    v_ibrd (l_of (c_serial k0)) = 13 /\ v_fbrd (l_of (c_serial k0)) = 1 /\ v_imsc (l_of (c_serial k0)) = 0 /\
    v_rate (l_of (c_serial k0)) = v_rate (l_of (c_serial k)) /\
    run_ops patience ops k0 = Ret (rs, k') /\ stands_at k' c.
Proof.
  destruct (uart_init_run patience Hp (c_serial k)) as (s' & E & Hr & Hi & Hf & Hm & Hsend & Hrec & Htx & Hrx & Hrt & Hb).
  assert (init_console patience k = Ret (tt, mkCons s' initlock)) as E0.
  { unfold init_console, mbind, M_bind, modify, on_serial, zoom. cbn. by rewrite E. }
  destruct (run_ops_refine patience Hp ops (mkCons s' initlock) (mkStream (v_tx (l_of (c_serial k))) (v_rx (l_of (c_serial k)))) rs c) as (k' & E' & H'); [by split_and!|done|].
  exists (mkCons s' initlock), k'. by split_and!.
Qed.

(** ** A line that needs one look per byte, and loses a byte written before *)
Module UartDemo.
Definition norm (l : pl011) : pl011 :=
  mkPl (v_cr l mod 2 ^ 32) (v_imsc l) (v_ibrd l) (v_fbrd l) (v_rate l) (v_tx l) ((fun c => c mod 256) <$> v_rx l) (Nat.min 1 (v_busy l)) (Nat.min 1 (v_wait l)).
Definition uread (n a : Z) (d : pl011) : Z * pl011 :=
  let l := norm d in
  if a =? UART + uart_off FR then
    ((if (v_busy l =? 0)%nat then 0 else FR_BUSY) + (if (v_wait l =? 0)%nat && negb (bool_decide (v_rx l = [])) then 0 else FR_RXFE),
     mkPl (v_cr l) (v_imsc l) (v_ibrd l) (v_fbrd l) (v_rate l) (v_tx l) (v_rx l) (pred (v_busy l)) (pred (v_wait l)))
  else if a =? UART + uart_off CR then (v_cr l, l)
  else if a =? UART + uart_off DR then
    match v_rx l with [] => (0, l) | c :: rest => (c, mkPl (v_cr l) (v_imsc l) (v_ibrd l) (v_fbrd l) (v_rate l) (v_tx l) rest (v_busy l) 1) end
  else (0, l).
Definition uwrite (n v a : Z) (d : pl011) : pl011 :=
  let l := norm d in
  if a =? UART + uart_off DR then mkPl (v_cr l) (v_imsc l) (v_ibrd l) (v_fbrd l) (v_rate l) (v_tx l ++ if sending l && (v_busy l =? 0)%nat then [v mod 256] else []) (v_rx l) 1 (v_wait l)
  else if a =? UART + uart_off CR then mkPl v (v_imsc l) (v_ibrd l) (v_fbrd l) (v_rate l) (v_tx l) (v_rx l) (v_busy l) (v_wait l)
  else if a =? UART + uart_off IMSC then mkPl (v_cr l) v (v_ibrd l) (v_fbrd l) (v_rate l) (v_tx l) (v_rx l) (v_busy l) (v_wait l)
  else if a =? UART + uart_off IBRD then mkPl (v_cr l) (v_imsc l) v (v_fbrd l) (v_rate l) (v_tx l) (v_rx l) (v_busy l) (v_wait l)
  else if a =? UART + uart_off LCR_H then mkPl (v_cr l) (v_imsc l) (v_ibrd l) (v_fbrd l) (v_ibrd l, v_fbrd l) (v_tx l) (v_rx l) (v_busy l) (v_wait l)
  else if a =? UART + uart_off FBRD then mkPl (v_cr l) (v_imsc l) (v_ibrd l) v (v_rate l) (v_tx l) (v_rx l) (v_busy l) (v_wait l)
  else l.
Definition machine : Machine := {| mstate := pl011; mmio_read := uread; mmio_write := uwrite; sys_read := fun _ d => (0, d); sys_write := fun _ _ d => d |}.
Definition bytes_ok (l : list Z) : Prop := Forall (fun c => 0 <= c < 256) l.
Lemma mod_bytes l : bytes_ok ((fun c => c mod 256) <$> l).
Proof. apply Forall_fmap, Forall_true. intros c. by apply Z.mod_pos_bound. Qed.
Lemma bytes_mod l : bytes_ok l -> (fun c => c mod 256) <$> l = l.
Proof. induction 1 as [|c l Hc _ IH]; [done|]. cbn. rewrite IH. f_equal. by apply Z.mod_small. Qed.
(** A state with counters up to one, bytes and a 32-bit control word is its own view. *)
Lemma line_norm_id cr im ib fb rt tx rx b w : 0 <= cr < 2 ^ 32 -> bytes_ok rx -> (b <= 1)%nat -> (w <= 1)%nat -> norm (mkPl cr im ib fb rt tx rx b w) = mkPl cr im ib fb rt tx rx b w.
Proof. intros Hcr Hrx Hb Hw. unfold norm. cbn [v_cr v_imsc v_ibrd v_fbrd v_rate v_tx v_rx v_busy v_wait]. rewrite Z.mod_small, bytes_mod, !Nat.min_r by done. done. Qed.
Lemma norm_ok d : 0 <= v_cr (norm d) < 2 ^ 32 /\ bytes_ok (v_rx (norm d)) /\ (v_busy (norm d) <= 1)%nat /\ (v_wait (norm d) <= 1)%nat.
Proof. split; [by apply Z.mod_pos_bound|]. split; [apply mod_bytes|]. split; apply Nat.le_min_l. Qed.
Definition written (r : uart_reg) (v : Z) (l : pl011) : pl011 :=
  match r with
  | DR => mkPl (v_cr l) (v_imsc l) (v_ibrd l) (v_fbrd l) (v_rate l) (v_tx l ++ if sending l && (v_busy l =? 0)%nat then [v mod 256] else []) (v_rx l) 1 (v_wait l)
  | CR => mkPl v (v_imsc l) (v_ibrd l) (v_fbrd l) (v_rate l) (v_tx l) (v_rx l) (v_busy l) (v_wait l)
  | IMSC => mkPl (v_cr l) v (v_ibrd l) (v_fbrd l) (v_rate l) (v_tx l) (v_rx l) (v_busy l) (v_wait l)
  | IBRD => mkPl (v_cr l) (v_imsc l) v (v_fbrd l) (v_rate l) (v_tx l) (v_rx l) (v_busy l) (v_wait l)
  | FBRD => mkPl (v_cr l) (v_imsc l) (v_ibrd l) v (v_rate l) (v_tx l) (v_rx l) (v_busy l) (v_wait l)
  | LCR_H => mkPl (v_cr l) (v_imsc l) (v_ibrd l) (v_fbrd l) (v_ibrd l, v_fbrd l) (v_tx l) (v_rx l) (v_busy l) (v_wait l)
  | FR | ICR | DMACR => l
  end.
Lemma uwrite_reg r v d : uwrite 4 v (UART + uart_off r) d = written r v (norm d).
Proof. by destruct r. Qed.
Lemma norm_written r v d : 0 <= v < 2 ^ 32 -> norm (written r v (norm d)) = written r v (norm d).
Proof.
  intros Hv. destruct (norm_ok d) as (H1 & H2 & H3 & H4). destruct (norm d) as [cr im ib fb rt tx rx b w]; cbn in *. destruct r; apply line_norm_id; done || lia.
Qed.
Lemma line_norm_norm d : norm (norm d) = norm d.
Proof. destruct (norm_ok d) as (H1 & H2 & H3 & H4). destruct (norm d) as [cr im ib fb rt tx rx b w]; cbn in *. by apply line_norm_id. Qed.
#[global] Instance dev : @UartDevice machine.
Proof.
  refine (@Build_UartDevice machine norm 1 _ _ _ _ _ _ _ _); try (intros d; by destruct (norm_ok d) as (H1 & H2 & H3 & H4)).
  - intros r v d Hv. cbn [mmio_write machine]. rewrite uwrite_reg, norm_written by done. split; [by destruct r|]. split; [by destruct r|].
    destruct r; try by repeat split. exists (negb (v_busy (norm d) =? 0)%nat). rewrite negb_involutive. split; [by intros ->|by repeat split].
  - intros d. cbn [mmio_read machine]. destruct (norm_ok d) as (H1 & H2 & H3 & H4). unfold uread. rewrite Z.eqb_refl.
    rewrite line_norm_id by (done || lia). split; [|split; [|by repeat split]].
    + by destruct (v_busy (norm d)) as [|[|]], (_ && _).
    + by destruct (v_busy (norm d)) as [|[|]], (_ && _).
  - intros d. cbn [mmio_read machine]. change (uread 4 (UART + uart_off CR) d) with (v_cr (norm d), norm d). cbn beta iota zeta. rewrite line_norm_norm. by repeat split.
  - intros d c rest Hrx Hw _. cbn [mmio_read machine]. destruct (norm_ok d) as (H1 & H2 & H3 & H4). rewrite Hrx in H2. apply Forall_cons in H2 as [Hc Hrest].
    change (uread 4 (UART + uart_off DR) d) with (match v_rx (norm d) with [] => (0, norm d) | c :: rest => (c, mkPl (v_cr (norm d)) (v_imsc (norm d)) (v_ibrd (norm d)) (v_fbrd (norm d)) (v_rate (norm d)) (v_tx (norm d)) rest (v_busy (norm d)) 1) end).
    rewrite Hrx. rewrite line_norm_id by (done || lia). split; [by apply Z.mod_small|]. by repeat split.
Defined.
Definition boot : @dev_console machine := mkCons (@mkSerial machine (mkPl 0 0 0 0 (1, 0) [7] [104; 105] 1 1) uart0) (mkLock 1 None).
End UartDemo.

Lemma console_refines_witness :
  exists k0 k', init_console (MA := UartDemo.machine) 2 UartDemo.boot = Ret (tt, k0) /\ c_lock k0 = initlock /\
    v_ibrd (l_of (c_serial k0)) = 13 /\ v_fbrd (l_of (c_serial k0)) = 1 /\ v_imsc (l_of (c_serial k0)) = 0 /\
    v_rate (l_of (c_serial k0)) = (1, 0) /\
    run_ops (MA := UartDemo.machine) 2 [CPuts [72; 105] 2; CGetc; CPutc 33; CGetc] k0 = Ret ([2; 104; 0; 105], k') /\ stands_at k' (mkStream [7; 72; 105; 33] []).
Proof.
  apply (console_refines (UD := UartDemo.dev) 2 UartDemo.boot [CPuts [72; 105] 2; CGetc; CPutc 33; CGetc]).
  - cbn. lia.
  - reflexivity.
Defined.
