(* ===== verification/Flash.v ===== *)
(** * Flash memory (ukern/src/cfi.c)

    The driver of the parallel flash: the query of its geometry, buffered
    writes and reads.  The chip behind the addresses is not code of the
    kernel: it is a class of machines [FlashDevice] with the command set the
    driver relies on (query 0x98, buffered program 0xe8, status 0x70, clear
    0x50, array 0xff, as the board's flash implements them).  Programming is
    only promised for erased words, because that is all such a chip promises.
    [patience] bounds the wait for the ready bit; the theorems ask for more
    than the [fl_settle] status reads the chip may need.  Log output is left
    out. *)
From S2P Require Import Prelude Config Bitmap Page Ramdisk Machine.

Definition WSIZE : Z := 4.
Definition W2B (word : Z) : Z := Z.shiftl word 2.
Definition B2W (byte : Z) : Z := Z.shiftr byte 2.
Definition QEMU_EXPECTED_ERASE_REGION_NUM : Z := 1.
Definition QEMU_EXPECTED_ERASE_BLOCK_NUM : Z := 256.
Definition QEMU_EXPECTED_ERASE_BLOCK_SZ : Z := 512 * 256.
Definition QEMU_EXPECTED_PAGE_SZ : Z := Z.shiftl 1 11.
Definition CFI_ERASE_BLOCK_SZ : Z := QEMU_EXPECTED_ERASE_BLOCK_SZ.
Definition CFI_PAGE_SZ : Z := QEMU_EXPECTED_PAGE_SZ.
Definition CFI_PAGE_SZ_WORD : Z := CFI_PAGE_SZ / WSIZE.
Definition cfi_pflash_base : Z := ptov CONFIG_PFLASH_BASE.

Section Driver.
Context `{MA : Machine} (patience : nat).

Definition CFI_GETB (offset : Z) : M mstate Z := fun d =>
  let '(v, d') := mmio_read 1 (cfi_pflash_base + u32 offset) d in Ret (wrapu 8 v, d').
Definition CFI_GETW (woffset : Z) : M mstate Z := ioread32 (cfi_pflash_base + 4 * u32 woffset).
Definition CFI_PUTW (woffset val : Z) : M mstate () := iowrite32 val (cfi_pflash_base + 4 * u32 woffset).

Definition cfi_is_ready (offset : Z) : M mstate Z := CFI_PUTW offset 0x70;; v ← CFI_GETW offset; mret (Z.land v 0x80).

(** ** The query *)
Record cfi := mkCfi { f_dev : mstate; capacity : Z; eregnum : Z; eblksz : Z; pgsz : Z }.
Definition with_fdev (d : mstate) (c : cfi) : cfi := mkCfi d (capacity c) (eregnum c) (eblksz c) (pgsz c).
Definition on_chip {A} (m : M mstate A) : M cfi A := zoom f_dev with_fdev m.

Definition cfi_query_QRY : M mstate Z :=
  q ← CFI_GETB (W2B 0x10); if negb (q =? 81) then mret (-1) else
  r ← CFI_GETB (W2B 0x11); if negb (r =? 82) then mret (-1) else
  y ← CFI_GETB (W2B 0x12); if negb (y =? 89) then mret (-1) else mret 0.
Definition cfi_query_1b (offset : Z) : M mstate Z := CFI_GETB (W2B offset).
Definition cfi_query_2b (offset : Z) : M mstate Z :=
  hi ← CFI_GETB (W2B (offset + 1)); lo ← CFI_GETB (W2B offset); mret (Z.lor (Z.shiftl hi 8) lo).
(** [1u << n] with the shift instruction of the machine, which takes the
    number of places modulo 32 (C leaves a shift by 32 or more open). *)
Definition shl1 (n : Z) : Z := Z.shiftl 1 (n mod 32).

(** [cfi_query] behind the signature. *)
Definition cfi_query_geometry : M cfi Z :=
  n ← on_chip (cfi_query_1b 0x27); let cap := shl1 n in
  modify (fun c => mkCfi (f_dev c) cap (eregnum c) (eblksz c) (pgsz c));;
  n ← on_chip (cfi_query_2b 0x2a); let pg := shl1 n in
  modify (fun c => mkCfi (f_dev c) (capacity c) (eregnum c) (eblksz c) pg);;
  assertM (pg =? QEMU_EXPECTED_PAGE_SZ);;
  er ← on_chip (cfi_query_1b 0x2c);
  modify (fun c => mkCfi (f_dev c) (capacity c) er (eblksz c) (pgsz c));;
  assertM (er =? QEMU_EXPECTED_ERASE_REGION_NUM);;
  eblknum ← on_chip (cfi_query_2b 0x2d);
  assertM (eblknum + 1 =? QEMU_EXPECTED_ERASE_BLOCK_NUM);;
  eb ← on_chip (cfi_query_2b 0x2f);
  modify (fun c => mkCfi (f_dev c) (capacity c) (eregnum c) (u32 (eb * 256)) (pgsz c));;
  assertM (u32 (eb * 256) =? QEMU_EXPECTED_ERASE_BLOCK_SZ);;
  on_chip (CFI_PUTW 0 0xff);; mret 0.
Definition cfi_query : M cfi Z :=
  on_chip (CFI_PUTW 0x55 0x98);;
  ret ← on_chip cfi_query_QRY; if ret <? 0 then mret ret else cfi_query_geometry.
Definition init_cfi : M cfi Z := ret ← cfi_query; if ret <? 0 then mret (-1) else mret 0.

(** Erasing is compiled out: its body returns 0. *)
Definition cfi_erase (addr bytes : Z) : M mstate Z := mret 0.

(** ** Reading, through the device *)
Fixpoint read_head (fuel : nat) (offset walign size : Z) : M mstate (bytes * Z * Z) :=
  if (0 <? size) && (offset <? walign) then
    match fuel with
    | O => diverge
    | S fuel' => b ← CFI_GETB offset; '(r, o, s) ← read_head fuel' (offset + 1) walign (size - 1); mret (b :: r, o, s)
    end
  else mret ([], offset, size).
Fixpoint read_words (fuel : nat) (offset size : Z) : M mstate (bytes * Z * Z) :=
  if 4 <=? size then
    match fuel with
    | O => diverge
    | S fuel' => w ← CFI_GETW (offset / WSIZE); '(r, o, s) ← read_words fuel' (offset + WSIZE) (size - WSIZE); mret (le_enc 4 w ++ r, o, s)
    end
  else mret ([], offset, size).
Fixpoint read_tail (fuel : nat) (offset size : Z) : M mstate (bytes * Z * Z) :=
  if 0 <? size then
    match fuel with
    | O => diverge
    | S fuel' => b ← CFI_GETB offset; '(r, o, s) ← read_tail fuel' (offset + 1) (size - 1); mret (b :: r, o, s)
    end
  else mret ([], offset, size).
Definition cfi_read (offset size : Z) : M mstate (bytes * Z) :=
  '(a, offset, size) ← read_head 4 offset (align_up offset 4) size;
  '(w, offset, size) ← read_words (Z.to_nat (size / 4)) offset size;
  '(t, _, size) ← read_tail 3 offset size;
  mret (a ++ w ++ t, size).

(** ** Writing *)

(** [for (i = 0; i < wcnt; i++)]: one word at a time into the buffer. *)
Fixpoint fill_buffer (n : nat) (offset : Z) (inb : bytes) : M mstate (Z * bytes) :=
  match n with
  | O => mret (offset, inb)
  | S n' => w ← lift (rd_le inb 0 4); CFI_PUTW (B2W offset) w;; fill_buffer n' (u64 (offset + WSIZE)) (drop 4 inb)
  end.

(** [while (!cfi_is_ready(blkaddr)) {}]. *)
Fixpoint wait_ready (fuel : nat) (blkaddr : Z) : M mstate () :=
  r ← cfi_is_ready blkaddr;
  if r =? 0 then match fuel with O => diverge | S fuel' => wait_ready fuel' blkaddr end else mret tt.

Definition block_of (offset : Z) : Z := B2W (Z.land offset (u64 (Z.lnot (CFI_ERASE_BLOCK_SZ - 1)))).

(** One buffered write of [wcnt] words. *)
Definition write_page (offset wcnt : Z) (inb : bytes) : M mstate (Z * bytes) :=
  let blkaddr := block_of offset in
  CFI_PUTW blkaddr 0xe8;; CFI_PUTW blkaddr (wcnt - 1);;
  r ← fill_buffer (Z.to_nat wcnt) offset inb;
  CFI_PUTW blkaddr 0xd0;; wait_ready patience blkaddr;; mret r.
(** The loop over the pages, [words] left; [fuel] is their number. *)
Fixpoint write_pages (fuel : nat) (offset words wcnt : Z) (inb : bytes) : M mstate () :=
  if 0 <? words then
    match fuel with
    | O => diverge
    | S fuel' =>
        '(offset, inb) ← write_page offset wcnt inb;
        let words := u64 (words - wcnt) in
        write_pages fuel' offset words (s32 (if CFI_PAGE_SZ_WORD <? words then CFI_PAGE_SZ_WORD else words)) inb
    end
  else mret tt.

Definition first_count (offset words : Z) : Z :=
  let wcnt := s32 (B2W (CFI_PAGE_SZ - Z.land offset (CFI_PAGE_SZ - 1))) in
  if words <? wcnt then s32 words else wcnt.
Definition cfi_write (inb : bytes) (offset size : Z) : M mstate Z :=
  assertM ((offset mod WSIZE =? 0) && (size mod WSIZE =? 0));;
  let words := size / WSIZE in
  write_pages (Z.to_nat words) offset words (first_count offset words) inb;;
  CFI_PUTW 0 0x50;; mret size.
End Driver.

(** ** What the chip promises *)

Inductive fmode := FArray | FStatus | FQuery | FCount | FFill (left : nat) (words : list (Z * Z)).

(** [xs] laid over [b] at [off]. *)
Definition splice (b : bytes) (off : nat) (xs : bytes) : bytes := take off b ++ xs ++ drop (off + length xs) b.
Definition program (l : list (Z * Z)) (b : bytes) : bytes :=
  foldl (fun b '(w, v) => splice b (Z.to_nat (4 * w)) (le_enc 4 v)) b l.
Definition erased (b : bytes) (off n : Z) : Prop := forall i, off <= i < off + n -> b !! Z.to_nat i = Some 255.

Class FlashDevice `{MA : Machine} := {
  fl_mode : mstate -> fmode;
  fl_bytes : mstate -> bytes;
  fl_busy : mstate -> nat; (* status reads until a program operation is done *)
  fl_settle : nat;
  fl_len : Z;
  fl_info : Z -> Z; (* the query table *)
  fl_len_range : 0 <= fl_len < 2 ^ 31 /\ fl_len mod 4 = 0;
  fl_length : forall d, Z.of_nat (length (fl_bytes d)) = fl_len;
  fl_are_bytes : forall d, Forall is_byte (fl_bytes d);
  fl_busy_bound : forall d, (fl_busy d <= fl_settle)%nat;
  fl_view d d' := fl_mode d' = fl_mode d /\ fl_bytes d' = fl_bytes d /\ fl_busy d' = fl_busy d;
  fl_word w := 0 <= w /\ 4 * w + 4 <= fl_len;
  (* reads *)
  fl_read1 : forall d off, fl_mode d = FArray -> 0 <= off < fl_len ->
    let '(v, d') := mmio_read 1 (cfi_pflash_base + off) d in fl_bytes d !! Z.to_nat off = Some v /\ fl_view d d';
  fl_read4 : forall d w, fl_mode d = FArray -> fl_word w ->
    let '(v, d') := mmio_read 4 (cfi_pflash_base + 4 * w) d in rd_le (fl_bytes d) (4 * w) 4 = Ret v /\ fl_view d d';
  fl_read_info : forall d w, fl_mode d = FQuery -> fl_word w ->
    let '(v, d') := mmio_read 1 (cfi_pflash_base + 4 * w) d in v = fl_info w /\ fl_view d d';
  fl_read_status : forall d w, fl_mode d = FStatus -> fl_word w ->
    let '(v, d') := mmio_read 4 (cfi_pflash_base + 4 * w) d in
    (Z.land (u32 v) 0x80 =? 0) = negb (fl_busy d =? 0)%nat /\ fl_mode d' = FStatus /\ fl_bytes d' = fl_bytes d /\ fl_busy d' = pred (fl_busy d);
  (* commands *)
  fl_cmd v w d := mmio_write 4 v (cfi_pflash_base + 4 * w) d;
  fl_goes d' m b n := fl_mode d' = m /\ fl_bytes d' = b /\ fl_busy d' = n;
  fl_status : forall d w, fl_mode d = FArray \/ fl_mode d = FStatus -> fl_word w -> fl_goes (fl_cmd 0x70 w d) FStatus (fl_bytes d) (fl_busy d);
  fl_array : forall d w, fl_mode d = FQuery -> fl_word w -> fl_goes (fl_cmd 0xff w d) FArray (fl_bytes d) (fl_busy d);
  fl_clear : forall d w, fl_mode d = FArray \/ fl_mode d = FStatus -> fl_busy d = 0%nat -> fl_word w -> fl_goes (fl_cmd 0x50 w d) FArray (fl_bytes d) 0%nat;
  fl_query : forall d, fl_mode d = FArray -> fl_word 0x55 -> fl_goes (fl_cmd 0x98 0x55 d) FQuery (fl_bytes d) (fl_busy d);
  fl_buffer : forall d w, fl_mode d = FArray \/ fl_mode d = FStatus -> fl_busy d = 0%nat -> fl_word w -> fl_goes (fl_cmd 0xe8 w d) FCount (fl_bytes d) 0%nat;
  fl_count : forall d w n, fl_mode d = FCount -> fl_word w -> 0 <= n < 512 -> fl_goes (fl_cmd n w d) (FFill (S (Z.to_nat n)) []) (fl_bytes d) (fl_busy d);
  fl_fill : forall d w v n l, fl_mode d = FFill (S n) l -> fl_word w -> 0 <= v < 2 ^ 32 -> fl_goes (fl_cmd v w d) (FFill n (l ++ [(w, v)])) (fl_bytes d) (fl_busy d);
  fl_confirm : forall d w0 l p, fl_mode d = FFill 0 l -> fl_word w0 -> NoDup l.*1 ->
    (forall w v, (w, v) ∈ l -> fl_word w /\ w / 512 = p /\ w / 32768 * 32768 = w0 /\ erased (fl_bytes d) (4 * w) 4) ->
    exists n, fl_goes (fl_cmd 0xd0 w0 d) FStatus (program l (fl_bytes d)) n }.

(** ** Bytes and words *)

Lemma le_enc_dec (bs : bytes) : Forall is_byte bs -> le_enc (length bs) (le_dec bs) = bs.
Proof.
  induction 1 as [|b bs Hb _ IH]; [done|]. cbn [length le_enc le_dec]. unfold is_byte in Hb.
  rewrite (Z.mul_comm 256), Z.mod_add, Z.div_add, Z.mod_small, Z.div_small by lia. by rewrite Z.add_0_l, IH.
Qed.
Lemma le_dec_range (bs : bytes) : Forall is_byte bs -> 0 <= le_dec bs < 256 ^ Z.of_nat (length bs).
Proof.
  induction 1 as [|b bs Hb _ IH]; [cbn; lia|]. unfold is_byte in Hb. cbn [length le_dec].
  rewrite Nat2Z.inj_succ, Z.pow_succ_r by lia. lia.
Qed.
Lemma rd_le_take (bs : bytes) n : (n <= length bs)%nat -> rd_le bs 0 n = Ret (le_dec (take n bs)).
Proof.
  intros Hn. unfold rd_le. rewrite <- (length_take_le bs n Hn) at 1. rewrite (rd_bytes_has bs 0); [done|].
  split; [lia|]. intros j b Hj. by apply lookup_take_Some in Hj as [Hj _].
Qed.

Lemma splice_length b off xs : (off + length xs <= length b)%nat -> length (splice b off xs) = length b.
Proof. intros H. unfold splice. rewrite !length_app, length_take, length_drop. lia. Qed.
Lemma splice_splice b off xs ys : (off + length xs + length ys <= length b)%nat ->
  splice (splice b off xs) (off + length xs) ys = splice b off (xs ++ ys).
Proof.
  intros H. unfold splice. rewrite length_app, <- app_assoc.
  assert (length (take off b) = off) as Ht by (rewrite length_take; lia).
  rewrite (take_app_add' (take off b)) by done. rewrite take_app_length, <- app_assoc. do 2 f_equal.
  f_equal. rewrite <- Nat.add_assoc, (drop_app_add' (take off b)) by done. rewrite drop_app_add, drop_drop. f_equal. lia.
Qed.
Lemma splice_nil b off : splice b off [] = b.
Proof. unfold splice. cbn. by rewrite Nat.add_0_r, take_drop. Qed.
Lemma splice_get b off xs : (off + length xs <= length b)%nat -> take (length xs) (drop off (splice b off xs)) = xs.
Proof.
  intros H. unfold splice. rewrite drop_app_length' by (rewrite length_take; lia). by rewrite take_app_length.
Qed.
Lemma splice_after b off xs i : (off <= length b)%nat -> (off + length xs <= i)%nat -> splice b off xs !! i = b !! i.
Proof.
  intros Hb H. unfold splice. rewrite lookup_app_r by (rewrite length_take; lia). rewrite lookup_app_r by (rewrite length_take; lia).
  rewrite lookup_drop, length_take. f_equal. lia.
Qed.

(** What [fill_buffer] leaves in the buffer of the chip. *)
Fixpoint entries (n : nat) (w : Z) (inb : bytes) : list (Z * Z) :=
  match n with O => [] | S n' => (w, le_dec (take 4 inb)) :: entries n' (w + 1) (drop 4 inb) end.
Lemma entries_range n w inb x v : (x, v) ∈ entries n w inb -> w <= x < w + Z.of_nat n.
Proof.
  revert w inb. induction n as [|n IH]; intros w inb; cbn [entries]; [by intros ?%not_elem_of_nil|].
  intros [[= -> ->]|H]%elem_of_cons; [lia|]. apply IH in H. lia.
Qed.
Lemma entries_NoDup n w inb : NoDup (entries n w inb).*1.
Proof.
  revert w inb. induction n as [|n IH]; intros w inb; cbn; [constructor|]. constructor; [|apply IH].
  intros ([x v] & -> & H)%list_elem_of_fmap. apply entries_range in H. cbn in H. lia.
Qed.
(** Programming those words writes the bytes they came from. *)
Lemma program_entries n w inb b : Forall is_byte inb -> (4 * n <= length inb)%nat -> 0 <= w -> (Z.to_nat (4 * w) + 4 * n <= length b)%nat ->
  program (entries n w inb) b = splice b (Z.to_nat (4 * w)) (take (4 * n) inb).
Proof.
  revert w inb b. induction n as [|n IH]; intros w inb b Hb Hl Hw Hin; [by rewrite Nat.mul_0_r, splice_nil|].
  cbn [entries program foldl]. set (x := take 4 inb). assert (length x = 4)%nat as Hx by (unfold x; rewrite length_take; lia).
  assert (le_enc 4 (le_dec x) = x) as -> by (rewrite <- Hx at 1; apply le_enc_dec; unfold x; by apply Forall_take).
  change (foldl _ ?b ?l) with (program l b). rewrite IH; [|by apply Forall_drop|rewrite length_drop; lia|lia|rewrite splice_length; lia].
  replace (Z.to_nat (4 * (w + 1))) with (Z.to_nat (4 * w) + length x)%nat by lia.
  rewrite splice_splice by (rewrite length_take, length_drop; lia). f_equal.
  unfold x. rewrite <- (take_drop 4 inb) at 3. replace (4 * S n)%nat with (4 + 4 * n)%nat by lia.
  by rewrite (take_app_add' (take 4 inb) _ 4 (4 * n)) by exact (eq_sym Hx).
Qed.

(** ** The driver on such a chip *)
Lemma putw_run `{FD : FlashDevice} w v d : fl_word w -> 0 <= v < 2 ^ 32 -> CFI_PUTW w v d = Ret (tt, fl_cmd v w d).
Proof.
  intros [Hw Hl] Hv. pose proof fl_len_range as [Hr _]. unfold CFI_PUTW, iowrite32, modify.
  by rewrite (u32_small w), (u32_small v) by lia.
Qed.
Section Effect.
Context `{FD : FlashDevice} (patience : nat) (Hp : (fl_settle < patience)%nat).

Lemma fill_buffer_run n : forall offset inb d l, fl_mode d = FFill n l -> Forall is_byte inb -> (4 * n <= length inb)%nat ->
  0 <= offset -> offset mod 4 = 0 -> offset + 4 * Z.of_nat n <= fl_len ->
  exists d', fill_buffer n offset inb d = Ret ((offset + 4 * Z.of_nat n, drop (4 * n) inb), d') /\
    fl_goes d' (FFill 0 (l ++ entries n (offset / 4) inb)) (fl_bytes d) (fl_busy d).
Proof.
  pose proof fl_len_range as [Hr _].
  induction n as [|n IH]; intros offset inb d l Hm Hb Hl Ho Ha Hin; cbn [fill_buffer entries].
  { exists d. rewrite Z.add_0_r, app_nil_r. by repeat split. }
  pose proof (Z.div_mod offset 4 ltac:(lia)) as Hdm. rewrite Ha in Hdm.
  assert (fl_word (offset / 4)) as Hw by (split; lia).
  assert (0 <= le_dec (take 4 inb) < 2 ^ 32) as Hv.
  { pose proof (le_dec_range (take 4 inb) ltac:(by apply Forall_take)) as H. rewrite length_take_le in H by lia. exact H. }
  unfold lift at 1. rewrite rd_le_take by lia. mrun (eq_refl (Ret (le_dec (take 4 inb), d))).
  change (B2W offset) with (Z.shiftr offset 2). rewrite Z.shiftr_div_pow2 by lia. change (2 ^ 2) with 4.
  mrun (putw_run (offset / 4) _ d Hw Hv). destruct (fl_fill d _ _ _ _ Hm Hw Hv) as (Hm1 & Hb1 & Hn1).
  unfold WSIZE. rewrite u64_small by lia.
  destruct (IH (offset + 4) (drop 4 inb) _ _ Hm1) as (d' & E & Hm2 & Hb2 & Hn2);
    [by apply Forall_drop|rewrite length_drop; lia|lia|by rewrite <- (Z.mul_1_l 4) at 1; rewrite Z.mod_add by lia|lia|].
  exists d'. rewrite E, drop_drop. split; [do 2 f_equal; f_equal; [lia|f_equal; lia]|].
  rewrite Hb1 in Hb2. rewrite Hn1 in Hn2. rewrite <- app_assoc in Hm2.
  replace ((offset + 4) / 4) with (offset / 4 + 1) in Hm2 by (rewrite <- (Z.mul_1_l 4) at 2; by rewrite Z.div_add by lia). by split.
Qed.

Lemma ready_run w d : fl_word w -> fl_mode d = FArray \/ fl_mode d = FStatus ->
  exists v d', cfi_is_ready w d = Ret (v, d') /\ (v =? 0) = negb (fl_busy d =? 0)%nat /\ fl_goes d' FStatus (fl_bytes d) (pred (fl_busy d)).
Proof.
  intros Hw Hm. unfold cfi_is_ready. mrun (putw_run w 0x70 d Hw ltac:(lia)).
  destruct (fl_status d w Hm Hw) as (Hm1 & Hb1 & Hn1). pose proof (fl_read_status _ w Hm1 Hw) as Hrd.
  destruct Hw as [Hw Hlw]. pose proof fl_len_range as [Hr _].
  unfold CFI_GETW. rewrite (u32_small w) by lia. unfold ioread32 at 1, mbind, M_bind.
  destruct (mmio_read 4 _ _) as [v d2]. destruct Hrd as (Hv & Hm2 & Hb2 & Hn2).
  eexists _, _. split; [done|]. by rewrite Hv, Hn1, <- Hb1, <- Hn1.
Qed.

Lemma wait_ready_run w : fl_word w -> forall fuel d, fl_mode d = FArray \/ fl_mode d = FStatus -> (fl_busy d <= fuel)%nat ->
  exists d', wait_ready fuel w d = Ret (tt, d') /\ fl_goes d' FStatus (fl_bytes d) 0%nat.
Proof.
  intros Hw. induction fuel as [|fuel IH]; intros d Hm Hn; destruct (ready_run w d Hw Hm) as (v & d1 & E & Hv & Hm1 & Hb1 & Hn1).
  - cbn [wait_ready]. mrun E. assert (fl_busy d = 0)%nat as H0 by lia. rewrite H0 in *. rewrite Hv. exists d1. by repeat split.
  - cbn [wait_ready]. mrun E. rewrite Hv. destruct (Nat.eqb_spec (fl_busy d) 0) as [H0|H0]; cbn [negb].
    + rewrite H0 in *. exists d1. by repeat split.
    + destruct (IH d1) as (d2 & E2 & Hm2 & Hb2 & Hn2); [by right|lia|]. exists d2. rewrite E2. rewrite Hb1 in Hb2. by repeat split.
Qed.

Lemma block_of_page offset p : 0 <= offset < 2 ^ 31 -> offset / 2048 = p -> block_of offset = p / 64 * 32768.
Proof.
  intros Ho <-. unfold block_of, B2W, CFI_ERASE_BLOCK_SZ, QEMU_EXPECTED_ERASE_BLOCK_SZ.
  assert (Z.land offset (u64 (Z.lnot (512 * 256 - 1))) = offset / 131072 * 131072) as ->.
  { change (512 * 256 - 1) with (Z.ones 17). apply Z.bits_inj'. intros n Hn. rewrite Z.land_spec. unfold wrapu.
    change 131072 with (2 ^ 17). rewrite <- Z.shiftr_div_pow2, <- Z.shiftl_mul_pow2 by lia.
    destruct (Z.lt_ge_cases n 17) as [|].
    - rewrite Z.shiftl_spec_low, Z.mod_pow2_bits_low, Z.lnot_spec, Z.ones_spec_low by lia. apply andb_false_r.
    - rewrite Z.shiftl_spec, Z.shiftr_spec by lia. replace (n - 17 + 17) with n by lia.
      destruct (Z.lt_ge_cases n 64) as [|].
      + rewrite Z.mod_pow2_bits_low, Z.lnot_spec, Z.ones_spec_high by lia. apply andb_true_r.
      + rewrite Z.mod_pow2_bits_high, andb_false_r by lia. symmetry. apply testbit_above; lia. }
  rewrite Z.shiftr_div_pow2 by lia. rewrite Z.div_div by lia. change (2048 * 64) with 131072.
  change (2 ^ 2) with 4. replace (offset / 131072 * 131072) with (offset / 131072 * 32768 * 4) by lia. by rewrite Z.div_mul.
Qed.

Definition idle (d : mstate) : Prop := (fl_mode d = FArray \/ fl_mode d = FStatus) /\ fl_busy d = 0%nat.
Lemma write_page_run d offset n inb : idle d -> Forall is_byte inb -> (0 < n)%nat -> (4 * n <= length inb)%nat ->
  0 <= offset -> offset mod 4 = 0 -> offset mod 2048 + 4 * Z.of_nat n <= 2048 -> offset + 4 * Z.of_nat n <= fl_len ->
  erased (fl_bytes d) offset (4 * Z.of_nat n) ->
  exists d', write_page patience offset (Z.of_nat n) inb d = Ret ((offset + 4 * Z.of_nat n, drop (4 * n) inb), d') /\
    idle d' /\ fl_bytes d' = splice (fl_bytes d) (Z.to_nat offset) (take (4 * n) inb).
Proof.
  intros [Hm Hn] Hb Hn0 Hl Ho Ha Hpg Hin Her. pose proof fl_len_range as [Hr _].
  pose proof (Z.div_mod offset 2048 ltac:(lia)). pose proof (Z.mod_pos_bound offset 2048 ltac:(lia)).
  pose proof (Z.div_mod offset 4 ltac:(lia)) as Hd4. rewrite Ha in Hd4.
  set (p := offset / 2048) in *. assert (0 <= p) by (apply Z.div_pos; lia).
  pose proof (Z.div_mod p 64 ltac:(lia)). pose proof (Z.mod_pos_bound p 64 ltac:(lia)).
  assert (fl_word (p / 64 * 32768)) as Hw by (split; [apply Z.mul_nonneg_nonneg; [apply Z.div_pos|]|]; lia).
  unfold write_page. rewrite (block_of_page offset p) by (done || lia). set (w0 := p / 64 * 32768) in *.
  mrun (putw_run w0 0xe8 d Hw ltac:(lia)). destruct (fl_buffer d w0 Hm Hn Hw) as (Hm1 & Hb1 & Hn1).
  mrun (putw_run w0 (Z.of_nat n - 1) (fl_cmd 0xe8 w0 d) Hw ltac:(lia)).
  destruct (fl_count _ w0 (Z.of_nat n - 1) Hm1 Hw ltac:(lia)) as (Hm2 & Hb2 & Hn2). set (d2 := fl_cmd _ w0 (fl_cmd 0xe8 w0 d)) in *. clearbody d2.
  rewrite Nat2Z.id. replace (S (Z.to_nat (Z.of_nat n - 1))) with n in Hm2 by lia.
  destruct (fill_buffer_run n offset inb d2 [] Hm2 Hb Hl Ho Ha Hin) as (d3 & E3 & Hm3 & Hb3 & Hn3). cbn [app] in Hm3. mrun E3.
  mrun (putw_run w0 0xd0 d3 Hw ltac:(lia)).
  destruct (fl_confirm d3 w0 _ p Hm3 Hw (entries_NoDup _ _ _)) as (k & Hm4 & Hb4 & Hn4).
  { intros w v Hin'. apply entries_range in Hin'.
    assert (w / 512 = p) as Hwp by (symmetry; apply (Z.div_unique w 512 p (w - 512 * p)); lia).
    split; [split; lia|]. split; [done|]. split; [|intros i Hi; rewrite Hb3, Hb2, Hb1; apply Her; lia].
    unfold w0. f_equal. rewrite <- Hwp, Z.div_div by lia. done. }
  destruct (wait_ready_run w0 Hw patience (fl_cmd 0xd0 w0 d3)) as (d5 & E5 & Hm5 & Hb5 & Hn5); [by right|pose proof (fl_busy_bound (fl_cmd 0xd0 w0 d3)); lia|].
  mrun E5. exists d5. split; [done|]. split; [split; [by right|done]|].
  pose proof (fl_length d) as Hlen. rewrite Hb5, Hb4, program_entries, Hb3, Hb2, Hb1; [|done|done|lia|rewrite Hb3, Hb2, Hb1; lia].
  f_equal. lia.
Qed.

(** [n] words from [offset] are one round: they stay in a page and reach its
    end unless they are the last ones. *)
Definition round_of (offset words : Z) (n : nat) : Prop :=
  (0 < words -> (0 < n)%nat) /\ Z.of_nat n <= words /\ offset mod 2048 + 4 * Z.of_nat n <= 2048 /\
  (Z.of_nat n = words \/ (offset + 4 * Z.of_nat n) mod 2048 = 0).

Lemma next_round offset words n : 0 < words < 2 ^ 31 -> round_of offset words n ->
  exists n', s32 (if CFI_PAGE_SZ_WORD <? u64 (words - Z.of_nat n) then CFI_PAGE_SZ_WORD else u64 (words - Z.of_nat n)) = Z.of_nat n' /\
    u64 (words - Z.of_nat n) = words - Z.of_nat n /\ round_of (offset + 4 * Z.of_nat n) (words - Z.of_nat n) n'.
Proof.
  intros Hw (Hn0 & Hle & Hpg & Hend). specialize (Hn0 ltac:(lia)). rewrite u64_small by lia. change CFI_PAGE_SZ_WORD with 512.
  set (left := words - Z.of_nat n). exists (Z.to_nat (Z.min 512 left)).
  destruct (Z.ltb_spec 512 left); rewrite s32_small by lia; (split; [lia|]; split; [done|]).
  - destruct Hend as [|He]; [lia|]. split; [lia|]. split; [lia|]. rewrite He. split; [lia|]. right.
    rewrite Z2Nat.id, Z.min_l by lia. replace (offset + 4 * Z.of_nat n + 4 * 512) with (offset + 4 * Z.of_nat n + 1 * 2048) by lia. by rewrite Z.mod_add.
  - split; [lia|]. split; [lia|]. split; [|left; lia]. destruct Hend as [|He]; [|rewrite He; lia].
    pose proof (Z.mod_pos_bound (offset + 4 * Z.of_nat n) 2048). lia.
Qed.

Lemma write_pages_run : forall fuel d offset words n inb, idle d -> Forall is_byte inb -> 0 <= words <= Z.of_nat fuel ->
  4 * words <= Z.of_nat (length inb) -> 0 <= offset -> offset mod 4 = 0 -> offset + 4 * words <= fl_len -> round_of offset words n ->
  erased (fl_bytes d) offset (4 * words) ->
  exists d', write_pages patience fuel offset words (Z.of_nat n) inb d = Ret (tt, d') /\
    idle d' /\ fl_bytes d' = splice (fl_bytes d) (Z.to_nat offset) (take (Z.to_nat (4 * words)) inb).
Proof.
  pose proof fl_len_range as [Hr _].
  induction fuel as [|fuel IH]; intros d offset words n inb Hi Hb Hf Hl Ho Ha Hin Hro Her; cbn [write_pages].
  { exists d. assert (words = 0) as -> by lia. split; [done|]. split; [done|]. by rewrite splice_nil. }
  destruct (Z.ltb_spec 0 words) as [Hpos|]; [|exists d; assert (words = 0) as -> by lia; split; [done|]; split; [done|]; by rewrite splice_nil].
  pose proof Hro as (Hn0 & Hle & Hpg & _). specialize (Hn0 Hpos).
  destruct (write_page_run d offset n inb) as (d1 & E & Hi1 & Hb1); [done..|lia|done|done|done|lia|intros i ?; apply Her; lia|].
  mrun E. destruct (next_round offset words n ltac:(lia) Hro) as (n' & -> & -> & Hro').
  assert (length (take (4 * n) inb) = 4 * n)%nat as Hlt by (rewrite length_take; lia). pose proof (fl_length d) as Hlen.
  destruct (IH d1 (offset + 4 * Z.of_nat n) (words - Z.of_nat n) n' (drop (4 * n) inb)) as (d2 & E2 & Hi2 & Hb2);
    [done|by apply Forall_drop|lia|rewrite length_drop; lia|lia|by rewrite Z.mul_comm, Z.mod_add by lia|lia|done| |].
  { intros i ?. rewrite Hb1, splice_after by lia. apply Her. lia. }
  exists d2. split; [done|]. split; [done|]. rewrite Hb2, Hb1.
  replace (Z.to_nat (offset + 4 * Z.of_nat n)) with (Z.to_nat offset + length (take (4 * n) inb))%nat by lia.
  rewrite splice_splice by (rewrite !length_take, length_drop; lia). f_equal.
  replace (Z.to_nat (4 * words)) with (4 * n + Z.to_nat (4 * (words - Z.of_nat n)))%nat by lia.
  rewrite <- (take_drop (4 * n) inb) at 3. by rewrite (take_app_add' (take (4 * n) inb) _ (4 * n)) by exact (eq_sym Hlt).
Qed.

Lemma first_round offset words : 0 <= offset -> offset mod 4 = 0 -> 0 <= words < 2 ^ 31 ->
  exists n, first_count offset words = Z.of_nat n /\ round_of offset words n.
Proof.
  intros Ho Ha Hw. unfold first_count, B2W. change (CFI_PAGE_SZ - 1) with (Z.ones 11). change CFI_PAGE_SZ with 2048.
  rewrite Z.land_ones, Z.shiftr_div_pow2 by lia. change (2 ^ 11) with 2048. change (2 ^ 2) with 4.
  pose proof (Z.div_mod offset 2048 ltac:(lia)) as Hd. pose proof (Z.mod_pos_bound offset 2048 ltac:(lia)) as Hm.
  pose proof (Z.div_mod offset 4 ltac:(lia)) as Hd4. rewrite Ha in Hd4. set (k := offset mod 2048) in *.
  set (q := (2048 - k) / 4). assert (4 * q = 2048 - k) as Hq.
  { unfold q. replace (2048 - k) with ((512 * (1 + offset / 2048) - offset / 4) * 4) by lia. rewrite Z.div_mul by lia. lia. }
  rewrite s32_small by lia. destruct (Z.ltb_spec words q).
  - exists (Z.to_nat words). rewrite s32_small by lia. split; [lia|]. unfold round_of. fold k. split; [lia|]. split; [lia|]. split; [lia|left; lia].
  - exists (Z.to_nat q). split; [lia|]. unfold round_of. fold k. split; [lia|]. split; [lia|]. split; [lia|]. right.
    replace (offset + 4 * Z.of_nat (Z.to_nat q)) with ((offset / 2048 + 1) * 2048) by lia. by rewrite Z.mod_mul.
Qed.

Lemma cfi_write_run d inb offset size : idle d -> Forall is_byte inb -> 0 <= size <= Z.of_nat (length inb) -> size mod 4 = 0 ->
  0 <= offset -> offset mod 4 = 0 -> offset + size <= fl_len -> fl_word 0 -> erased (fl_bytes d) offset size ->
  exists d', cfi_write patience inb offset size d = Ret (size, d') /\
    fl_goes d' FArray (splice (fl_bytes d) (Z.to_nat offset) (take (Z.to_nat size) inb)) 0%nat.
Proof.
  intros Hi Hb Hs Hs4 Ho Ha Hin H0 Her. pose proof fl_len_range as [Hr _]. unfold cfi_write, WSIZE. rewrite Ha, Hs4.
  mrun (eq_refl (Ret (tt, d))). pose proof (Z.div_mod size 4 ltac:(lia)) as Hd. rewrite Hs4 in Hd.
  destruct (first_round offset (size / 4)) as (n & -> & Hro); [done|done|lia|].
  destruct (write_pages_run (Z.to_nat (size / 4)) d offset (size / 4) n inb) as (d1 & E & [Hm1 Hn1] & Hb1);
    [done|done|lia|lia|done|done|lia|done|intros i ?; apply Her; lia|].
  mrun E. mrun (putw_run 0 0x50 d1 H0 ltac:(lia)). eexists. split; [done|].
  destruct (fl_clear d1 0 Hm1 Hn1 H0) as (Hm2 & Hb2 & Hn2). split; [done|]. split; [|done]. rewrite Hb2, Hb1. do 2 f_equal. lia.
Qed.

End Effect.

(** ** Reading the chip is reading its bytes *)
Section Reading.
Context `{FD : FlashDevice}.
Lemma view_trans d1 d2 d3 : fl_view d1 d2 -> fl_view d2 d3 -> fl_view d1 d3.
Proof. intros (? & ? & ?) (? & ? & ?). split; [congruence|split; congruence]. Qed.

Lemma getb_run d off b : fl_mode d = FArray -> Ramdisk.CFI_GETB (fl_bytes d) off = Ret b -> exists d', CFI_GETB off d = Ret (b, d') /\ fl_view d d'.
Proof.
  intros Hm Hr. unfold Ramdisk.CFI_GETB in Hr. apply rd_Ret in Hr as [Hoff Hr]. pose proof fl_len_range as [Hlr _]. pose proof (fl_length d) as Hl.
  apply lookup_lt_Some in Hr as Hlt. pose proof (fl_read1 d off Hm ltac:(lia)) as Hrd. unfold CFI_GETB. rewrite u32_small by lia.
  destruct (mmio_read 1 _ d) as [v d']. destruct Hrd as [Hv Hd]. exists d'. split; [|done]. rewrite Hr in Hv. injection Hv as <-.
  pose proof (proj1 (Forall_lookup _ _) (fl_are_bytes d) _ _ Hr) as Hb. unfold is_byte in Hb. unfold wrapu. by rewrite Z.mod_small by (change (2 ^ 8) with 256; lia).
Qed.

Lemma rd_bytes_range (img : bytes) n : forall off bs, rd_bytes img off n = Ret bs -> Forall is_byte img ->
  length bs = n /\ Forall is_byte bs /\ (n = 0%nat \/ 0 <= off /\ off + Z.of_nat n <= Z.of_nat (length img)).
Proof.
  induction n as [|n IH]; intros off bs; cbn [rd_bytes]; [intros [= <-] _; by repeat split; auto|].
  intros (b & Hb & H)%outcome_bind_Ret Hi. apply outcome_bind_Ret in H as (r & Hr & [= <-]).
  apply rd_Ret in Hb as [Ho Hb]. destruct (IH _ _ Hr Hi) as (Hl & Hf & Hx). apply lookup_lt_Some in Hb as Hlt. cbn [length].
  split; [lia|]. split; [|right; lia]. constructor; [exact (proj1 (Forall_lookup _ _) Hi _ _ Hb)|done].
Qed.

Lemma getw_run d w bs : fl_mode d = FArray -> Ramdisk.CFI_GETW (fl_bytes d) w = Ret bs ->
  exists v d', CFI_GETW w d = Ret (v, d') /\ le_enc 4 v = bs /\ fl_view d d'.
Proof.
  intros Hm Hr. unfold Ramdisk.CFI_GETW in Hr. destruct (rd_bytes_range _ _ _ _ Hr (fl_are_bytes d)) as (Hl & Hb & [Hx|Hx]); [done|].
  pose proof fl_len_range as [Hlr _]. rewrite fl_length in Hx. assert (fl_word w) as Hw by (split; lia).
  pose proof (fl_read4 d w Hm Hw) as Hrd. unfold CFI_GETW, ioread32. rewrite u32_small by lia.
  destruct (mmio_read 4 _ d) as [v d']. destruct Hrd as [Hv Hd]. unfold rd_le in Hv. rewrite Hr in Hv. injection Hv as <-.
  pose proof (le_dec_range bs Hb) as Hle. rewrite Hl in Hle. eexists _, d'. split; [done|]. split; [|done].
  rewrite u32_small by exact Hle. rewrite <- Hl. by apply le_enc_dec.
Qed.

Lemma read_head_sim fuel : forall d o w s r, fl_mode d = FArray -> cfi_head (fl_bytes d) fuel o w s = Ret r ->
  exists d', read_head fuel o w s d = Ret (r, d') /\ fl_view d d'.
Proof.
  induction fuel as [|fuel IH]; intros d o w s r Hm; cbn [cfi_head read_head]; destruct ((0 <? s) && (o <? w)); try done;
    try (intros [= <-]; exists d; by repeat split).
  intros (b & Hb & H)%outcome_bind_Ret. apply outcome_bind_Ret in H as ([[x y] z] & Hx & [= <-]).
  destruct (getb_run d o b Hm Hb) as (d1 & E1 & V1). pose proof V1 as (Hm1 & Hb1 & _). rewrite Hm in Hm1. rewrite <- Hb1 in Hx.
  destruct (IH d1 _ _ _ _ Hm1 Hx) as (d2 & E2 & V2). mrun E1. mrun E2. exists d2. split; [done|by eapply view_trans].
Qed.
Lemma read_tail_sim fuel : forall d o s r, fl_mode d = FArray -> cfi_tail (fl_bytes d) fuel o s = Ret r ->
  exists d', read_tail fuel o s d = Ret (r, d') /\ fl_view d d'.
Proof.
  induction fuel as [|fuel IH]; intros d o s r Hm; cbn [cfi_tail read_tail]; destruct (0 <? s); try done;
    try (intros [= <-]; exists d; by repeat split).
  intros (b & Hb & H)%outcome_bind_Ret. apply outcome_bind_Ret in H as ([[x y] z] & Hx & [= <-]).
  destruct (getb_run d o b Hm Hb) as (d1 & E1 & V1). pose proof V1 as (Hm1 & Hb1 & _). rewrite Hm in Hm1. rewrite <- Hb1 in Hx.
  destruct (IH d1 _ _ _ Hm1 Hx) as (d2 & E2 & V2). mrun E1. mrun E2. exists d2. split; [done|by eapply view_trans].
Qed.
Lemma read_words_sim fuel : forall d o s r, fl_mode d = FArray -> cfi_words (fl_bytes d) fuel o s = Ret r ->
  exists d', read_words fuel o s d = Ret (r, d') /\ fl_view d d'.
Proof.
  induction fuel as [|fuel IH]; intros d o s r Hm; cbn [cfi_words read_words]; destruct (4 <=? s); try done;
    try (intros [= <-]; exists d; by repeat split).
  intros (b & Hb & H)%outcome_bind_Ret. apply outcome_bind_Ret in H as ([[x y] z] & Hx & [= <-]).
  destruct (getw_run d _ b Hm Hb) as (v & d1 & E1 & <- & V1). pose proof V1 as (Hm1 & Hb1 & _). rewrite Hm in Hm1. rewrite <- Hb1 in Hx.
  destruct (IH d1 _ _ _ Hm1 Hx) as (d2 & E2 & V2). mrun E1. mrun E2. exists d2. split; [done|by eapply view_trans].
Qed.

(** In array mode the driver reads what [Ramdisk.cfi_read] reads of the bytes. *)
Lemma cfi_read_sim d o s r : fl_mode d = FArray -> Ramdisk.cfi_read (fl_bytes d) o s = Ret r ->
  exists d', cfi_read o s d = Ret (r, d') /\ fl_view d d'.
Proof.
  intros Hm. unfold Ramdisk.cfi_read, cfi_read.
  intros ([[a o1] s1] & H1 & H)%outcome_bind_Ret. apply outcome_bind_Ret in H as ([[w o2] s2] & H2 & H).
  apply outcome_bind_Ret in H as ([[t o3] s3] & H3 & [= <-]).
  destruct (read_head_sim _ d _ _ _ _ Hm H1) as (d1 & E1 & V1). pose proof V1 as (Hm1 & Hb1 & _). rewrite Hm in Hm1. rewrite <- Hb1 in H2, H3.
  destruct (read_words_sim _ d1 _ _ _ Hm1 H2) as (d2 & E2 & V2). pose proof V2 as (Hm2 & Hb2 & _). rewrite Hm1 in Hm2. rewrite <- Hb2 in H3.
  destruct (read_tail_sim _ d2 _ _ _ Hm2 H3) as (d3 & E3 & V3). mrun E1; cbv iota. mrun E2; cbv iota. mrun E3; cbv iota. exists d3. split; [done|].
  eapply view_trans; [by eapply view_trans|done].
Qed.
End Reading.

(** C9: what is written to the flash is read back.  On every chip with the
    command set of [FlashDevice] that is idle and shows its array, writing
    [size] bytes from [inb] to an erased range (both word aligned, inside the
    chip, crossing page and block boundaries as they may) terminates, returns
    [size], leaves exactly those bytes at [offset] and every other byte of the
    chip as it was, and leaves the chip in array mode; reading the range back
    through the driver then returns the bytes written.  Starting with a bad
    alignment stops at the assertion instead. *)
Theorem cfi_write_read_roundtrip `{FD : FlashDevice} (patience : nat) (d : mstate) (inb : bytes) (offset size : Z)
  (Hp : (fl_settle < patience)%nat) (Hmode : fl_mode d = FArray) (Hidle : fl_busy d = 0%nat) (Hb : Forall is_byte inb)
  (Hs : 0 <= size <= Z.of_nat (length inb)) (Ho : 0 <= offset) (Hin : offset + size <= fl_len) (Hlen : 4 <= fl_len)
  (Her : erased (fl_bytes d) offset size) :
  if (offset mod 4 =? 0) && (size mod 4 =? 0) then
    exists d', cfi_write patience inb offset size d = Ret (size, d') /\ fl_mode d' = FArray /\
      fl_bytes d' = splice (fl_bytes d) (Z.to_nat offset) (take (Z.to_nat size) inb) /\
      exists d'', cfi_read offset size d' = Ret ((take (Z.to_nat size) inb, 0), d'') /\ fl_bytes d'' = fl_bytes d'
  else cfi_write patience inb offset size d = Halt.
Proof.
  pose proof fl_len_range as [Hr _].
  destruct (Z.eqb_spec (offset mod 4) 0) as [Ha|Ha], (Z.eqb_spec (size mod 4) 0) as [Hs4|Hs4]; cbn [andb];
    try (unfold cfi_write, WSIZE; rewrite ?(proj2 (Z.eqb_neq (offset mod 4) 0) Ha), ?(proj2 (Z.eqb_neq (size mod 4) 0) Hs4), ?andb_false_r; done).
  assert (fl_word 0) as H0 by (split; lia).
  destruct (cfi_write_run patience Hp d inb offset size) as (d' & E & Hm & Hb' & Hn); [split; auto|done..|].
  exists d'. split; [done|]. split; [done|]. split; [done|].
  assert (length (take (Z.to_nat size) inb) = Z.to_nat size) as Hl by (rewrite length_take; lia). pose proof (fl_length d). pose proof (fl_length d').
  destruct (cfi_read_sim d' offset size (take (Z.to_nat size) inb, 0) Hm) as (d'' & E' & _ & Hbb & _); [|by exists d''].
  rewrite cfi_read_exact by lia. do 2 f_equal. rewrite Hb'. rewrite <- Hl at 1. apply splice_get. lia.
Qed.

(** ** A chip of 32 MB *)
Module FlashDemo.
Record dev := mkDev { c_mode : fmode; c_bytes : bytes; c_busy : nat }.
(** Its length as a natural number is never computed. *)
Lemma len_sig : { n : nat | Z.of_nat n = 0x2000000 }.
Proof. exists (Z.to_nat 0x2000000). apply Z2Nat.id. lia. Qed.
Definition LEN : nat := proj1_sig len_sig.
Lemma LEN_Z : Z.of_nat LEN = 0x2000000.
Proof. exact (proj2_sig len_sig). Qed.
(** The array, whatever the state holds. *)
Definition norm (b : bytes) : bytes := take LEN ((fun x => x mod 256) <$> (b ++ replicate LEN 0)).
Definition info (w : Z) : Z :=
  if w =? 0x10 then 81 else if w =? 0x11 then 82 else if w =? 0x12 then 89 else if w =? 0x27 then 25 else if w =? 0x2a then 11
  else if w =? 0x2c then 1 else if w =? 0x2d then 255 else if w =? 0x30 then 2 else 0.
Definition off_of (a : Z) : Z := a - cfi_pflash_base.
Definition cread (n a : Z) (d : dev) : Z * dev :=
  match c_mode d with
  | FArray => (le_dec (take (Z.to_nat n) (drop (Z.to_nat (off_of a)) (norm (c_bytes d)))), d)
  | FQuery => (info (off_of a / 4), d)
  | FStatus => (if (Nat.min 2 (c_busy d) =? 0)%nat then 0x80 else 0, mkDev FStatus (norm (c_bytes d)) (pred (Nat.min 2 (c_busy d))))
  | _ => (0, d)
  end.
(** The mode a command sets, and nothing else. *)
Definition command (v : Z) : option fmode :=
  if v =? 0x70 then Some FStatus else if v =? 0xff then Some FArray else if v =? 0x50 then Some FArray
  else if v =? 0x98 then Some FQuery else if v =? 0xe8 then Some FCount else None.
(** A program operation needs two status reads. *)
Definition cwrite (n v a : Z) (d : dev) : dev :=
  let b := norm (c_bytes d) in let w := off_of a / 4 in
  match c_mode d with
  | FArray | FStatus | FQuery => match command v with Some m => mkDev m b (Nat.min 2 (c_busy d)) | None => d end
  | FCount => mkDev (FFill (S (Z.to_nat v)) []) b (Nat.min 2 (c_busy d))
  | FFill (S k) l => mkDev (FFill k (l ++ [(w, v)])) b (Nat.min 2 (c_busy d))
  | FFill O l => mkDev FStatus (program l b) 2
  end.
Definition machine : Machine :=
  {| mstate := dev; mmio_read := cread; mmio_write := cwrite; sys_read := fun _ d => (0, d); sys_write := fun _ _ d => d |}.

Lemma norm_id b : length b = LEN -> Forall is_byte b -> norm b = b.
Proof.
  intros Hl Hb. unfold norm. rewrite fmap_app, take_app_le by (rewrite length_fmap; lia). rewrite <- Hl, <- (length_fmap (fun x => x mod 256) b), take_ge by done.
  clear Hl. induction Hb as [|x b Hx _ IH]; [done|]. cbn. rewrite IH. f_equal. by apply Z.mod_small.
Qed.
Lemma norm_length b : length (norm b) = LEN.
Proof. unfold norm. rewrite length_take, length_fmap, length_app, length_replicate. lia. Qed.
Lemma norm_bytes b : Forall is_byte (norm b).
Proof. apply Forall_take, Forall_fmap, Forall_true. intros x. cbn. unfold is_byte. by apply Z.mod_pos_bound. Qed.
Lemma le_enc_bytes n v : Forall is_byte (le_enc n v).
Proof. revert v. induction n as [|n IH]; intros v; cbn; constructor; [by apply Z.mod_pos_bound|apply IH]. Qed.
Lemma program_ok l b : length b = LEN -> Forall is_byte b -> (forall w v, (w, v) ∈ l -> 0 <= w /\ 4 * w + 4 <= Z.of_nat LEN) ->
  length (program l b) = LEN /\ Forall is_byte (program l b).
Proof.
  revert b. induction l as [|[w v] l IH]; intros b Hl Hb Hw; [done|]. cbn [program foldl]. change (foldl _ ?b ?l) with (program l b).
  destruct (Hw w v ltac:(left)) as [H0 H1]. apply IH; [|unfold splice; apply Forall_app; split; [by apply Forall_take|]|intros w' v' H; apply (Hw w' v'); by right].
  - rewrite splice_length; [done|]. rewrite le_enc_length. lia.
  - apply Forall_app. split; [apply le_enc_bytes|by apply Forall_drop].
Qed.
Lemma off_word w : off_of (cfi_pflash_base + 4 * w) / 4 = w.
Proof. unfold off_of. replace (cfi_pflash_base + 4 * w - cfi_pflash_base) with (w * 4) by lia. by rewrite Z.div_mul. Qed.
Lemma norm_norm b : norm (norm b) = norm b.
Proof. apply norm_id; [apply norm_length|apply norm_bytes]. Qed.
Lemma write_idle d v a m : (match c_mode d with FCount | FFill _ _ => False | _ => True end) -> command v = Some m ->
  c_mode (cwrite 4 v a d) = m /\ norm (c_bytes (cwrite 4 v a d)) = norm (c_bytes d) /\ Nat.min 2 (c_busy (cwrite 4 v a d)) = Nat.min 2 (c_busy d).
Proof.
  intros Hm Hc. assert (cwrite 4 v a d = mkDev m (norm (c_bytes d)) (Nat.min 2 (c_busy d))) as ->.
  { unfold cwrite. rewrite Hc. by destruct (c_mode d). }
  cbn [c_mode c_bytes c_busy]. rewrite norm_norm. split; [done|]. split; [done|]. lia.
Qed.

#[global] Instance chip : @FlashDevice machine.
Proof.
  refine (@Build_FlashDevice machine c_mode (fun d => norm (c_bytes d)) (fun d => Nat.min 2 (c_busy d)) 2 0x2000000 info _ _ _ _ _ _ _ _ _ _ _ _ _ _ _ _).
  - split; [lia|reflexivity].
  - intros d. by rewrite norm_length, LEN_Z.
  - intros d. apply norm_bytes.
  - intros d. lia.
  - intros d off Hm Ho. cbn [mmio_read machine]. unfold cread. rewrite Hm. split; [|done].
    replace (off_of (cfi_pflash_base + off)) with off by (unfold off_of; lia).
    destruct (lookup_lt_is_Some_2 (norm (c_bytes d)) (Z.to_nat off)) as [x Hx]; [rewrite norm_length; pose proof LEN_Z; lia|].
    rewrite (drop_S _ x) by done. rewrite Hx. f_equal. change (x = x + 256 * 0). lia.
  - intros d w Hm [Hw Hl]. cbn [mmio_read machine]. unfold cread. rewrite Hm. split; [|done].
    replace (off_of (cfi_pflash_base + 4 * w)) with (4 * w) by (unfold off_of; lia).
    unfold rd_le. assert (length (take 4 (drop (Z.to_nat (4 * w)) (norm (c_bytes d)))) = 4%nat) as H4 by (rewrite length_take, length_drop, norm_length; pose proof LEN_Z; lia).
    rewrite <- H4 at 1. rewrite rd_bytes_has; [done|]. split; [lia|]. intros j b Hj. apply lookup_take_Some in Hj as [Hj _]. by rewrite lookup_drop in Hj.
  - intros d w Hm _. cbn [mmio_read machine]. unfold cread. rewrite Hm, off_word. done.
  - intros d w Hm _. cbn [mmio_read machine]. unfold cread. rewrite Hm. cbn [c_mode c_bytes c_busy]. rewrite norm_norm.
    split; [by destruct (Nat.min 2 (c_busy d) =? 0)%nat|]. split; [done|]. split; [done|]. lia.
  - intros d w [Hm|Hm] _; apply write_idle; [by rewrite Hm|done|by rewrite Hm|done].
  - intros d w Hm _. (apply write_idle; [by rewrite Hm|done]).
  - intros d w Hm Hn _. destruct (write_idle d 0x50 (cfi_pflash_base + 4 * w) FArray) as (? & ? & H3); [by destruct Hm as [-> | ->]|done|]. split; [done|]. split; [done|]. exact (eq_trans H3 Hn).
  - intros d Hm _. (apply write_idle; [by rewrite Hm|done]).
  - intros d w Hm Hn _. destruct (write_idle d 0xe8 (cfi_pflash_base + 4 * w) FCount) as (? & ? & H3); [by destruct Hm as [-> | ->]|done|]. split; [done|]. split; [done|]. exact (eq_trans H3 Hn).
  - intros d w n Hm _ _. cbn [mmio_write machine]. unfold cwrite. rewrite Hm. cbn [c_mode c_bytes c_busy]. rewrite norm_norm. split; [done|]. split; [done|]. lia.
  - intros d w v n l Hm _ _. cbn [mmio_write machine]. unfold cwrite. rewrite Hm, off_word. cbn [c_mode c_bytes c_busy]. rewrite norm_norm. split; [done|]. split; [done|]. lia.
  - intros d w0 l p Hm _ _ Hl. cbn [mmio_write machine]. unfold cwrite. rewrite Hm. cbn [c_mode c_bytes c_busy]. exists 2%nat. split; [done|]. split; [|done].
    destruct (program_ok l (norm (c_bytes d))) as [H1 H2]; [apply norm_length|apply norm_bytes|intros w v H; rewrite LEN_Z; by apply (Hl w v)|]. by apply norm_id.
Defined.
Definition blank : dev := mkDev FArray (replicate LEN 255) 0.
Lemma blank_erased off n : 0 <= off -> off + n <= 0x2000000 -> erased (fl_bytes (FlashDevice := chip) blank) off n.
Proof.
  intros Ho Hn i Hi. change (fl_bytes (FlashDevice := chip) blank) with (norm (replicate LEN 255)).
  rewrite norm_id; [apply lookup_replicate_2; pose proof LEN_Z; lia|apply length_replicate|]. apply Forall_replicate. unfold is_byte. lia.
Qed.
End FlashDemo.

(** Twelve bytes over the boundary of the two pages. *)
Lemma cfi_write_read_roundtrip_witness :
  let inb := seqZ 1 12 in
  exists d', cfi_write (MA := FlashDemo.machine) 3 inb 2040 12 FlashDemo.blank = Ret (12, d') /\ fl_mode (FlashDevice := FlashDemo.chip) d' = FArray /\
    fl_bytes (FlashDevice := FlashDemo.chip) d' = splice (fl_bytes (FlashDevice := FlashDemo.chip) FlashDemo.blank) (Z.to_nat 2040) (take (Z.to_nat 12) inb) /\
    exists d'', cfi_read (MA := FlashDemo.machine) 2040 12 d' = Ret ((take (Z.to_nat 12) inb, 0), d'') /\
      fl_bytes (FlashDevice := FlashDemo.chip) d'' = fl_bytes (FlashDevice := FlashDemo.chip) d'.
Proof.
  apply (cfi_write_read_roundtrip (FD := FlashDemo.chip) 3 FlashDemo.blank (seqZ 1 12) 2040 12).
  - cbn. lia.
  - reflexivity.
  - reflexivity.
  - cbn. unfold is_byte. solve_forall.
  - vm_compute. split; discriminate.
  - lia.
  - vm_compute. discriminate.
  - vm_compute. discriminate.
  - apply FlashDemo.blank_erased; [lia|vm_compute; discriminate].
Defined.

(** ** The query *)

(** What the table must say for the driver to accept the chip: one region of
    256 blocks of 128 KB, and pages of 2 KB, of which the shift looks at the
    five low bits only. *)
Definition info_QRY (info : Z -> Z) : bool := (info 0x10 =? 81) && (info 0x11 =? 82) && (info 0x12 =? 89).
Definition geometry_ok (info : Z -> Z) : bool :=
  (info 0x2a mod 32 =? 11) && (info 0x2c =? 1) && (info 0x2e =? 0) && (info 0x2d =? 255) && (info 0x30 =? 2) && (info 0x2f =? 0).

(** The two-byte fields. *)
Lemma field2 hi lo : 0 <= hi < 256 -> 0 <= lo < 256 -> Z.lor (Z.shiftl hi 8) lo = 256 * hi + lo.
Proof.
  intros Hh Hl. assert (Z.land (Z.shiftl hi 8) lo = 0) as H0.
  { apply Z.bits_inj'. intros n Hn. rewrite Z.land_spec, Z.bits_0. destruct (Z.lt_ge_cases n 8); [by rewrite Z.shiftl_spec_low|].
    rewrite (Z.bits_above_log2 lo n), andb_false_r; [done|lia|]. destruct (decide (lo = 0)) as [->|]; [cbn; lia|].
    assert (Z.log2 lo < 8) by (apply Z.log2_lt_pow2; lia). lia. }
  rewrite <- Z.lxor_lor, <- Z.add_nocarry_lxor by exact H0. rewrite Z.shiftl_mul_pow2 by lia. lia.
Qed.
Lemma page_bits n : 0 <= n < 32 -> (Z.shiftl 1 n =? QEMU_EXPECTED_PAGE_SZ) = (n =? 11).
Proof.
  intros Hn. change QEMU_EXPECTED_PAGE_SZ with (2 ^ 11). rewrite Z.shiftl_mul_pow2, Z.mul_1_l by lia.
  destruct (Z.eqb_spec n 11) as [->|Hne]; [done|]. apply Z.eqb_neq. intros H. apply Z.pow_inj_r in H; lia.
Qed.

Lemma modify_step {S B} f (k : () -> M S B) s : (modify f ≫= k) s = k tt (f s).
Proof. reflexivity. Qed.
Lemma assert_step {S B} (k : () -> M S B) s : (assertM true ≫= k) s = k tt s.
Proof. reflexivity. Qed.

Section Query.
Context `{FD : FlashDevice} (Hsize : 1024 <= fl_len) (Hinfo : forall w, 0 <= fl_info w < 256).
Definition asking (c : cfi) (b : bytes) : Prop := fl_mode (f_dev c) = FQuery /\ fl_bytes (f_dev c) = b.

Lemma info_run w d : fl_mode d = FQuery -> 0 <= w < 256 -> exists d', CFI_GETB (W2B w) d = Ret (fl_info w, d') /\ fl_view d d'.
Proof.
  intros Hm Hw. assert (fl_word w) as Hfw by (split; lia). pose proof (fl_read_info d w Hm Hfw) as Hrd.
  unfold CFI_GETB, W2B. rewrite Z.shiftl_mul_pow2 by lia. change (2 ^ 2) with 4. rewrite (Z.mul_comm w), u32_small by lia.
  destruct (mmio_read 1 _ d) as [v d']. destruct Hrd as [-> V]. exists d'. split; [|done].
  unfold wrapu. rewrite Z.mod_small; [done|]. apply Hinfo.
Qed.
Lemma ask1 w c b : asking c b -> 0 <= w < 256 -> exists d', on_chip (cfi_query_1b w) c = Ret (fl_info w, with_fdev d' c) /\ asking (with_fdev d' c) b.
Proof.
  intros [Hm Hb] Hw. destruct (info_run w _ Hm Hw) as (d' & E & Hm' & Hb' & _).
  exists d'. split; [unfold on_chip, zoom, cfi_query_1b; by rewrite E|]. split; cbn; congruence.
Qed.
Lemma ask2 w c b : asking c b -> 0 <= w < 255 ->
  exists d', on_chip (cfi_query_2b w) c = Ret (256 * fl_info (w + 1) + fl_info w, with_fdev d' c) /\ asking (with_fdev d' c) b.
Proof.
  intros [Hm Hb] Hw. destruct (info_run (w + 1) _ Hm) as (d1 & E1 & Hm1 & Hb1 & _); [lia|]. rewrite Hm in Hm1.
  destruct (info_run w _ Hm1) as (d2 & E2 & Hm2 & Hb2 & _); [lia|].
  exists d2. split; [|split; cbn; congruence]. unfold on_chip, zoom, cfi_query_2b.
  rewrite (M_bind_run _ _ _ _ _ E1), (M_bind_run _ _ _ _ _ E2). unfold mret, M_ret. by rewrite field2 by done.
Qed.
Lemma ask_QRY c b : asking c b -> exists c', on_chip cfi_query_QRY c = Ret (if info_QRY fl_info then 0 else -1, c') /\ asking c' b.
Proof.
  intros [Hm Hb]. destruct (info_run 0x10 _ Hm) as (d1 & E1 & Hm1 & Hb1 & _); [lia|]. rewrite Hm in Hm1.
  destruct (info_run 0x11 _ Hm1) as (d2 & E2 & Hm2 & Hb2 & _); [lia|]. rewrite Hm1 in Hm2.
  destruct (info_run 0x12 _ Hm2) as (d3 & E3 & Hm3 & Hb3 & _); [lia|].
  unfold on_chip, zoom, cfi_query_QRY, info_QRY. rewrite (M_bind_run _ _ _ _ _ E1).
  destruct (fl_info 0x10 =? 81); cbn [negb andb]; [|exists (with_fdev d1 c); split; [done|split; cbn; congruence]].
  rewrite (M_bind_run _ _ _ _ _ E2).
  destruct (fl_info 0x11 =? 82); cbn [negb andb]; [|exists (with_fdev d2 c); split; [done|split; cbn; congruence]].
  rewrite (M_bind_run _ _ _ _ _ E3).
  destruct (fl_info 0x12 =? 89); cbn [negb andb]; (exists (with_fdev d3 c); split; [done|split; cbn; congruence]).
Qed.

(** What the part of the query behind the signature does. *)
Definition geometry_post (b : bytes) (ok : bool) (r : outcome (Z * cfi)) : Prop :=
  if ok then exists c', r = (on_chip (CFI_PUTW 0 0xff);; mret 0) c' /\ asking c' b /\
    capacity c' = 2 ^ (fl_info 0x27 mod 32) /\ eregnum c' = 1 /\ eblksz c' = 131072 /\ pgsz c' = 2048
  else r = Halt.
Lemma geometry_run c b : asking c b -> geometry_post b (geometry_ok fl_info) (cfi_query_geometry c).
Proof.
  intros Hc. unfold geometry_ok, cfi_query_geometry. pose proof Hinfo as HI.
  destruct (ask1 0x27 c b Hc ltac:(lia)) as (d1 & E1 & K1). rewrite (M_bind_run _ _ _ _ _ E1). unfold shl1. rewrite modify_step.
  set (c1 := mkCfi _ _ _ _ _). destruct (ask2 0x2a c1 b K1 ltac:(lia)) as (d2 & E2 & K2). rewrite (M_bind_run _ _ _ _ _ E2).
  change (0x2a + 1) with 0x2b. pose proof (HI 0x2a). pose proof (HI 0x2b).
  replace ((256 * fl_info 0x2b + fl_info 0x2a) mod 32) with (fl_info 0x2a mod 32) by (rewrite Z.add_comm, <- (Z_mod_plus_full (fl_info 0x2a) (8 * fl_info 0x2b)); f_equal; lia).
  rewrite modify_step. pose proof (Z.mod_pos_bound (fl_info 0x2a) 32 ltac:(lia)).
  rewrite page_bits by lia. cbn [andb Z.eqb]. destruct (Z.eqb_spec (fl_info 0x2a mod 32) 11) as [E2a|]; cbn [andb]; [|reflexivity]. rewrite assert_step.
  set (c2 := mkCfi _ _ _ _ _). destruct (ask1 0x2c c2 b K2 ltac:(lia)) as (d3 & E3 & K3). rewrite (M_bind_run _ _ _ _ _ E3), modify_step.
  change QEMU_EXPECTED_ERASE_REGION_NUM with 1. destruct (Z.eqb_spec (fl_info 0x2c) 1) as [E2c|]; cbn [andb]; [|reflexivity]. rewrite assert_step.
  set (c3 := mkCfi _ _ _ _ _). destruct (ask2 0x2d c3 b K3 ltac:(lia)) as (d4 & E4 & K4). rewrite (M_bind_run _ _ _ _ _ E4).
  change (0x2d + 1) with 0x2e. pose proof (HI 0x2d). pose proof (HI 0x2e). change QEMU_EXPECTED_ERASE_BLOCK_NUM with 256.
  destruct (Z.eqb_spec (256 * fl_info 0x2e + fl_info 0x2d + 1) 256).
  2:{ destruct (Z.eqb_spec (fl_info 0x2e) 0), (Z.eqb_spec (fl_info 0x2d) 255); try lia; reflexivity. }
  replace (fl_info 0x2e) with 0 by lia. replace (fl_info 0x2d) with 255 by lia. cbn [andb Z.eqb Pos.eqb]. rewrite assert_step.
  destruct (ask2 0x2f (with_fdev d4 c3) b K4 ltac:(lia)) as (d5 & E5 & K5). rewrite (M_bind_run _ _ _ _ _ E5), modify_step.
  change (0x2f + 1) with 0x30. pose proof (HI 0x2f). pose proof (HI 0x30). rewrite u32_small by lia.
  change QEMU_EXPECTED_ERASE_BLOCK_SZ with 131072. destruct (Z.eqb_spec ((256 * fl_info 0x30 + fl_info 0x2f) * 256) 131072) as [Ee|].
  2:{ destruct (Z.eqb_spec (fl_info 0x30) 2), (Z.eqb_spec (fl_info 0x2f) 0); try lia; reflexivity. }
  replace (fl_info 0x30) with 2 by lia. replace (fl_info 0x2f) with 0 by lia. rewrite assert_step. cbn [andb Z.eqb Pos.eqb].
  eexists. split; [reflexivity|]. split; [exact K5|]. cbn. split; [rewrite Z.shiftl_mul_pow2, Z.mul_1_l; [done|apply Z.mod_pos_bound; lia]|].
  split; [done|]. split; [done|]. by rewrite E2a.
Qed.
End Query.

(** The query from array mode on. *)
Lemma init_cfi_run `{FD : FlashDevice} (c : cfi) (Hsize : 1024 <= fl_len) (Hinfo : forall w, 0 <= fl_info w < 256)
  (Hm : fl_mode (f_dev c) = FArray) :
  if info_QRY fl_info then
    if geometry_ok fl_info then
      exists c', init_cfi c = Ret (0, c') /\ fl_mode (f_dev c') = FArray /\ fl_bytes (f_dev c') = fl_bytes (f_dev c) /\
        capacity c' = 2 ^ (fl_info 0x27 mod 32) /\ eregnum c' = 1 /\ eblksz c' = 131072 /\ pgsz c' = 2048
    else init_cfi c = Halt
  else exists c', init_cfi c = Ret (-1, c') /\ fl_mode (f_dev c') = FQuery /\ fl_bytes (f_dev c') = fl_bytes (f_dev c).
Proof.
  assert (fl_word 0x55 /\ fl_word 0) as [H55 H0] by (split; split; lia).
  destruct (fl_query (f_dev c) Hm H55) as (Hq & Hb & _). set (b := fl_bytes (f_dev c)) in *.
  assert (on_chip (CFI_PUTW 0x55 0x98) c = Ret (tt, with_fdev (fl_cmd 0x98 0x55 (f_dev c)) c)) as E0.
  { unfold on_chip, zoom. by rewrite (putw_run 0x55 0x98 (f_dev c) H55) by lia. }
  destruct (ask_QRY Hsize Hinfo (with_fdev (fl_cmd 0x98 0x55 (f_dev c)) c) b) as (c1 & E1 & Hc1); [by split|].
  unfold init_cfi, cfi_query. destruct (info_QRY fl_info).
  2:{ exists c1. split; [|exact Hc1]. unfold mbind, M_bind. by rewrite E0, E1. }
  pose proof (geometry_run Hsize Hinfo c1 b Hc1) as Hg. unfold geometry_post in Hg.
  assert (forall r, cfi_query_geometry c1 = r -> cfi_query c = r) as Hrun by (intros r <-; unfold cfi_query, mbind, M_bind; by rewrite E0, E1).
  change (on_chip (CFI_PUTW 0x55 0x98) ≫= _) with cfi_query. destruct (geometry_ok fl_info).
  - destruct Hg as (c2 & Eg & [Hq2 Hb2] & Hcap). destruct (fl_array (f_dev c2) 0 Hq2 H0) as (Hm3 & Hb3 & _).
    exists (with_fdev (fl_cmd 0xff 0 (f_dev c2)) c2). split; [|cbn; split; [done|]; split; [congruence|done]].
    unfold mbind at 1, M_bind at 1. rewrite (Hrun _ Eg). unfold on_chip, zoom, mbind, M_bind. by rewrite (putw_run 0 0xff (f_dev c2) H0) by lia.
  - unfold mbind, M_bind. by rewrite (Hrun _ Hg).
Qed.

(** C34: the driver accepts exactly the chips it is written for.  On a chip in
    array mode [init_cfi] returns 0 when the query table has the signature and
    the geometry the driver expects (one region of 256 blocks of 128 KB, and
    2^11 for the page, whose exponent is read modulo 32); it has then recorded
    the capacity, the page and the erase block of the table and put the chip
    back into array mode with its bytes untouched.  A chip with the signature
    but another geometry fails an assertion, whatever its capacity.  A chip without the signature makes it return
    -1, and that path leaves the chip in query mode. *)
Theorem init_cfi_accepts `{FD : FlashDevice} (c : cfi) (Hsize : 1024 <= fl_len) (Hinfo : forall w, 0 <= fl_info w < 256)
  (Hm : fl_mode (f_dev c) = FArray) :
  if info_QRY fl_info then
    if geometry_ok fl_info then
      exists c', init_cfi c = Ret (0, c') /\ fl_mode (f_dev c') = FArray /\ fl_bytes (f_dev c') = fl_bytes (f_dev c) /\
        capacity c' = 2 ^ (fl_info 0x27 mod 32) /\ eregnum c' = 1 /\ eblksz c' = 131072 /\ pgsz c' = 2048
    else init_cfi c = Halt
  else exists c', init_cfi c = Ret (-1, c') /\ fl_mode (f_dev c') = FQuery /\ fl_bytes (f_dev c') = fl_bytes (f_dev c).
Proof. by apply init_cfi_run. Qed.

Lemma init_cfi_accepts_witness :
  exists c', init_cfi (mkCfi (MA := FlashDemo.machine) FlashDemo.blank 0 0 0 0) = Ret (0, c') /\ fl_mode (FlashDevice := FlashDemo.chip) (f_dev c') = FArray /\
    fl_bytes (FlashDevice := FlashDemo.chip) (f_dev c') = fl_bytes (FlashDevice := FlashDemo.chip) FlashDemo.blank /\
    capacity c' = 2 ^ 25 /\ eregnum c' = 1 /\ eblksz c' = 131072 /\ pgsz c' = 2048.
Proof.
  apply (init_cfi_accepts (FD := FlashDemo.chip) (mkCfi (MA := FlashDemo.machine) FlashDemo.blank 0 0 0 0)).
  - vm_compute. discriminate.
  - intros w. cbn [fl_info FlashDemo.chip]. unfold FlashDemo.info. repeat (case_match; [lia|]). lia.
  - reflexivity.
Defined.
