(* ===== verification/Pmu.v ===== *)
(** * Performance counters (ukern/src/kmon/pmuv3.c, pmu_event.c, inc/kmon/pmuv3.h)

    The event counters of the CPU: event selection, value, enabling and the
    global switch.  The registers are system registers of the [Machine]; the
    two numbered families take their number, as the switch over the numbers
    does in the code.  Only what is compiled is modelled. *)
From S2P Require Import Prelude Config Bitmap Machine.

Definition ARMV8_PMU_PMCR_E : Z := 1.
Definition ARMV8_PMU_PMCR_MASK : Z := 0xff.
Definition ARMV8_PMU_EVTYPE_MASK : Z := 0xc800ffff.
Definition ARMV8_CYCLE_COUNTER : Z := u32 (-1).

Section Driver.
Context `{MA : Machine}.

(** [PMEVN_SWITCH]: the registers 0 to 30, every other number asserts. *)
Definition PMEVN_SWITCH {A} (x : Z) (case_macro : Z -> M mstate A) : M mstate A :=
  if (0 <=? x) && (x <=? 30) then case_macro x else halt.
Definition read_pmevcntrn (n : Z) : M mstate Z := PMEVN_SWITCH n (fun n => read_sysreg (pmevcntr_el0 n)).
Definition write_pmevcntrn (n val : Z) : M mstate () := PMEVN_SWITCH n (fun n => write_sysreg val (pmevcntr_el0 n)).
Definition write_pmevtypern (n val : Z) : M mstate () := PMEVN_SWITCH n (fun n => write_sysreg val (pmevtyper_el0 n)).
Definition write_pmcr (val : Z) : M mstate () := write_sysreg val pmcr_el0.
Definition read_pmcr : M mstate Z := read_sysreg pmcr_el0.
Definition read_pmccntr : M mstate Z := read_sysreg pmccntr_el0.
Definition write_pmcntenset (val : Z) : M mstate () := write_sysreg (u32 val) pmcntenset_el0.
Definition write_pmcntenclr (val : Z) : M mstate () := write_sysreg (u32 val) pmcntenclr_el0.
Definition write_pmccfiltr (val : Z) : M mstate () := write_sysreg val pmccfiltr_el0.
Definition pmu_pmcr_write (val : Z) : M mstate () := write_pmcr (Z.land val ARMV8_PMU_PMCR_MASK).
Definition pmu_pmcr_read : M mstate Z := read_pmcr.

(** [counter == ARMV8_CYCLE_COUNTER] compares an [int] with a [u32]. *)
Definition is_cycle (counter : Z) : bool := u32 counter =? ARMV8_CYCLE_COUNTER.
(** [BIT(counter)]: the shift of a 64-bit register takes its amount modulo 64. *)
Definition counter_bit (counter : Z) : Z := u64 (Z.shiftl 1 (counter mod 64)).

Definition pmuv3_write_counter_event (counter event : Z) : M mstate () :=
  if is_cycle counter then write_pmccfiltr event else write_pmevtypern counter (Z.land event ARMV8_PMU_EVTYPE_MASK).
Definition pmuv3_write_counter_val (counter val : Z) : M mstate () :=
  if is_cycle counter then mret tt else write_pmevcntrn counter (Z.land val ARMV8_PMU_EVTYPE_MASK).
Definition pmuv3_read_counter_val (counter : Z) : M mstate Z :=
  if is_cycle counter then read_pmccntr else read_pmevcntrn counter.
Definition pmuv3_enable_counter (counter : Z) : M mstate () := write_pmcntenset (counter_bit counter).
Definition pmuv3_disable_counter (counter : Z) : M mstate () := write_pmcntenclr (counter_bit counter).
Definition pmuv3_enable : M mstate () :=
  id ← read_sysreg ID_AA64DFR0_EL1;
  (if Z.land (Z.shiftr id 8) 0xf <? 1 then halt else mret tt);;
  v ← pmu_pmcr_read; pmu_pmcr_write (Z.lor v ARMV8_PMU_PMCR_E).
Definition pmuv3_disable : M mstate () := v ← pmu_pmcr_read; pmu_pmcr_write (Z.land v (u64 (Z.lnot ARMV8_PMU_PMCR_E))).

Definition pmu_event_enable (counter event : Z) : M mstate () :=
  pmuv3_write_counter_event counter event;; pmuv3_write_counter_val counter 0;; pmuv3_enable_counter counter.
Definition pmu_event_disable (counter : Z) : M mstate () := pmuv3_disable_counter counter.
End Driver.

(** ** What the counters promise

    The event and the value of each counter and the set of enabled ones, in
    which bit 31 stands for the cycle counter. *)
Class PmuRegs `{MA : Machine} := {
  pmu_event : mstate -> Z -> Z;
  pmu_value : mstate -> Z -> Z;
  pmu_on : mstate -> Z -> bool;
  pmu_set_type : forall d n v, 0 <= n <= 30 -> 0 <= v < 2 ^ 64 -> let d' := sys_write (pmevtyper_el0 n) v d in
    (forall m, pmu_event d' m = if m =? n then v else pmu_event d m) /\ (forall m, pmu_value d' m = pmu_value d m) /\ (forall m, pmu_on d' m = pmu_on d m);
  pmu_set_value : forall d n v, 0 <= n <= 30 -> 0 <= v < 2 ^ 64 -> let d' := sys_write (pmevcntr_el0 n) v d in
    (forall m, pmu_event d' m = pmu_event d m) /\ (forall m, pmu_value d' m = if m =? n then v else pmu_value d m) /\ (forall m, pmu_on d' m = pmu_on d m);
  pmu_set_on : forall d v, 0 <= v < 2 ^ 32 -> let d' := sys_write pmcntenset_el0 v d in
    (forall m, pmu_event d' m = pmu_event d m) /\ (forall m, pmu_value d' m = pmu_value d m) /\ (forall m, 0 <= m < 32 -> pmu_on d' m = pmu_on d m || Z.testbit v m);
  pmu_set_off : forall d v, 0 <= v < 2 ^ 32 -> let d' := sys_write pmcntenclr_el0 v d in
    (forall m, pmu_event d' m = pmu_event d m) /\ (forall m, pmu_value d' m = pmu_value d m) /\ (forall m, 0 <= m < 32 -> pmu_on d' m = pmu_on d m && negb (Z.testbit v m)) }.

Section Effect.
Context `{PR : PmuRegs}.

Lemma counter_bit_small n : 0 <= n <= 30 -> u32 (counter_bit n) = 2 ^ n.
Proof.
  intros Hn. unfold counter_bit. rewrite Z.mod_small, Z.shiftl_1_l by lia. assert (2 ^ n < 2 ^ 32) by (apply Z.pow_lt_mono_r; lia).
  assert (0 < 2 ^ n) by (apply Z.pow_pos_nonneg; lia). by rewrite u64_small, u32_small by lia.
Qed.
Lemma not_cycle n : 0 <= n <= 30 -> is_cycle n = false.
Proof. intros Hn. unfold is_cycle. rewrite u32_small by lia. apply Z.eqb_neq. change ARMV8_CYCLE_COUNTER with 4294967295. lia. Qed.
Lemma switch_run {A} n (f : Z -> M mstate A) d : 0 <= n <= 30 -> PMEVN_SWITCH n f d = f n d.
Proof. intros Hn. unfold PMEVN_SWITCH. by rewrite (proj2 (Z.leb_le 0 n)), (proj2 (Z.leb_le n 30)) by lia. Qed.

(** An event counter that is switched on counts the event it was given from
    zero, and no other counter is touched; switching it off again leaves its
    value to be read.  The cycle counter is never switched on: the mask is
    computed from -1 and is empty. *)
Theorem pmu_event_counts (d : mstate) (n event : Z) : 0 <= n <= 30 -> 0 <= event < 2 ^ 32 ->
  exists d', pmu_event_enable n event d = Ret (tt, d') /\
    pmu_event d' n = Z.land event ARMV8_PMU_EVTYPE_MASK /\ pmu_value d' n = 0 /\ pmu_on d' n = true /\
    (forall m, 0 <= m < 32 -> m <> n -> pmu_event d' m = pmu_event d m /\ pmu_value d' m = pmu_value d m /\ pmu_on d' m = pmu_on d m) /\
    exists d'', pmu_event_disable n d' = Ret (tt, d'') /\ pmu_on d'' n = false /\ pmu_value d'' n = pmu_value d' n /\
      forall m, 0 <= m < 32 -> m <> n -> pmu_on d'' m = pmu_on d' m.
Proof.
  intros Hn He. set (e := Z.land event ARMV8_PMU_EVTYPE_MASK).
  assert (0 <= e < 2 ^ 64) as Hr by (unfold e; apply land_range; lia). assert (0 <= 2 ^ n < 2 ^ 32) as Hb by (split; [apply Z.pow_nonneg; lia|apply Z.pow_lt_mono_r; lia]).
  set (d1 := sys_write (pmevtyper_el0 n) e d). set (d2 := sys_write (pmevcntr_el0 n) 0 d1). set (d3 := sys_write pmcntenset_el0 (2 ^ n) d2).
  set (d4 := sys_write pmcntenclr_el0 (2 ^ n) d3).
  destruct (pmu_set_type d n e Hn Hr) as (E1 & V1 & O1). destruct (pmu_set_value d1 n 0 Hn ltac:(lia)) as (E2 & V2 & O2).
  destruct (pmu_set_on d2 (2 ^ n) Hb) as (E3 & V3 & O3). destruct (pmu_set_off d3 (2 ^ n) Hb) as (E4 & V4 & O4).
  fold d1 in E1, V1, O1. fold d2 in E2, V2, O2. fold d3 in E3, V3, O3. fold d4 in E4, V4, O4.
  exists d3. split; [|split_and!].
  - unfold pmu_event_enable, pmuv3_write_counter_event, pmuv3_write_counter_val, pmuv3_enable_counter, write_pmevtypern, write_pmevcntrn, write_pmcntenset.
    rewrite not_cycle by done. unfold mbind, M_bind. rewrite !switch_run by done. unfold write_sysreg, modify. rewrite counter_bit_small by done.
    fold e. change (Z.land 0 ARMV8_PMU_EVTYPE_MASK) with 0. rewrite (u64_small e), (u64_small (2 ^ n)) by lia. by rewrite switch_run by done.
  - by rewrite E3, E2, E1, Z.eqb_refl.
  - by rewrite V3, V2, Z.eqb_refl.
  - rewrite O3, Z.pow2_bits_true by lia. apply orb_true_r.
  - intros m Hm Hne. rewrite E3, E2, E1, V3, V2, V1, O3, O2, O1, Z.pow2_bits_false, orb_false_r by lia. by rewrite (proj2 (Z.eqb_neq m n)) by done.
  - exists d4. split; [|split_and!].
    + unfold pmu_event_disable, pmuv3_disable_counter, write_pmcntenclr, write_sysreg, modify. rewrite counter_bit_small by done. by rewrite u64_small by lia.
    + rewrite O4, Z.pow2_bits_true by lia. apply andb_false_r.
    + by rewrite V4.
    + intros m Hm Hne. rewrite O4, Z.pow2_bits_false by lia. apply andb_true_r.
Qed.
End Effect.

(** The mask for the cycle counter, number -1, is empty. *)
Theorem cycle_counter_stays_off `{MA : Machine} (d : mstate) :
  is_cycle (-1) = true /\ pmuv3_enable_counter (-1) d = Ret (tt, sys_write pmcntenset_el0 0 d).
Proof. split; vm_compute; reflexivity. Qed.

(** A bank of counters with these registers. *)
Module PmuDemo.
Record bank := mkBank { events : gmap Z Z; values : gmap Z Z; on_mask : Z }.
Definition swrite (r : sysreg) (v : Z) (d : bank) : bank :=
  match r with
  | pmevtyper_el0 n => mkBank (<[n := v]> (events d)) (values d) (on_mask d)
  | pmevcntr_el0 n => mkBank (events d) (<[n := v]> (values d)) (on_mask d)
  | pmcntenset_el0 => mkBank (events d) (values d) (Z.lor (on_mask d) v)
  | pmcntenclr_el0 => mkBank (events d) (values d) (Z.ldiff (on_mask d) v)
  | _ => d
  end.
Definition machine : Machine := {| mstate := bank; mmio_read _ _ d := (0, d); mmio_write _ _ _ d := d; sys_read _ d := (0, d); sys_write := swrite |}.
Lemma default_insert (m : gmap Z Z) n v k : default 0 (<[n := v]> m !! k) = if k =? n then v else default 0 (m !! k).
Proof. destruct (Z.eqb_spec k n) as [->|]; [by rewrite lookup_insert_eq|by rewrite lookup_insert_ne]. Qed.
#[global] Instance counters : @PmuRegs machine.
Proof.
  refine (@Build_PmuRegs machine (fun d n => default 0 (events d !! n)) (fun d n => default 0 (values d !! n)) (fun d n => Z.testbit (on_mask d) n) _ _ _ _); cbn.
  - intros d n v _ _. split_and!; try done. intros m. apply default_insert.
  - intros d n v _ _. split_and!; try done. intros m. apply default_insert.
  - intros d v _. split_and!; try done. intros m Hm. by rewrite Z.lor_spec.
  - intros d v _. split_and!; try done. intros m Hm. by rewrite Z.ldiff_spec.
Defined.
End PmuDemo.
