(* ===== verification/Breakpoint.v ===== *)
(** * Breakpoints, watchpoints and single steps of the monitor
    (ukern/src/kmon/breakpoint.c, watchpoint.c, singlestep.c)

    Descriptors on the kernel heap, the hardware breakpoint registers behind
    [Machine].  The messages printed are left out. *)
From S2P Require Import Prelude Config Bitmap Page Slab SlabSpec Kmem Heap Spinlock Kernel Machine.

Definition BRKPNT_MAX : Z := 2.
Inductive brkpnt_state := BRKPNT_OFF | BRKPNT_ON | BRKPNT_SUSPEND_SS.
#[global] Instance brkpnt_state_eq_dec : EqDecision brkpnt_state.
Proof. solve_decision. Defined.
Record brkpnt := mkBrk { bk_id : Z; bk_state : brkpnt_state; bk_hit : Z; bk_addr : Z; bk_locstr : Z }.
Definition sizeof_brkpnt : Z := 32.
Definition bk_with_state (st : brkpnt_state) (b : brkpnt) : brkpnt := mkBrk (bk_id b) st (bk_hit b) (bk_addr b) (bk_locstr b).

Definition WCHPNT_MAX : Z := 1.
Inductive wchpnt_state := WCHPNT_OFF | WCHPNT_ON.
#[global] Instance wchpnt_state_eq_dec : EqDecision wchpnt_state.
Proof. solve_decision. Defined.
Inductive wchpnt_width := WCHPNT_BYTE | WCHPNT_WORD | WCHPNT_DWORD.
Inductive wchpnt_access := WCHPNT_RD | WCHPNT_WR.
Record wchpnt := mkWch { w_id : Z; w_state : wchpnt_state; w_width : wchpnt_width; w_access : wchpnt_access; w_addr : Z; w_value : Z }.
Definition sizeof_wchpnt : Z := 32.

Inductive step_type := STEP_ASM | STEP_SRC.
Record step := mkStep { st_count : Z; st_grains : step_type; st_startaddr : Z }.
Inductive step_action := STEP_EXIT | STEP_MORE.
#[global] Instance step_action_eq_dec : EqDecision step_action.
Proof. solve_decision. Defined.
Definition MDSCR_SS : Z := 1.
Definition SPSR_SS : Z := Z.shiftl 1 21.

Section Debug.
Context `{MA : Machine} `{KH : KHeap}.

Record dbg := mkDbg {
  b_dev : mstate; b_heap : heap;
  allbrks : list Z; b_brks : gmap Z brkpnt;     (* NULL is 0 *)
  allwches : list Z; b_wchs : gmap Z wchpnt;
  curstep : step; cur_ectx : Z; b_ectx : gmap Z econtext }.
Abbreviation D := (M dbg).
Definition with_regs (d : mstate) (s : dbg) : dbg :=
  mkDbg d (b_heap s) (allbrks s) (b_brks s) (allwches s) (b_wchs s) (curstep s) (cur_ectx s) (b_ectx s).
Definition with_heap (h : heap) (s : dbg) : dbg :=
  mkDbg (b_dev s) h (allbrks s) (b_brks s) (allwches s) (b_wchs s) (curstep s) (cur_ectx s) (b_ectx s).
Definition with_brks (l : list Z) (m : gmap Z brkpnt) (s : dbg) : dbg :=
  mkDbg (b_dev s) (b_heap s) l m (allwches s) (b_wchs s) (curstep s) (cur_ectx s) (b_ectx s).
Definition with_wchs (l : list Z) (m : gmap Z wchpnt) (s : dbg) : dbg :=
  mkDbg (b_dev s) (b_heap s) (allbrks s) (b_brks s) l m (curstep s) (cur_ectx s) (b_ectx s).
Definition with_step (c : step) (s : dbg) : dbg :=
  mkDbg (b_dev s) (b_heap s) (allbrks s) (b_brks s) (allwches s) (b_wchs s) c (cur_ectx s) (b_ectx s).
Definition with_ectx (m : gmap Z econtext) (s : dbg) : dbg :=
  mkDbg (b_dev s) (b_heap s) (allbrks s) (b_brks s) (allwches s) (b_wchs s) (curstep s) (cur_ectx s) m.
Definition on_regs {A} (m : M mstate A) : D A := zoom b_dev with_regs m.
Definition on_heap {A} (m : M heap A) : D A := zoom b_heap with_heap m.

(** [allbrks[id]], and the descriptor at a pointer. *)
Definition brk_ptr (id : Z) : D Z := s ← get; lift (rd (allbrks s) id).
Definition brk_get (p : Z) : D brkpnt := fun s => match b_brks s !! p with Some b => Ret (b, s) | None => Fault end.
Definition brk_put (p : Z) (b : brkpnt) : D () := modify (fun s => with_brks (allbrks s) (<[p := b]> (b_brks s)) s).
Definition brk_set_ptr (id p : Z) : D () := s ← get; l ← lift (wr (allbrks s) id p); put (with_brks l (b_brks s) s).
(** [kfree] of a descriptor: its contents are gone. *)
Definition brk_drop (p : Z) : D () := on_heap (h_kfree p);; modify (fun s => with_brks (allbrks s) (delete p (b_brks s)) s).

(** The registers of breakpoint [id]; the switches assert in their default. *)
Definition bcr (id : Z) : outcome sysreg := if id =? 0 then Ret dbgbcr0_el1 else if id =? 1 then Ret dbgbcr1_el1 else Halt.
Definition bvr (id : Z) : outcome sysreg := if id =? 0 then Ret dbgbvr0_el1 else if id =? 1 then Ret dbgbvr1_el1 else Halt.
Definition ENABLE_BITS : Z := Z.lor (Z.lor (Z.shiftl 0xf 5) (Z.shiftl 0x3 1)) 0x1.
Definition hw_clear (id : Z) : D () := r ← lift (bcr id); val ← on_regs (read_sysreg r); on_regs (write_sysreg (Z.land val (u64 (Z.lnot 0x1))) r).
Definition hw_set (id : Z) : D () := r ← lift (bcr id); val ← on_regs (read_sysreg r); on_regs (write_sysreg (Z.lor val 0x1) r).
Definition hw_enable (id addr : Z) : D () :=
  r ← lift (bcr id); v ← lift (bvr id);
  val ← on_regs (read_sysreg r);
  on_regs (write_sysreg addr v);;
  on_regs (write_sysreg (Z.lor val ENABLE_BITS) r).

(** The first slot whose pointer passes the test, or [BRKPNT_MAX]. *)
Fixpoint find_slot (fuel : nat) (test : Z -> D bool) (id : Z) : D Z :=
  match fuel with
  | O => mret BRKPNT_MAX
  | S fuel' => a ← brk_ptr id; t ← test a; if (t : bool) then mret id else find_slot fuel' test (id + 1)
  end.
Definition is_null (a : Z) : D bool := mret (a =? 0).
Definition points_to (f : brkpnt -> bool) (a : Z) : D bool := if a =? 0 then mret false else b ← brk_get a; mret (f b).
Definition slots : nat := Z.to_nat BRKPNT_MAX.

(** ** breakpoint.c *)
Definition addr_can_brk (addr : Z) : Z := 1.
Definition brkpnt_add (addr locstr : Z) : D Z :=
  if addr_can_brk addr =? 0 then mret (-1)
  else
    id ← find_slot slots is_null 0;
    if id =? BRKPNT_MAX then mret (-1)
    else
      b ← on_heap (h_kalloc sizeof_brkpnt);
      if b =? 0 then mret (-1)
      else
        brk_put b (mkBrk id BRKPNT_OFF 0 addr locstr);;
        brk_set_ptr id b;;
        mret id.

Fixpoint restore_from (fuel : nat) (id : Z) : D () :=
  match fuel with
  | O => mret tt
  | S fuel' =>
      a ← brk_ptr id;
      (if a =? 0 then mret tt
       else
         b ← brk_get a;
         if decide (bk_state b = BRKPNT_SUSPEND_SS) then brk_put a (bk_with_state BRKPNT_ON b);; hw_set id else mret tt);;
      restore_from fuel' (id + 1)
  end.
Definition brkpnt_restore : D () := restore_from slots 0.

Definition brkpnt_suspend (pc : Z) : D () :=
  id ← find_slot slots (points_to (fun b => (bk_addr b =? pc) && bool_decide (bk_state b = BRKPNT_ON))) 0;
  if id =? BRKPNT_MAX then mret tt
  else
    a ← brk_ptr id; b ← brk_get a;
    assertM (0 <? bk_hit b);;
    brk_put a (bk_with_state BRKPNT_SUSPEND_SS b);;
    hw_clear id.

Definition brkpnt_enable (id : Z) : D Z :=
  assertM ((0 <=? id) && (id <? BRKPNT_MAX));;
  a ← brk_ptr id;
  assertM (negb (a =? 0));;
  b ← brk_get a;
  if decide (bk_state b = BRKPNT_ON) then mret 0
  else
    brk_put a (bk_with_state BRKPNT_ON b);;
    hw_enable id (bk_addr b);;
    mret 0.

Definition brkpnt_disable (id : Z) : D Z :=
  assertM ((0 <=? id) && (id <? BRKPNT_MAX));;
  a ← brk_ptr id;
  assertM (negb (a =? 0));;
  b ← brk_get a;
  if decide (bk_state b = BRKPNT_OFF) then mret 0
  else
    brk_put a (bk_with_state BRKPNT_OFF b);;
    hw_clear id;;
    mret 0.

Definition brkpnt_del (id : Z) : D Z :=
  a ← brk_ptr id;
  if a =? 0 then mret (-1)
  else
    r ← brkpnt_disable id;
    if r <? 0 then mret (-1)
    else
      b ← brk_get a;
      (if negb (bk_locstr b =? 0) then on_heap (h_kfree (bk_locstr b)) else mret tt);;
      brk_drop a;;
      brk_set_ptr id 0;;
      mret 0.

Definition brkpnt_hit_handler (breakaddr : Z) : D () :=
  id ← find_slot slots (points_to (fun b => bk_addr b =? breakaddr)) 0;
  (if id =? BRKPNT_MAX then mret tt
   else
     a ← brk_ptr id; b ← brk_get a;
     brk_put a (mkBrk (bk_id b) (bk_state b) (s32 (bk_hit b + 1)) (bk_addr b) (bk_locstr b)));;
  assertM (negb (id =? BRKPNT_MAX)).

(** ** watchpoint.c: no register is written yet *)
Definition wch_get (p : Z) : D wchpnt := fun s => match b_wchs s !! p with Some w => Ret (w, s) | None => Fault end.
Definition wch_put (p : Z) (w : wchpnt) : D () := modify (fun s => with_wchs (allwches s) (<[p := w]> (b_wchs s)) s).
Definition wch_ptr (id : Z) : D Z := s ← get; lift (rd (allwches s) id).
Definition wch_set_ptr (id p : Z) : D () := s ← get; l ← lift (wr (allwches s) id p); put (with_wchs l (b_wchs s) s).
Definition addr_can_wch (addr : Z) : Z := 1.
(** The loop of [wchpnt_add] over the one slot. *)
Definition wchpnt_add (addr val : Z) (width : wchpnt_width) (access : wchpnt_access) : D Z :=
  if addr_can_wch addr =? 0 then mret (-1)
  else
    a ← wch_ptr 0;
    let id := if a =? 0 then 0 else 1 in
    if id =? WCHPNT_MAX then mret (-1)
    else
      w ← on_heap (h_kalloc sizeof_wchpnt);
      if w =? 0 then mret (-1)
      else
        wch_put w (mkWch id WCHPNT_OFF width access addr val);;
        wch_set_ptr id w;;
        mret id.
Definition wch_set_state (st : wchpnt_state) (id : Z) : D Z :=
  assertM ((0 <=? id) && (id <? WCHPNT_MAX));;
  a ← wch_ptr id;
  assertM (negb (a =? 0));;
  w ← wch_get a;
  if decide (w_state w = st) then mret 0
  else wch_put a (mkWch (w_id w) st (w_width w) (w_access w) (w_addr w) (w_value w));; mret 0.
Definition wchpnt_enable : Z -> D Z := wch_set_state WCHPNT_ON.
Definition wchpnt_disable : Z -> D Z := wch_set_state WCHPNT_OFF.
Definition wchpnt_del (id : Z) : D Z :=
  a ← wch_ptr id;
  if a =? 0 then mret (-1)
  else
    r ← wchpnt_disable id;
    if r <? 0 then mret (-1)
    else
      on_heap (h_kfree a);;
      modify (fun s => with_wchs (allwches s) (delete a (b_wchs s)) s);;
      wch_set_ptr id 0;;
      mret 0.
Definition init_watchpoints : D Z := wch_set_ptr 0 0;; mret 0.

(** ** singlestep.c *)
Definition same_srcline (pc1 pc2 : Z) : Z := 1.
Definition step_handler (pc : Z) : D step_action :=
  s ← get;
  let c := curstep s in
  let more_src := match st_grains c with STEP_SRC => negb (same_srcline pc (st_startaddr c) =? 0) | STEP_ASM => false end in
  if more_src then mret STEP_MORE
  else
    let count := s32 (st_count c - 1) in
    put (with_step (mkStep count (st_grains c) (st_startaddr c)) s);;
    if count =? 0 then mret STEP_EXIT
    else assertM (0 <? count);; mret STEP_MORE.

Definition ectx_get : D econtext := s ← get; match b_ectx s !! cur_ectx s with Some e => mret e | None => fault end.
Definition ectx_put (e : econtext) : D () := modify (fun s => with_ectx (<[cur_ectx s := e]> (b_ectx s)) s).
Definition step_asm (count : Z) : D Z :=
  assertM (0 <? count);;
  e ← ectx_get;
  modify (with_step (mkStep count STEP_ASM (e_elr e)));;
  v ← on_regs (read_sysreg mdscr_el1);
  on_regs (write_sysreg (Z.lor v MDSCR_SS) mdscr_el1);;
  e ← ectx_get;
  ectx_put (mkEctx (e_esr e) (e_far e) (e_sp e) (e_sp0 e) (e_elr e) (Z.lor (e_spsr e) SPSR_SS) (e_gp_regs e));;
  mret 0.
Definition step_src (count : Z) : D Z := mret 0.
End Debug.

(** ** What the debug registers promise: they hold what is written *)
Definition debug_reg (r : sysreg) : bool :=
  match r with dbgbcr0_el1 | dbgbcr1_el1 | dbgbvr0_el1 | dbgbvr1_el1 | mdscr_el1 => true | _ => false end.
Class DebugRegs `{MA : Machine} := {
  dreg : mstate -> sysreg -> Z;
  dreg_range : forall d r, 0 <= dreg d r < 2 ^ 64;
  dreg_read : forall d r, debug_reg r = true -> sys_read r d = (dreg d r, d);
  dreg_write : forall d r v r', debug_reg r = true -> debug_reg r' = true -> 0 <= v < 2 ^ 64 ->
    dreg (sys_write r v d) r' = if decide (r' = r) then v else dreg d r' }.

(** ** The abstract breakpoints: address, state and hits of the two slots *)
Definition view : Type := option (Z * brkpnt_state * Z).
Inductive brk_op := OpAdd (addr : Z) | OpEnable (id : Z) | OpDisable (id : Z) | OpDel (id : Z) | OpSuspend (pc : Z) | OpRestore | OpHit (pc : Z).

Definition on_slot (f : Z * brkpnt_state * Z -> option (Z * brkpnt_state * Z)) (id : Z) (bs : view * view) : option (view * view) :=
  if id =? 0 then x ← bs.1; Some (f x, bs.2) else if id =? 1 then x ← bs.2; Some (bs.1, f x) else None.
Definition set_state (st : brkpnt_state) (x : Z * brkpnt_state * Z) : option (Z * brkpnt_state * Z) := Some (x.1.1, st, x.2).
Definition first_slot (f : Z * brkpnt_state * Z -> bool) (bs : view * view) : option Z :=
  if from_option f false bs.1 then Some 0 else if from_option f false bs.2 then Some 1 else None.
Definition resume (v : view) : view :=
  match v with Some (a, BRKPNT_SUSPEND_SS, h) => Some (a, BRKPNT_ON, h) | _ => v end.

(** The result and the slots after an operation; [None] is a failed
    assertion. *)
Definition spec_op (op : brk_op) (bs : view * view) : option (Z * (view * view)) :=
  match op with
  | OpAdd addr =>
      Some match bs with
           | (None, y) => (0, (Some (addr, BRKPNT_OFF, 0), y))
           | (x, None) => (1, (x, Some (addr, BRKPNT_OFF, 0)))
           | _ => (-1, bs)
           end
  | OpEnable id => pair 0 <$> on_slot (set_state BRKPNT_ON) id bs
  | OpDisable id => pair 0 <$> on_slot (set_state BRKPNT_OFF) id bs
  | OpDel id => Some match on_slot (fun _ => None) id bs with Some bs' => (0, bs') | None => (-1, bs) end
  | OpSuspend pc =>
      match first_slot (fun x => (x.1.1 =? pc) && bool_decide (x.1.2 = BRKPNT_ON)) bs with
      | None => Some (0, bs)
      | Some id => x ← (if id =? 0 then bs.1 else bs.2); if 0 <? x.2 then pair 0 <$> on_slot (set_state BRKPNT_SUSPEND_SS) id bs else None
      end
  | OpRestore => Some (0, (resume bs.1, resume bs.2))
  | OpHit pc => id ← first_slot (fun x => x.1.1 =? pc) bs; pair 0 <$> on_slot (fun x => Some (x.1.1, x.1.2, s32 (x.2 + 1))) id bs
  end.

Section Refine.
Context `{DR : DebugRegs} `{KH : KHeap}.

(** The operations of the code; a breakpoint is added with the location string
    that the monitor allocated for it. *)
Definition run_op (op : brk_op) (locstr : Z) : M dbg Z :=
  match op with
  | OpAdd addr => brkpnt_add addr locstr
  | OpEnable id => brkpnt_enable id
  | OpDisable id => brkpnt_disable id
  | OpDel id => brkpnt_del id
  | OpSuspend pc => brkpnt_suspend pc;; mret 0
  | OpRestore => brkpnt_restore;; mret 0
  | OpHit pc => brkpnt_hit_handler pc;; mret 0
  end.

Definition bcr_ (id : Z) : sysreg := if id =? 0 then dbgbcr0_el1 else dbgbcr1_el1.
Definition bvr_ (id : Z) : sysreg := if id =? 0 then dbgbvr0_el1 else dbgbvr1_el1.
(** MDSCR_EL1.KDE and MDE: debug exceptions, also from the kernel. *)
Definition MONITOR_BITS : Z := 0xa000.
(** DBGBCR.HMC, SSC and BT: zero is an unlinked match of the address at both
    exception levels. *)
Definition TYPE_BITS : Z := 0xf0e000.
(** The CPU stops before the instruction at [pc], if debug exceptions are not
    masked: they are enabled, and a breakpoint is, for all four bytes and both
    exception levels, as a match of this address. *)
Definition stops_at (d : mstate) (pc : Z) : Prop :=
  Z.land (dreg d mdscr_el1) MONITOR_BITS = MONITOR_BITS /\
  exists id, 0 <= id < 2 /\ Z.land (dreg d (bcr_ id)) ENABLE_BITS = ENABLE_BITS /\ Z.land (dreg d (bcr_ id)) TYPE_BITS = 0 /\ dreg d (bvr_ id) = pc.
(** Set up for breakpoints, as the last writes of [init_kmon] leave it. *)
Definition monitoring (d : mstate) : Prop :=
  Z.land (dreg d mdscr_el1) MONITOR_BITS = MONITOR_BITS /\ forall id, 0 <= id < 2 -> Z.land (dreg d (bcr_ id)) TYPE_BITS = 0.

(** The registers of slot [id] say what the descriptor says. *)
Definition hw_is (d : mstate) (id : Z) (b : option brkpnt) : Prop :=
  match b with
  | Some b => match bk_state b with
              | BRKPNT_ON => dreg d (bvr_ id) = bk_addr b /\ Z.land (dreg d (bcr_ id)) ENABLE_BITS = ENABLE_BITS
              | BRKPNT_SUSPEND_SS => dreg d (bvr_ id) = bk_addr b /\ Z.land (dreg d (bcr_ id)) ENABLE_BITS = ENABLE_BITS - 1
              | BRKPNT_OFF => Z.testbit (dreg d (bcr_ id)) 0 = false
              end
  | None => Z.testbit (dreg d (bcr_ id)) 0 = false
  end.
Definition slot : Type := option (Z * brkpnt).
Definition ptr (x : slot) : Z := match x with Some (p, _) => p | None => 0 end.
Definition own (x : slot) : list Z := match x with Some (p, b) => p :: (if bk_locstr b =? 0 then [] else [bk_locstr b]) | None => [] end.
Definition slot_ok (s : dbg) (id : Z) (x : slot) : Prop :=
  hw_is (b_dev s) id (snd <$> x) /\
  match x with Some (p, b) => p <> 0 /\ b_brks s !! p = Some b /\ bk_id b = id /\ 0 <= bk_addr b < 2 ^ 64 | None => True end.
Record rep (s : dbg) (x0 x1 : slot) : Prop := {
  r_ptrs : allbrks s = [ptr x0; ptr x1];
  r_0 : slot_ok s 0 x0;
  r_1 : slot_ok s 1 x1;
  r_heap : heap_ok (b_heap s);
  r_used : Forall (used (b_heap s)) (own x0 ++ own x1);
  r_nodup : NoDup (own x0 ++ own x1) }.
Definition view_of (x : slot) : view := (fun '(_, b) => (bk_addr b, bk_state b, bk_hit b)) <$> x.
(** The state stands for the two slots [bs]. *)
Definition stands_for (s : dbg) (bs : view * view) : Prop := exists x0 x1, rep s x0 x1 /\ bs = (view_of x0, view_of x1).

(** *** Bits of the control register *)
Lemma enable_bits_or v : Z.land (Z.lor v ENABLE_BITS) ENABLE_BITS = ENABLE_BITS.
Proof. apply Z.bits_inj'. intros i Hi. rewrite Z.land_spec, Z.lor_spec. destruct (Z.testbit v i), (Z.testbit ENABLE_BITS i); done. Qed.
Lemma clear_bit0 v : Z.testbit (Z.land v (u64 (Z.lnot 1))) 0 = false.
Proof. rewrite Z.land_spec. change (Z.testbit (u64 (Z.lnot 1)) 0) with false. apply andb_false_r. Qed.
Lemma clear_enabled v : Z.land v ENABLE_BITS = ENABLE_BITS -> Z.land (Z.land v (u64 (Z.lnot 1))) ENABLE_BITS = ENABLE_BITS - 1.
Proof. intros E. rewrite <- Z.land_assoc, (Z.land_comm _ ENABLE_BITS), Z.land_assoc, E. reflexivity. Qed.
Lemma set_suspended v : Z.land v ENABLE_BITS = ENABLE_BITS - 1 -> Z.land (Z.lor v 1) ENABLE_BITS = ENABLE_BITS.
Proof. intros E. rewrite Z.land_lor_distr_l, E. reflexivity. Qed.
Lemma enabled_bit0 v : Z.land v ENABLE_BITS = ENABLE_BITS -> Z.testbit v 0 = true.
Proof. intros E. assert (Z.testbit (Z.land v ENABLE_BITS) 0 = true) as H by (by rewrite E). rewrite Z.land_spec in H. by destruct (Z.testbit v 0). Qed.

(** *** Register accesses *)
Definition two (id : Z) : Prop := id = 0 \/ id = 1.
Lemma on_regs_run {A} (m : M mstate A) (s : dbg) a d' : m (b_dev s) = Ret (a, d') -> on_regs m s = Ret (a, with_regs d' s).
Proof. intros E. unfold on_regs, zoom. by rewrite E. Qed.
Lemma read_dreg (s : dbg) r : debug_reg r = true -> on_regs (read_sysreg r) s = Ret (dreg (b_dev s) r, s).
Proof.
  intros Hr. rewrite (on_regs_run _ s (dreg (b_dev s) r) (b_dev s)); [by destruct s|]. unfold read_sysreg. rewrite dreg_read by done.
  pose proof (dreg_range (b_dev s) r). by rewrite u64_small by lia.
Qed.
Lemma write_dreg (s : dbg) r v : 0 <= v < 2 ^ 64 -> on_regs (write_sysreg v r) s = Ret (tt, with_regs (sys_write r v (b_dev s)) s).
Proof. intros Hv. unfold on_regs, zoom, write_sysreg, modify. by rewrite u64_small by lia. Qed.

(** [d'] differs from [d] in the registers of breakpoint [id] only. *)
Definition only_slot (id : Z) (d d' : mstate) : Prop :=
  dreg d' mdscr_el1 = dreg d mdscr_el1 /\ forall j, two j -> j <> id -> dreg d' (bcr_ j) = dreg d (bcr_ j) /\ dreg d' (bvr_ j) = dreg d (bvr_ j).
Lemma hw_is_only id d d' j b : only_slot id d d' -> two j -> j <> id -> hw_is d j b -> hw_is d' j b.
Proof. intros [_ Ho] Hj Hne. destruct (Ho j Hj Hne) as [Ec Ev]. unfold hw_is. by rewrite Ec, Ev. Qed.

Lemma hw_rmw_run (s : dbg) id f (m : M dbg ()) : two id -> (forall v, 0 <= v < 2 ^ 64 -> 0 <= f v < 2 ^ 64) ->
  m = (r ← lift (bcr id); val ← on_regs (read_sysreg r); on_regs (write_sysreg (f val) r)) ->
  exists d', m s = Ret (tt, with_regs d' s) /\ only_slot id (b_dev s) d' /\ dreg d' (bcr_ id) = f (dreg (b_dev s) (bcr_ id)) /\ dreg d' (bvr_ id) = dreg (b_dev s) (bvr_ id).
Proof.
  intros Hid Hf ->. pose proof (Hf _ (dreg_range (b_dev s) (bcr_ id))) as Hr. exists (sys_write (bcr_ id) (f (dreg (b_dev s) (bcr_ id))) (b_dev s)).
  assert (bcr id = Ret (bcr_ id)) as -> by (by destruct Hid; subst). assert (debug_reg (bcr_ id) = true) as Hd by (by destruct Hid; subst).
  split; [|split_and!].
  - unfold lift. unfold mbind at 1, M_bind at 1. mrun (read_dreg s (bcr_ id) Hd). by apply write_dreg.
  - split; [by destruct Hid; subst; rewrite dreg_write|]. intros j Hj Hne. by destruct Hid, Hj; subst; try done; split; rewrite dreg_write.
  - rewrite dreg_write by done. by rewrite decide_True.
  - by destruct Hid; subst; rewrite dreg_write.
Qed.
Lemma hw_clear_run (s : dbg) id : two id ->
  exists d', hw_clear id s = Ret (tt, with_regs d' s) /\ only_slot id (b_dev s) d' /\ dreg d' (bcr_ id) = Z.land (dreg (b_dev s) (bcr_ id)) (u64 (Z.lnot 1)) /\ dreg d' (bvr_ id) = dreg (b_dev s) (bvr_ id).
Proof. intros Hid. apply (hw_rmw_run s id (fun v => Z.land v (u64 (Z.lnot 1)))); [done|intros v Hv; by apply land_range|done]. Qed.
Lemma hw_set_run (s : dbg) id : two id ->
  exists d', hw_set id s = Ret (tt, with_regs d' s) /\ only_slot id (b_dev s) d' /\ dreg d' (bcr_ id) = Z.lor (dreg (b_dev s) (bcr_ id)) 1 /\ dreg d' (bvr_ id) = dreg (b_dev s) (bvr_ id).
Proof. intros Hid. apply (hw_rmw_run s id (fun v => Z.lor v 1)); [done|intros v Hv; by apply lor_range|done]. Qed.
Lemma hw_enable_run (s : dbg) id addr : two id -> 0 <= addr < 2 ^ 64 ->
  exists d', hw_enable id addr s = Ret (tt, with_regs d' s) /\ only_slot id (b_dev s) d' /\ dreg d' (bcr_ id) = Z.lor (dreg (b_dev s) (bcr_ id)) ENABLE_BITS /\ dreg d' (bvr_ id) = addr.
Proof.
  intros Hid Ha. set (v := Z.lor (dreg (b_dev s) (bcr_ id)) ENABLE_BITS). assert (0 <= v < 2 ^ 64) as Hv by (apply lor_range; [apply dreg_range|done]).
  exists (sys_write (bcr_ id) v (sys_write (bvr_ id) addr (b_dev s))). unfold hw_enable.
  assert (bcr id = Ret (bcr_ id)) as -> by (by destruct Hid; subst). assert (bvr id = Ret (bvr_ id)) as -> by (by destruct Hid; subst).
  assert (debug_reg (bcr_ id) = true) as Hd by (by destruct Hid; subst).
  split; [|split_and!].
  - unfold lift. do 2 (unfold mbind at 1, M_bind at 1). mrun (read_dreg s (bcr_ id) Hd). mrun (write_dreg s (bvr_ id) addr Ha). by apply (write_dreg (with_regs _ s)).
  - split; [by destruct Hid; subst; rewrite !dreg_write|]. intros j Hj Hne. by destruct Hid, Hj; subst; try done; split; rewrite !dreg_write.
  - by destruct Hid; subst; rewrite !dreg_write.
  - by destruct Hid; subst; rewrite !dreg_write.
Qed.

(** *** The slots *)
Definition sel (x0 x1 : slot) (id : Z) : slot := if id =? 0 then x0 else x1.
Definition up0 (x0 x : slot) (id : Z) : slot := if id =? 0 then x else x0.
Definition up1 (x1 x : slot) (id : Z) : slot := if id =? 0 then x1 else x.

Lemma brk_ptr_run s x0 x1 id : rep s x0 x1 -> two id -> brk_ptr id s = Ret (ptr (sel x0 x1 id), s).
Proof. intros Hr Hid. unfold brk_ptr, get, lift, mbind, M_bind. rewrite (r_ptrs _ _ _ Hr). by destruct Hid; subst. Qed.
Lemma sel_ok s x0 x1 id : rep s x0 x1 -> two id -> slot_ok s id (sel x0 x1 id).
Proof. intros Hr [-> | ->]; [apply Hr|apply Hr]. Qed.
Lemma brk_get_run s x0 x1 id p b : rep s x0 x1 -> two id -> sel x0 x1 id = Some (p, b) -> brk_get p s = Ret (b, s) /\ p <> 0.
Proof. intros Hr Hid Hs. pose proof (sel_ok s x0 x1 id Hr Hid) as [_ Ho]. rewrite Hs in Ho. destruct Ho as (Hp & Hb & _). unfold brk_get. by rewrite Hb. Qed.
Lemma own_ptr x p b : x = Some (p, b) -> p ∈ own x.
Proof. intros ->. left. Qed.
Lemma slots_differ s x0 x1 p0 b0 p1 b1 : rep s x0 x1 -> x0 = Some (p0, b0) -> x1 = Some (p1, b1) -> p0 <> p1.
Proof.
  intros Hr E0 E1 <-. pose proof (r_nodup _ _ _ Hr) as Hn. apply NoDup_app in Hn as (_ & Hd & _).
  exact (Hd p0 (own_ptr _ _ _ E0) (own_ptr _ _ _ E1)).
Qed.

(** Replacing a descriptor and its registers. *)
Definition replaced (s : dbg) (d' : mstate) (p : Z) (b' : brkpnt) : dbg := with_regs d' (with_brks (allbrks s) (<[p := b']> (b_brks s)) s).
Lemma rep_update s x0 x1 id p b b' d' :
  rep s x0 x1 -> two id -> sel x0 x1 id = Some (p, b) -> bk_id b' = bk_id b -> bk_addr b' = bk_addr b -> bk_locstr b' = bk_locstr b ->
  only_slot id (b_dev s) d' -> hw_is d' id (Some b') ->
  rep (replaced s d' p b') (up0 x0 (Some (p, b')) id) (up1 x1 (Some (p, b')) id).
Proof.
  intros Hr Hid Hs Ei Ea El Ho Hh. pose proof (sel_ok s x0 x1 id Hr Hid) as [_ Hb]. rewrite Hs in Hb. destruct Hb as (Hp & Hb & Hbi & Hba).
  destruct Hr as [Rp [H0 R0] [H1 R1] Rh Ru Rn].
  assert (own (Some (p, b')) = own (Some (p, b))) as Hown by (cbn; by rewrite El).
  destruct Hid; subst id; cbn in Hs; unfold sel, up0, up1; cbn [Z.eqb]; subst; split; try done.
  - split; [done|]. cbn. by rewrite Ei, Ea, lookup_insert_eq.
  - split; [by eapply hw_is_only; [done|right| |]|]. destruct x1 as [[p1 b1]|]; [|done]. cbn. rewrite lookup_insert_ne; [done|].
    apply NoDup_app in Rn as (_ & Hd & _). intros ->. apply (Hd p1); left.
  - by rewrite Hown.
  - by rewrite Hown.
  - split; [by eapply hw_is_only; [done|left| |]|]. destruct x0 as [[p0 b0]|]; [|done]. cbn. rewrite lookup_insert_ne; [done|].
    apply NoDup_app in Rn as (_ & Hd & _). intros ->. apply (Hd p0); left.
  - split; [done|]. cbn. by rewrite Ei, Ea, lookup_insert_eq.
  - by rewrite Hown.
  - by rewrite Hown.
Qed.

(** Finding a slot. *)
Lemma find_slot_run s x0 x1 test (t : slot -> bool) : rep s x0 x1 -> (forall x, x = x0 \/ x = x1 -> test (ptr x) s = Ret (t x, s)) ->
  find_slot slots test 0 s = Ret (if t x0 then 0 else if t x1 then 1 else 2, s).
Proof.
  intros Hr Ht. change slots with 2%nat. cbn [find_slot]. mrun (brk_ptr_run s x0 x1 0 Hr (or_introl eq_refl)). mrun (Ht x0 (or_introl eq_refl)).
  destruct (t x0); [done|]. change (0 + 1) with 1. mrun (brk_ptr_run s x0 x1 1 Hr (or_intror eq_refl)). mrun (Ht x1 (or_intror eq_refl)). by destruct (t x1).
Qed.
Lemma points_to_run s x0 x1 f x : rep s x0 x1 -> x = x0 \/ x = x1 -> points_to f (ptr x) s = Ret (from_option (fun y => f y.2) false x, s).
Proof.
  intros Hr Hx. destruct x as [[p b]|]; [|done]. unfold points_to. cbn [ptr].
  assert (brk_get p s = Ret (b, s) /\ p <> 0) as [E Hp].
  { destruct Hx as [<-|<-]; [by eapply (brk_get_run s _ _ 0); [done|left|]|by eapply (brk_get_run s _ _ 1); [done|right|]]. }
  rewrite (proj2 (Z.eqb_neq p 0)) by done. by mrun E.
Qed.
Lemma is_null_run s x0 x1 x : rep s x0 x1 -> x = x0 \/ x = x1 -> is_null (ptr x) s = Ret (bool_decide (x = None), s).
Proof.
  intros Hr Hx. unfold is_null, mret, M_ret. destruct x as [[p b]|]; [|done]. cbn [ptr].
  assert (p <> 0) as Hp. { destruct Hx as [<-|<-]; [by eapply (brk_get_run s _ _ 0); [done|left|]|by eapply (brk_get_run s _ _ 1); [done|right|]]. }
  rewrite (proj2 (Z.eqb_neq p 0)) by done. done.
Qed.
(** A found slot is one of the two, and holds a breakpoint that passes. *)
Lemma found x0 x1 (t : slot -> bool) : t None = false ->
  let id := if t x0 then 0 else if t x1 then 1 else 2 in
  id = 2 /\ t x0 = false /\ t x1 = false \/ two id /\ (id =? BRKPNT_MAX) = false /\ exists p b, sel x0 x1 id = Some (p, b) /\ t (Some (p, b)) = true.
Proof.
  intros Hn. cbv zeta. destruct (t x0) eqn:E0; [|destruct (t x1) eqn:E1].
  - right. split; [by left|]. split; [done|]. destruct x0 as [[p b]|]; [|congruence]. by exists p, b.
  - right. split; [by right|]. split; [done|]. destruct x1 as [[p b]|]; [|congruence]. by exists p, b.
  - by left.
Qed.

(** *** The operations *)
Lemma on_slot_up f x0 x1 id p b b' : two id -> sel x0 x1 id = Some (p, b) -> f (bk_addr b, bk_state b, bk_hit b) = Some (bk_addr b', bk_state b', bk_hit b') ->
  on_slot f id (view_of x0, view_of x1) = Some (view_of (up0 x0 (Some (p, b')) id), view_of (up1 x1 (Some (p, b')) id)).
Proof. intros [-> | ->] Hs Hf; unfold sel in Hs; cbn in Hs; subst; unfold on_slot; cbn; by rewrite Hf. Qed.
Lemma on_slot_none f x0 x1 id : on_slot f id (view_of x0, view_of x1) = None <-> ~ two id \/ sel x0 x1 id = None.
Proof.
  unfold on_slot, two, sel. destruct (Z.eqb_spec id 0) as [->|]; cbn; [destruct x0 as [[]|]; cbn; naive_solver|].
  destruct (Z.eqb_spec id 1) as [->|]; cbn; [destruct x1 as [[]|]; cbn; naive_solver|]. naive_solver.
Qed.
Lemma two_dec id : {two id} + {~ two id}.
Proof. unfold two. destruct (Z.eq_dec id 0), (Z.eq_dec id 1); (by left; auto) || (right; lia). Defined.
Lemma two_bool id : ((0 <=? id) && (id <? BRKPNT_MAX)) = bool_decide (two id).
Proof. unfold two, BRKPNT_MAX. destruct (Z.leb_spec 0 id), (Z.ltb_spec id 2); cbn; symmetry; (apply bool_decide_eq_true_2; lia) || (apply bool_decide_eq_false_2; lia). Qed.

(** The checks that enabling and disabling start with. *)
Lemma guarded s x0 x1 id {A} (k : Z -> M dbg A) : rep s x0 x1 ->
  (assertM ((0 <=? id) && (id <? BRKPNT_MAX));; a ← brk_ptr id; assertM (negb (a =? 0));; k a) s =
  match (if two_dec id then sel x0 x1 id else None) with Some (p, _) => k p s | None => Halt end.
Proof.
  intros Hr. rewrite two_bool. destruct (two_dec id) as [Hid|Hid]; [|by rewrite bool_decide_eq_false_2].
  rewrite bool_decide_eq_true_2 by done. unfold assertM, assert_, lift. unfold mbind at 1, M_bind at 1. mrun (brk_ptr_run s x0 x1 id Hr Hid).
  destruct (sel x0 x1 id) as [[p b]|] eqn:Es; [|done]. destruct (brk_get_run s x0 x1 id p b Hr Hid Es) as [_ Hp]. cbn [ptr].
  by rewrite (proj2 (Z.eqb_neq p 0)) by done.
Qed.

Lemma enable_run s x0 x1 id p b : rep s x0 x1 -> two id -> sel x0 x1 id = Some (p, b) ->
  exists s', brkpnt_enable id s = Ret (0, s') /\ rep s' (up0 x0 (Some (p, bk_with_state BRKPNT_ON b)) id) (up1 x1 (Some (p, bk_with_state BRKPNT_ON b)) id).
Proof.
  intros Hr Hid Hs. unfold brkpnt_enable. rewrite (guarded s x0 x1 id _ Hr). destruct (two_dec id); [|done]. rewrite Hs.
  destruct (brk_get_run s x0 x1 id p b Hr Hid Hs) as [Eg Hp]. mrun Eg. pose proof (sel_ok s x0 x1 id Hr Hid) as [Hh Hb]. rewrite Hs in Hh, Hb. destruct Hb as (_ & Hbk & Hbi & Hba).
  destruct (decide (bk_state b = BRKPNT_ON)) as [E|E].
  - exists s. split; [done|]. assert (bk_with_state BRKPNT_ON b = b) as -> by (destruct b; cbn in E; by subst).
    by destruct Hid; subst; unfold sel, up0, up1 in *; cbn in *; subst.
  - set (s1 := with_brks (allbrks s) (<[p := bk_with_state BRKPNT_ON b]> (b_brks s)) s).
    destruct (hw_enable_run s1 id (bk_addr b) Hid Hba) as (d' & Ed & Ho & Hc & Hv). exists (with_regs d' s1).
    split; [mrun (eq_refl (Ret (tt, s1))); by mrun Ed|]. eapply (rep_update s x0 x1 id p b _ d' Hr Hid Hs); try done.
    cbn. split; [done|]. rewrite Hc. apply enable_bits_or.
Qed.
Lemma off_bit0 d id b : hw_is d id (Some b) -> bk_state b = BRKPNT_OFF -> Z.testbit (dreg d (bcr_ id)) 0 = false.
Proof. unfold hw_is. intros H E. by rewrite E in H. Qed.
Lemma disable_run s x0 x1 id p b : rep s x0 x1 -> two id -> sel x0 x1 id = Some (p, b) ->
  exists s', brkpnt_disable id s = Ret (0, s') /\ b_heap s' = b_heap s /\
    rep s' (up0 x0 (Some (p, bk_with_state BRKPNT_OFF b)) id) (up1 x1 (Some (p, bk_with_state BRKPNT_OFF b)) id).
Proof.
  intros Hr Hid Hs. unfold brkpnt_disable. rewrite (guarded s x0 x1 id _ Hr). destruct (two_dec id); [|done]. rewrite Hs.
  destruct (brk_get_run s x0 x1 id p b Hr Hid Hs) as [Eg Hp]. mrun Eg.
  destruct (decide (bk_state b = BRKPNT_OFF)) as [E|E].
  - exists s. split; [done|]. split; [done|]. assert (bk_with_state BRKPNT_OFF b = b) as -> by (destruct b; cbn in E; by subst).
    by destruct Hid; subst; unfold sel, up0, up1 in *; cbn in *; subst.
  - set (s1 := with_brks (allbrks s) (<[p := bk_with_state BRKPNT_OFF b]> (b_brks s)) s).
    destruct (hw_clear_run s1 id Hid) as (d' & Ed & Ho & Hc & Hv). exists (with_regs d' s1).
    split; [mrun (eq_refl (Ret (tt, s1))); by mrun Ed|]. split; [done|]. eapply (rep_update s x0 x1 id p b _ d' Hr Hid Hs); try done.
    cbn. rewrite Hc. apply clear_bit0.
Qed.

Lemma suspend_run s x0 x1 id p b pc : rep s x0 x1 -> two id -> sel x0 x1 id = Some (p, b) -> bk_state b = BRKPNT_ON ->
  find_slot slots (points_to (fun b => (bk_addr b =? pc) && bool_decide (bk_state b = BRKPNT_ON))) 0 s = Ret (id, s) ->
  if 0 <? bk_hit b then exists s', brkpnt_suspend pc s = Ret (tt, s') /\
    rep s' (up0 x0 (Some (p, bk_with_state BRKPNT_SUSPEND_SS b)) id) (up1 x1 (Some (p, bk_with_state BRKPNT_SUSPEND_SS b)) id)
  else brkpnt_suspend pc s = Halt.
Proof.
  intros Hr Hid Hs Hon Hf. unfold brkpnt_suspend. destruct (brk_get_run s x0 x1 id p b Hr Hid Hs) as [Eg Hp].
  pose proof (sel_ok s x0 x1 id Hr Hid) as [Hh _]. rewrite Hs in Hh. cbn in Hh. rewrite Hon in Hh.
  rewrite (M_bind_run _ _ _ _ _ Hf). assert ((id =? BRKPNT_MAX) = false) as -> by (by destruct Hid; subst).
  rewrite (M_bind_run _ _ _ _ _ (brk_ptr_run s x0 x1 id Hr Hid)). rewrite Hs. cbn [ptr]. rewrite (M_bind_run _ _ _ _ _ Eg).
  destruct (0 <? bk_hit b); [|done].
  set (s1 := with_brks (allbrks s) (<[p := bk_with_state BRKPNT_SUSPEND_SS b]> (b_brks s)) s).
  destruct (hw_clear_run s1 id Hid) as (d' & Ed & Ho & Hc & Hv). exists (with_regs d' s1).
  split; [mrun (eq_refl (Ret (tt, s))); mrun (eq_refl (Ret (tt, s1))); exact Ed|]. eapply (rep_update s x0 x1 id p b _ d' Hr Hid Hs); try done.
  cbn. destruct Hh as [Ha He]. split; [rewrite Hv; exact Ha|]. rewrite Hc. by apply clear_enabled.
Qed.

Lemma hit_run s x0 x1 id p b pc : rep s x0 x1 -> two id -> sel x0 x1 id = Some (p, b) ->
  find_slot slots (points_to (fun b => bk_addr b =? pc)) 0 s = Ret (id, s) ->
  let b' := mkBrk (bk_id b) (bk_state b) (s32 (bk_hit b + 1)) (bk_addr b) (bk_locstr b) in
  exists s', brkpnt_hit_handler pc s = Ret (tt, s') /\ rep s' (up0 x0 (Some (p, b')) id) (up1 x1 (Some (p, b')) id).
Proof.
  intros Hr Hid Hs Hf b'. unfold brkpnt_hit_handler. destruct (brk_get_run s x0 x1 id p b Hr Hid Hs) as [Eg Hp].
  pose proof (sel_ok s x0 x1 id Hr Hid) as [Hh _]. rewrite Hs in Hh.
  exists (replaced s (b_dev s) p b'). split; [|by eapply (rep_update s x0 x1 id p b b' (b_dev s) Hr Hid Hs)].
  rewrite (M_bind_run _ _ _ _ _ Hf). assert ((id =? BRKPNT_MAX) = false) as -> by (by destruct Hid; subst).
  assert ((a ← brk_ptr id; b ← brk_get a; brk_put a (mkBrk (bk_id b) (bk_state b) (s32 (bk_hit b + 1)) (bk_addr b) (bk_locstr b))) s = Ret (tt, replaced s (b_dev s) p b')) as E.
  { rewrite (M_bind_run _ _ _ _ _ (brk_ptr_run s x0 x1 id Hr Hid)). rewrite Hs. cbn [ptr]. rewrite (M_bind_run _ _ _ _ _ Eg). done. }
  by rewrite (M_bind_run _ _ _ _ _ E).
Qed.

Lemma up_sel x0 x1 id : two id -> up0 x0 (sel x0 x1 id) id = x0 /\ up1 x1 (sel x0 x1 id) id = x1.
Proof. by intros [-> | ->]. Qed.
Definition resumed (x : slot) : slot :=
  match x with Some (p, b) => if decide (bk_state b = BRKPNT_SUSPEND_SS) then Some (p, bk_with_state BRKPNT_ON b) else x | None => None end.
Lemma view_resumed x : view_of (resumed x) = resume (view_of x).
Proof. destruct x as [[p [i st h a l]]|]; [|done]. by destruct st. Qed.
Lemma restore_step s x0 x1 id fuel : rep s x0 x1 -> two id ->
  exists s', restore_from (S fuel) id s = restore_from fuel (id + 1) s' /\ rep s' (up0 x0 (resumed (sel x0 x1 id)) id) (up1 x1 (resumed (sel x0 x1 id)) id).
Proof.
  intros Hr Hid. cbn [restore_from]. rewrite (M_bind_run _ _ _ _ _ (brk_ptr_run s x0 x1 id Hr Hid)).
  destruct (up_sel x0 x1 id Hid) as [U0 U1]. destruct (sel x0 x1 id) as [[p b]|] eqn:Hs; cbn [ptr]; [|exists s; split; [done|by cbn; rewrite U0, U1]].
  destruct (brk_get_run s x0 x1 id p b Hr Hid Hs) as [Eg Hp]. rewrite (proj2 (Z.eqb_neq p 0)) by done.
  pose proof (sel_ok s x0 x1 id Hr Hid) as [Hh _]. rewrite Hs in Hh. cbn in Hh. cbn [resumed].
  destruct (decide (bk_state b = BRKPNT_SUSPEND_SS)) as [E|E].
  - set (s1 := with_brks (allbrks s) (<[p := bk_with_state BRKPNT_ON b]> (b_brks s)) s).
    destruct (hw_set_run s1 id Hid) as (d' & Ed & Ho & Hc & Hv). exists (with_regs d' s1). split.
    + erewrite M_bind_run; [reflexivity|]. rewrite (M_bind_run _ _ _ _ _ Eg). rewrite decide_True by done. mrun (eq_refl (Ret (tt, s1))). exact Ed.
    + rewrite E in Hh. destruct Hh as [Ha He]. eapply (rep_update s x0 x1 id p b _ d' Hr Hid Hs); try done. cbn. split; [rewrite Hv; exact Ha|]. rewrite Hc. by apply set_suspended.
  - exists s. split; [|by rewrite U0, U1]. erewrite M_bind_run; [reflexivity|]. rewrite (M_bind_run _ _ _ _ _ Eg). by rewrite decide_False.
Qed.
Lemma restore_run s x0 x1 : rep s x0 x1 -> exists s', brkpnt_restore s = Ret (tt, s') /\ rep s' (resumed x0) (resumed x1).
Proof.
  intros Hr. unfold brkpnt_restore. change slots with 2%nat. destruct (restore_step s x0 x1 0 1 Hr (or_introl eq_refl)) as (s1 & E1 & R1). change (0 + 1) with 1 in E1.
  destruct (restore_step s1 _ _ 1 0 R1 (or_intror eq_refl)) as (s2 & E2 & R2). exists s2. split; [by rewrite E1, E2|exact R2].
Qed.

(** A new descriptor in an empty slot. *)
Definition heap_adds (h h' : heap) (p : Z) : Prop := heap_ok h' /\ p <> 0 /\ ~ used h p /\ forall q, used h' q <-> used h q \/ q = p.
Lemma rep_add s x0 x1 id h' p b :
  rep s x0 x1 -> two id -> sel x0 x1 id = None -> heap_adds (b_heap s) h' p ->
  bk_id b = id -> bk_state b = BRKPNT_OFF -> 0 <= bk_addr b < 2 ^ 64 ->
  (bk_locstr b = 0 \/ used (b_heap s) (bk_locstr b) /\ bk_locstr b ∉ own x0 ++ own x1) ->
  rep (with_brks (<[Z.to_nat id := p]> (allbrks s)) (<[p := b]> (b_brks s)) (with_heap h' s)) (up0 x0 (Some (p, b)) id) (up1 x1 (Some (p, b)) id).
Proof.
  intros [Rp [H0 R0] [H1 R1] Rh Ru Rn] Hid Hs (Hh & Hp & Hnu & Hu) Hi Ho Ha Hl.
  assert (p ∉ own x0 ++ own x1) as Hpf by (intros Hin; by apply Hnu; eapply Forall_forall in Ru).
  assert (forall y q c, y = x0 \/ y = x1 -> y = Some (q, c) -> q <> p) as Hne.
  { intros y q c Hy E ->. apply Hpf. apply own_ptr in E. apply elem_of_app. destruct Hy as [-> | ->]; [by left|by right]. }
  assert (Forall (used h') (own x0 ++ own x1)) as Ru' by (eapply Forall_impl; [exact Ru|intros q Hq; apply Hu; by left]).
  assert (Forall (used h') (own (Some (p, b))) /\ NoDup (own (Some (p, b))) /\ forall q, q ∈ own (Some (p, b)) -> q ∉ own x0 ++ own x1) as (On & Od & Of).
  { cbn. destruct (Z.eqb_spec (bk_locstr b) 0) as [E|E].
    - split_and!; [repeat constructor; apply Hu; by right|apply NoDup_singleton|]. by intros q ->%list_elem_of_singleton.
    - destruct Hl as [?|[Hlu Hlf]]; [done|]. split_and!.
      + repeat constructor; apply Hu; [by right|by left].
      + apply NoDup_cons. split; [|apply NoDup_singleton]. intros ->%list_elem_of_singleton. done.
      + intros q [-> | ->%list_elem_of_singleton]%elem_of_cons; done. }
  destruct Hid; subst id; unfold sel in Hs; cbn in Hs; subst; unfold up0, up1; cbn [Z.eqb].
  - split; try done.
    + cbn. by rewrite Rp.
    + split; [by cbn; rewrite Ho|]. cbn. by rewrite lookup_insert_eq.
    + split; [done|]. destruct x1 as [[p1 b1]|]; [|done]. cbn. rewrite lookup_insert_ne; [done|]. symmetry. by eapply (Hne _ p1 b1); [right|].
    + change (Forall (used h') (own (Some (p, b)) ++ own x1)). apply Forall_app. by split.
    + apply NoDup_app. split_and!; [done| |done]. intros q Hq Hq2. by apply (Of q Hq).
  - split; try done.
    + cbn. by rewrite Rp.
    + split; [done|]. destruct x0 as [[p0 b0]|]; [|done]. cbn. rewrite lookup_insert_ne; [done|]. symmetry. by eapply (Hne _ p0 b0); [left|].
    + split; [by cbn; rewrite Ho|]. cbn. by rewrite lookup_insert_eq.
    + rewrite app_nil_r in Ru'. apply Forall_app. by split.
    + rewrite app_nil_r in *. apply NoDup_app. split_and!; [done| |done]. intros q Hq Hq2. by apply (Of q Hq2).
Qed.

Lemma add_full s x0 x1 addr locstr : rep s x0 x1 -> x0 <> None -> x1 <> None -> brkpnt_add addr locstr s = Ret (-1, s).
Proof.
  intros Hr H0 H1. unfold brkpnt_add, addr_can_brk. cbn [Z.eqb].
  rewrite (M_bind_run _ _ _ _ _ (find_slot_run s x0 x1 is_null (fun x => bool_decide (x = None)) Hr (fun x => is_null_run s x0 x1 x Hr))).
  by rewrite !bool_decide_eq_false_2.
Qed.
Lemma add_run s x0 x1 id addr locstr : rep s x0 x1 -> two id -> sel x0 x1 id = None -> (id = 1 -> x0 <> None) -> 0 <= addr < 2 ^ 64 ->
  (locstr = 0 \/ used (b_heap s) locstr /\ locstr ∉ own x0 ++ own x1) ->
  (brkpnt_add addr locstr s = Halt /\ short 1 (b_heap s)) \/
  exists s' p, brkpnt_add addr locstr s = Ret (id, s') /\ let b := mkBrk id BRKPNT_OFF 0 addr locstr in rep s' (up0 x0 (Some (p, b)) id) (up1 x1 (Some (p, b)) id).
Proof.
  intros Hr Hid Hs Hfst Ha Hl. unfold brkpnt_add, addr_can_brk. cbn [Z.eqb].
  assert (find_slot slots is_null 0 s = Ret (id, s)) as Hf.
  { rewrite (find_slot_run s x0 x1 is_null (fun x => bool_decide (x = None)) Hr) by (intros x Hx; by apply (is_null_run s x0 x1)).
    destruct Hid; subst; unfold sel in Hs; cbn in Hs; subst; [done|]. by rewrite (bool_decide_eq_false_2 (x0 = None)) by auto. }
  rewrite (M_bind_run _ _ _ _ _ Hf). assert ((id =? BRKPNT_MAX) = false) as -> by (by destruct Hid; subst).
  destruct (h_kalloc_spec (b_heap s) sizeof_brkpnt (r_heap _ _ _ Hr)) as [[Hh Hsh]|(p & h' & Eh & [Hok _] & Hp & Hnu & Hu)]; [done|left|right].
  { split; [|done]. unfold mbind, M_bind, on_heap, zoom. by rewrite Hh. }
  exists (with_brks (<[Z.to_nat id := p]> (allbrks s)) (<[p := mkBrk id BRKPNT_OFF 0 addr locstr]> (b_brks s)) (with_heap h' s)), p. split.
  - assert (on_heap (h_kalloc sizeof_brkpnt) s = Ret (p, with_heap h' s)) as E by (unfold on_heap, zoom; by rewrite Eh).
    rewrite (M_bind_run _ _ _ _ _ E). rewrite (proj2 (Z.eqb_neq p 0)) by done.
    set (s1 := with_brks (allbrks s) (<[p := mkBrk id BRKPNT_OFF 0 addr locstr]> (b_brks s)) (with_heap h' s)). mrun (eq_refl (Ret (tt, s1))).
    unfold brk_set_ptr, get, put, lift, mbind, M_bind. cbn [allbrks s1 with_brks with_heap]. rewrite wr_in; [done|]. rewrite (r_ptrs _ _ _ Hr). cbn. by destruct Hid; subst.
  - by apply rep_add.
Qed.

(** Freeing what a slot owns. *)
Lemma on_heap_run {A} (m : M heap A) (s : dbg) a h' : m (b_heap s) = Ret (a, h') -> on_heap m s = Ret (a, with_heap h' s).
Proof. intros E. unfold on_heap, zoom. by rewrite E. Qed.
Lemma on_heap_halt {A} (m : M heap A) (s : dbg) : m (b_heap s) = Halt -> on_heap m s = Halt.
Proof. intros E. unfold on_heap, zoom. by rewrite E. Qed.
Lemma bind_halt {S A B} (m : M S A) (k : A -> M S B) s : m s = Halt -> (m ≫= k) s = Halt.
Proof. intros E. unfold mbind, M_bind. by rewrite E. Qed.
Lemma free_loc (s : dbg) l : heap_ok (b_heap s) -> (l <> 0 -> used (b_heap s) l) ->
  let m := if negb (l =? 0) then on_heap (h_kfree l) else mret tt in
  (m s = Halt /\ short 1 (b_heap s)) \/ exists h', m s = Ret (tt, with_heap h' s) /\ (heap_ok h' /\ spends 1 (b_heap s) h') /\ forall q, used (b_heap s) q -> (l <> 0 -> q <> l) -> used h' q.
Proof.
  intros Hok Hl. cbv zeta. destruct (Z.eqb_spec l 0) as [E|E]; cbn [negb].
  - right. exists (b_heap s). split; [by destruct s|]. split; [|done]. split; [done|apply spends_refl].
  - destruct (h_kfree_spec (b_heap s) l Hok (Hl E)) as [[Hh Hsh]|(h' & Eh & Hok' & Hu)]; [left; split; [by apply on_heap_halt|done]|right].
    exists h'. split; [by apply on_heap_run|]. split; [done|]. intros q Hq Hne. apply Hu. auto.
Qed.
Lemma rep_del s x0 x1 id p b h' :
  rep s x0 x1 -> two id -> sel x0 x1 id = Some (p, b) -> bk_state b = BRKPNT_OFF ->
  heap_ok h' -> (forall q, used (b_heap s) q -> q ∉ own (Some (p, b)) -> used h' q) ->
  rep (with_brks (<[Z.to_nat id := 0]> (allbrks s)) (delete p (b_brks s)) (with_heap h' s)) (up0 x0 None id) (up1 x1 None id).
Proof.
  intros Hr Hid Hs Ho Hh Hu. pose proof (sel_ok s x0 x1 id Hr Hid) as [Hw _]. rewrite Hs in Hw. apply off_bit0 in Hw; [|done].
  destruct Hr as [Rp [H0 R0] [H1 R1] Rh Ru Rn]. pose proof Rn as (_ & Hd & _)%NoDup_app.
  destruct Hid; subst id; unfold sel in Hs; cbn in Hs; subst; unfold up0, up1; cbn [Z.eqb].
  - split; try done.
    + cbn. by rewrite Rp.
    + split; [done|]. destruct x1 as [[p1 b1]|]; [|done]. cbn. rewrite lookup_delete_ne; [done|]. intros ->. apply (Hd p1); left.
    + apply Forall_app in Ru as [_ Ru]. apply Forall_forall. intros q Hq. apply Hu; [by eapply Forall_forall in Ru|]. intros Hq2. by apply (Hd q).
    + by apply NoDup_app in Rn as (_ & _ & Rn).
  - split; try done.
    + cbn. by rewrite Rp.
    + split; [done|]. destruct x0 as [[p0 b0]|]; [|done]. cbn. rewrite lookup_delete_ne; [done|]. intros ->. apply (Hd p0); left.
    + cbn [own]. rewrite app_nil_r. apply Forall_app in Ru as [Ru _]. apply Forall_forall. intros q Hq. apply Hu; [by eapply Forall_forall in Ru|]. intros Hq2. by apply (Hd q).
    + cbn [own]. rewrite app_nil_r. by apply NoDup_app in Rn as (Rn & _ & _).
Qed.
Lemma del_run s x0 x1 id p b : rep s x0 x1 -> two id -> sel x0 x1 id = Some (p, b) ->
  (brkpnt_del id s = Halt /\ short 2 (b_heap s)) \/ exists s', brkpnt_del id s = Ret (0, s') /\ rep s' (up0 x0 None id) (up1 x1 None id).
Proof.
  intros Hr Hid Hs. unfold brkpnt_del. rewrite (M_bind_run _ _ _ _ _ (brk_ptr_run s x0 x1 id Hr Hid)). destruct (brk_get_run s x0 x1 id p b Hr Hid Hs) as [_ Hp]. rewrite Hs. cbn [ptr].
  rewrite (proj2 (Z.eqb_neq p 0)) by done.
  destruct (disable_run s x0 x1 id p b Hr Hid Hs) as (s1 & E1 & <- & R1). rewrite (M_bind_run _ _ _ _ _ E1). change (0 <? 0) with false. cbn beta iota.
  set (b1 := bk_with_state BRKPNT_OFF b) in *. set (y0 := up0 x0 (Some (p, b1)) id) in *. set (y1 := up1 x1 (Some (p, b1)) id) in *.
  assert (sel y0 y1 id = Some (p, b1)) as Hs1 by (subst y0 y1; by destruct Hid; subst). destruct (brk_get_run s1 y0 y1 id p b1 R1 Hid Hs1) as [Eg _]. rewrite (M_bind_run _ _ _ _ _ Eg).
  assert (Forall (used (b_heap s1)) (own (Some (p, b1))) /\ NoDup (own (Some (p, b1)))) as [Hu Hn].
  { pose proof (r_used _ _ _ R1) as Hu. pose proof (r_nodup _ _ _ R1) as Hn. apply Forall_app in Hu as [U0 U1]. apply NoDup_app in Hn as (N0 & _ & N1). rewrite <- Hs1. by destruct Hid; subst. }
  destruct (free_loc s1 (bk_locstr b1) (r_heap _ _ _ R1)) as [[Eh Hsh]|(h1 & Eh & [Hok1 Hsp] & Hu1)].
  { intros Hne. cbn in Hu. rewrite (proj2 (Z.eqb_neq _ 0)) in Hu by done. by apply Forall_cons in Hu as [_ (Hu & _)%Forall_cons]. }
  { left. split; [by apply bind_halt|by apply (short_le 1); [lia|]]. }
  rewrite (M_bind_run _ _ _ _ _ Eh).
  assert (used h1 p) as Hp1.
  { apply Hu1; [by apply Forall_cons in Hu as [? _]|]. intros Hl E. unfold own in Hn. rewrite (proj2 (Z.eqb_neq _ 0)) in Hn by done. apply NoDup_cons in Hn as [Hn _]. apply Hn. rewrite E. left. }
  destruct (h_kfree_spec h1 p Hok1 Hp1) as [[Ef Hsh]|(h2 & Ef & [Hok2 _] & Hu2)].
  { left. split; [|by apply (short_after 1 1 _ _ Hsp)]. apply bind_halt. unfold brk_drop. by apply bind_halt, on_heap_halt. }
  right. exists (with_brks (<[Z.to_nat id := 0]> (allbrks s1)) (delete p (b_brks s1)) (with_heap h2 s1)). split.
  - assert (brk_drop p (with_heap h1 s1) = Ret (tt, with_brks (allbrks s1) (delete p (b_brks s1)) (with_heap h2 s1))) as Ed.
    { unfold brk_drop. by rewrite (M_bind_run _ _ _ _ _ (on_heap_run (h_kfree p) (with_heap h1 s1) tt h2 Ef)). }
    rewrite (M_bind_run _ _ _ _ _ Ed). unfold brk_set_ptr, get, put, lift, mbind, M_bind. cbn [allbrks with_brks with_heap].
    rewrite wr_in; [done|]. rewrite (r_ptrs _ _ _ R1). cbn. by destruct Hid; subst.
  - assert (rep (with_brks (<[Z.to_nat id := 0]> (allbrks s1)) (delete p (b_brks s1)) (with_heap h2 s1)) (up0 y0 None id) (up1 y1 None id)) as R2.
    { eapply (rep_del s1 y0 y1 id p b1 h2 R1 Hid Hs1); [done|done|]. intros q Hq Hnq. apply Hu2. split; [|intros ->; apply Hnq; left].
      apply Hu1; [done|]. intros Hl ->. apply Hnq. unfold own. rewrite (proj2 (Z.eqb_neq _ 0)) by done. right; left. }
    subst y0 y1. by destruct Hid; subst.
Qed.

(** *** What the hardware does *)
Definition armed (pc : Z) (v : view) : Prop := exists hit, v = Some (pc, BRKPNT_ON, hit).
Lemma hw_is_stops d id x pc : hw_is d id (snd <$> x) -> (Z.land (dreg d (bcr_ id)) ENABLE_BITS = ENABLE_BITS /\ dreg d (bvr_ id) = pc) <-> armed pc (view_of x).
Proof.
  intros Hh. unfold armed. destruct x as [[p [i st hit a l]]|]; cbn in *.
  - destruct st; cbn in *.
    + split; [|naive_solver]. intros [E%enabled_bit0 _]. cbn in E. congruence.
    + destruct Hh as [<- E]. naive_solver.
    + destruct Hh as [<- E]. split; [|naive_solver]. intros [E2 _]. rewrite E in E2. discriminate.
  - split; [|naive_solver]. intros [E%enabled_bit0 _]. cbn in E. congruence.
Qed.
Lemma rep_stops s x0 x1 pc : rep s x0 x1 -> monitoring (b_dev s) -> stops_at (b_dev s) pc <-> armed pc (view_of x0) \/ armed pc (view_of x1).
Proof.
  intros [_ [H0 _] [H1 _] _ _ _] [Hm Ht]. rewrite <- (hw_is_stops _ 0 x0 pc H0), <- (hw_is_stops _ 1 x1 pc H1). unfold stops_at. split.
  - intros (_ & id & Hid & H & _ & H'). assert (id = 0 \/ id = 1) as [-> | ->] by lia; auto.
  - intros [[H H']|[H H']]; (split; [done|]); [exists 0|exists 1]; (split; [lia|]); (split; [done|]); (split; [apply Ht; lia|done]).
Qed.

(** No operation changes what kind of breakpoints the registers are for. *)
Definition same_modes (d d' : mstate) : Prop :=
  dreg d' mdscr_el1 = dreg d mdscr_el1 /\ forall id, two id -> Z.land (dreg d' (bcr_ id)) TYPE_BITS = Z.land (dreg d (bcr_ id)) TYPE_BITS.
Lemma same_modes_monitoring d d' : same_modes d d' -> monitoring d' <-> monitoring d.
Proof.
  intros [Em Et]. unfold monitoring, two in *. rewrite Em. split; intros [Hm H]; (split; [done|]); intros id Hid; specialize (H id Hid); rewrite Et in *; (done || lia).
Qed.
Definition keeps_modes (s s' : dbg) : Prop := same_modes (b_dev s) (b_dev s').
#[local] Instance keeps_modes_pre : PreOrder keeps_modes.
Proof.
  split; [by intros s|]. intros x y z [E1 T1] [E2 T2]. split; [congruence|]. intros id Hid. by rewrite T2, T1.
Qed.
Lemma modes_modify f : (forall s, b_dev (f s) = b_dev s) -> stays keeps_modes (modify f).
Proof. intros H s a s' [= _ <-]. split; [by rewrite H|]. intros id _. by rewrite H. Qed.
Lemma type_and v : Z.land (Z.land v (u64 (Z.lnot 1))) TYPE_BITS = Z.land v TYPE_BITS.
Proof. by rewrite <- Z.land_assoc. Qed.
Lemma type_or v w : Z.land w TYPE_BITS = 0 -> Z.land (Z.lor v w) TYPE_BITS = Z.land v TYPE_BITS.
Proof. intros E. by rewrite Z.land_lor_distr_l, E, Z.lor_0_r. Qed.
Lemma bcr_two id (s : dbg) r s' : lift (bcr id) s = Ret (r, s') -> two id.
Proof. unfold lift, bcr, two. destruct (Z.eqb_spec id 0); [auto|]. destruct (Z.eqb_spec id 1); [auto|done]. Qed.
Lemma modes_rmw id f : (forall v, 0 <= v < 2 ^ 64 -> 0 <= f v < 2 ^ 64) -> (forall v, Z.land (f v) TYPE_BITS = Z.land v TYPE_BITS) ->
  stays keeps_modes (r ← lift (bcr id); val ← on_regs (read_sysreg r); on_regs (write_sysreg (f val) r)).
Proof.
  intros Hf Ht s a s' H. pose proof H as H0. apply M_bind_Ret in H0 as (r & s1 & Hid%bcr_two & _).
  destruct (hw_rmw_run s id f _ Hid Hf eq_refl) as (d' & E & [Hm Ho] & Hc & _). rewrite E in H. injection H as _ <-.
  split; [done|]. intros j Hj. destruct (decide (j = id)) as [->|Hne]; [cbn; by rewrite Hc|]. cbn. by rewrite (proj1 (Ho j Hj Hne)).
Qed.
Lemma modes_clear id : stays keeps_modes (hw_clear id).
Proof. apply (modes_rmw id (fun v => Z.land v (u64 (Z.lnot 1)))); [intros v Hv; by apply land_range|apply type_and]. Qed.
Lemma modes_set id : stays keeps_modes (hw_set id).
Proof. apply (modes_rmw id (fun v => Z.lor v 1)); [intros v Hv; by apply lor_range|intros v; by apply type_or]. Qed.
Lemma modes_enable id addr : 0 <= addr < 2 ^ 64 -> stays keeps_modes (hw_enable id addr).
Proof.
  intros Ha s a s' H. pose proof H as H0. apply M_bind_Ret in H0 as (r & s1 & Hid%bcr_two & _).
  destruct (hw_enable_run s id addr Hid Ha) as (d' & E & [Hm Ho] & Hc & _). rewrite E in H. injection H as _ <-.
  split; [done|]. intros j Hj. cbn. destruct (decide (j = id)) as [->|Hne]; [rewrite Hc; by apply type_or|]. by rewrite (proj1 (Ho j Hj Hne)).
Qed.
Lemma modes_heap {A} (m : M heap A) : stays keeps_modes (on_heap m).
Proof. apply (stays_zoom _ (fun _ _ => True)); [done|]. by intros s t _. Qed.
Lemma modes_brk_get a : stays keeps_modes (brk_get a).
Proof. intros s b s'. unfold brk_get. destruct (b_brks s !! a); [|done]. by intros [= _ <-]. Qed.
Lemma modes_brk_put a b : stays keeps_modes (brk_put a b).
Proof. by apply modes_modify. Qed.
Lemma modes_set_ptr id a : stays keeps_modes (brk_set_ptr id a).
Proof. intros s b s'. unfold brk_set_ptr. mstep. destruct (wr (allbrks s) id a); try done. by intros [= _ <-]. Qed.
Lemma modes_drop a : stays keeps_modes (brk_drop a).
Proof. apply stays_bind; [apply _|apply modes_heap|]. intros _. by apply modes_modify. Qed.
#[local] Hint Resolve modes_clear modes_set modes_enable modes_heap modes_brk_get modes_brk_put modes_set_ptr modes_drop : stay.
Lemma modes_brk_ptr id : stays keeps_modes (brk_ptr id).
Proof. unfold brk_ptr. auto 10 with stay typeclass_instances. Qed.
#[local] Hint Resolve modes_brk_ptr : stay.
Lemma modes_points_to f a : stays keeps_modes (points_to f a).
Proof. unfold points_to. auto 10 with stay typeclass_instances. Qed.
Lemma modes_is_null a : stays keeps_modes (is_null a).
Proof. unfold is_null. auto 10 with stay typeclass_instances. Qed.
#[local] Hint Resolve modes_points_to modes_is_null : stay.
Lemma modes_find test : (forall a, stays keeps_modes (test a)) -> forall n id, stays keeps_modes (find_slot n test id).
Proof. intros Ht n. induction n as [|n IH]; intros id; cbn [find_slot]; auto 10 with stay typeclass_instances. Qed.
#[local] Hint Resolve modes_find : stay.
(** [l] is a descriptor or a location string of a breakpoint. *)
Definition owned (s : dbg) (l : Z) : Prop := exists id p b, allbrks s !! id = Some p /\ b_brks s !! p = Some b /\ (l = p \/ l = bk_locstr b).
Lemma rep_owned s x0 x1 l : rep s x0 x1 -> ~ owned s l -> l ∉ own x0 ++ own x1.
Proof.
  intros [Rp [_ R0] [_ R1] _ _ _] Hn Hin. apply Hn. clear Hn. unfold owned. rewrite Rp. apply elem_of_app in Hin as [Hin|Hin].
  - destruct x0 as [[p b]|]; [|by apply elem_of_nil in Hin]. exists 0%nat, p, b. split; [done|]. split; [apply R0|]. cbn in Hin. destruct (bk_locstr b =? 0); set_solver.
  - destruct x1 as [[p b]|]; [|by apply elem_of_nil in Hin]. exists 1%nat, p, b. split; [done|]. split; [apply R1|]. cbn in Hin. destruct (bk_locstr b =? 0); set_solver.
Qed.

(** What a call must respect: 64-bit addresses, a location string that was
    allocated for this breakpoint, and a slot number for deleting. *)
Definition call_ok (s : dbg) (op : brk_op) (locstr : Z) : Prop :=
  match op with
  | OpAdd addr => 0 <= addr < 2 ^ 64 /\ (locstr = 0 \/ used (b_heap s) locstr /\ ~ owned s locstr)
  | OpDel id => 0 <= id < 2
  | _ => True
  end.
(** The requests to the heap: one when a breakpoint is added to a free slot, two
    when one is deleted. *)
Definition requests (op : brk_op) (bs : view * view) : nat :=
  match op with
  | OpAdd _ => match bs with (Some _, Some _) => 0 | _ => 1 end
  | OpDel id => match on_slot Some id bs with Some _ => 2 | None => 0 end
  | _ => 0
  end.

Lemma first_slot_found f g x0 x1 : (forall p b, g (Some (p, b)) = f (bk_addr b, bk_state b, bk_hit b)) -> g None = false ->
  first_slot f (view_of x0, view_of x1) = (if g x0 then Some 0 else if g x1 then Some 1 else None).
Proof. intros Hg Hn. unfold first_slot. destruct x0 as [[]|], x1 as [[]|]; cbn; rewrite ?Hg, ?Hn; done. Qed.

Definition goes (s : dbg) (op : brk_op) (locstr r : Z) (bs : view * view) : Prop := exists s', run_op op locstr s = Ret (r, s') /\ stands_for s' bs.

Lemma refine_add s x0 x1 addr locstr : rep s x0 x1 -> call_ok s (OpAdd addr) locstr ->
  match spec_op (OpAdd addr) (view_of x0, view_of x1) with
  | Some (r, bs) =>
      (run_op (OpAdd addr) locstr s = Halt /\ requests (OpAdd addr) (view_of x0, view_of x1) = 1%nat /\ short 1 (b_heap s)) \/ goes s (OpAdd addr) locstr r bs
  | None => False
  end.
Proof.
  intros Hr [Ha Hl]. assert (locstr = 0 \/ used (b_heap s) locstr /\ locstr ∉ own x0 ++ own x1) as Hl' by (destruct Hl as [?|[? ?]]; [by left|right; split; [done|by eapply rep_owned]]).
  unfold goes. cbn [run_op]. destruct x0 as [[p0 b0]|]; cbn [spec_op view_of fmap option_fmap option_map].
  - destruct x1 as [[p1 b1]|]; cbn.
    + right. exists s. split; [by eapply add_full|]. by exists (Some (p0, b0)), (Some (p1, b1)).
    + destruct (add_run s (Some (p0, b0)) None 1 addr locstr Hr) as [[Hh Hsh]|(s' & p & E & R)]; [by right|done|done|done|done|by left|right].
      exists s'. split; [done|]. eexists _, _. split; [exact R|done].
  - destruct (add_run s None x1 0 addr locstr Hr) as [[Hh Hsh]|(s' & p & E & R)]; [by left|done|done|done|done|by left|right].
    exists s'. split; [done|]. eexists _, _. split; [exact R|done].
Qed.

Lemma refine_switch s x0 x1 id st (m : Z -> M dbg Z) op : rep s x0 x1 ->
  (forall locstr, run_op op locstr = m id) -> (forall bs, spec_op op bs = pair 0 <$> on_slot (set_state st) id bs) ->
  (forall p b, two id -> sel x0 x1 id = Some (p, b) -> exists s', m id s = Ret (0, s') /\ rep s' (up0 x0 (Some (p, bk_with_state st b)) id) (up1 x1 (Some (p, bk_with_state st b)) id)) ->
  (~ two id \/ sel x0 x1 id = None -> m id s = Halt) ->
  forall locstr, match spec_op op (view_of x0, view_of x1) with Some (r, bs) => goes s op locstr r bs | None => run_op op locstr s = Halt end.
Proof.
  intros Hr Hrun Hspec Hok Hbad locstr. rewrite Hspec, Hrun. destruct (on_slot (set_state st) id (view_of x0, view_of x1)) as [bs|] eqn:E; cbn.
  - destruct (two_dec id) as [Hid|Hid]; [|by rewrite (proj2 (on_slot_none _ _ _ _)) in E by (by left)].
    destruct (sel x0 x1 id) as [[p b]|] eqn:Es; [|by rewrite (proj2 (on_slot_none _ _ _ _)) in E by (by right)].
    destruct (Hok p b Hid eq_refl) as (s' & Em & R). exists s'. rewrite Hrun. split; [done|]. eexists _, _. split; [exact R|].
    rewrite (on_slot_up _ x0 x1 id p b (bk_with_state st b) Hid Es eq_refl) in E. by injection E as <-.
  - apply Hbad. by apply on_slot_none in E.
Qed.
Lemma guard_halt s x0 x1 id (k : Z -> M dbg Z) : rep s x0 x1 -> ~ two id \/ sel x0 x1 id = None ->
  (assertM ((0 <=? id) && (id <? BRKPNT_MAX));; a ← brk_ptr id; assertM (negb (a =? 0));; k a) s = Halt.
Proof. intros Hr Hb. rewrite (guarded s x0 x1 id _ Hr). destruct (two_dec id); [|done]. destruct Hb as [?| ->]; done. Qed.

Lemma refine_del s x0 x1 id : rep s x0 x1 -> 0 <= id < 2 ->
  match spec_op (OpDel id) (view_of x0, view_of x1) with
  | Some (r, bs) =>
      (run_op (OpDel id) 0 s = Halt /\ requests (OpDel id) (view_of x0, view_of x1) = 2%nat /\ short 2 (b_heap s)) \/ goes s (OpDel id) 0 r bs
  | None => False
  end.
Proof.
  intros Hr Hi. assert (two id) as Hid by (unfold two; lia). unfold goes. cbn [spec_op run_op].
  destruct (sel x0 x1 id) as [[p b]|] eqn:Es.
  - assert (on_slot (fun _ => None) id (view_of x0, view_of x1) = Some (view_of (up0 x0 None id), view_of (up1 x1 None id))) as ->.
    { destruct Hid; subst; unfold sel in Es; cbn in Es; by subst. }
    destruct (del_run s x0 x1 id p b Hr Hid Es) as [[? ?]|(s' & E & R)]; [left|right].
    { split; [done|]. split; [|done]. cbn [requests]. destruct (on_slot Some id _) eqn:Eo; [done|]. apply on_slot_none in Eo. naive_solver congruence. }
    exists s'. split; [done|]. eexists _, _. by split; [exact R|].
  - rewrite (proj2 (on_slot_none _ _ _ _)) by (by right). right. exists s. split; [|by exists x0, x1].
    unfold brkpnt_del. rewrite (M_bind_run _ _ _ _ _ (brk_ptr_run s x0 x1 id Hr Hid)). by rewrite Es.
Qed.

Lemma refine_suspend s x0 x1 pc : rep s x0 x1 ->
  match spec_op (OpSuspend pc) (view_of x0, view_of x1) with Some (r, bs) => goes s (OpSuspend pc) 0 r bs | None => run_op (OpSuspend pc) 0 s = Halt end.
Proof.
  intros Hr. cbn [spec_op]. unfold goes. cbn [run_op]. set (f := fun b => (bk_addr b =? pc) && bool_decide (bk_state b = BRKPNT_ON)). set (t := from_option (fun y : Z * brkpnt => f y.2) false).
  pose proof (find_slot_run s x0 x1 (points_to f) t Hr (fun x => points_to_run s x0 x1 f x Hr)) as Hf.
  rewrite (first_slot_found _ t) by done. destruct (found x0 x1 t eq_refl) as [(Ei & E0 & E1)|(Hid & Hmax & p & b & Hs & Hb)].
  - rewrite E0, E1 in *. exists s. split; [|by exists x0, x1]. erewrite M_bind_run; [reflexivity|]. unfold brkpnt_suspend. fold f. by rewrite (M_bind_run _ _ _ _ _ Hf).
  - assert ((if t x0 then Some 0 else if t x1 then Some 1 else None) = Some (if t x0 then 0 else if t x1 then 1 else 2)) as -> by (destruct (t x0), (t x1); done).
    set (id := if t x0 then 0 else if t x1 then 1 else 2) in *. assert ((if id =? 0 then view_of x0 else view_of x1) = Some (bk_addr b, bk_state b, bk_hit b)) as Ev.
    { transitivity (view_of (sel x0 x1 id)); [unfold sel; by destruct (id =? 0)|by rewrite Hs]. }
    cbn in Hb. apply andb_true_iff in Hb as [_ Hon%bool_decide_eq_true]. cbv beta iota. cbn [fst snd]. unfold view in *. rewrite Ev. cbn.
    pose proof (suspend_run s x0 x1 id p b pc Hr Hid Hs Hon Hf) as Hsus. destruct (0 <? bk_hit b).
    + destruct Hsus as (s' & E & R). rewrite (on_slot_up _ x0 x1 id p b (bk_with_state BRKPNT_SUSPEND_SS b) Hid Hs eq_refl). cbn.
      exists s'. split; [by rewrite (M_bind_run _ _ _ _ _ E)|]. eexists _, _. by split; [exact R|].
    + by apply bind_halt.
Qed.

Lemma refine_hit s x0 x1 pc : rep s x0 x1 ->
  match spec_op (OpHit pc) (view_of x0, view_of x1) with Some (r, bs) => goes s (OpHit pc) 0 r bs | None => run_op (OpHit pc) 0 s = Halt end.
Proof.
  intros Hr. cbn [spec_op]. unfold goes. cbn [run_op]. set (f := fun b => bk_addr b =? pc). set (t := from_option (fun y : Z * brkpnt => f y.2) false).
  pose proof (find_slot_run s x0 x1 (points_to f) t Hr (fun x => points_to_run s x0 x1 f x Hr)) as Hf.
  rewrite (first_slot_found _ t) by done. destruct (found x0 x1 t eq_refl) as [(Ei & E0 & E1)|(Hid & Hmax & p & b & Hs & Hb)].
  - rewrite E0, E1 in *. cbn. apply bind_halt. unfold brkpnt_hit_handler. fold f. by rewrite (M_bind_run _ _ _ _ _ Hf).
  - assert ((if t x0 then Some 0 else if t x1 then Some 1 else None) = Some (if t x0 then 0 else if t x1 then 1 else 2)) as -> by (destruct (t x0), (t x1); done).
    set (id := if t x0 then 0 else if t x1 then 1 else 2) in *. cbn [mbind option_bind].
    destruct (hit_run s x0 x1 id p b pc Hr Hid Hs Hf) as (s' & E & R).
    rewrite (on_slot_up _ x0 x1 id p b (mkBrk (bk_id b) (bk_state b) (s32 (bk_hit b + 1)) (bk_addr b) (bk_locstr b)) Hid Hs eq_refl). cbn.
    exists s'. split; [by rewrite (M_bind_run _ _ _ _ _ E)|]. eexists _, _. by split; [exact R|].
Qed.

Lemma modes_disable id : stays keeps_modes (brkpnt_disable id).
Proof. unfold brkpnt_disable, assertM. repeat (apply stays_bind; [apply _|auto with stay typeclass_instances|intros ?]). case_decide; auto 10 with stay typeclass_instances. Qed.
#[local] Hint Resolve modes_disable : stay.
Lemma modes_restore n : forall id, stays keeps_modes (restore_from n id).
Proof.
  induction n as [|n IH]; intros id; cbn [restore_from]; [auto with stay typeclass_instances|].
  apply stays_bind; [apply _|auto with stay|intros a]. apply stays_bind; [apply _| |auto]. apply stays_if; [auto with stay typeclass_instances|].
  apply stays_bind; [apply _|auto with stay|intros b]. case_decide; auto 10 with stay typeclass_instances.
Qed.
(** Only enabling writes an address, the one of the descriptor. *)
Lemma modes_op s x0 x1 op locstr r s' : rep s x0 x1 -> run_op op locstr s = Ret (r, s') -> keeps_modes s s'.
Proof.
  intros Hr H. destruct op as [addr|id|id|id|pc| |pc]; cbn [run_op] in H; revert H.
  - apply (stays_if keeps_modes); unfold brkpnt_add; auto 15 with stay typeclass_instances.
  - intros H. unfold brkpnt_enable in H. rewrite (guarded s x0 x1 id _ Hr) in H. destruct (two_dec id) as [Hid|]; [|done].
    destruct (sel x0 x1 id) as [[p b]|] eqn:Hs; [|done]. pose proof (sel_ok s x0 x1 id Hr Hid) as [_ Hb]. rewrite Hs in Hb. destruct Hb as (_ & Hbk & _ & Hba).
    destruct (brk_get_run s x0 x1 id p b Hr Hid Hs) as [Eg _]. rewrite (M_bind_run _ _ _ _ _ Eg) in H. revert H. case_decide; [by intros [= _ <-]|].
    apply (stays_bind keeps_modes); auto 10 with stay typeclass_instances.
  - apply modes_disable.
  - apply (stays_bind keeps_modes); auto 20 with stay typeclass_instances.
  - apply (stays_bind keeps_modes); unfold brkpnt_suspend, assertM; auto 20 with stay typeclass_instances.
  - apply (stays_bind keeps_modes); [apply modes_restore|]. auto with stay typeclass_instances.
  - apply (stays_bind keeps_modes); unfold brkpnt_hit_handler, assertM; auto 20 with stay typeclass_instances.
Qed.

Lemma run_op_loc op l : (forall addr, op <> OpAdd addr) -> run_op op l = run_op op 0.
Proof. destruct op; naive_solver. Qed.
End Refine.

(** ** The theorems *)


(** A machine of plain registers, the heap of Heap.v. *)
Module BrkDemo.
Definition machine : Machine := {|
  mstate := sysreg -> Z;
  mmio_read := fun _ _ d => (0, d);
  mmio_write := fun _ _ _ d => d;
  sys_read := fun r d => (d r mod 2 ^ 64, d);
  sys_write := fun r v d r' => if decide (r' = r) then v else d r' |}.
#[global] Instance regs : @DebugRegs machine.
Proof.
  refine (@Build_DebugRegs machine (fun d r => d r mod 2 ^ 64) _ _ _); cbn.
  - intros d r. apply Z.mod_pos_bound. lia.
  - done.
  - intros d r v r' _ _ Hv. case_decide; [by apply Z.mod_small|done].
Defined.
Definition kh : KHeap := kmem_heap demo_root_pool demo_cache_pool.
(** After start-up: no breakpoint, one saved context. *)
Definition boot : @dbg machine kh :=
  @mkDbg machine kh (fun _ => 0) demo_slabs [0; 0] ∅ [0] ∅ (mkStep 0 STEP_ASM 0) 0x1000 {[0x1000 := econtext0]}.
Lemma boot_stands : stands_for boot (None, None).
Proof. exists None, None. split; [|reflexivity]. constructor; [reflexivity|split; [reflexivity|exact I]|split; [reflexivity|exact I]|exact kmem_demo_ok|apply Forall_nil_2|apply NoDup_nil_2]. Qed.
End BrkDemo.


(** Two breakpoints at one address, the first one off: the hit is counted on
    the first, and suspending the one that is on fails its assertion. *)
Theorem duplicate_breakpoint_panics (pc : Z) :
  match spec_op (OpHit pc) (Some (pc, BRKPNT_OFF, 0), Some (pc, BRKPNT_ON, 0)) with
  | Some (_, bs) => spec_op (OpSuspend pc) bs = None
  | None => False
  end.
Proof. cbn. unfold first_slot. cbn. rewrite Z.eqb_refl. cbn. unfold first_slot. cbn. rewrite Z.eqb_refl. done. Qed.

(** ** Single steps *)
Section Steps.
Context `{MA : Machine} `{KH : KHeap}.
(** The step exceptions at the addresses [pcs]. *)
Fixpoint step_all (pcs : list Z) : M dbg (list step_action) :=
  match pcs with [] => mret [] | pc :: pcs' => a ← step_handler pc; l ← step_all pcs'; mret (a :: l) end.

Lemma step_handler_asm (s : dbg) pc n a : curstep s = mkStep n STEP_ASM a -> 1 <= n < 2 ^ 31 ->
  step_handler pc s = Ret (if n =? 1 then STEP_EXIT else STEP_MORE, with_step (mkStep (n - 1) STEP_ASM a) s).
Proof.
  intros E Hn. unfold step_handler, get. unfold mbind at 1, M_bind at 1. rewrite E. cbn [st_grains st_count st_startaddr]. rewrite s32_small by lia.
  unfold put. unfold mbind at 1, M_bind at 1. destruct (Z.eqb_spec (n - 1) 0), (Z.eqb_spec n 1); try lia; [done|].
  unfold assertM, assert_, lift, mbind, M_bind. by rewrite (proj2 (Z.ltb_lt 0 (n - 1))) by lia.
Qed.
Lemma step_all_asm pcs pc (s : dbg) a : curstep s = mkStep (Z.of_nat (S (length pcs))) STEP_ASM a -> Z.of_nat (S (length pcs)) < 2 ^ 31 ->
  step_all (pcs ++ [pc]) s = Ret (replicate (length pcs) STEP_MORE ++ [STEP_EXIT], with_step (mkStep 0 STEP_ASM a) s).
Proof.
  revert s. induction pcs as [|p pcs IH]; intros s E Hn; cbn [step_all app length replicate] in *.
  - by mrun (step_handler_asm s pc 1 a E ltac:(lia)).
  - mrun (step_handler_asm s p (Z.of_nat (S (S (length pcs)))) a E ltac:(lia)). rewrite (proj2 (Z.eqb_neq _ 1)) by lia.
    erewrite M_bind_run; [|apply IH; [cbn; f_equal; lia|lia]]. done.
Qed.
End Steps.

(** The single-step command runs the asked number of instructions: step_asm
    arms the step bit of the debug control register and of the saved program
    state, and of the following step exceptions all but the [n]-th continue
    stepping and the [n]-th leaves it. *)
Theorem step_asm_counts `{DR : DebugRegs} `{KH : KHeap} (s : dbg) (e : econtext) (pcs : list Z) (pc : Z)
    (He : b_ectx s !! cur_ectx s = Some e) (Hn : Z.of_nat (S (length pcs)) < 2 ^ 31) :
  exists s', step_asm (Z.of_nat (S (length pcs))) s = Ret (0, s') /\
    Z.testbit (dreg (b_dev s') mdscr_el1) 0 = true /\
    (exists e', b_ectx s' !! cur_ectx s' = Some e' /\ Z.testbit (e_spsr e') 21 = true /\ e_elr e' = e_elr e) /\
    exists s'', step_all (pcs ++ [pc]) s' = Ret (replicate (length pcs) STEP_MORE ++ [STEP_EXIT], s'').
Proof.
  set (n := Z.of_nat (S (length pcs))) in *. set (v := Z.lor (dreg (b_dev s) mdscr_el1) MDSCR_SS).
  assert (0 <= v < 2 ^ 64) as Hv by (apply lor_range; [apply dreg_range|done]).
  set (s1 := with_step (mkStep n STEP_ASM (e_elr e)) s). set (s2 := with_regs (sys_write mdscr_el1 v (b_dev s1)) s1).
  set (e' := mkEctx (e_esr e) (e_far e) (e_sp e) (e_sp0 e) (e_elr e) (Z.lor (e_spsr e) SPSR_SS) (e_gp_regs e)).
  set (s3 := with_ectx (<[cur_ectx s := e']> (b_ectx s)) s2). exists s3. split_and!.
  - unfold step_asm, assertM, assert_. rewrite (proj2 (Z.ltb_lt 0 n)) by lia. mrun (eq_refl (Ret (tt, s))).
    assert (forall t, b_ectx t = b_ectx s -> cur_ectx t = cur_ectx s -> ectx_get t = Ret (e, t)) as Hget by (intros t E1 E2; unfold ectx_get, get, mbind, M_bind; by rewrite E1, E2, He).
    mrun (Hget s eq_refl eq_refl). mrun (eq_refl (Ret (tt, s1))). mrun (read_dreg s1 mdscr_el1 eq_refl). mrun (write_dreg s1 mdscr_el1 v Hv).
    mrun (Hget s2 eq_refl eq_refl). mrun (eq_refl (Ret (tt, s3))). done.
  - cbn -[Z.testbit]. rewrite dreg_write by done. rewrite decide_True by done. unfold v. rewrite Z.lor_spec. apply orb_true_r.
  - exists e'. split; [cbn; by rewrite lookup_insert_eq|]. split; [|done]. cbn -[Z.testbit]. rewrite Z.lor_spec. apply orb_true_r.
  - eexists. apply (step_all_asm pcs pc s3 (e_elr e)); [done|done].
Qed.
Lemma step_asm_counts_witness :
  exists s', @step_asm BrkDemo.machine BrkDemo.kh 3 BrkDemo.boot = Ret (0, s') /\
    exists s'', step_all [4; 8; 12] s' = Ret ([STEP_MORE; STEP_MORE; STEP_EXIT], s'').
Proof.
  destruct (@step_asm_counts BrkDemo.machine BrkDemo.regs BrkDemo.kh BrkDemo.boot econtext0 [4; 8] 12 eq_refl eq_refl) as (s' & E & _ & _ & F).
  exists s'. split; assumption.
Defined.
