(* ===== verification/Monitor.v ===== *)
(** * The kernel monitor (ukern/src/kmon/kmon.c, kmon/cmd.c, console.c)

    The command loop on top of the line editor, splitting a line into
    arguments inside the line buffer, the command table and the commands, and
    entering and leaving the monitor.  The lookups in the debug information are
    parameters.  Of the messages, the memory display and the error texts are
    modelled; the listings of breakpoints, slabs and stack frames and the log
    lines, which change no state, are left out. *)
From S2P Require Import Prelude Config CList Bitmap Page Slab SlabSpec Kmem Heap Spinlock Uaccess Kernel Strtol Print Readline Tracebuf Machine Breakpoint.

Definition MAXARGS : Z := 8.
Definition WHITESPACE : list Z := [32; 9; 10; 13].
(** [strchr] on a byte that is not the terminator. *)
Definition is_ws (c : Z) : bool := bool_decide (c ∈ WHITESPACE).

(** ** Splitting a line: arguments are offsets into it *)
Fixpoint skip_ws (fuel : nat) (line : list Z) (cmd : Z) : outcome (list Z * Z) :=
  match fuel with
  | O => Diverge
  | S fuel' =>
      c ← rd line cmd;
      if negb (c =? 0) && is_ws c then line ← wr line cmd 0; skip_ws fuel' line (cmd + 1) else Ret (line, cmd)
  end.
Fixpoint skip_word (fuel : nat) (line : list Z) (cmd : Z) : outcome Z :=
  match fuel with
  | O => Diverge
  | S fuel' => c ← rd line cmd; if negb (c =? 0) && negb (is_ws c) then skip_word fuel' line (cmd + 1) else Ret cmd
  end.
(** [None]: too many parameters. *)
Fixpoint parse_args (fuel : nat) (line : list Z) (cmd : Z) (argv : list Z) : outcome (list Z * option (list Z)) :=
  match fuel with
  | O => Diverge
  | S fuel' =>
      if MAXARGS - 1 <=? Z.of_nat (length argv) then Ret (line, None)
      else
        '(line, cmd) ← skip_ws (S (length line)) line cmd;
        c ← rd line cmd;
        if c =? 0 then Ret (line, Some argv)
        else
          e ← skip_word (S (length line)) line cmd;
          parse_args fuel' line e (argv ++ [cmd])
  end.
(** The string at an offset. *)
Definition arg (line : list Z) (off : Z) : list Z := drop (Z.to_nat off) line.

(** ** State *)
Record km_state := mkKm { returnable : bool; ftrace_disabled : bool; initok : bool; inside : bool }.
Inductive cmd_diag := KM_NOTFOUND | KM_BADGRANS | KM_BADRADIX | KM_BADCOUNT | KM_BADPARAM.
Definition diag_code (d : cmd_diag) : Z := match d with KM_NOTFOUND => 4 | KM_BADGRANS => 10 | KM_BADRADIX => 11 | KM_BADCOUNT => 12 | KM_BADPARAM => 13 end.
(** What a command ends with: a return value, or [load_ectx], which resumes
    the interrupted code. *)
Inductive cres := CRet (r : Z) | CResume.

Definition is_hexaddr (str : list Z) : bool :=
  match c_bytes str with c0 :: c1 :: _ :: _ => (c0 =? 48) && (c1 =? 120) | _ => false end.
Definition is_dbgsym (str : list Z) : bool := negb (is_hexaddr str).

Section Monitor.
Context `{MA : Machine} (root_pool cache_pool : Z) (stale_c : Z).
Context (func_loc : Z -> option (list Z * list Z)) (func_lineno : Z -> list Z -> option Z) (name2addr : list Z -> option Z).
#[local] Instance kh : KHeap := kmem_heap root_pool cache_pool.

Record mon := mkMon {
  m_rl : rl;                       (* line editor, console and the heap *)
  m_dbg : @dbg MA kh;              (* breakpoints and steps; its heap is that of [m_rl] *)
  m_state : km_state;
  functrace_disabled : bool; functrace_buf : tracebuf;
  m_mem : gmap Z Z }.
Abbreviation K := (M mon).
Definition with_rl (r : rl) (s : mon) : mon := mkMon r (m_dbg s) (m_state s) (functrace_disabled s) (functrace_buf s) (m_mem s).
Definition with_km (k : km_state) (s : mon) : mon := mkMon (m_rl s) (m_dbg s) k (functrace_disabled s) (functrace_buf s) (m_mem s).
Definition with_ftrace (b : bool) (s : mon) : mon := mkMon (m_rl s) (m_dbg s) (m_state s) b (functrace_buf s) (m_mem s).
Definition with_mem (m : gmap Z Z) (s : mon) : mon := mkMon (m_rl s) (m_dbg s) (m_state s) (functrace_disabled s) (functrace_buf s) m.
Definition on_rl {A} (m : M rl A) : K A := zoom m_rl with_rl m.
Definition on_dbg {A} (m : M dbg A) : K A :=
  zoom (fun s => with_heap (rl_heap (m_rl s)) (m_dbg s))
    (fun d s => mkMon (set_readlbuf (b_heap d) (init_ok (m_rl s)) (readlbuf (m_rl s)) (m_rl s)) d (m_state s) (functrace_disabled s) (functrace_buf s) (m_mem s)) m.
Definition on_kheap {A} (m : M (slab_state page_state) A) : K A :=
  on_rl (zoom rl_heap (fun h r => set_readlbuf h (init_ok r) (readlbuf r) r) m).
Definition mprintf (fmt : list Z) (ap : list va_slot) : K () := on_rl (fun r =>
  '(o, pb) ← printf (rl_pbuf r) fmt ap;
  Ret (tt, mkRl (rl_heap r) (init_ok r) (readlbuf r) (linestr r) (linerecord r) (record_windex r) (record_rindex r) (rl_in r) (rl_out r ++ o) pb)).

(** Loads and stores of the kernel at a virtual address. *)
Fixpoint ld (n : nat) (a : Z) (m : gmap Z Z) : outcome Z :=
  match n with O => Ret 0 | S n' => match m !! u64 a with None => Fault | Some b => v ← ld n' (a + 1) m; Ret (b + 256 * v) end end.
Fixpoint st (n : nat) (a v : Z) (m : gmap Z Z) : outcome (gmap Z Z) :=
  match n with O => Ret m | S n' => match m !! u64 a with None => Fault | Some _ => st n' (a + 1) (v / 256) (<[u64 a := v mod 256]> m) end end.

(** ** functrace.c: the switch *)
Definition functrace_enable : K () := modify (with_ftrace false).
Definition functrace_disable : K () := modify (with_ftrace true).
Definition functrace_is_disable : K bool := s ← get; mret (functrace_disabled s).
(** [s] is printed when the conversion gives text. *)
Definition print_functrace : K () :=
  s ← get;
  '(n, str) ← on_kheap (tracebuf_to_str (functrace_buf s));
  match str with
  | Some t => if 0 <? n then mprintf [70; 117; 110; 99; 116; 114; 97; 99; 101; 32; 82; 101; 115; 117; 108; 116; 58; 10; 37; 115; 0] [AStr t] else mret tt
  | None => mret tt
  end.

(** ** kmon.c: entering and leaving *)
Definition kmon_sync (ectx : Z) (ret : bool) : K () :=
  s ← get;
  let d := m_dbg s in
  put (mkMon (m_rl s)
         (@mkDbg MA kh (b_dev d) (b_heap d) (allbrks d) (b_brks d) (allwches d) (b_wchs d) (curstep d) ectx (b_ectx d))
         (mkKm ret (functrace_disabled s) (initok (m_state s)) (inside (m_state s))) (functrace_disabled s) (functrace_buf s) (m_mem s)).
Definition kmon_return : K Z :=
  s ← get;
  if negb (returnable (m_state s)) then mret (-1)
  else
    (if negb (ftrace_disabled (m_state s)) then functrace_enable else mret tt);;
    modify (fun s => with_km (mkKm (returnable (m_state s)) (ftrace_disabled (m_state s)) (initok (m_state s)) false) s);;
    mret 0.

(** ** cmd.c *)
Definition diag_text (d : cmd_diag) : list Z :=
  match d with
  | KM_NOTFOUND => [67; 111; 109; 109; 97; 110; 100; 32; 110; 111; 116; 32; 102; 111; 117; 110; 100]
  | KM_BADGRANS => [73; 108; 108; 101; 103; 97; 108; 32; 118; 97; 108; 117; 101; 32; 102; 111; 114; 32; 71; 82; 65; 78; 83]
  | KM_BADRADIX => [73; 108; 108; 101; 103; 97; 108; 32; 118; 97; 108; 117; 101; 32; 102; 111; 114; 32; 82; 65; 68; 73; 88]
  | KM_BADCOUNT => [73; 108; 108; 101; 103; 97; 108; 32; 118; 97; 108; 117; 101; 32; 102; 111; 114; 32; 67; 79; 85; 78; 84]
  | KM_BADPARAM => [73; 108; 108; 101; 103; 97; 108; 32; 112; 97; 114; 97; 109; 32; 102; 111; 114; 109; 97; 116; 32; 111; 114; 32; 99; 111; 117; 110; 116]
  end.
Definition cmdmsgs : list cmd_diag := [KM_NOTFOUND; KM_BADGRANS; KM_BADRADIX; KM_BADCOUNT; KM_BADPARAM].
Definition print_cmderror (diag : Z) : K () :=
  if diag =? 0 then mret tt
  else
    match find (fun d => diag_code d =? diag) cmdmsgs with
    | Some d => mprintf [100; 105; 97; 103; 58; 32; 37; 100; 58; 32; 37; 115; 10; 0] [ASlot diag; AStr (diag_text d)]
    | None => halt
    end.

Definition sprintf_at (lstr : list Z) (lidx : Z) (fmt : list Z) (ap : list va_slot) : outcome (list Z * Z) :=
  '(n, b) ← sprintf (drop (Z.to_nat lidx) lstr) fmt ap; Ret (take (Z.to_nat lidx) lstr ++ b, lidx + n).
Definition md_fmt (grans : Z) : list Z :=
  if grans =? 1 then [37; 48; 50; 120; 32; 0] else if grans =? 4 then [37; 48; 56; 120; 32; 0] else [37; 48; 49; 54; 108; 120; 32; 0].
Fixpoint md_line (n : nat) (m : gmap Z Z) (addr grans i : Z) (lstr : list Z) (lidx : Z) : outcome (list Z) :=
  match n with
  | O => Ret lstr
  | S n' =>
      v ← ld (Z.to_nat grans) (u64 (addr + i * grans)) m;
      '(lstr, lidx) ← sprintf_at lstr lidx (md_fmt grans) [ASlot v];
      md_line n' m addr grans (i + 1) lstr lidx
  end.
(** Every round displays at least one value: [count] rounds are enough. *)
Fixpoint md_lines (fuel : nat) (addr grans count : Z) : K () :=
  if count =? 0 then mret tt
  else
    match fuel with
    | O => diverge
    | S fuel' =>
        let lcount := if 16 / grans <=? count then 16 / grans else count in
        s ← get;
        '(lstr, lidx) ← lift (sprintf_at (replicate 128 0) 0 [37; 108; 120; 58; 32; 0] [ASlot addr]);
        lstr ← lift (md_line (Z.to_nat lcount) (m_mem s) addr grans 0 lstr lidx);
        mprintf [37; 115; 10; 0] [AStr (c_bytes lstr)];;
        md_lines fuel' (u64 (addr + 16)) grans (count - lcount)
    end.
(** [strchr] finds the terminator too. *)
Definition __exec_md (addr grans radix count : Z) : K Z :=
  if negb (bool_decide (u8 radix ∈ [100; 120; 111; 0])) then mret (diag_code KM_BADRADIX)
  else if negb (grans =? 1) && negb (grans =? 4) && negb (grans =? 8) then mret (diag_code KM_BADGRANS)
  else if (count <=? 0) || (32 <? count) then mret (diag_code KM_BADCOUNT)
  else md_lines (Z.to_nat count) (Z.land addr (u64 (Z.lnot (grans - 1)))) grans count;; mret 0.

(** A command gets the line with the terminated arguments in it, and the offsets. *)
Definition hexarg (line : list Z) (off : Z) : K Z := '(v, _) ← lift (strtoul (arg line off) 16); mret v.
Definition md_params (line : list Z) (argv : list Z) (go : Z -> Z -> Z -> Z -> K Z) : K Z :=
  a1 ← lift (rd argv 1);
  if negb (is_hexaddr (arg line a1)) then
    c0 ← lift (rd line a1);
    c1 ← lift (rd line (a1 + 1));
    '(n, _) ← lift (strtoul (arg line (a1 + 2)) 10);
    let grans := c0 - 48 in
    if negb (Z.of_nat (length argv) =? 3) then mret (diag_code KM_BADPARAM)
    else
      a2 ← lift (rd argv 2);
      if negb (is_hexaddr (arg line a2)) then mret (diag_code KM_BADPARAM)
      else addr ← hexarg line a2; go addr grans c1 (s32 n)
  else addr ← hexarg line a1; go addr 8 120 4.
Definition exec_md (line : list Z) (argv : list Z) : K Z :=
  if Z.of_nat (length argv) <=? 1 then mret 0 else md_params line argv __exec_md.
Definition exec_mdp (line : list Z) (argv : list Z) : K Z :=
  if Z.of_nat (length argv) <=? 1 then mret 0
  else md_params line argv (fun addr grans radix count =>
    mprintf [112; 97; 58; 37; 108; 120; 32; 61; 61; 62; 32; 118; 97; 58; 32; 37; 108; 120; 10; 0] [ASlot addr; ASlot (ptov addr)];;
    __exec_md (ptov addr) grans radix count).
Definition mm_store (n : nat) (line : list Z) (argv : list Z) : K Z :=
  if Z.of_nat (length argv) <=? 1 then mret 0
  else if negb (Z.of_nat (length argv) =? 3) then mret (diag_code KM_BADPARAM)
  else
    a1 ← lift (rd argv 1); a2 ← lift (rd argv 2);
    addr ← hexarg line a1; val ← hexarg line a2;
    s ← get;
    m ← lift (st n addr val (m_mem s));
    put (with_mem m s);; mret 0.
Definition exec_mm := mm_store 8.
Definition exec_mmB := mm_store 1.

Definition exec_ft (line : list Z) (argv : list Z) : K Z :=
  if Z.of_nat (length argv) =? 1 then print_functrace;; mret 0
  else
    a1 ← lift (rd argv 1);
    '(v, _) ← lift (strtol (arg line a1) 10);
    let enable := s32 v in
    if (2 <=? enable) || (enable <? 0) then mret (-1)
    else modify (fun s => with_km (mkKm (returnable (m_state s)) (enable =? 0) (initok (m_state s)) (inside (m_state s))) s);; mret 0.

Definition leave : K cres :=
  r ← kmon_return;
  if r <? 0 then mret (CRet 0) else mret CResume.
Definition exec_ss (line : list Z) (argv : list Z) : K cres :=
  count ← (if 1 <? Z.of_nat (length argv) then a1 ← lift (rd argv 1); '(v, _) ← lift (strtol (arg line a1) 10); mret (s32 v) else mret 1);
  if (count <? 1) || (100 <? count) then mret (CRet (-1))
  else
    e ← on_dbg ectx_get;
    on_dbg (brkpnt_suspend (e_elr e));;
    on_dbg (step_asm count);;
    leave.
Definition exec_go (line : list Z) (argv : list Z) : K cres := assertM (Z.of_nat (length argv) =? 1);; leave.

(** The location text goes into 128 bytes. *)
Definition location (addr : Z) : K Z :=
  match func_loc addr with
  | Some (funcname, filename) =>
      match func_lineno addr filename with
      | Some line =>
          p ← on_kheap (kalloc 128);
          if p =? 0 then fault
          else
            '(_, text) ← lift (sprintf (replicate 128 0) [37; 115; 40; 37; 115; 58; 37; 100; 41; 0] [AStr funcname; AStr filename; ASlot line]);
            assertM (Z.of_nat (length (c_bytes text)) <? 100);;
            mret p
      | None => mret 0
      end
  | None => mret 0
  end.
Definition exec_bp (line : list Z) (argv : list Z) : K Z :=
  if Z.of_nat (length argv) <=? 1 then mret 0
  else
    a1 ← lift (rd argv 1);
    let set (breakaddr : Z) : K Z :=
      loc ← location breakaddr;
      breakid ← on_dbg (brkpnt_add breakaddr loc);
      if breakid <? 0 then mret (-1) else on_dbg (brkpnt_enable breakid);; mret 0 in
    if is_dbgsym (arg line a1)
    then match name2addr (c_bytes (arg line a1)) with None => mret 0 | Some a => set a end
    else a ← hexarg line a1; set a.
(** Commands that only print, and those still empty. *)
Definition exec_no_param (line : list Z) (argv : list Z) : K Z := assertM (Z.of_nat (length argv) =? 1);; mret 0.
Definition exec_nothing (line : list Z) (argv : list Z) : K Z := mret 0.

Definition ret (m : list Z -> list Z -> K Z) (line : list Z) (argv : list Z) : K cres := r ← m line argv; mret (CRet r).
(** [allcmds], by name. *)
Definition allcmds : list (list Z * (list Z -> list Z -> K cres)) :=
  [ ([98; 112], ret exec_bp); ([98; 108], ret exec_nothing); ([98; 116], ret exec_no_param);
    ([109; 100], ret exec_md); ([109; 100; 112], ret exec_mdp); ([109; 109], ret exec_mm); ([109; 109; 66], ret exec_mmB);
    ([102; 116], ret exec_ft); ([104; 119; 116], ret exec_nothing); ([119; 104; 101; 114; 101], ret exec_nothing);
    ([115; 115], exec_ss); ([103; 111], exec_go); ([114; 101; 103; 115], ret exec_nothing); ([112; 114; 105; 110; 116], ret exec_nothing);
    ([115; 108; 97; 98], ret exec_no_param) ].
Definition runcmd (line : list Z) (argv : list Z) : K cres :=
  match argv with
  | [] => mret (CRet (-1))
  | a0 :: _ =>
      match find (fun c => bool_decide (c.1 = c_bytes (arg line a0))) allcmds with
      | Some (_, exec) =>
          r ← exec line argv;
          match r with
          | CResume => mret CResume
          | CRet cmdret =>
              if cmdret <? 0 then mret (CRet (-1))
              else if 0 <? cmdret then print_cmderror cmdret;; mret (CRet 0) else mret (CRet 0)
          end
      | None => print_cmderror (diag_code KM_NOTFOUND);; mret (CRet 0)
      end
  end.

(** The line is the editor's static buffer, changed in place. *)
Definition handlecmd : K cres :=
  s ← get;
  let line := linestr (m_rl s) in
  c ← lift (rd line 0);
  if c =? 0 then mret (CRet 0)
  else
    '(line, argv) ← lift (parse_args (S (length line)) line 0 []);
    on_rl (modify (set_linestr line));;
    match argv with
    | None => mret (CRet (-1))
    | Some argv =>
        r ← runcmd line argv;
        mret match r with CRet r => CRet (if r <? 0 then -1 else 0) | CResume => CResume end
    end.
(** [while (1)]; a round reads at least the key that ends its line, so the
    input bounds the rounds. *)
Fixpoint cmdloop (fuel : nat) : K cres :=
  match fuel with
  | O => diverge
  | S fuel' =>
      on_rl (readline cache_pool stale_c [62; 0]);;
      r ← handlecmd;
      match r with
      | CResume => mret CResume
      | CRet r => if r <? 0 then mret (CRet r) else cmdloop fuel'
      end
  end.
Definition kmon_main : K cres :=
  s ← get;
  if negb (initok (m_state s)) then mret (CRet 0)
  else if inside (m_state s) then mret (CRet 0)
  else
    functrace_disable;;
    modify (fun s => with_km (mkKm (returnable (m_state s)) (ftrace_disabled (m_state s)) (initok (m_state s)) true) s);;
    s ← get;
    cmdloop (S (length (rl_in (m_rl s)))).

(** ** console.c: control-C enters the monitor *)
Definition console_irq_handler (intid : Z) : K cres :=
  c ← on_rl console_getc;
  if c =? 3 then kmon_main else mret (CRet 0).
End Monitor.

(** ** Splitting: the reference *)

(** The words of a text: the longest runs without white space. *)
Fixpoint words_acc (cur t : list Z) : list (list Z) :=
  match t with
  | [] => match cur with [] => [] | _ => [cur] end
  | c :: t' => if is_ws c then match cur with [] => words_acc [] t' | _ => cur :: words_acc [] t' end else words_acc (cur ++ [c]) t'
  end.
Definition words : list Z -> list (list Z) := words_acc [].
(** Where they start, [prev] telling whether white space comes before. *)
Fixpoint starts (prev : bool) (i : Z) (t : list Z) : list Z :=
  match t with
  | [] => []
  | c :: t' => if is_ws c then starts true (i + 1) t' else (if prev then [i] else []) ++ starts false (i + 1) t'
  end.
Definition blank (c : Z) : Z := if is_ws c then 0 else c.
(** The bytes of a text: none is the terminator. *)
Definition text (t : list Z) : Prop := Forall (fun c => c <> 0) t.

Lemma starts_ge prev i t o : o ∈ starts prev i t -> i <= o.
Proof.
  revert prev i. induction t as [|c t IH]; intros prev i Ho; cbn in Ho; [by apply elem_of_nil in Ho|]. destruct (is_ws c).
  - apply IH in Ho. lia.
  - apply elem_of_app in Ho as [Ho|Ho]; [|apply IH in Ho; lia]. destruct prev; [|by apply elem_of_nil in Ho]. apply list_elem_of_singleton in Ho. lia.
Qed.
Lemma ws_not_0 : is_ws 0 = false.
Proof. done. Qed.

(** The strings at the starts, in the line with its blanks ended. *)
Definition str_at (b : Z) (l : list Z) (o : Z) : list Z := c_bytes (drop (Z.to_nat (o - b)) l).
Lemma str_at_shift prev b c l t : str_at b (c :: l) <$> starts prev (b + 1) t = str_at (b + 1) l <$> starts prev (b + 1) t.
Proof.
  apply list_fmap_ext. intros k o Ho%list_elem_of_lookup_2%starts_ge. unfold str_at. replace (Z.to_nat (o - b)) with (S (Z.to_nat (o - (b + 1)))) by lia. done.
Qed.
Lemma strings_are_words t junk : text t -> forall b,
  str_at b ((blank <$> t) ++ 0 :: junk) <$> starts true b t = words t /\
  forall cur, cur <> [] -> words_acc cur t = (cur ++ c_bytes ((blank <$> t) ++ 0 :: junk)) :: (str_at b ((blank <$> t) ++ 0 :: junk) <$> starts false b t).
Proof.
  unfold words. induction 1 as [|c t Hc Ht IH]; intros b.
  - split; [done|]. intros cur Hcur. cbn. rewrite app_nil_r. by destruct cur.
  - destruct (IH (b + 1)) as [IH1 IH2]. cbn [starts words_acc fmap list_fmap]. unfold blank at 1 3 4. rewrite <- !app_comm_cons.
    destruct (is_ws c) eqn:Ec; cbn [starts words_acc].
    + split; [by rewrite str_at_shift|]. intros cur Hcur. rewrite str_at_shift, IH1. cbn [c_bytes Z.eqb]. rewrite app_nil_r. by destruct cur.
    + split.
      * cbn [app]. rewrite fmap_cons, str_at_shift. unfold str_at at 1. rewrite Z.sub_diag. change (Z.to_nat 0) with 0%nat. cbn [drop c_bytes]. rewrite (proj2 (Z.eqb_neq c 0)) by done.
        rewrite IH2 by done. done.
      * intros cur Hcur. cbn [app]. rewrite str_at_shift. cbn [c_bytes]. rewrite (proj2 (Z.eqb_neq c 0)) by done. rewrite IH2 by (by destruct cur). by rewrite <- app_assoc.
Qed.

(** *** The loops *)
Lemma skip_ws_run ws : forall fuel pre c post, Forall (fun x => x <> 0 /\ is_ws x = true) ws -> (c = 0 \/ is_ws c = false) -> (length ws < fuel)%nat ->
  skip_ws fuel (pre ++ ws ++ c :: post) (Z.of_nat (length pre)) = Ret (pre ++ (blank <$> ws) ++ c :: post, Z.of_nat (length pre + length ws)).
Proof.
  induction ws as [|x ws IH]; intros fuel pre c post Hws Hc Hf; (destruct fuel as [|fuel]; [cbn in Hf; lia|]); cbn [skip_ws app fmap list_fmap].
  - rewrite (rd_lookup _ _ c); [|lia|rewrite Nat2Z.id; by apply list_lookup_middle]. cbn [mbind outcome_bind].
    assert (negb (c =? 0) && is_ws c = false) as -> by (destruct Hc as [-> | ->]; [done|apply andb_false_r]). by rewrite Nat.add_0_r.
  - apply Forall_cons in Hws as [[Hx Hw] Hws]. rewrite (rd_lookup _ _ x); [|lia|rewrite Nat2Z.id; by apply list_lookup_middle]. cbn [mbind outcome_bind].
    rewrite (proj2 (Z.eqb_neq x 0)), Hw by done. cbn [negb andb]. rewrite wr_app by done. cbn [mbind outcome_bind].
    specialize (IH fuel (pre ++ [0]) c post Hws Hc ltac:(cbn in Hf; lia)). rewrite <- !app_assoc in IH. cbn [app] in IH.
    replace (Z.of_nat (length (pre ++ [0]))) with (Z.of_nat (length pre) + 1) in IH by (rewrite length_app; cbn; lia). rewrite IH. assert (blank x = 0) as -> by (unfold blank; by rewrite Hw).
    f_equal. f_equal. rewrite length_app. cbn. lia.
Qed.
Lemma skip_word_run w : forall fuel pre c post, Forall (fun x => x <> 0 /\ is_ws x = false) w -> (c = 0 \/ is_ws c = true) -> (length w < fuel)%nat ->
  skip_word fuel (pre ++ w ++ c :: post) (Z.of_nat (length pre)) = Ret (Z.of_nat (length pre + length w)).
Proof.
  induction w as [|x w IH]; intros fuel pre c post Hws Hc Hf; (destruct fuel as [|fuel]; [cbn in Hf; lia|]); cbn [skip_word app].
  - rewrite (rd_lookup _ _ c); [|lia|rewrite Nat2Z.id; by apply list_lookup_middle]. cbn [mbind outcome_bind].
    assert (negb (c =? 0) && negb (is_ws c) = false) as -> by (destruct Hc as [-> | ->]; [done|apply andb_false_r]). by rewrite Nat.add_0_r.
  - apply Forall_cons in Hws as [[Hx Hw] Hws]. rewrite (rd_lookup _ _ x); [|lia|rewrite Nat2Z.id; by apply list_lookup_middle]. cbn [mbind outcome_bind].
    rewrite (proj2 (Z.eqb_neq x 0)), Hw by done. cbn [negb andb].
    specialize (IH fuel (pre ++ [x]) c post Hws Hc ltac:(cbn in Hf; lia)). rewrite <- !app_assoc in IH. cbn [app] in IH.
    replace (Z.of_nat (length (pre ++ [x]))) with (Z.of_nat (length pre) + 1) in IH by (rewrite length_app; cbn; lia). rewrite IH. f_equal. rewrite length_app. cbn. lia.
Qed.

(** A text is white space, a word and a rest that does not continue it. *)
Lemma span_ws v (t : list Z) : exists a r, t = a ++ r /\ Forall (fun x => is_ws x = v) a /\ (r = [] \/ exists c r', r = c :: r' /\ is_ws c = negb v).
Proof.
  induction t as [|c t (a & r & -> & Ha & Hr)]; [exists [], []; split_and!; [done|done|by left]|]. destruct (decide (is_ws c = v)) as [E|E].
  - exists (c :: a), r. split_and!; [done|by constructor|done].
  - exists [], (c :: a ++ r). split_and!; [done|done|]. right. eexists _, _. split; [done|]. by destruct (is_ws c), v.
Qed.
Lemma starts_blanks a prev i t : Forall (fun x => is_ws x = true) a -> a <> [] \/ prev = true -> starts prev i (a ++ t) = starts true (i + Z.of_nat (length a)) t.
Proof.
  intros Ha. revert prev i. induction Ha as [|x a Hx Ha IH]; intros prev i Hp; cbn [app length].
  - destruct Hp as [?| ->]; [done|]. f_equal. lia.
  - cbn [starts]. rewrite Hx, IH by (by right). f_equal. lia.
Qed.
Lemma starts_word w i t : Forall (fun x => is_ws x = false) w -> starts false i (w ++ t) = starts false (i + Z.of_nat (length w)) t.
Proof.
  intros Hw. revert i. induction Hw as [|x w Hx Hw IH]; intros i; cbn [app length]; [f_equal; lia|]. cbn [starts]. rewrite Hx. cbn [app]. rewrite IH. f_equal. lia.
Qed.
Lemma blank_id w : Forall (fun x => is_ws x = false) w -> blank <$> w = w.
Proof. induction 1 as [|x w Hx Hw IH]; [done|]. cbn. unfold blank at 1. by rewrite Hx, IH. Qed.

Lemma first_word t junk : text t ->
  Forall (fun x => x <> 0 /\ is_ws x = true) t \/
  exists a w t', t = a ++ w ++ t' /\ Forall (fun x => x <> 0 /\ is_ws x = true) a /\ Forall (fun x => x <> 0 /\ is_ws x = false) w /\ w <> [] /\ text t' /\
    (exists d post, t' ++ 0 :: junk = d :: post /\ (d = 0 \/ is_ws d = true)) /\
    forall i, starts true i t = (i + Z.of_nat (length a)) :: starts true (i + Z.of_nat (length a) + Z.of_nat (length w)) t'.
Proof.
  intros Ht. destruct (span_ws true t) as (a & r & -> & Ha & Hr). apply Forall_app in Ht as [Hta Htr].
  assert (Forall (fun x => x <> 0 /\ is_ws x = true) a) as Hat by (apply Forall_and; by split).
  destruct Hr as [-> | (c & r' & -> & Hc)]; [left; by rewrite app_nil_r|right]. cbn [negb] in Hc.
  destruct (span_ws false (c :: r')) as (w & t' & Ew & Hw & Ht'). destruct w as [|c0 w].
  { cbn in Ew. destruct Ht' as [-> | (d & t2 & -> & Hd)]; [done|]. injection Ew as <- _. cbn in Hd. congruence. }
  rewrite Ew in *. injection Ew as <- Ew. apply Forall_app in Htr as [Htw Htt].
  exists a, (c :: w), t'. split_and!; [done|done|apply Forall_and; by split|done|done| |].
  - destruct Ht' as [-> | (d & t2 & -> & Hd)]; eexists _, _; (split; [reflexivity|]); [by left|by right].
  - intros i. rewrite starts_blanks by (done || by right). cbn [app starts]. rewrite Hc. cbn [app]. f_equal. apply Forall_cons in Hw as [_ Hw]. rewrite starts_word by done.
    replace (i + Z.of_nat (length a) + 1 + Z.of_nat (length w)) with (i + Z.of_nat (length a) + Z.of_nat (length (c :: w))) by (cbn; lia).
    destruct Ht' as [-> | (d' & t2 & -> & Hd')]; [done|]. cbn [negb] in Hd'. cbn [starts]. by rewrite Hd'.
Qed.
Lemma blanks_no_start t i : Forall (fun x => x <> 0 /\ is_ws x = true) t -> starts true i t = [].
Proof. intros Ht. revert i. induction Ht as [|x t [_ Hx] Ht IH]; intros i; [done|]. cbn. by rewrite Hx. Qed.

Lemma parse_args_run n : forall t fuel pre junk argv, (length t <= n)%nat -> text t -> (length t < fuel)%nat ->
  let offs := starts true (Z.of_nat (length pre)) t in
  if 7 <=? Z.of_nat (length argv + length offs)
  then exists line', parse_args fuel (pre ++ t ++ 0 :: junk) (Z.of_nat (length pre)) argv = Ret (line', None) /\ length line' = length (pre ++ t ++ 0 :: junk)
  else parse_args fuel (pre ++ t ++ 0 :: junk) (Z.of_nat (length pre)) argv = Ret (pre ++ (blank <$> t) ++ 0 :: junk, Some (argv ++ offs)).
Proof.
  induction n as [n IH] using lt_wf_ind. intros t fuel pre junk argv Hn Ht Hf offs. destruct fuel as [|fuel]; [lia|]. cbn [parse_args]. unfold MAXARGS. change (8 - 1) with 7.
  destruct (Z.leb_spec 7 (Z.of_nat (length argv))) as [H7|H7].
  { rewrite (proj2 (Z.leb_le 7 _)) by lia. eexists. split; [reflexivity|done]. }
  subst offs. destruct (first_word t junk Ht) as [Hb|(a & w & t' & -> & Ha & Hw & Hwne & Htt & (d & post & Ed & Hd) & Hst)].
  - rewrite blanks_no_start by done. rewrite (skip_ws_run t (S _) pre 0 junk Hb) by (first [by left|rewrite !length_app; lia]). cbn [mbind outcome_bind].
    rewrite (rd_lookup _ _ 0); [|lia|].
    2: { rewrite Nat2Z.id, app_assoc. replace (length pre + length t)%nat with (length (pre ++ (blank <$> t))) by (by rewrite length_app, length_fmap). by apply list_lookup_middle. }
    cbn [mbind outcome_bind length]. rewrite (proj2 (Z.leb_gt 7 _)) by lia. by rewrite app_nil_r.
  - destruct w as [|c w]; [done|]. assert (c <> 0 /\ is_ws c = false) as [Hc0 Hc] by (by apply Forall_cons in Hw as [? _]).
    rewrite Hst. set (pre1 := pre ++ (blank <$> a)). set (pre2 := pre1 ++ c :: w).
    assert (length pre + length a = length pre1)%nat as E1 by (subst pre1; by rewrite length_app, length_fmap).
    assert (length pre1 + length (c :: w) = length pre2)%nat as E2 by (subst pre2; by rewrite length_app).
    replace (Z.of_nat (length pre) + Z.of_nat (length a)) with (Z.of_nat (length pre1)) by lia.
    replace (Z.of_nat (length pre1) + Z.of_nat (length (c :: w))) with (Z.of_nat (length pre2)) by lia.
    replace (pre ++ (a ++ (c :: w) ++ t') ++ 0 :: junk) with (pre ++ a ++ c :: w ++ t' ++ 0 :: junk) by (rewrite <- !app_assoc; reflexivity).
    rewrite (skip_ws_run a (S _) pre c _ Ha) by (first [by right|rewrite !length_app; lia]). cbn [mbind outcome_bind]. rewrite app_assoc. fold pre1. rewrite E1.
    rewrite (rd_lookup _ _ c); [|lia|rewrite Nat2Z.id; by apply list_lookup_middle]. cbn [mbind outcome_bind]. rewrite (proj2 (Z.eqb_neq c 0)) by done.
    change (pre1 ++ c :: w ++ t' ++ 0 :: junk) with (pre1 ++ (c :: w) ++ t' ++ 0 :: junk). rewrite Ed.
    rewrite (skip_word_run (c :: w) (S _) pre1 d post Hw Hd) by (rewrite !length_app; cbn; lia). cbn [mbind outcome_bind]. rewrite <- Ed, E2.
    replace (pre1 ++ (c :: w) ++ t' ++ 0 :: junk) with (pre2 ++ t' ++ 0 :: junk) by (subst pre2; by rewrite <- app_assoc).
    rewrite !length_app in Hn, Hf. cbn in Hn, Hf.
    specialize (IH (length t') ltac:(lia) t' fuel pre2 junk (argv ++ [Z.of_nat (length pre1)]) ltac:(lia) Htt ltac:(lia)). cbv zeta in IH.
    rewrite length_app in IH. cbn [length] in IH |- *. rewrite Nat.add_succ_r, <- Nat.add_succ_l. rewrite Nat.add_1_r in IH. destruct (7 <=? _).
    + destruct IH as (line' & E & Hl). exists line'. split; [done|]. rewrite Hl, !length_app, <- E2, <- E1. cbn. rewrite ?length_app. cbn. lia.
    + rewrite IH. f_equal. f_equal; [|by rewrite <- app_assoc]. rewrite !fmap_app, (blank_id (c :: w)) by (by eapply Forall_impl; [exact Hw|intros ? [_ ?]]).
      subst pre2 pre1. by rewrite <- !app_assoc.
Qed.

(** ** Loads and stores *)
Definition ends (b : nat) (a : Z) (m : gmap Z Z) : Prop := forall i, (i < b)%nat -> is_Some (m !! (a + Z.of_nat i)).
Lemma st_ld n : forall a v m, 0 <= a -> a + Z.of_nat n <= 2 ^ 64 -> ends n a m ->
  exists m', st n a v m = Ret m' /\ ld n a m' = Ret (v mod 256 ^ Z.of_nat n) /\ (forall b, b < a \/ a + Z.of_nat n <= b -> m' !! b = m !! b) /\ forall b, is_Some (m !! b) -> is_Some (m' !! b).
Proof.
  induction n as [|n IH]; intros a v m Ha Hn He.
  { exists m. split_and!; [done| |done|done]. cbn [ld]. f_equal. change (256 ^ Z.of_nat 0) with 1. by rewrite Z.mod_1_r. }
  cbn [st ld]. rewrite (u64_small a) by lia. destruct (He 0%nat ltac:(lia)) as (x & Hx). rewrite Z.add_0_r in Hx. rewrite Hx.
  destruct (IH (a + 1) (v / 256) (<[a := v mod 256]> m)) as (m' & E & L & F & D); [lia|lia| |].
  { intros i Hi. destruct (decide (a + 1 + Z.of_nat i = a)) as [->|]; [by rewrite lookup_insert_eq|]. rewrite lookup_insert_ne by done.
    replace (a + 1 + Z.of_nat i) with (a + Z.of_nat (S i)) by lia. apply He. lia. }
  exists m'. split; [done|]. rewrite F by lia. rewrite lookup_insert_eq, L. split_and!.
  - cbn [mbind outcome_bind]. f_equal. replace (Z.of_nat (S n)) with (1 + Z.of_nat n) by lia. rewrite Z.pow_add_r by lia. change (256 ^ 1) with 256.
    symmetry. apply Z.rem_mul_r; lia.
  - intros b Hb. rewrite F by lia. by rewrite lookup_insert_ne by lia.
  - intros b Hb. apply D. destruct (decide (b = a)) as [->|]; [by rewrite lookup_insert_eq|]. by rewrite lookup_insert_ne.
Qed.

Lemma c_bytes_ends (l post : list Z) : exists rest, l ++ 0 :: post = c_bytes (l ++ 0 :: post) ++ 0 :: rest.
Proof. induction l as [|c l (rest & IH)]; [by exists post|]. cbn. destruct (Z.eqb_spec c 0) as [->|]; [by exists (l ++ 0 :: post)|]. exists rest. by rewrite IH at 1. Qed.
Lemma starts_lt prev i t o : o ∈ starts prev i t -> i <= o < i + Z.of_nat (length t).
Proof.
  revert prev i. induction t as [|c t IH]; intros prev i Ho; cbn in Ho; [by apply elem_of_nil in Ho|]. cbn [length]. destruct (is_ws c).
  - apply IH in Ho. lia.
  - apply elem_of_app in Ho as [Ho|Ho]; [|apply IH in Ho; lia]. destruct prev; [|by apply elem_of_nil in Ho]. apply list_elem_of_singleton in Ho. lia.
Qed.

(** An argument is its word, terminated. *)
Definition args_are (line : list Z) (argv : list Z) (ws : list (list Z)) : Prop := Forall2 (fun o w => exists rest, arg line o = w ++ 0 :: rest /\ w = c_bytes (arg line o)) argv ws.
Lemma args_words t junk : text t -> args_are ((blank <$> t) ++ 0 :: junk) (starts true 0 t) (words t).
Proof.
  intros Ht. destruct (strings_are_words t junk Ht 0) as [<- _]. unfold args_are. apply Forall2_fmap_r. apply Forall_Forall2_diag, Forall_forall. intros o Ho%starts_lt.
  unfold compose, str_at. rewrite Z.sub_0_r. fold (arg ((blank <$> t) ++ 0 :: junk) o).
  assert (exists l', arg ((blank <$> t) ++ 0 :: junk) o = l' ++ 0 :: junk) as (l' & E).
  { unfold arg. exists (drop (Z.to_nat o) (blank <$> t)). rewrite drop_app_le; [done|]. rewrite length_fmap. lia. }
  rewrite E. destruct (c_bytes_ends l' junk) as (rest & E2). by exists rest.
Qed.

(** A hexadecimal numeral, with or without its prefix. *)
Definition hex_word (w : list Z) (v : Z) : Prop := exists p cs ds, w = p ++ cs /\ (p = [] \/ p = [48; 120]) /\ cs <> [] /\ spells 16 cs ds /\ value 16 ds = v /\ v < 2 ^ 64.
Lemma hex_word_parses w v rest : hex_word w v -> strtoul (w ++ 0 :: rest) 16 = Ret (v, 0 :: rest).
Proof.
  intros (p & cs & ds & -> & Hp & Hcs & Hs & Hv & Hlt).
  assert (numeral 16 p 16 cs 0) as Hn by (destruct Hp as [-> | ->]; [by apply num_plain|by apply num_hex; [right|]]).
  pose proof (strtoul_spec 16 [] None p 16 cs ds 0 rest (Forall_nil_2 _) Hn Hs I) as E. cbn [app sign_of] in E. rewrite <- app_assoc, E, Hv.
  unfold ULONG_MAX. by rewrite (proj2 (Z.leb_le v _)) by lia.
Qed.

(** ** Running a line *)
Section Lines.
Context `{MA : Machine} (root_pool cache_pool : Z).
Context (func_loc : Z -> option (list Z * list Z)) (func_lineno : Z -> list Z -> option Z) (name2addr : list Z -> option Z).
Abbreviation mon := (mon root_pool cache_pool).
Abbreviation runcmd := (runcmd root_pool cache_pool func_loc func_lineno name2addr).
Abbreviation handlecmd := (handlecmd root_pool cache_pool func_loc func_lineno name2addr).
Definition line_is (line : list Z) (s : mon) : mon := with_rl root_pool cache_pool (set_linestr line (m_rl root_pool cache_pool s)) s.
Definition cmd_result (r : cres) : cres := match r with CRet r => CRet (if r <? 0 then -1 else 0) | CResume => CResume end.

Lemma handlecmd_run (s : mon) t junk : linestr (m_rl _ _ s) = t ++ 0 :: junk -> text t -> t <> [] ->
  exists line', length line' = length (linestr (m_rl _ _ s)) /\
    if (length (words t) <=? 6)%nat
    then exists argv, args_are line' argv (words t) /\ handlecmd s = (r ← runcmd line' argv; mret (cmd_result r)) (line_is line' s)
    else handlecmd s = Ret (CRet (-1), line_is line' s).
Proof.
  intros Hl Ht Hne.
  assert (exists c, rd (t ++ 0 :: junk) 0 = Ret c /\ c <> 0) as (c & Hc & Hc0).
  { destruct t as [|c t]; [done|]. exists c. split; [done|]. by apply Forall_cons in Ht as [? _]. }
  assert (forall line' o, parse_args (S (length (t ++ 0 :: junk))) (t ++ 0 :: junk) 0 [] = Ret (line', o) ->
    handlecmd s = match o with None => Ret (CRet (-1), line_is line' s) | Some argv => (r ← runcmd line' argv; mret (cmd_result r)) (line_is line' s) end) as Hrun.
  { intros line' o E. unfold Monitor.handlecmd. mrun (eq_refl (Ret (s, s))). cbv zeta. rewrite Hl, Hc. mrun (eq_refl (Ret (c, s))). rewrite (proj2 (Z.eqb_neq c 0)) by done. rewrite E. by destruct o. }
  pose proof (parse_args_run (length t) t (S (length (t ++ 0 :: junk))) [] junk [] ltac:(lia) Ht ltac:(rewrite length_app; cbn; lia)) as Hp.
  cbv zeta in Hp. cbn [app length] in Hp. rewrite Nat.add_0_l in Hp. change (Z.of_nat 0) with 0 in Hp. pose proof (args_words t junk Ht) as Ha. pose proof (Forall2_length _ _ _ Ha) as Hlen. rewrite Hlen in Hp.
  destruct (Nat.leb_spec (length (words t)) 6) as [H6|H6].
  - rewrite (proj2 (Z.leb_gt 7 _)) in Hp by lia. exists ((blank <$> t) ++ 0 :: junk). split; [by rewrite Hl, !length_app, length_fmap|].
    exists (starts true 0 t). split; [done|]. exact (Hrun _ _ Hp).
  - rewrite (proj2 (Z.leb_le 7 _)) in Hp by lia. destruct Hp as (line' & Hp & Hll). exists line'. split; [by rewrite Hl|]. exact (Hrun _ _ Hp).
Qed.

Lemma hexarg_run (s : mon) line o w v rest : arg line o = w ++ 0 :: rest -> hex_word w v -> hexarg root_pool cache_pool line o s = Ret (v, s).
Proof. intros E Hw. unfold hexarg. rewrite E, (hex_word_parses w v rest Hw). done. Qed.

Lemma runcmd_mm (s : mon) line o0 o1 o2 wa wv a v : args_are line [o0; o1; o2] [[109; 109]; wa; wv] -> hex_word wa a -> hex_word wv v ->
  0 <= a -> a + 8 <= 2 ^ 64 -> ends 8 a (m_mem _ _ s) ->
  exists m', runcmd line [o0; o1; o2] s = Ret (CRet 0, with_mem root_pool cache_pool m' s) /\ ld 8 a m' = Ret (v mod 2 ^ 64) /\
    forall b, b < a \/ a + 8 <= b -> m' !! b = m_mem _ _ s !! b.
Proof.
  intros Hargs Ha Hv Hlo Hhi He. apply Forall2_cons in Hargs as [(r0 & _ & E0) Hargs]. apply Forall2_cons in Hargs as [(r1 & E1 & _) Hargs]. apply Forall2_cons in Hargs as [(r2 & E2 & _) _].
  destruct (st_ld 8 a v (m_mem _ _ s) Hlo Hhi He) as (m' & Hst & Hld & Hf & _). exists m'. split; [|split; [exact Hld|exact Hf]].
  unfold Monitor.runcmd. rewrite <- E0.
  assert (find (fun c => bool_decide (c.1 = [109; 109])) (allcmds root_pool cache_pool func_loc func_lineno name2addr) = Some ([109; 109], ret root_pool cache_pool (exec_mm root_pool cache_pool))) as -> by reflexivity.
  assert (exec_mm root_pool cache_pool line [o0; o1; o2] s = Ret (0, with_mem root_pool cache_pool m' s)) as Hmm.
  { unfold exec_mm, mm_store. change (Z.of_nat (length [o0; o1; o2])) with 3. change (3 <=? 1) with false. change (3 =? 3) with true. cbn [negb]. mrun (eq_refl (Ret (o1, s))). mrun (eq_refl (Ret (o2, s))). mrun (hexarg_run s line o1 wa a r1 E1 Ha). mrun (hexarg_run s line o2 wv v r2 E2 Hv).
    mrun (eq_refl (Ret (s, s))). rewrite Hst. reflexivity. }
  assert (ret root_pool cache_pool (exec_mm root_pool cache_pool) line [o0; o1; o2] s = Ret (CRet 0, with_mem root_pool cache_pool m' s)) as Hret by (unfold ret; by mrun Hmm).
  by mrun Hret.
Qed.
End Lines.

(** ** A monitor with "mm 0x10 fF" typed and eight bytes of memory *)
Module MonDemo.
Definition typed : list Z := [109; 109; 32; 32; 48; 120; 49; 48; 9; 102; 70].
Definition state (line : list Z) : mon (MA := BrkDemo.machine) demo_root_pool demo_cache_pool :=
  mkMon demo_root_pool demo_cache_pool (mkRl demo_slabs false None (line ++ 0 :: replicate 8 0) [] 0 0 [] [] [])
    BrkDemo.boot (mkKm true true true true) true (mkTb 0 0 [] 0 0 0 0 0) (list_to_map ((fun i => (i, 0)) <$> seqZ 16 8)).
Definition no_loc (_ : Z) : option (list Z * list Z) := None.
Definition no_line (_ : Z) (_ : list Z) : option Z := None.
Definition no_sym (_ : list Z) : option Z := None.
Lemma typed_text : text typed.
Proof. repeat constructor; discriminate. Qed.
Lemma mapped8 : ends 8 16 (m_mem _ _ (state typed)).
Proof. intros i Hi. do 8 (destruct i as [|i]; [by eexists|]). lia. Qed.
Lemma addr_word : hex_word [48; 120; 49; 48] 16.
Proof. exists [48; 120], [49; 48], [1; 0]. split_and!; [done|by right|done|repeat constructor|done|done]. Qed.
Lemma value_word : hex_word [102; 70] 255.
Proof. exists [], [102; 70], [15; 15]. split_and!; [done|by left|done|repeat constructor|done|done]. Qed.
End MonDemo.

(** ** The theorems *)

(** C22: A command line is split into its words: handlecmd runs the command on
    arguments that are exactly the longest runs of the line without white
    space, in order, each terminated in place.  A line of more than six words
    is refused with -1 and no command runs. *)
Theorem handlecmd_splits `{MA : Machine} (root_pool cache_pool : Z) (func_loc : Z -> option (list Z * list Z)) (func_lineno : Z -> list Z -> option Z) (name2addr : list Z -> option Z)
    (s : mon root_pool cache_pool) (t junk : list Z) (Hl : linestr (m_rl _ _ s) = t ++ 0 :: junk) (Ht : text t) (Hne : t <> []) :
  exists line', length line' = length (linestr (m_rl _ _ s)) /\
    if (length (words t) <=? 6)%nat
    then exists argv, args_are line' argv (words t) /\
      handlecmd root_pool cache_pool func_loc func_lineno name2addr s =
      (r ← runcmd root_pool cache_pool func_loc func_lineno name2addr line' argv; mret (cmd_result r)) (line_is root_pool cache_pool line' s)
    else handlecmd root_pool cache_pool func_loc func_lineno name2addr s = Ret (CRet (-1), line_is root_pool cache_pool line' s).
Proof. exact (handlecmd_run root_pool cache_pool func_loc func_lineno name2addr s t junk Hl Ht Hne). Qed.

Lemma handlecmd_splits_witness :
  exists line' argv, args_are line' argv [[109; 109]; [48; 120; 49; 48]; [102; 70]] /\
    handlecmd demo_root_pool demo_cache_pool MonDemo.no_loc MonDemo.no_line MonDemo.no_sym (MonDemo.state MonDemo.typed) =
    (r ← runcmd demo_root_pool demo_cache_pool MonDemo.no_loc MonDemo.no_line MonDemo.no_sym line' argv; mret (cmd_result r))
      (line_is demo_root_pool demo_cache_pool line' (MonDemo.state MonDemo.typed)).
Proof.
  destruct (@handlecmd_splits BrkDemo.machine demo_root_pool demo_cache_pool MonDemo.no_loc MonDemo.no_line MonDemo.no_sym (MonDemo.state MonDemo.typed) MonDemo.typed (replicate 8 0) eq_refl MonDemo.typed_text)
    as (line' & _ & argv & Ha & E); [discriminate|]. exists line', argv. split; [exact Ha|exact E].
Defined.

(** The command mm stores what was typed: for a line of the words mm, an
    address and a value, both hexadecimal with or without 0x, the eight bytes
    at the address hold the value afterwards, every other byte of memory is as
    before, and the command loop goes on. *)
Theorem mm_command_stores `{MA : Machine} (root_pool cache_pool : Z) (func_loc : Z -> option (list Z * list Z)) (func_lineno : Z -> list Z -> option Z) (name2addr : list Z -> option Z)
    (s : mon root_pool cache_pool) (t junk wa wv : list Z) (a v : Z)
    (Hl : linestr (m_rl _ _ s) = t ++ 0 :: junk) (Ht : text t) (Hw : words t = [[109; 109]; wa; wv]) (Ha : hex_word wa a) (Hv : hex_word wv v)
    (Hlo : 0 <= a) (Hhi : a + 8 <= 2 ^ 64) (He : ends 8 a (m_mem _ _ s)) :
  exists s', handlecmd root_pool cache_pool func_loc func_lineno name2addr s = Ret (CRet 0, s') /\ ld 8 a (m_mem _ _ s') = Ret (v mod 2 ^ 64) /\
    forall b, b < a \/ a + 8 <= b -> m_mem _ _ s' !! b = m_mem _ _ s !! b.
Proof.
  assert (t <> []) as Hne by (by intros ->).
  destruct (handlecmd_run root_pool cache_pool func_loc func_lineno name2addr s t junk Hl Ht Hne) as (line' & _ & Hrun). rewrite Hw in Hrun. cbn [length Nat.leb] in Hrun.
  destruct Hrun as (argv & Hargs & Hrun). pose proof (Forall2_length _ _ _ Hargs) as Hlen. destruct argv as [|o0 [|o1 [|o2 [|]]]]; try done.
  destruct (runcmd_mm root_pool cache_pool func_loc func_lineno name2addr (line_is root_pool cache_pool line' s) line' o0 o1 o2 wa wv a v Hargs Ha Hv Hlo Hhi He) as (m' & E & Hld & Hf).
  eexists. split; [rewrite Hrun; by mrun E|]. by split.
Qed.

Lemma mm_command_stores_witness :
  exists s', handlecmd demo_root_pool demo_cache_pool MonDemo.no_loc MonDemo.no_line MonDemo.no_sym (MonDemo.state MonDemo.typed) = Ret (CRet 0, s') /\ ld 8 16 (m_mem _ _ s') = Ret 255.
Proof.
  destruct (@mm_command_stores BrkDemo.machine demo_root_pool demo_cache_pool MonDemo.no_loc MonDemo.no_line MonDemo.no_sym (MonDemo.state MonDemo.typed) MonDemo.typed (replicate 8 0) _ _ 16 255 eq_refl MonDemo.typed_text eq_refl MonDemo.addr_word MonDemo.value_word)
    as (s' & E & L & _); [discriminate|discriminate|exact MonDemo.mapped8|]. exists s'. split; [exact E|exact L].
Defined.

(** ** Entering and leaving *)

(** A line of white space ends the monitor, and it cannot be entered again:
    handlecmd answers -1 for a line without words ... *)
Theorem blank_line_fails `{MA : Machine} (root_pool cache_pool : Z) (func_loc : Z -> option (list Z * list Z)) (func_lineno : Z -> list Z -> option Z) (name2addr : list Z -> option Z)
    (s : mon root_pool cache_pool) (t junk : list Z) (Hl : linestr (m_rl _ _ s) = t ++ 0 :: junk) (Ht : text t) (Hne : t <> []) (Hw : words t = []) :
  exists s', handlecmd root_pool cache_pool func_loc func_lineno name2addr s = Ret (CRet (-1), s') /\ m_state _ _ s' = m_state _ _ s.
Proof.
  destruct (handlecmd_run root_pool cache_pool func_loc func_lineno name2addr s t junk Hl Ht Hne) as (line' & _ & Hrun). rewrite Hw in Hrun. cbn [length Nat.leb] in Hrun.
  destruct Hrun as (argv & Hargs & Hrun). apply Forall2_nil_inv_r in Hargs as ->. eexists. split; [rewrite Hrun; reflexivity|done].
Qed.
(** ... and kmon_main leaves [inside] set, which it refuses to start with. *)
Theorem monitor_not_reentered `{MA : Machine} (root_pool cache_pool stale_c : Z) (func_loc : Z -> option (list Z * list Z)) (func_lineno : Z -> list Z -> option Z) (name2addr : list Z -> option Z)
    (s : mon root_pool cache_pool) : inside (m_state _ _ s) = true -> kmon_main root_pool cache_pool stale_c func_loc func_lineno name2addr s = Ret (CRet 0, s).
Proof. intros Hi. unfold kmon_main. mrun (eq_refl (Ret (s, s))). rewrite Hi. by destruct (initok _). Qed.

(** Leaving restores the function trace to what it was on entry. *)
Theorem leave_restores_trace `{MA : Machine} (root_pool cache_pool : Z) (s : mon root_pool cache_pool) :
  returnable (m_state _ _ s) = true -> functrace_disabled _ _ s = true ->
  exists s', leave root_pool cache_pool s = Ret (CResume, s') /\ functrace_disabled _ _ s' = ftrace_disabled (m_state _ _ s) /\ inside (m_state _ _ s') = false.
Proof.
  intros Hr Hd. unfold leave, kmon_return, functrace_enable, get, modify, mbind, M_bind, mret, M_ret. rewrite Hr. cbn [negb].
  destruct (ftrace_disabled (m_state _ _ s)) eqn:E; cbn; eexists; (split; [reflexivity|]); cbn; by rewrite ?Hd.
Qed.
