(* ===== verification/Dbginfo.v ===== *)
(** * Debug information (ukern/src/kmon/dbginfo.c)

    The walk over the compilation units of the kernel image, the table of
    functions it fills, and the lookups by address and by name.  libdwarf,
    which the repository only links, is the class [Dwarf]: what each of its
    functions answers.  Releasing its answers has no effect here, and the log
    lines are left out.  A C string is the list of its bytes without the
    terminator. *)
From S2P Require Import Prelude Config Bitmap Page Slab SlabSpec Kmem Heap.

Definition DW_TAG_formal_parameter : Z := 0x05.
Definition DW_TAG_typedef : Z := 0x16.
Definition DW_TAG_const_type : Z := 0x26.
Definition DW_TAG_subprogram : Z := 0x2e.
Definition DW_TAG_restrict_type : Z := 0x37.
Definition DW_FORM_addr : Z := 0x01.
Definition DW_AT_location : Z := 0x02.
Definition DW_AT_byte_size : Z := 0x0b.
Definition DW_AT_inline : Z := 0x20.
Definition DW_AT_abstract_origin : Z := 0x31.
Definition DW_AT_declaration : Z := 0x3c.
Definition DW_AT_type : Z := 0x49.
Definition DW_OP_fbreg : Z := 0x91.
Definition DW_INL_inlined : Z := 0x01.
Definition DW_INL_declared_inlined : Z := 0x03.

(** The result codes of libdwarf, with what a call stores on success. *)
Inductive dlv (A : Type) := DW_DLV_OK (a : A) | DW_DLV_NO_ENTRY | DW_DLV_ERROR.
Arguments DW_DLV_OK {A}.
Arguments DW_DLV_NO_ENTRY {A}.
Arguments DW_DLV_ERROR {A}.
(** [!= DW_DLV_OK] sends both failures the same way. *)
Definition dlv_ok {A} (r : dlv A) : option A := match r with DW_DLV_OK a => Some a | _ => None end.

(** An open image: [dwarf] is the position among its units, which
    [dwarf_next_cu_header_d] moves; the entries are immutable. *)
Class Dwarf := {
  dwarf : Type; die : Type; attribute : Type; srcline : Type;
  dwarf_next_cu_header_d : dwarf -> dlv () * dwarf;
  dwarf_siblingof_b : dwarf -> dlv die;               (* of no entry: the unit's own *)
  dwarf_child : die -> dlv die;
  dwarf_siblingof : die -> dlv die;
  dwarf_tag : die -> dlv Z;
  dwarf_diename : die -> dlv (list Z);
  dwarf_lowpc : die -> dlv Z;
  dwarf_highpc_b : die -> dlv (Z * Z);                (* value and form *)
  dwarf_attr : die -> Z -> dlv attribute;
  dwarf_global_formref : attribute -> dlv Z;
  dwarf_offdie : Z -> dlv die;
  dwarf_formudata : attribute -> dlv Z;
  dwarf_loclist_n : attribute -> dlv (list (list (Z * Z)));  (* descriptions: operations with operand *)
  dwarf_srclines : die -> dlv (list srcline);
  dwarf_lineaddr : srcline -> dlv Z;
  dwarf_lineno : srcline -> dlv Z }.

Record dbgi_func_param := mkParam { dp_size : list Z; dp_offset : list Z; dp_count : Z }.
Record dbgi_func_loc := mkLoc { dl_file : list Z; dl_line : Z }.
Record dbgi_func := mkDFunc { lowpc : Z; highpc : Z; df_name : option (list Z); df_loc : option dbgi_func_loc; df_param : option dbgi_func_param; df_next : Z }.
Definition sizeof_dbgi_func : Z := 48.
Definition sizeof_dbgi_func_param : Z := 32.
Definition sizeof_dbgi_func_loc : Z := 16.
Definition df_zero : dbgi_func := mkDFunc 0 0 None None None 0.
Definition df_with_name (n : list Z) (f : dbgi_func) : dbgi_func := mkDFunc (lowpc f) (highpc f) (Some n) (df_loc f) (df_param f) (df_next f).
Definition df_with_loc (l : dbgi_func_loc) (f : dbgi_func) : dbgi_func := mkDFunc (lowpc f) (highpc f) (df_name f) (Some l) (df_param f) (df_next f).
Definition df_with_pc (lo hi : Z) (f : dbgi_func) : dbgi_func := mkDFunc lo hi (df_name f) (df_loc f) (df_param f) (df_next f).
Definition df_with_param (p : dbgi_func_param) (f : dbgi_func) : dbgi_func := mkDFunc (lowpc f) (highpc f) (df_name f) (df_loc f) (Some p) (df_next f).
Definition df_with_next (n : Z) (f : dbgi_func) : dbgi_func := mkDFunc (lowpc f) (highpc f) (df_name f) (df_loc f) (df_param f) n.

Definition RET_OK : Z := 0.
Definition RET_ERR : Z := -1.
Definition RET_NOT_FOUND : Z := -2.

(** [strstr] as a test. *)
Fixpoint strstr (hay needle : list Z) : bool :=
  bool_decide (take (length needle) hay = needle) || match hay with [] => false | _ :: t => strstr t needle end.
Definition LIB : list Z := [47; 108; 105; 98].
Definition KMON : list Z := [47; 107; 109; 111; 110].
Definition TEST : list Z := [47; 116; 101; 115; 116].

(** ** The table and its lookups *)
Definition functab : Type := Z * gmap Z dbgi_func.     (* [func_head.next] and the nodes *)
(** The first node with [P], [NULL] when there is none. *)
Fixpoint find_func (fuel : nat) (P : dbgi_func -> bool) (df : Z) (m : gmap Z dbgi_func) : outcome (option dbgi_func) :=
  if df =? 0 then Ret None
  else match fuel, m !! df with
       | O, _ => Diverge
       | _, None => Fault
       | S fuel', Some f => if P f then Ret (Some f) else find_func fuel' P (df_next f) m
       end.
Definition covers (pc : Z) (f : dbgi_func) : bool := (lowpc f <=? pc) && (pc <? highpc f).
Definition find_in (P : dbgi_func -> bool) (t : functab) : outcome (option dbgi_func) := find_func (size t.2) P t.1 t.2.
(** Name and file; a missing location is a [NULL] access. *)
Definition dgbinfo_get_func_loc (pc : Z) (t : functab) : outcome (option (option (list Z) * list Z)) :=
  r ← find_in (covers pc) t;
  match r with
  | None => Ret None
  | Some f => match df_loc f with None => Fault | Some l => Ret (Some (df_name f, dl_file l)) end
  end.
Definition dbgsym_func_name2addr (name : list Z) (t : functab) : outcome (option Z) :=
  r ← find_in (fun f => bool_decide (df_name f = Some name)) t; Ret (option_map lowpc r).
Definition dgbinfo_get_func_param (pc : Z) (t : functab) : outcome (option (Z * list Z * list Z)) :=
  r ← find_in (covers pc) t;
  Ret (match r with None => None | Some f => option_map (fun p => (dp_count p, dp_offset p, dp_size p)) (df_param f) end).

Section Dbginfo.
Context `{DW : Dwarf} `{KH : KHeap} (fuel : nat).
(** What fresh memory holds: the integers of an array, and a [long]. *)
Context (raw : list Z) (stale : Z).

Record dbgi := mkDbgi {
  d_dw : dwarf; d_heap : heap; func_head : Z; d_funcs : gmap Z dbgi_func;
  targetline : Z; targetpc : Z; targetfile : list Z; targetline_found : bool }.
Abbreviation D := (M dbgi).
Definition with_dw (w : dwarf) (s : dbgi) : dbgi := mkDbgi w (d_heap s) (func_head s) (d_funcs s) (targetline s) (targetpc s) (targetfile s) (targetline_found s).
Definition with_dheap (h : heap) (s : dbgi) : dbgi := mkDbgi (d_dw s) h (func_head s) (d_funcs s) (targetline s) (targetpc s) (targetfile s) (targetline_found s).
Definition with_funcs (p : Z) (m : gmap Z dbgi_func) (s : dbgi) : dbgi := mkDbgi (d_dw s) (d_heap s) p m (targetline s) (targetpc s) (targetfile s) (targetline_found s).
Definition with_target (l pc : Z) (file : list Z) (found : bool) (s : dbgi) : dbgi := mkDbgi (d_dw s) (d_heap s) (func_head s) (d_funcs s) l pc file found.
Definition d_tab (s : dbgi) : functab := (func_head s, d_funcs s).
Definition on_dheap {A} (m : M heap A) : D A := zoom d_heap with_dheap m.
(** An allocation whose result is used without a test. *)
Definition alloc (n : Z) : D Z := p ← on_dheap (h_kalloc n); if p =? 0 then fault else mret p.
Definition df_upd (df : Z) (g : dbgi_func -> dbgi_func) : D () := fun s =>
  match d_funcs s !! df with None => Fault | Some f => Ret (tt, with_funcs (func_head s) (<[df := g f]> (d_funcs s)) s) end.

(** ** Filling the table *)
Definition alloc_copy_str (src : list Z) : D () := _ ← alloc (s32 (Z.of_nat (length src)) + 1); mret tt.

Definition install_func_pc (df : Z) (funcdie : die) : D Z :=
  match dlv_ok (dwarf_lowpc funcdie), dlv_ok (dwarf_highpc_b funcdie) with
  | Some lo, Some (hi, highpc_form) =>
      df_upd df (df_with_pc lo (if highpc_form =? DW_FORM_addr then hi else u64 (lo + hi)));; mret 0
  | _, _ => on_dheap (h_kfree df);; modify (fun s => with_funcs (func_head s) (delete df (d_funcs s)) s);; mret (-1)
  end.

(** The entry the type attribute refers to. *)
Definition type_of (d : die) : option die :=
  a ← dlv_ok (dwarf_attr d DW_AT_type); off ← dlv_ok (dwarf_global_formref a); dlv_ok (dwarf_offdie off).
Definition is_wrapper (tag : Z) : bool := (tag =? DW_TAG_typedef) || (tag =? DW_TAG_const_type) || (tag =? DW_TAG_restrict_type).
(** [None]: an entry could not be read. *)
Fixpoint strip_type (fuel : nat) (type_die : die) : outcome (option die) :=
  match dlv_ok (dwarf_tag type_die) with
  | None => Ret None
  | Some tag =>
      if is_wrapper tag
      then match fuel, type_of type_die with
           | O, _ => Diverge
           | _, None => Ret None
           | S fuel', Some d => strip_type fuel' d
           end
      else Ret (Some type_die)
  end.
(** [dwarf_formudata] stores 64 bits at [&psize[pcount]]. *)
Definition put_size (psize : list Z) (pcount v : Z) : outcome (list Z) :=
  l ← wr psize pcount (s32 v); wr l (pcount + 1) (s32 (v / 2 ^ 32)).
Definition is_fbreg (op : Z * Z) : bool := op.1 =? DW_OP_fbreg.
Definition fbreg_of (locs : list (list (Z * Z))) : option Z := ops ← head locs; op ← List.find is_fbreg ops; Some (op.2).

(** One turn of the loop over the children; [None] is [return -1]. *)
Definition params : Type := list Z * list Z * Z.        (* poff, psize, pcount *)
Definition one_param (paramdie : die) (st : params) : outcome (option params) :=
  let '(poff, psize, pcount) := st in
  match dlv_ok (dwarf_tag paramdie) with
  | None => Ret None
  | Some tag =>
      if negb (tag =? DW_TAG_formal_parameter) then Ret (Some st)
      else match type_of paramdie with
           | None => Ret None
           | Some type_die =>
               r ← strip_type fuel type_die;
               match td ← r; a ← dlv_ok (dwarf_attr td DW_AT_byte_size); dlv_ok (dwarf_formudata a) with
               | None => Ret None
               | Some size =>
                   psize ← put_size psize pcount size;
                   match a ← dlv_ok (dwarf_attr paramdie DW_AT_location); dlv_ok (dwarf_loclist_n a) with
                   | None => Ret None
                   | Some locs =>
                       poff ← match fbreg_of locs with Some n => wr poff pcount (s32 n) | None => Ret poff end;
                       Ret (Some (poff, psize, pcount + 1))
                   end
               end
           end
  end.
Fixpoint params_loop (fuel : nat) (paramdie : die) (st : params) : outcome (option params) :=
  r ← one_param paramdie st;
  match r with
  | None => Ret None
  | Some st =>
      match dlv_ok (dwarf_siblingof paramdie) with
      | Some d => match fuel with O => Diverge | S fuel' => params_loop fuel' d st end
      | None => Ret (Some st)
      end
  end.
Definition install_func_param (df : Z) (funcdie : die) : D Z :=
  alloc 64;; alloc 64;;
  r ← match dlv_ok (dwarf_child funcdie) with Some d => lift (params_loop fuel d (raw, raw, 0)) | None => mret (Some (raw, raw, 0)) end;
  match r with
  | None => mret (-1)
  | Some (poff, psize, pcount) => alloc sizeof_dbgi_func_param;; df_upd df (df_with_param (mkParam psize poff pcount));; mret 0
  end.

Definition install_func_loc (df : Z) (cudie funcdie : die) : D Z :=
  match dlv_ok (dwarf_diename cudie), dlv_ok (dwarf_diename funcdie) with
  | Some filename, Some progname =>
      alloc sizeof_dbgi_func_loc;;
      alloc_copy_str progname;; df_upd df (df_with_name progname);;
      alloc_copy_str filename;; df_upd df (df_with_loc (mkLoc filename stale));;
      mret 0
  | _, _ => mret RET_ERR
  end.

(** [Some r]: the tests return [r] at once; [None]: a function to record. *)
Definition not_a_function (funcdie : die) : option Z :=
  match dlv_ok (dwarf_tag funcdie) with
  | None => Some (-1)
  | Some tag =>
      if negb (tag =? DW_TAG_subprogram) then Some 0
      else if dlv_ok (dwarf_attr funcdie DW_AT_declaration) then Some 0
      else if dlv_ok (dwarf_attr funcdie DW_AT_abstract_origin) then Some 0
      else match dlv_ok (dwarf_attr funcdie DW_AT_inline) with
           | None => None
           | Some a => match dlv_ok (dwarf_formudata a) with
                       | None => Some (-1)
                       | Some v => if (v =? DW_INL_inlined) || (v =? DW_INL_declared_inlined) then Some 0 else None
                       end
           end
  end.
Definition func_install_handler (cudie funcdie : die) : D Z :=
  match not_a_function funcdie with
  | Some r => mret r
  | None =>
      df ← alloc sizeof_dbgi_func;
      modify (fun s => with_funcs (func_head s) (<[df := df_zero]> (d_funcs s)) s);;
      r ← install_func_loc df cudie funcdie;
      if r <? 0 then mret (-1)
      else
        r ← install_func_pc df funcdie;
        if r <? 0 then mret (-1)
        else
          r ← install_func_param df funcdie;
          if r <? 0 then mret (-1)
          else
            s ← get; df_upd df (df_with_next (func_head s));;
            modify (fun s => with_funcs df (d_funcs s) s);; mret 0
  end.

(** ** The walk *)
Fixpoint dies_loop (fuel : nat) (handler : die -> die -> D Z) (cu_die child : die) : D Z :=
  r ← handler cu_die child;
  if r <? 0 then mret (-1)
  else match dlv_ok (dwarf_siblingof child) with
       | Some d => match fuel with O => lift Diverge | S fuel' => dies_loop fuel' handler cu_die d end
       | None => mret 0
       end.
Definition walk_all_die_cu (cu_die : die) (handler : die -> die -> D Z) : D Z :=
  match dwarf_child cu_die with
  | DW_DLV_NO_ENTRY => mret RET_NOT_FOUND
  | DW_DLV_ERROR => mret RET_ERR
  | DW_DLV_OK child =>
      match dlv_ok (dwarf_diename cu_die) with
      | None => mret RET_ERR
      | Some cuname => if strstr cuname LIB || strstr cuname KMON || strstr cuname TEST then mret RET_NOT_FOUND else dies_loop fuel handler cu_die child
      end
  end.
Fixpoint cus_loop (n : nat) (handler : die -> die -> D Z) (cu_filter : option (die -> D bool)) : D Z :=
  s ← get;
  let '(res, w) := dwarf_next_cu_header_d (d_dw s) in
  put (with_dw w s);;
  match res with
  | DW_DLV_ERROR => mret RET_ERR
  | DW_DLV_NO_ENTRY => mret RET_OK
  | DW_DLV_OK _ =>
      match dlv_ok (dwarf_siblingof_b w) with
      | None => mret (-1)
      | Some cu_die =>
          skip ← match cu_filter with Some f => f cu_die | None => mret false end;
          r ← (if (skip : bool) then mret RET_OK else walk_all_die_cu cu_die handler);
          if r =? RET_ERR then mret r
          else match n with O => lift Diverge | S n' => cus_loop n' handler cu_filter end
      end
  end.
Definition walk_all_die (handler : die -> die -> D Z) (cu_filter : option (die -> D bool)) : D Z := cus_loop fuel handler cu_filter.

Definition dgbinfo_init_all_func : D Z := r ← walk_all_die func_install_handler None; if r <? 0 then mret (-1) else mret 0.

(** ** Line numbers: [None] is an error, [Some None] that no row has [pc] *)
Fixpoint line_loop (pc : Z) (linebuf : list srcline) : option (option Z) :=
  match linebuf with
  | [] => Some None
  | l :: rest =>
      a ← dlv_ok (dwarf_lineaddr l); n ← dlv_ok (dwarf_lineno l);
      e ← match rest with l' :: _ => dlv_ok (dwarf_lineaddr l') | [] => Some (u64 (a + 4)) end;
      if (a <=? pc) && (pc <? e) then Some (Some n) else line_loop pc rest
  end.
Definition func_get_line_handler (cudie funcdie : die) : D Z :=
  s ← get;
  match dlv_ok (dwarf_tag funcdie) with
  | None => mret (-1)
  | Some tag =>
      if negb (tag =? DW_TAG_subprogram) then mret 0
      else match dlv_ok (dwarf_lowpc funcdie), dlv_ok (dwarf_highpc_b funcdie) with
           | Some lo, Some (hi, form) =>
               let hi := if form =? DW_FORM_addr then hi else u64 (lo + hi) in
               if (targetpc s <? lo) || (hi <=? targetpc s) then mret 0
               else match linebuf ← dlv_ok (dwarf_srclines cudie); line_loop (targetpc s) linebuf with
                    | None => mret RET_ERR
                    | Some None => mret 0
                    | Some (Some lineno) => put (with_target (s32 lineno) (targetpc s) (targetfile s) true s);; mret 0
                    end
           | _, _ => halt
           end
  end.
(** The name is read without a test of the result. *)
Definition func_get_line_cu_filter (cudie : die) : D bool :=
  s ← get;
  if targetline_found s then mret true
  else match dlv_ok (dwarf_diename cudie) with None => fault | Some cuname => mret (negb (strstr cuname (targetfile s))) end.
Definition dbginfo_get_func_lineno (pc : Z) (file : list Z) : D (option Z) :=
  modify (fun s => with_target (targetline s) pc file false s);;
  r ← walk_all_die func_get_line_handler (Some func_get_line_cu_filter);
  if r <? 0 then mret None
  else s ← get; if targetline_found s then mret (Some (targetline s)) else mret None.
End Dbginfo.

(** ** What the entries of an image describe *)
Record finfo := mkFi { fi_name : list Z; fi_file : list Z; fi_low : Z; fi_high : Z; fi_params : list (Z * Z) }.  (* offset and size *)

Section Describes.
Context `{DW : Dwarf} (fuel : nat).

(** An entry with its right siblings. *)
Inductive siblings : die -> list die -> Prop :=
  | siblings_last d : dlv_ok (dwarf_siblingof d) = None -> siblings d [d]
  | siblings_next d d' ds : dlv_ok (dwarf_siblingof d) = Some d' -> siblings d' ds -> siblings d (d :: ds).
Definition children (d : die) (ds : list die) : Prop :=
  match dlv_ok (dwarf_child d) with None => ds = [] | Some c => siblings c ds end.

(** Type definitions and qualifiers around a type, at most [n]. *)
Inductive wraps_type : nat -> die -> die -> Prop :=
  | wraps_none n d t : dlv_ok (dwarf_tag d) = Some t -> is_wrapper t = false -> wraps_type n d d
  | wraps_one n d t d' e : dlv_ok (dwarf_tag d) = Some t -> is_wrapper t = true -> type_of d = Some d' -> wraps_type n d' e -> wraps_type (S n) d e.

(** A parameter at frame offset [o] of [z] bytes. *)
Record is_param (d : die) (o z : Z) : Prop := {
  ip_tag : dlv_ok (dwarf_tag d) = Some DW_TAG_formal_parameter;
  ip_type : exists td e a v, type_of d = Some td /\ wraps_type fuel td e /\ dlv_ok (dwarf_attr e DW_AT_byte_size) = Some a /\ dlv_ok (dwarf_formudata a) = Some v /\ z = s32 v;
  ip_loc : exists a locs n, dlv_ok (dwarf_attr d DW_AT_location) = Some a /\ dlv_ok (dwarf_loclist_n a) = Some locs /\ fbreg_of locs = Some n /\ o = s32 n }.
Definition param_die (d : die) (r : option (Z * Z)) : Prop :=
  match r with
  | None => exists t, dlv_ok (dwarf_tag d) = Some t /\ t <> DW_TAG_formal_parameter
  | Some (o, z) => is_param d o z
  end.

Record is_function (cu d : die) (f : finfo) : Prop := {
  if_new : not_a_function d = None;
  if_file : dlv_ok (dwarf_diename cu) = Some (fi_file f);
  if_name : dlv_ok (dwarf_diename d) = Some (fi_name f);
  if_pc : exists lo hi form, dlv_ok (dwarf_lowpc d) = Some lo /\ dlv_ok (dwarf_highpc_b d) = Some (hi, form) /\
            fi_low f = lo /\ fi_high f = (if form =? DW_FORM_addr then hi else u64 (lo + hi));
  if_params : exists ds rs, children d ds /\ (length ds <= S fuel)%nat /\ Forall2 param_die ds rs /\ fi_params f = omap id rs /\ (length (fi_params f) <= 15)%nat;
  if_short : (length (fi_file f) < 512)%nat /\ (length (fi_name f) < 512)%nat }.
Definition func_die (cu d : die) (r : option finfo) : Prop :=
  match r with None => not_a_function d = Some 0 | Some f => is_function cu d f end.

Definition excluded (cuname : list Z) : bool := strstr cuname LIB || strstr cuname KMON || strstr cuname TEST.
(** A unit with the functions [fs] to record. *)
Inductive unit_has (cu : die) : list finfo -> Prop :=
  | unit_empty : dwarf_child cu = DW_DLV_NO_ENTRY -> unit_has cu []
  | unit_excluded c name : dwarf_child cu = DW_DLV_OK c -> dlv_ok (dwarf_diename cu) = Some name -> excluded name = true -> unit_has cu []
  | unit_funcs c name ds rs : dwarf_child cu = DW_DLV_OK c -> dlv_ok (dwarf_diename cu) = Some name -> excluded name = false ->
      siblings c ds -> (length ds <= S fuel)%nat -> Forall2 (func_die cu) ds rs -> unit_has cu (omap id rs).
(** The units from a position on. *)
Inductive units : dwarf -> list die -> Prop :=
  | units_end w w' : dwarf_next_cu_header_d w = (DW_DLV_NO_ENTRY, w') -> units w []
  | units_next w w' cu cus : dwarf_next_cu_header_d w = (DW_DLV_OK tt, w') -> dlv_ok (dwarf_siblingof_b w') = Some cu -> units w' cus -> units w (cu :: cus).

Lemma strip_type_run n d e : wraps_type n d e -> strip_type n d = Ret (Some e) /\ exists t, dlv_ok (dwarf_tag e) = Some t.
Proof.
  induction 1 as [n d t Ht Hw|n d t d' e Ht Hw Hd _ [IH IHt]].
  - split; [|by exists t]. destruct n; cbn; by rewrite Ht, Hw.
  - split; [|done]. cbn. by rewrite Ht, Hw, Hd.
Qed.

(** The arrays hold the parameters [l]. *)
Definition holds (st : params) (l : list (Z * Z)) : Prop :=
  let '(po, ps, c) := st in
  length po = 16%nat /\ length ps = 16%nat /\ c = Z.of_nat (length l) /\
  forall i o z, l !! i = Some (o, z) -> po !! i = Some o /\ ps !! i = Some z.

Lemma holds_param st l d o z : holds st l -> (length l <= 14)%nat -> is_param d o z ->
  exists st', one_param fuel d st = Ret (Some st') /\ holds st' (l ++ [(o, z)]).
Proof.
  destruct st as [[po ps] c]. intros (Hpo & Hps & -> & Hl) Hlen [Ht (td & e & a & v & E1 & Hw & E2 & E3 & ->) (b & locs & n & E4 & E5 & E6 & ->)].
  unfold one_param. rewrite Ht, Z.eqb_refl. cbn [negb]. rewrite E1. destruct (strip_type_run _ _ _ Hw) as [-> _].
  unfold mbind, outcome_bind, option_bind. rewrite E2, E3. unfold put_size.
  rewrite wr_in by lia. unfold mbind, outcome_bind. rewrite wr_in by (rewrite length_insert; lia). rewrite E4, E5, E6, wr_in by lia.
  eexists. split; [reflexivity|]. unfold holds. rewrite !length_insert, length_app. cbn [length]. split_and!; [done|done|lia|].
  rewrite Nat2Z.id. replace (Z.to_nat (Z.of_nat (length l) + 1)) with (S (length l)) by lia.
  intros i o' z' Hi. apply lookup_app_Some in Hi as [Hi|[Hge Hi]].
  - pose proof (lookup_lt_Some _ _ _ Hi). rewrite !list_lookup_insert_ne by lia. by apply Hl.
  - destruct (i - length l)%nat eqn:Ei; [|done]. injection Hi as <- <-. replace i with (length l) by lia.
    rewrite (list_lookup_insert_ne _ (S (length l))) by lia. rewrite !list_lookup_insert_eq by lia. done.
Qed.

Lemma params_loop_run d ds rs n st l : siblings d ds -> Forall2 param_die ds rs -> (length ds <= S n)%nat -> holds st l ->
  (length l + length (omap id rs) <= 15)%nat -> exists st', params_loop fuel n d st = Ret (Some st') /\ holds st' (l ++ omap id rs).
Proof.
  intros Hs. revert rs n st l. induction Hs as [d Hd|d d' ds Hd Hs IH]; intros rs n st l Hf Hn Hst Hl; apply Forall2_cons_inv_l in Hf as (r & rs' & Hr & Hf & ->).
  all: assert (exists st', one_param fuel d st = Ret (Some st') /\ holds st' (l ++ omap id [r])) as (st1 & E1 & H1);
    [destruct r as [[o z]|]; [apply holds_param; [done|cbn in Hl; lia|done]|
      exists st; cbn [omap list_omap id]; rewrite app_nil_r; split; [|done]; destruct st as [[po ps] c], Hr as (t & Ht & Hne); unfold one_param; rewrite Ht;
      by rewrite (proj2 (Z.eqb_neq _ _) Hne)]|].
  - apply Forall2_nil_inv_l in Hf as ->. destruct n; cbn; rewrite E1; unfold mbind, outcome_bind; rewrite Hd; by exists st1.
  - assert (omap id (r :: rs') = omap id [r] ++ omap id rs') as Eo by (by destruct r).
    destruct n as [|n]; [inversion Hs; subst; cbn in Hn; lia|]. rewrite Eo. cbn [params_loop]. rewrite E1. unfold mbind, outcome_bind. rewrite Hd.
    destruct (IH rs' n st1 (l ++ omap id [r]) Hf ltac:(cbn in Hn; lia) H1) as (st2 & E2 & H2).
    { rewrite length_app. rewrite Eo, length_app in Hl. lia. }
    rewrite E2. exists st2. split; [done|]. rewrite app_assoc. exact H2.
Qed.
End Describes.

(** ** The table represents a list of functions *)
Record node_is (f : finfo) (x : dbgi_func) : Prop := {
  ni_low : lowpc x = fi_low f; ni_high : highpc x = fi_high f; ni_name : df_name x = Some (fi_name f);
  ni_loc : exists l, df_loc x = Some l /\ dl_file l = fi_file f;
  ni_param : exists p, df_param x = Some p /\ dp_count p = Z.of_nat (length (fi_params f)) /\
    forall i o z, fi_params f !! i = Some (o, z) -> dp_offset p !! i = Some o /\ dp_size p !! i = Some z }.
Fixpoint chain (m : gmap Z dbgi_func) (p : Z) (qs : list Z) (fs : list finfo) : Prop :=
  match qs, fs with
  | [], [] => p = 0
  | q :: qs', f :: fs' => p = q /\ q <> 0 /\ exists x, m !! q = Some x /\ node_is f x /\ chain m (df_next x) qs' fs'
  | _, _ => False
  end.
Definition tab_is (t : functab) (fs : list finfo) : Prop := exists qs, NoDup qs /\ chain t.2 t.1 qs fs.

Lemma chain_in m p qs fs q : chain m p qs fs -> q ∈ qs -> is_Some (m !! q).
Proof.
  revert p fs. induction qs as [|q' qs IH]; intros p [|f fs]; cbn; [by intros _ ?%elem_of_nil|by intros _ ?%elem_of_nil|done|].
  intros (-> & _ & x & Hx & _ & Hc) [->|Hq]%elem_of_cons; [by exists x|by eapply IH].
Qed.
Lemma func_chain_insert m p qs fs q x : chain m p qs fs -> m !! q = None -> chain (<[q := x]> m) p qs fs.
Proof.
  intros Hc Hq. revert p fs Hc. induction qs as [|q' qs IH]; intros p [|f fs]; cbn; try done.
  intros (-> & Hnz & y & Hy & Hn & Hc). split; [done|]. split; [done|]. exists y. split; [rewrite lookup_insert_ne by congruence; done|]. split; [done|by apply IH].
Qed.
Lemma tab_is_push m p fs q x f : tab_is (p, m) fs -> m !! q = None -> q <> 0 -> node_is f x -> df_next x = p -> tab_is (q, <[q := x]> m) (f :: fs).
Proof.
  intros (qs & Hnd & Hc) Hq Hnz Hn Hx. exists (q :: qs). split.
  - apply NoDup_cons. split; [|done]. intros Hin. destruct (chain_in _ _ _ _ _ Hc Hin) as [y Hy]. cbn in Hy. congruence.
  - cbn. split; [done|]. split; [done|]. exists x. rewrite lookup_insert_eq. split; [done|]. split; [done|]. rewrite Hx. by apply func_chain_insert.
Qed.
Lemma chain_size m p qs fs : NoDup qs -> chain m p qs fs -> (length qs <= size m)%nat.
Proof.
  intros Hnd Hc. rewrite <- (size_list_to_set (C := gset Z) qs) by done. rewrite <- size_dom. apply subseteq_size.
  intros q Hq%elem_of_list_to_set. apply elem_of_dom. by eapply chain_in.
Qed.

(** A lookup finds the first function with the property. *)
Lemma find_func_run m P Q n p qs fs : (forall f x, node_is f x -> P x = Q f) -> (length qs <= n)%nat -> chain m p qs fs ->
  match List.find Q fs with
  | None => find_func n P p m = Ret None
  | Some f => exists x, find_func n P p m = Ret (Some x) /\ node_is f x
  end.
Proof.
  intros HPQ. revert n p fs. induction qs as [|q qs IH]; intros n p [|f fs] Hn Hc; cbn in Hc; try done.
  - subst p. by destruct n.
  - destruct Hc as (-> & Hnz & x & Hx & Hi & Hc). destruct n as [|n]; [cbn in Hn; lia|]. cbn [find_func List.find].
    rewrite (proj2 (Z.eqb_neq q 0) Hnz), Hx, (HPQ _ _ Hi). destruct (Q f); [by exists x|]. apply IH; [cbn in Hn; lia|done].
Qed.
Definition fi_covers (pc : Z) (f : finfo) : bool := (fi_low f <=? pc) && (pc <? fi_high f).
Lemma covers_node pc f x : node_is f x -> covers pc x = fi_covers pc f.
Proof. intros [El Eh _ _ _]. unfold covers, fi_covers. by rewrite El, Eh. Qed.
Lemma find_in_run P Q t fs : (forall f x, node_is f x -> P x = Q f) -> tab_is t fs ->
  match List.find Q fs with None => find_in P t = Ret None | Some f => exists x, find_in P t = Ret (Some x) /\ node_is f x end.
Proof. intros H (qs & Hnd & Hc). eapply find_func_run; [done|by eapply chain_size|done]. Qed.

Lemma get_func_loc_run pc t fs : tab_is t fs -> dgbinfo_get_func_loc pc t = Ret (option_map (fun f => (Some (fi_name f), fi_file f)) (List.find (fi_covers pc) fs)).
Proof.
  intros Ht. pose proof (find_in_run _ _ _ _ (covers_node pc) Ht) as H. unfold dgbinfo_get_func_loc, mbind, outcome_bind.
  destruct (List.find (fi_covers pc) fs) as [f|]; [|by rewrite H]. destruct H as (x & -> & [_ _ -> (l & -> & ->) _]). done.
Qed.
Lemma name2addr_run name t fs : tab_is t fs -> dbgsym_func_name2addr name t = Ret (option_map fi_low (List.find (fun f => bool_decide (fi_name f = name)) fs)).
Proof.
  intros Ht. assert (forall f x, node_is f x -> bool_decide (df_name x = Some name) = bool_decide (fi_name f = name)) as HP.
  { intros f x [_ _ -> _ _]. apply bool_decide_ext. split; congruence. }
  pose proof (find_in_run _ _ _ _ HP Ht) as H. unfold dbgsym_func_name2addr, mbind, outcome_bind.
  destruct (List.find _ fs) as [f|]; [|by rewrite H]. destruct H as (x & -> & [El _ _ _ _]). cbn. by rewrite El.
Qed.
Lemma get_func_param_run pc t fs : tab_is t fs ->
  match List.find (fi_covers pc) fs with
  | None => dgbinfo_get_func_param pc t = Ret None
  | Some f => exists po ps, dgbinfo_get_func_param pc t = Ret (Some (Z.of_nat (length (fi_params f)), po, ps)) /\
      forall i o z, fi_params f !! i = Some (o, z) -> po !! i = Some o /\ ps !! i = Some z
  end.
Proof.
  intros Ht. pose proof (find_in_run _ _ _ _ (covers_node pc) Ht) as H. unfold dgbinfo_get_func_param, mbind, outcome_bind.
  destruct (List.find (fi_covers pc) fs) as [f|]; [|by rewrite H]. destruct H as (x & -> & [_ _ _ _ (p & Hp & Hc & Hh)]).
  exists (dp_offset p), (dp_size p). split; [|exact Hh]. rewrite Hp. cbn. by rewrite Hc.
Qed.

Lemma M_bind_halt {S A B} (m : M S A) (f : A -> M S B) s : m s = Halt -> (m ≫= f) s = Halt.
Proof. unfold mbind, M_bind. by intros ->. Qed.

Section Fill.
Context `{DW : Dwarf} `{KH : KHeap} (fuel : nat) (raw : list Z) (stale : Z) (Hraw : length raw = 16%nat).

(** The heap is sound and holds every node. *)
Definition held (h : heap) (m : gmap Z dbgi_func) : Prop := heap_ok h /\ forall p, is_Some (m !! p) -> used h p.
Definition at_ (s : dbgi) (h : heap) (q : Z) (m : gmap Z dbgi_func) : dbgi := with_funcs q m (with_dheap h s).

Lemma alloc_run s h q m n : held h m -> 0 < n <= 512 ->
  (alloc n (at_ s h q m) = Halt /\ short 1 h) \/
  exists p h', alloc n (at_ s h q m) = Ret (p, at_ s h' q m) /\ (held h' m /\ spends 1 h h') /\ p <> 0 /\ m !! p = None /\ used h' p.
Proof.
  intros [Hok Hu] Hn. unfold alloc, on_dheap, zoom, mbind, M_bind. cbn [d_heap at_ with_funcs with_dheap].
  destruct (h_kalloc_spec h n Hok Hn) as [[-> Hs]|(p & h' & -> & [Hok' Hsp] & Hnz & Hnew & Hu')]; [by left|right].
  rewrite (proj2 (Z.eqb_neq p 0) Hnz). exists p, h'. split; [done|]. split; [split; [|done]; split; [done|]; intros x Hx; apply Hu'; left; by apply Hu|]. split; [done|].
  split; [|apply Hu'; by right]. apply eq_None_not_Some. intros Hs. by apply Hnew, Hu.
Qed.
Lemma df_upd_run s h q m p g x : df_upd p g (at_ s h q (<[p := x]> m)) = Ret (tt, at_ s h q (<[p := g x]> m)).
Proof. unfold df_upd. cbn [d_funcs at_ with_funcs]. rewrite lookup_insert_eq. cbn. by rewrite insert_insert_eq. Qed.
Lemma held_set h m p x y : held h (<[p := x]> m) -> held h (<[p := y]> m).
Proof. intros [Hok Hu]. split; [done|]. intros r Hr. apply Hu. destruct (decide (r = p)) as [->|]; [rewrite lookup_insert_eq; by eexists|]. by rewrite lookup_insert_ne in Hr |- *. Qed.

(** [Acc] counts the requests since the start.  [short_since Acc Hs] closes the
    case in which the heap cannot serve the next ones. *)
Ltac short_since Acc Hs := eapply short_le; [|exact (short_after _ _ _ _ Acc Hs)]; lia.
(** [step_alloc H Acc h' H'] runs the allocation at the head of the goal. *)
Ltac step_alloc H Acc h' H' := let E := fresh "E" in let Hs := fresh "Hs" in
  match goal with |- context [(alloc ?n ≫= _) (at_ ?s ?h ?q ?m)] =>
    destruct (alloc_run s h q m n H ltac:(unfold sizeof_dbgi_func, sizeof_dbgi_func_param, sizeof_dbgi_func_loc; lia)) as [[E Hs]|(? & h' & E & [H' Hs] & _)];
    [left; split; [apply (M_bind_halt _ _ _ E)|short_since Acc Hs]|rewrite (M_bind_run _ _ _ _ _ E); clear E; apply (spends_trans _ _ _ _ _ Acc) in Hs; clear Acc; rename Hs into Acc] end.
(** [step_run R Acc h' H'] runs a step with the lemma instance [R]: the machine stops or goes on with [h']. *)
Ltac step_run R Acc h' H' := let E := fresh "E" in let Hs := fresh "Hs" in
  destruct R as [[E Hs]|(h' & E & H' & Hs)];
  [left; split; [apply (M_bind_halt _ _ _ E)|short_since Acc Hs]|rewrite (M_bind_run _ _ _ _ _ E); clear E; apply (spends_trans _ _ _ _ _ Acc) in Hs; clear Acc; rename Hs into Acc].

Lemma copy_str_run s h q m str : held h m -> (length str < 512)%nat ->
  (alloc_copy_str str (at_ s h q m) = Halt /\ short 1 h) \/
  exists h', alloc_copy_str str (at_ s h q m) = Ret (tt, at_ s h' q m) /\ held h' m /\ spends 1 h h'.
Proof. intros Hh Hl. unfold alloc_copy_str. wrap_simpl. pose proof (spends_refl 0 h) as Acc. step_alloc Hh Acc h' Hh'. right. by exists h'. Qed.

(** Each of the three functions fills a part of the node at [p]. *)
Lemma install_loc_run s h q m p x cu d f : held h (<[p := x]> m) -> is_function fuel cu d f ->
  (install_func_loc stale p cu d (at_ s h q (<[p := x]> m)) = Halt /\ short 3 h) \/
  exists h', install_func_loc stale p cu d (at_ s h q (<[p := x]> m)) = Ret (0, at_ s h' q (<[p := df_with_loc (mkLoc (fi_file f) stale) (df_with_name (fi_name f) x)]> m)) /\
    held h' (<[p := df_with_loc (mkLoc (fi_file f) stale) (df_with_name (fi_name f) x)]> m) /\ spends 3 h h'.
Proof.
  intros Hh [_ Hf Hn _ _ [Hlf Hln]]. unfold install_func_loc. rewrite Hf, Hn. pose proof (spends_refl 0 h) as Acc. step_alloc Hh Acc h1 H1.
  step_run (copy_str_run s h1 q _ (fi_name f) H1 Hln) Acc h2 H2. mrun (df_upd_run s h2 q m p (df_with_name (fi_name f)) x).
  step_run (copy_str_run s h2 q _ (fi_file f) (held_set _ _ _ _ (df_with_name (fi_name f) x) H2) Hlf) Acc h3 H3. mrun (df_upd_run s h3 q m p (df_with_loc (mkLoc (fi_file f) stale)) (df_with_name (fi_name f) x)).
  right. exists h3. split; [done|]. split; [by eapply held_set|done].
Qed.

Lemma install_pc_run s h q m p x cu d f : is_function fuel cu d f ->
  install_func_pc p d (at_ s h q (<[p := x]> m)) = Ret (0, at_ s h q (<[p := df_with_pc (fi_low f) (fi_high f) x]> m)).
Proof.
  intros [_ _ _ (lo & hi & form & E1 & E2 & El & Eh) _ _]. unfold install_func_pc. rewrite E1, E2, El, Eh. by mrun (df_upd_run s h q m p (df_with_pc lo (if form =? DW_FORM_addr then hi else u64 (lo + hi))) x).
Qed.

Lemma install_param_run s h q m p x cu d f : held h (<[p := x]> m) -> is_function fuel cu d f ->
  (install_func_param fuel raw p d (at_ s h q (<[p := x]> m)) = Halt /\ short 3 h) \/
  exists h' po ps, let x' := df_with_param (mkParam ps po (Z.of_nat (length (fi_params f)))) x in
    install_func_param fuel raw p d (at_ s h q (<[p := x]> m)) = Ret (0, at_ s h' q (<[p := x']> m)) /\ (held h' (<[p := x']> m) /\ spends 3 h h') /\ holds (po, ps, Z.of_nat (length (fi_params f))) (fi_params f).
Proof.
  intros Hh [_ _ _ _ (ds & rs & Hc & Hl & Hf & Ep & H15) _]. unfold install_func_param. pose proof (spends_refl 0 h) as Acc. step_alloc Hh Acc h1 H1. step_alloc H1 Acc h2 H2.
  assert (holds (raw, raw, 0) []) as H0 by (split_and!; [done|done|done|]; intros ???; by rewrite lookup_nil).
  assert (exists po ps, match dlv_ok (dwarf_child d) with Some c => lift (params_loop fuel fuel c (raw, raw, 0)) | None => mret (Some (raw, raw, 0)) end (at_ s h2 q (<[p := x]> m)) =
    Ret (Some (po, ps, Z.of_nat (length (fi_params f))), at_ s h2 q (<[p := x]> m)) /\ holds (po, ps, Z.of_nat (length (fi_params f))) (fi_params f)) as (po & ps & E & Hps).
  { unfold children in Hc. destruct (dlv_ok (dwarf_child d)) as [c|].
    - destruct (params_loop_run fuel c ds rs fuel (raw, raw, 0) [] Hc Hf Hl H0 ltac:(cbn; rewrite <- Ep; lia)) as ([[po ps] n] & E & Hn).
      cbn [app] in Hn. rewrite <- Ep in Hn. assert (n = Z.of_nat (length (fi_params f))) as -> by apply Hn. exists po, ps. split; [|done]. unfold lift. by rewrite E.
    - subst ds. apply Forall2_nil_inv_l in Hf as ->. cbn in Ep. rewrite Ep. by exists raw, raw. }
  rewrite (M_bind_run _ _ _ _ _ E). cbn iota. step_alloc H2 Acc h3 H3. mrun (df_upd_run s h3 q m p (df_with_param (mkParam ps po (Z.of_nat (length (fi_params f))))) x).
  right. exists h3, po, ps. split; [done|]. split; [split; [by eapply held_set|done]|done].
Qed.

Lemma handler_run s cu d f : held (d_heap s) (d_funcs s) -> is_function fuel cu d f ->
  (func_install_handler fuel raw stale cu d s = Halt /\ short 7 (d_heap s)) \/
  exists h p x, func_install_handler fuel raw stale cu d s = Ret (0, at_ s h p (<[p := x]> (d_funcs s))) /\
    (held h (<[p := x]> (d_funcs s)) /\ spends 7 (d_heap s) h) /\ p <> 0 /\ d_funcs s !! p = None /\ node_is f x /\ df_next x = func_head s.
Proof.
  intros Hh Hf. unfold func_install_handler. rewrite (if_new _ _ _ _ Hf).
  assert (s = at_ s (d_heap s) (func_head s) (d_funcs s)) as Es by (by destruct s). set (m := d_funcs s) in *. set (q := func_head s) in *. rewrite Es. clear Es.
  destruct (alloc_run s (d_heap s) q m sizeof_dbgi_func Hh ltac:(unfold sizeof_dbgi_func; lia)) as [[E Hs]|(p & h1 & E & [H1 Acc] & Hnz & Hnew & Hu)];
    [left; split; [apply (M_bind_halt _ _ _ E)|by apply (short_le 1); [lia|]]|rewrite (M_bind_run _ _ _ _ _ E); clear E].
  mrun (eq_refl (Ret (tt, at_ s h1 q (<[p := df_zero]> m)))).
  assert (held h1 (<[p := df_zero]> m)) as H1' by (split; [apply H1|]; intros r Hr; destruct (decide (r = p)) as [->|]; [done|]; rewrite lookup_insert_ne in Hr by done; by apply H1).
  step_run (install_loc_run s h1 q m p df_zero cu d f H1' Hf) Acc h2 H2. cbn [Z.ltb Z.compare]. set (x2 := df_with_loc _ _) in *.
  mrun (install_pc_run s h2 q m p x2 cu d f Hf). cbn [Z.ltb Z.compare]. set (x3 := df_with_pc _ _ x2) in *.
  destruct (install_param_run s h2 q m p x3 cu d f (held_set _ _ _ _ x3 H2) Hf) as [[E Hs]|(h3 & po & ps & E & [H3 Hs] & Hps)];
    [left; split; [apply (M_bind_halt _ _ _ E)|short_since Acc Hs]|rewrite (M_bind_run _ _ _ _ _ E); clear E].
  apply (spends_trans _ _ _ _ _ Acc) in Hs.
  cbn [Z.ltb Z.compare]. set (x4 := df_with_param _ x3) in *. mrun (eq_refl (Ret (at_ s h3 q (<[p := x4]> m), at_ s h3 q (<[p := x4]> m)))).
  cbn [func_head at_ with_funcs]. mrun (df_upd_run s h3 q m p (df_with_next q) x4). right. exists h3, p, (df_with_next q x4). split; [done|].
  split; [split; [by eapply held_set|done]|]. split; [done|]. split; [done|]. split; [|done]. split; cbn; try done; [by eexists|].
  eexists. split; [done|]. split; [done|]. cbn. apply Hps.
Qed.

Definition table (s : dbgi) (fs : list finfo) : Prop := held (d_heap s) (d_funcs s) /\ tab_is (d_tab s) fs.
(** The functions so far, the last one first. *)
Abbreviation add rs fs := (reverse (omap id rs) ++ fs).

(** Seven requests for each of them. *)
Definition cost (n : nat) : nat := 7 * n.
Lemma func_die_run s fs cu d r : table s fs -> func_die fuel cu d r ->
  (func_install_handler fuel raw stale cu d s = Halt /\ short (cost (length (omap id [r]))) (d_heap s)) \/
  exists s', func_install_handler fuel raw stale cu d s = Ret (0, s') /\ (table s' (add [r] fs) /\ d_dw s' = d_dw s) /\ spends (cost (length (omap id [r]))) (d_heap s) (d_heap s').
Proof.
  intros [Hh Ht] Hr. destruct r as [f|]; cbn in Hr.
  - destruct (handler_run s cu d f Hh Hr) as [?|(h & p & x & E & [Hh' Hsp] & Hnz & Hnew & Hn & Hx)]; [by left|right].
    eexists. split; [exact E|]. split; [|done]. split; [|done]. split; [done|]. change (tab_is (p, <[p := x]> (d_funcs s)) (f :: fs)). eapply tab_is_push; [exact Ht|done..].
  - right. exists s. unfold func_install_handler. rewrite Hr. split; [done|]. split; [done|]. apply spends_refl.
Qed.

Lemma dies_loop_run cu c ds rs n s fs : siblings c ds -> Forall2 (func_die fuel cu) ds rs -> (length ds <= S n)%nat -> table s fs ->
  (dies_loop n (func_install_handler fuel raw stale) cu c s = Halt /\ short (cost (length (omap id rs))) (d_heap s)) \/
  exists s', dies_loop n (func_install_handler fuel raw stale) cu c s = Ret (0, s') /\ (table s' (add rs fs) /\ d_dw s' = d_dw s) /\ spends (cost (length (omap id rs))) (d_heap s) (d_heap s').
Proof.
  intros Hs. revert rs n s fs. induction Hs as [d Hd|d d' ds Hd Hs IH]; intros rs n s fs Hf Hn Ht; apply Forall2_cons_inv_l in Hf as (r & rs' & Hr & Hf & ->).
  - apply Forall2_nil_inv_l in Hf as ->. pose proof (spends_refl 0 (d_heap s)) as Acc. destruct n; cbn [dies_loop]; step_run (func_die_run s fs cu d r Ht Hr) Acc s1 H1; rewrite Hd; right; by exists s1.
  - assert (add (r :: rs') fs = add rs' (add [r] fs)) as ->.
    { assert (omap id (r :: rs') = omap id [r] ++ omap id rs') as -> by (by destruct r). by rewrite reverse_app, <- app_assoc. }
    destruct n as [|n]; [inversion Hs; subst; cbn in Hn; lia|]. cbn [dies_loop]. pose proof (spends_refl 0 (d_heap s)) as Acc.
    assert (cost (length (omap id (r :: rs'))) = cost (length (omap id [r])) + cost (length (omap id rs')))%nat as -> by (unfold cost; destruct r; cbn; lia).
    step_run (func_die_run s fs cu d r Ht Hr) Acc s1 H1. destruct H1 as [H1 <-]. rewrite Hd. cbn [Z.ltb Z.compare].
    destruct (IH rs' n s1 _ Hf ltac:(cbn in Hn; lia) H1) as [[E Hsh]|(s2 & E & H2 & Hsp)]; [left; split; [done|exact (short_after _ _ _ _ Acc Hsh)]|right].
    exists s2. split; [done|]. split; [done|exact (spends_trans _ _ _ _ _ Acc Hsp)].
Qed.

Lemma walk_cu_run cu new s fs : unit_has fuel cu new -> table s fs ->
  (walk_all_die_cu fuel cu (func_install_handler fuel raw stale) s = Halt /\ short (cost (length new)) (d_heap s)) \/
  exists r s', walk_all_die_cu fuel cu (func_install_handler fuel raw stale) s = Ret (r, s') /\ r <> RET_ERR /\
    (table s' (reverse new ++ fs) /\ d_dw s' = d_dw s) /\ spends (cost (length new)) (d_heap s) (d_heap s').
Proof.
  intros Hu Ht. unfold walk_all_die_cu. destruct Hu as [->|c name -> -> He|c name ds rs -> -> He Hs Hl Hf].
  - right. exists RET_NOT_FOUND, s. split; [done|]. split; [done|]. split; [done|apply spends_refl].
  - unfold excluded in He. rewrite He. right. exists RET_NOT_FOUND, s. split; [done|]. split; [done|]. split; [done|apply spends_refl].
  - unfold excluded in He. rewrite He. destruct (dies_loop_run cu c ds rs fuel s fs Hs Hf Hl Ht) as [[-> ?]|(s' & -> & H')]; [by left|right]. by exists 0, s'.
Qed.

Lemma cus_loop_run w cus news n s fs : units w cus -> Forall2 (unit_has fuel) cus news -> (length cus <= n)%nat -> d_dw s = w -> table s fs ->
  (cus_loop fuel n (func_install_handler fuel raw stale) None s = Halt /\ short (cost (length (concat news))) (d_heap s)) \/
  exists s', cus_loop fuel n (func_install_handler fuel raw stale) None s = Ret (RET_OK, s') /\ table s' (reverse (concat news) ++ fs) /\
    spends (cost (length (concat news))) (d_heap s) (d_heap s').
Proof.
  intros Hu. revert news n s fs. induction Hu as [w w' E|w w' cu cus E Ecu Hu IH]; intros news n s fs Hf Hn Hw Ht.
  - apply Forall2_nil_inv_l in Hf as ->. right. exists (with_dw w' s). split; [|split; [done|apply spends_refl]]. destruct n; cbn [cus_loop]; unfold get, put, mbind, M_bind; by rewrite Hw, E.
  - apply Forall2_cons_inv_l in Hf as (new & news' & Hnew & Hf & ->). destruct n as [|n]; [cbn in Hn; lia|]. cbn [cus_loop].
    mrun (eq_refl (Ret (s, s))). rewrite Hw, E. mrun (eq_refl (Ret (tt, with_dw w' s))). rewrite Ecu. mrun (eq_refl (Ret (false, with_dw w' s))). cbn iota.
    assert (table (with_dw w' s) fs) as Ht' by exact Ht.
    destruct (walk_cu_run cu new (with_dw w' s) fs Hnew Ht') as [[Eh Hs]|(r & s1 & Er & Hr & [H1 Hd] & Acc)];
      (assert (cost (length (concat (new :: news'))) = cost (length new) + cost (length (concat news')))%nat as -> by (unfold cost; cbn; rewrite length_app; lia));
      [left; split; [apply (M_bind_halt _ _ _ Eh)|by apply (short_le (cost (length new))); [lia|]]|rewrite (M_bind_run _ _ _ _ _ Er)].
    rewrite (proj2 (Z.eqb_neq _ _) Hr). cbn [concat]. rewrite reverse_app, <- app_assoc.
    destruct (IH news' n s1 _ Hf ltac:(cbn in Hn; lia) ltac:(by rewrite Hd) H1) as [[E2 Hs]|(s2 & E2 & H2 & Hs)]; [left; split; [done|exact (short_after _ _ _ _ Acc Hs)]|right].
    exists s2. split; [done|]. split; [done|exact (spends_trans _ _ _ _ _ Acc Hs)].
Qed.

Lemma init_all_func_run w cus news s fs : units w cus -> Forall2 (unit_has fuel) cus news -> (length cus <= fuel)%nat -> d_dw s = w -> table s fs ->
  (dgbinfo_init_all_func fuel raw stale s = Halt /\ short (cost (length (concat news))) (d_heap s)) \/
  exists s', dgbinfo_init_all_func fuel raw stale s = Ret (0, s') /\ table s' (reverse (concat news) ++ fs).
Proof.
  intros Hu Hf Hn Hw Ht. unfold dgbinfo_init_all_func, walk_all_die. pose proof (spends_refl 0 (d_heap s)) as Acc.
  step_run (cus_loop_run w cus news fuel s fs Hu Hf Hn Hw Ht) Acc s1 H1. right. by exists s1.
Qed.
End Fill.

(** ** Line numbers *)
Section Lines.
Context `{DW : Dwarf} `{KH : KHeap} (fuel : nat).

Definition row_is (l : srcline) (r : Z * Z) : Prop := dlv_ok (dwarf_lineaddr l) = Some (r.1) /\ dlv_ok (dwarf_lineno l) = Some (r.2).
(** Row [i] of a table with ascending addresses is the one for [pc]. *)
Definition row_of (pc : Z) (rows : list (Z * Z)) (i : nat) (n : Z) : Prop :=
  exists a, rows !! i = Some (a, n) /\ a <= pc /\
    match rows !! S i with Some (b, _) => pc < b | None => pc < u64 (a + 4) end.
Definition ascending (rows : list (Z * Z)) : Prop := forall i j a n b m, (i <= j)%nat -> rows !! i = Some (a, n) -> rows !! j = Some (b, m) -> a <= b.

Lemma line_loop_run pc ls rows i n : Forall2 row_is ls rows -> ascending rows -> row_of pc rows i n -> line_loop pc ls = Some (Some n).
Proof.
  intros Hf. revert i. induction Hf as [|l r ls rows [Ha Hl] Hf IH]; intros i Hs (a & Hi & Hle & Hnx); [done|].
  cbn [line_loop]. rewrite Ha, Hl. destruct i as [|i].
  - injection Hi as ->. cbn [fst snd] in *. cbn [mbind option_bind] in *. cbn [lookup list_lookup] in Hnx.
    destruct Hf as [|l' r' ls' rows' [Hb _] _]; [|rewrite Hb; destruct r' as [b ?]]; cbn in *; rewrite (proj2 (Z.leb_le _ _) Hle), (proj2 (Z.ltb_lt _ _) Hnx); done.
  - cbn in Hi. assert (line_loop pc ls = Some (Some n)) as IH'.
    { apply (IH i); [|by exists a]. intros j k a1 n1 b m Hjk H1 H2. exact (Hs (S j) (S k) a1 n1 b m ltac:(lia) H1 H2). }
    destruct Hf as [|l' r' ls' rows' [Hb _] _]; [done|]. rewrite Hb, IH'. cbn. destruct r' as [b nb].
    assert (b <= a) by (apply (Hs 1%nat (S i) b nb a n); [lia|done|done]). cbn. rewrite (proj2 (Z.ltb_ge pc b)) by lia. by rewrite andb_false_r.
Qed.

(** An entry that is no function or does not contain [pc], and one that does. *)
Definition pc_range (d : die) (lo hi : Z) : Prop := exists h form, dlv_ok (dwarf_lowpc d) = Some lo /\ dlv_ok (dwarf_highpc_b d) = Some (h, form) /\ hi = if form =? DW_FORM_addr then h else u64 (lo + h).
Definition misses (pc : Z) (d : die) : Prop :=
  exists t, dlv_ok (dwarf_tag d) = Some t /\ (t <> DW_TAG_subprogram \/ exists lo hi, pc_range d lo hi /\ ~ lo <= pc < hi).
Definition hits (pc : Z) (d : die) : Prop := dlv_ok (dwarf_tag d) = Some DW_TAG_subprogram /\ exists lo hi, pc_range d lo hi /\ lo <= pc < hi.

Lemma miss_run cu d s : misses (targetpc s) d -> func_get_line_handler cu d s = Ret (0, s).
Proof.
  intros (t & Ht & Hm). unfold func_get_line_handler. mrun (eq_refl (Ret (s, s))). rewrite Ht. destruct (Z.eqb_spec t DW_TAG_subprogram) as [->|]; [|done].
  destruct Hm as [?|(lo & hi & (h & form & -> & -> & ->) & Hn)]; [done|]. cbn [negb]. cbn zeta. set (hi := if form =? DW_FORM_addr then h else _) in *.
  destruct (Z.ltb_spec (targetpc s) lo), (Z.leb_spec hi (targetpc s)); [done..|]. cbn. lia.
Qed.
Lemma line_hit_run cu d s ls rows i n : hits (targetpc s) d -> dlv_ok (dwarf_srclines cu) = Some ls -> Forall2 row_is ls rows -> ascending rows -> row_of (targetpc s) rows i n ->
  func_get_line_handler cu d s = Ret (0, with_target (s32 n) (targetpc s) (targetfile s) true s).
Proof.
  intros (Ht & lo & hi & (h & form & E1 & E2 & ->) & Hr) Hls Hf Hs Hi. unfold func_get_line_handler. mrun (eq_refl (Ret (s, s))). rewrite Ht, Z.eqb_refl, E1, E2. cbn [negb]. cbn zeta.
  rewrite (proj2 (Z.ltb_ge _ _)), (proj2 (Z.leb_gt _ _)) by lia. cbn [orb]. rewrite Hls. unfold mbind at 1, option_bind. by rewrite (line_loop_run _ _ _ _ _ Hf Hs Hi).
Qed.

Lemma misses_loop cu c ds s n : siblings c ds -> Forall (misses (targetpc s)) ds -> (length ds <= S n)%nat -> dies_loop n func_get_line_handler cu c s = Ret (0, s).
Proof.
  intros Hs. revert n. induction Hs as [d Hd|d d' ds Hd Hs IH]; intros n [Hm Hf]%Forall_cons Hn.
  - destruct n; cbn [dies_loop]; mrun (miss_run cu d s Hm); by rewrite Hd.
  - destruct n as [|n]; [inversion Hs; subst; cbn in Hn; lia|]. cbn [dies_loop]. mrun (miss_run cu d s Hm). rewrite Hd. cbn [Z.ltb Z.compare]. apply IH; [done|cbn in Hn; lia].
Qed.
Lemma hit_loop cu c d1 d d2 s n ls rows i ln : siblings c (d1 ++ d :: d2) -> Forall (misses (targetpc s)) d1 -> Forall (misses (targetpc s)) d2 -> hits (targetpc s) d ->
  (length (d1 ++ d :: d2) <= S n)%nat -> dlv_ok (dwarf_srclines cu) = Some ls -> Forall2 row_is ls rows -> ascending rows -> row_of (targetpc s) rows i ln ->
  dies_loop n func_get_line_handler cu c s = Ret (0, with_target (s32 ln) (targetpc s) (targetfile s) true s).
Proof.
  intros Hs H1 H2 Hd Hn Hls Hf Ha Hi. revert c n Hs Hn. induction d1 as [|e d1 IH]; intros c n Hs Hn; cbn [app length] in *.
  - inversion Hs as [? Hl|? d' ? Hl Hs']; subst.
    + destruct n; cbn [dies_loop]; mrun (line_hit_run cu d s ls rows i ln Hd Hls Hf Ha Hi); by rewrite Hl.
    + destruct n as [|n]; [inversion Hs'; subst; cbn in Hn; lia|]. cbn [dies_loop]. mrun (line_hit_run cu d s ls rows i ln Hd Hls Hf Ha Hi). rewrite Hl. cbn [Z.ltb Z.compare].
      apply (misses_loop cu d' d2 (with_target (s32 ln) (targetpc s) (targetfile s) true s)); [done|done|lia].
  - apply Forall_cons in H1 as [He H1]. inversion Hs as [? Hl Hx|? d' ? Hl Hs']; subst; [by destruct d1|].
    destruct n as [|n]; [rewrite length_app in Hn; cbn in Hn; lia|]. cbn [dies_loop]. mrun (miss_run cu e s He). rewrite Hl. cbn [Z.ltb Z.compare]. apply IH; [done|done|lia].
Qed.

(** The units before the one looked for do not carry the file's name. *)
Definition other_unit (file : list Z) (cu : die) : Prop := exists name, dlv_ok (dwarf_diename cu) = Some name /\ strstr name file = false.
Record line_unit (file : list Z) (pc : Z) (cu : die) (ln : Z) : Prop := {
  lu_name : exists name, dlv_ok (dwarf_diename cu) = Some name /\ strstr name file = true /\ excluded name = false;
  lu_dies : exists c d1 d d2, dwarf_child cu = DW_DLV_OK c /\ siblings c (d1 ++ d :: d2) /\ (length (d1 ++ d :: d2) <= S fuel)%nat /\
              Forall (misses pc) d1 /\ hits pc d /\ Forall (misses pc) d2;
  lu_rows : exists ls rows i, dlv_ok (dwarf_srclines cu) = Some ls /\ Forall2 row_is ls rows /\ ascending rows /\ row_of pc rows i ln }.

Lemma walk_found w cus n s : units w cus -> (length cus <= n)%nat -> d_dw s = w -> targetline_found s = true ->
  exists w', cus_loop fuel n func_get_line_handler (Some func_get_line_cu_filter) s = Ret (RET_OK, with_dw w' s).
Proof.
  intros Hu. revert n s. induction Hu as [w w' E|w w' cu cus E Ecu Hu IH]; intros n s Hn Hw Ht.
  - exists w'. destruct n; cbn [cus_loop]; unfold get, put, mbind, M_bind; by rewrite Hw, E.
  - destruct n as [|n]; [cbn in Hn; lia|]. cbn [cus_loop]. mrun (eq_refl (Ret (s, s))). rewrite Hw, E. mrun (eq_refl (Ret (tt, with_dw w' s))). rewrite Ecu.
    assert (func_get_line_cu_filter cu (with_dw w' s) = Ret (true, with_dw w' s)) as Ef by (unfold func_get_line_cu_filter; mrun (eq_refl (Ret (with_dw w' s, with_dw w' s))); cbn [targetline_found with_dw]; by rewrite Ht).
    mrun Ef. mrun (eq_refl (Ret (RET_OK, with_dw w' s))). cbn [Z.eqb RET_OK RET_ERR]. destruct (IH n (with_dw w' s) ltac:(cbn in Hn; lia) eq_refl Ht) as (w2 & E2). exists w2. exact E2.
Qed.

Lemma walk_line w pre cu post n s ln : units w (pre ++ cu :: post) -> (length (pre ++ cu :: post) <= n)%nat -> d_dw s = w -> targetline_found s = false ->
  Forall (other_unit (targetfile s)) pre -> line_unit (targetfile s) (targetpc s) cu ln ->
  exists w', cus_loop fuel n func_get_line_handler (Some func_get_line_cu_filter) s = Ret (RET_OK, with_dw w' (with_target (s32 ln) (targetpc s) (targetfile s) true s)).
Proof.
  intros Hu Hn Hw Hnf Hpre Hl. revert w n s Hu Hn Hw Hnf Hpre Hl. induction pre as [|c0 pre IH]; intros w n s Hu Hn Hw Hnf Hpre Hl; cbn [app length] in *;
    inversion Hu as [|? w' ? ? E Ecu Hu' E1 E2]; subst; (destruct n as [|n]; [lia|]); cbn [cus_loop]; mrun (eq_refl (Ret (s, s))); rewrite E; mrun (eq_refl (Ret (tt, with_dw w' s))); rewrite Ecu.
  - destruct Hl as [(name & Hnm & Hst & Hex) (c & d1 & d & d2 & Hc & Hsib & Hlen & Hm1 & Hd & Hm2) (ls & rows & i & Hls & Hrows & Ha & Hi)].
    assert (func_get_line_cu_filter cu (with_dw w' s) = Ret (false, with_dw w' s)) as Ef.
    { unfold func_get_line_cu_filter. mrun (eq_refl (Ret (with_dw w' s, with_dw w' s))). cbn [targetline_found targetfile with_dw]. by rewrite Hnf, Hnm, Hst. }
    mrun Ef. assert (walk_all_die_cu fuel cu func_get_line_handler (with_dw w' s) = Ret (0, with_target (s32 ln) (targetpc s) (targetfile s) true (with_dw w' s))) as Ew.
    { unfold walk_all_die_cu. rewrite Hc, Hnm. unfold excluded in Hex. rewrite Hex. by apply (hit_loop cu c d1 d d2 (with_dw w' s) fuel ls rows i ln). }
    mrun Ew. cbn [Z.eqb RET_ERR]. destruct (walk_found w' post n (with_target (s32 ln) (targetpc s) (targetfile s) true (with_dw w' s)) Hu' ltac:(lia) eq_refl eq_refl) as (w2 & E2). exists w2. exact E2.
  - apply Forall_cons in Hpre as [(name & Hnm & Hst) Hpre].
    assert (func_get_line_cu_filter c0 (with_dw w' s) = Ret (true, with_dw w' s)) as Ef.
    { unfold func_get_line_cu_filter. mrun (eq_refl (Ret (with_dw w' s, with_dw w' s))). cbn [targetline_found targetfile with_dw]. by rewrite Hnf, Hnm, Hst. }
    mrun Ef. mrun (eq_refl (Ret (RET_OK, with_dw w' s))). cbn [Z.eqb RET_OK RET_ERR]. exact (IH w' n (with_dw w' s) Hu' ltac:(lia) eq_refl Hnf Hpre Hl).
Qed.
End Lines.

(** C13: reading the debug information of an image fills a table in which every
    address is found in the function of a recorded unit that contains it, with
    its name, its file and the frame offsets and sizes of its parameters, and
    every name at the start of its function; of several the one read last.  The
    image is one libdwarf reads without an error, with names shorter than 512
    bytes and at most 15 parameters; the machine stops only when the heap
    cannot serve the seven requests that each function takes. *)
Theorem dbginfo_table `{DW : Dwarf} `{KH : KHeap} (fuel : nat) (raw : list Z) (stale : Z) (s : dbgi) (cus : list die) (news : list (list finfo))
    (Hraw : length raw = 16%nat) (Hempty : func_head s = 0 /\ d_funcs s = ∅) (Hheap : heap_ok (d_heap s))
    (Hu : units (d_dw s) cus) (Hn : (length cus <= fuel)%nat) (Hf : Forall2 (unit_has fuel) cus news) :
  (dgbinfo_init_all_func fuel raw stale s = Halt /\ short (7 * length (concat news)) (d_heap s)) \/
  exists s', dgbinfo_init_all_func fuel raw stale s = Ret (0, s') /\ let fs := reverse (concat news) in
    (forall pc, dgbinfo_get_func_loc pc (d_tab s') = Ret (option_map (fun f => (Some (fi_name f), fi_file f)) (List.find (fi_covers pc) fs))) /\
    (forall pc, match List.find (fi_covers pc) fs with
                | None => dgbinfo_get_func_param pc (d_tab s') = Ret None
                | Some f => exists po ps, dgbinfo_get_func_param pc (d_tab s') = Ret (Some (Z.of_nat (length (fi_params f)), po, ps)) /\
                    forall i o z, fi_params f !! i = Some (o, z) -> po !! i = Some o /\ ps !! i = Some z
                end) /\
    (forall name, dbgsym_func_name2addr name (d_tab s') = Ret (option_map fi_low (List.find (fun f => bool_decide (fi_name f = name)) fs))).
Proof.
  destruct Hempty as [Ep Em]. assert (table s []) as Ht.
  { split; [split; [done|]; rewrite Em; intros p; rewrite lookup_empty; by intros [? ?]|]. exists []. split; [apply NoDup_nil_2|exact Ep]. }
  destruct (init_all_func_run fuel raw stale Hraw _ cus news s [] Hu Hf Hn eq_refl Ht) as [?|(s' & E & _ & Ht')]; [by left|right].
  rewrite app_nil_r in Ht'. exists s'. split; [done|]. split_and!; intros x; [by apply get_func_loc_run|by apply get_func_param_run|by apply name2addr_run].
Qed.

(** The line of an address in a file is that of the row of its unit's line
    table that contains the address. *)
Theorem lineno_found `{DW : Dwarf} `{KH : KHeap} (fuel : nat) (s : dbgi) (pc : Z) (file : list Z) (pre post : list die) (cu : die) (ln : Z)
    (Hu : units (d_dw s) (pre ++ cu :: post)) (Hn : (length (pre ++ cu :: post) <= fuel)%nat)
    (Hpre : Forall (other_unit file) pre) (Hcu : line_unit fuel file pc cu ln) :
  exists s', dbginfo_get_func_lineno fuel pc file s = Ret (Some (s32 ln), s') /\ d_tab s' = d_tab s /\ d_heap s' = d_heap s.
Proof.
  unfold dbginfo_get_func_lineno, walk_all_die. mrun (eq_refl (Ret (tt, with_target (targetline s) pc file false s))).
  destruct (walk_line fuel _ pre cu post fuel (with_target (targetline s) pc file false s) ln Hu Hn eq_refl eq_refl Hpre Hcu) as (w' & E). mrun E.
  eexists. split; [reflexivity|]. done.
Qed.

(** Where functions have distinct names and disjoint ranges, the address of a
    name leads back to the name. *)
Theorem symbol_roundtrip (t : functab) (fs : list finfo) (f : finfo) (Ht : tab_is t fs) (Hf : f ∈ fs) (Hne : fi_low f < fi_high f)
    (Hname : forall g, g ∈ fs -> fi_name g = fi_name f -> g = f)
    (Hdisj : forall g pc, g ∈ fs -> fi_covers pc g = true -> fi_covers pc f = true -> g = f) :
  dbgsym_func_name2addr (fi_name f) t = Ret (Some (fi_low f)) /\
  forall pc, fi_low f <= pc < fi_high f -> dgbinfo_get_func_loc pc t = Ret (Some (Some (fi_name f), fi_file f)).
Proof.
  assert (forall P, P f = true -> (forall g, g ∈ fs -> P g = true -> g = f) -> List.find P fs = Some f) as Hfind.
  { intros P HP Hu. destruct (List.find P fs) as [g|] eqn:E.
    - apply find_some in E as [Hg HPg]. f_equal. apply Hu; [by apply list_elem_of_In|done].
    - pose proof (find_none _ _ E f (proj1 (list_elem_of_In _ _) Hf)). congruence. }
  split.
  - rewrite (name2addr_run _ _ _ Ht), Hfind; [done|by apply bool_decide_eq_true|]. intros g Hg ?%bool_decide_eq_true. by apply Hname.
  - intros pc Hpc. assert (fi_covers pc f = true) as Hc by (unfold fi_covers; lia). rewrite (get_func_loc_run _ _ _ Ht), Hfind; [done|done|]. intros g Hg Hgc. by apply (Hdisj g pc).
Qed.

(** ** A small image *)
(** One unit [src/a.c] with the function [f] at 0x1000, whose parameter is of
    a defined type of four bytes, and a variable. *)
Module ImageDemo.
Definition name_a : list Z := [115; 114; 99; 47; 97; 46; 99].
Definition name_f : list Z := [102].
Definition by_die {A} (l : list (Z * A)) (d : Z) : dlv A := match List.find (fun x => x.1 =? d) l with Some (_, a) => DW_DLV_OK a | None => DW_DLV_NO_ENTRY end.
Definition by_attr {A} (l : list (Z * Z * A)) (a : Z * Z) : dlv A := match List.find (fun x => bool_decide (x.1 = a)) l with Some (_, v) => DW_DLV_OK v | None => DW_DLV_NO_ENTRY end.
(** 1: the unit, 2: [f], 3: its parameter, 4: the defined type, 5: its base, 6: the variable. *)
#[export] Instance image : Dwarf := {|
  dwarf := bool; die := Z; attribute := Z * Z; srcline := Z * Z;
  dwarf_next_cu_header_d w := if w then (DW_DLV_OK tt, false) else (DW_DLV_NO_ENTRY, true);
  dwarf_siblingof_b w := DW_DLV_OK 1;
  dwarf_child := by_die [(1, 2); (2, 3)];
  dwarf_siblingof := by_die [(2, 6)];
  dwarf_tag := by_die [(1, 0x11); (2, DW_TAG_subprogram); (3, DW_TAG_formal_parameter); (4, DW_TAG_typedef); (5, 0x24); (6, 0x34)];
  dwarf_diename := by_die [(1, name_a); (2, name_f)];
  dwarf_lowpc := by_die [(2, 0x1000)];
  dwarf_highpc_b := by_die [(2, (0x40, 0x0b))];
  dwarf_attr d a := by_attr [((3, DW_AT_type), (3, DW_AT_type)); ((4, DW_AT_type), (4, DW_AT_type)); ((5, DW_AT_byte_size), (5, DW_AT_byte_size)); ((3, DW_AT_location), (3, DW_AT_location))] (d, a);
  dwarf_global_formref := by_attr [((3, DW_AT_type), 4); ((4, DW_AT_type), 5)];
  dwarf_offdie off := DW_DLV_OK off;
  dwarf_formudata := by_attr [((5, DW_AT_byte_size), 4)];
  dwarf_loclist_n := by_attr [((3, DW_AT_location), [[(DW_OP_fbreg, 2 ^ 64 - 20)]])];
  dwarf_srclines d := DW_DLV_OK [(0x1000, 3); (0x1010, 4); (0x1020, 7)];
  dwarf_lineaddr l := DW_DLV_OK (l.1);
  dwarf_lineno l := DW_DLV_OK (l.2) |}.
Definition f_info : finfo := mkFi name_f name_a 0x1000 0x1040 [(-20, 4)].
#[export] Instance heap_ : KHeap := kmem_heap demo_root_pool demo_cache_pool.
Definition start : dbgi := @mkDbgi image heap_ true demo_slabs 0 ∅ 0 0 [] false.

Lemma f_children : siblings 2 [2; 6].
Proof. apply (@siblings_next image 2 6 [6]); [reflexivity|]. by apply (@siblings_last image 6). Qed.
Lemma image_units : units true [1].
Proof. apply (@units_next image true false 1 []); [reflexivity|reflexivity|]. by apply (@units_end image false true). Qed.
Lemma f_is_function : is_function 2 1 2 f_info.
Proof.
  split; [reflexivity|reflexivity|reflexivity|by eexists _, _, _| |cbn; lia].
  exists [3], [Some (-20, 4)]. split; [by apply (@siblings_last image 3)|]. split; [cbn; lia|]. split; [|cbn; split; [done|lia]]. apply Forall2_cons. split; [|by apply Forall2_nil].
  split; [reflexivity|eexists 4, 5, _, _|by eexists _, _, _]. split; [reflexivity|]. split; [|done]. eapply wraps_one; [reflexivity|reflexivity|reflexivity|]. by eapply wraps_none.
Qed.
Lemma unit_has_f : unit_has 2 1 [f_info].
Proof.
  change [f_info] with (omap id [Some f_info; None]). eapply unit_funcs; [reflexivity|reflexivity|reflexivity|apply f_children|cbn; lia|].
  apply Forall2_cons. split; [apply f_is_function|]. apply Forall2_cons. split; [reflexivity|by apply Forall2_nil].
Qed.
Lemma start_heap : heap_ok (d_heap start).
Proof. exact kmem_demo_ok. Qed.
End ImageDemo.

Lemma dbginfo_table_witness :
  exists s', dgbinfo_init_all_func 2 (replicate 16 0) 0 ImageDemo.start = Ret (0, s') /\ dbgsym_func_name2addr ImageDemo.name_f (d_tab s') = Ret (Some 0x1000).
Proof.
  destruct (dbginfo_table 2 (replicate 16 0) 0 ImageDemo.start [1] [[ImageDemo.f_info]]) as [[_ H]|(s' & E & _ & _ & H)];
    [reflexivity|split; reflexivity|exact ImageDemo.start_heap|exact ImageDemo.image_units|cbn; lia| |vm_compute in H; discriminate H|exists s'; split; [exact E|exact (H ImageDemo.name_f)]].
  apply Forall2_cons. split; [exact ImageDemo.unit_has_f|by apply Forall2_nil].
Defined.
