(* ===== verification/Functrace.v ===== *)
(** * The function trace (ukern/src/kmon/functrace.c)

    The list of calls in progress, the durations, and the records the trace
    buffer gets: the function's name from the debug information and the values
    of its parameters, read from the caller's frame.  The switch and the
    buffer are those the monitor's commands use. *)
From S2P Require Import Prelude Config Bitmap Page Slab SlabSpec Kmem Heap Strtol Print Readline Tracebuf Machine Timer Breakpoint Monitor Dbginfo.

Record ftrace_half := mkHalf { tick_start : Z; h_pc : Z; h_next : Z }.
Definition sizeof_ftrace_half : Z := 24.
Definition NOINFO : list Z := [40; 60; 110; 111; 105; 110; 102; 111; 62; 41; 10; 0].      (* "(<noinfo>)\n" *)
Definition US_FMT : list Z := [91; 37; 108; 100; 32; 117; 115; 93].                         (* "[%ld us]" *)
Definition VOID : list Z := [118; 111; 105; 100; 0].

Section Functrace.
Context `{MA : Machine} (root_pool cache_pool : Z).
(** What the stack and fresh memory hold: [argstr], [buf] and [argv]. *)
Context (raw_str raw_buf raw_argv : list Z).

Record ftr := mkFtr {
  t_dev : mstate; t_khz : Z; t_heap : slab_state page_state; t_mem : gmap Z Z; t_tab : functab;
  head_half : Z; halves : gmap Z ftrace_half; in_functrace : bool; t_disabled : bool; t_buf : tracebuf }.
Abbreviation F := (M ftr).
Definition with_tdev (d : mstate) (s : ftr) : ftr := mkFtr d (t_khz s) (t_heap s) (t_mem s) (t_tab s) (head_half s) (halves s) (in_functrace s) (t_disabled s) (t_buf s).
Definition with_theap (h : slab_state page_state) (s : ftr) : ftr := mkFtr (t_dev s) (t_khz s) h (t_mem s) (t_tab s) (head_half s) (halves s) (in_functrace s) (t_disabled s) (t_buf s).
Definition with_halves (p : Z) (m : gmap Z ftrace_half) (s : ftr) : ftr := mkFtr (t_dev s) (t_khz s) (t_heap s) (t_mem s) (t_tab s) p m (in_functrace s) (t_disabled s) (t_buf s).
Definition with_in (b : bool) (s : ftr) : ftr := mkFtr (t_dev s) (t_khz s) (t_heap s) (t_mem s) (t_tab s) (head_half s) (halves s) b (t_disabled s) (t_buf s).
Definition with_tbuf (hb : slab_state page_state * tracebuf) (s : ftr) : ftr := mkFtr (t_dev s) (t_khz s) (hb.1) (t_mem s) (t_tab s) (head_half s) (halves s) (in_functrace s) (t_disabled s) (hb.2).
Definition on_tdev {A} (m : M mstate A) : F A := zoom t_dev with_tdev m.
Definition on_theap {A} (m : M (slab_state page_state) A) : F A := zoom t_heap with_theap m.
Definition on_tbuf {A} (m : M (slab_state page_state * tracebuf) A) : F A := zoom (fun s => (t_heap s, t_buf s)) with_tbuf m.

(** ** The calls in progress *)
Definition ftrace_half_call_add (pc tick_start : Z) : F Z :=
  fh ← on_theap (kalloc sizeof_ftrace_half);
  if fh =? 0 then mret (-1)
  else modify (fun s => with_halves fh (<[fh := mkHalf tick_start pc (head_half s)]> (halves s)) s);; mret 0.

(** [pre->next = v], where [None] is the list head. *)
Definition set_hnext (pre : option Z) (v : Z) : F () := fun s =>
  match pre with
  | None => Ret (tt, with_halves v (halves s) s)
  | Some q => match halves s !! q with None => Fault | Some x => Ret (tt, with_halves (head_half s) (<[q := mkHalf (tick_start x) (h_pc x) v]> (halves s)) s) end
  end.
Fixpoint pop_loop (fuel : nat) (pc : Z) (pre : option Z) (fh : Z) : F Z :=
  if fh =? 0 then mret 0
  else
    s ← get;
    match fuel, halves s !! fh with
    | O, _ => lift Diverge
    | _, None => fault
    | S fuel', Some x => if h_pc x =? pc then set_hnext pre (h_next x);; mret fh else pop_loop fuel' pc (Some fh) (h_next x)
    end.
Definition ftrace_half_call_pop (pc : Z) : F Z := s ← get; pop_loop (size (halves s)) pc None (head_half s).

(** ** The text of the arguments: [None] for [showparam == 0] *)
Fixpoint args_loop (n : nat) (m : gmap Z Z) (callerfp argc : Z) (argoff argsize : list Z) (i : Z) (argv argstr : list Z) (argslen : Z) : outcome (list Z * list Z * Z) :=
  match n with
  | O => Ret (argv, argstr, argslen)
  | S n' =>
      sz ← rd argsize i;
      argv ← (if (sz =? 1) || (sz =? 2) || (sz =? 4) || (sz =? 8)
              then off ← rd argoff i; v ← ld (Z.to_nat sz) (u64 (callerfp + off)) m; wr argv i v
              else Ret argv);
      v ← rd argv i;
      '(argstr, argslen) ← sprintf_at argstr argslen [37; 108; 100; 0] [ASlot v];
      if 64 <=? argslen then Ret (argv, argstr, argslen)
      else if i =? argc - 1 then Ret (argv, argstr, argslen)
      else argstr ← wr argstr argslen 44; args_loop n' m callerfp argc argoff argsize (i + 1) argv argstr (argslen + 1)
  end.
Definition trace_args (pc fp : Z) : F (option (list Z)) :=
  s ← get;
  r ← lift (dgbinfo_get_func_param pc (t_tab s));
  match r with
  | None => mret None
  | Some (argc, argoff, argsize) =>
      assertM ((0 <=? argc) && (argc <=? 8));;
      if argc =? 0 then argstr ← lift (store raw_str 0 VOID); mret (Some argstr)
      else
        argv ← on_theap (kalloc ((argc + 1) * 8));
        if argv =? 0 then fault
        else
          callerfp ← lift (ld 8 fp (t_mem s));
          assertM (fp <? callerfp);;
          '(vals, argstr, argslen) ← lift (args_loop (Z.to_nat argc) (t_mem s) callerfp argc argoff argsize 0 (take (Z.to_nat argc + 1) raw_argv) raw_str 0);
          _ ← lift (wr vals argc 0);
          argstr ← lift (wr argstr argslen 0);
          on_theap (kfree cache_pool argv);; mret (Some argstr)
  end.

(** ** A record: [pre] with [pre_args], then name or address and arguments *)
Definition trace_record (pre : list Z) (pre_args : list va_slot) (pc : Z) (funcname : option (list Z)) (argstr : option (list Z)) : F () :=
  p ← on_theap (kalloc 128);
  if p =? 0 then fault
  else
    let '(f1, a1) := match funcname with Some n => ([37; 115], AStr n) | None => ([37; 108; 120], ASlot pc) end in
    let '(f2, a2) := match argstr with Some a => ([40; 37; 115; 41; 10; 0], [AStr (c_bytes a)]) | None => (NOINFO, []) end in
    '(_, buf) ← lift (sprintf raw_buf (pre ++ f1 ++ f2) (pre_args ++ a1 :: a2));
    on_tbuf (tracebuf_insert cache_pool (c_bytes buf));;
    on_theap (kfree cache_pool p).
(** Name and arguments; a table entry without a name would be a [NULL] string. *)
Definition trace_call (pre : list Z) (pre_args : list va_slot) (pc fp : Z) : F () :=
  s ← get;
  loc ← lift (dgbinfo_get_func_loc pc (t_tab s));
  name ← match loc with None => mret None | Some (None, _) => fault | Some (Some n, _) => mret (Some n) end;
  argstr ← trace_args pc fp;
  trace_record pre pre_args pc name argstr.

(** ** The hooks *)
Definition ftrace_start (pc lr fp : Z) : F () :=
  s ← get;
  if t_disabled s || in_functrace s then mret tt
  else
    modify (with_in true);;
    tick ← on_tdev arch_counter_get_cntpct;
    r ← ftrace_half_call_add pc tick;
    if r <? 0 then halt else modify (with_in false).

Definition ftrace_end (pc lr fp : Z) : F () :=
  s ← get;
  if t_disabled s || in_functrace s then mret tt
  else
    modify (with_in true);;
    tick ← on_tdev arch_counter_get_cntpct;
    fh ← ftrace_half_call_pop pc;
    if fh =? 0 then halt
    else
      s ← get;
      match halves s !! fh with
      | None => fault
      | Some x =>
          let execus := tick2ns (t_khz s) (u64 (tick - tick_start x)) / 1000 in
          on_theap (kfree cache_pool fh);;
          modify (fun s => with_halves (head_half s) (delete fh (halves s)) s);;
          (if execus <? 2000 then mret tt else trace_call US_FMT [ASlot execus] pc fp);;
          modify (with_in false)
      end.

Definition functrace (pc lr fp : Z) : F () :=
  s ← get;
  if t_disabled s || in_functrace s then mret tt
  else
    modify (with_in true);;
    trace_call [] [] pc fp;;
    modify (with_in false).

(** [None] in the buffer's place is left out: the pointer stays as it was. *)
Definition init_functrace (raw_cur : Z) (raw_data : list Z) : F Z :=
  r ← on_theap (alloc_tracebuf cache_pool raw_cur raw_data 2048);
  match r with None => mret (-1) | Some tb => modify (fun s => with_tbuf (t_heap s, tb) s);; mret 0 end.
End Functrace.

(** ** The list of calls in progress: address and start, the latest first *)
Fixpoint hchain (m : gmap Z ftrace_half) (p : Z) (qs : list Z) (cs : list (Z * Z)) : Prop :=
  match qs, cs with
  | [], [] => p = 0
  | q :: qs', c :: cs' => p = q /\ q <> 0 /\ exists x, m !! q = Some x /\ h_pc x = c.1 /\ tick_start x = c.2 /\ hchain m (h_next x) qs' cs'
  | _, _ => False
  end.

Lemma hchain_in m p qs cs q : hchain m p qs cs -> q ∈ qs -> q <> 0 /\ is_Some (m !! q).
Proof.
  revert p cs. induction qs as [|q' qs IH]; intros p [|c cs]; cbn; [by intros _ ?%elem_of_nil|by intros _ ?%elem_of_nil|done|].
  intros (-> & Hnz & x & Hx & _ & _ & Hc) [->|Hq]%elem_of_cons; [by eauto|by eapply IH].
Qed.
(** Nodes outside the chain do not matter. *)
Lemma hchain_ext m m' p qs cs : hchain m p qs cs -> (forall q, q ∈ qs -> m' !! q = m !! q) -> hchain m' p qs cs.
Proof.
  revert p cs. induction qs as [|q qs IH]; intros p [|c cs]; cbn; try done.
  intros (-> & Hnz & x & Hx & Hp & Ht & Hc) He. split; [done|]. split; [done|]. exists x. rewrite He by (apply elem_of_cons; by left). split_and!; try done. apply IH; [done|]. intros q' Hq'. apply He, elem_of_cons. by right.
Qed.
Lemma hchain_size m p qs cs : NoDup qs -> hchain m p qs cs -> (length qs <= size m)%nat.
Proof.
  intros Hnd Hc. rewrite <- (size_list_to_set (C := gset Z) qs) by done. rewrite <- size_dom. apply subseteq_size.
  intros q Hq%elem_of_list_to_set. apply elem_of_dom. by eapply hchain_in.
Qed.
Lemma hchain_length m p qs cs : hchain m p qs cs -> length qs = length cs.
Proof. revert p cs. induction qs as [|q qs IH]; intros p [|c cs]; cbn; try done. intros (_ & _ & x & _ & _ & _ & Hc). f_equal. by eapply IH. Qed.

(** Unlinking the node behind [q1]. *)
Definition unlinked (m : gmap Z ftrace_half) (p : Z) (q1 : list Z) (nx : Z) : Z * gmap Z ftrace_half :=
  match last q1 with
  | None => (nx, m)
  | Some r => (p, match m !! r with Some x => <[r := mkHalf (tick_start x) (h_pc x) nx]> m | None => m end)
  end.
Lemma hchain_unlink m p q1 q q2 c1 c c2 x : NoDup (q1 ++ q :: q2) -> length q1 = length c1 -> hchain m p (q1 ++ q :: q2) (c1 ++ c :: c2) -> m !! q = Some x ->
  let '(p', m') := unlinked m p q1 (h_next x) in hchain m' p' (q1 ++ q2) (c1 ++ c2).
Proof.
  revert p c1. induction q1 as [|r q1 IH]; intros p [|c0 c1] Hnd Hl Hc Hx; try done.
  - cbn in Hc. destruct Hc as (_ & _ & y & Hy & _ & _ & Hc). assert (y = x) as -> by congruence. exact Hc.
  - cbn [app hchain] in Hc. destruct Hc as (-> & Hnz & y & Hy & Hp & Ht & Hc). cbn [app] in Hnd. apply NoDup_cons in Hnd as [Hr Hnd].
    injection Hl as Hl. specialize (IH (h_next y) c1 Hnd Hl Hc Hx). unfold unlinked in *. destruct q1 as [|r1 q1].
    + cbn in IH. destruct c1; [|done]. cbn [app last] in *. rewrite Hy. cbn [hchain]. split; [done|]. split; [done|]. eexists. rewrite lookup_insert_eq. split; [done|]. split; [done|]. split; [done|].
      cbn. eapply hchain_ext; [exact IH|]. intros q' Hq'. rewrite lookup_insert_ne; [done|]. intros ->. set_solver.
    + change (last (r :: r1 :: q1)) with (last (r1 :: q1)). destruct (last (r1 :: q1)) as [z|] eqn:El; [|by apply last_None in El].
      assert (z ∈ r1 :: q1) as Hz by (apply last_Some in El as (l' & ->); set_solver).
      assert (r <> z) as Hrz by (intros ->; apply Hr; set_solver).
      cbn [app hchain]. split; [done|]. split; [done|]. exists y. split; [destruct (m !! z); [rewrite lookup_insert_ne by done|]; done|]. split; [done|]. split; [done|]. exact IH.
Qed.

Lemma M_ext_bind {S A B} (m m' : M S A) (f : A -> M S B) s : m s = m' s -> (m ≫= f) s = (m' ≫= f) s.
Proof. unfold mbind, M_bind. by intros ->. Qed.

Section Pending.
Context `{MA : Machine} (root_pool cache_pool : Z).
#[local] Instance kmem : KHeap := kmem_heap root_pool cache_pool.

Lemma pop_loop_run (s : ftr) pc t q c1 c2 q2 q1 : forall n pre p, hchain (halves s) p (q1 ++ q :: q2) (c1 ++ (pc, t) :: c2) -> length q1 = length c1 -> pc ∉ c1.*1 -> (length (q1 ++ q :: q2) <= n)%nat ->
  exists x, halves s !! q = Some x /\ tick_start x = t /\
    pop_loop n pc pre p s = (set_hnext (match last q1 with Some r => Some r | None => pre end) (h_next x);; mret q) s.
Proof.
  revert c1. induction q1 as [|r q1 IH]; intros [|[pc0 t0] c1] n pre p Hc Hl Hni Hn; try done; (destruct n as [|n]; [cbn in Hn; lia|]).
  - cbn in Hc. destruct Hc as (-> & Hnz & x & Hx & Hp & Ht & _). exists x. split; [done|]. split; [done|]. cbn [pop_loop]. rewrite (proj2 (Z.eqb_neq _ _) Hnz).
    mrun (eq_refl (Ret (s, s))). rewrite Hx. cbn [fst] in Hp. by rewrite (proj2 (Z.eqb_eq _ _) Hp).
  - cbn [app hchain] in Hc. destruct Hc as (-> & Hnz & y & Hy & Hp & _ & Hc). cbn in Hni. destruct (IH c1 n (Some r) (h_next y) Hc ltac:(by injection Hl) ltac:(set_solver) ltac:(cbn in Hn; lia)) as (x & Hx & Ht & E).
    exists x. split; [done|]. split; [done|]. cbn [pop_loop]. rewrite (proj2 (Z.eqb_neq _ _) Hnz). mrun (eq_refl (Ret (s, s))). rewrite Hy. cbn [fst] in Hp.
    rewrite (proj2 (Z.eqb_neq (h_pc y) pc)) by (intros Heq; set_solver). rewrite E. destruct q1 as [|z q1]; [done|]. change (last (r :: z :: q1)) with (last (z :: q1)). by destruct (last (z :: q1)) eqn:El; [|apply last_None in El].
Qed.

Lemma pop_run (s : ftr) pc t c1 c2 qs : NoDup qs -> hchain (halves s) (head_half s) qs (c1 ++ (pc, t) :: c2) -> pc ∉ c1.*1 ->
  exists q q1 q2 x p' m', qs = q1 ++ q :: q2 /\ halves s !! q = Some x /\ tick_start x = t /\ q <> 0 /\
    ftrace_half_call_pop pc s = Ret (q, with_halves p' m' s) /\ hchain m' p' (q1 ++ q2) (c1 ++ c2) /\
    (forall r, is_Some (m' !! r) <-> is_Some (halves s !! r)) /\ exists x', m' !! q = Some x' /\ tick_start x' = t.
Proof.
  intros Hnd Hc Hni. pose proof (hchain_length _ _ _ _ Hc) as Hl. rewrite length_app in Hl. cbn in Hl.
  destruct (lookup_lt_is_Some_2 qs (length c1)) as [q Hq]; [lia|]. apply take_drop_middle in Hq as Eq. set (q1 := take _ qs) in *. set (q2 := drop _ qs) in *.
  assert (length q1 = length c1) as Hl1 by (unfold q1; rewrite length_take; lia). rewrite <- Eq in Hnd, Hc |- *.
  destruct (pop_loop_run s pc t q c1 c2 q2 q1 (size (halves s)) None (head_half s) Hc Hl1 Hni (hchain_size _ _ _ _ Hnd Hc)) as (x & Hx & Ht & E).
  pose proof (hchain_unlink _ _ _ _ _ _ _ _ _ Hnd Hl1 Hc Hx) as Hu.
  assert (exists r0, match last q1 with Some r => exists y, halves s !! r = Some y /\ r <> q /\ r0 = Some y | None => r0 = None end) as [r0 Hr0].
  { destruct (last q1) as [r|] eqn:El; [|by exists None]. apply last_Some in El as (l' & El). destruct (hchain_in _ _ _ _ r Hc ltac:(rewrite El; set_solver)) as (_ & y & Hy).
    exists (Some y), y. split; [done|]. split; [|done]. intros ->. rewrite El in Hnd. apply NoDup_app in Hnd as (_ & Hd & _). apply (Hd q); set_solver. }
  exists q, q1, q2, x. destruct (unlinked (halves s) (head_half s) q1 (h_next x)) as [p' m'] eqn:Eu. exists p', m'. split; [done|]. split; [done|]. split; [done|].
  split; [apply (hchain_in _ _ _ _ q Hc); set_solver|]. unfold unlinked in Eu. unfold ftrace_half_call_pop. mrun (eq_refl (Ret (s, s))). rewrite E. clear E.
  destruct (last q1) as [r|].
  - destruct Hr0 as (y & Hy & Hrq & _). rewrite Hy in Eu. injection Eu as <- <-. split; [unfold set_hnext, mbind, M_bind; by rewrite Hy|]. split; [done|]. split.
    + intros z. destruct (decide (z = r)) as [->|]; [rewrite lookup_insert_eq, Hy; split; intros; by eexists|]. by rewrite lookup_insert_ne.
    + exists x. by rewrite lookup_insert_ne.
  - injection Eu as <- <-. split; [done|]. split; [done|]. split; [done|]. by exists x.
Qed.

(** The calls [cs] are in progress. *)
Definition pending (s : ftr) (cs : list (Z * Z)) : Prop :=
  kmem_ok root_pool cache_pool (t_heap s) /\ (forall q, is_Some (halves s !! q) -> kmem_used (t_heap s) q) /\
  exists qs, NoDup qs /\ hchain (halves s) (head_half s) qs cs.
(** What the counter shows, and the device after reading it. *)
Definition count_now (s : ftr) : Z := u64 (sys_read cntpct_el0 (t_dev s)).1.
Definition dev_read (s : ftr) : mstate := (sys_read cntpct_el0 (t_dev s)).2.
Lemma count_run s : on_tdev arch_counter_get_cntpct s = Ret (count_now s, with_tdev (dev_read s) s).
Proof. unfold on_tdev, zoom, arch_counter_get_cntpct, read_sysreg, count_now, dev_read. by destruct (sys_read cntpct_el0 (t_dev s)). Qed.

Lemma ftrace_start_run s cs pc lr fp : pending s cs -> t_disabled s = false -> in_functrace s = false ->
  (ftrace_start pc lr fp s = Halt /\ short 1 (t_heap s)) \/
  exists s', ftrace_start pc lr fp s = Ret (tt, s') /\ pending s' ((pc, count_now s) :: cs) /\ in_functrace s' = false /\ t_disabled s' = false /\ t_buf s' = t_buf s /\
    exists p, ~ kmem_used (t_heap s) p /\ forall q, kmem_used (t_heap s') q <-> kmem_used (t_heap s) q \/ q = p.
Proof.
  intros (Hok & Hu & qs & Hnd & Hc) Hd Hi. unfold ftrace_start. mrun (eq_refl (Ret (s, s))). rewrite Hd, Hi. cbn [orb]. mrun (eq_refl (Ret (tt, with_in true s))). mrun (count_run (with_in true s)).
  set (s1 := with_tdev _ _). change (count_now (with_in true s)) with (count_now s).
  destruct (kalloc_small_spec root_pool cache_pool (t_heap s) sizeof_ftrace_half Hok ltac:(unfold sizeof_ftrace_half; lia)) as [[E Hs]|(p & h' & E & [Hok' _] & Hnz & Hnew & Hu')].
  - left. split; [|done]. apply M_bind_halt. unfold ftrace_half_call_add. apply M_bind_halt. unfold on_theap, zoom, s1. cbn. by rewrite E.
  - assert (ftrace_half_call_add pc (count_now s) s1 = Ret (0, with_halves p (<[p := mkHalf (count_now s) pc (head_half s)]> (halves s)) (with_theap h' s1))) as Ea.
    { unfold ftrace_half_call_add, on_theap, zoom, mbind, M_bind, s1. cbn [t_heap with_tdev with_in]. rewrite E. by rewrite (proj2 (Z.eqb_neq _ _) Hnz). }
    mrun Ea. cbn [Z.ltb Z.compare]. right. eexists. split; [reflexivity|]. split; [|split; [done|]; split; [done|]; split; [done|by exists p]].
    assert (halves s !! p = None) as Hp by (apply eq_None_not_Some; intros Hs; by apply Hnew, Hu). split; [done|]. split.
    + cbn. intros q Hq. apply Hu'. destruct (decide (q = p)) as [->|]; [by right|left]. rewrite lookup_insert_ne in Hq by done. by apply Hu.
    + exists (p :: qs). split.
      * apply NoDup_cons. split; [|done]. intros Hin. destruct (hchain_in _ _ _ _ _ Hc Hin) as (_ & y & Hy). congruence.
      * cbn. split; [done|]. split; [done|]. eexists. rewrite lookup_insert_eq. split; [done|]. split; [done|]. split; [done|].
        cbn. eapply hchain_ext; [exact Hc|]. intros q Hq. destruct (hchain_in _ _ _ _ _ Hc Hq) as (_ & y & Hy). rewrite lookup_insert_ne; [done|congruence].
Qed.

(** Microseconds since a start. *)
Definition elapsed (s : ftr) (t : Z) : Z := tick2ns (t_khz s) (u64 (count_now s - t)) / 1000.

Lemma ftrace_end_run raw_str raw_buf raw_argv s c1 c2 pc t lr fp : pending s (c1 ++ (pc, t) :: c2) -> pc ∉ c1.*1 -> t_disabled s = false -> in_functrace s = false ->
  (ftrace_end cache_pool raw_str raw_buf raw_argv pc lr fp s = Halt /\ short 1 (t_heap s)) \/
  exists s1, ftrace_end cache_pool raw_str raw_buf raw_argv pc lr fp s =
      ((if elapsed s t <? 2000 then mret tt else trace_call cache_pool raw_str raw_buf raw_argv US_FMT [ASlot (elapsed s t)] pc fp);; modify (with_in false)) s1 /\
    pending s1 (c1 ++ c2) /\ t_disabled s1 = false /\ t_buf s1 = t_buf s /\ t_tab s1 = t_tab s /\ t_mem s1 = t_mem s /\ spends 1 (t_heap s) (t_heap s1) /\
    exists p, kmem_used (t_heap s) p /\ forall q, kmem_used (t_heap s1) q <-> kmem_used (t_heap s) q /\ q <> p.
Proof.
  intros (Hok & Hu & qs & Hnd & Hc) Hni Hd Hi. unfold elapsed, ftrace_end. mrun (eq_refl (Ret (s, s))). rewrite Hd, Hi. cbn [orb]. mrun (eq_refl (Ret (tt, with_in true s))). mrun (count_run (with_in true s)).
  set (s0 := with_tdev _ _). change (count_now (with_in true s)) with (count_now s).
  destruct (pop_run s0 pc t c1 c2 qs Hnd Hc Hni) as (q & q1 & q2 & x & p' & m' & -> & Hx & _ & Hnz & E & Hc' & Hdom & x' & Hx' & Ht').
  mrun E. rewrite (proj2 (Z.eqb_neq _ _) Hnz). set (s2 := with_halves p' m' s0) in *. mrun (eq_refl (Ret (s2, s2))). change (halves s2) with m'. rewrite Hx', Ht'. change (t_khz s2) with (t_khz s).
  destruct (kfree_small_spec root_pool cache_pool (t_heap s) q Hok (Hu q ltac:(by exists x))) as [[Ek Hs]|(h' & Ek & [Hok' Hsp] & Hu')].
  - left. split; [|done]. apply M_bind_halt. unfold on_theap, zoom. change (t_heap s2) with (t_heap s). by rewrite Ek.
  - assert (on_theap (kfree cache_pool q) s2 = Ret (tt, with_theap h' s2)) as Ef by (unfold on_theap, zoom; change (t_heap s2) with (t_heap s); by rewrite Ek).
    mrun Ef. mrun (eq_refl (Ret (tt, with_halves (head_half (with_theap h' s2)) (delete q (halves (with_theap h' s2))) (with_theap h' s2)))).
    right. eexists. split; [reflexivity|]. split; [|do 4 (split; [done|]); split; [exact Hsp|]; exists q; split; [apply Hu; by exists x|done]]. split; [exact Hok'|]. split.
    + cbn. intros r Hr. destruct (decide (r = q)) as [->|Hne]; [rewrite lookup_delete_eq in Hr; by destruct Hr|]. rewrite lookup_delete_ne in Hr by done.
      apply Hu'. split; [|done]. apply Hu. by apply Hdom in Hr.
    + exists (q1 ++ q2). apply NoDup_app in Hnd as Hnd'. destruct Hnd' as (H1 & H12 & H2). apply NoDup_cons in H2 as [Hq2 H2].
      assert (q ∉ q1) as Hq1 by (intros Hin; apply (H12 q Hin); set_solver). split.
      * apply NoDup_app. split; [done|]. split; [|done]. intros z Hz Hz2. apply (H12 z Hz). set_solver.
      * cbn. eapply hchain_ext; [exact Hc'|]. intros z Hz. rewrite lookup_delete_ne; [done|]. intros <-. apply elem_of_app in Hz as [?|?]; done.
Qed.
End Pending.

(** ** The texts *)
Abbreviation byte_ok := (fun c : Z => 0 < c < 256).
Lemma digit_bytes b n k : 0 < b <= 16 -> Forall byte_ok (digit_char xdigitmap <$> digs k b n).
Proof.
  intros Hb. apply Forall_fmap, (Forall_impl _ _ _ (digs_range k b n ltac:(lia))). intros d Hd. unfold compose, digit_char.
  assert (Forall byte_ok xdigitmap) as Hx by (unfold xdigitmap; solve_forall). rewrite Forall_forall in Hx. apply Hx, list_elem_of_In, nth_In. cbn. lia.
Qed.
Lemma dec_text_bytes v : Forall byte_ok (dec_text v).
Proof.
  unfold dec_text, num_text. apply Forall_app. split; [destruct (v <? 0); [apply Forall_cons; split; [lia|]|]; by apply Forall_nil|].
  apply Forall_reverse, digit_bytes. lia.
Qed.
Lemma hex_text_bytes v : Forall byte_ok (num_text xdigitmap 16 v).
Proof. apply Forall_reverse, digit_bytes. lia. Qed.

(** The values, separated by commas, as signed numbers. *)
Fixpoint commas (vs : list Z) : list Z :=
  match vs with [] => [] | [v] => dec_text (s64 v) | v :: vs' => dec_text (s64 v) ++ 44 :: commas vs' end.
Definition args_text (vs : list Z) : list Z := match vs with [] => [118; 111; 105; 100] | _ => commas vs end.
Lemma commas_cons v w vs : commas (v :: w :: vs) = dec_text (s64 v) ++ 44 :: commas (w :: vs).
Proof. done. Qed.
Lemma commas_bytes vs : Forall byte_ok (commas vs).
Proof.
  induction vs as [|v [|w vs] IH]; [by apply Forall_nil|apply dec_text_bytes|]. rewrite commas_cons. apply Forall_app. split; [apply dec_text_bytes|]. apply Forall_cons. split; [lia|done].
Qed.

(** A parameter of [z] bytes at offset [o] of the caller's frame has the value [v]. *)
Definition arg_at (m : gmap Z Z) (callerfp : Z) (oz : Z * Z) (v : Z) : Prop :=
  (oz.2 = 1 \/ oz.2 = 2 \/ oz.2 = 4 \/ oz.2 = 8) /\ ld (Z.to_nat oz.2) (u64 (callerfp + oz.1)) m = Ret v.

Lemma sprintf_ld don rest v : (length (dec_text (s64 v)) + 1 < length rest)%nat ->
  sprintf_at (don ++ rest) (Z.of_nat (length don)) [37; 108; 100; 0] [ASlot v] =
    Ret (don ++ dec_text (s64 v) ++ 0 :: drop (S (length (dec_text (s64 v)))) rest, Z.of_nat (length don + length (dec_text (s64 v)))).
Proof.
  intros Hl. unfold sprintf_at. rewrite Nat2Z.id, drop_app_length, take_app_length.
  pose proof (sprintf_spec rest [Conv [] [] (CDec true v)]) as H. cbn [fmap list_fmap concat dir_fmt dir_args dir_text conv_fmt conv_args conv_text app value] in H. rewrite !app_nil_r in H.
  assert (padded_text (value 10 []) (bool_decide (45 ∈ [])) (bool_decide (48 ∈ [])) (dec_text (signed_of true v)) = dec_text (s64 v)) as Et by (cbn [value]; rewrite !bool_decide_eq_false_2 by apply not_elem_of_nil; by rewrite padded_text_0).
  rewrite Et in H. pose proof (dec_text_length (s64 v)) as [_ Hd]. rewrite H; [cbn; do 2 f_equal; lia| |lia|lia].
  by apply Forall_singleton, conv_dir_ok.
Qed.

Lemma args_loop_run m cfp argc po ps vs oz : forall i argv don rest, Forall2 (arg_at m cfp) oz vs -> vs <> [] ->
  (forall k o z, oz !! k = Some (o, z) -> po !! (i + k)%nat = Some o /\ ps !! (i + k)%nat = Some z) ->
  argc = Z.of_nat (i + length vs) -> length argv = S (i + length vs) -> (length don + length rest = 64)%nat -> (length don + length (commas vs) + 1 < 64)%nat ->
  exists argv' rest', args_loop (length vs) m cfp argc po ps (Z.of_nat i) argv (don ++ rest) (Z.of_nat (length don)) =
      Ret (argv', (don ++ commas vs) ++ rest', Z.of_nat (length (don ++ commas vs))) /\
    length argv' = length argv /\ (length (don ++ commas vs) + length rest' = 64)%nat.
Proof.
  revert oz. induction vs as [|v vs IH]; intros oz i argv don rest Hf Hne Hp Hargc Hav Hlen Hfit; [done|]. apply Forall2_cons_inv_r in Hf as ([o z] & oz' & [Hz Hld] & Hf & ->).
  destruct (Hp 0%nat o z eq_refl) as [Ho Hs]. rewrite Nat.add_0_r in Ho, Hs. cbn [fst snd] in Hz, Hld. cbn [args_loop length].
  rewrite (rd_lookup ps (Z.of_nat i) z) by (rewrite ?Nat2Z.id; done || lia). cbn [mbind outcome_bind].
  assert ((z =? 1) || (z =? 2) || (z =? 4) || (z =? 8) = true) as -> by (destruct Hz as [-> | [-> | [-> | ->]]]; done).
  rewrite (rd_lookup po (Z.of_nat i) o) by (rewrite ?Nat2Z.id; done || lia). cbn [mbind outcome_bind]. rewrite Hld. cbn [mbind outcome_bind]. rewrite wr_in by lia. cbn [mbind outcome_bind].
  rewrite (rd_lookup _ (Z.of_nat i) v) by (rewrite ?Nat2Z.id; lia || (apply list_lookup_insert_eq; lia)). cbn [mbind outcome_bind].
  assert (length (dec_text (s64 v)) <= length (commas (v :: vs)))%nat as Hle by (destruct vs; [done|]; rewrite commas_cons, length_app; lia).
  rewrite sprintf_ld by lia. cbn [mbind outcome_bind]. rewrite (proj2 (Z.leb_gt 64 _)) by lia.
  set (t := dec_text (s64 v)) in *. set (argv1 := <[Z.to_nat (Z.of_nat i) := v]> argv). assert (length argv1 = length argv) as Ha1 by apply length_insert.
  destruct vs as [|w vs].
  - rewrite (proj2 (Z.eqb_eq _ _)) by (cbn [length] in Hargc; lia). cbn [commas]. fold t. rewrite app_assoc. exists argv1, (0 :: drop (S (length t)) rest).
    split; [by rewrite length_app|]. split; [done|]. cbn [commas] in Hfit. fold t in Hfit. rewrite length_app. cbn [length]. rewrite length_drop. lia.
  - rewrite (proj2 (Z.eqb_neq _ _)) by (cbn [length] in Hargc; lia). rewrite commas_cons in Hfit |- *. fold t in Hfit |- *. rewrite length_app in Hfit. cbn [length] in Hfit.
    rewrite app_assoc, wr_in by (rewrite !length_app; cbn [length]; lia). cbn [mbind outcome_bind]. rewrite Nat2Z.id, insert_app_r_alt by (rewrite length_app; lia).
    rewrite length_app, Nat.sub_diag. cbn [insert list_insert]. change (44 :: drop (S (length t)) rest) with ([44] ++ drop (S (length t)) rest). rewrite app_assoc.
    destruct (IH oz' (S i) argv1 ((don ++ t) ++ [44]) (drop (S (length t)) rest)) as (argv' & rest' & E & Hl' & Hr').
    + done.
    + done.
    + intros k o' z' Hk. replace (S i + k)%nat with (i + S k)%nat by lia. by apply Hp.
    + cbn [length] in Hargc |- *. lia.
    + rewrite Ha1, Hav. cbn [length]. lia.
    + rewrite !length_app, length_drop. cbn [length]. lia.
    + rewrite !length_app. cbn [length]. lia.
    + exists argv', rest'. replace (Z.of_nat i + 1) with (Z.of_nat (S i)) by lia.
      replace (Z.of_nat (length don + length t) + 1) with (Z.of_nat (length ((don ++ t) ++ [44]))) by (rewrite !length_app; cbn [length]; lia).
      assert (((don ++ t) ++ [44]) ++ commas (w :: vs) = don ++ t ++ 44 :: commas (w :: vs)) as Ea by (by rewrite <- !app_assoc). rewrite Ea in E, Hr'. split; [exact E|]. split; [congruence|done].
Qed.

Section Records.
Context `{MA : Machine} (root_pool cache_pool : Z) (raw_str raw_buf raw_argv : list Z).
Context (Hstr : length raw_str = 64%nat) (Hbuf : length raw_buf = 128%nat) (Hargv : (9 <= length raw_argv)%nat).
Abbreviation St := (slab_state page_state).
#[local] Instance kmem' : KHeap := kmem_heap root_pool cache_pool.

(** [n] requests, in which everything allocated is freed again. *)
Definition same_heap (n : nat) (h h' : St) : Prop := (kmem_ok root_pool cache_pool h' /\ forall q, kmem_used h' q <-> kmem_used h q) /\ spends n h h'.
Lemma on_theap_run {A} (m : M St A) (s : ftr) a h : m (t_heap s) = Ret (a, h) -> on_theap m s = Ret (a, with_theap h s).
Proof. unfold on_theap, zoom. by intros ->. Qed.
Lemma on_theap_halt {A} (m : M St A) (s : ftr) : m (t_heap s) = Halt -> on_theap m s = Halt.
Proof. unfold on_theap, zoom. by intros ->. Qed.
Lemma freed h h1 h2 p : kmem_ok root_pool cache_pool h2 -> ~ kmem_used h p -> (forall q, kmem_used h1 q <-> kmem_used h q \/ q = p) -> (forall q, kmem_used h2 q <-> kmem_used h1 q /\ q <> p) ->
  kmem_ok root_pool cache_pool h2 /\ forall q, kmem_used h2 q <-> kmem_used h q.
Proof. intros Hok Hn H1 H2. split; [done|]. intros q. rewrite H2, H1. split; [naive_solver|]. intros Hq. split; [by left|]. by intros ->. Qed.

Lemma trace_args_none s fs pc fp : tab_is (t_tab s) fs -> List.find (fi_covers pc) fs = None -> trace_args cache_pool raw_str raw_argv pc fp s = Ret (None, s).
Proof.
  intros Ht Hf. pose proof (get_func_param_run pc (t_tab s) fs Ht) as Hp. rewrite Hf in Hp. unfold trace_args. mrun (eq_refl (Ret (s, s))).
  assert (lift (dgbinfo_get_func_param pc (t_tab s)) s = Ret (None, s)) as E by (unfold lift; by rewrite Hp). by mrun E.
Qed.

Lemma trace_args_run s fs pc fp f cfp vs : kmem_ok root_pool cache_pool (t_heap s) -> tab_is (t_tab s) fs -> List.find (fi_covers pc) fs = Some f -> (length vs <= 8)%nat ->
  (vs <> [] -> ld 8 fp (t_mem s) = Ret cfp /\ fp < cfp) -> Forall2 (arg_at (t_mem s) cfp) (fi_params f) vs -> (length (commas vs) + 1 < 64)%nat ->
  (trace_args cache_pool raw_str raw_argv pc fp s = Halt /\ short 2 (t_heap s)) \/
  exists h a, trace_args cache_pool raw_str raw_argv pc fp s = Ret (Some a, with_theap h s) /\ same_heap 2 (t_heap s) h /\ c_bytes a = args_text vs.
Proof.
  intros Hok Ht Hf Hv Hcfp Hargs Hfit. pose proof (get_func_param_run pc (t_tab s) fs Ht) as Hp. rewrite Hf in Hp. destruct Hp as (po & ps & Hp & Hall).
  pose proof (Forall2_length _ _ _ Hargs) as Hl. unfold trace_args. mrun (eq_refl (Ret (s, s))).
  assert (lift (dgbinfo_get_func_param pc (t_tab s)) s = Ret (Some (Z.of_nat (length vs), po, ps), s)) as E by (unfold lift; rewrite Hp, Hl; done). mrun E. clear E. cbn iota.
  assert (assertM ((0 <=? Z.of_nat (length vs)) && (Z.of_nat (length vs) <=? 8)) s = Ret (tt, s)) as E by (rewrite (proj2 (Z.leb_le _ _)), (proj2 (Z.leb_le _ _)) by lia; done). mrun E. clear E.
  destruct vs as [|v vs].
  { cbn [length]. change (Z.of_nat 0 =? 0) with true. cbn iota. right. exists (t_heap s), (VOID ++ drop 5 raw_str). split; [|split; [split; [done|exact (spends_refl 2 (t_heap s))]|done]].
    unfold store, lift, mbind, M_bind. rewrite Hstr. cbn [length VOID]. change (Z.to_nat 0) with 0%nat. cbn [Nat.add take]. cbn. by destruct s. }
  set (w := v :: vs) in *. rewrite (proj2 (Z.eqb_neq (Z.of_nat (length w)) 0)) by (unfold w; cbn [length]; lia). destruct (Hcfp ltac:(done)) as [Hld Hlt].
  destruct (kalloc_small_spec root_pool cache_pool (t_heap s) ((Z.of_nat (length w) + 1) * 8) Hok ltac:(lia)) as [[E Hs]|(p & h1 & E & [Hok1 Hsp1] & Hnz & Hnew & Hu1)];
    [left; split; [by apply M_bind_halt, on_theap_halt|by apply (short_le 1); [lia|]]|].
  mrun (on_theap_run _ s _ _ E). clear E. rewrite (proj2 (Z.eqb_neq _ _) Hnz). set (s1 := with_theap h1 s).
  assert (lift (ld 8 fp (t_mem s)) s1 = Ret (cfp, s1)) as E by (unfold lift; by rewrite Hld). mrun E. clear E.
  assert (assertM (fp <? cfp) s1 = Ret (tt, s1)) as E by (rewrite (proj2 (Z.ltb_lt _ _)) by lia; done). mrun E. clear E.
  set (argv := take (Z.to_nat (Z.of_nat (length w)) + 1) raw_argv). assert (length argv = S (length w)) as Hav by (unfold argv; rewrite length_take; lia).
  destruct (args_loop_run (t_mem s) cfp (Z.of_nat (length w)) po ps w (fi_params f) 0 argv [] raw_str Hargs ltac:(done)) as (vals & rest & E & Hvl & Hrl); [exact Hall|lia|exact Hav|done|cbn [length]; lia|].
  cbn [app length] in E, Hrl. rewrite Nat2Z.id. change (Z.of_nat 0) with 0 in E.
  assert (lift (args_loop (length w) (t_mem s) cfp (Z.of_nat (length w)) po ps 0 argv raw_str 0) s1 = Ret ((vals, commas w ++ rest, Z.of_nat (length (commas w))), s1)) as E' by (unfold lift; by rewrite E). mrun E'. clear E E'. cbn iota.
  assert (lift (wr vals (Z.of_nat (length w)) 0) s1 = Ret (<[Z.to_nat (Z.of_nat (length w)) := 0]> vals, s1)) as E by (unfold lift; rewrite wr_in by lia; done). mrun E. clear E.
  assert (lift (wr (commas w ++ rest) (Z.of_nat (length (commas w))) 0) s1 = Ret (commas w ++ 0 :: drop 1 rest, s1)) as E.
  { unfold lift. rewrite wr_in by (rewrite length_app; lia). rewrite Nat2Z.id, insert_app_r_alt, Nat.sub_diag by lia. destruct rest; [cbn [length] in Hrl; lia|done]. }
  mrun E. clear E. destruct (kfree_small_spec root_pool cache_pool h1 p Hok1 ltac:(apply Hu1; by right)) as [[E Hs]|(h2 & E & [Hok2 Hsp2] & Hu2)];
    [left; split; [by apply M_bind_halt, on_theap_halt|exact (short_after 1 1 _ _ Hsp1 Hs)]|].
  mrun (on_theap_run (kfree cache_pool p) s1 _ _ E). right. exists h2, (commas w ++ 0 :: drop 1 rest). split; [done|].
  split; [split; [by apply (freed _ h1 _ p)|exact (spends_trans 1 1 _ _ _ Hsp1 Hsp2)]|]. apply c_bytes_app, commas_bytes.
Qed.

(** The directives of a record. *)
Definition name_dir (pc : Z) (name : option (list Z)) : directive := Conv [] [] (match name with Some n => CStr n | None => CHex true false pc end).
Definition args_dirs (args : option (list Z)) : list directive :=
  match args with Some a => [Lit 40; Conv [] [] (CStr a); Lit 41; Lit 10] | None => Lit <$> [40; 60; 110; 111; 105; 110; 102; 111; 62; 41; 10] end.
Definition record_dirs (pre : list directive) (pc : Z) (name args : option (list Z)) : list directive := pre ++ name_dir pc name :: args_dirs args.

Lemma record_dirs_ok pre pc name args : Forall dir_ok pre -> name <> Some [] -> args <> Some [] -> Forall dir_ok (record_dirs pre pc name args).
Proof.
  intros Hp Hn Ha. apply Forall_app. split; [done|]. apply Forall_cons. split; [apply conv_dir_ok; destruct name; [congruence|done]|].
  destruct args as [a|]; cbn [args_dirs]; repeat (apply Forall_cons; split; [first [apply conv_dir_ok; congruence|by apply lit_dir_ok]|]); by apply Forall_nil.
Qed.

Lemma insert_run h tb its t : kmem_ok root_pool cache_pool h -> tb_rep tb its -> item_ok t -> Z.of_nat (length t) + 4 <= tb_size tb -> Z.of_nat (length t) + 4 <= 512 ->
  (tracebuf_insert cache_pool t (h, tb) = Halt /\ short 2 h) \/
  exists r h' tb', tracebuf_insert cache_pool t (h, tb) = Ret (r, (h', tb')) /\ same_heap 2 h h' /\ tb_rep tb' (evict (tb_size tb - (Z.of_nat (length t) + 4)) its ++ [t]).
Proof.
  intros Hok Hrep Ht Hfit H512. destruct (kalloc_small_spec root_pool cache_pool h (Z.of_nat (length t) + 4) Hok ltac:(lia)) as [[E Hs]|(p & h1 & E & [Hok1 Hsp1] & Hnz & Hnew & Hu1)].
  { left. split; [|by apply (short_le 1); [lia|]]. unfold tracebuf_insert. destruct Ht as [Hne _]. rewrite (proj2 (Z.eqb_neq _ 0)) by (destruct t; cbn [length]; lia || done). rewrite (proj2 (Z.ltb_ge _ _)) by lia. cbn [orb]. by rewrite E. }
  destruct (tracebuf_insert_rep cache_pool h h1 tb its t p Hrep Ht Hfit E Hnz) as (tb' & Hr & Hrep' & _). rewrite Hr.
  destruct (kfree_small_spec root_pool cache_pool h1 p Hok1 ltac:(apply Hu1; by right)) as [[-> Hs]|(h2 & -> & [Hok2 Hsp2] & Hu2)];
    [left; split; [done|exact (short_after 1 1 _ _ Hsp1 Hs)]|right].
  exists (Z.of_nat (length t) + 4), h2, tb'. split; [done|]. split; [|done]. split; [by apply (freed _ h1 _ p)|exact (spends_trans 1 1 _ _ _ Hsp1 Hsp2)].
Qed.

Lemma record_run s its pre pc name args (t := concat (dir_text <$> record_dirs pre pc name (c_bytes <$> args))) : kmem_ok root_pool cache_pool (t_heap s) -> tb_rep (t_buf s) its ->
  Forall dir_ok pre -> name <> Some [] -> c_bytes <$> args <> Some [] -> Forall byte_ok t -> (length t + 1 < 128)%nat -> Z.of_nat (length t) + 4 <= tb_size (t_buf s) ->
  let r := trace_record cache_pool raw_buf (concat (dir_fmt <$> pre)) (concat (dir_args <$> pre)) pc name args s in
  (r = Halt /\ short 4 (t_heap s)) \/ exists h tb, r = Ret (tt, with_tbuf (h, tb) s) /\ same_heap 4 (t_heap s) h /\ tb_rep tb (evict (tb_size (t_buf s) - (Z.of_nat (length t) + 4)) its ++ [t]).
Proof.
  intros Hok Hrep Hpre Hn Ha Hb H128 Hfit. cbv zeta. unfold trace_record.
  destruct (kalloc_small_spec root_pool cache_pool (t_heap s) 128 Hok ltac:(lia)) as [[E Hs]|(p & h1 & E & [Hok1 Hsp1] & Hnz & Hnew & Hu1)];
    [left; split; [by apply M_bind_halt, on_theap_halt|by apply (short_le 1); [lia|]]|].
  mrun (on_theap_run _ s _ _ E). clear E. rewrite (proj2 (Z.eqb_neq _ _) Hnz). set (s1 := with_theap h1 s).
  pose proof (sprintf_spec raw_buf (record_dirs pre pc name (c_bytes <$> args)) (record_dirs_ok _ _ _ _ Hpre Hn Ha) ltac:(rewrite Hbuf; exact H128) ltac:(fold t; lia)) as Hs. cbv zeta in Hs. fold t in Hs.
  assert (forall f1 a1 f2 a2, match name with Some n => ([37; 115], AStr n) | None => ([37; 108; 120], ASlot pc) end = (f1, a1) ->
    match args with Some a => ([40; 37; 115; 41; 10; 0], [AStr (c_bytes a)]) | None => (NOINFO, []) end = (f2, a2) ->
    concat (dir_fmt <$> record_dirs pre pc name (c_bytes <$> args)) ++ [0] = concat (dir_fmt <$> pre) ++ f1 ++ f2 /\
    concat (dir_args <$> record_dirs pre pc name (c_bytes <$> args)) = concat (dir_args <$> pre) ++ a1 :: a2) as Hfmt.
  { intros f1 a1 f2 a2 E1 E2. unfold record_dirs. rewrite !fmap_app, !concat_app, <- app_assoc. destruct name, args; injection E1 as <- <-; injection E2 as <- <-; done. }
  destruct (match name with Some n => _ | None => _ end) as [f1 a1]. destruct (match args with Some a => _ | None => _ end) as [f2 a2]. destruct (Hfmt _ _ _ _ eq_refl eq_refl) as [Ef Ea]. rewrite Ef, Ea in Hs. clear Hfmt Ef Ea.
  assert (lift (sprintf raw_buf (concat (dir_fmt <$> pre) ++ f1 ++ f2) (concat (dir_args <$> pre) ++ a1 :: a2)) s1 = Ret ((Z.of_nat (length t), t ++ 0 :: drop (S (length t)) raw_buf), s1)) as E by (unfold lift; by rewrite Hs).
  mrun E. clear E. cbn iota. rewrite c_bytes_app by done.
  assert (item_ok t) as Hit. { split; [|done]. intros Et. apply (f_equal length) in Et. revert Et. unfold t, record_dirs. rewrite fmap_app, concat_app, length_app. cbn [fmap list_fmap concat]. rewrite length_app. destruct args; cbn; rewrite ?length_app; cbn; lia. }
  destruct (insert_run h1 (t_buf s) its t Hok1 Hrep Hit Hfit ltac:(lia)) as [[E Hsh]|(r & h2 & tb & E & [[Hok2 Hu2] Hsp2] & Hrep')].
  { left. split; [|apply (short_le 3); [lia|exact (short_after 1 2 _ _ Hsp1 Hsh)]]. apply M_bind_halt. unfold on_tbuf, zoom. change (t_heap s1, t_buf s1) with (h1, t_buf s). by rewrite E. }
  assert (on_tbuf (tracebuf_insert cache_pool t) s1 = Ret (r, with_tbuf (h2, tb) s1)) as E' by (unfold on_tbuf, zoom; change (t_heap s1, t_buf s1) with (h1, t_buf s); by rewrite E). mrun E'. clear E E'.
  destruct (kfree_small_spec root_pool cache_pool h2 p Hok2 ltac:(apply Hu2, Hu1; by right)) as [[E Hsh]|(h3 & E & [Hok3 Hsp3] & Hu3)];
    [left; split; [by apply on_theap_halt|exact (short_after 3 1 _ _ (spends_trans 1 2 _ _ _ Hsp1 Hsp2) Hsh)]|].
  right. exists h3, tb. split; [by apply (on_theap_run (kfree cache_pool p) (with_tbuf (h2, tb) s1))|]. split; [|done].
  split; [|exact (spends_trans 3 1 _ _ _ (spends_trans 1 2 _ _ _ Hsp1 Hsp2) Hsp3)]. apply (freed _ h1 _ p); [done|done|done|]. intros q. rewrite Hu3, Hu2. done.
Qed.

(** What a record says: the duration, then name and values, or the address. *)
Definition record_text (us : option Z) (pc : Z) (fo : option finfo) (vs : list Z) : list Z :=
  (match us with Some u => 91 :: dec_text (s64 u) ++ [32; 117; 115; 93] | None => [] end) ++
  match fo with
  | Some f => fi_name f ++ 40 :: args_text vs ++ [41; 10]
  | None => num_text xdigitmap 16 (u64 pc) ++ [40; 60; 110; 111; 105; 110; 102; 111; 62; 41; 10]
  end.
Definition us_dirs (us : option Z) : list directive := match us with Some u => [Lit 91; Conv [] [] (CDec true u); Lit 32; Lit 117; Lit 115; Lit 93] | None => [] end.
(** The debug information and the frame determine the record: [fo] is the
    function at [pc], [vs] the values of its parameters in the caller's frame. *)
Record traceable (s : ftr) (fs : list finfo) (pc fp : Z) (fo : option finfo) (vs : list Z) : Prop := {
  tc_tab : tab_is (t_tab s) fs;
  tc_find : List.find (fi_covers pc) fs = fo;
  tc_args : match fo with
            | None => True
            | Some f => fi_name f <> [] /\ Forall byte_ok (fi_name f) /\ (length vs <= 8)%nat /\ (length (commas vs) + 1 < 64)%nat /\
                exists cfp, (vs <> [] -> ld 8 fp (t_mem s) = Ret cfp /\ fp < cfp) /\ Forall2 (arg_at (t_mem s) cfp) (fi_params f) vs
            end }.

Lemma conv_plain c : dir_text (Conv [] [] c) = conv_text 0 false false c.
Proof. cbn [dir_text value]. by rewrite !bool_decide_eq_false_2 by apply not_elem_of_nil. Qed.
Lemma record_dirs_text us pc fo vs :
  concat (dir_text <$> record_dirs (us_dirs us) pc (fi_name <$> fo) ((fun _ => args_text vs) <$> fo)) = record_text us pc fo vs.
Proof.
  unfold record_dirs, record_text, name_dir. rewrite fmap_app, concat_app. f_equal.
  - destruct us as [u|]; [|done]. cbn [us_dirs fmap list_fmap]. rewrite conv_plain. cbn [conv_text]. rewrite padded_text_0. done.
  - cbn [fmap list_fmap concat]. rewrite conv_plain. destruct fo as [f|]; cbn [fmap option_fmap option_map args_dirs list_fmap concat].
    + rewrite conv_plain. cbn [conv_text]. rewrite !padded_text_0. done.
    + cbn [conv_text]. rewrite padded_text_0. done.
Qed.
Lemma args_text_bytes vs : Forall byte_ok (args_text vs) /\ args_text vs <> [].
Proof.
  destruct vs as [|v vs]; cbn [args_text]; [split; [solve_forall|done]|]. split; [apply commas_bytes|]. destruct (dec_text_length (s64 v)) as [Hd _].
  destruct vs; [done|]. rewrite commas_cons. by destruct (dec_text (s64 v)).
Qed.
Lemma record_text_bytes us pc fo vs : match fo with None => True | Some f => Forall byte_ok (fi_name f) end -> Forall byte_ok (record_text us pc fo vs).
Proof.
  intros Hf. apply Forall_app. split.
  - destruct us; [|by apply Forall_nil]. apply Forall_cons. split; [lia|]. apply Forall_app. split; [apply dec_text_bytes|solve_forall].
  - destruct fo; apply Forall_app; (split; [done || apply hex_text_bytes|]); [|solve_forall]. apply Forall_cons. split; [lia|]. apply Forall_app. split; [apply args_text_bytes|solve_forall].
Qed.

Lemma trace_call_run s its fs pc fp fo vs us (t := record_text us pc fo vs) : kmem_ok root_pool cache_pool (t_heap s) -> tb_rep (t_buf s) its -> traceable s fs pc fp fo vs ->
  (length t + 1 < 128)%nat -> Z.of_nat (length t) + 4 <= tb_size (t_buf s) ->
  let r := trace_call cache_pool raw_str raw_buf raw_argv (concat (dir_fmt <$> us_dirs us)) (concat (dir_args <$> us_dirs us)) pc fp s in
  (r = Halt /\ short 6 (t_heap s)) \/ exists h tb, r = Ret (tt, with_tbuf (h, tb) s) /\ same_heap 6 (t_heap s) h /\ tb_rep tb (evict (tb_size (t_buf s) - (Z.of_nat (length t) + 4)) its ++ [t]).
Proof.
  intros Hok Hrep [Ht Hf Ha] H128 Hfit. cbv zeta. unfold trace_call. mrun (eq_refl (Ret (s, s))).
  assert (lift (dgbinfo_get_func_loc pc (t_tab s)) s = Ret (option_map (fun f => (Some (fi_name f), fi_file f)) fo, s)) as E by (unfold lift; rewrite (get_func_loc_run _ _ _ Ht), Hf; done).
  mrun E. clear E. assert (Forall dir_ok (us_dirs us)) as Hus by (destruct us; cbn [us_dirs]; repeat (apply Forall_cons; split; [first [apply conv_dir_ok; done|by apply lit_dir_ok]|]); by apply Forall_nil).
  pose proof (record_dirs_text us pc fo vs) as Et. destruct fo as [f|].
  - destruct Ha as (Hne & Hnb & H8 & H64 & cfp & Hcfp & Hargs). mrun (eq_refl (Ret (Some (fi_name f), s))).
    destruct (trace_args_run s fs pc fp f cfp vs Hok Ht Hf H8 Hcfp Hargs H64) as [[E Hs]|(h1 & a & E & [[Hok1 Hu1] Hsp1] & Ea)];
      [left; split; [by apply M_bind_halt|by apply (short_le 2); [lia|]]|]. mrun E. clear E.
    assert (c_bytes <$> Some a = (fun _ => args_text vs) <$> Some f) as Ea' by (cbn; by rewrite Ea). cbn [fmap option_fmap option_map] in Et, Ea'.
    pose proof (record_run (with_theap h1 s) its (us_dirs us) pc (Some (fi_name f)) (Some a)) as R. cbn [fmap option_fmap option_map] in R. rewrite Ea' in R. cbn [fmap option_fmap option_map] in R. rewrite Et in R. cbv zeta in R. fold t in R.
    destruct (R Hok1 Hrep Hus ltac:(congruence) ltac:(pose proof (proj2 (args_text_bytes vs)); congruence) (record_text_bytes us pc (Some f) vs Hnb) H128 Hfit) as [[? Hs]|(h & tb & E & [[Hok2 Hu2] Hsp2] & Hr)];
      [left; split; [done|exact (short_after 2 4 _ _ Hsp1 Hs)]|right].
    exists h, tb. split; [exact E|]. split; [|done]. split; [|exact (spends_trans 2 4 _ _ _ Hsp1 Hsp2)]. split; [done|]. intros q. rewrite Hu2. apply Hu1.
  - mrun (eq_refl (Ret (@None (list Z), s))). mrun (trace_args_none s fs pc fp Ht Hf).
    pose proof (record_run s its (us_dirs us) pc None None) as R. cbn [fmap option_fmap option_map] in R, Et. rewrite Et in R. cbv zeta in R. fold t in R.
    destruct (R Hok Hrep Hus ltac:(done) ltac:(done) (record_text_bytes us pc None vs I) H128 Hfit) as [[? Hs]|(h & tb & E & [Hh Hsp] & Hr)];
      [left; split; [done|by apply (short_le 4); [lia|]]|right].
    exists h, tb. split; [done|]. split; [|done]. split; [done|by apply (spends_le 4); [lia|]].
Qed.
End Records.

Lemma pending_heap `{MA : Machine} (root_pool cache_pool : Z) (s s' : ftr) cs : pending root_pool cache_pool s cs -> (kmem_ok root_pool cache_pool (t_heap s') /\ forall q, kmem_used (t_heap s') q <-> kmem_used (t_heap s) q) ->
  halves s' = halves s -> head_half s' = head_half s -> pending root_pool cache_pool s' cs.
Proof.
  intros (_ & Hu & qs & Hnd & Hc) [Hok Hu'] E1 E2. split; [done|]. rewrite E1, E2. split; [intros q Hq; apply Hu'; by apply Hu|by exists qs].
Qed.

(** ** Properties *)

(** C12: tracing a call records it.  The buffer gets one more item, the name of
    the function that contains the address and the values its parameters have
    in the caller's frame, or the address where nothing is known, and loses
    only the oldest items it has to; the calls in progress and the objects of
    the heap in use are as before.  This needs at most eight parameters of 1, 2,
    4 or 8 bytes in a readable frame whose values take at most 62 characters, a
    non-empty name, and a record of at most 126 characters that fits the
    buffer; the machine stops only when the heap cannot serve the six requests
    this takes. *)
Theorem functrace_records `{MA : Machine} (root_pool cache_pool : Z) (raw_str raw_buf raw_argv : list Z) (s : ftr) (cs : list (Z * Z)) (its : list (list Z))
    (fs : list finfo) (pc lr fp : Z) (fo : option finfo) (vs : list Z) (t := record_text None pc fo vs)
    (Hraw : length raw_str = 64%nat /\ length raw_buf = 128%nat /\ (9 <= length raw_argv)%nat)
    (Hs : pending root_pool cache_pool s cs) (Hon : t_disabled s = false /\ in_functrace s = false) (Hb : tb_rep (t_buf s) its)
    (Ht : traceable s fs pc fp fo vs) (Hfit : (length t + 1 < 128)%nat /\ Z.of_nat (length t) + 4 <= tb_size (t_buf s)) :
  (functrace cache_pool raw_str raw_buf raw_argv pc lr fp s = Halt /\ kmem_room (t_heap s) 6 = false) \/
  exists s', functrace cache_pool raw_str raw_buf raw_argv pc lr fp s = Ret (tt, s') /\ in_functrace s' = false /\ pending root_pool cache_pool s' cs /\
    (forall q, kmem_used (t_heap s') q <-> kmem_used (t_heap s) q) /\
    tb_rep (t_buf s') (evict (tb_size (t_buf s) - (Z.of_nat (length t) + 4)) its ++ [t]).
Proof.
  destruct Hraw as (H1 & H2 & H3), Hon as [Hd Hi], Hfit as [Hf1 Hf2]. unfold functrace. mrun (eq_refl (Ret (s, s))). rewrite Hd, Hi. cbn [orb]. mrun (eq_refl (Ret (tt, with_in true s))).
  destruct (trace_call_run root_pool cache_pool raw_str raw_buf raw_argv H1 H2 H3 (with_in true s) its fs pc fp fo vs None (proj1 Hs) Hb ltac:(by destruct Ht) Hf1 Hf2) as [[E Hsh]|(h & tb & E & [Hh _] & Hr)].
  - left. split; [by apply M_bind_halt|exact Hsh].
  - right. cbn [us_dirs fmap list_fmap concat] in E. mrun E. eexists. split; [reflexivity|]. split; [done|]. split; [by eapply pending_heap|]. split; [apply Hh|done].
Qed.

(** C21: durations.  A call that starts is the latest of those in progress, with
    the count of the clock, and takes one new object of the heap; the end of a
    call ends the latest one in progress at its address, whatever else is still
    open, gives its object back, and records the call with the microseconds
    since it started if they are 2000 or more (under the conditions on
    parameters, frame, name and length of the record that tracing a call has).
    The machine stops only when the heap cannot serve the one request of a
    start, or the one to seven of an end. *)
Theorem ftrace_measures `{MA : Machine} (root_pool cache_pool : Z) (raw_str raw_buf raw_argv : list Z) (s : ftr) (lr fp : Z)
    (Hraw : length raw_str = 64%nat /\ length raw_buf = 128%nat /\ (9 <= length raw_argv)%nat) (Hon : t_disabled s = false /\ in_functrace s = false) :
  (forall cs pc, pending root_pool cache_pool s cs ->
    (ftrace_start pc lr fp s = Halt /\ kmem_room (t_heap s) 1 = false) \/
    exists s', ftrace_start pc lr fp s = Ret (tt, s') /\ in_functrace s' = false /\ pending root_pool cache_pool s' ((pc, count_now s) :: cs) /\ t_buf s' = t_buf s /\
      exists p, ~ kmem_used (t_heap s) p /\ forall q, kmem_used (t_heap s') q <-> kmem_used (t_heap s) q \/ q = p) /\
  (forall c1 pc t c2 its fs fo vs, pending root_pool cache_pool s (c1 ++ (pc, t) :: c2) -> pc ∉ c1.*1 -> tb_rep (t_buf s) its -> traceable s fs pc fp fo vs ->
    let text := record_text (Some (elapsed s t)) pc fo vs in (length text + 1 < 128)%nat -> Z.of_nat (length text) + 4 <= tb_size (t_buf s) ->
    (ftrace_end cache_pool raw_str raw_buf raw_argv pc lr fp s = Halt /\ kmem_room (t_heap s) (if elapsed s t <? 2000 then 1 else 7) = false) \/
    exists s', ftrace_end cache_pool raw_str raw_buf raw_argv pc lr fp s = Ret (tt, s') /\ in_functrace s' = false /\ pending root_pool cache_pool s' (c1 ++ c2) /\
      (exists p, kmem_used (t_heap s) p /\ forall q, kmem_used (t_heap s') q <-> kmem_used (t_heap s) q /\ q <> p) /\
      if elapsed s t <? 2000 then t_buf s' = t_buf s
      else tb_rep (t_buf s') (evict (tb_size (t_buf s) - (Z.of_nat (length text) + 4)) its ++ [text])).
Proof.
  destruct Hraw as (H1 & H2 & H3), Hon as [Hd Hi]. split.
  - intros cs pc Hs. destruct (ftrace_start_run root_pool cache_pool s cs pc lr fp Hs Hd Hi) as [?|(s' & E & Hp & Hi' & _ & Hb & Hn)]; [by left|right]. by exists s'.
  - intros c1 pc t c2 its fs fo vs Hs Hni Hb Ht text Hf1 Hf2.
    destruct (ftrace_end_run root_pool cache_pool raw_str raw_buf raw_argv s c1 c2 pc t lr fp Hs Hni Hd Hi) as [[E Hsh]|(s1 & -> & Hs1 & _ & Eb & Etab & Em & Hsp & p & Hp & Hu)].
    { left. split; [done|]. by destruct (elapsed s t <? 2000); [|apply (short_le (KH := kmem_heap root_pool cache_pool) 1 7); [lia|]]. }
    destruct (elapsed s t <? 2000).
    + right. mrun (eq_refl (Ret (tt, s1))). eexists. split; [reflexivity|]. split; [done|]. split; [exact Hs1|]. split; [by exists p|exact Eb].
    + assert (traceable s1 fs pc fp fo vs) as Ht1 by (destruct Ht; split; rewrite ?Etab, ?Em; done). rewrite <- Eb in Hb, Hf2.
      destruct (trace_call_run root_pool cache_pool raw_str raw_buf raw_argv H1 H2 H3 s1 its fs pc fp fo vs (Some (elapsed s t)) (proj1 Hs1) Hb Ht1 Hf1 Hf2) as [[E Hsh]|(h & tb & E & [Hh _] & Hr)].
      * left. split; [by apply M_bind_halt|exact (short_after (KH := kmem_heap root_pool cache_pool) 1 6 _ _ Hsp Hsh)].
      * right. mrun E. eexists. split; [reflexivity|]. split; [done|]. split; [by eapply pending_heap|]. split; [|rewrite Eb in Hr; exact Hr].
        exists p. split; [done|]. intros q. cbn. by rewrite (proj2 Hh q).
Qed.

(** While the trace is off, or inside the tracer itself, nothing is recorded. *)
Theorem ftrace_off `{MA : Machine} (cache_pool : Z) (raw_str raw_buf raw_argv : list Z) (s : ftr) (pc lr fp : Z) : t_disabled s || in_functrace s = true ->
  ftrace_start pc lr fp s = Ret (tt, s) /\ ftrace_end cache_pool raw_str raw_buf raw_argv pc lr fp s = Ret (tt, s) /\ functrace cache_pool raw_str raw_buf raw_argv pc lr fp s = Ret (tt, s).
Proof. intros H. unfold ftrace_start, ftrace_end, functrace. split_and!; mrun (eq_refl (Ret (s, s))); by rewrite H. Qed.

(** ** A traced call of the function of [ImageDemo] *)
Module TraceDemo.
(** The counter runs at 1 MHz and shows 3000. *)
#[export] Instance machine : Machine := {| mstate := (); mmio_read _ _ d := (0, d); mmio_write _ _ _ d := d; sys_read _ d := (3000, d); sys_write _ _ d := d |}.
Definition node : dbgi_func := mkDFunc 0x1000 0x1040 (Some ImageDemo.name_f) (Some (mkLoc ImageDemo.name_a 0)) (Some (mkParam [4] [-20] 1)) 0.
Definition tab : functab := (0x500, {[0x500 := node]}).
(** The caller's frame is at 0x200, the parameter 20 bytes below holds 7. *)
Definition mem : gmap Z Z := list_to_map ((fun i => (0x100 + Z.of_nat i, nth i [0x00; 0x02] 0)) <$> seq 0 8) ∪ list_to_map ((fun i => (0x1ec + Z.of_nat i, nth i [7] 0)) <$> seq 0 4).
Definition tb : tracebuf := mkTb 0x100 0x200 (replicate 64 0) 0 0 0 0 64.
Definition idle : ftr := @mkFtr machine tt 1000 demo_slabs mem tab 0 ∅ false false tb.
Definition opened : Z * slab_state page_state := match kalloc sizeof_ftrace_half demo_slabs with Ret r => r | _ => (0, demo_slabs) end.
(** A call at 0x1000 that started at count 0 is in progress. *)
Definition busy : ftr := @mkFtr machine tt 1000 (opened.2) mem tab (opened.1) {[opened.1 := mkHalf 0 0x1000 0]} false false tb.

Lemma tab_f : tab_is tab [ImageDemo.f_info].
Proof.
  exists [0x500]. split; [apply NoDup_singleton|]. cbn. split; [done|]. split; [done|]. exists node. split; [done|]. split; [|done]. split; try done; [by eexists|].
  eexists. split; [done|]. split; [done|]. intros [|i] o z H; [injection H as <- <-; done|done].
Qed.
Lemma traceable_f (s : ftr) : t_tab s = tab -> t_mem s = mem -> traceable s [ImageDemo.f_info] 0x1000 0x100 (Some ImageDemo.f_info) [7].
Proof.
  intros Et Em. split; rewrite ?Et, ?Em; [apply tab_f|done|]. split; [done|]. split; [solve_forall|]. split; [cbn; lia|]. split; [vm_compute; lia|]. exists 0x200.
  split; [intros _; split; [vm_compute; reflexivity|lia]|]. apply Forall2_cons. split; [|by apply Forall2_nil]. split; [by right; right; left|vm_compute; reflexivity].
Qed.
Lemma tb_empty : tb_rep tb [].
Proof. by constructor. Qed.
Lemma idle_pending : pending demo_root_pool demo_cache_pool idle [].
Proof. split; [exact kmem_demo_ok|]. split; [intros q Hq; change (is_Some ((∅ : gmap Z ftrace_half) !! q)) in Hq; rewrite lookup_empty in Hq; by destruct Hq|]. exists []. split; [apply NoDup_nil_2|done]. Qed.
Lemma busy_pending : pending demo_root_pool demo_cache_pool busy ([] ++ (0x1000, 0) :: []).
Proof.
  assert (is_ret (kalloc sizeof_ftrace_half demo_slabs) = true) as Hr by (vm_compute; reflexivity).
  destruct (kalloc_small_spec demo_root_pool demo_cache_pool demo_slabs sizeof_ftrace_half kmem_demo_ok ltac:(unfold sizeof_ftrace_half; lia)) as [[E _]|(p & h & E & [Hok _] & Hnz & _ & Hu)]; [rewrite E in Hr; discriminate Hr|].
  assert (opened = (p, h)) as Eo by (unfold opened; rewrite E; reflexivity). unfold busy. rewrite Eo. cbn [fst snd]. split; [exact Hok|]. split.
  - cbn [halves t_heap]. intros q [x [<- _]%lookup_singleton_Some]. apply Hu. right. reflexivity.
  - exists [p]. split; [apply NoDup_singleton|]. cbn [halves head_half app hchain]. split; [reflexivity|]. split; [exact Hnz|]. eexists. rewrite lookup_singleton_eq. split; [reflexivity|]. split; [reflexivity|]. split; reflexivity.
Qed.
End TraceDemo.

Lemma functrace_records_witness :
  exists s', functrace demo_cache_pool (replicate 64 0) (replicate 128 0) (replicate 9 0) 0x1000 0 0x100 TraceDemo.idle = Ret (tt, s') /\
    tb_rep (t_buf s') [[102; 40; 55; 41; 10]].
Proof.
  destruct (functrace_records demo_root_pool demo_cache_pool (replicate 64 0) (replicate 128 0) (replicate 9 0) TraceDemo.idle [] [] [ImageDemo.f_info] 0x1000 0 0x100 (Some ImageDemo.f_info) [7])
    as [[_ H]|(s' & E & _ & _ & _ & H)].
  - split; [reflexivity|split; [reflexivity|cbn; lia]].
  - exact TraceDemo.idle_pending.
  - split; reflexivity.
  - exact TraceDemo.tb_empty.
  - apply TraceDemo.traceable_f; reflexivity.
  - split; [vm_compute; lia|vm_compute; discriminate].
  - exfalso. vm_compute in H. discriminate H.
  - exists s'. split; [exact E|exact H].
Defined.

Lemma ftrace_measures_witness :
  exists s', ftrace_end demo_cache_pool (replicate 64 0) (replicate 128 0) (replicate 9 0) 0x1000 0 0x100 TraceDemo.busy = Ret (tt, s') /\
    tb_rep (t_buf s') [[91; 51; 48; 48; 48; 32; 117; 115; 93; 102; 40; 55; 41; 10]].
Proof.
  destruct (ftrace_measures demo_root_pool demo_cache_pool (replicate 64 0) (replicate 128 0) (replicate 9 0) TraceDemo.busy 0 0x100) as [_ He];
    [split; [reflexivity|split; [reflexivity|cbn; lia]]|split; reflexivity|].
  destruct (He [] 0x1000 0 [] [] [ImageDemo.f_info] (Some ImageDemo.f_info) [7] TraceDemo.busy_pending) as [[_ H]|(s' & E & _ & _ & _ & H)].
  - apply not_elem_of_nil.
  - exact TraceDemo.tb_empty.
  - apply TraceDemo.traceable_f; reflexivity.
  - vm_compute. lia.
  - vm_compute. discriminate.
  - exfalso. vm_compute in H. discriminate H.
  - exists s'. split; [exact E|]. change (elapsed TraceDemo.busy 0) with 3000 in H. exact H.
Defined.

(** Four long numbers do not fit: the text of the arguments is written past
    the end of its 64 bytes before the length is looked at. *)
Theorem functrace_args_overrun :
  args_loop 4 (list_to_map ((fun i => (0x1000 + Z.of_nat i, if (i mod 8 =? 7)%nat then 128 else 0)) <$> seq 0 32)) 0x1000 4 [0; 8; 16; 24] [8; 8; 8; 8] 0 (replicate 5 0) (replicate 64 0) 0 = Fault.
Proof. vm_compute. reflexivity. Qed.

(** The end of a call that was under way when the trace was switched on stops
    the kernel: nothing in the list matches it. *)
Lemma pop_none `{MA : Machine} (s : ftr) pc qs cs : forall n pre p, hchain (halves s) p qs cs -> pc ∉ cs.*1 -> (length qs <= n)%nat -> pop_loop n pc pre p s = Ret (0, s).
Proof.
  revert cs. induction qs as [|q qs IH]; intros [|[pc0 t0] cs] n pre p Hc Hni Hn; cbn [hchain] in Hc; try done.
  - subst p. by destruct n.
  - destruct Hc as (-> & Hnz & y & Hy & Hp & _ & Hc). destruct n as [|n]; [cbn in Hn; lia|]. cbn [pop_loop]. rewrite (proj2 (Z.eqb_neq _ _) Hnz). mrun (eq_refl (Ret (s, s))). rewrite Hy.
    cbn in Hp, Hni, Hn. rewrite (proj2 (Z.eqb_neq (h_pc y) pc)) by (intros Heq; set_solver). apply (IH cs); [done|set_solver|lia].
Qed.
Theorem ftrace_end_unmatched_halts `{MA : Machine} (root_pool cache_pool : Z) (raw_str raw_buf raw_argv : list Z) (s : ftr) (cs : list (Z * Z)) (pc lr fp : Z) :
  pending root_pool cache_pool s cs -> pc ∉ cs.*1 -> t_disabled s = false -> in_functrace s = false -> ftrace_end cache_pool raw_str raw_buf raw_argv pc lr fp s = Halt.
Proof.
  intros (_ & _ & qs & Hnd & Hc) Hni Hd Hi. unfold ftrace_end. mrun (eq_refl (Ret (s, s))). rewrite Hd, Hi. cbn [orb]. mrun (eq_refl (Ret (tt, with_in true s))). mrun (count_run (with_in true s)).
  set (s0 := with_tdev _ _). assert (ftrace_half_call_pop pc s0 = Ret (0, s0)) as E.
  { unfold ftrace_half_call_pop. mrun (eq_refl (Ret (s0, s0))). apply (pop_none s0 pc qs cs); [done|done|by eapply hchain_size]. }
  by mrun E.
Qed.
