(* ===== verification/Backtrace.v ===== *)
(** * Back traces (ukern/src/kmon/backtrace.c, kmon/dbginfo.c)

    A frame leads to its caller through the rules for the canonical frame
    address and for register 30; [backtrace] follows them and prints the frames
    it finds.  The frame section, which libdwarf reads, is the class [Frames].
    What is printed is the list of the frames. *)
From S2P Require Import Prelude Config Bitmap Page Slab SlabSpec Kmem Heap Dbginfo.

(** What libdwarf answers about [.debug_frame]: the entry of an address, the
    size of the rule table, and the rules that hold at an address: the offset
    of the frame address and those of the registers. *)
Class Frames `{DW : Dwarf} := {
  fde : Type;
  dwarf_init_rd : option Z -> dlv dwarf;       (* of what [ramdisk_open] found *)
  dwarf_get_fde_list : dwarf -> dlv ();
  dwarf_get_fde_at_pc : Z -> dlv fde;
  frame_rule_table_size : Z;
  dwarf_get_fde_info_for_all_regs3 : fde -> Z -> dlv (Z * list Z) }.
Definition sizeof_regtable_entry : Z := 24.

Record frame := mkFrame { fr_level : Z; fr_pc : Z; fr_sp : Z; fr_func : option (list Z); fr_file : list Z; fr_line : Z }.

Section Backtrace.
Context `{DW : Dwarf} `{KH : KHeap} {FR : Frames} (fuel : nat).
(** A 64-bit load from the kernel's memory. *)
Context (load : Z -> outcome Z).
Abbreviation D := (M dbgi).

(** Asking for the size sets it and sets it back.  [None] is the result -1,
    otherwise the caller's pc and sp; a pc of 0 says that it is in x30. *)
Definition dbginfo_get_caller (curpc cursp : Z) : D (option (Z * Z)) :=
  match dlv_ok (dwarf_get_fde_at_pc curpc) with
  | None => mret None
  | Some target_fde =>
      let oldrulecount := frame_rule_table_size in
      rules ← on_dheap (h_kalloc (sizeof_regtable_entry * oldrulecount));
      if rules =? 0 then mret None
      else
        match dlv_ok (dwarf_get_fde_info_for_all_regs3 target_fde curpc) with
        | None => on_dheap (h_kfree rules);; mret None
        | Some (cfa_off, offs) =>
            ra_off ← lift (rd offs 30);
            let callersp := u64 (cursp + cfa_off) in
            callerpc ← (if ra_off =? 0 then mret 0 else lift (load (u64 (callersp + ra_off))));
            on_dheap (h_kfree rules);;
            mret (Some (callerpc, callersp))
        end
  end.

Fixpoint backtrace_loop (n : nat) (pc sp x30 level : Z) : D (list frame) :=
  match n with
  | O => fun _ => Diverge
  | S n' =>
      s ← get;
      loc ← lift (dgbinfo_get_func_loc pc (d_tab s));
      match loc with
      | None => mret []
      | Some (func, file) =>
          line ← dbginfo_get_func_lineno fuel pc file;
          match line with
          | None => mret []
          | Some line =>
              let fr := mkFrame level pc sp func file line in
              c ← dbginfo_get_caller pc sp;
              match c with
              | None => mret [fr]
              | Some (prepc, presp) =>
                  let prepc := if prepc =? 0 then x30 else prepc in
                  rest ← backtrace_loop n' (u64 (prepc - 4)) presp x30 (level + 1);
                  mret (fr :: rest)
              end
          end
      end
  end.
Definition backtrace (n : nat) (pc sp x30 : Z) : D (list frame) := backtrace_loop n pc sp x30 0.

(** Opening the image; [elf_file] is what [ramdisk_open] found, and its result
    is not tested. *)
Definition init_dbginfo (raw : list Z) (stale : Z) (elf_file : option Z) : D Z :=
  match dlv_ok (dwarf_init_rd elf_file) with
  | None => mret (-1)
  | Some dbg =>
      modify (with_dw dbg);;
      match dlv_ok (dwarf_get_fde_list dbg) with
      | None => mret (-1)
      | Some _ => r ← dgbinfo_init_all_func fuel raw stale; if r <? 0 then mret (-1) else mret 0
      end
  end.
End Backtrace.

(** ** What a trace shows *)
Section Trace.
Context `{DW : Dwarf} `{KH : KHeap} {FR : Frames} (fuel : nat) (load : Z -> outcome Z) (x30 : Z).

(** The frame below (pc, sp), by the rules at [pc]. *)
Definition caller_is (pc sp pc' sp' : Z) : Prop := exists f cfa offs ra,
  dlv_ok (dwarf_get_fde_at_pc pc) = Some f /\ dlv_ok (dwarf_get_fde_info_for_all_regs3 f pc) = Some (cfa, offs) /\ offs !! 30%nat = Some ra /\
  sp' = u64 (sp + cfa) /\ exists r, pc' = u64 (r - 4) /\ if decide (ra = 0) then r = x30 else r <> 0 /\ load (u64 (sp' + ra)) = Ret r.
(** A call chain ends where no entry describes the address. *)
Inductive call_chain : Z -> Z -> list (Z * Z) -> Prop :=
| chain_last pc sp : dlv_ok (dwarf_get_fde_at_pc pc) = None -> call_chain pc sp [(pc, sp)]
| chain_call pc sp pc' sp' l : caller_is pc sp pc' sp' -> call_chain pc' sp' l -> call_chain pc sp ((pc, sp) :: l).

(** [P] holds of the state between the steps: in it the addresses [locs] knows
    are found in the table and have a line, and a rule table can be allocated
    and released. *)
Context (P : dbgi -> Prop) (locs : Z -> option (option (list Z) * list Z * Z)).
Context (Hlocs : forall pc func file line s, locs pc = Some (func, file, line) -> P s ->
  dgbinfo_get_func_loc pc (d_tab s) = Ret (Some (func, file)) /\ exists s', dbginfo_get_func_lineno fuel pc file s = Ret (Some line, s') /\ P s').
Context (Hheap : forall s, P s -> exists p h h', h_kalloc (sizeof_regtable_entry * frame_rule_table_size) (d_heap s) = Ret (p, h) /\ p <> 0 /\
  h_kfree p h = Ret (tt, h') /\ P (with_dheap h' s)).

Lemma get_caller_run pc sp pc' sp' s : caller_is pc sp pc' sp' -> P s ->
  exists r s', dbginfo_get_caller load pc sp s = Ret (Some (r, sp'), s') /\ u64 ((if r =? 0 then x30 else r) - 4) = pc' /\ P s'.
Proof using Hheap.
  intros (f & cfa & offs & ra & Hf & Hi & Hra & -> & r & -> & Hr) Hs. destruct (Hheap s Hs) as (p & h & h' & E1 & Hp & E2 & Hs').
  unfold dbginfo_get_caller. rewrite Hf.
  rewrite (M_bind_run _ _ s p (with_dheap h s)) by (unfold on_dheap, zoom; by rewrite E1).
  rewrite (proj2 (Z.eqb_neq p 0) Hp), Hi. rewrite (M_bind_run _ _ (with_dheap h s) ra (with_dheap h s)) by (unfold lift; by rewrite (rd_lookup _ 30 ra) by done).
  set (r0 := if decide (ra = 0) then 0 else r). set (sp' := u64 (sp + cfa)) in *.
  assert ((if ra =? 0 then mret 0 else lift (load (u64 (sp' + ra)))) (with_dheap h s) = Ret (r0, with_dheap h s)) as E3.
  { unfold r0. destruct (Z.eqb_spec ra 0), (decide (ra = 0)); try done. unfold lift. by rewrite (proj2 Hr). }
  cbv zeta. rewrite (M_bind_run _ _ _ _ _ E3). rewrite (M_bind_run _ _ (with_dheap h s) tt (with_dheap h' s)) by (unfold on_dheap, zoom; cbn [d_heap with_dheap]; by rewrite E2).
  exists r0, (with_dheap h' s). split; [done|]. split; [|done]. unfold r0. destruct (decide (ra = 0)); [by rewrite Hr|]. by rewrite (proj2 (Z.eqb_neq r 0)) by apply Hr.
Qed.
Lemma get_caller_none pc sp s : dlv_ok (dwarf_get_fde_at_pc pc) = None -> dbginfo_get_caller load pc sp s = Ret (None, s).
Proof. intros H. unfold dbginfo_get_caller. by rewrite H. Qed.

(** The frames of a chain, with the places [locs] gives. *)
Fixpoint frames_of (level : Z) (l : list (Z * Z)) : option (list frame) :=
  match l with
  | [] => Some []
  | (pc, sp) :: l' => '(func, file, line) ← locs pc; rest ← frames_of (level + 1) l'; Some (mkFrame level pc sp func file line :: rest)
  end.

Lemma backtrace_run pc sp l : call_chain pc sp l -> forall n level s frs, frames_of level l = Some frs -> P s -> (length l <= n)%nat ->
  exists s', backtrace_loop fuel load n pc sp x30 level s = Ret (frs, s') /\ P s'.
Proof using Hlocs Hheap.
  induction 1 as [pc sp Hn|pc sp pc' sp' l Hc Hl IH]; intros n level s frs Hf Hs Hlen; (destruct n as [|n]; [cbn in Hlen; lia|]); cbn [frames_of] in Hf.
  - destruct (locs pc) as [[[func file] line]|] eqn:E; [|done]. injection Hf as <-. destruct (Hlocs pc func file line s E Hs) as (H1 & s1 & H2 & Hs1).
    exists s1. split; [|done]. cbn [backtrace_loop]. rewrite (M_bind_run _ _ s s s eq_refl). rewrite (M_bind_run _ _ s (Some (func, file)) s) by (unfold lift; by rewrite H1).
    rewrite (M_bind_run _ _ _ _ _ H2). cbv zeta. by rewrite (M_bind_run _ _ _ _ _ (get_caller_none pc sp s1 Hn)).
  - destruct (locs pc) as [[[func file] line]|] eqn:E; [|done]. cbn [mbind option_bind] in Hf. destruct (frames_of (level + 1) l) as [rest|] eqn:Er; [|done]. injection Hf as <-.
    destruct (Hlocs pc func file line s E Hs) as (H1 & s1 & H2 & Hs1). destruct (get_caller_run pc sp pc' sp' s1 Hc Hs1) as (r & s2 & H3 & Hr & Hs2).
    destruct (IH n (level + 1) s2 rest Er Hs2 ltac:(cbn in Hlen; lia)) as (s3 & H4 & Hs3). exists s3. split; [|done].
    cbn [backtrace_loop]. rewrite (M_bind_run _ _ s s s eq_refl). rewrite (M_bind_run _ _ s (Some (func, file)) s) by (unfold lift; by rewrite H1).
    rewrite (M_bind_run _ _ _ _ _ H2). cbv zeta. rewrite (M_bind_run _ _ _ _ _ H3). cbv iota. rewrite Hr. by rewrite (M_bind_run _ _ _ _ _ H4).
Qed.
End Trace.

(** A back trace shows the call chain: when the rules of the frame section
    lead from each frame to its caller, the return addresses are where the
    rules say or, where they say nothing, in x30, and every address has a
    place in the debug information, the frames are printed from the innermost
    one outwards, each with the place of the call, and the trace ends at the
    first frame that no entry describes. *)
Theorem backtrace_follows `{DW : Dwarf} `{KH : KHeap} {FR : Frames} (fuel : nat) (load : Z -> outcome Z) (pc sp x30 : Z)
  (P : dbgi -> Prop) (locs : Z -> option (option (list Z) * list Z * Z)) (s : dbgi) (l : list (Z * Z)) (frs : list frame) (n : nat)
  (Hlocs : forall pc func file line s, locs pc = Some (func, file, line) -> P s ->
    dgbinfo_get_func_loc pc (d_tab s) = Ret (Some (func, file)) /\ exists s', dbginfo_get_func_lineno fuel pc file s = Ret (Some line, s') /\ P s')
  (Hheap : forall s, P s -> exists p h h', h_kalloc (sizeof_regtable_entry * frame_rule_table_size) (d_heap s) = Ret (p, h) /\ p <> 0 /\
    h_kfree p h = Ret (tt, h') /\ P (with_dheap h' s))
  (Hchain : call_chain load x30 pc sp l) (Hfrs : frames_of locs 0 l = Some frs) (Hs : P s) (Hn : (length l <= n)%nat) :
  exists s', backtrace fuel load n pc sp x30 s = Ret (frs, s') /\ P s'.
Proof. by apply (backtrace_run fuel load x30 P locs Hlocs Hheap pc sp l). Qed.

(** A function whose rules say nothing about register 30 takes its caller from
    x30, at whatever depth it is found: when that leads back into the same
    place, the trace never ends. *)
Theorem backtrace_x30_loops `{DW : Dwarf} `{KH : KHeap} {FR : Frames} (fuel : nat) (load : Z -> outcome Z) (pc sp x30 : Z)
  (P : dbgi -> Prop) (func : option (list Z)) (file : list Z) (line : Z) (f : fde) (offs : list Z) (s : dbgi)
  (Hloc : forall s, P s -> dgbinfo_get_func_loc pc (d_tab s) = Ret (Some (func, file)) /\ exists s', dbginfo_get_func_lineno fuel pc file s = Ret (Some line, s') /\ P s')
  (Hheap : forall s, P s -> exists p h h', h_kalloc (sizeof_regtable_entry * frame_rule_table_size) (d_heap s) = Ret (p, h) /\ p <> 0 /\
    h_kfree p h = Ret (tt, h') /\ P (with_dheap h' s))
  (Hf : dlv_ok (dwarf_get_fde_at_pc pc) = Some f) (Hi : dlv_ok (dwarf_get_fde_info_for_all_regs3 f pc) = Some (0, offs)) (H30 : offs !! 30%nat = Some 0)
  (Hsp : 0 <= sp < 2 ^ 64) (Hpc : pc = u64 (x30 - 4)) (Hs : P s) :
  forall n, backtrace fuel load n pc sp x30 s = Diverge.
Proof.
  unfold backtrace. intros n. generalize 0 as level. revert s Hs. induction n as [|n IH]; intros s Hs level; [done|]. cbn [backtrace_loop].
  destruct (Hloc s Hs) as (H1 & s1 & H2 & Hs1).
  assert (caller_is load x30 pc sp pc sp) as Hc by (exists f, 0, offs, 0; split_and!; [done..|by rewrite Z.add_0_r, u64_small|by exists x30]).
  destruct (get_caller_run load x30 P Hheap pc sp pc sp s1 Hc Hs1) as (r & s2 & H3 & Hr & Hs2).
  rewrite (M_bind_run _ _ s s s eq_refl). rewrite (M_bind_run _ _ s (Some (func, file)) s) by (unfold lift; by rewrite H1).
  rewrite (M_bind_run _ _ _ _ _ H2). cbv zeta. rewrite (M_bind_run _ _ _ _ _ H3). cbv iota. rewrite Hr.
  unfold mbind, M_bind. by rewrite (IH s2 Hs2 (level + 1)).
Qed.

(** The image of [ImageDemo], with rules for the first half of its function:
    the frame address is sp + 16 and the return address lies below it. *)
Module TraceDemo.
#[local] Existing Instances ImageDemo.image ImageDemo.heap_.
#[local] Instance rules : Frames (DW := ImageDemo.image) := {|
  fde := (); frame_rule_table_size := 66; dwarf_init_rd _ := DW_DLV_OK (true : @dwarf ImageDemo.image); dwarf_get_fde_list _ := DW_DLV_OK tt;
  dwarf_get_fde_at_pc pc := if pc <? 0x1020 then DW_DLV_OK tt else DW_DLV_NO_ENTRY;
  dwarf_get_fde_info_for_all_regs3 _ _ := DW_DLV_OK (16, <[30%nat := 2 ^ 64 - 8]> (replicate 66 0)) |}.
Definition stack (a : Z) : outcome Z := if a =? 0x8008 then Ret 0x1024 else Fault.
Definition trace : outcome (list frame * dbgi) :=
  (_ ← init_dbginfo 2 (replicate 16 0) 0 (Some 0); backtrace 2 stack 5 0x1014 0x8000 0) ImageDemo.start.
Example trace_two_frames :
  (fst <$> match trace with Ret r => Some r | _ => None end) =
    Some [mkFrame 0 0x1014 0x8000 (Some ImageDemo.name_f) ImageDemo.name_a 4; mkFrame 1 0x1020 0x8010 (Some ImageDemo.name_f) ImageDemo.name_a 7].
Proof. vm_compute. reflexivity. Qed.
End TraceDemo.
