(* ===== verification/KernelIrq.v ===== *)
(** * Interrupts taken in kernel mode (ukern/src/vector3.c)

    The entry first tells the monitor which context was interrupted, and then
    serves what is pending.  Monitor and interrupt tables have one set of
    device registers, that of the monitor's state. *)
From S2P Require Import Prelude Config Slab SlabSpec Kmem Heap Kernel Machine Gic Irq Breakpoint Monitor.

Section KernelIrq.
Context `{MA : Machine} (root_pool cache_pool : Z) {W H : Type} (call : H -> Z -> M (@irqs MA W H) ()).
Abbreviation mon := (@mon MA root_pool cache_pool).

Record ksys := mkKsys { y_mon : mon; y_gicd : Z; y_rd : list Z; y_sgi : list Z; y_pcpu : list (@irq H); y_spi : list (@irq H); y_world : W }.
Definition with_mon (m : mon) (y : ksys) : ksys := mkKsys m (y_gicd y) (y_rd y) (y_sgi y) (y_pcpu y) (y_spi y) (y_world y).
Definition mon_regs (d : mstate) (m : mon) : mon :=
  mkMon root_pool cache_pool (m_rl _ _ m) (with_regs d (m_dbg _ _ m)) (m_state _ _ m) (functrace_disabled _ _ m) (functrace_buf _ _ m) (m_mem _ _ m).

(** The two views. *)
Definition y_irqs (y : ksys) : @irqs MA W H :=
  mkIrqs (mkGic (b_dev (m_dbg _ _ (y_mon y))) (y_gicd y) (y_rd y) (y_sgi y)) (y_pcpu y) (y_spi y) (y_world y).
Definition set_irqs (s : @irqs MA W H) (y : ksys) : ksys :=
  mkKsys (mon_regs (g_dev (i_gic s)) (y_mon y)) (gicd_map (i_gic s)) (gicr_rd_map (i_gic s)) (gicr_sgi_map (i_gic s)) (pcpu_irq_desc s) (spi_irq_desc s) (i_world s).
Definition on_mon {A} (m : M mon A) : M ksys A := zoom y_mon with_mon m.
Definition on_irqs {A} (m : M (@irqs MA W H) A) : M ksys A := zoom y_irqs set_irqs m.

Definition irq_from_current_el (rounds : nat) (ectx : Z) : M ksys () :=
  on_mon (kmon_sync root_pool cache_pool ectx true);;
  _ ← on_irqs (do_irq_handler call rounds);
  mret tt.
End KernelIrq.

(** An interrupt in kernel mode: when serving what is pending comes to an end
    (each interrupt by its own handler, as [serve_all] says), the entry returns
    with the world the handlers made, and the monitor knows the interrupted
    context, that it can return to it, and whether calls were being traced;
    the rest of the monitor is as it was. *)
Theorem irq_from_current_el_serves `{CI : CpuInterface} (root_pool cache_pool : Z) {W H : Type} (dflt : H) (call : H -> Z -> M (@irqs MA W H) ())
    (eff : H -> Z -> W * list Z -> W * list Z) (m : gmap Z H) (y : ksys root_pool cache_pool) (rounds : nat) (ectx : Z) (w' : W)
    (Hr : registry dflt m (y_irqs _ _ y)) (Hs : length (y_spi _ _ y) = 256%nat) (Hd : calm call eff dflt) (Hm : map_Forall (fun _ => calm call eff) m)
    (Hserve : serve_all dflt eff m rounds (y_world _ _ y) (pend (y_irqs _ _ y)) = Ret w') :
  exists y', irq_from_current_el root_pool cache_pool call rounds ectx y = Ret (tt, y') /\
    pend (y_irqs _ _ y') = [] /\ act (y_irqs _ _ y') = act (y_irqs _ _ y) /\ registry dflt m (y_irqs _ _ y') /\ y_world _ _ y' = w' /\
    let k := y_mon _ _ y in let k' := y_mon _ _ y' in
    cur_ectx (m_dbg _ _ k') = ectx /\ returnable (m_state _ _ k') = true /\ ftrace_disabled (m_state _ _ k') = functrace_disabled _ _ k /\
    inside (m_state _ _ k') = inside (m_state _ _ k) /\ m_rl _ _ k' = m_rl _ _ k /\ allbrks (m_dbg _ _ k') = allbrks (m_dbg _ _ k).
Proof.
  unfold irq_from_current_el. set (k := y_mon _ _ y).
  destruct (kmon_sync root_pool cache_pool ectx true k) as [[[] k1]| | |] eqn:E1; try discriminate E1.
  set (y1 := with_mon _ _ k1 y). assert (on_mon _ _ (kmon_sync root_pool cache_pool ectx true) y = Ret (tt, y1)) as R1 by (unfold on_mon, zoom; fold k; by rewrite E1).
  injection E1 as <-. rewrite (M_bind_run _ _ _ _ _ R1).
  pose proof (do_irq_handler_run dflt call eff m rounds (y_irqs _ _ y1) Hr Hs Hd Hm) as Hrun. change (i_world (y_irqs _ _ y1)) with (y_world _ _ y) in Hrun.
  change (y_irqs _ _ y1) with (y_irqs _ _ y) in Hrun. rewrite Hserve in Hrun. destruct Hrun as (s' & E & P' & A' & T' & W').
  exists (set_irqs _ _ s' y1). split; [rewrite (M_bind_run _ _ y1 0 (set_irqs _ _ s' y1)); [done|]; unfold on_irqs, zoom; change (y_irqs _ _ y1) with (y_irqs _ _ y); by rewrite E|].
  split; [exact P'|]. split; [exact A'|]. split; [by apply (registry_same dflt m (y_irqs _ _ y))|]. split; [exact W'|]. by split_and!.
Qed.
