(* ===== verification/Boot.v ===== *)
(** * Start-up (ukern/src/init.c, src/mm.c, src/ramdisk.c)

    [kernel_init] puts the components together: each has its own state, and
    the state of the start-up contains all of them.  The device registers are
    shared by the drivers.  What the LOG_ macros print on the way is left out. *)
From S2P Require Import Prelude Config CList Bitmap Page PageTable KvSpace Slab Kmem Spinlock Uaccess Kernel Kobject Proc Objects Ramdisk Exec Machine Gic Irq Timer Uart Flash Print.

Definition sizeof_init_call : Z := 8.

(** The functions registered for the two calls of [call_init_func]; the link
    order of the object files decides their order in the section. *)
Inductive uspace_initcall := call_stdio_kobject_init | call_init_kobject_type.
Inductive irqhook_initcall := call_console_irq_init | call_sched_timer_irq_init | call_ftrace_timer_irq_init.

(** What the link script fixes. *)
Class Image := {
  root_pool_addr : Z;                       (* &root_pool in slab.c *)
  kernel_end : Z;
  kernel_page_table : Z;
  start_ut_call : Z;
  stop_ut_call : Z;
  init_func_3_start : Z;                    (* __init_func_3_start up to __init_func_4_start *)
  init_func_3 : list irqhook_initcall;
  init_func_5_start : Z;
  init_func_5 : list uspace_initcall;
  roots_elf : bytes;                        (* the literal "roots.elf" and the bytes behind it *)
}.

(** The start of the next section. *)
Definition section_end {A} (start : Z) (fns : list A) : Z := start + sizeof_init_call * Z.of_nat (length fns).

Section Boot.
Context `{MA : Machine} `{KE : KernEnv} `{IM : Image} (patience : nat).

(** The only handler that is not of the timers. *)
Abbreviation console_irq_handler := (Other tt).
Abbreviation sys := (@irqs MA clock (@handler ())).

(** The geometry in [struct cfi_info]. *)
Record geometry := mkGeo { geo_capacity : Z; geo_eregnum : Z; geo_eblksz : Z; geo_pgsz : Z }.

Record boot := mkBoot {
  b_k : kstate;
  b_sys : sys;              (* device registers, interrupt tables, clock *)
  b_uart : uart_pl011;
  b_conslock : spinlock;
  b_kvspace : vspace;
  b_geo : geometry;
  b_sb : option ramdisk;
}.
Abbreviation B := (M boot).

Definition set_k (x : kstate) (b : boot) : boot := mkBoot x (b_sys b) (b_uart b) (b_conslock b) (b_kvspace b) (b_geo b) (b_sb b).
Definition set_sys (x : sys) (b : boot) : boot := mkBoot (b_k b) x (b_uart b) (b_conslock b) (b_kvspace b) (b_geo b) (b_sb b).
Definition set_uart (x : uart_pl011) (b : boot) : boot := mkBoot (b_k b) (b_sys b) x (b_conslock b) (b_kvspace b) (b_geo b) (b_sb b).
Definition set_conslock (x : spinlock) (b : boot) : boot := mkBoot (b_k b) (b_sys b) (b_uart b) x (b_kvspace b) (b_geo b) (b_sb b).
Definition set_kvspace (x : vspace) (b : boot) : boot := mkBoot (b_k b) (b_sys b) (b_uart b) (b_conslock b) x (b_geo b) (b_sb b).
Definition set_geo (x : geometry) (b : boot) : boot := mkBoot (b_k b) (b_sys b) (b_uart b) (b_conslock b) (b_kvspace b) x (b_sb b).
Definition set_sb (x : option ramdisk) (b : boot) : boot := mkBoot (b_k b) (b_sys b) (b_uart b) (b_conslock b) (b_kvspace b) (b_geo b) x.

(** The device registers. *)
Definition b_dev (b : boot) : mstate := g_dev (i_gic (b_sys b)).
Definition set_dev (d : mstate) (b : boot) : boot := set_sys (with_gic (with_dev d (i_gic (b_sys b))) (b_sys b)) b.

(** The views of the components. *)
Definition on_k {A} (m : K A) : B A := zoom b_k set_k m.
Definition on_sys {A} (m : M sys A) : B A := zoom b_sys set_sys m.
Definition on_intc {A} (m : M gic A) : B A := on_sys (on_gic m).
Definition on_console {A} (m : M dev_console A) : B A :=
  zoom (fun b => mkCons (mkSerial (b_dev b) (b_uart b)) (b_conslock b))
       (fun c b => set_dev (s_dev (c_serial c)) (set_uart (s_uart (c_serial c)) (set_conslock (Uart.c_lock c) b))) m.
Definition on_console_irq {A} (m : M (@irqs MA uart_pl011 (@handler ())) A) : B A :=
  zoom (fun b => mkIrqs (i_gic (b_sys b)) (pcpu_irq_desc (b_sys b)) (spi_irq_desc (b_sys b)) (b_uart b))
       (fun s b => set_sys (mkIrqs (i_gic s) (pcpu_irq_desc s) (spi_irq_desc s) (i_world (b_sys b))) (set_uart (i_world s) b)) m.
Definition on_cfi {A} (m : M cfi A) : B A :=
  zoom (fun b => mkCfi (b_dev b) (geo_capacity (b_geo b)) (geo_eregnum (b_geo b)) (geo_eblksz (b_geo b)) (geo_pgsz (b_geo b)))
       (fun c b => set_dev (f_dev c) (set_geo (mkGeo (capacity c) (eregnum c) (eblksz c) (pgsz c)) b)) m.
Definition on_device {A} (m : M mstate A) : B A := zoom b_dev set_dev m.

(** ** mm.c *)

(** Where the bitmap and the descriptors of the page allocator lie, memory
    holds [ram_bitmap] and [ram_pages]. *)
Definition init_mm (ram_bitmap : list Z) (ram_pages : list page) : B () :=
  let kmem_base := align_page_up kernel_end in
  let kmem_size := CONFIG_RAM_SIZE in
  assertM (page_aligned kmem_base && page_aligned kmem_size);;
  on_k (on_pages (page_init ram_bitmap ram_pages kmem_base (Z.shiftr kmem_size PAGE_SHIFT)));;
  r ← on_k (on_slab (init_slab root_pool_addr cache_pool_addr));
  (if r <? 0 then halt else mret tt);;
  kv ← on_k (on_map (kvspace_init kernel_page_table start_ut_call stop_ut_call));
  modify (set_kvspace kv).

(** ** init.c *)

(** [fns] is the table at [fn_start]; a call behind it is a jump into nowhere. *)
Fixpoint call_loop {A} (run : A -> B Z) (n : nat) (i : Z) (fns : list A) : B () :=
  match n with
  | O => mret tt
  | S n' => f ← lift (rd fns i); _ ← run f; call_loop run n' (i + 1) fns
  end.
Definition call_init_func {A} (run : A -> B Z) (fn_start fn_end : Z) (fns : list A) : B () :=
  let size := s32 (u64 (fn_end - fn_start) / sizeof_init_call) in
  if size <=? 0 then mret tt else call_loop run (Z.to_nat size) 0 fns.

Definition run_uspace (c : uspace_initcall) : B Z :=
  match c with
  | call_stdio_kobject_init => on_k stdio_kobject_init
  | call_init_kobject_type => on_k (init_kobject_type kobj_type_descs)
  end.
Definition init_uspace : B () :=
  call_init_func run_uspace init_func_5_start (section_end init_func_5_start init_func_5) init_func_5.

Definition run_irqhook (c : irqhook_initcall) : B Z :=
  match c with
  | call_console_irq_init => on_console_irq (console_irq_init patience console_irq_handler)
  | call_sched_timer_irq_init => on_sys (sched_timer_irq_init patience)
  | call_ftrace_timer_irq_init => on_sys (ftrace_timer_irq_init patience)
  end.
Definition init_irqhooks : B () :=
  call_init_func run_irqhook init_func_3_start (section_end init_func_3_start init_func_3) init_func_3.

(** ** ramdisk.c, with the memory and the flash behind it *)
Definition ramdisk_copy_from_flash : B () :=
  '(img, _) ← on_device (Flash.cfi_read 0 RAMDISK_SIZE);
  on_k (memcpy_to (ptov RAMDISK_BASE) img).

(** "File            Size    \n" and "%-16s%-10d\n" *)
Definition tree_head : bytes :=
  [70; 105; 108; 101; 32; 32; 32; 32; 32; 32; 32; 32; 32; 32; 32; 32; 83; 105; 122; 101; 32; 32; 32; 32; 10; 0].
Definition tree_line : bytes := [37; 45; 49; 54; 115; 37; 45; 49; 48; 100; 10; 0].
Fixpoint tree_loop (n : nat) (inode : Z) : B () :=
  match n with
  | O => mret tt
  | S n' =>
      b ← get;
      let img := image RAMDISK_SIZE (b_k b) in
      f_name ← lift (c_str (drop (Z.to_nat inode) img));
      f_size ← lift (ramdisk_file_size img inode);
      on_sys (kprintf tree_line [AStr f_name; ASlot f_size]);;
      tree_loop n' (inode + sizeof_inode)
  end.
Definition ramdisk_tree : B () :=
  b ← get;
  match b_sb b with
  | None => lift Fault
  | Some r =>
      let nr_file := s32 (rd_cnt r) in
      on_sys (kprintf tree_head []);;
      tree_loop (Z.to_nat nr_file) (rd_root r)
  end.

Definition init_ramdisk : B Z :=
  ramdisk_copy_from_flash;;
  if (ptov RAMDISK_BASE =? 0) || (ptov (RAMDISK_BASE + RAMDISK_SIZE) =? 0) then mret (- EINVAL)
  else
    b ← get;
    '(ret, r) ← lift (ramdisk_init (ptov RAMDISK_BASE) (image RAMDISK_SIZE (b_k b)));
    match r with Some _ => modify (set_sb r);; ramdisk_tree;; mret ret | None => mret ret end.

Definition boot_root_service : B Z := b ← get; on_k (load_root_service RAMDISK_SIZE (b_sb b) roots_elf).

(** Returns where the code goes into [while (1)]; [init_failed] panics. *)
Definition kernel_init (ram_bitmap : list Z) (ram_pages : list page) : B () :=
  on_console (init_console patience);;
  init_mm ram_bitmap ram_pages;;
  on_intc (init_gicv3 patience);;
  on_k init_cpus;;
  _ ← on_sys init_sched_timer;
  init_uspace;;
  init_irqhooks;;
  r ← on_cfi init_cfi;
  if r <? 0 then halt else
  r ← init_ramdisk;
  if r <? 0 then halt else
  r ← boot_root_service;
  if r <? 0 then halt else
  on_sys (sched_timer_setup (MILLISECS 500));;
  on_k cpu_intr_on;;
  on_sys sched_timer_start.
End Boot.
