(* ===== verification/BootSpec.v ===== *)
(** * The start-up runs the root service

    What each step of [kernel_init] leaves to the next ones: the memory
    allocators, the CPUs, the objects, the devices, the RAM disk, and finally
    the root process. *)
From S2P Require Import Prelude Config CList ListOps Bitmap Page PageTable PageTableSpec KvSpace Slab SlabSpec Kmem Heap Spinlock Uaccess Kernel Kobject Handle Proc Sched Objects Ramdisk Exec ExecSpec Machine Gic Irq Timer Uart Flash Boot.

(** ** What the page tables take *)

(** The run of free pages that is left was there before, and a page handed
    out lies below its end. *)
Lemma room_back s c va s' k lim :
  page_inv s -> 0 < c <= 512 -> page_allocn c s = Ret (va, s') -> page_room s' k lim -> page_room s k lim.
Proof.
  intros Hi Hc He (ps1 & q & Hs & (Hq & Hlt & Hrun) & Hlim).
  destruct (page_allocn_spec s c Hi Hc) as (va' & s'' & He' & _ & Hor). rewrite He in He'. injection He' as <- <-.
  destruct Hor as [(_ & -> & _)|(ps & ps' & pos & -> & -> & _ & _ & (Hb & _ & Hn & _ & Hbits & _) & _)]; [by exists ps1, q|].
  injection Hs as <-. exists ps, q. split; [done|]. unfold section_bits in *. rewrite Hn, Hb in *. split; [|done]. split; [done|]. split; [done|].
  intros j Hj. specialize (Hrun j Hj). rewrite Hbits in Hrun by lia. by apply orb_false_iff in Hrun as [_ ?].
Qed.

(** How mapping changes the allocator and the tables, whatever is mapped. *)
Definition pt_frame (x y : page_state * tables) : Prop :=
  page_inv x.1 -> owned x.1 x.2 ->
  page_inv y.1 /\ owned y.1 y.2 /\ (forall va n, page_live x.1 va n -> page_live y.1 va n) /\
  (forall a, page_arena y.1 a <-> page_arena x.1 a) /\
  (forall k lim, 1 <= k -> page_room y.1 k lim ->
     page_room x.1 k lim /\ forall a, is_Some (y.2 !! a) -> is_Some (x.2 !! a) \/ a + 4096 <= lim).
#[global] Instance pt_frame_pre : PreOrder pt_frame.
Proof.
  split.
  - intros x Hi Ho. split_and!; auto.
  - intros x y z Hxy Hyz Hi Ho. destruct (Hxy Hi Ho) as (Hi1 & Ho1 & L1 & A1 & R1). destruct (Hyz Hi1 Ho1) as (Hi2 & Ho2 & L2 & A2 & R2).
    split_and!; [done|done|auto|intros a; by rewrite A2|]. intros k lim Hk Hr. destruct (R2 k lim Hk Hr) as [Hr2 T2]. destruct (R1 k lim Hk Hr2) as [Hr1 T1].
    split; [done|]. intros a [Ha|Ha]%T2; [by apply T1|by right].
Qed.

Lemma table_alloc_stays : stays pt_frame (table_alloc (PS := page_state)).
Proof.
  intros [s h] a [s' h'] H Hi Ho. cbn [fst snd] in *. unfold table_alloc in H. apply M_bind_Ret in H as (c & x & Hc & H).
  unfold page_alloc1 in Hc. destruct (@alloc_owned page_state page_alloc_impl s h Hi Ho) as (c' & s1 & He & [L A _] & _ & Hor).
  rewrite He in Hc. cbn [mbind outcome_bind] in Hc. injection Hc as <- <-.
  assert (forall k lim, page_room s1 k lim -> page_room s k lim) as Hback by (intros k lim; by apply (room_back s 1 c' s1)).
  destruct (Z.eqb_spec c' 0) as [Hz|Hz].
  - injection H as <- <- <-. destruct Hor as [[_ ->]|[? _]]; [|done]. split_and!; auto.
  - destruct Hor as [[? _]|(_ & _ & _ & Hi1 & Ho1 & _)]; [done|]. unfold on_tables in H. cbn in H. injection H as <- <- <-.
    split_and!; try done. intros k lim Hk Hr. split; [by apply Hback|]. intros b Hb. unfold table_clear in Hb.
    destruct (decide (b = c')) as [-> | Hne]; [right|left; by rewrite lookup_insert_ne in Hb].
    apply Hback in Hr. by destruct (pa_allocn_room (PageAlloc := page_alloc_impl) s 1 k lim c' s1 Hi ltac:(lia) Hk Hr He) as (_ & ? & _); lia.
Qed.

Lemma on_tables_stays {A} (f : tables -> outcome (A * tables)) :
  (forall h a h' s, f h = Ret (a, h') -> owned (PA := page_alloc_impl) s h -> owned s h' /\ forall b, is_Some (h' !! b) -> is_Some (h !! b)) ->
  stays pt_frame (on_tables (PS := page_state) f).
Proof.
  intros Hf [s h] a [s' h'] H Hi Ho. cbn [fst snd] in *. unfold on_tables in H. apply outcome_bind_Ret in H as ([b h1] & H1 & [= <- <- <-]).
  destruct (Hf h b h1 s H1 Ho) as [Ho1 Hd]. split_and!; try done. intros k lim _ Hr. split; [done|]. intros c Hc. left. by apply Hd.
Qed.

Lemma entry_wr_owned h a i v h' s :
  entry_wr h a i v = Ret h' -> owned (PA := page_alloc_impl) s h -> owned s h' /\ forall b, is_Some (h' !! b) -> is_Some (h !! b).
Proof.
  unfold entry_wr. destruct (h !! a) as [es|] eqn:Ea; [|done]. intros (es' & _ & [= <-])%outcome_bind_Ret Ho.
  split; [by eapply owned_update|]. intros b Hb. destruct (decide (b = a)) as [-> |]; [by eexists|by rewrite lookup_insert_ne in Hb].
Qed.

Lemma entry_set_stays tbl i e : stays pt_frame (entry_set (PS := page_state) tbl i e).
Proof.
  apply on_tables_stays. intros h a h' s (h1 & H1 & [= <- <-])%outcome_bind_Ret. by eapply entry_wr_owned.
Qed.
Lemma entry_get_stays tbl i : stays pt_frame (entry_get (PS := page_state) tbl i).
Proof. intros [s h] a y (e & _ & [= _ <-])%outcome_bind_Ret. reflexivity. Qed.
#[export] Hint Resolve table_alloc_stays entry_set_stays entry_get_stays : stay.

Lemma map_pt_loop_owned fuel : forall h pt i base end_ phy flags r h' s,
  map_pt_loop fuel h pt i base end_ phy flags = Ret (r, h') -> owned (PA := page_alloc_impl) s h ->
  owned s h' /\ forall b, is_Some (h' !! b) -> is_Some (h !! b).
Proof.
  induction fuel as [|fuel IH]; [done|]. intros h pt i base end_ phy flags r h' s H Ho. cbn [map_pt_loop] in H.
  apply outcome_bind_Ret in H as (e & _ & H). apply outcome_bind_Ret in H as ([] & _ & H). apply outcome_bind_Ret in H as (h1 & H1 & H).
  destruct (entry_wr_owned _ _ _ _ _ s H1 Ho) as [Ho1 D1]. cbn zeta in H. destruct (negb _).
  - destruct (IH _ _ _ _ _ _ _ _ _ s H Ho1) as [Ho2 D2]. split; auto.
  - by injection H as <- <-.
Qed.
Lemma map_pt_range_stays pt base end_ phy flags :
  stays pt_frame (on_tables (PS := page_state) (fun h => map_pt_range h pt base end_ phy flags)).
Proof.
  apply on_tables_stays. intros h a h' s H Ho. unfold map_pt_range in H. apply outcome_bind_Ret in H as ([] & _ & H).
  by eapply map_pt_loop_owned.
Qed.
Lemma next_table_stays mk tbl i e : stays pt_frame (next_table (PS := page_state) mk tbl i e).
Proof. unfold next_table. auto 10 with stay typeclass_instances. Qed.
#[export] Hint Resolve map_pt_range_stays next_table_stays : stay.

(** Mapping anything, huge pages included, keeps the allocator and the
    tables in order. *)
Lemma map_pmd_stays fuel : forall pmd i base pa size map_size flags,
  stays pt_frame (map_pmd_loop (PS := page_state) fuel pmd i base pa size map_size flags).
Proof. induction fuel as [|fuel IH]; intros; cbn [map_pmd_loop]; cbn zeta; auto 15 with stay typeclass_instances. Qed.
Lemma map_pud_stays fuel : forall pud i va pa size flags, stays pt_frame (map_pud_loop (PS := page_state) fuel pud i va pa size flags).
Proof.
  pose proof map_pmd_stays as Hp. induction fuel as [|fuel IH]; intros; cbn [map_pud_loop]; unfold map_pmd_range; cbn zeta; auto 15 with stay typeclass_instances.
Qed.
Lemma map_pgd_stays fuel : forall pgd i va pa size flags, stays pt_frame (map_pgd_loop (PS := page_state) fuel pgd i va pa size flags).
Proof.
  pose proof map_pud_stays as Hp. induction fuel as [|fuel IH]; intros; cbn [map_pgd_loop]; unfold map_pud_range; cbn zeta; auto 15 with stay typeclass_instances.
Qed.
Lemma pagetable_map_stays root va pa size flag : stays pt_frame (pagetable_map (PS := page_state) root va pa size flag).
Proof. pose proof map_pgd_stays as Hp. unfold pagetable_map, map_pgd_range, assertM. auto 15 with stay typeclass_instances. Qed.
#[export] Hint Resolve pagetable_map_stays : stay.
Lemma kern_map_stays kv va pa size flags : stays pt_frame (kern_map (PS := page_state) kv va pa size flags).
Proof. unfold kern_map. auto 15 with stay typeclass_instances. Qed.
#[export] Hint Resolve kern_map_stays : stay.
Lemma kvspace_init_stays kpt a e : stays pt_frame (kvspace_init (PS := page_state) kpt a e).
Proof.
  unfold kvspace_init, kern_map_const_regions. cbn zeta.
  assert (forall kv rs, stays pt_frame (map_regions (PS := page_state) kv rs)) as Hr
    by (intros kv rs; induction rs; cbn [map_regions]; auto 10 with stay typeclass_instances).
  auto 15 with stay typeclass_instances.
Qed.

(** ** What the slab allocator takes *)
Abbreviation St := (slab_state page_state).

Definition same_pages (x y : St) : Prop := ss_pages y = ss_pages x.
#[global] Instance same_pages_pre : PreOrder same_pages.
Proof. split; [by intros x|]. intros x y z H1 H2. unfold same_pages in *. congruence. Qed.
Lemma get_pool_same a : stays same_pages (get_pool (PS := page_state) a).
Proof. intros s b s' H. unfold get_pool in H. mstep. destruct (ss_pools s !! a); [|done]. by injection H as _ <-. Qed.
Lemma get_slab_same a : stays same_pages (get_slab (PS := page_state) a).
Proof. intros s b s' H. unfold get_slab in H. mstep. destruct (ss_slabs s !! a); [|done]. by injection H as _ <-. Qed.
Lemma get_cache_same a : stays same_pages (get_cache (PS := page_state) a).
Proof. intros s b s' H. unfold get_cache in H. mstep. destruct (ss_caches s !! a); [|done]. by injection H as _ <-. Qed.
Lemma set_pool_same a x : stays same_pages (set_pool (PS := page_state) a x).
Proof. by intros s b s' [= _ <-]. Qed.
Lemma set_slab_same a x : stays same_pages (set_slab (PS := page_state) a x).
Proof. by intros s b s' [= _ <-]. Qed.
#[export] Hint Resolve get_pool_same get_slab_same get_cache_same set_pool_same set_slab_same : stay.
Lemma first_free_same l : stays same_pages (first_free (PS := page_state) l).
Proof. induction l; cbn [first_free]; auto 10 with stay typeclass_instances. Qed.
#[export] Hint Resolve first_free_same : stay.

(** At most one page. *)
Definition one_page (x y : St) : Prop := ss_pages y = ss_pages x \/ exists va, page_allocn 1 (ss_pages x) = Ret (va, ss_pages y).

Lemma refill_one a : stays one_page (slab_refill (PS := page_state) a).
Proof.
  intros s r s' H. unfold slab_refill in H. apply M_bind_Ret in H as (va & s1 & H1 & H). unfold slab_pages, zoom in H1.
  destruct (pa_allocn 1 (ss_pages s)) as [[va' pg]| | |] eqn:E; try done. injection H1 as <- <-. right. exists va'.
  assert (same_pages (mkSlabs pg (ss_slabs s) (ss_pools s) (ss_caches s) (pool_ptrs s) (nr_pools s)) s') as ->; [|exact E].
  revert H. set (s1 := mkSlabs _ _ _ _ _ _). generalize s1. intros s2 H. eapply (stays_if same_pages); [..|exact H]; auto 15 with stay typeclass_instances.
Qed.

Lemma realloc_one a : stays one_page (realloc (PS := page_state) 2 a).
Proof.
  intros s r s' H. cbn [realloc] in H. apply M_bind_Ret in H as (p & s1 & H1 & H). pose proof (get_pool_same a s p s1 H1) as E1. unfold same_pages in E1.
  destruct (sp_partial p) as [|x l].
  - apply M_bind_Ret in H as (r1 & s2 & H2 & H). destruct (r1 <? 0); [done|]. apply refill_one in H2.
    assert (same_pages s2 s') as E3.
    { apply M_bind_Ret in H as (q & s3 & H3 & H). transitivity s3; [by eapply get_pool_same|]. destruct (sp_partial q) as [|y l].
      - by apply M_bind_Ret in H as (r2 & s4 & _ & H); destruct (r2 <? 0).
      - by eapply first_free_same. }
    unfold one_page, same_pages in *. rewrite E3, <- E1. exact H2.
  - left. rewrite <- E1. by eapply (first_free_same (x :: l)).
Qed.

Lemma slab_alloc_pool_one a : stays one_page (slab_alloc_pool (PS := page_state) a).
Proof.
  intros s r s' H. unfold slab_alloc_pool in H. apply M_bind_Ret in H as ([] & s0 & H0 & H).
  pose proof (stays_lift same_pages _ _ _ _ H0) as E0. unfold same_pages in E0.
  apply M_bind_Ret in H as (p & s1 & H1 & H). pose proof (get_pool_same a s0 p s1 H1) as E1. unfold same_pages in E1.
  destruct (negb (sp_cache p =? 0)).
  - left. rewrite <- E0, <- E1. revert H. apply (stays_bind same_pages); auto 15 with stay typeclass_instances.
  - apply M_bind_Ret in H as (x & s2 & H2 & H). apply realloc_one in H2.
    assert (same_pages s2 s') as E3 by (revert H; apply (stays_bind same_pages); auto 20 with stay typeclass_instances).
    unfold one_page, same_pages in *. rewrite E3, <- E0, <- E1. exact H2.
Qed.

(** ** Pages handed out *)

(** From [s] to [s'] at most [n] pages were taken. *)
Record pg_more (n : Z) (s s' : page_state) : Prop := {
  pm_inv : page_inv s';
  pm_live : forall va c, page_live s va c -> page_live s' va c;
  pm_arena : forall x, page_arena s' x <-> page_arena s x;
  pm_room : forall k lim, n <= k -> page_room s k lim -> page_room s' (k - n) lim }.

Lemma pg_more_refl s n : page_inv s -> 0 <= n -> pg_more n s s.
Proof.
  intros Hi Hn. split; [done..|]. intros k lim Hk Hr. apply (pa_room_le (PageAlloc := page_alloc_impl) s k (k - n) lim Hr). lia.
Qed.
Lemma pg_more_trans n1 n2 s1 s2 s3 : 0 <= n1 -> 0 <= n2 -> pg_more n1 s1 s2 -> pg_more n2 s2 s3 -> pg_more (n1 + n2) s1 s3.
Proof.
  intros Hn1 Hn2 [I1 L1 A1 R1] [I2 L2 A2 R2]. split; [done|auto|intros x; by rewrite A2|].
  intros k lim Hk Hr. replace (k - (n1 + n2)) with (k - n1 - n2) by lia. apply R2; [lia|]. apply R1; [lia|done].
Qed.
Lemma alloc_more s c va s' : page_inv s -> 0 < c <= 512 -> page_allocn c s = Ret (va, s') -> pg_more c s s'.
Proof.
  intros Hi Hc He. destruct (pa_allocn_spec (PageAlloc := page_alloc_impl) s c Hi Hc) as (va' & s1 & He' & Hi1 & Har & Hor).
  change (page_allocn c s = Ret (va', s1)) in He'. rewrite He in He'. injection He' as <- <-. split; [done| |done|].
  - destruct Hor as [[_ ->]|(_ & Hl & _)]; [done|]. intros v n Hv. apply Hl. by right.
  - intros k lim Hk Hr. by destruct (pa_allocn_room (PageAlloc := page_alloc_impl) s c k lim va s' Hi Hc Hk Hr He) as (_ & _ & ?).
Qed.
Lemma one_page_more x y : page_inv (ss_pages x) -> one_page x y -> pg_more 1 (ss_pages x) (ss_pages y).
Proof. intros Hi [-> | (va & He)]; [by apply pg_more_refl|]. by eapply alloc_more. Qed.

(** A block handed out while there is room. *)
Record new_block (s : page_state) (c va : Z) (s' : page_state) : Prop := {
  nb_run : page_allocn c s = Ret (va, s');
  nb_more : pg_more c s s';
  nb_live : page_live s' va c;
  nb_fresh : forall v n, page_live s v n -> v + n * 4096 <= va \/ va + c * 4096 <= v;
  nb_nonzero : va <> 0 }.
Lemma new_block_room s c k lim : page_inv s -> 0 < c <= 512 -> c <= k -> page_room s k lim ->
  exists va s', new_block s c va s' /\ page_room s' (k - c) lim /\ va + c * 4096 <= lim.
Proof.
  intros Hi Hc Hk Hr. destruct (pa_allocn_spec (PageAlloc := page_alloc_impl) s c Hi Hc) as (va & s1 & He & Hi1 & Har & Hor).
  destruct (pa_allocn_room (PageAlloc := page_alloc_impl) s c k lim va s1 Hi Hc Hk Hr He) as (Hz & Hl & Hr1).
  exists va, s1. split; [|done]. destruct Hor as [[? _]|(_ & Hlive & Hd)]; [done|].
  split; [done|by eapply alloc_more|apply Hlive; by left|done|done].
Qed.

(** ** The heap *)
Definition with_pg (pg : page_state) (st : St) : St := mkSlabs pg (ss_slabs st) (ss_pools st) (ss_caches st) (pool_ptrs st) (nr_pools st).

(** The heap with more pages in use. *)
Lemma kmem_ok_pages rp cp st pg :
  kmem_ok rp cp st -> page_inv pg -> (forall va c, page_live (ss_pages st) va c -> page_live pg va c) ->
  (forall x, page_arena pg x <-> page_arena (ss_pages st) x) -> kmem_ok rp cp (with_pg pg st).
Proof.
  intros [[Ip Is Ipo In Ic Ik (S1 & S2 & S3)] Ht Hn Hc Hg] Hi Hl Ha. split; [|done..]. split; try done.
  - intros x s Hx. destruct (Is x s Hx) as [? ?]. split; [by apply Hl|done].
  - split; [cbn [pa_arena page_alloc_impl]; by rewrite Ha|split; [cbn [pa_arena page_alloc_impl]; by rewrite Ha|done]].
Qed.

(** An object of the heap lies in a page of the arena. *)
Record heap_obj (st : St) (p n : Z) : Prop := {
  ho_arena : forall x, p <= x < p + n -> page_arena (ss_pages st) x;
  ho_range : ptov 0 < p /\ p + n < 2 ^ 64 - 2 ^ 46 }.

Lemma kalloc_room rp cp st n k lim :
  kmem_ok rp cp st -> 0 < n <= 512 -> 1 <= k -> page_room (ss_pages st) k lim ->
  exists p st', kalloc n st = Ret (p, st') /\ kmem_ok rp cp st' /\ heap_obj st' p n /\ pg_more 1 (ss_pages st) (ss_pages st').
Proof.
  intros Hok Hn Hk Hr. pose proof Hok as [Hi Ht _ _ Hg].
  destruct (slab_alloc_small rp cp st n Hi Ht ltac:(lia)) as (i & a & q & Hsz & Hle & _ & Ha & Hq & E).
  assert (kalloc n st = slab_alloc_pool a st) as ->.
  { unfold kalloc. change (PAGE_SIZE / 8) with 512. rewrite (proj2 (Z.leb_le n 512)) by lia. by rewrite s32_small by lia. }
  destruct (slab_alloc_pool_spec rp cp st a q Hi Hq) as [(_ & Hno & _)|(o & st' & Hrun & Hi' & Hho & _ & _ & _ & Hkept & _)].
  { destruct (pa_allocn_room (PageAlloc := page_alloc_impl) (ss_pages st) 1 k lim 0 (ss_pages st) (si_pages _ _ _ Hi) ltac:(lia) Hk Hr Hno) as [? _]. done. }
  exists o, st'. split; [done|]. split; [by eapply kmem_ok_kept|]. split.
  - destruct (handed_place rp cp st' a o Hi' Hho) as (x & s & p & Hx & _ & Hp & _ & _ & Hlo & Hhi & _ & _).
    destruct (si_slab _ _ st' Hi' x s Hx) as [Hlive _]. destruct (pa_live_range (PageAlloc := page_alloc_impl) _ _ _ (si_pages _ _ _ Hi') Hlive) as (_ & ? & _ & ?).
    destruct Hkept as (_ & _ & _ & Hkq). destruct (Hkq a q Hq) as (q' & Hq' & _ & Hos). assert (q' = p) as -> by congruence.
    pose proof (po_size _ _ _ _ _ (si_pool _ _ st' Hi' a p Hp)) as (_ & Hss & _). split; [|lia].
    intros y Hy. apply (pa_live_arena (PageAlloc := page_alloc_impl) _ x 1 y (si_pages _ _ _ Hi') Hlive). lia.
  - apply one_page_more; [apply Hi|]. by eapply slab_alloc_pool_one.
Qed.

(** Creating the pools leaves the allocator in order. *)
Definition heap_frame (x y : St) : Prop :=
  page_inv (ss_pages x) -> page_inv (ss_pages y) /\ forall a, page_arena (ss_pages y) a <-> page_arena (ss_pages x) a.
#[global] Instance heap_frame_pre : PreOrder heap_frame.
Proof.
  split; [by intros x Hi|]. intros x y z Hxy Hyz Hi. destruct (Hxy Hi) as [Hi1 A1]. destruct (Hyz Hi1) as [Hi2 A2].
  split; [done|]. intros a. by rewrite A2.
Qed.
Lemma same_frame {A} (m : M St A) : stays same_pages m -> stays heap_frame m.
Proof. intros Hm s a s' E Hi. pose proof (Hm s a s' E) as Hp. unfold same_pages in Hp. by rewrite Hp. Qed.
Lemma slab_alloc_pool_frame a : stays heap_frame (slab_alloc_pool (PS := page_state) a).
Proof.
  intros s o s' E Hi. pose proof (one_page_more s s' Hi (slab_alloc_pool_one a s o s' E)) as [? _ ? _]. done.
Qed.
Lemma set_ptrs_same l n : stays same_pages (set_ptrs (PS := page_state) l n).
Proof. by intros s b s' [= _ <-]. Qed.
#[export] Hint Resolve slab_alloc_pool_frame same_frame set_ptrs_same : stay.
Lemma init_slab_frame rp cp : stays heap_frame (init_slab (PS := page_state) rp cp).
Proof.
  assert (forall l, stays heap_frame (create_pools (PS := page_state) rp l)) as Hc.
  { induction l as [|[name size] l IH]; cbn [create_pools]; unfold slab_pool_create, slab_pool_init; auto 20 with stay typeclass_instances. }
  unfold init_slab, add_static_pool. auto 20 with stay typeclass_instances.
Qed.

(** ** The memory of the kernel *)
Section BootSpec.
Context `{MA : Machine} `{KE : KernEnv} `{IM : Image}.
Abbreviation B := (M boot).

(** The first page behind the bitmap and the descriptors, and the pages the
    allocator deals in. *)
Definition boot_base : Z := align_page_up kernel_end + 65 * 4096.
Definition boot_arena (x : Z) : Prop := ptov boot_base <= x < ptov boot_base + 16320 * 4096.
Definition ramdisk_at (x n : Z) : Prop := x + n <= ptov RAMDISK_BASE \/ ptov (RAMDISK_BASE + RAMDISK_SIZE) <= x.

(** What the link script and the code before [kernel_init] provide. *)
Record image_ok (t0 : tables) : Prop := {
  io_end : 0 < kernel_end < 2 ^ 45;
  io_pools : root_pool_addr <> 0 /\ cache_pool_addr <> 0 /\ root_pool_addr <> cache_pool_addr /\
    ~ boot_arena root_pool_addr /\ ~ boot_arena cache_pool_addr;
  io_tables : forall a, is_Some (t0 !! a) -> kpage a /\ ~ boot_arena a /\ ramdisk_at a 4096 }.

Record at_reset (b : boot) (ram_bitmap : list Z) (ram_pages : list page) : Prop := {
  rs_slab : ks_slab (b_k b) = slab_state0 page_sections0;
  rs_ram : length ram_bitmap = 256%nat /\ Z.of_nat (length ram_pages) = 16384 /\ Forall (fun p => pg_pa p = 0) ram_pages }.

(** The memory after [init_mm]. *)
Record mm_ready (t0 : tables) (st : St) (t : tables) : Prop := {
  mr_heap : kmem_ok root_pool_addr cache_pool_addr st;
  mr_owned : owned (ss_pages st) t;
  mr_arena : forall x, page_arena (ss_pages st) x <-> boot_arena x;
  mr_below : forall k lim, 1 <= k -> page_room (ss_pages st) k lim -> forall a, is_Some (t !! a) -> is_Some (t0 !! a) \/ a + 4096 <= lim }.

Lemma kmem_base_ok : 0 < kernel_end < 2 ^ 45 -> align_page_up kernel_end mod 4096 = 0 /\ 0 < align_page_up kernel_end < 2 ^ 46.
Proof.
  intros He. unfold align_page_up, PAGE_SIZE.
  replace (align_up kernel_end 4096) with ((kernel_end + 4095) - (kernel_end + 4095) mod 4096) by (symmetry; apply (align_up_spec kernel_end 12); lia).
  pose proof (Z.div_mod (kernel_end + 4095) 4096). pose proof (Z.mod_pos_bound (kernel_end + 4095) 4096).
  replace (kernel_end + 4095 - (kernel_end + 4095) mod 4096) with (4096 * ((kernel_end + 4095) / 4096)) by lia.
  split; [rewrite Z.mul_comm; apply Z_mod_mult|]. lia.
Qed.

(** The section of [init_mm], and the pages before anything is allocated. *)
Definition boot_section (ram_pages : list page) : page_section :=
  mkSection boot_base (ptov boot_base) 16319 16319 (replicate 256 0) ram_pages.
Definition boot_pages (ram_pages : list page) : page_state := boot_section ram_pages :: replicate 5 section0.

Lemma boot_pages_arena ram_pages x : page_arena (boot_pages ram_pages) x <-> boot_arena x.
Proof.
  assert (section_bits (boot_section ram_pages) = 16320) as Hb by reflexivity.
  unfold page_arena, boot_arena, boot_pages. cbn [lookup list_lookup]. split.
  - intros (ps & E & Hx). injection E as <-. rewrite Hb in Hx. exact Hx.
  - intros Hx. exists (boot_section ram_pages). split; [reflexivity|]. rewrite Hb. exact Hx.
Qed.

Lemma pages_stage b ram_bitmap ram_pages t0 :
  image_ok t0 -> at_reset b ram_bitmap ram_pages ->
  on_k (on_pages (page_init ram_bitmap ram_pages (align_page_up kernel_end) (Z.shiftr CONFIG_RAM_SIZE PAGE_SHIFT))) b =
    Ret (tt, set_k (set_slab_ (slab_state0 (boot_pages ram_pages)) (b_k b)) b) /\ page_inv (boot_pages ram_pages).
Proof.
  intros [Hend _ _] [Hslab (Hbm & Hpl & Hz)]. destruct (kmem_base_ok Hend) as [Hal Hb].
  destruct (page_init_boot ram_bitmap ram_pages _ Hal Hb Hbm Hpl Hz) as [Hinit Hps].
  split; [|by exists (boot_section ram_pages)].
  unfold on_k, on_pages, on_slab, slab_pages, zoom. rewrite Hslab. cbn [slab_state0 ss_pages]. rewrite Hinit. reflexivity.
Qed.

Lemma slab_stage b pg r b' :
  page_inv pg -> (forall x, page_arena pg x <-> boot_arena x) -> forall t0, image_ok t0 ->
  ks_slab (b_k b) = slab_state0 pg -> on_k (on_slab (init_slab root_pool_addr cache_pool_addr)) b = Ret (r, b') ->
  exists st, r = 0 /\ b' = set_k (set_slab_ st (b_k b)) b /\ kmem_ok root_pool_addr cache_pool_addr st /\
    page_inv (ss_pages st) /\ (forall x, page_arena (ss_pages st) x <-> boot_arena x).
Proof.
  intros Hpg Har t0 [_ (Hrp & Hcp & Hne & Hra & Hca) _] Hslab H. unfold on_k, on_slab, zoom in H. rewrite Hslab in H.
  destruct (init_slab_spec (PA := page_alloc_impl) root_pool_addr cache_pool_addr pg Hpg) as [Hh|(st & Hs & Hi & Htb & Hn & Hc & Hg)];
    [cbn [pa_arena page_alloc_impl]; by rewrite Har|cbn [pa_arena page_alloc_impl]; by rewrite Har|done..| |].
  { by rewrite Hh in H. }
  rewrite Hs in H. injection H as <- <-. exists st. destruct (init_slab_frame _ _ _ _ _ Hs Hpg) as [Hpi Hpa].
  split_and!; [done|done| |done|intros x; rewrite <- Har; apply Hpa].
  split; try done. intros a (i & Hi7 & Ha). by apply (Hg i).
Qed.

Lemma on_k_Ret {A} (m : K A) (b : boot) a b' : on_k m b = Ret (a, b') -> exists k', m (b_k b) = Ret (a, k') /\ b' = set_k k' b.
Proof. apply zoom_Ret. Qed.
Lemma on_k_run {A} (m : K A) (b : boot) a k' : m (b_k b) = Ret (a, k') -> on_k m b = Ret (a, set_k k' b).
Proof. apply zoom_run. Qed.
Lemma on_map_Ret {A} (m : M (page_state * tables) A) k a k' : on_map m k = Ret (a, k') ->
  exists pg t, m (ss_pages (ks_slab k), ks_tables k) = Ret (a, (pg, t)) /\ k' = set_tables t (set_slab_ (with_pg pg (ks_slab k)) k).
Proof. intros H. apply zoom_Ret in H as ([pg t] & H & ->). by exists pg, t. Qed.

Lemma kv_frame (pg : page_state) (t : tables) kv pg' t' :
  kvspace_init kernel_page_table start_ut_call stop_ut_call (pg, t) = Ret (kv, (pg', t')) -> pt_frame (pg, t) (pg', t').
Proof. apply kvspace_init_stays. Qed.

Lemma kv_ready t0 st t pg' t' :
  image_ok t0 -> t = t0 -> kmem_ok root_pool_addr cache_pool_addr st -> (forall x, page_arena (ss_pages st) x <-> boot_arena x) ->
  pt_frame (ss_pages st, t) (pg', t') -> mm_ready t0 (with_pg pg' st) t'.
Proof.
  intros [_ _ Ht0] -> Hkm Har Hfr.
  destruct Hfr as (Hi' & Ho' & Hl' & Ha' & Hroom); [exact (si_pages _ _ _ (ko_inv _ _ _ Hkm))| |].
  { intros a es Hes. destruct (Ht0 a ltac:(by eexists)) as (? & Hna & _). split; [done|right]. cbn [pa_arena page_alloc_impl]. by rewrite Har. }
  cbn [fst snd] in *. split.
  - by apply kmem_ok_pages.
  - done.
  - intros x. cbn [with_pg ss_pages]. by rewrite Ha', Har.
  - intros k lim Hk Hr a Ha. by apply (Hroom k lim).
Qed.

Lemma kv_stage b kv b' :
  image_ok (ks_tables (b_k b)) -> kmem_ok root_pool_addr cache_pool_addr (ks_slab (b_k b)) ->
  (forall x, page_arena (ss_pages (ks_slab (b_k b))) x <-> boot_arena x) ->
  on_k (on_map (kvspace_init kernel_page_table start_ut_call stop_ut_call)) b = Ret (kv, b') ->
  exists st t, b' = set_k (set_tables t (set_slab_ st (b_k b))) b /\ mm_ready (ks_tables (b_k b)) st t.
Proof.
  intros Hio Hkm Har H. apply on_k_Ret in H as (k' & H & ->). apply on_map_Ret in H as (pg' & t' & Ekv & ->).
  exists (with_pg pg' (ks_slab (b_k b))), t'. split; [reflexivity|]. apply (kv_ready _ _ (ks_tables (b_k b)) _ _ Hio eq_refl Hkm Har).
  apply (kv_frame _ _ kv). exact Ekv.
Qed.

Lemma init_mm_spec b b1 ram_bitmap ram_pages :
  image_ok (ks_tables (b_k b)) -> at_reset b ram_bitmap ram_pages -> init_mm ram_bitmap ram_pages b = Ret (tt, b1) ->
  exists st t kv, b1 = set_kvspace kv (set_k (set_tables t (set_slab_ st (b_k b))) b) /\ mm_ready (ks_tables (b_k b)) st t.
Proof.
  intros Hio Hrs H. destruct (pages_stage b ram_bitmap ram_pages _ Hio Hrs) as [H1 Hpg].
  unfold init_mm in H. apply M_bind_Ret in H as ([] & b0 & H0 & H).
  assert (b0 = b) as -> by (unfold assertM, lift, assert_ in H0; destruct (_ && _); [by injection H0|done]).
  rewrite (M_bind_run _ _ _ _ _ H1) in H. apply M_bind_Ret in H as (r & b3 & H3 & H).
  set (b2 := set_k (set_slab_ (slab_state0 (boot_pages ram_pages)) (b_k b)) b) in *.
  assert (ks_slab (b_k b2) = slab_state0 (boot_pages ram_pages)) as Hb2 by reflexivity.
  destruct (slab_stage b2 _ r b3 Hpg (boot_pages_arena ram_pages) _ Hio Hb2 H3) as (st & -> & -> & Hkm & Hpi & Har).
  change (0 <? 0) with false in H. rewrite (M_bind_run _ _ _ _ _ (eq_refl (Ret (tt, _)))) in H.
  apply M_bind_Ret in H as (kv & b5 & H5 & H). injection H as <-.
  destruct (kv_stage (set_k (set_slab_ st (b_k b2)) b2) kv b5 Hio Hkm Har H5) as (st' & t & -> & Hr). by exists st', t, kv.
Qed.

(** ** The CPUs *)
Definition is_head (i j a : Z) : Prop := a = cpu_ready_list i j.
Definition heads_there (l : lheap) : Prop := forall i j, 0 <= i < 8 -> 0 <= j < 8 -> is_Some (l !! cpu_ready_list i j).

Lemma ready_list_inj i j i' j' : 0 <= j < 8 -> 0 <= j' < 8 -> cpu_ready_list i j = cpu_ready_list i' j' -> i = i' /\ j = j'.
Proof. unfold cpu_ready_list, sizeof_cpu. lia. Qed.

Lemma init_ready_lists_spec n : forall i j k,
  heads_there (ks_lists k) -> 0 <= i < 8 -> 0 <= j -> j + Z.of_nat n <= 8 ->
  exists l, init_ready_lists n i j k = Ret (tt, set_lists l k) /\ heads_there l /\
    (forall j', j <= j' < j + Z.of_nat n -> let c := cpu_ready_list i j' in l !! c = Some (mkHead c c)) /\
    (forall a, (forall j', j <= j' < j + Z.of_nat n -> a <> cpu_ready_list i j') -> l !! a = ks_lists k !! a).
Proof.
  induction n as [|n IH]; intros i j k Hh Hi Hj Hn; cbn [init_ready_lists].
  { exists (ks_lists k). split; [by destruct k|]. split; [done|]. split; [lia|done]. }
  destruct (Hh i j Hi ltac:(lia)) as [nd Hnd]. rewrite (M_bind_run _ _ _ _ _ (init_list_run _ k nd Hnd)).
  set (c := cpu_ready_list i j) in *. set (k1 := set_lists (<[c := mkHead c c]> (ks_lists k)) k).
  assert (heads_there (ks_lists k1)) as Hh1.
  { intros i' j' Hi' Hj'. cbn. destruct (decide (cpu_ready_list i' j' = c)) as [-> |]; [rewrite lookup_insert_eq; by eexists|].
    rewrite lookup_insert_ne by done. by apply Hh. }
  destruct (IH i (j + 1) k1 Hh1 Hi ltac:(lia) ltac:(lia)) as (l & E & Hl & Hd & Ho). exists l. split; [exact E|]. split; [done|]. split.
  - intros j' Hj'. destruct (decide (j' = j)) as [-> |]; [|apply Hd; lia]. rewrite Ho; [cbn; apply lookup_insert_eq|].
    intros j'' Hj'' Heq. apply ready_list_inj in Heq; lia.
  - intros a Ha. rewrite Ho; [|intros j' Hj'; apply Ha; lia]. cbn. rewrite lookup_insert_ne; [done|]. intros <-. by apply (Ha j); [lia|].
Qed.

(** What the loop over the CPUs from [i] on leaves. *)
Record cpus_post (n : nat) (i : Z) (k : kstate) (pg : page_state) (cs : list cpu) (l : lheap) : Prop := {
  cp_pages : pg_more (2 * Z.of_nat n) (ss_pages (ks_slab k)) pg;
  cp_length : length cs = length (ks_cpus k);
  cp_new : forall i', i <= i' < i + Z.of_nat n -> exists st, cs !! Z.to_nat i' = Some (mkCpu i' 0 0 st initlock);
  cp_old : forall i', 0 <= i' < i -> cs !! Z.to_nat i' = ks_cpus k !! Z.to_nat i';
  cp_heads : forall i' j, i <= i' < i + Z.of_nat n -> 0 <= j < 8 -> let c := cpu_ready_list i' j in l !! c = Some (mkHead c c);
  cp_lists : forall a, (forall i' j, 0 <= i' < 8 -> 0 <= j < 8 -> a <> cpu_ready_list i' j) -> l !! a = ks_lists k !! a;
  cp_keeps : forall i' j, 0 <= i' < i -> 0 <= j < 8 -> l !! cpu_ready_list i' j = ks_lists k !! cpu_ready_list i' j }.

Definition with_cpus (k : kstate) (pg : page_state) (cs : list cpu) (l : lheap) : kstate :=
  set_lists l (set_cpus cs (set_slab_ (with_pg pg (ks_slab k)) k)).

Lemma init_cpus_loop_spec n : forall i k,
  page_inv (ss_pages (ks_slab k)) -> heads_there (ks_lists k) -> length (ks_cpus k) = 8%nat -> 0 <= i -> i + Z.of_nat n <= 8 ->
  exists pg cs l, init_cpus_loop n i k = Ret (tt, with_cpus k pg cs l) /\ cpus_post n i k pg cs l.
Proof.
  induction n as [|n IH]; intros i k Hpg Hh Hl Hi Hn; cbn [init_cpus_loop].
  { exists (ss_pages (ks_slab k)), (ks_cpus k), (ks_lists k). split; [by destruct k as [[]]|].
    split; try (done || lia). by apply pg_more_refl. }
  destruct (pa_allocn_spec (PageAlloc := page_alloc_impl) (ss_pages (ks_slab k)) 2 Hpg ltac:(lia)) as (va & pg1 & He & Hpg1 & _).
  pose proof (alloc_more _ 2 va pg1 Hpg ltac:(lia) He) as Hm1.
  assert (on_pages (page_allocn 2) k = Ret (va, set_slab_ (with_pg pg1 (ks_slab k)) k)) as E1.
  { apply on_pages_run. unfold slab_pages. by apply zoom_run. }
  rewrite (M_bind_run _ _ _ _ _ E1). set (c := mkCpu i 0 0 va initlock). set (cs1 := <[Z.to_nat i := c]> (ks_cpus k)).
  destruct (lookup_lt_is_Some_2 (ks_cpus k) (Z.to_nat i)) as [c0 Hc0]; [lia|].
  set (k1 := set_cpus cs1 (set_slab_ (with_pg pg1 (ks_slab k)) k)).
  assert (upd_cpu i (fun _ => c) (set_slab_ (with_pg pg1 (ks_slab k)) k) = Ret (tt, k1)) as E2.
  { unfold upd_cpu. cbn [ks_cpus set_slab_]. rewrite (rd_lookup _ i c0) by (done || lia). cbn [mbind outcome_bind]. by rewrite wr_in by lia. }
  rewrite (M_bind_run _ _ _ _ _ E2).
  destruct (init_ready_lists_spec 8 i 0 k1 Hh ltac:(lia) ltac:(lia) ltac:(lia)) as (l1 & E3 & Hh1 & Hd1 & Ho1).
  rewrite (M_bind_run _ _ _ _ _ E3).
  destruct (IH (i + 1) (set_lists l1 k1) Hpg1 Hh1) as (pg & cs & l & E & [Q1 Q2 Q3 Q4 Q5 Q6 Q7]); [cbn [set_lists set_cpus ks_cpus k1]; unfold cs1; by rewrite length_insert|lia|lia|].
  exists pg, cs, l. split; [exact E|]. cbn [ks_slab set_lists set_cpus set_slab_ with_pg ss_pages ks_cpus ks_lists k1] in *. split.
  - replace (2 * Z.of_nat (S n)) with (2 + 2 * Z.of_nat n) by lia. by eapply pg_more_trans; [lia|lia|exact Hm1|].
  - rewrite Q2. unfold cs1. by rewrite length_insert.
  - intros i' Hi'. destruct (decide (i' = i)) as [-> |]; [|apply Q3; lia]. exists va. rewrite Q4 by lia. unfold cs1. apply list_lookup_insert_eq. lia.
  - intros i' Hi'. rewrite Q4 by lia. unfold cs1. apply list_lookup_insert_ne. lia.
  - intros i' j Hi' Hj. destruct (decide (i' = i)) as [-> |]; [|apply Q5; lia]. cbn zeta. rewrite Q7 by lia. apply Hd1. lia.
  - intros a Ha. rewrite Q6 by done. apply Ho1. intros j' Hj'. apply Ha; lia.
  - intros i' j Hi' Hj. rewrite Q7 by lia. apply Ho1. intros j' Hj' Heq. apply ready_list_inj in Heq; lia.
Qed.

(** ** The registered calls *)

(** The calls of a section are made one after the other. *)
Lemma call_loop_forM {A} (run : A -> B Z) (fns pre : list A) n i b :
  n = length fns -> i = Z.of_nat (length pre) ->
  call_loop run n i (pre ++ fns) b = forM fns (fun f => _ ← run f; mret tt) b.
Proof.
  revert n i pre b. induction fns as [|f fns IH]; intros n i pre b -> ->; [done|]. cbn [call_loop forM length].
  assert (rd (pre ++ f :: fns) (Z.of_nat (length pre)) = Ret f) as Hr by (apply rd_lookup; [lia|]; rewrite Nat2Z.id; by apply list_lookup_middle).
  unfold mbind at 1, M_bind at 1. unfold lift. rewrite Hr. unfold mbind, M_bind. destruct (run f b) as [[v b1]| | |]; try done.
  replace (pre ++ f :: fns) with ((pre ++ [f]) ++ fns) by (by rewrite <- app_assoc). apply IH; [done|]. rewrite length_app. cbn. lia.
Qed.
Lemma forM_call {A} (run : A -> B Z) f fns b v b1 :
  run f b = Ret (v, b1) -> forM (f :: fns) (fun f => _ ← run f; mret tt) b = forM fns (fun f => _ ← run f; mret tt) b1.
Proof. intros E. cbn [forM]. unfold mbind, M_bind. by rewrite E. Qed.
Lemma call_init_func_run {A} (run : A -> B Z) start (fns : list A) b :
  Z.of_nat (length fns) < 2 ^ 31 -> call_init_func run start (section_end start fns) fns b = forM fns (fun f => _ ← run f; mret tt) b.
Proof.
  intros Hl. unfold call_init_func, section_end, sizeof_init_call.
  replace (start + 8 * Z.of_nat (length fns) - start) with (Z.of_nat (length fns) * 8) by lia. rewrite u64_small by lia.
  rewrite Z.div_mul, s32_small by lia. destruct fns as [|f fns]; [done|]. rewrite (proj2 (Z.leb_gt _ _)) by (cbn; lia).
  apply (call_loop_forM run (f :: fns) []); [lia|done].
Qed.

(** Both objects of user space: the standard stream with one reference, and
    the creation callbacks. *)
Definition stdio_object (r : Z) : kobject := mkKobj KOBJ_TYPE_STDIO KOBJ_RIGHT_RW r initlock (Some stdio_ops) 0.
Definition boot_cbs (cbs : list (option kobject_create_cb)) : list (option kobject_create_cb) :=
  <[Z.to_nat KOBJ_TYPE_PROCESS := Some kobject_create_proc_cb]> (<[Z.to_nat KOBJ_TYPE_PMA := Some create_pma_cb]> cbs).
Definition with_stdio (k : kstate) (r : Z) : kstate :=
  let c := kobject_list stdio_kobj in set_kobjs (<[stdio_kobj := stdio_object (r + 1)]> (ks_kobjs k)) (set_lists (<[c := mkHead c c]> (ks_lists k)) k).

Lemma stdio_init_run k o n :
  stdio_kobj <> 0 -> ks_kobjs k !! stdio_kobj = Some o -> 0 <= ko_ref o < 2 ^ 31 - 1 -> ks_lists k !! kobject_list stdio_kobj = Some n ->
  stdio_kobject_init k = Ret (0, with_stdio k (ko_ref o)).
Proof.
  intros Hz Ho Hr Hl. unfold stdio_kobject_init.
  mrun (kobject_init_run stdio_kobj KOBJ_TYPE_STDIO KOBJ_RIGHT_RW (Some stdio_ops) 0 o n k Hz Ho Hl).
  erewrite M_bind_run; [|rewrite (kobject_get_run _ (stdio_object (ko_ref o)));
    [cbn [stdio_object ko_ref]; rewrite (proj2 (Z.ltb_ge _ _)) by lia; reflexivity|done|cbn; apply lookup_insert_eq]].
  unfold mret, M_ret. do 2 f_equal. unfold set_ref, with_stdio. cbn. rewrite s32_small by lia. by rewrite insert_insert_eq.
Qed.

Lemma kobject_type_run k : length (ks_cbs k) = 13%nat -> init_kobject_type kobj_type_descs k = Ret (0, set_cbs (boot_cbs (ks_cbs k)) k).
Proof.
  intros Hl. assert (forall cb ty k', 0 <= ty < 13 -> length (ks_cbs k') = 13%nat ->
    register_kobject_type (Some cb) ty k' = Ret (tt, set_cbs (<[Z.to_nat ty := Some cb]> (ks_cbs k')) k')) as Hreg.
  { intros cb ty k' Hty Hlk. unfold register_kobject_type. rewrite bool_decide_eq_true_2 by (by eexists). change KOBJ_TYPE_MAX with 13.
    rewrite (proj2 (Z.ltb_lt ty 13)) by lia. cbn [andb]. mrun (eq_refl (Ret (tt, k'))). mrun (eq_refl (Ret (k', k'))). by rewrite wr_in by lia. }
  unfold kobj_type_descs. cbn [init_kobject_type]. change (KOBJ_TYPE_MAX <=? KOBJ_TYPE_PMA) with false. change (KOBJ_TYPE_MAX <=? KOBJ_TYPE_PROCESS) with false.
  mrun (Hreg create_pma_cb KOBJ_TYPE_PMA k ltac:(done) Hl).
  erewrite M_bind_run; [|apply Hreg; [done|cbn; by rewrite length_insert]]. done.
Qed.

Definition with_uspace (k : kstate) (r : Z) : kstate := set_cbs (boot_cbs (ks_cbs k)) (with_stdio k r).

(** Both orders of the two calls lead to the same state. *)
Lemma init_uspace_run b o n :
  init_func_5 ≡ₚ [call_stdio_kobject_init; call_init_kobject_type] ->
  let k := b_k b in
  stdio_kobj <> 0 -> ks_kobjs k !! stdio_kobj = Some o -> 0 <= ko_ref o < 2 ^ 31 - 1 -> ks_lists k !! kobject_list stdio_kobj = Some n ->
  length (ks_cbs k) = 13%nat -> init_uspace b = Ret (tt, set_k (with_uspace k (ko_ref o)) b).
Proof.
  intros Hp k Hz Ho Hr Hl Hc. unfold init_uspace. rewrite call_init_func_run by (rewrite (Permutation_length Hp); cbn; lia).
  assert (forall b', stdio_kobject_init (b_k b') = Ret (0, with_stdio (b_k b') (ko_ref o)) ->
    run_uspace call_stdio_kobject_init b' = Ret (0, set_k (with_stdio (b_k b') (ko_ref o)) b')) as R1 by (intros b' E; by apply on_k_run).
  assert (forall b', length (ks_cbs (b_k b')) = 13%nat ->
    run_uspace call_init_kobject_type b' = Ret (0, set_k (set_cbs (boot_cbs (ks_cbs (b_k b'))) (b_k b')) b')) as R2 by (intros b' E; by apply on_k_run, kobject_type_run).
  assert (init_func_5 = [call_stdio_kobject_init; call_init_kobject_type] \/ init_func_5 = [call_init_kobject_type; call_stdio_kobject_init]) as [-> | ->].
  { symmetry in Hp. apply Permutation_length_2_inv in Hp. naive_solver. }
  - rewrite (forM_call _ _ _ _ _ _ (R1 b (stdio_init_run k o n Hz Ho Hr Hl))).
    rewrite (forM_call _ _ _ _ _ _ (R2 (set_k (with_stdio k (ko_ref o)) b) Hc)). done.
  - rewrite (forM_call _ _ _ _ _ _ (R2 b Hc)). set (b1 := set_k _ b).
    rewrite (forM_call _ _ _ _ _ _ (R1 b1 (stdio_init_run (b_k b1) o n Hz Ho Hr Hl))). done.
Qed.
End BootSpec.
