(* ===== verification/BootDev.v ===== *)
(** * The devices during start-up

    The drivers share one machine.  Their set-up code, one after the other,
    brings every device into the state the kernel runs with, and the flash,
    which is used last, is not disturbed on the way. *)
From S2P Require Import Prelude Config CList Page Slab Spinlock Kernel Kobject Proc Ramdisk Exec Print Machine Gic Irq Timer Uart Flash Boot BootSpec.

(** ** The devices side by side *)

(** The flash does not see accesses to the other devices, and the counter has
    a fixed frequency. *)
Definition in_flash (a : Z) : Prop := cfi_pflash_base <= a < cfi_pflash_base + 0x4000000.
Class Board `{FD : FlashDevice} := {
  bd_write : forall n v a d, ~ in_flash a -> fl_view d (mmio_write n v a d);
  bd_read : forall n a d, ~ in_flash a -> fl_view d (mmio_read n a d).2;
  bd_sys_write : forall r v d, fl_view d (sys_write r v d);
  bd_sys_read : forall r d, fl_view d (sys_read r d).2;
  bd_freq : Z;
  bd_cntfrq : forall d, (sys_read cntfrq_el0 d).1 = bd_freq }.

(** ** Code that leaves a relation between device states *)
Section Quiet.
Context `{MA : Machine} (R : mstate -> mstate -> Prop) `{!PreOrder R} {S : Type} (I : S -> Prop) (dev : S -> mstate).
(** In states of [I], [m] returns values of [Q] and relates the devices. *)
Definition quiet {A} (Q : A -> Prop) (m : M S A) : Prop :=
  forall s a s', I s -> m s = Ret (a, s') -> Q a /\ I s' /\ R (dev s) (dev s').

Lemma quiet_bind {A B} Q T (m : M S A) (k : A -> M S B) : quiet Q m -> (forall a, Q a -> quiet T (k a)) -> quiet T (m ≫= k).
Proof.
  intros Hm Hk s b s' Hi H. apply M_bind_Ret in H as (a & s1 & H1 & H2). destruct (Hm s a s1 Hi H1) as (Qa & I1 & V1).
  destruct (Hk a Qa s1 b s' I1 H2) as (Rb & I2 & V2). split; [done|]. split; [done|]. by etransitivity.
Qed.
(** One step of a driver. *)
Lemma q_then {A B} T (m : M S A) (k : A -> M S B) : quiet (fun _ => True) m -> (forall a, quiet T (k a)) -> quiet T (m ≫= k).
Proof. intros Hm Hk. by eapply quiet_bind. Qed.
Lemma quiet_mret {A} (Q : A -> Prop) a : Q a -> quiet Q (mret a).
Proof. intros Hq s b s' Hi [= <- <-]. split; [done|]. by split. Qed.
Lemma quiet_lift {A} (o : outcome A) : quiet (fun _ => True) (lift o).
Proof. intros s b s' Hi. unfold lift. destruct o; try done. intros [= <- <-]. split; [done|]. by split. Qed.
Lemma quiet_get : quiet (fun _ => True) get.
Proof. intros s b s' Hi [= <- <-]. split; [done|]. by split. Qed.
Lemma quiet_if {A} Q (c : bool) (m1 m2 : M S A) : quiet Q m1 -> quiet Q m2 -> quiet Q (if c then m1 else m2).
Proof. by destruct c. Qed.
Lemma quiet_forM {A} (l : list A) (body : A -> M S ()) : (forall x, x ∈ l -> quiet (fun _ => True) (body x)) -> quiet (fun _ => True) (forM l body).
Proof.
  intros H. induction l as [|x l IH]; [by apply quiet_mret|]. apply q_then; [apply H; left|].
  intros _. apply IH. intros y Hy. apply H. by right.
Qed.
End Quiet.

(** Accesses, for any relation the accesses satisfy. *)
Section QuietAccess.
Context `{MA : Machine} (R : mstate -> mstate -> Prop).
Abbreviation dquiet := (quiet R (fun _ : mstate => True) (fun d => d)).
Lemma q_read a : (forall d, R d (mmio_read 4 a d).2) -> dquiet (fun _ => True) (ioread32 a).
Proof. intros Ha d v d' _ H. unfold ioread32 in H. specialize (Ha d). destruct (mmio_read 4 a d) as [x d1]. by injection H as <- <-. Qed.
Lemma q_write32 v a : (forall v d, R d (mmio_write 4 v a d)) -> dquiet (fun _ => True) (iowrite32 v a).
Proof. intros Ha d [] d' _ [= <-]. split; [done|]. split; [done|]. apply Ha. Qed.
Lemma q_write64 v a : (forall v d, R d (mmio_write 8 v a d)) -> dquiet (fun _ => True) (iowrite64 v a).
Proof. intros Ha d [] d' _ [= <-]. split; [done|]. split; [done|]. apply Ha. Qed.
Lemma q_sys_read r : (forall d, R d (sys_read r d).2) -> dquiet (fun _ => True) (read_sysreg r).
Proof. intros Hr d v d' _ H. unfold read_sysreg in H. specialize (Hr d). destruct (sys_read r d) as [x d1]. by injection H as <- <-. Qed.
Lemma q_sys_write v r : (forall v d, R d (sys_write r v d)) -> dquiet (fun _ => True) (write_sysreg v r).
Proof. intros Hr d [] d' _ [= <-]. split; [done|]. split; [done|]. apply Hr. Qed.
Lemma q_zoom {S A} (I : S -> Prop) (dev : S -> mstate) (upd : mstate -> S -> S) Q (m : M mstate A) :
  (forall d s, dev (upd d s) = d) -> (forall d s, I s -> I (upd d s)) -> dquiet Q m -> quiet R I dev Q (zoom dev upd m).
Proof.
  intros Hd HI Hm s a s' Hs H. apply zoom_Ret in H as (d & H & ->). destruct (Hm _ _ _ Logic.I H) as (? & _ & ?).
  split; [done|]. split; [by apply HI|]. by rewrite Hd.
Qed.
End QuietAccess.

#[export] Instance fl_view_pre `{FD : FlashDevice} : PreOrder fl_view.
Proof. split; [by intros d|intros x y z; apply view_trans]. Qed.

(** ** The interrupt controller *)
Section QuietGic.
Context `{BD : Board}.
Abbreviation dquiet := (quiet fl_view (fun _ : mstate => True) (fun d => d)).
Abbreviation gquiet := (quiet fl_view mapped g_dev).

Lemma flash_at : cfi_pflash_base = 0xffff000004000000.
Proof. reflexivity. Qed.
Lemma gic_not_flash off : 0 <= off -> ~ in_flash (GICD + off) /\ ~ in_flash (GICR_RD + off) /\ ~ in_flash (GICR_SGI + off).
Proof. unfold in_flash. rewrite flash_at. destruct bases as (-> & -> & ->). lia. Qed.

Lemma q_fread a : ~ in_flash a -> dquiet (fun _ => True) (ioread32 a).
Proof. intros Ha. apply q_read. intros d. by apply bd_read. Qed.
Lemma q_on_dev {A} Q (m : M mstate A) : dquiet Q m -> gquiet Q (on_dev m).
Proof. apply q_zoom; [done|]. by intros d s. Qed.
Lemma q_reg reg a : reg_at reg a -> gquiet (eq a) reg.
Proof. intros Hr g b g' Hg H. rewrite (Hr g Hg) in H. injection H as <- <-. split; [done|]. by split. Qed.
Lemma q_put32 v reg a : reg_at reg a -> ~ in_flash a -> gquiet (fun _ => True) (put32 v reg).
Proof. intros Hr Ha. eapply quiet_bind; [apply _|by apply q_reg|]. intros b <-. apply q_on_dev, q_write32. intros w d. by apply bd_write. Qed.
Lemma q_put64 v reg a : reg_at reg a -> ~ in_flash a -> gquiet (fun _ => True) (put64 v reg).
Proof. intros Hr Ha. eapply quiet_bind; [apply _|by apply q_reg|]. intros b <-. apply q_on_dev, q_write64. intros w d. by apply bd_write. Qed.
Lemma q_gicd v off : 0 <= off -> gquiet (fun _ => True) (put32 v (gicd off)).
Proof. intros Ho. eapply q_put32; [apply gicd_at|by apply gic_not_flash]. Qed.
Lemma q_gicd64 v off : 0 <= off -> gquiet (fun _ => True) (put64 v (gicd off)).
Proof. intros Ho. eapply q_put64; [apply gicd_at|by apply gic_not_flash]. Qed.
Lemma q_sgi v off : 0 <= off -> gquiet (fun _ => True) (put32 v (gicr_sgi cpu_id off)).
Proof. intros Ho. eapply q_put32; [apply gicr_sgi_at|by apply gic_not_flash]. Qed.
Lemma q_wait patience a mask : ~ in_flash a -> dquiet (fun _ => True) (gicv3_do_wait_for_rwp patience a mask).
Proof.
  intros Ha. assert (forall fuel ddl cnt, dquiet (fun _ => True) (rwp_loop fuel a mask ddl cnt)) as Hl.
  { induction fuel as [|fuel IH]; intros ddl cnt; cbn [rwp_loop]; [by intros s b s'|]. apply quiet_if; [by apply quiet_mret; [apply _|]|].
    apply q_then; [apply _|by apply q_fread|]. intros v. apply quiet_if; [by apply quiet_mret; [apply _|]|apply IH]. }
  unfold gicv3_do_wait_for_rwp. apply q_then; [apply _|by apply q_fread|]. intros v. apply quiet_if; [by apply quiet_mret; [apply _|]|apply Hl].
Qed.
Lemma q_dist_wait patience : gquiet (fun _ => True) (gicv3_dist_wait_for_rwp patience).
Proof.
  eapply quiet_bind; [apply _|apply q_reg, gicd_at|]. intros a <-. apply q_then; [apply _|apply q_on_dev, q_wait; by apply gic_not_flash|]. intros _. by apply quiet_mret; [apply _|].
Qed.
Lemma q_redist_wait patience : gquiet (fun _ => True) (gicv3_redist_wait_for_rwp patience cpu_id).
Proof.
  eapply quiet_bind; [apply _|apply q_reg, gicr_rd_at|]. intros a <-. apply q_then; [apply _|apply q_on_dev, q_wait; by apply gic_not_flash|]. intros _. by apply quiet_mret; [apply _|].
Qed.

Lemma q_irq_enable patience intid : 0 <= intid -> gquiet (fun _ => True) (gicv3_irq_enable patience intid).
Proof.
  intros Hi. unfold gicv3_irq_enable. apply quiet_if; (apply q_then; [apply _| |intros _]).
  - by apply q_sgi.
  - apply q_redist_wait.
  - apply q_gicd. pose proof (Z.div_pos intid 32 Hi). unfold isenablern. lia.
  - apply q_dist_wait.
Qed.

Lemma q_gicd_init patience : gquiet (fun _ => True) (gicd_init patience).
Proof.
  assert (forall st n step x, 0 < step -> 0 <= st -> x ∈ upto st n step -> 0 <= x) as Hup.
  { intros st n step x Hs Hst (k & Hk & -> & _)%elem_of_upto; nia. }
  unfold gicd_init. apply q_then; [apply _|apply quiet_lift, _|intros _]. apply q_then; [apply _| |intros ok].
  { eapply quiet_bind; [apply _|apply q_reg, gicd_at|]. intros a <-. apply q_then; [apply _|apply q_on_dev, q_fread; by apply gic_not_flash|]. intros v. by apply quiet_mret; [apply _|]. }
  apply q_then; [apply _|apply quiet_lift, _|intros _]. apply q_then; [apply _|by apply q_gicd|intros _]. apply q_then; [apply _|apply q_dist_wait|intros _].
  eapply quiet_bind; [apply _|apply q_reg, gicd_at|]. intros a <-. apply q_then; [apply _|apply q_on_dev, q_fread; by apply gic_not_flash|intros typer]. cbv zeta.
  apply q_then; [apply _|apply quiet_forM; [apply _|]; intros i Hi; apply q_gicd; unfold icfgrn; pose proof (Z.div_pos i 16 (Hup SPI_MIN _ 16 i eq_refl ltac:(done) Hi) eq_refl); lia|intros _].
  apply q_then; [apply _|apply quiet_forM; [apply _|]; intros i Hi; apply q_gicd; unfold ipriorityrn; pose proof (Z.div_pos i 4 (Hup SPI_MIN _ 4 i eq_refl ltac:(done) Hi) eq_refl); lia|intros _].
  apply q_then; [apply _|apply quiet_forM; [apply _|]; intros i Hi; pose proof (Z.div_pos i 32 (Hup SPI_MIN _ 32 i eq_refl ltac:(done) Hi) eq_refl);
    apply q_then; [apply _|apply q_gicd; unfold icenablern; lia|intros _; apply q_gicd; unfold icpendrn; lia]|intros _].
  apply q_then; [apply _|apply q_dist_wait|intros _].
  apply q_then; [apply _|apply quiet_forM; [apply _|]; intros i Hi; apply q_gicd; unfold igrouprn; pose proof (Hup 0 _ 1 i eq_refl ltac:(done) Hi); lia|intros _].
  apply q_then; [apply _|apply quiet_forM; [apply _|]; intros i Hi; apply q_gicd64; unfold iroutern; pose proof (Hup SPI_MIN _ 1 i eq_refl ltac:(done) Hi); lia|intros _].
  apply q_then; [apply _|apply q_dist_wait|intros _]. by apply q_gicd.
Qed.
Lemma q_gicr_init patience : gquiet (fun _ => True) (gicr_init patience cpu_id).
Proof.
  unfold gicr_init. apply q_then; [apply _|by apply q_sgi|intros _]. apply q_then; [apply _| |].
  { apply quiet_forM; [apply _|]. intros i (k & Hk & -> & _)%elem_of_upto; [|done]. apply q_sgi. unfold ipriorityrn_r, SGI_MIN.
    pose proof (Z.div_pos (0 + 4 * k) 4 ltac:(lia) eq_refl). lia. }
  intros _. do 5 (apply q_then; [apply _|by apply q_sgi|intros _]). apply q_redist_wait.
Qed.
Lemma q_gicc_init : dquiet (fun _ => True) gicc_init.
Proof.
  unfold gicc_init, gicv3_enable_sre, read_sysreg32, write_sysreg32.
  repeat first [apply q_sys_write; intros; apply bd_sys_write | apply q_sys_read; intros; apply bd_sys_read | by apply quiet_mret; [apply _|] | apply q_then; [apply _| |intros ?]].
Qed.
End QuietGic.

(** ** The serial line *)
Section QuietUart.
Context `{GD : GicDevice} {FD : FlashDevice} {BD : Board}.
(** Neither the flash nor the enabled lines change. *)
Record calm_dev (d d' : mstate) : Prop := {
  cd_flash : fl_view d d';
  cd_lines : forall i, 0 <= i < 1020 -> enabled d' i = enabled d i }.
#[export] Instance calm_dev_pre : PreOrder calm_dev.
Proof. split; [by intros d|]. intros x y z [V1 L1] [V2 L2]. split; [by etransitivity|]. intros i Hi. by rewrite L2, L1. Qed.
Abbreviation squiet := (quiet calm_dev ready s_dev (fun _ => True)).

Lemma calm_sys_read r d : calm_dev d (sys_read r d).2.
Proof. split; [apply bd_sys_read|]. intros i Hi. by apply gic_sys_read. Qed.
Lemma calm_sys_write r v d : calm_dev d (sys_write r v d).
Proof. split; [apply bd_sys_write|]. intros i Hi. by apply gic_sys_write. Qed.

Lemma uart_at r : 0xffff000009000000 <= UART + uart_off r < 0xffff000009001000.
Proof. destruct r; by vm_compute. Qed.
Lemma calm_uart_read r d : calm_dev d (mmio_read 4 (UART + uart_off r) d).2.
Proof.
  split; [apply bd_read; unfold in_flash; rewrite flash_at; pose proof (uart_at r); lia|]. intros i Hi. by apply gic_read.
Qed.
Lemma calm_uart_write r v d : calm_dev d (mmio_write 4 v (UART + uart_off r) d).
Proof.
  pose proof (uart_at r). split; [apply bd_write; unfold in_flash; rewrite flash_at; lia|]. intros i Hi. rewrite gic_write by done.
  apply (enabled_after_other (S settle) (le_n _)); [done|..]; destruct bases as (HD & _ & HS); rewrite ?HD, ?HS; unfold isenabler0, icenabler0; lia.
Qed.

Lemma q_reg_get r : squiet (reg_get r).
Proof.
  intros s v s' Hs H. unfold reg_get in H. unfold mbind, M_bind, get in H. rewrite Hs in H.
  apply (q_zoom calm_dev ready s_dev with_sdev (fun _ => True) _ ltac:(done) ltac:(by intros d t) (q_read _ _ (calm_uart_read r)) s v s' Hs H).
Qed.
Lemma q_reg_set r v : squiet (reg_set r v).
Proof.
  intros s [] s' Hs H. unfold reg_set in H. unfold mbind, M_bind, get in H. rewrite Hs in H.
  apply (q_zoom calm_dev ready s_dev with_sdev (fun _ => True) _ ltac:(done) ltac:(by intros d t) (q_write32 _ v _ (calm_uart_write r)) s tt s' Hs H).
Qed.
Lemma q_reg_upd r f : squiet (reg_upd r f).
Proof. apply q_then; [apply _|apply q_reg_get|]. intros v. apply q_reg_set. Qed.
Lemma q_poll fuel mask : squiet (poll fuel mask).
Proof.
  induction fuel as [|fuel IH]; cbn [poll]; (apply q_then; [apply _|apply q_reg_get|]; intros v; apply quiet_if; [by apply quiet_mret, I; apply _|]); [by intros s b s'|done].
Qed.
Ltac step_uart := repeat first [apply q_reg_upd | apply q_reg_set | apply q_poll | apply quiet_get, _ | by apply quiet_mret; [apply _|] | apply q_then; [apply _| |intros ?]].
Lemma q_uart_irq_init : squiet uart_irq_init.
Proof. unfold uart_irq_init. step_uart. Qed.
Lemma q_uart_init patience s r s' : uart_init patience s = Ret (r, s') -> ready s' /\ calm_dev (s_dev s) (s_dev s').
Proof.
  unfold uart_init. rewrite (M_bind_run _ _ _ _ _ (eq_refl : modify _ s = Ret (tt, _))). set (s0 := mkSerial _ _). intros H.
  change (s_dev s) with (s_dev s0). assert (ready s0) as R0 by done. revert s0 r s' R0 H.
  cut (squiet (calculate_set_divisiors;; reg_upd CR (fun v => Z.land v (u32 (Z.lnot CR_UARTEN)));; wait_tx_complete patience;;
    x ← get; reg_set IMSC 0;; reg_set DMACR 0;; reg_upd CR (fun v => Z.lor v (Z.lor CR_TXEN CR_RXEN));; reg_upd CR (fun v => Z.lor v CR_UARTEN);; mret 0)).
  { intros Hq s0 r s' R0 H. destruct (Hq s0 r s' R0 H) as (_ & ? & ?). done. }
  unfold calculate_set_divisiors, wait_tx_complete. step_uart.
Qed.
End QuietUart.

(** ** The flash *)
Section QuietFlash.
Context `{GD : GicDevice}.
(** The enabled lines do not change. *)
Definition same_lines (d d' : mstate) : Prop := forall i, 0 <= i < 1020 -> enabled d' i = enabled d i.
#[export] Instance same_lines_pre : PreOrder same_lines.
Proof. split; [by intros d i|]. intros x y z H1 H2 i Hi. by rewrite H2, H1. Qed.
Abbreviation lquiet := (quiet same_lines (fun _ : mstate => True) (fun d => d) (fun _ => True)).
Abbreviation cquiet := (quiet same_lines (fun _ : cfi => True) f_dev (fun _ => True)).

Lemma q_getb off : lquiet (CFI_GETB off).
Proof.
  intros d v d' _ H. unfold CFI_GETB in H. pose proof (fun i => gic_read 1 (cfi_pflash_base + u32 off) d i) as Hr.
  destruct (mmio_read 1 _ d) as [x d1]. injection H as <- <-. done.
Qed.
Lemma q_getw w : lquiet (CFI_GETW w).
Proof. apply q_read. intros d i Hi. by apply gic_read. Qed.
Lemma q_putw w v : u32 w < 0x1000000 -> lquiet (CFI_PUTW w v).
Proof.
  intros Hw. assert (0 <= u32 w) by (unfold wrapu; by apply Z.mod_pos_bound).
  apply q_write32. intros x d i Hi. rewrite gic_write by done.
  apply (enabled_after_other (S settle) (le_n _)); [done|..]; destruct bases as (HD & _ & HS); rewrite ?HD, ?HS, flash_at; unfold isenabler0, icenabler0; lia.
Qed.
Lemma q_chip {A} (m : M mstate A) : lquiet m -> cquiet (on_chip m).
Proof. by apply q_zoom. Qed.
Lemma q_modify (f : cfi -> cfi) : (forall c, f_dev (f c) = f_dev c) -> cquiet (modify f).
Proof. intros Hf c [] c' _ [= <-]. split; [done|]. split; [done|]. by rewrite Hf. Qed.

Lemma q_diverge {A} : quiet same_lines (fun _ : mstate => True) (fun d => d) (fun _ : A => True) diverge.
Proof. by intros d v d'. Qed.
Ltac step_flash := repeat first [apply q_getb | apply q_getw | apply q_putw; reflexivity | apply q_chip | apply q_modify; reflexivity | apply q_diverge | apply quiet_lift, _
  | by apply quiet_mret; [apply _|] | apply quiet_if | apply q_then; [apply _| |intros ?]
  | match goal with a : bytes * Z * Z |- _ => destruct a as [[? ?] ?] end | match goal with IH : forall _, _ |- _ => apply IH end].
Lemma q_init_cfi : cquiet init_cfi.
Proof.
  unfold init_cfi, cfi_query, cfi_query_geometry, cfi_query_QRY, cfi_query_1b, cfi_query_2b, assertM. step_flash.
Qed.
Lemma q_cfi_read offset size : lquiet (Flash.cfi_read offset size).
Proof.
  assert (forall fuel o w s, lquiet (read_head fuel o w s)) as H1 by (induction fuel as [|fuel IH]; intros o w s; cbn [read_head]; step_flash).
  assert (forall fuel o s, lquiet (read_words fuel o s)) as H2 by (induction fuel as [|fuel IH]; intros o s; cbn [read_words]; step_flash).
  assert (forall fuel o s, lquiet (read_tail fuel o s)) as H3 by (induction fuel as [|fuel IH]; intros o s; cbn [read_tail]; step_flash).
  unfold Flash.cfi_read. step_flash.
Qed.
End QuietFlash.

(** ** The steps of [kernel_init] that set up devices *)
Abbreviation dflt := default_irq_handler.
Section Stages.
Context `{GD : GicDevice} {UD : UartDevice} {FD : FlashDevice} {BD : Board} `{KE : KernEnv} `{IM : Image} (patience : nat).
Context (Hgic : (settle < patience)%nat) (Huart : (line_settle < patience)%nat).

(** Everything that is not a device stays. *)
Record same_os (b b' : boot) : Prop := {
  so_k : b_k b' = b_k b; so_kv : b_kvspace b' = b_kvspace b; so_sb : b_sb b' = b_sb b;
  so_pbuf : k_pbuf (i_world (b_sys b')) = k_pbuf (i_world (b_sys b)); so_out : k_out (i_world (b_sys b')) = k_out (i_world (b_sys b)) }.
#[export] Instance same_os_pre : PreOrder same_os.
Proof. split; [done|]. intros x y z [? ? ? ? ?] [? ? ? ? ?]. split; congruence. Qed.
Lemma same_os_dev d b : same_os b (set_dev d b).
Proof. done. Qed.

(** The handlers registered so far, and the lines that are on. *)
Record lines (m : gmap Z (@handler ())) (b : boot) : Prop := {
  li_registry : registry dflt m (b_sys b);
  li_mapped : mapped (i_gic (b_sys b));
  li_enabled : forall i, 0 <= i < gic_lines -> i < 1020 -> enabled (b_dev b) i = (i <? 16) || bool_decide (is_Some (m !! i)) }.
(** Lines, register block and frequency. *)
Record devices (m : gmap Z (@handler ())) (b : boot) : Prop := {
  de_lines : lines m b;
  de_uart : regs (b_uart b) = UART;
  de_khz : cpukhz (i_world (b_sys b)) = u32 (u64 bd_freq) / 1000 }.

Lemma console_stage b : exists b', on_console (init_console patience) b = Ret (tt, b') /\ same_os b b' /\ regs (b_uart b') = UART /\
  calm_dev (b_dev b) (b_dev b') /\ same_tables (b_sys b) (b_sys b').
Proof using Huart BD.
  set (s := mkSerial (b_dev b) (b_uart b)). destruct (uart_init_run patience Huart s) as (s' & E & _).
  destruct (q_uart_init patience s 0 s' E) as [Hr Hc].
  assert (init_console patience (mkCons s (b_conslock b)) = Ret (tt, mkCons s' initlock)) as E1.
  { unfold init_console. rewrite modify_step. cbn [c_serial]. rewrite (M_bind_run _ _ (mkCons s initlock) 0 (mkCons s' initlock)); [done|].
    exact (zoom_run c_serial (fun s c => mkCons s (c_lock c)) (uart_init patience) (mkCons s initlock) 0 s' E). }
  eexists. split; [exact (zoom_run _ _ _ b tt _ E1)|]. cbn [c_serial Uart.c_lock]. split; [done|]. split; [exact Hr|]. split; [exact Hc|done].
Qed.

Lemma gic_stage b : registry dflt ∅ (b_sys b) -> exists b', on_intc (init_gicv3 patience) b = Ret (tt, b') /\ same_os b b' /\ b_uart b' = b_uart b /\
  fl_view (b_dev b) (b_dev b') /\ lines ∅ b' /\ i_world (b_sys b') = i_world (b_sys b).
Proof using Hgic BD.
  intros Hreg. destruct (init_gicv3_enables_sgis patience Hgic (i_gic (b_sys b))) as (g' & E & Hm & Hen).
  assert (fl_view (b_dev b) (g_dev g')) as Hv.
  { unfold init_gicv3 in E. apply M_bind_Ret in E as ([] & g1 & E1 & E2).
    assert (mapped g1 /\ g_dev g1 = b_dev b) as [M1 D1] by (injection E1 as <-; by split_and!). rewrite <- D1.
    assert (quiet fl_view mapped g_dev (fun _ => True) (gicd_init patience;; gicr_init patience cpu_id;; on_dev gicc_init)) as Hq.
    { apply q_then; [apply _|apply q_gicd_init|intros _]. apply q_then; [apply _|apply q_gicr_init|intros _]. apply q_on_dev, q_gicc_init. }
    by destruct (Hq g1 tt g' M1 E2) as (_ & _ & ?). }
  pose proof (zoom_run i_gic with_gic _ (b_sys b) tt g' E) as E1.
  eexists. split; [exact (zoom_run b_sys set_sys _ b tt _ E1)|]. split; [done|]. split; [done|]. split; [exact Hv|]. split; [|done].
  split; [exact Hreg|exact Hm|]. intros i Hi Hi2. rewrite lookup_empty. rewrite bool_decide_eq_false_2 by (by intros [? ?]). rewrite orb_false_r. by apply Hen.
Qed.

(** The frequency of the counter. *)
Lemma clock_stage m b : lines m b -> regs (b_uart b) = UART -> exists b', on_sys init_sched_timer b = Ret (0, b') /\ same_os b b' /\
  calm_dev (b_dev b) (b_dev b') /\ devices m b'.
Proof using BD Hgic Huart.
  intros [Hr Hm He] Hu. set (d := (sys_read cntfrq_el0 (b_dev b)).2).
  assert (arch_timer_get_cntfrq (b_dev b) = Ret (u32 (u64 bd_freq), d)) as E1.
  { unfold arch_timer_get_cntfrq, read_sysreg, mbind, M_bind, d. rewrite <- (bd_cntfrq (b_dev b)). by destruct (sys_read cntfrq_el0 (b_dev b)). }
  assert (on_cpu arch_timer_get_cntfrq (b_sys b) = Ret (u32 (u64 bd_freq), with_gic (with_dev d (i_gic (b_sys b))) (b_sys b))) as E2
    by exact (zoom_run i_gic with_gic _ (b_sys b) _ _ (zoom_run g_dev with_dev _ (i_gic (b_sys b)) _ _ E1)).
  assert (calm_dev (b_dev b) d) as Hc by apply calm_sys_read.
  assert (exists s', init_sched_timer (b_sys b) = Ret (0, s') /\ i_gic s' = with_dev d (i_gic (b_sys b)) /\ same_tables (b_sys b) s' /\ cpukhz (i_world s') = u32 (u64 bd_freq) / 1000 /\ k_pbuf (i_world s') = k_pbuf (i_world (b_sys b)) /\ k_out (i_world s') = k_out (i_world (b_sys b))) as (s' & E & Hg & Ht & Hk & Hp & Ho).
  { unfold init_sched_timer, init_arch_timer. rewrite (M_bind_run _ _ _ 0 _ (M_bind_run _ _ _ _ _ E2)). eexists. split; [reflexivity|]. by split_and!. }
  exists (set_sys s' b). split; [exact (zoom_run b_sys set_sys _ b 0 s' E)|]. split; [by split|].
  assert (b_dev (set_sys s' b) = d) as Hd by (unfold b_dev; cbn; by rewrite Hg).
  rewrite Hd. split; [done|]. split; [|done|exact Hk]. split.
  - by apply (registry_same dflt m (b_sys b)).
  - cbn. by rewrite Hg.
  - intros i Hi Hi2. rewrite Hd. rewrite (cd_lines _ _ Hc) by lia. by apply He.
Qed.

(** ** The interrupt hooks *)
Definition hook_line (c : irqhook_initcall) : Z :=
  match c with call_console_irq_init => INTID_UART_NS | call_sched_timer_irq_init => INTID_VTIMER | call_ftrace_timer_irq_init => INTID_PTIMER end.
Definition hook_handler (c : irqhook_initcall) : @handler () :=
  match c with call_console_irq_init => Other tt | call_sched_timer_irq_init => sched_timer_handler | call_ftrace_timer_irq_init => ftrace_timer_handler end.
Definition hook_map (l : list irqhook_initcall) : gmap Z (@handler ()) := foldl (fun m c => <[hook_line c := hook_handler c]> m) ∅ l.

(** Registering a handler does not touch the flash. *)
Lemma register_view {W H} (s s' : @irqs MA W H) intid h r : 0 <= intid -> mapped (i_gic s) ->
  irq_register patience intid (Some h) s = Ret (r, s') -> fl_view (g_dev (i_gic s)) (g_dev (i_gic s')).
Proof using BD.
  intros Hi Hm E. unfold irq_register in E. apply M_bind_Ret in E as (x & s0 & E0 & E). injection E0 as <- <-.
  apply M_bind_Ret in E as (s1 & s2 & E1 & E). unfold lift in E1.
  destruct (set_desc (irq_desc cpu_id intid) (mkIrq (u16 intid) h) s) as [s1'| | |] eqn:Ed; try discriminate E1. injection E1 as <- <-.
  assert (i_gic s1' = i_gic s) as Hg.
  { unfold set_desc in Ed. destruct (irq_desc cpu_id intid); apply outcome_bind_Ret in Ed as (l & _ & [= <-]); done. }
  apply M_bind_Ret in E as ([] & s3 & E2 & E). injection E2 as <-. apply M_bind_Ret in E as ([] & s4 & E3 & E). injection E as <- <-.
  apply zoom_Ret in E3 as (g & E3 & ->). rewrite Hg in E3. by destruct (q_irq_enable patience intid Hi _ _ _ Hm E3) as (_ & _ & ?).
Qed.

(** What registering leaves of the lines. *)
Lemma register_stage {W} m (s : @irqs MA W (@handler ())) intid h :
  has_desc intid -> registry dflt m s -> mapped (i_gic s) ->
  (forall i, 0 <= i < gic_lines -> i < 1020 -> enabled (g_dev (i_gic s)) i = (i <? 16) || bool_decide (is_Some (m !! i))) ->
  exists s', irq_register patience intid (Some h) s = Ret (0, s') /\ registry dflt (<[intid := h]> m) s' /\ mapped (i_gic s') /\ i_world s' = i_world s /\
    fl_view (g_dev (i_gic s)) (g_dev (i_gic s')) /\
    (forall i, 0 <= i < gic_lines -> i < 1020 -> enabled (g_dev (i_gic s')) i = (i <? 16) || bool_decide (is_Some (<[intid := h]> m !! i))).
Proof using BD Hgic Huart.
  intros Hd Hr Hm He. destruct (irq_register_refines patience Hgic dflt m s intid (Some h) Hr Hm Hd) as (s' & E & R' & M' & W' & F).
  exists s'. split_and!; [done|done|done|done|by eapply register_view; [|exact Hm|exact E]; unfold has_desc in Hd; lia|].
  intros i Hi Hi2. rewrite F, He by lia. rewrite <- orb_assoc. f_equal. destruct (decide (i = intid)) as [-> |Hne].
  - rewrite lookup_insert_eq, (bool_decide_eq_true_2 (intid = intid)) by done. rewrite orb_true_r. symmetry. by apply bool_decide_eq_true_2.
  - rewrite lookup_insert_ne by done. rewrite (bool_decide_eq_false_2 (i = intid)) by done. by rewrite orb_false_r.
Qed.

Lemma reg_get_total r (s : serial) : exists v s', reg_get r s = Ret (v, s').
Proof. unfold reg_get, mbind, M_bind, get, on_line, zoom, ioread32. destruct (mmio_read _ _ _) as [v d]. by eexists _, _. Qed.
Lemma uart_irq_init_total (s : serial) : exists s', uart_irq_init s = Ret (tt, s').
Proof.
  assert (forall r f s, exists s', reg_upd r f s = Ret (tt, s')) as Hu.
  { intros r f t. destruct (reg_get_total r t) as (v & t1 & E). unfold reg_upd. rewrite (M_bind_run _ _ _ _ _ E). by eexists. }
  unfold uart_irq_init. destruct (Hu CR (fun v => Z.land v (u32 (Z.lnot CR_UARTEN))) s) as (s1 & E1). rewrite (M_bind_run _ _ _ _ _ E1).
  rewrite (M_bind_run _ _ _ tt _ eq_refl). rewrite (M_bind_run _ _ _ tt _ eq_refl). apply Hu.
Qed.

Lemma hook_stage c m b : devices m b -> exists b', run_irqhook patience c b = Ret (0, b') /\ same_os b b' /\ fl_view (b_dev b) (b_dev b') /\
  devices (<[hook_line c := hook_handler c]> m) b'.
Proof using BD Hgic Huart.
  intros [[Hr Hm He] Hu Hk]. destruct c.
  - set (s := mkSerial (b_dev b) (b_uart b)). destruct (uart_irq_init_total s) as (s1 & E1).
    destruct (q_uart_irq_init s tt s1 Hu E1) as (_ & Hr1 & [V1 L1]).
    set (t := mkIrqs (with_dev (s_dev s1) (i_gic (b_sys b))) (pcpu_irq_desc (b_sys b)) (spi_irq_desc (b_sys b)) (s_uart s1)).
    destruct (register_stage m t INTID_UART_NS (Other tt)) as (t' & E & R' & M' & W' & V' & F'); [by vm_compute|exact Hr|exact Hm| |].
    { intros i Hi Hi2. cbn. rewrite L1 by lia. by apply He. }
    set (x := mkIrqs (i_gic (b_sys b)) (pcpu_irq_desc (b_sys b)) (spi_irq_desc (b_sys b)) (b_uart b)).
    assert (console_irq_init patience (Other tt) x = Ret (0, t')) as Ec.
    { unfold console_irq_init. rewrite (M_bind_run _ _ x tt t); [exact E|]. exact (zoom_run _ _ uart_irq_init x tt s1 E1). }
    eexists. split; [exact (zoom_run _ _ _ b 0 t' Ec)|]. split; [done|]. split; [by etransitivity; [exact V1|exact V']|].
    split; [|cbn; by rewrite W'|exact Hk]. split; [exact R'|exact M'|exact F'].
  - destruct (register_stage m (b_sys b) INTID_VTIMER sched_timer_handler) as (t' & E & R' & M' & W' & V' & F'); [by vm_compute|done|done|done|].
    exists (set_sys t' b). split; [exact (zoom_run _ _ _ b 0 t' E)|]. split; [split; [done..|cbn; by rewrite W'|cbn; by rewrite W']|]. split; [exact V'|]. split; [|exact Hu|cbn; by rewrite W'].
    split; [exact R'|exact M'|exact F'].
  - destruct (register_stage m (b_sys b) INTID_PTIMER ftrace_timer_handler) as (t' & E & R' & M' & W' & V' & F'); [by vm_compute|done|done|done|].
    exists (set_sys t' b). split; [exact (zoom_run _ _ _ b 0 t' E)|]. split; [split; [done..|cbn; by rewrite W'|cbn; by rewrite W']|]. split; [exact V'|]. split; [|exact Hu|cbn; by rewrite W'].
    split; [exact R'|exact M'|exact F'].
Qed.

(** All the hooks of the section, in the order the linker gave them. *)
Lemma hooks_stage b : devices ∅ b -> Z.of_nat (length init_func_3) < 2 ^ 31 -> exists b', init_irqhooks patience b = Ret (tt, b') /\ same_os b b' /\
  fl_view (b_dev b) (b_dev b') /\ devices (hook_map init_func_3) b'.
Proof using BD Hgic Huart.
  intros Hd Hl. unfold init_irqhooks. rewrite call_init_func_run by done. clear Hl. unfold hook_map. revert b Hd. generalize (∅ : gmap Z (@handler ())) as m.
  induction init_func_3 as [|c l IH]; intros m b Hd; [by exists b|]. cbn [foldl].
  destruct (hook_stage c m b Hd) as (b1 & E1 & O1 & V1 & D1). destruct (IH _ b1 D1) as (b2 & E2 & O2 & V2 & D2).
  exists b2. rewrite (forM_call _ _ _ _ _ _ E1). split; [done|]. split; [by etransitivity|]. split; [by etransitivity|done].
Qed.

(** Only the device registers change. *)
Lemma devices_dev m b d : devices m b -> same_lines (b_dev b) d -> devices m (set_dev d b).
Proof using Hgic Huart.
  intros [[Hr Hm He] Hu Hk] Hl. split; [|done|done]. split; [done|done|]. intros i Hi Hi2. cbn. rewrite Hl by lia. by apply He.
Qed.

(** ** The flash *)
Definition flash_ok : Prop := 1024 <= fl_len /\ (forall w, 0 <= fl_info w < 256) /\ info_QRY fl_info = true /\ geometry_ok fl_info = true.
Lemma cfi_stage m b : flash_ok -> devices m b -> fl_mode (b_dev b) = FArray -> exists b', on_cfi init_cfi b = Ret (0, b') /\ same_os b b' /\ devices m b' /\
  fl_mode (b_dev b') = FArray /\ fl_bytes (b_dev b') = fl_bytes (b_dev b) /\ b_geo b' = mkGeo (2 ^ (fl_info 0x27 mod 32)) 1 131072 2048.
Proof using Hgic Huart.
  intros (Hs & Hi & Hq & Hg) Hd Hm. set (c := mkCfi (b_dev b) (geo_capacity (b_geo b)) (geo_eregnum (b_geo b)) (geo_eblksz (b_geo b)) (geo_pgsz (b_geo b))).
  pose proof (init_cfi_run c Hs Hi Hm) as Hrun. rewrite Hq, Hg in Hrun. destruct Hrun as (c' & E & Hm' & Hb' & G1 & G2 & G3 & G4).
  destruct (q_init_cfi c 0 c' I E) as (_ & _ & Hl). exists (set_dev (f_dev c') (set_geo (mkGeo (capacity c') (eregnum c') (eblksz c') (pgsz c')) b)).
  split; [exact (zoom_run _ _ init_cfi b 0 c' E)|]. split; [done|]. split; [apply devices_dev; [by destruct Hd as [[? ? ?] ? ?]|exact Hl]|]. split; [exact Hm'|]. split; [exact Hb'|].
  cbn. by rewrite G1, G2, G3, G4.
Qed.

(** Reading the start of the flash. *)
Lemma flash_stage m b n : devices m b -> fl_mode (b_dev b) = FArray -> 0 <= n <= fl_len ->
  exists d, on_device (Flash.cfi_read 0 n) b = Ret ((take (Z.to_nat n) (fl_bytes (b_dev b)), 0), set_dev d b) /\ devices m (set_dev d b).
Proof using Hgic Huart.
  intros Hd Hm Hn. pose proof (fl_length (b_dev b)) as Hl. pose proof fl_len_range as [Hr _].
  destruct (cfi_read_sim (b_dev b) 0 n (take (Z.to_nat n) (fl_bytes (b_dev b)), 0) Hm) as (d & E & _).
  { rewrite cfi_read_exact by lia. by rewrite drop_0. }
  exists d. split; [exact (zoom_run _ _ _ b _ d E)|]. apply devices_dev; [done|]. by destruct (q_cfi_read 0 n (b_dev b) _ d I E) as (_ & _ & ?).
Qed.
End Stages.

(** ** The listing of the ram disk *)
Section Listing.
Context `{GD : GicDevice} {UD : UartDevice} {FD : FlashDevice} {BD : Board} `{KE : KernEnv} `{IM : Image}.
(** The console after printing [out]. *)
Record printed (out : list Z) (b b' : boot) : Prop := {
  pr_state : exists w, b' = set_sys (with_world w (b_sys b)) b;
  pr_khz : cpukhz (i_world (b_sys b')) = cpukhz (i_world (b_sys b));
  pr_pbuf : length (k_pbuf (i_world (b_sys b'))) = 4096%nat;
  pr_out : k_out (i_world (b_sys b')) = k_out (i_world (b_sys b)) ++ out }.
Lemma printed_trans o1 o2 b b1 b2 : printed o1 b b1 -> printed o2 b1 b2 -> printed (o1 ++ o2) b b2.
Proof. intros [[w1 ->] K1 P1 O1] [[w2 ->] K2 P2 O2]. split; [by exists w2|by rewrite K2|done|by rewrite O2, O1, app_assoc]. Qed.

Lemma kprintf_run (b : boot) ds : length (k_pbuf (i_world (b_sys b))) = 4096%nat -> Forall dir_ok ds ->
  exists b', on_sys (kprintf (concat (dir_fmt <$> ds) ++ [0]) (concat (dir_args <$> ds))) b = Ret (tt, b') /\ printed (take 4095 (concat (dir_text <$> ds))) b b'.
Proof.
  intros Hp Hd. set (k := i_world (b_sys b)) in *. set (t := take 4095 (concat (dir_text <$> ds))).
  assert (vsnprintf (k_pbuf k) 4096 (concat (dir_fmt <$> ds) ++ [0]) (concat (dir_args <$> ds)) = Ret (Z.of_nat (length t), t ++ 0 :: drop (S (length t)) (k_pbuf k))) as E
    by (apply (vsnprintf_spec (k_pbuf k) 4096 ds Hd); lia).
  set (pb := t ++ 0 :: drop (S (length t)) (k_pbuf k)) in *. assert (length t <= 4095)%nat as Ht by (unfold t; rewrite length_take; lia).
  set (w := mkClock (cpukhz k) (sched_alarm_tick k) (ftrace_alarm_tick k) pb (k_out k ++ t)).
  exists (set_sys (with_world w (b_sys b)) b). split.
  - apply (zoom_run b_sys set_sys). unfold kprintf, clock_get. rewrite (M_bind_run _ _ (b_sys b) k (b_sys b) eq_refl).
    rewrite (M_bind_run _ _ (b_sys b) (t, pb) (b_sys b)); [done|]. unfold lift, printf. rewrite E. cbn [mbind outcome_bind].
    rewrite Nat2Z.id. unfold pb at 1. by rewrite take_app_length.
  - split; [by exists w|done| |done]. cbn. unfold pb. rewrite length_app. cbn [length]. rewrite length_drop. lia.
Qed.

(** An inode with a name and a size. *)
Definition named (img : bytes) (inode : Z) (name : bytes) (size : Z) : Prop :=
  c_str (drop (Z.to_nat inode) img) = Ret name /\ name <> [] /\ ramdisk_file_size img inode = Ret size.
Definition line_dirs (name : bytes) (size : Z) : list directive := [Conv [45] [1; 6] (CStr name); Conv [45] [1; 0] (CDec false size); Lit 10].
(** The name in at least 16 columns, the size in at least 10. *)
Definition line_text (f : bytes * Z) : bytes :=
  take 4095 (padded_text 16 true false f.1 ++ padded_text 10 true false (dec_text (signed_of false f.2)) ++ [10]).
Definition tree_text (fs : list (bytes * Z)) : bytes := take 25 tree_head ++ concat (line_text <$> fs).
(** The inodes of a ram disk from [inode] on. *)
Fixpoint lists (img : bytes) (inode : Z) (fs : list (bytes * Z)) : Prop :=
  match fs with [] => True | f :: fs' => named img inode f.1 f.2 /\ lists img (inode + sizeof_inode) fs' end.

Lemma line_run b name size : length (k_pbuf (i_world (b_sys b))) = 4096%nat -> name <> [] ->
  exists b', on_sys (kprintf tree_line [AStr name; ASlot size]) b = Ret (tt, b') /\ printed (line_text (name, size)) b b'.
Proof.
  intros Hp Hn. destruct (kprintf_run b (line_dirs name size) Hp) as (b' & E & H); [|by exists b'].
  repeat (apply Forall_cons; split); [apply str_dir_ok; [|done]|split; [|done]|by apply lit_dir_ok|by apply Forall_nil];
    (split_and!; [apply Forall_singleton; by right|repeat constructor; lia|done|by vm_compute]).
Qed.
Lemma tree_loop_run fs b inode : length (k_pbuf (i_world (b_sys b))) = 4096%nat -> lists (image RAMDISK_SIZE (b_k b)) inode fs ->
  exists b', tree_loop (length fs) inode b = Ret (tt, b') /\ printed (concat (line_text <$> fs)) b b'.
Proof.
  revert b inode. induction fs as [|[name size] fs IH]; intros b inode Hp Hl.
  - exists b. split; [done|]. split; [exists (i_world (b_sys b)); by destruct b as [? [] ? ? ? ? ?]|done|done|by rewrite app_nil_r].
  - destruct Hl as [(Hn & Hne & Hs) Hl]. cbn [fst snd] in *. destruct (line_run b name size Hp Hne) as (b1 & E1 & P1).
    destruct (IH b1 (inode + sizeof_inode)) as (b2 & E2 & P2); [apply P1|by destruct P1 as [[w ->] _ _ _]|].
    exists b2. split; [|by eapply printed_trans]. cbn [length tree_loop]. rewrite (M_bind_run _ _ b b b eq_refl). cbv zeta. rewrite Hn, Hs.
    rewrite (M_bind_run _ _ b name b eq_refl), (M_bind_run _ _ b size b eq_refl), (M_bind_run _ _ _ _ _ E1). exact E2.
Qed.
(** [ramdisk_tree] prints a line for each file. *)
Lemma ramdisk_tree_run b r fs : length (k_pbuf (i_world (b_sys b))) = 4096%nat -> b_sb b = Some r -> s32 (rd_cnt r) = Z.of_nat (length fs) ->
  lists (image RAMDISK_SIZE (b_k b)) (rd_root r) fs -> exists b', ramdisk_tree b = Ret (tt, b') /\ printed (tree_text fs) b b'.
Proof.
  intros Hp Hr Hc Hl. destruct (kprintf_run b (Lit <$> take 25 tree_head) Hp) as (b1 & E1 & P1); [repeat (apply Forall_cons; split; [by apply lit_dir_ok|]); by apply Forall_nil|].
  destruct (tree_loop_run fs b1 (rd_root r)) as (b2 & E2 & P2); [apply P1|by destruct P1 as [[w ->] _ _ _]|].
  exists b2. split; [|eapply printed_trans; [exact P1|exact P2]].
  unfold ramdisk_tree. rewrite (M_bind_run _ _ b b b eq_refl), Hr, Hc, Nat2Z.id. rewrite (M_bind_run _ _ b tt b1 E1). exact E2.
Qed.
Lemma devices_printed m out b b' : printed out b b' -> devices m b -> devices m b'.
Proof. intros [[w ->] Hk _ _] [[? ? ?] ? ?]. split; [by split|done|congruence]. Qed.
End Listing.

(** ** The alarm *)
Section Alarm.
Context `{GD : GicDevice} {UD : UartDevice} {FD : FlashDevice} {BD : Board} {VT : VirtualTimer} `{KE : KernEnv} `{IM : Image}.
Abbreviation yquiet := (quiet calm_dev (fun _ : @irqs MA clock (@handler ()) => True) (fun s => g_dev (i_gic s)) (fun _ => True)).
Lemma q_on_cpu {A} (m : M mstate A) : quiet calm_dev (fun _ => True) (fun d => d) (fun _ => True) m -> yquiet (on_cpu m).
Proof.
  intros Hm s a s' _ H. apply zoom_Ret in H as (g & H & ->). apply zoom_Ret in H as (d & H & ->). destruct (Hm _ _ _ I H) as (_ & _ & ?). split; [done|]. by split.
Qed.
Lemma q_timer_start alarm : yquiet (timer_start alarm).
Proof.
  unfold timer_start, arch_timer_reg_read, arch_timer_reg_write, assertM.
  repeat first [apply quiet_lift, _ | apply q_on_cpu | apply q_sys_write; intros; apply calm_sys_write | apply q_sys_read; intros; apply calm_sys_read
    | by apply quiet_mret; [apply _|] | apply q_then; [apply _| |intros ?]].
Qed.

(** The last steps: the alarm is set, interrupts are unmasked, the timer runs. *)
Definition alarm_ticks : Z := ns2tick (u32 (u64 bd_freq) / 1000) (MILLISECS 500).
Lemma alarm_stage m b : devices m b -> 0 < vt_count (b_dev b) + alarm_ticks < 2 ^ 64 ->
  exists b1 b2, on_sys (sched_timer_setup (MILLISECS 500)) b = Ret (tt, b1) /\
    on_sys sched_timer_start (set_k (intr_on (b_k b)) b1) = Ret (tt, b2) /\
    (b_k b1 = b_k b /\ b_k b2 = intr_on (b_k b) /\ b_sb b2 = b_sb b /\ k_out (i_world (b_sys b2)) = k_out (i_world (b_sys b))) /\ devices m b2 /\
    vt_count (b_dev b2) = vt_count (b_dev b) /\ vt_ctl (b_dev b2) = 1 /\ vt_cval (b_dev b2) = (vt_count (b_dev b) + alarm_ticks) mod 2 ^ 32.
Proof.
  intros [[Hr Hm He] Hu Hk] Hpos. destruct (sched_timer_setup_run (b_sys b) (MILLISECS 500)) as (s1 & E1 & D1 & A1 & [K1 O1] & [[d1 G1] T1]).
  change (Z.max (MILLISECS 500) TIMER_PRECISION) with (MILLISECS 500) in A1. rewrite Hk in A1. fold alarm_ticks in A1. change (dev_of (b_sys b)) with (b_dev b) in *.
  rewrite u64_small in A1 by lia. destruct (timer_start_programs s1 (vt_count (b_dev b) + alarm_ticks) Hpos) as (s2 & E2 & C2 & V2 & N2 & W2 & [[d2 G2] T2]).
  assert (sched_timer_start s1 = Ret (tt, s2)) as E3 by (unfold sched_timer_start, clock_get, mbind, M_bind, get, mret, M_ret; by rewrite A1).
  set (b1 := set_sys s1 b). set (k' := intr_on (b_k b)).
  exists b1, (set_sys s2 (set_k k' b1)).
  split; [exact (zoom_run _ _ _ b tt s1 E1)|]. split; [exact (zoom_run _ _ _ (set_k k' b1) tt s2 E3)|]. split; [split_and!; [done..|cbn; by rewrite W2, O1]|].
  destruct (q_timer_start _ s1 tt s2 I E2) as (_ & _ & [_ Hl]). change (g_dev (i_gic s1)) with (dev_of s1) in Hl. rewrite D1 in Hl, N2.
  split; [|by split_and!]. split; [|exact Hu|cbn; by rewrite W2, K1]. split.
  - by apply (registry_same dflt m s1), (registry_same dflt m (b_sys b)).
  - cbn. by rewrite G2, G1.
  - intros i Hi Hi2. change (enabled (g_dev (i_gic s2)) i = (i <? 16) || bool_decide (is_Some (m !! i))). rewrite Hl by lia. by apply He.
Qed.
End Alarm.
