(* ===== verification/BootBoard.v ===== *)
(** * A board with all the devices of the kernel

    The interrupt controller, the serial line, the virtual timer and the flash
    on one bus: an access goes to the device its address belongs to.  Every
    law the drivers rely on holds on it. *)
From S2P Require Import Prelude Config Ramdisk Machine Gic Irq Timer Uart Flash Boot BootSpec BootDev.

Module BoardDemo.
Record dev := mkDev { d_gic : Demo.dev; d_uart : pl011; d_timer : TimerDemo.dev; d_flash : FlashDemo.dev }.

(** Who answers at [a]. *)
Inductive unit_at := AtFlash | AtUart | AtGic.
Definition decode (a : Z) : unit_at :=
  if (cfi_pflash_base <=? a) && (a <? cfi_pflash_base + 0x4000000) then AtFlash
  else if (UART <=? a) && (a <? UART + 0x1000) then AtUart else AtGic.
Definition is_timer (r : sysreg) : bool :=
  match r with cntv_ctl_el0 | cntv_cval_el0 | cntvct_el0 | cntpct_el0 | cntfrq_el0 => true | _ => false end.

Definition bread (n a : Z) (d : dev) : Z * dev :=
  match decode a with
  | AtFlash => let '(v, f) := FlashDemo.cread n a (d_flash d) in (v, mkDev (d_gic d) (d_uart d) (d_timer d) f)
  | AtUart => let '(v, u) := UartDemo.uread n a (d_uart d) in (v, mkDev (d_gic d) u (d_timer d) (d_flash d))
  | AtGic => let '(v, g) := Demo.read n a (d_gic d) in (v, mkDev g (d_uart d) (d_timer d) (d_flash d))
  end.
Definition bwrite (n v a : Z) (d : dev) : dev :=
  match decode a with
  | AtFlash => mkDev (d_gic d) (d_uart d) (d_timer d) (FlashDemo.cwrite n v a (d_flash d))
  | AtUart => mkDev (d_gic d) (UartDemo.uwrite n v a (d_uart d)) (d_timer d) (d_flash d)
  | AtGic => mkDev (Demo.write n v a (d_gic d)) (d_uart d) (d_timer d) (d_flash d)
  end.
Definition bsread (r : sysreg) (d : dev) : Z * dev :=
  if is_timer r then
    (match r with
     | cntvct_el0 | cntpct_el0 => TimerDemo.count (d_timer d) mod 2 ^ 32
     | cntfrq_el0 => 62500000
     | _ => TimerDemo.ctl (d_timer d) mod 4
     end, d)
  else let '(v, g) := Demo.sread r (d_gic d) in (v, mkDev g (d_uart d) (d_timer d) (d_flash d)).
Definition bswrite (r : sysreg) (v : Z) (d : dev) : dev :=
  match r with
  | cntv_ctl_el0 => mkDev (d_gic d) (d_uart d) (TimerDemo.mkDev (TimerDemo.count (d_timer d)) (TimerDemo.cval (d_timer d)) (Z.land v 3)) (d_flash d)
  | cntv_cval_el0 => mkDev (d_gic d) (d_uart d) (TimerDemo.mkDev (TimerDemo.count (d_timer d)) v (TimerDemo.ctl (d_timer d))) (d_flash d)
  | _ => mkDev (Demo.swrite r v (d_gic d)) (d_uart d) (d_timer d) (d_flash d)
  end.
Definition machine : Machine := {| mstate := dev; mmio_read := bread; mmio_write := bwrite; sys_read := bsread; sys_write := bswrite |}.

Lemma decode_flash a : decode a = AtFlash <-> in_flash a.
Proof. unfold decode, in_flash. destruct (Z.leb_spec cfi_pflash_base a), (Z.ltb_spec a (cfi_pflash_base + 0x4000000)); cbn [andb]; repeat case_match; split; (done || lia). Qed.
Lemma decode_word w : 0 <= w -> 4 * w + 4 <= 0x2000000 -> decode (cfi_pflash_base + 4 * w) = AtFlash.
Proof. intros Hw Hl. apply decode_flash. unfold in_flash. lia. Qed.
Lemma decode_uart r : decode (UART + uart_off r) = AtUart.
Proof. by destruct r. Qed.
Lemma decode_gic off : 0 <= off < 0x800000 -> decode (GICD + off) = AtGic.
Proof.
  intros Ho. destruct bases as (HD & _). unfold decode. rewrite HD, flash_at. change UART with 0xffff000009000000.
  rewrite (proj2 (Z.ltb_ge _ _)) by lia. rewrite andb_false_r. rewrite (proj2 (Z.leb_gt _ _)) by lia. done.
Qed.

(** ** The laws *)
Lemma elsewhere a v i b : 0 <= i < 1020 -> decode a <> AtGic -> enabled_after a v i b = b.
Proof.
  intros Hi Ha. apply (@enabled_after_other Demo.machine Demo.gic_device 2 (le_n 2)); [done|..].
  - intros ->. apply Ha. by vm_compute.
  - intros ->. apply Ha. by vm_compute.
  - intros Hr. apply Ha. replace a with (GICD + (a - GICD)) by lia. apply decode_gic. lia.
Qed.
#[global] Instance gic_device : @GicDevice machine.
Proof.
  refine (@Build_GicDevice machine (fun d => enabled (GicDevice := Demo.gic_device) (d_gic d)) (fun a d => busy (GicDevice := Demo.gic_device) a (d_gic d)) 1 288 _ _ _ _ _ _ _ _ _ _).
  - intros n v a d i Hi. cbn [mmio_write machine]. unfold bwrite. destruct (decode a) eqn:Ha; cbn [d_gic]; [by rewrite elsewhere by (done || congruence)..|].
    by apply (gic_write (GicDevice := Demo.gic_device)).
  - intros n a d i Hi. cbn [mmio_read machine]. unfold bread. destruct (decode a).
    + by destruct (FlashDemo.cread n a (d_flash d)).
    + by destruct (UartDemo.uread n a (d_uart d)).
    + pose proof (gic_read (GicDevice := Demo.gic_device) n a (d_gic d) i Hi) as H. cbn [mmio_read Demo.machine] in H. by destruct (Demo.read n a (d_gic d)).
  - intros r v d i Hi. pose proof (gic_sys_write (GicDevice := Demo.gic_device) r v (d_gic d) i Hi) as H. by destruct r.
  - intros r d i Hi. pose proof (gic_sys_read (GicDevice := Demo.gic_device) r (d_gic d) i Hi) as H. cbn [sys_read machine Demo.machine] in *. unfold bsread.
    destruct (is_timer r); [done|]. by destruct (Demo.sread r (d_gic d)).
  - intros a d. apply (gic_settles (GicDevice := Demo.gic_device)).
  - done.
  - intros d. pose proof (gicd_rwp (GicDevice := Demo.gic_device) (d_gic d)) as H. cbv zeta in *. cbn [mmio_read machine Demo.machine] in *. unfold bread. rewrite decode_gic by done.
    by destruct (Demo.read 4 (GICD + gicd_ctlr) (d_gic d)).
  - intros d. pose proof (gicr_rwp (GicDevice := Demo.gic_device) (d_gic d)) as H. cbv zeta in *. cbn [mmio_read machine Demo.machine] in *. unfold bread.
    change (decode (GICR_RD + gicr_ctlr)) with AtGic. by destruct (Demo.read 4 (GICR_RD + gicr_ctlr) (d_gic d)).
  - intros d. pose proof (gicd_is_arm (GicDevice := Demo.gic_device) (d_gic d)) as H. cbn [mmio_read machine Demo.machine] in *. unfold bread. rewrite decode_gic by done.
    by destruct (Demo.read 4 (GICD + gicd_iidr) (d_gic d)).
  - intros d. pose proof (gicd_lines (GicDevice := Demo.gic_device) (d_gic d)) as H. cbn [mmio_read machine Demo.machine] in *. unfold bread. rewrite decode_gic by done.
    by destruct (Demo.read 4 (GICD + gicd_typer) (d_gic d)).
Defined.

#[global] Instance uart_device : @UartDevice machine.
Proof.
  refine (@Build_UartDevice machine (fun d => line (UartDevice := UartDemo.dev) (d_uart d)) 1 _ _ _ _ _ _ _ _).
  - intros d. apply (line_busy (UartDevice := UartDemo.dev)).
  - intros d. apply (line_wait (UartDevice := UartDemo.dev)).
  - intros d. apply (line_cr (UartDevice := UartDemo.dev)).
  - intros d. apply (line_bytes (UartDevice := UartDemo.dev)).
  - intros r v d Hv. pose proof (line_write (UartDevice := UartDemo.dev) r v (d_uart d) Hv) as H. cbn [mmio_write machine]. unfold bwrite. rewrite decode_uart. exact H.
  - intros d. pose proof (line_flags (UartDevice := UartDemo.dev) (d_uart d)) as H. cbn [mmio_read machine UartDemo.machine] in *. unfold bread. rewrite decode_uart.
    destruct (UartDemo.uread 4 (UART + uart_off FR) (d_uart d)). exact H.
  - intros d. pose proof (line_ctrl (UartDevice := UartDemo.dev) (d_uart d)) as H. cbn [mmio_read machine UartDemo.machine] in *. unfold bread. rewrite decode_uart.
    destruct (UartDemo.uread 4 (UART + uart_off CR) (d_uart d)). exact H.
  - intros d c rest H1 H2 H3. pose proof (line_take (UartDevice := UartDemo.dev) (d_uart d) c rest H1 H2 H3) as H. cbn [mmio_read machine UartDemo.machine] in *. unfold bread. rewrite decode_uart.
    destruct (UartDemo.uread 4 (UART + uart_off DR) (d_uart d)). exact H.
Defined.

#[global] Instance timer_device : @VirtualTimer machine.
Proof.
  refine (@Build_VirtualTimer machine (fun d => TimerDemo.count (d_timer d) mod 2 ^ 32) (fun d => TimerDemo.cval (d_timer d)) (fun d => TimerDemo.ctl (d_timer d) mod 4) _ _ _ _ _ _).
  - intros d. by apply Z.mod_pos_bound.
  - intros d. pose proof (Z.mod_pos_bound (TimerDemo.count (d_timer d)) (2 ^ 32)). lia.
  - done.
  - intros d. exists (TimerDemo.ctl (d_timer d) mod 4). split; [done|]. pose proof (Z.mod_pos_bound (TimerDemo.ctl (d_timer d)) 4). split; [lia|].
    change 3 with (Z.ones 2). rewrite Z.land_ones by lia. apply Z.mod_mod. lia.
  - intros v d. cbn. split; [|done]. change 3 with (Z.ones 2). rewrite Z.land_ones by lia. apply Z.mod_mod. lia.
  - done.
Defined.

Definition at_chip (d : dev) (f : FlashDemo.dev) : dev := mkDev (d_gic d) (d_uart d) (d_timer d) f.
Lemma read_chip n off d : 0 <= off < 0x2000000 -> bread n (cfi_pflash_base + off) d = (let '(v, f) := FlashDemo.cread n (cfi_pflash_base + off) (d_flash d) in (v, at_chip d f)).
Proof. intros Ho. unfold bread. assert (decode (cfi_pflash_base + off) = AtFlash) as -> by (apply decode_flash; unfold in_flash; lia). done. Qed.
Lemma write_chip v w d : fl_word (FlashDevice := FlashDemo.chip) w -> bwrite 4 v (cfi_pflash_base + 4 * w) d = at_chip d (FlashDemo.cwrite 4 v (cfi_pflash_base + 4 * w) (d_flash d)).
Proof. intros [Hw Hl]. unfold bwrite. by rewrite decode_word. Qed.
Lemma word_off w : fl_word (FlashDevice := FlashDemo.chip) w -> 0 <= 4 * w < 0x2000000.
Proof. intros [Hw Hl]. change (fl_len (FlashDevice := FlashDemo.chip)) with 0x2000000 in Hl. lia. Qed.

#[global] Instance flash_device : @FlashDevice machine.
Proof.
  refine (@Build_FlashDevice machine (fun d => fl_mode (FlashDevice := FlashDemo.chip) (d_flash d)) (fun d => fl_bytes (FlashDevice := FlashDemo.chip) (d_flash d))
    (fun d => fl_busy (FlashDevice := FlashDemo.chip) (d_flash d)) 2 0x2000000 FlashDemo.info _ _ _ _ _ _ _ _ _ _ _ _ _ _ _ _); cbn [mmio_read mmio_write machine].
  - done.
  - intros d. apply (fl_length (FlashDevice := FlashDemo.chip)).
  - intros d. apply (fl_are_bytes (FlashDevice := FlashDemo.chip)).
  - intros d. apply (fl_busy_bound (FlashDevice := FlashDemo.chip)).
  - intros d off Hm Ho. pose proof (fl_read1 (FlashDevice := FlashDemo.chip) (d_flash d) off Hm Ho) as H. cbn [mmio_read FlashDemo.machine] in H. rewrite read_chip by done.
    destruct (FlashDemo.cread 1 (cfi_pflash_base + off) (d_flash d)). exact H.
  - intros d w Hm Hw. pose proof (fl_read4 (FlashDevice := FlashDemo.chip) (d_flash d) w Hm Hw) as H. cbn [mmio_read FlashDemo.machine] in H. rewrite read_chip by (by apply word_off).
    destruct (FlashDemo.cread 4 (cfi_pflash_base + 4 * w) (d_flash d)). exact H.
  - intros d w Hm Hw. pose proof (fl_read_info (FlashDevice := FlashDemo.chip) (d_flash d) w Hm Hw) as H. cbn [mmio_read FlashDemo.machine] in H. rewrite read_chip by (by apply word_off).
    destruct (FlashDemo.cread 1 (cfi_pflash_base + 4 * w) (d_flash d)). exact H.
  - intros d w Hm Hw. pose proof (fl_read_status (FlashDevice := FlashDemo.chip) (d_flash d) w Hm Hw) as H. cbn [mmio_read FlashDemo.machine] in H. rewrite read_chip by (by apply word_off).
    destruct (FlashDemo.cread 4 (cfi_pflash_base + 4 * w) (d_flash d)). exact H.
  - intros d w Hm Hw. pose proof (fl_status (FlashDevice := FlashDemo.chip) (d_flash d) w Hm Hw) as H. rewrite write_chip by done. exact H.
  - intros d w Hm Hw. pose proof (fl_array (FlashDevice := FlashDemo.chip) (d_flash d) w Hm Hw) as H. rewrite write_chip by done. exact H.
  - intros d w Hm Hn Hw. pose proof (fl_clear (FlashDevice := FlashDemo.chip) (d_flash d) w Hm Hn Hw) as H. rewrite write_chip by done. exact H.
  - intros d Hm Hw. pose proof (fl_query (FlashDevice := FlashDemo.chip) (d_flash d) Hm Hw) as H. rewrite write_chip by done. exact H.
  - intros d w Hm Hn Hw. pose proof (fl_buffer (FlashDevice := FlashDemo.chip) (d_flash d) w Hm Hn Hw) as H. rewrite write_chip by done. exact H.
  - intros d w n Hm Hw Hn. pose proof (fl_count (FlashDevice := FlashDemo.chip) (d_flash d) w n Hm Hw Hn) as H. rewrite write_chip by done. exact H.
  - intros d w v n l Hm Hw Hv. pose proof (fl_fill (FlashDevice := FlashDemo.chip) (d_flash d) w v n l Hm Hw Hv) as H. rewrite write_chip by done. exact H.
  - intros d w0 l p Hm Hw Hnd Hl. destruct (fl_confirm (FlashDevice := FlashDemo.chip) (d_flash d) w0 l p Hm Hw Hnd Hl) as [n H]. exists n. rewrite write_chip by done. exact H.
Defined.

#[global] Instance board : Board (FD := flash_device).
Proof.
  refine (Build_Board machine flash_device _ _ _ _ 62500000 _).
  - intros n v a d Ha. cbn [mmio_write machine]. unfold bwrite. destruct (decode a) eqn:E; [|done..]. by apply decode_flash in E.
  - intros n a d Ha. cbn [mmio_read machine]. unfold bread. destruct (decode a) eqn:E; [by apply decode_flash in E| |].
    + by destruct (UartDemo.uread n a (d_uart d)).
    + by destruct (Demo.read n a (d_gic d)).
  - intros r v d. by destruct r.
  - intros r d. cbn [sys_read machine]. unfold bsread. destruct (is_timer r); [done|]. by destruct (Demo.sread r (d_gic d)).
  - done.
Defined.
End BoardDemo.
