(* ===== verification/BootMain.v ===== *)
(** * [kernel_init] starts the root service

    The states between the steps of [kernel_init], from the memory allocators
    to the first process, and the whole of it on one machine. *)
From S2P Require Import Prelude Config CList Bitmap Page PageTable PageTableSpec KvSpace Slab SlabSpec Kmem Heap Spinlock Uaccess Kernel Kobject Handle Proc Sched Objects Ramdisk Exec ExecSpec Machine Gic Irq Timer Uart Flash Print Boot BootSpec BootDev BootBoard.

(** "roots.elf" *)
Abbreviation roots_path := [114; 111; 111; 116; 115; 46; 101; 108; 102].

Section Root.
Context `{KE : KernEnv} `{IM : Image}.

(** The statically allocated objects lie outside the pages of the allocator. *)
Record layout_ok : Prop := {
  ly_heads : forall i j, 0 <= i < 8 -> 0 <= j < 8 -> ~ boot_arena (cpu_ready_list i j) /\ cpu_ready_list i j <> kobject_list stdio_kobj;
  ly_stdio : stdio_kobj <> 0 /\ ~ boot_arena stdio_kobj;
  ly_raw : forall a, length (p_name (raw_proc a)) = 16%nat /\ 0 <= ko_ref (raw_kobj a) < 2 ^ 31 - 1 }.

(** Heap and tables are in order, [n] pages in a row are free below the ram
    disk, and no table lies in it. *)
Record memory_ok (k : kstate) (n : Z) : Prop := {
  mo_heap : kmem_ok root_pool_addr cache_pool_addr (ks_slab k);
  mo_owned : owned (ss_pages (ks_slab k)) (ks_tables k);
  mo_arena : forall x, page_arena (ss_pages (ks_slab k)) x <-> boot_arena x;
  mo_room : page_room (ss_pages (ks_slab k)) n lim;
  mo_disk : no_table (ks_tables k) (ptov RAMDISK_BASE) RAMDISK_SIZE }.
(** Empty ready queues, and the object of the standard stream. *)
Record idle_ok (k : kstate) : Prop := {
  id_cpu : exists st, ks_cpus k !! 0%nat = Some (mkCpu 0 0 0 st initlock);
  id_heads : forall j, 0 <= j < 8 -> let c := cpu_ready_list 0 j in ks_lists k !! c = Some (mkHead c c);
  id_stdio : exists o, ks_kobjs k !! stdio_kobj = Some o /\ 0 <= ko_ref o < 2 ^ 31 - 3 }.

Lemma memory_pages k n : memory_ok k n -> page_inv (ss_pages (ks_slab k)).
Proof. intros H. exact (si_pages _ _ _ (ko_inv _ _ _ (mo_heap _ _ H))). Qed.
Lemma owned_more n s s' (h : tables) : pg_more n s s' -> owned s h -> owned s' h.
Proof.
  intros [_ Hl Ha _] Ho a es Hes. destruct (Ho a es Hes) as [? [?|Hn]]; (split; [done|]); [left; by apply Hl|right].
  cbn [pa_arena page_alloc_impl] in *. by rewrite Ha.
Qed.
Lemma slab_pages_run c st va pg : page_allocn c (ss_pages st) = Ret (va, pg) -> slab_pages (page_allocn c) st = Ret (va, with_pg pg st).
Proof. apply (zoom_run ss_pages (fun p s => mkSlabs p (ss_slabs s) (ss_pools s) (ss_caches s) (pool_ptrs s) (nr_pools s))). Qed.

(** What [proc_alloc] gets from the allocators. *)
Record root_pages (k : kstate) (n p t st pgd sp : Z) (s' : St) : Prop := {
  rp_pages : proc_pages k p t st pgd sp s';
  rp_obj : forall x, p <= x < p + 184 -> boot_arena x;
  rp_inv : page_inv (ss_pages s');
  rp_owned : owned (ss_pages s') (table_clear (ks_tables k) pgd);
  rp_room : page_room (ss_pages s') n lim }.

Lemma root_pages_run k n : memory_ok k (n + 6) -> 0 <= n -> exists p t st pgd sp s', root_pages k n p t st pgd sp s'.
Proof.
  intros [Hheap Hown Har Hroom _] Hn.
  destruct (kalloc_room _ _ _ sizeof_proc (n + 6) lim Hheap ltac:(done) ltac:(lia) Hroom) as (p & s1 & E1 & H1 & [Ho1 Hr1] & M1).
  pose proof (pm_room _ _ _ M1 (n + 6) lim ltac:(lia) Hroom) as R1.
  destruct (new_block_room (ss_pages s1) 1 (n + 6 - 1) lim (pm_inv _ _ _ M1) ltac:(lia) ltac:(lia) R1) as (t & g2 & [E2 M2 _ _ Z2] & R2 & _).
  destruct (new_block_room g2 2 (n + 6 - 1 - 1) lim (pm_inv _ _ _ M2) ltac:(lia) ltac:(lia) R2) as (st & g3 & [E3 M3 _ _ Z3] & R3 & _).
  pose proof (owned_more _ _ _ _ M3 (owned_more _ _ _ _ M2 (owned_more _ _ _ _ M1 Hown))) as O3.
  destruct (@alloc_owned page_state page_alloc_impl g3 (ks_tables k) (pm_inv _ _ _ M3) O3) as (pgd & g4 & E4 & _ & _ & Hor).
  change (page_allocn 1 g3 = Ret (pgd, g4)) in E4.
  destruct (new_block_room g3 1 (n + 6 - 1 - 1 - 2) lim (pm_inv _ _ _ M3) ltac:(lia) ltac:(lia) R3) as (pgd' & g4' & [E4' M4 _ _ Z4] & R4 & _).
  rewrite E4 in E4'. injection E4' as <- <-. destruct Hor as [[? _]|(_ & _ & _ & I4 & O4 & _)]; [done|].
  destruct (new_block_room g4 1 (n + 6 - 1 - 1 - 2 - 1) lim (pm_inv _ _ _ M4) ltac:(lia) ltac:(lia) R4) as (sp & g5 & [E5 M5 _ _ _] & R5 & _).
  set (w := fun pg => with_pg pg s1).
  exists p, t, st, pgd, sp, (w g5). split.
  - split; [exists s1, (w g2), (w g3), (w g4)|].
    + split; [exact E1|]. split; [by apply (slab_pages_run 1)|]. split; [by apply (slab_pages_run 2 (w g2))|].
      split; [by apply (slab_pages_run 1 (w g3))|by apply (slab_pages_run 1 (w g4))].
    + split_and!; [|done..]. change (ptov 0) with 0xffff000000000000 in Hr1. lia.
  - intros x Hx. apply Har, (pm_arena _ _ _ M1). by apply Ho1.
  - exact (pm_inv _ _ _ M5).
  - by eapply owned_more.
  - by replace n with (n + 6 - 1 - 1 - 2 - 1 - 1) by lia.
Qed.

(** A zeroed table is an empty address space. *)
Lemma clear_state (pg : page_state) (h : tables) pgd :
  page_inv pg -> owned pg (table_clear h pgd) -> pt_state pgd pg (table_clear h pgd) {[ pgd := 3%nat ]} /\
    forall va, free_at 3 (table_clear h pgd) pgd va.
Proof.
  intros Hi Ho. assert (forall a i e, a = pgd -> ent (table_clear h pgd) a i e -> e = 0) as Hz by (intros a i e -> [(_ & _ & ->)|[? _]]%ent_clear; done).
  split; [split; [exact Hi| |exact Ho]; split|].
  - apply lookup_singleton_eq.
  - intros a l [<- <-]%lookup_singleton_Some. exists (replicate 512 0). split; [apply lookup_insert_eq|by rewrite length_replicate].
  - intros a l i e [<- _]%lookup_singleton_Some He Hn. by apply Hz in He.
  - intros a b l i j e e' [<- _]%lookup_singleton_Some _ He _ Hn. by apply Hz in He.
  - intros va. apply free_at_zero. intros j Hj. apply ent_clear. by left.
Qed.

Section Created.
Context (k : kstate) (n p t st pgd sp : Z) (s' : St) (Hly : layout_ok) (Hpg : root_pages k n p t st pgd sp s') (Hid : idle_ok k).
Definition root_proc : proc := proc_created (Some roots_name) 0 0 p t st pgd.
Definition root_state (c : cpu) (so : kobject) : kstate :=
  set_cpus (<[0%nat := c_with_proc p c]> (ks_cpus k)) (set_procs (<[p := root_proc]> (ks_procs k)) (proc_alloc_post k p t st pgd sp s' so)).

Lemma root_places : boot_arena (proc_sched_list p) /\ boot_arena (proc_kobj p) /\ boot_arena (kobject_list (proc_kobj p)).
Proof using Hpg. unfold kobject_list, proc_kobj, proc_sched_list. split_and!; apply (rp_obj _ _ _ _ _ _ _ _ Hpg); lia. Qed.

Lemma create_root_proc_run : exists c so, ks_cpus k !! 0%nat = Some c /\ local_rdy_grp c = 0 /\ create_root_proc k = Ret (p, root_state c so).
Proof using Hly Hpg Hid.
  destruct Hid as [[st0 Hc] _ (so & Hso & Hr)], Hly as [_ [Hz Hna] Hraw]. destruct root_places as (_ & Hk & _). pose proof (rp_pages _ _ _ _ _ _ _ _ Hpg) as Hpp.
  exists (mkCpu 0 0 0 st0 initlock), so. split; [done|]. split; [done|].
  assert (kobjs_ok k p so) as Hko.
  { split; [done| |apply Hraw]. split_and!; [by intros Heq; rewrite Heq in Hk| |done].
    destruct Hk as [Hk _]. assert (0 <= ptov boot_base) by (unfold ptov, wrapu; apply Z.mod_pos_bound; lia). intros H0. rewrite H0 in Hk.
    destruct (rp_pages _ _ _ _ _ _ _ _ Hpg) as [_ (? & _)]. unfold proc_kobj in H0. destruct (rp_obj _ _ _ _ _ _ _ _ Hpg p ltac:(lia)) as [? _]. lia. }
  assert (name_ok (Some roots_name)) as Hn by (split; [simpl; lia|repeat constructor; lia]).
  unfold create_root_proc. rewrite (M_bind_run _ _ _ _ _ (create_proc_run k (Some roots_name) 0 0 p t st pgd sp s' so Hpp Hko Hn (proj1 (Hraw p)))).
  rewrite (proj2 (Z.eqb_neq p 0)) by apply Hpp.
  rewrite (M_bind_run _ _ _ tt (root_state (mkCpu 0 0 0 st0 initlock) so)); [done|]. unfold upd_cpu, cur_cpuid. cbn [ks_cpus set_procs proc_alloc_post].
  rewrite (rd_lookup _ 0 (mkCpu 0 0 0 st0 initlock)) by (done || lia). cbn [mbind outcome_bind]. rewrite wr_in; [done|]. apply lookup_lt_Some in Hc. lia.
Qed.

Lemma root_can_exec c so : ks_cpus k !! 0%nat = Some c -> local_rdy_grp c = 0 ->
  can_exec (root_state c so) p root_proc (new_ectx sp) (fun _ => []) n.
Proof using Hly Hpg Hid.
  intros Hc Hg. destruct root_places as (Ha1 & Ha2 & Ha3). pose proof (ly_heads Hly) as Hlh.
  destruct (clear_state (ss_pages s') (ks_tables k) pgd (rp_inv _ _ _ _ _ _ _ _ Hpg) (rp_owned _ _ _ _ _ _ _ _ Hpg)) as [Hpt Hfree].
  assert (forall j, 0 <= j < 8 -> proc_sched_list p <> cpu_ready_list 0 j /\ kobject_list (proc_kobj p) <> cpu_ready_list 0 j) as Hne.
  { intros j Hj. destruct (Hlh 0 j ltac:(lia) Hj) as [Hno _]. split; intros Heq; [by rewrite Heq in Ha1|by rewrite Heq in Ha3]. }
  split.
  - exists (c_with_proc p c). split; [cbn; apply list_lookup_insert_eq; by apply lookup_lt_Some in Hc|done].
  - cbn. apply lookup_insert_eq.
  - cbn. apply lookup_insert_eq.
  - split; [| |by intros i j q _ _ Hq%elem_of_nil..|by intros j q _ Hq%elem_of_nil].
    + exists (c_with_proc p c). split; [cbn; apply list_lookup_insert_eq; by apply lookup_lt_Some in Hc|]. cbn. rewrite Hg. split; [lia|].
      intros j Hj. apply Z.testbit_0_l.
    + intros j Hj. destruct (Hne j Hj) as [N1 N2]. split; [constructor; [apply not_elem_of_nil|constructor]|]. cbn [fmap list_fmap links]. unfold next_of, prev_of.
      cbn [ks_lists root_state set_cpus set_procs proc_alloc_post]. rewrite !lookup_insert_ne by done. by rewrite (id_heads k Hid j Hj).
  - split; [exists root_proc; split; [cbn; apply lookup_insert_eq|done]|done|cbn; rewrite lookup_insert_eq; by eexists|].
    intros i Hi. split; [apply not_elem_of_nil|by apply Hne].
  - by eexists.
  - intros va _. apply Hfree.
  - exact (rp_room _ _ _ _ _ _ _ _ Hpg).
Qed.
End Created.

(** The root service is loaded: its descriptor, its saved context, its place
    in the queue, and its memory.  Memory and tables are those of a state [k0]
    in which the process sees its program, but for the byte [y] that the
    argument copy puts behind the two pages of the stack; when that byte spares
    the program, the process sees it in the final state. *)
Record root_started (file : bytes) (entry : Z) (phs : list proghdr) (s : bytes) (y : Z) (k' : kstate) (p : Z) (x : proc) : Prop := {
  rs_proc : ks_procs k' !! p = Some x /\ p_pid x = 0 /\ p_state x = RUNNABLE /\ c_str (p_name x) = Ret roots_name;
  rs_context : exists sp, ks_ectx k' !! proc_ectx x = Some (e_with_sp0_elr (user_sp s) entry (new_ectx sp));
  rs_queue : ready_inv k' (rq_set (fun _ => []) 0 [p]);
  rs_memory : exists k0 sva hva, let t := ks_tables k0 in let root := p_pagetable x in let stray := sva + 8192 in
    (ks_mem k' = ks_mem (put_byte stray y k0) /\ ks_tables k' = ks_tables (put_byte stray y k0)) /\
    program_in t root (ks_mem k0) file phs s /\
    (forall j, 0 <= j < 8192 -> pgtbl_walk t root (exec_stack_top - 8192 + j) = Ret (vtop sva + j)) /\
    (forall j, 0 <= j < SYS_PROC_HEAP_SIZE -> pgtbl_walk t root (SYS_PROC_HEAP_BASE + j) = Ret (vtop hva + j)) /\
    (forall j, 0 <= j < RAMDISK_SIZE -> pgtbl_walk t root (SYS_PROC_RAMDISK_BASE + j) = Ret (RAMDISK_BASE + j)) /\
    (program_spared t root stray phs s -> program_in (ks_tables k') root (ks_mem k') file phs s) }.
Lemma root_started_intr file entry phs s y k p x : root_started file entry phs s y k p x -> root_started file entry phs s y (intr_on k) p x.
Proof. intros [? ? [] ?]. by split; [| |split|]. Qed.

Lemma root_service_run k n rd_size r file inode entry phs s y rest :
  layout_ok -> memory_ok k (n + 6) -> idle_ok k -> n = segs_need phs + exec_pages ->
  on_ramdisk (image rd_size k) r roots_path file inode -> 0 < rd_size <= RAMDISK_SIZE -> elf_ok file entry phs ->
  Forall (fun b => b <> 0) s -> (length s <= 4000)%nat ->
  exists k' p x, load_root_service rd_size (Some r) (s ++ 0 :: y :: rest) k = Ret (0, k') /\ root_started file entry phs s y k' p x.
Proof.
  intros Hly Hmo Hid -> Hrd Hrds Helf Hs Hl.
  assert (0 <= segs_need phs + exec_pages) as Hn by (pose proof (segs_need_nonneg file phs (eo_segs _ _ _ Helf)); unfold exec_pages; lia).
  destruct (root_pages_run k _ Hmo Hn) as (p & t & st & pgd & sp & s' & Hpg).
  destruct (create_root_proc_run k _ p t st pgd sp s' Hly Hpg Hid) as (c & so & Hc & Hg & E1).
  pose proof (root_can_exec k _ p t st pgd sp s' Hly Hpg Hid c so Hc Hg) as Hcx.
  set (x := root_proc p t st pgd) in *. set (k1 := root_state k p t st pgd sp s' c so) in *.
  destruct (exec_run k1 rd_size r roots_path file inode p x (new_ectx sp) (fun _ => []) entry phs s rest y) as (k' & pg & t' & m & sva & hva & E2 & D);
    [exact Hrd|done|done|exact Hcx|done|done|].
  exists k', p, x. split.
  - unfold load_root_service. rewrite (M_bind_run _ _ _ _ _ E1), (proj2 (Z.eqb_neq p 0)) by apply (rp_pages _ _ _ _ _ _ _ _ Hpg).
    rewrite (M_bind_run _ _ _ _ _ E2). done.
  - pose proof (exec_done_final _ _ _ _ _ _ _ _ _ _ _ _ _ _ _ _ (eo_segs _ _ _ Helf) D) as Hfin.
    pose proof (program_reads _ _ _ _ _ _ (eo_segs _ _ _ Helf) (ed_program _ _ _ _ _ _ _ _ _ _ _ _ _ _ _ _ D)) as Hin.
    destruct D as [_ Hst _ Hh Hd X Q (Hm & Ht & _ & Hpr) _]. split.
    + rewrite Hpr. split; [cbn; apply lookup_insert_eq|]. split; [done|]. split; [done|].
      refine (c_str_copy roots_name _ _). repeat constructor; lia.
    + by exists sp.
    + exact Q.
    + exists (with_mem k1 pg t' m), sva, hva. cbv zeta. by split_and!.
Qed.
End Root.

(** ** The steps on the kernel's own state *)
Section Steps.
Context `{MA : Machine} `{KE : KernEnv} `{IM : Image}.

(** [init_mm] uses nothing of the state but the kernel's. *)
Lemma init_mm_frame bm rp (b c b1 : boot) : b_k c = b_k b -> init_mm bm rp b = Ret (tt, b1) ->
  init_mm bm rp c = Ret (tt, set_kvspace (b_kvspace b1) (set_k (b_k b1) c)).
Proof.
  intros Hk H. unfold init_mm in *. apply M_bind_Ret in H as ([] & x0 & H0 & H). unfold assertM, lift in H0.
  destruct (assert_ _) as [[]| | |] eqn:Ea; try discriminate H0. injection H0 as <-. rewrite (M_bind_run _ _ c tt c) by (unfold assertM, lift; by rewrite Ea). clear Ea.
  apply M_bind_Ret in H as ([] & x1 & H1 & H). apply on_k_Ret in H1 as (k1 & H1 & ->).
  rewrite (M_bind_run _ _ c tt (set_k k1 c)) by (apply on_k_run; by rewrite Hk).
  apply M_bind_Ret in H as (r & x2 & H2 & H). apply on_k_Ret in H2 as (k2 & H2 & ->).
  rewrite (M_bind_run _ _ (set_k k1 c) r (set_k k2 (set_k k1 c))) by (by apply on_k_run).
  apply M_bind_Ret in H as ([] & x3 & H3 & H). destruct (r <? 0); [discriminate H3|]. injection H3 as <-.
  rewrite (M_bind_run _ _ (set_k k2 (set_k k1 c)) tt _ eq_refl).
  apply M_bind_Ret in H as (kv & x4 & H4 & H). apply on_k_Ret in H4 as (k4 & H4 & ->). injection H as <-.
  rewrite (M_bind_run _ _ (set_k k2 (set_k k1 c)) kv (set_k k4 (set_k k2 (set_k k1 c)))) by (by apply on_k_run). done.
Qed.

Lemma mm_memory t0 st t k n : image_ok t0 -> mm_ready t0 st t -> 1 <= n -> page_room (ss_pages st) n lim -> memory_ok (set_tables t (set_slab_ st k)) n.
Proof.
  intros [_ _ Ht0] [Hh Ho Ha Hb] Hn Hr. split; [done..|]. intros a Hsome.
  destruct (Hb n lim Hn Hr a Hsome) as [Hs|Hlt]; [|by left]. destruct (Ht0 a Hs) as (_ & _ & [?|?]); [by left|by right].
Qed.

(** Only the page allocator, the lists and the CPUs change. *)
Lemma memory_more k pg cs l n m : memory_ok k n -> pg_more m (ss_pages (ks_slab k)) pg -> m <= n -> memory_ok (with_cpus k pg cs l) (n - m).
Proof.
  intros [Hh Ho Ha Hr Hd] Hm Hle. pose proof Hm as [Hi Hl Har Hro]. split.
  - by apply kmem_ok_pages.
  - by eapply owned_more.
  - intros x. cbn. by rewrite Har.
  - by apply Hro.
  - exact Hd.
Qed.

Lemma cpus_stage (b : boot) n : memory_ok (b_k b) n -> 16 <= n -> heads_there (ks_lists (b_k b)) -> length (ks_cpus (b_k b)) = 8%nat ->
  exists pg cs l, on_k init_cpus b = Ret (tt, set_k (with_cpus (b_k b) pg cs l) b) /\ memory_ok (with_cpus (b_k b) pg cs l) (n - 16) /\ cpus_post 8 0 (b_k b) pg cs l.
Proof.
  intros Hm Hn Hh Hl. destruct (init_cpus_loop_spec 8 0 (b_k b) (memory_pages _ _ Hm) Hh Hl ltac:(lia) ltac:(lia)) as (pg & cs & l & E & Hp).
  exists pg, cs, l. split; [by apply on_k_run|]. split; [|done]. apply memory_more; [done| |done]. exact (cp_pages _ _ _ _ _ _ Hp).
Qed.

(** The queues of the first CPU are empty behind [init_uspace]. *)
Lemma uspace_idle k pg cs l o : layout_ok -> cpus_post 8 0 k pg cs l -> ks_kobjs k !! stdio_kobj = Some o -> 0 <= ko_ref o < 2 ^ 31 - 4 ->
  idle_ok (with_uspace (with_cpus k pg cs l) (ko_ref o)).
Proof.
  intros Hly [_ _ Hnew _ Hheads _ _] Ho Hr. split.
  - destruct (Hnew 0 ltac:(lia)) as [st Hst]. by exists st.
  - intros j Hj. cbn. rewrite lookup_insert_ne; [by apply (Hheads 0 j)|]. destruct (ly_heads Hly 0 j ltac:(lia) Hj) as [_ ?]. done.
  - exists (stdio_object (ko_ref o + 1)). split; [cbn; apply lookup_insert_eq|]. cbn. lia.
Qed.

(** Only memory that is no table changes. *)
Lemma memory_mem k n m : memory_ok k n -> memory_ok (set_mem m k) n.
Proof. by intros [? ? ? ? ?]. Qed.
Lemma idle_mem k m : idle_ok k -> idle_ok (set_mem m k).
Proof. by intros [? ? ?]. Qed.

Lemma mem_read_written (m : mem) a bs : 0 <= a -> a + Z.of_nat (length bs) <= 2 ^ 64 -> mem_read (mem_write m a bs) a (Z.of_nat (length bs)) = bs.
Proof.
  intros Ha Hl. pose proof (holds_written m a bs Ha Hl) as Hh. unfold mem_read. apply list_eq. intros i.
  destruct (bs !! i) as [b|] eqn:Hb.
  - pose proof (lookup_lt_Some _ _ _ Hb). rewrite list_lookup_fmap. assert (seqZ 0 (Z.of_nat (length bs)) !! i = Some (0 + Z.of_nat i)) as -> by (apply lookup_seqZ; lia).
    cbn [fmap option_fmap option_map]. rewrite Z.add_0_l, u64_small by lia. by rewrite (Hh i b Hb).
  - apply lookup_ge_None in Hb. apply lookup_ge_None. rewrite length_fmap, length_seqZ. lia.
Qed.

(** Copying the image to its place. *)
Lemma disk_write k n img : memory_ok k n -> Z.of_nat (length img) <= RAMDISK_SIZE ->
  memcpy_to (ptov RAMDISK_BASE) img k = Ret (tt, set_mem (mem_write (ks_mem k) (ptov RAMDISK_BASE) img) k) /\
  image (Z.of_nat (length img)) (set_mem (mem_write (ks_mem k) (ptov RAMDISK_BASE) img) k) = img.
Proof.
  intros [_ Ho _ _ Hd] Hl. assert (RAMDISK_SIZE = 0x2000000) as HS by reflexivity. assert (ptov RAMDISK_BASE = 0xffff000044000000) as Ha by reflexivity. split.
  - unfold memcpy_to, modify. do 2 f_equal. pose proof (with_mem_id k) as Hid. rewrite <- Hid at 1. rewrite kwrite_mem; [|lia|lia| |].
    + by destruct k as [[]].
    + intros x Hx. destruct (Hd x Hx); lia.
    + intros x [es Hes]. by destruct (Ho x es Hes) as [[? _] _].
  - unfold image. cbn [set_mem ks_mem]. apply mem_read_written; lia.
Qed.
End Steps.

(** ** The whole start-up *)
Section Whole.
Context `{GD : GicDevice} {UD : UartDevice} {FD : FlashDevice} {BD : Board} {VT : VirtualTimer} `{KE : KernEnv} `{IM : Image}.
Abbreviation boot := (@boot MA).

(** What the link script and the code before [kernel_init] provide. *)
Record boot_ok (bm : list Z) (rp : list page) (b : boot) : Prop := {
  bo_image : image_ok (ks_tables (b_k b));
  bo_reset : at_reset b bm rp;
  bo_layout : layout_ok;
  bo_cpus : heads_there (ks_lists (b_k b)) /\ length (ks_cpus (b_k b)) = 8%nat;
  bo_stdio : exists o n, ks_kobjs (b_k b) !! stdio_kobj = Some o /\ 0 <= ko_ref o < 2 ^ 31 - 4 /\ ks_lists (b_k b) !! kobject_list stdio_kobj = Some n;
  bo_cbs : length (ks_cbs (b_k b)) = 13%nat;
  bo_irqs : registry dflt ∅ (b_sys b);
  bo_pbuf : length (k_pbuf (i_world (b_sys b))) = 4096%nat;
  bo_calls : init_func_5 ≡ₚ [call_stdio_kobject_init; call_init_kobject_type] /\ Z.of_nat (length init_func_3) < 2 ^ 31 }.

(** What [init_ramdisk] copies to memory. *)
Definition disk_of (d : mstate) : bytes := take (Z.to_nat RAMDISK_SIZE) (fl_bytes d).
Lemma disk_of_bytes d d' : fl_bytes d' = fl_bytes d -> disk_of d' = disk_of d.
Proof. intros H. unfold disk_of. by rewrite H. Qed.
(** The flash holds a ram disk with the files [fs], none of which has an empty
    name, and among them the program. *)
Record disk_ok (d : mstate) (r : ramdisk) (fs : list (bytes * Z)) (file : bytes) (entry : Z) (phs : list proghdr) : Prop := {
  dk_flash : flash_ok /\ fl_mode d = FArray;
  dk_size : RAMDISK_SIZE <= fl_len;
  dk_init : ramdisk_init (ptov RAMDISK_BASE) (disk_of d) = Ret (0, Some r);
  dk_names : s32 (rd_cnt r) = Z.of_nat (length fs) /\ lists (disk_of d) (rd_root r) fs;
  dk_file : exists inode, on_ramdisk (disk_of d) r roots_path file inode;
  dk_elf : elf_ok file entry phs }.

(** Pages [kernel_init] takes behind [init_mm]: the stacks of the CPUs, the
    root process, and what [exec] takes. *)
Definition boot_pages_need (phs : list proghdr) : Z := segs_need phs + exec_pages + 22.

Context (patience : nat) (Hgic : (settle < patience)%nat) (Huart : (line_settle < patience)%nat).

(** The kernel's state up to the ram disk. *)
Lemma os_stages bm rp b b1 c n : boot_ok bm rp b -> init_mm bm rp b = Ret (tt, b1) -> page_room (ss_pages (ks_slab (b_k b1))) n lim -> 16 <= n -> b_k c = b_k b ->
  exists kv k1 k2 k3, init_mm bm rp c = Ret (tt, set_kvspace kv (set_k k1 c)) /\
    (forall c', b_k c' = k1 -> on_k init_cpus c' = Ret (tt, set_k k2 c')) /\ (forall c', b_k c' = k2 -> init_uspace c' = Ret (tt, set_k k3 c')) /\
    memory_ok k3 (n - 16) /\ idle_ok k3.
Proof using Hgic Huart.
  intros [Him Hrs Hly [Hh Hcp] (o & nd & Ho & Hr & Hnd) Hcb _ _ [Hc5 _]] Hmm Hroom Hn Hc.
  pose proof (init_mm_frame bm rp b c b1 Hc Hmm) as E1. destruct (init_mm_spec b b1 bm rp Him Hrs Hmm) as (st & t & kv & -> & Hmr).
  set (k1 := set_tables t (set_slab_ st (b_k b))) in *. change (b_k (set_kvspace kv (set_k k1 b))) with k1 in *.
  pose proof (mm_memory _ st t (b_k b) n Him Hmr ltac:(lia) Hroom) as M1. fold k1 in M1.
  destruct (cpus_stage (set_k k1 b) n M1 Hn Hh Hcp) as (pg & cs & l & E2 & M2 & P2). change (b_k (set_k k1 b)) with k1 in *.
  set (k2 := with_cpus k1 pg cs l) in *. exists kv, k1, k2, (with_uspace k2 (ko_ref o)). split; [exact E1|]. split; [|split; [|split]].
  - intros c' Hk. apply on_k_run. rewrite Hk. apply on_k_Ret in E2 as (k2' & E2 & E3). apply (f_equal b_k) in E3.
    change (k2 = k2') in E3. rewrite E3. exact E2.
  - intros c' Hk. rewrite <- Hk. apply (init_uspace_run c' o nd Hc5); rewrite ?Hk; [apply Hly|done|lia| |done].
    change (l !! kobject_list stdio_kobj = Some nd). rewrite (cp_lists _ _ _ _ _ _ P2); [done|]. intros i j Hi Hj Heq. destruct (ly_heads Hly i j Hi Hj) as [_ ?]. done.
  - destruct M2 as [? ? ? ? ?]. by split.
  - by apply uspace_idle.
Qed.

(** Up to the check of the image. *)
Lemma disk_copied m b n : devices m b -> fl_mode (b_dev b) = FArray -> RAMDISK_SIZE <= fl_len -> memory_ok (b_k b) n ->
  let img := disk_of (b_dev b) in
  exists d mm, let b1 := set_k (set_mem mm (b_k b)) (set_dev d b) in devices m b1 /\ image RAMDISK_SIZE (b_k b1) = img /\
    init_ramdisk b = ('(ret, r) ← lift (ramdisk_init (ptov RAMDISK_BASE) img);
      match r with Some _ => modify (set_sb r);; ramdisk_tree;; mret ret | None => mret ret end) b1.
Proof using Hgic Huart.
  intros Hd Hmode Hs Hm img. assert (0 <= RAMDISK_SIZE) as H0 by done.
  destruct (flash_stage patience Hgic Huart m b RAMDISK_SIZE Hd Hmode (conj H0 Hs)) as (d & E1' & D1).
  pose proof (E1' : on_device (Flash.cfi_read 0 RAMDISK_SIZE) b = Ret ((img, 0), set_dev d b)) as E1. clear E1'.
  assert (Z.of_nat (length img) = RAMDISK_SIZE) as Hl by (unfold img, disk_of; rewrite length_take; pose proof (fl_length (b_dev b)); lia).
  destruct (disk_write (b_k b) n img Hm ltac:(lia)) as [E2 Himg]. rewrite Hl in Himg.
  exists d, (mem_write (ks_mem (b_k b)) (ptov RAMDISK_BASE) img). set (k' := set_mem _ (b_k b)) in *. set (b1 := set_k k' (set_dev d b)). cbv zeta.
  split; [destruct D1 as [[? ? ?] ? ?]; by split|]. split; [exact Himg|].
  assert (ramdisk_copy_from_flash b = Ret (tt, b1)) as E3.
  { unfold ramdisk_copy_from_flash. rewrite (M_bind_run _ _ _ _ _ E1). cbv iota. by apply on_k_run. }
  unfold init_ramdisk. rewrite (M_bind_run _ _ _ _ _ E3).
  change ((ptov RAMDISK_BASE =? 0) || (ptov (RAMDISK_BASE + RAMDISK_SIZE) =? 0)) with false. cbv iota.
  rewrite (M_bind_run _ _ b1 b1 b1 eq_refl). change (b_k b1) with k'. by rewrite Himg.
Qed.

(** From the ram disk to the root process: the files are listed. *)
Lemma disk_stage m b n r fs file entry phs : devices m b -> length (k_pbuf (i_world (b_sys b))) = 4096%nat ->
  disk_ok (b_dev b) r fs file entry phs -> memory_ok (b_k b) n -> idle_ok (b_k b) ->
  exists b' inode, init_ramdisk b = Ret (0, b') /\ devices m b' /\ memory_ok (b_k b') n /\ idle_ok (b_k b') /\ b_sb b' = Some r /\
    k_out (i_world (b_sys b')) = k_out (i_world (b_sys b)) ++ tree_text fs /\ on_ramdisk (image RAMDISK_SIZE (b_k b')) r roots_path file inode.
Proof using Hgic Huart.
  intros Hd Hp [[_ Hmode] Hs Hi [Hcnt Hls] (inode & Hf) _] Hm Hid.
  destruct (disk_copied m b n Hd Hmode Hs Hm) as (d & mm & D1 & Himg & E). cbv zeta in *. set (b1 := set_k _ _) in *. set (b2 := set_sb (Some r) b1).
  assert (devices m b2) as D2 by (destruct D1 as [[? ? ?] ? ?]; by split). rewrite <- Himg in Hls, Hf.
  destruct (ramdisk_tree_run b2 r fs Hp eq_refl Hcnt Hls) as (b3 & E3 & P3). pose proof (devices_printed m _ b2 b3 P3 D2) as D3.
  exists b3, inode. destruct P3 as [[w ->] _ _ Ho]. split_and!; [|exact D3|by apply memory_mem|by apply idle_mem|done|exact Ho|exact Hf].
  rewrite E, Hi. rewrite (M_bind_run _ _ b1 (0, Some r) b1 eq_refl). cbv iota. rewrite (M_bind_run _ _ b1 tt b2 eq_refl), (M_bind_run _ _ _ _ _ E3). reflexivity.
Qed.
Lemma disk_fails m b n e : devices m b -> fl_mode (b_dev b) = FArray -> RAMDISK_SIZE <= fl_len -> memory_ok (b_k b) n ->
  ramdisk_init (ptov RAMDISK_BASE) (disk_of (b_dev b)) = Ret (e, None) -> exists b', init_ramdisk b = Ret (e, b').
Proof using Hgic Huart.
  intros Hd Hmode Hs Hm Hi. destruct (disk_copied m b n Hd Hmode Hs Hm) as (d & mm & _ & _ & E). rewrite E, Hi. by eexists.
Qed.

(** The devices before the ram disk is read. *)
Lemma early_devices bm rp b b1 n : boot_ok bm rp b -> init_mm bm rp b = Ret (tt, b1) -> page_room (ss_pages (ks_slab (b_k b1))) n lim -> 16 <= n ->
  exists c, kernel_init patience bm rp b = (r ← on_cfi init_cfi;
      if r <? 0 then halt else r ← init_ramdisk; if r <? 0 then halt else r ← boot_root_service; if r <? 0 then halt else
      on_sys (sched_timer_setup (MILLISECS 500));; on_k cpu_intr_on;; on_sys sched_timer_start) c /\
    devices (hook_map init_func_3) c /\ fl_view (b_dev b) (b_dev c) /\ memory_ok (b_k c) (n - 16) /\ idle_ok (b_k c) /\
    k_pbuf (i_world (b_sys c)) = k_pbuf (i_world (b_sys b)) /\ k_out (i_world (b_sys c)) = k_out (i_world (b_sys b)).
Proof using Hgic Huart BD.
  intros Hbo Hmm Hroom Hn. pose proof Hbo as [_ _ _ _ _ _ Hreg _ [_ Hc3]].
  destruct (console_stage patience Huart b) as (c1 & E1 & O1 & U1 & [V1 _] & T1).
  destruct (os_stages bm rp b b1 c1 n Hbo Hmm Hroom Hn (so_k _ _ O1)) as (kv & k1 & k2 & k3 & E2 & Hcpus & Husp & M3 & I3).
  set (c2 := set_kvspace kv (set_k k1 c1)) in *.
  destruct (gic_stage patience Hgic c2) as (c3 & E3 & O3 & U3 & V3 & L3 & W3); [by apply (registry_same dflt ∅ (b_sys b))|].
  pose proof (Hcpus c3 (so_k _ _ O3)) as E4. set (c4 := set_k k2 c3) in *. assert (lines ∅ c4) as L4 by (by destruct L3).
  destruct (clock_stage patience Hgic Huart ∅ c4 L4) as (c5 & E5 & O5 & [V5 _] & D5); [change (regs (b_uart c3) = UART); rewrite U3; exact U1|].
  pose proof (Husp c5 (so_k _ _ O5)) as E6. set (c6 := set_k k3 c5) in *. assert (devices ∅ c6) as D6 by (by destruct D5 as [[? ? ?] ? ?]).
  destruct (hooks_stage patience Hgic Huart c6 D6 Hc3) as (c7 & E7 & O7 & V7 & D7).
  exists c7. split; [|split; [done|split; [|split; [by rewrite (so_k _ _ O7)|split; [by rewrite (so_k _ _ O7)|]]]]].
  - unfold kernel_init. rewrite (M_bind_run _ _ _ _ _ E1), (M_bind_run _ _ _ _ _ E2), (M_bind_run _ _ _ _ _ E3), (M_bind_run _ _ _ _ _ E4).
    by rewrite (M_bind_run _ _ _ _ _ E5), (M_bind_run _ _ _ _ _ E6), (M_bind_run _ _ _ _ _ E7).
  - etransitivity; [exact V1|]. etransitivity; [exact V3|]. etransitivity; [exact V5|exact V7].
  - split.
    + exact (eq_trans (so_pbuf _ _ O7) (eq_trans (so_pbuf _ _ O5) (eq_trans (so_pbuf _ _ O3) (so_pbuf _ _ O1)))).
    + exact (eq_trans (so_out _ _ O7) (eq_trans (so_out _ _ O5) (eq_trans (so_out _ _ O3) (so_out _ _ O1)))).
Qed.

Lemma kernel_init_run bm rp b b1 r fs file entry phs s y rest :
  boot_ok bm rp b -> disk_ok (b_dev b) r fs file entry phs -> init_mm bm rp b = Ret (tt, b1) ->
  page_room (ss_pages (ks_slab (b_k b1))) (boot_pages_need phs) lim ->
  roots_elf = s ++ 0 :: y :: rest -> Forall (fun c => c <> 0) s -> (length s <= 4000)%nat -> (forall d, 0 < vt_count d + alarm_ticks < 2 ^ 64) ->
  exists b' p x, kernel_init patience bm rp b = Ret (tt, b') /\ root_started file entry phs s y (b_k b') p x /\
    devices (hook_map init_func_3) b' /\ Z.land (ks_daif (b_k b')) 3 = 0 /\ b_sb b' = Some r /\
    k_out (i_world (b_sys b')) = k_out (i_world (b_sys b)) ++ tree_text fs /\
    vt_ctl (b_dev b') = 1 /\ vt_cval (b_dev b') = (vt_count (b_dev b') + alarm_ticks) mod 2 ^ 32.
Proof using Hgic Huart BD.
  intros Hbo Hdk Hmm Hroom Hlit Hs Hl Hcnt. unfold boot_pages_need in Hroom. set (n := segs_need phs + exec_pages) in *.
  pose proof (segs_need_nonneg file phs (eo_segs _ _ _ (dk_elf _ _ _ _ _ _ Hdk))) as Hsn. assert (286 <= n) as Hn by (unfold n, exec_pages; lia).
  destruct (early_devices bm rp b b1 (n + 22) Hbo Hmm Hroom ltac:(lia)) as (c & Ec & Dc & (Vm & Vb & _) & Mc & Ic & Pc & Oc).
  pose proof Hdk as [[Hfl Hmode] _ _ _ _ Helf].
  destruct (cfi_stage patience Hgic Huart _ c Hfl Dc ltac:(congruence)) as (c1 & E1 & O1 & D1 & Hm1 & Hb1 & _).
  assert (disk_ok (b_dev c1) r fs file entry phs) as Hdk1.
  { destruct Hdk as [_ ? Hi Hnm Hf ?]. rewrite Vb in Hb1. pose proof (disk_of_bytes (b_dev b) (b_dev c1) Hb1) as Hdo. split; rewrite ?Hdo; [by split|done|exact Hi|exact Hnm|exact Hf|done]. }
  destruct (disk_stage _ c1 (n + 22 - 16) r fs file entry phs D1) as (c2 & inode & E2 & D2 & M2 & I2 & S2 & F2 & R2);
    [rewrite (so_pbuf _ _ O1), Pc; exact (bo_pbuf _ _ _ Hbo)|exact Hdk1|by rewrite (so_k _ _ O1)..|].
  replace (n + 22 - 16) with (n + 6) in M2 by lia.
  destruct (root_service_run (b_k c2) n RAMDISK_SIZE r file inode entry phs s y rest (bo_layout _ _ _ Hbo) M2 I2 eq_refl R2 ltac:(done) Helf Hs Hl) as (k3 & p & x & E3 & Hrt).
  set (c3 := set_k k3 c2). assert (boot_root_service c2 = Ret (0, c3)) as E3'.
  { unfold boot_root_service. rewrite (M_bind_run _ _ c2 c2 c2 eq_refl), S2, Hlit. by apply on_k_run. }
  assert (devices (hook_map init_func_3) c3) as D3 by (by destruct D2 as [[? ? ?] ? ?]).
  destruct (alarm_stage _ c3 D3 (Hcnt _)) as (c4 & c5 & E4 & E5 & (F4 & K5 & S5 & O5) & D5 & N5 & C5 & V5).
  exists c5, p, x. split_and!.
  - rewrite Ec, (M_bind_run _ _ _ _ _ E1). cbn [Z.ltb Z.compare]. rewrite (M_bind_run _ _ _ _ _ E2). cbn [Z.ltb Z.compare].
    rewrite (M_bind_run _ _ _ _ _ E3'). cbn [Z.ltb Z.compare]. rewrite (M_bind_run _ _ _ _ _ E4).
    assert (on_k cpu_intr_on c4 = Ret (tt, set_k (intr_on (b_k c3)) c4)) as E6 by (rewrite <- F4; done).
    rewrite (M_bind_run _ _ _ _ _ E6). exact E5.
  - rewrite K5. by apply root_started_intr.
  - exact D5.
  - rewrite K5. apply daif_on_unmasked.
  - by rewrite S5.
  - rewrite O5. change (k_out (i_world (b_sys c3))) with (k_out (i_world (b_sys c2))). by rewrite F2, (so_out _ _ O1), Oc.
  - exact C5.
  - by rewrite N5.
Qed.
End Whole.

(** ** The theorem *)

(** C2: the kernel boots. On a machine whose interrupt controller, serial line,
    timer and flash keep their documented promises, from the state the boot
    code leaves, with a flash of at least 32 MB that holds a ram disk with a
    loadable roots.elf and no file of empty name, when [init_mm] succeeds and
    leaves enough pages in a row below the ram disk, and when no memory the
    heap hands out holds a negative reference count, [kernel_init] reaches its
    final loop. The files of the disk have been listed on the console. The root
    service is the only process in the ready queues and its context starts at
    the entry point. Memory and page tables show the process its segments, its
    stack and its argument (the string of the literal it is given), but for one
    byte: the byte behind the literal's terminator has been written behind the
    two pages of the stack, whatever is there; if it is in no descriptor and no
    byte of the program, the final state shows all of it. The handlers of the
    interrupt hooks are registered, whatever order the linker put them in, and
    exactly their lines and the software generated interrupts are enabled;
    interrupts are unmasked; and the virtual timer runs and fires when the
    counter has reached the low 32 bits of the tick 500 ms ahead, which is not
    0 and fits 64 bits. *)
Theorem kernel_init_boots `{GD : GicDevice} {UD : UartDevice} {FD : FlashDevice} {BD : Board} {VT : VirtualTimer} `{KE : KernEnv} `{IM : Image}
  (patience : nat) (Hgic : (settle < patience)%nat) (Huart : (line_settle < patience)%nat) (bm : list Z) (rp : list page) (b b1 : @boot MA)
  (r : ramdisk) (fs : list (bytes * Z)) (file : bytes) (entry : Z) (phs : list proghdr) (s rest : bytes) (y : Z)
  (Hboot : boot_ok bm rp b) (Hdisk : disk_ok (b_dev b) r fs file entry phs) (Hmm : init_mm bm rp b = Ret (tt, b1))
  (Hroom : page_room (ss_pages (ks_slab (b_k b1))) (boot_pages_need phs) lim)
  (Hlit : roots_elf = s ++ 0 :: y :: rest) (Hs : Forall (fun c => c <> 0) s) (Hl : (length s <= 4000)%nat)
  (Hcount : forall d, 0 < vt_count d + alarm_ticks < 2 ^ 64) :
  exists b', kernel_init patience bm rp b = Ret (tt, b') /\
    (exists p x, root_started file entry phs s y (b_k b') p x) /\
    k_out (i_world (b_sys b')) = k_out (i_world (b_sys b)) ++ tree_text fs /\
    registry default_irq_handler (hook_map init_func_3) (b_sys b') /\
    (forall i, 0 <= i < gic_lines -> i < 1020 -> enabled (b_dev b') i = (i <? 16) || bool_decide (is_Some (hook_map init_func_3 !! i))) /\
    Z.land (ks_daif (b_k b')) 3 = 0 /\ b_sb b' = Some r /\
    (forall t, fires_at (b_dev b') t <-> (vt_count (b_dev b') + alarm_ticks) mod 2 ^ 32 <= t).
Proof.
  destruct (kernel_init_run patience Hgic Huart bm rp b b1 r fs file entry phs s y rest Hboot Hdisk Hmm Hroom Hlit Hs Hl Hcount)
    as (b' & p & x & E & Hroot & [[Hreg _ Hen] _ _] & Hdaif & Hsb & Hout & Hctl & Hcval).
  exists b'. split; [done|]. split; [by exists p, x|]. split_and!; [done..|]. intros t. unfold fires_at. rewrite Hctl, Hcval. tauto.
Qed.

(** Without a usable disk the kernel stops.  When the chip does not show the
    signature of its command set, or the image it holds does not start with
    the magic of a ram disk, [kernel_init] ends in [init_failed]; it does not
    go on to create a process. *)
Theorem kernel_init_no_disk `{GD : GicDevice} {UD : UartDevice} {FD : FlashDevice} {BD : Board} {VT : VirtualTimer} `{KE : KernEnv} `{IM : Image}
  (patience : nat) (Hgic : (settle < patience)%nat) (Huart : (line_settle < patience)%nat) (bm : list Z) (rp : list page) (b b1 : @boot MA) (e : Z)
  (Hboot : boot_ok bm rp b) (Hmm : init_mm bm rp b = Ret (tt, b1)) (Hroom : page_room (ss_pages (ks_slab (b_k b1))) 17 lim)
  (Hmode : fl_mode (b_dev b) = FArray) (Hinfo : forall w, 0 <= fl_info w < 256) (Hrd : RAMDISK_SIZE <= fl_len)
  (Hbad : info_QRY fl_info = false \/
    info_QRY fl_info = true /\ geometry_ok fl_info = true /\ e < 0 /\ ramdisk_init (ptov RAMDISK_BASE) (disk_of (b_dev b)) = Ret (e, None)) :
  kernel_init patience bm rp b = Halt.
Proof.
  destruct (early_devices patience Hgic Huart bm rp b b1 17 Hboot Hmm Hroom ltac:(lia)) as (c & -> & Dc & (Vm & Vb & _) & Mc & _).
  assert (fl_mode (b_dev c) = FArray) as Hm by congruence. assert (1024 <= fl_len) as Hsize by (unfold RAMDISK_SIZE in Hrd; lia).
  destruct Hbad as [Hq|(Hq & Hg & He & Hi)].
  - set (x := mkCfi (b_dev c) (geo_capacity (b_geo c)) (geo_eregnum (b_geo c)) (geo_eblksz (b_geo c)) (geo_pgsz (b_geo c))).
    pose proof (init_cfi_run x Hsize Hinfo Hm) as Hrun. rewrite Hq in Hrun. destruct Hrun as (x' & E & _).
    assert (exists c', on_cfi init_cfi c = Ret (-1, c')) as [c' E'] by (eexists; exact (zoom_run _ _ init_cfi c (-1) x' E)).
    by rewrite (M_bind_run _ _ _ _ _ E').
  - destruct (cfi_stage patience Hgic Huart (hook_map init_func_3) c) as (c1 & E1 & O1 & D1 & Hm1 & Hb1 & _); [by split_and!|done|done|]. rewrite (M_bind_run _ _ _ _ _ E1). cbn [Z.ltb Z.compare].
    assert (exists c2, init_ramdisk c1 = Ret (e, c2)) as [c2 E2]; [|rewrite (M_bind_run _ _ _ _ _ E2), (proj2 (Z.ltb_lt e 0)); done].
    rewrite Vb in Hb1. rewrite <- (disk_of_bytes (b_dev b) (b_dev c1) Hb1) in Hi. rewrite <- (so_k _ _ O1) in Mc. by eapply disk_fails.
Qed.

(** *** A machine that boots *)
Module BootDemo.
#[local] Existing Instance demo_env.
#[local] Instance link : Image := {|
  root_pool_addr := demo_root_pool; kernel_end := 0x40100000; kernel_page_table := 0x40080000;
  start_ut_call := ptov 0x40090000; stop_ut_call := ptov 0x40091000;
  init_func_3_start := ptov 0x40092000; init_func_3 := [call_console_irq_init; call_sched_timer_irq_init; call_ftrace_timer_irq_init];
  init_func_5_start := ptov 0x40093000; init_func_5 := [call_init_kobject_type; call_stdio_kobject_init];
  roots_elf := roots_path ++ [0; 0] |}.

(** The flash: super block, one inode, the program, and zeros. *)
Definition inode : bytes := roots_path ++ replicate 23 0 ++ le_enc 8 0 ++ le_enc 8 124.
Definition disk : bytes := RAMDISK_MAGIC ++ le_enc 4 1 ++ le_enc 4 0 ++ le_enc 8 48 ++ le_enc 8 96 ++ replicate 8 0 ++ inode ++ demo_elf.
Definition zeros : bytes := replicate (FlashDemo.LEN - length disk) 0.
Definition flash : FlashDemo.dev := FlashDemo.mkDev FArray (disk ++ zeros) 0.
Definition heads : list Z := (fun n => cpu_ready_list (n / 8) (n mod 8)) <$> seqZ 0 64.
Definition kernel : kstate :=
  set_cpus (replicate 8 (mkCpu 0 0 0 0 initlock)) (set_cbs (replicate 13 None)
    (set_lists (<[kobject_list stdio_kobj := mkHead 0 0]> (list_to_map ((fun a => (a, mkHead 0 0)) <$> heads)))
      (set_kobjs {[ stdio_kobj := raw_kobj 0 ]} (set_tables {[ ptov 0x40080000 := replicate 512 0 ]} (set_slab_ (slab_state0 page_sections0) kstate0))))).
Definition devs : BoardDemo.dev := BoardDemo.mkDev Demo.dev0 (mkPl 0 0 0 0 (1, 0) [] [] 0 0) (TimerDemo.mkDev 1000 0 0) flash.
Definition reset : @boot BoardDemo.machine :=
  mkBoot kernel (irq_tables_init default_irq_handler (@mkGic BoardDemo.machine devs 0 [] []) (mkClock 0 0 0 (replicate (Z.to_nat 4096) 0) [])) uart0 initlock (mkVspace 0 0) (mkGeo 0 0 0 0) None.
Definition ram_bitmap : list Z := replicate 256 0.
Definition ram_pages : list page := replicate (Z.to_nat 16384) (mkPage 0 0).

Definition room_at (s : page_state) (pos n lim : Z) : bool :=
  match s with
  | ps :: _ => (0 <=? pos) && (pos + n <? section_bits ps) && forallb (fun k => negb (bm_bit (ps_bitmap ps) k)) (seqZ pos n) && (ptov (pa_base ps) + (pos + n) * 4096 <=? lim)
  | [] => false
  end.
Lemma room_at_ok s pos n lim : room_at s pos n lim = true -> page_room s n lim.
Proof.
  destruct s as [|ps s]; [done|]. cbn [room_at]. rewrite !andb_true_iff. intros (((H1 & H2) & H3) & H4). exists ps, pos. split; [done|]. split; [|lia].
  split; [lia|]. split; [lia|]. intros k Hk. rewrite forallb_forall in H3. apply negb_true_iff, H3, list_elem_of_In, elem_of_seqZ. lia.
Qed.

Definition with_room (o : outcome (() * @boot BoardDemo.machine)) (n : Z) : bool :=
  match o with Ret (_, b1) => room_at (ss_pages (ks_slab (b_k b1))) 8 n lim | _ => false end.
Lemma with_room_ok o n : with_room o n = true -> exists b1, o = Ret (tt, b1) /\ page_room (ss_pages (ks_slab (b_k b1))) n lim.
Proof. destruct o as [[[] b1]| | |]; try done. intros H. exists b1. split; [done|]. by apply (room_at_ok _ 8). Qed.
Lemma mm_runs : exists b1, init_mm ram_bitmap ram_pages reset = Ret (tt, b1) /\ page_room (ss_pages (ks_slab (b_k b1))) (boot_pages_need demo_phs) lim.
Proof. apply with_room_ok. vm_compute. reflexivity. Qed.

(** The pages of the allocator lie behind the kernel. *)
Lemma arena_from x : boot_arena x -> 0xffff000040100000 <= x.
Proof. intros [H _]. assert (ptov boot_base = 0xffff000040141000) as E by (vm_compute; reflexivity). rewrite E in H. lia. Qed.
Lemma image_fits : image_ok (ks_tables (b_k reset)).
Proof.
  split.
  - cbn. lia.
  - split_and!; try (vm_compute; discriminate); intros H%arena_from; vm_compute in H; by apply H.
  - intros a [es Hes]. change (({[ ptov 0x40080000 := replicate 512 0 ]} : tables) !! a = Some es) in Hes. apply lookup_singleton_Some in Hes as [<- _].
    split; [split; [reflexivity|split; [vm_compute; discriminate|reflexivity]]|]. split; [intros H%arena_from; vm_compute in H; by apply H|left; vm_compute; discriminate].
Qed.
Lemma head_lists : heads_there (ks_lists (b_k reset)).
Proof.
  assert (forallb (fun n => bool_decide (is_Some (ks_lists kernel !! cpu_ready_list (n / 8) (n mod 8)))) (seqZ 0 64) = true) as H by (vm_compute; reflexivity).
  intros i j Hi Hj. rewrite forallb_forall in H. specialize (H (j + i * 8)). rewrite Z.div_add, Z_mod_plus_full, Z.div_small, Z.mod_small in H by lia.
  rewrite Z.add_0_l in H. assert (In (j + i * 8) (seqZ 0 64)) as Hin by (apply list_elem_of_In, elem_of_seqZ; lia).
  exact (bool_decide_eq_true_1 _ (H Hin)).
Qed.
Lemma boots_from_reset : boot_ok ram_bitmap ram_pages reset.
Proof.
  split.
  - exact image_fits.
  - split; [reflexivity|]. split; [reflexivity|]. split; [vm_compute; reflexivity|]. apply Forall_replicate. reflexivity.
  - split.
    + intros i j Hi Hj. unfold cpu_ready_list, sizeof_cpu, kobject_list. cbn [cpus stdio_kobj demo_env]. split; [intros H%arena_from; lia|lia].
    + split; [discriminate|]. intros H%arena_from. cbn in H. lia.
    + intros a. cbn. split; [reflexivity|lia].
  - split; [exact head_lists|reflexivity].
  - exists (raw_kobj 0), (mkHead 0 0). split; [reflexivity|]. split; [cbn; lia|]. apply lookup_insert_eq.
  - reflexivity.
  - apply registry_init.
  - vm_compute. reflexivity.
  - split; [constructor|vm_compute; reflexivity].
Qed.
Lemma disk_bytes : disk_of (FD := BoardDemo.flash_device) (b_dev reset) = disk ++ zeros.
Proof.
  pose proof FlashDemo.LEN_Z as HL. assert (length disk = 220%nat) as Hd by (vm_compute; reflexivity).
  assert (length (disk ++ zeros) = FlashDemo.LEN) as Hl by (rewrite length_app; unfold zeros; rewrite length_replicate; lia).
  unfold disk_of. transitivity (take (Z.to_nat RAMDISK_SIZE) (FlashDemo.norm (disk ++ zeros))); [reflexivity|].
  rewrite FlashDemo.norm_id; [apply take_ge; unfold RAMDISK_SIZE; lia|exact Hl|].
  apply Forall_app. split; [|apply Forall_replicate; unfold is_byte; lia].
  assert (forallb (fun x => (0 <=? x) && (x <? 256)) disk = true) as Hb by (vm_compute; reflexivity).
  apply Forall_forall. intros x Hx. rewrite forallb_forall in Hb. specialize (Hb x (proj1 (list_elem_of_In _ _) Hx)). unfold is_byte. lia.
Qed.
Definition files : list (bytes * Z) := [(roots_path, 124)].
(** Whatever is behind the program. *)
Lemma disk_init zs : ramdisk_init (ptov RAMDISK_BASE) (disk ++ zs) = Ret (0, Some (mkRd 48 1 96)).
Proof. vm_compute. reflexivity. Qed.
Lemma disk_names zs : lists (disk ++ zs) 48 files.
Proof. split; [|exact I]. split; [vm_compute; reflexivity|]. split; [discriminate|vm_compute; reflexivity]. Qed.
Lemma disk_program zs : on_ramdisk (disk ++ zs) (mkRd 48 1 96) roots_path demo_elf 48.
Proof.
  split; [vm_compute; reflexivity|split; vm_compute; reflexivity|].
  exists 96. split; [vm_compute; reflexivity|]. split; [lia|]. intros j c Hj.
  assert (disk = take 96 disk ++ demo_elf) as -> by (vm_compute; reflexivity). assert (length (take 96 disk) = 96%nat) as Hl by (vm_compute; reflexivity).
  rewrite <- app_assoc, lookup_app_r by lia. apply lookup_app_l_Some. rewrite <- Hj. f_equal. lia.
Qed.
Lemma disk_loads : disk_ok (FD := BoardDemo.flash_device) (b_dev reset) (mkRd 48 1 96) files demo_elf 0x400ffe demo_phs.
Proof.
  split.
  - split; [|reflexivity]. split; [vm_compute; discriminate|]. split; [|split; vm_compute; reflexivity].
    intros w. cbn [fl_info BoardDemo.flash_device]. unfold FlashDemo.info. repeat (case_match; [lia|]). lia.
  - vm_compute. discriminate.
  - rewrite disk_bytes. apply disk_init.
  - split; [vm_compute; reflexivity|]. rewrite disk_bytes. apply disk_names.
  - exists 48. rewrite disk_bytes. apply disk_program.
  - exact demo_elf_ok.
Qed.
End BootDemo.

Lemma kernel_init_boots_witness :
  exists b', kernel_init (MA := BoardDemo.machine) (KE := demo_env) (IM := BootDemo.link) 2 BootDemo.ram_bitmap BootDemo.ram_pages BootDemo.reset = Ret (tt, b') /\
    (exists p x, root_started (KE := demo_env) demo_elf 0x400ffe demo_phs roots_path 0 (b_k b') p x) /\
    k_out (i_world (b_sys b')) = tree_text BootDemo.files /\
    enabled (b_dev b') 33 = true /\ enabled (b_dev b') 34 = false /\ Z.land (ks_daif (b_k b')) 3 = 0.
Proof.
  destruct BootDemo.mm_runs as (b1 & Hmm & Hroom).
  destruct (@kernel_init_boots BoardDemo.machine BoardDemo.gic_device BoardDemo.uart_device BoardDemo.flash_device BoardDemo.board BoardDemo.timer_device demo_env BootDemo.link
    2 (le_n 2) (le_n 2) BootDemo.ram_bitmap BootDemo.ram_pages BootDemo.reset b1 (mkRd 48 1 96) BootDemo.files demo_elf 0x400ffe demo_phs roots_path [] 0
    BootDemo.boots_from_reset BootDemo.disk_loads Hmm Hroom) as (b' & E & Hroot & Hout & _ & Hen & Hd & _).
  - reflexivity.
  - repeat constructor; discriminate.
  - cbn. lia.
  - intros d. cbn [vt_count BoardDemo.timer_device]. pose proof (Z.mod_pos_bound (TimerDemo.count (BoardDemo.d_timer d)) (2 ^ 32)).
    assert (@alarm_ticks BoardDemo.machine BoardDemo.flash_device BoardDemo.board = 31250000) as -> by (vm_compute; reflexivity). lia.
  - exists b'. split; [exact E|]. split; [exact Hroot|]. split; [exact Hout|]. split; [rewrite Hen; [reflexivity|split; [discriminate|reflexivity]|reflexivity]|].
    split; [rewrite Hen; [reflexivity|split; [discriminate|reflexivity]|reflexivity]|exact Hd].
Defined.
